(* ===== verification/_CoqProject ===== *)
-Q . S2P
Prelude.v
QdfTypes.v
QdfParse.v
SmEngine.v
VdevMlme.v
VdevSm.v
VdevSmInv.v
VdevSmSpec.v
Cfg.v
Ser.v
SerBase.v
SerInv.v
SerStep.v
SerRun.v
SerSafe.v
SerSpec.v
Obj.v
ObjInv.v
ObjLink.v
ObjRun.v
ObjFree.v
ObjPeer.v
ObjStep.v
ObjCreate.v
ObjFind.v
ObjLook.v
ObjComp.v
ObjSafe.v
ObjSpec.v
ItemPool.v
FlexMem.v
QdfOs.v
Sched.v
SchedInv.v
SchedStep.v
SchedSpec.v
Ie.v
Crypto.v
CryptoIe.v
CryptoRsn.v
CryptoSpec.v
CryptoWpa.v
CryptoMatch.v
Pmksa.v
PmksaInv.v
PmksaSpec.v
Nol.v
NolInv.v
NolRun.v
NolFree.v
NolAdd.v
NolOps.v
NolStep.v
NolSettle.v
NolSpec.v
