(* ===== verification/Prelude.v ===== *)
(** * Verified model of the common WLAN host driver (qca-wifi-host-cmn)

    The program is the operating-system and chip independent part of a WLAN
    driver: a portability layer (qdf/), the configuration component (cfg/), the
    upper MAC (umac/: object manager, state machines, command serialization, scan,
    crypto, DFS, ...), and below it the data path (dp/, hal/), the firmware
    interface (wmi/, target_if/) and the bus (hif/, htc/).  The development models
    the parts that carry state and rules of their own and can be read without the
    chip: the text and ini parsers of qdf/, the configuration stores of cfg/, the
    VDEV state machine of umac/mlme on top of the generic engine of
    umac/cmn_services/sm_engine, the command serialization of
    umac/cmn_services/serialization, the object manager of
    umac/cmn_services/obj_mgr, the scheduler of scheduler/ with the memory pools,
    events and timers of qdf/ that it is built on, and of umac/cmn_services/crypto the
    security parameters, the elements that carry them in frames, and the PMKSA cache; and of
    umac/dfs the list of the channels that must not be used since radar was seen on them.

    ** How the parts interact

    [cfg_parse] loads an ini file into a store: [qdf_ini_parse] (QdfParse) cuts the
    file into lines and calls the item handler of cfg.c for each item (Cfg), which
    reads the value with one of the parsers of qdf_types.c (QdfTypes).  A VDEV's
    machine (VdevSm) is a table of callbacks given to the engine (SmEngine); its
    callbacks call back into the engine ([wlan_sm_transition_to],
    [wlan_sm_dispatch]) and out to the driver through a table of operations
    (VdevMlme), which may deliver further events to the machine before they return.
    What the machines ask of the firmware goes through the serialization queues (Ser):
    a request is put in the active or the pending queue of its pdev and VDEV, an
    active command's owner is called to start it, its removal or its timer ends it
    and makes room for pending ones, and the callbacks may call the component again.
    The objects themselves, psoc, pdev, VDEV and peer, are those of the object manager
    (Obj): the components attach their own objects to them when they are created,
    find them by id or address, and hold references on them while they use them.  Obj
    models the objects as the manager sees them; Cfg, VdevSm and Ser keep the few
    fields of an object they use in their own state.
    Work is handed over between threads through the scheduler (Sched): a message is
    copied into an item of a flexible memory pool (FlexMem, through the interface of
    ItemPool), put in the queue of its module, and taken from there by the scheduler's
    thread, which gives it to the module's handler; a timer that goes off (QdfOs) becomes
    a message of the timer queue.
    The security of a VDEV is in its crypto parameters (Crypto).  They are announced in
    the RSN, WPA or WAPI element the VDEV sends (CryptoIe), with the identifier of a key
    kept from an earlier association (Pmksa); what a peer announces is found in its frame
    by the walk over elements (Ie), read into parameters of the peer, and compared.
    A channel with radar is put on the non-occupancy list (Nol) and marked in the
    regulatory component, where the choice of channels finds it; a timer of the list takes
    it off again.

    ** Files

    - [Prelude] (this file): QDF_STATUS (qdf/inc/qdf_status.h), machine integers,
      C strings, the results of fallible routines, and the state monad [M] with its
      weakest preconditions [wp] and the database [wp].
    - [QdfTypes]: qdf/src/qdf_types.c.  [Module Parse] has one definition per
      parser, on a cursor into a string; each [for]/[while] loop is a [Fixpoint] on
      the iterations left.  Specifications are grammars ([int_literal],
      [ipv4_literal], ...).  Theorems: the 32-bit, boolean, MAC and IPv4 parsers
      accept exactly their grammar with the value it denotes; the 64-bit, array and
      IPv6 parsers read all of it; failures leave the out parameter alone; two
      inputs that the code accepts and should not.
    - [QdfParse]: qdf/src/qdf_parse.c, qdf_str.c and qdf_file_read, on a mutable
      buffer with cursors ([Module IniParse]).  Specification: what the lines of the
      text mean ([line_entry], [run_lines]).  Theorems: the buffer parser terminates
      and runs exactly those callbacks; written files are read back.
    - [Cfg]: cfg/src/cfg.c.  A store is the record [cfg_value_store]; [cfg_world] is
      the component's memory and static variables, with addresses; every function of
      the file but the two that print the values is a definition on it, and the list
      and psoc slot operations it calls are translated from qdf_list.c and
      wlan_objmgr_psoc_obj.c.  Theorems: what integer items store; the last
      acceptable line wins; reference counts are exact, nothing is read after it is
      freed and nothing leaks, over all sequences of entry points the callers may
      make; what parsing a psoc's own file changes.
    - [SmEngine]: wlan_sm_engine.c and wlan_sm_engine_dbg.c.  [wlan_sm] is the C
      structure, [world] holds a handle on it, the assertions raised and the client's
      context; callbacks are programs on the world.  Theorems: creation accepts
      exactly the well-formed tables and its loop detection terminates; a transition
      runs the exits and entries of the hierarchy in order; the history ring keeps
      the last 50 records; an invalid transition wedges the machine.
    - [VdevMlme]: the states and events (wlan_vdev_mlme_main.h), the operation table
      (wlan_vdev_mlme.h), its wrappers (vdev_mlme_sm.h) and the state predicates of
      wlan_vdev_mlme_api.c.  What a driver's operation does is a [script]: any
      program that looks at the VDEV, changes its own state and delivers events.
    - [VdevSm]: vdev_mlme_sm.c, one definition per entry, exit and event callback,
      the table [sm_info], creation, destruction and event delivery.
    - [VdevSmInv]: the invariant of a VDEV's machine for operations that may deliver
      events to it again (all but the few whose answer the handlers act on,
      [guards_quiet]): the published state agrees with the machine, transitions
      follow the state graph, no table is read out of its bounds.
    - [VdevSmSpec]: the abstract machine, one [plan] per state and event, the
      refinement of the code to it, and the way back to INIT from every state.
    - [Ser]: wlan_serialization_{utils,queue,scan,non_scan,internal,api,main,rules}.c,
      one definition per function, most by the C name; the loops of the cancel and
      move routines are [Fixpoint]s on the [qsize] the code counts down.  [ser_world]
      is the memory of a psoc: the command buffers by address, the queues of pdevs and
      VDEVs as lists of addresses, the timers, the references held on VDEVs and a
      [trace] of the queue changes and callbacks.  What a client's callback does is a
      [script].
    - [SerBase]: the invariant [inv] of the queues and what the primitive operations
      return.  [SerInv], [SerStep]: each step on the queues keeps it.  [SerRun]: each
      routine keeps it, with [answer] saying what a request is answered.  [SerSafe]:
      the component from its creation on, and [reachable].
    - [SerSpec]: the promises of the component in every reachable state: one active
      non-scan command per VDEV, accepted commands are released once, buffers and
      timers are accounted for, nothing invalid is accessed, calls return; and three
      behaviours where the code leaves commands waiting that nothing blocks.

    - [Obj]: wlan_objmgr_{global,psoc,pdev,vdev,peer}_obj.c, one definition per
      function by the C name; what the four kinds of object share (references,
      component slots, the loops over the handlers) is written once on their common
      header.  [objmgr_world] is the memory: objects by address, what is freed is
      removed and reading it is a crash.  [objmgr_env] is what is outside: the
      components' handlers and whether an allocation succeeds.
    - [ObjInv]: the invariant [inv] of a world, with the objects their owners have not
      deleted, the references the clients hold (a [ledger]), and what an object without
      references waits for ([settled]); [ObjLink]: adding and
      removing an object keep it.  [ObjRun]: running handlers and giving back a
      reference; [ObjFree], [ObjPeer]: releases and frees with their cascades upwards;
      [ObjStep], [ObjCreate], [ObjFind], [ObjLook]: the other operations, one by one.
    - [ObjComp]: which handlers a creation and a destruction call, what each of them leaves
      of its component's status and private object ([part_left]), and what the statuses
      make of the object.
    - [ObjSafe]: the operations of clients ([obj_op], [run_op]), what a client must
      see to ([legal]), and the worlds their histories reach ([reachable]).
    - [ObjSpec]: the promises of the manager in every reachable world: operations run
      to their end without an access to freed memory, references are exact, what is
      held is in memory, tables and counters agree with the objects, lookups give
      created objects, nothing is leaked; and a use after free outside [legal].

    - [ItemPool]: the interface of a pool of equal items, a class of operations and a
      class of their laws, against which the scheduler's theorems are proved.
    - [FlexMem]: qdf/src/qdf_flex_mem.c and its header; the instances of ItemPool's
      classes.  Theorem: exactly the items held are marked, none is given out twice, none
      overlaps another.
    - [QdfOs]: [Module Event], qdf/linux/src/qdf_event.c; [Module McTimer],
      qdf/linux/src/qdf_mc_timer.c.  Theorem: the count of timers that keep the system
      awake is exact; and what goes wrong when a timer goes off while it is stopped.
    - [Sched]: scheduler_core.c and scheduler_api.c, one definition per function.
      [sched_world] is the static memory, the pool, the messages by address, the point
      at which the thread is ([thread_pc]) and a [trace] of what can be observed.  The
      thread's loop is cut into [scheduler_thread_step]s at the points where other
      threads may run; [scheduler_disable], which waits, is in two parts.  What clients'
      callbacks do is a [script] of calls.
    - [SchedInv]: the abstract scheduler ([spec_run], which reads the trace), the rules
      for callers ([legal_client]) and the invariant [sched_inv]; the functions of the
      interface keep it.  [SchedStep]: the thread's steps, flushing and the life cycle
      keep it.
    - [SchedSpec]: the promises in every reachable world: every step runs to its end,
      the queues refine the abstract ones, messages are accounted for, what posting
      answers, which function a message is given to, the queues are emptied, disabling
      ends; and what deregistering modules out of order does to other modules' messages.

    - [Ie]: wlan_utility.c, the walk over information elements and the conversions of
      channels.  A pointer is the list of the bytes that may be read from it.  Theorems:
      the walk keeps to the elements and finds the first; channels survive the conversion;
      vendor elements shorter than an OUI match with bytes behind them.
    - [Crypto]: the definitions of wlan_crypto_global_def.h and wlan_crypto_def_i.h, the
      setters and getters of wlan_crypto_param_handling.c, and of wlan_crypto_global_api.c
      their callers, the tests and the tables of suites.  Theorems: what setting ciphers
      keeps; the tables are inverse to each other; comparisons that never hold.
    - [CryptoIe]: the readers and writers of the three elements, and matching
      (wlan_crypto_global_api.c), a reader cut into one definition per field. [CryptoRsn]:
      the layout of an RSN element ([rsn_element]) and its meaning ([rsn_params]); the
      reader accepts exactly what has a layout.  [CryptoSpec]: what is written fits a
      buffer of 136 bytes and is read back.  [CryptoWpa]: the same for WPA, and WAPI.
      [CryptoMatch]: what a match means, and that a VDEV matches itself.
    - [Pmksa]: the cache of PMKs, slots that point to entries in memory.  [PmksaInv]: each
      operation on slots against its counterpart on values.  [PmksaSpec]: histories of
      clients refine the cache of values; what was set is found; outdated entries.

    - [Nol]: umac/dfs/core/src/misc/dfs_nol.c (with CONFIG_CHAN_FREQ_API) and what puts
      channels on the list (dfs_process_radar_found_ind.c) and looks for them
      (dfs_random_chan_sel.c).  [nol_world] is the elements by address, the list that
      [nol_next] links, the list of what is to be freed, the clock, the handlers that run,
      and the marks of the regulatory component.
    - [NolInv]: linked lists, what each walk does to them, and the invariant [nol_inv];
      [kept], a channel that stays.  [NolRun]: the parts of a timer's handler.  [NolFree]:
      freeing and its loops.  [NolAdd]: putting a channel on the list.  [NolOps]: radar,
      setting the list, the copy over a restart.  [NolStep]: timers that go off, and every
      call ([run_nol]).  [NolSettle]: due timers and running handlers.
    - [NolSpec]: histories of calls are safe and leave nothing behind; a channel stays for
      its period, and not longer; the list survives a restart; and a race with a timer's
      handler that ends a new period at its start.

    ** Fuel

    The engine and the VDEV callbacks call each other; [engine] ties the knot with a
    bound on the nesting, and a chain of states is followed for at most
    [chain_fuel] = 257 steps, one more than there are values of a [uint8_t]; on valid
    tables the paths are shorter, which [wlan_sm_transition_to_runs] uses.  The
    safety theorems of VdevSmInv hold for every bound; the refinement theorem shows
    that with operations that deliver no events of their own a nesting of 6 always
    returns.  The ini parser's loops have the length of the buffer, and the parser is
    proved to return within it.

    Activations and removals of serialization call each other through the clients;
    [Ser.engine] bounds the nesting.  Its safety theorems hold for every bound, and
    [serialization_returns] shows that [deep], two more than a queue's pending
    commands, is enough when callbacks do not call the component.

    Freeing a peer gives back its reference on the BSS peer of its VDEV, which may free
    that one: [bss_depth] = 2 levels, which [objmgr_safe] shows to be enough, since a
    BSS peer holds no reference on another peer.

    The scheduler's loops need no bound of their own: the thread's is cut into steps, and
    flushing a queue is given one round more than the queue has messages, which
    [sched_safe] shows to be enough, since nothing can be posted while there is no
    thread.

    The walks over elements are given one round per byte of the length, of which each
    takes two or more; [get_ie_ptr_exact] has the result for every length.

    The loops over the non-occupancy list are given one round more than there are elements
    in memory; [nol_safe] shows that they end within it.

    ** What is not modelled

    Locks: the modelled routines run under the locks their callers take, and the
    model is sequential.  Log output, except that the table reads made to print are
    kept where they can go wrong.  Allocation is an answer of the environment.
    CFG_ALL, the table of configuration items, is declared outside the repository and
    is a parameter of Cfg with the hypothesis that names and fields are distinct; a
    default may be outside its item's range, as some of wlan_cfg/cfg_dp.h are
    ([default_outside_its_range]).  request_firmware is a function from paths to contents.

    Of the VDEV's machine: its lock, which [wlan_vdev_mlme_sm_deliver_evt] takes and its
    variant for callers that have it does not; the theorems are about VDEVs that have their
    component object, without which both answer a failure ([with_cmpt_obj]).

    Of serialization: the destruction of psoc and pdev objects, the lookups that hand
    out pointers to a queued command, and the legacy entry points.  The VDEVs of a
    pdev are all attached when it is created ([covers]; which of them the object
    manager counts as created may change at any time), the limits of the object
    manager and the scan module are hypotheses ([env_ok]), and callbacks told to
    cancel or release a command are assumed not to call the component
    ([release_quiet]), while those that activate it or report its timeout may.  The code
    needs the assumption: a walk that cancels commands goes on from a node it remembers
    ([cancel_reentry_walks_out]).

    Of the object manager: iteration in any state, without references or from a pdev,
    printing, the leak detector (wlan_objmgr_debug.c) and the build that traces
    references.  Handlers that are called while an object is created or destroyed attach
    or detach their own part and answer; that they call other functions of the manager is
    not modelled.  A BSS peer is set once, psocs are deleted after their VDEVs, and a BSS
    peer after the temporary peers that need it ([legal]); what happens otherwise is among
    the findings.  That nothing is leaked is shown for destroy handlers that do not fail
    ([destroys_ok]); a component that answers later is waited for unless it still has its
    private object when asked ([late_psoc_not_awaited], a finding).  Iteration over the objects
    of a psoc and the deletion of all of them are definitions without theorems.

    Of the scheduler: that a function of the interface is interleaved with the thread in
    the middle; each is one step, so that a post that overlaps with the end of
    [scheduler_disable] is not seen.  The watchdog timer may go off while a message is
    handled, and is not a clock.  Of the timers: the lists of the debug build; of the
    events: waits with a timeout.

    Of crypto: the key tables and what sets keys, the encapsulation and decapsulation of
    frames and the ciphers, MIC elements, FILS, and hosts that are big-endian.  The
    parameters are read and written under no lock.  A writer's buffer has the size its
    caller gave it ([write_element]); the writers are not told the size.  A client of the
    PMKSA cache passes entries it has allocated, and leaves to the cache those it took
    ([perform]).  Of wlan_utility.c: the helpers that iterate over the VDEVs of a pdev.

    Of DFS: everything but the non-occupancy list.  Of the list: printing it, its history
    for stations, the copy handed to the platform, and the unused timer [dfs_nol_timer].
    Which channels need radar detection is an answer of the regulatory component, that they
    are at most 25 with numbers of 16 bits is a hypothesis ([nol_env]); the clock is the
    boot time, and a timer goes off at its time or later.  The list is saved only when no
    period on it is over and the copy has room ([legal]); the code tests neither.

    ** Plan

    Modelled in this order: the parsers and the VDEV machine, as the parts with the most
    logic, with cfg/ joining the parsers to the object life cycle; the command
    serialization queues; the object manager; the scheduler with its pools, events and
    timers; the security elements and the PMKSA cache; the non-occupancy list.  Candidates
    for more: the key tables of crypto/, the credits of htc/, the availability checks of
    dfs/, the iteration over objects. *)
From stdpp Require Export base numbers list gmap strings.
From Stdlib Require Export ZArith Lia.

#[global] Open Scope Z_scope.

(** * Status codes (qdf/inc/qdf_status.h) *)

Inductive QDF_STATUS : Type :=
  | QDF_STATUS_SUCCESS
  | QDF_STATUS_E_RESOURCES
  | QDF_STATUS_E_NOMEM
  | QDF_STATUS_E_AGAIN
  | QDF_STATUS_E_INVAL
  | QDF_STATUS_E_FAULT
  | QDF_STATUS_E_ALREADY
  | QDF_STATUS_E_BADMSG
  | QDF_STATUS_E_BUSY
  | QDF_STATUS_E_CANCELED
  | QDF_STATUS_E_ABORTED
  | QDF_STATUS_E_NOSUPPORT
  | QDF_STATUS_E_PERM
  | QDF_STATUS_E_EMPTY
  | QDF_STATUS_E_EXISTS
  | QDF_STATUS_E_TIMEOUT
  | QDF_STATUS_E_FAILURE
  | QDF_STATUS_E_NOENT
  | QDF_STATUS_E_E2BIG
  | QDF_STATUS_E_NOSPC
  | QDF_STATUS_E_ADDRNOTAVAIL
  | QDF_STATUS_E_ENXIO
  | QDF_STATUS_E_NETDOWN
  | QDF_STATUS_E_IO
  | QDF_STATUS_E_PENDING
  | QDF_STATUS_E_NETRESET
  | QDF_STATUS_E_SIG
  | QDF_STATUS_E_PROTO
  | QDF_STATUS_NOT_INITIALIZED
  | QDF_STATUS_E_NULL_VALUE
  | QDF_STATUS_PMC_PENDING
  | QDF_STATUS_PMC_DISABLED
  | QDF_STATUS_PMC_NOT_NOW
  | QDF_STATUS_PMC_AC_POWER
  | QDF_STATUS_PMC_SYS_ERROR
  | QDF_STATUS_HEARTBEAT_TMOUT
  | QDF_STATUS_NTH_BEACON_DELIVERY
  | QDF_STATUS_CSR_WRONG_STATE
  | QDF_STATUS_FT_PREAUTH_KEY_SUCCESS
  | QDF_STATUS_FT_PREAUTH_KEY_FAILED
  | QDF_STATUS_CMD_NOT_QUEUED
  | QDF_STATUS_FW_MSG_TIMEDOUT
  | QDF_STATUS_E_USB_ERROR
  | QDF_STATUS_MAXCOMP_FAIL
  | QDF_STATUS_COMP_DISABLED
  | QDF_STATUS_COMP_ASYNC
  | QDF_STATUS_CRYPTO_PN_ERROR
  | QDF_STATUS_CRYPTO_MIC_FAILURE
  | QDF_STATUS_CRYPTO_ENCRYPT_FAILED
  | QDF_STATUS_CRYPTO_DECRYPT_FAILED
  | QDF_STATUS_E_DEFRAG_ERROR
  | QDF_STATUS_E_RANGE
  | QDF_STATUS_E_GRO_DROP
  | QDF_STATUS_MAX.

#[export] Instance QDF_STATUS_eq_dec : EqDecision QDF_STATUS.
Proof. solve_decision. Defined.

Definition QDF_IS_STATUS_SUCCESS (status : QDF_STATUS) : bool :=
  match status with QDF_STATUS_SUCCESS => true | _ => false end.

Definition QDF_IS_STATUS_ERROR (status : QDF_STATUS) : bool :=
  negb (QDF_IS_STATUS_SUCCESS status).

(** * Machine integers

    An unsigned w-bit integer is a [Z] in [0, 2^w); [wrap w] is the conversion
    to it.  A signed one is a [Z] in [-2^(w-1), 2^(w-1)); [swrap w] is the
    (two's complement) conversion to it. *)

Definition wrap (w z : Z) : Z := z mod 2 ^ w.
Definition swrap (w z : Z) : Z := (z + 2 ^ (w - 1)) mod 2 ^ w - 2 ^ (w - 1).

Definition in_u (w z : Z) : Prop := 0 <= z < 2 ^ w.
Definition in_s (w z : Z) : Prop := - 2 ^ (w - 1) <= z < 2 ^ (w - 1).

Lemma wrap_small w z : in_u w z -> wrap w z = z.
Proof. apply Z.mod_small. Qed.

Lemma wrap_range w z : 0 <= w -> in_u w (wrap w z).
Proof. intros Hw. apply Z.mod_pos_bound. lia. Qed.

Lemma wrap_idem w z : wrap w (wrap w z) = wrap w z.
Proof. apply Zmod_mod. Qed.

Lemma swrap_small w z : 0 < w -> in_s w z -> swrap w z = z.
Proof.
  intros Hw Hz. unfold swrap, in_s in *.
  assert (2 ^ w = 2 * 2 ^ (w - 1)) as Hp.
  { rewrite <- Z.pow_succ_r by lia. f_equal. lia. }
  rewrite Z.mod_small; lia.
Qed.

Lemma swrap_range w z : 0 < w -> in_s w (swrap w z).
Proof.
  intros Hw. unfold swrap, in_s.
  assert (2 ^ w = 2 * 2 ^ (w - 1)) as Hp.
  { rewrite <- Z.pow_succ_r by lia. f_equal. lia. }
  pose proof (Z.mod_pos_bound (z + 2 ^ (w - 1)) (2 ^ w) ltac:(lia)). lia.
Qed.

Lemma swrap_wrap w z : swrap w (wrap w z) = swrap w z.
Proof. unfold swrap, wrap. by rewrite Zplus_mod_idemp_l. Qed.

(** The signed reading of an unsigned pattern, and unsigned negation. *)
Lemma swrap_of_u w z :
  0 < w -> in_u w z -> swrap w z = if z <? 2 ^ (w - 1) then z else z - 2 ^ w.
Proof.
  intros Hw Hz. unfold swrap, in_u in *.
  assert (2 ^ w = 2 * 2 ^ (w - 1)) as Hp.
  { rewrite <- Z.pow_succ_r by lia. f_equal. lia. }
  destruct (Z.ltb_spec z (2 ^ (w - 1))).
  - rewrite Z.mod_small; lia.
  - rewrite <- (Z.mod_unique (z + 2 ^ (w - 1)) (2 ^ w) 1 (z - 2 ^ (w - 1))); lia.
Qed.

Lemma wrap_opp w z :
  0 <= w -> in_u w z -> wrap w (- z) = if z =? 0 then 0 else 2 ^ w - z.
Proof.
  intros Hw Hz. unfold wrap, in_u in *. destruct (Z.eqb_spec z 0) as [->|].
  - apply Z.mod_0_l. lia.
  - symmetry. apply (Z.mod_unique _ _ (-1)); lia.
Qed.

(** A value survives a narrowing cast unchanged exactly when it is in range. *)
Lemma wrap_eq_iff w z : 0 <= w -> wrap w z = z <-> in_u w z.
Proof.
  intros Hw. split; [|apply wrap_small].
  intros <-. by apply wrap_range.
Qed.

Lemma swrap_eq_iff w z : 0 < w -> swrap w z = z <-> in_s w z.
Proof.
  intros Hw. split; [|by apply swrap_small].
  intros <-. by apply swrap_range.
Qed.

(** Packing a low field under a shifted high one. *)
Lemma lor_shiftl_add hi lo k :
  0 <= k -> 0 <= lo < 2 ^ k -> Z.lor (Z.shiftl hi k) lo = hi * 2 ^ k + lo.
Proof.
  intros Hk Hlo. rewrite <- Z.shiftl_mul_pow2 by done.
  pose proof (Z.add_lor_land (Z.shiftl hi k) lo) as H.
  enough (Z.land (Z.shiftl hi k) lo = 0) by lia.
  apply Z.bits_inj'. intros n Hn. rewrite Z.land_spec, Z.bits_0.
  destruct (Z_lt_ge_dec n k).
  - by rewrite Z.shiftl_spec_low by lia.
  - rewrite <- (Z.mod_small lo (2 ^ k)), Z.mod_pow2_bits_high by lia.
    by rewrite andb_false_r.
Qed.

(** Computes the powers of two that bound the integer types, so [lia] can
    use the bounds. *)
Ltac int_bounds :=
  unfold in_u, in_s in *; simpl Z.pow in *; simpl Z.sub in *.

(** * C strings

    A [const char *] is the list of the bytes before its terminator; reading
    [( *s)[i]] yields 0 from the terminator on.  Advancing the pointer is
    taking the tail. *)

Abbreviation cstr := (list Z) (only parsing).

Definition c0 (s : cstr) : Z := nth 0 s 0.
Definition c1 (s : cstr) : Z := nth 1 s 0.

(** The bytes of a string literal. *)
Definition lit (s : string) : cstr :=
  map (fun a => Z.of_N (Ascii.N_of_ascii a)) (String.list_ascii_of_string s).

(** A well-formed C string holds no terminator inside and only bytes. *)
Definition cstr_ok (s : cstr) : Prop := Forall (fun c => 0 < c < 256) s.

Abbreviation ch_nul := 0 (only parsing).
Abbreviation ch_lf := 10 (only parsing).
Abbreviation ch_cr := 13 (only parsing).
Abbreviation ch_space := 32 (only parsing).
Abbreviation ch_hash := 35 (only parsing).
Abbreviation ch_plus := 43 (only parsing).
Abbreviation ch_comma := 44 (only parsing).
Abbreviation ch_minus := 45 (only parsing).
Abbreviation ch_dot := 46 (only parsing).
Abbreviation ch_0 := 48 (only parsing).
Abbreviation ch_1 := 49 (only parsing).
Abbreviation ch_9 := 57 (only parsing).
Abbreviation ch_colon := 58 (only parsing).
Abbreviation ch_eq := 61 (only parsing).
Abbreviation ch_A := 65 (only parsing).
Abbreviation ch_F := 70 (only parsing).
Abbreviation ch_N := 78 (only parsing).
Abbreviation ch_Y := 89 (only parsing).
Abbreviation ch_lbracket := 91 (only parsing).
Abbreviation ch_rbracket := 93 (only parsing).
Abbreviation ch_a := 97 (only parsing).
Abbreviation ch_b := 98 (only parsing).
Abbreviation ch_f := 102 (only parsing).
Abbreviation ch_n := 110 (only parsing).
Abbreviation ch_o := 111 (only parsing).
Abbreviation ch_x := 120 (only parsing).
Abbreviation ch_y := 121 (only parsing).

(** [isspace] of the kernel's ctype table, as qdf_str.h documents it: HT, LF,
    VT, FF, CR, space and nbsp. *)
Definition qdf_is_space (c : Z) : bool :=
  ((9 <=? c) && (c <=? 13)) || (c =? 32) || (c =? 160).

(** [skip_spaces]. *)
Fixpoint qdf_str_left_trim (str : cstr) : cstr :=
  match str with
  | c :: str' => if qdf_is_space c then qdf_str_left_trim str' else str
  | [] => []
  end.

Definition all_space (s : cstr) : Prop := Forall (fun c => qdf_is_space c = true) s.

Lemma left_trim_app ws s :
  all_space ws -> qdf_str_left_trim (ws ++ s) = qdf_str_left_trim s.
Proof. induction 1 as [|c ws Hc _ IH]; [done|]. cbn. by rewrite Hc. Qed.

Lemma left_trim_all_space ws : all_space ws -> qdf_str_left_trim ws = [].
Proof. intros H. rewrite <- (app_nil_r ws). by rewrite left_trim_app. Qed.

Lemma left_trim_id s : qdf_is_space (c0 s) = false -> qdf_str_left_trim s = s.
Proof. destruct s as [|c s]; [done|]. cbn. by intros ->. Qed.

Lemma left_trim_split s :
  exists ws, s = ws ++ qdf_str_left_trim s /\ all_space ws /\
             qdf_is_space (c0 (qdf_str_left_trim s)) = false.
Proof.
  induction s as [|c s (ws & Hs & Hws & Hc)]; cbn.
  - exists []. by repeat constructor.
  - destruct (qdf_is_space c) eqn:Hsp.
    + exists (c :: ws). split; [by rewrite Hs at 1|]. split; [by constructor|done].
    + exists []. by repeat constructor.
Qed.

(** * Fallible computations *)

Inductive res (A : Type) : Type :=
  | Ok (a : A)
  | Err (st : QDF_STATUS).
Arguments Ok {A} a.
Arguments Err {A} st.

(** A routine that consumes a string through a [const char **] cursor returns
    its result and the cursor it leaves, on success and on failure. *)
Abbreviation consume A := (cstr -> res A * cstr) (only parsing).

(** * Stateful computations

    Code that mutates shared objects, calls back and may fail is a function of
    the state.  It returns a value and the next state, stops at an access the C
    program must not make ([Crash]: a NULL dereference, an index outside a table),
    or runs out of the model's fuel. *)

Inductive outcome (S A : Type) : Type :=
  | Ret (a : A) (s : S)
  | Crash
  | OutOfFuel.
Arguments Ret {S A} a s.
Arguments Crash {S A}.
Arguments OutOfFuel {S A}.

Definition M (S A : Type) : Type := S -> outcome S A.

#[export] Instance M_ret S : MRet (M S) := fun A a s => Ret a s.
#[export] Instance M_bind S : MBind (M S) := fun A B k m s =>
  match m s with
  | Ret a s' => k a s'
  | Crash => Crash
  | OutOfFuel => OutOfFuel
  end.

Definition crash {S A} : M S A := fun _ => Crash.
Definition out_of_fuel {S A} : M S A := fun _ => OutOfFuel.
Definition gets {S A} (f : S -> A) : M S A := fun s => Ret (f s) s.
Definition modify {S} (f : S -> S) : M S unit := fun s => Ret tt (f s).

(** Reading through a pointer, or at an index, that may not be there. *)
Definition deref {S A} (o : option A) : M S A :=
  match o with Some a => mret a | None => crash end.

(** [wp m Q s]: run from [s], [m] does not crash, and what it returns, if it
    returns, satisfies [Q]. *)
Definition wp {S A} (m : M S A) (Q : A -> S -> Prop) (s : S) : Prop :=
  match m s with
  | Ret a s' => Q a s'
  | Crash => False
  | OutOfFuel => True
  end.

Section Wp.
Context {S : Type}.

Lemma wp_mret {A} (a : A) Q (s : S) : Q a s -> wp (mret a) Q s.
Proof. done. Qed.

Lemma wp_bind {A B} (m : M S A) (k : A -> M S B) Q s :
  wp m (fun a => wp (k a) Q) s -> wp (a ← m; k a) Q s.
Proof. unfold wp, mbind, M_bind. by destruct (m s). Qed.

Lemma wp_mono {A} (m : M S A) (Q Q' : A -> S -> Prop) s :
  wp m Q s -> (forall a s', Q a s' -> Q' a s') -> wp m Q' s.
Proof. unfold wp. destruct (m s); auto. Qed.

Lemma wp_gets {A} (f : S -> A) Q s : Q (f s) s -> wp (gets f) Q s.
Proof. done. Qed.

Lemma wp_modify (f : S -> S) Q s : Q tt (f s) -> wp (modify f) Q s.
Proof. done. Qed.

Lemma wp_deref {A} (o : option A) a Q (s : S) : o = Some a -> Q a s -> wp (deref o) Q s.
Proof. by intros ->. Qed.

Lemma bind_assoc {A B C} (m : M S A) (k : A -> M S B) (k' : B -> M S C) s :
  (b ← (a ← m; k a); k' b) s = (a ← m; b ← k a; k' b) s.
Proof. unfold mbind, M_bind. by destruct (m s). Qed.

(** A step whose result is known. *)
Lemma bind_ret {A B} (m : M S A) (k : A -> M S B) a s s' :
  m s = Ret a s' -> (a ← m; k a) s = k a s'.
Proof. unfold mbind, M_bind. by intros ->. Qed.

Lemma bind_gets {A B} (f : S -> A) (k : A -> M S B) s : (a ← gets f; k a) s = k (f s) s.
Proof. done. Qed.

Lemma bind_modify {B} (f : S -> S) (k : unit -> M S B) s :
  (a ← modify f; k a) s = k tt (f s).
Proof. done. Qed.

Lemma bind_deref {A B} (o : option A) (k : A -> M S B) a s :
  o = Some a -> (a ← deref o; k a) s = k a s.
Proof. by intros ->. Qed.

End Wp.

Create HintDb wp.
#[export] Hint Resolve wp_mret wp_gets wp_modify wp_bind : wp.

(** One symbolic step of a [wp] goal. *)
Ltac wp_step :=
  lazymatch goal with
  | |- wp (mret _) _ _ => apply wp_mret
  | |- wp (mbind _ _) _ _ => apply wp_bind
  | |- wp (gets _) _ _ => apply wp_gets
  | |- wp (modify _) _ _ => apply wp_modify
  end; cbn beta.

(** ** Programs that do not crash, and may be allowed to nest too deeply *)

(** [wpx partial m Q s]: [m] does not crash from [s]; it returns, unless [partial]
    allows it to run out of the bound on nesting; what it returns satisfies [Q]. *)
Definition wpx {S A} (partial : Prop) (m : M S A) (Q : A -> S -> Prop) (s : S) : Prop :=
  match m s with
  | Ret a s' => Q a s'
  | Crash => False
  | OutOfFuel => partial
  end.

Section Wpx.
Context {S : Type} (partial : Prop).

Lemma wpx_mret {A} (a : A) Q (s : S) : Q a s -> wpx partial (mret a) Q s.
Proof. done. Qed.

Lemma wpx_bind {A B} (m : M S A) (k : A -> M S B) Q s :
  wpx partial m (fun a => wpx partial (k a) Q) s -> wpx partial (a ← m; k a) Q s.
Proof. unfold wpx, mbind, M_bind. by destruct (m s). Qed.

Lemma wpx_mono {A} (m : M S A) (Q Q' : A -> S -> Prop) s :
  wpx partial m Q s -> (forall a s', Q a s' -> Q' a s') -> wpx partial m Q' s.
Proof. unfold wpx. destruct (m s); auto. Qed.

(** A first step whose result is known. *)
Lemma wpx_step {A B} (m : M S A) (k : A -> M S B) a Q s s' :
  m s = Ret a s' -> wpx partial (k a) Q s' -> wpx partial (a ← m; k a) Q s.
Proof. unfold wpx. intros H. by rewrite (bind_ret m k a s s' H). Qed.

(** What a step returns, beside what holds then. *)
Lemma wpx_ret_eq {A} (m : M S A) Q s :
  wpx partial m Q s -> wpx partial m (fun a s' => m s = Ret a s' /\ Q a s') s.
Proof. unfold wpx. by destruct (m s). Qed.

Lemma wpx_both {A} (m : M S A) Q Q' s :
  wpx partial m Q s -> wpx partial m Q' s -> wpx partial m (fun a s' => Q a s' /\ Q' a s') s.
Proof. unfold wpx. by destruct (m s). Qed.

Lemma wpx_eq {A} (m : M S A) Q s a s' : m s = Ret a s' -> Q a s' -> wpx partial m Q s.
Proof. unfold wpx. by intros ->. Qed.

Lemma wpx_assoc {A B C} (m : M S A) (k : A -> M S B) (k' : B -> M S C) Q s :
  wpx partial (a ← m; b ← k a; k' b) Q s -> wpx partial (b ← (a ← m; k a); k' b) Q s.
Proof. unfold wpx. by rewrite bind_assoc. Qed.

End Wpx.

(** * Lists of nodes *)

(** [list_del]: the list without a node. *)
Definition unlink {A} `{EqDecision A} (n : A) (l : list A) : list A :=
  List.filter (fun m => negb (bool_decide (m = n))) l.

Lemma elem_of_filter_b {A} (P : A -> bool) (l : list A) x :
  x ∈ List.filter P l <-> P x = true /\ x ∈ l.
Proof. rewrite !list_elem_of_In, List.filter_In. tauto. Qed.

Lemma filter_ext_elem {A} (P Q : A -> bool) (l : list A) :
  (forall x, x ∈ l -> P x = Q x) -> List.filter P l = List.filter Q l.
Proof. intros H. apply List.filter_ext_in. intros a Ha. apply H. by apply list_elem_of_In. Qed.

Lemma NoDup_filter_b {A} (P : A -> bool) (l : list A) : NoDup l -> NoDup (List.filter P l).
Proof.
  induction l as [|x l IH]; [done|]. intros [Hx Hnd]%NoDup_cons. cbn.
  destruct (P x); [|by apply IH]. apply NoDup_cons. split; [|by apply IH].
  intros [_ ?]%elem_of_filter_b. done.
Qed.

Section Unlink.
Context {A : Type} `{EqDecision A}.
Implicit Types (n m x : A) (l : list A).

Lemma elem_of_unlink n l m : m ∈ unlink n l <-> m <> n /\ m ∈ l.
Proof.
  unfold unlink. rewrite elem_of_filter_b, negb_true_iff, bool_decide_eq_false. done.
Qed.

Lemma unlink_id n l : n ∉ l -> unlink n l = l.
Proof.
  intros Hn. unfold unlink. induction l as [|m l IH]; [done|]. cbn.
  apply not_elem_of_cons in Hn as [Hne Hn].
  rewrite bool_decide_eq_false_2 by congruence. cbn. by rewrite IH.
Qed.

Lemma unlink_perm n l : NoDup l -> n ∈ l -> l ≡ₚ n :: unlink n l.
Proof.
  unfold unlink. induction l as [|m l IH]; intros Hnd Hin; [by apply elem_of_nil in Hin|].
  apply NoDup_cons in Hnd as [Hm Hnd]. cbn. destruct (decide (m = n)) as [->|Hne].
  - rewrite bool_decide_eq_true_2 by done. cbn. f_equiv.
    by rewrite (unlink_id n l Hm : List.filter _ l = l).
  - rewrite bool_decide_eq_false_2 by done. cbn. apply elem_of_cons in Hin as [->|Hin]; [done|].
    rewrite (IH Hnd Hin) at 1. constructor.
Qed.

Lemma length_unlink n l : NoDup l -> n ∈ l -> length l = S (length (unlink n l)).
Proof. intros Hnd Hin. by rewrite (unlink_perm n l Hnd Hin) at 1. Qed.

Lemma length_unlink_le n l : (length (unlink n l) <= length l)%nat.
Proof. apply List.filter_length_le. Qed.

Lemma NoDup_unlink n l : NoDup l -> NoDup (unlink n l).
Proof. apply NoDup_filter_b. Qed.

Lemma filter_unlink P n l : List.filter P (unlink n l) = unlink n (List.filter P l).
Proof.
  unfold unlink. induction l as [|m l IH]; [done|]. cbn.
  destruct (bool_decide (m = n)) eqn:E, (P m) eqn:Ep; cbn; rewrite ?Ep, ?E; cbn; by rewrite ?IH.
Qed.

Lemma NoDup_fmap_unlink {B} (f : A -> B) n l : NoDup (f <$> l) -> NoDup (f <$> unlink n l).
Proof.
  unfold unlink. induction l as [|m l IH]; [done|]. cbn.
  intros [Hm Hnd]%NoDup_cons. destruct (bool_decide (m = n)); cbn; [by apply IH|].
  apply NoDup_cons. split; [|by apply IH].
  intros (x & Hx & Hin)%list_elem_of_fmap. apply elem_of_filter_b in Hin as [_ Hin].
  apply Hm. rewrite Hx. by apply list_elem_of_fmap_2.
Qed.

End Unlink.
