(* ===== verification/QdfTypes.v ===== *)
(** Text parsers of qdf/src/qdf_types.c. *)
From S2P Require Import Prelude.

Module Parse.

(** ** Consuming one token *)

Definition qdf_consume_char (c : Z) : consume unit := fun str =>
  if negb (c0 str =? c) then (Err QDF_STATUS_E_FAILURE, str)
  else (Ok tt, tail str).

Definition qdf_consume_dec : consume Z := fun str =>
  let c := c0 str in
  if (ch_0 <=? c) && (c <=? ch_9) then (Ok (c - ch_0), tail str)
  else (Err QDF_STATUS_E_FAILURE, str).

Definition qdf_consume_hex : consume Z := fun str =>
  let c := c0 str in
  if (ch_0 <=? c) && (c <=? ch_9) then (Ok (c - ch_0), tail str)
  else if (ch_a <=? c) && (c <=? ch_f) then (Ok (c - ch_a + 10), tail str)
  else if (ch_A <=? c) && (c <=? ch_F) then (Ok (c - ch_A + 10), tail str)
  else (Err QDF_STATUS_E_FAILURE, str).

(** The [for (i = 0; i < 3; i++)] loop of [qdf_consume_octet_dec]; [i] counts
    the iterations left.  [octet] is a [uint16_t]. *)
Fixpoint qdf_consume_octet_dec_loop (i : nat) (len octet : Z) (str : cstr)
  : Z * Z * cstr :=
  match i with
  | O => (len, octet, str)
  | S i' =>
      match qdf_consume_dec str with
      | (Err _, str') => (len, octet, str')
      | (Ok digit, str') =>
          qdf_consume_octet_dec_loop i' (wrap 8 (len + 1))
            (wrap 16 (octet * 10 + digit)) str'
      end
  end.

Definition qdf_consume_octet_dec : consume Z := fun str =>
  let '(len, octet, str') := qdf_consume_octet_dec_loop 3 0 0 str in
  if len =? 0 then (Err QDF_STATUS_E_FAILURE, str')
  else if 255 <? octet then
    (* ( *str) -= len: back where the digits began *)
    (Err QDF_STATUS_E_FAILURE, str)
  else (Ok (wrap 8 octet), str').

Definition qdf_consume_hex_pair : consume Z := fun str =>
  match qdf_consume_hex str with
  | (Err status, str') => (Err status, str')
  | (Ok hi, str') =>
      match qdf_consume_hex str' with
      | (Err status, _) => (* ( *str)-- *) (Err status, str)
      | (Ok low, str'') => (Ok (wrap 8 (Z.lor (Z.shiftl hi 4) low)), str'')
      end
  end.

(** The [for (i = 0; i < 4; i++)] loop of [qdf_consume_hextet]. *)
Fixpoint qdf_consume_hextet_loop (i : nat) (len hextet : Z) (str : cstr)
  : Z * Z * cstr :=
  match i with
  | O => (len, hextet, str)
  | S i' =>
      match qdf_consume_hex str with
      | (Err _, str') => (len, hextet, str')
      | (Ok digit, str') =>
          qdf_consume_hextet_loop i' (wrap 8 (len + 1))
            (wrap 16 (Z.shiftl hextet 4 + digit)) str'
      end
  end.

Definition qdf_consume_hextet : consume Z := fun str =>
  let '(len, hextet, str') := qdf_consume_hextet_loop 4 0 0 str in
  if len =? 0 then (Err QDF_STATUS_E_FAILURE, str')
  else (Ok hextet, str').

Definition qdf_consume_radix : consume Z := fun str =>
  if c0 str =? ch_0 then
    if c1 str =? ch_b then (Ok 2, drop 2 str)
    else if c1 str =? ch_o then (Ok 8, drop 2 str)
    else if c1 str =? ch_x then (Ok 16, drop 2 str)
    else (Ok 10, str)
  else if (ch_0 <=? c0 str) && (c0 str <=? ch_9) then (Ok 10, str)
  else (Err QDF_STATUS_E_FAILURE, str).

(** ** Integers *)

(** The digit loop of [__qdf_int_parse_lazy].  A successful [qdf_consume_hex]
    leaves the cursor one byte on. *)
Fixpoint qdf_int_digits (radix value : Z) (str : cstr) : res Z * cstr :=
  match qdf_consume_hex str with
  | (Err _, str') => (Ok value, str')
  | (Ok digit, _) =>
      match str with
      | [] => (Ok value, [])
      | _ :: str' =>
          if radix <=? digit then (Err QDF_STATUS_E_FAILURE, str')
          else
            let next_value := wrap 64 (value * radix + digit) in
            if next_value <? value then (Err QDF_STATUS_E_RANGE, str')
            else qdf_int_digits radix next_value str'
      end
  end.

(** Returns the value and the sign; the caller's cursor moves on success only. *)
Definition __qdf_int_parse_lazy : consume (Z * bool) := fun int_str =>
  let str := qdf_str_left_trim int_str in
  let '(negate, str) :=
    match qdf_consume_char ch_minus str with
    | (Ok _, str) => (true, str)
    | (Err _, str) => (false, snd (qdf_consume_char ch_plus str))
    end in
  match qdf_consume_radix str with
  | (Err status, _) => (Err status, int_str)
  | (Ok radix, str) =>
      match qdf_int_digits radix 0 str with
      | (Err status, _) => (Err status, int_str)
      | (Ok value, str) => (Ok (value, negate), str)
      end
  end.

(** [NULL] is [None].  An out parameter is passed with its current content and
    returned with the content the call leaves. *)
Definition qdf_int_parse (int_str : option cstr) (out_int : Z) (out_negate : bool)
  : QDF_STATUS * Z * bool :=
  match int_str with
  | None => (QDF_STATUS_E_INVAL, out_int, out_negate)
  | Some int_str =>
      match __qdf_int_parse_lazy int_str with
      | (Err status, _) => (status, out_int, out_negate)
      | (Ok (value, negate), int_str) =>
          if negb (c0 (qdf_str_left_trim int_str) =? ch_nul)
          then (QDF_STATUS_E_FAILURE, out_int, out_negate)
          else (QDF_STATUS_SUCCESS, value, negate)
      end
  end.

Definition qdf_int64_parse (int_str : option cstr) (out_int : Z) : QDF_STATUS * Z :=
  let '(status, value, negate) := qdf_int_parse int_str 0 false in
  if QDF_IS_STATUS_ERROR status then (status, out_int)
  else if negate : bool then
    let signed_value := swrap 64 (wrap 64 (- value)) in
    if 0 <? signed_value then (QDF_STATUS_E_RANGE, out_int)
    else (QDF_STATUS_SUCCESS, signed_value)
  else
    let signed_value := swrap 64 value in
    if signed_value <? 0 then (QDF_STATUS_E_RANGE, out_int)
    else (QDF_STATUS_SUCCESS, signed_value).

Definition qdf_uint64_parse (int_str : option cstr) (out_int : Z) : QDF_STATUS * Z :=
  let '(status, value, negate) := qdf_int_parse int_str 0 false in
  if QDF_IS_STATUS_ERROR status then (status, out_int)
  else if negate : bool then (QDF_STATUS_E_RANGE, out_int)
  else (QDF_STATUS_SUCCESS, value).

(** [value] is uninitialised until the inner parse stores into it; the content
    it is given here is returned to nobody when that parse fails. *)
Definition qdf_int32_parse (int_str : option cstr) (out_int : Z) : QDF_STATUS * Z :=
  let '(status, value) := qdf_int64_parse int_str 0 in
  if QDF_IS_STATUS_ERROR status then (status, out_int)
  else if negb (swrap 32 value =? value) then (QDF_STATUS_E_RANGE, out_int)
  else (QDF_STATUS_SUCCESS, swrap 32 value).

Definition qdf_uint32_parse (int_str : option cstr) (out_int : Z) : QDF_STATUS * Z :=
  let '(status, value) := qdf_uint64_parse int_str 0 in
  if QDF_IS_STATUS_ERROR status then (status, out_int)
  else if negb (wrap 32 value =? value) then (QDF_STATUS_E_RANGE, out_int)
  else (QDF_STATUS_SUCCESS, wrap 32 value).

(** ** Booleans *)

Definition qdf_bool_parse (bool_str : option cstr) (out_bool : option bool)
  : QDF_STATUS * option bool :=
  match bool_str, out_bool with
  | None, _ => (QDF_STATUS_E_INVAL, out_bool)
  | _, None => (QDF_STATUS_E_INVAL, out_bool)
  | Some bool_str, Some _ =>
      let bool_str := qdf_str_left_trim bool_str in
      let c := c0 bool_str in
      let value :=
        if (c =? ch_1) || (c =? ch_y) || (c =? ch_Y) then Some true
        else if (c =? ch_0) || (c =? ch_n) || (c =? ch_N) then Some false
        else None in
      match value with
      | None => (QDF_STATUS_E_FAILURE, out_bool)
      | Some value =>
          let bool_str := qdf_str_left_trim (tail bool_str) in
          if negb (c0 bool_str =? ch_nul) then (QDF_STATUS_E_FAILURE, out_bool)
          else (QDF_STATUS_SUCCESS, Some value)
      end
  end.

(** ** Addresses *)

Abbreviation QDF_MAC_ADDR_SIZE := 6%nat.
Abbreviation QDF_IPV4_ADDR_SIZE := 4%nat.
Abbreviation QDF_IPV6_ADDR_SIZE := 16%nat.
Abbreviation QDF_IPV6_ADDR_HEXTET_COUNT := 8.

(** The [for (i = 1; i < QDF_MAC_ADDR_SIZE; i++)] loop of [qdf_mac_parse], [n]
    iterations left; [bytes] is the prefix of [addr] written so far. *)
Fixpoint qdf_mac_parse_loop (n : nat) (colons : bool) (bytes : list Z) (mac_str : cstr)
  : res (list Z) * cstr :=
  match n with
  | O => (Ok bytes, mac_str)
  | S n' =>
      let '(status, mac_str) :=
        if colons then qdf_consume_char ch_colon mac_str else (Ok tt, mac_str) in
      match status with
      | Err status => (Err status, mac_str)
      | Ok _ =>
          match qdf_consume_hex_pair mac_str with
          | (Err status, mac_str) => (Err status, mac_str)
          | (Ok b, mac_str) => qdf_mac_parse_loop n' colons (bytes ++ [b]) mac_str
          end
      end
  end.

Definition qdf_mac_parse (mac_str : option cstr) (out_addr : option (list Z))
  : QDF_STATUS * option (list Z) :=
  match mac_str, out_addr with
  | None, _ => (QDF_STATUS_E_INVAL, out_addr)
  | _, None => (QDF_STATUS_E_INVAL, out_addr)
  | Some mac_str, Some _ =>
      let mac_str := qdf_str_left_trim mac_str in
      match qdf_consume_hex_pair mac_str with
      | (Err status, _) => (status, out_addr)
      | (Ok b, mac_str) =>
          let colons := c0 mac_str =? ch_colon in
          match qdf_mac_parse_loop (QDF_MAC_ADDR_SIZE - 1) colons [b] mac_str with
          | (Err status, _) => (status, out_addr)
          | (Ok addr, mac_str) =>
              if negb (c0 (qdf_str_left_trim mac_str) =? ch_nul)
              then (QDF_STATUS_E_FAILURE, out_addr)
              else (QDF_STATUS_SUCCESS, Some addr)
          end
      end
  end.

(** The [for (i = 1; i < QDF_IPV4_ADDR_SIZE; i++)] loop of [qdf_ipv4_parse]. *)
Fixpoint qdf_ipv4_parse_loop (n : nat) (bytes : list Z) (ipv4_str : cstr)
  : res (list Z) * cstr :=
  match n with
  | O => (Ok bytes, ipv4_str)
  | S n' =>
      match qdf_consume_char ch_dot ipv4_str with
      | (Err status, ipv4_str) => (Err status, ipv4_str)
      | (Ok _, ipv4_str) =>
          match qdf_consume_octet_dec ipv4_str with
          | (Err status, ipv4_str) => (Err status, ipv4_str)
          | (Ok b, ipv4_str) => qdf_ipv4_parse_loop n' (bytes ++ [b]) ipv4_str
          end
      end
  end.

Definition qdf_ipv4_parse (ipv4_str : option cstr) (out_addr : option (list Z))
  : QDF_STATUS * option (list Z) :=
  match ipv4_str, out_addr with
  | None, _ => (QDF_STATUS_E_INVAL, out_addr)
  | _, None => (QDF_STATUS_E_INVAL, out_addr)
  | Some ipv4_str, Some _ =>
      let ipv4_str := qdf_str_left_trim ipv4_str in
      match qdf_consume_octet_dec ipv4_str with
      | (Err status, _) => (status, out_addr)
      | (Ok b, ipv4_str) =>
          match qdf_ipv4_parse_loop (QDF_IPV4_ADDR_SIZE - 1) [b] ipv4_str with
          | (Err status, _) => (status, out_addr)
          | (Ok addr, ipv4_str) =>
              if negb (c0 (qdf_str_left_trim ipv4_str) =? ch_nul)
              then (QDF_STATUS_E_FAILURE, out_addr)
              else (QDF_STATUS_SUCCESS, Some addr)
          end
      end
  end.

(** [qdf_mem_move(to, from, n)] and [qdf_mem_zero(p, n)] inside one array. *)
Definition mem_move (bytes : list Z) (to from n : nat) : list Z :=
  take to bytes ++ take n (drop from bytes) ++ drop (to + n) bytes.
Definition mem_zero (bytes : list Z) (p n : nat) : list Z :=
  take p bytes ++ replicate n 0 ++ drop (p + n) bytes.

Definition qdf_ipv6_apply_zero_comp (addr : list Z) (hextets zero_comp_index : Z)
  : list Z :=
  let zero_comp_size := (QDF_IPV6_ADDR_HEXTET_COUNT - hextets) * 2 in
  let bytes_to_move := (hextets - zero_comp_index) * 2 in
  let from := zero_comp_index * 2 in
  let to := from + zero_comp_size in
  let addr :=
    if negb (bytes_to_move =? 0)
    then mem_move addr (Z.to_nat to) (Z.to_nat from) (Z.to_nat bytes_to_move)
    else addr in
  mem_zero addr (Z.to_nat from) (Z.to_nat (to - from)).

(** The [while (hextets_found < QDF_IPV6_ADDR_HEXTET_COUNT)] loop of
    [qdf_ipv6_parse]: every iteration that does not leave the loop increments
    [hextets_found], so [n], the count still missing, bounds it. *)
Fixpoint qdf_ipv6_parse_loop (n : nat) (addr : list Z) (zero_comp hextets_found : Z)
    (ipv6_str : cstr) : res (list Z * Z * Z) * cstr :=
  match n with
  | O => (Ok (addr, zero_comp, hextets_found), ipv6_str)
  | S n' =>
      match qdf_consume_hextet ipv6_str with
      | (Err _, ipv6_str) =>
          if negb (hextets_found =? zero_comp)
          then (Err QDF_STATUS_E_FAILURE, ipv6_str)
          else (Ok (addr, zero_comp, hextets_found), ipv6_str)
      | (Ok hextet, ipv6_str) =>
          let addr :=
            <[Z.to_nat (hextets_found * 2) := wrap 8 (Z.shiftr hextet 8)]> addr in
          let addr := <[Z.to_nat (hextets_found * 2 + 1) := wrap 8 hextet]> addr in
          let hextets_found := wrap 8 (hextets_found + 1) in
          match qdf_consume_char ch_colon ipv6_str with
          | (Err _, ipv6_str) => (Ok (addr, zero_comp, hextets_found), ipv6_str)
          | (Ok _, ipv6_str) =>
              match qdf_consume_char ch_colon ipv6_str with
              | (Err _, ipv6_str) =>
                  qdf_ipv6_parse_loop n' addr zero_comp hextets_found ipv6_str
              | (Ok _, ipv6_str) =>
                  if 0 <=? zero_comp then (Err QDF_STATUS_E_FAILURE, ipv6_str)
                  else
                    qdf_ipv6_parse_loop n' addr (swrap 8 hextets_found)
                      hextets_found ipv6_str
              end
          end
      end
  end.

(** [uninit] is what the stack slot of the local [addr] holds on entry. *)
Definition qdf_ipv6_parse (uninit : list Z) (ipv6_str : option cstr)
    (out_addr : option (list Z)) : QDF_STATUS * option (list Z) :=
  match ipv6_str, out_addr with
  | None, _ => (QDF_STATUS_E_INVAL, out_addr)
  | _, None => (QDF_STATUS_E_INVAL, out_addr)
  | Some ipv6_str, Some _ =>
      let ipv6_str := qdf_str_left_trim ipv6_str in
      let lead :=
        match qdf_consume_char ch_colon ipv6_str with
        | (Err _, ipv6_str) => Some (-1, ipv6_str)
        | (Ok _, ipv6_str) =>
            match qdf_consume_char ch_colon ipv6_str with
            | (Ok _, ipv6_str) => Some (0, ipv6_str)
            | (Err _, _) => None
            end
        end in
      match lead with
      | None => (QDF_STATUS_E_FAILURE, out_addr)
      | Some (zero_comp, ipv6_str) =>
          match qdf_ipv6_parse_loop 8 uninit zero_comp 0 ipv6_str with
          | (Err status, _) => (status, out_addr)
          | (Ok (addr, zero_comp, hextets_found), ipv6_str) =>
              if negb (c0 (qdf_str_left_trim ipv6_str) =? ch_nul)
              then (QDF_STATUS_E_FAILURE, out_addr)
              else if hextets_found <? QDF_IPV6_ADDR_HEXTET_COUNT then
                if zero_comp <? 0 then (QDF_STATUS_E_FAILURE, out_addr)
                else (QDF_STATUS_SUCCESS,
                      Some (qdf_ipv6_apply_zero_comp addr hextets_found zero_comp))
              else if -1 <? zero_comp then (QDF_STATUS_E_FAILURE, out_addr)
              else (QDF_STATUS_SUCCESS, Some addr)
          end
      end
  end.

(** ** Comma-separated arrays

    The two routines differ in the element type only; [w] is its width.  The
    elements are stored as they are parsed, so the array keeps the prefix that
    was read when the call fails.  [n] counts the slots left,
    [array_size - size]; the caller's array holds [array_size] slots. *)
Fixpoint qdf_uint_array_parse_loop (w : Z) (n : nat) (size : nat)
    (in_str : cstr) (out_array : list Z) (out_size : Z)
  : QDF_STATUS * list Z * Z :=
  match n with
  | O => (QDF_STATUS_E_FAILURE, out_array, out_size)
  | S n' =>
      match __qdf_int_parse_lazy in_str with
      | (Err status, _) => (status, out_array, out_size)
      | (Ok (value, negate), in_str) =>
          if negb (wrap w value =? value) || negate
          then (QDF_STATUS_E_RANGE, out_array, out_size)
          else
            let in_str := qdf_str_left_trim in_str in
            if c0 in_str =? ch_comma then
              qdf_uint_array_parse_loop w n' (S size) (tail in_str)
                (<[size := wrap w value]> out_array) out_size
            else if c0 in_str =? ch_nul then
              (QDF_STATUS_SUCCESS, <[size := wrap w value]> out_array,
               Z.of_nat (S size))
            else (QDF_STATUS_E_FAILURE, out_array, out_size)
      end
  end.

Definition qdf_uint16_array_parse (in_str : option cstr)
    (out_array : option (list Z)) (array_size : nat) (out_size : option Z)
  : QDF_STATUS * option (list Z) * option Z :=
  match in_str, out_array, out_size with
  | Some in_str, Some arr, Some sz =>
      let '(status, arr, sz) :=
        qdf_uint_array_parse_loop 16 array_size 0 in_str arr sz in
      (status, Some arr, Some sz)
  | _, _, _ => (QDF_STATUS_E_INVAL, out_array, out_size)
  end.

Definition qdf_uint8_array_parse (in_str : option cstr)
    (out_array : option (list Z)) (array_size : nat) (out_size : option Z)
  : QDF_STATUS * option (list Z) * option Z :=
  match in_str, out_array, out_size with
  | Some in_str, Some arr, Some sz =>
      let '(status, arr, sz) :=
        qdf_uint_array_parse_loop 8 array_size 0 in_str arr sz in
      (status, Some arr, Some sz)
  | _, _, _ => (QDF_STATUS_E_INVAL, out_array, out_size)
  end.

(** ** Operating modes *)

Inductive QDF_OPMODE : Type :=
  | QDF_STA_MODE
  | QDF_SAP_MODE
  | QDF_P2P_CLIENT_MODE
  | QDF_P2P_GO_MODE
  | QDF_FTM_MODE
  | QDF_IBSS_MODE
  | QDF_MONITOR_MODE
  | QDF_P2P_DEVICE_MODE
  | QDF_OCB_MODE
  | QDF_EPPING_MODE
  | QDF_QVIT_MODE
  | QDF_NDI_MODE
  | QDF_WDS_MODE
  | QDF_BTAMP_MODE
  | QDF_AHDEMO_MODE
  | QDF_TDLS_MODE
  | QDF_NAN_DISC_MODE
  | QDF_MAX_NO_OF_MODE.

#[export] Instance QDF_OPMODE_eq_dec : EqDecision QDF_OPMODE.
Proof. solve_decision. Defined.

Definition qdf_opmode_str (opmode : QDF_OPMODE) : string :=
  match opmode with
  | QDF_STA_MODE => "STA"
  | QDF_SAP_MODE => "SAP"
  | QDF_P2P_CLIENT_MODE => "P2P Client"
  | QDF_P2P_GO_MODE => "P2P GO"
  | QDF_FTM_MODE => "FTM"
  | QDF_IBSS_MODE => "IBSS"
  | QDF_MONITOR_MODE => "Monitor"
  | QDF_P2P_DEVICE_MODE => "P2P Device"
  | QDF_OCB_MODE => "OCB"
  | QDF_EPPING_MODE => "EPPing"
  | QDF_QVIT_MODE => "QVIT"
  | QDF_NDI_MODE => "NDI"
  | QDF_WDS_MODE => "WDS"
  | QDF_BTAMP_MODE => "BTAMP"
  | QDF_AHDEMO_MODE => "AHDEMO"
  | QDF_TDLS_MODE => "TDLS"
  | QDF_NAN_DISC_MODE => "NAN"
  | QDF_MAX_NO_OF_MODE => "Invalid operating mode"
  end.

End Parse.
Import Parse.

(** * Specification of the integer syntax *)

(** The value of a hexadecimal digit character. *)
Definition hex_digit (c : Z) : option Z :=
  if (ch_0 <=? c) && (c <=? ch_9) then Some (c - ch_0)
  else if (ch_a <=? c) && (c <=? ch_f) then Some (c - ch_a + 10)
  else if (ch_A <=? c) && (c <=? ch_F) then Some (c - ch_A + 10)
  else None.

Definition digit_of (radix c : Z) : Prop :=
  exists d, hex_digit c = Some d /\ d < radix.

(** The number a digit string denotes, continued from [v]; no machine width. *)
Fixpoint digits_from (radix v : Z) (ds : cstr) : Z :=
  match ds with
  | [] => v
  | c :: ds' => digits_from radix (v * radix + default 0 (hex_digit c)) ds'
  end.

Inductive radix_prefix : cstr -> Z -> Prop :=
  | radix_bin : radix_prefix [ch_0; ch_b] 2
  | radix_oct : radix_prefix [ch_0; ch_o] 8
  | radix_dec : radix_prefix [] 10
  | radix_hex : radix_prefix [ch_0; ch_x] 16.

Inductive sign_prefix : cstr -> bool -> Prop :=
  | sign_none : sign_prefix [] false
  | sign_plus : sign_prefix [ch_plus] false
  | sign_minus : sign_prefix [ch_minus] true.

(** [int_literal s neg n]: the text [s], blanks around it ignored, denotes the
    number [n] with the sign [neg]. *)
Inductive int_literal : cstr -> bool -> Z -> Prop :=
  int_literal_intro ws sgn neg pre radix ds ws' :
    all_space ws -> sign_prefix sgn neg -> radix_prefix pre radix ->
    Forall (digit_of radix) ds -> (radix = 10 -> ds <> []) ->
    all_space ws' ->
    int_literal (ws ++ sgn ++ pre ++ ds ++ ws') neg (digits_from radix 0 ds).

Section IntDigits.

Lemma hex_digit_range c d : hex_digit c = Some d -> 0 <= d < 16.
Proof. unfold hex_digit. intros H. repeat case_match; simplify_eq; lia. Qed.

Lemma consume_hex_spec str :
  qdf_consume_hex str =
    match hex_digit (c0 str) with
    | Some d => (Ok d, tail str)
    | None => (Err QDF_STATUS_E_FAILURE, str)
    end.
Proof. unfold qdf_consume_hex, hex_digit. by repeat case_match. Qed.

Lemma hex_digit_space c : qdf_is_space c = true -> hex_digit c = None.
Proof.
  unfold qdf_is_space, hex_digit. intros H. repeat case_match; try done; lia.
Qed.

Lemma hex_digit_nul : hex_digit 0 = None.
Proof. done. Qed.

Lemma c0_all_space ws : all_space ws -> hex_digit (c0 ws) = None.
Proof. intros []; [done|]. by apply hex_digit_space. Qed.

Lemma digits_from_app radix v ds ds' :
  digits_from radix v (ds ++ ds') = digits_from radix (digits_from radix v ds) ds'.
Proof. revert v. induction ds as [|c ds IH]; intros v; [done|]. apply IH. Qed.

Lemma digits_from_mono radix v ds :
  1 <= radix -> 0 <= v -> v <= digits_from radix v ds.
Proof.
  intros Hr. revert v. induction ds as [|c ds IH]; intros v Hv; cbn; [lia|].
  assert (0 <= default 0 (hex_digit c)) as Hd.
  { destruct (hex_digit c) eqn:E; cbn; [|lia]. apply hex_digit_range in E. lia. }
  etransitivity; [|apply IH]; nia.
Qed.

(** One step of the loop on a string that begins with a digit. *)
Lemma int_digits_cons radix v c s d :
  hex_digit c = Some d ->
  qdf_int_digits radix v (c :: s) =
    if radix <=? d then (Err QDF_STATUS_E_FAILURE, s)
    else if wrap 64 (v * radix + d) <? v then (Err QDF_STATUS_E_RANGE, s)
    else qdf_int_digits radix (wrap 64 (v * radix + d)) s.
Proof.
  intros H. cbn [qdf_int_digits]. rewrite consume_hex_spec. cbn. by rewrite H.
Qed.

Lemma int_digits_stop radix v s :
  hex_digit (c0 s) = None -> qdf_int_digits radix v s = (Ok v, s).
Proof.
  intros H. destruct s; cbn [qdf_int_digits]; [done|].
  by rewrite consume_hex_spec, H.
Qed.

(** Completeness: a digit string whose value fits 64 bits is read exactly. *)
Lemma int_digits_complete radix v ds rest :
  2 <= radix <= 16 -> 0 <= v -> Forall (digit_of radix) ds ->
  digits_from radix v ds < 2 ^ 64 -> hex_digit (c0 rest) = None ->
  qdf_int_digits radix v (ds ++ rest) = (Ok (digits_from radix v ds), rest).
Proof.
  intros Hr Hv Hds. revert v Hv.
  induction Hds as [|c ds (d & Hd & Hlt) _ IH]; intros v Hv Hfit Hrest; cbn [app].
  - by apply int_digits_stop.
  - rewrite (int_digits_cons _ _ _ _ _ Hd). cbn in *. rewrite Hd in *. cbn in *.
    pose proof (hex_digit_range _ _ Hd).
    pose proof (digits_from_mono radix (v * radix + d) ds ltac:(lia) ltac:(nia)).
    rewrite (proj2 (Z.leb_gt _ _)) by lia.
    rewrite wrap_small by (int_bounds; nia).
    rewrite (proj2 (Z.ltb_ge _ _)) by nia.
    apply IH; [nia|done|done].
Qed.

(** Soundness: what the loop accepts is a digit string, and the result is its
    value unless the value wrapped, in which case the result is at least 2^60:
    the check [next_value < value] keeps the running value from decreasing. *)
Lemma int_digits_sound radix v s v' rest :
  2 <= radix <= 16 -> 0 <= v < 2 ^ 64 ->
  qdf_int_digits radix v s = (Ok v', rest) ->
  exists ds, s = ds ++ rest /\ Forall (digit_of radix) ds /\
    hex_digit (c0 rest) = None /\ 0 <= v' < 2 ^ 64 /\ v <= v' /\
    (v' = digits_from radix v ds \/ 2 ^ 60 - 1 <= v' /\ 2 ^ 64 <= digits_from radix v ds).
Proof.
  intros Hr. revert v. induction s as [|c s IH]; intros v Hv.
  { cbn. intros [= <- <-]. exists []. repeat split; try done; try lia. by left. }
  destruct (hex_digit c) as [d|] eqn:Hd.
  2: { rewrite int_digits_stop by done. intros [= <- <-].
       exists []. repeat split; try done; try lia. by left. }
  rewrite (int_digits_cons _ _ _ _ _ Hd). pose proof (hex_digit_range _ _ Hd).
  destruct (radix <=? d) eqn:Hrd; [done|].
  destruct (wrap 64 (v * radix + d) <? v) eqn:Hw; [done|]. intros Hrec.
  pose proof (wrap_range 64 (v * radix + d) ltac:(lia)) as Hnr.
  destruct (IH (wrap 64 (v * radix + d)) ltac:(exact Hnr) Hrec)
    as (ds & -> & Hds & Hstop & Hv' & Hge & Hval).
  exists (c :: ds). split; [done|]. split; [constructor; [|done]; exists d; split; [done|lia]|].
  split; [done|]. split; [done|]. split; [lia|]. cbn. rewrite Hd. cbn.
  destruct (Z_lt_ge_dec (v * radix + d) (2 ^ 64)) as [Hfit|Hbig].
  - rewrite wrap_small in * by (int_bounds; nia). done.
  - right. pose proof (digits_from_mono radix (v * radix + d) ds ltac:(lia) ltac:(nia)).
    split; [|lia]. assert (2 ^ 60 - 1 <= v) by nia. lia.
Qed.

End IntDigits.

Section IntParse.

Definition dec_char (c : Z) : Prop := ch_0 <= c <= ch_9.

Lemma digit_of_10 c : digit_of 10 c -> dec_char c.
Proof.
  intros (d & Hd & Hlt). unfold hex_digit, dec_char in *.
  repeat case_match; simplify_eq; lia.
Qed.

Lemma dec_char_hex c : dec_char c -> hex_digit c <> None.
Proof. unfold dec_char, hex_digit. intros H. repeat case_match; try done; lia. Qed.

Lemma dec_char_not_space c : dec_char c -> qdf_is_space c = false.
Proof. unfold dec_char, qdf_is_space. lia. Qed.

Lemma sign_not_space sgn neg c s :
  sign_prefix sgn neg -> dec_char c -> qdf_is_space (c0 (sgn ++ c :: s)) = false.
Proof. intros [] Hc; try done. by apply dec_char_not_space. Qed.

(** The text after the sign starts with a decimal digit character. *)
Lemma literal_head pre radix ds rest :
  radix_prefix pre radix -> Forall (digit_of radix) ds -> (radix = 10 -> ds <> []) ->
  exists c s, pre ++ ds ++ rest = c :: s /\ dec_char c.
Proof.
  intros [] Hds Hne; try (eexists _, _; split; [done|unfold dec_char; lia]).
  destruct Hds as [|c ds Hc Hds]; [by destruct Hne|].
  exists c, (ds ++ rest). split; [done|]. by apply digit_of_10.
Qed.

Definition stop_char (c : Z) : Prop :=
  hex_digit c = None /\ c <> ch_o /\ c <> ch_x.

Lemma stop_char_space c : qdf_is_space c = true -> stop_char c.
Proof.
  intros H. split; [by apply hex_digit_space|]. unfold qdf_is_space in H. lia.
Qed.

Lemma stop_char_nul : stop_char 0.
Proof. by repeat split. Qed.

Lemma consume_radix_complete pre radix ds rest :
  radix_prefix pre radix -> Forall (digit_of radix) ds -> (radix = 10 -> ds <> []) ->
  stop_char (c0 rest) ->
  qdf_consume_radix (pre ++ ds ++ rest) = (Ok radix, ds ++ rest).
Proof.
  intros Hpre Hds Hne (Hst & Ho & Hx). destruct Hpre; try done.
  destruct Hds as [|c ds Hc Hds]; [by destruct Hne|].
  pose proof (digit_of_10 _ Hc) as Hdc. unfold dec_char in Hdc.
  assert (c1 (c :: ds ++ rest) <> ch_b /\ c1 (c :: ds ++ rest) <> ch_o /\
          c1 (c :: ds ++ rest) <> ch_x) as (Hb & Ho' & Hx').
  { destruct Hds as [|c' ds Hc' _].
    - change (c1 (c :: [] ++ rest)) with (c0 rest).
      repeat split; [|done|done]. intros E. by rewrite E in Hst.
    - apply digit_of_10 in Hc'. unfold dec_char, c1 in *. cbn. lia. }
  unfold qdf_consume_radix. cbn [app]. change (c0 (c :: ds ++ rest)) with c.
  repeat case_match; try done; lia.
Qed.

Lemma consume_radix_sound s radix s' :
  qdf_consume_radix s = (Ok radix, s') ->
  exists pre, radix_prefix pre radix /\ s = pre ++ s' /\
    (radix = 10 -> dec_char (c0 s')).
Proof.
  unfold qdf_consume_radix, c0, c1. destruct s as [|c [|c' s]]; cbn.
  - done.
  - repeat case_match; try done; intros [= <- <-];
      (exists []; repeat split; [constructor|unfold dec_char; cbn; lia..]).
  - repeat case_match; try done; intros [= <- <-];
      try (exists []; repeat split; [constructor|unfold dec_char; cbn; lia..]);
      rewrite Z.eqb_eq in *; subst; eexists [_; _]; (split; [constructor|done]).
Qed.

Lemma radix_prefix_range pre radix : radix_prefix pre radix -> 2 <= radix <= 16.
Proof. intros []; lia. Qed.

(** Reading the sign off a text that starts, after it, with a digit. *)
Lemma sign_complete sgn neg c s :
  sign_prefix sgn neg -> dec_char c ->
  match qdf_consume_char ch_minus (sgn ++ c :: s) with
  | (Ok _, str) => (true, str)
  | (Err _, str) => (false, snd (qdf_consume_char ch_plus str))
  end = (neg, c :: s).
Proof.
  intros [] Hc; unfold dec_char in *; unfold qdf_consume_char; cbn; try done.
  repeat case_match; simplify_eq; try done; cbn in *; simplify_eq; lia.
Qed.

Lemma sign_sound s neg s' :
  match qdf_consume_char ch_minus s with
  | (Ok _, str) => (true, str)
  | (Err _, str) => (false, snd (qdf_consume_char ch_plus str))
  end = (neg, s') ->
  exists sgn, sign_prefix sgn neg /\ s = sgn ++ s'.
Proof.
  unfold qdf_consume_char, c0. destruct s as [|c s]; cbn.
  { intros [= <- <-]. exists []. by split; [constructor|]. }
  destruct (c =? ch_minus) eqn:E1; cbn.
  { intros [= <- <-]. exists [ch_minus]. split; [constructor|]. cbn. f_equal. lia. }
  destruct (c =? ch_plus) eqn:E2; cbn; intros [= <- <-].
  - exists [ch_plus]. split; [constructor|]. cbn. f_equal. lia.
  - exists []. by split; [constructor|].
Qed.

Lemma int_parse_lazy_complete ws sgn neg pre radix ds rest :
  all_space ws -> sign_prefix sgn neg -> radix_prefix pre radix ->
  Forall (digit_of radix) ds -> (radix = 10 -> ds <> []) ->
  stop_char (c0 rest) -> digits_from radix 0 ds < 2 ^ 64 ->
  __qdf_int_parse_lazy (ws ++ sgn ++ pre ++ ds ++ rest) =
    (Ok (digits_from radix 0 ds, neg), rest).
Proof.
  intros Hws Hsgn Hpre Hds Hne Hst Hfit. unfold __qdf_int_parse_lazy.
  rewrite left_trim_app by done.
  destruct (literal_head pre radix ds rest Hpre Hds Hne) as (c & s & Heq & Hc).
  rewrite Heq, left_trim_id by (by eapply sign_not_space).
  rewrite (sign_complete _ _ _ _ Hsgn Hc), <- Heq.
  rewrite (consume_radix_complete _ _ _ _ Hpre) by done.
  pose proof (radix_prefix_range _ _ Hpre). destruct Hst.
  rewrite int_digits_complete by (done || lia). done.
Qed.

Lemma int_parse_lazy_sound s v neg rest :
  __qdf_int_parse_lazy s = (Ok (v, neg), rest) ->
  exists ws sgn pre radix ds,
    s = ws ++ sgn ++ pre ++ ds ++ rest /\ all_space ws /\ sign_prefix sgn neg /\
    radix_prefix pre radix /\ Forall (digit_of radix) ds /\ (radix = 10 -> ds <> []) /\
    hex_digit (c0 rest) = None /\ 0 <= v < 2 ^ 64 /\
    (v = digits_from radix 0 ds \/
     2 ^ 60 - 1 <= v /\ 2 ^ 64 <= digits_from radix 0 ds).
Proof.
  unfold __qdf_int_parse_lazy.
  destruct (left_trim_split s) as (ws & Hs & Hws & _).
  destruct (match qdf_consume_char _ _ with (Ok _, x) => _ | (Err _, y) => _ end) as [neg' s1] eqn:Hsgn.
  apply sign_sound in Hsgn as (sgn & Hsgn & Hs1).
  destruct (qdf_consume_radix s1) as [[radix|] s2] eqn:Hrad; [|done].
  apply consume_radix_sound in Hrad as (pre & Hpre & -> & H10).
  destruct (qdf_int_digits radix 0 s2) as [[v'|] s3] eqn:Hdig; [|done].
  intros [= <- <- <-].
  pose proof (radix_prefix_range _ _ Hpre) as Hr.
  destruct (int_digits_sound radix 0 s2 v' s3 Hr ltac:(lia) Hdig)
    as (ds & -> & Hds & Hstop & Hv & _ & Hval).
  exists ws, sgn, pre, radix, ds. rewrite Hs at 1. rewrite Hs1.
  repeat split; try done; try lia.
  intros -> ->. by apply (dec_char_hex _ (H10 eq_refl)).
Qed.

(** The whole-string parser accepts exactly the literals, and returns the value
    of every literal that fits 64 bits. *)
Lemma int_parse_complete s neg n o b :
  int_literal s neg n -> n < 2 ^ 64 ->
  qdf_int_parse (Some s) o b = (QDF_STATUS_SUCCESS, n, neg).
Proof.
  intros [ws sgn neg' pre radix ds ws' Hws Hsgn Hpre Hds Hne Hws'] Hfit.
  assert (stop_char (c0 ws')) as Hst.
  { destruct Hws'; [apply stop_char_nul|by apply stop_char_space]. }
  unfold qdf_int_parse.
  rewrite (int_parse_lazy_complete _ _ _ _ _ _ _ Hws Hsgn Hpre Hds Hne Hst Hfit).
  by rewrite left_trim_all_space.
Qed.


(** The lazy parser fails with one of two codes and leaves the cursor alone. *)
Lemma int_digits_err radix v s st r :
  qdf_int_digits radix v s = (Err st, r) ->
  st = QDF_STATUS_E_FAILURE \/ st = QDF_STATUS_E_RANGE.
Proof.
  revert v. induction s as [|c s IH]; intros v; [done|].
  destruct (hex_digit c) as [d|] eqn:E.
  - rewrite (int_digits_cons _ _ _ _ _ E).
    repeat case_match; intros H'; simplify_eq; eauto.
  - by rewrite int_digits_stop.
Qed.

Lemma int_parse_lazy_err s st rest :
  __qdf_int_parse_lazy s = (Err st, rest) ->
  (st = QDF_STATUS_E_FAILURE \/ st = QDF_STATUS_E_RANGE) /\ rest = s.
Proof.
  unfold __qdf_int_parse_lazy. repeat case_match; intros ?; simplify_eq; split;
    eauto using int_digits_err;
    unfold qdf_consume_radix in *; repeat case_match; simplify_eq; eauto.
Qed.

Lemma nul_head s : cstr_ok s -> c0 s = 0 -> s = [].
Proof. intros []; [done|]. cbn in *. lia. Qed.

Lemma cstr_ok_app s1 s2 : cstr_ok (s1 ++ s2) <-> cstr_ok s1 /\ cstr_ok s2.
Proof. apply Forall_app. Qed.

Lemma nul_after_trim s :
  cstr_ok s -> c0 (qdf_str_left_trim s) = 0 -> all_space s.
Proof.
  intros Hok Hc. destruct (left_trim_split s) as (ws & Hs & Hws & _).
  rewrite Hs in Hok. apply cstr_ok_app in Hok as [_ Hok].
  by rewrite Hs, (nul_head _ Hok Hc), app_nil_r.
Qed.

Lemma int_parse_sound s o b v neg :
  cstr_ok s ->
  qdf_int_parse (Some s) o b = (QDF_STATUS_SUCCESS, v, neg) ->
  exists n, int_literal s neg n /\ 0 <= v < 2 ^ 64 /\
    (v = n \/ 2 ^ 60 - 1 <= v /\ 2 ^ 64 <= n).
Proof.
  intros Hok. unfold qdf_int_parse.
  destruct (__qdf_int_parse_lazy s) as [[[v' neg']|st] rest] eqn:Hl.
  2: { apply int_parse_lazy_err in Hl as [[-> | ->] _]; done. }
  destruct (c0 (qdf_str_left_trim rest) =? 0) eqn:Hz; [|done]. cbn.
  intros [= <- <-].
  apply int_parse_lazy_sound in Hl
    as (ws & sgn & pre & radix & ds & -> & Hws & Hsgn & Hpre & Hds & Hne & _ & Hv & Hval).
  rewrite !cstr_ok_app in Hok. destruct Hok as (_ & _ & _ & _ & Hok).
  exists (digits_from radix 0 ds). split; [|split; [lia|exact Hval]].
  constructor; try done. apply nul_after_trim; [done|lia].
Qed.

Lemma int_parse_err s o b st v neg :
  qdf_int_parse s o b = (st, v, neg) -> st <> QDF_STATUS_SUCCESS ->
  (st = QDF_STATUS_E_INVAL \/ st = QDF_STATUS_E_FAILURE \/ st = QDF_STATUS_E_RANGE) /\
  v = o /\ neg = b.
Proof.
  unfold qdf_int_parse. repeat case_match; intros ? ?; simplify_eq; eauto.
  match goal with H : __qdf_int_parse_lazy _ = _ |- _ =>
    apply int_parse_lazy_err in H as [[-> | ->] _] end; eauto.
Qed.

End IntParse.

(** Digit strings, decidably; proves [int_literal] of a closed text. *)
Definition digit_ofb (radix c : Z) : bool :=
  match hex_digit c with Some d => d <? radix | None => false end.

Lemma digit_string_dec radix ds :
  forallb (digit_ofb radix) ds = true -> Forall (digit_of radix) ds.
Proof.
  induction ds as [|c ds IH]; cbn; [constructor|].
  rewrite andb_true_iff. intros [Hc Hds]. constructor; [|by apply IH].
  unfold digit_ofb, digit_of in *. destruct (hex_digit c); [|done]. eexists. split; [done|lia].
Qed.

Ltac closed_literal sgn pre radix ds :=
  refine (int_literal_intro [] sgn _ pre radix ds [] _ _ _ _ _ _);
  [constructor|constructor|constructor|apply digit_string_dec; reflexivity
  |intros ?; discriminate|constructor].

Definition signed (neg : bool) (n : Z) : Z := if neg then - n else n.

Section IntTheorems.

Lemma int_literal_nonneg s neg n : int_literal s neg n -> 0 <= n.
Proof.
  intros [ws sgn neg' pre radix ds ws' _ _ Hpre _ _ _].
  apply digits_from_mono; [|lia]. by destruct Hpre; lia.
Qed.

Lemma int64_complete s neg n out :
  int_literal s neg n -> in_s 64 (signed neg n) ->
  qdf_int64_parse (Some s) out = (QDF_STATUS_SUCCESS, signed neg n).
Proof.
  intros Hlit Hr. pose proof (int_literal_nonneg _ _ _ Hlit) as Hn.
  unfold qdf_int64_parse.
  rewrite (int_parse_complete _ _ _ _ _ Hlit)
    by (destruct neg; unfold in_s, signed in *; lia).
  destruct neg; cbn [QDF_IS_STATUS_ERROR QDF_IS_STATUS_SUCCESS negb signed] in *.
  - rewrite swrap_wrap, swrap_small by done.
    by rewrite (proj2 (Z.ltb_ge _ _)) by lia.
  - rewrite swrap_small by done. by rewrite (proj2 (Z.ltb_ge _ _)) by lia.
Qed.

Lemma uint64_complete s n out :
  int_literal s false n -> n < 2 ^ 64 ->
  qdf_uint64_parse (Some s) out = (QDF_STATUS_SUCCESS, n).
Proof.
  intros Hlit Hr. unfold qdf_uint64_parse.
  by rewrite (int_parse_complete _ _ _ _ _ Hlit).
Qed.

(** What the 64-bit parsers accept is a literal; the result is its value unless
    the literal overflowed, and then it is far outside the 32-bit range. *)
Lemma int64_sound s out v :
  cstr_ok s -> qdf_int64_parse (Some s) out = (QDF_STATUS_SUCCESS, v) ->
  exists neg n, int_literal s neg n /\ in_s 64 v /\
    (v = signed neg n \/ 2 ^ 59 <= Z.abs v).
Proof.
  intros Hok. unfold qdf_int64_parse.
  destruct (qdf_int_parse (Some s) 0 false) as [[st w] neg] eqn:Hp.
  destruct (decide (st = QDF_STATUS_SUCCESS)) as [->|Hst].
  2: { apply int_parse_err in Hp as [[-> |[-> | ->]] _]; done. }
  apply int_parse_sound in Hp as (n & Hlit & Hw & Hval); [|done].
  change (in_u 64 w) in Hw.
  cbn [QDF_IS_STATUS_ERROR QDF_IS_STATUS_SUCCESS negb].
  destruct neg.
  - pose proof (wrap_range 64 (- w) ltac:(lia)) as Hr1.
    pose proof (swrap_range 64 (wrap 64 (- w)) ltac:(lia)) as Hr2.
    pose proof (swrap_of_u 64 _ ltac:(lia) Hr1) as Es.
    pose proof (wrap_opp 64 w ltac:(lia) Hw) as Ew.
    destruct (Z.ltb_spec 0 (swrap 64 (wrap 64 (- w)))); [done|].
    intros [= <-]. exists true, n. split; [done|]. split; [done|]. cbn [signed].
    rewrite Es in *. rewrite Ew in *. clear Es Ew Hr1 Hr2 Hlit.
    destruct (Z.eqb_spec w 0); case_match; int_bounds; destruct Hval; lia.
  - pose proof (swrap_range 64 w ltac:(lia)) as Hr.
    pose proof (swrap_of_u 64 _ ltac:(lia) Hw) as Es.
    destruct (Z.ltb_spec (swrap 64 w) 0); [done|].
    intros [= <-]. exists false, n. split; [done|]. split; [done|]. cbn [signed].
    rewrite Es in *. clear Es Hr Hlit. case_match; int_bounds; destruct Hval; lia.
Qed.

Lemma uint64_sound s out v :
  cstr_ok s -> qdf_uint64_parse (Some s) out = (QDF_STATUS_SUCCESS, v) ->
  exists n, int_literal s false n /\ in_u 64 v /\ (v = n \/ 2 ^ 59 <= v).
Proof.
  intros Hok. unfold qdf_uint64_parse.
  destruct (qdf_int_parse (Some s) 0 false) as [[st w] neg] eqn:Hp.
  destruct (decide (st = QDF_STATUS_SUCCESS)) as [->|Hst].
  2: { apply int_parse_err in Hp as [[-> |[-> | ->]] _]; done. }
  apply int_parse_sound in Hp as (n & Hlit & Hw & Hval); [|done].
  change (in_u 64 w) in Hw.
  destruct neg; cbn; [done|]. intros [= <-]. exists n.
  split; [done|]. split; [done|]. destruct Hval; [left|right]; lia.
Qed.

End IntTheorems.

Lemma int32_parse_iff s out v :
  cstr_ok s ->
  qdf_int32_parse (Some s) out = (QDF_STATUS_SUCCESS, v) <->
  exists neg n, int_literal s neg n /\ v = signed neg n /\ in_s 32 v.
Proof.
  intros Hok. unfold qdf_int32_parse. split.
  - destruct (qdf_int64_parse (Some s) 0) as [st w] eqn:Hp.
    destruct (QDF_IS_STATUS_ERROR st) eqn:Hst; [by destruct st|].
    destruct st; try done. case_match eqn:E; [done|]. intros [= <-].
    apply negb_false_iff, Z.eqb_eq in E.
    apply (swrap_eq_iff 32) in E as Hr; [|lia]. rewrite E.
    destruct (int64_sound _ _ _ Hok Hp) as (neg & n & Hlit & _ & Hval).
    exists neg, n. int_bounds. repeat split; try done; lia.
  - intros (neg & n & Hlit & -> & Hr).
    rewrite (int64_complete _ _ _ _ Hlit) by (unfold in_s in *; lia). cbn.
    by rewrite swrap_small, Z.eqb_refl by done.
Qed.

(** C40 [qdf_int32_parse] accepts exactly the binary, octal, decimal and
    hexadecimal literals, blanks around them ignored, whose value is an
    [int32_t], and returns that value: no overflow of the 64-bit accumulator
    ever reaches a 32-bit caller. *)
Theorem qdf_int32_parse_exact s out v :
  cstr_ok s ->
  qdf_int32_parse (Some s) out = (QDF_STATUS_SUCCESS, v) <->
  exists neg n, int_literal s neg n /\ v = signed neg n /\ in_s 32 v.
Proof. apply int32_parse_iff. Qed.

Lemma qdf_int32_parse_exact_witness :
  cstr_ok (lit "-0x10 ") /\
  (qdf_int32_parse (Some (lit "-0x10 ")) 0 = (QDF_STATUS_SUCCESS, -16) <->
   exists neg n, int_literal (lit "-0x10 ") neg n /\ -16 = signed neg n /\ in_s 32 (-16)).
Proof.
  assert (cstr_ok (lit "-0x10 ")) as H by (repeat constructor; lia).
  split; [exact H|]. apply (qdf_int32_parse_exact (lit "-0x10 ") 0 (-16) H).
Defined.

Lemma uint32_parse_iff s out v :
  cstr_ok s ->
  qdf_uint32_parse (Some s) out = (QDF_STATUS_SUCCESS, v) <->
  int_literal s false v /\ in_u 32 v.
Proof.
  intros Hok. unfold qdf_uint32_parse. split.
  - destruct (qdf_uint64_parse (Some s) 0) as [st w] eqn:Hp.
    destruct (QDF_IS_STATUS_ERROR st) eqn:Hst; [by destruct st|].
    destruct st; try done. case_match eqn:E; [done|]. intros [= <-].
    apply negb_false_iff, Z.eqb_eq in E.
    apply (wrap_eq_iff 32) in E as Hr; [|lia]. rewrite E.
    destruct (uint64_sound _ _ _ Hok Hp) as (n & Hlit & _ & [->|Hval]); [done|].
    int_bounds. lia.
  - intros (Hlit & Hr).
    rewrite (uint64_complete _ _ _ Hlit) by (unfold in_u in *; lia). cbn.
    by rewrite wrap_small, Z.eqb_refl by done.
Qed.

(** [qdf_uint32_parse] accepts exactly the unsigned literals whose value is
    a [uint32_t], and returns that value. *)
Theorem qdf_uint32_parse_exact s out v :
  cstr_ok s ->
  qdf_uint32_parse (Some s) out = (QDF_STATUS_SUCCESS, v) <->
  int_literal s false v /\ in_u 32 v.
Proof. apply uint32_parse_iff. Qed.

Lemma qdf_uint32_parse_exact_witness :
  cstr_ok (lit " +4294967295") /\
  (qdf_uint32_parse (Some (lit " +4294967295")) 0 = (QDF_STATUS_SUCCESS, 4294967295) <->
   int_literal (lit " +4294967295") false 4294967295 /\ in_u 32 4294967295).
Proof.
  assert (cstr_ok (lit " +4294967295")) as H by (repeat constructor; lia).
  split; [exact H|]. apply (qdf_uint32_parse_exact (lit " +4294967295") 0 4294967295 H).
Defined.

(** The 64-bit parsers read every literal in their range exactly. *)
Theorem qdf_int64_uint64_parse_complete s neg n out :
  int_literal s neg n ->
  (in_s 64 (signed neg n) ->
   qdf_int64_parse (Some s) out = (QDF_STATUS_SUCCESS, signed neg n)) /\
  (neg = false -> in_u 64 n ->
   qdf_uint64_parse (Some s) out = (QDF_STATUS_SUCCESS, n)).
Proof.
  intros Hlit. split; [by apply int64_complete|].
  intros -> [_ Hn]. by apply uint64_complete.
Qed.

Lemma qdf_int64_uint64_parse_complete_witness :
  int_literal (lit "0x7fffffffffffffff") false 9223372036854775807 /\
  qdf_int64_parse (Some (lit "0x7fffffffffffffff")) 5
    = (QDF_STATUS_SUCCESS, 9223372036854775807).
Proof.
  assert (int_literal (lit "0x7fffffffffffffff") false 9223372036854775807) as H.
  { closed_literal (@nil Z) [ch_0; ch_x] 16 (lit "7fffffffffffffff"). }
  split; [exact H|].
  refine (proj1 (qdf_int64_uint64_parse_complete _ false _ 5 H) _).
  vm_compute. split; [discriminate|reflexivity].
Defined.

(** The overflow test [next_value < value] of the digit loop is not enough:
    literals above 2^64 - 1 whose wrapped value is still at least the value
    before the last digit are accepted with a wrong result. *)
Theorem qdf_int_parse_overflow_accepted :
  int_literal (lit "30000000000000000000") false 30000000000000000000 /\
  qdf_uint64_parse (Some (lit "30000000000000000000")) 0
    = (QDF_STATUS_SUCCESS, 11553255926290448384) /\
  int_literal (lit "0x17fffffffffffffff") false 27670116110564327423 /\
  qdf_int64_parse (Some (lit "0x17fffffffffffffff")) 0
    = (QDF_STATUS_SUCCESS, 9223372036854775807).
Proof.
  split; [|split; [vm_compute; reflexivity|split; [|vm_compute; reflexivity]]].
  - closed_literal (@nil Z) (@nil Z) 10 (lit "30000000000000000000").
  - closed_literal (@nil Z) [ch_0; ch_x] 16 (lit "17fffffffffffffff").
Qed.

(** * Addresses: syntax and theorems *)

(** [ps] joined by the separator [sep]. *)
Definition sep_join (sep : cstr) (ps : list cstr) : cstr :=
  match ps with
  | [] => []
  | p :: ps => p ++ concat (map (app sep) ps)
  end.

Inductive hex_pair_text : cstr -> Z -> Prop :=
  hex_pair_text_intro c1 c2 hi lo :
    hex_digit c1 = Some hi -> hex_digit c2 = Some lo ->
    hex_pair_text [c1; c2] (hi * 16 + lo).

(** Six hex pairs, all of them separated by colons or none. *)
Inductive mac_literal : cstr -> list Z -> Prop :=
  mac_literal_intro ws sep ps bs ws' :
    all_space ws -> (sep = [] \/ sep = [ch_colon]) -> length ps = 6%nat ->
    Forall2 hex_pair_text ps bs -> all_space ws' ->
    mac_literal (ws ++ sep_join sep ps ++ ws') bs.

(** One to three decimal digits of value at most 255. *)
Inductive octet_text : cstr -> Z -> Prop :=
  octet_text_intro ds :
    Forall (digit_of 10) ds -> (1 <= length ds <= 3)%nat ->
    digits_from 10 0 ds <= 255 ->
    octet_text ds (digits_from 10 0 ds).

Inductive ipv4_literal : cstr -> list Z -> Prop :=
  ipv4_literal_intro ws ps bs ws' :
    all_space ws -> length ps = 4%nat -> Forall2 octet_text ps bs -> all_space ws' ->
    ipv4_literal (ws ++ sep_join [ch_dot] ps ++ ws') bs.

Section MacParse.

Lemma hex_not_space c d : hex_digit c = Some d -> qdf_is_space c = false.
Proof.
  intros H. apply not_true_iff_false. intros E. by rewrite hex_digit_space in H.
Qed.

Lemma consume_char_cons c s : qdf_consume_char c (c :: s) = (Ok tt, s).
Proof. unfold qdf_consume_char. cbn. by rewrite Z.eqb_refl. Qed.

Lemma consume_char_ok c s r :
  c <> 0 -> qdf_consume_char c s = (Ok tt, r) -> s = c :: r.
Proof.
  intros Hc. unfold qdf_consume_char. case_match eqn:E; [done|].
  apply negb_false_iff, Z.eqb_eq in E. intros [= <-].
  destruct s; cbn in *; by subst.
Qed.

Lemma hex_pair_complete p b rest :
  hex_pair_text p b -> qdf_consume_hex_pair (p ++ rest) = (Ok b, rest).
Proof.
  intros [c1 c2 hi lo H1 H2]. unfold qdf_consume_hex_pair.
  rewrite consume_hex_spec. cbn. rewrite H1, consume_hex_spec. cbn. rewrite H2.
  apply hex_digit_range in H1, H2.
  by rewrite lor_shiftl_add, wrap_small by (int_bounds; lia).
Qed.

Lemma hex_pair_sound s b rest :
  qdf_consume_hex_pair s = (Ok b, rest) ->
  exists p, hex_pair_text p b /\ s = p ++ rest.
Proof.
  unfold qdf_consume_hex_pair. rewrite consume_hex_spec.
  destruct (hex_digit (c0 s)) as [hi|] eqn:H1; [|done]. rewrite consume_hex_spec.
  destruct (hex_digit (c0 (tail s))) as [lo|] eqn:H2; [|done]. intros [= <- <-].
  destruct s as [|c [|c' s]]; try done. cbn in *.
  pose proof (hex_digit_range _ _ H1). pose proof (hex_digit_range _ _ H2).
  rewrite lor_shiftl_add, wrap_small by (int_bounds; lia).
  exists [c; c']. by split.
Qed.

Lemma consume_char_err c s st r :
  qdf_consume_char c s = (Err st, r) -> st = QDF_STATUS_E_FAILURE.
Proof. unfold qdf_consume_char. by case_match; intros [=]. Qed.

Lemma hex_pair_err s st r :
  qdf_consume_hex_pair s = (Err st, r) -> st = QDF_STATUS_E_FAILURE.
Proof.
  unfold qdf_consume_hex_pair. rewrite consume_hex_spec.
  destruct (hex_digit (c0 s)); [|by intros [=]].
  rewrite consume_hex_spec. by destruct (hex_digit (c0 (tail s))); intros [=].
Qed.

Lemma mac_loop_err n colons bytes s st r :
  qdf_mac_parse_loop n colons bytes s = (Err st, r) -> st = QDF_STATUS_E_FAILURE.
Proof.
  revert bytes s. induction n as [|n IH]; intros bytes s; cbn; [done|].
  destruct (if colons then qdf_consume_char ch_colon s else (Ok tt, s))
    as [[[]|st'] s1] eqn:Hsep.
  - destruct (qdf_consume_hex_pair s1) as [[b|st'] s2] eqn:Hp; [apply IH|].
    intros [= <- _]. by eapply hex_pair_err.
  - intros [= <- _]. destruct colons; [by eapply consume_char_err|done].
Qed.

(** The loop reads exactly [n] separated hex pairs. *)
Lemma mac_loop_spec n colons bytes s addr rest :
  qdf_mac_parse_loop n colons bytes s = (Ok addr, rest) <->
  exists ps bs, length ps = n /\ Forall2 hex_pair_text ps bs /\ addr = bytes ++ bs /\
    s = concat (map (app (if colons : bool then [ch_colon] else [])) ps) ++ rest.
Proof.
  revert bytes s. induction n as [|n IH]; intros bytes s; cbn [qdf_mac_parse_loop].
  { split.
    - intros [= <- <-]. exists [], []. by rewrite app_nil_r.
    - intros ([|] & bs & [=] & Hbs & -> & ->). inversion Hbs. by rewrite app_nil_r. }
  split.
  - destruct (if colons then qdf_consume_char ch_colon s else (Ok tt, s)) as [[[]|st] s1] eqn:Hsep; [|done].
    assert (s = (if colons then [ch_colon] else []) ++ s1) as ->.
    { destruct colons; [by apply consume_char_ok in Hsep|by simplify_eq]. }
    destruct (qdf_consume_hex_pair s1) as [[b|] s2] eqn:Hp; [|done].
    apply hex_pair_sound in Hp as (p & Hp & ->). intros H.
    apply IH in H as (ps & bs & <- & Hbs & -> & ->).
    exists (p :: ps), (b :: bs). rewrite <- app_assoc. split; [done|].
    split; [by constructor|]. split; [done|]. cbn. by rewrite !app_assoc.
  - intros ([|p ps] & bs & [= Hn] & Hbs & -> & ->).
    inversion Hbs as [|? b ? bs' Hp Hbs']; subst. cbn [map concat].
    rewrite <- !app_assoc.
    assert ((if colons then qdf_consume_char ch_colon
               ((if colons then [ch_colon] else []) ++ p ++
                concat (map (app (if colons then [ch_colon] else [])) ps) ++ rest)
             else (Ok tt, (if colons then [ch_colon] else []) ++ p ++
                concat (map (app (if colons then [ch_colon] else [])) ps) ++ rest))
            = (Ok tt, p ++ concat (map (app (if colons then [ch_colon] else [])) ps) ++ rest))
      as -> by (destruct colons; [apply consume_char_cons|done]).
    rewrite (hex_pair_complete _ _ _ Hp). apply IH.
    exists ps, bs'. by rewrite <- app_assoc.
Qed.

Lemma hex_pair_head p b rest :
  hex_pair_text p b -> exists c d, c0 (p ++ rest) = c /\ hex_digit c = Some d.
Proof. intros [c1 c2 hi lo H1 _]. by exists c1, hi. Qed.

End MacParse.

(** [qdf_mac_parse] accepts exactly six hex pairs, all separated by colons or
    none, blanks around them ignored, and stores the six bytes they denote. *)
Theorem qdf_mac_parse_exact s out addr :
  cstr_ok s ->
  qdf_mac_parse (Some s) (Some out) = (QDF_STATUS_SUCCESS, Some addr) <->
  mac_literal s addr.
Proof.
  intros Hok. unfold qdf_mac_parse. split.
  - destruct (left_trim_split s) as (ws & Hs & Hws & _).
    destruct (qdf_consume_hex_pair (qdf_str_left_trim s)) as [[b|st] s1] eqn:Hp.
    2: { apply hex_pair_err in Hp as ->. done. }
    apply hex_pair_sound in Hp as (p & Hp & Hs1).
    generalize (c0 s1 =? ch_colon). intros colons.
    destruct (qdf_mac_parse_loop _ _ _ _) as [[a|st] s2] eqn:Hl.
    + apply mac_loop_spec in Hl as (ps & bs & Hlen & Hbs & -> & ->).
      destruct (c0 (qdf_str_left_trim s2) =? 0) eqn:Hz; [|done]. intros [= <-].
      rewrite Hs, Hs1. rewrite Hs, Hs1, !cstr_ok_app in Hok.
      rewrite (app_assoc p). apply (mac_literal_intro ws _ (p :: ps)).
      * done.
      * case_match; auto.
      * cbn in *. lia.
      * by constructor.
      * apply nul_after_trim; [by destruct_and!|lia].
    + apply mac_loop_err in Hl as ->. done.
  - intros [ws sep ps bs ws' Hws Hsep Hlen Hbs Hws'].
    destruct Hbs as [|p b ps bs Hp Hbs]; [done|]. cbn [sep_join].
    rewrite left_trim_app, <- app_assoc by done.
    destruct (hex_pair_head p b (concat (map (app sep) ps) ++ ws') Hp) as (c & d & Hc & Hd).
    rewrite left_trim_id by (rewrite Hc; by eapply hex_not_space).
    rewrite (hex_pair_complete _ _ _ Hp).
    assert ((if c0 (concat (map (app sep) ps) ++ ws') =? ch_colon then [ch_colon] else [])
            = sep) as Hcol.
    { destruct Hsep as [-> | ->].
      - destruct Hbs as [|p' b' ps bs Hp' Hbs]; [done|]. cbn [map concat app].
        rewrite <- app_assoc.
        match goal with |- context [c0 (p' ++ ?r)] =>
          destruct (hex_pair_head p' b' r Hp') as (c' & d' & Hc' & Hd') end.
        rewrite Hc'.
        destruct (Z.eqb_spec c' ch_colon) as [->|]; [done|done].
      - by destruct ps. }
    match goal with |- context [qdf_mac_parse_loop ?n ?c ?l ?t] =>
      assert (qdf_mac_parse_loop n c l t = (Ok ([b] ++ bs), ws')) as -> end.
    { apply mac_loop_spec. exists ps, bs. rewrite Hcol.
      split; [cbn in Hlen; lia|done]. }
    by rewrite left_trim_all_space.
Qed.

Lemma qdf_mac_parse_exact_witness :
  cstr_ok (lit "01:23:45:67:89:aB") /\
  (qdf_mac_parse (Some (lit "01:23:45:67:89:aB")) (Some [])
     = (QDF_STATUS_SUCCESS, Some [1; 35; 69; 103; 137; 171]) <->
   mac_literal (lit "01:23:45:67:89:aB") [1; 35; 69; 103; 137; 171]).
Proof.
  assert (cstr_ok (lit "01:23:45:67:89:aB")) as H by (repeat constructor; lia).
  split; [exact H|].
  apply (qdf_mac_parse_exact (lit "01:23:45:67:89:aB") [] [1; 35; 69; 103; 137; 171] H).
Defined.

Section Ipv4Parse.

Lemma consume_dec_spec str :
  qdf_consume_dec str =
    if (ch_0 <=? c0 str) && (c0 str <=? ch_9) then (Ok (c0 str - ch_0), tail str)
    else (Err QDF_STATUS_E_FAILURE, str).
Proof. done. Qed.

Lemma dec_char_digit c : dec_char c -> digit_of 10 c /\ hex_digit c = Some (c - ch_0).
Proof.
  unfold dec_char, digit_of, hex_digit. intros Hc.
  rewrite (proj2 (andb_true_iff _ _)) by lia. split; [|done]. eexists. split; [done|lia].
Qed.

Lemma dec_test c : (ch_0 <=? c) && (c <=? ch_9) = true <-> dec_char c.
Proof. unfold dec_char. lia. Qed.

Lemma dec_digit_val c : dec_char c -> default 0 (hex_digit c) = c - ch_0.
Proof. intros H. by rewrite (proj2 (dec_char_digit c H)). Qed.

(** The digit loop reads the longest run of at most [i] decimal digits. *)
Lemma octet_loop_spec i len octet s :
  0 <= octet < 10000 -> 0 <= len -> len + Z.of_nat i < 256 ->
  octet * 10 ^ (Z.of_nat i) + 10 ^ (Z.of_nat i) <= 10000 ->
  exists ds rest, s = ds ++ rest /\ (length ds <= i)%nat /\ Forall (digit_of 10) ds /\
    (length ds = i \/ ~ dec_char (c0 rest)) /\
    qdf_consume_octet_dec_loop i len octet s =
      (len + Z.of_nat (length ds), digits_from 10 octet ds, rest).
Proof.
  revert len octet s. induction i as [|i IH]; intros len octet s Ho Hl Hli Hb.
  { exists [], s. repeat split; try done; [by left|]. cbn. by rewrite Z.add_0_r. }
  cbn [qdf_consume_octet_dec_loop]. rewrite consume_dec_spec.
  destruct ((ch_0 <=? c0 s) && (c0 s <=? ch_9)) eqn:E.
  - apply dec_test in E. destruct s as [|c s]; [unfold dec_char in E; cbn in E; lia|].
    change (c0 (c :: s)) with c in *. cbn [tail]. pose proof E as Hc. unfold dec_char in Hc.
    assert (0 < 10 ^ Z.of_nat i) as Hp by (apply Z.pow_pos_nonneg; lia).
    rewrite Nat2Z.inj_succ, Z.pow_succ_r in Hb by lia.
    assert (octet * 10 + (c - ch_0) < 10000) as Hoct by nia.
    rewrite !wrap_small by (int_bounds; nia).
    destruct (IH (len + 1) (octet * 10 + (c - ch_0)) s)
      as (ds & rest & -> & Hlen & Hds & Hstop & ->); [nia|lia|lia|nia|].
    exists (c :: ds), rest. split; [done|]. split; [cbn; lia|].
    split; [constructor; [by apply dec_char_digit|done]|].
    split; [cbn; destruct Hstop; [left; lia|by right]|].
    cbn [digits_from length]. rewrite dec_digit_val by done. do 2 f_equal. lia.
  - exists [], s. repeat split; try done; [cbn; lia| |cbn; by rewrite Z.add_0_r].
    right. intros H. apply dec_test in H. congruence.
Qed.

Lemma octet_sound s b rest :
  qdf_consume_octet_dec s = (Ok b, rest) ->
  exists p, octet_text p b /\ s = p ++ rest.
Proof.
  unfold qdf_consume_octet_dec.
  destruct (octet_loop_spec 3 0 0 s) as (ds & r & -> & Hlen & Hds & _ & ->); [lia..|].
  destruct (Z.eqb_spec (0 + Z.of_nat (length ds)) 0); [done|].
  destruct (Z.ltb_spec 255 (digits_from 10 0 ds)); [done|]. intros [= <- <-].
  pose proof (digits_from_mono 10 0 ds ltac:(lia) ltac:(lia)).
  rewrite wrap_small by (int_bounds; lia).
  exists ds. split; [|done]. constructor; [done|lia|done].
Qed.

Lemma octet_err s st r :
  qdf_consume_octet_dec s = (Err st, r) -> st = QDF_STATUS_E_FAILURE.
Proof.
  unfold qdf_consume_octet_dec. destruct (qdf_consume_octet_dec_loop _ _ _ _) as [[? ?] ?].
  by repeat case_match; intros [=].
Qed.

(** Completeness of the loop, for a digit string that ends where it must. *)
Lemma octet_loop_complete ds rest i len octet :
  Forall (digit_of 10) ds -> (length ds <= i)%nat ->
  (length ds = i \/ ~ dec_char (c0 rest)) ->
  0 <= octet -> 0 <= len -> len + Z.of_nat (length ds) < 256 ->
  digits_from 10 octet ds < 65536 ->
  qdf_consume_octet_dec_loop i len octet (ds ++ rest) =
    (len + Z.of_nat (length ds), digits_from 10 octet ds, rest).
Proof.
  intros Hds. revert i len octet. induction Hds as [|c ds Hc Hds IH];
    intros i len octet Hlen Hstop Ho Hl Hl' Hfit.
  - cbn [app length digits_from]. rewrite Z.add_0_r.
    destruct i as [|i]; [done|]. cbn [qdf_consume_octet_dec_loop].
    rewrite consume_dec_spec. destruct Hstop as [[=]|Hstop].
    destruct ((ch_0 <=? c0 rest) && (c0 rest <=? ch_9)) eqn:E; [|done].
    by apply dec_test in E.
  - destruct i as [|i]; [cbn in Hlen; lia|]. apply digit_of_10 in Hc.
    cbn [app length digits_from qdf_consume_octet_dec_loop] in *.
    rewrite consume_dec_spec. change (c0 (c :: ds ++ rest)) with c.
    rewrite (proj2 (dec_test c) Hc). cbn [tail]. rewrite dec_digit_val in * by done.
    unfold dec_char in Hc.
    pose proof (digits_from_mono 10 (octet * 10 + (c - ch_0)) ds ltac:(lia) ltac:(lia)).
    rewrite !wrap_small by (int_bounds; lia).
    rewrite IH; [do 2 f_equal; lia|lia|destruct Hstop; [left; lia|by right]|lia..].
Qed.

Lemma octet_complete p b rest :
  octet_text p b -> ~ dec_char (c0 rest) ->
  qdf_consume_octet_dec (p ++ rest) = (Ok b, rest).
Proof.
  intros [ds Hds Hlen Hle] Hrest. unfold qdf_consume_octet_dec.
  rewrite octet_loop_complete by (done || lia || by right).
  pose proof (digits_from_mono 10 0 ds ltac:(lia) ltac:(lia)).
  rewrite (proj2 (Z.eqb_neq _ _)), (proj2 (Z.ltb_ge _ _)), wrap_small by (int_bounds; lia).
  done.
Qed.

Lemma octet_head p b rest : octet_text p b -> dec_char (c0 (p ++ rest)).
Proof.
  intros [ds Hds Hlen _]. destruct Hds as [|c ds Hc _]; [cbn in Hlen; lia|].
  by apply digit_of_10.
Qed.

Lemma ipv4_loop_sound n bytes s addr rest :
  qdf_ipv4_parse_loop n bytes s = (Ok addr, rest) ->
  exists ps bs, length ps = n /\ Forall2 octet_text ps bs /\ addr = bytes ++ bs /\
    s = concat (map (app [ch_dot]) ps) ++ rest.
Proof.
  revert bytes s. induction n as [|n IH]; intros bytes s; cbn [qdf_ipv4_parse_loop].
  { intros [= <- <-]. exists [], []. by rewrite app_nil_r. }
  destruct (qdf_consume_char ch_dot s) as [[[]|st] s1] eqn:Hc; [|done].
  apply consume_char_ok in Hc as ->; [|done].
  destruct (qdf_consume_octet_dec s1) as [[b|] s2] eqn:Hp; [|done].
  apply octet_sound in Hp as (p & Hp & ->). intros H.
  apply IH in H as (ps & bs & <- & Hbs & -> & ->).
  exists (p :: ps), (b :: bs). rewrite <- app_assoc. split; [done|].
  split; [by constructor|]. split; [done|]. cbn. by rewrite <- app_assoc.
Qed.

Lemma ipv4_loop_err n bytes s st r :
  qdf_ipv4_parse_loop n bytes s = (Err st, r) -> st = QDF_STATUS_E_FAILURE.
Proof.
  revert bytes s. induction n as [|n IH]; intros bytes s; cbn; [done|].
  destruct (qdf_consume_char ch_dot s) as [[[]|st'] s1] eqn:Hc.
  - destruct (qdf_consume_octet_dec s1) as [[b|st'] s2] eqn:Hp; [apply IH|].
    intros [= <- _]. by eapply octet_err.
  - intros [= <- _]. by eapply consume_char_err.
Qed.

Lemma dot_tail_not_dec (ps : list cstr) rest :
  ~ dec_char (c0 rest) -> ~ dec_char (c0 (concat (map (app [ch_dot]) ps) ++ rest)).
Proof. destruct ps; [done|]. unfold dec_char, c0. cbn. lia. Qed.

Lemma ipv4_loop_complete ps bs bytes rest :
  Forall2 octet_text ps bs -> ~ dec_char (c0 rest) ->
  qdf_ipv4_parse_loop (length ps) bytes (concat (map (app [ch_dot]) ps) ++ rest)
    = (Ok (bytes ++ bs), rest).
Proof.
  intros Hbs Hrest. revert bytes. induction Hbs as [|p b ps bs Hp Hbs IH]; intros bytes.
  - cbn. by rewrite app_nil_r.
  - cbn [map concat length qdf_ipv4_parse_loop]. rewrite <- !app_assoc. cbn [app].
    rewrite consume_char_cons, (octet_complete _ _ _ Hp) by (by apply dot_tail_not_dec).
    by rewrite IH, <- app_assoc.
Qed.

Lemma space_not_dec ws : all_space ws -> ~ dec_char (c0 ws).
Proof.
  intros [|c ws' Hc _]; unfold dec_char; [cbn; lia|].
  unfold qdf_is_space in Hc. cbn. lia.
Qed.

End Ipv4Parse.

(** [qdf_ipv4_parse] accepts exactly four dotted decimal octets of at most
    three digits and at most 255 each, blanks around them ignored. *)
Theorem qdf_ipv4_parse_exact s out addr :
  cstr_ok s ->
  qdf_ipv4_parse (Some s) (Some out) = (QDF_STATUS_SUCCESS, Some addr) <->
  ipv4_literal s addr.
Proof.
  intros Hok. unfold qdf_ipv4_parse. split.
  - destruct (left_trim_split s) as (ws & Hs & Hws & _).
    destruct (qdf_consume_octet_dec (qdf_str_left_trim s)) as [[b|st] s1] eqn:Hp.
    2: { apply octet_err in Hp as ->. done. }
    apply octet_sound in Hp as (p & Hp & Hs1).
    destruct (qdf_ipv4_parse_loop _ _ _) as [[a|st] s2] eqn:Hl.
    2: { apply ipv4_loop_err in Hl as ->. done. }
    apply ipv4_loop_sound in Hl as (ps & bs & Hlen & Hbs & -> & ->).
    destruct (c0 (qdf_str_left_trim s2) =? 0) eqn:Hz; [|done]. intros [= <-].
    rewrite Hs, Hs1. rewrite Hs, Hs1, !cstr_ok_app in Hok.
    rewrite (app_assoc p). apply (ipv4_literal_intro ws (p :: ps)); [done|cbn in *; lia| |].
    + by constructor.
    + apply nul_after_trim; [by destruct_and!|lia].
  - intros [ws ps bs ws' Hws Hlen Hbs Hws'].
    destruct Hbs as [|p b ps bs Hp Hbs]; [done|]. cbn [sep_join].
    pose proof (space_not_dec _ Hws') as Hnd.
    rewrite left_trim_app, <- app_assoc by done.
    rewrite left_trim_id by (by eapply dec_char_not_space, octet_head).
    rewrite (octet_complete _ _ _ Hp) by (by apply dot_tail_not_dec).
    assert (QDF_IPV4_ADDR_SIZE - 1 = length ps)%nat as -> by (cbn in *; lia).
    rewrite (ipv4_loop_complete _ _ _ _ Hbs) by done.
    by rewrite left_trim_all_space.
Qed.

Lemma qdf_ipv4_parse_exact_witness :
  cstr_ok (lit " 0.1.12.123 ") /\
  (qdf_ipv4_parse (Some (lit " 0.1.12.123 ")) (Some [])
     = (QDF_STATUS_SUCCESS, Some [0; 1; 12; 123]) <->
   ipv4_literal (lit " 0.1.12.123 ") [0; 1; 12; 123]).
Proof.
  assert (cstr_ok (lit " 0.1.12.123 ")) as H by (repeat constructor; lia).
  split; [exact H|].
  apply (qdf_ipv4_parse_exact (lit " 0.1.12.123 ") [] [0; 1; 12; 123] H).
Defined.

(** One to four hexadecimal digits. *)
Inductive hextet_text : cstr -> Z -> Prop :=
  hextet_text_intro ds :
    Forall (digit_of 16) ds -> (1 <= length ds <= 4)%nat ->
    hextet_text ds (digits_from 16 0 ds).

(** The bytes of hextets in network order. *)
Definition hextet_bytes (vs : list Z) : list Z :=
  concat (map (fun v => [v / 256; v mod 256]) vs).

(** Eight colon-separated hextets, or at most seven with one "::" that stands
    for the missing zero hextets. *)
Inductive ipv6_literal : cstr -> list Z -> Prop :=
  | ipv6_full ws ps vs ws' :
      all_space ws -> length ps = 8%nat -> Forall2 hextet_text ps vs -> all_space ws' ->
      ipv6_literal (ws ++ sep_join [ch_colon] ps ++ ws') (hextet_bytes vs)
  | ipv6_compressed ws ps vs qs us ws' :
      all_space ws -> Forall2 hextet_text ps vs -> Forall2 hextet_text qs us ->
      (length ps + length qs <= 7)%nat -> all_space ws' ->
      ipv6_literal
        (ws ++ sep_join [ch_colon] ps ++ [ch_colon; ch_colon] ++
         sep_join [ch_colon] qs ++ ws')
        (hextet_bytes vs ++ replicate (16 - 2 * (length vs + length us)) 0 ++
         hextet_bytes us).

Section Ipv6Parse.

Lemma hextet_value_range p v : hextet_text p v -> 0 <= v < 65536.
Proof.
  intros [ds Hds Hlen].
  assert (forall ds v, Forall (digit_of 16) ds -> 0 <= v ->
            digits_from 16 v ds < (v + 1) * 16 ^ Z.of_nat (length ds)) as Hb.
  { clear. intros ds v Hds. revert v. induction Hds as [|c ds (d & Hd & _) Hds IH]; intros v Hv.
    - cbn. lia.
    - cbn [digits_from length]. rewrite Hd. cbn [default from_option id].
      rewrite Nat2Z.inj_succ, Z.pow_succ_r by lia. apply hex_digit_range in Hd.
      assert (0 < 16 ^ Z.of_nat (length ds)) by (apply Z.pow_pos_nonneg; lia).
      specialize (IH (v * 16 + d) ltac:(lia)). nia. }
  specialize (Hb ds 0 Hds ltac:(lia)).
  pose proof (digits_from_mono 16 0 ds ltac:(lia) ltac:(lia)).
  assert (16 ^ Z.of_nat (length ds) <= 16 ^ 4) by (apply Z.pow_le_mono_r; lia).
  lia.
Qed.

Lemma hextet_loop_complete ds rest i len h :
  Forall (digit_of 16) ds -> (length ds <= i)%nat ->
  (length ds = i \/ hex_digit (c0 rest) = None) ->
  0 <= h -> 0 <= len -> len + Z.of_nat (length ds) < 256 ->
  digits_from 16 h ds < 65536 ->
  qdf_consume_hextet_loop i len h (ds ++ rest) =
    (len + Z.of_nat (length ds), digits_from 16 h ds, rest).
Proof.
  intros Hds. revert i len h. induction Hds as [|c ds (d & Hd & _) Hds IH];
    intros i len h Hlen Hstop Hh Hl Hl' Hfit.
  - cbn [app length digits_from]. rewrite Z.add_0_r. destruct i as [|i]; [done|].
    destruct Hstop as [[=]|Hstop]. cbn. by rewrite consume_hex_spec, Hstop.
  - destruct i as [|i]; [cbn in Hlen; lia|].
    cbn [app length digits_from qdf_consume_hextet_loop] in *.
    rewrite consume_hex_spec. change (c0 (c :: ds ++ rest)) with c.
    rewrite Hd in *. cbn [tail default from_option id] in *. apply hex_digit_range in Hd.
    pose proof (digits_from_mono 16 (h * 16 + d) ds ltac:(lia) ltac:(lia)).
    rewrite Z.shiftl_mul_pow2 by lia. change (2 ^ 4) with 16.
    rewrite !wrap_small by (int_bounds; lia).
    rewrite IH; [do 2 f_equal; lia|lia|destruct Hstop; [left; lia|by right]|lia..].
Qed.

Lemma hextet_complete p v rest :
  hextet_text p v -> hex_digit (c0 rest) = None ->
  qdf_consume_hextet (p ++ rest) = (Ok v, rest).
Proof.
  intros Hp Hrest. pose proof (hextet_value_range _ _ Hp). destruct Hp as [ds Hds Hlen].
  unfold qdf_consume_hextet. rewrite hextet_loop_complete by (done || lia || by right).
  by rewrite (proj2 (Z.eqb_neq _ _)) by lia.
Qed.

Lemma hextet_stop s : hex_digit (c0 s) = None ->
  qdf_consume_hextet s = (Err QDF_STATUS_E_FAILURE, s).
Proof.
  intros H. unfold qdf_consume_hextet. cbn [qdf_consume_hextet_loop].
  by rewrite consume_hex_spec, H.
Qed.

Lemma hextet_bytes_length vs : length (hextet_bytes vs) = (2 * length vs)%nat.
Proof.
  induction vs as [|v vs IH]; [done|].
  change (hextet_bytes (v :: vs)) with (v / 256 :: v mod 256 :: hextet_bytes vs).
  cbn [length]. lia.
Qed.

(** Storing one hextet behind the bytes read so far. *)
Lemma store_hextet found v x y rest hf :
  length found = Z.to_nat (hf * 2) -> 0 <= hf -> 0 <= v < 65536 ->
  <[Z.to_nat (hf * 2 + 1) := wrap 8 v]>
    (<[Z.to_nat (hf * 2) := wrap 8 (Z.shiftr v 8)]> (found ++ x :: y :: rest))
  = (found ++ hextet_bytes [v]) ++ rest.
Proof.
  intros Hlen Hhf Hv.
  replace (Z.to_nat (hf * 2 + 1)) with (length found + 1)%nat by lia.
  replace (Z.to_nat (hf * 2)) with (length found + 0)%nat by lia.
  rewrite !insert_app_r. cbn. rewrite <- app_assoc. cbn.
  rewrite Z.shiftr_div_pow2 by lia. change (2 ^ 8) with 256.
  rewrite wrap_small; [done|]. int_bounds. split; [apply Z.div_pos; lia|].
  apply Z.div_lt_upper_bound; lia.
Qed.

(** The loop on a run of hextets that ends at [rest], which starts neither a
    hextet nor a colon. *)
Lemma ipv6_loop_run n p ps v vs found g zc rest :
  Forall2 hextet_text (p :: ps) (v :: vs) -> (length (p :: ps) <= n)%nat ->
  (length found + 2 * n = 16)%nat -> length g = (2 * n)%nat ->
  hex_digit (c0 rest) = None -> c0 rest <> ch_colon ->
  qdf_ipv6_parse_loop n (found ++ g) zc (8 - Z.of_nat n)
    (sep_join [ch_colon] (p :: ps) ++ rest) =
  (Ok (found ++ hextet_bytes (v :: vs) ++ drop (2 * length (v :: vs)) g, zc,
       8 - Z.of_nat n + Z.of_nat (length (v :: vs))), rest).
Proof.
  revert n p v vs found g. induction ps as [|p' ps IH];
    intros n p v vs found g Hall Hn Hlen Hg Hhex Hcol;
    inversion Hall as [|? ? ? ? Hp Hps]; subst; (destruct n as [|n]; [cbn in Hn; lia|]);
    (destruct g as [|x [|y g]]; [cbn in Hg; lia..|]);
    pose proof (hextet_value_range _ _ Hp) as Hv; cbn [qdf_ipv6_parse_loop].
  - inversion Hps; subst. cbn [sep_join map concat]. rewrite app_nil_r.
    rewrite (hextet_complete _ _ _ Hp) by done.
    unfold qdf_consume_char. rewrite (proj2 (Z.eqb_neq _ _) Hcol). cbn [negb].
    rewrite store_hextet by lia. rewrite wrap_small by (int_bounds; lia).
    cbn [length drop Nat.mul Nat.add]. rewrite <- app_assoc. do 3 f_equal.
  - inversion Hps as [|? v' ? vs' Hp' Hps']; subst.
    change (sep_join [ch_colon] (p :: p' :: ps)) with
      (p ++ [ch_colon] ++ sep_join [ch_colon] (p' :: ps)).
    rewrite <- !app_assoc.
    rewrite (hextet_complete _ _ _ Hp) by done. cbn [app]. rewrite consume_char_cons.
    assert (qdf_consume_char ch_colon (sep_join [ch_colon] (p' :: ps) ++ rest) =
            (Err QDF_STATUS_E_FAILURE, sep_join [ch_colon] (p' :: ps) ++ rest)) as ->.
    { unfold qdf_consume_char. destruct Hp' as [ds Hds Hdl].
      destruct Hds as [|c ds (d & Hd & _) _]; [cbn in Hdl; lia|]. cbn.
      destruct (Z.eqb_spec c ch_colon) as [->|]; [done|done]. }
    rewrite store_hextet by lia. rewrite wrap_small by (int_bounds; lia).
    replace (8 - Z.of_nat (S n) + 1) with (8 - Z.of_nat n) by lia.
    rewrite (IH n p' v' vs' _ g) by
      (try done; rewrite ?length_app, ?hextet_bytes_length; cbn in *; lia).
    cbn [length]. f_equal. f_equal. f_equal; [f_equal|lia].
    rewrite <- app_assoc. f_equal. cbn [hextet_bytes map concat app].
    do 2 f_equal.
    replace (2 * S (S (length vs')))%nat with (S (S (2 * S (length vs'))))%nat by lia.
    done.
Qed.

(** The loop on a run of hextets that ends in the first "::". *)
Lemma ipv6_loop_run_compress n p ps v vs found g rest :
  Forall2 hextet_text (p :: ps) (v :: vs) -> (length (p :: ps) <= n <= 8)%nat ->
  (length found + 2 * n = 16)%nat -> length g = (2 * n)%nat ->
  qdf_ipv6_parse_loop n (found ++ g) (-1) (8 - Z.of_nat n)
    (sep_join [ch_colon] (p :: ps) ++ [ch_colon; ch_colon] ++ rest) =
  qdf_ipv6_parse_loop (n - length (v :: vs))
    (found ++ hextet_bytes (v :: vs) ++ drop (2 * length (v :: vs)) g)
    (8 - Z.of_nat n + Z.of_nat (length (v :: vs)))
    (8 - Z.of_nat n + Z.of_nat (length (v :: vs))) rest.
Proof.
  revert n p v vs found g. induction ps as [|p' ps IH];
    intros n p v vs found g Hall Hn Hlen Hg;
    inversion Hall as [|? ? ? ? Hp Hps]; subst; (destruct n as [|n]; [cbn in Hn; lia|]);
    (destruct g as [|x [|y g]]; [cbn in Hg; lia..|]);
    pose proof (hextet_value_range _ _ Hp) as Hv; cbn [qdf_ipv6_parse_loop].
  - inversion Hps; subst. cbn [sep_join map concat]. rewrite app_nil_r.
    rewrite (hextet_complete _ _ _ Hp) by done. cbn [app]. rewrite !consume_char_cons.
    cbn [Z.leb Z.compare]. rewrite store_hextet by (cbn in *; lia).
    rewrite wrap_small by (int_bounds; lia).
    cbn [length drop Nat.mul Nat.add Nat.sub]. rewrite <- app_assoc, Nat.sub_0_r.
    rewrite swrap_small by (int_bounds; lia). done.
  - inversion Hps as [|? v' ? vs' Hp' Hps']; subst.
    change (sep_join [ch_colon] (p :: p' :: ps)) with
      (p ++ [ch_colon] ++ sep_join [ch_colon] (p' :: ps)).
    rewrite <- !app_assoc.
    rewrite (hextet_complete _ _ _ Hp) by done. cbn [app]. rewrite consume_char_cons.
    match goal with |- context [qdf_consume_char ch_colon ?t] =>
      assert (qdf_consume_char ch_colon t = (Err QDF_STATUS_E_FAILURE, t)) as -> end.
    { unfold qdf_consume_char. destruct Hp' as [ds Hds Hdl].
      destruct Hds as [|c ds (d & Hd & _) _]; [cbn in Hdl; lia|]. cbn.
      by destruct (Z.eqb_spec c ch_colon) as [->|]. }
    rewrite store_hextet by (cbn in *; lia). rewrite wrap_small by (int_bounds; lia).
    replace (8 - Z.of_nat (S n) + 1) with (8 - Z.of_nat n) by lia.
    rewrite (IH n p' v' vs' _ g) by
      (try done; rewrite ?length_app, ?hextet_bytes_length; cbn in *; lia).
    cbn [length Nat.sub]. rewrite <- app_assoc.
    replace (2 * S (S (length vs')))%nat with (S (S (2 * S (length vs'))))%nat by lia.
    replace (8 - Z.of_nat (S n) + Z.of_nat (S (S (length vs')))) with
      (8 - Z.of_nat n + Z.of_nat (S (length vs'))) by lia.
    done.
Qed.

Lemma apply_zero_comp_spec a b A B G :
  length A = (2 * a)%nat -> length B = (2 * b)%nat ->
  length (A ++ B ++ G) = 16%nat -> (a + b <= 7)%nat ->
  qdf_ipv6_apply_zero_comp (A ++ B ++ G) (Z.of_nat a + Z.of_nat b) (Z.of_nat a) =
  A ++ replicate (16 - 2 * (a + b)) 0 ++ B.
Proof.
  intros HA HB Hlen Hab. rewrite !length_app in Hlen.
  unfold qdf_ipv6_apply_zero_comp, mem_move, mem_zero.
  set (zs := (16 - 2 * (a + b))%nat).
  replace (Z.to_nat (Z.of_nat a * 2)) with (length A) by lia.
  replace (Z.to_nat (Z.of_nat a * 2 + (8 - (Z.of_nat a + Z.of_nat b)) * 2))
    with (length A + zs)%nat by lia.
  replace (Z.to_nat ((Z.of_nat a + Z.of_nat b - Z.of_nat a) * 2)) with (length B) by lia.
  replace (Z.to_nat (Z.of_nat a * 2 + (8 - (Z.of_nat a + Z.of_nat b)) * 2 - Z.of_nat a * 2))
    with zs by lia.
  destruct (Z.eqb_spec ((Z.of_nat a + Z.of_nat b - Z.of_nat a) * 2) 0) as [Hz|Hz]; cbn [negb].
  - assert (B = []) as -> by (apply length_zero_iff_nil; lia). cbn [app].
    rewrite take_app_length, (drop_ge (A ++ G)) by (rewrite length_app; lia). done.
  - rewrite drop_app_length, take_app_length.
    rewrite (drop_ge (A ++ B ++ G)) by (rewrite !length_app; lia). rewrite app_nil_r.
    rewrite (take_app_ge A) by lia.
    replace (length A + zs - length A)%nat with zs by lia.
    rewrite <- (app_assoc A), take_app_length.
    do 2 f_equal. rewrite app_assoc, drop_app_length'; [done|].
    rewrite length_app, length_take, length_app. lia.
Qed.

Lemma hextet_head p v rest :
  hextet_text p v -> exists d, hex_digit (c0 (p ++ rest)) = Some d.
Proof.
  intros [ds Hds Hlen]. destruct Hds as [|c ds (d & Hd & _) _]; [cbn in Hlen; lia|].
  by exists d.
Qed.

Lemma hex_not_colon s d : hex_digit (c0 s) = Some d -> c0 s <> ch_colon.
Proof. intros H E. by rewrite E in H. Qed.

Lemma space_stop ws : all_space ws -> hex_digit (c0 ws) = None /\ c0 ws <> ch_colon.
Proof.
  intros Hws. split; [by apply c0_all_space|].
  destruct Hws as [|c ws Hc _]; [done|]. unfold qdf_is_space in Hc. cbn. lia.
Qed.

(** What follows a "::" after [length found / 2] hextets. *)
Lemma ipv6_loop_tail n qs us found g ws zc :
  Forall2 hextet_text qs us -> (length qs <= n)%nat -> (1 <= n)%nat ->
  (length found + 2 * n = 16)%nat -> length g = (2 * n)%nat -> all_space ws ->
  zc = 8 - Z.of_nat n ->
  qdf_ipv6_parse_loop n (found ++ g) zc (8 - Z.of_nat n) (sep_join [ch_colon] qs ++ ws) =
  (Ok (found ++ hextet_bytes us ++ drop (2 * length us) g, zc,
       8 - Z.of_nat n + Z.of_nat (length us)), ws).
Proof.
  intros Hall Hn Hn1 Hlen Hg Hws ->. destruct (space_stop _ Hws) as [Hx Hc].
  destruct Hall as [|q u qs us Hq Hall].
  - destruct n as [|n]; [lia|]. cbn [sep_join app qdf_ipv6_parse_loop].
    rewrite hextet_stop by done. rewrite Z.eqb_refl. cbn. by rewrite Z.add_0_r.
  - apply ipv6_loop_run; [by constructor|done..].
Qed.

End Ipv6Parse.

(** [qdf_ipv6_parse] reads every IPv6 address of the documented syntax: eight
    hextets, or fewer with one "::" that is replaced by the missing zeros;
    whatever the uninitialised local [addr] held does not show in the result. *)
Theorem qdf_ipv6_parse_complete uninit s out addr :
  length uninit = QDF_IPV6_ADDR_SIZE -> ipv6_literal s addr ->
  qdf_ipv6_parse uninit (Some s) (Some out) = (QDF_STATUS_SUCCESS, Some addr).
Proof.
  intros Hun [ws ps vs ws' Hws Hlen Hall Hws'|ws ps vs qs us ws' Hws Hps Hqs Hlen Hws'];
    unfold qdf_ipv6_parse; rewrite left_trim_app by done.
  - destruct (space_stop _ Hws') as [Hx Hc]. apply Forall2_length in Hall as Hvs.
    destruct Hall as [|p v ps vs Hp Hall]; [done|].
    assert (exists d, hex_digit (c0 (sep_join [ch_colon] (p :: ps) ++ ws')) = Some d)
      as (d & Hd) by (cbn; rewrite <- app_assoc; by eapply hextet_head).
    rewrite left_trim_id by (by eapply hex_not_space).
    unfold qdf_consume_char at 1. rewrite (proj2 (Z.eqb_neq _ _) (hex_not_colon _ _ Hd)).
    cbn [negb].
    pose proof (ipv6_loop_run 8 p ps v vs [] uninit (-1) ws') as Hl.
    change (8 - Z.of_nat 8) with 0 in Hl. rewrite !app_nil_l in Hl. rewrite Hl by
      (first [by constructor | done | cbn in *; lia]).
    rewrite left_trim_all_space by done. cbn [app c0 nth Z.eqb negb].
    replace (0 + Z.of_nat (length (v :: vs))) with 8 by (cbn in *; lia). cbn.
    rewrite drop_ge, app_nil_r by (cbn in *; lia). done.
  - pose proof (Forall2_length _ _ _ Hps) as Hvs. pose proof (Forall2_length _ _ _ Hqs) as Hus.
    destruct Hps as [|p v ps vs Hp Hps].
    + cbn [sep_join app]. rewrite left_trim_id by done. rewrite !consume_char_cons.
      pose proof (ipv6_loop_tail 8 qs us [] uninit ws' 0) as Hl.
      change (8 - Z.of_nat 8) with 0 in Hl. rewrite !app_nil_l in Hl.
      rewrite Hl by (cbn in *; done || lia).
      rewrite left_trim_all_space by done. cbn [app c0 nth Z.eqb negb].
      rewrite (proj2 (Z.ltb_lt _ _)) by (cbn in *; lia). cbn [Z.ltb Z.compare].
      pose proof (apply_zero_comp_spec 0 (length us) [] (hextet_bytes us)
        (drop (2 * length us) uninit)) as Hz.
      do 2 f_equal. apply Hz; [done|apply hextet_bytes_length| |cbn in *; lia].
      cbn. rewrite length_app, hextet_bytes_length, length_drop. cbn in *. lia.
    + assert (exists d, hex_digit (c0 (sep_join [ch_colon] (p :: ps) ++ [ch_colon; ch_colon]
                ++ sep_join [ch_colon] qs ++ ws')) = Some d)
        as (d & Hd) by (cbn [sep_join]; rewrite <- app_assoc; by eapply hextet_head).
      rewrite left_trim_id by (by eapply hex_not_space).
      unfold qdf_consume_char at 1. rewrite (proj2 (Z.eqb_neq _ _) (hex_not_colon _ _ Hd)).
      cbn [negb].
      pose proof (ipv6_loop_run_compress 8 p ps v vs [] uninit) as Hl.
      change (8 - Z.of_nat 8) with 0 in Hl. rewrite !app_nil_l in Hl.
      rewrite Hl by (first [by constructor | done | cbn in *; lia]). clear Hl.
      cbn [app]. set (k := length (v :: vs)) in *.
      replace (0 + Z.of_nat k) with (8 - Z.of_nat (8 - k)) by lia.
      rewrite (ipv6_loop_tail (8 - k) qs us (hextet_bytes (v :: vs)) _ ws')
        by (done || (rewrite ?length_drop, ?hextet_bytes_length; lia)).
      rewrite left_trim_all_space by done. cbn [c0 nth Z.eqb negb].
      rewrite (proj2 (Z.ltb_lt _ _)) by lia. rewrite (proj2 (Z.ltb_ge _ _)) by lia.
      replace (8 - Z.of_nat (8 - k)) with (Z.of_nat k) by lia.
      do 2 f_equal. apply apply_zero_comp_spec; [apply hextet_bytes_length..| |lia].
      rewrite !length_app, !hextet_bytes_length, !length_drop. lia.
Qed.

Lemma qdf_ipv6_parse_complete_witness :
  length (replicate 16 165) = QDF_IPV6_ADDR_SIZE /\
  ipv6_literal (lit "ff02::1") [255; 2; 0; 0; 0; 0; 0; 0; 0; 0; 0; 0; 0; 0; 0; 1] /\
  qdf_ipv6_parse (replicate 16 165) (Some (lit "ff02::1")) (Some [])
    = (QDF_STATUS_SUCCESS, Some [255; 2; 0; 0; 0; 0; 0; 0; 0; 0; 0; 0; 0; 0; 0; 1]).
Proof.
  assert (length (replicate 16 165) = QDF_IPV6_ADDR_SIZE) as H1 by reflexivity.
  assert (ipv6_literal (lit "ff02::1") [255; 2; 0; 0; 0; 0; 0; 0; 0; 0; 0; 0; 0; 0; 0; 1])
    as H2.
  { refine (ipv6_compressed [] [lit "ff02"] [digits_from 16 0 (lit "ff02")]
      [lit "1"] [digits_from 16 0 (lit "1")] [] _ _ _ _ _).
    - constructor.
    - apply Forall2_cons_2; [|apply Forall2_nil_2].
      apply hextet_text_intro; [apply digit_string_dec; reflexivity|cbn; lia].
    - apply Forall2_cons_2; [|apply Forall2_nil_2].
      apply hextet_text_intro; [apply digit_string_dec; reflexivity|cbn; lia].
    - cbn. lia.
    - constructor. }
  split; [exact H1|]. split; [exact H2|].
  apply (qdf_ipv6_parse_complete (replicate 16 165) (lit "ff02::1") []
    [255; 2; 0; 0; 0; 0; 0; 0; 0; 0; 0; 0; 0; 0; 0; 1] H1 H2).
Defined.

(** A colon behind the eighth hextet is consumed without looking at what
    follows it, so an address with a dangling colon is accepted, while the same
    text one hextet shorter is rejected. *)
Theorem qdf_ipv6_dangling_colon_accepted uninit out :
  length uninit = QDF_IPV6_ADDR_SIZE ->
  qdf_ipv6_parse uninit (Some (lit "1:2:3:4:5:6:7:8:")) (Some out)
    = (QDF_STATUS_SUCCESS,
       Some [0; 1; 0; 2; 0; 3; 0; 4; 0; 5; 0; 6; 0; 7; 0; 8]) /\
  qdf_ipv6_parse uninit (Some (lit "1:2:3:4:5:6:7:")) (Some out)
    = (QDF_STATUS_E_FAILURE, Some out).
Proof.
  intros H. do 16 (destruct uninit as [|? uninit]; [done|]).
  destruct uninit; [|done]. by split.
Qed.

Lemma qdf_ipv6_dangling_colon_accepted_witness :
  length (replicate 16 7) = QDF_IPV6_ADDR_SIZE /\
  qdf_ipv6_parse (replicate 16 7) (Some (lit "1:2:3:4:5:6:7:8:")) (Some [])
    = (QDF_STATUS_SUCCESS, Some [0; 1; 0; 2; 0; 3; 0; 4; 0; 5; 0; 6; 0; 7; 0; 8]).
Proof.
  assert (length (replicate 16 7) = QDF_IPV6_ADDR_SIZE) as H by reflexivity.
  split; [exact H|].
  exact (proj1 (qdf_ipv6_dangling_colon_accepted (replicate 16 7) [] H)).
Defined.

Section Arrays.

Lemma int_literal_lazy p v rest :
  int_literal p false v -> v < 2 ^ 64 -> stop_char (c0 rest) ->
  exists ws, all_space ws /\
    __qdf_int_parse_lazy (p ++ rest) = (Ok (v, false), ws ++ rest).
Proof.
  intros Hlit Hfit Hrest. inversion Hlit as [ws sgn neg pre radix ds ws' Hws Hsgn Hpre Hds Hne Hws'];
    subst.
  exists ws'. split; [done|]. rewrite <- !app_assoc.
  apply int_parse_lazy_complete; try done.
  destruct Hws'; [done|]. by apply stop_char_space.
Qed.

Lemma insert_prefix (found : list Z) x y rest :
  <[length found := y]> (found ++ x :: rest) = (found ++ [y]) ++ rest.
Proof.
  rewrite <- (Nat.add_0_r (length found)), insert_app_r, <- app_assoc. done.
Qed.

Lemma array_loop_complete w n ps vs p v found arr out_size :
  0 <= w <= 64 ->
  Forall2 (fun p v => int_literal p false v /\ in_u w v) (p :: ps) (v :: vs) ->
  (length (p :: ps) <= n)%nat -> length arr = n ->
  qdf_uint_array_parse_loop w n (length found) (sep_join [ch_comma] (p :: ps))
    (found ++ arr) out_size =
  (QDF_STATUS_SUCCESS, found ++ (v :: vs) ++ drop (length (v :: vs)) arr,
   Z.of_nat (length found + length (v :: vs))).
Proof.
  intros Hw. revert n vs p v found arr. induction ps as [|p' ps IH];
    intros n vs p v found arr Hall Hn Harr;
    inversion Hall as [|? ? ? ? [Hp Hv] Hps]; subst;
    (destruct arr as [|x arr]; [cbn in Hn; lia|]); cbn [length qdf_uint_array_parse_loop];
    assert (v < 2 ^ 64) as Hfit by
      (unfold in_u in Hv; pose proof (Z.pow_le_mono_r 2 w 64); lia);
    cbn [sep_join map concat].
  - inversion Hps; subst.
    destruct (int_literal_lazy p v [] Hp Hfit stop_char_nul) as (ws & Hws & ->).
    rewrite (wrap_small w v), Z.eqb_refl, app_nil_r by done. cbn [negb orb].
    rewrite left_trim_all_space by done. cbn [c0 nth Z.eqb].
    rewrite insert_prefix, <- app_assoc. cbn. by rewrite Nat.add_1_r.
  - inversion Hps as [|? v' ? vs' Hp' Hps']; subst.
    destruct (int_literal_lazy p v (([ch_comma] ++ p') ++ concat (map (app [ch_comma]) ps))
      Hp Hfit ltac:(by repeat split)) as (ws & Hws & ->).
    rewrite (wrap_small w v), Z.eqb_refl by done. cbn [negb orb].
    rewrite left_trim_app by done. cbn [app].
    rewrite left_trim_id by done. cbn [c0 nth Z.eqb tail].
    rewrite insert_prefix.
    replace (S (length found)) with (length (found ++ [v])) by (rewrite length_app; cbn; lia).
    cbn [Pos.eqb].
    match goal with |- context [qdf_uint_array_parse_loop _ _ _ ?t] =>
      change t with (sep_join [ch_comma] (p' :: ps)) end.
    rewrite (IH (length arr) vs' p' v' (found ++ [v]) arr) by (done || (cbn in *; lia)).
    rewrite <- app_assoc, length_app. cbn. f_equal. lia.
Qed.

End Arrays.

(** The array parsers read a comma-separated list of literals that fit the
    element type and the array into its first slots and report their number;
    the slots behind are left alone. *)
Theorem qdf_uint_array_parse_complete ps vs arr sz :
  ps <> [] -> (length ps <= length arr)%nat ->
  (Forall2 (fun p v => int_literal p false v /\ in_u 16 v) ps vs ->
   qdf_uint16_array_parse (Some (sep_join [ch_comma] ps)) (Some arr) (length arr) (Some sz)
   = (QDF_STATUS_SUCCESS, Some (vs ++ drop (length vs) arr), Some (Z.of_nat (length vs)))) /\
  (Forall2 (fun p v => int_literal p false v /\ in_u 8 v) ps vs ->
   qdf_uint8_array_parse (Some (sep_join [ch_comma] ps)) (Some arr) (length arr) (Some sz)
   = (QDF_STATUS_SUCCESS, Some (vs ++ drop (length vs) arr), Some (Z.of_nat (length vs)))).
Proof.
  intros Hne Hlen. destruct ps as [|p ps]; [done|].
  split; intros Hall; (destruct vs as [|v vs]; [by inversion Hall|]);
    unfold qdf_uint16_array_parse, qdf_uint8_array_parse.
  - pose proof (array_loop_complete 16 (length arr) ps vs p v [] arr sz ltac:(lia)
      Hall Hlen eq_refl) as Hl. cbn [app length] in Hl. by rewrite Hl.
  - pose proof (array_loop_complete 8 (length arr) ps vs p v [] arr sz ltac:(lia)
      Hall Hlen eq_refl) as Hl. cbn [app length] in Hl. by rewrite Hl.
Qed.

Lemma qdf_uint_array_parse_complete_witness :
  Forall2 (fun p v => int_literal p false v /\ in_u 16 v)
    [lit "2412"; lit "0x10"] [2412; 16] /\
  qdf_uint16_array_parse (Some (lit "2412,0x10")) (Some [0; 0; 9]) 3 (Some 0)
    = (QDF_STATUS_SUCCESS, Some [2412; 16; 9], Some 2).
Proof.
  assert (Forall2 (fun p v => int_literal p false v /\ in_u 16 v)
    [lit "2412"; lit "0x10"] [2412; 16]) as H.
  { apply Forall2_cons_2; [split; [closed_literal (@nil Z) (@nil Z) 10 (lit "2412")|by vm_compute]|].
    apply Forall2_cons_2; [split; [closed_literal (@nil Z) [ch_0; ch_x] 16 (lit "10")|by vm_compute]|].
    apply Forall2_nil_2. }
  split; [exact H|].
  refine (proj1 (qdf_uint_array_parse_complete [lit "2412"; lit "0x10"] [2412; 16] [0; 0; 9] 0
    _ _) H); [discriminate|cbn; lia].
Defined.

(** A parser result that either succeeded or failed with a parse error and left
    the out parameter alone. *)
Definition parse_error (st : QDF_STATUS) : Prop :=
  st = QDF_STATUS_E_INVAL \/ st = QDF_STATUS_E_FAILURE \/ st = QDF_STATUS_E_RANGE.

Definition framed {A} (r : QDF_STATUS * A) (out : A) : Prop :=
  fst r = QDF_STATUS_SUCCESS \/ parse_error (fst r) /\ snd r = out.

Section Framed.

Lemma framed_ok {A} (v out : A) : framed (QDF_STATUS_SUCCESS, v) out.
Proof. by left. Qed.

Lemma framed_err {A} st (out : A) : parse_error st -> framed (st, out) out.
Proof. by right. Qed.

Lemma parse_error_inval : parse_error QDF_STATUS_E_INVAL.
Proof. unfold parse_error. auto. Qed.
Lemma parse_error_failure : parse_error QDF_STATUS_E_FAILURE.
Proof. unfold parse_error. auto. Qed.
Lemma parse_error_range : parse_error QDF_STATUS_E_RANGE.
Proof. unfold parse_error. auto. Qed.

#[local] Hint Resolve framed_ok framed_err parse_error_inval parse_error_failure
  parse_error_range : core.

Lemma int64_framed s out : framed (qdf_int64_parse s out) out.
Proof.
  unfold qdf_int64_parse. destruct (qdf_int_parse s 0 false) as [[st v] neg] eqn:Hp.
  destruct (decide (st = QDF_STATUS_SUCCESS)) as [->|Hst].
  - cbn. repeat case_match; auto.
  - apply int_parse_err in Hp as [[-> |[-> | ->]] _]; cbn; auto.
Qed.

Lemma uint64_framed s out : framed (qdf_uint64_parse s out) out.
Proof.
  unfold qdf_uint64_parse. destruct (qdf_int_parse s 0 false) as [[st v] neg] eqn:Hp.
  destruct (decide (st = QDF_STATUS_SUCCESS)) as [->|Hst].
  - cbn. repeat case_match; auto.
  - apply int_parse_err in Hp as [[-> |[-> | ->]] _]; cbn; auto.
Qed.

Lemma int32_framed s out : framed (qdf_int32_parse s out) out.
Proof.
  unfold qdf_int32_parse. destruct (int64_framed s 0) as [Hs|[Hs _]];
    destruct (qdf_int64_parse s 0) as [st v]; cbn in Hs.
  - subst. cbn. case_match; auto.
  - destruct Hs as [-> |[-> | ->]]; cbn; auto.
Qed.

Lemma uint32_framed s out : framed (qdf_uint32_parse s out) out.
Proof.
  unfold qdf_uint32_parse. destruct (uint64_framed s 0) as [Hs|[Hs _]];
    destruct (qdf_uint64_parse s 0) as [st v]; cbn in Hs.
  - subst. cbn. case_match; auto.
  - destruct Hs as [-> |[-> | ->]]; cbn; auto.
Qed.

Lemma bool_framed s out : framed (qdf_bool_parse s out) out.
Proof. unfold qdf_bool_parse. destruct s, out; auto. repeat case_match; auto. Qed.

Lemma mac_framed s out : framed (qdf_mac_parse s out) out.
Proof.
  unfold qdf_mac_parse. destruct s as [s|], out; auto.
  destruct (qdf_consume_hex_pair _) as [[b|st] s1] eqn:Hp.
  2: { apply hex_pair_err in Hp as ->. auto. }
  destruct (qdf_mac_parse_loop _ _ _ _) as [[a|st] s2] eqn:Hl; [case_match; auto|].
  apply mac_loop_err in Hl as ->. auto.
Qed.

Lemma ipv4_framed s out : framed (qdf_ipv4_parse s out) out.
Proof.
  unfold qdf_ipv4_parse. destruct s as [s|], out; auto.
  destruct (qdf_consume_octet_dec _) as [[b|st] s1] eqn:Hp.
  2: { apply octet_err in Hp as ->. auto. }
  destruct (qdf_ipv4_parse_loop _ _ _) as [[a|st] s2] eqn:Hl; [case_match; auto|].
  apply ipv4_loop_err in Hl as ->. auto.
Qed.

Lemma ipv6_loop_err n addr zc hf s st r :
  qdf_ipv6_parse_loop n addr zc hf s = (Err st, r) -> st = QDF_STATUS_E_FAILURE.
Proof.
  revert addr zc hf s. induction n as [|n IH]; intros addr zc hf s; cbn; [done|].
  destruct (qdf_consume_hextet s) as [[v|st'] s1]; [|by case_match; intros [=]].
  destruct (qdf_consume_char ch_colon s1) as [[[]|st'] s2]; [|by intros [=]].
  destruct (qdf_consume_char ch_colon s2) as [[[]|st'] s3]; [|apply IH].
  case_match; [by intros [=]|apply IH].
Qed.

Lemma ipv6_framed uninit s out : framed (qdf_ipv6_parse uninit s out) out.
Proof.
  unfold qdf_ipv6_parse. destruct s as [s|], out; auto.
  destruct (qdf_consume_char ch_colon (qdf_str_left_trim s)) as [[[]|st1] s1];
    [destruct (qdf_consume_char ch_colon s1) as [[[]|st2] s2]|]; auto;
    (destruct (qdf_ipv6_parse_loop _ _ _ _ _) as [[[[a zc'] hf]|st] s3] eqn:Hl;
     [repeat case_match; auto|apply ipv6_loop_err in Hl as ->; auto]).
Qed.

End Framed.

(** A parser that fails reports [E_INVAL], [E_FAILURE] or [E_RANGE] and leaves
    its out parameter as it was; a NULL string is always [E_INVAL]. *)
Theorem qdf_parse_error_frame uninit s out_int out_bool out_addr :
  framed (qdf_int32_parse s out_int) out_int /\
  framed (qdf_uint32_parse s out_int) out_int /\
  framed (qdf_int64_parse s out_int) out_int /\
  framed (qdf_uint64_parse s out_int) out_int /\
  framed (qdf_bool_parse s out_bool) out_bool /\
  framed (qdf_mac_parse s out_addr) out_addr /\
  framed (qdf_ipv4_parse s out_addr) out_addr /\
  framed (qdf_ipv6_parse uninit s out_addr) out_addr /\
  qdf_int32_parse None out_int = (QDF_STATUS_E_INVAL, out_int) /\
  qdf_uint32_parse None out_int = (QDF_STATUS_E_INVAL, out_int) /\
  qdf_bool_parse None out_bool = (QDF_STATUS_E_INVAL, out_bool) /\
  qdf_mac_parse None out_addr = (QDF_STATUS_E_INVAL, out_addr) /\
  qdf_ipv4_parse None out_addr = (QDF_STATUS_E_INVAL, out_addr) /\
  qdf_ipv6_parse uninit None out_addr = (QDF_STATUS_E_INVAL, out_addr).
Proof.
  split_and!; auto using int32_framed, uint32_framed, int64_framed, uint64_framed,
    bool_framed, mac_framed, ipv4_framed, ipv6_framed.
Qed.

(** [qdf_bool_parse] accepts exactly one of the six letters, blanks around it
    ignored. *)
Theorem qdf_bool_parse_exact s out v :
  cstr_ok s ->
  qdf_bool_parse (Some s) (Some out) = (QDF_STATUS_SUCCESS, Some v) <->
  exists ws c ws', s = ws ++ c :: ws' /\ all_space ws /\ all_space ws' /\
    c ∈ (if v : bool then [ch_1; ch_y; ch_Y] else [ch_0; ch_n; ch_N]).
Proof.
  intros Hok. unfold qdf_bool_parse. split.
  - destruct (left_trim_split s) as (ws & Hs & Hws & _).
    destruct (qdf_str_left_trim s) as [|c t] eqn:Ht; [done|].
    rewrite Hs in Hok. apply cstr_ok_app in Hok as [_ Hok]. inversion Hok; subst.
    cbn [c0 nth tail]. change (c0 (c :: t)) with c. intros H.
    assert (all_space t) as Hsp.
    { apply nul_after_trim; [done|]. repeat case_match; simplify_eq; lia. }
    exists ws, c, t. split; [done|]. split; [done|]. split; [done|].
    rewrite left_trim_all_space in H by done.
    repeat case_match; simplify_eq; set_unfold; lia.
  - intros (ws & c & ws' & -> & Hws & Hws' & Hc).
    assert (qdf_is_space c = false) as Hns.
    { destruct v; set_unfold; destruct_or?; by subst. }
    rewrite left_trim_app, left_trim_id by done. cbn [tail].
    rewrite left_trim_all_space by done. change (c0 (c :: ws')) with c.
    destruct v; set_unfold; destruct_or?; by subst.
Qed.

Lemma qdf_bool_parse_exact_witness :
  cstr_ok (lit " Y ") /\ qdf_bool_parse (Some (lit " Y ")) (Some false)
    = (QDF_STATUS_SUCCESS, Some true).
Proof.
  assert (cstr_ok (lit " Y ")) as H by (repeat constructor; lia).
  split; [exact H|]. apply (proj2 (qdf_bool_parse_exact (lit " Y ") false true H)).
  exists (lit " "), ch_Y, (lit " "). repeat split; try (repeat constructor).
Defined.
