(* ===== verification/QdfParse.v ===== *)
(** The ini file parser of qdf/src/qdf_parse.c, with the string helpers it uses
    (qdf/src/qdf_str.c, [strim]) and the file read (qdf/linux/src/qdf_file.c), at
    the level of the code: a mutable character buffer and cursors into it. *)
From S2P Require Import Prelude.

(** ** Buffers

    A [char *] into a buffer is an index; reading past the end of the model's
    list yields the terminator. *)

Definition ch_at (buf : list Z) (i : nat) : Z := nth i buf 0.

(** The C string that starts at an index: the bytes up to the first NUL. *)
Fixpoint take_nonzero (l : list Z) : cstr :=
  match l with
  | [] => []
  | c :: l' => if c =? 0 then [] else c :: take_nonzero l'
  end.

Definition str_at (buf : list Z) (i : nat) : cstr := take_nonzero (drop i buf).

Module IniParse.

(** The [while (end >= str && qdf_is_space( *end))] loop: how many of the first
    [n] characters at [s] are left. *)
Fixpoint trimmed_len (buf : list Z) (s n : nat) : nat :=
  match n with
  | O => O
  | S n' => if qdf_is_space (ch_at buf (s + n')) then trimmed_len buf s n' else n
  end.

(** [end[1] = '\0'] *)
Definition qdf_str_right_trim (buf : list Z) (s : nat) : list Z :=
  <[(s + trimmed_len buf s (length (str_at buf s)))%nat := 0]> buf.

(** [skip_spaces] on a pointer. *)
Definition skip_spaces (buf : list Z) (s : nat) : nat :=
  (s + (length (str_at buf s) - length (qdf_str_left_trim (str_at buf s))))%nat.

(** [strim]. *)
Definition qdf_str_trim (buf : list Z) (s : nat) : list Z * nat :=
  match length (str_at buf s) with
  | O => (buf, s)
  | S _ => let buf := qdf_str_right_trim buf s in (buf, skip_spaces buf s)
  end.

(** The [while (!eol)] loop over one line: the buffer it leaves, the cursor, and
    [value] and [comment]. *)
Fixpoint ini_scan_line (fuel : nat) (buf : list Z) (cursor : nat)
    (value : option nat) (comment : bool) : option (list Z * nat * option nat * bool) :=
  match fuel with
  | O => None
  | S fuel' =>
      let c := ch_at buf cursor in
      if (c =? ch_cr) || (c =? ch_lf) then
        Some (<[cursor := 0]> buf, S cursor, value, comment)
      else if c =? ch_nul then Some (buf, cursor, value, comment)
      else if c =? ch_eq then
        match value, comment with
        | None, false =>
            ini_scan_line fuel' (<[cursor := 0]> buf) (S cursor) (Some (S cursor)) comment
        | _, _ => ini_scan_line fuel' buf (S cursor) value comment
        end
      else if c =? ch_hash then
        ini_scan_line fuel' (<[cursor := 0]> buf) (S cursor) value true
      else ini_scan_line fuel' buf (S cursor) value comment
  end.

(** [while ( *cursor == '\n' || *cursor == '\r') cursor++] *)
Fixpoint skip_eol (fuel : nat) (buf : list Z) (cursor : nat) : option nat :=
  match fuel with
  | O => None
  | S fuel' =>
      if (ch_at buf cursor =? ch_lf) || (ch_at buf cursor =? ch_cr)
      then skip_eol fuel' buf (S cursor) else Some cursor
  end.

Section Parse.
Context {ctx : Type}.
Variable item_cb : ctx -> cstr -> cstr -> QDF_STATUS * ctx.
Variable section_cb : ctx -> cstr -> QDF_STATUS * ctx.

(** One iteration of the [foreach line] loop, up to the callbacks: the buffer,
    the cursor, the callback's status and the context. *)
Definition ini_line (buf : list Z) (cursor : nat) (context : ctx)
  : option (list Z * nat * QDF_STATUS * ctx) :=
  let key := cursor in
  match ini_scan_line (S (length buf)) buf cursor None false with
  | None => None
  | Some (buf, cursor, value, _) =>
      let '(buf, key) := qdf_str_trim buf key in
      match value with
      | Some value =>
          let '(status, context) := item_cb context (str_at buf key) (str_at buf value) in
          Some (buf, cursor, status, context)
      | None =>
          if ch_at buf key =? ch_lbracket then
            let len := length (str_at buf key) in
            if negb (ch_at buf (key + len - 1) =? ch_rbracket) then
              (* qdf_err *) Some (buf, cursor, QDF_STATUS_SUCCESS, context)
            else
              let buf := <[(key + len - 1)%nat := 0]> buf in
              let '(status, context) := section_cb context (str_at buf (key + 1)) in
              Some (buf, cursor, status, context)
          else (* blank, or qdf_err *) Some (buf, cursor, QDF_STATUS_SUCCESS, context)
      end
  end.

(** [while ( *cursor != '\0')]; [None] when the fuel runs out. *)
Fixpoint ini_lines (fuel : nat) (buf : list Z) (cursor : nat) (context : ctx)
  : option (QDF_STATUS * ctx) :=
  match fuel with
  | O => None
  | S fuel' =>
      if ch_at buf cursor =? ch_nul then Some (QDF_STATUS_SUCCESS, context)
      else
        match ini_line buf cursor context with
        | None => None
        | Some (buf, cursor, status, context) =>
            if QDF_IS_STATUS_ERROR status then Some (status, context)
            else
              match skip_eol (S (length buf)) buf cursor with
              | None => None
              | Some cursor => ini_lines fuel' buf cursor context
              end
        end
  end.

(** [request_firmware] (the kernel's) yields the bytes of the file or an error;
    the read appends the terminator. *)
Definition qdf_file_read (request_firmware : cstr -> option (list Z)) (malloc_ok : bool)
    (path : cstr) : res (list Z) :=
  match request_firmware path with
  | None => Err QDF_STATUS_E_FAILURE
  | Some data =>
      if malloc_ok then Ok (data ++ [0]) else Err QDF_STATUS_E_NOMEM
  end.

Definition qdf_ini_parse (file_read : cstr -> res (list Z)) (ini_path : cstr)
    (context : ctx) : option (QDF_STATUS * ctx) :=
  match file_read ini_path with
  | Err status => Some (status, context)
  | Ok fbuf => ini_lines (S (length fbuf)) fbuf 0 context
  end.

End Parse.
End IniParse.
Import IniParse.

(** * Specification: what an ini file means

    A file is its text up to the first NUL, split at line ends; a line is cut at
    its first '#'; with a '=' it is an item whose key is trimmed and whose value
    is not; without one it is a section header, blank or ignored. *)

Fixpoint right_trim (s : cstr) : cstr :=
  match s with
  | [] => []
  | c :: s' =>
      match right_trim s' with
      | [] => if qdf_is_space c then [] else [c]
      | t => c :: t
      end
  end.

Definition str_trim (s : cstr) : cstr := qdf_str_left_trim (right_trim s).

Fixpoint take_until (x : Z) (s : cstr) : cstr :=
  match s with
  | [] => []
  | c :: s' => if c =? x then [] else c :: take_until x s'
  end.

Fixpoint split_eq (s : cstr) : option (cstr * cstr) :=
  match s with
  | [] => None
  | c :: s' =>
      if c =? ch_eq then Some ([], s')
      else match split_eq s' with Some (k, v) => Some (c :: k, v) | None => None end
  end.

Definition is_eol (c : Z) : bool := (c =? ch_cr) || (c =? ch_lf).

Fixpoint split_lines (s : cstr) : list cstr :=
  match s with
  | [] => [[]]
  | c :: s' =>
      if is_eol c then [] :: split_lines s'
      else match split_lines s' with
           | l :: ls => (c :: l) :: ls
           | [] => [[c]]
           end
  end.

Inductive ini_entry : Type :=
  | IniItem (key value : cstr)
  | IniSection (name : cstr)
  | IniNothing.

Definition line_entry (line : cstr) : ini_entry :=
  let body := take_until ch_hash line in
  match split_eq body with
  | Some (k, v) => IniItem (str_trim k) v
  | None =>
      let k := str_trim body in
      if c0 k =? ch_lbracket then
        if nth (length k - 1) k 0 =? ch_rbracket
        then IniSection (drop 1 (take (length k - 1) k)) else IniNothing
      else IniNothing
  end.

Section Spec.
Context {ctx : Type}.
Variable item_cb : ctx -> cstr -> cstr -> QDF_STATUS * ctx.
Variable section_cb : ctx -> cstr -> QDF_STATUS * ctx.

Definition run_entry (e : ini_entry) (context : ctx) : QDF_STATUS * ctx :=
  match e with
  | IniItem k v => item_cb context k v
  | IniSection n => section_cb context n
  | IniNothing => (QDF_STATUS_SUCCESS, context)
  end.

(** The callbacks in file order, up to the first one that fails. *)
Fixpoint run_lines (ls : list cstr) (context : ctx) : QDF_STATUS * ctx :=
  match ls with
  | [] => (QDF_STATUS_SUCCESS, context)
  | l :: ls =>
      let '(status, context) := run_entry (line_entry l) context in
      if QDF_IS_STATUS_ERROR status then (status, context) else run_lines ls context
  end.
End Spec.

(** * Buffer lemmas *)

Section Buffers.

Definition nonzero (s : cstr) : Prop := Forall (fun c => c <> 0) s.

Lemma take_nonzero_app s r : nonzero s -> take_nonzero (s ++ 0 :: r) = s.
Proof.
  induction 1 as [|c s Hc _ IH]; [done|]. cbn. rewrite (proj2 (Z.eqb_neq _ _) Hc).
  by rewrite IH.
Qed.

Lemma take_nonzero_nonzero l : nonzero (take_nonzero l).
Proof.
  induction l as [|c l IH]; cbn; [constructor|].
  destruct (Z.eqb_spec c 0); by constructor.
Qed.

Lemma take_nonzero_split l : exists r, l ++ [0] = take_nonzero l ++ 0 :: r.
Proof.
  induction l as [|c l (r & IH)]; cbn; [by exists []|].
  destruct (Z.eqb_spec c 0) as [->|]; [by exists (l ++ [0])|]. exists r. cbn. by rewrite IH.
Qed.

Lemma str_at_app P s r : nonzero s -> str_at (P ++ s ++ 0 :: r) (length P) = s.
Proof. intros Hs. unfold str_at. rewrite drop_app_length. by apply take_nonzero_app. Qed.

Lemma ch_at_app P s n : ch_at (P ++ s) (length P + n) = nth n s 0.
Proof. unfold ch_at. rewrite app_nth2 by lia. f_equal. lia. Qed.

Lemma ch_at_app_0 P s : ch_at (P ++ s) (length P) = nth 0 s 0.
Proof. rewrite <- (ch_at_app P s 0). f_equal. lia. Qed.

Lemma right_trim_snoc s c :
  right_trim (s ++ [c]) = if qdf_is_space c then right_trim s else s ++ [c].
Proof.
  induction s as [|x s IH]; [done|]. cbn [right_trim app]. rewrite IH.
  destruct (qdf_is_space c) eqn:E; [done|]. by destruct s.
Qed.

Lemma right_trim_split s :
  exists ws, s = right_trim s ++ ws /\ all_space ws.
Proof.
  induction s as [|c s IH] using rev_ind.
  { exists []. split; [done|constructor]. }
  rewrite right_trim_snoc. destruct (qdf_is_space c) eqn:E.
  - destruct IH as (ws & Hs & Hws). exists (ws ++ [c]). rewrite app_assoc, <- Hs.
    split; [done|]. apply Forall_app. split; [done|]. by constructor.
  - exists []. rewrite app_nil_r. split; [done|constructor].
Qed.

Lemma trimmed_len_spec P s r n :
  (n <= length s)%nat ->
  trimmed_len (P ++ s ++ r) (length P) n = length (right_trim (take n s)).
Proof.
  induction n as [|n IH]; intros Hn; [done|]. cbn [trimmed_len].
  rewrite ch_at_app, app_nth1 by lia.
  destruct (lookup_lt_is_Some_2 s n Hn) as [c Hc].
  rewrite (take_S_r _ _ _ Hc), right_trim_snoc.
  rewrite (nth_lookup_Some _ _ _ _ Hc). destruct (qdf_is_space c); [apply IH; lia|].
  rewrite length_app, length_take. cbn. lia.
Qed.

End Buffers.

Section Refinement.

Lemma right_trim_nonzero s : nonzero s -> nonzero (right_trim s).
Proof.
  intros H. destruct (right_trim_split s) as (ws & Hs & _). rewrite Hs in H.
  by apply Forall_app in H as [H _].
Qed.

(** What follows a C string up to some terminator: nothing, or bytes that an
    earlier terminator hides. *)
Definition hidden (R : list Z) : Prop := R = [] \/ exists R', R = 0 :: R'.

Lemma str_at_hidden P s R S :
  nonzero s -> hidden R -> str_at (P ++ (s ++ R) ++ 0 :: S) (length P) = s.
Proof.
  intros Hs [->|[R' ->]].
  - rewrite app_nil_r. by apply str_at_app.
  - rewrite <- app_assoc. by apply str_at_app.
Qed.

Lemma insert_terminator (P rt ws S : list Z) :
  exists R, <[(length P + length rt)%nat := 0]> (P ++ (rt ++ ws) ++ 0 :: S) =
    P ++ (rt ++ R) ++ 0 :: S /\ hidden R /\ length R = length ws.
Proof.
  rewrite insert_app_r, <- app_assoc.
  rewrite <- (Nat.add_0_r (length rt)), insert_app_r.
  destruct ws as [|w ws]; [exists []; rewrite app_nil_r; by repeat (constructor; try done)|].
  exists (0 :: ws). rewrite <- app_assoc. split; [done|]. split; [by right; exists ws|done].
Qed.

(** [strim] on a C string inside a buffer: it writes only inside that string,
    and leaves the trimmed string at the returned pointer. *)
Lemma qdf_str_trim_spec P k S :
  nonzero k ->
  exists A R, qdf_str_trim (P ++ k ++ 0 :: S) (length P) =
    ((P ++ A) ++ (str_trim k ++ R) ++ 0 :: S, length (P ++ A)) /\ hidden R /\
    (length A + length (str_trim k) + length R = length k)%nat.
Proof.
  intros Hk. unfold qdf_str_trim. rewrite str_at_app by done.
  destruct (length k) as [|n] eqn:Hn.
  { apply nil_length_inv in Hn as ->. exists [], []. rewrite app_nil_r.
    split; [done|]. split; [by left|done]. }
  unfold qdf_str_right_trim. rewrite str_at_app, (trimmed_len_spec P k (0 :: S)), firstn_all by done.
  destruct (right_trim_split k) as (ws & Hs & Hws).
  destruct (insert_terminator P (right_trim k) ws S) as (R & HR & HhidR & HlenR).
  rewrite <- Hs in HR. rewrite HR.
  destruct (left_trim_split (right_trim k)) as (A & HA & _ & _).
  exists A, R. unfold skip_spaces. rewrite str_at_hidden by (try apply right_trim_nonzero; done).
  fold (str_trim k) in *. apply (f_equal length) in Hs.
  rewrite HA in Hs |- *. rewrite !length_app in *. rewrite <- !app_assoc. split.
  - f_equal. lia.
  - split; [done|lia].
Qed.

Corollary qdf_str_trim_hidden P k R0 S :
  nonzero k -> hidden R0 ->
  exists A R, qdf_str_trim (P ++ (k ++ R0) ++ 0 :: S) (length P) =
    ((P ++ A) ++ (str_trim k ++ R) ++ 0 :: S, length (P ++ A)) /\ hidden R /\
    (length A + length (str_trim k ++ R) = length (k ++ R0))%nat.
Proof.
  intros Hk [->|[R' ->]].
  - rewrite app_nil_r. destruct (qdf_str_trim_spec P k S Hk) as (A & R & HR & ? & ?).
    exists A, R. rewrite (length_app (str_trim k)). split; [done|]. split; [done|lia].
  - destruct (qdf_str_trim_spec P k (R' ++ 0 :: S) Hk) as (A & R & HR & HhR & Hl).
    exists A, (R ++ 0 :: R'). rewrite <- !app_assoc in *. cbn [app] in *. rewrite HR.
    rewrite !length_app in *. cbn [length]. split; [done|].
    split; [|lia]. destruct HhR as [->|[R'' ->]]; right; by eexists.
Qed.

(** What the line scan writes over a line. *)
Fixpoint mark_line (line : cstr) (value comment : bool) : cstr :=
  match line with
  | [] => []
  | c :: l =>
      if c =? ch_eq then
        if value || comment then c :: mark_line l value comment
        else 0 :: mark_line l true comment
      else if c =? ch_hash then 0 :: mark_line l value true
      else c :: mark_line l value comment
  end.

Fixpoint value_at (base : nat) (line : cstr) : option nat :=
  match line with
  | [] => None
  | c :: l =>
      if c =? ch_eq then Some (S base)
      else if c =? ch_hash then None else value_at (S base) l
  end.

Definition line_ok (line : cstr) : Prop :=
  Forall (fun c => c <> 0 /\ is_eol c = false) line.

Lemma insert_at_end P x y r : <[length P := y]> (P ++ x :: r) = (P ++ [y]) ++ r :> list Z.
Proof. by rewrite <- (Nat.add_0_r (length P)), insert_app_r, <- app_assoc. Qed.

Lemma snoc_cons {A} (P : list A) x r : P ++ x :: r = (P ++ [x]) ++ r.
Proof. by rewrite <- app_assoc. Qed.

Lemma scan_spec line t tl fuel P value comment :
  line_ok line -> (t = 0 \/ is_eol t = true) -> (length line < fuel)%nat ->
  exists comment',
  ini_scan_line fuel (P ++ line ++ t :: tl) (length P) value comment =
    Some (P ++ mark_line line (match value with Some _ => true | None => false end) comment
            ++ 0 :: tl,
          (length P + length line + if is_eol t then 1 else 0)%nat,
          match value with
          | Some v => Some v
          | None => if comment then None else value_at (length P) line
          end, comment').
Proof.
  intros Hline Ht. revert fuel P value comment.
  induction Hline as [|c line [Hc He] Hline IH]; intros fuel P value comment Hfuel;
    (destruct fuel as [|fuel]; [cbn in Hfuel; lia|]); cbn [ini_scan_line app].
  - rewrite ch_at_app_0. cbn [nth length mark_line value_at].
    change ((t =? ch_cr) || (t =? ch_lf)) with (is_eol t).
    destruct Ht as [->|Ht].
    + cbn. eexists. rewrite !Nat.add_0_r. by destruct value, comment.
    + rewrite Ht, insert_at_end, <- app_assoc. eexists. cbn [app].
      replace (length P + 0 + 1)%nat with (S (length P)) by lia. by destruct value, comment.
  - rewrite ch_at_app_0. cbn [nth]. change ((c =? ch_cr) || (c =? ch_lf)) with (is_eol c).
    rewrite He, (proj2 (Z.eqb_neq _ _) Hc). cbn [mark_line value_at length].
    assert (forall x (v : option nat) (cm : bool), S (length P) = length (P ++ [x])) as HlenP
      by (intros; rewrite length_app; cbn; lia).
    assert (forall v cm x, exists comment',
      ini_scan_line fuel ((P ++ [x]) ++ line ++ t :: tl) (S (length P)) v cm =
      Some (P ++ x :: mark_line line (match v with Some _ => true | None => false end) cm
              ++ 0 :: tl,
            (length P + S (length line) + if is_eol t then 1 else 0)%nat,
            match v with Some v => Some v
            | None => if cm then None else value_at (S (length P)) line end, comment'))
      as Hstep.
    { intros v cm x. rewrite (HlenP x None false).
      destruct (IH fuel (P ++ [x]) v cm) as (cm' & ->); [cbn in Hfuel; lia|].
      exists cm'. rewrite <- app_assoc, length_app. cbn [app length].
      do 4 f_equal. lia. }
    destruct (Z.eqb_spec c ch_eq) as [->|Hneq]; [|destruct (Z.eqb_spec c ch_hash) as [->|Hnh]].
    + destruct value as [v|]; [|destruct comment].
      * rewrite snoc_cons. apply Hstep.
      * rewrite snoc_cons. apply Hstep.
      * rewrite insert_at_end. apply Hstep.
    + rewrite insert_at_end. destruct (Hstep value true 0) as (cm' & ->).
      exists cm'. destruct value; [done|by destruct comment].
    + rewrite snoc_cons. apply Hstep.
Qed.

Lemma mark_value line :
  exists R, mark_line line true false = take_until ch_hash line ++ R /\ hidden R.
Proof.
  induction line as [|c line (R & IH & HR)]; [by exists []; split; [|left]|].
  cbn [mark_line take_until]. rewrite orb_true_l. destruct (Z.eqb_spec c ch_eq) as [->|].
  { exists R. cbn. by rewrite IH. }
  destruct (Z.eqb_spec c ch_hash) as [->|].
  - eexists. split; [done|]. right. by eexists.
  - exists R. by rewrite IH.
Qed.

(** What the marks say of a line, in terms of [take_until] and [split_eq]. *)
Lemma mark_entry line base :
  match split_eq (take_until ch_hash line) with
  | Some (k, v) =>
      value_at base line = Some (S (base + length k)) /\
      exists R, mark_line line false false = k ++ 0 :: (v ++ R) /\ hidden R
  | None =>
      value_at base line = None /\
      exists R, mark_line line false false = take_until ch_hash line ++ R /\ hidden R
  end.
Proof.
  revert base. induction line as [|c line IH]; intros base.
  { split; [done|]. by exists []; split; [|left]. }
  cbn [mark_line take_until value_at orb]. destruct (Z.eqb_spec c ch_hash) as [->|Hh].
  { split; [done|]. eexists. split; [done|]. right. by eexists. }
  cbn [split_eq]. destruct (Z.eqb_spec c ch_eq) as [->|He].
  - destruct (mark_value line) as (R & HR & HhR). rewrite Nat.add_0_r.
    split; [done|]. exists R. by rewrite HR.
  - specialize (IH (S base)).
    destruct (split_eq (take_until ch_hash line)) as [[k v]|]; cbn [length app].
    + destruct IH as (-> & R & -> & HhR). split; [do 2 f_equal; lia|]. by exists R.
    + destruct IH as (-> & R & -> & HhR). split; [done|]. by exists R.
Qed.

Lemma length_mark_line line v c : length (mark_line line v c) = length line.
Proof.
  revert v c. induction line as [|x line IH]; intros v c; [done|]. cbn.
  destruct (x =? ch_eq); [destruct (v || c)|destruct (x =? ch_hash)]; cbn; by rewrite IH.
Qed.

Lemma split_eq_app s k v : split_eq s = Some (k, v) -> s = k ++ ch_eq :: v.
Proof.
  revert k v. induction s as [|c s IH]; intros k v; [done|]. cbn.
  destruct (Z.eqb_spec c ch_eq) as [->|]; [by intros [= <- <-]|].
  destruct (split_eq s) as [[k' v']|]; [|done]. intros [= <- <-]. by rewrite (IH k' v').
Qed.

Lemma take_until_nonzero x s : nonzero s -> nonzero (take_until x s).
Proof.
  induction 1 as [|c s Hc _ IH]; cbn; [constructor|].
  destruct (c =? x); by constructor.
Qed.

Lemma str_trim_nonzero k : nonzero k -> nonzero (str_trim k).
Proof.
  intros Hk. apply right_trim_nonzero in Hk. unfold str_trim.
  destruct (left_trim_split (right_trim k)) as (A & HA & _). rewrite HA in Hk.
  by apply Forall_app in Hk as [_ ?].
Qed.

Lemma line_ok_nonzero line : line_ok line -> nonzero line.
Proof. intros H. eapply Forall_impl; [exact H|]. by intros c [? _]. Qed.

Lemma nth_0_hidden k R S : hidden R -> nth 0 ((k ++ R) ++ 0 :: S) 0 = c0 k.
Proof. intros [->|[R' ->]]; by destruct k. Qed.

Lemma take_last_split {A} (k : list A) n :
  length k = S n -> exists x, k = take n k ++ [x].
Proof.
  intros Hk. destruct (lookup_lt_is_Some_2 k n) as [x Hx]; [lia|].
  exists x. by rewrite <- (take_S_r _ _ _ Hx), <- Hk, firstn_all.
Qed.

(** Cutting the last character of a section header off in place. *)
Lemma insert_last_terminator Q k R S n :
  length k = Datatypes.S n -> nonzero k -> hidden R ->
  let buf := <[(length Q + Datatypes.S n - 1)%nat := 0]> (Q ++ (k ++ R) ++ 0 :: S) in
  buf = Q ++ (take n k ++ 0 :: R) ++ 0 :: S /\
  str_at buf (length Q + 1) = drop 1 (take n k).
Proof.
  intros Hn Hk HR buf. destruct (take_last_split k n Hn) as [x Hx].
  assert (length (take n k) = n) as Hl by (rewrite length_take; lia).
  assert (buf = Q ++ (take n k ++ 0 :: R) ++ 0 :: S) as Hbuf.
  { unfold buf. rewrite Hx at 1. replace (length Q + Datatypes.S n - 1)%nat with (length Q + n)%nat by lia.
    rewrite insert_app_r, <- !app_assoc. rewrite <- Hl at 1.
    by rewrite <- (Nat.add_0_r (length (take n k))), insert_app_r. }
  split; [done|]. rewrite Hbuf. unfold str_at. rewrite <- drop_drop, drop_app_length.
  assert (nonzero (take n k)) as Hnz.
  { rewrite Hx in Hk. by apply Forall_app in Hk as [? _]. }
  destruct (take n k) as [|c w]; cbn.
  - rewrite drop_0. by destruct HR as [->|[R' ->]].
  - rewrite drop_0, <- app_assoc. apply take_nonzero_app. by apply Forall_cons in Hnz as [_ ?].
Qed.

Context {ctx : Type}.
Variable item_cb : ctx -> cstr -> cstr -> QDF_STATUS * ctx.
Variable section_cb : ctx -> cstr -> QDF_STATUS * ctx.

(** One loop iteration runs the callback the line asks for, and leaves the text
    behind the line untouched. *)
Lemma ini_line_spec P line t tl context :
  line_ok line -> (t = 0 \/ is_eol t = true) ->
  exists P', length P' = (length P + length line)%nat /\
  ini_line item_cb section_cb (P ++ line ++ t :: tl) (length P) context =
    let '(status, context') := run_entry item_cb section_cb (line_entry line) context in
    Some (P' ++ 0 :: tl, (length P' + if is_eol t then 1 else 0)%nat, status, context').
Proof.
  intros Hline Ht. pose proof (line_ok_nonzero _ Hline) as Hnz.
  pose proof (take_until_nonzero ch_hash _ Hnz) as Hbody.
  pose proof (length_mark_line line false false) as Hlen.
  unfold ini_line, line_entry.
  destruct (scan_spec line t tl (S (length (P ++ line ++ t :: tl))) P None false)
    as (cm & ->); [done|done|rewrite !length_app; lia|].
  pose proof (mark_entry line (length P)) as Hmark.
  destruct (split_eq (take_until ch_hash line)) as [[k v]|] eqn:Hsplit.
  - destruct Hmark as (-> & R & Hm & HhR). rewrite Hm in Hlen |- *.
    apply split_eq_app in Hsplit. rewrite Hsplit in Hbody.
    apply Forall_app in Hbody as [Hk Hv]. apply Forall_cons in Hv as [_ Hv].
    destruct (qdf_str_trim_spec P k ((v ++ R) ++ 0 :: tl)) as (A & R1 & Htrim & HhR1 & Hl); [done|].
    rewrite <- app_assoc. cbn [app]. rewrite Htrim.
    rewrite str_at_hidden by (try apply str_trim_nonzero; done).
    set (Q := (P ++ A) ++ (str_trim k ++ R1) ++ [0]).
    assert (length Q = S (length P + length k)) as HQ
      by (unfold Q; rewrite !length_app; cbn; lia).
    replace ((P ++ A) ++ (str_trim k ++ R1) ++ 0 :: (v ++ R) ++ 0 :: tl)
      with (Q ++ (v ++ R) ++ 0 :: tl) by (unfold Q; by rewrite <- !app_assoc).
    rewrite <- HQ, str_at_hidden by done. cbn [run_entry].
    rewrite length_app in Hlen. cbn [length] in Hlen.
    exists (Q ++ (v ++ R)). destruct (item_cb _ _ _) as [status context'].
    rewrite <- !app_assoc. rewrite (length_app Q), HQ. split; [lia|].
    by replace (length P + length line)%nat
      with (S (length P + length k) + length (v ++ R))%nat by lia.
  - destruct Hmark as (-> & R & Hm & HhR). rewrite Hm in Hlen |- *.
    destruct (qdf_str_trim_hidden P _ R tl Hbody HhR) as (A & R1 & -> & HhR1 & Hl).
    pose proof (str_trim_nonzero _ Hbody) as Hk.
    set (k := str_trim (take_until ch_hash line)) in *. set (Q := P ++ A) in *.
    assert (length Q + length (k ++ R1) = length P + length line)%nat as HQ
      by (unfold Q; rewrite !length_app in *; lia).
    rewrite ch_at_app_0, nth_0_hidden, str_at_hidden by done.
    assert (exists P', length P' = (length P + length line)%nat /\
      Q ++ (k ++ R1) ++ 0 :: tl = P' ++ 0 :: tl) as HP'
      by (exists (Q ++ k ++ R1); rewrite <- !app_assoc, !length_app in *; split; [lia|done]).
    destruct (Z.eqb_spec (c0 k) ch_lbracket) as [Hc0|]; cycle 1.
    { cbn [run_entry]. destruct HP' as (P' & HlP' & ->). exists P'. rewrite HlP'. done. }
    destruct (length k) as [|n] eqn:Hn; [by apply nil_length_inv in Hn as ->|].
    assert (ch_at (Q ++ (k ++ R1) ++ 0 :: tl) (length Q + S n - 1) = nth (S n - 1) k 0) as ->.
    { rewrite <- Nat.add_sub_assoc, ch_at_app by lia. rewrite <- app_assoc, app_nth1 by lia. done. }
    destruct (nth (S n - 1) k 0 =? ch_rbracket); cbn [negb]; cycle 1.
    { cbn [run_entry]. destruct HP' as (P' & HlP' & ->). exists P'. rewrite HlP'. done. }
    destruct (insert_last_terminator Q k R1 tl n Hn Hk HhR1) as (Hins & Hname).
    rewrite Hname, Hins. cbn [run_entry].
    exists (Q ++ take n k ++ 0 :: R1).
    replace (S n - 1)%nat with n by lia.
    destruct (section_cb _ _) as [status context'].
    assert (length (Q ++ take n k ++ 0 :: R1) = (length P + length line)%nat) as ->.
    { rewrite <- HQ, !length_app, length_take. cbn. lia. }
    split; [done|]. by rewrite <- !app_assoc.
Qed.

Lemma skip_eol_spec eols P c tl fuel :
  Forall (fun c => is_eol c = true) eols -> is_eol c = false -> (length eols < fuel)%nat ->
  skip_eol fuel (P ++ eols ++ c :: tl) (length P) = Some (length (P ++ eols)).
Proof.
  intros He Hc. revert fuel P. induction He as [|e eols He _ IH]; intros fuel P Hf;
    (destruct fuel as [|fuel]; [cbn in Hf; lia|]); cbn [skip_eol];
    rewrite ch_at_app_0; cbn [nth app].
  - rewrite app_nil_r. rewrite orb_comm. fold (is_eol c). by rewrite Hc.
  - rewrite orb_comm. fold (is_eol e). rewrite He, (snoc_cons P e eols), (snoc_cons P e (eols ++ c :: tl)).
    rewrite <- IH with (fuel := fuel) by (cbn in Hf; lia). f_equal. rewrite length_app. cbn. lia.
Qed.

Lemma span_line s :
  exists line rest, s = line ++ rest /\ Forall (fun c => is_eol c = false) line /\
    (rest = [] \/ exists e r, rest = e :: r /\ is_eol e = true).
Proof.
  induction s as [|c s (line & rest & Hs & Hl & Hr)].
  { exists [], []. split; [done|]. split; [constructor|by left]. }
  destruct (is_eol c) eqn:E.
  - exists [], (c :: s). split; [done|]. split; [constructor|right; by exists c, s].
  - exists (c :: line), rest. rewrite Hs. split; [done|]. split; [by constructor|done].
Qed.

Lemma span_eols s :
  exists eols rest, s = eols ++ rest /\ Forall (fun c => is_eol c = true) eols /\
    is_eol (nth 0 rest 0) = false.
Proof.
  induction s as [|c s (eols & rest & Hs & He & Hr)].
  { exists [], []. split; [done|]. split; [constructor|done]. }
  destruct (is_eol c) eqn:E.
  - exists (c :: eols), rest. rewrite Hs. split; [done|]. split; [by constructor|done].
  - exists [], (c :: s). split; [done|]. split; [constructor|done].
Qed.

Lemma split_lines_line line :
  Forall (fun c => is_eol c = false) line -> split_lines line = [line].
Proof. induction 1 as [|c line Hc _ IH]; [done|]. cbn. by rewrite Hc, IH. Qed.

Lemma split_lines_eol line e r :
  Forall (fun c => is_eol c = false) line -> is_eol e = true ->
  split_lines (line ++ e :: r) = line :: split_lines r.
Proof. intros H He. induction H as [|c line Hc _ IH]; cbn; [by rewrite He|]. by rewrite Hc, IH. Qed.

(** Blank lines run no callback. *)
Lemma run_lines_eols eols r context :
  Forall (fun c => is_eol c = true) eols ->
  run_lines item_cb section_cb (split_lines (eols ++ r)) context =
  run_lines item_cb section_cb (split_lines r) context.
Proof.
  induction 1 as [|e eols He _ IH]; [done|]. cbn [app split_lines]. rewrite He.
  cbn [run_lines]. apply IH.
Qed.

Lemma ini_lines_spec n : forall rest P tl context,
  nonzero rest -> (length rest < n)%nat ->
  ini_lines item_cb section_cb n (P ++ rest ++ 0 :: tl) (length P) context =
    Some (run_lines item_cb section_cb (split_lines rest) context).
Proof.
  induction n as [|n IH]; intros rest P tl context Hnz Hn; [lia|].
  cbn [ini_lines]. rewrite ch_at_app_0.
  destruct rest as [|c0' rest0]; [done|]. set (rest := c0' :: rest0) in *.
  assert ((nth 0 (rest ++ 0 :: tl) 0 =? ch_nul) = false) as ->.
  { apply Z.eqb_neq. by apply Forall_cons in Hnz as [? _]. }
  destruct (span_line rest) as (line & rest' & Hrest & Hline & Hrest').
  assert (line_ok line) as Hok.
  { rewrite Hrest in Hnz. apply Forall_app in Hnz as [Hnz _].
    apply Forall_forall. intros x Hx. rewrite Forall_forall in Hnz, Hline. split; by auto. }
  destruct Hrest' as [->|(e & r & -> & He)].
  - rewrite app_nil_r in Hrest. subst line.
    destruct (ini_line_spec P rest 0 tl context Hok (or_introl eq_refl)) as (P' & HP' & ->).
    rewrite split_lines_line by done. cbn [run_lines].
    destruct (run_entry _ _ _ _) as [status context']. cbn iota.
    destruct (QDF_IS_STATUS_ERROR status) eqn:Est; [done|].
    rewrite Nat.add_0_r. change (P' ++ 0 :: tl) with (P' ++ [] ++ 0 :: tl).
    rewrite skip_eol_spec; [|constructor|done|cbn; lia].
    rewrite app_nil_r, IH; [|constructor|unfold rest in Hn; cbn in *; lia].
    cbn. by destruct status.
  - rewrite Hrest, <- app_assoc. cbn [app].
    destruct (ini_line_spec P line e (r ++ 0 :: tl) context Hok (or_intror He)) as (P' & HP' & ->).
    rewrite split_lines_eol by done. cbn [run_lines]. rewrite He.
    destruct (run_entry _ _ _ _) as [status context']. cbn iota.
    destruct (QDF_IS_STATUS_ERROR status) eqn:Est; [done|].
    assert (nonzero r) as Hr.
    { rewrite Hrest in Hnz. apply Forall_app in Hnz as [_ Hnz]. by apply Forall_cons in Hnz as [_ ?]. }
    destruct (span_eols r) as (eols & r2 & Hr2 & Heols & Hr2e). rewrite Hr2.
    rewrite run_lines_eols by done.
    assert (length rest = (length line + S (length r))%nat) as Hlen
      by (rewrite Hrest, length_app; done).
    rewrite (snoc_cons P' 0). replace (length P' + 1)%nat with (length (P' ++ [0]))
      by (rewrite length_app; done).
    rewrite <- (app_assoc eols r2).
    assert (exists c tl', r2 ++ 0 :: tl = c :: tl' /\ is_eol c = false) as (c & tl' & Hc & Hce).
    { destruct r2 as [|c r2]; by eexists _, _. }
    rewrite Hc at 2. rewrite skip_eol_spec; [|done..|rewrite !length_app; lia].
    rewrite (app_assoc (P' ++ [0])). apply IH.
    + rewrite Hr2 in Hr. by apply Forall_app in Hr as [_ ?].
    + rewrite Hr2, length_app in Hlen. lia.
Qed.

End Refinement.

(** * What the parser does with a file *)

Section Correct.
Context {ctx : Type}.
Variable item_cb : ctx -> cstr -> cstr -> QDF_STATUS * ctx.
Variable section_cb : ctx -> cstr -> QDF_STATUS * ctx.

Lemma ini_parse_spec request_firmware malloc_ok path context :
  qdf_ini_parse item_cb section_cb (qdf_file_read request_firmware malloc_ok) path context =
  Some (match request_firmware path with
        | None => (QDF_STATUS_E_FAILURE, context)
        | Some data =>
            if malloc_ok : bool
            then run_lines item_cb section_cb (split_lines (take_nonzero data)) context
            else (QDF_STATUS_E_NOMEM, context)
        end).
Proof.
  unfold qdf_ini_parse, qdf_file_read.
  destruct (request_firmware path) as [data|]; [|done]. destruct malloc_ok; [|done].
  destruct (take_nonzero_split data) as [r Hr]. rewrite Hr.
  apply (ini_lines_spec item_cb section_cb _ (take_nonzero data) []);
    [apply take_nonzero_nonzero|rewrite length_app; cbn; lia].
Qed.

(** C15 The ini parser terminates on every file and does what the text means.
    For any file content, the in-place buffer parser runs the item and section
    callbacks of the lines of the text before the first NUL, in order, with the
    trimmed key, the untrimmed value cut at the first '#' and the bracketed
    section name, stops at the first callback that fails and returns its status;
    a file that cannot be read returns E_FAILURE, or E_NOMEM when its buffer
    cannot be allocated, without running a callback. *)
Theorem qdf_ini_parse_refines request_firmware malloc_ok path context :
  qdf_ini_parse item_cb section_cb (qdf_file_read request_firmware malloc_ok) path context =
  Some (match request_firmware path with
        | None => (QDF_STATUS_E_FAILURE, context)
        | Some data =>
            if malloc_ok : bool
            then run_lines item_cb section_cb (split_lines (take_nonzero data)) context
            else (QDF_STATUS_E_NOMEM, context)
        end).
Proof. apply ini_parse_spec. Qed.

(** Writing entries out as an ini file. *)
Definition entry_text (e : ini_entry) : cstr :=
  match e with
  | IniItem k v => k ++ ch_eq :: v
  | IniSection n => ch_lbracket :: n ++ [ch_rbracket]
  | IniNothing => []
  end.

Definition ini_text (es : list ini_entry) : cstr :=
  concat (map (fun e => entry_text e ++ [ch_lf]) es).

Definition plain (c : Z) : bool :=
  negb (c =? 0) && negb (is_eol c) && negb (c =? ch_hash).

(** Keys are trimmed and hold no '='; no text holds an end of line or '#'. *)
Definition entry_ok (e : ini_entry) : Prop :=
  match e with
  | IniItem k v =>
      forallb plain k /\ forallb plain v /\ ~ In ch_eq k /\ str_trim k = k
  | IniSection n => forallb plain n /\ ~ In ch_eq n
  | IniNothing => True
  end.

Fixpoint run_entries (es : list ini_entry) (context : ctx) : QDF_STATUS * ctx :=
  match es with
  | [] => (QDF_STATUS_SUCCESS, context)
  | e :: es =>
      let '(status, context) := run_entry item_cb section_cb e context in
      if QDF_IS_STATUS_ERROR status then (status, context) else run_entries es context
  end.

Lemma take_until_plain s : forallb plain s -> take_until ch_hash s = s.
Proof.
  induction s as [|c s IH]; [done|]. cbn. intros [Hc Hs]%andb_prop_elim.
  destruct (Z.eqb_spec c ch_hash) as [->|]; [done|]. by rewrite IH.
Qed.

Lemma split_eq_plain k v : ~ In ch_eq k -> split_eq (k ++ ch_eq :: v) = Some (k, v).
Proof.
  induction k as [|c k IH]; [done|]. cbn. intros H.
  destruct (Z.eqb_spec c ch_eq) as [->|]; [tauto|]. rewrite IH; tauto.
Qed.

Lemma split_eq_none k : ~ In ch_eq k -> split_eq k = None.
Proof.
  induction k as [|c k IH]; [done|]. cbn. intros H.
  destruct (Z.eqb_spec c ch_eq) as [->|]; [tauto|]. rewrite IH; tauto.
Qed.

Lemma entry_text_plain e : entry_ok e -> forallb plain (entry_text e).
Proof.
  destruct e as [k v|n|]; cbn; [|intros [Hn _]|done].
  - intros (Hk & Hv & _). rewrite forallb_app. cbn. apply andb_prop_intro. by split.
  - rewrite forallb_app. cbn. apply andb_prop_intro. by split.
Qed.

Lemma line_entry_text e : entry_ok e -> line_entry (entry_text e) = e.
Proof.
  intros He. unfold line_entry. rewrite (take_until_plain _ (entry_text_plain e He)).
  destruct e as [k v|n|]; cbn [entry_text]; [| |done].
  - destruct He as (_ & _ & Heq & Htrim). by rewrite split_eq_plain, Htrim.
  - destruct He as (_ & Heq). rewrite split_eq_none.
    2: { cbn. rewrite in_app_iff. cbn. intuition discriminate. }
    assert (str_trim (ch_lbracket :: n ++ [ch_rbracket]) = ch_lbracket :: n ++ [ch_rbracket]) as ->.
    { unfold str_trim. change (ch_lbracket :: n ++ [ch_rbracket])
        with ((ch_lbracket :: n) ++ [ch_rbracket]). by rewrite right_trim_snoc. }
    cbn [c0 nth]. change (c0 (ch_lbracket :: n ++ [ch_rbracket]) =? ch_lbracket) with true.
    cbn iota. cbn [length]. rewrite length_app. cbn [length].
    replace (S (length n + 1) - 1)%nat with (S (length n)) by lia. cbn [nth take drop].
    rewrite app_nth2, Nat.sub_diag by lia. cbn. rewrite drop_0, take_app_length. done.
Qed.

Lemma split_lines_text es :
  Forall entry_ok es -> split_lines (ini_text es) = map entry_text es ++ [[]].
Proof.
  induction 1 as [|e es He _ IH]; [done|]. cbn. rewrite <- app_assoc. cbn [app].
  rewrite split_lines_eol; [by f_equal|..|done].
  apply entry_text_plain in He. apply forallb_True in He.
  eapply Forall_impl; [exact He|]. intros c Hc. unfold plain in Hc.
  destruct (is_eol c); [|done]. by rewrite andb_false_r in Hc.
Qed.

Lemma take_nonzero_text es : Forall entry_ok es -> take_nonzero (ini_text es) = ini_text es.
Proof.
  assert (forall s, nonzero s -> take_nonzero s = s) as H.
  { induction 1 as [|c s Hc _ IH]; [done|]. cbn.
    rewrite (proj2 (Z.eqb_neq _ _) Hc). by rewrite IH. }
  intros Hes. apply H. induction Hes as [|e es He _ IH]; [constructor|]. cbn.
  apply Forall_app. split; [|done]. apply Forall_app. split; [|by repeat constructor].
  apply entry_text_plain, forallb_True in He.
  eapply Forall_impl; [exact He|]. intros c Hc. by destruct (Z.eqb_spec c 0) as [->|].
Qed.

(** Reading back a written ini file.  The parser runs, for any callbacks,
    exactly the items and sections a well-formed ini text was written from, in
    their order and with their keys, values and names unchanged. *)
Theorem qdf_ini_parse_text es path context :
  Forall entry_ok es ->
  qdf_ini_parse item_cb section_cb (qdf_file_read (fun _ => Some (ini_text es)) true) path context
  = Some (run_entries es context).
Proof.
  intros Hes. unfold qdf_ini_parse, qdf_file_read.
  pose proof (take_nonzero_text es Hes) as Htxt.
  destruct (take_nonzero_split (ini_text es)) as [r Hr]. rewrite Hr.
  etrans; [apply (ini_lines_spec item_cb section_cb _ (take_nonzero (ini_text es)) []);
    [apply take_nonzero_nonzero|rewrite length_app; cbn; lia]|].
  rewrite Htxt, split_lines_text by done. f_equal.
  clear Htxt Hr. revert context. induction Hes as [|e es He _ IH]; intros context; [done|].
  cbn [map app run_lines run_entries]. rewrite line_entry_text by done.
  destruct (run_entry _ _ _ _) as [status context'].
  destruct (QDF_IS_STATUS_ERROR status); [done|]. apply IH.
Qed.

End Correct.

(** A section, an item with a space inside, and an item with an empty value. *)
Lemma qdf_ini_parse_text_witness :
  let es := [IniSection (lit "a b"); IniItem (lit "g Key") (lit " v =1"); IniItem (lit "k") []] in
  let log (l : list (cstr * option cstr)) k v := (QDF_STATUS_SUCCESS, l ++ [(k, Some v)]) in
  let sec (l : list (cstr * option cstr)) n := (QDF_STATUS_SUCCESS, l ++ [(n, None)]) in
  qdf_ini_parse log sec (qdf_file_read (fun _ => Some (ini_text es)) true) [] [] =
  Some (QDF_STATUS_SUCCESS,
        [(lit "a b", None); (lit "g Key", Some (lit " v =1")); (lit "k", Some [])]).
Proof.
  intros es log sec. refine (eq_trans (qdf_ini_parse_text log sec es [] [] _) _); [|reflexivity].
  repeat (apply Forall_cons_2; [cbn; intuition (try done; lia)|]). constructor.
Defined.
