(* ===== verification/SmEngine.v ===== *)
(** The state machine engine of umac/cmn_services/sm_engine: the table of states
    with its callbacks, event dispatch, transitions, the validation of the table
    and the history ring. *)
From S2P Require Import Prelude.

(** ** Data (wlan_sm_engine.h, wlan_sm_engine_dbg.h) *)

Definition WLAN_SM_ENGINE_STATE_NONE : Z := 255.
Definition WLAN_SM_ENGINE_EVENT_NONE : Z := 255.
Definition WLAN_SM_ENGINE_MAX_STATES : Z := 200.
Definition WLAN_SM_ENGINE_HISTORY_SIZE : Z := 50.

(** [enum wlan_sm_trace_type]; a zeroed entry has neither value. *)
Definition SM_EVENT_STATE_TRANSITION : Z := 1.
Definition SM_EVENT_MSG_PROCESSING : Z := 2.

Record wlan_sm_history_info : Type := HistoryInfo {
  trace_type : Z;
  event_type : Z;        (* uint8_t *)
  initial_state : Z;
  final_state : Z;
}.

Record wlan_sm_history : Type := History {
  index : Z;             (* uint8_t *)
  data : list wlan_sm_history_info;
}.

(** [struct wlan_sm]; its [state_info] pointer is the table argument of the
    operations, and its [ctx] is the rest of the world the callbacks act on. *)
Record wlan_sm : Type := WlanSm {
  sm_name : string;
  cur_state : Z;         (* uint8_t *)
  num_states : Z;        (* uint8_t *)
  last_event : Z;        (* uint8_t *)
  in_state_transition : Z;
  event_names : option (list string);
  num_event_names : Z;   (* uint32_t *)
  history : wlan_sm_history;
}.

Definition set_cur_state (s : Z) (sm : wlan_sm) : wlan_sm :=
  WlanSm (sm_name sm) s (num_states sm) (last_event sm) (in_state_transition sm)
    (event_names sm) (num_event_names sm) (history sm).
Definition set_last_event (e : Z) (sm : wlan_sm) : wlan_sm :=
  WlanSm (sm_name sm) (cur_state sm) (num_states sm) e (in_state_transition sm)
    (event_names sm) (num_event_names sm) (history sm).
Definition set_in_state_transition (b : Z) (sm : wlan_sm) : wlan_sm :=
  WlanSm (sm_name sm) (cur_state sm) (num_states sm) (last_event sm) b
    (event_names sm) (num_event_names sm) (history sm).
Definition set_history (h : wlan_sm_history) (sm : wlan_sm) : wlan_sm :=
  WlanSm (sm_name sm) (cur_state sm) (num_states sm) (last_event sm)
    (in_state_transition sm) (event_names sm) (num_event_names sm) h.

(** A [struct wlan_sm *]. *)
Inductive sm_handle : Type :=
  | SmNull
  | SmLive (sm : wlan_sm)
  | SmFreed.

(** The machine handle, the [QDF_BUG]s raised so far (a production build logs
    and continues) and the client's context. *)
Record world (X : Type) : Type := World {
  w_sm : sm_handle;
  w_bugs : list string;
  w_ctx : X;
}.
Arguments World {X} w_sm w_bugs w_ctx.
Arguments w_sm {X} w.
Arguments w_bugs {X} w.
Arguments w_ctx {X} w.

(** ** The history ring *)

Definition empty_entry : wlan_sm_history_info := HistoryInfo 0 0 0 0.

Definition wlan_sm_save_history (sm : wlan_sm) (trace_type initial_state final_state
    event_type : Z) : wlan_sm :=
  let h := history sm in
  let memento := Z.to_nat (index h) in
  let index := wrap 8 (index h + 1) mod WLAN_SM_ENGINE_HISTORY_SIZE in
  set_history (History index
    (<[memento := HistoryInfo trace_type (wrap 8 event_type) initial_state final_state]>
      (data h))) sm.

Definition wlan_sm_history_init (sm : wlan_sm) : wlan_sm :=
  set_history (History 0 (replicate (Z.to_nat WLAN_SM_ENGINE_HISTORY_SIZE) empty_entry)) sm.

Section Engine.
Context {X D : Type}.
Abbreviation MW := (M (world X)).

(** [struct wlan_sm_state_info] *)
Record wlan_sm_state_info : Type := StateInfo {
  state : Z;
  parent_state : Z;
  initial_substate : Z;
  has_substates : bool;
  si_name : string;
  wlan_sm_entry : option (MW unit);
  wlan_sm_exit : option (MW unit);
  wlan_sm_event : option (Z -> Z -> D -> MW bool);
}.

Implicit Types tbl : list wlan_sm_state_info.

(** ** Access to the machine and the table *)

Definition set_sm (sm : wlan_sm) (w : world X) : world X :=
  World (SmLive sm) (w_bugs w) (w_ctx w).
Definition put_sm (sm : wlan_sm) : MW unit := modify (set_sm sm).
Definition get_sm : MW (option wlan_sm) := fun w =>
  match w_sm w with
  | SmNull => Ret None w
  | SmLive sm => Ret (Some sm) w
  | SmFreed => Crash
  end.
Definition deref_sm : MW wlan_sm := osm ← get_sm; deref osm.
Definition update_sm (f : wlan_sm -> wlan_sm) : MW unit := sm ← deref_sm; put_sm (f sm).

Definition qdf_bug (site : string) : MW unit :=
  modify (fun w => World (w_sm w) (w_bugs w ++ [site]) (w_ctx w)).

(** [state_info[s]] *)
Definition info_at tbl (s : Z) : MW wlan_sm_state_info := deref (tbl !! Z.to_nat s).

(** ** Dispatch *)

(** The debug print of the event: [event_names[event]] is read when the event is
    below the count. *)
Definition event_name (sm : wlan_sm) (event : Z) : MW (option string) :=
  match event_names sm with
  | Some names =>
      if event <? num_event_names sm
      then name ← deref (names !! Z.to_nat event); mret (Some name)
      else mret None
  | None => mret None
  end.

Definition wlan_sm_dispatch tbl (event event_data_len : Z) (event_data : D)
  : MW QDF_STATUS :=
  osm ← get_sm;
  match osm with
  | None => mret QDF_STATUS_E_FAILURE
  | Some sm =>
      let state := cur_state sm in
      if event =? WLAN_SM_ENGINE_EVENT_NONE then mret QDF_STATUS_E_FAILURE
      else
        let sm := set_last_event (wrap 8 event) sm in
        let sm := wlan_sm_save_history sm SM_EVENT_MSG_PROCESSING (cur_state sm)
                    (cur_state sm) event in
        put_sm sm;;
        _ ← event_name sm event;
        info ← info_at tbl state;
        if negb (state =? WLAN_SM_ENGINE_STATE_NONE) then
          handler ← deref (wlan_sm_event info);
          event_handled ← handler event event_data_len event_data;
          if negb event_handled then
            sm ← deref_sm;
            _ ← info_at tbl (cur_state sm);
            mret QDF_STATUS_E_INVAL
          else mret QDF_STATUS_SUCCESS
        else mret QDF_STATUS_SUCCESS
  end.

(** ** Transitions *)

Definition call_hook (h : option (MW unit)) : MW unit :=
  match h with Some f => f | None => mret () end.

(** The exit callbacks of a state and its parents. *)
Fixpoint run_exits (fuel : nat) tbl (cur_state : Z) : MW unit :=
  match fuel with
  | O => out_of_fuel
  | S fuel =>
      if negb (cur_state =? WLAN_SM_ENGINE_STATE_NONE) then
        info ← info_at tbl cur_state;
        call_hook (wlan_sm_exit info);;
        run_exits fuel tbl (parent_state info)
      else mret ()
  end.

(** The entry callbacks of a state and its initial substates. *)
Fixpoint run_entries (fuel : nat) tbl (cur_state : Z) : MW unit :=
  match fuel with
  | O => out_of_fuel
  | S fuel =>
      if negb (cur_state =? WLAN_SM_ENGINE_STATE_NONE) then
        info ← info_at tbl cur_state;
        call_hook (wlan_sm_entry info);;
        update_sm (set_cur_state cur_state);;
        (if negb (initial_substate info =? WLAN_SM_ENGINE_STATE_NONE)
         then _ ← info_at tbl (initial_substate info); mret () else mret ());;
        run_entries fuel tbl (initial_substate info)
      else mret ()
  end.

(** One round per [uint8_t] value, and the last: a chain that takes more never
    ends. *)
Definition chain_fuel : nat := 257.

Definition super_or_self (info : wlan_sm_state_info) (s : Z) : Z :=
  if negb (parent_state info =? WLAN_SM_ENGINE_STATE_NONE) then parent_state info else s.

Definition wlan_sm_transition_to tbl (state : Z) : MW unit :=
  osm ← get_sm;
  match osm with
  | None => mret ()
  | Some sm =>
      let cur := cur_state sm in
      if negb (in_state_transition sm =? 0) then
        qdf_bug "wlan_sm_transition_to: called from entry/exit routines"
      else
        put_sm (wlan_sm_save_history (set_in_state_transition 1 sm)
                  SM_EVENT_STATE_TRANSITION cur state 255);;
        if (state =? WLAN_SM_ENGINE_STATE_NONE)
           || (WLAN_SM_ENGINE_MAX_STATES <=? state) || (num_states sm <=? state)
        then mret ()
        else
          cur_info ← info_at tbl cur;
          new_info ← info_at tbl state;
          _ ← info_at tbl (super_or_self cur_info cur);
          _ ← info_at tbl (super_or_self new_info state);
          run_exits chain_fuel tbl cur;;
          run_entries chain_fuel tbl state;;
          update_sm (set_in_state_transition 0)
  end.

Definition wlan_sm_reset (init_state : Z) : MW unit :=
  update_sm (set_cur_state init_state).

(** ** Creation *)

(** The loop over the parents of one entry; [visited] is [state_visited]. *)
Fixpoint validate_loop (fuel : nat) tbl (visited : list bool) (state : Z)
  : MW QDF_STATUS :=
  match fuel with
  | O => out_of_fuel
  | S fuel =>
      if negb (state =? WLAN_SM_ENGINE_STATE_NONE) then
        seen ← deref (visited !! Z.to_nat state);
        if seen : bool then mret QDF_STATUS_E_FAILURE
        else
          let visited := <[Z.to_nat state := true]> visited in
          info ← info_at tbl state;
          let next_state := parent_state info in
          if negb (next_state =? WLAN_SM_ENGINE_STATE_NONE) then
            next ← info_at tbl next_state;
            if negb (has_substates next) then mret QDF_STATUS_E_FAILURE
            else validate_loop fuel tbl visited next_state
          else validate_loop fuel tbl visited next_state
      else mret QDF_STATUS_SUCCESS
  end.

Definition wlan_sm_validate_state_info tbl (i : Z) : MW QDF_STATUS :=
  info ← info_at tbl i;
  if (WLAN_SM_ENGINE_MAX_STATES <=? state info) || negb (state info =? i)
  then mret QDF_STATUS_E_FAILURE
  else
    validate_loop (S (S (Z.to_nat WLAN_SM_ENGINE_MAX_STATES))) tbl
      (replicate (Z.to_nat WLAN_SM_ENGINE_MAX_STATES) false) (state info).

(** [for (i = 0; i < num_states; ++i)] *)
Fixpoint validate_all tbl (n : nat) (i : Z) : MW bool :=
  match n with
  | O => mret true
  | S n =>
      status ← wlan_sm_validate_state_info tbl i;
      if QDF_IS_STATUS_SUCCESS status then validate_all tbl n (i + 1) else mret false
  end.

Definition wlan_sm_create (malloc_ok : bool) (name : string) (init_state : Z) tbl
    (num_states : Z) (event_names : option (list string)) (num_event_names : Z)
  : MW (option wlan_sm) :=
  if WLAN_SM_ENGINE_MAX_STATES <? num_states then mret None
  else
    valid ← validate_all tbl (Z.to_nat num_states) 0;
    if negb valid then mret None
    else if negb malloc_ok then mret None
    else
      mret (Some (wlan_sm_history_init
        (WlanSm (String.substring 0 63 name) init_state num_states
           WLAN_SM_ENGINE_EVENT_NONE 0 event_names num_event_names (History 0 [])))).

(** The handle dangles after the machine is freed. *)
Definition wlan_sm_delete : MW unit :=
  _ ← deref_sm; modify (fun w => World SmFreed (w_bugs w) (w_ctx w)).

Definition wlan_sm_get_lastevent : MW Z := sm ← deref_sm; mret (last_event sm).
Definition wlan_sm_get_current_state : MW Z := sm ← deref_sm; mret (cur_state sm).
Definition wlan_sm_get_state_name tbl (s : Z) : MW string :=
  _ ← deref_sm; info ← info_at tbl s; mret (si_name info).
Definition wlan_sm_get_current_state_name tbl : MW string :=
  sm ← deref_sm; info ← info_at tbl (cur_state sm); mret (si_name info).

(** ** Printing the history *)

(** A printed line: the slot, the trace type, the event's name and number, and
    the two states with their names. *)
Record history_line : Type := HistoryLine {
  l_slot : Z;
  l_trace_type : Z;
  l_event : option string;
  l_event_type : Z;
  l_initial : string * Z;
  l_final : string * Z;
}.

Definition wlan_sm_print_history_entry tbl (sm : wlan_sm) (ent : wlan_sm_history_info)
    (i : Z) : MW (list history_line) :=
  name ← event_name sm (event_type ent);
  if (match event_names sm with Some _ => true | None => false end) && (trace_type ent =? 0)
  then mret []
  else
    ini ← info_at tbl (initial_state ent);
    fin ← info_at tbl (final_state ent);
    mret [HistoryLine i (trace_type ent) name (event_type ent)
            (si_name ini, initial_state ent) (si_name fin, final_state ent)].

Fixpoint print_history_loop tbl (sm : wlan_sm) (n : nat) (i : Z) : MW (list history_line) :=
  match n with
  | O => mret []
  | S n =>
      let idx := (index (history sm) + i) mod WLAN_SM_ENGINE_HISTORY_SIZE in
      ent ← deref (data (history sm) !! Z.to_nat idx);
      line ← wlan_sm_print_history_entry tbl sm ent idx;
      lines ← print_history_loop tbl sm n (i + 1);
      mret (line ++ lines)
  end.

Definition wlan_sm_print_history tbl : MW (list history_line) :=
  sm ← deref_sm;
  print_history_loop tbl sm (Z.to_nat WLAN_SM_ENGINE_HISTORY_SIZE) 0.

(** ** Re-entrancy

    Callbacks call the engine again.  A client builds its table from the engine's
    operations; the nesting of calls is bounded by fuel, each level being the
    engine over the table whose callbacks use the level below. *)
Record sm_calls : Type := SmCalls {
  dispatch : Z -> Z -> D -> MW QDF_STATUS;
  transition_to : Z -> MW unit;
}.

Fixpoint engine (client : sm_calls -> list wlan_sm_state_info) (fuel : nat) : sm_calls :=
  match fuel with
  | O => SmCalls (fun _ _ _ => out_of_fuel) (fun _ => out_of_fuel)
  | S fuel =>
      let tbl := client (engine client fuel) in
      SmCalls (wlan_sm_dispatch tbl) (wlan_sm_transition_to tbl)
  end.

End Engine.
Arguments wlan_sm_state_info X D : clear implicits.
Arguments sm_calls X D : clear implicits.

(** * The history ring keeps the last entries in order *)

Section History.

Definition ring_ok (h : wlan_sm_history) : Prop :=
  length (data h) = 50%nat /\ 0 <= index h < 50.

(** The entries from the oldest to the newest: the order they print in. *)
Definition chronological (h : wlan_sm_history) : list wlan_sm_history_info :=
  drop (Z.to_nat (index h)) (data h) ++ take (Z.to_nat (index h)) (data h).

Lemma chronological_rotate {A} (l : list A) (i : nat) x :
  (i < length l)%nat ->
  let l' := <[i := x]> l in
  let i' := (S i mod length l)%nat in
  drop i' l' ++ take i' l' = drop 1 (drop i l ++ take i l) ++ [x].
Proof.
  intros Hi l' i'. destruct (lookup_lt_is_Some_2 l i Hi) as [y Hy].
  rewrite (drop_S _ _ _ Hy). cbn [app drop]. rewrite drop_0, <- app_assoc.
  subst l' i'. destruct (decide (S i = length l)) as [HS|HS].
  - rewrite HS, Nat.Div0.mod_same, drop_0, take_0, app_nil_r.
    rewrite (drop_ge l) by lia. cbn [app].
    rewrite insert_take_drop by done. by rewrite (drop_ge l) by lia.
  - rewrite Nat.mod_small by lia. rewrite drop_insert_lt by lia. f_equal.
    rewrite (take_S_r _ _ x) by (by rewrite list_lookup_insert_eq).
    by rewrite take_insert_ge by lia.
Qed.

Lemma save_history_ring sm t i f e :
  ring_ok (history sm) ->
  let h := history (wlan_sm_save_history sm t i f e) in
  ring_ok h /\
  chronological h = drop 1 (chronological (history sm)) ++ [HistoryInfo t (wrap 8 e) i f].
Proof.
  intros [Hlen Hidx]. cbn. unfold WLAN_SM_ENGINE_HISTORY_SIZE.
  rewrite (wrap_small 8) by (int_bounds; lia).
  pose proof (Z.mod_pos_bound (index (history sm) + 1) 50 ltac:(lia)).
  split; [split; cbn; [by rewrite length_insert|lia]|]. unfold chronological. cbn.
  pose proof (chronological_rotate (data (history sm)) (Z.to_nat (index (history sm)))
    (HistoryInfo t (wrap 8 e) i f) ltac:(lia)) as Hrot. cbn in Hrot.
  rewrite Hlen in Hrot. rewrite <- Hrot.
  replace (Z.to_nat ((index (history sm) + 1) mod 50))
    with (S (Z.to_nat (index (history sm))) mod 50)%nat; [done|].
  rewrite Z2Nat.inj_mod by lia. f_equal. lia.
Qed.

(** Saving a list of entries, oldest first: trace type, states, event. *)
Definition save_all (es : list (Z * Z * Z * Z)) (sm : wlan_sm) : wlan_sm :=
  fold_left (fun sm '(t, i, f, e) => wlan_sm_save_history sm t i f e) es sm.

Definition entry_of (x : Z * Z * Z * Z) : wlan_sm_history_info :=
  let '(t, i, f, e) := x in HistoryInfo t (wrap 8 e) i f.

Lemma save_all_chronological es sm :
  ring_ok (history sm) ->
  ring_ok (history (save_all es sm)) /\
  chronological (history (save_all es sm)) =
    drop (length es) (chronological (history sm) ++ map entry_of es).
Proof.
  revert sm. induction es as [|[[[t i] f] e] es IH]; intros sm Hok.
  { by rewrite app_nil_r, drop_0. }
  destruct (save_history_ring sm t i f e Hok) as [Hok' Hch].
  cbn [save_all fold_left]. destruct (IH _ Hok') as [? IH']. split; [done|].
  fold (save_all es (wlan_sm_save_history sm t i f e)). rewrite IH', Hch.
  cbn [map length entry_of]. rewrite <- app_assoc. cbn [app].
  change (S (length es)) with (1 + length es)%nat. rewrite <- drop_drop.
  f_equal. rewrite drop_app_le; [done|]. destruct Hok as [Hl Hi].
  unfold chronological. rewrite length_app, length_drop, length_take. lia.
Qed.

Lemma save_all_machine es sm :
  event_names (save_all es sm) = event_names sm /\
  num_event_names (save_all es sm) = num_event_names sm.
Proof.
  revert sm. induction es as [|[[[t i] f] e] es IH]; intros sm; [done|].
  exact (IH (wlan_sm_save_history sm t i f e)).
Qed.

Lemma chronological_lookup h (i : nat) :
  ring_ok h -> (i < 50)%nat ->
  data h !! Z.to_nat ((index h + Z.of_nat i) mod 50) = chronological h !! i.
Proof.
  intros [Hlen Hidx] Hi. unfold chronological.
  destruct (decide (index h + Z.of_nat i < 50)) as [Hlt|Hge].
  - rewrite Z.mod_small by lia. rewrite lookup_app_l by (rewrite length_drop; lia).
    rewrite lookup_drop. f_equal. lia.
  - rewrite <- (Z.mod_unique (index h + Z.of_nat i) 50 1 (index h + Z.of_nat i - 50)) by lia.
    rewrite lookup_app_r by (rewrite length_drop; lia). rewrite length_drop.
    rewrite lookup_take_lt by lia. f_equal. lia.
Qed.

Context {X D : Type}.
Implicit Types tbl : list (wlan_sm_state_info X D).

(** What a printed line says of the entry. *)
Definition line_entry (l : history_line) : wlan_sm_history_info :=
  HistoryInfo (l_trace_type l) (l_event_type l) (snd (l_initial l)) (snd (l_final l)).

(** The names it prints are those of the event and of the states. *)
Definition line_names_ok tbl (names : list string) (l : history_line) : Prop :=
  l_event l = names !! Z.to_nat (l_event_type l) /\
  Some (fst (l_initial l)) = si_name <$> tbl !! Z.to_nat (snd (l_initial l)) /\
  Some (fst (l_final l)) = si_name <$> tbl !! Z.to_nat (snd (l_final l)).

Definition live_entry (e : wlan_sm_history_info) : bool := negb (trace_type e =? 0).

Definition entry_in tbl (e : wlan_sm_history_info) : Prop :=
  0 <= event_type e /\
  (live_entry e = true ->
   (Z.to_nat (initial_state e) < length tbl)%nat /\
   (Z.to_nat (final_state e) < length tbl)%nat).

Lemma event_name_in sm names (e : Z) (w : world X) :
  event_names sm = Some names -> num_event_names sm = Z.of_nat (length names) -> 0 <= e ->
  event_name sm e w = Ret (names !! Z.to_nat e) w.
Proof.
  intros Hn Hc He. unfold event_name. rewrite Hn, Hc.
  destruct (Z.ltb_spec e (Z.of_nat (length names))).
  - destruct (lookup_lt_is_Some_2 names (Z.to_nat e) ltac:(lia)) as [x Hx]. by rewrite Hx.
  - by rewrite (proj2 (lookup_ge_None names (Z.to_nat e))) by lia.
Qed.

Lemma print_entry_ok tbl sm names e i w :
  event_names sm = Some names -> num_event_names sm = Z.of_nat (length names) ->
  entry_in tbl e ->
  exists lines, wlan_sm_print_history_entry tbl sm e i w = Ret lines w /\
    map line_entry lines = (if live_entry e then [e] else []) /\
    Forall (line_names_ok tbl names) lines.
Proof.
  intros Hn Hc [He Hin]. unfold wlan_sm_print_history_entry.
  rewrite <- (andb_true_l (trace_type e =? 0)). unfold mbind at 1, M_bind.
  rewrite (event_name_in sm names) by done. rewrite Hn. unfold live_entry in *.
  destruct (trace_type e =? 0); cbn; [exists []; by repeat constructor|].
  destruct (Hin eq_refl) as [Hi Hf].
  destruct (lookup_lt_is_Some_2 _ _ Hi) as [ri Hri], (lookup_lt_is_Some_2 _ _ Hf) as [rf Hrf].
  unfold mbind, M_bind, info_at. rewrite Hri. cbn. rewrite Hrf. cbn.
  eexists. split; [done|]. split; [by destruct e|].
  constructor; [|constructor]. unfold line_names_ok. cbn. by rewrite Hri, Hrf.
Qed.

Lemma filter_live l :
  Forall (fun e => live_entry e = true) l -> List.filter live_entry l = l.
Proof. induction 1 as [|e l He _ IH]; [done|]. cbn. by rewrite He, IH. Qed.

Lemma print_loop_ok tbl sm names n (i : nat) w :
  event_names sm = Some names -> num_event_names sm = Z.of_nat (length names) ->
  ring_ok (history sm) -> Forall (entry_in tbl) (chronological (history sm)) ->
  (i + n = 50)%nat ->
  exists lines, print_history_loop tbl sm n (Z.of_nat i) w = Ret lines w /\
    map line_entry lines = List.filter live_entry (drop i (chronological (history sm))) /\
    Forall (line_names_ok tbl names) lines.
Proof.
  intros Hn Hc Hok Hall. revert i. induction n as [|n IH]; intros i Hi.
  - exists []. split; [done|]. split; [|constructor]. rewrite drop_ge; [done|].
    destruct Hok as [Hl Hx]. unfold chronological.
    rewrite length_app, length_drop, length_take. lia.
  - cbn [print_history_loop].
    change WLAN_SM_ENGINE_HISTORY_SIZE with 50. rewrite chronological_lookup by (done || lia).
    destruct (chronological (history sm) !! i) as [e|] eqn:He; cycle 1.
    { apply lookup_ge_None in He. destruct Hok as [Hl Hx]. unfold chronological in He.
      rewrite length_app, length_drop, length_take in He. lia. }
    rewrite (drop_S _ _ _ He). cbn [List.filter].
    unfold mbind, M_bind. cbn [deref mret M_ret].
    assert (entry_in tbl e) as Hin by (by eapply Forall_lookup_1).
    destruct (print_entry_ok tbl sm names e
      ((index (history sm) + Z.of_nat i) mod 50) w Hn Hc Hin) as (l1 & -> & H1 & F1).
    replace (Z.of_nat i + 1) with (Z.of_nat (S i)) by lia.
    destruct (IH (S i) ltac:(lia)) as (l2 & -> & H2 & F2).
    exists (l1 ++ l2). split; [done|]. rewrite map_app, H1, H2. split; [|by apply Forall_app].
    by destruct (live_entry e).
Qed.

End History.

(** Printing the history of a machine shows, oldest first, exactly the last
    fifty things saved into its ring since it was initialised, each with the
    names of its event and states. *)
Theorem wlan_sm_print_history_last_50 {X D} (tbl : list (wlan_sm_state_info X D))
    names es sm0 (w : world X) :
  let sm := save_all es (wlan_sm_history_init sm0) in
  w_sm w = SmLive sm ->
  event_names sm = Some names -> num_event_names sm = Z.of_nat (length names) ->
  Forall (fun '(t, i, f, _) => t <> 0 /\ (Z.to_nat i < length tbl)%nat /\
                               (Z.to_nat f < length tbl)%nat) es ->
  exists lines, wlan_sm_print_history tbl w = Ret lines w /\
    map line_entry lines = drop (length es - 50) (map entry_of es) /\
    Forall (line_names_ok tbl names) lines.
Proof.
  intros sm Hw Hn Hc Hes.
  assert (ring_ok (history (wlan_sm_history_init sm0))) as Hok0 by done.
  destruct (save_all_chronological es _ Hok0) as [Hok Hch]. fold sm in Hok, Hch.
  assert (Forall (entry_in tbl) (map entry_of es)) as Hin.
  { apply Forall_map. eapply Forall_impl; [exact Hes|].
    intros [[[t i] f] e] (Ht & Hi & Hf). split; [|by split].
    cbn. apply (wrap_range 8). lia. }
  assert (Forall (fun e => live_entry e = true) (map entry_of es)) as Hlive.
  { apply Forall_map. eapply Forall_impl; [exact Hes|]. intros [[[t i] f] e] (Ht & _).
    unfold live_entry. cbn. by rewrite (proj2 (Z.eqb_neq _ _) Ht). }
  unfold wlan_sm_print_history, deref_sm, get_sm, mbind, M_bind. rewrite Hw. cbn [deref mret M_ret].
  destruct (print_loop_ok tbl sm names 50 0 w) as (lines & Hp & Hl & Hf); try done.
  { rewrite Hch. apply Forall_drop, Forall_app. split; [|done].
    by apply (Forall_replicate (entry_in tbl) 50 empty_entry). }
  exists lines. split; [exact Hp|]. split; [|done]. rewrite Hl, drop_0, Hch.
  change (chronological (history (wlan_sm_history_init sm0))) with (replicate 50 empty_entry ++ []).
  rewrite app_nil_r. destruct (decide (length es <= 50)%nat) as [Hle|Hgt].
  - replace (length es - 50)%nat with 0%nat by lia. rewrite drop_0.
    rewrite drop_app_le by (by rewrite length_replicate). rewrite drop_replicate.
    rewrite List.filter_app, (filter_live (map entry_of es)) by done.
    enough (List.filter live_entry (replicate (50 - length es) empty_entry) = []) as -> by done.
    generalize (50 - length es)%nat. intros n. by induction n.
  - rewrite drop_app_ge by (rewrite length_replicate; lia). rewrite length_replicate.
    apply filter_live. by apply Forall_drop.
Qed.

(** A machine with two states and one event name, after 53 saves. *)
Lemma wlan_sm_print_history_last_50_witness :
  let row n := StateInfo n 255 255 false "S" None None None : wlan_sm_state_info unit unit in
  let tbl := [row 0; row 1] in
  let sm0 := WlanSm "sm" 0 2 255 0 (Some ["EV"]) 1 (History 0 []) in
  let es := (1, 1, 0, 255) :: replicate 52 (2, 0, 1, 0) in
  let w := World (SmLive (save_all es (wlan_sm_history_init sm0))) [] tt in
  exists lines, wlan_sm_print_history tbl w = Ret lines w /\
    map line_entry lines = replicate 50 (HistoryInfo 2 0 0 1) /\
    Forall (line_names_ok tbl ["EV"]) lines.
Proof.
  intros row tbl sm0 es w.
  refine (wlan_sm_print_history_last_50 tbl ["EV"] es sm0 w eq_refl eq_refl eq_refl _).
  repeat (apply Forall_cons_2; [cbn; lia|]). constructor.
Defined.

(** * Validation of the table *)

Section Validate.
Context {X D : Type}.
Implicit Types tbl : list (wlan_sm_state_info X D).

(** [parent_path tbl s p]: following parents from [s] visits [p] and stops, and
    every parent on the way is marked as having substates. *)
Inductive parent_path tbl : Z -> list Z -> Prop :=
  | parent_path_end : parent_path tbl WLAN_SM_ENGINE_STATE_NONE []
  | parent_path_step s info p :
      s <> WLAN_SM_ENGINE_STATE_NONE ->
      tbl !! Z.to_nat s = Some info ->
      (parent_state info <> WLAN_SM_ENGINE_STATE_NONE ->
       exists next, tbl !! Z.to_nat (parent_state info) = Some next /\
                    has_substates next = true) ->
      parent_path tbl (parent_state info) p ->
      parent_path tbl s (s :: p).

(** Every entry has the state of its index, and a path to a root. *)
Definition row_ok tbl (i : Z) : Prop :=
  exists info p, tbl !! Z.to_nat i = Some info /\ state info = i /\ parent_path tbl i p.

(** Parents are states of the table, or none. *)
Definition parents_in tbl : Prop :=
  Forall (fun info => parent_state info = WLAN_SM_ENGINE_STATE_NONE \/
                      0 <= parent_state info < Z.of_nat (length tbl)) tbl.

Lemma parent_path_det tbl s p q : parent_path tbl s p -> parent_path tbl s q -> p = q.
Proof.
  intros Hp. revert q. induction Hp as [|s info p Hs Hinfo _ _ IH]; intros q Hq.
  - by inversion Hq.
  - inversion Hq as [|? info' q' ? Hinfo' _ Hq']; subst; [done|].
    rewrite Hinfo in Hinfo'. injection Hinfo' as <-. f_equal. by apply IH.
Qed.

Lemma parent_path_suffix tbl s p x q1 q2 :
  parent_path tbl s p -> p = q1 ++ x :: q2 -> parent_path tbl x (x :: q2).
Proof.
  intros Hp. revert q1. induction Hp as [|s info p Hs Hinfo Hsup Hp IH]; intros q1 Heq.
  - by destruct q1.
  - destruct q1 as [|y q1]; cbn in Heq; injection Heq as <- ->.
    + by econstructor.
    + by apply (IH q1).
Qed.

Lemma parent_path_nodup tbl s p : parent_path tbl s p -> NoDup p.
Proof.
  intros Hp. apply NoDup_alt. intros i j x Hi Hj.
  assert (forall i, p !! i = Some x -> parent_path tbl x (drop i p)) as H.
  { clear i j Hi Hj. intros i Hi. rewrite (drop_S _ _ _ Hi).
    apply (parent_path_suffix tbl s p x (take i p)); [done|].
    by rewrite <- (drop_S _ _ _ Hi), take_drop. }
  pose proof (f_equal length (parent_path_det _ _ _ _ (H i Hi) (H j Hj))) as Hlen.
  rewrite !length_drop in Hlen. apply lookup_lt_Some in Hi, Hj. lia.
Qed.

Lemma parent_path_in tbl s p :
  parents_in tbl -> s = WLAN_SM_ENGINE_STATE_NONE \/ 0 <= s < Z.of_nat (length tbl) ->
  parent_path tbl s p -> Forall (fun x => 0 <= x < Z.of_nat (length tbl)) p.
Proof.
  intros Hpar Hs Hp. revert Hs. induction Hp as [|s info p Hns Hinfo _ _ IH]; intros Hs.
  - constructor.
  - constructor; [by destruct Hs|]. apply IH.
    by eapply (Forall_lookup_1 _ _ _ _ Hpar).
Qed.

(** The states marked so far, and how many are not. *)
Definition unvisited (visited : list bool) : nat := length (List.filter negb visited).

Lemma unvisited_mark visited (n : nat) :
  visited !! n = Some false -> unvisited visited = S (unvisited (<[n := true]> visited)).
Proof.
  unfold unvisited. revert n. induction visited as [|b visited IH]; intros [|n] Hn; try done.
  - cbn in Hn. by injection Hn as ->.
  - cbn. specialize (IH n Hn). destruct b; cbn; by rewrite IH.
Qed.

(** From a state of the table, the loop ends within the table and the array; it
    succeeds when the path is free of marked states, and only on a path. *)
Lemma validate_loop_spec tbl fuel visited s (w : world X) :
  parents_in tbl -> (length tbl <= length visited)%nat ->
  s = WLAN_SM_ENGINE_STATE_NONE \/ 0 <= s < Z.of_nat (length tbl) ->
  (S (unvisited visited) < fuel)%nat ->
  exists st, validate_loop fuel tbl visited s w = Ret st w /\
    (st = QDF_STATUS_SUCCESS \/ st = QDF_STATUS_E_FAILURE) /\
    (st = QDF_STATUS_SUCCESS <->
     exists p, parent_path tbl s p /\ Forall (fun x => visited !! Z.to_nat x = Some false) p).
Proof.
  intros Hpar Hlen. revert visited s Hlen. induction fuel as [|fuel IH];
    intros visited s Hlen Hs Hfuel; [lia|]. cbn [validate_loop].
  destruct (Z.eqb_spec s WLAN_SM_ENGINE_STATE_NONE) as [->|Hns]; cbn [negb].
  { exists QDF_STATUS_SUCCESS. split; [done|]. split; [by left|]. split; [|done].
    intros _. exists []. by repeat constructor. }
  destruct Hs as [?|Hs]; [done|].
  destruct (lookup_lt_is_Some_2 visited (Z.to_nat s) ltac:(lia)) as [seen Hseen].
  destruct (lookup_lt_is_Some_2 tbl (Z.to_nat s) ltac:(lia)) as [info Hinfo].
  unfold mbind, M_bind. rewrite Hseen. cbn [deref mret M_ret]. destruct seen.
  { exists QDF_STATUS_E_FAILURE. split; [done|]. split; [by right|]. split; [done|].
    intros (p & Hp & Hfree). inversion Hp; subst; [done|]. inversion Hfree; subst. congruence. }
  unfold info_at. rewrite Hinfo. cbn [deref mret M_ret].
  assert (parent_state info = WLAN_SM_ENGINE_STATE_NONE \/
          0 <= parent_state info < Z.of_nat (length tbl)) as Hpi
    by (by eapply (Forall_lookup_1 _ _ _ _ Hpar)).
  pose proof (unvisited_mark _ _ Hseen) as Hmark.
  set (visited' := <[Z.to_nat s := true]> visited) in *.
  destruct (IH visited' (parent_state info)) as (st & Hst & Hcases & Hiff);
    [unfold visited'; by rewrite length_insert|done|lia|].
  assert ((parent_state info <> WLAN_SM_ENGINE_STATE_NONE ->
           exists next, tbl !! Z.to_nat (parent_state info) = Some next /\
                        has_substates next = true) ->
    exists st, validate_loop fuel tbl visited' (parent_state info) w = Ret st w /\
      (st = QDF_STATUS_SUCCESS \/ st = QDF_STATUS_E_FAILURE) /\
      (st = QDF_STATUS_SUCCESS <->
       exists p, parent_path tbl s p /\
                 Forall (fun x => visited !! Z.to_nat x = Some false) p)) as Hrec.
  { intros Hsup. exists st. split; [done|]. split; [done|]. rewrite Hiff. split.
    - intros (p & Hp & Hfree). exists (s :: p). split; [by econstructor|].
      constructor; [done|]. eapply Forall_impl; [exact Hfree|]. intros x. unfold visited'.
      destruct (decide (Z.to_nat s = Z.to_nat x)) as [<-|].
      + rewrite list_lookup_insert_eq by lia. done.
      + by rewrite list_lookup_insert_ne.
    - intros (p & Hp & Hfree). pose proof (parent_path_nodup _ _ _ Hp) as Hnd.
      inversion Hp as [|? info' p' _ Hinfo' _ Hp']; subst; [done|].
      rewrite Hinfo in Hinfo'. injection Hinfo' as <-.
      exists p'. split; [done|]. inversion Hfree as [|? ? _ Hfree']; subst.
      inversion Hnd as [|? ? Hnin _]; subst.
      pose proof (parent_path_in _ _ _ Hpar Hpi Hp') as Hin.
      apply Forall_forall. intros x Hx. rewrite Forall_forall in Hfree', Hin.
      unfold visited'. rewrite list_lookup_insert_ne; [by apply Hfree'|].
      intros Heq. specialize (Hin x Hx). replace x with s in Hx by lia. done. }
  destruct (Z.eqb_spec (parent_state info) WLAN_SM_ENGINE_STATE_NONE) as [Hnone|Hsome];
    cbn [negb]; [by apply Hrec|].
  destruct Hpi as [?|Hpi]; [done|].
  destruct (lookup_lt_is_Some_2 tbl (Z.to_nat (parent_state info)) ltac:(lia)) as [next Hnext].
  rewrite Hnext. cbn [deref mret M_ret]. destruct (has_substates next) eqn:Hhas; cbn [negb].
  { apply Hrec. intros _. by exists next. }
  exists QDF_STATUS_E_FAILURE. split; [done|]. split; [by right|]. split; [done|].
  intros (p & Hp & _). inversion Hp as [|? info' p' _ Hinfo' Hsup _]; subst; [done|].
  rewrite Hinfo in Hinfo'. injection Hinfo' as <-.
  destruct (Hsup Hsome) as (next' & Hnext' & Hhas'). congruence.
Qed.

Lemma unvisited_replicate n : unvisited (replicate n false) = n.
Proof. induction n as [|n IH]; [done|]. unfold unvisited in *. cbn. by f_equal. Qed.

Lemma validate_state_info_spec tbl i (w : world X) :
  parents_in tbl -> (length tbl <= 200)%nat -> 0 <= i < Z.of_nat (length tbl) ->
  exists st, wlan_sm_validate_state_info tbl i w = Ret st w /\
    (st = QDF_STATUS_SUCCESS <-> row_ok tbl i).
Proof.
  intros Hpar Hlen Hi. unfold wlan_sm_validate_state_info, info_at, mbind, M_bind.
  destruct (lookup_lt_is_Some_2 tbl (Z.to_nat i) ltac:(lia)) as [info Hinfo].
  rewrite Hinfo. cbn [deref mret M_ret].
  destruct (Z.eqb_spec (state info) i) as [Heq|Hne]; cycle 1.
  { rewrite orb_true_r. exists QDF_STATUS_E_FAILURE. split; [done|]. split; [done|].
    intros (info' & p & Hinfo' & Hst & _). rewrite Hinfo in Hinfo'. congruence. }
  rewrite orb_false_r, Heq. change WLAN_SM_ENGINE_MAX_STATES with 200.
  destruct (Z.leb_spec 200 i); [lia|].
  destruct (validate_loop_spec tbl (S (S (Z.to_nat 200))) (replicate (Z.to_nat 200) false) i w)
    as (st & Hst & _ & Hiff); [done|by rewrite length_replicate|by right|by rewrite unvisited_replicate; lia|].
  exists st. split; [done|]. rewrite Hiff. split.
  - intros (p & Hp & _). by exists info, p.
  - intros (info' & p & _ & _ & Hp). exists p. split; [done|].
    pose proof (parent_path_in _ _ _ Hpar (or_intror Hi) Hp) as Hin.
    eapply Forall_impl; [exact Hin|]. intros x Hx. cbn beta in *.
    by rewrite lookup_replicate_2 by lia.
Qed.

Lemma validate_all_spec tbl n i (w : world X) :
  parents_in tbl -> (length tbl <= 200)%nat -> 0 <= i ->
  i + Z.of_nat n <= Z.of_nat (length tbl) ->
  exists ok, validate_all tbl n i w = Ret ok w /\
    (ok = true <-> forall j, i <= j < i + Z.of_nat n -> row_ok tbl j).
Proof.
  intros Hpar Hlen. revert i. induction n as [|n IH]; intros i Hi Hn; cbn [validate_all].
  { exists true. split; [done|]. split; [|done]. intros _ j Hj. lia. }
  destruct (validate_state_info_spec tbl i w Hpar Hlen ltac:(lia)) as (st & Hst & Hiff).
  unfold mbind, M_bind. rewrite Hst.
  destruct (QDF_IS_STATUS_SUCCESS st) eqn:Hss.
  - destruct (IH (i + 1) ltac:(lia) ltac:(lia)) as (ok & Hok & Hoki).
    exists ok. split; [done|]. rewrite Hoki. split; intros H j Hj; [|apply H; lia].
    destruct (decide (j = i)) as [->|]; [apply Hiff; by destruct st|apply H; lia].
  - exists false. split; [done|]. split; [done|]. intros H.
    assert (st = QDF_STATUS_SUCCESS) by (apply Hiff, H; lia). by subst.
Qed.

End Validate.

(** Creating a machine ends, within the table and the [state_visited] array,
    and makes a machine exactly when every entry carries its own index and has a
    path of parents, all marked as super states, that ends at a root: in
    particular the hierarchy has no cycle.  The new machine is in its initial
    state, outside a transition, with an empty history. *)
Theorem wlan_sm_create_spec {X D} (tbl : list (wlan_sm_state_info X D)) name init names n
    (w : world X) :
  parents_in tbl -> (length tbl <= 200)%nat ->
  exists r, wlan_sm_create true name init tbl (Z.of_nat (length tbl)) names n w = Ret r w /\
    (is_Some r <-> forall i, 0 <= i < Z.of_nat (length tbl) -> row_ok tbl i) /\
    (forall sm, r = Some sm ->
      cur_state sm = init /\ in_state_transition sm = 0 /\
      chronological (history sm) = replicate 50 empty_entry).
Proof.
  intros Hpar Hlen. unfold wlan_sm_create. change WLAN_SM_ENGINE_MAX_STATES with 200.
  destruct (Z.ltb_spec 200 (Z.of_nat (length tbl))); [lia|]. rewrite Nat2Z.id.
  destruct (validate_all_spec tbl (length tbl) 0 w Hpar Hlen ltac:(lia) ltac:(lia))
    as (ok & Hok & Hiff).
  unfold mbind, M_bind. rewrite Hok. destruct ok; cbn [negb]; eexists; (split; [done|]).
  - split; [|by intros sm [= <-]]. split; [|by eexists]. intros _. by apply Hiff.
  - split; [|done]. split; [by intros [? ?]|]. intros H'. exfalso.
    apply Hiff in H'; done.
Qed.

(** A super state with one substate is valid; a state that is its own parent is not. *)
Lemma wlan_sm_create_spec_witness :
  let row n par sub := StateInfo n par 255 sub "S" None None None : wlan_sm_state_info unit unit in
  let w := World SmNull [] tt in
  (exists r, wlan_sm_create true "sm" 0 [row 0 255 true; row 1 0 false] 2 None 0 w = Ret r w /\ is_Some r) /\
  (exists r, wlan_sm_create true "sm" 0 [row 0 0 true] 1 None 0 w = Ret r w /\ ~ is_Some r) /\
  parents_in [row 0 255 true; row 1 0 false].
Proof.
  intros row w.
  assert (parents_in [row 0 255 true; row 1 0 false]) as H1
    by (repeat (apply Forall_cons_2; [cbn; (by left) || (right; lia)|]); constructor).
  assert (parents_in [row 0 0 true]) as H2
    by (repeat (apply Forall_cons_2; [cbn; (by left) || (right; lia)|]); constructor).
  destruct (wlan_sm_create_spec [row 0 255 true; row 1 0 false] "sm" 0 None 0 w H1 ltac:(cbn; lia))
    as (r & Hr & _).
  destruct (wlan_sm_create_spec [row 0 0 true] "sm" 0 None 0 w H2 ltac:(cbn; lia))
    as (r' & Hr' & _).
  split; [|split; [|exact H1]].
  - exists r. split; [exact Hr|]. vm_compute in Hr. injection Hr as <-. by eexists.
  - exists r'. split; [exact Hr'|]. vm_compute in Hr'. injection Hr' as <-. by intros [? ?].
Defined.

(** * Transitions *)

Section Transition.
Context {X D : Type}.
Implicit Types tbl : list (wlan_sm_state_info X D).
Abbreviation MW := (M (world X)).

(** Following initial substates from [s] visits [q] and stops. *)
Inductive entry_path tbl : Z -> list Z -> Prop :=
  | entry_path_end : entry_path tbl WLAN_SM_ENGINE_STATE_NONE []
  | entry_path_step s info q :
      s <> WLAN_SM_ENGINE_STATE_NONE ->
      tbl !! Z.to_nat s = Some info ->
      entry_path tbl (initial_substate info) q ->
      entry_path tbl s (s :: q).

Fixpoint foreach {A} (f : A -> MW unit) (l : list A) : MW unit :=
  match l with
  | [] => mret ()
  | a :: l => f a;; foreach f l
  end.

Definition exit_state tbl (s : Z) : MW unit :=
  call_hook (tbl !! Z.to_nat s ≫= wlan_sm_exit).

Definition enter_state tbl (s : Z) : MW unit :=
  call_hook (tbl !! Z.to_nat s ≫= wlan_sm_entry);; update_sm (set_cur_state s).

Lemma bind_ext {A B} (m : MW A) (k k' : A -> MW B) w :
  (forall a w', k a w' = k' a w') -> (a ← m; k a) w = (a ← m; k' a) w.
Proof. intros H. unfold mbind, M_bind. by destruct (m w). Qed.

Lemma run_exits_path tbl s p fuel w :
  parent_path tbl s p -> (length p < fuel)%nat ->
  run_exits fuel tbl s w = foreach (exit_state tbl) p w.
Proof.
  intros Hp. revert fuel w. induction Hp as [|s info p Hs Hinfo _ _ IH]; intros fuel w Hf;
    (destruct fuel as [|fuel]; [cbn in Hf; lia|]); cbn [run_exits foreach]; [done|].
  rewrite (proj2 (Z.eqb_neq _ _) Hs). cbn [negb].
  assert (exit_state tbl s = call_hook (wlan_sm_exit info)) as ->
    by (unfold exit_state; by rewrite Hinfo).
  unfold info_at, mbind, M_bind. rewrite Hinfo. cbn [deref mret M_ret].
  destruct (call_hook (wlan_sm_exit info) w) as [[] w'| |]; [|done..].
  apply IH. cbn in Hf. lia.
Qed.

Lemma run_entries_path tbl s q fuel w :
  entry_path tbl s q -> (length q < fuel)%nat ->
  run_entries fuel tbl s w = foreach (enter_state tbl) q w.
Proof.
  intros Hq. revert fuel w. induction Hq as [|s info q Hs Hinfo Hq IH]; intros fuel w Hf;
    (destruct fuel as [|fuel]; [cbn in Hf; lia|]); cbn [run_entries foreach]; [done|].
  rewrite (proj2 (Z.eqb_neq _ _) Hs). cbn [negb].
  assert (enter_state tbl s =
    (call_hook (wlan_sm_entry info);; update_sm (set_cur_state s))) as ->
    by (unfold enter_state; by rewrite Hinfo).
  unfold info_at. rewrite Hinfo. cbn [deref].
  assert (forall w', ((if negb (initial_substate info =? WLAN_SM_ENGINE_STATE_NONE)
       then _ ← deref (tbl !! Z.to_nat (initial_substate info)); mret () else mret () : MW unit);;
      run_entries fuel tbl (initial_substate info)) w' = foreach (enter_state tbl) q w') as Hrest.
  { intros w'. rewrite <- (IH fuel w') by (cbn in Hf; lia).
    destruct (Z.eqb_spec (initial_substate info) WLAN_SM_ENGINE_STATE_NONE) as [|Hn]; [done|].
    inversion Hq as [|? info' ? _ Hinfo' _]; subst; [done|]. by rewrite Hinfo'. }
  unfold mbind, M_bind, option_bind in *. cbn [deref mret M_ret] in *.
  destruct (call_hook (wlan_sm_entry info) w) as [[] w'| |]; [|done..].
  destruct (update_sm (set_cur_state s) w') as [[] w''| |]; [|done..]. apply Hrest.
Qed.

(** The loops one round at a time. *)
Lemma wp_run_exits tbl fuel s info (Q : unit -> world X -> Prop) w :
  s <> WLAN_SM_ENGINE_STATE_NONE -> tbl !! Z.to_nat s = Some info ->
  wp (call_hook (wlan_sm_exit info)) (fun _ => wp (run_exits fuel tbl (parent_state info)) Q) w ->
  wp (run_exits (S fuel) tbl s) Q w.
Proof.
  intros Hs Hinfo H. cbn [run_exits]. rewrite (proj2 (Z.eqb_neq _ _) Hs). cbn [negb].
  apply wp_bind. eapply wp_deref; [exact Hinfo|]. by apply wp_bind.
Qed.

Lemma wp_run_exits_end tbl fuel (Q : unit -> world X -> Prop) w :
  Q () w -> wp (run_exits (S fuel) tbl WLAN_SM_ENGINE_STATE_NONE) Q w.
Proof. done. Qed.

Lemma wp_run_entries tbl fuel s info (Q : unit -> world X -> Prop) w :
  s <> WLAN_SM_ENGINE_STATE_NONE -> tbl !! Z.to_nat s = Some info ->
  initial_substate info = WLAN_SM_ENGINE_STATE_NONE \/
    is_Some (tbl !! Z.to_nat (initial_substate info)) ->
  wp (call_hook (wlan_sm_entry info)) (fun _ => wp (update_sm (set_cur_state s)) (fun _ =>
    wp (run_entries fuel tbl (initial_substate info)) Q)) w ->
  wp (run_entries (S fuel) tbl s) Q w.
Proof.
  intros Hs Hinfo Hini H. cbn [run_entries]. rewrite (proj2 (Z.eqb_neq _ _) Hs). cbn [negb].
  apply wp_bind. eapply wp_deref; [exact Hinfo|]. apply wp_bind.
  eapply wp_mono; [exact H|]. intros [] w1 H1. apply wp_bind.
  eapply wp_mono; [exact H1|]. intros [] w2 H2. apply wp_bind.
  destruct (Z.eqb_spec (initial_substate info) WLAN_SM_ENGINE_STATE_NONE) as [|Hn]; [by apply wp_mret|].
  destruct Hini as [?|[row Hrow]]; [done|]. cbn [negb]. apply wp_bind.
  eapply wp_deref; [exact Hrow|]. by apply wp_mret.
Qed.

Lemma wp_run_entries_end tbl fuel (Q : unit -> world X -> Prop) w :
  Q () w -> wp (run_entries (S fuel) tbl WLAN_SM_ENGINE_STATE_NONE) Q w.
Proof. done. Qed.

Lemma wp_update_sm f sm (Q : unit -> world X -> Prop) w :
  w_sm w = SmLive sm -> Q () (set_sm (f sm) w) -> wp (update_sm f) Q w.
Proof.
  intros Hw HQ. unfold update_sm, deref_sm, get_sm, wp, mbind, M_bind. by rewrite Hw.
Qed.

Lemma path_length tbl s p :
  parents_in tbl -> 0 <= s < Z.of_nat (length tbl) -> parent_path tbl s p ->
  (length p <= length tbl)%nat.
Proof.
  intros Hpar Hs Hp. pose proof (parent_path_in _ _ _ Hpar (or_intror Hs) Hp) as Hin.
  pose proof (parent_path_nodup _ _ _ Hp) as Hnd.
  assert (length (seqZ 0 (Z.of_nat (length tbl))) = length tbl) as <-
    by (rewrite length_seqZ; lia).
  apply submseteq_length, NoDup_submseteq; [done|].
  intros x Hx. rewrite Forall_forall in Hin. apply elem_of_seqZ. specialize (Hin x Hx). lia.
Qed.

End Transition.

(** C31 A transition of a valid table to a state of it terminates and runs the exit
    callbacks of the current state and then of its parents, and then the entry
    callbacks of the target and of its initial substates, the current state
    following the entries, all of it marked as in transition and recorded in the
    history; entry callbacks of the target's parents are not run. *)
Theorem wlan_sm_transition_to_runs {X D} (tbl : list (wlan_sm_state_info X D)) s
    (w : world X) sm info p q :
  parents_in tbl -> (length tbl <= 200)%nat ->
  num_states sm = Z.of_nat (length tbl) -> w_sm w = SmLive sm ->
  in_state_transition sm = 0 -> 0 <= cur_state sm < num_states sm ->
  0 <= s < num_states sm -> tbl !! Z.to_nat s = Some info ->
  parent_path tbl (cur_state sm) p -> entry_path tbl s q -> (length q <= 200)%nat ->
  wlan_sm_transition_to tbl s w =
    (put_sm (wlan_sm_save_history (set_in_state_transition 1 sm)
               SM_EVENT_STATE_TRANSITION (cur_state sm) s 255);;
     foreach (exit_state tbl) p;;
     foreach (enter_state tbl) q;;
     update_sm (set_in_state_transition 0)) w.
Proof.
  intros Hpar Hlen Hnum Hw Hflag Hcur Hs Hinfo Hp Hq Hlq.
  unfold wlan_sm_transition_to, get_sm at 1. unfold mbind at 1, M_bind at 1.
  rewrite Hw, Hflag. cbn [negb Z.eqb]. apply bind_ext. intros [] w1.
  unfold WLAN_SM_ENGINE_STATE_NONE, WLAN_SM_ENGINE_MAX_STATES.
  destruct (Z.eqb_spec s 255); [lia|]. destruct (Z.leb_spec 200 s); [lia|].
  destruct (Z.leb_spec (num_states sm) s); [lia|]. cbn [orb].
  destruct (lookup_lt_is_Some_2 tbl (Z.to_nat (cur_state sm)) ltac:(lia)) as [cinfo Hcinfo].
  assert (forall i row, 0 <= i < Z.of_nat (length tbl) -> tbl !! Z.to_nat i = Some row ->
          exists r, tbl !! Z.to_nat (super_or_self row i) = Some r) as Hsuper.
  { intros i row Hi Hrow. unfold super_or_self.
    destruct (Z.eqb_spec (parent_state row) WLAN_SM_ENGINE_STATE_NONE) as [|Hn]; cbn [negb];
      [by exists row|].
    destruct (Forall_lookup_1 _ _ _ _ Hpar Hrow) as [?|?]; [done|].
    apply lookup_lt_is_Some_2. lia. }
  destruct (Hsuper (cur_state sm) cinfo ltac:(lia) Hcinfo) as [r1 Hr1].
  destruct (Hsuper s info ltac:(lia) Hinfo) as [r2 Hr2].
  unfold info_at, mbind, M_bind, chain_fuel. rewrite Hcinfo, Hinfo. cbn [deref mret M_ret].
  rewrite Hr1. cbn [deref mret M_ret]. rewrite Hr2. cbn [deref mret M_ret].
  pose proof (path_length tbl (cur_state sm) p Hpar ltac:(lia) Hp) as Hlp. rewrite (run_exits_path tbl _ p) by (done || lia).
  destruct (foreach (exit_state tbl) p w1) as [[] w2| |]; [|done..].
  by rewrite (run_entries_path tbl s q) by (done || lia).
Qed.

(** A super state 0 with the initial substate 1, left and entered again: the hooks
    log their calls in the context. *)
Lemma wlan_sm_transition_to_runs_witness :
  let log (x : Z) : M (world (list Z)) unit :=
    modify (fun w => World (w_sm w) (w_bugs w) (w_ctx w ++ [x])) in
  let tbl : list (wlan_sm_state_info (list Z) unit) :=
    [StateInfo 0 255 1 true "A" (Some (log 10)) (Some (log 20)) None;
     StateInfo 1 0 255 false "B" (Some (log 11)) (Some (log 21)) None] in
  let sm := wlan_sm_history_init (WlanSm "sm" 1 2 255 0 None 0 (History 0 [])) in
  let w := World (SmLive sm) [] [] in
  exists w', wlan_sm_transition_to tbl 0 w = Ret tt w' /\ w_ctx w' = [21; 20; 10; 11].
Proof.
  intros log tbl sm w.
  eexists. split.
  - refine (eq_trans (wlan_sm_transition_to_runs tbl 0 w sm _ [1; 0] [0; 1]
      _ _ eq_refl eq_refl eq_refl _ _ eq_refl _ _ _) _); cycle -1; [reflexivity|..].
    + repeat (apply Forall_cons_2; [cbn; (by left) || (right; lia)|]); constructor.
    + cbn. lia.
    + cbn. lia.
    + cbn. lia.
    + eapply parent_path_step; [done|reflexivity|intros _; by eexists|].
      eapply parent_path_step; [done|reflexivity|done|]. constructor.
    + eapply entry_path_step; [done|reflexivity|].
      eapply entry_path_step; [done|reflexivity|]. constructor.
    + cbn. lia.
  - reflexivity.
Defined.

(** A transition to a state the machine does not have is refused, but leaves the
    machine marked as in transition: every later transition of it is refused too,
    whatever its target, and only raises the re-entrancy assertion. *)
Theorem wlan_sm_invalid_transition_wedges {X D} (tbl : list (wlan_sm_state_info X D)) s
    (w : world X) sm :
  w_sm w = SmLive sm -> in_state_transition sm = 0 -> num_states sm <= s ->
  exists sm', wlan_sm_transition_to tbl s w = Ret tt (set_sm sm' w) /\
    cur_state sm' = cur_state sm /\
    forall t w', w_sm w' = SmLive sm' ->
      exists site, wlan_sm_transition_to tbl t w' =
        Ret tt (World (SmLive sm') (w_bugs w' ++ [site]) (w_ctx w')).
Proof.
  intros Hw Hflag Hs. eexists. split; [|split].
  - unfold wlan_sm_transition_to, get_sm, mbind, M_bind. rewrite Hw, Hflag. cbn [negb Z.eqb].
    destruct (Z.leb_spec (num_states sm) s); [|lia]. rewrite orb_true_r.
    unfold put_sm, modify. reflexivity.
  - done.
  - intros t w' Hw'. eexists. unfold wlan_sm_transition_to, get_sm, mbind, M_bind.
    rewrite Hw'. cbn. unfold qdf_bug, modify. by rewrite Hw'.
Qed.

Lemma wlan_sm_invalid_transition_wedges_witness :
  let tbl : list (wlan_sm_state_info unit unit) := [StateInfo 0 255 255 true "A" None None None] in
  let sm := wlan_sm_history_init (WlanSm "sm" 0 1 255 0 None 0 (History 0 [])) in
  let w := World (SmLive sm) [] tt in
  exists sm', wlan_sm_transition_to tbl 1 w = Ret tt (set_sm sm' w) /\
    exists site, wlan_sm_transition_to tbl 0 (set_sm sm' w) = Ret tt (World (SmLive sm') [site] tt).
Proof.
  intros tbl sm w.
  destruct (wlan_sm_invalid_transition_wedges tbl 1 w sm eq_refl eq_refl ltac:(cbn; lia))
    as (sm' & H1 & _ & H2).
  exists sm'. split; [exact H1|]. exact (H2 0 (set_sm sm' w) eq_refl).
Defined.
