(* ===== verification/VdevMlme.v ===== *)
(** The VDEV MLME object of umac/mlme: its states and events, the operation
    callbacks a driver registers and the wrappers that call them, and the state
    predicates of the dispatcher API. *)
From S2P Require Import Prelude.
From S2P Require Import QdfTypes.
Import QdfTypes.Parse.
From S2P Require Import SmEngine.

(** ** States and events (wlan_vdev_mlme_main.h) *)

(** [enum wlan_vdev_state] *)
Definition WLAN_VDEV_S_INIT : Z := 0.
Definition WLAN_VDEV_S_START : Z := 1.
Definition WLAN_VDEV_S_DFS_CAC_WAIT : Z := 2.
Definition WLAN_VDEV_S_UP : Z := 3.
Definition WLAN_VDEV_S_SUSPEND : Z := 4.
Definition WLAN_VDEV_S_STOP : Z := 5.
Definition WLAN_VDEV_S_MAX : Z := 6.
Definition WLAN_VDEV_SS_START_START_PROGRESS : Z := 7.
Definition WLAN_VDEV_SS_START_RESTART_PROGRESS : Z := 8.
Definition WLAN_VDEV_SS_START_CONN_PROGRESS : Z := 9.
Definition WLAN_VDEV_SS_START_DISCONN_PROGRESS : Z := 10.
Definition WLAN_VDEV_SS_SUSPEND_SUSPEND_DOWN : Z := 11.
Definition WLAN_VDEV_SS_SUSPEND_SUSPEND_RESTART : Z := 12.
Definition WLAN_VDEV_SS_SUSPEND_HOST_RESTART : Z := 13.
Definition WLAN_VDEV_SS_SUSPEND_CSA_RESTART : Z := 14.
Definition WLAN_VDEV_SS_STOP_STOP_PROGRESS : Z := 15.
Definition WLAN_VDEV_SS_STOP_DOWN_PROGRESS : Z := 16.
Definition WLAN_VDEV_SS_IDLE : Z := 17.
Definition WLAN_VDEV_SS_MAX : Z := 18.

Inductive wlan_vdev_sm_evt : Type :=
  | WLAN_VDEV_SM_EV_START
  | WLAN_VDEV_SM_EV_START_REQ
  | WLAN_VDEV_SM_EV_RESTART_REQ
  | WLAN_VDEV_SM_EV_START_RESP
  | WLAN_VDEV_SM_EV_RESTART_RESP
  | WLAN_VDEV_SM_EV_START_REQ_FAIL
  | WLAN_VDEV_SM_EV_RESTART_REQ_FAIL
  | WLAN_VDEV_SM_EV_START_SUCCESS
  | WLAN_VDEV_SM_EV_CONN_PROGRESS
  | WLAN_VDEV_SM_EV_STA_CONN_START
  | WLAN_VDEV_SM_EV_DFS_CAC_WAIT
  | WLAN_VDEV_SM_EV_DFS_CAC_COMPLETED
  | WLAN_VDEV_SM_EV_DOWN
  | WLAN_VDEV_SM_EV_CONNECTION_FAIL
  | WLAN_VDEV_SM_EV_STOP_RESP
  | WLAN_VDEV_SM_EV_STOP_FAIL
  | WLAN_VDEV_SM_EV_DOWN_FAIL
  | WLAN_VDEV_SM_EV_DISCONNECT_COMPLETE
  | WLAN_VDEV_SM_EV_SUSPEND_RESTART
  | WLAN_VDEV_SM_EV_HOST_RESTART
  | WLAN_VDEV_SM_EV_UP_HOST_RESTART
  | WLAN_VDEV_SM_EV_FW_VDEV_RESTART
  | WLAN_VDEV_SM_EV_UP_FAIL
  | WLAN_VDEV_SM_EV_RADAR_DETECTED
  | WLAN_VDEV_SM_EV_CSA_RESTART
  | WLAN_VDEV_SM_EV_CSA_COMPLETE
  | WLAN_VDEV_SM_EV_MLME_DOWN_REQ
  | WLAN_VDEV_SM_EV_DOWN_COMPLETE
  | WLAN_VDEV_SM_EV_ROAM
  | WLAN_VDEV_SM_EV_STOP_REQ
  | WLAN_VDEV_SM_EV_CHAN_SWITCH_DISABLED.

#[export] Instance wlan_vdev_sm_evt_eq_dec : EqDecision wlan_vdev_sm_evt.
Proof. solve_decision. Defined.

Definition all_evts : list wlan_vdev_sm_evt :=
  [WLAN_VDEV_SM_EV_START; WLAN_VDEV_SM_EV_START_REQ; WLAN_VDEV_SM_EV_RESTART_REQ;
   WLAN_VDEV_SM_EV_START_RESP; WLAN_VDEV_SM_EV_RESTART_RESP;
   WLAN_VDEV_SM_EV_START_REQ_FAIL; WLAN_VDEV_SM_EV_RESTART_REQ_FAIL;
   WLAN_VDEV_SM_EV_START_SUCCESS; WLAN_VDEV_SM_EV_CONN_PROGRESS;
   WLAN_VDEV_SM_EV_STA_CONN_START; WLAN_VDEV_SM_EV_DFS_CAC_WAIT;
   WLAN_VDEV_SM_EV_DFS_CAC_COMPLETED; WLAN_VDEV_SM_EV_DOWN;
   WLAN_VDEV_SM_EV_CONNECTION_FAIL; WLAN_VDEV_SM_EV_STOP_RESP;
   WLAN_VDEV_SM_EV_STOP_FAIL; WLAN_VDEV_SM_EV_DOWN_FAIL;
   WLAN_VDEV_SM_EV_DISCONNECT_COMPLETE; WLAN_VDEV_SM_EV_SUSPEND_RESTART;
   WLAN_VDEV_SM_EV_HOST_RESTART; WLAN_VDEV_SM_EV_UP_HOST_RESTART;
   WLAN_VDEV_SM_EV_FW_VDEV_RESTART; WLAN_VDEV_SM_EV_UP_FAIL;
   WLAN_VDEV_SM_EV_RADAR_DETECTED; WLAN_VDEV_SM_EV_CSA_RESTART;
   WLAN_VDEV_SM_EV_CSA_COMPLETE; WLAN_VDEV_SM_EV_MLME_DOWN_REQ;
   WLAN_VDEV_SM_EV_DOWN_COMPLETE; WLAN_VDEV_SM_EV_ROAM; WLAN_VDEV_SM_EV_STOP_REQ;
   WLAN_VDEV_SM_EV_CHAN_SWITCH_DISABLED].

(** The enumerator of an event number, and back. *)
Definition evt_of (event : Z) : option wlan_vdev_sm_evt :=
  if event <? 0 then None else all_evts !! Z.to_nat event.

Definition evt_code (e : wlan_vdev_sm_evt) : Z :=
  match list_find (eq e) all_evts with Some (i, _) => Z.of_nat i | None => 0 end.

Lemma evt_of_code e : evt_of (evt_code e) = Some e.
Proof. by destruct e. Qed.

Lemma evt_code_range e : 0 <= evt_code e < 31.
Proof. destruct e; vm_compute; by split. Qed.

(** [enum beacon_update_op], [enum vdev_cmd_type] (wlan_vdev_mlme.h) *)
Inductive beacon_update_op : Type :=
  | BEACON_INIT | BEACON_REINIT | BEACON_UPDATE | BEACON_CSA | BEACON_FREE.

Inductive vdev_cmd_type : Type := START_REQ | RESTART_REQ | STOP_REQ | DELETE_REQ.

(** ** The object *)

(** The part of the VDEV the state machine reads and writes ([vdev->vdev_mlme]),
    and the driver's own state [ext], which only the callbacks touch. *)
Record vdev_ctx (E : Type) : Type := VdevCtx {
  mlme_state : Z;
  mlme_substate : Z;
  vdev_opmode : QDF_OPMODE;
  ext : E;
}.
Arguments VdevCtx {E} _ _ _ _.
Arguments mlme_state {E} _.
Arguments mlme_substate {E} _.
Arguments vdev_opmode {E} _.
Arguments ext {E} _.

Section Vdev.
Context {E D : Type}.
Abbreviation W := (world (vdev_ctx E)).
Abbreviation MV := (M W).

(** What a driver's callback does: look at the VDEV and its own state, change its
    own state, deliver events to this VDEV's machine synchronously, and return a
    status. *)
Inductive script : Type :=
  | Done (status : QDF_STATUS)
  | Look (k : vdev_ctx E -> script)
  | SetExt (e : E) (k : script)
  | Deliver (event event_data_len : Z) (event_data : D) (k : QDF_STATUS -> script).

(** [struct vdev_mlme_ops]: the callbacks the machine uses. *)
Record vdev_mlme_ops : Type := VdevOps {
  op_validate_basic_params : option (Z -> D -> script);
  op_reset_proto_params : option (Z -> D -> script);
  op_start_send : option (Z -> D -> script);
  op_restart_send : option (Z -> D -> script);
  op_stop_start_send : option (vdev_cmd_type -> Z -> D -> script);
  op_start_continue : option (Z -> D -> script);
  op_sta_conn_start : option (Z -> D -> script);
  op_start_req_failed : option (Z -> D -> script);
  op_up_send : option (Z -> D -> script);
  op_notify_up_complete : option (Z -> D -> script);
  op_notify_roam_start : option (Z -> D -> script);
  op_update_beacon : option (beacon_update_op -> Z -> D -> script);
  op_disconnect_peers : option (Z -> D -> script);
  op_dfs_cac_timer_stop : option (Z -> D -> script);
  op_stop_send : option (Z -> D -> script);
  op_stop_continue : option (Z -> D -> script);
  op_down_send : option (Z -> D -> script);
  op_notify_down_complete : option (Z -> D -> script);
  op_notify_start_state_exit : option script;
  op_is_newchan_no_cac : option script;
}.

(** ** Access to the object *)

Definition wlan_vdev_mlme_get_state : MV Z := gets (fun w => mlme_state (w_ctx w)).
Definition wlan_vdev_mlme_get_substate : MV Z := gets (fun w => mlme_substate (w_ctx w)).
Definition wlan_vdev_mlme_get_opmode : MV QDF_OPMODE :=
  gets (fun w => vdev_opmode (w_ctx w)).

Definition with_ctx (f : vdev_ctx E -> vdev_ctx E) (w : W) : W :=
  World (w_sm w) (w_bugs w) (f (w_ctx w)).

Definition put_state (s : Z) : MV unit :=
  modify (with_ctx (fun c => VdevCtx s (mlme_substate c) (vdev_opmode c) (ext c))).
Definition put_substate (s : Z) : MV unit :=
  modify (with_ctx (fun c => VdevCtx (mlme_state c) s (vdev_opmode c) (ext c))).
Definition put_ext (e : E) : MV unit :=
  modify (with_ctx (fun c => VdevCtx (mlme_state c) (mlme_substate c) (vdev_opmode c) e)).

Section Calls.
(** The engine as the callbacks see it, and the registered callbacks. *)
Variable calls : sm_calls (vdev_ctx E) D.
Variable ops : option vdev_mlme_ops.

Definition mlme_vdev_sm_deliver_event (event event_data_len : Z) (event_data : D)
  : MV QDF_STATUS := dispatch calls (wrap 16 event) event_data_len event_data.

Fixpoint run_script (s : script) : MV QDF_STATUS :=
  match s with
  | Done status => mret status
  | Look k => c ← gets w_ctx; run_script (k c)
  | SetExt e k => put_ext e;; run_script k
  | Deliver event len d k =>
      status ← mlme_vdev_sm_deliver_event event len d; run_script (k status)
  end.

(** ** The wrappers (vdev_mlme_sm.h): no callback means success *)

Definition call_op {F} (field : vdev_mlme_ops -> option F) (call : F -> script)
  : MV QDF_STATUS :=
  match ops with
  | Some ops => match field ops with Some f => run_script (call f) | None => mret QDF_STATUS_SUCCESS end
  | None => mret QDF_STATUS_SUCCESS
  end.

Definition mlme_vdev_validate_basic_params (len : Z) (d : D) : MV QDF_STATUS :=
  call_op op_validate_basic_params (fun f => f len d).
Definition mlme_vdev_reset_proto_params (len : Z) (d : D) : MV QDF_STATUS :=
  call_op op_reset_proto_params (fun f => f len d).
Definition mlme_vdev_start_send (len : Z) (d : D) : MV QDF_STATUS :=
  call_op op_start_send (fun f => f len d).
Definition mlme_vdev_restart_send (len : Z) (d : D) : MV QDF_STATUS :=
  call_op op_restart_send (fun f => f len d).
Definition mlme_vdev_stop_start_send (restart : vdev_cmd_type) (len : Z) (d : D) : MV QDF_STATUS :=
  call_op op_stop_start_send (fun f => f restart len d).
Definition mlme_vdev_start_continue (len : Z) (d : D) : MV QDF_STATUS :=
  call_op op_start_continue (fun f => f len d).
Definition mlme_vdev_start_req_failed (len : Z) (d : D) : MV QDF_STATUS :=
  call_op op_start_req_failed (fun f => f len d).
Definition mlme_vdev_sta_conn_start (len : Z) (d : D) : MV QDF_STATUS :=
  call_op op_sta_conn_start (fun f => f len d).
Definition mlme_vdev_up_send (len : Z) (d : D) : MV QDF_STATUS :=
  call_op op_up_send (fun f => f len d).
Definition mlme_vdev_notify_up_complete (len : Z) (d : D) : MV QDF_STATUS :=
  call_op op_notify_up_complete (fun f => f len d).
Definition mlme_vdev_notify_roam_start (len : Z) (d : D) : MV QDF_STATUS :=
  call_op op_notify_roam_start (fun f => f len d).
Definition mlme_vdev_update_beacon (op : beacon_update_op) (len : Z) (d : D) : MV QDF_STATUS :=
  call_op op_update_beacon (fun f => f op len d).
Definition mlme_vdev_disconnect_peers (len : Z) (d : D) : MV QDF_STATUS :=
  call_op op_disconnect_peers (fun f => f len d).
Definition mlme_vdev_dfs_cac_timer_stop (len : Z) (d : D) : MV QDF_STATUS :=
  call_op op_dfs_cac_timer_stop (fun f => f len d).
Definition mlme_vdev_stop_send (len : Z) (d : D) : MV QDF_STATUS :=
  call_op op_stop_send (fun f => f len d).
Definition mlme_vdev_stop_continue (len : Z) (d : D) : MV QDF_STATUS :=
  call_op op_stop_continue (fun f => f len d).
Definition mlme_vdev_down_send (len : Z) (d : D) : MV QDF_STATUS :=
  call_op op_down_send (fun f => f len d).
Definition mlme_vdev_notify_down_complete (len : Z) (d : D) : MV QDF_STATUS :=
  call_op op_notify_down_complete (fun f => f len d).
Definition mlme_vdev_notify_start_state_exit : MV QDF_STATUS :=
  call_op op_notify_start_state_exit id.
Definition mlme_vdev_is_newchan_no_cac : MV QDF_STATUS :=
  call_op op_is_newchan_no_cac id.

End Calls.

(** ** State predicates (wlan_vdev_mlme_api.c) *)

Definition status_of (b : bool) : QDF_STATUS :=
  if b then QDF_STATUS_SUCCESS else QDF_STATUS_E_FAILURE.

Definition wlan_vdev_allow_connect_n_tx : MV QDF_STATUS :=
  state ← wlan_vdev_mlme_get_state; substate ← wlan_vdev_mlme_get_substate;
  mret (status_of ((state =? WLAN_VDEV_S_UP)
    || ((state =? WLAN_VDEV_S_SUSPEND) && (substate =? WLAN_VDEV_SS_SUSPEND_CSA_RESTART)))).

Definition wlan_vdev_mlme_is_active : MV QDF_STATUS :=
  state ← wlan_vdev_mlme_get_state;
  mret (status_of ((state =? WLAN_VDEV_S_UP) || (state =? WLAN_VDEV_S_DFS_CAC_WAIT)
    || (state =? WLAN_VDEV_S_SUSPEND))).

Definition wlan_vdev_chan_config_valid : MV QDF_STATUS :=
  state ← wlan_vdev_mlme_get_state;
  mret (status_of (negb ((state =? WLAN_VDEV_S_INIT) || (state =? WLAN_VDEV_S_STOP)))).

Definition wlan_vdev_mlme_is_csa_restart : MV QDF_STATUS :=
  state ← wlan_vdev_mlme_get_state; substate ← wlan_vdev_mlme_get_substate;
  mret (status_of ((state =? WLAN_VDEV_S_SUSPEND)
    && (substate =? WLAN_VDEV_SS_SUSPEND_CSA_RESTART))).

Definition wlan_vdev_is_going_down : MV QDF_STATUS :=
  state ← wlan_vdev_mlme_get_state; substate ← wlan_vdev_mlme_get_substate;
  mret (status_of ((state =? WLAN_VDEV_S_STOP)
    || ((state =? WLAN_VDEV_S_SUSPEND) && (substate =? WLAN_VDEV_SS_SUSPEND_SUSPEND_DOWN)))).

Definition wlan_vdev_is_restart_progress : MV QDF_STATUS :=
  state ← wlan_vdev_mlme_get_state; substate ← wlan_vdev_mlme_get_substate;
  mret (status_of ((state =? WLAN_VDEV_S_START)
    && (substate =? WLAN_VDEV_SS_START_RESTART_PROGRESS))).

Definition wlan_vdev_is_dfs_cac_wait : MV QDF_STATUS :=
  state ← wlan_vdev_mlme_get_state;
  mret (status_of (state =? WLAN_VDEV_S_DFS_CAC_WAIT)).

Definition wlan_vdev_mlme_is_scan_allowed : MV QDF_STATUS :=
  state ← wlan_vdev_mlme_get_state;
  mret (status_of ((state =? WLAN_VDEV_S_INIT) || (state =? WLAN_VDEV_S_UP)
    || (state =? WLAN_VDEV_S_STOP))).

Definition wlan_vdev_mlme_is_init_state : MV QDF_STATUS :=
  state ← wlan_vdev_mlme_get_state;
  mret (status_of (state =? WLAN_VDEV_S_INIT)).

End Vdev.
Arguments script E D : clear implicits.
Arguments vdev_mlme_ops E D : clear implicits.
