(* ===== verification/VdevSm.v ===== *)
(** The VDEV state machine of umac/mlme/vdev_mgr/core/src/vdev_mlme_sm.c: the entry,
    exit and event callbacks of its states, its table, its creation and
    destruction, and the event delivery of wlan_vdev_mlme_api.c. *)
From S2P Require Import Prelude.
From S2P Require Import QdfTypes.
Import QdfTypes.Parse.
From S2P Require Import SmEngine.
From S2P Require Import VdevMlme.

Section VdevSm.
Context {E D : Type}.
Abbreviation W := (world (vdev_ctx E)).
Abbreviation MV := (M W).

(** ** State bookkeeping *)

Definition mlme_vdev_set_state (state : Z) : MV unit :=
  if state <? WLAN_VDEV_S_MAX then put_state state
  else qdf_bug "mlme_vdev_set_state".

Definition mlme_vdev_set_substate (substate : Z) : MV unit :=
  if (WLAN_VDEV_S_MAX <? substate) && (substate <? WLAN_VDEV_SS_MAX)
  then put_substate substate
  else qdf_bug "mlme_vdev_set_substate".

(** [vdev_mlme->vdev] is set before the machine is created and never cleared. *)
Definition mlme_vdev_sm_state_update (state substate : Z) : MV unit :=
  mlme_vdev_set_state state;; mlme_vdev_set_substate substate.

(** [if (wlan_vdev_mlme_get_state(vdev) != parent) QDF_BUG(0);] and the substate. *)
Definition subst_entry (parent substate : Z) : MV unit :=
  state ← wlan_vdev_mlme_get_state;
  (if negb (state =? parent) then qdf_bug "substate entry" else mret ());;
  mlme_vdev_set_substate substate.

(** ** Entry callbacks *)

Definition mlme_vdev_state_init_entry : MV unit :=
  mlme_vdev_sm_state_update WLAN_VDEV_S_INIT WLAN_VDEV_SS_IDLE.
Definition mlme_vdev_state_start_entry : MV unit :=
  mlme_vdev_sm_state_update WLAN_VDEV_S_START WLAN_VDEV_SS_IDLE.
Definition mlme_vdev_state_dfs_cac_wait_entry : MV unit :=
  mlme_vdev_sm_state_update WLAN_VDEV_S_DFS_CAC_WAIT WLAN_VDEV_SS_IDLE.
Definition mlme_vdev_state_up_entry : MV unit :=
  mlme_vdev_sm_state_update WLAN_VDEV_S_UP WLAN_VDEV_SS_IDLE.
Definition mlme_vdev_state_suspend_entry : MV unit :=
  mlme_vdev_sm_state_update WLAN_VDEV_S_SUSPEND WLAN_VDEV_SS_IDLE.
Definition mlme_vdev_state_stop_entry : MV unit :=
  mlme_vdev_sm_state_update WLAN_VDEV_S_STOP WLAN_VDEV_SS_IDLE.

Definition mlme_vdev_subst_start_start_progress_entry : MV unit :=
  subst_entry WLAN_VDEV_S_START WLAN_VDEV_SS_START_START_PROGRESS.
Definition mlme_vdev_subst_start_restart_progress_entry : MV unit :=
  subst_entry WLAN_VDEV_S_START WLAN_VDEV_SS_START_RESTART_PROGRESS.
Definition mlme_vdev_subst_start_conn_progress_entry : MV unit :=
  subst_entry WLAN_VDEV_S_START WLAN_VDEV_SS_START_CONN_PROGRESS.
Definition mlme_vdev_subst_start_disconn_progress_entry : MV unit :=
  subst_entry WLAN_VDEV_S_START WLAN_VDEV_SS_START_DISCONN_PROGRESS.
Definition mlme_vdev_subst_suspend_suspend_down_entry : MV unit :=
  subst_entry WLAN_VDEV_S_SUSPEND WLAN_VDEV_SS_SUSPEND_SUSPEND_DOWN.
Definition mlme_vdev_subst_suspend_suspend_restart_entry : MV unit :=
  subst_entry WLAN_VDEV_S_SUSPEND WLAN_VDEV_SS_SUSPEND_SUSPEND_RESTART.
Definition mlme_vdev_subst_suspend_host_restart_entry : MV unit :=
  subst_entry WLAN_VDEV_S_SUSPEND WLAN_VDEV_SS_SUSPEND_HOST_RESTART.
Definition mlme_vdev_subst_suspend_csa_restart_entry : MV unit :=
  subst_entry WLAN_VDEV_S_SUSPEND WLAN_VDEV_SS_SUSPEND_CSA_RESTART.
Definition mlme_vdev_subst_stop_stop_progress_entry : MV unit :=
  subst_entry WLAN_VDEV_S_STOP WLAN_VDEV_SS_STOP_STOP_PROGRESS.
Definition mlme_vdev_subst_stop_down_progress_entry : MV unit :=
  subst_entry WLAN_VDEV_S_STOP WLAN_VDEV_SS_STOP_DOWN_PROGRESS.

(** ** Exit callbacks: all but one are empty *)

Definition mlme_vdev_state_init_exit : MV unit := mret ().
Definition mlme_vdev_state_start_exit : MV unit := mret ().
Definition mlme_vdev_state_dfs_cac_wait_exit : MV unit := mret ().
Definition mlme_vdev_state_up_exit : MV unit := mret ().
Definition mlme_vdev_state_suspend_exit : MV unit := mret ().
Definition mlme_vdev_state_stop_exit : MV unit := mret ().
Definition mlme_vdev_subst_start_start_progress_exit : MV unit := mret ().
Definition mlme_vdev_subst_start_restart_progress_exit : MV unit := mret ().
Definition mlme_vdev_subst_start_disconn_progress_exit : MV unit := mret ().
Definition mlme_vdev_subst_suspend_suspend_down_exit : MV unit := mret ().
Definition mlme_vdev_subst_suspend_suspend_restart_exit : MV unit := mret ().
Definition mlme_vdev_subst_suspend_host_restart_exit : MV unit := mret ().
Definition mlme_vdev_subst_suspend_csa_restart_exit : MV unit := mret ().
Definition mlme_vdev_subst_stop_stop_progress_exit : MV unit := mret ().
Definition mlme_vdev_subst_stop_down_progress_exit : MV unit := mret ().

Section Handlers.
Variable calls : sm_calls (vdev_ctx E) D.
Variable ops : option (vdev_mlme_ops E D).

Abbreviation deliver := (mlme_vdev_sm_deliver_event calls).

Definition mlme_vdev_sm_transition_to (state : Z) : MV unit :=
  transition_to calls (wrap 8 state).

Definition mlme_vdev_subst_start_conn_progress_exit : MV unit :=
  _ ← mlme_vdev_notify_start_state_exit calls ops; mret ().

(** [mlme_vdev_sm_transition_to(..); mlme_vdev_sm_deliver_event(..); status = true] *)
Definition move_and_deliver (state : Z) (event : Z) (len : Z) (d : D) : MV bool :=
  mlme_vdev_sm_transition_to state;; _ ← deliver event len d; mret true.

(** ** Event handlers *)

Definition mlme_vdev_state_init_event (event len : Z) (d : D) : MV bool :=
  mode ← wlan_vdev_mlme_get_opmode;
  match evt_of event with
  | Some WLAN_VDEV_SM_EV_START =>
      st ← mlme_vdev_validate_basic_params calls ops len d;
      if QDF_IS_STATUS_SUCCESS st then
        move_and_deliver WLAN_VDEV_S_START (evt_code WLAN_VDEV_SM_EV_START_REQ) len d
      else
        let status := match mode with QDF_STA_MODE => false | _ => true end in
        _ ← mlme_vdev_notify_down_complete calls ops len d;
        mret status
  | Some WLAN_VDEV_SM_EV_DOWN_COMPLETE
  | Some WLAN_VDEV_SM_EV_DOWN
  | Some WLAN_VDEV_SM_EV_START_REQ_FAIL =>
      _ ← mlme_vdev_notify_down_complete calls ops len d; mret true
  | _ => mret false
  end.

Definition mlme_vdev_state_start_event (event len : Z) (d : D) : MV bool :=
  match evt_of event with
  | Some WLAN_VDEV_SM_EV_START_REQ =>
      move_and_deliver WLAN_VDEV_SS_START_START_PROGRESS event len d
  | Some WLAN_VDEV_SM_EV_RESTART_REQ
  | Some WLAN_VDEV_SM_EV_RADAR_DETECTED =>
      move_and_deliver WLAN_VDEV_SS_START_RESTART_PROGRESS event len d
  | Some WLAN_VDEV_SM_EV_STA_CONN_START =>
      move_and_deliver WLAN_VDEV_SS_START_CONN_PROGRESS event len d
  | _ => mret false
  end.

Definition mlme_vdev_state_dfs_cac_wait_event (event len : Z) (d : D) : MV bool :=
  mode ← wlan_vdev_mlme_get_opmode;
  match evt_of event with
  | Some WLAN_VDEV_SM_EV_DFS_CAC_WAIT => mret true
  | Some WLAN_VDEV_SM_EV_DOWN =>
      _ ← mlme_vdev_dfs_cac_timer_stop calls ops len d;
      move_and_deliver WLAN_VDEV_S_STOP (evt_code WLAN_VDEV_SM_EV_STOP_REQ) len d
  | Some WLAN_VDEV_SM_EV_RADAR_DETECTED =>
      move_and_deliver WLAN_VDEV_S_START (evt_code WLAN_VDEV_SM_EV_RESTART_REQ) len d
  | Some WLAN_VDEV_SM_EV_DFS_CAC_COMPLETED =>
      match mode with
      | QDF_STA_MODE =>
          move_and_deliver WLAN_VDEV_S_START (evt_code WLAN_VDEV_SM_EV_STA_CONN_START) len d
      | _ =>
          move_and_deliver WLAN_VDEV_S_UP (evt_code WLAN_VDEV_SM_EV_START_SUCCESS) len d
      end
  | _ => mret false
  end.

(** [if (mode == QDF_STA_MODE) QDF_BUG(0);] and its negation *)
Definition bug_if_sta (mode : QDF_OPMODE) : MV unit :=
  match mode with QDF_STA_MODE => qdf_bug "STA mode" | _ => mret () end.
Definition bug_unless_sta (mode : QDF_OPMODE) : MV unit :=
  match mode with QDF_STA_MODE => mret () | _ => qdf_bug "not STA mode" end.

Definition mlme_vdev_state_up_event (event len : Z) (d : D) : MV bool :=
  mode ← wlan_vdev_mlme_get_opmode;
  match evt_of event with
  | Some WLAN_VDEV_SM_EV_START_SUCCESS =>
      _ ← mlme_vdev_update_beacon calls ops BEACON_INIT len d;
      st ← mlme_vdev_up_send calls ops len d;
      (if negb (QDF_IS_STATUS_SUCCESS st)
       then deliver (evt_code WLAN_VDEV_SM_EV_UP_FAIL) len d
       else mlme_vdev_notify_up_complete calls ops len d);;
      mret true
  | Some WLAN_VDEV_SM_EV_SUSPEND_RESTART
  | Some WLAN_VDEV_SM_EV_HOST_RESTART
  | Some WLAN_VDEV_SM_EV_CSA_RESTART =>
      bug_if_sta mode;;
      (* falls through *)
      move_and_deliver WLAN_VDEV_S_SUSPEND event len d
  | Some WLAN_VDEV_SM_EV_DOWN =>
      move_and_deliver WLAN_VDEV_S_SUSPEND event len d
  | Some WLAN_VDEV_SM_EV_RADAR_DETECTED =>
      bug_if_sta mode;;
      move_and_deliver WLAN_VDEV_S_SUSPEND (evt_code WLAN_VDEV_SM_EV_CSA_RESTART) len d
  | Some WLAN_VDEV_SM_EV_UP_HOST_RESTART =>
      _ ← mlme_vdev_update_beacon calls ops BEACON_UPDATE len d;
      (* falls through *)
      _ ← mlme_vdev_notify_up_complete calls ops len d;
      mret true
  | Some WLAN_VDEV_SM_EV_START =>
      _ ← mlme_vdev_notify_up_complete calls ops len d;
      mret true
  | Some WLAN_VDEV_SM_EV_FW_VDEV_RESTART =>
      move_and_deliver WLAN_VDEV_S_START (evt_code WLAN_VDEV_SM_EV_RESTART_REQ) len d
  | Some WLAN_VDEV_SM_EV_UP_FAIL =>
      move_and_deliver WLAN_VDEV_S_SUSPEND event len d
  | Some WLAN_VDEV_SM_EV_ROAM =>
      _ ← mlme_vdev_notify_roam_start calls ops len d;
      mret true
  | _ => mret false
  end.

Definition mlme_vdev_state_suspend_event (event len : Z) (d : D) : MV bool :=
  match evt_of event with
  | Some WLAN_VDEV_SM_EV_DOWN
  | Some WLAN_VDEV_SM_EV_RESTART_REQ_FAIL =>
      move_and_deliver WLAN_VDEV_SS_SUSPEND_SUSPEND_DOWN event len d
  | Some WLAN_VDEV_SM_EV_SUSPEND_RESTART =>
      move_and_deliver WLAN_VDEV_SS_SUSPEND_SUSPEND_RESTART event len d
  | Some WLAN_VDEV_SM_EV_HOST_RESTART =>
      move_and_deliver WLAN_VDEV_SS_SUSPEND_HOST_RESTART event len d
  | Some WLAN_VDEV_SM_EV_CSA_RESTART =>
      move_and_deliver WLAN_VDEV_SS_SUSPEND_CSA_RESTART event len d
  | Some WLAN_VDEV_SM_EV_UP_FAIL =>
      move_and_deliver WLAN_VDEV_SS_SUSPEND_SUSPEND_DOWN (evt_code WLAN_VDEV_SM_EV_DOWN) len d
  | _ => mret false
  end.

Definition mlme_vdev_state_stop_event (event len : Z) (d : D) : MV bool :=
  qdf_bug "mlme_vdev_state_stop_event";; mret false.

Definition mlme_vdev_subst_start_start_progress_event (event len : Z) (d : D) : MV bool :=
  match evt_of event with
  | Some WLAN_VDEV_SM_EV_START_REQ =>
      _ ← mlme_vdev_start_send calls ops len d; mret true
  | Some WLAN_VDEV_SM_EV_RADAR_DETECTED =>
      mlme_vdev_sm_transition_to WLAN_VDEV_SS_START_RESTART_PROGRESS;; mret true
  | Some WLAN_VDEV_SM_EV_START_RESP
  | Some WLAN_VDEV_SM_EV_RESTART_RESP =>
      move_and_deliver WLAN_VDEV_SS_START_CONN_PROGRESS
        (evt_code WLAN_VDEV_SM_EV_CONN_PROGRESS) len d
  | Some WLAN_VDEV_SM_EV_START_REQ_FAIL =>
      _ ← mlme_vdev_start_req_failed calls ops len d;
      move_and_deliver WLAN_VDEV_S_INIT event len d
  | Some WLAN_VDEV_SM_EV_DOWN =>
      mlme_vdev_sm_transition_to WLAN_VDEV_SS_START_DISCONN_PROGRESS;;
      _ ← mlme_vdev_stop_start_send calls ops START_REQ len d; mret true
  | _ => mret false
  end.

Definition mlme_vdev_subst_start_restart_progress_event (event len : Z) (d : D) : MV bool :=
  match evt_of event with
  | Some WLAN_VDEV_SM_EV_RESTART_REQ
  | Some WLAN_VDEV_SM_EV_START_RESP =>
      _ ← mlme_vdev_restart_send calls ops len d; mret true
  | Some WLAN_VDEV_SM_EV_RESTART_RESP =>
      move_and_deliver WLAN_VDEV_SS_START_CONN_PROGRESS
        (evt_code WLAN_VDEV_SM_EV_CONN_PROGRESS) len d
  | Some WLAN_VDEV_SM_EV_RESTART_REQ_FAIL =>
      move_and_deliver WLAN_VDEV_S_SUSPEND event len d
  | Some WLAN_VDEV_SM_EV_DOWN =>
      mlme_vdev_sm_transition_to WLAN_VDEV_SS_START_DISCONN_PROGRESS;;
      _ ← mlme_vdev_stop_start_send calls ops RESTART_REQ len d; mret true
  | Some WLAN_VDEV_SM_EV_RADAR_DETECTED =>
      qdf_bug "RADAR in RESTART_PROGRESS";; mret true
  | _ => mret false
  end.

Definition mlme_vdev_subst_start_conn_progress_event (event len : Z) (d : D) : MV bool :=
  mode ← wlan_vdev_mlme_get_opmode;
  match evt_of event with
  | Some WLAN_VDEV_SM_EV_CONN_PROGRESS =>
      st ← mlme_vdev_start_continue calls ops len d;
      (if negb (QDF_IS_STATUS_SUCCESS st)
       then _ ← deliver (evt_code WLAN_VDEV_SM_EV_CONNECTION_FAIL) len d; mret ()
       else mret ());;
      mret true
  | Some WLAN_VDEV_SM_EV_DFS_CAC_WAIT =>
      move_and_deliver WLAN_VDEV_S_DFS_CAC_WAIT event len d
  | Some WLAN_VDEV_SM_EV_START_SUCCESS =>
      move_and_deliver WLAN_VDEV_S_UP event len d
  | Some WLAN_VDEV_SM_EV_STA_CONN_START =>
      bug_unless_sta mode;;
      _ ← mlme_vdev_sta_conn_start calls ops len d; mret true
  | Some WLAN_VDEV_SM_EV_RADAR_DETECTED =>
      bug_unless_sta mode;; mret true
  | Some WLAN_VDEV_SM_EV_DOWN
  | Some WLAN_VDEV_SM_EV_CONNECTION_FAIL =>
      move_and_deliver WLAN_VDEV_SS_START_DISCONN_PROGRESS event len d
  | _ => mret false
  end.

Definition mlme_vdev_subst_start_disconn_progress_event (event len : Z) (d : D) : MV bool :=
  match evt_of event with
  | Some WLAN_VDEV_SM_EV_START_RESP
  | Some WLAN_VDEV_SM_EV_CONNECTION_FAIL =>
      move_and_deliver WLAN_VDEV_S_STOP (evt_code WLAN_VDEV_SM_EV_STOP_REQ) len d
  | Some WLAN_VDEV_SM_EV_RESTART_RESP
  | Some WLAN_VDEV_SM_EV_RESTART_REQ_FAIL =>
      move_and_deliver WLAN_VDEV_S_SUSPEND (evt_code WLAN_VDEV_SM_EV_DOWN) len d
  | Some WLAN_VDEV_SM_EV_START_REQ_FAIL =>
      move_and_deliver WLAN_VDEV_S_INIT event len d
  | _ => mret false
  end.

Definition mlme_vdev_subst_suspend_suspend_down_event (event len : Z) (d : D) : MV bool :=
  match evt_of event with
  | Some WLAN_VDEV_SM_EV_DOWN
  | Some WLAN_VDEV_SM_EV_RESTART_REQ_FAIL =>
      _ ← mlme_vdev_disconnect_peers calls ops len d; mret true
  | Some WLAN_VDEV_SM_EV_DISCONNECT_COMPLETE =>
      move_and_deliver WLAN_VDEV_S_STOP (evt_code WLAN_VDEV_SM_EV_STOP_REQ) len d
  | _ => mret false
  end.

Definition mlme_vdev_subst_suspend_suspend_restart_event (event len : Z) (d : D) : MV bool :=
  match evt_of event with
  | Some WLAN_VDEV_SM_EV_SUSPEND_RESTART =>
      _ ← mlme_vdev_disconnect_peers calls ops len d; mret true
  | Some WLAN_VDEV_SM_EV_DISCONNECT_COMPLETE =>
      move_and_deliver WLAN_VDEV_S_START (evt_code WLAN_VDEV_SM_EV_RESTART_REQ) len d
  | Some WLAN_VDEV_SM_EV_DOWN =>
      mlme_vdev_sm_transition_to WLAN_VDEV_SS_SUSPEND_SUSPEND_DOWN;; mret true
  | Some WLAN_VDEV_SM_EV_RADAR_DETECTED =>
      move_and_deliver WLAN_VDEV_SS_SUSPEND_CSA_RESTART
        (evt_code WLAN_VDEV_SM_EV_CSA_RESTART) len d
  | _ => mret false
  end.

Definition mlme_vdev_subst_suspend_host_restart_event (event len : Z) (d : D) : MV bool :=
  match evt_of event with
  | Some WLAN_VDEV_SM_EV_HOST_RESTART =>
      _ ← mlme_vdev_disconnect_peers calls ops len d; mret true
  | Some WLAN_VDEV_SM_EV_DISCONNECT_COMPLETE =>
      move_and_deliver WLAN_VDEV_S_UP (evt_code WLAN_VDEV_SM_EV_UP_HOST_RESTART) len d
  | Some WLAN_VDEV_SM_EV_DOWN =>
      mlme_vdev_sm_transition_to WLAN_VDEV_SS_SUSPEND_SUSPEND_DOWN;; mret true
  | Some WLAN_VDEV_SM_EV_RADAR_DETECTED =>
      move_and_deliver WLAN_VDEV_SS_SUSPEND_CSA_RESTART
        (evt_code WLAN_VDEV_SM_EV_CSA_RESTART) len d
  | _ => mret false
  end.

Definition mlme_vdev_subst_suspend_csa_restart_event (event len : Z) (d : D) : MV bool :=
  match evt_of event with
  | Some WLAN_VDEV_SM_EV_CHAN_SWITCH_DISABLED =>
      move_and_deliver WLAN_VDEV_S_UP (evt_code WLAN_VDEV_SM_EV_UP_HOST_RESTART) len d
  | Some WLAN_VDEV_SM_EV_CSA_RESTART =>
      _ ← mlme_vdev_update_beacon calls ops BEACON_CSA len d; mret true
  | Some WLAN_VDEV_SM_EV_CSA_COMPLETE =>
      st ← mlme_vdev_is_newchan_no_cac calls ops;
      if QDF_IS_STATUS_SUCCESS st then
        move_and_deliver WLAN_VDEV_S_START (evt_code WLAN_VDEV_SM_EV_RESTART_REQ) len d
      else
        move_and_deliver WLAN_VDEV_SS_SUSPEND_SUSPEND_RESTART
          (evt_code WLAN_VDEV_SM_EV_SUSPEND_RESTART) len d
  | Some WLAN_VDEV_SM_EV_DOWN =>
      move_and_deliver WLAN_VDEV_SS_SUSPEND_SUSPEND_DOWN event len d
  | Some WLAN_VDEV_SM_EV_RADAR_DETECTED => mret true
  | _ => mret false
  end.

Definition mlme_vdev_subst_stop_stop_progress_event (event len : Z) (d : D) : MV bool :=
  match evt_of event with
  | Some WLAN_VDEV_SM_EV_STOP_REQ =>
      _ ← mlme_vdev_stop_send calls ops len d; mret true
  | Some WLAN_VDEV_SM_EV_STOP_RESP =>
      _ ← mlme_vdev_stop_continue calls ops len d; mret true
  | Some WLAN_VDEV_SM_EV_MLME_DOWN_REQ
  | Some WLAN_VDEV_SM_EV_STOP_FAIL =>
      move_and_deliver WLAN_VDEV_SS_STOP_DOWN_PROGRESS
        (evt_code WLAN_VDEV_SM_EV_MLME_DOWN_REQ) len d
  | _ => mret false
  end.

Definition mlme_vdev_subst_stop_down_progress_event (event len : Z) (d : D) : MV bool :=
  match evt_of event with
  | Some WLAN_VDEV_SM_EV_DOWN => mret true
  | Some WLAN_VDEV_SM_EV_MLME_DOWN_REQ =>
      _ ← mlme_vdev_down_send calls ops len d; mret true
  | Some WLAN_VDEV_SM_EV_DOWN_COMPLETE
  | Some WLAN_VDEV_SM_EV_DOWN_FAIL =>
      move_and_deliver WLAN_VDEV_S_INIT (evt_code WLAN_VDEV_SM_EV_DOWN_COMPLETE) len d
  | _ => mret false
  end.

(** ** The table *)

Abbreviation NONE := WLAN_SM_ENGINE_STATE_NONE.

Definition sm_info : list (wlan_sm_state_info (vdev_ctx E) D) :=
  [StateInfo WLAN_VDEV_S_INIT NONE NONE true "INIT"
     (Some mlme_vdev_state_init_entry) (Some mlme_vdev_state_init_exit)
     (Some mlme_vdev_state_init_event);
   StateInfo WLAN_VDEV_S_START NONE NONE true "START"
     (Some mlme_vdev_state_start_entry) (Some mlme_vdev_state_start_exit)
     (Some mlme_vdev_state_start_event);
   StateInfo WLAN_VDEV_S_DFS_CAC_WAIT NONE NONE true "DFS_CAC_WAIT"
     (Some mlme_vdev_state_dfs_cac_wait_entry) (Some mlme_vdev_state_dfs_cac_wait_exit)
     (Some mlme_vdev_state_dfs_cac_wait_event);
   StateInfo WLAN_VDEV_S_UP NONE NONE true "UP"
     (Some mlme_vdev_state_up_entry) (Some mlme_vdev_state_up_exit)
     (Some mlme_vdev_state_up_event);
   StateInfo WLAN_VDEV_S_SUSPEND NONE NONE true "SUSPEND"
     (Some mlme_vdev_state_suspend_entry) (Some mlme_vdev_state_suspend_exit)
     (Some mlme_vdev_state_suspend_event);
   StateInfo WLAN_VDEV_S_STOP NONE WLAN_VDEV_SS_STOP_STOP_PROGRESS true "STOP"
     (Some mlme_vdev_state_stop_entry) (Some mlme_vdev_state_stop_exit)
     (Some mlme_vdev_state_stop_event);
   StateInfo WLAN_VDEV_S_MAX NONE NONE false "INVALID" None None None;
   StateInfo WLAN_VDEV_SS_START_START_PROGRESS WLAN_VDEV_S_START NONE false "ST-START_PROG"
     (Some mlme_vdev_subst_start_start_progress_entry)
     (Some mlme_vdev_subst_start_start_progress_exit)
     (Some mlme_vdev_subst_start_start_progress_event);
   StateInfo WLAN_VDEV_SS_START_RESTART_PROGRESS WLAN_VDEV_S_START NONE false "ST-RESTART_PROG"
     (Some mlme_vdev_subst_start_restart_progress_entry)
     (Some mlme_vdev_subst_start_restart_progress_exit)
     (Some mlme_vdev_subst_start_restart_progress_event);
   StateInfo WLAN_VDEV_SS_START_CONN_PROGRESS WLAN_VDEV_S_START NONE false "ST-CONN_PROG"
     (Some mlme_vdev_subst_start_conn_progress_entry)
     (Some mlme_vdev_subst_start_conn_progress_exit)
     (Some mlme_vdev_subst_start_conn_progress_event);
   StateInfo WLAN_VDEV_SS_START_DISCONN_PROGRESS WLAN_VDEV_S_START NONE false "ST-DISCONN_PROG"
     (Some mlme_vdev_subst_start_disconn_progress_entry)
     (Some mlme_vdev_subst_start_disconn_progress_exit)
     (Some mlme_vdev_subst_start_disconn_progress_event);
   StateInfo WLAN_VDEV_SS_SUSPEND_SUSPEND_DOWN WLAN_VDEV_S_SUSPEND NONE false "SP-SUSPEND_DOWN"
     (Some mlme_vdev_subst_suspend_suspend_down_entry)
     (Some mlme_vdev_subst_suspend_suspend_down_exit)
     (Some mlme_vdev_subst_suspend_suspend_down_event);
   StateInfo WLAN_VDEV_SS_SUSPEND_SUSPEND_RESTART WLAN_VDEV_S_SUSPEND NONE false
     "SP-SUSPEND_RESTART"
     (Some mlme_vdev_subst_suspend_suspend_restart_entry)
     (Some mlme_vdev_subst_suspend_suspend_restart_exit)
     (Some mlme_vdev_subst_suspend_suspend_restart_event);
   StateInfo WLAN_VDEV_SS_SUSPEND_HOST_RESTART WLAN_VDEV_S_SUSPEND NONE false "SP-HOST_RESTART"
     (Some mlme_vdev_subst_suspend_host_restart_entry)
     (Some mlme_vdev_subst_suspend_host_restart_exit)
     (Some mlme_vdev_subst_suspend_host_restart_event);
   StateInfo WLAN_VDEV_SS_SUSPEND_CSA_RESTART WLAN_VDEV_S_SUSPEND NONE false "SP-CSA_RESTART"
     (Some mlme_vdev_subst_suspend_csa_restart_entry)
     (Some mlme_vdev_subst_suspend_csa_restart_exit)
     (Some mlme_vdev_subst_suspend_csa_restart_event);
   StateInfo WLAN_VDEV_SS_STOP_STOP_PROGRESS WLAN_VDEV_S_STOP NONE false "STOP-STOP_PROG"
     (Some mlme_vdev_subst_stop_stop_progress_entry)
     (Some mlme_vdev_subst_stop_stop_progress_exit)
     (Some mlme_vdev_subst_stop_stop_progress_event);
   StateInfo WLAN_VDEV_SS_STOP_DOWN_PROGRESS WLAN_VDEV_S_STOP NONE false "STOP-DOWN_PROG"
     (Some mlme_vdev_subst_stop_down_progress_entry)
     (Some mlme_vdev_subst_stop_down_progress_exit)
     (Some mlme_vdev_subst_stop_down_progress_event);
   StateInfo WLAN_VDEV_SS_IDLE NONE NONE false "IDLE" None None None;
   StateInfo WLAN_VDEV_SS_MAX NONE NONE false "INVALID" None None None].

End Handlers.

Definition vdev_sm_event_names : list string :=
  ["EV_START"; "EV_START_REQ"; "EV_RESTART_REQ"; "EV_START_RESP"; "EV_RESTART_RESP";
   "EV_START_REQ_FAIL"; "EV_RESTART_REQ_FAIL"; "EV_START_SUCCESS"; "EV_CONN_PROGRESS";
   "EV_STA_CONN_START"; "EV_DFS_CAC_WAIT"; "EV_DFS_CAC_COMPLETED"; "EV_DOWN";
   "EV_CONNECTION_FAIL"; "EV_STOP_RESP"; "EV_STOP_FAIL"; "EV_DOWN_FAIL";
   "EV_DISCONNECT_COMPLETE"; "EV_SUSPEND_RESTART"; "EV_HOST_RESTART";
   "EV_UP_HOST_RESTART"; "EV_FW_VDEV_RESTART"; "EV_UP_FAIL"; "EV_RADAR_DETECTED";
   "EV_CSA_RESTART"; "EV_CSA_COMPLETE"; "EV_MLME_DOWN_REQ"; "EV_DOWN_COMPLETE";
   "EV_ROAM"; "EV_STOP_REQ"; "EV_CHAN_SWITCH_DISABLED"]%string.

(** ** The machine of one VDEV *)

Section Machine.
Variable ops : option (vdev_mlme_ops E D).

(** The engine over the table, with calls nested at most [fuel] deep. *)
Definition vdev_engine (fuel : nat) : sm_calls (vdev_ctx E) D :=
  engine (fun calls => sm_info calls ops) fuel.

Definition mlme_vdev_sm_create (malloc_ok : bool) (vdev_id : string) : MV QDF_STATUS :=
  sm ← wlan_sm_create malloc_ok (String.append "VDEV" (String.append vdev_id "-MLME"))
         WLAN_VDEV_S_INIT (sm_info (vdev_engine 0) ops)
         (Z.of_nat (length (sm_info (vdev_engine 0) ops)))
         (Some vdev_sm_event_names) (Z.of_nat (length vdev_sm_event_names));
  match sm with
  | None => mret QDF_STATUS_E_FAILURE
  | Some sm => put_sm sm;; mret QDF_STATUS_SUCCESS
  end.

Definition mlme_vdev_sm_destroy : MV QDF_STATUS :=
  wlan_sm_delete;; mret QDF_STATUS_SUCCESS.

(** The debug prints of the delivery: [sm_hdl->name], and unchecked reads of the
    name tables. *)
Definition mlme_vdev_sm_print_state : MV unit :=
  state ← wlan_vdev_mlme_get_state;
  substate ← wlan_vdev_mlme_get_substate;
  _ ← deref_sm;
  _ ← info_at (sm_info (vdev_engine 0) ops) state;
  _ ← info_at (sm_info (vdev_engine 0) ops) substate;
  mret ().

Definition mlme_vdev_sm_print_state_event (event : Z) : MV unit :=
  mlme_vdev_sm_print_state;;
  _ ← deref (vdev_sm_event_names !! Z.to_nat event);
  mret ().

Definition mlme_vdev_sm_history_print : MV (list history_line) :=
  wlan_sm_print_history (sm_info (vdev_engine 0) ops).

(** The delivery API.  [vdev_mlme]: the VDEV has its component object.  Without [_sync] the
    machine's lock is taken around it, which has no effect on one thread of calls. *)
Definition with_cmpt_obj (vdev_mlme : bool) (deliver : MV QDF_STATUS) : MV QDF_STATUS :=
  if vdev_mlme then deliver else mret QDF_STATUS_E_FAILURE.

Definition wlan_vdev_mlme_sm_deliver_evt (vdev_mlme : bool) (fuel : nat) (event len : Z) (d : D)
  : MV QDF_STATUS :=
  with_cmpt_obj vdev_mlme (
  state_entry ← wlan_vdev_mlme_get_state;
  substate_entry ← wlan_vdev_mlme_get_substate;
  mlme_vdev_sm_print_state_event event;;
  status ← mlme_vdev_sm_deliver_event (vdev_engine fuel) event len d;
  state_exit ← wlan_vdev_mlme_get_state;
  substate_exit ← wlan_vdev_mlme_get_substate;
  (if negb ((state_entry =? state_exit) && (substate_entry =? substate_exit))
   then mlme_vdev_sm_print_state else mret ());;
  mret status).

Definition wlan_vdev_mlme_sm_deliver_evt_sync (vdev_mlme : bool) (fuel : nat) (event len : Z)
    (d : D) : MV QDF_STATUS :=
  with_cmpt_obj vdev_mlme (mlme_vdev_sm_deliver_event (vdev_engine fuel) event len d).

End Machine.
End VdevSm.
