(* ===== verification/VdevSmInv.v ===== *)
(** The invariant of the VDEV state machine, for callbacks that may deliver events
    to the machine again: the engine's state and the VDEV's state and substate
    always agree, every transition follows the state graph, and no internal
    assertion or invalid access is reached. *)
From S2P Require Import Prelude.
From S2P Require Import QdfTypes.
Import QdfTypes.Parse.
From S2P Require Import SmEngine.
From S2P Require Import VdevMlme.
From S2P Require Import VdevSm.

(** ** The state graph *)

(** The states the machine rests in: STOP is left for its initial substate. *)
Definition live_states : list Z := [0; 1; 2; 3; 4; 7; 8; 9; 10; 11; 12; 13; 14; 15; 16].

(** The state a substate belongs to. *)
Definition top_of (s : Z) : Z :=
  if s <? 6 then s
  else if s <? 11 then WLAN_VDEV_S_START
  else if s <? 15 then WLAN_VDEV_S_SUSPEND else WLAN_VDEV_S_STOP.

Definition substate_of (s : Z) : Z := if s <? 6 then WLAN_VDEV_SS_IDLE else s.

(** The targets of each state. *)
Definition targets (s : Z) : list Z :=
  match s with
  | 0 => [WLAN_VDEV_S_START]
  | 1 => [WLAN_VDEV_SS_START_START_PROGRESS; WLAN_VDEV_SS_START_RESTART_PROGRESS;
          WLAN_VDEV_SS_START_CONN_PROGRESS]
  | 2 => [WLAN_VDEV_S_STOP; WLAN_VDEV_S_START; WLAN_VDEV_S_UP]
  | 3 => [WLAN_VDEV_S_SUSPEND; WLAN_VDEV_S_START]
  | 4 => [WLAN_VDEV_SS_SUSPEND_SUSPEND_DOWN; WLAN_VDEV_SS_SUSPEND_SUSPEND_RESTART;
          WLAN_VDEV_SS_SUSPEND_HOST_RESTART; WLAN_VDEV_SS_SUSPEND_CSA_RESTART]
  | 7 => [WLAN_VDEV_SS_START_RESTART_PROGRESS; WLAN_VDEV_SS_START_CONN_PROGRESS;
          WLAN_VDEV_S_INIT; WLAN_VDEV_SS_START_DISCONN_PROGRESS]
  | 8 => [WLAN_VDEV_SS_START_CONN_PROGRESS; WLAN_VDEV_S_SUSPEND;
          WLAN_VDEV_SS_START_DISCONN_PROGRESS]
  | 9 => [WLAN_VDEV_S_DFS_CAC_WAIT; WLAN_VDEV_S_UP; WLAN_VDEV_SS_START_DISCONN_PROGRESS]
  | 10 => [WLAN_VDEV_S_STOP; WLAN_VDEV_S_SUSPEND; WLAN_VDEV_S_INIT]
  | 11 => [WLAN_VDEV_S_STOP]
  | 12 => [WLAN_VDEV_S_START; WLAN_VDEV_SS_SUSPEND_SUSPEND_DOWN;
           WLAN_VDEV_SS_SUSPEND_CSA_RESTART]
  | 13 => [WLAN_VDEV_S_UP; WLAN_VDEV_SS_SUSPEND_SUSPEND_DOWN;
           WLAN_VDEV_SS_SUSPEND_CSA_RESTART]
  | 14 => [WLAN_VDEV_S_UP; WLAN_VDEV_S_START; WLAN_VDEV_SS_SUSPEND_SUSPEND_RESTART;
           WLAN_VDEV_SS_SUSPEND_SUSPEND_DOWN]
  | 15 => [WLAN_VDEV_SS_STOP_DOWN_PROGRESS]
  | 16 => [WLAN_VDEV_S_INIT]
  | _ => []
  end.

Definition vdev_edge (s t : Z) : Prop := In t (targets s).

(** A transition in the history follows the graph. *)
Definition edge_entry (e : wlan_sm_history_info) : Prop :=
  trace_type e = SM_EVENT_STATE_TRANSITION -> vdev_edge (initial_state e) (final_state e).

(** The assertions a driver can reach by events it must not send, and the engine's
    re-entrancy check; the machine's internal assertions are not among them. *)
Definition benign (site : string) : Prop :=
  In site ["STA mode"; "not STA mode"; "RADAR in RESTART_PROGRESS";
           "wlan_sm_transition_to: called from entry/exit routines"]%string.

(** ** Quiet callbacks *)

(** A callback that delivers no event to the machine. *)
Fixpoint quiet {E D} (s : script E D) : Prop :=
  match s with
  | Done _ => True
  | Look k => forall c, quiet (k c)
  | SetExt _ k => quiet k
  | Deliver _ _ _ _ => False
  end.

Definition quiet_op {E D F} (field : vdev_mlme_ops E D -> option F)
    (call : F -> script E D) (ops : option (vdev_mlme_ops E D)) : Prop :=
  match ops with
  | Some o => match field o with Some f => quiet (call f) | None => True end
  | None => True
  end.

(** The callbacks a handler asks before it moves the machine do not move it
    themselves: the parameter check, the start failure notice, the CAC timer stop
    and the CAC query. *)
Record guards_quiet {E D} (ops : option (vdev_mlme_ops E D)) : Prop := GuardsQuiet {
  gq_validate : forall len d, quiet_op op_validate_basic_params (fun f => f len d) ops;
  gq_start_req_failed : forall len d, quiet_op op_start_req_failed (fun f => f len d) ops;
  gq_cac_timer_stop : forall len d, quiet_op op_dfs_cac_timer_stop (fun f => f len d) ops;
  gq_newchan : quiet_op op_is_newchan_no_cac id ops;
}.

(** Opens the wrappers of the callbacks. *)
Ltac vdev_ops :=
  unfold mlme_vdev_validate_basic_params, mlme_vdev_reset_proto_params,
    mlme_vdev_start_send, mlme_vdev_restart_send, mlme_vdev_stop_start_send,
    mlme_vdev_start_continue, mlme_vdev_start_req_failed, mlme_vdev_sta_conn_start,
    mlme_vdev_up_send, mlme_vdev_notify_up_complete, mlme_vdev_notify_roam_start,
    mlme_vdev_update_beacon, mlme_vdev_disconnect_peers, mlme_vdev_dfs_cac_timer_stop,
    mlme_vdev_stop_send, mlme_vdev_stop_continue, mlme_vdev_down_send,
    mlme_vdev_notify_down_complete, mlme_vdev_notify_start_state_exit,
    mlme_vdev_is_newchan_no_cac.

(** ** The invariant *)

Section Invariant.
Context {E D : Type}.
Abbreviation W := (world (vdev_ctx E)).
Implicit Types w : W.

(** The VDEV's state and substate are those of the machine's state; a machine
    that was just created has no substate yet. *)
Definition synced (s : Z) (c : vdev_ctx E) : Prop :=
  mlme_state c = top_of s /\
  (mlme_substate c = substate_of s \/ s = WLAN_VDEV_S_INIT /\ mlme_substate c = 0).

Record machine_ok (sm : wlan_sm) : Prop := MachineOk {
  mo_num : num_states sm = 19;
  mo_names : event_names sm = Some vdev_sm_event_names;
  mo_num_names : num_event_names sm = 31;
  mo_ring : ring_ok (history sm);
  mo_edges : Forall edge_entry (data (history sm));
}.

Definition vdev_inv w (sm : wlan_sm) : Prop :=
  w_sm w = SmLive sm /\ machine_ok sm /\ In (cur_state sm) live_states /\
  synced (cur_state sm) (w_ctx w) /\ Forall benign (w_bugs w).

(** What a run from [w] with machine [sm] keeps: the invariant, the transition
    flag, and, inside a transition, the state. *)
Definition keeps (sm : wlan_sm) w' : Prop :=
  exists sm', vdev_inv w' sm' /\
    in_state_transition sm' = in_state_transition sm /\
    (in_state_transition sm <> 0 -> cur_state sm' = cur_state sm).

Lemma keeps_refl w sm : vdev_inv w sm -> keeps sm w.
Proof. intros H. by exists sm. Qed.

Lemma keeps_trans sm sm' w w' :
  vdev_inv w sm' -> in_state_transition sm' = in_state_transition sm ->
  (in_state_transition sm <> 0 -> cur_state sm' = cur_state sm) ->
  keeps sm' w' -> keeps sm w'.
Proof.
  intros _ Hf Hc (sm'' & Hi & Hf' & Hc'). exists sm''. split; [done|].
  split; [congruence|]. intros H. rewrite Hc' by congruence. by apply Hc.
Qed.

(** Operations that change neither the machine, nor the state, nor the log. *)
Definition frame w w' : Prop :=
  w_sm w' = w_sm w /\ w_bugs w' = w_bugs w /\
  mlme_state (w_ctx w') = mlme_state (w_ctx w) /\
  mlme_substate (w_ctx w') = mlme_substate (w_ctx w) /\
  vdev_opmode (w_ctx w') = vdev_opmode (w_ctx w).

Lemma frame_inv w w' sm : vdev_inv w sm -> frame w w' -> vdev_inv w' sm.
Proof.
  intros (Hw & Hm & Hl & [Hs1 Hs2] & Hb) (F1 & F2 & F3 & F4 & F5).
  split; [congruence|]. split; [done|]. split; [done|]. rewrite F2.
  split; [|done]. split; [congruence|]. by rewrite F4.
Qed.

(** Raising a benign assertion. *)
Lemma inv_bug w sm site :
  vdev_inv w sm -> benign site ->
  vdev_inv (World (w_sm w) (w_bugs w ++ [site]) (w_ctx w)) sm.
Proof.
  intros (Hw & Hm & Hl & Hs & Hb) Hsite. do 4 (split; [done|]). cbn.
  apply Forall_app. split; [done|]. constructor; [done|constructor].
Qed.

Lemma machine_ok_event sm l i f e :
  machine_ok sm ->
  machine_ok (wlan_sm_save_history (set_last_event l sm) SM_EVENT_MSG_PROCESSING i f e).
Proof.
  intros [? ? ? Hr He]. split; try done.
  - by apply save_history_ring.
  - cbn. by apply Forall_insert.
Qed.

Lemma machine_ok_transition sm b t :
  machine_ok sm -> vdev_edge (cur_state sm) t ->
  machine_ok (wlan_sm_save_history (set_in_state_transition b sm) SM_EVENT_STATE_TRANSITION
                (cur_state sm) t 255).
Proof.
  intros [? ? ? Hr He] Hedge. split; try done.
  - by apply save_history_ring.
  - cbn. apply Forall_insert; [done|]. by intros _.
Qed.

(** ** What the handlers may assume of the engine below them *)

Record calls_ok (calls : sm_calls (vdev_ctx E) D) : Prop := CallsOk {
  co_dispatch : forall event len d w sm,
    vdev_inv w sm -> wp (dispatch calls event len d) (fun _ => keeps sm) w;
  co_transition : forall t w sm,
    vdev_inv w sm -> vdev_edge (cur_state sm) t ->
    wp (transition_to calls t) (fun _ => keeps sm) w;
}.

Section Handlers.
Variable calls : sm_calls (vdev_ctx E) D.
Variable ops : option (vdev_mlme_ops E D).
Hypothesis Hcalls : calls_ok calls.

Lemma run_script_keeps s w sm :
  vdev_inv w sm -> wp (run_script calls s) (fun _ => keeps sm) w.
Proof.
  revert w sm. induction s as [st|k IH|e k IH|ev len d k IH]; intros w sm Hi; cbn [run_script].
  - apply wp_mret. by apply keeps_refl.
  - apply wp_bind, wp_gets. by apply IH.
  - apply wp_bind, wp_modify. apply IH. eapply frame_inv; [done|]. by repeat split.
  - apply wp_bind. eapply wp_mono; [by apply (co_dispatch _ Hcalls)|]. intros st w' (sm' & Hi' & Hf & Hc).
    eapply wp_mono; [by apply IH|]. intros ? w''. by eapply keeps_trans.
Qed.

Lemma run_script_quiet s w :
  quiet s -> wp (run_script calls s) (fun _ => frame w) w.
Proof.
  assert (forall w0, frame w w0 -> quiet s -> wp (run_script calls s) (fun _ => frame w) w0)
    as H; [|intros Hq; apply H; [by repeat split|done]].
  induction s as [st|k IH|e k IH|ev len d k IH]; intros w0 Hf Hq; cbn [run_script].
  - by apply wp_mret.
  - apply wp_bind, wp_gets. apply IH; [done|]. by apply Hq.
  - apply wp_bind, wp_modify. by apply IH.
  - done.
Qed.

Lemma call_op_keeps {F} (field : vdev_mlme_ops E D -> option F) call w sm :
  vdev_inv w sm -> wp (call_op calls ops field call) (fun _ => keeps sm) w.
Proof.
  intros Hi. unfold call_op. destruct ops as [o|]; [|apply wp_mret; by apply keeps_refl].
  destruct (field o); [by apply run_script_keeps|apply wp_mret; by apply keeps_refl].
Qed.

Lemma call_op_quiet {F} (field : vdev_mlme_ops E D -> option F) call w sm :
  quiet_op field call ops ->
  vdev_inv w sm -> wp (call_op calls ops field call) (fun _ w' => vdev_inv w' sm) w.
Proof.
  intros Hq Hi. eapply (wp_mono _ (fun _ => frame w)).
  2: { intros ? w'. by apply frame_inv. }
  unfold call_op, quiet_op in *. destruct ops as [o|]; [|apply wp_mret; by repeat split].
  destruct (field o); [by apply run_script_quiet|apply wp_mret; by repeat split].
Qed.

Lemma call_quiet_then {F A} (field : vdev_mlme_ops E D -> option F) call
    (k : QDF_STATUS -> M W A) w sm :
  quiet_op field call ops -> vdev_inv w sm ->
  (forall st w', vdev_inv w' sm -> wp (k st) (fun _ => keeps sm) w') ->
  wp (st ← call_op calls ops field call; k st) (fun _ => keeps sm) w.
Proof.
  intros Hq Hi Hk. apply wp_bind. eapply wp_mono; [by apply call_op_quiet|].
  intros st w'. apply Hk.
Qed.

(** An operation whose status is dropped, at the end of a handler. *)
Lemma call_then_keeps {F A} (field : vdev_mlme_ops E D -> option F) call (a : A) w sm :
  vdev_inv w sm -> wp (_ ← call_op calls ops field call; mret a) (fun _ => keeps sm) w.
Proof. intros Hi. apply wp_bind. by apply call_op_keeps. Qed.

Lemma transition_keeps t w sm :
  vdev_inv w sm -> vdev_edge (cur_state sm) (wrap 8 t) ->
  wp (mlme_vdev_sm_transition_to calls t) (fun _ => keeps sm) w.
Proof. intros Hi He. by apply (co_transition _ Hcalls). Qed.

Lemma deliver_keeps event len d w sm :
  vdev_inv w sm -> wp (mlme_vdev_sm_deliver_event calls event len d) (fun _ => keeps sm) w.
Proof. intros Hi. by apply (co_dispatch _ Hcalls). Qed.

(** What follows a step that kept the invariant. *)
Lemma wp_keeps_then {A B} (m : M W A) (k : A -> M W B) w sm :
  wp m (fun _ => keeps sm) w ->
  (forall a w' sm', vdev_inv w' sm' -> wp (k a) (fun _ => keeps sm') w') ->
  wp (a ← m; k a) (fun _ => keeps sm) w.
Proof.
  intros Hm Hk. apply wp_bind. eapply wp_mono; [exact Hm|].
  intros a w' (sm' & Hi & Hf & Hc). eapply wp_mono; [by apply Hk|].
  intros ? w''. by eapply keeps_trans.
Qed.

Lemma move_and_deliver_keeps t event len d w sm :
  vdev_inv w sm -> vdev_edge (cur_state sm) (wrap 8 t) ->
  wp (move_and_deliver calls t event len d) (fun _ => keeps sm) w.
Proof.
  intros Hi He. apply (wp_keeps_then (mlme_vdev_sm_transition_to calls t)); [by apply transition_keeps|].
  intros [] w1 sm1 Hi1.
  apply (wp_keeps_then (mlme_vdev_sm_deliver_event calls event len d)); [by apply deliver_keeps|].
  intros _ w2 sm2 Hi2. apply wp_mret. by apply keeps_refl.
Qed.

Lemma bug_keeps site w sm :
  vdev_inv w sm -> benign site -> wp (qdf_bug site) (fun _ w' => vdev_inv w' sm) w.
Proof. intros Hi Hs. apply wp_modify. by apply inv_bug. Qed.

(** The state machine of a handler: what it runs from its own state. *)
Definition handler_ok (s : Z) (h : Z -> Z -> D -> M W bool) : Prop :=
  forall event len d w sm, vdev_inv w sm -> cur_state sm = s ->
  wp (h event len d) (fun _ => keeps sm) w.

End Handlers.

(** A guard callback, which leaves the machine alone. *)
Ltac quiet_step gq :=
  apply call_quiet_then; [by apply gq|done|];
  let st := fresh "st" in let w := fresh "w" in intros st w ?.

(** One step of a handler's proof. *)
Ltac vdev_step :=
  match goal with
  | |- wp (mret _) _ _ => apply wp_mret; by apply keeps_refl
  | |- wp (mbind _ wlan_vdev_mlme_get_opmode) _ _ => apply wp_bind, wp_gets
  | |- wp (move_and_deliver _ _ _ _ _) _ _ =>
      apply move_and_deliver_keeps; [done|done|
        match goal with H : cur_state _ = _ |- _ => rewrite H; vm_compute; tauto end]
  | |- wp (mbind _ (qdf_bug _)) _ _ =>
      apply wp_bind; eapply wp_mono; [apply bug_keeps; [done|vm_compute; tauto]|];
      let w := fresh "w" in intros ? w ?
  | |- wp (mbind _ (bug_if_sta ?m)) _ _ => destruct m; cbn [bug_if_sta]
  | |- wp (mbind _ (bug_unless_sta ?m)) _ _ => destruct m; cbn [bug_unless_sta]
  | |- wp (mbind _ (mret _)) _ _ => apply wp_bind, wp_mret
  | |- wp (mbind _ (mlme_vdev_sm_transition_to _ _)) _ _ =>
      apply wp_keeps_then; [apply transition_keeps; [done|done|
        match goal with H : cur_state _ = _ |- _ => rewrite H; vm_compute; tauto end]|];
      let w := fresh "w" in let sm := fresh "sm" in intros ? w sm ?
  | |- wp (mbind _ (mlme_vdev_sm_deliver_event _ _ _ _)) _ _ =>
      apply wp_keeps_then; [by apply deliver_keeps|];
      let w := fresh "w" in let sm := fresh "sm" in intros ? w sm ?
  | |- wp (mbind _ (call_op _ _ op_validate_basic_params _)) _ _ => quiet_step gq_validate
  | |- wp (mbind _ (call_op _ _ op_start_req_failed _)) _ _ => quiet_step gq_start_req_failed
  | |- wp (mbind _ (call_op _ _ op_dfs_cac_timer_stop _)) _ _ => quiet_step gq_cac_timer_stop
  | |- wp (mbind _ (call_op _ _ op_is_newchan_no_cac _)) _ _ => quiet_step gq_newchan
  | |- wp (mbind _ (call_op _ _ _ _)) _ _ =>
      apply wp_keeps_then; [by apply call_op_keeps|];
      let w := fresh "w" in let sm := fresh "sm" in intros ? w sm ?
  | |- wp (match evt_of ?e with _ => _ end) _ _ => destruct (evt_of e) as [[]|]
  end.
Ltac vdev_handler :=
  intros event len d w sm Hi Hs; vdev_ops; repeat vdev_step.

Section HandlersOk.
Variable calls : sm_calls (vdev_ctx E) D.
Variable ops : option (vdev_mlme_ops E D).
Hypothesis Hcalls : calls_ok calls.
Hypothesis Hops : guards_quiet ops.

Lemma init_event_ok : handler_ok 0 (mlme_vdev_state_init_event calls ops).
Proof.
  unfold mlme_vdev_state_init_event. vdev_handler.
  destruct (QDF_IS_STATUS_SUCCESS st); repeat vdev_step.
Qed.

Lemma start_event_ok : handler_ok 1 (mlme_vdev_state_start_event calls).
Proof. unfold mlme_vdev_state_start_event. vdev_handler. Qed.

Lemma dfs_cac_wait_event_ok : handler_ok 2 (mlme_vdev_state_dfs_cac_wait_event calls ops).
Proof.
  unfold mlme_vdev_state_dfs_cac_wait_event. vdev_handler.
  destruct (vdev_opmode (w_ctx w)); vdev_step.
Qed.

Lemma suspend_event_ok : handler_ok 4 (mlme_vdev_state_suspend_event calls).
Proof. unfold mlme_vdev_state_suspend_event. vdev_handler. Qed.

Lemma up_event_ok : handler_ok 3 (mlme_vdev_state_up_event calls ops).
Proof.
  unfold mlme_vdev_state_up_event. vdev_handler.
  apply wp_keeps_then.
  - destruct (QDF_IS_STATUS_SUCCESS _); [by apply call_op_keeps|by apply deliver_keeps].
  - intros. vdev_step.
Qed.

Lemma start_progress_event_ok :
  handler_ok 7 (mlme_vdev_subst_start_start_progress_event calls ops).
Proof.
  unfold mlme_vdev_subst_start_start_progress_event. vdev_handler.
Qed.

Lemma restart_progress_event_ok :
  handler_ok 8 (mlme_vdev_subst_start_restart_progress_event calls ops).
Proof. unfold mlme_vdev_subst_start_restart_progress_event. vdev_handler. Qed.

Lemma conn_progress_event_ok :
  handler_ok 9 (mlme_vdev_subst_start_conn_progress_event calls ops).
Proof.
  unfold mlme_vdev_subst_start_conn_progress_event. vdev_handler.
  apply wp_keeps_then; [|intros; vdev_step].
  destruct (QDF_IS_STATUS_SUCCESS _); cbn [negb]; repeat vdev_step.
Qed.

Lemma disconn_progress_event_ok :
  handler_ok 10 (mlme_vdev_subst_start_disconn_progress_event calls).
Proof. unfold mlme_vdev_subst_start_disconn_progress_event. vdev_handler. Qed.

Lemma suspend_down_event_ok :
  handler_ok 11 (mlme_vdev_subst_suspend_suspend_down_event calls ops).
Proof. unfold mlme_vdev_subst_suspend_suspend_down_event. vdev_handler. Qed.

Lemma suspend_restart_event_ok :
  handler_ok 12 (mlme_vdev_subst_suspend_suspend_restart_event calls ops).
Proof. unfold mlme_vdev_subst_suspend_suspend_restart_event. vdev_handler. Qed.

Lemma host_restart_event_ok :
  handler_ok 13 (mlme_vdev_subst_suspend_host_restart_event calls ops).
Proof. unfold mlme_vdev_subst_suspend_host_restart_event. vdev_handler. Qed.

Lemma csa_restart_event_ok :
  handler_ok 14 (mlme_vdev_subst_suspend_csa_restart_event calls ops).
Proof.
  unfold mlme_vdev_subst_suspend_csa_restart_event. vdev_handler.
  destruct (QDF_IS_STATUS_SUCCESS _); vdev_step.
Qed.

Lemma stop_progress_event_ok :
  handler_ok 15 (mlme_vdev_subst_stop_stop_progress_event calls ops).
Proof. unfold mlme_vdev_subst_stop_stop_progress_event. vdev_handler. Qed.

Lemma down_progress_event_ok :
  handler_ok 16 (mlme_vdev_subst_stop_down_progress_event calls ops).
Proof. unfold mlme_vdev_subst_stop_down_progress_event. vdev_handler. Qed.

(** Every live state has an event callback, and it keeps the invariant. *)
Lemma live_handler s :
  In s live_states ->
  exists info h, sm_info calls ops !! Z.to_nat s = Some info /\
    wlan_sm_event info = Some h /\ handler_ok s h.
Proof.
  intros Hs. repeat (destruct Hs as [<-|Hs]; [do 2 eexists; split; [reflexivity|];
    split; [reflexivity|]|]); [..|done].
  - apply init_event_ok.
  - apply start_event_ok.
  - apply dfs_cac_wait_event_ok.
  - apply up_event_ok.
  - apply suspend_event_ok.
  - apply start_progress_event_ok.
  - apply restart_progress_event_ok.
  - apply conn_progress_event_ok.
  - apply disconn_progress_event_ok.
  - apply suspend_down_event_ok.
  - apply suspend_restart_event_ok.
  - apply host_restart_event_ok.
  - apply csa_restart_event_ok.
  - apply stop_progress_event_ok.
  - apply down_progress_event_ok.
Qed.

(** ** Dispatch and transitions over the table *)

Lemma event_name_keeps sm event w (Q : option string -> W -> Prop) :
  machine_ok sm -> (forall a, Q a w) -> wp (event_name sm event) Q w.
Proof.
  intros [_ Hn Hc _ _] HQ. unfold event_name. rewrite Hn, Hc.
  destruct (Z.ltb_spec event 31); [|by apply wp_mret].
  destruct (lookup_lt_is_Some_2 vdev_sm_event_names (Z.to_nat event)) as [x Hx]; [cbn; lia|].
  apply wp_bind. rewrite Hx. cbn [deref]. by do 2 apply wp_mret.
Qed.

Lemma dispatch_table_ok event len d w sm :
  vdev_inv w sm ->
  wp (wlan_sm_dispatch (sm_info calls ops) event len d) (fun _ => keeps sm) w.
Proof.
  intros Hi. pose proof Hi as (Hw & Hm & Hl & Hs & Hb).
  unfold wlan_sm_dispatch. apply wp_bind. unfold wp at 1, get_sm. rewrite Hw.
  destruct (event =? WLAN_SM_ENGINE_EVENT_NONE); [apply wp_mret; by apply keeps_refl|].
  set (sm1 := wlan_sm_save_history _ _ _ _ _).
  assert (machine_ok sm1) as Hm1 by by apply machine_ok_event.
  assert (vdev_inv (set_sm sm1 w) sm1) as Hi1
    by exact (conj eq_refl (conj Hm1 (conj Hl (conj Hs Hb)))).
  apply wp_bind, wp_modify, wp_bind. apply event_name_keeps; [done|]. intros _.
  destruct (live_handler _ Hl) as (info & h & Hinfo & Hh & Hok).
  apply wp_bind. eapply wp_deref; [exact Hinfo|].
  assert ((cur_state sm =? WLAN_SM_ENGINE_STATE_NONE) = false) as ->.
  { apply Z.eqb_neq. intros He. rewrite He in Hl. vm_compute in Hl. intuition discriminate. }
  cbn [negb]. apply wp_bind. eapply wp_deref; [exact Hh|].
  apply (wp_mono _ (fun _ => keeps sm1)).
  2: { intros ? w' (sm' & Hi' & Hf & Hc). by exists sm'. }
  apply wp_keeps_then; [by apply Hok|]. intros handled w2 sm2 Hi2.
  destruct handled; cbn [negb]; [apply wp_mret; by apply keeps_refl|].
  apply wp_bind. unfold deref_sm. apply wp_bind. unfold wp at 1, get_sm.
  destruct Hi2 as (Hw2 & Hrest). rewrite Hw2. apply wp_mret, wp_bind.
  destruct (live_handler (cur_state sm2)) as (info2 & h2 & Hinfo2 & _); [apply Hrest|].
  eapply wp_deref; [exact Hinfo2|]. apply wp_mret. apply keeps_refl. by split.
Qed.

(** The exit callbacks of a live state, run inside a transition. *)
Lemma exits_ok w sm :
  vdev_inv w sm ->
  wp (run_exits chain_fuel (sm_info calls ops) (cur_state sm)) (fun _ => keeps sm) w.
Proof.
  intros Hi. pose proof Hi as (_ & _ & Hl & _). unfold chain_fuel. revert Hl.
  generalize (cur_state sm) at 1 2. intros s Hl.
  repeat (destruct Hl as [<-|Hl]; [|]); [..|done];
    (eapply wp_run_exits; [done|reflexivity|]);
    try (apply wp_mret, wp_run_exits_end; by apply keeps_refl);
    try (apply wp_mret; eapply wp_run_exits; [done|reflexivity|];
         apply wp_mret, wp_run_exits_end; by apply keeps_refl).
  cbn [call_hook wlan_sm_exit]. unfold mlme_vdev_subst_start_conn_progress_exit.
  eapply wp_mono; [by apply call_then_keeps|]. intros ? w1 Hk.
  eapply wp_run_exits; [done|reflexivity|]. by apply wp_mret, wp_run_exits_end.
Qed.

(** The states a transition may enter, and the state it comes to rest in. *)
Definition enterable (t : Z) : Prop := In t (WLAN_VDEV_S_STOP :: live_states).
Definition rest_of (t : Z) : Z :=
  if t =? WLAN_VDEV_S_STOP then WLAN_VDEV_SS_STOP_STOP_PROGRESS else t.

Lemma edge_enterable s t :
  In s live_states -> vdev_edge s t ->
  enterable t /\ (t < 6 \/ top_of t = top_of s).
Proof.
  intros Hs Ht. unfold enterable.
  repeat (destruct Hs as [<-|Hs]; [vm_compute in Ht; repeat (destruct Ht as [<-|Ht];
    [split; [vm_compute; tauto|(left; lia) || by right]|]); done|]).
  done.
Qed.

Lemma subst_entry_ok p s w :
  mlme_state (w_ctx w) = p -> 6 < s < 18 ->
  wp (subst_entry p s) (fun _ w' =>
    w_sm w' = w_sm w /\ w_bugs w' = w_bugs w /\
    mlme_state (w_ctx w') = p /\ mlme_substate (w_ctx w') = s) w.
Proof.
  intros Hp Hs. apply wp_bind, wp_gets, wp_bind. rewrite Hp, Z.eqb_refl. apply wp_mret.
  unfold mlme_vdev_set_substate, WLAN_VDEV_S_MAX, WLAN_VDEV_SS_MAX.
  destruct (Z.ltb_spec 6 s); [|lia]. destruct (Z.ltb_spec s 18); [|lia].
  by apply wp_modify.
Qed.

(** The entry callback of one state. *)
Lemma entry_ok t w :
  enterable t -> t < 6 \/ mlme_state (w_ctx w) = top_of t ->
  exists info, sm_info calls ops !! Z.to_nat t = Some info /\
    initial_substate info =
      (if t =? WLAN_VDEV_S_STOP then WLAN_VDEV_SS_STOP_STOP_PROGRESS else WLAN_SM_ENGINE_STATE_NONE) /\
    wp (call_hook (wlan_sm_entry info)) (fun _ w' =>
      w_sm w' = w_sm w /\ w_bugs w' = w_bugs w /\
      mlme_state (w_ctx w') = top_of t /\ mlme_substate (w_ctx w') = substate_of t) w.
Proof.
  intros Ht Hpar.
  repeat (destruct Ht as [<-|Ht]; [eexists; split; [reflexivity|]; split; [reflexivity|]|]);
    [..|done]; cbn [call_hook wlan_sm_entry];
    try (unfold wp; cbn; repeat split; done);
    (destruct Hpar as [Hpar|Hpar]; [lia|]; by apply subst_entry_ok).
Qed.

Lemma entries_ok t w sm :
  enterable t -> t < 6 \/ mlme_state (w_ctx w) = top_of t -> w_sm w = SmLive sm ->
  wp (run_entries chain_fuel (sm_info calls ops) t) (fun _ w' =>
    w_sm w' = SmLive (set_cur_state (rest_of t) sm) /\ w_bugs w' = w_bugs w /\
    synced (rest_of t) (w_ctx w')) w.
Proof.
  intros Ht Hpar Hw. unfold chain_fuel.
  assert (forall u, enterable u -> u <> WLAN_SM_ENGINE_STATE_NONE) as Hne.
  { intros u Hu ->. vm_compute in Hu. intuition discriminate. }
  destruct (entry_ok t w Ht Hpar) as (info & Hinfo & Hini & Hent).
  eapply wp_run_entries; [by apply Hne|exact Hinfo| |].
  { rewrite Hini. destruct (t =? WLAN_VDEV_S_STOP); [right; by eexists|by left]. }
  eapply wp_mono; [exact Hent|]. intros ? w1 (Hw1 & Hb1 & Hs1 & Hss1).
  eapply wp_update_sm; [by rewrite Hw1|]. rewrite Hini. unfold rest_of.
  destruct (Z.eqb_spec t WLAN_VDEV_S_STOP) as [->|Hns].
  2: { apply wp_run_entries_end. repeat split; cbn; try done. by left. }
  destruct (entry_ok WLAN_VDEV_SS_STOP_STOP_PROGRESS (set_sm (set_cur_state WLAN_VDEV_S_STOP sm) w1))
    as (info2 & Hinfo2 & Hini2 & Hent2); [vm_compute; tauto|by right|].
  eapply wp_run_entries; [done|exact Hinfo2|by left|].
  eapply wp_mono; [exact Hent2|]. intros ? w2 (Hw2 & Hb2 & Hs2 & Hss2).
  eapply wp_update_sm; [by rewrite Hw2|]. rewrite Hini2.
  apply wp_run_entries_end. split; [done|]. split; [by cbn; rewrite Hb2|].
  split; [done|]. by left.
Qed.

(** The checks of a transition along an edge pass. *)
Lemma transition_unfold t w sm :
  vdev_inv w sm -> in_state_transition sm = 0 -> vdev_edge (cur_state sm) t ->
  wlan_sm_transition_to (sm_info calls ops) t w =
    (put_sm (wlan_sm_save_history (set_in_state_transition 1 sm) SM_EVENT_STATE_TRANSITION
               (cur_state sm) t 255);;
     run_exits chain_fuel (sm_info calls ops) (cur_state sm);;
     run_entries chain_fuel (sm_info calls ops) t;;
     update_sm (set_in_state_transition 0)) w.
Proof.
  intros (Hw & Hm & Hl & _) Hflag He.
  destruct (edge_enterable _ _ Hl He) as [Ht _].
  unfold wlan_sm_transition_to, get_sm. unfold mbind at 1, M_bind at 1.
  rewrite Hw, Hflag. cbn [negb Z.eqb]. apply bind_ext. intros [] w1.
  assert (forall u, 0 <= u < 19 -> exists info, sm_info calls ops !! Z.to_nat u = Some info /\
            0 <= super_or_self info u < 19) as Hrow.
  { intros u Hu. destruct (lookup_lt_is_Some_2 (sm_info calls ops) (Z.to_nat u)) as [info Hinfo];
      [cbn; lia|].
    exists info. split; [done|]. unfold super_or_self.
    assert (Forall (fun row => parent_state row = WLAN_SM_ENGINE_STATE_NONE \/
              0 <= parent_state row < 19) (sm_info calls ops)) as Hpar
      by (repeat (apply Forall_cons_2; [cbn; (by left) || (right; unfold WLAN_VDEV_S_START,
            WLAN_VDEV_S_SUSPEND, WLAN_VDEV_S_STOP; lia)|]); constructor).
    destruct (Z.eqb_spec (parent_state info) WLAN_SM_ENGINE_STATE_NONE) as [|Hn]; cbn [negb]; [done|].
    by destruct (Forall_lookup_1 _ _ _ _ Hpar Hinfo). }
  assert (forall u, enterable u -> 0 <= u < 17) as Hrange.
  { intros u Hu. unfold enterable in Hu. cbn in Hu. unfold WLAN_VDEV_S_STOP in Hu. lia. }
  pose proof (Hrange t Ht). pose proof (Hrange (cur_state sm) (or_intror Hl)).
  rewrite (mo_num _ Hm). unfold WLAN_SM_ENGINE_STATE_NONE, WLAN_SM_ENGINE_MAX_STATES.
  destruct (Z.eqb_spec t 255); [lia|]. destruct (Z.leb_spec 200 t); [lia|].
  destruct (Z.leb_spec 19 t); [lia|]. cbn [orb].
  destruct (Hrow (cur_state sm) ltac:(lia)) as (ci & Hci & Hsci).
  destruct (Hrow t ltac:(lia)) as (ni & Hni & Hsni).
  destruct (Hrow _ Hsci) as (r1 & Hr1 & _), (Hrow _ Hsni) as (r2 & Hr2 & _).
  unfold info_at. rewrite Hci, Hni. unfold mbind at 1 2, M_bind at 1 2. cbn [deref mret M_ret].
  rewrite Hr1, Hr2. done.
Qed.

Lemma transition_table_ok t w sm :
  vdev_inv w sm -> vdev_edge (cur_state sm) t ->
  wp (wlan_sm_transition_to (sm_info calls ops) t) (fun _ => keeps sm) w.
Proof.
  intros Hi He. pose proof Hi as (Hw & Hm & Hl & Hs & Hb).
  destruct (edge_enterable _ _ Hl He) as [Ht Htop].
  destruct (Z.eqb_spec (in_state_transition sm) 0) as [Hflag|Hflag].
  2: { unfold wlan_sm_transition_to. apply wp_bind. unfold wp at 1, get_sm. rewrite Hw.
       rewrite (proj2 (Z.eqb_neq _ _) Hflag). cbn [negb].
       eapply wp_mono; [apply bug_keeps; [done|vm_compute; tauto]|].
       intros ? w'. by apply keeps_refl. }
  unfold wp. rewrite (transition_unfold t w sm Hi Hflag He).
  set (sm1 := wlan_sm_save_history _ _ _ _ _).
  assert (machine_ok sm1) as Hm1 by by apply machine_ok_transition.
  assert (vdev_inv (set_sm sm1 w) sm1) as Hi1
    by exact (conj eq_refl (conj Hm1 (conj Hl (conj Hs Hb)))).
  apply wp_bind, wp_modify, wp_bind.
  eapply wp_mono; [by apply (exits_ok (set_sm sm1 w) sm1)|].
  intros ? w2 (sm2 & Hi2 & Hf2 & Hc2). pose proof Hi2 as (Hw2 & Hm2 & _ & [Hs2 _] & Hb2).
  assert (cur_state sm2 = cur_state sm) as Hcur by (by apply Hc2).
  apply wp_bind. eapply wp_mono; [apply (entries_ok t w2 sm2); [done| |done]|].
  { destruct Htop as [?|Htop]; [by left|]. right. by rewrite Hs2, Hcur. }
  intros ? w3 (Hw3 & Hb3 & Hs3). eapply wp_update_sm; [exact Hw3|].
  exists (set_in_state_transition 0 (set_cur_state (rest_of t) sm2)).
  split; [|by rewrite Hflag]. split; [done|]. split; [by destruct Hm2|].
  split; [|split; [done|cbn; by rewrite Hb3]]. cbn.
  unfold rest_of, enterable in *. destruct (Z.eqb_spec t WLAN_VDEV_S_STOP); [vm_compute; tauto|].
  by destruct Ht.
Qed.

End HandlersOk.

(** ** The machine keeps its invariant *)

(** The engine at any nesting depth is good for the handlers above it. *)
Lemma engine_ok ops fuel : guards_quiet ops -> calls_ok (vdev_engine ops fuel).
Proof.
  intros Hops. induction fuel as [|fuel IH]; [by constructor|]. constructor.
  - intros event len d w sm Hi. by apply dispatch_table_ok.
  - intros t w sm Hi He. by apply transition_table_ok.
Qed.

(** The worlds of a VDEV: freshly created, or after delivering an event. *)
Inductive vdev_reachable (ops : option (vdev_mlme_ops E D)) : W -> Prop :=
  | reach_create id mode e w' :
      mlme_vdev_sm_create ops true id (World SmNull [] (VdevCtx 0 0 mode e))
        = Ret QDF_STATUS_SUCCESS w' ->
      vdev_reachable ops w'
  | reach_deliver w fuel event len d status w' :
      vdev_reachable ops w ->
      wlan_vdev_mlme_sm_deliver_evt_sync ops true fuel event len d w = Ret status w' ->
      vdev_reachable ops w'.

Lemma sm_create_ok (ops : option (vdev_mlme_ops E D)) malloc_ok id w :
  mlme_vdev_sm_create ops malloc_ok id w =
    if malloc_ok then
      Ret QDF_STATUS_SUCCESS (set_sm (wlan_sm_history_init (WlanSm
        (String.substring 0 63 (String.append "VDEV" (String.append id "-MLME")))
        WLAN_VDEV_S_INIT 19 WLAN_SM_ENGINE_EVENT_NONE 0 (Some vdev_sm_event_names) 31
        (History 0 []))) w)
    else Ret QDF_STATUS_E_FAILURE w.
Proof. by destruct malloc_ok. Qed.

Lemma create_inv (ops : option (vdev_mlme_ops E D)) id mode e w' :
  mlme_vdev_sm_create ops true id (World SmNull [] (VdevCtx 0 0 mode e))
    = Ret QDF_STATUS_SUCCESS w' ->
  exists sm, vdev_inv w' sm /\ in_state_transition sm = 0.
Proof.
  rewrite sm_create_ok. intros [= <-].
  eexists. split; [split; [reflexivity|]|done]. split; [constructor|].
  - done.
  - done.
  - done.
  - by split.
  - by apply (Forall_replicate edge_entry 50 empty_entry).
  - split; [by left|]. split; [|constructor]. split; [done|]. by right.
Qed.

Lemma reachable_inv ops w :
  guards_quiet ops -> vdev_reachable ops w ->
  exists sm, vdev_inv w sm /\ in_state_transition sm = 0.
Proof.
  intros Hops Hr. induction Hr as [id mode e w' Hc|w fuel event len d status w' _ IH Hd].
  - by eapply create_inv.
  - destruct IH as (sm & Hi & Hf).
    pose proof (co_dispatch _ (engine_ok ops fuel Hops) (wrap 16 event) len d w sm Hi) as Hwp.
    unfold wlan_vdev_mlme_sm_deliver_evt_sync, with_cmpt_obj, mlme_vdev_sm_deliver_event in Hd.
    unfold wp in Hwp. rewrite Hd in Hwp. destruct Hwp as (sm' & Hi' & Hf' & _).
    exists sm'. split; [done|]. congruence.
Qed.

End Invariant.

(** * Theorems *)

(** C6 At every reachable point the engine's state is a resting state outside a
    transition, and the VDEV's published state and substate are the ones of that
    state, even when the driver's callbacks (other than the four guards) deliver
    events to the machine again; none of the machine's internal
    assertions (wrong parent on a substate entry, an invalid state or substate, an
    event in STOP) has fired. *)
Theorem vdev_sm_states_agree {E D} (ops : option (vdev_mlme_ops E D)) w :
  guards_quiet ops -> vdev_reachable ops w ->
  exists sm, w_sm w = SmLive sm /\ in_state_transition sm = 0 /\
    In (cur_state sm) live_states /\ synced (cur_state sm) (w_ctx w) /\
    Forall benign (w_bugs w).
Proof.
  intros Hops Hr. destruct (reachable_inv ops w Hops Hr) as (sm & (? & _ & ? & ? & ?) & ?).
  by exists sm.
Qed.

(** Every transition the history shows, of any VDEV at any time and for any
    callbacks whose guards are quiet, is an edge of the state graph. *)
Theorem vdev_sm_transitions_follow_graph {E D} (ops : option (vdev_mlme_ops E D)) w :
  guards_quiet ops -> vdev_reachable ops w ->
  exists sm, w_sm w = SmLive sm /\ Forall edge_entry (data (history sm)).
Proof.
  intros Hops Hr. destruct (reachable_inv ops w Hops Hr) as (sm & (? & [] & _) & _).
  by exists sm.
Qed.

(** Delivering any event of the enumeration to a reachable VDEV, at any nesting
    depth and with its debug prints, dereferences no NULL callback or machine and
    indexes no table outside its bounds. *)
Theorem vdev_sm_no_invalid_access {E D} (ops : option (vdev_mlme_ops E D)) w fuel event len d :
  guards_quiet ops -> vdev_reachable ops w -> 0 <= event < 31 ->
  wlan_vdev_mlme_sm_deliver_evt ops true fuel event len d w <> Crash.
Proof.
  intros Hops Hr Hev. destruct (reachable_inv ops w Hops Hr) as (sm & Hi & _).
  enough (wp (wlan_vdev_mlme_sm_deliver_evt ops true fuel event len d) (fun _ _ => True) w) as Hwp.
  { unfold wp in Hwp. by destruct (wlan_vdev_mlme_sm_deliver_evt _ _ _ _ _ _ _). }
  assert (forall w sm, vdev_inv w sm ->
    wp (mlme_vdev_sm_print_state ops) (fun _ w' => w' = w) w) as Hprint.
  { clear. intros w sm (Hw & _ & Hl & [Hs Hss] & _). unfold mlme_vdev_sm_print_state.
    do 2 apply wp_bind, wp_gets. apply wp_bind. unfold deref_sm. apply wp_bind.
    unfold wp at 1, get_sm. rewrite Hw. apply wp_mret.
    assert (forall s, 0 <= s < 19 -> exists info,
      sm_info (vdev_engine ops 0) ops !! Z.to_nat s = Some info) as Hrow.
    { intros s Hr. apply lookup_lt_is_Some_2. cbn. lia. }
    destruct (Hrow (mlme_state (w_ctx w))) as [r1 Hr1].
    { rewrite Hs. clear -Hl. repeat (destruct Hl as [<-|Hl]; [vm_compute; by split|]). done. }
    destruct (Hrow (mlme_substate (w_ctx w))) as [r2 Hr2].
    { destruct Hss as [->|[_ ->]]; [|lia]. clear -Hl.
      repeat (destruct Hl as [<-|Hl]; [vm_compute; by split|]). done. }
    do 2 (apply wp_bind; eapply wp_deref; [eassumption|]). by apply wp_mret. }
  unfold wlan_vdev_mlme_sm_deliver_evt, with_cmpt_obj. do 2 apply wp_bind, wp_gets. apply wp_bind.
  unfold mlme_vdev_sm_print_state_event. apply wp_bind.
  eapply wp_mono; [by eapply Hprint|]. intros ? w' ->.
  destruct (lookup_lt_is_Some_2 vdev_sm_event_names (Z.to_nat event)) as [nm Hnm]; [cbn; lia|].
  apply wp_bind. eapply wp_deref; [exact Hnm|]. apply wp_mret, wp_bind.
  eapply wp_mono; [by apply (co_dispatch _ (engine_ok ops fuel Hops))|].
  intros status w1 (sm1 & Hi1 & _). do 2 apply wp_bind, wp_gets. apply wp_bind.
  destruct (negb _); [|by do 2 apply wp_mret].
  eapply wp_mono; [by eapply Hprint|]. intros ? w2 _. by apply wp_mret.
Qed.

(** The state predicates other components use say what the machine's state
    says, at every reachable point and for any callbacks. *)
Theorem vdev_state_predicates {E D} (ops : option (vdev_mlme_ops E D)) w sm :
  guards_quiet ops -> vdev_reachable ops w -> w_sm w = SmLive sm ->
  let says (m : M (world (vdev_ctx E)) QDF_STATUS) (states : list Z) :=
    m w = Ret (status_of (existsb (Z.eqb (cur_state sm)) states)) w in
  says wlan_vdev_mlme_is_init_state [0] /\
  says wlan_vdev_is_restart_progress [8] /\
  says wlan_vdev_is_dfs_cac_wait [2] /\
  says wlan_vdev_mlme_is_csa_restart [14] /\
  says wlan_vdev_allow_connect_n_tx [3; 14] /\
  says wlan_vdev_mlme_is_active [2; 3; 4; 11; 12; 13; 14] /\
  says wlan_vdev_is_going_down [11; 15; 16] /\
  says wlan_vdev_mlme_is_scan_allowed [0; 3; 15; 16] /\
  says wlan_vdev_chan_config_valid [1; 2; 3; 4; 7; 8; 9; 10; 11; 12; 13; 14].
Proof.
  intros Hops Hr Hw says. destruct (reachable_inv ops w Hops Hr) as (sm0 & Hi & _).
  destruct Hi as (Hw0 & _ & Hl & [Hs Hss] & _). rewrite Hw in Hw0. injection Hw0 as <-.
  unfold says. clear says.
  unfold wlan_vdev_mlme_is_init_state, wlan_vdev_is_restart_progress, wlan_vdev_is_dfs_cac_wait,
    wlan_vdev_mlme_is_csa_restart, wlan_vdev_allow_connect_n_tx, wlan_vdev_mlme_is_active,
    wlan_vdev_is_going_down, wlan_vdev_mlme_is_scan_allowed, wlan_vdev_chan_config_valid,
    wlan_vdev_mlme_get_state, wlan_vdev_mlme_get_substate, mbind, M_bind, gets.
  revert Hl Hs Hss. generalize (cur_state sm), (mlme_state (w_ctx w)), (mlme_substate (w_ctx w)).
  clear. intros s st sub Hl -> Hss.
  repeat (destruct Hl as [<-|Hl]; [destruct Hss as [->|[? ->]]; [|try done]; by repeat split|]).
  done.
Qed.

(** ** Witnesses: an access point whose callbacks answer at once, from inside the
    machine, so that one event takes the VDEV from INIT to UP. *)

Section Eager.

Definition deliver_then_done (e : wlan_vdev_sm_evt) : Z -> unit -> script unit unit :=
  fun _ _ => Deliver (evt_code e) 0 tt (fun _ => Done QDF_STATUS_SUCCESS).

Definition eager_ops : vdev_mlme_ops unit unit := {|
  op_validate_basic_params := None;
  op_reset_proto_params := None;
  op_start_send := Some (deliver_then_done WLAN_VDEV_SM_EV_START_RESP);
  op_restart_send := None;
  op_stop_start_send := None;
  op_start_continue := Some (deliver_then_done WLAN_VDEV_SM_EV_START_SUCCESS);
  op_sta_conn_start := None;
  op_start_req_failed := None;
  op_up_send := None;
  op_notify_up_complete := None;
  op_notify_roam_start := None;
  op_update_beacon := None;
  op_disconnect_peers := Some (deliver_then_done WLAN_VDEV_SM_EV_DISCONNECT_COMPLETE);
  op_dfs_cac_timer_stop := None;
  op_stop_send := Some (deliver_then_done WLAN_VDEV_SM_EV_MLME_DOWN_REQ);
  op_stop_continue := None;
  op_down_send := Some (deliver_then_done WLAN_VDEV_SM_EV_DOWN_COMPLETE);
  op_notify_down_complete := None;
  op_notify_start_state_exit := None;
  op_is_newchan_no_cac := None;
|}.

Lemma eager_quiet : guards_quiet (Some eager_ops).
Proof. by constructor. Qed.

Definition run_events (evs : list wlan_vdev_sm_evt) : M (world (vdev_ctx unit)) unit :=
  foreach (fun e => _ ← wlan_vdev_mlme_sm_deliver_evt_sync (Some eager_ops) true 40 (evt_code e) 0 tt;
                    mret ()) evs.

(** The world of a VDEV created and sent some events. *)
Definition eager_world (evs : list wlan_vdev_sm_evt) : option (world (vdev_ctx unit)) :=
  match mlme_vdev_sm_create (Some eager_ops) true "0" (World SmNull [] (VdevCtx 0 0 QDF_SAP_MODE tt)) with
  | Ret QDF_STATUS_SUCCESS w => match run_events evs w with Ret _ w' => Some w' | _ => None end
  | _ => None
  end.

Lemma run_events_reachable evs w w' :
  vdev_reachable (Some eager_ops) w -> run_events evs w = Ret () w' ->
  vdev_reachable (Some eager_ops) w'.
Proof.
  revert w. induction evs as [|e evs IH]; intros w Hr; [by intros [= <-]|].
  unfold run_events. cbn [foreach]. fold (run_events evs). unfold mbind, M_bind.
  destruct (wlan_vdev_mlme_sm_deliver_evt_sync _ _ _ _ _ _ w) as [st w1| |] eqn:Hd;
    [cbn [mret M_ret]|done..].
  apply IH. by eapply reach_deliver.
Qed.

Lemma eager_reachable evs w :
  eager_world evs = Some w -> vdev_reachable (Some eager_ops) w.
Proof.
  unfold eager_world. destruct (mlme_vdev_sm_create _ _ _ _) as [[] w0| |] eqn:Hc; try done.
  destruct (run_events evs w0) as [[] w1| |] eqn:Hr; [|done..]. intros [= <-].
  eapply run_events_reachable; [|exact Hr]. by eapply reach_create.
Qed.

Lemma eager_up_exists : exists w, eager_world [WLAN_VDEV_SM_EV_START] = Some w /\
  mlme_state (w_ctx w) = WLAN_VDEV_S_UP.
Proof.
  destruct (eager_world [WLAN_VDEV_SM_EV_START]) as [w|] eqn:Hw; vm_compute in Hw; [|done].
  exists w. split; [done|]. by injection Hw as <-.
Qed.

Lemma eager_up_machine : exists w sm, eager_world [WLAN_VDEV_SM_EV_START] = Some w /\
  w_sm w = SmLive sm /\ cur_state sm = WLAN_VDEV_S_UP.
Proof.
  destruct (eager_world [WLAN_VDEV_SM_EV_START]) as [w|] eqn:Hw; vm_compute in Hw; [|done].
  injection Hw as <-. eexists _, _. repeat split.
Qed.

Lemma eager_init_exists :
  exists w, eager_world [WLAN_VDEV_SM_EV_START; WLAN_VDEV_SM_EV_DOWN] = Some w /\
    mlme_state (w_ctx w) = WLAN_VDEV_S_INIT.
Proof.
  destruct (eager_world [WLAN_VDEV_SM_EV_START; WLAN_VDEV_SM_EV_DOWN]) as [w|] eqn:Hw;
    vm_compute in Hw; [|done].
  exists w. split; [done|]. by injection Hw as <-.
Qed.

End Eager.

Lemma vdev_sm_states_agree_witness :
  exists w sm, vdev_reachable (Some eager_ops) w /\ w_sm w = SmLive sm /\
    mlme_state (w_ctx w) = WLAN_VDEV_S_UP /\ synced (cur_state sm) (w_ctx w).
Proof.
  destruct eager_up_exists as (w & Hw & Hup). apply eager_reachable in Hw.
  destruct (vdev_sm_states_agree (Some eager_ops) w eager_quiet Hw)
    as (sm & Hsm & _ & _ & Hs & _).
  by exists w, sm.
Defined.

Lemma vdev_sm_transitions_follow_graph_witness :
  exists w sm, vdev_reachable (Some eager_ops) w /\ w_sm w = SmLive sm /\
    mlme_state (w_ctx w) = WLAN_VDEV_S_INIT /\ Forall edge_entry (data (history sm)).
Proof.
  destruct eager_init_exists as (w & Hw & Hup). apply eager_reachable in Hw.
  destruct (vdev_sm_transitions_follow_graph (Some eager_ops) w eager_quiet Hw)
    as (sm & Hsm & He).
  by exists w, sm.
Defined.

Lemma vdev_sm_no_invalid_access_witness :
  exists w, vdev_reachable (Some eager_ops) w /\
    wlan_vdev_mlme_sm_deliver_evt (Some eager_ops) true 40 (evt_code WLAN_VDEV_SM_EV_DOWN) 0 tt w
      <> Crash.
Proof.
  destruct eager_up_exists as (w & Hw & _). apply eager_reachable in Hw.
  exists w. split; [exact Hw|].
  apply (vdev_sm_no_invalid_access (Some eager_ops) w 40 _ 0 tt eager_quiet Hw).
  apply evt_code_range.
Defined.

Lemma vdev_state_predicates_witness :
  exists w, vdev_reachable (Some eager_ops) w /\
    wlan_vdev_mlme_is_active w = Ret QDF_STATUS_SUCCESS w /\
    wlan_vdev_is_going_down w = Ret QDF_STATUS_E_FAILURE w.
Proof.
  destruct eager_up_machine as (w & sm & Hw & Hsm & Hcur). apply eager_reachable in Hw.
  destruct (vdev_state_predicates (Some eager_ops) w sm eager_quiet Hw Hsm)
    as (_ & _ & _ & _ & _ & Ha & Hg & _).
  rewrite Hcur in Ha, Hg. by exists w.
Defined.
