(* ===== verification/VdevSmSpec.v ===== *)
(** What a VDEV does with each event, as a flat table from states and events to the
    callbacks it runs and the states it passes, and the theorem that the event
    handlers, the engine and the internal events they deliver implement it. *)
From S2P Require Import Prelude.
From S2P Require Import QdfTypes.
Import QdfTypes.Parse.
From S2P Require Import SmEngine.
From S2P Require Import VdevMlme.
From S2P Require Import VdevSm.
From S2P Require Import VdevSmInv.

(** ** Plans *)

(** The driver's callbacks. *)
Inductive op_call : Type :=
  | ValidateParams | StartSend | RestartSend | StopStartSend (t : vdev_cmd_type)
  | StartContinue | StaConnStart | StartReqFailed | UpSend | NotifyUp | NotifyRoam
  | UpdateBeacon (b : beacon_update_op) | DisconnectPeers | CacTimerStop | StopSend
  | StopContinue | DownSend | NotifyDown | NotifyStartExit | NewchanNoCac.

(** A reaction: run callbacks, which may succeed or not, move, and finish, having
    handled the event or not. *)
Inductive plan : Type :=
  | Finish (handled : bool)
  | Call (c : op_call) (k : bool -> plan)
  | Goto (s : Z) (p : plan)
  | Bug (site : string) (p : plan).

Definition Handled : plan := Finish true.
Definition call (c : op_call) (p : plan) : plan := Call c (fun _ => p).

(** Shared pieces. *)
Definition to_restart : plan :=
  Goto WLAN_VDEV_S_START (Goto WLAN_VDEV_SS_START_RESTART_PROGRESS (call RestartSend Handled)).
Definition to_stop : plan := Goto WLAN_VDEV_S_STOP (call StopSend Handled).
Definition to_init : plan := Goto WLAN_VDEV_S_INIT (call NotifyDown Handled).
Definition disconnect (s : Z) : plan := Goto s (call DisconnectPeers Handled).
Definition suspend_for (s : Z) : plan := Goto WLAN_VDEV_S_SUSPEND (disconnect s).
Definition suspend_for_csa : plan :=
  Goto WLAN_VDEV_SS_SUSPEND_CSA_RESTART (call (UpdateBeacon BEACON_CSA) Handled).
Definition come_up : plan :=
  call (UpdateBeacon BEACON_INIT) (Call UpSend (fun ok : bool =>
    if ok then call NotifyUp Handled
    else suspend_for WLAN_VDEV_SS_SUSPEND_SUSPEND_DOWN)).
Definition back_up : plan :=
  Goto WLAN_VDEV_S_UP (call (UpdateBeacon BEACON_UPDATE) (call NotifyUp Handled)).
Definition try_connect : plan :=
  Call StartContinue (fun ok : bool =>
    if ok then Handled
    else call NotifyStartExit (Goto WLAN_VDEV_SS_START_DISCONN_PROGRESS to_stop)).
Definition bug_if (b : bool) (site : string) (p : plan) : plan := if b then Bug site p else p.

Definition is_sta (mode : QDF_OPMODE) : bool :=
  match mode with QDF_STA_MODE => true | _ => false end.

(** The reaction of each state to each event. *)
Definition react (mode : QDF_OPMODE) (s : Z) (e : wlan_vdev_sm_evt) : plan :=
  let sta := is_sta mode in
  match s with
  | 0 (* INIT *) =>
      match e with
      | WLAN_VDEV_SM_EV_START => Call ValidateParams (fun ok : bool =>
          if ok then Goto WLAN_VDEV_S_START
                       (Goto WLAN_VDEV_SS_START_START_PROGRESS (call StartSend Handled))
          else call NotifyDown (Finish (negb sta)))
      | WLAN_VDEV_SM_EV_DOWN_COMPLETE | WLAN_VDEV_SM_EV_DOWN
      | WLAN_VDEV_SM_EV_START_REQ_FAIL => call NotifyDown Handled
      | _ => Finish false
      end
  | 1 (* START *) =>
      match e with
      | WLAN_VDEV_SM_EV_START_REQ =>
          Goto WLAN_VDEV_SS_START_START_PROGRESS (call StartSend Handled)
      | WLAN_VDEV_SM_EV_RESTART_REQ =>
          Goto WLAN_VDEV_SS_START_RESTART_PROGRESS (call RestartSend Handled)
      | WLAN_VDEV_SM_EV_RADAR_DETECTED =>
          Goto WLAN_VDEV_SS_START_RESTART_PROGRESS (Bug "RADAR in RESTART_PROGRESS" Handled)
      | WLAN_VDEV_SM_EV_STA_CONN_START =>
          Goto WLAN_VDEV_SS_START_CONN_PROGRESS
            (bug_if (negb sta) "not STA mode" (call StaConnStart Handled))
      | _ => Finish false
      end
  | 2 (* DFS_CAC_WAIT *) =>
      match e with
      | WLAN_VDEV_SM_EV_DFS_CAC_WAIT => Handled
      | WLAN_VDEV_SM_EV_DOWN => call CacTimerStop to_stop
      | WLAN_VDEV_SM_EV_RADAR_DETECTED => to_restart
      | WLAN_VDEV_SM_EV_DFS_CAC_COMPLETED =>
          if sta then Goto WLAN_VDEV_S_START
            (Goto WLAN_VDEV_SS_START_CONN_PROGRESS (call StaConnStart Handled))
          else Goto WLAN_VDEV_S_UP come_up
      | _ => Finish false
      end
  | 3 (* UP *) =>
      match e with
      | WLAN_VDEV_SM_EV_START_SUCCESS => come_up
      | WLAN_VDEV_SM_EV_SUSPEND_RESTART =>
          bug_if sta "STA mode" (suspend_for WLAN_VDEV_SS_SUSPEND_SUSPEND_RESTART)
      | WLAN_VDEV_SM_EV_HOST_RESTART =>
          bug_if sta "STA mode" (suspend_for WLAN_VDEV_SS_SUSPEND_HOST_RESTART)
      | WLAN_VDEV_SM_EV_CSA_RESTART | WLAN_VDEV_SM_EV_RADAR_DETECTED =>
          bug_if sta "STA mode" (Goto WLAN_VDEV_S_SUSPEND suspend_for_csa)
      | WLAN_VDEV_SM_EV_DOWN | WLAN_VDEV_SM_EV_UP_FAIL =>
          suspend_for WLAN_VDEV_SS_SUSPEND_SUSPEND_DOWN
      | WLAN_VDEV_SM_EV_UP_HOST_RESTART =>
          call (UpdateBeacon BEACON_UPDATE) (call NotifyUp Handled)
      | WLAN_VDEV_SM_EV_START => call NotifyUp Handled
      | WLAN_VDEV_SM_EV_FW_VDEV_RESTART => to_restart
      | WLAN_VDEV_SM_EV_ROAM => call NotifyRoam Handled
      | _ => Finish false
      end
  | 4 (* SUSPEND *) =>
      match e with
      | WLAN_VDEV_SM_EV_DOWN | WLAN_VDEV_SM_EV_RESTART_REQ_FAIL
      | WLAN_VDEV_SM_EV_UP_FAIL => disconnect WLAN_VDEV_SS_SUSPEND_SUSPEND_DOWN
      | WLAN_VDEV_SM_EV_SUSPEND_RESTART => disconnect WLAN_VDEV_SS_SUSPEND_SUSPEND_RESTART
      | WLAN_VDEV_SM_EV_HOST_RESTART => disconnect WLAN_VDEV_SS_SUSPEND_HOST_RESTART
      | WLAN_VDEV_SM_EV_CSA_RESTART => suspend_for_csa
      | _ => Finish false
      end
  | 7 (* START_PROGRESS *) =>
      match e with
      | WLAN_VDEV_SM_EV_START_REQ => call StartSend Handled
      | WLAN_VDEV_SM_EV_RADAR_DETECTED => Goto WLAN_VDEV_SS_START_RESTART_PROGRESS Handled
      | WLAN_VDEV_SM_EV_START_RESP | WLAN_VDEV_SM_EV_RESTART_RESP =>
          Goto WLAN_VDEV_SS_START_CONN_PROGRESS try_connect
      | WLAN_VDEV_SM_EV_START_REQ_FAIL => call StartReqFailed to_init
      | WLAN_VDEV_SM_EV_DOWN =>
          Goto WLAN_VDEV_SS_START_DISCONN_PROGRESS (call (StopStartSend START_REQ) Handled)
      | _ => Finish false
      end
  | 8 (* RESTART_PROGRESS *) =>
      match e with
      | WLAN_VDEV_SM_EV_RESTART_REQ | WLAN_VDEV_SM_EV_START_RESP => call RestartSend Handled
      | WLAN_VDEV_SM_EV_RESTART_RESP => Goto WLAN_VDEV_SS_START_CONN_PROGRESS try_connect
      | WLAN_VDEV_SM_EV_RESTART_REQ_FAIL => suspend_for WLAN_VDEV_SS_SUSPEND_SUSPEND_DOWN
      | WLAN_VDEV_SM_EV_DOWN =>
          Goto WLAN_VDEV_SS_START_DISCONN_PROGRESS (call (StopStartSend RESTART_REQ) Handled)
      | WLAN_VDEV_SM_EV_RADAR_DETECTED => Bug "RADAR in RESTART_PROGRESS" Handled
      | _ => Finish false
      end
  | 9 (* CONN_PROGRESS: leaving it notifies the driver *) =>
      match e with
      | WLAN_VDEV_SM_EV_CONN_PROGRESS => try_connect
      | WLAN_VDEV_SM_EV_DFS_CAC_WAIT =>
          call NotifyStartExit (Goto WLAN_VDEV_S_DFS_CAC_WAIT Handled)
      | WLAN_VDEV_SM_EV_START_SUCCESS =>
          call NotifyStartExit (Goto WLAN_VDEV_S_UP come_up)
      | WLAN_VDEV_SM_EV_STA_CONN_START =>
          bug_if (negb sta) "not STA mode" (call StaConnStart Handled)
      | WLAN_VDEV_SM_EV_RADAR_DETECTED => bug_if (negb sta) "not STA mode" Handled
      | WLAN_VDEV_SM_EV_DOWN =>
          (* DOWN is ignored in DISCONN_PROGRESS: the connection has to fail *)
          call NotifyStartExit (Goto WLAN_VDEV_SS_START_DISCONN_PROGRESS Handled)
      | WLAN_VDEV_SM_EV_CONNECTION_FAIL =>
          call NotifyStartExit (Goto WLAN_VDEV_SS_START_DISCONN_PROGRESS to_stop)
      | _ => Finish false
      end
  | 10 (* DISCONN_PROGRESS *) =>
      match e with
      | WLAN_VDEV_SM_EV_START_RESP | WLAN_VDEV_SM_EV_CONNECTION_FAIL => to_stop
      | WLAN_VDEV_SM_EV_RESTART_RESP | WLAN_VDEV_SM_EV_RESTART_REQ_FAIL =>
          suspend_for WLAN_VDEV_SS_SUSPEND_SUSPEND_DOWN
      | WLAN_VDEV_SM_EV_START_REQ_FAIL => to_init
      | _ => Finish false
      end
  | 11 (* SUSPEND_DOWN *) =>
      match e with
      | WLAN_VDEV_SM_EV_DOWN | WLAN_VDEV_SM_EV_RESTART_REQ_FAIL => call DisconnectPeers Handled
      | WLAN_VDEV_SM_EV_DISCONNECT_COMPLETE => to_stop
      | _ => Finish false
      end
  | 12 (* SUSPEND_RESTART *) =>
      match e with
      | WLAN_VDEV_SM_EV_SUSPEND_RESTART => call DisconnectPeers Handled
      | WLAN_VDEV_SM_EV_DISCONNECT_COMPLETE => to_restart
      | WLAN_VDEV_SM_EV_DOWN => Goto WLAN_VDEV_SS_SUSPEND_SUSPEND_DOWN Handled
      | WLAN_VDEV_SM_EV_RADAR_DETECTED => suspend_for_csa
      | _ => Finish false
      end
  | 13 (* HOST_RESTART *) =>
      match e with
      | WLAN_VDEV_SM_EV_HOST_RESTART => call DisconnectPeers Handled
      | WLAN_VDEV_SM_EV_DISCONNECT_COMPLETE => back_up
      | WLAN_VDEV_SM_EV_DOWN => Goto WLAN_VDEV_SS_SUSPEND_SUSPEND_DOWN Handled
      | WLAN_VDEV_SM_EV_RADAR_DETECTED => suspend_for_csa
      | _ => Finish false
      end
  | 14 (* CSA_RESTART *) =>
      match e with
      | WLAN_VDEV_SM_EV_CHAN_SWITCH_DISABLED => back_up
      | WLAN_VDEV_SM_EV_CSA_RESTART => call (UpdateBeacon BEACON_CSA) Handled
      | WLAN_VDEV_SM_EV_CSA_COMPLETE => Call NewchanNoCac (fun ok : bool =>
          if ok then to_restart else disconnect WLAN_VDEV_SS_SUSPEND_SUSPEND_RESTART)
      | WLAN_VDEV_SM_EV_DOWN => disconnect WLAN_VDEV_SS_SUSPEND_SUSPEND_DOWN
      | WLAN_VDEV_SM_EV_RADAR_DETECTED => Handled
      | _ => Finish false
      end
  | 15 (* STOP_PROGRESS *) =>
      match e with
      | WLAN_VDEV_SM_EV_STOP_REQ => call StopSend Handled
      | WLAN_VDEV_SM_EV_STOP_RESP => call StopContinue Handled
      | WLAN_VDEV_SM_EV_MLME_DOWN_REQ | WLAN_VDEV_SM_EV_STOP_FAIL =>
          Goto WLAN_VDEV_SS_STOP_DOWN_PROGRESS (call DownSend Handled)
      | _ => Finish false
      end
  | 16 (* DOWN_PROGRESS *) =>
      match e with
      | WLAN_VDEV_SM_EV_DOWN => Handled
      | WLAN_VDEV_SM_EV_MLME_DOWN_REQ => call DownSend Handled
      | WLAN_VDEV_SM_EV_DOWN_COMPLETE | WLAN_VDEV_SM_EV_DOWN_FAIL => to_init
      | _ => Finish false
      end
  | _ => Finish false
  end.

(** An event number no state knows is not handled. *)
Definition react_event (mode : QDF_OPMODE) (s event : Z) : plan :=
  match evt_of event with Some e => react mode s e | None => Finish false end.

(** ** Running a plan *)

Section Run.
Context {E D : Type}.
Variable ops : option (vdev_mlme_ops E D).

Definition script_of {F} (field : vdev_mlme_ops E D -> option F) (f : F -> script E D)
  : script E D :=
  match ops with
  | Some o => match field o with Some g => f g | None => Done QDF_STATUS_SUCCESS end
  | None => Done QDF_STATUS_SUCCESS
  end.

Definition op_script (c : op_call) (len : Z) (d : D) : script E D :=
  match c with
  | ValidateParams => script_of op_validate_basic_params (fun f => f len d)
  | StartSend => script_of op_start_send (fun f => f len d)
  | RestartSend => script_of op_restart_send (fun f => f len d)
  | StopStartSend t => script_of op_stop_start_send (fun f => f t len d)
  | StartContinue => script_of op_start_continue (fun f => f len d)
  | StaConnStart => script_of op_sta_conn_start (fun f => f len d)
  | StartReqFailed => script_of op_start_req_failed (fun f => f len d)
  | UpSend => script_of op_up_send (fun f => f len d)
  | NotifyUp => script_of op_notify_up_complete (fun f => f len d)
  | NotifyRoam => script_of op_notify_roam_start (fun f => f len d)
  | UpdateBeacon b => script_of op_update_beacon (fun f => f b len d)
  | DisconnectPeers => script_of op_disconnect_peers (fun f => f len d)
  | CacTimerStop => script_of op_dfs_cac_timer_stop (fun f => f len d)
  | StopSend => script_of op_stop_send (fun f => f len d)
  | StopContinue => script_of op_stop_continue (fun f => f len d)
  | DownSend => script_of op_down_send (fun f => f len d)
  | NotifyDown => script_of op_notify_down_complete (fun f => f len d)
  | NotifyStartExit => script_of op_notify_start_state_exit id
  | NewchanNoCac => script_of op_is_newchan_no_cac id
  end.

(** No callback delivers an event to the machine. *)
Definition all_quiet : Prop := forall c len d, quiet (op_script c len d).

(** A callback that delivers nothing computes a status and the driver's state. *)
Fixpoint eval_script (s : script E D) (c : vdev_ctx E) : QDF_STATUS * E :=
  match s with
  | Done st => (st, ext c)
  | Look k => eval_script (k c) c
  | SetExt e k =>
      eval_script k (VdevCtx (mlme_state c) (mlme_substate c) (vdev_opmode c) e)
  | Deliver _ _ _ _ => (QDF_STATUS_E_FAILURE, ext c)
  end.

Definition set_ext (e : E) (c : vdev_ctx E) : vdev_ctx E :=
  VdevCtx (mlme_state c) (mlme_substate c) (vdev_opmode c) e.
Definition set_pos (s : Z) (c : vdev_ctx E) : vdev_ctx E :=
  VdevCtx (top_of s) (substate_of s) (vdev_opmode c) (ext c).

(** The abstract machine: its state, the VDEV, the assertions raised. *)
Record vdev_abs : Type := VdevAbs {
  a_state : Z;
  a_ctx : vdev_ctx E;
  a_bugs : list string;
}.

Fixpoint run_plan (p : plan) (len : Z) (d : D) (a : vdev_abs) : bool * vdev_abs :=
  match p with
  | Finish h => (h, a)
  | Call c k =>
      let '(st, e) := eval_script (op_script c len d) (a_ctx a) in
      run_plan (k (QDF_IS_STATUS_SUCCESS st)) len d
        (VdevAbs (a_state a) (set_ext e (a_ctx a)) (a_bugs a))
  | Goto s p =>
      run_plan p len d (VdevAbs (rest_of s) (set_pos (rest_of s) (a_ctx a)) (a_bugs a))
  | Bug site p => run_plan p len d (VdevAbs (a_state a) (a_ctx a) (a_bugs a ++ [site]))
  end.

Definition abs_deliver (event len : Z) (d : D) (a : vdev_abs) : bool * vdev_abs :=
  run_plan (react_event (vdev_opmode (a_ctx a)) (a_state a) event) len d a.

End Run.
Arguments vdev_abs E : clear implicits.

(** * The machine implements the table *)

Section Sim.
Context {E D : Type}.
Abbreviation W := (world (vdev_ctx E)).
Implicit Types w : W.
Variable ops : option (vdev_mlme_ops E D).
Hypothesis Hquiet : all_quiet ops.
Variables (len : Z) (d : D).

Definition abs_of (sm : wlan_sm) (w : W) : vdev_abs E :=
  VdevAbs (cur_state sm) (w_ctx w) (w_bugs w).

Lemma quiet_guards : guards_quiet ops.
Proof.
  pose proof Hquiet as H. unfold all_quiet, op_script, script_of in H. destruct ops as [o|].
  2: by constructor.
  constructor; cbn [quiet_op].
  - intros l x. specialize (H ValidateParams l x). by destruct (op_validate_basic_params o).
  - intros l x. specialize (H StartReqFailed l x). by destruct (op_start_req_failed o).
  - intros l x. specialize (H CacTimerStop l x). by destruct (op_dfs_cac_timer_stop o).
  - specialize (H NewchanNoCac len d). by destruct (op_is_newchan_no_cac o).
Qed.

Lemma run_script_eval (calls : sm_calls (vdev_ctx E) D) s w :
  quiet s ->
  run_script calls s w =
    let '(st, e) := eval_script s (w_ctx w) in Ret st (with_ctx (set_ext e) w).
Proof.
  revert w. induction s as [st|k IH|e k IH|ev l x k IH]; intros w Hq; cbn [run_script eval_script].
  - by destruct w as [h b [ms mss om e]].
  - unfold mbind, M_bind, gets. by apply IH.
  - unfold mbind, M_bind, put_ext, modify. rewrite IH by done.
    change (w_ctx (with_ctx (fun c => VdevCtx (mlme_state c) (mlme_substate c) (vdev_opmode c) e) w))
      with (VdevCtx (mlme_state (w_ctx w)) (mlme_substate (w_ctx w)) (vdev_opmode (w_ctx w)) e).
    by destruct (eval_script k _).
  - done.
Qed.

(** A run of [m] from state [s] does what the plan says, and keeps the invariant. *)
Definition run_ok (s : Z) (mode : QDF_OPMODE) {A} (m : M W A) (p : plan)
    (ret : bool -> A -> Prop) : Prop :=
  forall w sm, vdev_inv w sm -> in_state_transition sm = 0 -> cur_state sm = s ->
    vdev_opmode (w_ctx w) = mode ->
  exists a w' sm' h, m w = Ret a w' /\ vdev_inv w' sm' /\ in_state_transition sm' = 0 /\
    vdev_opmode (w_ctx w') = mode /\
    run_plan ops p len d (abs_of sm w) = (h, abs_of sm' w') /\ ret h a.

Definition sim s mode (m : M W bool) (p : plan) : Prop := run_ok s mode m p eq.

Lemma sim_finish s mode h : sim s mode (mret h) (Finish h).
Proof. intros w sm Hi Hf Hs Hmode. by exists h, w, sm, h. Qed.

Lemma sim_bug s mode site (m : M W bool) p :
  benign site -> sim s mode m p -> sim s mode (qdf_bug site;; m) (Bug site p).
Proof.
  intros Hsite Hm w sm Hi Hf Hs Hmode. unfold mbind, M_bind, qdf_bug, modify.
  by apply (Hm _ sm (inv_bug _ _ _ Hi Hsite)).
Qed.

(** A callback, and what follows its status. *)
Lemma run_ok_call {A} s mode (calls : sm_calls (vdev_ctx E) D) c (k : QDF_STATUS -> M W A) kp ret :
  (forall st, run_ok s mode (k st) (kp (QDF_IS_STATUS_SUCCESS st)) ret) ->
  run_ok s mode (st ← run_script calls (op_script ops c len d); k st) (Call c kp) ret.
Proof.
  intros Hk w sm Hi Hf Hs Hmode. unfold mbind, M_bind. rewrite run_script_eval by apply Hquiet.
  cbn [run_plan abs_of a_ctx a_state a_bugs].
  destruct (eval_script (op_script ops c len d) (w_ctx w)) as [st e].
  apply (Hk st (with_ctx (set_ext e) w) sm); [|done..].
  eapply frame_inv; [exact Hi|]. by repeat split.
Qed.

Lemma call_op_script {F} (calls : sm_calls (vdev_ctx E) D) (field : vdev_mlme_ops E D -> option F) f :
  call_op calls ops field f = run_script calls (script_of ops field f).
Proof. unfold call_op, script_of. destruct ops as [o|]; [|done]. by destruct (field o). Qed.

(** The exit and entry callbacks, exactly. *)
Lemma exits_exact calls s w :
  In s live_states -> s <> WLAN_VDEV_SS_START_CONN_PROGRESS ->
  run_exits chain_fuel (sm_info calls ops) s w = Ret () w.
Proof. intros Hl Hs. repeat (destruct Hl as [<-|Hl]; [done|]). done. Qed.

Lemma exits_conn_exact calls w :
  run_exits chain_fuel (sm_info calls ops) WLAN_VDEV_SS_START_CONN_PROGRESS w =
    (_ ← run_script calls (op_script ops NotifyStartExit len d); mret ()) w.
Proof.
  change (run_exits chain_fuel (sm_info calls ops) WLAN_VDEV_SS_START_CONN_PROGRESS w)
    with ((_ ← (_ ← call_op calls ops op_notify_start_state_exit id; mret ());
           run_exits 256 (sm_info calls ops) WLAN_VDEV_S_START) w).
  rewrite call_op_script. cbn [op_script]. unfold mbind, M_bind.
  by destruct (run_script calls _ w).
Qed.

Lemma entries_exact calls t w sm :
  enterable t -> t < 6 \/ mlme_state (w_ctx w) = top_of t -> w_sm w = SmLive sm ->
  run_entries chain_fuel (sm_info calls ops) t w =
    Ret () (World (SmLive (set_cur_state (rest_of t) sm)) (w_bugs w)
              (set_pos (rest_of t) (w_ctx w))).
Proof.
  intros Ht Hpar Hw. destruct w as [h b [ms mss om e]]. cbn in Hw, Hpar. subst h.
  repeat (destruct Ht as [<-|Ht]; [try (destruct Hpar as [Hpar| ->]; [lia|]); reflexivity|]).
  done.
Qed.

(** A transition along an edge, from a state that notifies nobody, and from
    CONN_PROGRESS, which does. *)
Lemma transition_exact n t w sm :
  vdev_inv w sm -> in_state_transition sm = 0 -> vdev_edge (cur_state sm) t ->
  exists w' sm',
    transition_to (vdev_engine ops (S n)) t w = Ret () w' /\
    vdev_inv w' sm' /\ in_state_transition sm' = 0 /\ cur_state sm' = rest_of t /\
    w_bugs w' = w_bugs w /\
    w_ctx w' = set_pos (rest_of t)
      (if cur_state sm =? WLAN_VDEV_SS_START_CONN_PROGRESS
       then set_ext (snd (eval_script (op_script ops NotifyStartExit len d) (w_ctx w))) (w_ctx w)
       else w_ctx w).
Proof.
  intros Hi Hf He. pose proof Hi as (Hw & Hm & Hl & [Hs _] & Hb).
  destruct (edge_enterable _ _ Hl He) as [Ht Htop].
  set (tbl := sm_info (vdev_engine ops n) ops).
  set (sm1 := wlan_sm_save_history (set_in_state_transition 1 sm) SM_EVENT_STATE_TRANSITION
                (cur_state sm) t 255).
  set (c := if cur_state sm =? WLAN_VDEV_SS_START_CONN_PROGRESS then _ else _).
  assert (run_exits chain_fuel tbl (cur_state sm) (set_sm sm1 w) =
    Ret () (World (SmLive sm1) (w_bugs w) c)) as Hexit.
  { subst c. destruct (Z.eqb_spec (cur_state sm) WLAN_VDEV_SS_START_CONN_PROGRESS) as [Heq|Hne].
    - rewrite Heq. unfold tbl. rewrite exits_conn_exact. unfold mbind, M_bind.
      rewrite run_script_eval by apply Hquiet. cbn [w_ctx set_sm].
      by destruct (eval_script _ (w_ctx w)).
    - by apply exits_exact. }
  assert (transition_to (vdev_engine ops (S n)) t w =
    Ret () (World (SmLive (set_in_state_transition 0 (set_cur_state (rest_of t) sm1)))
      (w_bugs w) (set_pos (rest_of t) c))) as Hrun.
  { change (transition_to (vdev_engine ops (S n)) t w) with (wlan_sm_transition_to tbl t w).
    unfold tbl. rewrite (transition_unfold _ ops t w sm Hi Hf He). fold tbl. fold sm1.
    unfold mbind, M_bind. unfold put_sm at 1, modify. rewrite Hexit.
    unfold tbl. rewrite (entries_exact _ t _ sm1); [done|done| |done].
    destruct Htop as [?|Htop]; [by left|]. right. rewrite Htop, <- Hs. cbn [w_ctx]. subst c.
    by destruct (cur_state sm =? WLAN_VDEV_SS_START_CONN_PROGRESS). }
  pose proof (co_transition _ (engine_ok ops (S n) quiet_guards) t w sm Hi He) as Hwp.
  unfold wp in Hwp. rewrite Hrun in Hwp. destruct Hwp as (sm' & Hi' & Hf' & _).
  pose proof Hi' as ([= <-] & _). eexists _, _. split; [exact Hrun|]. by split.
Qed.

Lemma set_pos_opmode s (c : vdev_ctx E) : vdev_opmode (set_pos s c) = vdev_opmode c.
Proof. done. Qed.

Lemma sim_goto n s t mode (m : M W bool) p :
  vdev_edge s (wrap 8 t) -> wrap 8 t = t -> s <> WLAN_VDEV_SS_START_CONN_PROGRESS ->
  sim (rest_of t) mode m p ->
  sim s mode (mlme_vdev_sm_transition_to (vdev_engine ops (S n)) t;; m) (Goto t p).
Proof.
  intros He Ht Hne Hm w sm Hi Hf Hs Hmode. subst s.
  unfold mlme_vdev_sm_transition_to. rewrite Ht in *.
  destruct (transition_exact n t w sm Hi Hf He) as (w' & sm' & Hrun & Hi' & Hf' & Hc & Hb & Hx).
  rewrite (proj2 (Z.eqb_neq _ _) Hne) in Hx.
  unfold mbind, M_bind. rewrite Hrun. cbn [run_plan abs_of a_ctx a_state a_bugs].
  destruct (Hm w' sm' Hi' Hf' Hc) as (a & w2 & sm2 & h & H); [by rewrite Hx, set_pos_opmode|].
  exists a, w2, sm2, h. unfold abs_of in H. by rewrite Hc, Hx, Hb in H.
Qed.

Lemma sim_goto_conn n t mode (m : M W bool) p :
  vdev_edge WLAN_VDEV_SS_START_CONN_PROGRESS (wrap 8 t) -> wrap 8 t = t ->
  sim (rest_of t) mode m p ->
  sim WLAN_VDEV_SS_START_CONN_PROGRESS mode
    (mlme_vdev_sm_transition_to (vdev_engine ops (S n)) t;; m)
    (call NotifyStartExit (Goto t p)).
Proof.
  intros He Ht Hm w sm Hi Hf Hs Hmode.
  unfold mlme_vdev_sm_transition_to. rewrite Ht in *. rewrite <- Hs in He.
  destruct (transition_exact n t w sm Hi Hf He) as (w' & sm' & Hrun & Hi' & Hf' & Hc & Hb & Hx).
  rewrite Hs, Z.eqb_refl in Hx.
  unfold mbind, M_bind. rewrite Hrun. cbn [call run_plan abs_of a_ctx a_state a_bugs].
  destruct (eval_script (op_script ops NotifyStartExit len d) (w_ctx w)) as [st e].
  destruct (Hm w' sm' Hi' Hf' Hc) as (a & w2 & sm2 & h & H); [by rewrite Hx|].
  exists a, w2, sm2, h. unfold abs_of in H. by rewrite Hc, Hx, Hb in H.
Qed.

(** The status of a dispatch. *)
Definition dispatched (h : bool) (st : QDF_STATUS) : Prop :=
  st = if h then QDF_STATUS_SUCCESS else QDF_STATUS_E_INVAL.

Lemma dispatch_exact n s mode event info hdl p :
  In s live_states -> event <> WLAN_SM_ENGINE_EVENT_NONE ->
  sm_info (vdev_engine ops n) ops !! Z.to_nat s = Some info ->
  wlan_sm_event info = Some hdl ->
  sim s mode (hdl event len d) p ->
  run_ok s mode (dispatch (vdev_engine ops (S n)) event len d) p dispatched.
Proof.
  intros Hl Hev Hinfo Hhdl Hsim w sm Hi Hf Hs Hmode.
  pose proof Hi as (Hw & Hm & _ & Hsync & Hb).
  set (tbl := sm_info (vdev_engine ops n) ops) in *.
  change (dispatch (vdev_engine ops (S n)) event len d) with (wlan_sm_dispatch tbl event len d).
  unfold wlan_sm_dispatch. unfold mbind at 1, M_bind at 1, get_sm at 1. rewrite Hw.
  rewrite (proj2 (Z.eqb_neq _ _) Hev).
  set (sm1 := wlan_sm_save_history _ _ _ _ _).
  assert (vdev_inv (set_sm sm1 w) sm1) as Hi1.
  { split; [done|]. split; [by apply machine_ok_event|]. split; [by rewrite <- Hs in Hl|]. by split. }
  assert (exists nm, event_name sm1 event (set_sm sm1 w) = Ret nm (set_sm sm1 w)) as [nm Hnm].
  { pose proof (event_name_keeps sm1 event (set_sm sm1 w) (fun _ w' => w' = set_sm sm1 w)
      (proj1 (proj2 Hi1)) (fun _ => eq_refl)) as Hwp. unfold wp in Hwp.
    destruct Hm as [_ Hn _ _ _]. unfold event_name in *. cbn in *. rewrite Hn in *.
    destruct (event <? num_event_names sm); [|by eexists].
    destruct (vdev_sm_event_names !! Z.to_nat event); [by eexists|done]. }
  unfold mbind, M_bind. cbn [put_sm modify]. rewrite Hnm, Hs. unfold info_at.
  rewrite Hinfo. cbn [deref mret M_ret].
  assert (In s live_states -> (s =? WLAN_SM_ENGINE_STATE_NONE) = false) as Hnn.
  { intros Hls. apply Z.eqb_neq. intros ->. vm_compute in Hls. intuition discriminate. }
  rewrite Hnn by done. cbn [negb]. rewrite Hhdl. cbn [deref mret M_ret].
  destruct (Hsim (set_sm sm1 w) sm1 Hi1 Hf Hs Hmode) as (a & w2 & sm2 & h & Hrun & Hi2 & Hf2 & Hm2 & Hp & <-).
  rewrite Hrun. destruct h; cbn [negb].
  - by exists QDF_STATUS_SUCCESS, w2, sm2, true.
  - pose proof Hi2 as (Hw2 & _ & Hl2 & _). unfold deref_sm, get_sm, mbind, M_bind.
    rewrite Hw2. cbn [deref mret M_ret].
    destruct (live_handler (vdev_engine ops n) ops (engine_ok ops n quiet_guards) quiet_guards
                (cur_state sm2) Hl2) as (r & _ & Hr & _).
    fold tbl in Hr. rewrite Hr. cbn [deref mret M_ret].
    by exists QDF_STATUS_E_INVAL, w2, sm2, false.
Qed.

(** The plan of an event delivered from inside a handler that then reports
    success. *)
Fixpoint handled (p : plan) : plan :=
  match p with
  | Finish _ => Handled
  | Call c k => Call c (fun ok => handled (k ok))
  | Goto s p => Goto s (handled p)
  | Bug site p => Bug site (handled p)
  end.

Lemma run_plan_handled p (a : vdev_abs E) :
  run_plan ops (handled p) len d a = (true, snd (run_plan ops p len d a)).
Proof.
  revert a. induction p as [h|c k IH|s p IH|site p IH]; intros a; cbn; try done.
  by destruct (eval_script _ _).
Qed.

(** Plans that run alike. *)
Definition plan_equiv (p q : plan) : Prop :=
  forall a : vdev_abs E, run_plan ops p len d a = run_plan ops q len d a.

Lemma sim_deliver n s mode e p q :
  run_ok s mode (dispatch (vdev_engine ops n) (evt_code e) len d) p dispatched ->
  plan_equiv (handled p) q ->
  sim s mode (_ ← mlme_vdev_sm_deliver_event (vdev_engine ops n) (evt_code e) len d; mret true) q.
Proof.
  intros Hok Heq w sm Hi Hf Hs Hmode. unfold mlme_vdev_sm_deliver_event.
  rewrite wrap_small by (pose proof (evt_code_range e); int_bounds; lia).
  destruct (Hok w sm Hi Hf Hs Hmode) as (a & w2 & sm2 & h & Hrun & Hi2 & Hf2 & Hm2 & Hp & _).
  unfold mbind, M_bind. rewrite Hrun. exists true, w2, sm2, true.
  do 4 (split; [done|]). split; [|done]. by rewrite <- Heq, run_plan_handled, Hp.
Qed.

(** How deep the handlers nest, by state and event. *)
Definition rank (s : Z) (e : wlan_vdev_sm_evt) : nat :=
  match s, e with
  | 0, WLAN_VDEV_SM_EV_START => 4%nat
  | 0, _ => 2%nat
  | 1, _ => 3%nat
  | 2, WLAN_VDEV_SM_EV_DFS_CAC_WAIT => 2%nat
  | 2, _ => 6%nat
  | 3, WLAN_VDEV_SM_EV_START_SUCCESS => 5%nat
  | 3, WLAN_VDEV_SM_EV_UP_HOST_RESTART => 2%nat
  | 3, _ => 4%nat
  | 4, _ => 3%nat
  | 7, WLAN_VDEV_SM_EV_START_REQ => 2%nat
  | 7, _ => 6%nat
  | 8, WLAN_VDEV_SM_EV_RESTART_REQ => 2%nat
  | 8, WLAN_VDEV_SM_EV_RADAR_DETECTED => 2%nat
  | 8, _ => 6%nat
  | 9, WLAN_VDEV_SM_EV_STA_CONN_START => 2%nat
  | 9, WLAN_VDEV_SM_EV_CONNECTION_FAIL => 4%nat
  | 9, WLAN_VDEV_SM_EV_CONN_PROGRESS => 5%nat
  | 9, _ => 6%nat
  | 10, WLAN_VDEV_SM_EV_DOWN => 2%nat
  | 10, WLAN_VDEV_SM_EV_CONNECTION_FAIL => 3%nat
  | 10, _ => 4%nat
  | 11, WLAN_VDEV_SM_EV_DOWN => 2%nat
  | 11, WLAN_VDEV_SM_EV_RESTART_REQ_FAIL => 2%nat
  | 12, WLAN_VDEV_SM_EV_SUSPEND_RESTART => 2%nat
  | 13, WLAN_VDEV_SM_EV_HOST_RESTART => 2%nat
  | 14, WLAN_VDEV_SM_EV_CSA_RESTART => 2%nat
  | 15, WLAN_VDEV_SM_EV_STOP_REQ => 2%nat
  | 16, WLAN_VDEV_SM_EV_MLME_DOWN_REQ => 2%nat
  | _, _ => 4%nat
  end.

Lemma sim_mode s mode (k : QDF_OPMODE -> M W bool) p :
  sim s mode (k mode) p -> sim s mode (m ← wlan_vdev_mlme_get_opmode; k m) p.
Proof.
  intros Hk w sm Hi Hf Hs Hm. destruct (Hk w sm Hi Hf Hs Hm) as (a & w' & sm' & h & Hrun & H).
  exists a, w', sm', h. split; [|done]. unfold mbind, M_bind, wlan_vdev_mlme_get_opmode, gets.
  by rewrite Hm.
Qed.

Lemma sim_call {F} s mode calls (field : vdev_mlme_ops E D -> option F) f c
    (k : QDF_STATUS -> M W bool) kp :
  script_of ops field f = op_script ops c len d ->
  (forall st, sim s mode (k st) (kp (QDF_IS_STATUS_SUCCESS st))) ->
  sim s mode (st ← call_op calls ops field f; k st) (Call c kp).
Proof. intros Hc Hk. rewrite call_op_script, Hc. by apply run_ok_call. Qed.

Lemma sim_ext s mode (m m' : M W bool) p :
  (forall w, m w = m' w) -> sim s mode m' p -> sim s mode m p.
Proof. intros Heq Hm w sm Hi Hf Hs Hmode. rewrite Heq. by apply Hm. Qed.

Lemma sim_bug_if_sta s mode (m : M W bool) p :
  sim s mode m p -> sim s mode (bug_if_sta mode;; m) (bug_if (is_sta mode) "STA mode" p).
Proof. intros Hm. destruct mode; try done. apply sim_bug; [vm_compute; tauto|done]. Qed.

Lemma sim_bug_unless_sta s mode (m : M W bool) p :
  sim s mode m p ->
  sim s mode (bug_unless_sta mode;; m) (bug_if (negb (is_sta mode)) "not STA mode" p).
Proof.
  intros Hm. destruct mode; try (apply sim_bug; [vm_compute; tauto|done]). done.
Qed.

(** Plans that differ only in where a case distinction stands. *)
Ltac plan_tac :=
  intros a; first
  [ reflexivity
  | cbn; unfold bug_if; destruct (is_sta _); reflexivity
  | cbn; repeat (destruct (eval_script _ _)); cbn;
    destruct (QDF_IS_STATUS_SUCCESS _); cbn;
    repeat (destruct (eval_script _ _)); cbn;
    repeat (destruct (QDF_IS_STATUS_SUCCESS _)); cbn; reflexivity ].

(** One step of the proof that a handler follows its plan. *)
Ltac sim_deliver_step IH :=
  lazymatch goal with
  | |- sim ?s ?mode (_ ← mlme_vdev_sm_deliver_event _ (evt_code ?e) _ _; mret true) _ =>
      let s' := eval vm_compute in s in change s with s';
      apply (sim_deliver _ s' _ e (react mode s' e));
      [apply IH; [vm_compute; tauto|cbn [rank] in *; lia]|plan_tac]
  end.
Ltac sim_step IH :=
  lazymatch goal with
  | |- sim _ _ (mret _) _ => apply sim_finish
  | |- sim _ _ (_ ← qdf_bug _; _) _ => apply sim_bug; [vm_compute; tauto|]
  | |- sim WLAN_VDEV_SS_START_CONN_PROGRESS _ (mlme_vdev_sm_transition_to _ _;; _) _ =>
      apply sim_goto_conn; [vm_compute; tauto|reflexivity|]
  | |- sim 9 _ (mlme_vdev_sm_transition_to _ _;; _) _ =>
      apply sim_goto_conn; [vm_compute; tauto|reflexivity|]
  | |- sim _ _ (mlme_vdev_sm_transition_to _ _;; _) _ =>
      apply sim_goto; [vm_compute; tauto|reflexivity|done|]
  | |- sim _ _ (_ ← mlme_vdev_sm_deliver_event _ _ _ _; mret true) _ => sim_deliver_step IH
  | |- sim _ _ (_ ← wlan_vdev_mlme_get_opmode; _) _ => apply sim_mode
  | |- sim _ _ (bug_if_sta _;; _) _ => apply sim_bug_if_sta
  | |- sim _ _ (bug_unless_sta _;; _) _ => apply sim_bug_unless_sta
  | |- sim _ _ (if QDF_IS_STATUS_SUCCESS ?st then _ else _) _ =>
      destruct (QDF_IS_STATUS_SUCCESS st)
  | |- sim _ _ (_ ← call_op _ _ _ _; _) _ =>
      unfold call; eapply sim_call; [reflexivity|]; let st := fresh "st" in intros st; cbv beta
  | |- sim _ _ (move_and_deliver _ _ _ _ _) _ => unfold move_and_deliver
  end.

Ltac sim_handler IH e :=
  rewrite evt_of_code; vdev_ops; destruct e; cbn [react]; repeat sim_step IH.

Lemma react_ok n s mode e :
  In s live_states -> (rank s e <= n)%nat ->
  run_ok s mode (dispatch (vdev_engine ops n) (evt_code e) len d) (react mode s e) dispatched.
Proof.
  revert s mode e. induction n as [|n IH]; intros s mode e Hl Hrank.
  { exfalso. repeat (destruct Hl as [<-|Hl]; [destruct e; vm_compute in Hrank; lia|]). done. }
  destruct n as [|n].
  { exfalso. repeat (destruct Hl as [<-|Hl]; [destruct e; vm_compute in Hrank; lia|]). done. }
  assert (evt_code e <> WLAN_SM_ENGINE_EVENT_NONE) as Hev.
  { pose proof (evt_code_range e). unfold WLAN_SM_ENGINE_EVENT_NONE. lia. }
  assert (forall info hdl, sm_info (vdev_engine ops (S n)) ops !! Z.to_nat s = Some info ->
    wlan_sm_event info = Some hdl -> sim s mode (hdl (evt_code e) len d) (react mode s e) ->
    run_ok s mode (dispatch (vdev_engine ops (S (S n))) (evt_code e) len d) (react mode s e) dispatched)
    as Hred by (intros; by eapply dispatch_exact).
  repeat (destruct Hl as [<-|Hl]; [eapply Hred; [reflexivity|reflexivity|]; clear Hred Hev|]);
    [..|done].
  - unfold mlme_vdev_state_init_event. sim_handler IH e.
    destruct mode; apply sim_finish.
  - unfold mlme_vdev_state_start_event. sim_handler IH e.
  - unfold mlme_vdev_state_dfs_cac_wait_event. sim_handler IH e.
    destruct mode; repeat sim_step IH.
  - unfold mlme_vdev_state_up_event. sim_handler IH e.
    destruct (QDF_IS_STATUS_SUCCESS _); cbn [negb]; repeat sim_step IH.
  - unfold mlme_vdev_state_suspend_event. sim_handler IH e.
  - unfold mlme_vdev_subst_start_start_progress_event. sim_handler IH e.
  - unfold mlme_vdev_subst_start_restart_progress_event. sim_handler IH e.
  - unfold mlme_vdev_subst_start_conn_progress_event. sim_handler IH e.
    destruct (QDF_IS_STATUS_SUCCESS _); cbn [negb]; [apply sim_finish|].
    apply (sim_ext _ _ _ (_ ← mlme_vdev_sm_deliver_event (vdev_engine ops (S n))
      (evt_code WLAN_VDEV_SM_EV_CONNECTION_FAIL) len d; mret true)); [|sim_step IH].
    intros w. unfold mbind, M_bind. by destruct (mlme_vdev_sm_deliver_event _ _ _ _ w).
  - unfold mlme_vdev_subst_start_disconn_progress_event. sim_handler IH e.
  - unfold mlme_vdev_subst_suspend_suspend_down_event. sim_handler IH e.
  - unfold mlme_vdev_subst_suspend_suspend_restart_event. sim_handler IH e.
  - unfold mlme_vdev_subst_suspend_host_restart_event. sim_handler IH e.
  - unfold mlme_vdev_subst_suspend_csa_restart_event. sim_handler IH e.
  - unfold mlme_vdev_subst_stop_stop_progress_event. sim_handler IH e.
  - unfold mlme_vdev_subst_stop_down_progress_event. sim_handler IH e.
Qed.
(** An event outside the enumeration is not handled. *)
Lemma react_unknown n s mode event :
  In s live_states -> event <> WLAN_SM_ENGINE_EVENT_NONE -> evt_of event = None ->
  run_ok s mode (dispatch (vdev_engine ops (S n)) event len d) (Finish false) dispatched.
Proof.
  intros Hl Hev Hnone.
  assert (forall info hdl, sm_info (vdev_engine ops n) ops !! Z.to_nat s = Some info ->
    wlan_sm_event info = Some hdl -> (forall w, hdl event len d w = Ret false w) ->
    run_ok s mode (dispatch (vdev_engine ops (S n)) event len d) (Finish false) dispatched)
    as Hred.
  { intros info hdl Hi Hh Hm. eapply dispatch_exact; [done..|].
    by apply (sim_ext _ _ _ (mret false)); [|apply sim_finish]. }
  repeat (destruct Hl as [<-|Hl]; [eapply Hred; [reflexivity|reflexivity|]|]); [..|done];
    intros w;
    unfold mlme_vdev_state_init_event, mlme_vdev_state_start_event,
      mlme_vdev_state_dfs_cac_wait_event, mlme_vdev_state_up_event,
      mlme_vdev_state_suspend_event, mlme_vdev_subst_start_start_progress_event,
      mlme_vdev_subst_start_restart_progress_event, mlme_vdev_subst_start_conn_progress_event,
      mlme_vdev_subst_start_disconn_progress_event, mlme_vdev_subst_suspend_suspend_down_event,
      mlme_vdev_subst_suspend_suspend_restart_event, mlme_vdev_subst_suspend_host_restart_event,
      mlme_vdev_subst_suspend_csa_restart_event, mlme_vdev_subst_stop_stop_progress_event,
      mlme_vdev_subst_stop_down_progress_event; rewrite Hnone; reflexivity.
Qed.

Lemma evt_of_some event e : evt_of event = Some e -> event = evt_code e.
Proof.
  unfold evt_of. destruct (Z.ltb_spec event 0); [done|]. intros Hl.
  pose proof (lookup_lt_Some _ _ _ Hl) as Hlt. cbn in Hlt.
  rewrite <- (Z2Nat.id event) by lia. revert Hl. generalize (Z.to_nat event). intros k Hl.
  do 31 (destruct k as [|k]; [injection Hl as <-; reflexivity|]). done.
Qed.

(** The deepest nesting is six calls. *)
Lemma rank_le s e : In s live_states -> (rank s e <= 6)%nat.
Proof. intros Hl. repeat (destruct Hl as [<-|Hl]; [destruct e; cbn; lia|]). done. Qed.

Lemma deliver_refines w sm fuel event :
  vdev_inv w sm -> in_state_transition sm = 0 -> (6 <= fuel)%nat ->
  0 <= event < 2 ^ 16 -> event <> WLAN_SM_ENGINE_EVENT_NONE ->
  exists w' sm' (h : bool),
    wlan_vdev_mlme_sm_deliver_evt_sync ops true fuel event len d w =
      Ret (if h then QDF_STATUS_SUCCESS else QDF_STATUS_E_INVAL) w' /\
    vdev_inv w' sm' /\ in_state_transition sm' = 0 /\
    abs_deliver ops event len d (abs_of sm w) = (h, abs_of sm' w').
Proof.
  intros Hi Hf Hfuel Hev Hnone. pose proof Hi as (_ & _ & Hl & _).
  unfold wlan_vdev_mlme_sm_deliver_evt_sync, with_cmpt_obj, mlme_vdev_sm_deliver_event.
  rewrite wrap_small by done.
  assert (run_ok (cur_state sm) (vdev_opmode (w_ctx w)) (dispatch (vdev_engine ops fuel) event len d)
    (react_event (vdev_opmode (w_ctx w)) (cur_state sm) event) dispatched) as Hok.
  { unfold react_event. destruct (evt_of event) as [e|] eqn:He.
    - apply evt_of_some in He as ->. apply react_ok; [done|].
      pose proof (rank_le (cur_state sm) e Hl). lia.
    - destruct fuel as [|fuel]; [lia|]. by apply react_unknown. }
  destruct (Hok w sm Hi Hf eq_refl eq_refl) as (a & w' & sm' & h & Hrun & Hi' & Hf' & _ & Hp & ->).
  exists w', sm', h. by rewrite Hrun.
Qed.

(** * Tearing a VDEV down *)

(** What brings the VDEV down from each state: a DOWN request, the answer to the
    request that was pending, the peers' disconnection, and the stop and down
    completions. *)
Definition teardown (s : Z) : list wlan_vdev_sm_evt :=
  let finish := [WLAN_VDEV_SM_EV_MLME_DOWN_REQ; WLAN_VDEV_SM_EV_DOWN_COMPLETE] in
  let disconnected := WLAN_VDEV_SM_EV_DISCONNECT_COMPLETE :: finish in
  match s with
  | 0 => []
  | 1 => WLAN_VDEV_SM_EV_START_REQ :: WLAN_VDEV_SM_EV_DOWN :: WLAN_VDEV_SM_EV_START_RESP :: finish
  | 2 => WLAN_VDEV_SM_EV_DOWN :: finish
  | 7 => WLAN_VDEV_SM_EV_DOWN :: WLAN_VDEV_SM_EV_START_RESP :: finish
  | 8 => WLAN_VDEV_SM_EV_DOWN :: WLAN_VDEV_SM_EV_RESTART_RESP :: disconnected
  | 9 => WLAN_VDEV_SM_EV_DOWN :: WLAN_VDEV_SM_EV_CONNECTION_FAIL :: finish
  | 10 => WLAN_VDEV_SM_EV_CONNECTION_FAIL :: finish
  | 11 => disconnected
  | 15 => finish
  | 16 => [WLAN_VDEV_SM_EV_DOWN_COMPLETE]
  | _ => WLAN_VDEV_SM_EV_DOWN :: disconnected
  end.

(** Delivering events one after the other; every one must be handled. *)
Fixpoint deliver_all (fuel : nat) (evs : list wlan_vdev_sm_evt) : M W bool :=
  match evs with
  | [] => mret true
  | e :: evs =>
      st ← wlan_vdev_mlme_sm_deliver_evt_sync ops true fuel (evt_code e) len d;
      if QDF_IS_STATUS_SUCCESS st then deliver_all fuel evs else mret false
  end.

Fixpoint abs_deliver_all (evs : list wlan_vdev_sm_evt) (a : vdev_abs E) : bool * vdev_abs E :=
  match evs with
  | [] => (true, a)
  | e :: evs =>
      let '(h, a) := abs_deliver ops (evt_code e) len d a in
      if h then abs_deliver_all evs a else (false, a)
  end.

Lemma deliver_all_refines fuel evs w sm :
  vdev_inv w sm -> in_state_transition sm = 0 -> (6 <= fuel)%nat ->
  exists w' sm' h, deliver_all fuel evs w = Ret h w' /\ vdev_inv w' sm' /\
    in_state_transition sm' = 0 /\ abs_deliver_all evs (abs_of sm w) = (h, abs_of sm' w').
Proof.
  intros Hi Hf Hfuel. revert w sm Hi Hf. induction evs as [|e evs IH]; intros w sm Hi Hf.
  { by exists w, sm, true. }
  pose proof (evt_code_range e) as He.
  destruct (deliver_refines w sm fuel (evt_code e) Hi Hf Hfuel) as (w1 & sm1 & h & Hrun & Hi1 & Hf1 & Ha);
    [int_bounds; lia|unfold WLAN_SM_ENGINE_EVENT_NONE; lia|].
  cbn [deliver_all abs_deliver_all]. unfold mbind, M_bind. rewrite Hrun, Ha. destruct h; cbn.
  - by apply IH.
  - by exists w1, sm1, false.
Qed.

(** On the abstract machine the teardown ends in INIT whatever the callbacks
    answer. *)
Lemma abs_teardown s (a : vdev_abs E) :
  In s live_states -> a_state a = s ->
  exists a', abs_deliver_all (teardown s) a = (true, a') /\ a_state a' = WLAN_VDEV_S_INIT.
Proof.
  intros Hl Ha. destruct a as [st c b]. cbn in Ha. subst st.
  repeat (destruct Hl as [<-|Hl]; [|]); [..|done];
    unfold teardown, abs_deliver_all, abs_deliver, react_event; rewrite ?evt_of_code;
    repeat (cbn; match goal with
      | |- context [eval_script ?s ?c] => destruct (eval_script s c)
      end); cbn; by eexists.
Qed.

End Sim.

(** * Theorems *)

(** C1 The state machine refines its table.  For callbacks that deliver no events
    themselves, delivering any event to a reachable VDEV returns (six nested calls
    suffice), with success exactly when the table handles the event, and leaves
    the machine's state, the VDEV, the driver's state and the raised assertions
    as running the table's plan does. *)
Theorem vdev_sm_refines {E D} (ops : option (vdev_mlme_ops E D)) w sm fuel event len d :
  all_quiet ops -> vdev_reachable ops w -> w_sm w = SmLive sm -> (6 <= fuel)%nat ->
  0 <= event < 2 ^ 16 -> event <> WLAN_SM_ENGINE_EVENT_NONE ->
  exists w' sm' (h : bool),
    wlan_vdev_mlme_sm_deliver_evt_sync ops true fuel event len d w =
      Ret (if h then QDF_STATUS_SUCCESS else QDF_STATUS_E_INVAL) w' /\
    w_sm w' = SmLive sm' /\
    abs_deliver ops event len d (abs_of sm w) = (h, abs_of sm' w').
Proof.
  intros Hq Hr Hw Hfuel Hev Hne.
  destruct (reachable_inv ops w (quiet_guards ops Hq len d) Hr) as (sm0 & Hi & Hf).
  pose proof Hi as (Hw0 & _). rewrite Hw in Hw0. injection Hw0 as <-.
  destruct (deliver_refines ops Hq len d w sm fuel event Hi Hf Hfuel Hev Hne)
    as (w' & sm' & h & Hrun & (Hw' & _) & _ & Ha).
  by exists w', sm', h.
Qed.

(** C30 A VDEV can always be brought down.  From any reachable point, whatever
    statuses the callbacks return, the events of [teardown] for the machine's
    state are all handled and leave the VDEV in INIT. *)
Theorem vdev_sm_teardown {E D} (ops : option (vdev_mlme_ops E D)) w sm fuel len d :
  all_quiet ops -> vdev_reachable ops w -> w_sm w = SmLive sm -> (6 <= fuel)%nat ->
  exists w', deliver_all ops len d fuel (teardown (cur_state sm)) w = Ret true w' /\
    mlme_state (w_ctx w') = WLAN_VDEV_S_INIT.
Proof.
  intros Hq Hr Hw Hfuel.
  destruct (reachable_inv ops w (quiet_guards ops Hq len d) Hr) as (sm0 & Hi & Hf).
  pose proof Hi as (Hw0 & _ & Hl & _). rewrite Hw in Hw0. injection Hw0 as <-.
  destruct (deliver_all_refines ops Hq len d fuel (teardown (cur_state sm)) w sm Hi Hf Hfuel)
    as (w' & sm' & h & Hrun & Hi' & _ & Ha).
  destruct (abs_teardown ops len d (cur_state sm) (abs_of sm w) Hl eq_refl) as (a' & Ha' & Hst).
  rewrite Ha' in Ha. injection Ha as <- ->. exists w'. split; [done|].
  destruct Hi' as (_ & _ & _ & [-> _] & _). cbn in Hst. by rewrite Hst.
Qed.

(** ** Witnesses: a driver that answers later and logs what it was asked. *)

Section Logging.

Definition log_call (c : op_call) : script (list op_call) unit :=
  Look (fun v => SetExt (ext v ++ [c]) (Done QDF_STATUS_SUCCESS)).

Definition logging_ops : vdev_mlme_ops (list op_call) unit := {|
  op_validate_basic_params := Some (fun _ _ => log_call ValidateParams);
  op_reset_proto_params := None;
  op_start_send := Some (fun _ _ => log_call StartSend);
  op_restart_send := Some (fun _ _ => log_call RestartSend);
  op_stop_start_send := Some (fun t _ _ => log_call (StopStartSend t));
  op_start_continue := Some (fun _ _ => log_call StartContinue);
  op_sta_conn_start := Some (fun _ _ => log_call StaConnStart);
  op_start_req_failed := Some (fun _ _ => log_call StartReqFailed);
  op_up_send := Some (fun _ _ => log_call UpSend);
  op_notify_up_complete := Some (fun _ _ => log_call NotifyUp);
  op_notify_roam_start := Some (fun _ _ => log_call NotifyRoam);
  op_update_beacon := Some (fun b _ _ => log_call (UpdateBeacon b));
  op_disconnect_peers := Some (fun _ _ => log_call DisconnectPeers);
  op_dfs_cac_timer_stop := Some (fun _ _ => log_call CacTimerStop);
  op_stop_send := Some (fun _ _ => log_call StopSend);
  op_stop_continue := Some (fun _ _ => log_call StopContinue);
  op_down_send := Some (fun _ _ => log_call DownSend);
  op_notify_down_complete := Some (fun _ _ => log_call NotifyDown);
  op_notify_start_state_exit := Some (log_call NotifyStartExit);
  op_is_newchan_no_cac := Some (log_call NewchanNoCac);
|}.

Lemma logging_quiet : all_quiet (Some logging_ops).
Proof. intros c len d. by destruct c. Qed.

Lemma deliver_all_reachable evs w w' h :
  vdev_reachable (Some logging_ops) w ->
  deliver_all (Some logging_ops) 0 tt 6 evs w = Ret h w' ->
  vdev_reachable (Some logging_ops) w'.
Proof.
  revert w. induction evs as [|e evs IH]; intros w Hr; [by intros [= _ <-]|].
  cbn [deliver_all]. unfold mbind, M_bind.
  destruct (wlan_vdev_mlme_sm_deliver_evt_sync _ _ _ _ _ _ w) as [st w1| |] eqn:Hd; [|done..].
  assert (vdev_reachable (Some logging_ops) w1) as Hr1 by by eapply reach_deliver.
  destruct (QDF_IS_STATUS_SUCCESS st); [by apply IH|]. by intros [= _ <-].
Qed.

(** The world after an access point was sent some events. *)
Definition logging_world (evs : list wlan_vdev_sm_evt) : option (world (vdev_ctx (list op_call))) :=
  match mlme_vdev_sm_create (Some logging_ops) true "0"
          (World SmNull [] (VdevCtx 0 0 QDF_SAP_MODE [])) with
  | Ret QDF_STATUS_SUCCESS w =>
      match deliver_all (Some logging_ops) 0 tt 6 evs w with Ret true w' => Some w' | _ => None end
  | _ => None
  end.

Lemma logging_reachable evs w :
  logging_world evs = Some w -> vdev_reachable (Some logging_ops) w.
Proof.
  unfold logging_world. destruct (mlme_vdev_sm_create _ _ _ _) as [[] w0| |] eqn:Hc; try done.
  destruct (deliver_all _ _ _ _ evs w0) as [[] w1| |] eqn:Hr; try done. intros [= <-].
  eapply deliver_all_reachable; [|exact Hr]. by eapply reach_create.
Qed.

(** The start response has arrived: the machine waits in CONN_PROGRESS. *)
Lemma logging_conn_exists :
  exists w sm, logging_world [WLAN_VDEV_SM_EV_START; WLAN_VDEV_SM_EV_START_RESP] = Some w /\
    w_sm w = SmLive sm /\ cur_state sm = WLAN_VDEV_SS_START_CONN_PROGRESS /\
    ext (w_ctx w) = [ValidateParams; StartSend; StartContinue] /\
    a_ctx (snd (abs_deliver (Some logging_ops) (evt_code WLAN_VDEV_SM_EV_START_SUCCESS) 0 tt
                  (abs_of sm w))) =
      VdevCtx WLAN_VDEV_S_UP WLAN_VDEV_SS_IDLE QDF_SAP_MODE
        [ValidateParams; StartSend; StartContinue; NotifyStartExit;
         UpdateBeacon BEACON_INIT; UpSend; NotifyUp].
Proof.
  destruct (logging_world [WLAN_VDEV_SM_EV_START; WLAN_VDEV_SM_EV_START_RESP]) as [w|] eqn:Hw;
    vm_compute in Hw; [|done].
  injection Hw as <-. eexists _, _. split; [done|]. split; [reflexivity|]. by vm_compute.
Qed.

End Logging.

Lemma vdev_sm_refines_witness :
  exists w w' sm', vdev_reachable (Some logging_ops) w /\
    wlan_vdev_mlme_sm_deliver_evt_sync (Some logging_ops) true 6
      (evt_code WLAN_VDEV_SM_EV_START_SUCCESS) 0 tt w = Ret QDF_STATUS_SUCCESS w' /\
    w_sm w' = SmLive sm' /\ mlme_state (w_ctx w') = WLAN_VDEV_S_UP /\
    ext (w_ctx w') = [ValidateParams; StartSend; StartContinue; NotifyStartExit;
                      UpdateBeacon BEACON_INIT; UpSend; NotifyUp].
Proof.
  destruct logging_conn_exists as (w & sm & Hw & Hsm & Hcur & _ & Hup).
  apply logging_reachable in Hw.
  destruct (vdev_sm_refines (Some logging_ops) w sm 6 (evt_code WLAN_VDEV_SM_EV_START_SUCCESS) 0 tt
    logging_quiet Hw Hsm) as (w' & sm' & h & Hrun & Hsm' & Ha);
    [lia|by vm_compute|by vm_compute|].
  exists w, w', sm'. rewrite Ha in Hup. cbn in Hup. rewrite Hup.
  assert (h = true) as ->.
  { apply (f_equal fst) in Ha. cbn [fst] in Ha. rewrite <- Ha.
    unfold abs_deliver, abs_of, a_state, react_event. rewrite Hcur, evt_of_code. reflexivity. }
  by split.
Defined.

Lemma vdev_sm_teardown_witness :
  exists w w', vdev_reachable (Some logging_ops) w /\
    deliver_all (Some logging_ops) 0 tt 6
      [WLAN_VDEV_SM_EV_DOWN; WLAN_VDEV_SM_EV_CONNECTION_FAIL;
       WLAN_VDEV_SM_EV_MLME_DOWN_REQ; WLAN_VDEV_SM_EV_DOWN_COMPLETE] w = Ret true w' /\
    mlme_state (w_ctx w') = WLAN_VDEV_S_INIT.
Proof.
  destruct logging_conn_exists as (w & sm & Hw & Hsm & Hcur & _).
  apply logging_reachable in Hw.
  destruct (vdev_sm_teardown (Some logging_ops) w sm 6 0 tt logging_quiet Hw Hsm) as (w' & Hrun & Hst);
    [lia|].
  rewrite Hcur in Hrun. by exists w, w'.
Defined.
