(* ===== verification/Cfg.v ===== *)
(** The configuration component (cfg/): the item handlers and their value rules,
    the reference-counted value stores, and their life from the dispatcher's start
    to its end.

    The items themselves ([CFG_ALL]) are declared outside the repository, so their
    table is a parameter.  [QDF_BUG] reports and continues; each one is followed by
    a guard, which is what is modelled. *)
From S2P Require Import Prelude QdfTypes QdfParse.
Import QdfTypes.Parse.
Import QdfParse.IniParse.

(** * Data *)

(** [enum cfg_fallback_behavior]; items of other types carry -1. *)
Definition CFG_VALUE_OR_CLAMP : Z := 0.
Definition CFG_VALUE_OR_DEFAULT : Z := 1.

(** The type tag that selects [cfg_<mtype>_item_handler]. *)
Inductive cfg_mtype : Type :=
  | INT | UINT | BOOL | STRING | MAC | IPV4 | IPV6.

(** What a field of [struct cfg_values] holds, by the type of the item. *)
Inductive cfg_val : Type :=
  | VInt (v : Z)               (* int32_t *)
  | VUint (v : Z)              (* uint32_t *)
  | VBool (v : bool)
  | VString (v : cstr)
  | VMac (v : list Z)
  | VIpv4 (v : list Z)
  | VIpv6 (v : list Z).

Record cfg_meta : Type := CfgMeta {
  name : cstr;
  field_offset : Z;
  item_handler : option cfg_mtype;
  min : Z;                     (* int32_t *)
  max : Z;                     (* int32_t *)
  fallback : Z;
}.

(** [struct cfg_values]: the fields by their offset. *)
Abbreviation cfg_values := (gmap Z cfg_val) (only parsing).

(** One item of [CFG_ALL]: its metadata and its default. *)
Record cfg_item : Type := CfgItem {
  item_meta : cfg_meta;
  item_default : cfg_val;
}.

(** * Item handlers *)

Definition __cfg_clamp (val min max : Z) : Z :=
  if val <? min then min else if max <? val then max else val.

Definition cfg_int_item_handler (values : cfg_values) (meta : cfg_meta) (str_value : cstr)
  : cfg_values :=
  let '(status, value) := qdf_int32_parse (Some str_value) 0 in
  if QDF_IS_STATUS_ERROR status then values
  else if max meta <? min meta then values
  else if (min meta <=? value) && (value <=? max meta) then
    <[field_offset meta := VInt value]> values
  else if fallback meta =? CFG_VALUE_OR_CLAMP then
    <[field_offset meta := VInt (__cfg_clamp value (min meta) (max meta))]> values
  else (* CFG_VALUE_OR_DEFAULT: store already contains default *) values.

Definition cfg_uint_item_handler (values : cfg_values) (meta : cfg_meta) (str_value : cstr)
  : cfg_values :=
  let min := wrap 32 (min meta) in
  let max := wrap 32 (max meta) in
  let '(status, value) := qdf_uint32_parse (Some str_value) 0 in
  if QDF_IS_STATUS_ERROR status then values
  else if max <? min then values
  else if (min <=? value) && (value <=? max) then
    <[field_offset meta := VUint value]> values
  else if fallback meta =? CFG_VALUE_OR_CLAMP then
    <[field_offset meta := VUint (__cfg_clamp value min max)]> values
  else values.

(** The parsers that write through [store_value] write on success only. *)
Definition cfg_bool_item_handler (values : cfg_values) (meta : cfg_meta) (str_value : cstr)
  : cfg_values :=
  match qdf_bool_parse (Some str_value) (Some false) with
  | (QDF_STATUS_SUCCESS, Some v) => <[field_offset meta := VBool v]> values
  | _ => values
  end.

(** [strnlen] and [strlcpy].  [max + 1] and [max - min + 1] are computed in [int]: the
    items' lengths are far from its limit. *)
Definition qdf_str_nlen (str : cstr) (limit : Z) : Z := Z.min (Z.of_nat (length str)) limit.
Definition qdf_str_lcopy (src : cstr) (dest_size : Z) : cstr :=
  take (Z.to_nat (dest_size - 1)) src.

Definition cfg_string_item_handler (values : cfg_values) (meta : cfg_meta) (str_value : cstr)
  : cfg_values :=
  if (min meta <? 0) || (max meta <? min meta) then values
  else
    (* ensure min length *)
    let len := qdf_str_nlen str_value (min meta) in
    if len <? min meta then values
    else
      (* check max length *)
      let len := len + qdf_str_nlen (drop (Z.to_nat (min meta)) str_value)
                         (max meta - min meta + 1) in
      if max meta <? len then values
      else <[field_offset meta := VString (qdf_str_lcopy str_value (max meta + 1))]> values.

Definition cfg_mac_item_handler (values : cfg_values) (meta : cfg_meta) (str_value : cstr)
  : cfg_values :=
  match qdf_mac_parse (Some str_value) (Some []) with
  | (QDF_STATUS_SUCCESS, Some v) => <[field_offset meta := VMac v]> values
  | _ => values
  end.

Definition cfg_ipv4_item_handler (values : cfg_values) (meta : cfg_meta) (str_value : cstr)
  : cfg_values :=
  match qdf_ipv4_parse (Some str_value) (Some []) with
  | (QDF_STATUS_SUCCESS, Some v) => <[field_offset meta := VIpv4 v]> values
  | _ => values
  end.

(** [uninit] is what the stack holds under the parser's local array. *)
Definition cfg_ipv6_item_handler (uninit : list Z) (values : cfg_values) (meta : cfg_meta)
    (str_value : cstr) : cfg_values :=
  match qdf_ipv6_parse uninit (Some str_value) (Some []) with
  | (QDF_STATUS_SUCCESS, Some v) => <[field_offset meta := VIpv6 v]> values
  | _ => values
  end.

(** * Value stores and the component's globals *)

(** [struct cfg_value_store]; its list node is its place in [stores_list].  [users]
    is an atomic counter: the invariant bounds it by one more than the number of
    psocs, so its width never matters. *)
Record cfg_value_store : Type := Store {
  path : cstr;
  users : Z;
  values : cfg_values;
}.

Definition set_users (n : Z) (s : cfg_value_store) : cfg_value_store :=
  Store (path s) n (values s).
Definition set_values (v : cfg_values) (s : cfg_value_store) : cfg_value_store :=
  Store (path s) (users s) v.

(** The memory of the component and its static variables.  Pointers are [nat]s;
    freed memory is absent from its heap, and [next] has never been handed out.
    [stores_list] is absent before [qdf_list_create] and after [qdf_list_destroy].
    [priv] is the slot of the component in each psoc. *)
Record cfg_world : Type := World {
  stores : gmap nat cfg_value_store;
  ctxs : gmap nat nat;                 (* struct cfg_psoc_ctx: its store *)
  next : nat;
  is_init : bool;                      (* __cfg_is_init *)
  global_store : option nat;           (* __cfg_global_store *)
  stores_list : option (list nat);     (* __cfg_stores_list *)
  priv : gmap nat nat;
}.

Definition with_stores m w :=
  World m (ctxs w) (next w) (is_init w) (global_store w) (stores_list w) (priv w).
Definition with_ctxs m w :=
  World (stores w) m (next w) (is_init w) (global_store w) (stores_list w) (priv w).
Definition with_next n w :=
  World (stores w) (ctxs w) n (is_init w) (global_store w) (stores_list w) (priv w).
Definition with_is_init b w :=
  World (stores w) (ctxs w) (next w) b (global_store w) (stores_list w) (priv w).
Definition with_global_store g w :=
  World (stores w) (ctxs w) (next w) (is_init w) g (stores_list w) (priv w).
Definition with_stores_list l w :=
  World (stores w) (ctxs w) (next w) (is_init w) (global_store w) l (priv w).
Definition with_priv m w :=
  World (stores w) (ctxs w) (next w) (is_init w) (global_store w) (stores_list w) m.

Definition cfg_boot : cfg_world := World ∅ ∅ 0 false None None ∅.

Abbreviation MC := (M cfg_world) (only parsing).

(** Accesses through a [struct cfg_value_store *] and a [struct cfg_psoc_ctx *]. *)
Definition read_store (p : nat) : MC cfg_value_store := w ← gets id; deref (stores w !! p).
Definition read_ctx (c : nat) : MC nat := w ← gets id; deref (ctxs w !! c).
Definition update_store (p : nat) (f : cfg_value_store -> cfg_value_store) : MC unit :=
  s ← read_store p; modify (fun w => with_stores (<[p := f s]> (stores w)) w).
Definition free_store (p : nat) : MC unit :=
  read_store p;; modify (fun w => with_stores (delete p (stores w)) w).
Definition free_ctx (c : nat) : MC unit :=
  read_ctx c;; modify (fun w => with_ctxs (delete c (ctxs w)) w).

(** A global that a guard has found non-NULL. *)
Definition read_global : MC nat := w ← gets id; deref (global_store w).

(** ** The list of stores (qdf_list.c) *)

(** A node leaves the list it is on; on a list that was never created, or on a
    node that is on no list, this is memory corruption. *)
Definition qdf_list_remove_node (p : nat) : MC QDF_STATUS :=
  w ← gets id; l ← deref (stores_list w);
  if bool_decide (l = []) then mret QDF_STATUS_E_EMPTY
  else if bool_decide (p ∈ l) then
    modify (with_stores_list (Some (filter (fun q => q <> p) l)));; mret QDF_STATUS_SUCCESS
  else crash.

Definition qdf_list_insert_back (p : nat) : MC QDF_STATUS :=
  w ← gets id; l ← deref (stores_list w);
  modify (with_stores_list (Some (l ++ [p])));; mret QDF_STATUS_SUCCESS.

(** ** The component's slot in a psoc (wlan_objmgr_psoc_obj.c)

    The object manager runs the create and destroy handlers outside the partially
    created and deleted states, where attach and detach only set the slot. *)

Definition cfg_psoc_get_priv (psoc : nat) : MC (option nat) := gets (fun w => priv w !! psoc).

Definition cfg_psoc_set_priv (psoc c : nat) : MC QDF_STATUS :=
  w ← gets id;
  match priv w !! psoc with
  | Some _ => mret QDF_STATUS_E_FAILURE
  | None => modify (with_priv (<[psoc := c]> (priv w)));; mret QDF_STATUS_SUCCESS
  end.

Definition cfg_psoc_unset_priv (psoc c : nat) : MC QDF_STATUS :=
  w ← gets id;
  if bool_decide (priv w !! psoc = Some c) then
    modify (with_priv (delete psoc (priv w)));; mret QDF_STATUS_SUCCESS
  else mret QDF_STATUS_E_FAILURE.

Section Cfg.
(** [CFG_ALL], and the stack under [qdf_ipv6_parse]. *)
Context (cfg_all : list cfg_item) (uninit : list Z).

Definition cfg_meta_lookup_table : list cfg_meta := map item_meta cfg_all.

(** ** Defaults and parsing into a store *)

(** The string copy of one item is bounded by its maximum length. *)
Definition default_value (i : cfg_item) : cfg_val :=
  match item_default i with
  | VString s => VString (qdf_str_lcopy s (max (item_meta i) + 1))
  | v => v
  end.

Definition cfg_store_set_defaults (values : cfg_values) : cfg_values :=
  foldl (fun values i => <[field_offset (item_meta i) := default_value i]> values) values cfg_all.

Definition cfg_lookup_meta (name' : cstr) : option cfg_meta :=
  List.find (fun meta => bool_decide (name' = name meta)) cfg_meta_lookup_table.

Definition call_item_handler (h : cfg_mtype)
  : cfg_values -> cfg_meta -> cstr -> cfg_values :=
  match h with
  | INT => cfg_int_item_handler
  | UINT => cfg_uint_item_handler
  | BOOL => cfg_bool_item_handler
  | STRING => cfg_string_item_handler
  | MAC => cfg_mac_item_handler
  | IPV4 => cfg_ipv4_item_handler
  | IPV6 => cfg_ipv6_item_handler uninit
  end.

Definition cfg_ini_item_handler (context : cfg_values) (key value : cstr)
  : QDF_STATUS * cfg_values :=
  match cfg_lookup_meta key with
  | None => (QDF_STATUS_SUCCESS, context)
  | Some meta =>
      match item_handler meta with
      | None => (QDF_STATUS_SUCCESS, context)
      | Some h => (QDF_STATUS_SUCCESS, call_item_handler h context meta value)
      end
  end.

Definition cfg_ini_section_handler (context : cfg_values) (name : cstr)
  : QDF_STATUS * cfg_values := (QDF_STATUS_SUCCESS, context).

(** [read] is [qdf_file_read] with what the file system answers. *)
Definition cfg_ini_parse_to_store (read : cstr -> res (list Z)) (path : cstr) (store : nat)
  : MC QDF_STATUS :=
  s ← read_store store;
  match qdf_ini_parse cfg_ini_item_handler cfg_ini_section_handler read path (values s) with
  | None => out_of_fuel
  | Some (status, v) => update_store store (set_values v);; mret status
  end.

(** ** Reference counting *)

(** [ok] and [ok_path] are what the two allocations answer. *)
Definition cfg_store_alloc (ok ok_path : bool) (path : cstr) : MC (res nat) :=
  if negb ok then mret (Err QDF_STATUS_E_NOMEM)
  else if negb ok_path then mret (Err QDF_STATUS_E_NOMEM)
  else
    store ← gets next;
    modify (with_next (S store));;
    modify (fun w => with_stores (<[store := Store path 1 ∅]> (stores w)) w);;
    qdf_list_insert_back store;;
    mret (Ok store).

Definition cfg_store_free (store : nat) : MC unit :=
  qdf_list_remove_node store;;
  free_store store.

(** The walk of the list, from the node [l] starts at. *)
Fixpoint cfg_store_find (path' : cstr) (l : list nat) : MC (option nat) :=
  match l with
  | [] => mret None
  | p :: l' =>
      s ← read_store p;
      if bool_decide (path' = path s) then
        update_store p (fun s => set_users (users s + 1) s);; mret (Some p)
      else cfg_store_find path' l'
  end.

Definition cfg_store_get (path : cstr) : MC (option nat) :=
  w ← gets id; l ← deref (stores_list w); cfg_store_find path l.

Definition cfg_store_put (store : nat) : MC unit :=
  s ← read_store store;
  update_store store (set_users (users s - 1));;
  if users s - 1 =? 0 then cfg_store_free store else mret tt.

(** ** Access from a psoc *)

(** The callers dereference the context without a check. *)
Definition cfg_psoc_get_ctx (psoc : nat) : MC nat :=
  c ← cfg_psoc_get_priv psoc; deref c.

Definition cfg_psoc_get_values (psoc : nat) : MC cfg_values :=
  c ← cfg_psoc_get_ctx psoc; store ← read_ctx c; s ← read_store store; mret (values s).

Definition cfg_parse_to_psoc_store (read : cstr -> res (list Z)) (psoc : nat) (path : cstr)
  : MC QDF_STATUS :=
  c ← cfg_psoc_get_ctx psoc; store ← read_ctx c; cfg_ini_parse_to_store read path store.

Definition cfg_parse_to_global_store (read : cstr -> res (list Z)) (path : cstr)
  : MC QDF_STATUS :=
  g ← gets global_store;
  match g with
  | None => mret QDF_STATUS_E_NOMEM
  | Some store => cfg_ini_parse_to_store read path store
  end.

(** ** Object manager callbacks *)

Definition cfg_on_psoc_create (ok : bool) (psoc : nat) : MC QDF_STATUS :=
  g ← gets global_store;
  match g with
  | None => mret QDF_STATUS_E_FAILURE
  | Some g =>
      if negb ok then mret QDF_STATUS_E_NOMEM
      else
        psoc_ctx ← gets next;
        modify (with_next (S psoc_ctx));;
        update_store g (fun s => set_users (users s + 1) s);;
        modify (fun w => with_ctxs (<[psoc_ctx := g]> (ctxs w)) w);;
        status ← cfg_psoc_set_priv psoc psoc_ctx;
        if QDF_IS_STATUS_ERROR status then
          cfg_store_put g;; free_ctx psoc_ctx;; mret status
        else mret QDF_STATUS_SUCCESS
  end.

Definition cfg_on_psoc_destroy (psoc : nat) : MC QDF_STATUS :=
  psoc_ctx ← cfg_psoc_get_ctx psoc;
  status ← cfg_psoc_unset_priv psoc psoc_ctx;
  store ← read_ctx psoc_ctx;
  cfg_store_put store;;
  free_ctx psoc_ctx;;
  mret status.

(** ** Dispatcher *)

(** [st_create] and [st_destroy] are the statuses of the registrations. *)
Definition cfg_dispatcher_init (st_create st_destroy : QDF_STATUS) : MC QDF_STATUS :=
  init ← gets is_init;
  if init : bool then mret QDF_STATUS_E_INVAL
  else
    modify (with_stores_list (Some []));;
    if QDF_IS_STATUS_ERROR st_create then mret st_create
    else if QDF_IS_STATUS_ERROR st_destroy then mret st_destroy
    else modify (with_is_init true);; mret QDF_STATUS_SUCCESS.

Definition cfg_dispatcher_deinit : MC QDF_STATUS :=
  init ← gets is_init;
  if negb init then mret QDF_STATUS_E_INVAL
  else
    modify (with_is_init false);;
    modify (with_stores_list None);;
    mret QDF_STATUS_SUCCESS.

(** ** Parsing *)

Definition cfg_parse (ok ok_path : bool) (read : cstr -> res (list Z)) (path : cstr)
  : MC QDF_STATUS :=
  g ← gets global_store;
  match g with
  | Some _ => mret QDF_STATUS_E_INVAL
  | None =>
      r ← cfg_store_alloc ok ok_path path;
      match r with
      | Err status => mret status
      | Ok store =>
          update_store store (fun s => set_values (cfg_store_set_defaults (values s)) s);;
          status ← cfg_ini_parse_to_store read path store;
          if QDF_IS_STATUS_ERROR status then cfg_store_free store;; mret status
          else modify (with_global_store (Some store));; mret QDF_STATUS_SUCCESS
      end
  end.

Definition cfg_release : MC unit :=
  g ← gets global_store;
  match g with
  | None => mret tt
  | Some g => cfg_store_put g;; modify (with_global_store None)
  end.

(** The store of [path], with a reference on it: the one that has been parsed
    before, or a new one that starts from the global values. *)
Definition cfg_psoc_store (ok ok_path : bool) (read : cstr -> res (list Z)) (path : cstr)
  : MC (res nat) :=
  found ← cfg_store_get path;
  match found with
  | Some store => mret (Ok store)
  | None =>
      r ← cfg_store_alloc ok ok_path path;
      match r with
      | Err status => mret (Err status)
      | Ok store =>
          g ← read_global;
          gs ← read_store g;
          update_store store (set_values (values gs));;
          status ← cfg_ini_parse_to_store read path store;
          if QDF_IS_STATUS_ERROR status then cfg_store_put store;; mret (Err status)
          else mret (Ok store)
      end
  end.

Definition cfg_psoc_parse (ok ok_path : bool) (read : cstr -> res (list Z))
    (psoc : option nat) (path : option cstr) : MC QDF_STATUS :=
  g ← gets global_store;
  init ← gets is_init;
  match g, init, psoc, path with
  | Some g, true, Some psoc, Some path =>
      psoc_ctx ← cfg_psoc_get_ctx psoc;
      current ← read_ctx psoc_ctx;
      if negb (bool_decide (current = g)) then mret QDF_STATUS_SUCCESS
      else
        r ← cfg_psoc_store ok ok_path read path;
        match r with
        | Err status => mret status
        | Ok store =>
            modify (fun w => with_ctxs (<[psoc_ctx := store]> (ctxs w)) w);;
            cfg_store_put g;;
            mret QDF_STATUS_SUCCESS
        end
  | _, _, _, _ => mret QDF_STATUS_E_INVAL
  end.

End Cfg.

(** * What the value strings of an item do *)

(** What an item handler stores for a value string, if anything; it does not depend
    on what the other fields or the field itself hold. *)
Definition item_effect (uninit : list Z) (meta : cfg_meta) (str_value : cstr) : option cfg_val :=
  match item_handler meta with
  | None => None
  | Some h => call_item_handler uninit h ∅ meta str_value !! field_offset meta
  end.

Definition store_effect (meta : cfg_meta) (e : option cfg_val) (values : cfg_values) : cfg_values :=
  match e with None => values | Some v => <[field_offset meta := v]> values end.

(** The constraint an item puts on its field. *)
Definition val_ok (meta : cfg_meta) (v : cfg_val) : Prop :=
  match item_handler meta, v with
  | Some INT, VInt z => min meta <= z <= max meta
  | Some UINT, VUint z => wrap 32 (min meta) <= z <= wrap 32 (max meta)
  | Some BOOL, VBool _ => True
  | Some STRING, VString s => min meta <= Z.of_nat (length s) <= max meta
  | Some MAC, VMac b => length b = 6%nat
  | Some IPV4, VIpv4 b => length b = 4%nat
  | Some IPV6, VIpv6 _ => True
  | _, _ => False
  end.

(** Splits the conditions of a handler and reads the field back. *)
Ltac effect_cases :=
  repeat match goal with |- context [if ?b then _ else _] => destruct b end;
  rewrite ?lookup_empty, ?lookup_insert_eq; done.

Section Effects.
Context (uninit : list Z).

Lemma string_handler_eq values meta s :
  cfg_string_item_handler values meta s =
  if (0 <=? min meta) && (min meta <=? max meta) &&
     (min meta <=? Z.of_nat (length s)) && (Z.of_nat (length s) <=? max meta)
  then <[field_offset meta := VString s]> values else values.
Proof.
  unfold cfg_string_item_handler, qdf_str_nlen, qdf_str_lcopy.
  destruct (Z.ltb_spec (min meta) 0), (Z.leb_spec 0 (min meta)); try lia; [done|].
  destruct (Z.ltb_spec (max meta) (min meta)), (Z.leb_spec (min meta) (max meta)); try lia; [done|].
  cbn [orb andb]. rewrite length_drop.
  destruct (Z.leb_spec (min meta) (Z.of_nat (length s))).
  2: { destruct (Z.ltb_spec (Z.min (Z.of_nat (length s)) (min meta)) (min meta)); [done|lia]. }
  destruct (Z.ltb_spec (Z.min (Z.of_nat (length s)) (min meta)) (min meta)); [lia|].
  destruct (Z.leb_spec (Z.of_nat (length s)) (max meta)), (Z.ltb_spec (max meta)
    (Z.min (Z.of_nat (length s)) (min meta) + Z.min (Z.of_nat (length s - Z.to_nat (min meta)))
      (max meta - min meta + 1))); try lia; [|done].
  cbn [andb]. rewrite take_ge by lia. done.
Qed.

Lemma handler_effect h meta s values :
  item_handler meta = Some h ->
  call_item_handler uninit h values meta s = store_effect meta (item_effect uninit meta s) values.
Proof.
  intros Hh. unfold item_effect, store_effect. rewrite Hh.
  destruct h; cbn [call_item_handler];
    unfold cfg_int_item_handler, cfg_uint_item_handler, cfg_bool_item_handler,
      cfg_mac_item_handler, cfg_ipv4_item_handler, cfg_ipv6_item_handler.
  - destruct (qdf_int32_parse (Some s) 0) as [st v]. effect_cases.
  - destruct (qdf_uint32_parse (Some s) 0) as [st v]. effect_cases.
  - destruct (qdf_bool_parse (Some s) (Some false)) as [[] [v|]]; effect_cases.
  - rewrite !string_handler_eq. effect_cases.
  - destruct (qdf_mac_parse (Some s) (Some [])) as [[] [v|]]; effect_cases.
  - destruct (qdf_ipv4_parse (Some s) (Some [])) as [[] [v|]]; effect_cases.
  - destruct (qdf_ipv6_parse uninit (Some s) (Some [])) as [[] [v|]]; effect_cases.
Qed.

Lemma clamp_in v lo hi : lo <= hi -> lo <= __cfg_clamp v lo hi <= hi.
Proof. unfold __cfg_clamp. intros H. repeat case_match; lia. Qed.

Lemma clamp_eq v lo hi : lo <= hi -> __cfg_clamp v lo hi = Z.max lo (Z.min hi v).
Proof. unfold __cfg_clamp. intros H. repeat case_match; lia. Qed.

Lemma mac_loop_length n colons bytes s addr rest :
  qdf_mac_parse_loop n colons bytes s = (Ok addr, rest) -> length addr = (length bytes + n)%nat.
Proof.
  revert bytes s. induction n as [|n IH]; intros bytes s; cbn [qdf_mac_parse_loop].
  { intros [= <- _]. lia. }
  destruct (if colons then qdf_consume_char ch_colon s else (Ok (), s)) as [[[]|st] s1]; [|done].
  destruct (qdf_consume_hex_pair s1) as [[b|st] s2]; [|done].
  intros H%IH. rewrite length_app in H. cbn in H. lia.
Qed.

Lemma ipv4_loop_length n bytes s addr rest :
  qdf_ipv4_parse_loop n bytes s = (Ok addr, rest) -> length addr = (length bytes + n)%nat.
Proof.
  revert bytes s. induction n as [|n IH]; intros bytes s; cbn [qdf_ipv4_parse_loop].
  { intros [= <- _]. lia. }
  destruct (qdf_consume_char ch_dot s) as [[[]|st] s1]; [|done].
  destruct (qdf_consume_octet_dec s1) as [[b|st] s2]; [|done].
  intros H%IH. rewrite length_app in H. cbn in H. lia.
Qed.

Lemma mac_parse_length s b out :
  qdf_mac_parse (Some s) (Some out) = (QDF_STATUS_SUCCESS, Some b) -> length b = 6%nat.
Proof.
  unfold qdf_mac_parse. destruct (qdf_consume_hex_pair _) as [[x|st] s1] eqn:Hp.
  2: { apply hex_pair_err in Hp as ->. by intros [=]. }
  destruct (qdf_mac_parse_loop _ _ _ _) as [[a|st] s2] eqn:Hl.
  2: { apply mac_loop_err in Hl as ->. by intros [=]. }
  case_match; intros [= <-]. by apply mac_loop_length in Hl.
Qed.

Lemma ipv4_parse_length s b out :
  qdf_ipv4_parse (Some s) (Some out) = (QDF_STATUS_SUCCESS, Some b) -> length b = 4%nat.
Proof.
  unfold qdf_ipv4_parse. destruct (qdf_consume_octet_dec _) as [[x|st] s1] eqn:Hp.
  2: { apply octet_err in Hp as ->. by intros [=]. }
  destruct (qdf_ipv4_parse_loop _ _ _) as [[a|st] s2] eqn:Hl.
  2: { apply ipv4_loop_err in Hl as ->. by intros [=]. }
  case_match; intros [= <-]. by apply ipv4_loop_length in Hl.
Qed.

Lemma effect_ok meta s v : item_effect uninit meta s = Some v -> val_ok meta v.
Proof.
  unfold item_effect, val_ok. destruct (item_handler meta) as [[]|]; [..|done];
    cbn [call_item_handler];
    unfold cfg_int_item_handler, cfg_uint_item_handler, cfg_bool_item_handler,
      cfg_mac_item_handler, cfg_ipv4_item_handler, cfg_ipv6_item_handler.
  - destruct (qdf_int32_parse (Some s) 0) as [st z].
    destruct (QDF_IS_STATUS_ERROR st); [by rewrite lookup_empty|].
    destruct (Z.ltb_spec (max meta) (min meta)); [by rewrite lookup_empty|].
    destruct (Z.leb_spec (min meta) z), (Z.leb_spec z (max meta)); cbn [andb];
      try (destruct (_ =? _); [|by rewrite lookup_empty]);
      rewrite lookup_insert_eq; intros [= <-]; try lia; by apply clamp_in.
  - destruct (qdf_uint32_parse (Some s) 0) as [st z].
    destruct (QDF_IS_STATUS_ERROR st); [by rewrite lookup_empty|].
    destruct (Z.ltb_spec (wrap 32 (max meta)) (wrap 32 (min meta))); [by rewrite lookup_empty|].
    destruct (Z.leb_spec (wrap 32 (min meta)) z), (Z.leb_spec z (wrap 32 (max meta)));
      cbn [andb]; try (destruct (_ =? _); [|by rewrite lookup_empty]);
      rewrite lookup_insert_eq; intros [= <-]; try lia; by apply clamp_in.
  - destruct (qdf_bool_parse _ _) as [[] [b|]]; rewrite ?lookup_empty, ?lookup_insert_eq;
      by intros [= <-].
  - rewrite string_handler_eq. destruct (_ && _) eqn:E; [|by rewrite lookup_empty].
    rewrite lookup_insert_eq. intros [= <-]. lia.
  - destruct (qdf_mac_parse _ _) as [[] [b|]] eqn:E; rewrite ?lookup_empty, ?lookup_insert_eq;
      try done. intros [= <-]. by apply mac_parse_length in E.
  - destruct (qdf_ipv4_parse _ _) as [[] [b|]] eqn:E; rewrite ?lookup_empty, ?lookup_insert_eq;
      try done. intros [= <-]. by apply ipv4_parse_length in E.
  - destruct (qdf_ipv6_parse _ _ _) as [[] [b|]]; rewrite ?lookup_empty, ?lookup_insert_eq;
      by intros [= <-].
Qed.

End Effects.

Lemma store_int_cases (values : cfg_values) off fb lo hi n (v : Z -> cfg_val) :
  lo <= hi ->
  (if hi <? lo then values
   else if (lo <=? n) && (n <=? hi) then <[off := v n]> values
   else if fb =? CFG_VALUE_OR_CLAMP then <[off := v (__cfg_clamp n lo hi)]> values
   else values) =
  (if bool_decide (lo <= n <= hi) then <[off := v n]> values
   else if bool_decide (fb = CFG_VALUE_OR_CLAMP)
   then <[off := v (Z.max lo (Z.min hi n))]> values else values).
Proof.
  intros Hle. destruct (Z.ltb_spec hi lo); [lia|]. rewrite clamp_eq by done.
  destruct (Z.leb_spec lo n), (Z.leb_spec n hi); case_bool_decide; try lia; cbn [andb];
    try done; destruct (Z.eqb_spec fb CFG_VALUE_OR_CLAMP); by case_bool_decide.
Qed.

(** An integer item takes exactly the literals of its type: one inside the
    bounds of the item is stored as it is, one outside is replaced by the nearest
    bound when the item asks for clamping and is ignored otherwise, and any other
    text leaves the field alone; an item with inverted bounds never changes. *)
Theorem cfg_int_items_exact values meta s :
  cstr_ok s ->
  let set lo hi n (v : Z -> cfg_val) :=
    if bool_decide (lo <= n <= hi) then <[field_offset meta := v n]> values
    else if bool_decide (fallback meta = CFG_VALUE_OR_CLAMP)
    then <[field_offset meta := v (Z.max lo (Z.min hi n))]> values else values in
  let int := cfg_int_item_handler values meta s in
  let uint := cfg_uint_item_handler values meta s in
  let umin := wrap 32 (min meta) in let umax := wrap 32 (max meta) in
  (min meta <= max meta -> forall neg n, int_literal s neg n -> in_s 32 (signed neg n) ->
     int = set (min meta) (max meta) (signed neg n) VInt) /\
  ((forall neg n, int_literal s neg n -> ~ in_s 32 (signed neg n)) \/ max meta < min meta ->
     int = values) /\
  (umin <= umax -> forall n, int_literal s false n -> in_u 32 n ->
     uint = set umin umax n VUint) /\
  ((forall n, int_literal s false n -> ~ in_u 32 n) \/ umax < umin -> uint = values).
Proof.
  intros Hok set int uint umin umax. subst int uint.
  unfold cfg_int_item_handler, cfg_uint_item_handler. fold umin umax.
  destruct (qdf_int32_parse (Some s) 0) as [st v] eqn:Hi.
  destruct (qdf_uint32_parse (Some s) 0) as [st' u] eqn:Hu.
  split_and!.
  - intros Hle neg n Hlit Hn.
    rewrite (proj2 (int32_parse_iff s 0 (signed neg n) Hok)) in Hi by (by exists neg, n).
    injection Hi as <- <-. cbn [QDF_IS_STATUS_ERROR QDF_IS_STATUS_SUCCESS negb].
    apply store_int_cases; done.
  - intros H. destruct (QDF_IS_STATUS_ERROR st) eqn:Hst; [done|].
    destruct (Z.ltb_spec (max meta) (min meta)); [done|]. destruct H as [H|]; [|lia].
    destruct st; try done. apply int32_parse_iff in Hi as (neg & n & Hlit & -> & Hr); [|done].
    by apply H in Hlit.
  - intros Hle n Hlit Hn.
    rewrite (proj2 (uint32_parse_iff s 0 n Hok)) in Hu by done.
    injection Hu as <- <-. cbn [QDF_IS_STATUS_ERROR QDF_IS_STATUS_SUCCESS negb].
    apply store_int_cases; done.
  - intros H. destruct (QDF_IS_STATUS_ERROR st') eqn:Hst; [done|].
    destruct (Z.ltb_spec umax umin); [done|]. destruct H as [H|]; [|lia].
    destruct st'; try done. apply uint32_parse_iff in Hu as (Hlit & Hr); [|done].
    by apply H in Hlit.
Qed.

(** An item in [-5, 10] that clamps, set to 12. *)
Lemma cfg_int_items_exact_witness :
  let meta := CfgMeta (lit "k") 0 (Some INT) (-5) 10 CFG_VALUE_OR_CLAMP in
  cfg_int_item_handler ∅ meta (lit "0xc") = <[0 := VInt 10]> ∅.
Proof.
  intros meta.
  assert (cstr_ok (lit "0xc")) as Hok by (repeat constructor; lia).
  destruct (cfg_int_items_exact ∅ meta (lit "0xc") Hok) as (H & _).
  refine (H ltac:(cbn; lia) false 12 _ ltac:(vm_compute; split; [discriminate|reflexivity])).
  closed_literal (@nil Z) [ch_0; ch_x] 16 (lit "c").
Defined.

(** * What a file does to the values *)

Definition distinct_items (cfg_all : list cfg_item) : Prop :=
  NoDup (map name (cfg_meta_lookup_table cfg_all)) /\
  NoDup (map field_offset (cfg_meta_lookup_table cfg_all)).

(** The value strings the lines of a file give to a name, in order. *)
Definition line_setting (key line : cstr) : option cstr :=
  match line_entry line with
  | IniItem k v => if bool_decide (k = key) then Some v else None
  | _ => None
  end.

Definition settings (key : cstr) (data : list Z) : list cstr :=
  omap (line_setting key) (split_lines (take_nonzero data)).

Section Files.
Context (cfg_all : list cfg_item) (uninit : list Z).

Lemma lookup_meta_some key meta :
  cfg_lookup_meta cfg_all key = Some meta ->
  meta ∈ cfg_meta_lookup_table cfg_all /\ name meta = key.
Proof.
  intros H%find_some. destruct H as [Hin Heq]. apply bool_decide_eq_true in Heq.
  by rewrite list_elem_of_In.
Qed.

Lemma lookup_meta_complete meta :
  distinct_items cfg_all -> meta ∈ cfg_meta_lookup_table cfg_all ->
  cfg_lookup_meta cfg_all (name meta) = Some meta.
Proof.
  unfold distinct_items, cfg_lookup_meta. intros [Hnd _] Hin.
  induction (cfg_meta_lookup_table cfg_all) as [|m l IH]; [by apply elem_of_nil in Hin|].
  cbn in *. apply NoDup_cons in Hnd as [Hm Hnd].
  case_bool_decide as E.
  - apply elem_of_cons in Hin as [->|Hin]; [done|]. destruct Hm. rewrite <- E.
    apply list_elem_of_fmap. by exists meta.
  - apply elem_of_cons in Hin as [->|Hin]; [done|]. by apply IH.
Qed.

Lemma same_offset_same_item m1 m2 :
  distinct_items cfg_all -> m1 ∈ cfg_meta_lookup_table cfg_all ->
  m2 ∈ cfg_meta_lookup_table cfg_all -> field_offset m1 = field_offset m2 -> m1 = m2.
Proof.
  intros [_ Hnd] H1 H2 Heq. apply list_elem_of_lookup in H1 as [i Hi], H2 as [j Hj].
  assert (i = j) as ->; [|congruence].
  eapply (NoDup_lookup _ i j (field_offset m1)); [exact Hnd|rewrite list_lookup_fmap, Hi; done|].
  by rewrite list_lookup_fmap, Hj, Heq.
Qed.

(** One item of the file: [SUCCESS], and the effect of the item of that name. *)
Lemma item_handler_eq values key s :
  cfg_ini_item_handler cfg_all uninit values key s =
  (QDF_STATUS_SUCCESS,
   match cfg_lookup_meta cfg_all key with
   | Some meta => store_effect meta (item_effect uninit meta s) values
   | None => values
   end).
Proof.
  unfold cfg_ini_item_handler. destruct (cfg_lookup_meta cfg_all key) as [meta|]; [|done].
  destruct (item_handler meta) as [h|] eqn:Hh.
  - by rewrite (handler_effect _ _ _ _ _ Hh).
  - unfold item_effect. by rewrite Hh.
Qed.

Lemma lookup_store_effect meta e values off :
  store_effect meta e values !! off =
  if bool_decide (off = field_offset meta)
  then match e with Some v => Some v | None => values !! off end else values !! off.
Proof.
  unfold store_effect. destruct e as [v|]; [|by case_match].
  case_bool_decide as E; subst; [by rewrite lookup_insert_eq|].
  rewrite lookup_insert_ne; [done|congruence].
Qed.

Definition last_or {A} (d : option A) (l : list A) : option A :=
  match last l with Some x => Some x | None => d end.

Lemma last_or_cons {A} (d : option A) x l : last_or d (x :: l) = last_or (Some x) l.
Proof. unfold last_or. rewrite last_cons. by destruct (last l). Qed.

Lemma run_lines_items ls values meta :
  distinct_items cfg_all -> meta ∈ cfg_meta_lookup_table cfg_all ->
  exists values',
    run_lines (cfg_ini_item_handler cfg_all uninit) cfg_ini_section_handler ls values =
      (QDF_STATUS_SUCCESS, values') /\
    values' !! field_offset meta =
      last_or (values !! field_offset meta)
        (omap (item_effect uninit meta) (omap (line_setting (name meta)) ls)).
Proof.
  intros Hd Hin. revert values. induction ls as [|l ls IH]; intros values.
  { by exists values. }
  cbn [run_lines]. cbn [omap list_omap]. unfold line_setting at 1.
  destruct (line_entry l) as [k v|n|]; cbn [run_entry].
  - rewrite item_handler_eq. cbn [QDF_IS_STATUS_ERROR QDF_IS_STATUS_SUCCESS negb].
    edestruct IH as (values' & Hr & Hv). exists values'. split; [exact Hr|]. rewrite Hv.
    clear Hv Hr. destruct (cfg_lookup_meta cfg_all k) as [m|] eqn:Hk.
    + apply lookup_meta_some in Hk as [Hm <-]. rewrite lookup_store_effect.
      destruct (decide (name m = name meta)) as [E|E].
      * rewrite (bool_decide_true (name m = name meta)) by done.
        assert (m = meta) as ->.
        { pose proof (lookup_meta_complete m Hd Hm). pose proof (lookup_meta_complete meta Hd Hin).
          congruence. }
        rewrite bool_decide_true by done. cbn [omap list_omap].
        destruct (item_effect uninit meta v); [by rewrite last_or_cons|done].
      * rewrite (bool_decide_false (name m = name meta)) by done.
        rewrite bool_decide_false; [done|]. intros Ho.
        pose proof (same_offset_same_item _ _ Hd Hin Hm Ho). congruence.
    + rewrite bool_decide_false; [done|]. intros ->.
      by rewrite lookup_meta_complete in Hk.
  - apply IH.
  - apply IH.
Qed.

(** What a readable file's text makes of a store's values. *)
Definition file_values (data : list Z) (values : cfg_values) : cfg_values :=
  snd (run_lines (cfg_ini_item_handler cfg_all uninit) cfg_ini_section_handler
         (split_lines (take_nonzero data)) values).

Lemma run_lines_success ls values :
  fst (run_lines (cfg_ini_item_handler cfg_all uninit) cfg_ini_section_handler ls values) =
  QDF_STATUS_SUCCESS.
Proof.
  revert values. induction ls as [|l ls IH]; intros values; [done|]. cbn [run_lines].
  destruct (line_entry l); cbn [run_entry]; [|apply IH..].
  rewrite item_handler_eq. apply IH.
Qed.

Lemma ini_parse_values request_firmware ok path values :
  qdf_ini_parse (cfg_ini_item_handler cfg_all uninit) cfg_ini_section_handler
    (qdf_file_read request_firmware ok) path values =
  Some (match qdf_file_read request_firmware ok path with
        | Ok _ => (QDF_STATUS_SUCCESS, file_values (default [] (request_firmware path)) values)
        | Err status => (status, values)
        end).
Proof.
  rewrite ini_parse_spec. unfold qdf_file_read.
  destruct (request_firmware path) as [data|]; [|done]. destruct ok; [|done].
  cbn [default]. unfold file_values. f_equal.
  pose proof (run_lines_success (split_lines (take_nonzero data)) values) as H.
  destruct (run_lines _ _ _ _) as [st v]. cbn in *. by subst.
Qed.

(** Every field of an item is its default, which is not checked, or within the item's
    constraint. *)
Definition values_ok (values : cfg_values) : Prop :=
  forall i, i ∈ cfg_all -> exists v, values !! field_offset (item_meta i) = Some v /\
    (v = default_value i \/ val_ok (item_meta i) v).

Lemma file_values_ok data values :
  distinct_items cfg_all -> values_ok values -> values_ok (file_values data values).
Proof.
  intros Hd Hv i Hi. destruct (Hv i Hi) as (v & Hlook & Hok).
  destruct (run_lines_items (split_lines (take_nonzero data)) values (item_meta i) Hd)
    as (values' & Hr & Hl); [apply list_elem_of_fmap; by exists i|].
  unfold file_values. rewrite Hr. cbn [snd]. rewrite Hl. unfold last_or.
  destruct (last _) as [v'|] eqn:El; [|by exists v].
  exists v'. split; [done|]. right. apply last_Some_elem_of, list_elem_of_omap in El as (s & _ & Hs).
  by apply (effect_ok uninit _ s).
Qed.

Lemma set_defaults_lookup values i :
  distinct_items cfg_all -> i ∈ cfg_all ->
  cfg_store_set_defaults cfg_all values !! field_offset (item_meta i) = Some (default_value i).
Proof.
  unfold distinct_items, cfg_store_set_defaults, cfg_meta_lookup_table. intros [_ Hnd] Hi.
  induction cfg_all as [|j l IH] using rev_ind; [by apply elem_of_nil in Hi|].
  rewrite foldl_app. cbn [foldl].
  rewrite !map_app in Hnd. apply NoDup_app in Hnd as (Hl & Hdisj & _).
  apply elem_of_app in Hi as [Hi|Hi%list_elem_of_singleton]; [|subst; by rewrite lookup_insert_eq].
  rewrite lookup_insert_ne; [by apply IH|]. intros E.
  apply (Hdisj (field_offset (item_meta i))).
  - apply list_elem_of_fmap. exists (item_meta i). split; [done|]. apply list_elem_of_fmap. by exists i.
  - rewrite <- E. cbn. by apply list_elem_of_singleton.
Qed.

End Files.

(** Parsing an ini file into a store never fails on its content, and gives every
    item the value of the last line that sets it to something the item accepts; the
    lines of other items, unknown names, sections and unacceptable values do not
    matter, and without an acceptable line the field keeps what it held. *)
Theorem cfg_parse_last_acceptable_wins cfg_all uninit data path values meta :
  distinct_items cfg_all -> meta ∈ cfg_meta_lookup_table cfg_all ->
  exists values',
    qdf_ini_parse (cfg_ini_item_handler cfg_all uninit) cfg_ini_section_handler
      (qdf_file_read (fun _ => Some data) true) path values = Some (QDF_STATUS_SUCCESS, values') /\
    values' !! field_offset meta =
      last_or (values !! field_offset meta)
        (omap (item_effect uninit meta) (settings (name meta) data)).
Proof.
  intros Hd Hin. rewrite ini_parse_values. eexists. split; [done|].
  destruct (run_lines_items cfg_all uninit (split_lines (take_nonzero data)) values meta Hd Hin)
    as (values' & Hr & Hl).
  unfold file_values. change (default [] (Some data)) with data. by rewrite Hr.
Qed.

(** Three lines for an integer item in [0, 10] that does not clamp: 3, then two
    that it ignores. *)
Lemma cfg_parse_last_acceptable_wins_witness :
  let meta := CfgMeta (lit "gKey") 8 (Some INT) 0 10 CFG_VALUE_OR_DEFAULT in
  let cfg_all := [CfgItem (CfgMeta (lit "gOn") 0 (Some BOOL) 0 1 (-1)) (VBool false);
                  CfgItem meta (VInt 7)] in
  let nl := [10] in
  let data := lit "gKey=3" ++ nl ++ lit "gOn=y" ++ nl ++ lit "gKey=11" ++ nl ++ lit "gKey=x" in
  exists values',
    qdf_ini_parse (cfg_ini_item_handler cfg_all []) cfg_ini_section_handler
      (qdf_file_read (fun _ => Some data) true) [] (cfg_store_set_defaults cfg_all ∅) =
      Some (QDF_STATUS_SUCCESS, values') /\
    values' !! 8 = Some (VInt 3).
Proof.
  intros meta cfg_all nl data.
  destruct (cfg_parse_last_acceptable_wins cfg_all [] data [] (cfg_store_set_defaults cfg_all ∅) meta)
    as (values' & H1 & H2).
  - split; apply (bool_decide_unpack _); vm_compute; exact I.
  - apply list_elem_of_In. right. by left.
  - exists values'. split; [exact H1|]. cbn [field_offset meta] in H2. rewrite H2. vm_compute.
    reflexivity.
Defined.

(** * The life of the stores *)

(** The entry points, with the answers of the environment: allocations, the file
    system ([request_firmware] and the buffer it is read into), registrations. *)
Inductive cfg_op : Type :=
  | OpInit (st_create st_destroy : QDF_STATUS)
  | OpDeinit
  | OpParse (ok ok_path : bool) (fw : cstr -> option (list Z)) (ok_file : bool) (path : cstr)
  | OpRelease
  | OpPsocCreate (ok : bool) (psoc : nat)
  | OpPsocDestroy (psoc : nat)
  | OpPsocParse (ok ok_path : bool) (fw : cstr -> option (list Z)) (ok_file : bool)
      (psoc : option nat) (path : option cstr)
  | OpParseToPsoc (fw : cstr -> option (list Z)) (ok_file : bool) (psoc : nat) (path : cstr)
  | OpParseToGlobal (fw : cstr -> option (list Z)) (ok_file : bool) (path : cstr).

Section Life.
Context (cfg_all : list cfg_item) (uninit : list Z).

Definition run_op (op : cfg_op) : MC QDF_STATUS :=
  match op with
  | OpInit c d => cfg_dispatcher_init c d
  | OpDeinit => cfg_dispatcher_deinit
  | OpParse ok okp fw okf path => cfg_parse cfg_all uninit ok okp (qdf_file_read fw okf) path
  | OpRelease => cfg_release;; mret QDF_STATUS_SUCCESS
  | OpPsocCreate ok psoc => cfg_on_psoc_create ok psoc
  | OpPsocDestroy psoc => cfg_on_psoc_destroy psoc
  | OpPsocParse ok okp fw okf psoc path =>
      cfg_psoc_parse cfg_all uninit ok okp (qdf_file_read fw okf) psoc path
  | OpParseToPsoc fw okf psoc path =>
      cfg_parse_to_psoc_store cfg_all uninit (qdf_file_read fw okf) psoc path
  | OpParseToGlobal fw okf path =>
      cfg_parse_to_global_store cfg_all uninit (qdf_file_read fw okf) path
  end.

(** What the callers owe: the dispatcher is up before the first file is parsed, it
    goes down when everything is released, and psoc operations concern psocs whose
    create handler succeeded (the object manager runs the destroy handler of those
    only). *)
Definition allowed (w : cfg_world) (op : cfg_op) : Prop :=
  match op with
  | OpDeinit => global_store w = None /\ priv w = ∅
  | OpParse _ _ _ _ _ => is_init w = true
  | OpPsocDestroy psoc => is_Some (priv w !! psoc)
  | OpPsocParse _ _ _ _ (Some psoc) _ => is_Some (priv w !! psoc)
  | OpParseToPsoc _ _ psoc _ => is_Some (priv w !! psoc)
  | _ => True
  end.

Inductive cfg_reachable : cfg_world -> Prop :=
  | cfg_reachable_boot : cfg_reachable cfg_boot
  | cfg_reachable_op w op st w' :
      cfg_reachable w -> allowed w op -> run_op op w = Ret st w' -> cfg_reachable w'.

(** How many psoc contexts use a store, and the references there are to it. *)
Definition holders (m : gmap nat nat) (p : nat) : nat :=
  size (filter (fun kv : nat * nat => kv.2 = p) m).

Definition global_ref (g : option nat) (p : nat) : Z := if bool_decide (g = Some p) then 1 else 0.

Definition refs (w : cfg_world) (p : nat) : Z :=
  Z.of_nat (holders (ctxs w) p) + global_ref (global_store w) p.

(** One more, or fewer, reference on [p]. *)
Definition shift (p : nat) (d : Z) (r : nat -> Z) (q : nat) : Z :=
  if bool_decide (q = p) then r q + d else r q.

(** The list holds what is allocated. *)
Definition list_ok (w : cfg_world) : Prop :=
  match stores_list w with
  | Some l => NoDup l /\ forall p, p ∈ l <-> is_Some (stores w !! p)
  | None => stores w = ∅
  end.

(** The stores are counted by [r]: what is allocated is what is referenced, and it
    is what the list holds. *)
Record mem_inv (w : cfg_world) (r : nat -> Z) : Prop := MemInv {
  mi_list : list_ok w;
  mi_refs : forall p, match stores w !! p with
            | Some s => users s = r p /\ 0 < r p
            | None => r p = 0
            end;
  mi_next : forall p, is_Some (stores w !! p) -> (p < next w)%nat;
}.

Definition vals_inv (w : cfg_world) : Prop :=
  forall p s, stores w !! p = Some s -> values_ok cfg_all (values s).

Record ctx_inv (w : cfg_world) : Prop := CtxInv {
  ci_priv : forall psoc c, priv w !! psoc = Some c -> is_Some (ctxs w !! c);
  ci_inj : forall psoc psoc' c, priv w !! psoc = Some c -> priv w !! psoc' = Some c ->
           psoc = psoc';
  ci_used : forall c, is_Some (ctxs w !! c) -> exists psoc, priv w !! psoc = Some c;
  ci_next : forall c, is_Some (ctxs w !! c) -> (c < next w)%nat;
}.

Record cfg_inv (w : cfg_world) : Prop := CfgInv {
  inv_mem : mem_inv w (refs w);
  inv_ctx : ctx_inv w;
  inv_vals : vals_inv w;
  inv_up : is_init w = true -> is_Some (stores_list w);
  inv_down : is_init w = false -> stores w = ∅;
}.

(** ** Counting *)

Lemma holders_insert m c p q :
  m !! c = None -> Z.of_nat (holders (<[c := p]> m) q) = shift p 1 (fun q => Z.of_nat (holders m q)) q.
Proof.
  intros Hc. unfold holders, shift. case_bool_decide as E.
  - rewrite map_filter_insert_True by done. rewrite map_size_insert_None; [lia|].
    apply map_lookup_filter_None. by left.
  - rewrite map_filter_insert_False by (cbn; congruence). by rewrite delete_id.
Qed.

Lemma holders_delete m c p q :
  m !! c = Some p -> Z.of_nat (holders (delete c m) q) = shift p (-1) (fun q => Z.of_nat (holders m q)) q.
Proof.
  intros Hc. pose proof (holders_insert (delete c m) c p q (lookup_delete_eq m c)) as H.
  rewrite insert_delete_id in H by done. unfold shift in *. case_bool_decide; lia.
Qed.

Lemma holders_replace m c p p' q :
  m !! c = Some p ->
  Z.of_nat (holders (<[c := p']> m) q) =
  shift p' 1 (shift p (-1) (fun q => Z.of_nat (holders m q))) q.
Proof.
  intros Hc. rewrite <- insert_delete_eq, holders_insert by apply lookup_delete_eq.
  unfold shift. by rewrite !(holders_delete _ _ _ _ Hc).
Qed.

Lemma holders_pos m c p : m !! c = Some p -> 0 < Z.of_nat (holders m p).
Proof.
  intros Hc. pose proof (holders_delete m c p p Hc) as H. unfold shift in H.
  rewrite bool_decide_true in H by done. lia.
Qed.

Lemma mem_inv_ext w r r' : (forall p, r p = r' p) -> mem_inv w r -> mem_inv w r'.
Proof.
  intros Hr [Hl Hm Hn]. split; [done| |done]. intros p. specialize (Hm p). by rewrite <- Hr.
Qed.

(** The parts of the world the counting looks at. *)
Lemma mem_inv_world w w' r :
  stores w' = stores w -> stores_list w' = stores_list w -> (next w <= next w')%nat ->
  mem_inv w r -> mem_inv w' r.
Proof.
  intros Hs Hl Hn [H1 H2 H3]. split; unfold list_ok; rewrite ?Hs, ?Hl; try done.
  intros p Hp. specialize (H3 p Hp). lia.
Qed.

Lemma mem_inv_live w r p : mem_inv w r -> 0 < r p -> exists s, stores w !! p = Some s /\ users s = r p.
Proof.
  intros [_ Hm _] Hp. specialize (Hm p). destruct (stores w !! p) as [s|]; [|lia].
  exists s. by destruct Hm.
Qed.

(** ** The operations as equations *)

Definition put_store (p : nat) (w : cfg_world) : cfg_world :=
  match stores w !! p with
  | Some s =>
      if users s =? 1 then
        with_stores (delete p (stores w))
          (with_stores_list (filter (fun q => q <> p) <$> stores_list w) w)
      else with_stores (<[p := set_users (users s - 1) s]> (stores w)) w
  | None => w
  end.

Definition set_store (p : nat) (s : cfg_value_store) (w : cfg_world) : cfg_world :=
  with_stores (<[p := s]> (stores w)) w.

Lemma read_store_eq {B} p s (k : cfg_value_store -> MC B) w :
  stores w !! p = Some s -> (s ← read_store p; k s) w = k s w.
Proof. intros Hp. unfold read_store, gets, mbind, M_bind. cbn. by rewrite Hp. Qed.

Lemma read_ctx_eq {B} c p (k : nat -> MC B) w :
  ctxs w !! c = Some p -> (p ← read_ctx c; k p) w = k p w.
Proof. intros Hp. unfold read_ctx, gets, mbind, M_bind. cbn. by rewrite Hp. Qed.

Lemma get_ctx_eq {B} psoc c (k : nat -> MC B) w :
  priv w !! psoc = Some c -> (c ← cfg_psoc_get_ctx psoc; k c) w = k c w.
Proof.
  intros Hp. unfold cfg_psoc_get_ctx, cfg_psoc_get_priv, gets, mbind, M_bind. by rewrite Hp.
Qed.

Lemma update_store_eq p f s w :
  stores w !! p = Some s -> update_store p f w = Ret tt (set_store p (f s) w).
Proof. intros Hp. unfold update_store. by rewrite (read_store_eq _ _ _ _ Hp). Qed.

Lemma list_ok_set p s s' w : stores w !! p = Some s -> list_ok w -> list_ok (set_store p s' w).
Proof.
  unfold list_ok, set_store. cbn. intros Hp. destruct (stores_list w) as [l|].
  - intros [Hnd Hl]. split; [done|]. intros q. rewrite Hl.
    destruct (decide (q = p)) as [->|]; [|by rewrite lookup_insert_ne by done].
    rewrite lookup_insert_eq, Hp. split; by eexists.
  - intros E. by rewrite E, lookup_empty in Hp.
Qed.

Lemma free_eq p w :
  list_ok w -> is_Some (stores w !! p) ->
  cfg_store_free p w =
  Ret tt (with_stores (delete p (stores w))
            (with_stores_list (filter (fun q => q <> p) <$> stores_list w) w)).
Proof.
  unfold list_ok. intros Hl [s Hs].
  unfold cfg_store_free, qdf_list_remove_node. rewrite bind_assoc, bind_gets.
  destruct (stores_list w) as [l|] eqn:El; [|by rewrite Hl, lookup_empty in Hs].
  destruct Hl as [_ Hl]. assert (p ∈ l) as Hin by (apply Hl; by exists s).
  unfold id. rewrite El. rewrite bind_assoc. rewrite (bind_deref _ _ l) by done.
  rewrite bool_decide_false by (intros ->; by apply elem_of_nil in Hin).
  rewrite bool_decide_true by done. rewrite bind_assoc, bind_modify.
  unfold free_store. unfold mbind at 1, M_bind at 1. cbn -[filter].
  by rewrite (read_store_eq p s).
Qed.

Lemma put_eq p w r :
  mem_inv w r -> 0 < r p -> cfg_store_put p w = Ret tt (put_store p w).
Proof.
  intros Hinv Hp. destruct (mem_inv_live _ _ _ Hinv Hp) as (s & Hs & Hu).
  unfold cfg_store_put. rewrite (read_store_eq _ _ _ _ Hs).
  rewrite (bind_ret _ _ _ _ _ (update_store_eq _ _ _ _ Hs)).
  unfold put_store. rewrite Hs.
  destruct (Z.eqb_spec (users s) 1) as [E|E], (Z.eqb_spec (users s - 1) 0); try lia; [|done].
  rewrite free_eq.
  - unfold set_store. cbn. by rewrite delete_insert_eq.
  - apply (list_ok_set _ s); [done|]. apply Hinv.
  - unfold set_store. cbn. by rewrite lookup_insert_eq.
Qed.

Lemma put_inv p w r : mem_inv w r -> 0 < r p -> mem_inv (put_store p w) (shift p (-1) r).
Proof.
  intros Hinv Hp. destruct (mem_inv_live _ _ _ Hinv Hp) as (s & Hs & Hu).
  unfold put_store. rewrite Hs. destruct (Z.eqb_spec (users s) 1) as [E|E].
  - destruct Hinv as [Hl Hm Hn]. split; unfold list_ok in *; cbn.
    + destruct (stores_list w) as [l|]; [|by rewrite Hl, lookup_empty in Hs]. cbn.
      destruct Hl as [Hnd Hl]. split; [by apply NoDup_filter|]. intros q.
      rewrite list_elem_of_filter, Hl. destruct (decide (q = p)) as [->|].
      * rewrite lookup_delete_eq. split; [tauto|by intros [? ?]].
      * rewrite lookup_delete_ne by done. tauto.
    + intros q. specialize (Hm q). unfold shift. case_bool_decide as Eq.
      * subst. rewrite lookup_delete_eq. lia.
      * by rewrite lookup_delete_ne by congruence.
    + intros q [x Hq]. apply Hn. apply lookup_delete_Some in Hq as [_ Hq]. by exists x.
  - split.
    + apply (list_ok_set _ s); [done|]. apply Hinv.
    + intros q. destruct Hinv as [_ Hm _]. specialize (Hm q). unfold shift. cbn.
      case_bool_decide as Eq.
      * subst. rewrite lookup_insert_eq, Hs in *. cbn. lia.
      * by rewrite lookup_insert_ne by congruence.
    + intros q. cbn. intros [x Hq]. destruct Hinv as [_ _ Hn]. apply Hn.
      apply lookup_insert_Some in Hq as [[<- _]|[_ Hq]]; by eexists.
Qed.

(** Writing a store's values, or taking a reference. *)
Lemma set_values_inv p s v w r :
  mem_inv w r -> stores w !! p = Some s -> mem_inv (set_store p (set_values v s) w) r.
Proof.
  intros [Hl Hm Hn] Hs. split; [by apply (list_ok_set _ s)|..].
  - intros q. specialize (Hm q). cbn. destruct (decide (q = p)) as [->|].
    + rewrite lookup_insert_eq. by rewrite Hs in Hm.
    + by rewrite lookup_insert_ne by done.
  - intros q. cbn. intros [x Hq]. apply Hn.
    apply lookup_insert_Some in Hq as [[<- _]|[_ Hq]]; by eexists.
Qed.

Lemma get_inv p s w r :
  mem_inv w r -> stores w !! p = Some s ->
  mem_inv (set_store p (set_users (users s + 1) s) w) (shift p 1 r).
Proof.
  intros [Hl Hm Hn] Hs. split; [by apply (list_ok_set _ s)|..].
  - intros q. specialize (Hm q). cbn. unfold shift. case_bool_decide as E.
    + subst. rewrite lookup_insert_eq. rewrite Hs in Hm. cbn. lia.
    + by rewrite lookup_insert_ne by congruence.
  - intros q. cbn. intros [x Hq]. apply Hn.
    apply lookup_insert_Some in Hq as [[<- _]|[_ Hq]]; by eexists.
Qed.

(** A new store, with the values it has been given. *)
Definition alloc_store (path : cstr) (v : cfg_values) (l : list nat) (w : cfg_world) : cfg_world :=
  with_stores_list (Some (l ++ [next w]))
    (set_store (next w) (Store path 1 v) (with_next (S (next w)) w)).

Lemma alloc_eq path l w :
  stores_list w = Some l ->
  cfg_store_alloc true true path w = Ret (Ok (next w)) (alloc_store path ∅ l w).
Proof.
  intros Hl. unfold cfg_store_alloc. cbn [negb]. rewrite bind_gets, !bind_modify.
  unfold qdf_list_insert_back. rewrite bind_assoc, bind_gets. unfold id. cbn. by rewrite Hl.
Qed.

Lemma alloc_inv path v l w r :
  mem_inv w r -> stores_list w = Some l ->
  stores w !! next w = None /\ mem_inv (alloc_store path v l w) (shift (next w) 1 r).
Proof.
  intros [Hl Hm Hn] Hsl. unfold list_ok in Hl. rewrite Hsl in Hl. destruct Hl as [Hnd Hl].
  assert (stores w !! next w = None) as Hfresh.
  { apply eq_None_not_Some. intros H. specialize (Hn _ H). lia. }
  split; [done|]. split; unfold list_ok, alloc_store, set_store; cbn.
  - split.
    + apply NoDup_app. split; [done|]. split; [|by apply NoDup_singleton].
      intros q Hq ->%list_elem_of_singleton. apply Hl in Hq as [x Hx]. congruence.
    + intros q. rewrite elem_of_app, list_elem_of_singleton, Hl.
      destruct (decide (q = next w)) as [->|].
      * rewrite lookup_insert_eq. split; [by eexists|by right].
      * rewrite lookup_insert_ne by done. tauto.
  - intros q. specialize (Hm q). unfold shift. case_bool_decide as E.
    + subst. rewrite lookup_insert_eq. rewrite Hfresh in Hm. cbn. lia.
    + by rewrite lookup_insert_ne by congruence.
  - intros q [x Hq]. apply lookup_insert_Some in Hq as [[<- _]|[_ Hq]]; [lia|].
    specialize (Hn q ltac:(by exists x)). lia.
Qed.


(** ** Every entry point keeps the invariant *)

(** [m] returns from [w], to a state that [Q] accepts. *)
Definition runs {A} (m : MC A) (Q : A -> cfg_world -> Prop) (w : cfg_world) : Prop :=
  exists a w', m w = Ret a w' /\ Q a w'.

Lemma vals_inv_put p w : vals_inv w -> vals_inv (put_store p w).
Proof.
  intros Hv. unfold put_store. destruct (stores w !! p) as [s|] eqn:Hs; [|done].
  intros q x. case_match; cbn.
  - intros [_ Hq]%lookup_delete_Some. by apply (Hv q).
  - intros [[<- <-]|[_ Hq]]%lookup_insert_Some; [by apply (Hv p s)|by apply (Hv q)].
Qed.

Lemma vals_inv_set p s w : vals_inv w -> values_ok cfg_all (values s) -> vals_inv (set_store p s w).
Proof.
  intros Hv Hs q x. cbn. intros [[<- <-]|[_ Hq]]%lookup_insert_Some; [done|by apply (Hv q)].
Qed.

(** The effect of parsing into a store. *)
Lemma parse_to_store_eq fw okf path p s w :
  stores w !! p = Some s ->
  exists st v, cfg_ini_parse_to_store cfg_all uninit (qdf_file_read fw okf) path p w =
      Ret st (set_store p (set_values v s) w) /\
    ((exists data, fw path = Some data /\ okf = true /\ st = QDF_STATUS_SUCCESS /\
        v = file_values cfg_all uninit data (values s)) \/
     QDF_IS_STATUS_ERROR st = true /\ v = values s).
Proof.
  intros Hs. unfold cfg_ini_parse_to_store. rewrite (read_store_eq _ _ _ _ Hs), ini_parse_values.
  destruct (qdf_file_read fw okf path) as [buf|st] eqn:Hr.
  - exists QDF_STATUS_SUCCESS, (file_values cfg_all uninit (default [] (fw path)) (values s)).
    rewrite (bind_ret _ _ _ _ _ (update_store_eq _ _ _ _ Hs)). split; [done|]. left.
    unfold qdf_file_read in Hr. destruct (fw path) as [data|]; [|done]. destruct okf; [|done].
    by exists data.
  - exists st, (values s). rewrite (bind_ret _ _ _ _ _ (update_store_eq _ _ _ _ Hs)).
    split; [done|]. right. unfold qdf_file_read in Hr.
    destruct (fw path); [destruct okf|]; by simplify_eq.
Qed.

Lemma parsed_values_ok st v (fw : cstr -> option (list Z)) okf path vals :
  distinct_items cfg_all ->
  (exists data, fw path = Some data /\ okf = true /\ st = QDF_STATUS_SUCCESS /\
      v = file_values cfg_all uninit data vals) \/
    QDF_IS_STATUS_ERROR st = true /\ v = vals ->
  values_ok cfg_all vals -> values_ok cfg_all v.
Proof. intros Hd [(data & _ & _ & _ & ->)|[_ ->]] Hv; [by apply file_values_ok|done]. Qed.

Lemma ctx_inv_world w w' :
  ctxs w' = ctxs w -> priv w' = priv w -> (next w <= next w')%nat -> ctx_inv w -> ctx_inv w'.
Proof.
  intros Hc Hp Hn [H1 H2 H3 H4]. split; rewrite ?Hc, ?Hp; try done.
  intros c H. specialize (H4 c H). lia.
Qed.

Lemma put_store_fields p w :
  ctxs (put_store p w) = ctxs w /\ priv (put_store p w) = priv w /\
  next (put_store p w) = next w /\ is_init (put_store p w) = is_init w /\
  global_store (put_store p w) = global_store w /\
  (is_Some (stores_list w) -> is_Some (stores_list (put_store p w))).
Proof.
  unfold put_store. destruct (stores w !! p) as [s|]; [|done].
  case_match; cbn; split_and!; try done. by intros [l ->].
Qed.

(** Writing values into a live store is invisible to everything else. *)
Lemma inv_set_values p s v w :
  cfg_inv w -> stores w !! p = Some s -> values_ok cfg_all v ->
  cfg_inv (set_store p (set_values v s) w).
Proof.
  intros [Hm Hc Hv Hu Hd] Hs Hok. split.
  - change (refs (set_store p (set_values v s) w)) with (refs w). by apply set_values_inv.
  - by apply (ctx_inv_world w).
  - by apply vals_inv_set.
  - done.
  - intros Hi. apply Hd in Hi. by rewrite Hi, lookup_empty in Hs.
Qed.

Lemma refs_ctx w c p : ctxs w !! c = Some p -> 0 < refs w p.
Proof.
  intros Hc. unfold refs, global_ref. apply holders_pos in Hc. case_bool_decide; lia.
Qed.

Lemma refs_global w p : global_store w = Some p -> 0 < refs w p.
Proof. intros Hg. unfold refs, global_ref. rewrite bool_decide_true by done. lia. Qed.

(** A psoc's context and the store behind it. *)
Lemma psoc_store w psoc :
  cfg_inv w -> is_Some (priv w !! psoc) ->
  exists c p s, priv w !! psoc = Some c /\ ctxs w !! c = Some p /\ stores w !! p = Some s.
Proof.
  intros Hinv [c Hc]. destruct (ci_priv _ (inv_ctx _ Hinv) _ _ Hc) as [p Hp].
  destruct (mem_inv_live _ _ p (inv_mem _ Hinv) (refs_ctx _ _ _ Hp)) as (s & Hs & _).
  by exists c, p, s.
Qed.

Lemma parse_to_store_inv fw okf path p s w :
  distinct_items cfg_all -> cfg_inv w -> stores w !! p = Some s ->
  runs (cfg_ini_parse_to_store cfg_all uninit (qdf_file_read fw okf) path p)
    (fun _ w' => cfg_inv w') w.
Proof.
  intros Hd Hinv Hs.
  destruct (parse_to_store_eq fw okf path p s w Hs) as (st & v & Heq & Hv).
  eexists st, _. split; [exact Heq|]. apply inv_set_values; [done..|].
  eapply parsed_values_ok; [done..|]. by apply (inv_vals _ Hinv p).
Qed.

Lemma parse_to_psoc_inv fw okf psoc path w :
  distinct_items cfg_all -> cfg_inv w -> is_Some (priv w !! psoc) ->
  runs (cfg_parse_to_psoc_store cfg_all uninit (qdf_file_read fw okf) psoc path)
    (fun _ w' => cfg_inv w') w.
Proof.
  intros Hd Hinv Hp. destruct (psoc_store _ _ Hinv Hp) as (c & p & s & Hc & Hx & Hs).
  unfold runs, cfg_parse_to_psoc_store. rewrite (get_ctx_eq _ _ _ _ Hc), (read_ctx_eq _ _ _ _ Hx).
  by apply (parse_to_store_inv _ _ _ _ s).
Qed.

Lemma parse_to_global_inv fw okf path w :
  distinct_items cfg_all -> cfg_inv w ->
  runs (cfg_parse_to_global_store cfg_all uninit (qdf_file_read fw okf) path)
    (fun _ w' => cfg_inv w') w.
Proof.
  intros Hd Hinv. unfold runs, cfg_parse_to_global_store. rewrite bind_gets.
  destruct (global_store w) as [g|] eqn:Hg; [|by eexists _, w].
  destruct (mem_inv_live _ _ g (inv_mem _ Hinv) (refs_global _ _ Hg)) as (s & Hs & _).
  by apply (parse_to_store_inv _ _ _ _ s).
Qed.

(** Dropping a reference the rest of the world does not count. *)
Lemma inv_put w p (r : nat -> Z) :
  mem_inv w r -> 0 < r p -> (forall q, shift p (-1) r q = refs w q) ->
  ctx_inv w -> vals_inv w -> (is_init w = true -> is_Some (stores_list w)) ->
  is_init w = true ->
  runs (cfg_store_put p) (fun _ w' => cfg_inv w') w.
Proof.
  intros Hm Hp Hr Hc Hv Hu Hi. exists tt, (put_store p w). split; [by eapply put_eq|].
  destruct (put_store_fields p w) as (E1 & E2 & E3 & E4 & E5 & E6).
  split.
  - apply (mem_inv_ext _ (shift p (-1) r)); [|by apply put_inv].
    intros q. rewrite Hr. unfold refs. by rewrite E1, E5.
  - apply (ctx_inv_world w); try done. lia.
  - by apply vals_inv_put.
  - intros _. auto.
  - congruence.
Qed.


Lemma inv_up_of_ref w p : cfg_inv w -> 0 < refs w p -> is_init w = true.
Proof.
  intros Hinv Hp. destruct (mem_inv_live _ _ p (inv_mem _ Hinv) Hp) as (s & Hs & _).
  destruct (is_init w) eqn:E; [done|]. by rewrite (inv_down _ Hinv E), lookup_empty in Hs.
Qed.

Lemma release_inv w : cfg_inv w -> runs cfg_release (fun _ w' => cfg_inv w') w.
Proof.
  intros Hinv. unfold runs, cfg_release. rewrite bind_gets.
  destruct (global_store w) as [g|] eqn:Hg; [|by eexists _, w].
  pose proof (refs_global _ _ Hg) as Hp. pose proof (inv_up_of_ref _ _ Hinv Hp) as Hi.
  destruct Hinv as [Hm Hc Hv Hu Hd].
  rewrite (bind_ret _ _ _ _ _ (put_eq _ _ _ Hm Hp)). eexists tt, _. split; [done|].
  destruct (put_store_fields g w) as (E1 & E2 & E3 & E4 & E5 & E6). split; cbn.
  - apply (mem_inv_world (put_store g w)); [done..|].
    apply (mem_inv_ext _ (shift g (-1) (refs w))); [|by apply put_inv].
    intros q. unfold refs, shift, global_ref. cbn. rewrite E1, Hg. 
    repeat case_bool_decide; simplify_eq; lia.
  - apply (ctx_inv_world w); cbn; try done. lia.
  - by apply (vals_inv_put g w).
  - intros _. auto.
  - congruence.
Qed.

Lemma next_ctx_free w : ctx_inv w -> ctxs w !! next w = None.
Proof.
  intros Hc. apply eq_None_not_Some. intros H. pose proof (ci_next _ Hc _ H). lia.
Qed.

(** A new context on the global store, before it is attached. *)
Definition new_ctx (g : nat) (s : cfg_value_store) (w : cfg_world) : cfg_world :=
  let w' := set_store g (set_users (users s + 1) s) (with_next (S (next w)) w) in
  with_ctxs (<[next w := g]> (ctxs w)) w'.

Lemma new_ctx_refs g s w q :
  ctxs w !! next w = None -> shift g 1 (refs w) q = refs (new_ctx g s w) q.
Proof.
  intros Hc. unfold refs, new_ctx. cbn. rewrite holders_insert by done.
  unfold shift. case_bool_decide; lia.
Qed.

Lemma new_ctx_mem g s w :
  cfg_inv w -> stores w !! g = Some s -> mem_inv (new_ctx g s w) (shift g 1 (refs w)).
Proof.
  intros Hinv Hs. apply (mem_inv_world (set_store g (set_users (users s + 1) s) w)); [done..| |].
  - cbn. lia.
  - by apply get_inv; [apply Hinv|].
Qed.

Lemma psoc_create_inv ok psoc w :
  cfg_inv w -> runs (cfg_on_psoc_create ok psoc) (fun _ w' => cfg_inv w') w.
Proof.
  intros Hinv. unfold runs, cfg_on_psoc_create. rewrite bind_gets.
  destruct (global_store w) as [g|] eqn:Hg; [|by eexists _, w].
  destruct ok; [|by eexists _, w]. cbn [negb].
  pose proof (refs_global _ _ Hg) as Hp. pose proof (inv_up_of_ref _ _ Hinv Hp) as Hi.
  destruct (mem_inv_live _ _ g (inv_mem _ Hinv) Hp) as (s & Hs & _).
  pose proof (next_ctx_free _ (inv_ctx _ Hinv)) as Hfree.
  rewrite bind_gets, bind_modify.
  erewrite bind_ret by (apply (update_store_eq g _ s); exact Hs).
  rewrite bind_modify. change (with_ctxs _ _) with (new_ctx g s w).
  pose proof (new_ctx_mem g s w Hinv Hs) as Hm'.
  assert (vals_inv (new_ctx g s w)) as Hv'.
  { intros q x. cbn. intros [[<- <-]|[_ Hq]]%lookup_insert_Some;
      [by apply (inv_vals _ Hinv g s)|by apply (inv_vals _ Hinv q)]. }
  pose proof (inv_ctx _ Hinv) as [C1 C2 C3 C4].
  unfold cfg_psoc_set_priv. rewrite bind_assoc, bind_gets. unfold id at 1.
  change (priv (new_ctx g s w)) with (priv w).
  destruct (priv w !! psoc) as [c|] eqn:Hpr.
  - unfold mbind at 1, M_bind at 1. cbn [mret M_ret QDF_IS_STATUS_ERROR QDF_IS_STATUS_SUCCESS negb].
    erewrite bind_ret by (apply (put_eq g _ _ Hm'); unfold shift; rewrite bool_decide_true by done; lia).
    destruct (put_store_fields g (new_ctx g s w)) as (E1 & E2 & E3 & E4 & E5 & E6).
    unfold free_ctx. rewrite bind_assoc, (read_ctx_eq _ g) by (rewrite E1; apply lookup_insert_eq).
    rewrite bind_modify. eexists _, _. split; [done|].
    assert (delete (next w) (ctxs (new_ctx g s w)) = ctxs w) as Hdel
      by (cbn; by rewrite delete_insert_eq, delete_id by done).
    split; cbn.
    + apply (mem_inv_world (put_store g (new_ctx g s w))); [done..|].
      eapply mem_inv_ext; [|apply put_inv; [exact Hm'|unfold shift; rewrite bool_decide_true by done; lia]].
      intros q. unfold shift, refs; cbn [ctxs global_store with_ctxs]. rewrite E1, Hdel, E5. cbn.
      case_bool_decide; lia.
    + split; cbn; rewrite ?E1, ?Hdel, ?E2, ?E3; cbn; [exact C1|exact C2|exact C3|].
      intros c' H. specialize (C4 c' H). lia.
    + by apply (vals_inv_put g (new_ctx g s w)).
    + intros _. apply E6. by apply Hinv.
    + rewrite E4. cbn. congruence.
  - rewrite bind_assoc, bind_modify. eexists _, _. split; [done|]. split; cbn.
    + apply (mem_inv_world (new_ctx g s w)); [done..|].
      eapply mem_inv_ext; [|exact Hm']. intros q. rewrite (new_ctx_refs g s) by done. done.
    + split; cbn.
      * intros ps c [[<- <-]|[_ H]]%lookup_insert_Some; [rewrite lookup_insert_eq; by eexists|].
        destruct (C1 _ _ H) as [x Hx]. rewrite lookup_insert_ne; [by exists x|]. congruence.
      * intros ps ps' c [[<- <-]|[Hn H]]%lookup_insert_Some [[<- E]|[Hn' H']]%lookup_insert_Some;
          try done.
        -- destruct (C1 _ _ H') as [x Hx]. congruence.
        -- subst. destruct (C1 _ _ H) as [x Hx]. congruence.
        -- by eapply C2.
      * intros c [x [[<- _]|[Hn H]]%lookup_insert_Some];
          [exists psoc; by rewrite lookup_insert_eq|].
        destruct (C3 c ltac:(by exists x)) as [ps Hps]. exists ps.
        rewrite lookup_insert_ne; [done|]. congruence.
      * intros c [x [[<- _]|[Hn H]]%lookup_insert_Some]; [lia|].
        specialize (C4 c ltac:(by exists x)). lia.
    + exact Hv'.
    + intros _. by apply Hinv.
    + congruence.
Qed.

Lemma psoc_destroy_inv psoc w :
  cfg_inv w -> is_Some (priv w !! psoc) ->
  runs (cfg_on_psoc_destroy psoc) (fun st w' => st = QDF_STATUS_SUCCESS /\ cfg_inv w' /\
    priv w' = delete psoc (priv w)) w.
Proof.
  intros Hinv Hps. destruct (psoc_store _ _ Hinv Hps) as (c & p & s & Hc & Hp & Hs).
  pose proof (refs_ctx _ _ _ Hp) as Hr. pose proof (inv_up_of_ref _ _ Hinv Hr) as Hi.
  pose proof (inv_ctx _ Hinv) as [C1 C2 C3 C4].
  unfold runs, cfg_on_psoc_destroy. rewrite (get_ctx_eq _ _ _ _ Hc).
  unfold cfg_psoc_unset_priv. rewrite bind_assoc, bind_gets. unfold id at 1.
  rewrite bool_decide_true by done. rewrite bind_assoc, bind_modify.
  unfold mbind at 1, M_bind at 1. cbn [mret M_ret].
  set (w1 := with_priv (delete psoc (priv w)) w). rewrite (read_ctx_eq _ p) by done.
  assert (mem_inv w1 (refs w)) as Hm1 by (apply (mem_inv_world w); [done..|apply Hinv]).
  rewrite (bind_ret _ _ _ _ _ (put_eq _ _ _ Hm1 Hr)).
  destruct (put_store_fields p w1) as (E1 & E2 & E3 & E4 & E5 & E6).
  unfold free_ctx. rewrite bind_assoc, (read_ctx_eq _ p) by (by rewrite E1).
  rewrite bind_modify. eexists _, _. split; [done|]. split; [done|]. split; [|by cbn; rewrite E2].
  split; cbn.
  - apply (mem_inv_world (put_store p w1)); [done..|].
    eapply mem_inv_ext; [|apply put_inv; [exact Hm1|exact Hr]].
    intros q. unfold shift, refs; cbn [ctxs global_store with_ctxs]. rewrite E1, E5. cbn [w1 ctxs global_store with_priv]. rewrite (holders_delete _ _ p) by done.
    unfold shift. case_bool_decide; lia.
  - split; cbn; rewrite ?E1, ?E2, ?E3; cbn.
    + intros ps c' [Hn H]%lookup_delete_Some. destruct (C1 _ _ H) as [x Hx].
      rewrite lookup_delete_ne; [by exists x|]. intros <-. by rewrite (C2 _ _ _ Hc H) in Hn.
    + intros ps ps' c' [_ H]%lookup_delete_Some [_ H']%lookup_delete_Some. by eapply C2.
    + intros c' [x [Hn H]%lookup_delete_Some]. destruct (C3 c' ltac:(by exists x)) as [ps Hps'].
      exists ps. rewrite lookup_delete_ne; [done|]. congruence.
    + intros c' [x [Hn H]%lookup_delete_Some]. apply C4. by exists x.
  - apply (vals_inv_put p w1). apply Hinv.
  - intros _. apply E6. by apply Hinv.
  - rewrite E4. cbn. congruence.
Qed.


Lemma alloc_values path v v' l w :
  set_store (next w) (set_values v' (Store path 1 v)) (alloc_store path v l w) =
  alloc_store path v' l w.
Proof. unfold alloc_store, set_store. cbn. by rewrite insert_insert_eq. Qed.

Lemma alloc_lookup path v l w : stores (alloc_store path v l w) !! next w = Some (Store path 1 v).
Proof. cbn. by rewrite lookup_insert_eq. Qed.

Lemma free_put p w r :
  mem_inv w r -> r p = 1 -> cfg_store_free p w = Ret tt (put_store p w).
Proof.
  intros Hinv Hr. destruct (mem_inv_live w r p Hinv ltac:(lia)) as (s & Hs & Hu).
  rewrite free_eq; [|apply Hinv|by exists s]. unfold put_store. rewrite Hs.
  destruct (Z.eqb_spec (users s) 1); [done|lia].
Qed.

Lemma inv_ref_none w p : cfg_inv w -> stores w !! p = None -> refs w p = 0.
Proof. intros Hinv Hp. pose proof (mi_refs _ _ (inv_mem _ Hinv) p) as H. by rewrite Hp in H. Qed.

(** A store that could not be filled goes away again. *)
Lemma alloc_put_inv path v l w :
  cfg_inv w -> stores_list w = Some l -> is_init w = true ->
  let w' := alloc_store path v l w in
  mem_inv w' (shift (next w) 1 (refs w)) /\ shift (next w) 1 (refs w) (next w) = 1 /\
  cfg_inv (put_store (next w) w') /\ stores (put_store (next w) w') = stores w.
Proof.
  intros Hinv Hl Hi w'. destruct (alloc_inv path v l w _ (inv_mem _ Hinv) Hl) as [Hf Hm].
  pose proof (inv_ref_none _ _ Hinv Hf) as H0.
  assert (shift (next w) 1 (refs w) (next w) = 1) as H1
    by (unfold shift; rewrite bool_decide_true by done; lia).
  assert (stores (put_store (next w) w') = stores w) as Hst.
  { unfold put_store, w'. rewrite alloc_lookup. cbn.
    by rewrite delete_insert_eq, delete_id by done. }
  split; [exact Hm|]. split; [exact H1|]. split; [|exact Hst].
  destruct (put_store_fields (next w) w') as (E1 & E2 & E3 & E4 & E5 & E6). split.
  - eapply mem_inv_ext; [|apply put_inv; [exact Hm|lia]]. intros q. unfold refs. rewrite E1, E5.
    unfold shift, refs. cbn. case_bool_decide; lia.
  - apply (ctx_inv_world w); [by rewrite E1|by rewrite E2|rewrite E3; cbn; lia|apply Hinv].
  - intros q x. rewrite Hst. apply (inv_vals _ Hinv).
  - intros _. apply E6. by eexists.
  - rewrite E4. cbn. congruence.
Qed.

Lemma vals_inv_alloc path v l w :
  vals_inv w -> values_ok cfg_all v -> vals_inv (alloc_store path v l w).
Proof.
  intros Hv Hok q x. cbn. intros [[<- <-]|[_ Hq]]%lookup_insert_Some; [done|by apply (Hv q)].
Qed.

Lemma defaults_values_ok :
  distinct_items cfg_all -> values_ok cfg_all (cfg_store_set_defaults cfg_all ∅).
Proof.
  intros Hd i Hi. exists (default_value i). split; [|by left]. by apply set_defaults_lookup.
Qed.

Lemma parse_inv ok okp fw okf path w :
  distinct_items cfg_all -> cfg_inv w -> is_init w = true ->
  runs (cfg_parse cfg_all uninit ok okp (qdf_file_read fw okf) path) (fun _ w' => cfg_inv w') w.
Proof.
  intros Hd Hinv Hi. unfold runs, cfg_parse. rewrite bind_gets.
  destruct (global_store w) as [g|] eqn:Hg; [by eexists _, w|].
  destruct ok; [|by eexists _, w]. destruct okp; [|by eexists _, w].
  destruct (inv_up _ Hinv Hi) as [l Hl].
  rewrite (bind_ret _ _ _ _ _ (alloc_eq path l w Hl)). cbn [users values].
  rewrite (bind_ret _ _ _ _ _ (update_store_eq _ _ _ _ (alloc_lookup path ∅ l w))), alloc_values.
  cbn [values]. set (v0 := cfg_store_set_defaults cfg_all ∅).
  destruct (parse_to_store_eq fw okf path _ _ _ (alloc_lookup path v0 l w)) as (st & v & Heq & Hcase).
  rewrite (bind_ret _ _ _ _ _ Heq), alloc_values. cbn [values] in Hcase.
  pose proof (parsed_values_ok _ _ _ _ _ _ Hd Hcase (defaults_values_ok Hd)) as Hok.
  destruct (alloc_put_inv path v l w Hinv Hl Hi) as (Hm & H1 & Hput & _).
  destruct (QDF_IS_STATUS_ERROR st).
  - rewrite (bind_ret _ _ _ _ _ (free_put _ _ _ Hm H1)). by eexists _, _.
  - rewrite bind_modify. eexists _, _. split; [done|]. split; cbn.
    + apply (mem_inv_world (alloc_store path v l w)); [done..|].
      eapply mem_inv_ext; [|exact Hm]. intros q. unfold refs, shift, global_ref. cbn. rewrite Hg.
      repeat case_bool_decide; simplify_eq; lia.
    + apply (ctx_inv_world w); [done|done|cbn; lia|apply Hinv].
    + apply (vals_inv_alloc path v l w); [apply Hinv|done].
    + by intros _; eexists.
    + congruence.
Qed.

(** The search of a parsed file. *)
Lemma store_find_eq path' l w :
  (forall p, p ∈ l -> is_Some (stores w !! p)) ->
  (exists p s, p ∈ l /\ stores w !! p = Some s /\ path s = path' /\
     cfg_store_find path' l w = Ret (Some p) (set_store p (set_users (users s + 1) s) w)) \/
  ((forall p s, p ∈ l -> stores w !! p = Some s -> path s <> path') /\
     cfg_store_find path' l w = Ret None w).
Proof.
  induction l as [|p l IH]; intros Hall.
  { right. split; [|done]. intros p s Hp. by apply elem_of_nil in Hp. }
  destruct (Hall p (list_elem_of_here _ _)) as [s Hs]. cbn [cfg_store_find].
  rewrite (read_store_eq _ _ _ _ Hs). case_bool_decide as E.
  - left. exists p, s. split; [by left|]. split; [done|]. split; [done|].
    by rewrite (bind_ret _ _ _ _ _ (update_store_eq _ _ _ _ Hs)).
  - destruct IH as [(q & t & Hq & Ht & Hpath & Heq)|[Hno Heq]].
    + intros q Hq. apply Hall. by right.
    + left. exists q, t. split; [by right|]. done.
    + right. split; [|done]. intros q t [->|Hq]%elem_of_cons Ht; [congruence|by eapply Hno].
Qed.

(** What [cfg_psoc_store] answers: a live store of the path with one reference for
    the caller, everything else as it was. *)
Definition psoc_store_post (g : nat) (fw : cstr -> option (list Z)) (okf : bool) (path' : cstr)
    (w : cfg_world) (r : res nat) (w' : cfg_world) : Prop :=
  ctxs w' = ctxs w /\ priv w' = priv w /\ global_store w' = global_store w /\
  is_init w' = is_init w /\ (next w <= next w')%nat /\ is_Some (stores_list w') /\
  match r with
  | Err st => QDF_IS_STATUS_ERROR st = true /\ cfg_inv w' /\ stores w' = stores w
  | Ok p =>
      mem_inv w' (shift p 1 (refs w)) /\ vals_inv w' /\
      (forall q, q <> p -> stores w' !! q = stores w !! q) /\
      exists s', stores w' !! p = Some s' /\ path s' = path' /\
        ((exists s, stores w !! p = Some s /\ path s = path' /\ values s' = values s) \/
         (exists gs data, stores w !! p = None /\
            (forall q s, stores w !! q = Some s -> path s <> path') /\
            stores w !! g = Some gs /\ fw path' = Some data /\ okf = true /\
            values s' = file_values cfg_all uninit data (values gs)))
  end.

Lemma psoc_store_spec ok okp fw okf path' g w :
  distinct_items cfg_all -> cfg_inv w -> is_init w = true -> global_store w = Some g ->
  runs (cfg_psoc_store cfg_all uninit ok okp (qdf_file_read fw okf) path')
    (psoc_store_post g fw okf path' w) w.
Proof.
  intros Hd Hinv Hi Hg. destruct (inv_up _ Hinv Hi) as [l Hl].
  pose proof (mi_list _ _ (inv_mem _ Hinv)) as Hlist. unfold list_ok in Hlist. rewrite Hl in Hlist.
  destruct Hlist as [Hnd Hlist].
  unfold runs, cfg_psoc_store, cfg_store_get. rewrite bind_assoc, bind_gets, bind_assoc.
  unfold id. rewrite (bind_deref _ _ l) by done.
  destruct (store_find_eq path' l w) as [(p & s & Hp & Hs & Hpath & Heq)|[Hno Heq]];
    [intros p; apply Hlist|rewrite (bind_ret _ _ _ _ _ Heq)..].
  { eexists _, _. split; [done|]. unfold psoc_store_post. cbn [mret]. split_and!; try done.
    - by apply get_inv; [apply Hinv|].
    - apply vals_inv_set; [apply Hinv|]. by apply (inv_vals _ Hinv p s).
    - intros q Hq. cbn. by rewrite lookup_insert_ne by done.
    - eexists. split; [cbn; by rewrite lookup_insert_eq|]. split; [done|]. left. by exists s. }
  destruct ok; [|eexists _, _; split; [done|]; unfold psoc_store_post; split_and!; try done; by eexists].
  destruct okp; [|eexists _, _; split; [done|]; unfold psoc_store_post; split_and!; try done; by eexists].
  rewrite (bind_ret _ _ _ _ _ (alloc_eq path' l w Hl)).
  destruct (mem_inv_live _ _ g (inv_mem _ Hinv) (refs_global _ _ Hg)) as (gs & Hgs & _).
  destruct (alloc_inv path' ∅ l w _ (inv_mem _ Hinv) Hl) as [Hfree _].
  unfold read_global. rewrite bind_assoc, bind_gets. unfold id. rewrite (bind_deref _ _ g) by done.
  rewrite (read_store_eq g gs) by (cbn; rewrite lookup_insert_ne; [done|congruence]).
  rewrite (bind_ret _ _ _ _ _ (update_store_eq _ _ _ _ (alloc_lookup path' ∅ l w))), alloc_values.
  destruct (parse_to_store_eq fw okf path' _ _ _ (alloc_lookup path' (values gs) l w))
    as (st & v & Hpe & Hcase).
  rewrite (bind_ret _ _ _ _ _ Hpe), alloc_values. cbn [values] in Hcase.
  pose proof (parsed_values_ok _ _ _ _ _ _ Hd Hcase (inv_vals _ Hinv _ _ Hgs)) as Hok.
  destruct (alloc_put_inv path' v l w Hinv Hl Hi) as (Hm & H1 & Hput & Hst).
  destruct (QDF_IS_STATUS_ERROR st) eqn:He.
  - rewrite (bind_ret _ _ _ _ _ (put_eq (next w) _ _ Hm ltac:(rewrite H1; lia))). eexists _, _. split; [done|].
    destruct (put_store_fields (next w) (alloc_store path' v l w)) as (E1 & E2 & E3 & E4 & E5 & E6).
    unfold psoc_store_post. rewrite E1, E2, E3, E4, E5. split_and!; try done; [cbn; lia|].
    apply E6. by eexists.
  - destruct Hcase as [(data & Hfw & Hokf & _ & ->)|[? _]]; [|congruence].
    eexists _, _. split; [done|]. unfold psoc_store_post. cbn [mret].
    split_and!; try done; [cbn; lia|by apply vals_inv_alloc; [apply Hinv|]|..].
    + intros q Hq. cbn. by rewrite lookup_insert_ne by done.
    + eexists. split; [apply alloc_lookup|]. split; [done|]. right. exists gs, data.
      split_and!; try done. intros q s Hq. apply (Hno q); [|done]. apply Hlist. by exists s.
Qed.


(** The values a psoc reads. *)
Definition psoc_values (w : cfg_world) (psoc : nat) : option cfg_values :=
  c ← priv w !! psoc; p ← ctxs w !! c; s ← stores w !! p; Some (values s).

Lemma psoc_values_eq w psoc c p s :
  priv w !! psoc = Some c -> ctxs w !! c = Some p -> stores w !! p = Some s ->
  psoc_values w psoc = Some (values s).
Proof. intros Hc Hp Hs. unfold psoc_values, mbind, option_bind. by rewrite Hc, Hp, Hs. Qed.

Lemma get_values_eq w psoc v :
  psoc_values w psoc = Some v -> cfg_psoc_get_values psoc w = Ret v w.
Proof.
  unfold psoc_values, mbind, option_bind. intros H. unfold cfg_psoc_get_values.
  destruct (priv w !! psoc) as [c|] eqn:Hc; [|done]. rewrite (get_ctx_eq _ _ _ _ Hc).
  destruct (ctxs w !! c) as [p|] eqn:Hp; [|done]. rewrite (read_ctx_eq _ _ _ _ Hp).
  destruct (stores w !! p) as [s|] eqn:Hs; [|done]. rewrite (read_store_eq _ _ _ _ Hs).
  by injection H as ->.
Qed.

(** A put leaves the values of every store that is still referenced. *)
Lemma put_store_values p w q s :
  stores (put_store p w) !! q = Some s ->
  exists s', stores w !! q = Some s' /\ values s = values s' /\ path s = path s'.
Proof.
  unfold put_store. destruct (stores w !! p) as [t|] eqn:Ht; [|by intros H; exists s].
  case_match; cbn.
  - intros [_ Hq]%lookup_delete_Some. by exists s.
  - intros [[<- <-]|[_ Hq]]%lookup_insert_Some; [by exists t|by exists s].
Qed.

(** What [cfg_psoc_parse] does on a psoc that is on the global store: the psoc moves
    to the store of its file, the others and the global store stay. *)
Definition psoc_parse_post (g : nat) (fw : cstr -> option (list Z)) (okf : bool) (psoc : nat)
    (path' : cstr) (w : cfg_world) (st : QDF_STATUS) (w' : cfg_world) : Prop :=
  cfg_inv w' /\ global_store w' = Some g /\
  (forall psoc', psoc' <> psoc -> psoc_values w' psoc' = psoc_values w psoc') /\
  (forall gs, stores w !! g = Some gs ->
     exists gs', stores w' !! g = Some gs' /\ values gs' = values gs) /\
  (QDF_IS_STATUS_ERROR st = true /\ psoc_values w' psoc = psoc_values w psoc \/
   st = QDF_STATUS_SUCCESS /\
   ((exists p s, stores w !! p = Some s /\ path s = path' /\
       psoc_values w' psoc = Some (values s)) \/
    (exists gs data, (forall q s, stores w !! q = Some s -> path s <> path') /\
       stores w !! g = Some gs /\ fw path' = Some data /\ okf = true /\
       psoc_values w' psoc = Some (file_values cfg_all uninit data (values gs))))).

Lemma psoc_values_same w w' psoc :
  priv w' = priv w -> ctxs w' = ctxs w -> stores w' = stores w ->
  psoc_values w' psoc = psoc_values w psoc.
Proof. unfold psoc_values. by intros -> -> ->. Qed.

(** A live context's store in the world after the psoc has moved. *)
Lemma moved_values w w2 c p psoc g (w3 := with_ctxs (<[c := p]> (ctxs w)) w2) :
  cfg_inv w -> priv w2 = priv w -> priv w !! psoc = Some c -> ctxs w !! c = Some g ->
  (forall q, q <> p -> stores w2 !! q = stores w !! q) ->
  (forall s, stores w !! p = Some s -> exists s', stores w2 !! p = Some s' /\ values s' = values s) ->
  cfg_inv (put_store g w3) ->
  (forall psoc', psoc' <> psoc -> psoc_values (put_store g w3) psoc' = psoc_values w psoc') /\
  (forall s, stores w2 !! p = Some s -> psoc_values (put_store g w3) psoc = Some (values s)).
Proof.
  intros Hinv Hpriv Hc Hg Hsame Hp Hinv'. pose proof (inv_ctx _ Hinv) as [C1 C2 _ _].
  destruct (put_store_fields g w3) as (E1 & E2 & _).
  assert (forall psoc' c' q, priv w !! psoc' = Some c' -> ctxs w3 !! c' = Some q ->
     exists s s', stores w2 !! q = Some s' /\ values s = values s' /\
       psoc_values (put_store g w3) psoc' = Some (values s)) as Hread.
  { intros psoc' c' q Hc' Hq.
    assert (priv (put_store g w3) !! psoc' = Some c') as Hp'
      by (rewrite E2; cbn; by rewrite Hpriv).
    destruct (psoc_store _ psoc' Hinv' ltac:(by exists c')) as (c2 & q2 & s & H1 & H2 & H3).
    assert (c2 = c') as -> by congruence. assert (q2 = q) as -> by (rewrite E1 in H2; congruence).
    pose proof (psoc_values_eq _ _ _ _ _ Hp' H2 H3) as Hv.
    apply put_store_values in H3 as (s' & Hs' & Hval & _). by exists s, s'. }
  split.
  - intros psoc' Hne. destruct (priv w !! psoc') as [c'|] eqn:Hc'.
    + assert (c' <> c) as Hcc by (intros ->; by apply Hne, (C2 _ _ c)).
      destruct (psoc_store _ _ Hinv ltac:(by exists c')) as (c1 & q & s & H1 & H2 & H3).
      assert (c1 = c') as -> by congruence.
      destruct (Hread psoc' c' q Hc') as (t & t' & Ht' & Htt & Hv).
      { cbn. by rewrite lookup_insert_ne by congruence. }
      rewrite Hv, (psoc_values_eq _ _ _ _ _ H1 H2 H3), Htt. f_equal.
      destruct (decide (q = p)) as [->|Hqp].
      * destruct (Hp _ H3) as (s' & Hs' & <-). congruence.
      * rewrite Hsame in Ht' by done. congruence.
    + unfold psoc_values. rewrite E2. cbn. by rewrite Hpriv, Hc'.
  - intros s Hs. destruct (Hread psoc c p Hc) as (t & t' & Ht' & Htt & ->).
    { cbn. by rewrite lookup_insert_eq. }
    rewrite Htt. congruence.
Qed.

Lemma psoc_parse_spec ok okp fw okf psoc path' c g w :
  distinct_items cfg_all -> cfg_inv w -> global_store w = Some g ->
  priv w !! psoc = Some c -> ctxs w !! c = Some g ->
  runs (cfg_psoc_parse cfg_all uninit ok okp (qdf_file_read fw okf) (Some psoc) (Some path'))
    (psoc_parse_post g fw okf psoc path' w) w.
Proof.
  intros Hd Hinv Hg Hc Hp. pose proof (inv_up_of_ref _ _ Hinv (refs_global _ _ Hg)) as Hi.
  unfold runs, cfg_psoc_parse. rewrite !bind_gets, Hg, Hi.
  rewrite (get_ctx_eq _ _ _ _ Hc), (read_ctx_eq _ _ _ _ Hp), bool_decide_true by done. cbn [negb].
  destruct (psoc_store_spec ok okp fw okf path' g w Hd Hinv Hi Hg)
    as (r & w2 & Heq & E1 & E2 & E3 & E4 & E5 & E6 & Hr).
  rewrite (bind_ret _ _ _ _ _ Heq). destruct r as [p|st].
  2: { destruct Hr as (He & Hinv2 & Hst). eexists _, _. split; [done|].
       split; [done|]. split; [congruence|]. split; [intros; by apply psoc_values_same|].
       split; [intros gs; rewrite Hst; by exists gs|]. left. split; [done|].
       by apply psoc_values_same. }
  destruct Hr as (Hm & Hv & Hsame & s' & Hs' & Hpath & Hval). rewrite bind_modify.
  set (w3 := with_ctxs (<[c := p]> (ctxs w2)) w2).
  assert (mem_inv w3 (shift p 1 (refs w))) as Hm3 by (by apply (mem_inv_world w2)).
  assert (0 < shift p 1 (refs w) g) as Hgpos.
  { pose proof (refs_global _ _ Hg). unfold shift. case_bool_decide; lia. }
  assert (cfg_inv (put_store g w3)) as Hinv3.
  { destruct (inv_put w3 g (shift p 1 (refs w)) Hm3 Hgpos) as (a & w4 & Hput & Hi4).
    - intros q. unfold refs. cbn. rewrite E1, E3, (holders_replace _ _ g) by done.
      unfold shift, refs. repeat case_bool_decide; lia.
    - destruct (inv_ctx _ Hinv) as [C1 C2 C3 C4]. split; cbn; rewrite ?E1, ?E2.
      + intros ps c' H. destruct (C1 _ _ H) as [x Hx].
        destruct (decide (c' = c)) as [->|]; [rewrite lookup_insert_eq; by eexists|].
        rewrite lookup_insert_ne by done. by exists x.
      + done.
      + intros c' [x [[<- _]|[_ H]]%lookup_insert_Some]; [by exists psoc|]. apply C3. by exists x.
      + intros c' [x [[<- _]|[_ H]]%lookup_insert_Some].
        * specialize (C4 c ltac:(by exists g)). lia.
        * specialize (C4 c' ltac:(by exists x)). lia.
    - exact Hv.
    - by intros _.
    - cbn. by rewrite E4.
    - rewrite (put_eq _ _ _ Hm3 Hgpos) in Hput. congruence. }
  rewrite (bind_ret _ _ _ _ _ (put_eq _ _ _ Hm3 Hgpos)). eexists _, _. split; [done|].
  subst w3. rewrite E1 in *.
  assert (forall s, stores w !! p = Some s -> exists s', stores w2 !! p = Some s' /\ values s' = values s)
    as Hkeep.
  { intros s Hs. exists s'. split; [done|]. destruct Hval as [(t & Ht & _ & ->)|(? & ? & ? & _)]; congruence. }
  destruct (moved_values w w2 c p psoc g Hinv E2 Hc Hp Hsame Hkeep Hinv3) as [Hothers Hself].
  split; [exact Hinv3|].
  split; [by rewrite (proj1 (proj2 (proj2 (proj2 (proj2 (put_store_fields _ _)))))); cbn; congruence|].
  split; [exact Hothers|]. split.
  - intros gs Hgs.
    assert (0 < refs (put_store g (with_ctxs (<[c:=p]> (ctxs w)) w2)) g) as Hpos.
    { apply refs_global. rewrite (proj1 (proj2 (proj2 (proj2 (proj2 (put_store_fields _ _)))))). cbn. congruence. }
    destruct (mem_inv_live _ _ _ (inv_mem _ Hinv3) Hpos) as (gs' & Hgs' & _).
    exists gs'. split; [done|]. apply put_store_values in Hgs' as (t & Ht & -> & _). cbn in Ht.
    destruct (decide (g = p)) as [->|Hn].
    + destruct (Hkeep _ Hgs) as (t' & Ht' & <-). congruence.
    + rewrite Hsame in Ht by done. congruence.
  - right. split; [done|]. rewrite (Hself _ Hs').
    destruct Hval as [(s & Hs & Hps & ->)|(gs & data & _ & Hno & Hgs & Hfw & Hokf & ->)].
    + left. by exists p, s.
    + right. by exists gs, data.
Qed.


Lemma no_refs_no_stores w :
  cfg_inv w -> global_store w = None -> priv w = ∅ -> ctxs w = ∅ /\ stores w = ∅.
Proof.
  intros Hinv Hg Hp.
  assert (ctxs w = ∅) as Hc.
  { apply map_empty. intros c. apply eq_None_not_Some. intros H.
    destruct (ci_used _ (inv_ctx _ Hinv) _ H) as [psoc Hx]. by rewrite Hp, lookup_empty in Hx. }
  split; [done|]. apply map_empty. intros p. apply eq_None_not_Some. intros [s Hs].
  pose proof (mi_refs _ _ (inv_mem _ Hinv) p) as H. rewrite Hs in H. destruct H as [_ H].
  unfold refs, holders, global_ref in H. rewrite Hg, Hc in H.
  rewrite map_filter_empty, map_size_empty, bool_decide_false in H by done. lia.
Qed.

(** The list appears or disappears while there are no stores. *)
Lemma inv_without_stores w w' :
  cfg_inv w -> stores w = ∅ -> stores w' = ∅ -> ctxs w' = ctxs w -> next w' = next w ->
  global_store w' = global_store w -> priv w' = priv w ->
  stores_list w' = Some [] \/ stores_list w' = None /\ is_init w' = false -> cfg_inv w'.
Proof.
  intros Hinv Hs Hs' Hc Hn Hg Hp Hl. destruct Hinv as [[_ Hm _] Hctx _ _ _].
  split.
  - split.
    + unfold list_ok. destruct Hl as [-> |[-> _]]; [|done]. split; [constructor|].
      intros p. rewrite Hs', lookup_empty. split; [by intros ?%elem_of_nil|by intros [? ?]].
    + intros p. specialize (Hm p). unfold refs in *. by rewrite Hs', Hc, Hg, <- Hs.
    + intros p. rewrite Hs', lookup_empty. by intros [? ?].
  - apply (ctx_inv_world w); [done..|lia|done].
  - intros p s. by rewrite Hs', lookup_empty.
  - intros Hi. destruct Hl as [-> |[_ Hi']]; [by eexists|congruence].
  - done.
Qed.

Lemma step_inv op w :
  distinct_items cfg_all -> cfg_inv w -> allowed w op ->
  runs (run_op op) (fun _ w' => cfg_inv w') w.
Proof.
  intros Hd Hinv Hal. destruct op as [sc sd| |ok okp fw okf path'| |ok psoc|psoc
    |ok okp fw okf psoc path'|fw okf psoc path'|fw okf path']; cbn [run_op allowed] in *.
  - unfold runs, cfg_dispatcher_init. rewrite bind_gets.
    destruct (is_init w) eqn:Hi; [by eexists _, w|]. rewrite bind_modify.
    pose proof (inv_down _ Hinv Hi) as Hs.
    destruct (QDF_IS_STATUS_ERROR sc); [|destruct (QDF_IS_STATUS_ERROR sd)];
      (eexists _, _; split; [done|]); apply (inv_without_stores w); cbn; try done; by left.
  - unfold runs, cfg_dispatcher_deinit. rewrite bind_gets.
    destruct (is_init w) eqn:Hi; [|by eexists _, w]. cbn [negb]. rewrite !bind_modify.
    destruct Hal as [Hg Hp]. destruct (no_refs_no_stores _ Hinv Hg Hp) as [_ Hs].
    eexists _, _. split; [done|]. apply (inv_without_stores w); cbn; try done. by right.
  - by apply parse_inv.
  - destruct (release_inv w Hinv) as (a & w' & Heq & Hinv').
    unfold runs. rewrite (bind_ret _ _ _ _ _ Heq). by eexists _, w'.
  - by apply psoc_create_inv.
  - destruct (psoc_destroy_inv psoc w Hinv Hal) as (st & w' & Heq & _ & Hinv' & _). by exists st, w'.
  - unfold runs, cfg_psoc_parse. rewrite !bind_gets.
    destruct (global_store w) as [g|] eqn:Hg; [|by eexists _, w].
    destruct (is_init w) eqn:Hi; [|by eexists _, w].
    destruct psoc as [psoc|]; [|by eexists _, w]. destruct path' as [path'|]; [|by eexists _, w].
    destruct (psoc_store _ _ Hinv Hal) as (c & p & s & Hc & Hp & Hs).
    destruct (decide (p = g)) as [->|Hne].
    + destruct (psoc_parse_spec ok okp fw okf psoc path' c g w Hd Hinv Hg Hc Hp)
        as (st & w' & Heq & Hinv' & _).
      unfold cfg_psoc_parse in Heq. rewrite !bind_gets, Hg, Hi in Heq. by exists st, w'.
    + rewrite (get_ctx_eq _ _ _ _ Hc), (read_ctx_eq _ _ _ _ Hp), bool_decide_false by done.
      by eexists _, w.
  - by apply parse_to_psoc_inv.
  - by apply parse_to_global_inv.
Qed.

Lemma boot_inv : cfg_inv cfg_boot.
Proof.
  assert (mem_inv cfg_boot (refs cfg_boot)) as Hm.
  { split; [done|done|]. intros p [x Hx]. exfalso. exact (lookup_empty_Some p x Hx). }
  split; [exact Hm| |by intros p s; cbn; rewrite lookup_empty|done|done].
  split; cbn.
  - intros ? ?. by rewrite lookup_empty.
  - intros ? ? ?. by rewrite lookup_empty.
  - intros c [x Hx]. by rewrite lookup_empty in Hx.
  - intros c [x Hx]. by rewrite lookup_empty in Hx.
Qed.

Lemma cfg_reachable_inv w :
  distinct_items cfg_all -> cfg_reachable w -> cfg_inv w.
Proof.
  intros Hd. induction 1 as [|w op st w' _ IH Hal Hrun]; [apply boot_inv|].
  destruct (step_inv op w Hd IH Hal) as (st' & w2 & Heq & Hinv). congruence.
Qed.

End Life.

(** C13: The stores of the configuration component are safe and exactly counted.  For
    every table of items whose names and fields are distinct, in every state the entry
    points can reach, a store's [users] counter is the number of psocs on it plus one
    for the global pointer, it is positive, the list holds exactly the allocated
    stores, every item of every store has its default or a value that satisfies the
    item's constraint, and any further operation the callers may make returns: it
    reads no freed or NULL memory and its parser terminates.  (The defaults are stored
    without a check: see [default_outside_its_range].) *)
Theorem cfg_stores_counted cfg_all uninit w :
  distinct_items cfg_all -> cfg_reachable cfg_all uninit w ->
  (forall p s, stores w !! p = Some s ->
     users s = refs w p /\ 0 < users s /\ values_ok cfg_all (values s) /\
     exists l, stores_list w = Some l /\ p ∈ l) /\
  (forall psoc c, priv w !! psoc = Some c -> exists v, cfg_psoc_get_values psoc w = Ret v w) /\
  forall op, allowed w op -> exists st w', run_op cfg_all uninit op w = Ret st w'.
Proof.
  intros Hd Hr. pose proof (cfg_reachable_inv _ _ _ Hd Hr) as Hinv. split_and!.
  - intros p s Hs. pose proof (mi_refs _ _ (inv_mem _ _ Hinv) p) as H. rewrite Hs in H.
    destruct H as [Hu H0]. split; [done|]. split; [lia|]. split; [by apply (inv_vals _ _ Hinv p)|].
    pose proof (mi_list _ _ (inv_mem _ _ Hinv)) as Hl. unfold list_ok in Hl.
    destruct (stores_list w) as [l|]; [|by rewrite Hl, lookup_empty in Hs].
    exists l. split; [done|]. apply Hl. by exists s.
  - intros psoc c Hc. destruct (psoc_store _ _ psoc Hinv ltac:(by exists c)) as (c' & p & s & H1 & H2 & H3).
    exists (values s). apply get_values_eq. by eapply psoc_values_eq.
  - intros op Hal. destruct (step_inv cfg_all uninit op w Hd Hinv Hal) as (st & w' & Heq & _).
    by exists st, w'.
Qed.

(** Nothing leaks: when the global configuration has been released and every
    psoc destroyed, in whatever order, no store or context is left allocated and the
    list of stores is empty, which is what the dispatcher asserts when it goes
    down. *)
Theorem cfg_no_leak cfg_all uninit w :
  distinct_items cfg_all -> cfg_reachable cfg_all uninit w ->
  global_store w = None -> priv w = ∅ ->
  stores w = ∅ /\ ctxs w = ∅ /\ (forall l, stores_list w = Some l -> l = []) /\
  (is_init w = true -> exists w', cfg_dispatcher_deinit w = Ret QDF_STATUS_SUCCESS w').
Proof.
  intros Hd Hr Hg Hp. pose proof (cfg_reachable_inv _ _ _ Hd Hr) as Hinv.
  destruct (no_refs_no_stores _ _ Hinv Hg Hp) as [Hc Hs]. split_and!; try done.
  - intros l Hl. pose proof (mi_list _ _ (inv_mem _ _ Hinv)) as H. unfold list_ok in H.
    rewrite Hl in H. destruct H as [_ H]. destruct l as [|p l]; [done|].
    destruct (proj1 (H p) (list_elem_of_here _ _)) as [x Hx]. by rewrite Hs, lookup_empty in Hx.
  - intros Hi. unfold cfg_dispatcher_deinit. rewrite bind_gets, Hi. by eexists.
Qed.

(** Parsing a psoc's own file.  A psoc that is still on the global configuration
    moves to the store of its file: an existing one when some store already holds
    that path, or else a new one with the global values overridden by the file; no
    other psoc and not the global configuration sees a change.  When an allocation
    or the read fails the psoc keeps the global values. *)
Theorem cfg_psoc_parse_inherits cfg_all uninit w ok okp fw okf psoc path' c g gs :
  distinct_items cfg_all -> cfg_reachable cfg_all uninit w ->
  global_store w = Some g -> stores w !! g = Some gs ->
  priv w !! psoc = Some c -> ctxs w !! c = Some g ->
  exists st w',
    cfg_psoc_parse cfg_all uninit ok okp (qdf_file_read fw okf) (Some psoc) (Some path') w = Ret st w' /\
    (forall psoc', psoc' <> psoc -> psoc_values w' psoc' = psoc_values w psoc') /\
    (exists gs', global_store w' = Some g /\ stores w' !! g = Some gs' /\ values gs' = values gs) /\
    (QDF_IS_STATUS_ERROR st = true /\ psoc_values w' psoc = Some (values gs) \/
     st = QDF_STATUS_SUCCESS /\
     ((exists p s, stores w !! p = Some s /\ path s = path' /\
         psoc_values w' psoc = Some (values s)) \/
      (exists data, fw path' = Some data /\
         psoc_values w' psoc = Some (file_values cfg_all uninit data (values gs))))).
Proof.
  intros Hd Hr Hg Hgs Hc Hp. pose proof (cfg_reachable_inv _ _ _ Hd Hr) as Hinv.
  destruct (psoc_parse_spec cfg_all uninit ok okp fw okf psoc path' c g w Hd Hinv Hg Hc Hp)
    as (st & w' & Heq & _ & Hg' & Hothers & Hglobal & Hself).
  exists st, w'. split; [done|]. split; [done|]. split.
  { destruct (Hglobal _ Hgs) as (gs' & ? & ?). by exists gs'. }
  destruct Hself as [[He Hv]|[Hs [Hv|(gs' & data & _ & Hgs' & Hfw & _ & Hv)]]].
  - left. split; [done|]. rewrite Hv. by eapply psoc_values_eq.
  - right. by split; [|left].
  - right. split; [done|]. right. exists data. by simplify_eq.
Qed.

(** Start, global file, psoc 0 created, its own file parsed; then everything goes. *)
Definition demo_items : list cfg_item :=
  [CfgItem (CfgMeta (lit "gKey") 0 (Some INT) 0 10 CFG_VALUE_OR_CLAMP) (VInt 7)].

Definition demo_fw (path : cstr) : option (list Z) :=
  if bool_decide (path = lit "g.ini") then Some (lit "gKey=3")
  else if bool_decide (path = lit "p.ini") then Some (lit "gKey=99") else None.

(** Runs a sequence of operations; [allowed_run] says each was allowed and returned. *)
Fixpoint run_ops (cfg_all : list cfg_item) (ops : list cfg_op) (w : cfg_world) : cfg_world :=
  match ops with
  | [] => w
  | op :: ops =>
      match run_op cfg_all [] op w with
      | Ret _ w' => run_ops cfg_all ops w'
      | _ => w
      end
  end.

Fixpoint allowed_run (cfg_all : list cfg_item) (ops : list cfg_op) (w : cfg_world) : Prop :=
  match ops with
  | [] => True
  | op :: ops =>
      allowed w op /\
      match run_op cfg_all [] op w with
      | Ret _ w' => allowed_run cfg_all ops w'
      | _ => False
      end
  end.

Lemma run_ops_reachable cfg_all ops w :
  cfg_reachable cfg_all [] w -> allowed_run cfg_all ops w ->
  cfg_reachable cfg_all [] (run_ops cfg_all ops w).
Proof.
  revert w. induction ops as [|op ops IH]; intros w Hr; [done|]. cbn [run_ops allowed_run].
  intros [Hal H]. destruct (run_op cfg_all [] op w) as [st w'| |] eqn:E; [|done..].
  apply IH; [|done]. by eapply cfg_reachable_op.
Qed.

Definition demo_up : list cfg_op :=
  [OpInit QDF_STATUS_SUCCESS QDF_STATUS_SUCCESS; OpParse true true demo_fw true (lit "g.ini");
   OpPsocCreate true 0].
Definition demo_down : list cfg_op :=
  [OpPsocParse true true demo_fw true (Some 0%nat) (Some (lit "p.ini")); OpRelease; OpPsocDestroy 0].

Lemma demo_distinct : distinct_items demo_items.
Proof. split; apply (bool_decide_unpack _); vm_compute; exact I. Qed.

Lemma demo_up_reachable : cfg_reachable demo_items [] (run_ops demo_items demo_up cfg_boot).
Proof. apply run_ops_reachable; [constructor|]. vm_compute. repeat split. Qed.

Lemma demo_all_reachable :
  cfg_reachable demo_items [] (run_ops demo_items (demo_up ++ demo_down) cfg_boot).
Proof. apply run_ops_reachable; [constructor|]. vm_compute. repeat split; by eexists. Qed.

(** The default of dp_tx_desc_limit_0 (wlan_cfg/cfg_dp.h) is below the item's minimum; it
    is what a store holds that no line sets. *)
Definition dp_tx_desc_limit_0 : cfg_item :=
  CfgItem (CfgMeta (lit "dp_tx_desc_limit_0") 0 (Some UINT) 4096 32768 CFG_VALUE_OR_DEFAULT) (VUint 0).
Lemma default_outside_its_range :
  let w := run_ops [dp_tx_desc_limit_0] demo_up cfg_boot in
  (exists s, stores w !! 0%nat = Some s /\ values s !! 0 = Some (VUint 0))
  /\ ~ val_ok (item_meta dp_tx_desc_limit_0) (VUint 0).
Proof. split; [by eexists|]. vm_compute. intros [H _]. by apply H. Qed.

Lemma cfg_stores_counted_witness :
  let w := run_ops demo_items demo_up cfg_boot in
  exists s, stores w !! 0%nat = Some s /\ users s = 2 /\ users s = refs w 0.
Proof.
  intros w.
  destruct (cfg_stores_counted demo_items [] w demo_distinct demo_up_reachable) as [H _].
  eexists. split; [reflexivity|]. split; [reflexivity|]. exact (proj1 (H 0%nat _ eq_refl)).
Defined.

Lemma cfg_no_leak_witness :
  let w := run_ops demo_items (demo_up ++ demo_down) cfg_boot in
  is_init w = true /\ stores w = ∅ /\
  exists w', cfg_dispatcher_deinit w = Ret QDF_STATUS_SUCCESS w'.
Proof.
  intros w.
  destruct (cfg_no_leak demo_items [] w demo_distinct demo_all_reachable eq_refl eq_refl)
    as (Hs & _ & _ & Hd).
  assert (is_init w = true) as Hi by reflexivity. split; [exact Hi|]. split; [exact Hs|exact (Hd Hi)].
Defined.

Lemma cfg_psoc_parse_inherits_witness :
  let w := run_ops demo_items demo_up cfg_boot in
  exists st w',
    cfg_psoc_parse demo_items [] true true (qdf_file_read demo_fw true) (Some 0%nat)
      (Some (lit "p.ini")) w = Ret st w' /\
    psoc_values w' 0 = Some (<[0 := VInt 10]> ∅).
Proof.
  intros w.
  destruct (cfg_psoc_parse_inherits demo_items [] w true true demo_fw true 0 (lit "p.ini") 1 0
    (Store (lit "g.ini") 2 (<[0 := VInt 3]> ∅)) demo_distinct demo_up_reachable
    eq_refl eq_refl eq_refl eq_refl) as (st & w' & Heq & _).
  exists st, w'. split; [exact Heq|]. vm_compute in Heq. injection Heq as <- <-. reflexivity.
Defined.
