(* ===== verification/Ser.v ===== *)
(** The command serialization of umac/cmn_services/serialization: the active and
    pending queues of a pdev and of its VDEVs, activation, removal, cancellation and
    the timers of the active commands.

    A [struct wlan_serialization_command_list] has an address, [addr]: the queue
    whose pool it was allocated for and its place there.  It is linked into a pdev
    list through its [pdev_node] and, for non-scan commands, into a VDEV list through
    its [vdev_node]; both lists are lists of addresses here, so [qdf_container_of]
    is the identity.  A VDEV is its id, a pdev its number. *)
From S2P Require Import Prelude.

(** ** Constants and enumerations *)

(** [enum wlan_serialization_cmd_type]; only scan commands are below NONSCAN. *)
Definition WLAN_SER_CMD_SCAN : Z := 0.
Definition WLAN_SER_CMD_NONSCAN : Z := 1.
Definition WLAN_SER_CMD_MAX : Z := 34.

Definition WLAN_UMAC_COMP_ID_MAX : Z := 38.
Definition WLAN_UMAC_PSOC_MAX_VDEVS : nat := 51.

Definition WLAN_SER_MAX_VDEVS : nat := 17.
Definition WLAN_SER_MAX_ACTIVE_CMDS : nat := WLAN_SER_MAX_VDEVS.
Definition WLAN_SER_MAX_PENDING_CMDS : nat := WLAN_SER_MAX_VDEVS * 4.
Definition WLAN_SER_MAX_PENDING_CMDS_AP : nat := WLAN_SER_MAX_PENDING_CMDS / WLAN_SER_MAX_VDEVS.
Definition WLAN_SER_MAX_PENDING_CMDS_STA : nat := WLAN_SER_MAX_PENDING_CMDS / WLAN_SER_MAX_VDEVS.
Definition WLAN_SER_MAX_ACTIVE_SCAN_CMDS : nat := 8.
Definition WLAN_SER_MAX_PENDING_SCAN_CMDS : nat := 24.

Definition WLAN_SERIALIZATION_ACTIVE_QUEUE : Z := 1.
Definition WLAN_SERIALIZATION_PENDING_QUEUE : Z := 2.

Definition CMD_MARKED_FOR_ACTIVATION : Z := 1.
Definition CMD_IS_ACTIVE : Z := 2.
Definition CMD_ACTIVE_MARKED_FOR_CANCEL : Z := 3.
Definition CMD_ACTIVE_MARKED_FOR_REMOVAL : Z := 4.

Inductive ser_queue_reason : Type :=
  | SER_REQUEST
  | SER_REMOVE
  | SER_CANCEL
  | SER_TIMEOUT
  | SER_ACTIVATION_FAILED
  | SER_PENDING_TO_ACTIVE.

Inductive wlan_serialization_cb_reason : Type :=
  | WLAN_SER_CB_ACTIVATE_CMD
  | WLAN_SER_CB_CANCEL_CMD
  | WLAN_SER_CB_RELEASE_MEM_CMD
  | WLAN_SER_CB_ACTIVE_CMD_TIMEOUT.

Inductive wlan_serialization_cancel_type : Type :=
  | WLAN_SER_CANCEL_SINGLE_SCAN
  | WLAN_SER_CANCEL_PDEV_SCANS
  | WLAN_SER_CANCEL_VDEV_SCANS
  | WLAN_SER_CANCEL_VDEV_HOST_SCANS
  | WLAN_SER_CANCEL_PDEV_NON_SCAN_CMD
  | WLAN_SER_CANCEL_VDEV_NON_SCAN_CMD
  | WLAN_SER_CANCEL_VDEV_NON_SCAN_CMD_TYPE
  | WLAN_SER_CANCEL_VDEV_NON_SCAN_NB_CMD
  | WLAN_SER_CANCEL_NON_SCAN_CMD
  | WLAN_SER_CANCEL_MAX.

Inductive wlan_serialization_status : Type :=
  | WLAN_SER_CMD_PENDING
  | WLAN_SER_CMD_ACTIVE
  | WLAN_SER_CMD_DENIED_RULES_FAILED
  | WLAN_SER_CMD_DENIED_LIST_FULL
  | WLAN_SER_CMD_QUEUE_DISABLED
  | WLAN_SER_CMD_ALREADY_EXISTS
  | WLAN_SER_CMD_DENIED_UNSPECIFIED.

Inductive wlan_serialization_cmd_status : Type :=
  | WLAN_SER_CMD_IN_PENDING_LIST
  | WLAN_SER_CMD_IN_ACTIVE_LIST
  | WLAN_SER_CMDS_IN_ALL_LISTS
  | WLAN_SER_CMD_MARKED_FOR_ACTIVATION
  | WLAN_SER_CMD_NOT_FOUND.

Inductive wlan_ser_cmd_attr : Type :=
  | WLAN_SER_CMD_ATTR_NONE
  | WLAN_SER_CMD_ATTR_BLOCK
  | WLAN_SER_CMD_ATTR_NONBLOCK.

Inductive wlan_serialization_match_type : Type :=
  | WLAN_SER_MATCH_VDEV
  | WLAN_SER_MATCH_PDEV
  | WLAN_SER_MATCH_CMD_TYPE
  | WLAN_SER_MATCH_CMD_TYPE_VDEV
  | WLAN_SER_MATCH_CMD_ID
  | WLAN_SER_MATCH_CMD_ID_VDEV.

Inductive serialization_pdev_queue_type : Type :=
  | SER_PDEV_QUEUE_COMP_SCAN
  | SER_PDEV_QUEUE_COMP_NON_SCAN.

#[export] Instance ser_queue_reason_eq_dec : EqDecision ser_queue_reason.
Proof. solve_decision. Defined.
#[export] Instance cb_reason_eq_dec : EqDecision wlan_serialization_cb_reason.
Proof. solve_decision. Defined.
#[export] Instance ser_status_eq_dec : EqDecision wlan_serialization_status.
Proof. solve_decision. Defined.
#[export] Instance cmd_status_eq_dec : EqDecision wlan_serialization_cmd_status.
Proof. solve_decision. Defined.
#[export] Instance cmd_attr_eq_dec : EqDecision wlan_ser_cmd_attr.
Proof. solve_decision. Defined.
#[export] Instance pdev_queue_type_eq_dec : EqDecision serialization_pdev_queue_type.
Proof. solve_decision. Defined.
#[export] Instance pdev_queue_type_countable : Countable serialization_pdev_queue_type.
Proof.
  refine (inj_countable'
    (fun t => match t with SER_PDEV_QUEUE_COMP_SCAN => true | _ => false end)
    (fun b : bool => if b then SER_PDEV_QUEUE_COMP_SCAN else SER_PDEV_QUEUE_COMP_NON_SCAN) _).
  by intros [].
Defined.

(** ** Data (wlan_serialization_api.h, wlan_serialization_utils_i.h) *)

(** [struct wlan_serialization_command].  [cmd_cb] is a function pointer, the number
    of a callback of the clients; the union's VDEV is NULL in a zeroed command. *)
Record wlan_serialization_command : Type := Cmd {
  cmd_type : Z;
  cmd_id : Z;
  cmd_cb : option nat;
  source : Z;
  is_high_priority : bool;
  is_blocking : bool;
  queue_disable : bool;
  activation_reason : ser_queue_reason;
  cmd_timeout_duration : Z;
  vdev : option nat;
  umac_cmd : Z;
}.

(** [struct wlan_serialization_queued_cmd_info] *)
Record wlan_serialization_queued_cmd_info : Type := CmdInfo {
  req_requestor : Z;
  req_cmd_type : Z;
  req_cmd_id : Z;
  req_type : wlan_serialization_cancel_type;
  req_vdev : option nat;
  req_queue_type : Z;
}.

(** [qdf_mem_zero] of a command. *)
Definition zero_cmd : wlan_serialization_command :=
  Cmd 0 0 None 0 false false false SER_REQUEST 0 None 0.

Definition set_activation_reason (r : ser_queue_reason) (c : wlan_serialization_command)
  : wlan_serialization_command :=
  Cmd (cmd_type c) (cmd_id c) (cmd_cb c) (source c) (is_high_priority c) (is_blocking c)
    (queue_disable c) r (cmd_timeout_duration c) (vdev c) (umac_cmd c).

(** A queue of a pdev, [&ser_pdev_obj->pdev_q[type]], and the address of a command
    buffer. *)
Abbreviation qkey := (nat * serialization_pdev_queue_type)%type.
Abbreviation addr := (qkey * nat)%type.

Record wlan_serialization_command_list : Type := CmdList {
  cmd : wlan_serialization_command;
  cmd_in_use : Z;           (* unsigned long, a set of bits *)
}.

Record qdf_list_t : Type := QdfList {
  elems : list addr;
  max_size : nat;
}.

Record wlan_serialization_pdev_queue : Type := PdevQueue {
  active_list : qdf_list_t;
  pending_list : qdf_list_t;
  cmd_pool_list : qdf_list_t;
  vdev_active_cmd_bitmap : Z;
  blocking_cmd_active : bool;
  blocking_cmd_waiting : Z; (* uint16_t *)
}.

Record wlan_serialization_vdev_queue : Type := VdevQueue {
  v_active_list : qdf_list_t;
  v_pending_list : qdf_list_t;
  v_queue_disable : bool;
}.

(** The timer's duration is there while it runs. *)
Record wlan_serialization_timer : Type := Timer {
  t_cmd : option addr;
  t_running : option Z;
}.

Record wlan_serialization_scan_info : Type := ScanInfo {
  is_cac_in_progress : bool;
  is_tdls_in_progress : bool;
  is_mlme_op_in_progress : bool;
}.

(** What the component does to its clients: the history it keeps of the queues
    ([wlan_ser_update_cmd_history]) and the callbacks it makes. *)
Inductive ser_event : Type :=
  | EvQueue (c : wlan_serialization_command) (reason : ser_queue_reason)
      (add_remove active_queue : bool)
  | EvCallback (c : wlan_serialization_command) (reason : wlan_serialization_cb_reason).

(** The psoc's objects: the command buffers, [pdev_q[type]] of the pdev objects, the
    queue of each VDEV object, the timers, the object manager's view of the VDEVs
    ([vdev_created]: obj_state is CREATED; [vdev_refs]: references held by
    serialization), the registered rules, and the clients' own state. *)
Record ser_world (U : Type) : Type := SerWorld {
  nodes : gmap addr wlan_serialization_command_list;
  queues : gmap qkey wlan_serialization_pdev_queue;
  vqueues : gmap nat wlan_serialization_vdev_queue;
  timers : list wlan_serialization_timer;
  vdev_created : gset nat;
  vdev_refs : gmap nat Z;
  comp_info_cb : gmap (Z * Z) (nat -> U -> wlan_serialization_scan_info);
  apply_rules_cb : gmap Z (wlan_serialization_scan_info -> Z -> bool);
  trace : list ser_event;
  usr : U;
}.
Arguments SerWorld {U}.
Arguments nodes {U}.
Arguments queues {U}.
Arguments vqueues {U}.
Arguments timers {U}.
Arguments vdev_created {U}.
Arguments vdev_refs {U}.
Arguments comp_info_cb {U}.
Arguments apply_rules_cb {U}.
Arguments trace {U}.
Arguments usr {U}.

(** What does not change: the pdev of each VDEV, whether the platform is an
    emulation, the scan module's limit of active scans. *)
Record ser_env : Type := Env {
  vdev_pdev : nat -> option nat;
  is_emulation : bool;
  max_active_scans : Z;
}.

(** The entry points a client may call. *)
Inductive ser_api : Type :=
  | ApiRequest (c : option wlan_serialization_command)
  | ApiRemove (i : option wlan_serialization_queued_cmd_info)
  | ApiCancel (i : option wlan_serialization_queued_cmd_info)
  | ApiUpdateTimer (c : option wlan_serialization_command)
  | ApiQueueDisable (v : nat)
  | ApiPurgePdev (p : nat)
  | ApiPurgeVdev (p v : nat)
  | ApiPurgeVdevPending (p v : nat)
  | ApiPurgeVdevScans (p v : nat).

Inductive ser_result : Type :=
  | ResSer (st : wlan_serialization_status)
  | ResCmd (st : wlan_serialization_cmd_status)
  | ResQdf (st : QDF_STATUS)
  | ResVoid.

(** What a client's callback does: look at the state, change its own, call the
    component, and return a status. *)
Inductive script (U : Type) : Type :=
  | Done (status : QDF_STATUS)
  | Own (f : U -> U) (k : ser_world U -> script U)
  | Call (a : ser_api) (k : ser_result -> script U).
Arguments Done {U}.
Arguments Own {U}.
Arguments Call {U}.

Section Ser.
Context {U : Type} (env : ser_env).
Abbreviation W := (ser_world U).
Abbreviation MS := (M W).
Implicit Types (c : wlan_serialization_command) (n a : addr) (k : qkey) (p v : nat).

(** ** Access to the state *)

Definition set_nodes (f : gmap addr wlan_serialization_command_list -> _) (s : W) : W :=
  SerWorld (f (nodes s)) (queues s) (vqueues s) (timers s) (vdev_created s) (vdev_refs s)
    (comp_info_cb s) (apply_rules_cb s) (trace s) (usr s).
Definition set_queues (f : gmap qkey wlan_serialization_pdev_queue -> _) (s : W) : W :=
  SerWorld (nodes s) (f (queues s)) (vqueues s) (timers s) (vdev_created s) (vdev_refs s)
    (comp_info_cb s) (apply_rules_cb s) (trace s) (usr s).
Definition set_vqueues (f : gmap nat wlan_serialization_vdev_queue -> _) (s : W) : W :=
  SerWorld (nodes s) (queues s) (f (vqueues s)) (timers s) (vdev_created s) (vdev_refs s)
    (comp_info_cb s) (apply_rules_cb s) (trace s) (usr s).
Definition set_timers (f : list wlan_serialization_timer -> _) (s : W) : W :=
  SerWorld (nodes s) (queues s) (vqueues s) (f (timers s)) (vdev_created s) (vdev_refs s)
    (comp_info_cb s) (apply_rules_cb s) (trace s) (usr s).
Definition set_vdev_refs (f : gmap nat Z -> _) (s : W) : W :=
  SerWorld (nodes s) (queues s) (vqueues s) (timers s) (vdev_created s) (f (vdev_refs s))
    (comp_info_cb s) (apply_rules_cb s) (trace s) (usr s).
Definition set_comp_info f (s : W) : W :=
  SerWorld (nodes s) (queues s) (vqueues s) (timers s) (vdev_created s) (vdev_refs s)
    (f (comp_info_cb s)) (apply_rules_cb s) (trace s) (usr s).
Definition set_apply_rules f (s : W) : W :=
  SerWorld (nodes s) (queues s) (vqueues s) (timers s) (vdev_created s) (vdev_refs s)
    (comp_info_cb s) (f (apply_rules_cb s)) (trace s) (usr s).
Definition set_usr (f : U -> U) (s : W) : W :=
  SerWorld (nodes s) (queues s) (vqueues s) (timers s) (vdev_created s) (vdev_refs s)
    (comp_info_cb s) (apply_rules_cb s) (trace s) (f (usr s)).
Definition emit (e : ser_event) (s : W) : W :=
  SerWorld (nodes s) (queues s) (vqueues s) (timers s) (vdev_created s) (vdev_refs s)
    (comp_info_cb s) (apply_rules_cb s) (trace s ++ [e]) (usr s).

Definition read_node n : MS wlan_serialization_command_list :=
  o ← gets (fun s => nodes s !! n); deref o.
Definition read_cmd n : MS wlan_serialization_command := cl ← read_node n; mret (cmd cl).
Definition write_node n (f : wlan_serialization_command_list -> wlan_serialization_command_list)
  : MS unit := cl ← read_node n; modify (set_nodes <[n := f cl]>).
Definition set_cmd (f : wlan_serialization_command -> wlan_serialization_command)
    (cl : wlan_serialization_command_list) : wlan_serialization_command_list :=
  CmdList (f (cmd cl)) (cmd_in_use cl).
Definition set_in_use (f : Z -> Z) (cl : wlan_serialization_command_list)
  : wlan_serialization_command_list := CmdList (cmd cl) (f (cmd_in_use cl)).

Definition qdf_atomic_set_bit (bit : Z) n : MS unit :=
  write_node n (set_in_use (fun u => Z.setbit u bit)).
Definition qdf_atomic_clear_bit (bit : Z) n : MS unit :=
  write_node n (set_in_use (fun u => Z.clearbit u bit)).
Definition qdf_atomic_test_bit (bit : Z) n : MS bool :=
  cl ← read_node n; mret (Z.testbit (cmd_in_use cl) bit).

Definition read_queue k : MS wlan_serialization_pdev_queue :=
  o ← gets (fun s => queues s !! k); deref o.
Definition write_queue k
    (f : wlan_serialization_pdev_queue -> wlan_serialization_pdev_queue) : MS unit :=
  q ← read_queue k; modify (set_queues <[k := f q]>).
Definition read_vqueue v : MS wlan_serialization_vdev_queue :=
  o ← gets (fun s => vqueues s !! v); deref o.
Definition write_vqueue v
    (f : wlan_serialization_vdev_queue -> wlan_serialization_vdev_queue) : MS unit :=
  q ← read_vqueue v; modify (set_vqueues <[v := f q]>).

Definition set_bitmap f (q : wlan_serialization_pdev_queue) : wlan_serialization_pdev_queue :=
  PdevQueue (active_list q) (pending_list q) (cmd_pool_list q) (f (vdev_active_cmd_bitmap q))
    (blocking_cmd_active q) (blocking_cmd_waiting q).
Definition set_blocking_active b (q : wlan_serialization_pdev_queue)
  : wlan_serialization_pdev_queue :=
  PdevQueue (active_list q) (pending_list q) (cmd_pool_list q) (vdev_active_cmd_bitmap q)
    b (blocking_cmd_waiting q).
Definition set_blocking_waiting f (q : wlan_serialization_pdev_queue)
  : wlan_serialization_pdev_queue :=
  PdevQueue (active_list q) (pending_list q) (cmd_pool_list q) (vdev_active_cmd_bitmap q)
    (blocking_cmd_active q) (wrap 16 (f (blocking_cmd_waiting q))).
Definition set_queue_disable (q : wlan_serialization_vdev_queue)
  : wlan_serialization_vdev_queue := VdevQueue (v_active_list q) (v_pending_list q) true.

(** A [qdf_list_t *]: one of the lists of a queue. *)
Inductive list_ref : Type :=
  | QActive (k : qkey)
  | QPending (k : qkey)
  | QPool (k : qkey)
  | VActive (v : nat)
  | VPending (v : nat).

Definition q_set_active l (q : wlan_serialization_pdev_queue) : wlan_serialization_pdev_queue :=
  PdevQueue l (pending_list q) (cmd_pool_list q) (vdev_active_cmd_bitmap q)
    (blocking_cmd_active q) (blocking_cmd_waiting q).
Definition q_set_pending l (q : wlan_serialization_pdev_queue) : wlan_serialization_pdev_queue :=
  PdevQueue (active_list q) l (cmd_pool_list q) (vdev_active_cmd_bitmap q)
    (blocking_cmd_active q) (blocking_cmd_waiting q).
Definition q_set_pool l (q : wlan_serialization_pdev_queue) : wlan_serialization_pdev_queue :=
  PdevQueue (active_list q) (pending_list q) l (vdev_active_cmd_bitmap q)
    (blocking_cmd_active q) (blocking_cmd_waiting q).
Definition v_set_active l (q : wlan_serialization_vdev_queue) : wlan_serialization_vdev_queue :=
  VdevQueue l (v_pending_list q) (v_queue_disable q).
Definition v_set_pending l (q : wlan_serialization_vdev_queue) : wlan_serialization_vdev_queue :=
  VdevQueue (v_active_list q) l (v_queue_disable q).

Definition get_list (r : list_ref) : MS qdf_list_t :=
  match r with
  | QActive k => q ← read_queue k; mret (active_list q)
  | QPending k => q ← read_queue k; mret (pending_list q)
  | QPool k => q ← read_queue k; mret (cmd_pool_list q)
  | VActive v => q ← read_vqueue v; mret (v_active_list q)
  | VPending v => q ← read_vqueue v; mret (v_pending_list q)
  end.

Definition put_list (r : list_ref) (l : qdf_list_t) : MS unit :=
  match r with
  | QActive k => write_queue k (q_set_active l)
  | QPending k => write_queue k (q_set_pending l)
  | QPool k => write_queue k (q_set_pool l)
  | VActive v => write_vqueue v (v_set_active l)
  | VPending v => write_vqueue v (v_set_pending l)
  end.

(** ** Lists (qdf_list.c behind wlan_serialization_utils.c) *)

Definition set_elems (f : list addr -> list addr) (r : list_ref) : MS unit :=
  l ← get_list r; put_list r (QdfList (f (elems l)) (max_size l)).

Definition wlan_serialization_list_size (r : list_ref) : MS nat :=
  l ← get_list r; mret (length (elems l)).
Definition wlan_serialization_list_empty (r : list_ref) : MS bool :=
  l ← get_list r; mret (match elems l with [] => true | _ => false end).
Definition wlan_serialization_insert_front (r : list_ref) n : MS QDF_STATUS :=
  set_elems (fun l => n :: l) r;; mret QDF_STATUS_SUCCESS.
Definition wlan_serialization_insert_back (r : list_ref) n : MS QDF_STATUS :=
  set_elems (fun l => l ++ [n]) r;; mret QDF_STATUS_SUCCESS.
(** The node, or nothing and QDF_STATUS_E_EMPTY. *)
Definition wlan_serialization_peek_front (r : list_ref) : MS (option addr) :=
  l ← get_list r; mret (head (elems l)).
Definition wlan_serialization_remove_front (r : list_ref) : MS (option addr) :=
  l ← get_list r;
  match elems l with
  | [] => mret None
  | n :: rest => put_list r (QdfList rest (max_size l));; mret (Some n)
  end.

(** Unlinking a node through a list it is not in corrupts both. *)
Definition wlan_serialization_remove_node (r : list_ref) n : MS QDF_STATUS :=
  e ← wlan_serialization_list_empty r;
  if e : bool then mret QDF_STATUS_E_EMPTY
  else
    l ← get_list r;
    if bool_decide (n ∈ elems l)
    then set_elems (unlink n) r;; mret QDF_STATUS_SUCCESS
    else crash.

(** The node after [n], [Some None] at the end. *)
Fixpoint next_in (l : list addr) n : option (option addr) :=
  match l with
  | [] => None
  | m :: rest => if bool_decide (m = n) then Some (head rest) else next_in rest n
  end.

(** The links of a node that is no longer in the list lead out of it. *)
Definition wlan_serialization_peek_next (r : list_ref) n : MS (option addr) :=
  l ← get_list r;
  match elems l with
  | [] => mret None
  | _ => deref (next_in (elems l) n)
  end.

Definition wlan_serialization_get_cmd_from_queue (r : list_ref) (nnode : option addr)
  : MS (option addr) :=
  match nnode with
  | None => wlan_serialization_peek_front r
  | Some pnode => wlan_serialization_peek_next r pnode
  end.

(** ** From a command to its objects (wlan_serialization_utils.c, _queue.c) *)

(** [wlan_vdev_get_pdev]; a NULL VDEV faults. *)
Definition wlan_vdev_get_pdev (vd : option nat) : MS (option nat) :=
  v ← deref vd; mret (vdev_pdev env v).
Definition wlan_vdev_get_id (vd : option nat) : MS nat := deref vd.

Definition wlan_serialization_get_pdev_from_cmd c : option nat :=
  match vdev c with Some v => vdev_pdev env v | None => None end.
Definition wlan_serialization_get_vdev_from_cmd c : option nat := vdev c.

(** Whether the pdev, the VDEV, has its serialization object. *)
Definition wlan_serialization_get_pdev_obj p : MS bool :=
  gets (fun s => bool_decide (is_Some (queues s !! (p, SER_PDEV_QUEUE_COMP_SCAN)))).
Definition wlan_serialization_get_vdev_obj (vd : option nat) : MS bool :=
  gets (fun s => match vd with
                 | Some v => bool_decide (is_Some (vqueues s !! v))
                 | None => false
                 end).

Definition wlan_serialization_get_pdev_queue_obj p (t : Z) : qkey :=
  if t <? WLAN_SER_CMD_NONSCAN then (p, SER_PDEV_QUEUE_COMP_SCAN)
  else (p, SER_PDEV_QUEUE_COMP_NON_SCAN).

Definition wlan_serialization_get_list_from_pdev_queue p (t : Z) (is_active_cmd : bool)
  : list_ref :=
  let pdev_queue := wlan_serialization_get_pdev_queue_obj p t in
  if is_active_cmd then QActive pdev_queue else QPending pdev_queue.

Definition wlan_serialization_get_list_from_vdev_queue v (is_active_cmd : bool) : list_ref :=
  if is_active_cmd then VActive v else VPending v.

(** ** Matching *)

Definition wlan_serialization_match_cmd_type n (t : Z) : MS bool :=
  c ← read_cmd n; mret (cmd_type c =? t).

Definition wlan_serialization_match_cmd_id_type n (oc : option wlan_serialization_command)
  : MS bool :=
  match oc with
  | None => mret false
  | Some c' => c ← read_cmd n; mret ((cmd_id c =? cmd_id c') && (cmd_type c =? cmd_type c'))
  end.

Definition wlan_serialization_match_cmd_vdev n (vd : option nat) : MS bool :=
  c ← read_cmd n; mret (bool_decide (vdev c = vd)).

Definition wlan_serialization_match_cmd_pdev n (pdev : option nat) : MS bool :=
  c ← read_cmd n; node_pdev ← wlan_vdev_get_pdev (vdev c); mret (bool_decide (node_pdev = pdev)).

Definition wlan_serialization_match_cmd_blocking n : MS bool :=
  c ← read_cmd n; mret (is_blocking c).

Definition match_node (match_type : wlan_serialization_match_type)
    (oc : option wlan_serialization_command) (t : Z) (pdev vd : option nat) n : MS bool :=
  match match_type with
  | WLAN_SER_MATCH_PDEV => wlan_serialization_match_cmd_pdev n pdev
  | WLAN_SER_MATCH_VDEV => wlan_serialization_match_cmd_vdev n vd
  | WLAN_SER_MATCH_CMD_TYPE => wlan_serialization_match_cmd_type n t
  | WLAN_SER_MATCH_CMD_ID => wlan_serialization_match_cmd_id_type n oc
  | WLAN_SER_MATCH_CMD_TYPE_VDEV =>
      b ← wlan_serialization_match_cmd_type n t;
      if b : bool then wlan_serialization_match_cmd_vdev n vd else mret false
  | WLAN_SER_MATCH_CMD_ID_VDEV =>
      b ← wlan_serialization_match_cmd_id_type n oc;
      if b : bool then wlan_serialization_match_cmd_vdev n vd else mret false
  end.

Fixpoint find_cmd_loop (queuelen : nat) (queue : list_ref) (matches : addr -> MS bool)
    (nnode : option addr) : MS (option addr) :=
  match queuelen with
  | O => mret None
  | S queuelen =>
      next ← wlan_serialization_get_cmd_from_queue queue nnode;
      match next with
      | None => mret None
      | Some n =>
          node_found ← matches n;
          if node_found : bool then mret (Some n)
          else find_cmd_loop queuelen queue matches (Some n)
      end
  end.

Definition wlan_serialization_find_cmd (queue : list_ref)
    (match_type : wlan_serialization_match_type) (oc : option wlan_serialization_command)
    (t : Z) (pdev vd : option nat) : MS (option addr) :=
  queuelen ← wlan_serialization_list_size queue;
  find_cmd_loop queuelen queue (match_node match_type oc t pdev vd) None.

Definition wlan_serialization_is_cmd_present_in_given_queue (queue : list_ref) c : MS bool :=
  node ← wlan_serialization_find_cmd queue WLAN_SER_MATCH_CMD_ID_VDEV (Some c) 0 None (vdev c);
  mret (match node with Some _ => true | None => false end).

(** ** Adding to and removing from one queue *)

Definition wlan_serialization_add_cmd_to_queue (queue : list_ref) n
    (is_cmd_for_active_queue : bool) : MS wlan_serialization_status :=
  l ← get_list queue;
  if (length (elems l) =? max_size l)%nat then mret WLAN_SER_CMD_DENIED_LIST_FULL
  else
    c ← read_cmd n;
    qdf_status ← (if is_high_priority c then wlan_serialization_insert_front queue n
                  else wlan_serialization_insert_back queue n);
    if QDF_IS_STATUS_ERROR qdf_status then mret WLAN_SER_CMD_DENIED_UNSPECIFIED
    else mret (if is_cmd_for_active_queue then WLAN_SER_CMD_ACTIVE else WLAN_SER_CMD_PENDING).

Definition wlan_serialization_remove_cmd_from_queue (queue : list_ref) c
  : MS (QDF_STATUS * option addr) :=
  e ← wlan_serialization_list_empty queue;
  if e : bool then mret (QDF_STATUS_E_FAILURE, None)
  else
    node ← wlan_serialization_find_cmd queue WLAN_SER_MATCH_CMD_ID_VDEV (Some c) 0 None (vdev c);
    match node with
    | None => mret (QDF_STATUS_E_FAILURE, None)
    | Some n =>
        marked ← qdf_atomic_test_bit CMD_MARKED_FOR_ACTIVATION n;
        if marked : bool then
          qdf_atomic_set_bit CMD_ACTIVE_MARKED_FOR_REMOVAL n;;
          mret (QDF_STATUS_E_PENDING, None)
        else
          status ← wlan_serialization_remove_node queue n;
          mret (status, Some n)
    end.

Definition wlan_serialization_add_cmd_to_pdev_queue p n (for_active_queue : bool)
  : MS wlan_serialization_status :=
  c ← read_cmd n;
  wlan_serialization_add_cmd_to_queue
    (wlan_serialization_get_list_from_pdev_queue p (cmd_type c) for_active_queue)
    n for_active_queue.

Definition wlan_serialization_add_cmd_to_vdev_queue n (for_active_queue : bool)
  : MS wlan_serialization_status :=
  c ← read_cmd n;
  v ← deref (wlan_serialization_get_vdev_from_cmd c);
  status ← wlan_serialization_add_cmd_to_queue
    (wlan_serialization_get_list_from_vdev_queue v for_active_queue) n for_active_queue;
  (if queue_disable c then write_vqueue v set_queue_disable else mret ());;
  mret status.

Definition wlan_serialization_remove_cmd_from_pdev_queue p c (is_active_queue : bool)
  : MS (QDF_STATUS * option addr) :=
  wlan_serialization_remove_cmd_from_queue
    (wlan_serialization_get_list_from_pdev_queue p (cmd_type c) is_active_queue) c.

Definition wlan_serialization_remove_cmd_from_vdev_queue c (is_active_queue : bool)
  : MS (QDF_STATUS * option addr) :=
  v ← deref (wlan_serialization_get_vdev_from_cmd c);
  wlan_serialization_remove_cmd_from_queue
    (wlan_serialization_get_list_from_vdev_queue v is_active_queue) c.

Definition wlan_serialization_is_cmd_present_queue c (is_active_queue : bool) : MS bool :=
  match wlan_serialization_get_pdev_from_cmd c with
  | None => mret false
  | Some p =>
      ser_pdev_obj ← wlan_serialization_get_pdev_obj p;
      ser_vdev_obj ← wlan_serialization_get_vdev_obj (wlan_serialization_get_vdev_from_cmd c);
      match vdev c with
      | Some v =>
          if negb ser_pdev_obj || negb ser_vdev_obj then mret false
          else
            wlan_serialization_is_cmd_present_in_given_queue
              (if cmd_type c <? WLAN_SER_CMD_NONSCAN
               then wlan_serialization_get_list_from_pdev_queue p (cmd_type c) is_active_queue
               else wlan_serialization_get_list_from_vdev_queue v is_active_queue) c
      | None => mret false
      end
  end.

(** ** The VDEVs with an active command *)

(** The bitmap has one bit per VDEV of the psoc. *)
Definition vdev_bit v : MS Z :=
  if (v <? WLAN_UMAC_PSOC_MAX_VDEVS)%nat then mret (Z.of_nat v) else crash.

Definition wlan_serialization_any_vdev_cmd_active (q : wlan_serialization_pdev_queue) : bool :=
  negb (vdev_active_cmd_bitmap q =? 0).

(** ** Scan commands (wlan_serialization_scan.c) *)

(** The counting handler, over the pdevs of the psoc; the [uint32_t] it adds to holds
    the 8 scans of each of the few pdevs. *)
Definition wlan_serialization_active_scan_cmd_count_handler k
    (q : wlan_serialization_pdev_queue) (count : Z) : Z :=
  match snd k with
  | SER_PDEV_QUEUE_COMP_SCAN => count + Z.of_nat (length (elems (active_list q)))
  | SER_PDEV_QUEUE_COMP_NON_SCAN => count
  end.

Definition active_scan_count (s : W) : Z :=
  map_fold wlan_serialization_active_scan_cmd_count_handler 0 (queues s).

Definition wlan_serialization_is_active_scan_cmd_allowed : MS bool :=
  count ← gets active_scan_count; mret (count <? max_active_scans env).

Definition wlan_serialization_is_scan_pending_queue_empty p : MS bool :=
  wlan_serialization_list_empty (QPending (p, SER_PDEV_QUEUE_COMP_SCAN)).

Definition wlan_ser_add_scan_cmd p n (is_cmd_for_active_queue : bool)
  : MS wlan_serialization_status :=
  wlan_serialization_add_cmd_to_pdev_queue p n is_cmd_for_active_queue.

Definition wlan_ser_remove_scan_cmd p c (is_active_cmd : bool) : MS (QDF_STATUS * option addr) :=
  wlan_serialization_remove_cmd_from_pdev_queue p c is_active_cmd.

(** ** Non-scan commands (wlan_serialization_non_scan.c) *)

Definition wlan_serialization_is_non_scan_pending_queue_empty c : MS bool :=
  match vdev c with
  | None => mret false
  | Some v => wlan_serialization_list_empty (VPending v)
  end.

Definition wlan_serialization_is_active_non_scan_cmd_allowed p c : MS bool :=
  let pdev_queue := wlan_serialization_get_pdev_queue_obj p (cmd_type c) in
  q ← read_queue pdev_queue;
  let blocking_cmd_waiting := wrap 8 (blocking_cmd_waiting q) in
  if is_blocking c then
    if wlan_serialization_any_vdev_cmd_active q then
      write_queue pdev_queue (set_blocking_waiting (fun w => w + 1));; mret false
    else mret true
  else if blocking_cmd_active q || negb (blocking_cmd_waiting =? 0) then mret false
  else
    vdev_id ← wlan_vdev_get_id (vdev c);
    bit ← vdev_bit vdev_id;
    mret (negb (Z.testbit (vdev_active_cmd_bitmap q) bit)).

Definition wlan_ser_remove_non_scan_cmd p c (is_active_cmd : bool)
  : MS (QDF_STATUS * option addr) :=
  '(vdev_status, pcmd_list) ← wlan_serialization_remove_cmd_from_vdev_queue c is_active_cmd;
  if QDF_IS_STATUS_ERROR vdev_status then mret (vdev_status, pcmd_list)
  else
    '(pdev_status, pcmd_list') ← wlan_serialization_remove_cmd_from_pdev_queue p c is_active_cmd;
    if QDF_IS_STATUS_ERROR pdev_status then mret (QDF_STATUS_E_FAILURE, pcmd_list)
    else
      n ← deref pcmd_list';
      (if is_active_cmd then
         removed ← read_cmd n;
         let pdev_queue := wlan_serialization_get_pdev_queue_obj p (cmd_type removed) in
         (if is_blocking removed then write_queue pdev_queue (set_blocking_active false)
          else mret ());;
         vdev_id ← wlan_vdev_get_id (vdev c);
         bit ← vdev_bit vdev_id;
         write_queue pdev_queue (set_bitmap (fun b => Z.clearbit b bit))
       else mret ());;
      mret (QDF_STATUS_SUCCESS, Some n).

Definition wlan_ser_add_non_scan_cmd p n (is_cmd_for_active_queue : bool)
  : MS wlan_serialization_status :=
  let wanted := if is_cmd_for_active_queue then WLAN_SER_CMD_ACTIVE else WLAN_SER_CMD_PENDING in
  vdev_status ← wlan_serialization_add_cmd_to_vdev_queue n is_cmd_for_active_queue;
  if bool_decide (vdev_status = WLAN_SER_CMD_DENIED_LIST_FULL) then mret vdev_status
  else if bool_decide (vdev_status <> wanted) then mret WLAN_SER_CMD_DENIED_UNSPECIFIED
  else
    pdev_status ← wlan_serialization_add_cmd_to_pdev_queue p n is_cmd_for_active_queue;
    let status :=
      if bool_decide (pdev_status = WLAN_SER_CMD_DENIED_LIST_FULL) then pdev_status
      else WLAN_SER_CMD_DENIED_UNSPECIFIED in
    c ← read_cmd n;
    if bool_decide (pdev_status <> vdev_status) then
      wlan_serialization_remove_cmd_from_vdev_queue c is_cmd_for_active_queue;;
      mret status
    else
      (if is_cmd_for_active_queue then
         let pdev_queue := wlan_serialization_get_pdev_queue_obj p (cmd_type c) in
         vdev_id ← wlan_vdev_get_id (vdev c);
         bit ← vdev_bit vdev_id;
         write_queue pdev_queue (set_bitmap (fun b => Z.setbit b bit));;
         (if is_blocking c then write_queue pdev_queue (set_blocking_active true) else mret ())
       else mret ());;
      mret pdev_status.

Definition wlan_serialization_is_active_cmd_allowed c : MS bool :=
  match wlan_serialization_get_pdev_from_cmd c with
  | None => mret false
  | Some p =>
      if cmd_type c <? WLAN_SER_CMD_NONSCAN then
        allowed ← wlan_serialization_is_active_scan_cmd_allowed;
        if allowed : bool then wlan_serialization_is_scan_pending_queue_empty p else mret false
      else
        allowed ← wlan_serialization_is_active_non_scan_cmd_allowed p c;
        if allowed : bool then wlan_serialization_is_non_scan_pending_queue_empty c
        else mret false
  end.

(** ** Object references and timers (wlan_objmgr_vdev_obj.c, _internal.c, _utils.c) *)

Definition refs_of (s : W) v : Z := default 0 (vdev_refs s !! v).

Definition wlan_objmgr_vdev_try_get_ref (vd : option nat) : MS QDF_STATUS :=
  match vd with
  | None => mret QDF_STATUS_E_FAILURE
  | Some v =>
      created ← gets (fun s => bool_decide (v ∈ vdev_created s));
      if created : bool then
        modify (fun s => set_vdev_refs <[v := refs_of s v + 1]> s);; mret QDF_STATUS_SUCCESS
      else mret QDF_STATUS_E_RESOURCES
  end.

(** A reference that was not taken is not released; the assertion is only compiled in
    with debugging. *)
Definition wlan_objmgr_vdev_release_ref (vd : option nat) : MS unit :=
  match vd with
  | None => mret ()
  | Some v =>
      modify (fun s => if refs_of s v =? 0 then s else set_vdev_refs <[v := refs_of s v - 1]> s)
  end.

Definition write_timer (i : nat) (t : wlan_serialization_timer) : MS unit :=
  modify (set_timers <[i := t]>).

(** The first timer that is not in use. *)
Fixpoint free_timer (i : nat) (l : list wlan_serialization_timer) : option nat :=
  match l with
  | [] => None
  | t :: l => match t_cmd t with Some _ => free_timer (S i) l | None => Some i end
  end.

(** The first timer whose command has the id, type and VDEV of [c]. *)
Fixpoint timer_of (i : nat) (l : list wlan_serialization_timer) c : MS (option nat) :=
  match l with
  | [] => mret None
  | t :: l =>
      match t_cmd t with
      | None => timer_of (S i) l c
      | Some a =>
          c' ← read_cmd a;
          if (cmd_id c' =? cmd_id c) && (cmd_type c' =? cmd_type c)
             && bool_decide (vdev c' = vdev c)
          then mret (Some i)
          else timer_of (S i) l c
      end
  end.

Definition wlan_serialization_stop_timer (i : nat) : MS QDF_STATUS :=
  write_timer i (Timer None None);; mret QDF_STATUS_SUCCESS.

Definition wlan_serialization_find_and_start_timer n (ser_reason : ser_queue_reason)
  : MS QDF_STATUS :=
  c ← read_cmd n;
  if (cmd_timeout_duration c =? 0) && is_emulation env then mret QDF_STATUS_SUCCESS
  else
    l ← gets timers;
    match free_timer 0 l with
    | None => mret QDF_STATUS_E_FAILURE
    | Some i =>
        status ← wlan_objmgr_vdev_try_get_ref (vdev c);
        if QDF_IS_STATUS_ERROR status then mret QDF_STATUS_E_FAILURE
        else
          write_timer i (Timer (Some n) (Some (cmd_timeout_duration c)));;
          mret QDF_STATUS_SUCCESS
    end.

Definition wlan_serialization_find_and_stop_timer n (ser_reason : ser_queue_reason)
  : MS QDF_STATUS :=
  c ← read_cmd n;
  if (cmd_timeout_duration c =? 0) && is_emulation env then mret QDF_STATUS_SUCCESS
  else
    l ← gets timers;
    found ← timer_of 0 l c;
    match found with
    | None => mret QDF_STATUS_E_FAILURE
    | Some i =>
        status ← wlan_serialization_stop_timer i;
        (if bool_decide (ser_reason <> SER_TIMEOUT)
         then wlan_objmgr_vdev_release_ref (vdev c) else mret ());;
        mret status
    end.

Definition wlan_serialization_find_and_update_timer c : MS QDF_STATUS :=
  l ← gets timers;
  found ← timer_of 0 l c;
  match found with
  | None => mret QDF_STATUS_E_FAILURE
  | Some i =>
      t ← deref (l !! i);
      write_timer i (Timer (t_cmd t) (Some (cmd_timeout_duration c)));;
      mret QDF_STATUS_SUCCESS
  end.

Fixpoint cleanup_timers_loop (i : nat) (l : list wlan_serialization_timer) v : MS unit :=
  match l with
  | [] => mret ()
  | t :: l =>
      (match t_cmd t with
       | None => mret ()
       | Some a =>
           c ← read_cmd a;
           if bool_decide (vdev c = Some v) then wlan_serialization_stop_timer i;; mret ()
           else mret ()
       end);;
      cleanup_timers_loop (S i) l v
  end.

Definition wlan_serialization_cleanup_vdev_timers v : MS QDF_STATUS :=
  match vdev_pdev env v with
  | None => mret QDF_STATUS_E_FAILURE
  | Some _ => l ← gets timers; cleanup_timers_loop 0 l v;; mret QDF_STATUS_SUCCESS
  end.

Definition wlan_serialization_cleanup_all_timers : MS QDF_STATUS :=
  modify (set_timers (map (fun t => match t_cmd t with
                                    | None => t
                                    | Some _ => Timer None None
                                    end)));;
  mret QDF_STATUS_SUCCESS.

Definition wlan_ser_update_cmd_history c (ser_reason : ser_queue_reason)
    (add_remove active_queue : bool) : MS unit :=
  modify (emit (EvQueue c ser_reason add_remove active_queue)).

(** ** Running commands *)

(** Activating a command calls the client, who may call the component again, and the
    component activates further commands: the two calls that close the cycle are
    parameters of the routines and are tied by [engine] below. *)
Record ser_calls : Type := SerCalls {
  cmd_callback : nat -> wlan_serialization_command -> wlan_serialization_cb_reason
                 -> MS QDF_STATUS;
  wlan_serialization_activate_cmd : addr -> nat -> ser_queue_reason -> MS QDF_STATUS;
}.

Section Calls.
Variable calls : ser_calls.

(** [if (cmd_bkup.cmd_cb) cmd_bkup.cmd_cb(&cmd_bkup, reason)] *)
Definition notify c (reason : wlan_serialization_cb_reason) : MS unit :=
  match cmd_cb c with
  | Some cb => cmd_callback calls cb c reason;; mret ()
  | None => mret ()
  end.

(** The buffer goes back to the pool. *)
Definition release_node k n : MS unit :=
  write_node n (fun _ => CmdList zero_cmd 0);;
  wlan_serialization_insert_back (QPool k) n;; mret ().

Definition wlan_ser_move_scan_pending_to_active p : MS wlan_serialization_status :=
  let k := (p, SER_PDEV_QUEUE_COMP_SCAN) in
  e ← wlan_serialization_list_empty (QPending k);
  if e : bool then mret WLAN_SER_CMD_DENIED_UNSPECIFIED
  else
    pending_node ← wlan_serialization_peek_front (QPending k);
    match pending_node with
    | None => mret WLAN_SER_CMD_DENIED_UNSPECIFIED
    | Some n =>
        cmd_to_remove ← read_cmd n;
        allowed ← wlan_serialization_is_active_scan_cmd_allowed;
        if negb allowed then mret WLAN_SER_CMD_DENIED_UNSPECIFIED
        else
          '(qdf_status, removed) ← wlan_ser_remove_scan_cmd p cmd_to_remove false;
          let n := default n removed in
          c ← read_cmd n;
          wlan_ser_update_cmd_history c SER_PENDING_TO_ACTIVE false false;;
          if QDF_IS_STATUS_ERROR qdf_status then mret WLAN_SER_CMD_DENIED_UNSPECIFIED
          else
            status ← wlan_ser_add_scan_cmd p n true;
            if bool_decide (status <> WLAN_SER_CMD_ACTIVE) then
              wlan_serialization_insert_back (QPool k) n;; mret WLAN_SER_CMD_DENIED_UNSPECIFIED
            else
              qdf_atomic_set_bit CMD_MARKED_FOR_ACTIVATION n;;
              c ← read_cmd n;
              wlan_ser_update_cmd_history c SER_PENDING_TO_ACTIVE true true;;
              wlan_serialization_activate_cmd calls n p SER_PENDING_TO_ACTIVE;;
              mret status
    end.

(** One activation of [wlan_ser_move_non_scan_pending_to_active]'s loop: the command
    moves to the active queue; whether it got there. *)
Definition move_one p k n : MS (option wlan_serialization_status) :=
  cmd_to_remove ← read_cmd n;
  '(qdf_status, removed) ← wlan_ser_remove_non_scan_cmd p cmd_to_remove false;
  let n := default n removed in
  c ← read_cmd n;
  wlan_ser_update_cmd_history c SER_PENDING_TO_ACTIVE false false;;
  if QDF_IS_STATUS_ERROR qdf_status then mret None
  else
    status ← wlan_ser_add_non_scan_cmd p n true;
    if bool_decide (status <> WLAN_SER_CMD_ACTIVE) then
      wlan_serialization_insert_back (QPool k) n;; mret None
    else
      c ← read_cmd n;
      wlan_ser_update_cmd_history c SER_PENDING_TO_ACTIVE true true;;
      qdf_atomic_set_bit CMD_MARKED_FOR_ACTIVATION n;;
      (if is_blocking c then write_queue k (set_blocking_waiting (fun w => w - 1)) else mret ());;
      wlan_serialization_activate_cmd calls n p SER_PENDING_TO_ACTIVE;;
      mret (Some status).

Fixpoint move_non_scan_loop (qsize : nat) p k (pending_queue : list_ref)
    (vdev_queue_lookup : bool) (pending_node : option addr)
    (status : wlan_serialization_status) : MS wlan_serialization_status :=
  match qsize with
  | O => mret status
  | S qsize =>
      next ← wlan_serialization_get_cmd_from_queue pending_queue pending_node;
      match next with
      | None => mret status
      | Some n =>
          c ← read_cmd n;
          q ← read_queue k;
          vdev_id ← wlan_vdev_get_id (vdev c);
          bit ← vdev_bit vdev_id;
          let vdev_cmd_active := Z.testbit (vdev_active_cmd_bitmap q) bit in
          if negb vdev_queue_lookup && is_blocking c && wlan_serialization_any_vdev_cmd_active q
          then mret status
          else if vdev_cmd_active then
            if vdev_queue_lookup then mret status
            else move_non_scan_loop qsize p k pending_queue vdev_queue_lookup (Some n) status
          else
            moved ← move_one p k n;
            match moved with
            | None => mret WLAN_SER_CMD_DENIED_UNSPECIFIED
            | Some status =>
                q ← read_queue k;
                if vdev_queue_lookup || blocking_cmd_active q then mret status
                else move_non_scan_loop qsize p k pending_queue vdev_queue_lookup None status
            end
      end
  end.

Definition wlan_ser_move_non_scan_pending_to_active p (vd : option nat)
    (blocking_cmd_removed : bool) : MS wlan_serialization_status :=
  let k := (p, SER_PDEV_QUEUE_COMP_NON_SCAN) in
  v ← deref vd;
  q ← read_queue k;
  let vdev_queue_lookup := negb blocking_cmd_removed && (blocking_cmd_waiting q =? 0) in
  let pending_queue := if vdev_queue_lookup then VPending v else QPending k in
  qsize ← wlan_serialization_list_size pending_queue;
  move_non_scan_loop qsize p k pending_queue vdev_queue_lookup None
    WLAN_SER_CMD_DENIED_UNSPECIFIED.

Definition wlan_serialization_move_pending_to_active (t : Z) p (vd : option nat)
    (blocking_cmd_removed : bool) : MS wlan_serialization_status :=
  if t <? WLAN_SER_CMD_NONSCAN then wlan_ser_move_scan_pending_to_active p
  else wlan_ser_move_non_scan_pending_to_active p vd blocking_cmd_removed.

Definition wlan_serialization_dequeue_cmd c (ser_reason : ser_queue_reason) (active_cmd : bool)
  : MS wlan_serialization_cmd_status :=
  match wlan_serialization_get_pdev_from_cmd c with
  | None => mret WLAN_SER_CMD_NOT_FOUND
  | Some p =>
      ser_pdev_obj ← wlan_serialization_get_pdev_obj p;
      if negb ser_pdev_obj then mret WLAN_SER_CMD_NOT_FOUND
      else
        let k := wlan_serialization_get_pdev_queue_obj p (cmd_type c) in
        '(qdf_status, cmd_list) ←
          (if cmd_type c <? WLAN_SER_CMD_NONSCAN then wlan_ser_remove_scan_cmd p c active_cmd
           else wlan_ser_remove_non_scan_cmd p c active_cmd);
        if bool_decide (qdf_status = QDF_STATUS_E_PENDING) then
          mret WLAN_SER_CMD_MARKED_FOR_ACTIVATION
        else if QDF_IS_STATUS_ERROR qdf_status then mret WLAN_SER_CMD_NOT_FOUND
        else
          n ← deref cmd_list;
          cmd_bkup ← read_cmd n;
          let blocking_cmd_removed :=
            active_cmd && (WLAN_SER_CMD_NONSCAN <=? cmd_type cmd_bkup) && is_blocking cmd_bkup in
          (if active_cmd then wlan_serialization_find_and_stop_timer n ser_reason;; mret ()
           else mret ());;
          release_node k n;;
          wlan_ser_update_cmd_history cmd_bkup ser_reason false active_cmd;;
          notify cmd_bkup WLAN_SER_CB_RELEASE_MEM_CMD;;
          (if active_cmd then
             wlan_serialization_move_pending_to_active (cmd_type cmd_bkup) p (vdev cmd_bkup)
               blocking_cmd_removed;;
             mret WLAN_SER_CMD_IN_ACTIVE_LIST
           else mret WLAN_SER_CMD_IN_PENDING_LIST)
  end.

(** ** Cancellation *)

(** The [cmd] argument of the cancel routines may point into a command buffer of the
    queue, which changes when the buffer is released. *)
Inductive cmd_ref : Type :=
  | CmdValue (c : wlan_serialization_command)
  | CmdIn (a : addr).

Definition read_ref (r : option cmd_ref) : MS (option wlan_serialization_command) :=
  match r with
  | None => mret None
  | Some (CmdValue c) => mret (Some c)
  | Some (CmdIn a) => c ← read_cmd a; mret (Some c)
  end.

(** The psoc of the first object that is given. *)
Definition cancel_psoc (pdev vd : option nat) (r : option cmd_ref) : MS bool :=
  match pdev, vd with
  | Some _, _ => mret true
  | None, Some v => mret (bool_decide (is_Some (vdev_pdev env v)))
  | None, None =>
      oc ← read_ref r;
      mret (match oc with
            | Some c => bool_decide (is_Some (wlan_serialization_get_pdev_from_cmd c))
            | None => false
            end)
  end.

(** [b && e], evaluated left to right. *)
Definition andM (b e : MS bool) : MS bool := x ← b; if x : bool then e else mret false.
Definition notM (b : MS bool) : MS bool := x ← b; mret (negb x).
Definition orM (b e : MS bool) : MS bool := x ← b; if x : bool then mret true else e.

(** The tests of the cancel loops that skip a command. *)
Definition cancel_skips (n : addr) (pdev vd : option nat) (r : option cmd_ref) : MS bool :=
  orM (match r with
       | None => mret false
       | Some _ => oc ← read_ref r; notM (wlan_serialization_match_cmd_id_type n oc)
       end)
  (orM (match vd with
        | None => mret false
        | Some _ => notM (wlan_serialization_match_cmd_vdev n vd)
        end)
       (match pdev with
        | None => mret false
        | Some _ => notM (wlan_serialization_match_cmd_pdev n pdev)
        end)).

Definition cancel_skips_non_scan (n : addr) (pdev vd : option nat) (r : option cmd_ref)
    (t : Z) (cmd_attr : wlan_ser_cmd_attr) : MS bool :=
  orM (cancel_skips n pdev vd r)
  (orM (match vd with
        | Some _ =>
            if WLAN_SER_CMD_NONSCAN <? t then
              orM (notM (wlan_serialization_match_cmd_type n t))
                  (notM (wlan_serialization_match_cmd_vdev n vd))
            else mret false
        | None => mret false
        end)
       (if bool_decide (cmd_attr = WLAN_SER_CMD_ATTR_NONBLOCK)
        then wlan_serialization_match_cmd_blocking n else mret false)).

(** What the loop does with an active command before it removes it: [inl] to stop or
    go on without removing it, [inr] to remove it. *)
Inductive cancel_step : Type :=
  | CancelStop
  | CancelMarked
  | CancelRemove.

Definition cancel_active (psoc : bool) n : MS cancel_step :=
  if negb psoc then mret CancelStop
  else
    marked ← qdf_atomic_test_bit CMD_MARKED_FOR_ACTIVATION n;
    if marked : bool then
      qdf_atomic_set_bit CMD_ACTIVE_MARKED_FOR_CANCEL n;; mret CancelMarked
    else
      qdf_status ← wlan_serialization_find_and_stop_timer n SER_CANCEL;
      mret (if QDF_IS_STATUS_ERROR qdf_status then CancelStop else CancelRemove).

Definition cancel_notify c : MS unit :=
  notify c WLAN_SER_CB_CANCEL_CMD;; notify c WLAN_SER_CB_RELEASE_MEM_CMD.

Fixpoint cancel_scan_loop (qsize : nat) p (pdev vd : option nat) (r : option cmd_ref)
    (is_active_queue psoc : bool) (nnode pnode : option addr)
    (status : wlan_serialization_cmd_status) : MS wlan_serialization_cmd_status :=
  let k := (p, SER_PDEV_QUEUE_COMP_SCAN) in
  let queue := if is_active_queue then QActive k else QPending k in
  match qsize with
  | O => mret status
  | S qsize =>
      e ← wlan_serialization_list_empty queue;
      if e : bool then mret status
      else
        next ← wlan_serialization_get_cmd_from_queue queue nnode;
        match next with
        | None => mret WLAN_SER_CMD_NOT_FOUND
        | Some n =>
            skip ← cancel_skips n pdev vd r;
            if skip : bool then
              cancel_scan_loop qsize p pdev vd r is_active_queue psoc (Some n) (Some n) status
            else
              step ← (if is_active_queue then cancel_active psoc n else mret CancelRemove);
              match step with
              | CancelStop => mret WLAN_SER_CMD_NOT_FOUND
              | CancelMarked =>
                  cancel_scan_loop qsize p pdev vd r is_active_queue psoc (Some n) pnode
                    WLAN_SER_CMD_MARKED_FOR_ACTIVATION
              | CancelRemove =>
                  cmd_bkup ← read_cmd n;
                  qdf_status ← wlan_serialization_remove_node queue n;
                  if QDF_IS_STATUS_ERROR qdf_status then mret WLAN_SER_CMD_NOT_FOUND
                  else
                    release_node k n;;
                    wlan_ser_update_cmd_history cmd_bkup SER_CANCEL false is_active_queue;;
                    cancel_notify cmd_bkup;;
                    cancel_scan_loop qsize p pdev vd r is_active_queue psoc pnode pnode
                      (if is_active_queue then WLAN_SER_CMD_IN_ACTIVE_LIST
                       else WLAN_SER_CMD_IN_PENDING_LIST)
              end
        end
  end.

Definition wlan_ser_cancel_scan_cmd p (pdev vd : option nat) (r : option cmd_ref)
    (is_active_queue : bool) : MS wlan_serialization_cmd_status :=
  let k := (p, SER_PDEV_QUEUE_COMP_SCAN) in
  psoc ← cancel_psoc pdev vd r;
  qsize ← wlan_serialization_list_size (if is_active_queue then QActive k else QPending k);
  cancel_scan_loop qsize p pdev vd r is_active_queue psoc None None WLAN_SER_CMD_NOT_FOUND.

Fixpoint cancel_non_scan_loop (qsize : nat) p k (pdev vd : option nat) (r : option cmd_ref)
    (t : Z) (is_active_queue psoc : bool) (cmd_attr : wlan_ser_cmd_attr)
    (nnode pnode : option addr) (status : wlan_serialization_cmd_status)
  : MS wlan_serialization_cmd_status :=
  let pdev_queue := wlan_serialization_get_list_from_pdev_queue p t is_active_queue in
  match qsize with
  | O => mret status
  | S qsize =>
      e ← wlan_serialization_list_empty pdev_queue;
      if e : bool then mret status
      else
        next ← wlan_serialization_get_cmd_from_queue pdev_queue nnode;
        match next with
        | None => mret WLAN_SER_CMD_NOT_FOUND
        | Some n =>
            skip ← cancel_skips_non_scan n pdev vd r t cmd_attr;
            if skip : bool then
              cancel_non_scan_loop qsize p k pdev vd r t is_active_queue psoc cmd_attr
                (Some n) (Some n) status
            else
              step ← (if is_active_queue then cancel_active psoc n else mret CancelRemove);
              match step with
              | CancelStop => mret WLAN_SER_CMD_NOT_FOUND
              | CancelMarked =>
                  cancel_non_scan_loop qsize p k pdev vd r t is_active_queue psoc cmd_attr
                    (Some n) pnode WLAN_SER_CMD_MARKED_FOR_ACTIVATION
              | CancelRemove =>
                  cmd_bkup ← read_cmd n;
                  pdev_status ← wlan_serialization_remove_node pdev_queue n;
                  v ← deref (vdev cmd_bkup);
                  vdev_status ← wlan_serialization_remove_node
                    (wlan_serialization_get_list_from_vdev_queue v is_active_queue) n;
                  if QDF_IS_STATUS_ERROR pdev_status || QDF_IS_STATUS_ERROR vdev_status
                  then mret WLAN_SER_CMD_NOT_FOUND
                  else
                    release_node k n;;
                    wlan_ser_update_cmd_history cmd_bkup SER_CANCEL false is_active_queue;;
                    cancel_notify cmd_bkup;;
                    (if is_active_queue then
                       (if is_blocking cmd_bkup then write_queue k (set_blocking_active false)
                        else mret ());;
                       bit ← vdev_bit v;
                       write_queue k (set_bitmap (fun b => Z.clearbit b bit))
                     else if is_blocking cmd_bkup
                          then write_queue k (set_blocking_waiting (fun w => w - 1))
                          else mret ());;
                    let status := if is_active_queue then WLAN_SER_CMD_IN_ACTIVE_LIST
                                  else WLAN_SER_CMD_IN_PENDING_LIST in
                    match vd, pdev with
                    | None, None => mret status
                    | _, _ =>
                        cancel_non_scan_loop qsize p k pdev vd r t is_active_queue psoc cmd_attr
                          pnode pnode status
                    end
              end
        end
  end.

Definition wlan_ser_cancel_non_scan_cmd p (pdev vd : option nat) (r : option cmd_ref) (t : Z)
    (is_active_queue : bool) (cmd_attr : wlan_ser_cmd_attr)
  : MS wlan_serialization_cmd_status :=
  let k := wlan_serialization_get_pdev_queue_obj p t in
  psoc ← cancel_psoc pdev vd r;
  qsize ← wlan_serialization_list_size
    (wlan_serialization_get_list_from_pdev_queue p t is_active_queue);
  cancel_non_scan_loop qsize p k pdev vd r t is_active_queue psoc cmd_attr None None
    WLAN_SER_CMD_NOT_FOUND.

Definition wlan_serialization_cmd_cancel_handler p (r : option cmd_ref) (pdev vd : option nat)
    (t : Z) (queue_type : Z) (cmd_attr : wlan_ser_cmd_attr) : MS wlan_serialization_cmd_status :=
  active_status ←
    (if negb (Z.land queue_type WLAN_SERIALIZATION_ACTIVE_QUEUE =? 0) then
       if t <? WLAN_SER_CMD_NONSCAN then wlan_ser_cancel_scan_cmd p pdev vd r true
       else wlan_ser_cancel_non_scan_cmd p pdev vd r t true cmd_attr
     else mret WLAN_SER_CMD_NOT_FOUND);
  pending_status ←
    (if negb (Z.land queue_type WLAN_SERIALIZATION_PENDING_QUEUE =? 0) then
       if t <? WLAN_SER_CMD_NONSCAN then wlan_ser_cancel_scan_cmd p pdev vd r false
       else wlan_ser_cancel_non_scan_cmd p pdev vd r t false cmd_attr
     else mret WLAN_SER_CMD_NOT_FOUND);
  mret (match active_status, pending_status with
        | WLAN_SER_CMD_IN_ACTIVE_LIST, WLAN_SER_CMD_IN_PENDING_LIST => WLAN_SER_CMDS_IN_ALL_LISTS
        | WLAN_SER_CMD_IN_ACTIVE_LIST, _ => WLAN_SER_CMD_IN_ACTIVE_LIST
        | _, WLAN_SER_CMD_IN_PENDING_LIST => WLAN_SER_CMD_IN_PENDING_LIST
        | _, _ => WLAN_SER_CMD_NOT_FOUND
        end).

Definition wlan_serialization_find_and_cancel_cmd c (t : wlan_serialization_cancel_type)
    (queue_type : Z) : MS wlan_serialization_cmd_status :=
  match wlan_serialization_get_pdev_from_cmd c with
  | None => mret WLAN_SER_CMD_NOT_FOUND
  | Some p =>
      ser_obj ← wlan_serialization_get_pdev_obj p;
      if negb ser_obj then mret WLAN_SER_CMD_NOT_FOUND
      else
        let cancel r pdev vd t attr :=
          wlan_serialization_cmd_cancel_handler p r pdev vd t queue_type attr in
        match t with
        | WLAN_SER_CANCEL_SINGLE_SCAN =>
            cancel (Some (CmdValue c)) None None WLAN_SER_CMD_SCAN WLAN_SER_CMD_ATTR_NONE
        | WLAN_SER_CANCEL_PDEV_SCANS =>
            cancel None (Some p) None WLAN_SER_CMD_SCAN WLAN_SER_CMD_ATTR_NONE
        | WLAN_SER_CANCEL_VDEV_SCANS | WLAN_SER_CANCEL_VDEV_HOST_SCANS =>
            cancel None None (vdev c) WLAN_SER_CMD_SCAN WLAN_SER_CMD_ATTR_NONE
        | WLAN_SER_CANCEL_NON_SCAN_CMD =>
            cancel (Some (CmdValue c)) None None WLAN_SER_CMD_NONSCAN WLAN_SER_CMD_ATTR_NONE
        | WLAN_SER_CANCEL_PDEV_NON_SCAN_CMD =>
            cancel None (Some p) None WLAN_SER_CMD_NONSCAN WLAN_SER_CMD_ATTR_NONE
        | WLAN_SER_CANCEL_VDEV_NON_SCAN_CMD =>
            cancel None None (vdev c) WLAN_SER_CMD_NONSCAN WLAN_SER_CMD_ATTR_NONE
        | WLAN_SER_CANCEL_VDEV_NON_SCAN_CMD_TYPE =>
            cancel None None (vdev c) (cmd_type c) WLAN_SER_CMD_ATTR_NONE
        | WLAN_SER_CANCEL_VDEV_NON_SCAN_NB_CMD =>
            cancel None None (vdev c) WLAN_SER_CMD_NONSCAN WLAN_SER_CMD_ATTR_NONBLOCK
        | WLAN_SER_CANCEL_MAX => mret WLAN_SER_CMD_NOT_FOUND
        end
  end.

(** ** Requests *)

(** [wlan_serialization_activate_cmd], its own calls included. *)
Definition activate_cmd_body n p (ser_reason : ser_queue_reason) : MS QDF_STATUS :=
  c ← read_cmd n;
  psoc ← wlan_vdev_get_pdev (vdev c);
  if bool_decide (psoc = None) then mret QDF_STATUS_E_FAILURE
  else
    status ← wlan_serialization_find_and_start_timer n ser_reason;
    status ← (if QDF_IS_STATUS_ERROR status then mret status
              else
                write_node n (set_cmd (set_activation_reason ser_reason));;
                c ← read_cmd n;
                cb ← deref (cmd_cb c);
                cmd_callback calls cb c WLAN_SER_CB_ACTIVATE_CMD);
    qdf_atomic_clear_bit CMD_MARKED_FOR_ACTIVATION n;;
    qdf_atomic_set_bit CMD_IS_ACTIVE n;;
    if QDF_IS_STATUS_ERROR status then
      c ← read_cmd n;
      wlan_serialization_dequeue_cmd c SER_ACTIVATION_FAILED true;; mret status
    else
      removal ← qdf_atomic_test_bit CMD_ACTIVE_MARKED_FOR_REMOVAL n;
      c ← read_cmd n;
      if removal : bool then
        wlan_serialization_dequeue_cmd c SER_REMOVE true;; mret status
      else
        cancel ← qdf_atomic_test_bit CMD_ACTIVE_MARKED_FOR_CANCEL n;
        (if cancel : bool then
           wlan_serialization_cmd_cancel_handler p (Some (CmdIn n)) None None (cmd_type c)
             WLAN_SERIALIZATION_ACTIVE_QUEUE WLAN_SER_CMD_ATTR_NONE;; mret ()
         else mret ());;
        mret status.

(** The test of the queue of the VDEV that a request for a non-scan command makes
    first: the status it is refused with, if it is. *)
Definition request_refused c (ser_reason : ser_queue_reason)
  : MS (option wlan_serialization_status) :=
  if (WLAN_SER_CMD_SCAN <? cmd_type c) && bool_decide (ser_reason = SER_REQUEST) then
    ser_vdev_obj ← wlan_serialization_get_vdev_obj (wlan_serialization_get_vdev_from_cmd c);
    if negb ser_vdev_obj then mret (Some WLAN_SER_CMD_DENIED_UNSPECIFIED)
    else
      v ← deref (vdev c);
      vdev_queue ← read_vqueue v;
      mret (if v_queue_disable vdev_queue then Some WLAN_SER_CMD_QUEUE_DISABLED else None)
  else mret None.

Definition wlan_serialization_enqueue_cmd c (ser_reason : ser_queue_reason)
  : MS wlan_serialization_status :=
  match cmd_cb c, wlan_serialization_get_pdev_from_cmd c with
  | Some _, Some p =>
      ser_pdev_obj ← wlan_serialization_get_pdev_obj p;
      if negb ser_pdev_obj then mret WLAN_SER_CMD_DENIED_UNSPECIFIED
      else
        let k := wlan_serialization_get_pdev_queue_obj p (cmd_type c) in
        refused ← request_refused c ser_reason;
        match refused with
        | Some status => mret status
        | None =>
            active_queue ← wlan_serialization_is_active_cmd_allowed c;
            present ← wlan_serialization_is_cmd_present_queue c active_queue;
            if present : bool then mret WLAN_SER_CMD_DENIED_UNSPECIFIED
            else
              nnode ← wlan_serialization_remove_front (QPool k);
              match nnode with
              | None => mret WLAN_SER_CMD_DENIED_LIST_FULL
              | Some n =>
                  write_node n (set_cmd (fun _ => c));;
                  status ← (if cmd_type c <? WLAN_SER_CMD_NONSCAN
                            then wlan_ser_add_scan_cmd p n active_queue
                            else wlan_ser_add_non_scan_cmd p n active_queue);
                  if bool_decide (status <> WLAN_SER_CMD_PENDING)
                     && bool_decide (status <> WLAN_SER_CMD_ACTIVE)
                  then release_node k n;; mret status
                  else
                    (if bool_decide (status = WLAN_SER_CMD_ACTIVE)
                     then qdf_atomic_set_bit CMD_MARKED_FOR_ACTIVATION n else mret ());;
                    wlan_ser_update_cmd_history c ser_reason true active_queue;;
                    (if bool_decide (status = WLAN_SER_CMD_ACTIVE)
                     then wlan_serialization_activate_cmd calls n p ser_reason;; mret ()
                     else mret ());;
                    mret status
              end
        end
  | _, _ => mret WLAN_SER_CMD_DENIED_UNSPECIFIED
  end.

(** ** The entry points (wlan_serialization_api.c) *)

Definition wlan_serialization_validate_cmd (comp_id t : Z) : QDF_STATUS :=
  if (t <? 0) || (comp_id <? 0) || (WLAN_SER_CMD_MAX <=? t) || (WLAN_UMAC_COMP_ID_MAX <=? comp_id)
  then QDF_STATUS_E_INVAL else QDF_STATUS_SUCCESS.

Definition wlan_serialization_validate_cmdtype (t : Z) : QDF_STATUS :=
  if (t <? 0) || (WLAN_SER_CMD_MAX <=? t) then QDF_STATUS_E_INVAL else QDF_STATUS_SUCCESS.

(** The loop over the components: whether every rule that applies allows [c]. *)
Fixpoint rules_loop (n : nat) (comp_id : Z) c v (s : W) : bool :=
  match n with
  | O => true
  | S n =>
      match comp_info_cb s !! (cmd_type c, comp_id) with
      | None => rules_loop n (comp_id + 1) c v s
      | Some fill =>
          match apply_rules_cb s !! cmd_type c with
          | None => rules_loop n (comp_id + 1) c v s
          | Some rules =>
              if rules (fill v (usr s)) comp_id : bool then rules_loop n (comp_id + 1) c v s else false
          end
      end
  end.

Definition wlan_serialization_request (oc : option wlan_serialization_command)
  : MS wlan_serialization_status :=
  match oc with
  | None => mret WLAN_SER_CMD_DENIED_UNSPECIFIED
  | Some c =>
      if QDF_IS_STATUS_ERROR (wlan_serialization_validate_cmd (source c) (cmd_type c))
      then mret WLAN_SER_CMD_DENIED_UNSPECIFIED
      else
        match wlan_serialization_get_pdev_from_cmd c, vdev c with
        | Some _, Some v =>
            allowed ← gets (rules_loop (Z.to_nat WLAN_UMAC_COMP_ID_MAX) 0 c v);
            if negb allowed then mret WLAN_SER_CMD_DENIED_RULES_FAILED
            else wlan_serialization_enqueue_cmd c SER_REQUEST
        | _, _ => mret WLAN_SER_CMD_DENIED_UNSPECIFIED
        end
  end.

(** The command a request names. *)
Definition cmd_of_info (i : wlan_serialization_queued_cmd_info) : wlan_serialization_command :=
  Cmd (req_cmd_type i) (req_cmd_id i) None (req_requestor i) false false false SER_REQUEST 0
    (req_vdev i) 0.

Definition wlan_serialization_remove_cmd (oi : option wlan_serialization_queued_cmd_info)
  : MS unit :=
  match oi with
  | None => mret ()
  | Some i =>
      if QDF_IS_STATUS_ERROR (wlan_serialization_validate_cmd (req_requestor i) (req_cmd_type i))
      then mret ()
      else wlan_serialization_dequeue_cmd (cmd_of_info i) SER_REMOVE true;; mret ()
  end.

Definition wlan_serialization_cancel_request (oi : option wlan_serialization_queued_cmd_info)
  : MS wlan_serialization_cmd_status :=
  match oi with
  | None => mret WLAN_SER_CMD_NOT_FOUND
  | Some i =>
      if QDF_IS_STATUS_ERROR (wlan_serialization_validate_cmd (req_requestor i) (req_cmd_type i))
      then mret WLAN_SER_CMD_NOT_FOUND
      else wlan_serialization_find_and_cancel_cmd (cmd_of_info i) (req_type i) (req_queue_type i)
  end.

Definition wlan_serialization_update_timer (oc : option wlan_serialization_command)
  : MS QDF_STATUS :=
  match oc with
  | None => mret QDF_STATUS_E_FAILURE
  | Some c =>
      match wlan_serialization_get_pdev_from_cmd c with
      | None => mret QDF_STATUS_E_FAILURE
      | Some _ => wlan_serialization_find_and_update_timer c
      end
  end.

Definition wlan_ser_vdev_queue_disable v : MS QDF_STATUS :=
  match vdev_pdev env v with
  | None => mret QDF_STATUS_E_INVAL
  | Some p =>
      ser_pdev_obj ← wlan_serialization_get_pdev_obj p;
      ser_vdev_obj ← wlan_serialization_get_vdev_obj (Some v);
      if negb ser_pdev_obj || negb ser_vdev_obj then mret QDF_STATUS_E_INVAL
      else write_vqueue v set_queue_disable;; mret QDF_STATUS_SUCCESS
  end.

Definition wlan_serialization_purge_all_pdev_cmd p : MS unit :=
  ser_pdev_obj ← wlan_serialization_get_pdev_obj p;
  if negb ser_pdev_obj then mret ()
  else
    wlan_ser_cancel_scan_cmd p (Some p) None None false;;
    wlan_ser_cancel_scan_cmd p (Some p) None None true;;
    wlan_ser_cancel_non_scan_cmd p (Some p) None None WLAN_SER_CMD_NONSCAN false
      WLAN_SER_CMD_ATTR_NONE;;
    wlan_ser_cancel_non_scan_cmd p (Some p) None None WLAN_SER_CMD_NONSCAN true
      WLAN_SER_CMD_ATTR_NONE;;
    mret ().

(** [wlan_objmgr_iterate_obj_list] over the pdevs. *)
Fixpoint purge_pdevs (pdevs : list nat) : MS unit :=
  match pdevs with
  | [] => mret ()
  | p :: pdevs => wlan_serialization_purge_all_pdev_cmd p;; purge_pdevs pdevs
  end.

(** [wlan_objmgr_get_vdev_by_id_from_pdev]: with a reference, on a VDEV of the pdev
    that is created. *)
Definition wlan_objmgr_get_vdev_by_id_from_pdev p v : MS bool :=
  if bool_decide (vdev_pdev env v = Some p) then
    status ← wlan_objmgr_vdev_try_get_ref (Some v); mret (QDF_IS_STATUS_SUCCESS status)
  else mret false.

(** The frame of the purges of one VDEV. *)
Definition with_vdev p v (purge : MS unit) : MS unit :=
  ser_pdev_obj ← wlan_serialization_get_pdev_obj p;
  if negb ser_pdev_obj then mret ()
  else
    found ← wlan_objmgr_get_vdev_by_id_from_pdev p v;
    if negb found then mret () else purge;; wlan_objmgr_vdev_release_ref (Some v).

Definition wlan_serialization_purge_all_pending_cmd_by_vdev_id p v : MS unit :=
  with_vdev p v
    (wlan_ser_cancel_scan_cmd p (Some p) (Some v) None false;;
     wlan_ser_cancel_non_scan_cmd p (Some p) (Some v) None WLAN_SER_CMD_NONSCAN false
       WLAN_SER_CMD_ATTR_NONE;; mret ()).

Definition wlan_serialization_purge_all_cmd_by_vdev_id p v : MS unit :=
  with_vdev p v
    (wlan_ser_cancel_scan_cmd p (Some p) (Some v) None false;;
     wlan_ser_cancel_scan_cmd p (Some p) (Some v) None true;;
     wlan_ser_cancel_non_scan_cmd p (Some p) (Some v) None WLAN_SER_CMD_NONSCAN false
       WLAN_SER_CMD_ATTR_NONE;;
     wlan_ser_cancel_non_scan_cmd p (Some p) (Some v) None WLAN_SER_CMD_NONSCAN true
       WLAN_SER_CMD_ATTR_NONE;; mret ()).

Definition wlan_serialization_purge_all_scan_cmd_by_vdev_id p v : MS unit :=
  with_vdev p v
    (wlan_ser_cancel_scan_cmd p (Some p) (Some v) None false;;
     wlan_ser_cancel_scan_cmd p (Some p) (Some v) None true;; mret ()).

Definition run_api (a : ser_api) : MS ser_result :=
  match a with
  | ApiRequest c => st ← wlan_serialization_request c; mret (ResSer st)
  | ApiRemove i => wlan_serialization_remove_cmd i;; mret ResVoid
  | ApiCancel i => st ← wlan_serialization_cancel_request i; mret (ResCmd st)
  | ApiUpdateTimer c => st ← wlan_serialization_update_timer c; mret (ResQdf st)
  | ApiQueueDisable v => st ← wlan_ser_vdev_queue_disable v; mret (ResQdf st)
  | ApiPurgePdev p => wlan_serialization_purge_all_pdev_cmd p;; mret ResVoid
  | ApiPurgeVdev p v => wlan_serialization_purge_all_cmd_by_vdev_id p v;; mret ResVoid
  | ApiPurgeVdevPending p v =>
      wlan_serialization_purge_all_pending_cmd_by_vdev_id p v;; mret ResVoid
  | ApiPurgeVdevScans p v => wlan_serialization_purge_all_scan_cmd_by_vdev_id p v;; mret ResVoid
  end.

Fixpoint run_script (sc : script U) : MS QDF_STATUS :=
  match sc with
  | Done status => mret status
  | Own f k => modify (set_usr f);; s ← gets id; run_script (k s)
  | Call a k => r ← run_api a; run_script (k r)
  end.

(** The handler of timer [i], in the scheduler's context; the command is the one the
    timer points to when it runs. *)
Definition wlan_serialization_generic_timer_cb (i : nat) : MS unit :=
  l ← gets timers;
  t ← deref (l !! i);
  match t_cmd t with
  | None => mret ()
  | Some n =>
      c ← read_cmd n;
      match vdev c with
      | None => mret ()
      | Some v =>
          notify c WLAN_SER_CB_ACTIVE_CMD_TIMEOUT;;
          c ← read_cmd n;
          status ← wlan_serialization_dequeue_cmd c SER_TIMEOUT true;
          if bool_decide (status = WLAN_SER_CMD_IN_ACTIVE_LIST)
          then wlan_objmgr_vdev_release_ref (Some v) else mret ()
      end
  end.

End Calls.

(** The clients' callbacks, by function pointer. *)
Variable callbacks : nat -> wlan_serialization_command -> wlan_serialization_cb_reason -> script U.

(** The calls of the component to the clients and to itself, nested at most [fuel]
    deep. *)
Fixpoint engine (fuel : nat) : ser_calls :=
  match fuel with
  | O => SerCalls (fun _ _ _ => out_of_fuel) (fun _ _ _ => out_of_fuel)
  | S fuel =>
      SerCalls
        (fun cb c reason =>
           modify (emit (EvCallback c reason));; run_script (engine fuel) (callbacks cb c reason))
        (activate_cmd_body (engine fuel))
  end.

(** *** Registration of the rules, and questions about the queues *)

Definition wlan_serialization_register_apply_rules_cb (t : Z)
    (cb : wlan_serialization_scan_info -> Z -> bool) : MS QDF_STATUS :=
  let status := wlan_serialization_validate_cmdtype t in
  if QDF_IS_STATUS_ERROR status then mret status
  else modify (set_apply_rules <[t := cb]>);; mret QDF_STATUS_SUCCESS.

Definition wlan_serialization_deregister_apply_rules_cb (t : Z) : MS QDF_STATUS :=
  let status := wlan_serialization_validate_cmdtype t in
  if QDF_IS_STATUS_ERROR status then mret status
  else modify (set_apply_rules (delete t));; mret QDF_STATUS_SUCCESS.

Definition wlan_serialization_register_comp_info_cb (comp_id t : Z)
    (cb : nat -> U -> wlan_serialization_scan_info) : MS QDF_STATUS :=
  let status := wlan_serialization_validate_cmd comp_id t in
  if QDF_IS_STATUS_ERROR status then mret status
  else modify (set_comp_info <[(t, comp_id) := cb]>);; mret QDF_STATUS_SUCCESS.

Definition wlan_serialization_deregister_comp_info_cb (comp_id t : Z) : MS QDF_STATUS :=
  let status := wlan_serialization_validate_cmd comp_id t in
  if QDF_IS_STATUS_ERROR status then mret status
  else modify (set_comp_info (delete (t, comp_id)));; mret QDF_STATUS_SUCCESS.

Definition wlan_serialization_apply_scan_rules (info : wlan_serialization_scan_info)
    (comp_id : Z) : bool := false.

Definition wlan_serialization_is_cmd_in_active_pending (cmd_in_active cmd_in_pending : bool)
  : wlan_serialization_cmd_status :=
  if cmd_in_active && cmd_in_pending then WLAN_SER_CMDS_IN_ALL_LISTS
  else if cmd_in_active then WLAN_SER_CMD_IN_ACTIVE_LIST
  else if cmd_in_pending then WLAN_SER_CMD_IN_PENDING_LIST
  else WLAN_SER_CMD_NOT_FOUND.

Definition is_found (o : option addr) : bool := match o with Some _ => true | None => false end.

Definition wlan_serialization_non_scan_cmd_status p (t : Z) : MS wlan_serialization_cmd_status :=
  let k := (p, SER_PDEV_QUEUE_COMP_NON_SCAN) in
  a ← wlan_serialization_find_cmd (QActive k) WLAN_SER_MATCH_CMD_TYPE None t None None;
  b ← wlan_serialization_find_cmd (QPending k) WLAN_SER_MATCH_CMD_TYPE None t None None;
  mret (wlan_serialization_is_cmd_in_active_pending (is_found a) (is_found b)).

Definition wlan_serialization_is_cmd_in_vdev_list (vd : option nat) (queue : list_ref)
  : MS bool :=
  node ← wlan_serialization_find_cmd queue WLAN_SER_MATCH_VDEV None 0 None vd;
  mret (is_found node).

Definition wlan_serialization_vdev_scan_status v : MS wlan_serialization_cmd_status :=
  p ← deref (vdev_pdev env v);
  let k := (p, SER_PDEV_QUEUE_COMP_SCAN) in
  a ← wlan_serialization_is_cmd_in_vdev_list (Some v) (QActive k);
  b ← wlan_serialization_is_cmd_in_vdev_list (Some v) (QPending k);
  mret (wlan_serialization_is_cmd_in_active_pending a b).

Definition wlan_serialization_pdev_scan_status p : MS wlan_serialization_cmd_status :=
  let k := (p, SER_PDEV_QUEUE_COMP_SCAN) in
  a ← wlan_serialization_list_empty (QActive k);
  b ← wlan_serialization_list_empty (QPending k);
  mret (wlan_serialization_is_cmd_in_active_pending (negb a) (negb b)).

Definition wlan_serialization_get_vdev_active_cmd_type v : MS Z :=
  match vdev_pdev env v with
  | None => mret WLAN_SER_CMD_MAX
  | Some p =>
      ser_pdev_obj ← wlan_serialization_get_pdev_obj p;
      ser_vdev_obj ← wlan_serialization_get_vdev_obj (Some v);
      if negb ser_pdev_obj || negb ser_vdev_obj then mret WLAN_SER_CMD_MAX
      else
        node ← wlan_serialization_peek_front (VActive v);
        match node with
        | None => mret WLAN_SER_CMD_MAX
        | Some n => c ← read_cmd n; mret (cmd_type c)
        end
  end.

Definition wlan_ser_is_vdev_queue_enabled v : MS bool :=
  ser_vdev_obj ← wlan_serialization_get_vdev_obj (Some v);
  if negb ser_vdev_obj then mret false
  else q ← read_vqueue v; mret (negb (v_queue_disable q)).

Definition wlan_ser_get_cmd_activation_status v : MS QDF_STATUS :=
  match vdev_pdev env v with
  | None => mret QDF_STATUS_E_FAILURE
  | Some p =>
      ser_pdev_obj ← wlan_serialization_get_pdev_obj p;
      ser_vdev_obj ← wlan_serialization_get_vdev_obj (Some v);
      if negb ser_pdev_obj || negb ser_vdev_obj then mret QDF_STATUS_E_FAILURE
      else
        node ← wlan_serialization_peek_front (VActive v);
        match node with
        | None => mret QDF_STATUS_E_FAILURE
        | Some n =>
            marked ← qdf_atomic_test_bit CMD_MARKED_FOR_ACTIVATION n;
            mret (if marked : bool then QDF_STATUS_SUCCESS else QDF_STATUS_E_FAILURE)
        end
  end.

(** *** Life cycle (wlan_serialization_main.c), when memory is available *)

Definition wlan_serialization_psoc_enable (pdev_count : nat) : MS unit :=
  modify (set_timers (fun _ => replicate
    (WLAN_SER_MAX_ACTIVE_SCAN_CMDS + pdev_count * WLAN_SER_MAX_VDEVS) (Timer None None))).

Definition max_active_of (t : serialization_pdev_queue_type) : nat :=
  match t with
  | SER_PDEV_QUEUE_COMP_SCAN => WLAN_SER_MAX_ACTIVE_SCAN_CMDS
  | SER_PDEV_QUEUE_COMP_NON_SCAN => WLAN_SER_MAX_ACTIVE_CMDS
  end.
Definition max_pending_of (t : serialization_pdev_queue_type) : nat :=
  match t with
  | SER_PDEV_QUEUE_COMP_SCAN => WLAN_SER_MAX_PENDING_SCAN_CMDS
  | SER_PDEV_QUEUE_COMP_NON_SCAN => WLAN_SER_MAX_PENDING_CMDS
  end.
Definition cmd_pool_size (t : serialization_pdev_queue_type) : nat :=
  (max_active_of t + max_pending_of t)%nat.

(** The buffers of a queue's pool, in the order they are allocated. *)
Definition pool_addrs k : list addr := (fun i => (k, i)) <$> seq 0 (cmd_pool_size (snd k)).

Definition create_nodes k (m : gmap addr wlan_serialization_command_list)
  : gmap addr wlan_serialization_command_list :=
  foldr (fun n m => <[n := CmdList zero_cmd 0]> m) m (pool_addrs k).

Definition create_queue k (s : W) : W :=
  let t := snd k in
  set_queues <[k := PdevQueue (QdfList [] (max_active_of t)) (QdfList [] (max_pending_of t))
                      (QdfList (pool_addrs k) (cmd_pool_size t)) 0 false 0]>
    (set_nodes (create_nodes k) s).

Definition wlan_serialization_pdev_create_handler p : MS QDF_STATUS :=
  modify (create_queue (p, SER_PDEV_QUEUE_COMP_SCAN));;
  modify (create_queue (p, SER_PDEV_QUEUE_COMP_NON_SCAN));;
  mret QDF_STATUS_SUCCESS.

(** [ap]: the operation mode is SAP or P2P GO. *)
Definition wlan_serialization_vdev_create_handler v (ap : bool) : MS QDF_STATUS :=
  modify (set_vqueues <[v := VdevQueue
    (QdfList [] (WLAN_SER_MAX_ACTIVE_CMDS / WLAN_SER_MAX_VDEVS))
    (QdfList [] (if ap then WLAN_SER_MAX_PENDING_CMDS_AP else WLAN_SER_MAX_PENDING_CMDS_STA))
    false]>);;
  mret QDF_STATUS_SUCCESS.

Definition wlan_serialization_vdev_destroy_handler v : MS QDF_STATUS :=
  ser_vdev_obj ← wlan_serialization_get_vdev_obj (Some v);
  if negb ser_vdev_obj then mret QDF_STATUS_E_INVAL
  else
    wlan_serialization_cleanup_vdev_timers v;;
    modify (set_vqueues (delete v));;
    mret QDF_STATUS_SUCCESS.

End Ser.
