(* ===== verification/SerBase.v ===== *)
(** Tools for the serialization queues: lists of command buffers, the invariant of the
    queues, and what the primitive operations return. *)
From S2P Require Import Prelude Ser.

(** ** Lists of command buffers *)

Section Lists.
Implicit Types (n m : addr) (l : list addr).

(** Insertion by priority. *)
Definition ins (high : bool) n l : list addr := if high then n :: l else l ++ [n].

Lemma elem_of_ins h n l m : m ∈ ins h n l <-> m = n \/ m ∈ l.
Proof.
  destruct h; unfold ins; rewrite ?elem_of_cons, ?elem_of_app, ?list_elem_of_singleton; tauto.
Qed.

Lemma ins_perm h n l : ins h n l ≡ₚ n :: l.
Proof. destruct h; unfold ins; [done|]. symmetry. apply Permutation_cons_append. Qed.

Lemma length_ins h n l : length (ins h n l) = S (length l).
Proof. exact (Permutation_length (ins_perm h n l)). Qed.

Lemma unlink_ins h n l : n ∉ l -> unlink n (ins h n l) = l.
Proof.
  intros Hn. destruct h; unfold unlink; cbn; rewrite ?List.filter_app; cbn;
    rewrite bool_decide_eq_true_2 by done; cbn; rewrite ?app_nil_r; by apply unlink_id.
Qed.

Lemma filter_ins (P : addr -> bool) h n l :
  List.filter P (ins h n l) = if P n then ins h n (List.filter P l) else List.filter P l.
Proof.
  destruct h; cbn; [done|]. rewrite List.filter_app. cbn.
  destruct (P n); [done|]. by rewrite app_nil_r.
Qed.

Lemma find_filter_none {A} (P : A -> bool) (l : list A) :
  List.find P l = None -> forall x, x ∈ l -> P x = false.
Proof. intros H x Hx. apply (List.find_none _ _ H). by apply list_elem_of_In. Qed.

Lemma find_some_elem {A} (P : A -> bool) (l : list A) x :
  List.find P l = Some x -> x ∈ l /\ P x = true.
Proof. intros [? ?]%List.find_some. split; [by apply list_elem_of_In|done]. Qed.

Lemma find_unique {A} (P : A -> bool) (l : list A) x :
  x ∈ l -> P x = true -> (forall y, y ∈ l -> P y = true -> y = x) -> List.find P l = Some x.
Proof.
  intros Hin Hx Hu. destruct (List.find P l) as [y|] eqn:E.
  - apply find_some_elem in E as [Hy HPy]. f_equal. by apply Hu.
  - by rewrite (find_filter_none _ _ E x Hin) in Hx.
Qed.

(** The successor of a member. *)
Lemma next_in_elem l1 n l2 : NoDup (l1 ++ n :: l2) -> next_in (l1 ++ n :: l2) n = Some (head l2).
Proof.
  induction l1 as [|m l1 IH]; cbn; intros Hnd.
  - by rewrite bool_decide_eq_true_2.
  - apply NoDup_cons in Hnd as [Hm Hnd]. rewrite bool_decide_eq_false_2 by set_solver. by apply IH.
Qed.

End Lists.

(** ** The invariant *)

(** The contents of a command buffer. *)
Definition ncmd (ns : gmap addr wlan_serialization_command_list) (n : addr)
  : wlan_serialization_command :=
  match ns !! n with Some cl => cmd cl | None => zero_cmd end.
Definition nuse (ns : gmap addr wlan_serialization_command_list) (n : addr) : Z :=
  match ns !! n with Some cl => cmd_in_use cl | None => 0 end.
Definition marked ns n : bool := Z.testbit (nuse ns n) CMD_MARKED_FOR_ACTIVATION.
Definition is_active ns n : bool := Z.testbit (nuse ns n) CMD_IS_ACTIVE.
Definition on_vdev ns (v : nat) (n : addr) : bool := bool_decide (vdev (ncmd ns n) = Some v).

(** What identifies a command. *)
Definition same_cmd (c c' : wlan_serialization_command) : bool :=
  (cmd_id c =? cmd_id c') && (cmd_type c =? cmd_type c') && bool_decide (vdev c = vdev c').

(** A command but for the reason of its activation. *)
Definition base (c : wlan_serialization_command) : wlan_serialization_command :=
  set_activation_reason SER_REQUEST c.

(** The commands whose requests were accepted, and those whose memory their owners
    were told to release. *)
Definition accepted_event (e : ser_event) : list wlan_serialization_command :=
  match e with EvQueue c SER_REQUEST true _ => [base c] | _ => [] end.
Definition released_event (e : ser_event) : list wlan_serialization_command :=
  match e with EvCallback c WLAN_SER_CB_RELEASE_MEM_CMD => [base c] | _ => [] end.
Definition accepted (tr : list ser_event) := tr ≫= accepted_event.
Definition released (tr : list ser_event) := tr ≫= released_event.

Section Invariant.
Context {U : Type} (env : ser_env).
Abbreviation W := (ser_world U).
Implicit Types (n : addr) (k : qkey) (q : wlan_serialization_pdev_queue)
  (vq : wlan_serialization_vdev_queue) (ns : gmap addr wlan_serialization_command_list).

(** The queue a command belongs to. *)
Definition key_of (c : wlan_serialization_command) : option qkey :=
  p ← wlan_serialization_get_pdev_from_cmd env c;
  Some (wlan_serialization_get_pdev_queue_obj p (cmd_type c)).
Definition of_key k c : bool := bool_decide (key_of c = Some k).

Definition cmd_ok k (c : wlan_serialization_command) : Prop :=
  is_Some (cmd_cb c) /\ key_of c = Some k /\ 0 <= cmd_type c.

Abbreviation act q := (elems (active_list q)).
Abbreviation pend q := (elems (pending_list q)).
Abbreviation pool q := (elems (cmd_pool_list q)).

(** The buffers of a pool are split between the three lists; the lists keep to their
    sizes; the states of the buffers are those of their lists. *)
Record queue_ok ns k q : Prop := {
  q_parts : pool q ++ act q ++ pend q ≡ₚ pool_addrs k;
  q_max_act : max_size (active_list q) = max_active_of (snd k);
  q_max_pend : max_size (pending_list q) = max_pending_of (snd k);
  q_len_act : (length (act q) <= max_active_of (snd k))%nat;
  q_len_pend : (length (pend q) <= max_pending_of (snd k))%nat;
  q_pool : forall n, n ∈ pool q -> nuse ns n = 0 /\ ncmd ns n = zero_cmd;
  q_pend : forall n, n ∈ pend q -> nuse ns n = 0 /\ cmd_ok k (ncmd ns n);
  q_act : forall n, n ∈ act q -> is_active ns n = negb (marked ns n) /\ cmd_ok k (ncmd ns n);
}.

(** The lists of a VDEV are its commands in the lists of the pdev, in order. *)
Record vdev_ok ns q (v : nat) vq : Prop := {
  v_act_eq : elems (v_active_list vq) = List.filter (on_vdev ns v) (act q);
  v_pend_eq : elems (v_pending_list vq) = List.filter (on_vdev ns v) (pend q);
  v_max_act : max_size (v_active_list vq) = 1%nat;
  v_max_pend : max_size (v_pending_list vq) = 4%nat;
  v_len_pend : (length (elems (v_pending_list vq)) <= 4)%nat;
  v_keys : forall n m, n ∈ elems (v_pending_list vq) -> m ∈ elems (v_pending_list vq) ->
           same_cmd (ncmd ns n) (ncmd ns m) = true -> n = m;
}.

(** One active non-scan command per VDEV, and the bitmap says which. *)
Record ns_ok ns (vqs : gmap nat wlan_serialization_vdev_queue) (p : nat) q : Prop := {
  ns_bits : forall v : nat,
    Z.testbit (vdev_active_cmd_bitmap q) (Z.of_nat v) = existsb (on_vdev ns v) (act q);
  ns_nonneg : 0 <= vdev_active_cmd_bitmap q;
  ns_uniq : NoDup ((fun n => vdev (ncmd ns n)) <$> act q);
  ns_vdevs : forall v, vdev_pdev env v = Some p ->
    exists vq, vqs !! v = Some vq /\ vdev_ok ns q v vq;
}.

(** Every accepted command is queued, or its release has been notified, once. *)
Definition life_ok ns (tr : list ser_event) k q : Prop :=
  List.filter (of_key k) (accepted tr) ≡ₚ
  ((fun n => base (ncmd ns n)) <$> act q ++ pend q) ++ List.filter (of_key k) (released tr).

(** The timers of non-scan commands: each is for a command that is active, with no
    other timer, and every activated command but [x] has one, unless it is without
    timeout on an emulation. *)
Definition needs_timer ns n : Prop :=
  cmd_timeout_duration (ncmd ns n) <> 0 \/ is_emulation env = false.

Definition has_timer (ts : list wlan_serialization_timer) n : Prop :=
  exists i t, ts !! i = Some t /\ t_cmd t = Some n.

Record timers_ok ns (x : option addr) (ts : list wlan_serialization_timer) : Prop := {
  t_nodes : forall i t n, ts !! i = Some t -> t_cmd t = Some n -> is_Some (ns !! n);
  t_live : forall i t n, ts !! i = Some t -> t_cmd t = Some n ->
    snd (fst n) = SER_PDEV_QUEUE_COMP_NON_SCAN -> nuse ns n <> 0 /\ needs_timer ns n;
  t_once : forall i j t u n, ts !! i = Some t -> ts !! j = Some u ->
    t_cmd t = Some n -> t_cmd u = Some n -> snd (fst n) = SER_PDEV_QUEUE_COMP_NON_SCAN -> i = j;
  t_have : forall n, snd (fst n) = SER_PDEV_QUEUE_COMP_NON_SCAN -> is_active ns n = true ->
    needs_timer ns n -> x <> Some n -> has_timer ts n;
}.

Record inv (x : option addr) (s : W) : Prop := {
  i_nodes : forall k q n, queues s !! k = Some q -> n ∈ pool_addrs k -> is_Some (nodes s !! n);
  i_dom : forall n, is_Some (nodes s !! n) -> exists q, queues s !! fst n = Some q /\ n ∈ pool_addrs (fst n);
  i_pair : forall p, is_Some (queues s !! (p, SER_PDEV_QUEUE_COMP_SCAN)) <->
                     is_Some (queues s !! (p, SER_PDEV_QUEUE_COMP_NON_SCAN));
  i_queue : forall k q, queues s !! k = Some q -> queue_ok (nodes s) k q;
  i_ns : forall p q, queues s !! (p, SER_PDEV_QUEUE_COMP_NON_SCAN) = Some q ->
         ns_ok (nodes s) (vqueues s) p q;
  i_life : forall k q, queues s !! k = Some q -> life_ok (nodes s) (trace s) k q;
  i_timers : timers_ok (nodes s) x (timers s);
  i_scans : active_scan_count s <= Z.max 0 (max_active_scans env);
}.

(** What the object manager and the scan module guarantee: a psoc has at most 51
    VDEVs and a pdev at most 17; at most 8 scans run at once. *)
Record env_ok : Prop := {
  e_vdevs : forall v p, vdev_pdev env v = Some p -> (v < WLAN_UMAC_PSOC_MAX_VDEVS)%nat;
  e_pdev : forall p l, NoDup l -> (forall v, v ∈ l -> vdev_pdev env v = Some p) ->
           (length l <= WLAN_SER_MAX_VDEVS)%nat;
  e_scans : max_active_scans env <= Z.of_nat WLAN_SER_MAX_ACTIVE_SCAN_CMDS;
}.

(** What a call of the component leaves alone: which queues exist, and the commands
    that are being activated, with their timers, but [x]. *)
Record evolves (x : option addr) (s s' : W) : Prop := {
  ev_queues : forall k, is_Some (queues s !! k) <-> is_Some (queues s' !! k);
  ev_pinned : forall n, marked (nodes s) n = true -> x <> Some n ->
    marked (nodes s') n = true /\ ncmd (nodes s') n = ncmd (nodes s) n;
  ev_timers : forall n, marked (nodes s) n = true -> x <> Some n ->
    snd (fst n) = SER_PDEV_QUEUE_COMP_NON_SCAN ->
    has_timer (timers s) n -> has_timer (timers s') n;
}.

(** The number of commands waiting in a queue. *)
Definition waiting k (s : W) : nat :=
  match queues s !! k with Some q => length (pend q) | None => 0 end.

End Invariant.

(** ** What the primitive operations return *)

Section Primitives.
Context {U : Type}.
Abbreviation W := (ser_world U).
Implicit Types (s : W) (n : addr) (k : qkey) (v : nat) (r : list_ref) (l : qdf_list_t).

Lemma read_node_eq s n cl : nodes s !! n = Some cl -> read_node n s = Ret cl s.
Proof. intros H. unfold read_node. rewrite bind_gets, H. done. Qed.

Lemma read_cmd_eq s n : is_Some (nodes s !! n) -> read_cmd n s = Ret (ncmd (nodes s) n) s.
Proof.
  intros [cl H]. unfold read_cmd, ncmd. rewrite (bind_ret _ _ _ _ _ (read_node_eq s n cl H)).
  by rewrite H.
Qed.

Lemma test_bit_eq s n b : is_Some (nodes s !! n) ->
  qdf_atomic_test_bit b n s = Ret (Z.testbit (nuse (nodes s) n) b) s.
Proof.
  intros [cl H]. unfold qdf_atomic_test_bit, nuse.
  rewrite (bind_ret _ _ _ _ _ (read_node_eq s n cl H)). by rewrite H.
Qed.

Lemma write_node_eq s n f : is_Some (nodes s !! n) ->
  write_node n f s = Ret tt
    (set_nodes <[n := f (CmdList (ncmd (nodes s) n) (nuse (nodes s) n))]> s).
Proof.
  intros [cl H]. unfold write_node, ncmd, nuse. rewrite (bind_ret _ _ _ _ _ (read_node_eq s n cl H)).
  rewrite H. by destruct cl.
Qed.

Lemma read_queue_eq s k q : queues s !! k = Some q -> read_queue k s = Ret q s.
Proof. intros H. unfold read_queue. rewrite bind_gets, H. done. Qed.

Lemma write_queue_eq s k q f :
  queues s !! k = Some q -> write_queue k f s = Ret tt (set_queues <[k := f q]> s).
Proof.
  intros H. unfold write_queue. by rewrite (bind_ret _ _ _ _ _ (read_queue_eq s k q H)).
Qed.

Lemma read_vqueue_eq s v vq : vqueues s !! v = Some vq -> read_vqueue v s = Ret vq s.
Proof. intros H. unfold read_vqueue. rewrite bind_gets, H. done. Qed.

Lemma write_vqueue_eq s v vq f :
  vqueues s !! v = Some vq -> write_vqueue v f s = Ret tt (set_vqueues <[v := f vq]> s).
Proof.
  intros H. unfold write_vqueue. by rewrite (bind_ret _ _ _ _ _ (read_vqueue_eq s v vq H)).
Qed.

(** The list a reference denotes, and its replacement. *)
Definition list_at s r : option qdf_list_t :=
  match r with
  | QActive k => active_list <$> queues s !! k
  | QPending k => pending_list <$> queues s !! k
  | QPool k => cmd_pool_list <$> queues s !! k
  | VActive v => v_active_list <$> vqueues s !! v
  | VPending v => v_pending_list <$> vqueues s !! v
  end.

Definition set_list r l s : W :=
  match r with
  | QActive k => set_queues (alter (q_set_active l) k) s
  | QPending k => set_queues (alter (q_set_pending l) k) s
  | QPool k => set_queues (alter (q_set_pool l) k) s
  | VActive v => set_vqueues (alter (v_set_active l) v) s
  | VPending v => set_vqueues (alter (v_set_pending l) v) s
  end.

Lemma alter_Some_insert {K A} `{Countable K} (f : A -> A) (m : gmap K A) i x :
  m !! i = Some x -> <[i := f x]> m = alter f i m.
Proof.
  intros Hi. apply map_eq. intros j. destruct (decide (i = j)) as [->|Hne].
  - by rewrite lookup_insert_eq, lookup_alter_eq, Hi.
  - by rewrite lookup_insert_ne, lookup_alter_ne by done.
Qed.

Lemma get_list_eq s r l : list_at s r = Some l -> get_list r s = Ret l s.
Proof.
  destruct r; cbn; intros H; apply fmap_Some in H as (q & Hq & ->); unfold get_list;
    (rewrite (bind_ret _ _ _ _ _ (read_queue_eq _ _ _ Hq)) ||
     rewrite (bind_ret _ _ _ _ _ (read_vqueue_eq _ _ _ Hq))); done.
Qed.

Lemma put_list_eq s r l : is_Some (list_at s r) -> put_list r l s = Ret tt (set_list r l s).
Proof.
  destruct r; cbn; intros [q Hq]; apply fmap_Some in Hq as (q' & Hq & _);
    (rewrite (write_queue_eq _ _ _ _ Hq) || rewrite (write_vqueue_eq _ _ _ _ Hq));
    unfold set_queues, set_vqueues; by rewrite (alter_Some_insert _ _ _ _ Hq).
Qed.

Lemma list_empty_eq s r l : list_at s r = Some l ->
  wlan_serialization_list_empty r s = Ret (match elems l with [] => true | _ => false end) s.
Proof.
  intros H. unfold wlan_serialization_list_empty. by rewrite (bind_ret _ _ _ _ _ (get_list_eq s r l H)).
Qed.

Lemma list_size_eq s r l : list_at s r = Some l ->
  wlan_serialization_list_size r s = Ret (length (elems l)) s.
Proof.
  intros H. unfold wlan_serialization_list_size. by rewrite (bind_ret _ _ _ _ _ (get_list_eq s r l H)).
Qed.

Lemma peek_front_eq s r l : list_at s r = Some l ->
  wlan_serialization_peek_front r s = Ret (head (elems l)) s.
Proof.
  intros H. unfold wlan_serialization_peek_front. by rewrite (bind_ret _ _ _ _ _ (get_list_eq s r l H)).
Qed.

Lemma peek_next_eq s r l xs n ys : list_at s r = Some l -> elems l = xs ++ n :: ys ->
  NoDup (elems l) -> wlan_serialization_peek_next r n s = Ret (head ys) s.
Proof.
  intros H He Hnd. unfold wlan_serialization_peek_next.
  rewrite (bind_ret _ _ _ _ _ (get_list_eq s r l H)). rewrite He in *.
  rewrite (next_in_elem _ _ _ Hnd). by destruct xs.
Qed.

Lemma set_elems_eq s r l f : list_at s r = Some l ->
  set_elems f r s = Ret tt (set_list r (QdfList (f (elems l)) (max_size l)) s).
Proof.
  intros H. unfold set_elems. rewrite (bind_ret _ _ _ _ _ (get_list_eq s r l H)).
  by rewrite put_list_eq by eauto.
Qed.

Lemma insert_eq s r l n high : list_at s r = Some l ->
  (if high : bool then wlan_serialization_insert_front r n
   else wlan_serialization_insert_back r n) s =
  Ret QDF_STATUS_SUCCESS (set_list r (QdfList (ins high n (elems l)) (max_size l)) s).
Proof.
  intros H. destruct high; unfold wlan_serialization_insert_front, wlan_serialization_insert_back;
    by rewrite (bind_ret _ _ _ _ _ (set_elems_eq s r l _ H)).
Qed.

Lemma insert_back_eq s r l n : list_at s r = Some l ->
  wlan_serialization_insert_back r n s =
  Ret QDF_STATUS_SUCCESS (set_list r (QdfList (elems l ++ [n]) (max_size l)) s).
Proof. exact (insert_eq s r l n false). Qed.

Lemma remove_front_eq s r l : list_at s r = Some l ->
  wlan_serialization_remove_front r s =
  match elems l with
  | [] => Ret None s
  | n :: rest => Ret (Some n) (set_list r (QdfList rest (max_size l)) s)
  end.
Proof.
  intros H. unfold wlan_serialization_remove_front.
  rewrite (bind_ret _ _ _ _ _ (get_list_eq s r l H)). destruct (elems l); [done|].
  by rewrite (bind_ret _ _ _ _ _ (put_list_eq s r _ ltac:(eauto))).
Qed.

Lemma remove_node_eq s r l n : list_at s r = Some l -> n ∈ elems l ->
  wlan_serialization_remove_node r n s =
  Ret QDF_STATUS_SUCCESS (set_list r (QdfList (unlink n (elems l)) (max_size l)) s).
Proof.
  intros H Hn. unfold wlan_serialization_remove_node.
  rewrite (bind_ret _ _ _ _ _ (list_empty_eq s r l H)).
  destruct (elems l) as [|a rest] eqn:E; [by apply elem_of_nil in Hn|]. rewrite <- E in *.
  rewrite (bind_ret _ _ _ _ _ (get_list_eq s r l H)), bool_decide_eq_true_2 by done.
  by rewrite (bind_ret _ _ _ _ _ (set_elems_eq s r l _ H)).
Qed.

(** Replacing a list changes the lists through that reference only. *)
Lemma list_at_set_list_eq s r l : is_Some (list_at s r) -> list_at (set_list r l s) r = Some l.
Proof.
  destruct r; cbn; intros [q Hq]; apply fmap_Some in Hq as (q' & Hq & _);
    by rewrite lookup_alter_eq, Hq.
Qed.

Lemma list_at_set_list_ne s r r' l : r <> r' -> list_at (set_list r l s) r' = list_at s r'.
Proof.
  destruct r, r'; intros Hne; cbn; try done;
    (rewrite lookup_alter; case_decide; [|done]); subst; try congruence;
    (by destruct (queues s !! _)) || (by destruct (vqueues s !! _)).
Qed.

Lemma nodes_set_list s r l : nodes (set_list r l s) = nodes s.
Proof. by destruct r. Qed.
Lemma timers_set_list s r l : timers (set_list r l s) = timers s.
Proof. by destruct r. Qed.
Lemma trace_set_list s r l : trace (set_list r l s) = trace s.
Proof. by destruct r. Qed.

End Primitives.

(** ** Searching a list *)

Section Search.
Context {U : Type} (env : ser_env).
Abbreviation W := (ser_world U).
Implicit Types (s : W) (n : addr) (c : wlan_serialization_command).

Lemma get_cmd_eq s r l xs ys : list_at s r = Some l -> elems l = xs ++ ys -> NoDup (elems l) ->
  wlan_serialization_get_cmd_from_queue r (last xs) s = Ret (head ys) s.
Proof.
  intros H He Hnd. destruct xs as [|x xs _] using rev_ind; cbn [last].
  - cbn in *. unfold wlan_serialization_get_cmd_from_queue. by rewrite (peek_front_eq s r l H), He.
  - rewrite last_snoc. unfold wlan_serialization_get_cmd_from_queue. rewrite <- app_assoc in He.
    by apply (peek_next_eq s r l xs x ys).
Qed.

Lemma find_loop_eq s r l (matches : addr -> M W bool) (P : addr -> bool) xs ys :
  list_at s r = Some l -> elems l = xs ++ ys -> NoDup (elems l) ->
  (forall n, n ∈ ys -> matches n s = Ret (P n) s) ->
  find_cmd_loop (length ys) r matches (last xs) s = Ret (List.find P ys) s.
Proof.
  intros H. revert xs. induction ys as [|y ys IH]; intros xs He Hnd HP; [done|].
  cbn [length find_cmd_loop List.find].
  rewrite (bind_ret _ _ _ _ _ (get_cmd_eq s r l xs (y :: ys) H He Hnd)). cbn [head].
  rewrite (bind_ret _ _ _ _ _ (HP y ltac:(by left))). destruct (P y); [done|].
  rewrite <- (last_snoc y xs). apply IH; [by rewrite <- app_assoc|done|].
  intros n Hn. apply HP. by right.
Qed.

Lemma find_cmd_eq s r l mt oc t pd vd (P : addr -> bool) :
  list_at s r = Some l -> NoDup (elems l) ->
  (forall n, n ∈ elems l -> match_node env mt oc t pd vd n s = Ret (P n) s) ->
  wlan_serialization_find_cmd env r mt oc t pd vd s = Ret (List.find P (elems l)) s.
Proof.
  intros H Hnd HP. unfold wlan_serialization_find_cmd.
  rewrite (bind_ret _ _ _ _ _ (list_size_eq s r l H)).
  by apply (find_loop_eq s r l _ P [] (elems l)).
Qed.

Lemma match_id_vdev_eq s n c t pd : is_Some (nodes s !! n) ->
  match_node env WLAN_SER_MATCH_CMD_ID_VDEV (Some c) t pd (vdev c) n s =
  Ret (same_cmd (ncmd (nodes s) n) c) s.
Proof.
  intros Hn. cbn [match_node]. unfold wlan_serialization_match_cmd_id_type, same_cmd.
  rewrite bind_assoc, (bind_ret _ _ _ _ _ (read_cmd_eq s n Hn)).
  unfold mbind at 1, M_bind at 1. cbn [mret M_ret].
  destruct ((cmd_id (ncmd (nodes s) n) =? cmd_id c) && _); [|done].
  unfold wlan_serialization_match_cmd_vdev. by rewrite (bind_ret _ _ _ _ _ (read_cmd_eq s n Hn)).
Qed.

Lemma match_type_vdev_eq s n t oc pd vd : is_Some (nodes s !! n) ->
  match_node env WLAN_SER_MATCH_CMD_TYPE_VDEV oc t pd vd n s =
  Ret ((cmd_type (ncmd (nodes s) n) =? t) && bool_decide (vdev (ncmd (nodes s) n) = vd)) s.
Proof.
  intros Hn. cbn [match_node]. unfold wlan_serialization_match_cmd_type.
  rewrite bind_assoc, (bind_ret _ _ _ _ _ (read_cmd_eq s n Hn)).
  unfold mbind at 1, M_bind at 1. cbn [mret M_ret].
  destruct (cmd_type (ncmd (nodes s) n) =? t); [|done].
  unfold wlan_serialization_match_cmd_vdev. by rewrite (bind_ret _ _ _ _ _ (read_cmd_eq s n Hn)).
Qed.

Definition find_same s c (l : list addr) : option addr :=
  List.find (fun n => same_cmd (ncmd (nodes s) n) c) l.

Lemma find_same_eq s r l c :
  list_at s r = Some l -> NoDup (elems l) -> (forall n, n ∈ elems l -> is_Some (nodes s !! n)) ->
  wlan_serialization_find_cmd env r WLAN_SER_MATCH_CMD_ID_VDEV (Some c) 0 None (vdev c) s =
  Ret (find_same s c (elems l)) s.
Proof.
  intros H Hnd Hn. apply find_cmd_eq with (P := fun n => same_cmd (ncmd (nodes s) n) c); auto.
  intros n Hin. apply match_id_vdev_eq. auto.
Qed.

Lemma present_eq s r l c :
  list_at s r = Some l -> NoDup (elems l) -> (forall n, n ∈ elems l -> is_Some (nodes s !! n)) ->
  wlan_serialization_is_cmd_present_in_given_queue env r c s =
  Ret (is_found (find_same s c (elems l))) s.
Proof.
  intros. unfold wlan_serialization_is_cmd_present_in_given_queue.
  by rewrite (bind_ret _ _ _ _ _ (find_same_eq s r l c ltac:(done) ltac:(done) ltac:(done))).
Qed.

(** Setting a bit of a buffer's state. *)
Definition set_bit_at (b : Z) n s : W :=
  set_nodes <[n := CmdList (ncmd (nodes s) n) (Z.setbit (nuse (nodes s) n) b)]> s.

Lemma set_bit_eq s n b : is_Some (nodes s !! n) ->
  qdf_atomic_set_bit b n s = Ret tt (set_bit_at b n s).
Proof. intros H. unfold qdf_atomic_set_bit. by rewrite write_node_eq. Qed.

Lemma remove_cmd_eq s r l c :
  list_at s r = Some l -> NoDup (elems l) -> (forall n, n ∈ elems l -> is_Some (nodes s !! n)) ->
  wlan_serialization_remove_cmd_from_queue env r c s =
  match find_same s c (elems l) with
  | None => Ret (QDF_STATUS_E_FAILURE, None) s
  | Some n =>
      if marked (nodes s) n
      then Ret (QDF_STATUS_E_PENDING, None) (set_bit_at CMD_ACTIVE_MARKED_FOR_REMOVAL n s)
      else Ret (QDF_STATUS_SUCCESS, Some n)
             (set_list r (QdfList (unlink n (elems l)) (max_size l)) s)
  end.
Proof.
  intros H Hnd Hn. unfold wlan_serialization_remove_cmd_from_queue.
  rewrite (bind_ret _ _ _ _ _ (list_empty_eq s r l H)).
  destruct (elems l) as [|a rest] eqn:E; [done|]. rewrite <- E in *.
  rewrite (bind_ret _ _ _ _ _ (find_same_eq s r l c H Hnd Hn)).
  destruct (find_same s c (elems l)) as [n|] eqn:Ef; [|done].
  apply find_some_elem in Ef as [Hin _].
  rewrite (bind_ret _ _ _ _ _ (test_bit_eq s n _ (Hn n Hin))). fold (marked (nodes s) n).
  destruct (marked (nodes s) n).
  - by rewrite (bind_ret _ _ _ _ _ (set_bit_eq s n _ (Hn n Hin))).
  - by rewrite (bind_ret _ _ _ _ _ (remove_node_eq s r l n H Hin)).
Qed.

Lemma find_filter_imp {A} (P F : A -> bool) (l : list A) :
  (forall x, P x = true -> F x = true) -> List.find P (List.filter F l) = List.find P l.
Proof.
  intros HPF. induction l as [|x l IH]; [done|]. cbn. destruct (F x) eqn:EF; cbn.
  - by rewrite IH.
  - destruct (P x) eqn:EP; [|done]. by rewrite (HPF x EP) in EF.
Qed.

(** A search through a VDEV's list finds what a search through the pdev's finds. *)
Lemma find_same_vdev s c v l : vdev c = Some v ->
  find_same s c (List.filter (on_vdev (nodes s) v) l) = find_same s c l.
Proof.
  intros Hv. apply find_filter_imp. intros n. unfold same_cmd, on_vdev. rewrite Hv.
  intros [_ ?]%andb_true_iff. done.
Qed.

Lemma set_list_active s k q l : queues s !! k = Some q ->
  set_list (QActive k) l s = set_queues <[k := q_set_active l q]> s.
Proof. intros H. unfold set_list, set_queues. by rewrite (alter_Some_insert _ _ _ _ H). Qed.
Lemma set_list_pending s k q l : queues s !! k = Some q ->
  set_list (QPending k) l s = set_queues <[k := q_set_pending l q]> s.
Proof. intros H. unfold set_list, set_queues. by rewrite (alter_Some_insert _ _ _ _ H). Qed.
Lemma set_list_pool s k q l : queues s !! k = Some q ->
  set_list (QPool k) l s = set_queues <[k := q_set_pool l q]> s.
Proof. intros H. unfold set_list, set_queues. by rewrite (alter_Some_insert _ _ _ _ H). Qed.
Lemma set_list_vactive s v vq l : vqueues s !! v = Some vq ->
  set_list (VActive v) l s = set_vqueues <[v := v_set_active l vq]> s.
Proof. intros H. unfold set_list, set_vqueues. by rewrite (alter_Some_insert _ _ _ _ H). Qed.
Lemma set_list_vpending s v vq l : vqueues s !! v = Some vq ->
  set_list (VPending v) l s = set_vqueues <[v := v_set_pending l vq]> s.
Proof. intros H. unfold set_list, set_vqueues. by rewrite (alter_Some_insert _ _ _ _ H). Qed.

End Search.
