(* ===== verification/SerInv.v ===== *)
(** The operations of the serialization queues preserve the invariant, for clients
    whose callbacks may call the component again. *)
From S2P Require Import Prelude Ser SerBase.

(** ** The two lists of a queue *)

Definition ql (a : bool) (q : wlan_serialization_pdev_queue) : qdf_list_t :=
  if a then active_list q else pending_list q.
Definition vl (a : bool) (vq : wlan_serialization_vdev_queue) : qdf_list_t :=
  if a then v_active_list vq else v_pending_list vq.
Definition q_set (a : bool) l q := if a then q_set_active l q else q_set_pending l q.
Definition v_set (a : bool) l vq := if a then v_set_active l vq else v_set_pending l vq.
Definition qref (a : bool) (k : qkey) : list_ref := if a then QActive k else QPending k.
Definition vref (a : bool) (v : nat) : list_ref := if a then VActive v else VPending v.

(** Without the buffer [n], and with it. *)
Definition q_take a n q :=
  q_set a (QdfList (unlink n (elems (ql a q))) (max_size (ql a q))) q.
Definition v_take a n vq :=
  v_set a (QdfList (unlink n (elems (vl a vq))) (max_size (vl a vq))) vq.
Definition q_put a (h : bool) n q :=
  q_set a (QdfList (ins h n (elems (ql a q))) (max_size (ql a q))) q.
Definition v_put a (h : bool) n vq :=
  v_set a (QdfList (ins h n (elems (vl a vq))) (max_size (vl a vq))) vq.

Section Lookups.
Context {U : Type}.
Implicit Types (s : ser_world U).

Lemma list_at_qref s a k q : queues s !! k = Some q -> list_at s (qref a k) = Some (ql a q).
Proof. intros H. destruct a; cbn; by rewrite H. Qed.
Lemma list_at_vref s a v vq : vqueues s !! v = Some vq -> list_at s (vref a v) = Some (vl a vq).
Proof. intros H. destruct a; cbn; by rewrite H. Qed.
Lemma list_at_pool s k q : queues s !! k = Some q -> list_at s (QPool k) = Some (cmd_pool_list q).
Proof. intros H. cbn. by rewrite H. Qed.
Lemma set_list_qref s a k q l : queues s !! k = Some q ->
  set_list (qref a k) l s = set_queues <[k := q_set a l q]> s.
Proof. destruct a; [apply set_list_active | apply set_list_pending]. Qed.
Lemma set_list_vref s a v vq l : vqueues s !! v = Some vq ->
  set_list (vref a v) l s = set_vqueues <[v := v_set a l vq]> s.
Proof. destruct a; [apply set_list_vactive | apply set_list_vpending]. Qed.

Lemma set_queues_twice s k q q' :
  set_queues <[k := q']> (set_queues <[k := q]> s) = set_queues <[k := q']> s.
Proof. unfold set_queues. cbn. by rewrite insert_insert_eq. Qed.
Lemma set_vqueues_twice s v vq vq' :
  set_vqueues <[v := vq']> (set_vqueues <[v := vq]> s) = set_vqueues <[v := vq']> s.
Proof. unfold set_vqueues. cbn. by rewrite insert_insert_eq. Qed.
Lemma set_nodes_twice s n cl cl' :
  set_nodes <[n := cl']> (set_nodes <[n := cl]> s) = set_nodes <[n := cl']> s.
Proof. unfold set_nodes. cbn. by rewrite insert_insert_eq. Qed.
Lemma queues_set s k q : queues (set_queues <[k := q]> s) !! k = Some q.
Proof. cbn. by rewrite lookup_insert_eq. Qed.
Lemma vqueues_set s v vq : vqueues (set_vqueues <[v := vq]> s) !! v = Some vq.
Proof. cbn. by rewrite lookup_insert_eq. Qed.
Lemma set_vqueues_id s v vq : vqueues s !! v = Some vq -> set_vqueues <[v := vq]> s = s.
Proof. intros H. unfold set_vqueues. rewrite insert_id by done. by destruct s. Qed.

End Lookups.

(** ** What the queue operations return *)

Section Operations.
Context {U : Type} (env : ser_env).
Abbreviation W := (ser_world U).
Implicit Types (s : W) (n : addr) (c : wlan_serialization_command) (p v : nat).
Abbreviation NS := SER_PDEV_QUEUE_COMP_NON_SCAN.

(** The members of a list are buffers. *)
Definition list_live s (l : list addr) : Prop :=
  NoDup l /\ forall n, n ∈ l -> is_Some (nodes s !! n).

Lemma list_live_filter s P l : list_live s l -> list_live s (List.filter P l).
Proof.
  intros [Hnd Hn]. split; [by apply NoDup_filter_b|]. intros n [_ Hin]%elem_of_filter_b. auto.
Qed.

Lemma list_from_pdev p t a :
  wlan_serialization_get_list_from_pdev_queue p t a =
  qref a (wlan_serialization_get_pdev_queue_obj p t).
Proof. by destruct a. Qed.

Lemma queue_obj_ns p t : WLAN_SER_CMD_NONSCAN <= t ->
  wlan_serialization_get_pdev_queue_obj p t = (p, NS).
Proof.
  intros Ht. unfold wlan_serialization_get_pdev_queue_obj.
  destruct (Z.ltb_spec t WLAN_SER_CMD_NONSCAN); [lia|done].
Qed.

Lemma queue_obj_scan p t : t < WLAN_SER_CMD_NONSCAN ->
  wlan_serialization_get_pdev_queue_obj p t = (p, SER_PDEV_QUEUE_COMP_SCAN).
Proof.
  intros Ht. unfold wlan_serialization_get_pdev_queue_obj.
  destruct (Z.ltb_spec t WLAN_SER_CMD_NONSCAN); [done|lia].
Qed.

Lemma remove_from_pdev_eq s p c k q a :
  wlan_serialization_get_pdev_queue_obj p (cmd_type c) = k ->
  queues s !! k = Some q -> list_live s (elems (ql a q)) ->
  wlan_serialization_remove_cmd_from_pdev_queue env p c a s =
  match find_same s c (elems (ql a q)) with
  | None => Ret (QDF_STATUS_E_FAILURE, None) s
  | Some n =>
      if marked (nodes s) n
      then Ret (QDF_STATUS_E_PENDING, None) (set_bit_at CMD_ACTIVE_MARKED_FOR_REMOVAL n s)
      else Ret (QDF_STATUS_SUCCESS, Some n) (set_queues <[k := q_take a n q]> s)
  end.
Proof.
  intros Hk Hq [Hnd Hn]. unfold wlan_serialization_remove_cmd_from_pdev_queue.
  rewrite list_from_pdev, Hk. rewrite (remove_cmd_eq env s (qref a k) (ql a q) c); auto using list_at_qref.
  destruct (find_same _ _ _) as [n|]; [|done]. destruct (marked _ n); [done|].
  by rewrite (set_list_qref s a k q).
Qed.

(** What taking an active command changes, besides the lists. *)
Definition q_idle (a : bool) v (blocking : bool) q :=
  if a then set_bitmap (fun b => Z.clearbit b (Z.of_nat v))
              (if blocking then set_blocking_active false q else q)
  else q.

Definition taken s p v a n q vq : W :=
  set_queues <[(p, NS) := q_idle a v (is_blocking (ncmd (nodes s) n)) (q_take a n q)]>
    (set_vqueues <[v := v_take a n vq]> s).

Lemma vdev_bit_eq v s : (v < WLAN_UMAC_PSOC_MAX_VDEVS)%nat -> vdev_bit v s = Ret (Z.of_nat v) s.
Proof. intros Hv. unfold vdev_bit. by rewrite (proj2 (Nat.ltb_lt _ _) Hv). Qed.

Lemma vdev_get_id_eq v s : wlan_vdev_get_id (Some v) s = Ret v s.
Proof. done. Qed.

Lemma remove_non_scan_eq s p c v q vq a :
  vdev c = Some v -> WLAN_SER_CMD_NONSCAN <= cmd_type c -> (v < WLAN_UMAC_PSOC_MAX_VDEVS)%nat ->
  queues s !! (p, NS) = Some q -> vqueues s !! v = Some vq ->
  list_live s (elems (ql a q)) ->
  elems (vl a vq) = List.filter (on_vdev (nodes s) v) (elems (ql a q)) ->
  wlan_ser_remove_non_scan_cmd env p c a s =
  match find_same s c (elems (ql a q)) with
  | None => Ret (QDF_STATUS_E_FAILURE, None) s
  | Some n =>
      if marked (nodes s) n
      then Ret (QDF_STATUS_E_PENDING, None) (set_bit_at CMD_ACTIVE_MARKED_FOR_REMOVAL n s)
      else Ret (QDF_STATUS_SUCCESS, Some n) (taken s p v a n q vq)
  end.
Proof.
  intros Hv Ht Hlt Hq Hvq Hl Hvl. unfold wlan_ser_remove_non_scan_cmd.
  assert (wlan_serialization_remove_cmd_from_vdev_queue env c a s =
          wlan_serialization_remove_cmd_from_queue env (vref a v) c s) as Hr.
  { unfold wlan_serialization_remove_cmd_from_vdev_queue, wlan_serialization_get_vdev_from_cmd.
    rewrite (bind_deref _ _ v) by done. by destruct a. }
  rewrite (remove_cmd_eq env s (vref a v) (vl a vq) c) in Hr;
    [|by apply list_at_vref|rewrite Hvl; by apply NoDup_filter_b, Hl
     |rewrite Hvl; intros n [_ ?]%elem_of_filter_b; by apply Hl].
  rewrite Hvl in Hr at 1. rewrite (find_same_vdev s c v _ Hv) in Hr.
  destruct (find_same s c (elems (ql a q))) as [n|] eqn:Ef; [|by rewrite (bind_ret _ _ _ _ _ Hr)].
  destruct (marked (nodes s) n) eqn:Em; [by rewrite (bind_ret _ _ _ _ _ Hr)|].
  rewrite (bind_ret _ _ _ _ _ Hr). cbn [QDF_IS_STATUS_ERROR QDF_IS_STATUS_SUCCESS negb].
  rewrite (set_list_vref s a v vq) by done. fold (v_take a n vq).
  set (s1 := set_vqueues _ s).
  assert (queues s1 !! (p, NS) = Some q) as Hq1 by done.
  pose proof (remove_from_pdev_eq s1 p c _ q a (queue_obj_ns p _ Ht) Hq1 Hl) as Hr2.
  unfold find_same in Hr2, Ef. change (nodes s1) with (nodes s) in Hr2. rewrite Ef, Em in Hr2.
  rewrite (bind_ret _ _ _ _ _ Hr2). cbn [QDF_IS_STATUS_ERROR QDF_IS_STATUS_SUCCESS negb].
  rewrite (bind_deref _ _ n) by done.
  apply find_some_elem in Ef as [Hin Hsame].
  set (s2 := set_queues _ s1). unfold taken. destruct a; [|done].
  rewrite bind_assoc. assert (is_Some (nodes s2 !! n)) as Hn by (by apply Hl).
  rewrite (bind_ret _ _ _ _ _ (read_cmd_eq s2 n Hn)).
  assert (cmd_type (ncmd (nodes s2) n) = cmd_type c) as Htype.
  { unfold same_cmd in Hsame. apply andb_true_iff in Hsame as [[_ ?%Z.eqb_eq]%andb_true_iff _]. done. }
  rewrite Htype, (queue_obj_ns p _ Ht). change (nodes s2) with (nodes s).
  assert (queues s2 !! (p, NS) = Some (q_take true n q)) as Hq2 by apply queues_set.
  rewrite bind_assoc. rewrite Hv. unfold q_idle.
  destruct (is_blocking (ncmd (nodes s) n)).
  - rewrite (bind_ret _ _ _ _ _ (write_queue_eq s2 _ _ _ Hq2)).
    rewrite bind_assoc, (bind_ret _ _ _ _ _ (vdev_get_id_eq v _)).
    rewrite bind_assoc, (bind_ret _ _ _ _ _ (vdev_bit_eq v _ Hlt)).
    rewrite (bind_ret _ _ _ _ _ (write_queue_eq _ _ _ _ (queues_set s2 _ _))).
    unfold s2. by rewrite !set_queues_twice.
  - unfold mbind at 1, M_bind at 1. cbn [mret M_ret].
    rewrite bind_assoc, (bind_ret _ _ _ _ _ (vdev_get_id_eq v _)).
    rewrite bind_assoc, (bind_ret _ _ _ _ _ (vdev_bit_eq v _ Hlt)).
    rewrite (bind_ret _ _ _ _ _ (write_queue_eq s2 _ _ _ Hq2)).
    unfold s2. by rewrite set_queues_twice.
Qed.

Definition added (a : bool) : wlan_serialization_status :=
  if a then WLAN_SER_CMD_ACTIVE else WLAN_SER_CMD_PENDING.

Lemma add_to_queue_eq s r l n a : list_at s r = Some l -> is_Some (nodes s !! n) ->
  wlan_serialization_add_cmd_to_queue r n a s =
  if (length (elems l) =? max_size l)%nat then Ret WLAN_SER_CMD_DENIED_LIST_FULL s
  else Ret (added a)
    (set_list r (QdfList (ins (is_high_priority (ncmd (nodes s) n)) n (elems l)) (max_size l)) s).
Proof.
  intros H Hn. unfold wlan_serialization_add_cmd_to_queue.
  rewrite (bind_ret _ _ _ _ _ (get_list_eq s r l H)). destruct (_ =? _)%nat; [done|].
  rewrite (bind_ret _ _ _ _ _ (read_cmd_eq s n Hn)).
  by rewrite (bind_ret _ _ _ _ _ (insert_eq s r l n _ H)).
Qed.

Lemma add_to_pdev_eq s p n k q a :
  wlan_serialization_get_pdev_queue_obj p (cmd_type (ncmd (nodes s) n)) = k ->
  queues s !! k = Some q -> is_Some (nodes s !! n) ->
  wlan_serialization_add_cmd_to_pdev_queue p n a s =
  if (length (elems (ql a q)) =? max_size (ql a q))%nat then Ret WLAN_SER_CMD_DENIED_LIST_FULL s
  else Ret (added a)
    (set_queues <[k := q_put a (is_high_priority (ncmd (nodes s) n)) n q]> s).
Proof.
  intros Hk Hq Hn. unfold wlan_serialization_add_cmd_to_pdev_queue.
  rewrite (bind_ret _ _ _ _ _ (read_cmd_eq s n Hn)), list_from_pdev, Hk.
  rewrite (add_to_queue_eq s (qref a k) (ql a q)) by auto using list_at_qref.
  destruct (_ =? _)%nat; [done|]. by rewrite (set_list_qref s a k q).
Qed.

(** A command that closes its VDEV's queue does so whether it is added or not. *)
Definition disabling c vq := if queue_disable c then set_queue_disable vq else vq.

Lemma add_to_vdev_eq s n v vq a :
  vdev (ncmd (nodes s) n) = Some v -> vqueues s !! v = Some vq -> is_Some (nodes s !! n) ->
  wlan_serialization_add_cmd_to_vdev_queue n a s =
  let c := ncmd (nodes s) n in
  if (length (elems (vl a vq)) =? max_size (vl a vq))%nat
  then Ret WLAN_SER_CMD_DENIED_LIST_FULL (set_vqueues <[v := disabling c vq]> s)
  else Ret (added a)
    (set_vqueues <[v := disabling c (v_put a (is_high_priority c) n vq)]> s).
Proof.
  intros Hv Hvq Hn. unfold wlan_serialization_add_cmd_to_vdev_queue.
  rewrite (bind_ret _ _ _ _ _ (read_cmd_eq s n Hn)).
  rewrite (bind_deref _ _ v) by done. cbv zeta.
  replace (wlan_serialization_get_list_from_vdev_queue v a) with (vref a v) by (by destruct a).
  pose proof (add_to_queue_eq s (vref a v) (vl a vq) n a (list_at_vref s a v vq Hvq) Hn) as Ha.
  rewrite (set_list_vref s a v vq) in Ha by done. fold (v_put a (is_high_priority (ncmd (nodes s) n)) n vq) in Ha.
  unfold disabling. destruct (_ =? _)%nat; rewrite (bind_ret _ _ _ _ _ Ha);
    destruct (queue_disable (ncmd (nodes s) n)); try done.
  - by rewrite (bind_ret _ _ _ _ _ (write_vqueue_eq s v vq _ Hvq)).
  - unfold mbind, M_bind. cbn [mret M_ret]. by rewrite set_vqueues_id.
  - rewrite (bind_ret _ _ _ _ _ (write_vqueue_eq _ v _ _ (vqueues_set s v _))).
    by rewrite set_vqueues_twice.
Qed.

Definition q_busy (a : bool) v (blocking : bool) q :=
  if a then
    (if blocking then set_blocking_active true else id)
      (set_bitmap (fun b => Z.setbit b (Z.of_nat v)) q)
  else q.

Lemma v_take_put a h n c vq : n ∉ elems (vl a vq) ->
  v_take a n (disabling c (v_put a h n vq)) = disabling c vq.
Proof.
  intros Hn. destruct vq as [[la ma] [lp mp] d], a; unfold v_take, v_put, disabling;
    destruct (queue_disable c);
    cbn [v_set v_set_active v_set_pending set_queue_disable vl elems max_size
      v_active_list v_pending_list v_queue_disable] in *; by rewrite unlink_ins.
Qed.

(** A buffer whose command is not in the list is found there once it is added. *)
Lemma find_same_ins s c h n l : same_cmd (ncmd (nodes s) n) c = true ->
  (forall m, m ∈ l -> same_cmd (ncmd (nodes s) m) c = false) ->
  find_same s c (ins h n l) = Some n.
Proof.
  intros Hn Hl. apply find_unique; [apply elem_of_ins; by left|done|].
  intros m [->|Hm]%elem_of_ins HP; [done|]. by rewrite Hl in HP.
Qed.

Lemma same_cmd_refl c : same_cmd c c = true.
Proof. unfold same_cmd. rewrite !Z.eqb_refl. by rewrite bool_decide_eq_true_2. Qed.

Lemma remove_from_vdev_put s n v vq a :
  let c := ncmd (nodes s) n in
  vdev c = Some v -> is_Some (nodes s !! n) -> marked (nodes s) n = false ->
  n ∉ elems (vl a vq) -> list_live s (elems (vl a vq)) ->
  (forall m, m ∈ elems (vl a vq) -> same_cmd (ncmd (nodes s) m) c = false) ->
  wlan_serialization_remove_cmd_from_vdev_queue env c a
    (set_vqueues <[v := disabling c (v_put a (is_high_priority c) n vq)]> s) =
  Ret (QDF_STATUS_SUCCESS, Some n) (set_vqueues <[v := disabling c vq]> s).
Proof.
  intros c Hv Hn Hm Hnin [Hnd Hl] Huniq.
  unfold wlan_serialization_remove_cmd_from_vdev_queue, wlan_serialization_get_vdev_from_cmd.
  rewrite (bind_deref _ _ v) by done.
  replace (wlan_serialization_get_list_from_vdev_queue v a) with (vref a v) by (by destruct a).
  set (vq' := disabling c _). set (s1 := set_vqueues _ s).
  assert (elems (vl a vq') = ins (is_high_priority c) n (elems (vl a vq))) as He.
  { unfold vq', disabling. by destruct (queue_disable c), a. }
  rewrite (remove_cmd_eq env s1 (vref a v) (vl a vq') c (list_at_vref s1 a v vq' (vqueues_set s v _))).
  - rewrite He, find_same_ins by (auto using same_cmd_refl). change (nodes s1) with (nodes s).
    rewrite Hm, (set_list_vref s1 a v vq') by apply vqueues_set. unfold s1. rewrite set_vqueues_twice.
    f_equal. f_equal. f_equal. rewrite <- He. apply (v_take_put a _ n c vq Hnin).
  - rewrite He. destruct (is_high_priority c); cbn [ins]; [by constructor|].
    apply NoDup_app. split; [done|]. split; [|apply NoDup_singleton].
    intros m Hin ->%list_elem_of_singleton. done.
  - rewrite He. intros m [->|Hin]%elem_of_ins; [done|]. by apply Hl.
Qed.

Lemma add_non_scan_eq s p n v q vq a :
  let c := ncmd (nodes s) n in
  vdev c = Some v -> WLAN_SER_CMD_NONSCAN <= cmd_type c -> (v < WLAN_UMAC_PSOC_MAX_VDEVS)%nat ->
  queues s !! (p, NS) = Some q -> vqueues s !! v = Some vq -> is_Some (nodes s !! n) ->
  marked (nodes s) n = false -> n ∉ elems (vl a vq) -> list_live s (elems (vl a vq)) ->
  (forall m, m ∈ elems (vl a vq) -> same_cmd (ncmd (nodes s) m) c = false) ->
  wlan_ser_add_non_scan_cmd env p n a s =
  if (length (elems (vl a vq)) =? max_size (vl a vq))%nat
     || (length (elems (ql a q)) =? max_size (ql a q))%nat
  then Ret WLAN_SER_CMD_DENIED_LIST_FULL (set_vqueues <[v := disabling c vq]> s)
  else Ret (added a)
    (set_queues <[(p, NS) := q_busy a v (is_blocking c) (q_put a (is_high_priority c) n q)]>
      (set_vqueues <[v := disabling c (v_put a (is_high_priority c) n vq)]> s)).
Proof.
  intros c Hv Ht Hlt Hq Hvq Hn Hm Hnin Hl Huniq. unfold wlan_ser_add_non_scan_cmd.
  pose proof (add_to_vdev_eq s n v vq a Hv Hvq Hn) as Ha. cbv zeta in Ha. fold c in Ha.
  destruct (length (elems (vl a vq)) =? _)%nat; cbn [orb]; rewrite (bind_ret _ _ _ _ _ Ha);
    [by rewrite bool_decide_eq_true_2|].
  rewrite bool_decide_eq_false_2 by (by destruct a).
  rewrite bool_decide_eq_false_2 by (destruct a; intros H; by apply H).
  set (s1 := set_vqueues _ s) in *.
  pose proof (add_to_pdev_eq s1 p n _ q a (queue_obj_ns p _ Ht) Hq Hn) as Hb.
  change (nodes s1) with (nodes s) in Hb. fold c in Hb.
  destruct (_ =? _)%nat; rewrite (bind_ret _ _ _ _ _ Hb); cbv zeta.
  - rewrite (bind_ret _ _ _ _ _ (read_cmd_eq s1 n Hn)). change (nodes s1) with (nodes s). fold c.
    rewrite (bool_decide_eq_true_2 (_ <> _)) by (by destruct a).
    rewrite (bool_decide_eq_true_2 (_ = _)) by done.
    by rewrite (bind_ret _ _ _ _ _ (remove_from_vdev_put s n v vq a Hv Hn Hm Hnin Hl Huniq)).
  - rewrite (bind_ret _ _ _ _ _ (read_cmd_eq (set_queues _ s1) n Hn)).
    change (nodes (set_queues _ s1)) with (nodes s). fold c.
    rewrite (bool_decide_eq_false_2 (_ <> _)) by tauto. destruct a; [|done].
    rewrite (queue_obj_ns p _ Ht), Hv.
    rewrite bind_assoc, (bind_ret _ _ _ _ _ (vdev_get_id_eq v _)).
    rewrite bind_assoc, (bind_ret _ _ _ _ _ (vdev_bit_eq v _ Hlt)).
    rewrite bind_assoc, (bind_ret _ _ _ _ _ (write_queue_eq _ _ _ _ (queues_set s1 _ _))).
    rewrite set_queues_twice. unfold q_busy. destruct (is_blocking c); [|done].
    rewrite (bind_ret _ _ _ _ _ (write_queue_eq _ _ _ _ (queues_set s1 _ _))).
    by rewrite set_queues_twice.
Qed.

End Operations.

(** ** Buffers other than the one that changes *)

Section Frame.
Implicit Types (ns : gmap addr wlan_serialization_command_list) (n m : addr) (l : list addr).

Lemma ncmd_eq ns n cl : ncmd (<[n := cl]> ns) n = cmd cl.
Proof. unfold ncmd. by rewrite lookup_insert_eq. Qed.
Lemma nuse_eq ns n cl : nuse (<[n := cl]> ns) n = cmd_in_use cl.
Proof. unfold nuse. by rewrite lookup_insert_eq. Qed.
Lemma ncmd_ne ns n m cl : n <> m -> ncmd (<[n := cl]> ns) m = ncmd ns m.
Proof. intros H. unfold ncmd. by rewrite lookup_insert_ne. Qed.
Lemma nuse_ne ns n m cl : n <> m -> nuse (<[n := cl]> ns) m = nuse ns m.
Proof. intros H. unfold nuse. by rewrite lookup_insert_ne. Qed.
Lemma marked_ne ns n m cl : n <> m -> marked (<[n := cl]> ns) m = marked ns m.
Proof. intros H. unfold marked. by rewrite nuse_ne. Qed.
Lemma is_active_ne ns n m cl : n <> m -> is_active (<[n := cl]> ns) m = is_active ns m.
Proof. intros H. unfold is_active. by rewrite nuse_ne. Qed.
Lemma on_vdev_ne ns n m cl v : n <> m -> on_vdev (<[n := cl]> ns) v m = on_vdev ns v m.
Proof. intros H. unfold on_vdev. by rewrite ncmd_ne. Qed.

Lemma filter_on_vdev_ne ns n cl v l : n ∉ l ->
  List.filter (on_vdev (<[n := cl]> ns) v) l = List.filter (on_vdev ns v) l.
Proof. intros H. apply filter_ext_elem. intros m Hm. apply on_vdev_ne. congruence. Qed.

Lemma existsb_on_vdev_ne ns n cl v l : n ∉ l ->
  existsb (on_vdev (<[n := cl]> ns) v) l = existsb (on_vdev ns v) l.
Proof.
  intros H. induction l as [|m l IH]; [done|]. cbn. apply not_elem_of_cons in H as [Hne H].
  by rewrite IH, on_vdev_ne by done.
Qed.

Lemma fmap_ncmd_ne {B} (f : wlan_serialization_command -> B) ns n cl l : n ∉ l ->
  (fun m => f (ncmd (<[n := cl]> ns) m)) <$> l = (fun m => f (ncmd ns m)) <$> l.
Proof.
  intros H. induction l as [|m l IH]; [done|]. cbn. apply not_elem_of_cons in H as [Hne H].
  rewrite ncmd_ne by done. f_equal. by apply IH.
Qed.

Lemma existsb_false_elem {A} (P : A -> bool) (l : list A) :
  existsb P l = false <-> forall x, x ∈ l -> P x = false.
Proof.
  induction l as [|a l IH]; cbn; [split; [intros _ x Hx; by apply elem_of_nil in Hx|done]|].
  rewrite orb_false_iff, IH. split.
  - intros [Ha Hl] x [->|Hx]%elem_of_cons; auto.
  - intros H. split; [apply H; by left|]. intros x Hx. apply H. by right.
Qed.

Lemma existsb_perm {A} (P : A -> bool) (l l' : list A) : l ≡ₚ l' -> existsb P l = existsb P l'.
Proof.
  induction 1 as [|x l l' _ IH|x y l|l l' l'' _ IH1 _ IH2]; cbn; [done|by rewrite IH| |congruence].
  by destruct (P x), (P y).
Qed.

End Frame.

Section Members.
Context (env : ser_env).
Implicit Types (ns : gmap addr wlan_serialization_command_list) (n m : addr) (k : qkey).
Abbreviation act q := (elems (active_list q)).
Abbreviation pend q := (elems (pending_list q)).
Abbreviation pool q := (elems (cmd_pool_list q)).

Lemma pool_addrs_nodup k : NoDup (pool_addrs k).
Proof.
  unfold pool_addrs. apply NoDup_fmap_2; [|apply NoDup_seq]. by intros i j [= ->].
Qed.

Lemma pool_addrs_key k n : n ∈ pool_addrs k -> fst n = k.
Proof. unfold pool_addrs. by intros (i & -> & _)%list_elem_of_fmap. Qed.

Section One.
Context ns k q (Hq : queue_ok env ns k q).

Lemma q_nodup : NoDup (pool q ++ act q ++ pend q).
Proof. rewrite (q_parts env ns k q Hq). apply pool_addrs_nodup. Qed.

Lemma act_nodup : NoDup (act q).
Proof. pose proof q_nodup as H. apply NoDup_app in H as (_ & _ & H). by apply NoDup_app in H as (? & _). Qed.
Lemma pend_nodup : NoDup (pend q).
Proof. pose proof q_nodup as H. apply NoDup_app in H as (_ & _ & H). by apply NoDup_app in H as (_ & _ & ?). Qed.
Lemma pool_nodup : NoDup (pool q).
Proof. pose proof q_nodup as H. by apply NoDup_app in H as (? & _). Qed.

Lemma ql_nodup a : NoDup (elems (ql a q)).
Proof. destruct a; [apply act_nodup | apply pend_nodup]. Qed.

Lemma act_not_pend n : n ∈ act q -> n ∉ pend q.
Proof.
  pose proof q_nodup as H. apply NoDup_app in H as (_ & _ & H). apply NoDup_app in H as (_ & H & _).
  auto.
Qed.
Lemma ql_not_pool a n : n ∈ elems (ql a q) -> n ∉ pool q.
Proof.
  pose proof q_nodup as H. apply NoDup_app in H as (_ & H & _). intros Hn Hp. apply (H n Hp).
  apply elem_of_app. destruct a; auto.
Qed.
Lemma ql_other a n : n ∈ elems (ql a q) -> n ∉ elems (ql (negb a) q).
Proof. destruct a; cbn; [apply act_not_pend|]. intros Hp Ha. by apply (act_not_pend n Ha). Qed.

Lemma ql_addr a n : n ∈ elems (ql a q) -> n ∈ pool_addrs k.
Proof.
  intros Hn. rewrite <- (q_parts env ns k q Hq), !elem_of_app. destruct a; auto.
Qed.
Lemma pool_addr n : n ∈ pool q -> n ∈ pool_addrs k.
Proof. intros Hn. rewrite <- (q_parts env ns k q Hq), !elem_of_app. auto. Qed.

Lemma ql_cmd_ok a n : n ∈ elems (ql a q) -> cmd_ok env k (ncmd ns n).
Proof. destruct a; intros Hn; [by apply (q_act env ns k q Hq)|by apply (q_pend env ns k q Hq)]. Qed.

Lemma pend_unmarked n : n ∈ pend q -> marked ns n = false /\ is_active ns n = false.
Proof.
  intros Hn. destruct (q_pend env ns k q Hq n Hn) as [Hu _]. unfold marked, is_active. by rewrite Hu.
Qed.
Lemma pool_unmarked n : n ∈ pool q -> marked ns n = false /\ is_active ns n = false.
Proof.
  intros Hn. destruct (q_pool env ns k q Hq n Hn) as [Hu _]. unfold marked, is_active. by rewrite Hu.
Qed.

Lemma act_in_use n : n ∈ act q -> nuse ns n <> 0.
Proof.
  intros Hn. destruct (q_act env ns k q Hq n Hn) as [Hu _]. unfold marked, is_active in Hu.
  intros H0. rewrite H0 in Hu. done.
Qed.

End One.

(** What belonging to a queue says of a command. *)
Lemma cmd_ok_inv k c : cmd_ok env k c ->
  exists v, vdev c = Some v /\ vdev_pdev env v = Some (fst k) /\
    wlan_serialization_get_pdev_queue_obj (fst k) (cmd_type c) = k /\
    wlan_serialization_get_pdev_from_cmd env c = Some (fst k).
Proof.
  intros (_ & Hk & _). unfold key_of, wlan_serialization_get_pdev_from_cmd in *.
  destruct (vdev c) as [v|]; [|done]. exists v. destruct (vdev_pdev env v) as [p|]; [|done].
  cbn in Hk. injection Hk as <-. unfold wlan_serialization_get_pdev_queue_obj.
  by destruct (cmd_type c <? _).
Qed.

Lemma cmd_ok_ns p c : cmd_ok env (p, SER_PDEV_QUEUE_COMP_NON_SCAN) c ->
  exists v, vdev c = Some v /\ vdev_pdev env v = Some p /\ WLAN_SER_CMD_NONSCAN <= cmd_type c.
Proof.
  intros (v & Hv & Hp & Hk & _)%cmd_ok_inv. exists v. split; [done|]. split; [done|].
  unfold wlan_serialization_get_pdev_queue_obj in Hk.
  destruct (Z.ltb_spec (cmd_type c) WLAN_SER_CMD_NONSCAN); [done|lia].
Qed.

Lemma cmd_ok_scan p c : cmd_ok env (p, SER_PDEV_QUEUE_COMP_SCAN) c -> cmd_type c = 0.
Proof.
  intros Hok. destruct (cmd_ok_inv _ _ Hok) as (v & Hv & Hp & Hk & _). destruct Hok as (_ & _ & H0).
  unfold wlan_serialization_get_pdev_queue_obj in Hk.
  destruct (Z.ltb_spec (cmd_type c) WLAN_SER_CMD_NONSCAN); [|done].
  unfold WLAN_SER_CMD_NONSCAN in *. lia.
Qed.

Lemma key_of_base c : key_of env (base c) = key_of env c.
Proof. by destruct c. Qed.

Lemma key_of_vdev k c : key_of env c = Some k ->
  exists v, vdev c = Some v /\ vdev_pdev env v = Some (fst k).
Proof.
  unfold key_of, wlan_serialization_get_pdev_from_cmd. destruct (vdev c) as [v|]; [|done].
  destruct (vdev_pdev env v) as [p|] eqn:E; [|done]. cbn. intros [= <-]. exists v. split; [done|].
  rewrite E. unfold wlan_serialization_get_pdev_queue_obj. by destruct (cmd_type c <? _).
Qed.

End Members.

(** ** The facts about a queue depend on its buffers only *)

Section Agree.
Context (env : ser_env).
Implicit Types (ns : gmap addr wlan_serialization_command_list) (n m : addr) (k : qkey).
Abbreviation act q := (elems (active_list q)).
Abbreviation pend q := (elems (pending_list q)).

Lemma existsb_ext_elem {A} (P Q : A -> bool) (l : list A) :
  (forall x, x ∈ l -> P x = Q x) -> existsb P l = existsb Q l.
Proof.
  intros H. induction l as [|x l IH]; [done|]. cbn. rewrite H by (by left).
  f_equal. apply IH. intros y Hy. apply H. by right.
Qed.

Lemma fmap_ext_elem {A B} (f g : A -> B) (l : list A) :
  (forall x, x ∈ l -> f x = g x) -> f <$> l = g <$> l.
Proof. intros H. apply list_fmap_ext. intros i x Hx. apply H. by eapply list_elem_of_lookup_2. Qed.

Lemma queue_ok_agree ns ns' k q :
  (forall m, m ∈ pool_addrs k -> ns' !! m = ns !! m) -> queue_ok env ns k q -> queue_ok env ns' k q.
Proof.
  intros Hag Hok. pose proof (pool_addr env ns k q Hok) as Hpool.
  pose proof (ql_addr env ns k q Hok true) as Ha. pose proof (ql_addr env ns k q Hok false) as Hp.
  destruct Hok. split; try done; intros m Hm; unfold is_active, marked, nuse, ncmd in *;
    rewrite Hag by auto; auto.
Qed.

Section Cmds.
Context ns ns' q (Hag : forall m, m ∈ act q ++ pend q -> base (ncmd ns' m) = base (ncmd ns m)).

Lemma base_vdev c c' : base c = base c' -> vdev c = vdev c'.
Proof. intros H. exact (f_equal vdev H). Qed.

Lemma base_same_cmd c1 c1' c2 c2' : base c1 = base c1' -> base c2 = base c2' ->
  same_cmd c1 c2 = same_cmd c1' c2'.
Proof. intros H1 H2. change (same_cmd (base c1) (base c2) = same_cmd (base c1') (base c2')). by rewrite H1, H2. Qed.

Lemma on_vdev_agree a v m : m ∈ elems (ql a q) -> on_vdev ns' v m = on_vdev ns v m.
Proof.
  intros Hm. unfold on_vdev. rewrite (base_vdev _ (ncmd ns m)); [done|]. apply Hag.
  apply elem_of_app. destruct a; auto.
Qed.

Lemma vdev_ok_agree v vq : vdev_ok ns q v vq -> vdev_ok ns' q v vq.
Proof.
  intros [Ha Hp Hma Hmp Hl Hk].
  assert (forall a, List.filter (on_vdev ns' v) (elems (ql a q)) =
                    List.filter (on_vdev ns v) (elems (ql a q))) as Hf.
  { intros a. apply filter_ext_elem. intros m. apply on_vdev_agree. }
  assert (forall m, m ∈ elems (v_pending_list vq) ->
    base (ncmd ns' m) = base (ncmd ns m)) as Hc.
  { intros m Hm. apply Hag. rewrite Hp in Hm. apply elem_of_filter_b in Hm as [_ Hm].
    apply elem_of_app. by right. }
  split; try done.
  - rewrite Ha. symmetry. apply (Hf true).
  - rewrite Hp. symmetry. apply (Hf false).
  - intros n m Hn Hm. rewrite (base_same_cmd _ _ _ _ (Hc n Hn) (Hc m Hm)). auto.
Qed.

Lemma ns_ok_agree vqs vqs' p :
  (forall v, vdev_pdev env v = Some p -> vqs' !! v = vqs !! v) ->
  ns_ok env ns vqs p q -> ns_ok env ns' vqs' p q.
Proof.
  intros Hv [Hb Hnn Hu Hvd]. split; [|done| |].
  - intros v. rewrite Hb. symmetry. apply existsb_ext_elem. intros m. apply (on_vdev_agree true).
  - rewrite (fmap_ext_elem _ (fun n => vdev (ncmd ns n))); [done|].
    intros m Hm. apply base_vdev, Hag. apply elem_of_app. by left.
  - intros v Hvp. destruct (Hvd v Hvp) as (vq & Hvq & Hok). exists vq.
    rewrite Hv by done. split; [done|]. by apply vdev_ok_agree.
Qed.

End Cmds.
End Agree.

(** ** One queue changes *)

Section Update.
Context {U : Type} (env : ser_env).
Abbreviation W := (ser_world U).
Abbreviation NS := SER_PDEV_QUEUE_COMP_NON_SCAN.
Abbreviation act q := (elems (active_list q)).
Abbreviation pend q := (elems (pending_list q)).
Abbreviation pool q := (elems (cmd_pool_list q)).
Implicit Types (s : W) (n : addr) (k : qkey) (es : list ser_event).

Lemma count_comm k1 q1 k2 q2 (y : Z) :
  wlan_serialization_active_scan_cmd_count_handler k1 q1
    (wlan_serialization_active_scan_cmd_count_handler k2 q2 y) =
  wlan_serialization_active_scan_cmd_count_handler k2 q2
    (wlan_serialization_active_scan_cmd_count_handler k1 q1 y).
Proof.
  unfold wlan_serialization_active_scan_cmd_count_handler. destruct (snd k1), (snd k2); lia.
Qed.

Definition scans_in k (q : wlan_serialization_pdev_queue) : Z :=
  wlan_serialization_active_scan_cmd_count_handler k q 0.

Lemma count_split (m : gmap qkey wlan_serialization_pdev_queue) k q : m !! k = Some q ->
  map_fold wlan_serialization_active_scan_cmd_count_handler 0 m =
  scans_in k q + map_fold wlan_serialization_active_scan_cmd_count_handler 0 (delete k m).
Proof.
  intros H. rewrite (map_fold_delete_L _ _ k q m (fun k1 k2 q1 q2 y _ _ _ => count_comm k1 q1 k2 q2 y) H).
  unfold scans_in, wlan_serialization_active_scan_cmd_count_handler. destruct (snd k); lia.
Qed.

Lemma count_nonneg (m : gmap qkey wlan_serialization_pdev_queue) :
  0 <= map_fold wlan_serialization_active_scan_cmd_count_handler 0 m.
Proof.
  apply (map_fold_weak_ind (fun r _ => 0 <= r)); [lia|]. intros k q m' r _ Hr.
  unfold wlan_serialization_active_scan_cmd_count_handler. destruct (snd k); lia.
Qed.

Lemma count_update s s' k q q' :
  queues s !! k = Some q -> queues s' = <[k := q']> (queues s) ->
  active_scan_count s' = active_scan_count s - scans_in k q + scans_in k q'.
Proof.
  intros Hq Hq'. unfold active_scan_count. rewrite Hq'.
  rewrite (count_split _ k q Hq), (count_split (<[k := q']> _) k q') by apply lookup_insert_eq.
  rewrite delete_insert_eq. lia.
Qed.

Lemma scans_in_le_count s k q : queues s !! k = Some q -> scans_in k q <= active_scan_count s.
Proof.
  intros Hq. unfold active_scan_count. rewrite (count_split _ k q Hq).
  pose proof (count_nonneg (delete k (queues s))). lia.
Qed.

(** What is recorded about commands of one queue does not concern the others. *)
Definition concerns k es : Prop :=
  Forall (fun c => key_of env c = Some k) (accepted es ++ released es).

Lemma filter_key_same k cs : Forall (fun c => key_of env c = Some k) cs ->
  List.filter (of_key env k) cs = cs.
Proof.
  induction 1 as [|c cs Hc _ IH]; [done|]. cbn. unfold of_key at 1.
  by rewrite bool_decide_eq_true_2, IH.
Qed.

Lemma filter_key_other k k' cs : k <> k' -> Forall (fun c => key_of env c = Some k) cs ->
  List.filter (of_key env k') cs = [].
Proof.
  intros Hne. induction 1 as [|c cs Hc _ IH]; [done|]. cbn. unfold of_key at 1.
  rewrite bool_decide_eq_false_2 by congruence. done.
Qed.

Lemma accepted_app tr es : accepted (tr ++ es) = accepted tr ++ accepted es.
Proof. apply bind_app. Qed.
Lemma released_app tr es : released (tr ++ es) = released tr ++ released es.
Proof. apply bind_app. Qed.

Definition queued (ns : gmap addr wlan_serialization_command_list)
    (q : wlan_serialization_pdev_queue) : list wlan_serialization_command :=
  (fun n => base (ncmd ns n)) <$> act q ++ pend q.

Lemma life_other s s' k k' q es :
  k <> k' -> concerns k es -> trace s' = trace s ++ es ->
  queued (nodes s') q = queued (nodes s) q ->
  life_ok env (nodes s) (trace s) k' q -> life_ok env (nodes s') (trace s') k' q.
Proof.
  intros Hne Hes Ht Hqd Hl. unfold life_ok in *. fold (queued (nodes s') q). rewrite Hqd, Ht.
  apply Forall_app in Hes as [H1 H2].
  rewrite accepted_app, released_app, !List.filter_app.
  rewrite (filter_key_other k k' (accepted es)), (filter_key_other k k' (released es)) by done.
  by rewrite !app_nil_r.
Qed.

Lemma life_step s s' k q q' es :
  concerns k es -> trace s' = trace s ++ es ->
  queued (nodes s') q' ++ released es ≡ₚ queued (nodes s) q ++ accepted es ->
  life_ok env (nodes s) (trace s) k q -> life_ok env (nodes s') (trace s') k q'.
Proof.
  intros Hes Ht Hbal Hl. unfold life_ok in *. fold (queued (nodes s') q'). fold (queued (nodes s) q) in Hl.
  apply Forall_app in Hes as [H1 H2].
  rewrite Ht, accepted_app, released_app, !List.filter_app.
  rewrite (filter_key_same k (accepted es)), (filter_key_same k (released es)) by done.
  rewrite Hl. rewrite <- !app_assoc. rewrite (Permutation_app_comm (List.filter _ (released (trace s)))).
  rewrite (Permutation_app_comm (List.filter _ (released (trace s)))).
  rewrite !app_assoc. by rewrite Hbal.
Qed.

Lemma inv_update x x' s s' k n q q' cl es :
  inv env x s -> queues s !! k = Some q -> n ∈ pool_addrs k ->
  nodes s' = <[n := cl]> (nodes s) -> queues s' = <[k := q']> (queues s) ->
  queue_ok env (nodes s') k q' ->
  (forall p, k = (p, NS) -> ns_ok env (nodes s') (vqueues s') p q') ->
  (forall p v, k <> (p, NS) -> vdev_pdev env v = Some p -> vqueues s' !! v = vqueues s !! v) ->
  trace s' = trace s ++ es -> concerns k es ->
  queued (nodes s') q' ++ released es ≡ₚ queued (nodes s) q ++ accepted es ->
  timers_ok env (nodes s') x' (timers s') ->
  active_scan_count s' <= Z.max 0 (max_active_scans env) ->
  inv env x' s'.
Proof.
  intros [Hnodes Hdom Hpair Hqs Hns Hlife _ _] Hq Hn Hnodes' Hqueues' Hok Hnsok Hvqs Htr Hes Hbal Ht Hsc.
  assert (forall k', k' <> k -> queues s' !! k' = queues s !! k') as Hother.
  { intros k' Hne. by rewrite Hqueues', lookup_insert_ne. }
  assert (queues s' !! k = Some q') as Hself by (by rewrite Hqueues', lookup_insert_eq).
  assert (forall k', is_Some (queues s' !! k') <-> is_Some (queues s !! k')) as Hsame.
  { intros k'. destruct (decide (k' = k)) as [->|Hne]; [|by rewrite Hother].
    rewrite Hself, Hq. split; eauto. }
  assert (forall m, fst m <> k -> nodes s' !! m = nodes s !! m) as Hnodeo.
  { intros m Hm. rewrite Hnodes', lookup_insert_ne; [done|]. intros ->.
    by apply pool_addrs_key in Hn. }
  assert (forall k' m, k' <> k -> m ∈ pool_addrs k' -> nodes s' !! m = nodes s !! m) as Hno.
  { intros k' m Hne Hm. apply Hnodeo. apply pool_addrs_key in Hm. congruence. }
  assert (forall k' q0 m, k' <> k -> queue_ok env (nodes s) k' q0 -> m ∈ act q0 ++ pend q0 ->
    ncmd (nodes s') m = ncmd (nodes s) m) as Hfar.
  { intros k' q0 m Hne Hok0 Hm. unfold ncmd. rewrite (Hno k'); [done|done|].
    apply elem_of_app in Hm as [Hm|Hm];
      [by apply (ql_addr env _ k' q0 Hok0 true)|by apply (ql_addr env _ k' q0 Hok0 false)]. }
  split.
  - intros k' q0 m Hq0 Hm. rewrite Hnodes'. destruct (decide (n = m)) as [->|Hne].
    + rewrite lookup_insert_eq. eauto.
    + rewrite lookup_insert_ne by done.
      assert (is_Some (queues s !! k')) as [q1 Hq1] by (apply Hsame; eauto). by apply (Hnodes k' q1).
  - intros m Hm. rewrite Hnodes' in Hm. destruct (decide (n = m)) as [->|Hne].
    + rewrite (pool_addrs_key k m Hn). eauto.
    + rewrite lookup_insert_ne in Hm by done. destruct (Hdom m Hm) as (q0 & Hq0 & Hm0).
      destruct (proj2 (Hsame (fst m)) ltac:(eauto)) as [q1 Hq1]. eauto.
  - intros p. rewrite !Hsame. apply Hpair.
  - intros k' q0 Hq0. destruct (decide (k' = k)) as [->|Hne].
    + rewrite Hself in Hq0. by injection Hq0 as <-.
    + rewrite Hother in Hq0 by done. eapply queue_ok_agree; [|by apply Hqs].
      intros m Hm. by apply (Hno k').
  - intros p q0 Hq0. destruct (decide ((p, NS) = k)) as [<-|Hne].
    + rewrite Hself in Hq0. injection Hq0 as <-. by apply Hnsok.
    + rewrite Hother in Hq0 by done. eapply ns_ok_agree; [| |by apply Hns].
      * intros m Hm. f_equal. by apply (Hfar _ q0 m Hne (Hqs _ _ Hq0)).
      * intros v Hv. apply (Hvqs p v); congruence.
  - intros k' q0 Hq0. destruct (decide (k' = k)) as [->|Hne].
    + rewrite Hself in Hq0. injection Hq0 as <-. eapply life_step; eauto.
    + rewrite Hother in Hq0 by done. eapply life_other; eauto.
      unfold queued. apply fmap_ext_elem. intros m Hm. f_equal. by apply (Hfar k' q0 m Hne (Hqs _ _ Hq0)).
  - done.
  - done.
Qed.

End Update.

(** ** Taking a buffer out of the lists of its queue, and putting it into them *)

Section Move.
Context (env : ser_env).
Implicit Types (ns : gmap addr wlan_serialization_command_list) (n m : addr) (k : qkey)
  (p v w : nat) (q : wlan_serialization_pdev_queue) (vq : wlan_serialization_vdev_queue).
Abbreviation act q := (elems (active_list q)).
Abbreviation pend q := (elems (pending_list q)).

Definition q_taken a n q q' : Prop :=
  ql a q' = QdfList (unlink n (elems (ql a q))) (max_size (ql a q)) /\
  ql (negb a) q' = ql (negb a) q.
Definition v_taken a n vq vq' : Prop :=
  vl a vq' = QdfList (unlink n (elems (vl a vq))) (max_size (vl a vq)) /\
  vl (negb a) vq' = vl (negb a) vq.
Definition q_added a h n q q' : Prop :=
  ql a q' = QdfList (ins h n (elems (ql a q))) (max_size (ql a q)) /\
  ql (negb a) q' = ql (negb a) q.
Definition v_added a h n vq vq' : Prop :=
  vl a vq' = QdfList (ins h n (elems (vl a vq))) (max_size (vl a vq)) /\
  vl (negb a) vq' = vl (negb a) vq.

(** The facts of [vdev_ok], for both lists at once. *)
Lemma vdev_ok_lists ns q v vq : vdev_ok ns q v vq ->
  forall a, elems (vl a vq) = List.filter (on_vdev ns v) (elems (ql a q)).
Proof. intros [Ha Hp _ _ _ _] []; done. Qed.

Lemma vdev_ok_intro ns q v vq :
  (forall a, elems (vl a vq) = List.filter (on_vdev ns v) (elems (ql a q))) ->
  max_size (vl true vq) = 1%nat -> max_size (vl false vq) = 4%nat ->
  (length (elems (vl false vq)) <= 4)%nat ->
  (forall n m, n ∈ elems (vl false vq) -> m ∈ elems (vl false vq) ->
     same_cmd (ncmd ns n) (ncmd ns m) = true -> n = m) ->
  vdev_ok ns q v vq.
Proof. intros H ? ? ? ?. split; try done; [apply (H true)|apply (H false)]. Qed.

Lemma same_cmd_sym c c' : same_cmd c c' = same_cmd c' c.
Proof.
  unfold same_cmd. rewrite (Z.eqb_sym (cmd_id c)), (Z.eqb_sym (cmd_type c)). f_equal.
  by apply bool_decide_ext.
Qed.

Lemma v_taken_id a n vq : n ∉ elems (vl a vq) -> v_taken a n vq vq.
Proof. intros H. split; [|done]. rewrite unlink_id by done. by destruct (vl a vq). Qed.

Lemma v_taken_max a n vq vq' b : v_taken a n vq vq' -> max_size (vl b vq') = max_size (vl b vq).
Proof. intros [H1 H2]. destruct (decide (b = a)) as [->|Hne]; [by rewrite H1|]. replace b with (negb a) by (by destruct a, b). by rewrite H2. Qed.

Lemma vdev_ok_take ns q q' v vq vq' a n cl :
  n ∈ elems (ql a q) -> n ∉ elems (ql (negb a) q) -> q_taken a n q q' -> v_taken a n vq vq' ->
  vdev_ok ns q v vq -> vdev_ok (<[n := cl]> ns) q' v vq'.
Proof.
  intros Hin Hnin [Hq1 Hq2] Hv Hok. pose proof (vdev_ok_lists _ _ _ _ Hok) as Hl.
  destruct Hok as [_ _ Hma Hmp Hlen Hk].
  assert (forall b m, m ∈ elems (vl b vq') -> m <> n /\ m ∈ elems (vl b vq)) as Hsub.
  { intros b m. destruct Hv as [Hv1 Hv2]. destruct (decide (b = a)) as [->|Hne].
    - rewrite Hv1. apply elem_of_unlink.
    - replace b with (negb a) by (by destruct a, b). rewrite Hv2. intros Hm. split; [|done].
      intros ->. rewrite Hl in Hm. by apply elem_of_filter_b in Hm as [_ Hm]. }
  apply vdev_ok_intro.
  - intros b. destruct Hv as [Hv1 Hv2]. destruct (decide (b = a)) as [->|Hne].
    + rewrite Hv1, Hq1. cbn [elems]. rewrite Hl, filter_on_vdev_ne, filter_unlink; [done|].
      rewrite elem_of_unlink. tauto.
    + replace b with (negb a) by (by destruct a, b). rewrite Hv2, Hq2, Hl.
      by rewrite filter_on_vdev_ne.
  - by rewrite (v_taken_max a n vq vq' true Hv).
  - by rewrite (v_taken_max a n vq vq' false Hv).
  - destruct Hv as [Hv1 Hv2]. destruct a; cbn [negb] in *.
    + by rewrite Hv2.
    + rewrite Hv1. cbn [elems]. pose proof (length_unlink_le n (elems (vl false vq))). cbn in *. lia.
  - intros m1 m2 [H1 H1']%Hsub [H2 H2']%Hsub. rewrite !ncmd_ne by congruence. by apply Hk.
Qed.

Lemma act_after_take ns k q q' a n : queue_ok env ns k q -> n ∈ elems (ql a q) -> q_taken a n q q' ->
  act q ≡ₚ (if a then [n] else []) ++ act q' /\ n ∉ act q'.
Proof.
  intros Hok Hin [H1 H2]. destruct a; cbn [ql negb] in *.
  - rewrite H1. cbn [elems]. split; [|rewrite elem_of_unlink; tauto].
    apply unlink_perm; [|done]. by apply (act_nodup env ns k).
  - rewrite H2. split; [done|]. by apply (ql_other env ns k q Hok false).
Qed.

(** The VDEVs' queues after [n] is taken: that of its own VDEV changes. *)
Definition vqs_taken ns (vqs vqs' : gmap nat wlan_serialization_vdev_queue) a n : Prop :=
  forall w vq, vqs !! w = Some vq ->
    if on_vdev ns w n then exists vq', vqs' !! w = Some vq' /\ v_taken a n vq vq'
    else vqs' !! w = Some vq.

Lemma ns_ok_take ns p q q' vqs vqs' a n v cl :
  queue_ok env ns (p, SER_PDEV_QUEUE_COMP_NON_SCAN) q -> ns_ok env ns vqs p q ->
  n ∈ elems (ql a q) -> vdev (ncmd ns n) = Some v -> q_taken a n q q' ->
  vdev_active_cmd_bitmap q' =
    (if a then Z.clearbit (vdev_active_cmd_bitmap q) (Z.of_nat v) else vdev_active_cmd_bitmap q) ->
  vqs_taken ns vqs vqs' a n ->
  ns_ok env (<[n := cl]> ns) vqs' p q'.
Proof.
  intros Hok [Hb Hnn Hu Hvd] Hin Hv Hq Hbm Hvqs.
  destruct (act_after_take ns _ q q' a n Hok Hin Hq) as [Hperm Hnin].
  split.
  - intros w. rewrite existsb_on_vdev_ne by done.
    assert (Z.testbit (vdev_active_cmd_bitmap q) (Z.of_nat w) =
      existsb (on_vdev ns w) ((if a then [n] else []) ++ act q')) as Hbw
      by (rewrite Hb; by apply existsb_perm).
    rewrite Hbm. destruct a; [|done]. cbn in Hbw.
    rewrite Z.clearbit_eqb. rewrite Hbw. destruct (Z.eqb_spec (Z.of_nat v) (Z.of_nat w)) as [Heq|Hne].
    + apply Nat2Z.inj in Heq as <-. cbn. rewrite andb_false_r. symmetry. apply existsb_false_elem.
      intros m Hm. unfold on_vdev. apply bool_decide_eq_false. intros Hm'.
      rewrite Hperm in Hu. cbn in Hu. apply NoDup_cons in Hu as [Hu _]. apply Hu.
      rewrite Hv, <- Hm'. by apply (list_elem_of_fmap_2 (fun n => vdev (ncmd ns n))).
    + cbn. rewrite andb_true_r. unfold on_vdev at 1. rewrite bool_decide_eq_false_2; [done|]. congruence.
  - rewrite Hbm. destruct a; [|done]. apply Z.bits_iff_nonneg_ex in Hnn as [i Hi].
    apply Z.bits_iff_nonneg_ex. exists i. intros j Hj. by rewrite Z.clearbit_eqb, Hi.
  - rewrite (fmap_ncmd_ne vdev) by done. rewrite Hperm in Hu. destruct a; [|done].
    cbn in Hu. by apply NoDup_cons in Hu as [_ ?].
  - intros w Hw. destruct (Hvd w Hw) as (vq & Hvq & Hvok).
    specialize (Hvqs w vq Hvq).
    pose proof (ql_other env ns _ q Hok a n Hin) as Hother.
    destruct (on_vdev ns w n) eqn:E.
    + destruct Hvqs as (vq' & Hvq' & Hvt). exists vq'. split; [done|]. by eapply vdev_ok_take.
    + exists vq. split; [done|]. eapply vdev_ok_take; try done. apply v_taken_id.
      rewrite (vdev_ok_lists _ _ _ _ Hvok). rewrite elem_of_filter_b.
      intros [? _]. congruence.
Qed.

(** After [n], with its command, is put into a list. *)
Definition vqs_added (vqs vqs' : gmap nat wlan_serialization_vdev_queue) a h n v : Prop :=
  (exists vq vq', vqs !! v = Some vq /\ vqs' !! v = Some vq' /\ v_added a h n vq vq') /\
  forall w, w <> v -> vqs' !! w = vqs !! w.

Lemma vdev_ok_put ns q q' v vq vq' a h n cl :
  n ∉ act q -> n ∉ pend q -> q_added a h n q q' ->
  (if bool_decide (vdev (cmd cl) = Some v) then v_added a h n vq vq' else vq' = vq) ->
  (a = false -> vdev (cmd cl) = Some v -> (length (elems (vl false vq)) < 4)%nat /\
     forall m, m ∈ elems (vl false vq) -> same_cmd (ncmd ns m) (cmd cl) = false) ->
  vdev_ok ns q v vq -> vdev_ok (<[n := cl]> ns) q' v vq'.
Proof.
  intros Hna Hnp [Hq1 Hq2] Hv Hroom Hok. pose proof (vdev_ok_lists _ _ _ _ Hok) as Hl.
  destruct Hok as [_ _ Hma Hmp Hlen Hk].
  assert (forall b, n ∉ elems (ql b q)) as Hnin by (intros []; done).
  assert (on_vdev (<[n := cl]> ns) v n = bool_decide (vdev (cmd cl) = Some v)) as Hon
    by (unfold on_vdev; by rewrite ncmd_eq).
  assert (forall b, max_size (vl b vq') = max_size (vl b vq)) as Hmax.
  { intros b. destruct (bool_decide _); [|by rewrite Hv]. destruct Hv as [Hv1 Hv2].
    destruct (decide (b = a)) as [->|Hne]; [by rewrite Hv1|].
    replace b with (negb a) by (by destruct a, b). by rewrite Hv2. }
  assert (forall b m, m ∈ elems (vl b vq) -> m <> n) as Hnv.
  { intros b m Hm ->. rewrite Hl in Hm. apply elem_of_filter_b in Hm as [_ Hm]. by apply (Hnin b). }
  apply vdev_ok_intro; rewrite ?Hmax; try done.
  - intros b. destruct (decide (b = a)) as [->|Hne].
    + rewrite Hq1. cbn [elems]. rewrite filter_ins, Hon, filter_on_vdev_ne by done.
      destruct (bool_decide _); [destruct Hv as [Hv1 _]; by rewrite Hv1, <- Hl|by rewrite Hv, Hl].
    + replace b with (negb a) by (by destruct a, b). rewrite Hq2, filter_on_vdev_ne, <- Hl by done.
      destruct (bool_decide _); [destruct Hv as [_ Hv2]; by rewrite Hv2|by rewrite Hv].
  - case_bool_decide as Hc; [|by rewrite Hv]. destruct Hv as [Hv1 Hv2]. destruct a; cbn [negb] in *.
    + by rewrite Hv2.
    + rewrite Hv1. cbn [elems]. rewrite length_ins. specialize (Hroom eq_refl Hc). lia.
  - assert (forall m, m ∈ elems (vl false vq') ->
      m ∈ elems (vl false vq) \/ (m = n /\ a = false /\ vdev (cmd cl) = Some v)) as Hin.
    { intros m. case_bool_decide as Hc; [|rewrite Hv; by left]. destruct Hv as [Hv1 Hv2].
      destruct a; cbn [negb] in *; [rewrite Hv2; by left|]. rewrite Hv1. cbn [elems].
      rewrite elem_of_ins. intros [->|Hm]; [right|left]; done. }
    assert (forall m, m ∈ elems (vl false vq) -> ncmd (<[n := cl]> ns) m = ncmd ns m) as Hold.
    { intros m Hm. rewrite ncmd_ne; [done|]. intros ->. by apply (Hnv false m). }
    intros m1 m2 [H1|(-> & Ha & Hc)]%Hin [H2|(-> & Ha' & Hc')]%Hin; try done.
    + rewrite (Hold m1 H1), (Hold m2 H2). by apply Hk.
    + rewrite (Hold m1 H1), ncmd_eq. by rewrite (proj2 (Hroom Ha' Hc') m1 H1).
    + rewrite (Hold m2 H2), ncmd_eq, same_cmd_sym. by rewrite (proj2 (Hroom Ha Hc) m2 H2).
Qed.

Lemma ns_ok_put ns p q q' vqs vqs' a h n v cl :
  ns_ok env ns vqs p q -> n ∉ act q -> n ∉ pend q -> vdev (cmd cl) = Some v ->
  vdev_pdev env v = Some p -> q_added a h n q q' ->
  vdev_active_cmd_bitmap q' =
    (if a then Z.setbit (vdev_active_cmd_bitmap q) (Z.of_nat v) else vdev_active_cmd_bitmap q) ->
  vqs_added vqs vqs' a h n v ->
  (a = true -> existsb (on_vdev ns v) (act q) = false) ->
  (a = false -> forall vq, vqs !! v = Some vq -> (length (elems (vl false vq)) < 4)%nat /\
     forall m, m ∈ elems (vl false vq) -> same_cmd (ncmd ns m) (cmd cl) = false) ->
  ns_ok env (<[n := cl]> ns) vqs' p q'.
Proof.
  intros [Hb Hnn Hu Hvd] Hna Hnp Hv Hvp Hq Hbm Hvqs Hidle Hroom.
  assert (act q' ≡ₚ (if a then [n] else []) ++ act q) as Hperm.
  { destruct Hq as [Hq1 Hq2]. destruct a; cbn [ql negb] in *; [rewrite Hq1; apply ins_perm|rewrite Hq2; apply Permutation_refl]. }
  split.
  - intros w. rewrite (existsb_perm _ _ _ Hperm), existsb_app, (existsb_on_vdev_ne ns n cl w (act q)) by done.
    rewrite Hbm. destruct a; [|by rewrite Hb]. cbn. rewrite Z.setbit_eqb, Hb by lia.
    unfold on_vdev at 2. rewrite ncmd_eq, Hv, orb_false_r. f_equal.
    destruct (Z.eqb_spec (Z.of_nat v) (Z.of_nat w)) as [Heq|Hne]; symmetry.
    + apply Nat2Z.inj in Heq as <-. by apply bool_decide_eq_true.
    + apply bool_decide_eq_false. congruence.
  - rewrite Hbm. destruct a; [|done]. apply Z.bits_iff_nonneg_ex in Hnn as [i Hi].
    apply Z.bits_iff_nonneg_ex. exists (Z.max i (Z.of_nat v)). intros j Hj.
    rewrite Z.setbit_eqb by lia. rewrite Hi by lia. by rewrite (proj2 (Z.eqb_neq _ _)) by lia.
  - rewrite Hperm. destruct a; cbn; rewrite (fmap_ncmd_ne vdev) by done; [|done].
    apply NoDup_cons. split; [|done]. rewrite ncmd_eq, Hv.
    intros (m & Hm & Hin)%list_elem_of_fmap. specialize (Hidle eq_refl).
    rewrite existsb_false_elem in Hidle. specialize (Hidle m Hin). unfold on_vdev in Hidle.
    by rewrite bool_decide_eq_true_2 in Hidle.
  - intros w Hw. destruct (Hvd w Hw) as (vq & Hvq & Hvok). destruct Hvqs as [(vq0 & vq' & Hvq0 & Hvq' & Hadd) Hvo].
    destruct (decide (w = v)) as [->|Hne].
    + rewrite Hvq0 in Hvq. injection Hvq as ->. exists vq'. split; [done|].
      eapply vdev_ok_put; try done; [by rewrite bool_decide_eq_true_2|]. intros Ha _. by apply (Hroom Ha).
    + exists vq. rewrite Hvo by done. split; [done|].
      eapply vdev_ok_put; try done; [rewrite bool_decide_eq_false_2; [done|congruence]|].
      intros _ Hc. congruence.
Qed.

End Move.

(** ** Timers *)

Section Timers.
Context {U : Type} (env : ser_env).
Abbreviation W := (ser_world U).
Abbreviation NS := SER_PDEV_QUEUE_COMP_NON_SCAN.
Implicit Types (s : W) (n a : addr) (ts : list wlan_serialization_timer)
  (ns : gmap addr wlan_serialization_command_list).

Lemma free_timer_spec i ts :
  match free_timer i ts with
  | None => True
  | Some j => (i <= j)%nat /\ exists t, ts !! (j - i)%nat = Some t /\ t_cmd t = None
  end.
Proof.
  revert i. induction ts as [|t ts IH]; intros i; [done|]. cbn.
  destruct (t_cmd t) as [a|] eqn:E.
  - specialize (IH (S i)). destruct (free_timer (S i) ts) as [j|]; [|done].
    destruct IH as (Hle & u & Hu & Hc). split; [lia|]. exists u. split; [|done].
    replace (j - i)%nat with (S (j - S i)) by lia. done.
  - split; [lia|]. exists t. by rewrite Nat.sub_diag.
Qed.

(** The timer found for a command: the first that has one with its name. *)
Lemma timer_of_spec s i ts c :
  (forall t a, t ∈ ts -> t_cmd t = Some a -> is_Some (nodes s !! a)) ->
  exists o, timer_of i ts c s = Ret o s /\
  match o with
  | None => forall t a, t ∈ ts -> t_cmd t = Some a -> same_cmd (ncmd (nodes s) a) c = false
  | Some j => (i <= j)%nat /\ exists t a, ts !! (j - i)%nat = Some t /\ t_cmd t = Some a /\
                same_cmd (ncmd (nodes s) a) c = true
  end.
Proof.
  revert i. induction ts as [|t ts IH]; intros i Hn.
  - exists None. split; [done|]. intros t a Ht. by apply elem_of_nil in Ht.
  - assert (forall u a, u ∈ ts -> t_cmd u = Some a -> is_Some (nodes s !! a)) as Hn'.
    { intros u a Hu. apply Hn. by right. }
    destruct (IH (S i) Hn') as (o & Ho & Hspec).
    assert (forall j u a, (S i <= j)%nat -> ts !! (j - S i)%nat = Some u -> t_cmd u = Some a ->
      same_cmd (ncmd (nodes s) a) c = true ->
      (i <= j)%nat /\ exists t' a', (t :: ts) !! (j - i)%nat = Some t' /\ t_cmd t' = Some a' /\
      same_cmd (ncmd (nodes s) a') c = true) as Hshift.
    { intros j u a Hle Hu Ha Hs. split; [lia|]. exists u, a.
      replace (j - i)%nat with (S (j - S i)) by lia. done. }
    cbn [timer_of]. destruct (t_cmd t) as [a|] eqn:E.
    + rewrite (bind_ret _ _ _ _ _ (read_cmd_eq s a (Hn t a ltac:(by left) E))).
      fold (same_cmd (ncmd (nodes s) a) c). destruct (same_cmd (ncmd (nodes s) a) c) eqn:Es.
      * exists (Some i). split; [done|]. split; [lia|]. exists t, a. by rewrite Nat.sub_diag.
      * exists o. split; [done|]. destruct o as [j|].
        -- destruct Hspec as (Hle & u & b & Hu & Hb & Hs).
           exact (Hshift j u b Hle Hu Hb Hs).
        -- intros u b [->|Hu]%elem_of_cons Hb; [congruence|eauto].
    + exists o. split; [done|]. destruct o as [j|].
      * destruct Hspec as (Hle & u & b & Hu & Hb & Hs).
        exact (Hshift j u b Hle Hu Hb Hs).
      * intros u b [->|Hu]%elem_of_cons Hb; [congruence|eauto].
Qed.

Lemma needs_timer_dec ns n :
  (cmd_timeout_duration (ncmd ns n) =? 0) && is_emulation env = false <-> needs_timer env ns n.
Proof.
  unfold needs_timer. destruct (Z.eqb_spec (cmd_timeout_duration (ncmd ns n)) 0), (is_emulation env);
    cbn; intuition congruence.
Qed.

Definition with_timers ts (refs : gmap nat Z) s : W :=
  set_timers (fun _ => ts) (set_vdev_refs (fun _ => refs) s).

Lemma with_timers_id s : with_timers (timers s) (vdev_refs s) s = s.
Proof. by destruct s. Qed.

(** Starting: with a free timer and a live VDEV. *)
Lemma start_timer_spec s n reason : is_Some (nodes s !! n) ->
  exists st ts refs,
    wlan_serialization_find_and_start_timer env n reason s = Ret st (with_timers ts refs s) /\
    ((ts = timers s /\ (st = QDF_STATUS_SUCCESS -> ~ needs_timer env (nodes s) n)) \/
     needs_timer env (nodes s) n /\ exists i t, timers s !! i = Some t /\ t_cmd t = None /\
       ts = <[i := Timer (Some n) (Some (cmd_timeout_duration (ncmd (nodes s) n)))]> (timers s)).
Proof.
  intros Hn. unfold wlan_serialization_find_and_start_timer.
  rewrite (bind_ret _ _ _ _ _ (read_cmd_eq s n Hn)).
  pose proof (needs_timer_dec (nodes s) n) as Hneeds.
  destruct ((_ =? 0) && _).
  { eexists _, (timers s), (vdev_refs s). rewrite with_timers_id. split; [done|]. left.
    split; [done|]. intros _ ?%Hneeds. done. }
  rewrite bind_gets. pose proof (free_timer_spec 0 (timers s)) as Hf.
  destruct (free_timer 0 (timers s)) as [i|]; cycle 1.
  { eexists _, (timers s), (vdev_refs s). rewrite with_timers_id. split; [done|]. by left. }
  destruct Hf as (_ & t & Ht & Hc). rewrite Nat.sub_0_r in Ht.
  unfold wlan_objmgr_vdev_try_get_ref. destruct (vdev (ncmd (nodes s) n)) as [v|]; cycle 1.
  { eexists _, (timers s), (vdev_refs s). rewrite with_timers_id. split; [done|]. by left. }
  rewrite bind_assoc, bind_gets. destruct (bool_decide (v ∈ vdev_created s)); cycle 1.
  { eexists _, (timers s), (vdev_refs s). rewrite with_timers_id. split; [done|]. by left. }
  eexists _, _, (<[v := refs_of s v + 1]> (vdev_refs s)). split; [by destruct s|].
  right. split; [by apply Hneeds|eauto].
Qed.

Lemma stop_timer_spec s n reason : is_Some (nodes s !! n) ->
  (forall i t a, timers s !! i = Some t -> t_cmd t = Some a -> is_Some (nodes s !! a)) ->
  exists st ts refs,
    wlan_serialization_find_and_stop_timer env n reason s = Ret st (with_timers ts refs s) /\
    ((ts = timers s /\ st = QDF_STATUS_SUCCESS /\ ~ needs_timer env (nodes s) n) \/
     (ts = timers s /\ st = QDF_STATUS_E_FAILURE /\ forall i t a, timers s !! i = Some t ->
        t_cmd t = Some a -> same_cmd (ncmd (nodes s) a) (ncmd (nodes s) n) = false) \/
     (st = QDF_STATUS_SUCCESS /\ exists i t a, timers s !! i = Some t /\ t_cmd t = Some a /\
        same_cmd (ncmd (nodes s) a) (ncmd (nodes s) n) = true /\
        ts = <[i := Timer None None]> (timers s))).
Proof.
  intros Hn Hlive. unfold wlan_serialization_find_and_stop_timer.
  rewrite (bind_ret _ _ _ _ _ (read_cmd_eq s n Hn)).
  pose proof (needs_timer_dec (nodes s) n) as Hneeds.
  destruct ((_ =? 0) && _).
  { eexists _, (timers s), (vdev_refs s). rewrite with_timers_id. split; [done|]. left.
    split; [done|]. split; [done|]. intros ?%Hneeds. done. }
  rewrite bind_gets.
  assert (forall t a, t ∈ timers s -> t_cmd t = Some a -> is_Some (nodes s !! a)) as Hl.
  { intros t a [i Hi]%list_elem_of_lookup_1. eauto. }
  destruct (timer_of_spec s 0 (timers s) (ncmd (nodes s) n) Hl) as (o & Ho & Hspec).
  rewrite (bind_ret _ _ _ _ _ Ho). destruct o as [i|].
  - destruct Hspec as (_ & t & a & Ht & Ha & Hs). rewrite Nat.sub_0_r in Ht.
    unfold wlan_serialization_stop_timer, write_timer. rewrite bind_assoc, bind_modify.
    unfold mbind at 1, M_bind at 1. cbn [mret M_ret].
    exists QDF_STATUS_SUCCESS, (<[i := Timer None None]> (timers s)).
    destruct (bool_decide (reason <> SER_TIMEOUT)).
    + unfold wlan_objmgr_vdev_release_ref. destruct (vdev (ncmd (nodes s) n)) as [v|].
      * rewrite bind_modify. unfold refs_of. cbn.
        destruct (default 0 (vdev_refs s !! v) =? 0).
        -- exists (vdev_refs s). split; [by destruct s|]. right. right. split; [done|]. eauto 10.
        -- eexists. split; [by destruct s|]. right. right. split; [done|]. eauto 10.
      * exists (vdev_refs s). split; [by destruct s|]. right. right. split; [done|]. eauto 10.
    + exists (vdev_refs s). split; [by destruct s|]. right. right. split; [done|]. eauto 10.
  - eexists _, (timers s), (vdev_refs s). rewrite with_timers_id. split; [done|]. right. left.
    split; [done|]. split; [done|]. intros i t a Hi. apply Hspec. by eapply list_elem_of_lookup_2.
Qed.

(** The timers after that of [n], if any, was stopped. *)
Record stopped n ts ts' : Prop := {
  st_old : forall i t m, ts' !! i = Some t -> t_cmd t = Some m -> ts !! i = Some t;
  st_gone : snd (fst n) = NS -> ~ has_timer ts' n;
  st_rest : forall m, m <> n -> snd (fst m) = NS -> has_timer ts m -> has_timer ts' m;
}.

Lemma timers_ok_stopped x ns ts ts' n :
  timers_ok env ns x ts -> x = None \/ x = Some n -> is_Some (ns !! n) -> stopped n ts ts' ->
  timers_ok env (<[n := CmdList zero_cmd 0]> ns) None ts'.
Proof.
  intros [Hn Hl Ho Hh] Hx Hsome [Hold Hgone Hrest].
  assert (forall i t m, ts' !! i = Some t -> t_cmd t = Some m -> snd (fst m) = NS -> m <> n) as Hne.
  { intros i t m Hi Hm Hk ->. apply Hgone; [done|]. by exists i, t. }
  split.
  - intros i t m Hi Hm. destruct (decide (n = m)) as [->|]; [rewrite lookup_insert_eq; eauto|].
    rewrite lookup_insert_ne by done. eauto.
  - intros i t m Hi Hm Hk. assert (n <> m) by (intros ->; by eapply Hne).
    unfold needs_timer. rewrite nuse_ne, ncmd_ne by done. eauto.
  - intros i j t u m Hi Hj Hm Hm' Hk. eapply Ho; eauto.
  - intros m Hk Ha Hneed _. destruct (decide (n = m)) as [->|Hnm].
    + unfold is_active in Ha. by rewrite nuse_eq in Ha.
    + rewrite is_active_ne in Ha by done. unfold needs_timer in Hneed. rewrite ncmd_ne in Hneed by done.
      apply Hrest; [done|done|]. apply Hh; try done. destruct Hx as [->| ->]; congruence.
Qed.

(** A buffer that is not active changes hands. *)
Lemma timers_ok_fresh ns ts n cl :
  timers_ok env ns None ts -> is_Some (ns !! n) -> nuse ns n = 0 ->
  is_active (<[n := cl]> ns) n = false -> timers_ok env (<[n := cl]> ns) None ts.
Proof.
  intros [Hn Hl Ho Hh] Hsome H0 Ha. split.
  - intros i t m Hi Hm. destruct (decide (n = m)) as [->|]; [rewrite lookup_insert_eq; eauto|].
    rewrite lookup_insert_ne by done. eauto.
  - intros i t m Hi Hm Hk. unfold needs_timer. destruct (decide (n = m)) as [->|].
    + exfalso. by destruct (Hl i t m Hi Hm Hk).
    + rewrite nuse_ne, ncmd_ne by done. eauto.
  - done.
  - intros m Hk Hm Hneed _. destruct (decide (n = m)) as [->|]; [congruence|].
    rewrite is_active_ne in Hm by done. unfold needs_timer in Hneed. rewrite ncmd_ne in Hneed by done.
    by apply Hh.
Qed.

(** An active buffer changes its state; it may become activated. *)
Lemma timers_ok_bits x ns ts n cl :
  timers_ok env ns None ts -> is_Some (ns !! n) -> cmd_in_use cl <> 0 ->
  cmd_timeout_duration (cmd cl) = cmd_timeout_duration (ncmd ns n) ->
  (snd (fst n) = NS -> is_active (<[n := cl]> ns) n = true -> is_active ns n = false ->
   needs_timer env ns n -> has_timer ts n \/ x = Some n) ->
  timers_ok env (<[n := cl]> ns) x ts.
Proof.
  intros [Hn Hl Ho Hh] Hsome H0 Hd Hx. split.
  - intros i t m Hi Hm. destruct (decide (n = m)) as [->|]; [rewrite lookup_insert_eq; eauto|].
    rewrite lookup_insert_ne by done. eauto.
  - intros i t m Hi Hm Hk. unfold needs_timer. destruct (decide (n = m)) as [->|].
    + rewrite nuse_eq, ncmd_eq, Hd. split; [done|]. by apply (Hl i t m Hi Hm Hk).
    + rewrite nuse_ne, ncmd_ne by done. eauto.
  - done.
  - intros m Hk Hm Hneed Hxm. destruct (decide (n = m)) as [->|].
    + unfold needs_timer in Hneed. rewrite ncmd_eq, Hd in Hneed. fold (needs_timer env ns m) in Hneed.
      destruct (is_active ns m) eqn:Ea; [by apply Hh|].
      destruct (Hx Hk Hm eq_refl Hneed); [done|congruence].
    + rewrite is_active_ne in Hm by done. unfold needs_timer in Hneed. rewrite ncmd_ne in Hneed by done.
      by apply Hh.
Qed.

Lemma has_timer_insert ts i t0 t m : ts !! i = Some t0 -> t_cmd t0 = None \/ t_cmd t0 = t_cmd t ->
  has_timer ts m -> has_timer (<[i := t]> ts) m.
Proof.
  intros H0 Hc (j & u & Hj & Hm). destruct (decide (i = j)) as [->|Hne].
  - exists j, t. rewrite list_lookup_insert_eq by (by eapply lookup_lt_Some). split; [done|].
    rewrite H0 in Hj. injection Hj as ->. destruct Hc; congruence.
  - exists j, u. by rewrite list_lookup_insert_ne.
Qed.

Lemma timers_ok_start ns ts n i t0 d :
  timers_ok env ns None ts -> is_Some (ns !! n) -> nuse ns n <> 0 -> needs_timer env ns n ->
  ts !! i = Some t0 -> t_cmd t0 = None -> (snd (fst n) = NS -> ~ has_timer ts n) ->
  timers_ok env ns None (<[i := Timer (Some n) d]> ts).
Proof.
  intros [Hn Hl Ho Hh] Hsome H0 Hneeds Hi Hfree Hnone.
  assert (forall j t m, <[i := Timer (Some n) d]> ts !! j = Some t -> t_cmd t = Some m ->
    (j = i /\ m = n) \/ (j <> i /\ ts !! j = Some t)) as Hinv.
  { intros j t m Hj Hm. destruct (decide (i = j)) as [->|Hne].
    - rewrite list_lookup_insert_eq in Hj by (by eapply lookup_lt_Some). injection Hj as <-.
      injection Hm as <-. by left.
    - rewrite list_lookup_insert_ne in Hj by done. right. auto. }
  split.
  - intros j t m Hj Hm. destruct (Hinv j t m Hj Hm) as [[_ ->]|[_ ?]]; eauto.
  - intros j t m Hj Hm Hk. destruct (Hinv j t m Hj Hm) as [[_ ->]|[_ ?]]; eauto.
  - intros j j' t u m Hj Hj' Hm Hm' Hk.
    destruct (Hinv j t m Hj Hm) as [[-> ->]|[? ?]], (Hinv j' u _ Hj' Hm') as [[-> ?]|[? ?]]; subst; eauto.
    + exfalso. apply (Hnone Hk). by exists j', u.
    + exfalso. apply (Hnone Hk). by exists j, t.
  - intros m Hk Hm Hneed Hx. apply (has_timer_insert ts i t0); auto.
Qed.

End Timers.

(** ** Steps of the whole state *)

Section Steps.
Context {U : Type} (env : ser_env) (HE : env_ok env).
Abbreviation W := (ser_world U).
Abbreviation NS := SER_PDEV_QUEUE_COMP_NON_SCAN.
Abbreviation SCAN := SER_PDEV_QUEUE_COMP_SCAN.
Abbreviation act q := (elems (active_list q)).
Abbreviation pend q := (elems (pending_list q)).
Abbreviation pool q := (elems (cmd_pool_list q)).
Implicit Types (s : W) (n : addr) (a : bool) (k : qkey) (p v : nat) (es : list ser_event).

Lemma in_use_active x s n : inv env x s -> nuse (nodes s) n <> 0 ->
  exists q, queues s !! fst n = Some q /\ n ∈ act q.
Proof.
  intros Hi Hu. assert (is_Some (nodes s !! n)) as Hn.
  { unfold nuse in Hu. destruct (nodes s !! n); [eauto|done]. }
  destruct (i_dom env x s Hi n Hn) as (q & Hq & Hin). exists q. split; [done|].
  pose proof (i_queue env x s Hi _ q Hq) as Hok.
  rewrite <- (q_parts env _ _ _ Hok), !elem_of_app in Hin. destruct Hin as [Hin|[Hin|Hin]]; [|done|].
  - by destruct (q_pool env _ _ _ Hok n Hin) as [? _].
  - by destruct (q_pend env _ _ _ Hok n Hin) as [? _].
Qed.

Lemma marked_in_use ns n : marked ns n = true -> nuse ns n <> 0.
Proof. unfold marked. intros H H0. by rewrite H0 in H. Qed.

Lemma live_queue x s k q a : inv env x s -> queues s !! k = Some q -> list_live s (elems (ql a q)).
Proof.
  intros Hi Hq. pose proof (i_queue env x s Hi k q Hq) as Hok. split; [by apply (ql_nodup env (nodes s) k)|].
  intros n Hn. apply (i_nodes env x s Hi k q n Hq). by apply (ql_addr env _ k q Hok a).
Qed.

Lemma NoDup_fmap_inj_elem {A B} (f : A -> B) (l : list A) x y :
  NoDup (f <$> l) -> x ∈ l -> y ∈ l -> f x = f y -> x = y.
Proof.
  induction l as [|z l IH]; [intros _ Hx; by apply elem_of_nil in Hx|]. cbn.
  intros [Hz Hnd]%NoDup_cons [->|Hx]%elem_of_cons [->|Hy]%elem_of_cons Heq; auto.
  - exfalso. apply Hz. rewrite Heq. by apply list_elem_of_fmap_2.
  - exfalso. apply Hz. rewrite <- Heq. by apply list_elem_of_fmap_2.
Qed.

(** A timer that fits an active non-scan command is its own. *)
Lemma timer_own x s i t (a : addr) n q : inv env x s ->
  timers s !! i = Some t -> t_cmd t = Some a -> same_cmd (ncmd (nodes s) a) (ncmd (nodes s) n) = true ->
  queues s !! fst n = Some q -> n ∈ act q -> snd (fst n) = NS -> a = n.
Proof.
  intros Hi Ht Ha Hs Hq Hn Hk.
  unfold same_cmd in Hs. rewrite !andb_true_iff in Hs. destruct Hs as [[_ Htype%Z.eqb_eq] Hv%bool_decide_eq_true].
  pose proof (i_queue env x s Hi _ q Hq) as Hok.
  destruct (fst n) as [p kt] eqn:Ek. cbn in Hk. subst kt.
  destruct (q_act env _ _ _ Hok n Hn) as [_ Hcn].
  destruct (cmd_ok_ns env p _ Hcn) as (v & Hvn & Hvp & Hty).
  destruct (t_nodes env _ _ _ (i_timers env x s Hi) i t a Ht Ha) as [cl Hcl].
  destruct (i_dom env x s Hi a ltac:(eauto)) as (qa & Hqa & Hina).
  pose proof (i_queue env x s Hi _ qa Hqa) as Hoka.
  destruct (fst a) as [pa ka] eqn:Eka. destruct ka.
  { exfalso. assert (cmd_type (ncmd (nodes s) a) = 0) as H0.
    { rewrite <- (q_parts env _ _ _ Hoka), !elem_of_app in Hina. destruct Hina as [H|[H|H]].
      - destruct (q_pool env _ _ _ Hoka a H) as [_ ->]. done.
      - destruct (q_act env _ _ _ Hoka a H) as [_ H']. by eapply cmd_ok_scan.
      - destruct (q_pend env _ _ _ Hoka a H) as [_ H']. by eapply cmd_ok_scan. }
    rewrite H0 in Htype. unfold WLAN_SER_CMD_NONSCAN in Hty. lia. }
  destruct (t_live env _ _ _ (i_timers env x s Hi) i t a Ht Ha ltac:(by rewrite Eka)) as [Hu _].
  destruct (in_use_active x s a Hi Hu) as (qa' & Hqa' & Haa). rewrite Eka in Hqa'.
  rewrite Hqa in Hqa'. injection Hqa' as <-.
  destruct (q_act env _ _ _ Hoka a Haa) as [_ Hca].
  destruct (cmd_ok_ns env pa _ Hca) as (va & Hva & Hvpa & _).
  assert (va = v) as -> by congruence. assert (pa = p) as -> by congruence.
  rewrite Hq in Hqa. injection Hqa as <-.
  by apply (NoDup_fmap_inj_elem _ _ _ _ (ns_uniq env _ _ _ _ (i_ns env x s Hi p q Hq))).
Qed.

(** Stopping the timer of an active command. *)
Lemma stop_stopped x s n q st ts : inv env x s -> queues s !! fst n = Some q -> n ∈ act q ->
  ((ts = timers s /\ st = QDF_STATUS_SUCCESS /\ ~ needs_timer env (nodes s) n) \/
   (ts = timers s /\ st = QDF_STATUS_E_FAILURE /\ forall i t (a : addr), timers s !! i = Some t ->
      t_cmd t = Some a -> same_cmd (ncmd (nodes s) a) (ncmd (nodes s) n) = false) \/
   (st = QDF_STATUS_SUCCESS /\ exists i t (a : addr), timers s !! i = Some t /\ t_cmd t = Some a /\
      same_cmd (ncmd (nodes s) a) (ncmd (nodes s) n) = true /\
      ts = <[i := Timer None None]> (timers s))) ->
  stopped n (timers s) ts.
Proof.
  intros Hi Hq Hn Hst. pose proof (i_timers env x s Hi) as Ht. split.
  - intros i t m Hi' Hm. destruct Hst as [(-> & _)|[(-> & _)|(_ & j & u & a & Hj & _ & _ & ->)]]; try done.
    destruct (decide (j = i)) as [->|Hne].
    + rewrite list_lookup_insert_eq in Hi' by (by eapply lookup_lt_Some). by injection Hi' as <-.
    + by rewrite list_lookup_insert_ne in Hi'.
  - intros Hk (i & t & Hit & Hm). destruct Hst as [(-> & _ & Hno)|[(-> & _ & Hno)|(_ & j & u & a & Hj & Ha & Hs & ->)]].
    + apply Hno. by apply (t_live env _ _ _ Ht i t n).
    + specialize (Hno i t n Hit Hm). by rewrite same_cmd_refl in Hno.
    + destruct (decide (j = i)) as [->|Hne].
      * rewrite list_lookup_insert_eq in Hit by (by eapply lookup_lt_Some). by injection Hit as <-.
      * rewrite list_lookup_insert_ne in Hit by done. apply Hne.
        rewrite (timer_own x s j u a n q) in Ha by done.
        by apply (t_once env _ _ _ Ht j i u t n).
  - intros m Hmn Hk (i & t & Hit & Hm).
    destruct Hst as [(-> & _)|[(-> & _)|(_ & j & u & a & Hj & Ha & Hs & ->)]]; [by exists i, t|by exists i, t|].
    destruct (decide (j = i)) as [->|Hne]; [|exists i, t; by rewrite list_lookup_insert_ne].
    exfalso. rewrite Hj in Hit. injection Hit as ->. rewrite Ha in Hm. injection Hm as ->.
    (* the timer of another non-scan command does not fit *)
    unfold same_cmd in Hs. rewrite !andb_true_iff in Hs.
    destruct Hs as [[_ Htype%Z.eqb_eq] Hv%bool_decide_eq_true].
    destruct (t_live env _ _ _ Ht i t m Hj Ha Hk) as [Hu _].
    destruct (in_use_active x s m Hi Hu) as (qm & Hqm & Hmm).
    destruct (fst m) as [pm km] eqn:Em. cbn in Hk. subst km.
    destruct (q_act env _ _ _ (i_queue env x s Hi _ qm Hqm) m Hmm) as [_ Hcm].
    destruct (cmd_ok_ns env pm _ Hcm) as (v & Hvm & Hvp & Hty).
    destruct (q_act env _ _ _ (i_queue env x s Hi _ q Hq) n Hn) as [_ Hcn].
    destruct (fst n) as [pn kn] eqn:En. destruct kn.
    { rewrite (cmd_ok_scan env pn _ Hcn) in Htype. unfold WLAN_SER_CMD_NONSCAN in Hty. lia. }
    apply Hmn. destruct (cmd_ok_ns env pn _ Hcn) as (v' & Hvn & Hvp' & _).
    assert (v' = v) as -> by congruence. assert (pn = pm) as -> by congruence.
    rewrite Hq in Hqm. injection Hqm as <-.
    by apply (NoDup_fmap_inj_elem _ _ _ _ (ns_uniq env _ _ _ _ (i_ns env x s Hi pm q Hq))).
Qed.

(** A pending command has no timer to stop. *)
Lemma pending_stopped x s n q : inv env x s -> queues s !! fst n = Some q -> n ∈ pend q ->
  stopped n (timers s) (timers s).
Proof.
  intros Hi Hq Hn. split; [done| |done]. intros Hk (i & t & Hit & Hm).
  destruct (t_live env _ _ _ (i_timers env x s Hi) i t n Hit Hm Hk) as [Hu _].
  destruct (q_pend env _ _ _ (i_queue env x s Hi _ q Hq) n Hn) as [H0 _]. done.
Qed.

(** *** A buffer returns to the pool *)

Lemma queue_ok_release ns k q q' a n :
  queue_ok env ns k q -> n ∈ elems (ql a q) -> q_taken a n q q' -> pool q' = pool q ++ [n] ->
  queue_ok env (<[n := CmdList zero_cmd 0]> ns) k q'.
Proof.
  intros Hok Hn [Hq1 Hq2] Hpool.
  pose proof (ql_not_pool env ns k q Hok a n Hn) as Hnp.
  assert (forall b m, m ∈ elems (ql b q') -> m <> n /\ m ∈ elems (ql b q)) as Hsub.
  { intros b m Hm. destruct (decide (b = a)) as [->|Hne].
    - rewrite Hq1 in Hm. by apply elem_of_unlink in Hm.
    - replace b with (negb a) in * by (by destruct a, b). rewrite Hq2 in Hm. split; [|done].
      intros ->. by apply (ql_other env ns k q Hok a n Hn). }
  assert (forall b, (length (elems (ql b q')) <= length (elems (ql b q)))%nat) as Hlen.
  { intros b. destruct (decide (b = a)) as [->|Hne].
    - rewrite Hq1. apply length_unlink_le.
    - replace b with (negb a) by (by destruct a, b). by rewrite Hq2. }
  assert (forall b, max_size (ql b q') = max_size (ql b q)) as Hmax.
  { intros b. destruct (decide (b = a)) as [->|Hne]; [by rewrite Hq1|].
    replace b with (negb a) by (by destruct a, b). by rewrite Hq2. }
  split.
  - rewrite <- (q_parts env ns k q Hok), Hpool.
    destruct a; cbn [ql negb] in *; rewrite Hq1, Hq2; cbn [elems].
    + rewrite (unlink_perm n (act q)) at 2 by (done || by apply (act_nodup env ns k)).
      by rewrite <- app_assoc.
    + rewrite (unlink_perm n (pend q)) at 2 by (done || by apply (pend_nodup env ns k)).
      rewrite <- app_assoc. apply Permutation_app_head. cbn. apply Permutation_middle.
  - rewrite <- (q_max_act env ns k q Hok). apply (Hmax true).
  - rewrite <- (q_max_pend env ns k q Hok). apply (Hmax false).
  - pose proof (q_len_act env ns k q Hok). specialize (Hlen true). cbn in Hlen. lia.
  - pose proof (q_len_pend env ns k q Hok). specialize (Hlen false). cbn in Hlen. lia.
  - intros m Hm. rewrite Hpool, elem_of_app, list_elem_of_singleton in Hm. destruct (decide (n = m)) as [->|Hne].
    + by rewrite nuse_eq, ncmd_eq.
    + rewrite nuse_ne, ncmd_ne by done. apply (q_pool env ns k q Hok). by destruct Hm as [?| ->].
  - intros m [Hne Hm]%(Hsub false). rewrite nuse_ne, ncmd_ne by done. by apply (q_pend env ns k q Hok).
  - intros m [Hne Hm]%(Hsub true). rewrite is_active_ne, marked_ne, ncmd_ne by done.
    by apply (q_act env ns k q Hok).
Qed.

Lemma lists_take ns k q q' a n : queue_ok env ns k q -> n ∈ elems (ql a q) -> q_taken a n q q' ->
  act q ++ pend q ≡ₚ n :: act q' ++ pend q' /\ n ∉ act q' ++ pend q'.
Proof.
  intros Hok Hn Hq. pose proof (ql_other env ns k q Hok a n Hn) as Hother.
  destruct Hq as [Hq1 Hq2]. destruct a; cbn [ql negb] in *; rewrite Hq1, Hq2; cbn [elems].
  - split; [|rewrite elem_of_app, elem_of_unlink; tauto].
    rewrite (unlink_perm n (act q)) at 1 by (done || by apply (act_nodup env ns k)). done.
  - split; [|rewrite elem_of_app, elem_of_unlink; tauto].
    rewrite (unlink_perm n (pend q)) at 1 by (done || by apply (pend_nodup env ns k)).
    symmetry. apply Permutation_middle.
Qed.

Lemma queued_take ns k q q' a n cl : queue_ok env ns k q -> n ∈ elems (ql a q) -> q_taken a n q q' ->
  queued ns q ≡ₚ base (ncmd ns n) :: queued (<[n := cl]> ns) q'.
Proof.
  intros Hok Hn Hq. destruct (lists_take ns k q q' a n Hok Hn Hq) as [Hp Hnin].
  unfold queued. rewrite Hp. cbn. by rewrite (fmap_ncmd_ne base).
Qed.

(** What leaves a queue: the command's buffer is released, its owner is told. *)
Lemma inv_release x s s' k n q q' a es :
  inv env x s -> x = None \/ x = Some n -> queues s !! k = Some q -> n ∈ elems (ql a q) ->
  nodes s' = <[n := CmdList zero_cmd 0]> (nodes s) -> queues s' = <[k := q']> (queues s) ->
  q_taken a n q q' -> pool q' = pool q ++ [n] ->
  (forall p v, k = (p, NS) -> vdev (ncmd (nodes s) n) = Some v ->
     vdev_active_cmd_bitmap q' =
       (if a then Z.clearbit (vdev_active_cmd_bitmap q) (Z.of_nat v) else vdev_active_cmd_bitmap q) /\
     exists vq vq', vqueues s !! v = Some vq /\ v_taken a n vq vq' /\ vqueues s' = <[v := vq']> (vqueues s)) ->
  (snd k = SCAN -> vqueues s' = vqueues s) ->
  trace s' = trace s ++ es -> accepted es = [] -> released es = [base (ncmd (nodes s) n)] ->
  stopped n (timers s) (timers s') ->
  inv env None s'.
Proof.
  intros Hi Hx Hq Hn Hnodes Hqueues Htake Hpool Hns Hscan Htr Hacc Hrel Hst.
  pose proof (i_queue env x s Hi k q Hq) as Hok.
  pose proof (ql_cmd_ok env _ k q Hok a n Hn) as Hcmd.
  destruct (cmd_ok_inv env k _ Hcmd) as (v & Hv & Hvp & _).
  pose proof (ql_addr env _ k q Hok a n Hn) as Haddr.
  eapply (inv_update env x None s s' k n q q' _ es Hi Hq Haddr Hnodes Hqueues); try done.
  - rewrite Hnodes. by eapply queue_ok_release.
  - intros p ->. destruct (Hns p v eq_refl Hv) as (Hbm & vq & vq' & Hvq & Hvt & Hvqs).
    rewrite Hnodes. eapply ns_ok_take; try done; [by apply (i_ns env x s Hi)|].
    intros w vqw Hw. unfold on_vdev. rewrite Hv. case_bool_decide as Hc.
    + injection Hc as ->. rewrite Hw in Hvq. injection Hvq as <-. exists vq'.
      rewrite Hvqs, lookup_insert_eq. done.
    + rewrite Hvqs, lookup_insert_ne by congruence. done.
  - intros p w Hne Hwp. destruct k as [pk []].
    + by rewrite Hscan.
    + destruct (Hns pk v eq_refl Hv) as (_ & vq & vq' & _ & _ & ->).
      rewrite lookup_insert_ne; [done|]. intros <-. cbn in Hvp. congruence.
  - unfold concerns. rewrite Hacc, Hrel. constructor; [|done]. rewrite key_of_base. apply Hcmd.
  - rewrite Hacc, Hrel, app_nil_r, Hnodes. rewrite (queued_take _ k q q' a n (CmdList zero_cmd 0)) by done.
    by rewrite Permutation_app_comm.
  - rewrite Hnodes. eapply timers_ok_stopped; eauto using i_timers.
    eapply i_nodes; eauto.
  - rewrite (count_update s s' k q q' Hq Hqueues). pose proof (i_scans env x s Hi).
    assert (scans_in k q' <= scans_in k q) as Hle; [|lia].
    unfold scans_in, wlan_serialization_active_scan_cmd_count_handler. destruct (snd k); [|lia].
    destruct Htake as [H1 H2]. destruct a; cbn [ql negb] in *; [|by rewrite H2].
    rewrite H1. cbn [elems]. pose proof (length_unlink_le n (act q)). lia.
Qed.

(** *** A buffer of the pool takes a command *)

Lemma q_added_facts a h n q q' : q_added a h n q q' -> n ∉ act q -> n ∉ pend q ->
  (forall b m, m ∈ elems (ql b q') -> (m = n /\ b = a) \/ (m <> n /\ m ∈ elems (ql b q))) /\
  (forall b, max_size (ql b q') = max_size (ql b q)) /\
  (forall b, length (elems (ql b q')) = if eqb b a then S (length (elems (ql b q))) else length (elems (ql b q))) /\
  act q' ++ pend q' ≡ₚ n :: act q ++ pend q.
Proof.
  intros [H1 H2] Hna Hnp.
  assert (forall b, n ∉ elems (ql b q)) as Hnin by (by intros []).
  split; [|split; [|split]].
  - intros b m Hm. destruct (decide (b = a)) as [->|Hne].
    + rewrite H1 in Hm. cbn [elems] in Hm. apply elem_of_ins in Hm as [->|Hm]; [by left|].
      right. split; [|done]. intros ->. by apply (Hnin a).
    + replace b with (negb a) in * by (by destruct a, b). rewrite H2 in Hm. right.
      split; [|done]. intros ->. by apply (Hnin (negb a)).
  - intros b. destruct (decide (b = a)) as [->|Hne]; [by rewrite H1|].
    replace b with (negb a) by (by destruct a, b). by rewrite H2.
  - intros b. destruct (decide (b = a)) as [->|Hne].
    + rewrite eqb_reflx, H1. apply length_ins.
    + replace b with (negb a) by (by destruct a, b). rewrite H2. by destruct a.
  - destruct a; cbn [ql negb] in *; rewrite H1, H2; cbn [elems]; rewrite ins_perm; [done|].
    symmetry. apply Permutation_middle.
Qed.

Lemma queue_ok_put ns k q q' a h n c u rest :
  queue_ok env ns k q -> pool q = n :: rest -> pool q' = rest -> q_added a h n q q' ->
  (length (elems (ql a q)) < max_size (ql a q))%nat -> cmd_ok env k c ->
  u = (if a then Z.setbit 0 CMD_MARKED_FOR_ACTIVATION else 0) ->
  queue_ok env (<[n := CmdList c u]> ns) k q'.
Proof.
  intros Hok Hpool Hpool' Hadd Hlt Hc Hu.
  assert ((n ∉ act q) /\ (n ∉ pend q) /\ (n ∉ rest)) as (Hna & Hnp & Hnr).
  { pose proof (q_nodup env ns k q Hok) as Hnd. rewrite Hpool in Hnd. cbn in Hnd.
    apply NoDup_cons in Hnd as [Hn _]. rewrite !elem_of_app in Hn. tauto. }
  destruct (q_added_facts a h n q q' Hadd Hna Hnp) as (Hsub & Hmax & Hlen & Hperm).
  pose proof (q_max_act env ns k q Hok) as Hma. pose proof (q_max_pend env ns k q Hok) as Hmp.
  pose proof (q_len_act env ns k q Hok). pose proof (q_len_pend env ns k q Hok).
  split.
  - rewrite <- (q_parts env ns k q Hok), Hpool, Hpool', Hperm. symmetry. apply Permutation_middle.
  - rewrite <- Hma. apply (Hmax true).
  - rewrite <- Hmp. apply (Hmax false).
  - specialize (Hlen true). cbn in Hlen. rewrite Hlen. destruct a; cbn in *; lia.
  - specialize (Hlen false). cbn in Hlen. rewrite Hlen. destruct a; cbn in *; lia.
  - intros m Hm. rewrite Hpool' in Hm. assert (n <> m) by congruence. rewrite nuse_ne, ncmd_ne by done.
    apply (q_pool env ns k q Hok). rewrite Hpool. by right.
  - intros m Hm. destruct (Hsub false m Hm) as [[-> <-]|[Hne Hm']].
    + rewrite nuse_eq, ncmd_eq. by subst u.
    + rewrite nuse_ne, ncmd_ne by done. by apply (q_pend env ns k q Hok).
  - intros m Hm. destruct (Hsub true m Hm) as [[-> <-]|[Hne Hm']].
    + unfold is_active, marked. rewrite nuse_eq, ncmd_eq. by subst u.
    + rewrite is_active_ne, marked_ne, ncmd_ne by done. by apply (q_act env ns k q Hok).
Qed.

Lemma scans_in_put k q q' a h n : q_added a h n q q' ->
  scans_in k q' = scans_in k q + (if a then match snd k with SER_PDEV_QUEUE_COMP_SCAN => 1 | _ => 0 end else 0).
Proof.
  intros [H1 H2]. unfold scans_in, wlan_serialization_active_scan_cmd_count_handler.
  destruct (snd k), a; cbn [ql negb] in *; try lia; [|by rewrite H2; lia].
  rewrite H1. cbn [elems]. rewrite length_ins. lia.
Qed.

Lemma inv_accept s s' k n rest q q' a h c u es :
  inv env None s -> queues s !! k = Some q -> pool q = n :: rest ->
  nodes s' = <[n := CmdList c u]> (nodes s) -> queues s' = <[k := q']> (queues s) ->
  pool q' = rest -> q_added a h n q q' -> (length (elems (ql a q)) < max_size (ql a q))%nat ->
  cmd_ok env k c -> u = (if a then Z.setbit 0 CMD_MARKED_FOR_ACTIVATION else 0) ->
  (forall p v, k = (p, NS) -> vdev c = Some v ->
     vdev_active_cmd_bitmap q' =
       (if a then Z.setbit (vdev_active_cmd_bitmap q) (Z.of_nat v) else vdev_active_cmd_bitmap q) /\
     vqs_added (vqueues s) (vqueues s') a h n v /\
     (a = true -> existsb (on_vdev (nodes s) v) (act q) = false) /\
     (a = false -> forall vq, vqueues s !! v = Some vq -> (length (elems (vl false vq)) < 4)%nat /\
       forall m, m ∈ elems (vl false vq) -> same_cmd (ncmd (nodes s) m) c = false)) ->
  (snd k = SCAN -> vqueues s' = vqueues s /\
     (a = true -> active_scan_count s < max_active_scans env)) ->
  trace s' = trace s ++ es -> accepted es = [base c] -> released es = [] ->
  timers s' = timers s ->
  inv env None s'.
Proof.
  intros Hi Hq Hpool Hnodes Hqueues Hpool' Hadd Hlt Hcmd Hu Hns Hscan Htr Hacc Hrel Hts.
  pose proof (i_queue env None s Hi k q Hq) as Hok.
  assert (n ∈ pool q) as Hin by (rewrite Hpool; by left).
  assert ((n ∉ act q) /\ (n ∉ pend q)) as (Hna & Hnp).
  { pose proof (q_nodup env _ k q Hok) as Hnd. rewrite Hpool in Hnd. cbn in Hnd.
    apply NoDup_cons in Hnd as [Hn _]. rewrite !elem_of_app in Hn. tauto. }
  destruct (cmd_ok_inv env k _ Hcmd) as (v & Hv & Hvp & _).
  pose proof (pool_addr env _ k q Hok n Hin) as Haddr.
  eapply (inv_update env None None s s' k n q q' _ es Hi Hq Haddr Hnodes Hqueues); try done.
  - rewrite Hnodes. by eapply queue_ok_put.
  - intros p ->. destruct (Hns p v eq_refl Hv) as (Hbm & Hvqs & Hidle & Hroom).
    rewrite Hnodes. eapply ns_ok_put; try done. by apply (i_ns env None s Hi).
  - intros p w Hne Hwp. destruct k as [pk []].
    + by destruct (Hscan eq_refl) as [-> _].
    + destruct (Hns pk v eq_refl Hv) as (_ & [_ Ho] & _). apply Ho. intros ->. cbn in Hvp. congruence.
  - unfold concerns. rewrite Hacc, Hrel. constructor; [|done]. rewrite key_of_base. apply Hcmd.
  - rewrite Hacc, Hrel, app_nil_r, Hnodes. unfold queued.
    destruct (q_added_facts a h n q q' Hadd Hna Hnp) as (_ & _ & _ & Hperm). rewrite Hperm. cbn.
    rewrite ncmd_eq, (fmap_ncmd_ne base) by (rewrite elem_of_app; tauto).
    apply Permutation_cons_append.
  - rewrite Hnodes, Hts. apply timers_ok_fresh; [by apply i_timers|by eapply i_nodes| |].
    + by apply (q_pool env _ k q Hok).
    + unfold is_active. rewrite nuse_eq, Hu. by destruct a.
  - rewrite (count_update s s' k q q' Hq Hqueues), (scans_in_put k q q' a h n Hadd).
    pose proof (i_scans env None s Hi). destruct (snd k) eqn:Ek; destruct a; try lia.
    destruct (Hscan eq_refl) as [_ Hlim]. specialize (Hlim eq_refl). lia.
Qed.

(** *** A pending command is chosen for activation *)

Lemma queue_ok_promote ns k q q' h n c :
  queue_ok env ns k q -> n ∈ pend q -> pool q' = pool q -> q_added true h n (q_take false n q) q' ->
  (length (act q) < max_size (active_list q))%nat -> c = ncmd ns n ->
  queue_ok env (<[n := CmdList c (Z.setbit 0 CMD_MARKED_FOR_ACTIVATION)]> ns) k q'.
Proof.
  intros Hok Hn Hpool [H1 H2] Hlt ->. cbn in H1, H2.
  pose proof (ql_other env ns k q Hok false n Hn) as Hna. cbn in Hna.
  pose proof (ql_not_pool env ns k q Hok false n Hn) as Hnp.
  pose proof (q_max_act env ns k q Hok) as Hma. pose proof (q_max_pend env ns k q Hok) as Hmp.
  pose proof (q_len_act env ns k q Hok). pose proof (q_len_pend env ns k q Hok).
  split.
  - rewrite <- (q_parts env ns k q Hok), Hpool, H1, H2. cbn [elems]. apply Permutation_app_head.
    rewrite ins_perm. cbn [app]. rewrite Permutation_middle. apply Permutation_app_head.
    symmetry. by apply unlink_perm; [apply (pend_nodup env ns k)|].
  - by rewrite H1.
  - by rewrite H2.
  - rewrite H1. cbn [elems]. rewrite length_ins. lia.
  - rewrite H2. cbn [elems]. pose proof (length_unlink_le n (pend q)). lia.
  - intros m Hm. rewrite Hpool in Hm. assert (n <> m) by congruence. rewrite nuse_ne, ncmd_ne by done.
    by apply (q_pool env ns k q Hok).
  - intros m Hm. rewrite H2 in Hm. cbn [elems] in Hm. apply elem_of_unlink in Hm as [Hne Hm].
    rewrite nuse_ne, ncmd_ne by done. by apply (q_pend env ns k q Hok).
  - intros m Hm. rewrite H1 in Hm. cbn [elems] in Hm. apply elem_of_ins in Hm as [->|Hm].
    + unfold is_active, marked. rewrite nuse_eq, ncmd_eq. split; [done|]. by apply (q_pend env ns k q Hok).
    + assert (n <> m) by congruence. rewrite is_active_ne, marked_ne, ncmd_ne by done.
      by apply (q_act env ns k q Hok).
Qed.

End Steps.
