(* ===== verification/SerStep.v ===== *)
(** The remaining steps of the queues' state: a pending command is chosen for
    activation, an active command's buffer changes its state, and the changes that leave
    the queues as they are; and what every step leaves alone. *)
From S2P Require Import Prelude Ser SerBase SerInv.

Section Promote.
Context {U : Type} (env : ser_env) (HE : env_ok env).
Abbreviation W := (ser_world U).
Abbreviation NS := SER_PDEV_QUEUE_COMP_NON_SCAN.
Abbreviation SCAN := SER_PDEV_QUEUE_COMP_SCAN.
Abbreviation act q := (elems (active_list q)).
Abbreviation pend q := (elems (pending_list q)).
Abbreviation pool q := (elems (cmd_pool_list q)).
Implicit Types (s : W) (n : addr) (a : bool) (k : qkey) (p v : nat) (es : list ser_event).

(** While a VDEV is idle the active queue of its pdev has room. *)
Lemma idle_room x s p v q : inv env x s -> queues s !! (p, NS) = Some q ->
  vdev_pdev env v = Some p -> existsb (on_vdev (nodes s) v) (act q) = false ->
  (length (act q) < max_size (active_list q))%nat.
Proof.
  intros Hi Hq Hv Hidle. pose proof (i_queue env x s Hi _ q Hq) as Hok.
  rewrite (q_max_act env _ _ _ Hok). cbn.
  set (vs := omap (fun n => vdev (ncmd (nodes s) n)) (act q)).
  assert (forall l, (forall n, n ∈ l -> n ∈ act q) ->
    (fun n => vdev (ncmd (nodes s) n)) <$> l =
    ((Some <$> (omap (fun n => vdev (ncmd (nodes s) n)) l : list nat)) : list (option nat))) as Hmap.
  { induction l as [|n l IH]; [done|]. intros Hl. cbn.
    destruct (q_act env _ _ _ Hok n (Hl n ltac:(by left))) as [_ Hc].
    destruct (cmd_ok_ns env p _ Hc) as (w & -> & _). cbn. f_equal. apply IH.
    intros m Hm. apply Hl. by right. }
  pose proof (Hmap (act q) (fun n H => H)) as Heq. fold vs in Heq.
  pose proof (ns_uniq env _ _ _ _ (i_ns env x s Hi p q Hq)) as Hnd. rewrite Heq in Hnd.
  assert (length (act q) = length vs) as Hlen.
  { apply (f_equal length) in Heq. by rewrite !length_fmap in Heq. }
  rewrite Hlen. change (length (v :: vs) <= WLAN_SER_MAX_VDEVS)%nat. apply (e_pdev env HE p).
  - apply NoDup_cons. split; [|by apply NoDup_fmap_1 in Hnd].
    intros (n & Hn & Hvn)%list_elem_of_omap. rewrite existsb_false_elem in Hidle.
    specialize (Hidle n Hn). unfold on_vdev in Hidle. by rewrite Hvn, bool_decide_eq_true_2 in Hidle.
  - intros w [->|(n & Hn & Hvn)%list_elem_of_omap]%elem_of_cons; [done|].
    destruct (q_act env _ _ _ Hok n Hn) as [_ Hc]. destruct (cmd_ok_ns env p _ Hc) as (w' & Hw' & Hp & _).
    congruence.
Qed.

(** While another scan may run the active queue of its pdev has room. *)
Lemma scan_room x s p q : inv env x s -> queues s !! (p, SCAN) = Some q ->
  active_scan_count s < max_active_scans env -> (length (act q) < max_size (active_list q))%nat.
Proof.
  intros Hi Hq Hlt. rewrite (q_max_act env (nodes s) _ _ (i_queue env x s Hi _ q Hq)). cbn.
  pose proof (scans_in_le_count s _ q Hq) as Hle. pose proof (e_scans env HE) as Hmax.
  unfold scans_in, wlan_serialization_active_scan_cmd_count_handler in Hle. cbn in Hle.
  unfold WLAN_SER_MAX_ACTIVE_SCAN_CMDS in *. lia.
Qed.

(** A buffer without an active command has no timer. *)
Lemma unused_no_timer x s n : inv env x s -> nuse (nodes s) n = 0 -> snd (fst n) = NS ->
  ~ has_timer (timers s) n.
Proof.
  intros Hi H0 Hk (i & t & Hit & Hm).
  by destruct (t_live env _ _ _ (i_timers env x s Hi) i t n Hit Hm Hk) as [Hu _].
Qed.

Lemma take_put_queued ns n c q q' h : NoDup (pend q) -> n ∈ pend q -> base c = base (ncmd ns n) ->
  n ∉ act q -> q_added true h n (q_take false n q) q' ->
  queued (<[n := CmdList c (Z.setbit 0 CMD_MARKED_FOR_ACTIVATION)]> ns) q' ≡ₚ queued ns q.
Proof.
  intros Hnd Hn Hc Hna [H1 H2]. cbn in H1, H2. unfold queued. rewrite H1, H2. cbn [elems].
  rewrite ins_perm. cbn.
  rewrite (fmap_ncmd_ne base) by (rewrite elem_of_app, elem_of_unlink; tauto).
  rewrite ncmd_eq. cbn. rewrite Hc.
  transitivity ((fun m => base (ncmd ns m)) <$> act q ++ n :: unlink n (pend q)).
  - rewrite !fmap_app. apply Permutation_middle.
  - apply fmap_Permutation, Permutation_app_head. symmetry. by apply unlink_perm.
Qed.

Lemma inv_promote s s' k n q q' h es :
  inv env None s -> queues s !! k = Some q -> n ∈ pend q ->
  nodes s' = <[n := CmdList (ncmd (nodes s) n) (Z.setbit 0 CMD_MARKED_FOR_ACTIVATION)]> (nodes s) ->
  queues s' = <[k := q']> (queues s) -> pool q' = pool q ->
  q_added true h n (q_take false n q) q' ->
  (forall p v, k = (p, NS) -> vdev (ncmd (nodes s) n) = Some v ->
     vdev_active_cmd_bitmap q' = Z.setbit (vdev_active_cmd_bitmap q) (Z.of_nat v) /\
     existsb (on_vdev (nodes s) v) (act q) = false /\
     exists vq vq', vqueues s !! v = Some vq /\
       v_added true h n (v_take false n vq) vq' /\ vqueues s' = <[v := vq']> (vqueues s)) ->
  (snd k = SCAN -> vqueues s' = vqueues s /\ active_scan_count s < max_active_scans env) ->
  trace s' = trace s ++ es -> accepted es = [] -> released es = [] -> timers s' = timers s ->
  inv env None s'.
Proof.
  intros Hi Hq Hn Hnodes Hqueues Hpool Hadd Hns Hscan Htr Hacc Hrel Hts.
  pose proof (i_queue env None s Hi k q Hq) as Hok.
  pose proof (ql_addr env _ k q Hok false n Hn) as Haddr.
  destruct (cmd_ok_inv env k _ (ql_cmd_ok env _ k q Hok false n Hn)) as (v & Hv & Hvp & _).
  pose proof (ql_other env _ k q Hok false n Hn) as Hna. cbn in Hna.
  assert (length (act q) < max_size (active_list q))%nat as Hroom.
  { destruct k as [p []].
    - eapply scan_room; eauto. by apply Hscan.
    - destruct (Hns p v eq_refl Hv) as (_ & Hidle & _). by apply (idle_room None s p v q). }
  eapply (inv_update env None None s s' k n q q' _ es Hi Hq Haddr Hnodes Hqueues); try done.
  - rewrite Hnodes. by eapply queue_ok_promote.
  - intros p ->. destruct (Hns p v eq_refl Hv) as (Hbm & Hidle & vq & vq' & Hvq & Hvadd & Hvqs).
    rewrite Hnodes.
    assert (ns_ok env (<[n := CmdList zero_cmd 0]> (nodes s)) (<[v := v_take false n vq]> (vqueues s)) p
      (q_take false n q)) as Hmid.
    { eapply (ns_ok_take env (nodes s) p q _ (vqueues s) _ false); try done; [by apply (i_ns env None s Hi)|].
      intros w vqw Hw. unfold on_vdev. rewrite Hv. case_bool_decide as Hc.
      - injection Hc as ->. rewrite Hw in Hvq. injection Hvq as ->. exists (v_take false n vq).
        rewrite lookup_insert_eq. done.
      - rewrite lookup_insert_ne by congruence. done. }
    rewrite <- (insert_insert_eq (nodes s) n _ (CmdList zero_cmd 0)).
    eapply (ns_ok_put env _ p _ q' _ _ true h n v); try done.
    + cbn. by rewrite elem_of_unlink; intros [? _].
    + split; [|intros w Hw; rewrite Hvqs, !lookup_insert_ne by congruence; done].
      exists (v_take false n vq), vq'. rewrite Hvqs, !lookup_insert_eq. done.
    + intros _. cbn. by rewrite existsb_on_vdev_ne.
  - intros p w Hne Hwp. destruct k as [pk []].
    + by destruct (Hscan eq_refl) as [-> _].
    + destruct (Hns pk v eq_refl Hv) as (_ & _ & vq & vq' & _ & _ & ->).
      rewrite lookup_insert_ne; [done|]. intros ->. cbn in Hvp. congruence.
  - unfold concerns. by rewrite Hacc, Hrel.
  - rewrite Hacc, Hrel, !app_nil_r, Hnodes. eapply take_put_queued; eauto. by apply (pend_nodup env (nodes s) k).
  - rewrite Hnodes, Hts. apply timers_ok_fresh; [by apply i_timers|by eapply i_nodes| |].
    + by apply (q_pend env (nodes s) k q Hok).
    + unfold is_active. by rewrite nuse_eq.
  - rewrite (count_update s s' k q q' Hq Hqueues).
    rewrite (scans_in_put k (q_take false n q) q' true h n Hadd). pose proof (i_scans env None s Hi).
    assert (scans_in k (q_take false n q) = scans_in k q) as Heq by done. rewrite Heq.
    destruct (snd k) eqn:Ek; [|lia]. destruct (Hscan eq_refl) as [_ Hlim]. lia.
Qed.

(** *** An active command's buffer changes its state *)

Lemma inv_active x s s' k n q c u :
  inv env None s -> queues s !! k = Some q -> n ∈ act q ->
  nodes s' = <[n := CmdList c u]> (nodes s) -> base c = base (ncmd (nodes s) n) ->
  Z.testbit u CMD_IS_ACTIVE = negb (Z.testbit u CMD_MARKED_FOR_ACTIVATION) ->
  queues s' = queues s -> vqueues s' = vqueues s -> trace s' = trace s -> timers s' = timers s ->
  (snd (fst n) = NS -> Z.testbit u CMD_IS_ACTIVE = true -> is_active (nodes s) n = false ->
   needs_timer env (nodes s) n -> has_timer (timers s) n \/ x = Some n) ->
  inv env x s'.
Proof.
  intros Hi Hq Hn Hnodes Hc Hu Hqueues Hvqs Htr Hts Hx.
  pose proof (i_queue env None s Hi k q Hq) as Hok.
  pose proof (ql_addr env _ k q Hok true n Hn) as Haddr.
  pose proof (act_not_pend env _ k q Hok n Hn) as Hnp.
  pose proof (ql_not_pool env _ k q Hok true n Hn) as Hnpool.
  assert (forall m, base (ncmd (nodes s') m) = base (ncmd (nodes s) m)) as Hbase.
  { intros m. rewrite Hnodes. destruct (decide (n = m)) as [<-|]; [by rewrite ncmd_eq|by rewrite ncmd_ne]. }
  eapply (inv_update env None x s s' k n q q _ [] Hi Hq Haddr Hnodes); try done.
  - rewrite Hqueues. by rewrite insert_id.
  - rewrite Hnodes. destruct Hok. split; try done.
    + intros m Hm. rewrite nuse_ne, ncmd_ne by congruence. auto.
    + intros m Hm. rewrite nuse_ne, ncmd_ne by congruence. auto.
    + intros m Hm. destruct (decide (n = m)) as [<-|Hne].
      * unfold is_active, marked. rewrite nuse_eq, ncmd_eq. split; [done|].
        destruct (q_act n Hn) as [_ (Hcb & Hk & Hty)]. unfold cmd_ok.
        change (cmd_cb (cmd (CmdList c u))) with (cmd_cb (base c)).
        change (cmd_type (cmd (CmdList c u))) with (cmd_type (base c)).
        cbn [cmd]. rewrite <- (key_of_base env c), Hc, key_of_base. done.
      * rewrite is_active_ne, marked_ne, ncmd_ne by done. auto.
  - intros p ->. eapply ns_ok_agree; [intros m _; apply Hbase|by rewrite Hvqs|by apply (i_ns env None s Hi)].
  - by rewrite Hvqs.
  - by rewrite app_nil_r.
  - by constructor.
  - rewrite !app_nil_r. unfold queued. by rewrite (fmap_ext_elem _ _ _ (fun m _ => Hbase m)).
  - rewrite Hnodes, Hts. apply timers_ok_bits; [by apply i_timers|by eapply i_nodes| | |].
    + cbn. intros ->. by rewrite Z.testbit_0_l in Hu.
    + exact (f_equal cmd_timeout_duration Hc).
    + intros Hk Ha. unfold is_active in Ha. rewrite nuse_eq in Ha. by apply Hx.
  - replace (active_scan_count s') with (active_scan_count s); [apply (i_scans env None s Hi)|].
    unfold active_scan_count. by rewrite Hqueues.
Qed.

(** *** The lists keep their members *)

Lemma inv_same s s' k q q' es :
  inv env None s -> queues s !! k = Some q ->
  nodes s' = nodes s -> queues s' = <[k := q']> (queues s) ->
  (forall b, ql b q' = ql b q) -> pool q' ≡ₚ pool q ->
  vdev_active_cmd_bitmap q' = vdev_active_cmd_bitmap q ->
  (forall v vq, vqueues s !! v = Some vq -> exists vq', vqueues s' !! v = Some vq' /\
     forall b, vl b vq' = vl b vq) ->
  (forall v, snd k = SCAN \/ vdev_pdev env v <> Some (fst k) -> vqueues s' !! v = vqueues s !! v) ->
  trace s' = trace s ++ es -> accepted es = [] -> released es = [] -> timers s' = timers s ->
  inv env None s'.
Proof.
  intros Hi Hq Hnodes Hqueues Hl Hpool Hbm Hvqs Hvo Htr Hacc Hrel Hts.
  pose proof (i_queue env None s Hi k q Hq) as Hok.
  assert (exists n, n ∈ pool_addrs k /\ is_Some (nodes s !! n)) as (n & Haddr & [cl Hcl]).
  { exists (k, 0%nat). assert ((k, 0%nat) ∈ pool_addrs k).
    { unfold pool_addrs. apply list_elem_of_fmap_2'  with 0%nat; [|done]. apply elem_of_seq. destruct k as [? []]; cbn; lia. }
    split; [done|]. by eapply i_nodes. }
  pose proof (Hl true) as Hact. pose proof (Hl false) as Hpend. cbn in Hact, Hpend.
  eapply (inv_update env None None s s' k n q q' cl es Hi Hq Haddr); try done.
  - rewrite Hnodes. by rewrite insert_id.
  - rewrite Hnodes. destruct Hok. split; try done; rewrite ?Hact, ?Hpend, ?Hpool; try done.
    intros m Hm. rewrite Hpool in Hm. auto.
  - intros p ->. rewrite Hnodes. destruct (i_ns env None s Hi p q Hq) as [Hb Hnn Hu Hvd].
    split; rewrite ?Hbm, ?Hact; try done. intros v Hv. destruct (Hvd v Hv) as (vq & Hvq & Hvok).
    destruct (Hvqs v vq Hvq) as (vq' & Hvq' & Hvl). exists vq'. split; [done|].
    pose proof (Hvl true) as Hva. pose proof (Hvl false) as Hvp. cbn in Hva, Hvp. destruct Hvok.
    split; by rewrite ?Hva, ?Hvp, ?Hact, ?Hpend.
  - intros p v Hne Hv. apply Hvo. destruct k as [pk []]; [by left|]. right. cbn. congruence.
  - unfold concerns. by rewrite Hacc, Hrel.
  - rewrite Hacc, Hrel, Hnodes. unfold queued. by rewrite Hact, Hpend.
  - rewrite Hnodes, Hts. by apply i_timers.
  - rewrite (count_update s s' k q q' Hq Hqueues). pose proof (i_scans env None s Hi).
    assert (scans_in k q' = scans_in k q) as ->; [|lia].
    unfold scans_in, wlan_serialization_active_scan_cmd_count_handler. by rewrite Hact.
Qed.

(** *** The queues do not change *)

Lemma inv_fields x x' s s' es :
  inv env x s -> nodes s' = nodes s -> queues s' = queues s -> vqueues s' = vqueues s ->
  trace s' = trace s ++ es -> accepted es = [] -> released es = [] ->
  timers_ok env (nodes s) x' (timers s') -> inv env x' s'.
Proof.
  intros [] Hn Hq Hv Htr Hacc Hrel Ht. split; unfold active_scan_count; rewrite ?Hn, ?Hq, ?Hv; try done.
  intros k q Hkq. unfold life_ok. rewrite Htr, accepted_app, released_app, Hacc, Hrel, !app_nil_r.
  by apply i_life.
Qed.

End Promote.

(** ** What steps leave alone *)

Section Evolves.
Context {U : Type} (env : ser_env).
Abbreviation W := (ser_world U).
Implicit Types (s : W) (n : addr) (k : qkey) (x : option addr).

Lemma evolves_refl x s : evolves x s s.
Proof. by split. Qed.

Lemma evolves_trans x s1 s2 s3 : evolves x s1 s2 -> evolves x s2 s3 -> evolves x s1 s3.
Proof.
  intros [Hq1 Hp1 Ht1] [Hq2 Hp2 Ht2]. split.
  - intros k. by rewrite Hq1.
  - intros n Hm Hx. destruct (Hp1 n Hm Hx) as [Hm1 Hc1]. destruct (Hp2 n Hm1 Hx) as [Hm2 Hc2].
    split; [done|]. congruence.
  - intros n Hm Hx Hk Ht. apply Ht2; [by apply Hp1|done|done|]. by apply Ht1.
Qed.

Lemma evolves_mono x s1 s2 : evolves None s1 s2 -> evolves x s1 s2.
Proof. intros [Hq Hp Ht]. split; [done|intros; by apply Hp|intros; by apply Ht]. Qed.

(** A buffer that was not being activated is not left alone. *)
Lemma evolves_unmarked n s1 s2 : evolves (Some n) s1 s2 -> marked (nodes s1) n = false ->
  evolves None s1 s2.
Proof.
  intros [Hq Hp Ht] Hn. split; [done| |].
  - intros m Hm _. apply Hp; [done|]. congruence.
  - intros m Hm _. apply Ht; [done|]. congruence.
Qed.

(** One buffer changes. *)
Lemma evolves_node x s s' n cl :
  (forall k, is_Some (queues s !! k) <-> is_Some (queues s' !! k)) ->
  nodes s' = <[n := cl]> (nodes s) ->
  (x = Some n \/ marked (nodes s) n = false \/
   (Z.testbit (cmd_in_use cl) CMD_MARKED_FOR_ACTIVATION = true /\ cmd cl = ncmd (nodes s) n)) ->
  (forall m, marked (nodes s) m = true -> x <> Some m -> snd (fst m) = SER_PDEV_QUEUE_COMP_NON_SCAN ->
     has_timer (timers s) m -> has_timer (timers s') m) ->
  evolves x s s'.
Proof.
  intros Hq Hn Hx Ht. split; [done| |done].
  intros m Hm Hxm. rewrite Hn. destruct (decide (n = m)) as [->|Hne].
  - destruct Hx as [->|[?|[Hb Hc]]]; [done|congruence|].
    unfold marked. by rewrite nuse_eq, ncmd_eq.
  - by rewrite marked_ne, ncmd_ne.
Qed.

Lemma evolves_fields x s s' :
  (forall k, is_Some (queues s !! k) <-> is_Some (queues s' !! k)) -> nodes s' = nodes s ->
  (forall m, marked (nodes s) m = true -> snd (fst m) = SER_PDEV_QUEUE_COMP_NON_SCAN ->
     has_timer (timers s) m -> has_timer (timers s') m) ->
  evolves x s s'.
Proof. intros Hq Hn Ht. split; [done|by rewrite Hn|auto]. Qed.

Lemma same_queues s k (q q' : wlan_serialization_pdev_queue) qs' :
  queues s !! k = Some q -> qs' = <[k := q']> (queues s) ->
  forall k', is_Some (queues s !! k') <-> is_Some (qs' !! k').
Proof.
  intros Hq -> k'. destruct (decide (k = k')) as [<-|Hne].
  - rewrite lookup_insert_eq, Hq. split; eauto.
  - by rewrite lookup_insert_ne.
Qed.

(** The state is kept well: the invariant holds again, what is pinned stays, and the
    queues do not grow. *)
Definition keeps (partial : Prop) x s s' : Prop :=
  inv env None s' /\ evolves x s s' /\ (partial \/ forall k, waiting k s' <= waiting k s)%nat.

Lemma ser_keeps_trans partial x s1 s2 s3 : keeps partial x s1 s2 -> keeps partial x s2 s3 ->
  keeps partial x s1 s3.
Proof.
  intros (_ & H1 & Hw1) (Hi & H2 & Hw2). split; [done|]. split; [by eapply evolves_trans|].
  destruct Hw1 as [?|Hw1]; [by left|]. destruct Hw2 as [?|Hw2]; [by left|]. right.
  intros k. specialize (Hw1 k). specialize (Hw2 k). lia.
Qed.

Lemma ser_keeps_refl partial x s : inv env None s -> keeps partial x s s.
Proof. intros Hi. split; [done|]. split; [apply evolves_refl|]. by right. Qed.

Lemma keeps_mono partial x s1 s2 : keeps partial None s1 s2 -> keeps partial x s1 s2.
Proof. intros (Hi & He & Hw). split; [done|]. split; [by apply evolves_mono|done]. Qed.

Lemma waiting_update s s' k (q q' : wlan_serialization_pdev_queue) :
  queues s !! k = Some q -> queues s' = <[k := q']> (queues s) ->
  (length (elems (pending_list q')) <= length (elems (pending_list q)))%nat ->
  forall k', (waiting k' s' <= waiting k' s)%nat.
Proof.
  intros Hq Hq' Hle k'. unfold waiting. rewrite Hq'. destruct (decide (k = k')) as [<-|Hne].
  - by rewrite lookup_insert_eq, Hq.
  - by rewrite lookup_insert_ne.
Qed.

Lemma waiting_at s k q : queues s !! k = Some q -> waiting k s = length (elems (pending_list q)).
Proof. intros H. unfold waiting. by rewrite H. Qed.

End Evolves.
