(* ===== verification/SerRun.v ===== *)
(** The routines of the serialization component keep the invariant of its queues, for
    clients whose callbacks may call the component again. *)
From S2P Require Import Prelude Ser SerBase SerInv SerStep.

Section Run.
Context {U : Type} (env : ser_env) (HE : env_ok env) (partial : Prop).
Abbreviation W := (ser_world U).
Abbreviation NS := SER_PDEV_QUEUE_COMP_NON_SCAN.
Abbreviation SCAN := SER_PDEV_QUEUE_COMP_SCAN.
Abbreviation act q := (elems (active_list q)).
Abbreviation pend q := (elems (pending_list q)).
Abbreviation pool q := (elems (cmd_pool_list q)).
Abbreviation keeps := (keeps env partial).
Implicit Types (s : W) (n : addr) (a : bool) (k : qkey) (p v f : nat) (es : list ser_event)
  (c : wlan_serialization_command) (q : wlan_serialization_pdev_queue).

(** ** What is assumed of the calls *)

(** Nothing but the history and the client's own state changed. *)
Record noted es s s' : Prop := {
  nt_nodes : nodes s' = nodes s;
  nt_queues : queues s' = queues s;
  nt_vqueues : vqueues s' = vqueues s;
  nt_timers : timers s' = timers s;
  nt_trace : trace s' = trace s ++ es;
}.

Lemma noted_trans es es' s1 s2 s3 : noted es s1 s2 -> noted es' s2 s3 -> noted (es ++ es') s1 s3.
Proof. intros [] []. split; try congruence. rewrite app_assoc. congruence. Qed.

(** The callbacks for cancellation and release do not call the component; those for
    activation and timeout may, and activation of a command keeps the state well. *)
Record calls_ok f (calls : ser_calls (U := U)) : Prop := {
  co_quiet : forall cb c r s, (partial \/ 1 <= f)%nat ->
    r = WLAN_SER_CB_CANCEL_CMD \/ r = WLAN_SER_CB_RELEASE_MEM_CMD ->
    wpx partial (cmd_callback calls cb c r) (fun _ s' => noted [EvCallback c r] s s') s;
  co_callback : forall cb c r s, (partial \/ 1 <= f)%nat ->
    r = WLAN_SER_CB_ACTIVATE_CMD \/ r = WLAN_SER_CB_ACTIVE_CMD_TIMEOUT -> inv env None s ->
    wpx partial (cmd_callback calls cb c r) (fun _ s' => keeps None s s') s;
  co_activate : forall n reason s q, inv env None s -> queues s !! fst n = Some q -> n ∈ act q ->
    marked (nodes s) n = true -> (snd (fst n) = NS -> ~ has_timer (timers s) n) ->
    (partial \/ waiting (fst n) s + 2 <= f)%nat ->
    wpx partial (wlan_serialization_activate_cmd calls n (fst (fst n)) reason)
      (fun _ s' => keeps (Some n) s s') s;
}.

(** ** Steps that keep the state well *)

Lemma keeps_release x s s' k n q q' a es :
  inv env x s -> x = None \/ x = Some n -> queues s !! k = Some q -> n ∈ elems (ql a q) ->
  marked (nodes s) n = false ->
  nodes s' = <[n := CmdList zero_cmd 0]> (nodes s) -> queues s' = <[k := q']> (queues s) ->
  q_taken a n q q' -> pool q' = pool q ++ [n] ->
  (forall p v, k = (p, NS) -> vdev (ncmd (nodes s) n) = Some v ->
     vdev_active_cmd_bitmap q' =
       (if a then Z.clearbit (vdev_active_cmd_bitmap q) (Z.of_nat v) else vdev_active_cmd_bitmap q) /\
     exists vq vq', vqueues s !! v = Some vq /\ v_taken a n vq vq' /\ vqueues s' = <[v := vq']> (vqueues s)) ->
  (snd k = SCAN -> vqueues s' = vqueues s) ->
  trace s' = trace s ++ es -> accepted es = [] -> released es = [base (ncmd (nodes s) n)] ->
  stopped n (timers s) (timers s') ->
  keeps None s s'.
Proof.
  intros Hi Hx Hq Hn Hm Hnodes Hqueues Htake Hpool Hns Hscan Htr Hacc Hrel Hst.
  split; [by eapply inv_release|]. split; [|right].
  - eapply evolves_node; eauto using same_queues.
    intros m Hmm _ Hk. apply (st_rest _ _ _ Hst); [congruence|done].
  - intros k'. apply (waiting_update s s' k q q' Hq Hqueues).
    destruct Htake as [H1 H2]. destruct a; cbn [ql negb] in *; [by rewrite H2|].
    rewrite H1. apply length_unlink_le.
Qed.

(** After a promotion the command can be activated. *)
Lemma keeps_promote s s' k n q q' h es :
  inv env None s -> queues s !! k = Some q -> n ∈ pend q ->
  nodes s' = <[n := CmdList (ncmd (nodes s) n) (Z.setbit 0 CMD_MARKED_FOR_ACTIVATION)]> (nodes s) ->
  queues s' = <[k := q']> (queues s) -> pool q' = pool q ->
  q_added true h n (q_take false n q) q' ->
  (forall p v, k = (p, NS) -> vdev (ncmd (nodes s) n) = Some v ->
     vdev_active_cmd_bitmap q' = Z.setbit (vdev_active_cmd_bitmap q) (Z.of_nat v) /\
     existsb (on_vdev (nodes s) v) (act q) = false /\
     exists vq vq', vqueues s !! v = Some vq /\
       v_added true h n (v_take false n vq) vq' /\ vqueues s' = <[v := vq']> (vqueues s)) ->
  (snd k = SCAN -> vqueues s' = vqueues s /\ active_scan_count s < max_active_scans env) ->
  trace s' = trace s ++ es -> accepted es = [] -> released es = [] -> timers s' = timers s ->
  fst n = k /\ inv env None s' /\ queues s' !! k = Some q' /\ n ∈ act q' /\ marked (nodes s') n = true /\
  (snd k = NS -> ~ has_timer (timers s') n) /\ (S (waiting k s') = waiting k s) /\
  forall s'', keeps (Some n) s' s'' -> keeps None s s''.
Proof.
  intros Hi Hq Hn Hnodes Hqueues Hpool Hadd Hns Hscan Htr Hacc Hrel Hts.
  pose proof (i_queue env None s Hi k q Hq) as Hok.
  pose proof (pool_addrs_key k n (ql_addr env _ k q Hok false n Hn)) as Hk.
  destruct (q_pend env _ k q Hok n Hn) as [H0 _].
  assert (inv env None s') as Hi' by (eapply (inv_promote env HE s s'); eauto).
  assert (queues s' !! k = Some q') as Hq' by (by rewrite Hqueues, lookup_insert_eq).
  assert (marked (nodes s) n = false) as Hm by (unfold marked; by rewrite H0).
  assert (S (waiting k s') = waiting k s) as Hw.
  { rewrite (waiting_at s' k q' Hq'), (waiting_at s k q Hq). destruct Hadd as [_ H2]. cbn in H2.
    rewrite H2. cbn [elems]. symmetry. apply length_unlink; [by apply (pend_nodup env (nodes s) k)|done]. }
  split; [done|]. split; [done|]. split; [done|]. split.
  { destruct Hadd as [H1 _]. cbn in H1. rewrite H1. apply elem_of_ins. by left. }
  split; [unfold marked; by rewrite Hnodes, nuse_eq|]. split.
  { intros Hns'. rewrite Hts. eapply unused_no_timer; eauto. congruence. }
  split; [done|]. intros s'' (Hi'' & He & Hw''). split; [done|]. split.
  - apply (evolves_unmarked n); [|done]. eapply evolves_trans; [|done].
    apply (evolves_node _ s s' n _ (same_queues s k q q' _ Hq Hqueues) Hnodes); [by left|]. by rewrite Hts.
  - destruct Hw'' as [?|Hw'']; [by left|right]. intros k'. specialize (Hw'' k').
    enough (waiting k' s' <= waiting k' s)%nat by lia. apply (waiting_update s s' k q q' Hq Hqueues).
    rewrite <- (waiting_at s' k q' Hq'), <- (waiting_at s k q Hq). lia.
Qed.

Section Calls.
Variables (f : nat) (calls : ser_calls (U := U)).
Hypothesis Hcalls : calls_ok f calls.

(** ** Pending commands are activated *)

Lemma emit_eq e s : modify (emit e) s = Ret tt (emit e s).
Proof. done. Qed.

Lemma history_eq c r b b' s : wlan_ser_update_cmd_history c r b b' s = Ret tt (emit (EvQueue c r b b') s).
Proof. done. Qed.

Lemma move_scan_ok s p q : inv env None s -> queues s !! (p, SCAN) = Some q ->
  (partial \/ waiting (p, SCAN) s + 1 <= f)%nat ->
  wpx partial (wlan_ser_move_scan_pending_to_active env calls p) (fun _ s' => keeps None s s') s.
Proof.
  intros Hi Hq Hf. unfold wlan_ser_move_scan_pending_to_active.
  pose proof (i_queue env None s Hi _ q Hq) as Hok.
  pose proof (list_at_qref s false _ q Hq) as Hat. cbn [qref] in Hat.
  eapply wpx_step; [by apply list_empty_eq|]. cbn [ql].
  destruct (pend q) as [|n rest] eqn:Epend; [by apply ser_keeps_refl|].
  eapply wpx_step; [by apply peek_front_eq|]. cbn [ql]. rewrite Epend. cbn [head].
  assert (n ∈ pend q) as Hn by (rewrite Epend; by left).
  pose proof (ql_addr env _ _ q Hok false n Hn) as Haddr.
  assert (is_Some (nodes s !! n)) as Hlive by (by eapply i_nodes).
  destruct (q_pend env _ _ q Hok n Hn) as [H0 Hc]. pose proof (cmd_ok_scan env p _ Hc) as Ht.
  set (k := (p, SCAN)) in *.
  assert (wlan_serialization_get_pdev_queue_obj p (cmd_type (ncmd (nodes s) n)) = k) as Hk by (by rewrite Ht).
  eapply wpx_step; [by apply read_cmd_eq|].
  eapply wpx_step; [done|]. cbn beta.
  destruct (Z.ltb_spec (active_scan_count s) (max_active_scans env)) as [Hlt|]; [|by apply ser_keeps_refl].
  cbn [negb].
  set (c := ncmd (nodes s) n) in *. set (s1 := set_queues <[k := q_take false n q]> s).
  assert (wlan_ser_remove_scan_cmd env p c false s = Ret (QDF_STATUS_SUCCESS, Some n) s1) as Hrem.
  { unfold wlan_ser_remove_scan_cmd.
    rewrite (remove_from_pdev_eq env s p c k q false Hk Hq) by (by eapply live_queue).
    unfold find_same. cbn [ql]. rewrite Epend. cbn [List.find]. unfold c at 1. rewrite same_cmd_refl.
    unfold marked. by rewrite H0. }
  eapply wpx_step; [exact Hrem|]. cbn beta iota zeta. cbn [default].
  change (default n (Some n)) with n.
  eapply wpx_step; [by apply (read_cmd_eq s1)|]. change (ncmd (nodes s1) n) with c.
  eapply wpx_step; [apply history_eq|]. cbn [QDF_IS_STATUS_ERROR QDF_IS_STATUS_SUCCESS negb].
  set (s2 := emit _ s1).
  assert (queues s2 !! k = Some (q_take false n q)) as Hq2 by apply queues_set.
  pose proof (scan_room env HE None s p q Hi Hq Hlt) as Hroom.
  assert (wlan_ser_add_scan_cmd p n true s2 = Ret WLAN_SER_CMD_ACTIVE
    (set_queues <[k := q_put true (is_high_priority c) n (q_take false n q)]> s2)) as Hadd.
  { unfold wlan_ser_add_scan_cmd. rewrite (add_to_pdev_eq s2 p n k (q_take false n q) true Hk Hq2 Hlive).
    destruct (Nat.eqb_spec (length (elems (ql true (q_take false n q)))) (max_size (ql true (q_take false n q))))
      as [Heq|_]; [|done]. cbn in Heq, Hroom. lia. }
  eapply wpx_step; [exact Hadd|]. rewrite bool_decide_eq_false_2 by tauto.
  set (s3 := set_queues _ s2).
  eapply wpx_step; [by apply (set_bit_eq s3)|]. set (s4 := set_bit_at _ _ s3).
  assert (nodes s4 = <[n := CmdList c (Z.setbit 0 CMD_MARKED_FOR_ACTIVATION)]> (nodes s)) as Hn4.
  { cbn. unfold nuse in H0. unfold s3. cbn. fold c. by rewrite <- H0. }
  eapply wpx_step; [apply read_cmd_eq; rewrite Hn4, lookup_insert_eq; eauto|].
  eapply wpx_step; [apply history_eq|]. set (s5 := emit _ s4).
  destruct (keeps_promote s s5 k n q (q_put true (is_high_priority c) n (q_take false n q))
    (is_high_priority c) [EvQueue c SER_PENDING_TO_ACTIVE false false;
     EvQueue (ncmd (nodes s4) n) SER_PENDING_TO_ACTIVE true true])
    as (Hkey & Hi5 & Hq5 & Hact & Hm & Ht5 & Hw & Hafter); try done.
  { unfold s5, s4, s3, s2, s1. cbn. by rewrite insert_insert_eq. }
  { unfold s5, s4, s3, s2, s1. cbn. by rewrite <- app_assoc. }
  apply wpx_bind. rewrite <- Hkey in Hq5, Hw, Ht5. change p with (fst k). rewrite <- Hkey.
  eapply wpx_mono; [apply (co_activate f calls Hcalls n _ s5 _ Hi5 Hq5 Hact Hm Ht5)|].
  - rewrite <- Hkey in Hf. destruct Hf; [by left|right; lia].
  - intros st s6 H6. by apply Hafter.
Qed.

(** The facts about a VDEV of a pdev. *)
Lemma vdev_queue x s p v q : inv env x s -> queues s !! (p, NS) = Some q -> vdev_pdev env v = Some p ->
  exists vq, vqueues s !! v = Some vq /\ vdev_ok (nodes s) q v vq.
Proof. intros Hi Hq Hv. by apply (ns_vdevs env _ _ _ _ (i_ns env x s Hi p q Hq)). Qed.

(** A pending command is found in the queue by its name. *)
Lemma find_same_pending x s p q n : inv env x s -> queues s !! (p, NS) = Some q -> n ∈ pend q ->
  find_same s (ncmd (nodes s) n) (pend q) = Some n.
Proof.
  intros Hi Hq Hn. apply find_unique; [done|apply same_cmd_refl|]. intros m Hm Hs.
  destruct (q_pend env _ _ q (i_queue env x s Hi _ q Hq) n Hn) as [_ Hc].
  destruct (cmd_ok_ns env p _ Hc) as (v & Hv & Hvp & _).
  destruct (vdev_queue x s p v q Hi Hq Hvp) as (vq & Hvq & Hvok).
  assert (vdev (ncmd (nodes s) m) = Some v) as Hvm.
  { unfold same_cmd in Hs. rewrite !andb_true_iff, bool_decide_eq_true in Hs. destruct Hs as [_ ->]. done. }
  apply (v_keys _ _ _ _ Hvok); [| |done]; rewrite (v_pend_eq _ _ _ _ Hvok);
    apply elem_of_filter_b; unfold on_vdev; by rewrite bool_decide_eq_true_2.
Qed.

(** The lists of an idle VDEV. *)
Lemma idle_list ns p q v vq vqs : ns_ok env ns vqs p q -> vdev_ok ns q v vq ->
  Z.testbit (vdev_active_cmd_bitmap q) (Z.of_nat v) = false ->
  existsb (on_vdev ns v) (act q) = false /\ elems (vl true vq) = [].
Proof.
  intros Hns Hvok Hb. rewrite (ns_bits env _ _ _ _ Hns) in Hb. split; [done|].
  cbn. rewrite (v_act_eq _ _ _ _ Hvok). rewrite existsb_false_elem in Hb.
  apply elem_of_nil_inv. intros m [H1 H2]%elem_of_filter_b. by rewrite Hb in H1.
Qed.

Lemma bind_if {A} (b : bool) (m : M W unit) (k : M W A) s s' :
  (b = true -> m s = Ret tt s') -> (b = false -> s' = s) ->
  ((if b then m else mret ());; k) s = k s'.
Proof.
  intros H1 H2. destruct b; [by rewrite (bind_ret _ _ _ _ _ (H1 eq_refl))|]. by rewrite H2.
Qed.

Lemma move_one_ok s p q n v : inv env None s -> queues s !! (p, NS) = Some q -> n ∈ pend q ->
  vdev (ncmd (nodes s) n) = Some v -> Z.testbit (vdev_active_cmd_bitmap q) (Z.of_nat v) = false ->
  (partial \/ waiting (p, NS) s + 1 <= f)%nat ->
  wpx partial (move_one env calls p (p, NS) n)
    (fun o s' => o = Some WLAN_SER_CMD_ACTIVE /\ keeps None s s') s.
Proof.
  intros Hi Hq Hn Hv Hb Hf. unfold move_one.
  pose proof (i_queue env None s Hi _ q Hq) as Hok.
  assert (is_Some (nodes s !! n)) as Hlive.
  { eapply i_nodes; [done..|]. by apply (ql_addr env (nodes s) _ q Hok false). }
  destruct (q_pend env _ _ q Hok n Hn) as [H0 Hc].
  set (k := (p, NS)) in *. set (c := ncmd (nodes s) n) in *.
  destruct (cmd_ok_ns env p _ Hc) as (v' & Hv' & Hvp & Ht). rewrite Hv in Hv'. injection Hv' as <-.
  pose proof (e_vdevs env HE v p Hvp) as Hlt.
  destruct (vdev_queue None s p v q Hi Hq Hvp) as (vq & Hvq & Hvok).
  destruct (idle_list _ p q v vq _ (i_ns env None s Hi p q Hq) Hvok Hb) as [Hidle Hnil].
  assert (marked (nodes s) n = false) as Hm by (unfold marked; by rewrite H0).
  eapply wpx_step; [by apply read_cmd_eq|]. fold c.
  set (s1 := taken s p v false n q vq).
  assert (wlan_ser_remove_non_scan_cmd env p c false s = Ret (QDF_STATUS_SUCCESS, Some n) s1) as Hrem.
  { rewrite (remove_non_scan_eq env s p c v q vq false) by
      (done || by eapply (live_queue env None s k) || by apply (vdev_ok_lists _ _ _ _ Hvok)).
    cbn [ql]. unfold c. by rewrite (find_same_pending None s p q n Hi Hq Hn), Hm. }
  eapply wpx_step; [exact Hrem|]. cbn beta iota zeta. change (default n (Some n)) with n.
  eapply wpx_step; [by apply (read_cmd_eq s1)|]. change (ncmd (nodes s1) n) with c.
  eapply wpx_step; [apply history_eq|]. cbn [QDF_IS_STATUS_ERROR QDF_IS_STATUS_SUCCESS negb].
  set (s2 := emit _ s1). set (q1 := q_take false n q). set (vq1 := v_take false n vq).
  assert (queues s2 !! k = Some q1) as Hq2 by apply queues_set.
  assert (vqueues s2 !! v = Some vq1) as Hvq2 by (cbn; by rewrite lookup_insert_eq).
  pose proof (idle_room env HE None s p v q Hi Hq Hvp Hidle) as Hroom.
  assert (elems (vl true vq1) = []) as Hnil1 by done.
  set (vq2 := disabling c (v_put true (is_high_priority c) n vq1)).
  set (q2 := q_busy true v (is_blocking c) (q_put true (is_high_priority c) n q1)).
  assert (wlan_ser_add_non_scan_cmd env p n true s2 = Ret WLAN_SER_CMD_ACTIVE
    (set_queues <[k := q2]> (set_vqueues <[v := vq2]> s2))) as Hadd.
  { rewrite (add_non_scan_eq env s2 p n v q1 vq1 true); rewrite ?Hnil1; try done.
    - destruct (Nat.eqb_spec (length (@nil addr)) (max_size (vl true vq1))) as [Heq|_].
      { pose proof (v_max_act _ _ _ _ Hvok) as Hma. cbn in Heq, Hma. lia. }
      destruct (Nat.eqb_spec (length (elems (ql true q1))) (max_size (ql true q1))) as [Heq|_]; [|done].
      cbn in Heq, Hroom. lia.
    - apply not_elem_of_nil.
    - split; [constructor|]. intros m Hm'. by apply elem_of_nil in Hm'.
    - intros m Hm'. by apply elem_of_nil in Hm'. }
  eapply wpx_step; [exact Hadd|]. rewrite bool_decide_eq_false_2 by tauto.
  set (s3 := set_queues _ _).
  eapply wpx_step; [by apply (read_cmd_eq s3)|]. change (ncmd (nodes s3) n) with c.
  eapply wpx_step; [apply history_eq|]. set (s4 := emit _ s3).
  eapply wpx_step; [by apply (set_bit_eq s4)|]. set (s5 := set_bit_at _ _ s4).
  assert (nodes s5 = <[n := CmdList c (Z.setbit 0 CMD_MARKED_FOR_ACTIVATION)]> (nodes s)) as Hn5.
  { cbn. unfold nuse in H0. unfold s4, s3. cbn. fold c. by rewrite <- H0. }
  assert (queues s5 !! k = Some q2) as Hq5 by (cbn; by rewrite lookup_insert_eq).
  set (q3 := if is_blocking c then set_blocking_waiting (fun w => w - 1) q2 else q2).
  set (s6 := set_queues <[k := q3]> s5).
  assert (s6 = (if is_blocking c then set_queues <[k := set_blocking_waiting (fun w => w - 1) q2]> s5
    else s5)) as Hs6.
  { unfold s6, q3. destruct (is_blocking c); [done|]. unfold set_queues at 1. rewrite insert_id by done.
    by destruct s5. }
  unfold wpx. erewrite (bind_if _ _ _ s5 s6); [|intros Hbl; rewrite Hs6, Hbl; by apply write_queue_eq
    |intros Hbl; by rewrite Hs6, Hbl].
  fold (wpx partial (wlan_serialization_activate_cmd calls n p SER_PENDING_TO_ACTIVE;;
    mret (Some WLAN_SER_CMD_ACTIVE)) (fun o s' => o = Some WLAN_SER_CMD_ACTIVE /\ keeps None s s') s6).
  assert (forall b, ql b q3 = ql b (q_put true (is_high_priority c) n q1)) as Hl3.
  { intros b. unfold q3, q2, q_busy. by destruct (is_blocking c), b. }
  destruct (keeps_promote s s6 k n q q3 (is_high_priority c)
    [EvQueue c SER_PENDING_TO_ACTIVE false false; EvQueue c SER_PENDING_TO_ACTIVE true true])
    as (Hkey & Hi6 & Hq6 & Hact & Hm6 & Ht6 & Hw & Hafter); try done.
  { unfold s6, s5, s4, s3, s2, s1. cbn. by rewrite !insert_insert_eq. }
  { unfold q3, q2, q_busy. by destruct (is_blocking c). }
  { intros p' w [= <-] Hw. fold c in Hw. rewrite Hv in Hw. injection Hw as <-. split.
    { unfold q3, q2, q_busy. by destruct (is_blocking c). }
    split; [done|]. exists vq, vq2. split; [done|]. split.
    - split; unfold vq2, disabling; by destruct (queue_disable c).
    - unfold s6, s5, s4, s3, s2, s1, taken. cbn. by rewrite insert_insert_eq. }
  { unfold s6, s5, s4, s3, s2, s1. cbn. by rewrite <- app_assoc. }
  apply wpx_bind. rewrite <- Hkey in Hq6, Hw, Ht6. change p with (fst k). rewrite <- Hkey.
  eapply wpx_mono; [apply (co_activate f calls Hcalls n _ s6 _ Hi6 Hq6 Hact Hm6 Ht6)|].
  - rewrite <- Hkey in Hf. destruct Hf; [by left|right; lia].
  - intros st s7 H7. apply wpx_mret. split; [done|]. by apply Hafter.
Qed.

(** Walking a list reaches its members. *)
Definition in_list (o : option addr) (l : list addr) : Prop := forall m, o = Some m -> m ∈ l.

Lemma get_cmd_member s r l o : list_at s r = Some l -> NoDup (elems l) -> in_list o (elems l) ->
  exists o', wlan_serialization_get_cmd_from_queue r o s = Ret o' s /\ in_list o' (elems l).
Proof.
  intros Hl Hnd Ho.
  assert (exists xs ys, elems l = xs ++ ys /\ o = last xs) as (xs & ys & He & ->).
  { destruct o as [m|]; [|by exists [], (elems l)].
    destruct (list_elem_of_split _ _ (Ho m eq_refl)) as (l1 & l2 & He). exists (l1 ++ [m]), l2.
    split; [by rewrite <- app_assoc|]. by rewrite last_snoc. }
  exists (head ys). split; [by apply (get_cmd_eq s r l xs ys)|].
  intros m Hm. rewrite He. apply elem_of_app. right. destruct ys as [|y ys]; [done|].
  injection Hm as ->. by left.
Qed.

Lemma keeps_queue s s' k q : keeps None s s' -> queues s !! k = Some q ->
  exists q', queues s' !! k = Some q'.
Proof. intros (_ & He & _) Hq. apply (ev_queues _ _ _ He k). eauto. Qed.

Lemma keeps_waiting s s' k : keeps None s s' -> (partial \/ waiting k s + 1 <= f)%nat ->
  (partial \/ waiting k s' + 1 <= f)%nat.
Proof. intros (_ & _ & [?|Hw]) [?|Hf]; [by left..|]. right. specialize (Hw k). lia. Qed.

Lemma move_loop_ok qsize s p v q (lookup : bool) o st : inv env None s ->
  queues s !! (p, NS) = Some q -> vdev_pdev env v = Some p ->
  (forall vq, vqueues s !! v = Some vq ->
     in_list o (if lookup then elems (v_pending_list vq) else pend q)) ->
  (partial \/ waiting (p, NS) s + 1 <= f)%nat ->
  wpx partial (move_non_scan_loop env calls qsize p (p, NS)
      (if lookup then VPending v else QPending (p, NS)) lookup o st)
    (fun _ s' => keeps None s s') s.
Proof.
  revert s q o st. induction qsize as [|qsize IH]; intros s q o st Hi Hq Hvp Ho Hf;
    [by apply ser_keeps_refl|].
  cbn [move_non_scan_loop]. set (k := (p, NS)) in *.
  pose proof (i_queue env None s Hi _ q Hq) as Hok.
  destruct (vdev_queue None s p v q Hi Hq Hvp) as (vq & Hvq & Hvok). specialize (Ho vq Hvq).
  set (l := if lookup then v_pending_list vq else pending_list q).
  assert (list_at s (if lookup then VPending v else QPending k) = Some l) as Hat.
  { destruct lookup; cbn; by rewrite ?Hvq, ?Hq. }
  assert (elems l = if lookup then elems (v_pending_list vq) else pend q) as Hl by (by destruct lookup).
  assert (NoDup (elems l) /\ forall m, m ∈ elems l -> m ∈ pend q) as [Hnd Hsub].
  { pose proof (pend_nodup env _ _ q Hok). rewrite Hl. destruct lookup; [|done].
    rewrite (v_pend_eq _ _ _ _ Hvok). split; [by apply NoDup_filter_b|].
    by intros m [_ ?]%elem_of_filter_b. }
  rewrite <- Hl in Ho. destruct (get_cmd_member s _ l o Hat Hnd Ho) as (o' & Hget & Ho').
  eapply wpx_step; [exact Hget|]. destruct o' as [n|]; [|by apply ser_keeps_refl].
  pose proof (Hsub n (Ho' n eq_refl)) as Hn.
  assert (is_Some (nodes s !! n)) as Hlive.
  { eapply i_nodes; [done..|]. by apply (ql_addr env (nodes s) _ q Hok false). }
  destruct (q_pend env _ _ q Hok n Hn) as [_ Hc].
  destruct (cmd_ok_ns env p _ Hc) as (w & Hw & Hwp & _).
  eapply wpx_step; [by apply read_cmd_eq|]. eapply wpx_step; [by apply read_queue_eq|].
  rewrite Hw. eapply wpx_step; [apply vdev_get_id_eq|].
  eapply wpx_step; [apply vdev_bit_eq; by eapply e_vdevs|]. cbv zeta.
  destruct (negb lookup && _ && _); [by apply ser_keeps_refl|].
  destruct (Z.testbit _ _) eqn:Hb.
  { destruct lookup; [by apply ser_keeps_refl|]. eapply IH; eauto. }
  apply wpx_bind. eapply wpx_mono; [by apply (move_one_ok s p q n w)|].
  intros moved s1 [-> H1]. destruct (keeps_queue _ _ _ _ H1 Hq) as [q1 Hq1].
  eapply wpx_step; [by apply read_queue_eq|].
  destruct (lookup || blocking_cmd_active q1); [done|].
  eapply wpx_mono; [eapply (IH s1 q1)|].
  - apply H1.
  - done.
  - done.
  - by intros vq' _ m Hm.
  - by eapply keeps_waiting.
  - intros st' s2 H2. by eapply ser_keeps_trans.
Qed.

Lemma move_ok s t p v q blocking : inv env None s ->
  queues s !! wlan_serialization_get_pdev_queue_obj p t = Some q -> vdev_pdev env v = Some p ->
  (partial \/ waiting (wlan_serialization_get_pdev_queue_obj p t) s + 1 <= f)%nat ->
  wpx partial (wlan_serialization_move_pending_to_active env calls t p (Some v) blocking)
    (fun _ s' => keeps None s s') s.
Proof.
  intros Hi Hq Hvp Hf. unfold wlan_serialization_move_pending_to_active.
  unfold wlan_serialization_get_pdev_queue_obj in Hq, Hf.
  destruct (t <? WLAN_SER_CMD_NONSCAN); [by eapply move_scan_ok|].
  unfold wlan_ser_move_non_scan_pending_to_active. eapply wpx_step; [done|].
  eapply wpx_step; [by apply read_queue_eq|]. cbv zeta.
  set (lookup := negb blocking && _).
  destruct (vdev_queue None s p v q Hi Hq Hvp) as (vq & Hvq & Hvok).
  eapply wpx_step.
  { apply (list_size_eq s _ (if lookup then v_pending_list vq else pending_list q)).
    destruct lookup; cbn; by rewrite ?Hvq, ?Hq. }
  by apply (move_loop_ok _ s p v q).
Qed.

(** ** Commands are taken out of the queues *)

(** A command being activated is marked for what is to be done with it afterwards. *)
Lemma keeps_mark s n b : inv env None s -> marked (nodes s) n = true ->
  b = CMD_ACTIVE_MARKED_FOR_CANCEL \/ b = CMD_ACTIVE_MARKED_FOR_REMOVAL ->
  keeps None s (set_bit_at b n s).
Proof.
  intros Hi Hm Hb. pose proof (marked_in_use _ n Hm) as Hu.
  destruct (in_use_active env None s n Hi Hu) as (q & Hq & Hn).
  assert (forall i, i = CMD_IS_ACTIVE \/ i = CMD_MARKED_FOR_ACTIVATION ->
    Z.testbit (Z.setbit (nuse (nodes s) n) b) i = Z.testbit (nuse (nodes s) n) i) as Hbit.
  { intros i H. unfold CMD_ACTIVE_MARKED_FOR_CANCEL, CMD_ACTIVE_MARKED_FOR_REMOVAL, CMD_IS_ACTIVE,
      CMD_MARKED_FOR_ACTIVATION in *. apply Z.setbit_neq; lia. }
  split; [|split].
  - eapply (inv_active env None s _ _ n q _ _ Hi Hq Hn); try done.
    + rewrite !Hbit by tauto. by apply (q_act env _ _ q (i_queue env None s Hi _ q Hq)).
    + intros _ Ha Hna. rewrite Hbit in Ha by tauto. unfold is_active in Hna. congruence.
  - eapply evolves_node; try done. right. right. split; [|done]. cbn [cmd_in_use]. by rewrite Hbit by tauto.
  - by right.
Qed.

(** What taking a command out of its lists changes. *)
Record took a n k q q1 s s1 : Prop := {
  tk_nodes : nodes s1 = nodes s;
  tk_queues : queues s1 = <[k := q1]> (queues s);
  tk_taken : q_taken a n q q1;
  tk_pool : cmd_pool_list q1 = cmd_pool_list q;
  tk_ns : forall p v, k = (p, NS) -> vdev (ncmd (nodes s) n) = Some v ->
     vdev_active_cmd_bitmap q1 =
       (if a then Z.clearbit (vdev_active_cmd_bitmap q) (Z.of_nat v) else vdev_active_cmd_bitmap q) /\
     exists vq vq', vqueues s !! v = Some vq /\ v_taken a n vq vq' /\ vqueues s1 = <[v := vq']> (vqueues s);
  tk_scan : snd k = SCAN -> vqueues s1 = vqueues s;
  tk_trace : trace s1 = trace s;
  tk_timers : timers s1 = timers s;
}.

Lemma get_pdev_vdev c p : wlan_serialization_get_pdev_from_cmd env c = Some p ->
  exists v, vdev c = Some v /\ vdev_pdev env v = Some p.
Proof.
  unfold wlan_serialization_get_pdev_from_cmd. destruct (vdev c) as [v|]; [|done]. eauto.
Qed.

Lemma q_take_taken a n q : q_taken a n q (q_take a n q).
Proof. by destruct a. Qed.

Lemma found_vdev s c n l : find_same s c l = Some n -> n ∈ l /\ vdev (ncmd (nodes s) n) = vdev c.
Proof.
  intros [Hin Hs]%find_some_elem. split; [done|]. unfold same_cmd in Hs.
  rewrite !andb_true_iff, bool_decide_eq_true in Hs. tauto.
Qed.

Lemma remove_ok x s p c a q : inv env x s -> wlan_serialization_get_pdev_from_cmd env c = Some p ->
  let k := wlan_serialization_get_pdev_queue_obj p (cmd_type c) in
  queues s !! k = Some q ->
  exists r s1,
    (if cmd_type c <? WLAN_SER_CMD_NONSCAN then wlan_ser_remove_scan_cmd env p c a
     else wlan_ser_remove_non_scan_cmd env p c a) s = Ret r s1 /\
    match find_same s c (elems (ql a q)) with
    | None => r = (QDF_STATUS_E_FAILURE, None) /\ s1 = s
    | Some n =>
        if marked (nodes s) n
        then r = (QDF_STATUS_E_PENDING, None) /\ s1 = set_bit_at CMD_ACTIVE_MARKED_FOR_REMOVAL n s
        else r = (QDF_STATUS_SUCCESS, Some n) /\ exists q1, took a n k q q1 s s1
    end.
Proof.
  intros Hi Hp k Hq. destruct (get_pdev_vdev c p Hp) as (v & Hv & Hvp).
  pose proof (live_queue env x s k q a Hi Hq) as Hlive.
  assert (forall st n, find_same s c (elems (ql a q)) = Some n -> snd k = SCAN ->
    st = set_queues <[k := q_take a n q]> s -> exists q1, took a n k q q1 s st) as Hscan.
  { intros st n Hf Hk ->. exists (q_take a n q). split; try done; [apply q_take_taken|by destruct a|].
    intros p' v' Heq. rewrite Heq in Hk. done. }
  destruct (Z.ltb_spec (cmd_type c) WLAN_SER_CMD_NONSCAN) as [Ht|Ht].
  - unfold wlan_ser_remove_scan_cmd. rewrite (remove_from_pdev_eq env s p c k q a) by done.
    destruct (find_same s c (elems (ql a q))) as [n|]; [|eauto].
    destruct (marked (nodes s) n); [eauto|]. eexists _, _. split; [done|]. split; [done|].
    apply (Hscan _ n eq_refl); [|done]. unfold k. by rewrite queue_obj_scan.
  - assert (k = (p, NS)) as Hk by (unfold k; by rewrite queue_obj_ns). clearbody k. subst k.
    destruct (vdev_queue x s p v q Hi Hq Hvp) as (vq & Hvq & Hvok).
    rewrite (remove_non_scan_eq env s p c v q vq a) by
      (done || by eapply e_vdevs || by apply (vdev_ok_lists _ _ _ _ Hvok)).
    destruct (find_same s c (elems (ql a q))) as [n|] eqn:Ef; [|eauto].
    destruct (marked (nodes s) n); [eauto|]. eexists _, _. split; [done|]. split; [done|].
    apply found_vdev in Ef as [Hn Hvn].
    exists (q_idle a v (is_blocking (ncmd (nodes s) n)) (q_take a n q)).
    split; try done.
    + destruct a; [|apply q_take_taken]. unfold q_idle. by destruct (is_blocking _).
    + destruct a; [|done]. unfold q_idle. by destruct (is_blocking _).
    + intros p' w [= <-] Hw. assert (w = v) as -> by congruence. split.
      * destruct a; [|done]. unfold q_idle. by destruct (is_blocking _).
      * exists vq, (v_take a n vq). split; [done|]. split; [by destruct a|done].
Qed.

Lemma release_node_eq s k n q : is_Some (nodes s !! n) -> queues s !! k = Some q ->
  release_node k n s = Ret tt (set_queues
    <[k := q_set_pool (QdfList (pool q ++ [n]) (max_size (cmd_pool_list q))) q]>
    (set_nodes <[n := CmdList zero_cmd 0]> s)).
Proof.
  intros Hn Hq. unfold release_node. rewrite (bind_ret _ _ _ _ _ (write_node_eq s n _ Hn)).
  set (s1 := set_nodes _ s). rewrite (bind_ret _ _ _ _ _ (insert_back_eq s1 (QPool k) _ n (list_at_pool s1 k q Hq))).
  by rewrite (set_list_pool s1 k q).
Qed.

Lemma notify_quiet c r s : (partial \/ 1 <= f)%nat -> is_Some (cmd_cb c) ->
  r = WLAN_SER_CB_CANCEL_CMD \/ r = WLAN_SER_CB_RELEASE_MEM_CMD ->
  wpx partial (notify calls c r) (fun _ s' => noted [EvCallback c r] s s') s.
Proof.
  intros Hf [cb Hcb] Hr. unfold notify. rewrite Hcb. apply wpx_bind.
  eapply wpx_mono; [by apply (co_quiet f calls Hcalls)|]. done.
Qed.

Lemma get_pdev_obj_eq p s : wlan_serialization_get_pdev_obj p s =
  Ret (bool_decide (is_Some (queues s !! (p, SCAN)))) s.
Proof. done. Qed.

Lemma pdev_queues x s p : inv env x s -> is_Some (queues s !! (p, SCAN)) ->
  forall t, exists q, queues s !! wlan_serialization_get_pdev_queue_obj p t = Some q.
Proof.
  intros Hi Hs t. unfold wlan_serialization_get_pdev_queue_obj. destruct (t <? _); [done|].
  by apply (i_pair env x s Hi p).
Qed.

(** The command whose activation failed, or that was asked to go, is found. *)
Definition exempt x s c a : Prop :=
  x = None \/ exists n q, x = Some n /\ queues s !! fst n = Some q /\ n ∈ act q /\
    marked (nodes s) n = false /\ snd (fst n) = NS /\ c = ncmd (nodes s) n /\ a = true.

Lemma ql_pool b l q : ql b (q_set_pool l q) = ql b q.
Proof. by destruct b. Qed.

Lemma find_same_active x s p q n : inv env x s -> queues s !! (p, NS) = Some q -> n ∈ act q ->
  find_same s (ncmd (nodes s) n) (act q) = Some n.
Proof.
  intros Hi Hq Hn. apply find_unique; [done|apply same_cmd_refl|]. intros m Hm Hs.
  apply (NoDup_fmap_inj_elem _ _ _ _ (ns_uniq env _ _ _ _ (i_ns env x s Hi p q Hq))); [done..|].
  unfold same_cmd in Hs. rewrite !andb_true_iff, bool_decide_eq_true in Hs. by destruct Hs.
Qed.

Lemma exempt_found x s c a p q :
  let k := wlan_serialization_get_pdev_queue_obj p (cmd_type c) in
  inv env x s -> exempt x s c a -> wlan_serialization_get_pdev_from_cmd env c = Some p ->
  queues s !! k = Some q ->
  x = None \/ exists n, x = Some n /\ find_same s c (elems (ql a q)) = Some n /\ marked (nodes s) n = false.
Proof.
  intros k Hi [->|(n & q' & -> & Hq' & Hn & Hm & Hk & Hc & Ha)] Hp Hq; [by left|]. subst a.
  right. exists n. split; [done|]. split; [|done].
  pose proof (ql_cmd_ok env _ _ q' (i_queue env _ s Hi _ q' Hq') true n Hn) as Hok.
  destruct (cmd_ok_inv env _ _ Hok) as (v & _ & _ & Hkey & Hp'). rewrite <- Hc in Hkey, Hp'.
  rewrite Hp in Hp'. injection Hp' as Hp'. unfold k in Hq. rewrite Hp', Hkey, Hq' in Hq. injection Hq as <-.
  destruct (fst n) as [p0 kt]. cbn in Hk. subst kt. rewrite Hc. by apply (find_same_active (Some n) s p0).
Qed.

Lemma timers_live x s : inv env x s ->
  forall i t m, timers s !! i = Some t -> t_cmd t = Some m -> is_Some (nodes s !! m).
Proof. intros Hi. apply (t_nodes env _ _ _ (i_timers env x s Hi)). Qed.

Lemma dequeue_ok x s c reason a : inv env x s -> exempt x s c a ->
  (forall k, key_of env c = Some k -> partial \/ waiting k s + 1 <= f)%nat ->
  wpx partial (wlan_serialization_dequeue_cmd env calls c reason a) (fun _ s' => keeps None s s') s.
Proof.
  intros Hi Hx Hf. unfold wlan_serialization_dequeue_cmd.
  destruct (wlan_serialization_get_pdev_from_cmd env c) as [p|] eqn:Hp; cycle 1.
  { destruct Hx as [->|(n & q & -> & Hq & Hn & _ & _ & -> & _)]; [by apply ser_keeps_refl|].
    destruct (cmd_ok_inv env _ _ (ql_cmd_ok env _ _ q (i_queue env _ s Hi _ q Hq) true n Hn))
      as (? & _ & _ & _ & H). congruence. }
  eapply wpx_step; [apply get_pdev_obj_eq|].
  case_bool_decide as Hobj; cbn [negb]; cycle 1.
  { destruct Hx as [->|(n & q & -> & Hq & Hn & _ & Hk & -> & _)]; [by apply ser_keeps_refl|].
    exfalso. apply Hobj. apply (i_pair env _ s Hi p).
    destruct (cmd_ok_inv env _ _ (ql_cmd_ok env _ _ q (i_queue env _ s Hi _ q Hq) true n Hn))
      as (? & _ & _ & _ & H). destruct (fst n) as [p' kt]. cbn in Hk, H. subst kt.
    assert (p' = p) as -> by congruence. eauto. }
  set (k := wlan_serialization_get_pdev_queue_obj p (cmd_type c)).
  destruct (pdev_queues x s p Hi Hobj (cmd_type c)) as [q Hq]. fold k in Hq.
  assert (partial \/ waiting k s + 1 <= f)%nat as Hfk.
  { apply Hf. unfold key_of. by rewrite Hp. }
  destruct (remove_ok x s p c a q Hi Hp Hq) as (r & s1 & Hrem & Hr). fold k in Hr.
  eapply wpx_step; [exact Hrem|].
  pose proof (exempt_found x s c a p q Hi Hx Hp Hq) as Hfound.
  destruct (find_same s c (elems (ql a q))) as [n|] eqn:Ef; cycle 1.
  { destruct Hr as [-> ->]. destruct Hfound as [->|(n & _ & H & _)]; [|done]. by apply ser_keeps_refl. }
  assert (x = None \/ x = Some n) as Hxn.
  { destruct Hfound as [->|(n' & -> & H & _)]; [by left|right]. congruence. }
  apply found_vdev in Ef as [Hn Hvn].
  destruct (marked (nodes s) n) eqn:Em.
  { destruct Hr as [-> ->]. destruct Hfound as [->|(n' & -> & [= ->] & H)]; [|congruence].
    apply keeps_mark; auto. }
  destruct Hr as (-> & q1 & Ht). cbn beta iota.
  rewrite bool_decide_eq_false_2 by done. cbn [QDF_IS_STATUS_ERROR QDF_IS_STATUS_SUCCESS negb].
  eapply wpx_step; [done|].
  assert (is_Some (nodes s !! n)) as Hlive by (eapply i_nodes; [done..|]; by apply (ql_addr env (nodes s) k q (i_queue env x s Hi k q Hq) a)).
  assert (is_Some (nodes s1 !! n)) as Hlive1 by (by rewrite (tk_nodes _ _ _ _ _ _ _ Ht)).
  eapply wpx_step; [by apply read_cmd_eq|]. rewrite (tk_nodes _ _ _ _ _ _ _ Ht).
  set (cb := ncmd (nodes s) n). cbv zeta.
  assert (exists ts refs, stopped n (timers s) ts /\
    (if a then wlan_serialization_find_and_stop_timer env n reason;; mret () else mret ()) s1 =
    Ret tt (with_timers ts refs s1)) as (ts & refs & Hst & Hstop).
  { destruct a; cycle 1.
    - exists (timers s1), (vdev_refs s1). rewrite with_timers_id. split; [|done].
      rewrite (tk_timers _ _ _ _ _ _ _ Ht). rewrite <- (pool_addrs_key k n) in Hq by
        (by apply (ql_addr env (nodes s) k q (i_queue env x s Hi k q Hq) false)).
      by apply (pending_stopped env x s n q).
    - destruct (stop_timer_spec env s1 n reason Hlive1) as (st & ts & refs & Hs & Hspec).
      { rewrite (tk_timers _ _ _ _ _ _ _ Ht), (tk_nodes _ _ _ _ _ _ _ Ht). by eapply timers_live. }
      exists ts, refs. rewrite (bind_ret _ _ _ _ _ Hs). split; [|done].
      rewrite (tk_timers _ _ _ _ _ _ _ Ht), (tk_nodes _ _ _ _ _ _ _ Ht) in Hspec.
      rewrite <- (pool_addrs_key k n) in Hq by
        (by apply (ql_addr env (nodes s) k q (i_queue env x s Hi k q Hq) true)).
      by apply (stop_stopped env x s n q st). }
  eapply wpx_step; [exact Hstop|]. set (s2 := with_timers ts refs s1).
  assert (queues s2 !! k = Some q1) as Hq2.
  { cbn. by rewrite (tk_queues _ _ _ _ _ _ _ Ht), lookup_insert_eq. }
  eapply wpx_step; [by apply release_node_eq|]. set (s3 := set_queues _ _).
  eapply wpx_step; [apply history_eq|]. set (s4 := emit _ s3).
  pose proof (ql_cmd_ok env _ k q (i_queue env x s Hi k q Hq) a n Hn) as Hcmd. fold cb in Hcmd.
  apply wpx_bind. eapply wpx_mono.
  { apply notify_quiet; [|apply Hcmd|by right]. destruct Hfk; [by left|right; lia]. }
  intros [] s5 Hnt.
  assert (keeps None s s5) as H5.
  { eapply (keeps_release x s s5 k n q _ a
      ([EvQueue cb reason false a] ++ [EvCallback cb WLAN_SER_CB_RELEASE_MEM_CMD])); try done.
    - rewrite (nt_nodes _ _ _ Hnt). cbn. by rewrite (tk_nodes _ _ _ _ _ _ _ Ht).
    - rewrite (nt_queues _ _ _ Hnt). cbn. by rewrite (tk_queues _ _ _ _ _ _ _ Ht), insert_insert_eq.
    - destruct (tk_taken _ _ _ _ _ _ _ Ht) as [H1 H2]. split; by rewrite ql_pool.
    - cbn. by rewrite (tk_pool _ _ _ _ _ _ _ Ht).
    - intros p' v -> Hv. destruct (tk_ns _ _ _ _ _ _ _ Ht p' v eq_refl Hv) as [H1 H2].
      split; [done|]. by rewrite (nt_vqueues _ _ _ Hnt).
    - intros Hk. rewrite (nt_vqueues _ _ _ Hnt). by apply (tk_scan _ _ _ _ _ _ _ Ht).
    - rewrite (nt_trace _ _ _ Hnt). cbn. by rewrite (tk_trace _ _ _ _ _ _ _ Ht), <- app_assoc.
    - by case reason.
    - by rewrite (nt_timers _ _ _ Hnt). }
  destruct a; [|done].
  destruct (cmd_ok_inv env k _ Hcmd) as (v & Hv & Hvp & Hkey & _). rewrite Hv.
  assert (fst k = p) as Hkp by (unfold k, wlan_serialization_get_pdev_queue_obj; by destruct (_ <? _)).
  rewrite Hkp in Hkey, Hvp.
  destruct (keeps_queue _ _ _ _ H5 Hq) as [q5 Hq5].
  apply wpx_bind. eapply wpx_mono.
  { apply (move_ok s5 (cmd_type cb) p v q5); [apply H5|by rewrite Hkey|done|].
    rewrite Hkey. by eapply keeps_waiting. }
  intros st s6 H6. apply wpx_mret. by eapply ser_keeps_trans.
Qed.

(** ** Cancellation *)

(** A test that only looks. *)
Definition reads (m : M W bool) s : Prop := exists b, m s = Ret b s.

Lemma reads_ret b s : reads (mret b) s.
Proof. by exists b. Qed.
Lemma reads_not m s : reads m s -> reads (notM m) s.
Proof. intros [b Hb]. exists (negb b). unfold notM. by rewrite (bind_ret _ _ _ _ _ Hb). Qed.
Lemma reads_or m m' s : reads m s -> reads m' s -> reads (orM m m') s.
Proof.
  intros [b Hb] [b' Hb']. exists (b || b'). unfold orM. rewrite (bind_ret _ _ _ _ _ Hb).
  by destruct b.
Qed.

Definition ref_live s (r : option cmd_ref) : Prop :=
  match r with Some (CmdIn m) => is_Some (nodes s !! m) | _ => True end.

Lemma read_ref_eq s r : ref_live s r -> exists oc, read_ref r s = Ret oc s.
Proof.
  destruct r as [[c|m]|]; intros H; [by exists (Some c)| |by exists None].
  exists (Some (ncmd (nodes s) m)). cbn [read_ref]. by rewrite (bind_ret _ _ _ _ _ (read_cmd_eq s m H)).
Qed.

Section Skips.
Context s n (Hn : is_Some (nodes s !! n)) (Hv : is_Some (vdev (ncmd (nodes s) n))).

Lemma reads_id_type oc : reads (wlan_serialization_match_cmd_id_type n oc) s.
Proof.
  destruct oc as [c|]; [|apply reads_ret]. eexists. unfold wlan_serialization_match_cmd_id_type.
  by rewrite (bind_ret _ _ _ _ _ (read_cmd_eq s n Hn)).
Qed.
Lemma reads_vdev vd : reads (wlan_serialization_match_cmd_vdev n vd) s.
Proof.
  eexists. unfold wlan_serialization_match_cmd_vdev. by rewrite (bind_ret _ _ _ _ _ (read_cmd_eq s n Hn)).
Qed.
Lemma reads_type t : reads (wlan_serialization_match_cmd_type n t) s.
Proof.
  eexists. unfold wlan_serialization_match_cmd_type. by rewrite (bind_ret _ _ _ _ _ (read_cmd_eq s n Hn)).
Qed.
Lemma reads_blocking : reads (wlan_serialization_match_cmd_blocking n) s.
Proof.
  eexists. unfold wlan_serialization_match_cmd_blocking. by rewrite (bind_ret _ _ _ _ _ (read_cmd_eq s n Hn)).
Qed.
Lemma reads_pdev pd : reads (wlan_serialization_match_cmd_pdev env n pd) s.
Proof.
  destruct Hv as [v Hv']. eexists. unfold wlan_serialization_match_cmd_pdev.
  rewrite (bind_ret _ _ _ _ _ (read_cmd_eq s n Hn)), Hv'. done.
Qed.

Lemma skips_reads pd vd r : ref_live s r -> reads (cancel_skips env n pd vd r) s.
Proof.
  intros Hr. unfold cancel_skips. repeat apply reads_or.
  - destruct r as [r|]; [|apply reads_ret]. destruct (read_ref_eq s (Some r) Hr) as [oc Hoc].
    unfold reads. rewrite (bind_ret _ _ _ _ _ Hoc). apply reads_not, reads_id_type.
  - destruct vd; [apply reads_not, reads_vdev|apply reads_ret].
  - destruct pd; [apply reads_not, reads_pdev|apply reads_ret].
Qed.

Lemma skips_non_scan_reads pd vd r t attr : ref_live s r ->
  reads (cancel_skips_non_scan env n pd vd r t attr) s.
Proof.
  intros Hr. unfold cancel_skips_non_scan.
  apply reads_or; [by apply skips_reads|apply reads_or].
  - destruct vd; [|apply reads_ret]. destruct (_ <? _); [|apply reads_ret].
    apply reads_or; apply reads_not; [apply reads_type|apply reads_vdev].
  - destruct (bool_decide _); [apply reads_blocking|apply reads_ret].
Qed.

End Skips.

(** The place of the walk in the list: the last command looked at, and one that stays. *)
Definition at_pos (nnode pnode : option addr) (l : list addr) : Prop :=
  exists l1 l2, l = l1 ++ l2 /\ nnode = last l1 /\ in_list pnode l1.

Lemma pos_start l : at_pos None None l.
Proof. by exists [], l. Qed.

Lemma pos_next s r l nnode pnode : list_at s r = Some l -> NoDup (elems l) ->
  at_pos nnode pnode (elems l) ->
  exists o, wlan_serialization_get_cmd_from_queue r nnode s = Ret o s /\
  forall n, o = Some n -> n ∈ elems l /\ at_pos (Some n) (Some n) (elems l) /\
    at_pos (Some n) pnode (elems l) /\ at_pos pnode pnode (unlink n (elems l)).
Proof.
  intros Hat Hnd (l1 & l2 & He & -> & Hp). exists (head l2). split; [by apply (get_cmd_eq s r l l1 l2)|].
  intros n Hh. destruct l2 as [|m l3]; [done|]. injection Hh as ->. rewrite He in Hnd |- *.
  split; [apply elem_of_app; right; by left|]. split; [|split].
  - exists (l1 ++ [n]), l3. rewrite <- app_assoc, last_snoc. split; [done|]. split; [done|].
    intros m [= <-]. apply elem_of_app. right. by left.
  - exists (l1 ++ [n]), l3. rewrite <- app_assoc, last_snoc. split; [done|]. split; [done|].
    intros m Hm. apply elem_of_app. left. by apply Hp.
  - apply NoDup_app in Hnd as (_ & Hd & Hnd). apply NoDup_cons in Hnd as [Hn3 _].
    assert (unlink n (l1 ++ n :: l3) = l1 ++ l3) as ->.
    { unfold unlink. rewrite List.filter_app. cbn. rewrite bool_decide_eq_true_2 by done. cbn.
      change (unlink n l1 ++ unlink n l3 = l1 ++ l3). rewrite !unlink_id; [done|done|].
      intros Hin. apply (Hd n Hin). by left. }
    destruct pnode as [m|]; [|apply pos_start].
    destruct (list_elem_of_split _ _ (Hp m eq_refl)) as (a & b & ->). exists (a ++ [m]), (b ++ l3).
    rewrite <- !app_assoc, last_snoc. split; [done|]. split; [done|].
    intros m' [= <-]. apply elem_of_app. right. by left.
Qed.

Lemma keeps_timers s ts refs : inv env None s -> ts = timers s -> keeps None s (with_timers ts refs s).
Proof.
  intros Hi ->. split; [|split].
  - eapply (inv_fields env None None s _ []); try done; [by rewrite app_nil_r|exact (i_timers env None s Hi)].
  - by apply evolves_fields.
  - by right.
Qed.

(** What is done about a command before it is removed. *)
Definition step_ok a s n (st : cancel_step) s' : Prop :=
  match st with
  | CancelStop => keeps None s s'
  | CancelMarked => keeps None s s' /\ queues s' = queues s
  | CancelRemove => marked (nodes s) n = false /\
      exists ts refs, s' = with_timers ts refs s /\ stopped n (timers s) ts
  end.

Lemma cancel_step_ok a psoc s k q n : inv env None s -> queues s !! k = Some q -> n ∈ elems (ql a q) ->
  wpx partial (if a then cancel_active env psoc n else mret CancelRemove) (step_ok a s n) s.
Proof.
  intros Hi Hq Hn. pose proof (i_queue env None s Hi k q Hq) as Hok.
  pose proof (ql_addr env _ k q Hok a n Hn) as Haddr.
  assert (is_Some (nodes s !! n)) as Hlive by (by eapply i_nodes).
  rewrite <- (pool_addrs_key k n Haddr) in Hq.
  destruct a; cycle 1.
  { apply wpx_mret. split; [by eapply pend_unmarked|]. exists (timers s), (vdev_refs s).
    rewrite with_timers_id. split; [done|]. by eapply pending_stopped. }
  unfold cancel_active. destruct psoc; cbn [negb]; [|by apply ser_keeps_refl].
  eapply wpx_step; [by apply test_bit_eq|]. fold (marked (nodes s) n).
  destruct (marked (nodes s) n) eqn:Em.
  { eapply wpx_step; [by apply set_bit_eq|]. apply wpx_mret. split; [|done]. apply keeps_mark; auto. }
  destruct (stop_timer_spec env s n SER_CANCEL Hlive (timers_live None s Hi)) as (st & ts & refs & Hs & Hspec).
  eapply wpx_step; [exact Hs|]. apply wpx_mret.
  pose proof (stop_stopped env None s n q st ts Hi Hq Hn Hspec) as Hst.
  destruct Hspec as [(_ & -> & _)|[(Hts & -> & _)|(-> & _)]]; cbn;
    [split; [done|]; by exists ts, refs|by apply keeps_timers|split; [done|]; by exists ts, refs].
Qed.

Lemma cancel_notify_ok c s : (partial \/ 1 <= f)%nat -> is_Some (cmd_cb c) ->
  wpx partial (cancel_notify calls c)
    (fun _ s' => noted ([EvCallback c WLAN_SER_CB_CANCEL_CMD] ++
       [EvCallback c WLAN_SER_CB_RELEASE_MEM_CMD]) s s') s.
Proof.
  intros Hf Hc. unfold cancel_notify. apply wpx_bind. eapply wpx_mono; [apply notify_quiet; eauto|].
  intros [] s1 H1. eapply wpx_mono; [apply notify_quiet; eauto|].
  intros [] s2 H2. by eapply noted_trans.
Qed.

(** References survive, as buffers do. *)
Lemma ref_live_inv s s' r : inv env None s -> inv env None s' ->
  (forall k, is_Some (queues s !! k) <-> is_Some (queues s' !! k)) -> ref_live s r -> ref_live s' r.
Proof.
  destruct r as [[c|m]|]; [done| |done]. cbn. intros Hi Hi' Hq Hm.
  destruct (i_dom env None s Hi m Hm) as (q & Hqm & Hin).
  destruct (proj1 (Hq (fst m)) ltac:(eauto)) as [q' Hq']. by eapply i_nodes.
Qed.

Lemma cancel_scan_ok qsize s p pd vd r a psoc nnode pnode st q : inv env None s ->
  queues s !! (p, SCAN) = Some q -> at_pos nnode pnode (elems (ql a q)) -> ref_live s r ->
  (partial \/ 1 <= f)%nat ->
  wpx partial (cancel_scan_loop env calls qsize p pd vd r a psoc nnode pnode st)
    (fun _ s' => keeps None s s') s.
Proof.
  revert s q nnode pnode st. induction qsize as [|qsize IH];
    intros s q nnode pnode st Hi Hq Hpos Hr Hf; [by apply ser_keeps_refl|].
  cbn [cancel_scan_loop]. set (k := (p, SCAN)) in *. change (if a then QActive k else QPending k) with (qref a k).
  pose proof (i_queue env None s Hi k q Hq) as Hok.
  pose proof (list_at_qref s a k q Hq) as Hat.
  eapply wpx_step; [by apply list_empty_eq|].
  destruct (match elems (ql a q) with [] => true | _ => false end); [by apply ser_keeps_refl|].
  destruct (pos_next s _ _ nnode pnode Hat (ql_nodup env _ k q Hok a) Hpos) as (o & Hget & Hn).
  eapply wpx_step; [exact Hget|]. destruct o as [n|]; [|by apply ser_keeps_refl].
  destruct (Hn n eq_refl) as (Hin & Hskip & Hmark & Hrm). clear Hn.
  assert (is_Some (nodes s !! n)) as Hlive by (eapply i_nodes; [done..|]; by apply (ql_addr env (nodes s) k q Hok a)).
  pose proof (ql_cmd_ok env _ k q Hok a n Hin) as Hcmd.
  destruct (cmd_ok_inv env k _ Hcmd) as (v & Hv & _).
  destruct (skips_reads s n Hlive ltac:(eauto) pd vd r Hr) as [b Hb].
  eapply wpx_step; [exact Hb|]. destruct b; [by eapply IH|].
  apply wpx_bind. eapply wpx_mono; [by apply (cancel_step_ok a psoc s k q n)|].
  intros step s1 Hstep. destruct step.
  - done.
  - destruct Hstep as [H1 Hq1]. eapply wpx_mono.
    + eapply (IH s1 q); [apply H1|by rewrite Hq1|done|eapply (ref_live_inv s s1); [done|apply H1|by rewrite Hq1|done]|done].
    + intros st' s2 H2. by eapply ser_keeps_trans.
  - destruct Hstep as (Hm & ts & refs & -> & Hst).
    set (s1 := with_timers ts refs s).
    eapply wpx_step; [by apply (read_cmd_eq s1)|]. change (ncmd (nodes s1) n) with (ncmd (nodes s) n).
    set (c := ncmd (nodes s) n) in *.
    eapply wpx_step; [by apply (remove_node_eq s1 (qref a k) (ql a q))|].
    cbn [QDF_IS_STATUS_ERROR QDF_IS_STATUS_SUCCESS negb].
    rewrite (set_list_qref s1 a k q) by done. fold (q_take a n q). set (s2 := set_queues _ s1).
    eapply wpx_step; [by apply (release_node_eq s2 k n (q_take a n q)); [|apply queues_set]|].
    set (s3 := set_queues _ _). eapply wpx_step; [apply history_eq|]. set (s4 := emit _ s3).
    apply wpx_bind. eapply wpx_mono; [apply cancel_notify_ok; [done|apply Hcmd]|].
    intros [] s5 Hnt.
    set (q5 := q_set_pool (QdfList (pool (q_take a n q) ++ [n]) (max_size (cmd_pool_list (q_take a n q)))) (q_take a n q)) in *.
    assert (queues s5 = <[k := q5]> (queues s)) as Hq5.
    { rewrite (nt_queues _ _ _ Hnt). cbn. by rewrite insert_insert_eq. }
    assert (keeps None s s5) as H5.
    { eapply (keeps_release None s s5 k n q q5 a
        ([EvQueue c SER_CANCEL false a] ++ ([EvCallback c WLAN_SER_CB_CANCEL_CMD] ++
         [EvCallback c WLAN_SER_CB_RELEASE_MEM_CMD]))); try done.
      - by left.
      - by rewrite (nt_nodes _ _ _ Hnt).
      - destruct (q_take_taken a n q) as [E1 E2]. split; unfold q5; by rewrite ql_pool.
      - by destruct a.
      - intros _. by rewrite (nt_vqueues _ _ _ Hnt).
      - rewrite (nt_trace _ _ _ Hnt). cbn. by rewrite <- app_assoc.
      - by rewrite (nt_timers _ _ _ Hnt). }
    eapply wpx_mono; [eapply (IH s5 q5)|].
    + apply H5.
    + by rewrite Hq5, lookup_insert_eq.
    + unfold q5. rewrite ql_pool. by destruct a.
    + eapply (ref_live_inv s s5); [done|apply H5|apply H5|done].
    + done.
    + intros st' s6 H6. by eapply ser_keeps_trans.
Qed.

(** What is changed of the queue after the callbacks of a cancelled command. *)
Definition q_cancelled a v (blocking : bool) q :=
  if a then set_bitmap (fun b => Z.clearbit b (Z.of_nat v))
              (if blocking then set_blocking_active false q else q)
  else if blocking then set_blocking_waiting (fun w => w - 1) q else q.

Lemma cancelled_eq a v (blocking : bool) k q s :
  queues s !! k = Some q -> (v < WLAN_UMAC_PSOC_MAX_VDEVS)%nat ->
  (if a then
     (if blocking then write_queue k (set_blocking_active false) else mret ());;
     bit ← vdev_bit v;
     write_queue k (set_bitmap (fun b => Z.clearbit b bit))
   else if blocking then write_queue k (set_blocking_waiting (fun w => w - 1)) else mret ()) s =
  Ret tt (set_queues <[k := q_cancelled a v blocking q]> s).
Proof.
  intros Hq Hv. destruct a, blocking; cbn [q_cancelled].
  - rewrite (bind_ret _ _ _ _ _ (write_queue_eq s k q _ Hq)).
    rewrite (bind_ret _ _ _ _ _ (vdev_bit_eq v _ Hv)).
    rewrite (write_queue_eq _ k _ _ (queues_set s k _)). by rewrite set_queues_twice.
  - unfold mbind at 1, M_bind at 1. cbn [mret M_ret].
    rewrite (bind_ret _ _ _ _ _ (vdev_bit_eq v _ Hv)). by apply write_queue_eq.
  - by apply write_queue_eq.
  - cbn. unfold set_queues. rewrite insert_id by done. by destruct s.
Qed.

Lemma ql_cancelled b a v bl q : ql b (q_cancelled a v bl q) = ql b q.
Proof. by destruct a, b, bl. Qed.
Lemma pool_cancelled a v bl q : cmd_pool_list (q_cancelled a v bl q) = cmd_pool_list q.
Proof. by destruct a, bl. Qed.
Lemma bitmap_cancelled a v bl q : vdev_active_cmd_bitmap (q_cancelled a v bl q) =
  if a then Z.clearbit (vdev_active_cmd_bitmap q) (Z.of_nat v) else vdev_active_cmd_bitmap q.
Proof. by destruct a, bl. Qed.
Lemma bitmap_take a n q l : vdev_active_cmd_bitmap (q_set_pool l (q_take a n q)) = vdev_active_cmd_bitmap q.
Proof. by destruct a. Qed.
Lemma pool_take a n q : cmd_pool_list (q_take a n q) = cmd_pool_list q.
Proof. by destruct a. Qed.

Lemma cancel_non_scan_ok qsize s p pd vd r t a psoc attr nnode pnode st q : inv env None s ->
  WLAN_SER_CMD_NONSCAN <= t ->
  queues s !! (p, NS) = Some q -> at_pos nnode pnode (elems (ql a q)) -> ref_live s r ->
  (partial \/ 1 <= f)%nat ->
  wpx partial (cancel_non_scan_loop env calls qsize p (p, NS) pd vd r t a psoc attr nnode pnode st)
    (fun _ s' => keeps None s s') s.
Proof.
  intros Hi0 Ht. revert s q nnode pnode st Hi0. induction qsize as [|qsize IH];
    intros s q nnode pnode st Hi Hq Hpos Hr Hf; [by apply ser_keeps_refl|].
  cbn [cancel_non_scan_loop]. rewrite list_from_pdev, queue_obj_ns by done. set (k := (p, NS)) in *.
  pose proof (i_queue env None s Hi k q Hq) as Hok.
  pose proof (list_at_qref s a k q Hq) as Hat.
  eapply wpx_step; [by apply list_empty_eq|].
  destruct (match elems (ql a q) with [] => true | _ => false end); [by apply ser_keeps_refl|].
  destruct (pos_next s _ _ nnode pnode Hat (ql_nodup env _ k q Hok a) Hpos) as (o & Hget & Hn).
  eapply wpx_step; [exact Hget|]. destruct o as [n|]; [|by apply ser_keeps_refl].
  destruct (Hn n eq_refl) as (Hin & Hskip & Hmark & Hrm). clear Hn.
  assert (is_Some (nodes s !! n)) as Hlive by (eapply i_nodes; [done..|]; by apply (ql_addr env (nodes s) k q Hok a)).
  pose proof (ql_cmd_ok env _ k q Hok a n Hin) as Hcmd.
  destruct (cmd_ok_ns env p _ Hcmd) as (v & Hv & Hvp & _).
  destruct (skips_non_scan_reads s n Hlive ltac:(eauto) pd vd r t attr Hr) as [b Hb].
  eapply wpx_step; [exact Hb|]. destruct b; [by eapply IH|].
  apply wpx_bind. eapply wpx_mono; [by apply (cancel_step_ok a psoc s k q n)|].
  intros step s1 Hstep. destruct step.
  - done.
  - destruct Hstep as [H1 Hq1]. eapply wpx_mono.
    + eapply (IH s1 q); [apply H1|by rewrite Hq1|done|eapply (ref_live_inv s s1); [done|apply H1|by rewrite Hq1|done]|done].
    + intros st' s2 H2. by eapply ser_keeps_trans.
  - destruct Hstep as (Hm & ts & refs & -> & Hst).
    set (s1 := with_timers ts refs s).
    eapply wpx_step; [by apply (read_cmd_eq s1)|]. change (ncmd (nodes s1) n) with (ncmd (nodes s) n).
    set (c := ncmd (nodes s) n) in *.
    eapply wpx_step; [by apply (remove_node_eq s1 (qref a k) (ql a q))|].
    rewrite (set_list_qref s1 a k q) by done. fold (q_take a n q). set (s2 := set_queues _ s1).
    rewrite Hv. eapply wpx_step; [done|].
    replace (wlan_serialization_get_list_from_vdev_queue v a) with (vref a v) by (by destruct a).
    destruct (vdev_queue None s p v q Hi Hq Hvp) as (vq & Hvq & Hvok).
    assert (n ∈ elems (vl a vq)) as Hnv.
    { rewrite (vdev_ok_lists _ _ _ _ Hvok). apply elem_of_filter_b. split; [|done].
      unfold on_vdev. by rewrite bool_decide_eq_true_2. }
    eapply wpx_step; [by apply (remove_node_eq s2 (vref a v) (vl a vq)); [apply list_at_vref|]|].
    rewrite (set_list_vref s2 a v vq) by done. fold (v_take a n vq). set (s2' := set_vqueues _ s2).
    cbn [QDF_IS_STATUS_ERROR QDF_IS_STATUS_SUCCESS negb orb].
    eapply wpx_step; [by apply (release_node_eq s2' k n (q_take a n q)); [|apply queues_set]|].
    set (s3 := set_queues _ _). eapply wpx_step; [apply history_eq|]. set (s4 := emit _ s3).
    apply wpx_bind. eapply wpx_mono; [apply cancel_notify_ok; [done|apply Hcmd]|].
    intros [] s5 Hnt.
    set (q5 := q_set_pool (QdfList (pool (q_take a n q) ++ [n]) (max_size (cmd_pool_list (q_take a n q)))) (q_take a n q)) in *.
    assert (queues s5 !! k = Some q5) as Hq5.
    { rewrite (nt_queues _ _ _ Hnt). cbn. by rewrite lookup_insert_eq. }
    eapply wpx_step; [apply (cancelled_eq a v (is_blocking c) k q5 s5 Hq5); by eapply e_vdevs|].
    set (q6 := q_cancelled a v (is_blocking c) q5). set (s6 := set_queues _ s5).
    assert (queues s6 = <[k := q6]> (queues s)) as Hq6.
    { cbn. rewrite (nt_queues _ _ _ Hnt). cbn. by rewrite !insert_insert_eq. }
    assert (keeps None s s6) as H6.
    { eapply (keeps_release None s s6 k n q q6 a
        ([EvQueue c SER_CANCEL false a] ++ ([EvCallback c WLAN_SER_CB_CANCEL_CMD] ++
         [EvCallback c WLAN_SER_CB_RELEASE_MEM_CMD]))); try done.
      - by left.
      - cbn. by rewrite (nt_nodes _ _ _ Hnt).
      - destruct (q_take_taken a n q) as [E1 E2]. split; unfold q6; rewrite ql_cancelled; unfold q5;
          by rewrite ql_pool.
      - unfold q6. rewrite pool_cancelled. unfold q5. cbn. by rewrite pool_take.
      - intros p' w [= <-] Hw. fold c in Hw. assert (w = v) as -> by congruence. split.
        + unfold q6. rewrite bitmap_cancelled. unfold q5. by rewrite bitmap_take.
        + exists vq, (v_take a n vq). split; [done|]. split; [by destruct a|].
          cbn. by rewrite (nt_vqueues _ _ _ Hnt).
      - cbn. rewrite (nt_trace _ _ _ Hnt). cbn. by rewrite <- app_assoc.
      - cbn. by rewrite (nt_timers _ _ _ Hnt). }
    cbv zeta.
    assert (forall st', wpx partial (cancel_non_scan_loop env calls qsize p k pd vd r t a psoc attr pnode pnode st')
      (fun _ s' => keeps None s s') s6) as Hgo.
    { intros st'. eapply wpx_mono; [eapply (IH s6 q6)|].
      + apply H6.
      + by rewrite Hq6, lookup_insert_eq.
      + unfold q6. rewrite ql_cancelled. unfold q5. rewrite ql_pool. by destruct a.
      + eapply (ref_live_inv s s6); [done|apply H6|apply H6|done].
      + done.
      + intros st'' s7 H7. by eapply ser_keeps_trans. }
    destruct vd, pd; [apply Hgo..|done].
Qed.

Lemma cancel_psoc_eq pd vd r s : ref_live s r -> exists b, cancel_psoc env pd vd r s = Ret b s.
Proof.
  intros Hr. unfold cancel_psoc. destruct pd; [by exists true|]. destruct vd; [by eexists|].
  destruct (read_ref_eq s r Hr) as [oc Hoc]. eexists. by rewrite (bind_ret _ _ _ _ _ Hoc).
Qed.

Lemma ser_cancel_scan_ok s p pd vd r a q : inv env None s -> queues s !! (p, SCAN) = Some q ->
  ref_live s r -> (partial \/ 1 <= f)%nat ->
  wpx partial (wlan_ser_cancel_scan_cmd env calls p pd vd r a) (fun _ s' => keeps None s s') s.
Proof.
  intros Hi Hq Hr Hf. unfold wlan_ser_cancel_scan_cmd.
  destruct (cancel_psoc_eq pd vd r s Hr) as [b Hb]. eapply wpx_step; [exact Hb|].
  eapply wpx_step; [apply (list_size_eq s (qref a (p, SCAN))); by apply list_at_qref|].
  eapply cancel_scan_ok; eauto using pos_start.
Qed.

Lemma ser_cancel_non_scan_ok s p pd vd r t a attr q : inv env None s ->
  queues s !! (p, NS) = Some q -> WLAN_SER_CMD_NONSCAN <= t -> ref_live s r -> (partial \/ 1 <= f)%nat ->
  wpx partial (wlan_ser_cancel_non_scan_cmd env calls p pd vd r t a attr) (fun _ s' => keeps None s s') s.
Proof.
  intros Hi Hq Ht Hr Hf. unfold wlan_ser_cancel_non_scan_cmd.
  destruct (cancel_psoc_eq pd vd r s Hr) as [b Hb]. eapply wpx_step; [exact Hb|].
  rewrite list_from_pdev, queue_obj_ns by done.
  eapply wpx_step; [apply (list_size_eq s (qref a (p, NS))); by apply list_at_qref|].
  eapply cancel_non_scan_ok; eauto using pos_start.
Qed.

(** Two routines in a row. *)
Lemma keeps_seq {A B} (m : M W A) (m' : A -> M W B) s :
  wpx partial m (fun _ s' => keeps None s s') s ->
  (forall x s', keeps None s s' -> wpx partial (m' x) (fun _ s'' => keeps None s' s'') s') ->
  wpx partial (x ← m; m' x) (fun _ s'' => keeps None s s'') s.
Proof.
  intros Hm Hk. apply wpx_bind. eapply wpx_mono; [exact Hm|]. intros x s' H'.
  eapply wpx_mono; [by apply Hk|]. intros y s'' H''. exact (ser_keeps_trans env partial None s s' s'' H' H'').
Qed.

Lemma cancel_cmds_ok s p pd vd r t a attr : inv env None s -> is_Some (queues s !! (p, SCAN)) ->
  ref_live s r -> (partial \/ 1 <= f)%nat ->
  wpx partial (if t <? WLAN_SER_CMD_NONSCAN then wlan_ser_cancel_scan_cmd env calls p pd vd r a
     else wlan_ser_cancel_non_scan_cmd env calls p pd vd r t a attr) (fun _ s' => keeps None s s') s.
Proof.
  intros Hi [q Hq] Hr Hf. destruct (Z.ltb_spec t WLAN_SER_CMD_NONSCAN); [by eapply ser_cancel_scan_ok|].
  destruct (proj1 (i_pair env None s Hi p) ltac:(eauto)) as [q' Hq'].
  by eapply ser_cancel_non_scan_ok.
Qed.

Lemma cancel_handler_ok s p r pd vd t qt attr : inv env None s -> is_Some (queues s !! (p, SCAN)) ->
  ref_live s r -> (partial \/ 1 <= f)%nat ->
  wpx partial (wlan_serialization_cmd_cancel_handler env calls p r pd vd t qt attr)
    (fun _ s' => keeps None s s') s.
Proof.
  intros Hi Hq Hr Hf. unfold wlan_serialization_cmd_cancel_handler. apply keeps_seq.
  { destruct (negb _); [by apply cancel_cmds_ok|by apply ser_keeps_refl]. }
  intros st1 s1 H1.
  assert (inv env None s1) as Hi1 by apply H1.
  assert (is_Some (queues s1 !! (p, SCAN))) as Hq1 by (by apply H1).
  assert (ref_live s1 r) as Hr1 by (eapply (ref_live_inv s s1); [done|done|apply H1|done]).
  apply keeps_seq.
  { destruct (negb _); [by apply cancel_cmds_ok|by apply ser_keeps_refl]. }
  intros st2 s2 H2. apply ser_keeps_refl, H2.
Qed.

(** ** Activation *)

(** What follows the activation callback, or the failure to start the timer. *)
Definition activate_tail n p (status : QDF_STATUS) : M W QDF_STATUS :=
  qdf_atomic_clear_bit CMD_MARKED_FOR_ACTIVATION n;;
  qdf_atomic_set_bit CMD_IS_ACTIVE n;;
  if QDF_IS_STATUS_ERROR status then
    c ← read_cmd n;
    wlan_serialization_dequeue_cmd env calls c SER_ACTIVATION_FAILED true;; mret status
  else
    removal ← qdf_atomic_test_bit CMD_ACTIVE_MARKED_FOR_REMOVAL n;
    c ← read_cmd n;
    if removal : bool then
      wlan_serialization_dequeue_cmd env calls c SER_REMOVE true;; mret status
    else
      cancel ← qdf_atomic_test_bit CMD_ACTIVE_MARKED_FOR_CANCEL n;
      (if cancel : bool then
         wlan_serialization_cmd_cancel_handler env calls p (Some (CmdIn n)) None None (cmd_type c)
           WLAN_SERIALIZATION_ACTIVE_QUEUE WLAN_SER_CMD_ATTR_NONE;; mret ()
       else mret ());;
      mret status.

Lemma set_active_bits u : 
  Z.testbit (Z.setbit (Z.clearbit u CMD_MARKED_FOR_ACTIVATION) CMD_IS_ACTIVE) CMD_IS_ACTIVE = true /\
  Z.testbit (Z.setbit (Z.clearbit u CMD_MARKED_FOR_ACTIVATION) CMD_IS_ACTIVE) CMD_MARKED_FOR_ACTIVATION = false.
Proof.
  unfold CMD_IS_ACTIVE, CMD_MARKED_FOR_ACTIVATION. split; [apply Z.setbit_eq; lia|].
  rewrite Z.setbit_neq by lia. apply Z.clearbit_eq.
Qed.

Lemma clear_bit_eq s n b : is_Some (nodes s !! n) -> qdf_atomic_clear_bit b n s =
  Ret tt (set_nodes <[n := CmdList (ncmd (nodes s) n) (Z.clearbit (nuse (nodes s) n) b)]> s).
Proof. intros H. unfold qdf_atomic_clear_bit. by rewrite write_node_eq. Qed.

Lemma activate_tail_ok s n q status : inv env None s -> queues s !! fst n = Some q -> n ∈ act q ->
  marked (nodes s) n = true ->
  (QDF_IS_STATUS_ERROR status = false -> snd (fst n) = NS -> needs_timer env (nodes s) n ->
     has_timer (timers s) n) ->
  (partial \/ waiting (fst n) s + 1 <= f)%nat ->
  wpx partial (activate_tail n (fst (fst n)) status) (fun _ s' => keeps (Some n) s s') s.
Proof.
  intros Hi Hq Hn Hm Ht Hf. unfold activate_tail.
  pose proof (i_queue env None s Hi _ q Hq) as Hok.
  assert (is_Some (nodes s !! n)) as Hlive by (eapply i_nodes; [done..|]; by apply (ql_addr env (nodes s) _ q Hok true)).
  eapply wpx_step; [by apply clear_bit_eq|]. set (s1 := set_nodes _ s).
  assert (is_Some (nodes s1 !! n)) as Hlive1 by (cbn; rewrite lookup_insert_eq; eauto).
  eapply wpx_step; [by apply set_bit_eq|]. set (s2 := set_bit_at _ _ s1).
  set (u := Z.setbit (Z.clearbit (nuse (nodes s) n) CMD_MARKED_FOR_ACTIVATION) CMD_IS_ACTIVE).
  set (c := ncmd (nodes s) n).
  assert (nodes s2 = <[n := CmdList c u]> (nodes s)) as Hn2.
  { cbn. rewrite insert_insert_eq, ncmd_eq, nuse_eq. done. }
  assert (is_Some (nodes s2 !! n)) as Hlive2 by (rewrite Hn2, lookup_insert_eq; eauto).
  destruct (set_active_bits (nuse (nodes s) n)) as [Hb1 Hb2]. fold u in Hb1, Hb2.
  set (x := if QDF_IS_STATUS_ERROR status && bool_decide (snd (fst n) = NS) then Some n else None).
  assert (inv env x s2) as Hi2.
  { eapply (inv_active env x s s2 _ n q c u Hi Hq Hn Hn2); try done; [by rewrite Hb1, Hb2|].
    intros Hk _ _ Hneed. unfold x. destruct (QDF_IS_STATUS_ERROR status); [|left; by apply Ht].
    rewrite bool_decide_eq_true_2 by done. by right. }
  assert (evolves (Some n) s s2) as He2 by (eapply (evolves_node _ s s2 n); [done|exact Hn2|by left|done]).
  assert (forall s', keeps None s2 s' -> keeps (Some n) s s') as Hend.
  { intros s' (Hi' & He' & Hw'). split; [done|]. split; [|exact Hw'].
    eapply evolves_trans; [exact He2|by apply evolves_mono]. }
  assert (ncmd (nodes s2) n = c) as Hc2 by (by rewrite Hn2, ncmd_eq).
  assert (marked (nodes s2) n = false) as Hm2 by (unfold marked; by rewrite Hn2, nuse_eq).
  pose proof (ql_cmd_ok env _ _ q Hok true n Hn) as Hcmd. fold c in Hcmd.
  assert (forall k, key_of env c = Some k -> partial \/ waiting k s2 + 1 <= f)%nat as Hf2.
  { intros k Hk. destruct Hcmd as (_ & Hk' & _). rewrite Hk in Hk'. injection Hk' as ->. exact Hf. }
  destruct (QDF_IS_STATUS_ERROR status).
  { eapply wpx_step; [by apply read_cmd_eq|]. rewrite Hc2. apply wpx_bind.
    eapply wpx_mono; [apply (dequeue_ok x); [done| |done]|intros st s' H'; by apply Hend].
    unfold x, exempt. case_bool_decide as Hk; [|by left]. right. exists n, q.
    split; [done|]. split; [done|]. split; [done|]. split; [done|]. split; [done|]. by rewrite Hc2. }
  eapply wpx_step; [by apply test_bit_eq|].
  eapply wpx_step; [by apply read_cmd_eq|]. rewrite Hc2.
  destruct (Z.testbit (nuse (nodes s2) n) CMD_ACTIVE_MARKED_FOR_REMOVAL).
  { apply wpx_bind. eapply wpx_mono; [apply (dequeue_ok None); [done|by left|done]|].
    intros st s' H'. by apply Hend. }
  eapply wpx_step; [by apply test_bit_eq|].
  destruct (Z.testbit (nuse (nodes s2) n) CMD_ACTIVE_MARKED_FOR_CANCEL).
  - apply wpx_bind, wpx_bind. eapply wpx_mono; [apply cancel_handler_ok|].
    + done.
    + cbn. destruct (fst n) as [p []]; cbn; [eauto|]. apply (i_pair env None s Hi p). eauto.
    + done.
    + destruct Hf; [by left|right; lia].
    + intros st s' H'. by apply Hend.
  - by apply Hend, ser_keeps_refl.
Qed.

Lemma activate_body_ok n reason s q : inv env None s -> queues s !! fst n = Some q -> n ∈ act q ->
  marked (nodes s) n = true -> (snd (fst n) = NS -> ~ has_timer (timers s) n) ->
  (partial \/ waiting (fst n) s + 2 <= S f)%nat ->
  wpx partial (activate_cmd_body env calls n (fst (fst n)) reason) (fun _ s' => keeps (Some n) s s') s.
Proof.
  intros Hi Hq Hn Hm Hno Hf0. unfold activate_cmd_body. fold (activate_tail n (fst (fst n))).
  assert (partial \/ waiting (fst n) s + 1 <= f)%nat as Hf by (destruct Hf0; [by left|right; lia]). clear Hf0.
  pose proof (i_queue env None s Hi _ q Hq) as Hok.
  assert (is_Some (nodes s !! n)) as Hlive by (eapply i_nodes; [done..|]; by apply (ql_addr env (nodes s) _ q Hok true)).
  pose proof (ql_cmd_ok env _ _ q Hok true n Hn) as Hcmd. set (c := ncmd (nodes s) n) in *.
  destruct (cmd_ok_inv env _ _ Hcmd) as (v & Hv & Hvp & _).
  eapply wpx_step; [by apply read_cmd_eq|]. fold c. rewrite Hv.
  eapply wpx_step; [done|]. rewrite Hvp, bool_decide_eq_false_2 by done.
  destruct (start_timer_spec env s n reason Hlive) as (st & ts & refs & Hs & Hspec).
  eapply wpx_step; [exact Hs|]. set (s1 := with_timers ts refs s).
  assert (inv env None s1 /\ evolves (Some n) s s1) as [Hi1 He1].
  { destruct Hspec as [[-> _]|(Hneed & i & t & Hi0 & Hfree & ->)].
    - destruct (keeps_timers s _ refs Hi eq_refl) as (? & ? & _). split; [done|by apply evolves_mono].
    - split.
      + eapply (inv_fields env None None s s1 []); try done; [by rewrite app_nil_r|].
        eapply timers_ok_start; eauto using marked_in_use. apply (i_timers env None s Hi).
      + apply evolves_fields; [done|done|]. intros m _ Hk Hm'. eapply has_timer_insert; eauto. }
  assert (QDF_IS_STATUS_ERROR st = false -> needs_timer env (nodes s) n -> has_timer ts n) as Htimer.
  { intros Hst Hneed. destruct Hspec as [[-> Hst0]|(_ & i & t & Hi0 & Hfree & ->)].
    - exfalso. apply Hst0; [|done]. by destruct st.
    - eexists i, _. split; [by apply list_lookup_insert_eq, lookup_lt_Some with t|done]. }
  destruct (QDF_IS_STATUS_ERROR st) eqn:Est.
  { eapply wpx_step; [done|].
    eapply wpx_mono; [apply (activate_tail_ok s1 n q st Hi1 Hq Hn Hm); [congruence|done]|].
    intros st' s' (Hi' & He' & Hw'). split; [done|]. split; [by eapply evolves_trans|exact Hw']. }
  assert (is_Some (nodes s1 !! n)) as Hlive1 by done.
  apply wpx_bind. eapply wpx_step; [by apply write_node_eq|].
  unfold set_cmd. cbn [cmd cmd_in_use]. change (ncmd (nodes s1) n) with c. change (nuse (nodes s1) n) with (nuse (nodes s) n).
  set (c2 := set_activation_reason reason c). set (s2 := set_nodes _ s1).
  assert (nodes s2 = <[n := CmdList c2 (nuse (nodes s) n)]> (nodes s)) as Hn2 by done.
  eapply wpx_step; [apply read_cmd_eq; rewrite Hn2, lookup_insert_eq; eauto|]. rewrite Hn2, ncmd_eq. cbn [cmd].
  destruct Hcmd as ([cb Hcb] & _). eapply wpx_step; [change (cmd_cb c2) with (cmd_cb c); by rewrite Hcb|].
  assert (inv env None s2) as Hi2.
  { eapply (inv_active env None s1 s2 _ n q c2 _ Hi1 Hq Hn); try done.
    - by apply (q_act env (nodes s) _ q Hok).
    - intros _ Ha Hna. unfold is_active in Hna. change (nodes s1) with (nodes s) in Hna. congruence. }
  assert (evolves (Some n) s1 s2) as He2 by (eapply (evolves_node _ s1 s2 n); [done|done|by left|done]).
  assert (marked (nodes s2) n = true) as Hm2 by (unfold marked; by rewrite Hn2, nuse_eq).
  assert (partial \/ 1 <= f)%nat as Hf1 by (destruct Hf; [by left|right; lia]).
  eapply wpx_mono; [apply (co_callback f calls Hcalls); [done|by left|done]|].
  intros st2 s3 H3. pose proof H3 as (Hi3 & He3 & Hw3).
  destruct (ev_pinned _ _ _ He3 n Hm2 ltac:(done)) as [Hm3 Hc3].
  destruct (in_use_active env None s3 n Hi3 (marked_in_use _ _ Hm3)) as (q3 & Hq3 & Hn3).
  eapply wpx_mono; [apply (activate_tail_ok s3 n q3 st2 Hi3 Hq3 Hn3 Hm3)|].
  - intros _ Hk Hneed. apply (ev_timers _ _ _ He3 n Hm2); [done|done|].
    apply Htimer; [done|]. unfold needs_timer in *. rewrite Hc3, Hn2, ncmd_eq in Hneed. exact Hneed.
  - by eapply (keeps_waiting s2).
  - intros st' s' (Hi' & He' & Hw'). split; [done|]. split.
    + eapply evolves_trans; [exact He1|]. eapply evolves_trans; [exact He2|].
      eapply evolves_trans; [by apply evolves_mono|done].
    + destruct Hw3 as [?|Hw3]; [by left|]. destruct Hw' as [?|Hw']; [by left|]. right. intros k.
      specialize (Hw3 k). specialize (Hw' k). change (waiting k s2) with (waiting k s) in Hw3. lia.
Qed.

(** ** Requests *)

(** The state is well, without a bound on what waits. *)
Definition safe s s' : Prop := inv env None s' /\ evolves None s s'.

Lemma keeps_safe s s' : keeps None s s' -> safe s s'.
Proof. intros (? & ? & _). done. Qed.
Lemma safe_refl s : inv env None s -> safe s s.
Proof. intros. split; [done|apply evolves_refl]. Qed.
Lemma safe_trans s1 s2 s3 : safe s1 s2 -> safe s2 s3 -> safe s1 s3.
Proof. intros [_ H1] [Hi H2]. split; [done|by eapply evolves_trans]. Qed.

(** *** What is answered to a request *)

Definition is_nil {A} (l : list A) : bool := match l with [] => true | _ => false end.

(** The list of a VDEV. *)
Definition vlist s v a : qdf_list_t :=
  match vqueues s !! v with Some vq => vl a vq | None => QdfList [] 1 end.
Definition full (l : qdf_list_t) : bool := (length (elems l) =? max_size l)%nat.

(** A scan starts while the psoc's limit allows another one and none waits on its pdev;
    a blocking command while no VDEV of the pdev has an active command; another one
    while its VDEV has none and no blocking command is active or waits; in both cases
    if nothing of the VDEV waits. *)
Definition starts c v q : bool :=
  if is_blocking c then vdev_active_cmd_bitmap q =? 0
  else negb (blocking_cmd_active q) && (wrap 8 (blocking_cmd_waiting q) =? 0)
       && negb (Z.testbit (vdev_active_cmd_bitmap q) (Z.of_nat v)).

Definition may_start s c v q : bool :=
  if cmd_type c <? WLAN_SER_CMD_NONSCAN then
    (active_scan_count s <? max_active_scans env) && is_nil (pend q)
  else starts c v q && is_nil (elems (vlist s v false)).

Lemma starts_idle c v q : starts c v q = true ->
  Z.testbit (vdev_active_cmd_bitmap q) (Z.of_nat v) = false.
Proof.
  unfold starts. destruct (is_blocking c).
  - intros ->%Z.eqb_eq. apply Z.testbit_0_l.
  - rewrite !andb_true_iff, !negb_true_iff. tauto.
Qed.

Definition closed s c v : bool :=
  (WLAN_SER_CMD_SCAN <? cmd_type c) &&
  match vqueues s !! v with Some vq => v_queue_disable vq | None => false end.

(** The answer to a request. *)
Definition admission s c : wlan_serialization_status :=
  match cmd_cb c, wlan_serialization_get_pdev_from_cmd env c, vdev c with
  | Some _, Some p, Some v =>
      match queues s !! wlan_serialization_get_pdev_queue_obj p (cmd_type c) with
      | None => WLAN_SER_CMD_DENIED_UNSPECIFIED
      | Some q =>
          if closed s c v then WLAN_SER_CMD_QUEUE_DISABLED
          else
            let a := may_start s c v q in
            if is_found (find_same s c (elems (ql a q))) then WLAN_SER_CMD_DENIED_UNSPECIFIED
            else if is_nil (pool q) || full (ql a q)
                    || (negb (cmd_type c <? WLAN_SER_CMD_NONSCAN) && full (vlist s v a))
            then WLAN_SER_CMD_DENIED_LIST_FULL
            else added a
      end
  | _, _, _ => WLAN_SER_CMD_DENIED_UNSPECIFIED
  end.

(** Whether a command may become active at once: what the answer tells. *)
Record allowed_spec c v (b : bool) k q q1 s s1 : Prop := {
  al_inv : inv env None s1;
  al_nodes : nodes s1 = nodes s;
  al_vqueues : vqueues s1 = vqueues s;
  al_timers : timers s1 = timers s;
  al_trace : trace s1 = trace s;
  al_queues : queues s1 = <[k := q1]> (queues s);
  al_lists : forall a, ql a q1 = ql a q;
  al_pool : cmd_pool_list q1 = cmd_pool_list q;
  al_bits : vdev_active_cmd_bitmap q1 = vdev_active_cmd_bitmap q;
  al_scan : b = true -> snd k = SCAN -> active_scan_count s1 < max_active_scans env;
  al_ns : b = true -> snd k = NS -> Z.testbit (vdev_active_cmd_bitmap q1) (Z.of_nat v) = false;
  al_val : b = may_start s c v q;
}.

Lemma set_queues_id s k q : queues s !! k = Some q -> queues s = <[k := q]> (queues s).
Proof. intros H. by rewrite insert_id. Qed.

Lemma allowed_ok s c p v q : inv env None s -> vdev c = Some v -> vdev_pdev env v = Some p ->
  let k := wlan_serialization_get_pdev_queue_obj p (cmd_type c) in
  queues s !! k = Some q ->
  exists b s1 q1, wlan_serialization_is_active_cmd_allowed env c s = Ret b s1 /\ allowed_spec c v b k q q1 s s1.
Proof.
  intros Hi Hv Hvp k Hq. unfold wlan_serialization_is_active_cmd_allowed, wlan_serialization_get_pdev_from_cmd.
  rewrite Hv, Hvp.
  assert (forall b : bool, (b = true -> snd k = SCAN -> active_scan_count s < max_active_scans env) ->
    (b = true -> snd k = NS -> Z.testbit (vdev_active_cmd_bitmap q) (Z.of_nat v) = false) ->
    b = may_start s c v q -> allowed_spec c v b k q q s s) as Hsame.
  { intros b H1 H2 H3. split; try done. by apply set_queues_id. }
  unfold may_start in Hsame |- *.
  destruct (Z.ltb_spec (cmd_type c) WLAN_SER_CMD_NONSCAN) as [Ht|Ht].
  - assert (k = (p, SCAN)) as Hk by (unfold k; by rewrite queue_obj_scan). clearbody k. subst k.
    unfold wlan_serialization_is_active_scan_cmd_allowed. rewrite bind_assoc, bind_gets.
    unfold mbind at 1, M_bind at 1. cbn [mret M_ret].
    destruct (Z.ltb_spec (active_scan_count s) (max_active_scans env)); cycle 1.
    { exists false, s, q. split; [done|]. by apply Hsame. }
    unfold wlan_serialization_is_scan_pending_queue_empty.
    rewrite (list_empty_eq s (QPending (p, SCAN)) (ql false q)) by exact (list_at_qref s false _ q Hq).
    eexists _, s, q. split; [done|]. by apply Hsame.
  - assert (k = (p, NS)) as Hk by (unfold k; by rewrite queue_obj_ns). clearbody k. subst k.
    destruct (vdev_queue None s p v q Hi Hq Hvp) as (vq & Hvq & Hvok).
    assert (vlist s v false = vl false vq) as Hvl by (unfold vlist; by rewrite Hvq).
    rewrite Hvl in Hsame.
    assert (forall b : bool, b = starts c v q ->
      wlan_serialization_is_active_non_scan_cmd_allowed p c s = Ret b s ->
      exists b s1 q1, (allowed ← wlan_serialization_is_active_non_scan_cmd_allowed p c;
        if allowed : bool then wlan_serialization_is_non_scan_pending_queue_empty c else mret false) s = Ret b s1 /\
        allowed_spec c v b (p, NS) q q1 s s1) as Hpure.
    { intros b Hb Heq. rewrite (bind_ret _ _ _ _ _ Heq). destruct b; rewrite <- Hb in Hsame; cycle 1.
      - exists false, s, q. split; [done|]. by apply Hsame.
      - unfold wlan_serialization_is_non_scan_pending_queue_empty. rewrite Hv.
        rewrite (list_empty_eq s (VPending v) (vl false vq)) by exact (list_at_vref s false v vq Hvq).
        eexists _, s, q. split; [done|]. apply Hsame; [done| |done]. intros _ _. by apply (starts_idle c). }
    unfold wlan_serialization_is_active_non_scan_cmd_allowed in Hpure |- *.
    rewrite queue_obj_ns in Hpure |- * by done.
    rewrite (bind_ret _ _ _ _ _ (read_queue_eq s _ q Hq)) in Hpure. cbv zeta in Hpure.
    pose proof (eq_refl (starts c v q)) as Hstarts. unfold starts at 2 in Hstarts.
    destruct (is_blocking c).
    + unfold wlan_serialization_any_vdev_cmd_active in *.
      destruct (Z.eqb_spec (vdev_active_cmd_bitmap q) 0) as [H0|Hne]; cbn [negb] in Hpure |- *.
      { by apply (Hpure true). }
      rewrite bind_assoc, (bind_ret _ _ _ _ _ (read_queue_eq s _ q Hq)). cbv zeta.
      rewrite (proj2 (Z.eqb_neq _ _) Hne). cbn [negb].
      set (q1 := set_blocking_waiting (fun w => w + 1) q). set (s1 := set_queues <[(p, NS) := q1]> s).
      exists false, s1, q1. split.
      { rewrite bind_assoc, (bind_ret _ _ _ _ _ (write_queue_eq s _ q _ Hq)). done. }
      split; try done; [|unfold may_start; rewrite (proj2 (Z.ltb_ge _ _) Ht); by rewrite Hstarts].
      eapply (inv_same env s s1 (p, NS) q q1 []); try done; [eauto|by rewrite app_nil_r].
    + destruct (blocking_cmd_active q || _) eqn:Eor.
      { apply (Hpure false); [|done]. rewrite Hstarts.
        apply orb_true_iff in Eor as [->|Hw%negb_true_iff]; [done|]. by rewrite Hw, andb_false_r. }
      apply orb_false_iff in Eor as [Ea Hw%negb_false_iff].
      rewrite Hv in Hpure |- *. apply (Hpure (negb (Z.testbit (vdev_active_cmd_bitmap q) (Z.of_nat v)))).
      * by rewrite Hstarts, Ea, Hw.
      * rewrite (bind_ret _ _ _ _ _ (vdev_get_id_eq v s)).
        rewrite (bind_ret _ _ _ _ _ (vdev_bit_eq v s (e_vdevs env HE v p Hvp))). done.
Qed.

Lemma present_queue_ok s c p v a q : inv env None s -> vdev c = Some v -> vdev_pdev env v = Some p ->
  queues s !! wlan_serialization_get_pdev_queue_obj p (cmd_type c) = Some q ->
  wlan_serialization_is_cmd_present_queue env c a s = Ret (is_found (find_same s c (elems (ql a q)))) s.
Proof.
  intros Hi Hv Hvp Hq. pose proof (live_queue env None s _ q a Hi Hq) as Hlive.
  unfold wlan_serialization_is_cmd_present_queue, wlan_serialization_get_pdev_from_cmd,
    wlan_serialization_get_vdev_from_cmd. rewrite Hv, Hvp.
  rewrite (bind_ret _ _ _ _ _ (get_pdev_obj_eq p s)).
  assert (exists q0, queues s !! (p, NS) = Some q0 /\ is_Some (queues s !! (p, SCAN))) as (q0 & Hq0 & Hobj).
  { unfold wlan_serialization_get_pdev_queue_obj in Hq. destruct (_ <? _).
    - destruct (proj1 (i_pair env None s Hi p) ltac:(eauto)) as [q0 ?]. eauto.
    - exists q. split; [done|]. apply (i_pair env None s Hi p). eauto. }
  destruct (vdev_queue None s p v q0 Hi Hq0 Hvp) as (vq & Hvq & Hvok).
  unfold wlan_serialization_get_vdev_obj. rewrite bind_gets, Hvq.
  rewrite (bool_decide_eq_true_2 (is_Some _)) by done. rewrite bool_decide_eq_true_2 by eauto. cbn [negb orb].
  destruct (Z.ltb_spec (cmd_type c) WLAN_SER_CMD_NONSCAN) as [Ht|Ht].
  - rewrite list_from_pdev. by rewrite (present_eq env s _ _ c (list_at_qref s a _ q Hq) (proj1 Hlive) (proj2 Hlive)).
  - rewrite queue_obj_ns in Hq by done. rewrite Hq in Hq0. injection Hq0 as <-.
    replace (wlan_serialization_get_list_from_vdev_queue v a) with (vref a v) by (by destruct a).
    pose proof (list_live_filter s (on_vdev (nodes s) v) _ Hlive) as Hlf.
    rewrite <- (vdev_ok_lists _ _ _ _ Hvok a) in Hlf.
    rewrite (present_eq env s _ _ c (list_at_vref s a v vq Hvq) (proj1 Hlf) (proj2 Hlf)).
    by rewrite (vdev_ok_lists _ _ _ _ Hvok a), (find_same_vdev s c v _ Hv).
Qed.

(** A command is put into the lists, or is not for want of room. *)
Record gave a h n v k q q' s s' : Prop := {
  gv_nodes : nodes s' = nodes s;
  gv_trace : trace s' = trace s;
  gv_timers : timers s' = timers s;
  gv_queues : queues s' = <[k := q']> (queues s);
  gv_added : q_added a h n q q';
  gv_pool : cmd_pool_list q' = cmd_pool_list q;
  gv_room : (length (elems (ql a q)) < max_size (ql a q))%nat;
  gv_scan : snd k = SCAN -> vqueues s' = vqueues s;
  gv_ns : snd k = NS -> vdev_active_cmd_bitmap q' =
       (if a then Z.setbit (vdev_active_cmd_bitmap q) (Z.of_nat v) else vdev_active_cmd_bitmap q) /\
     vqs_added (vqueues s) (vqueues s') a h n v /\
     forall vq, vqueues s !! v = Some vq -> (length (elems (vl a vq)) < max_size (vl a vq))%nat;
}.

Record denied v k s s' : Prop := {
  dn_nodes : nodes s' = nodes s;
  dn_trace : trace s' = trace s;
  dn_timers : timers s' = timers s;
  dn_queues : queues s' = queues s;
  dn_vqueues : forall w vq, vqueues s !! w = Some vq -> exists vq', vqueues s' !! w = Some vq' /\
     forall b, vl b vq' = vl b vq;
  dn_others : forall w, snd k = SCAN \/ w <> v -> vqueues s' !! w = vqueues s !! w;
}.

Lemma vl_disabling b c vq : vl b (disabling c vq) = vl b vq.
Proof. unfold disabling. by destruct (queue_disable c), b. Qed.

Lemma add_ok s p n a q v (c := ncmd (nodes s) n) :
  vdev c = Some v -> vdev_pdev env v = Some p -> is_Some (nodes s !! n) -> marked (nodes s) n = false ->
  let k := wlan_serialization_get_pdev_queue_obj p (cmd_type c) in
  queues s !! k = Some q ->
  (WLAN_SER_CMD_NONSCAN <= cmd_type c -> exists vq, vqueues s !! v = Some vq /\
     (n ∉ elems (vl a vq)) /\ list_live s (elems (vl a vq)) /\
     (length (elems (vl a vq)) <= max_size (vl a vq))%nat /\
     forall m, m ∈ elems (vl a vq) -> same_cmd (ncmd (nodes s) m) c = false) ->
  (length (elems (ql a q)) <= max_size (ql a q))%nat ->
  exists st s', (if cmd_type c <? WLAN_SER_CMD_NONSCAN then wlan_ser_add_scan_cmd p n a
    else wlan_ser_add_non_scan_cmd env p n a) s = Ret st s' /\
    if full (ql a q) || (negb (cmd_type c <? WLAN_SER_CMD_NONSCAN) && full (vlist s v a))
    then st = WLAN_SER_CMD_DENIED_LIST_FULL /\ denied v k s s'
    else st = added a /\ exists q', gave a (is_high_priority c) n v k q q' s s'.
Proof.
  intros Hv Hvp Hn Hm k Hq Hns Hlen. unfold full.
  destruct (Z.ltb_spec (cmd_type c) WLAN_SER_CMD_NONSCAN) as [Ht|Ht]; cbn [negb andb].
  - unfold wlan_ser_add_scan_cmd. rewrite (add_to_pdev_eq s p n k q a) by done. rewrite orb_false_r.
    destruct (Nat.eqb_spec (length (elems (ql a q))) (max_size (ql a q))) as [He|Hne].
    + eexists _, s. split; [done|]. split; [done|]. split; try done. eauto.
    + eexists _, _. split; [done|]. split; [done|].
      exists (q_put a (is_high_priority c) n q). split; try done; [by destruct a|by destruct a|lia|].
      unfold k. by rewrite queue_obj_scan.
  - assert (k = (p, NS)) as Hk by (unfold k; by rewrite queue_obj_ns). clearbody k. subst k.
    destruct (Hns Ht) as (vq & Hvq & Hnin & Hlive & Hvlen & Hno).
    assert (vlist s v a = vl a vq) as -> by (unfold vlist; by rewrite Hvq).
    rewrite (add_non_scan_eq env s p n v q vq a) by (done || by eapply e_vdevs).
    fold c. rewrite orb_comm.
    destruct (Nat.eqb_spec (length (elems (ql a q))) (max_size (ql a q))) as [He|Hne];
      [|destruct (Nat.eqb_spec (length (elems (vl a vq))) (max_size (vl a vq))) as [He|Hne']]; cbn [orb].
    1,2: eexists _, _; (split; [done|]); (split; [done|]); split; try done;
      [intros w vw Hw; cbn; destruct (decide (w = v)) as [->|Hwv];
        [rewrite lookup_insert_eq, Hvq in *; injection Hw as <-; eexists; split; [done|]; intros b; apply vl_disabling
        |rewrite lookup_insert_ne by done; eauto]
      |cbn; intros w [Hk|Hw]; [done|by rewrite lookup_insert_ne]].
    eexists _, _. split; [done|]. split; [done|].
    exists (q_busy a v (is_blocking c) (q_put a (is_high_priority c) n q)).
    split; try done.
    + destruct a; [|done]. split; unfold q_busy; by destruct (is_blocking c).
    + destruct a; [|done]. unfold q_busy. by destruct (is_blocking c).
    + lia.
    + intros _. split; [|split].
      * destruct a; [|done]. unfold q_busy. by destruct (is_blocking c).
      * split; [|intros w Hw; cbn; by rewrite lookup_insert_ne].
        exists vq, (disabling c (v_put a (is_high_priority c) n vq)). split; [done|].
        split; [cbn; by rewrite lookup_insert_eq|]. split; rewrite vl_disabling; by destruct a.
      * intros vq' Hvq'. rewrite Hvq in Hvq'. injection Hvq' as <-. lia.
Qed.

(** A request that is refused changes no list, no buffer and no timer. *)
Record refused s s' : Prop := {
  rf_nodes : nodes s' = nodes s;
  rf_trace : trace s' = trace s;
  rf_timers : timers s' = timers s;
  rf_lists : forall k q, queues s !! k = Some q ->
    exists q', queues s' !! k = Some q' /\ forall b, ql b q' = ql b q;
}.

(** The command [c] has been put in the buffer [n] into the active or the pending queue of
    its pdev: at the end, or at the front when it has priority; the other queue is as it
    was. *)
Definition queued (a : bool) c s n s' : Prop :=
  exists k q q', key_of env c = Some k /\ queues s !! k = Some q /\ queues s' !! k = Some q' /\
    fst n = k /\ ncmd (nodes s') n = c /\ q_added a (is_high_priority c) n q q'.

(** A command that is to be active is first queued and marked, and then activated, which
    calls its owner. *)
Definition enqueue_post c s (st : wlan_serialization_status) s' : Prop :=
  match st with
  | WLAN_SER_CMD_ACTIVE =>
      exists sq n p r, queued true c s n sq /\ marked (nodes sq) n = true /\
        trace sq = trace s ++ [EvQueue c SER_REQUEST true true] /\
        wlan_serialization_activate_cmd calls n p SER_REQUEST sq = Ret r s'
  | WLAN_SER_CMD_PENDING =>
      exists n, queued false c s n s' /\ trace s' = trace s ++ [EvQueue c SER_REQUEST true false]
  | _ => refused s s'
  end.

Lemma refused_refl s : refused s s.
Proof. split; eauto. Qed.

Lemma request_refused_eq s c p v q : inv env None s -> vdev c = Some v -> vdev_pdev env v = Some p ->
  queues s !! wlan_serialization_get_pdev_queue_obj p (cmd_type c) = Some q ->
  request_refused c SER_REQUEST s = Ret (if closed s c v then Some WLAN_SER_CMD_QUEUE_DISABLED else None) s.
Proof.
  intros Hi Hv Hvp Hq. unfold request_refused, wlan_serialization_get_vdev_from_cmd. rewrite Hv.
  unfold closed. destruct (Z.ltb_spec WLAN_SER_CMD_SCAN (cmd_type c)) as [Ht|]; cbn [andb]; [|done].
  rewrite bool_decide_eq_true_2 by done. unfold WLAN_SER_CMD_SCAN in Ht.
  rewrite queue_obj_ns in Hq by (unfold WLAN_SER_CMD_NONSCAN; lia).
  destruct (vdev_queue None s p v q Hi Hq Hvp) as (vq & Hvq & _).
  unfold wlan_serialization_get_vdev_obj. rewrite bind_gets, Hvq, bool_decide_eq_true_2 by eauto. cbn [negb].
  rewrite (bind_deref _ _ v) by done. rewrite (bind_ret _ _ _ _ _ (read_vqueue_eq s v vq Hvq)). done.
Qed.

Lemma remove_pool_eq s k q : queues s !! k = Some q ->
  wlan_serialization_remove_front (QPool k) s =
  match pool q with
  | [] => Ret None s
  | n :: rest => Ret (Some n) (set_queues <[k := q_set_pool (QdfList rest (max_size (cmd_pool_list q))) q]> s)
  end.
Proof.
  intros Hq. rewrite (remove_front_eq s (QPool k) _ (list_at_pool s k q Hq)).
  destruct (pool q); [done|]. by rewrite (set_list_pool s k q).
Qed.

(** The facts of a queue whose buffers may be taken from. *)
Lemma node_zero ns k q n : queue_ok env ns k q -> n ∈ pool q -> is_Some (ns !! n) ->
  ns !! n = Some (CmdList zero_cmd 0).
Proof.
  intros Hok Hn [cl Hcl]. destruct (q_pool env ns k q Hok n Hn) as [H1 H2].
  unfold nuse, ncmd in *. rewrite Hcl in *. destruct cl. cbn in *. congruence.
Qed.

(** The tail of a request: the buffer taken from the pool is added, or goes back. *)
Lemma enqueue_denied s1 s4 k q1 n rest v p : inv env None s1 -> queues s1 !! k = Some q1 ->
  pool q1 = n :: rest -> fst k = p -> vdev_pdev env v = Some p ->
  forall s3 c, s3 = set_nodes <[n := CmdList c 0]>
    (set_queues <[k := q_set_pool (QdfList rest (max_size (cmd_pool_list q1))) q1]> s1) ->
  denied v k s3 s4 ->
  exists s5, release_node k n s4 = Ret tt s5 /\ safe s1 s5 /\ refused s1 s5.
Proof.
  intros Hi Hq Hpool Hk Hvp s3 c Hs3 Hd. pose proof (i_queue env None s1 Hi k q1 Hq) as Hok.
  assert (n ∈ pool q1) as Hn by (rewrite Hpool; by left).
  assert (is_Some (nodes s1 !! n)) as Hlive by (eapply i_nodes; [done..|]; by apply (pool_addr env (nodes s1) k q1 Hok)).
  pose proof (node_zero _ _ _ _ Hok Hn Hlive) as Hzero.
  set (q2 := q_set_pool (QdfList rest (max_size (cmd_pool_list q1))) q1) in *.
  assert (queues s4 !! k = Some q2) as Hq4 by (rewrite (dn_queues _ _ _ _ Hd), Hs3; apply queues_set).
  assert (is_Some (nodes s4 !! n)) as Hlive4.
  { rewrite (dn_nodes _ _ _ _ Hd), Hs3. cbn. rewrite lookup_insert_eq. eauto. }
  eexists. split; [by apply release_node_eq|].
  set (q5 := q_set_pool (QdfList (pool q2 ++ [n]) (max_size (cmd_pool_list q2))) q2).
  set (s5 := set_queues _ _).
  assert (nodes s5 = nodes s1) as Hn5.
  { cbn. rewrite (dn_nodes _ _ _ _ Hd), Hs3. cbn. rewrite insert_insert_eq. by apply insert_id. }
  assert (queues s5 = <[k := q5]> (queues s1)) as Hq5.
  { cbn. rewrite (dn_queues _ _ _ _ Hd), Hs3. cbn. by rewrite insert_insert_eq. }
  assert (forall b, ql b q5 = ql b q1) as Hl5 by (by intros []).
  assert (trace s5 = trace s1) as Ht5 by (cbn; by rewrite (dn_trace _ _ _ _ Hd), Hs3).
  assert (timers s5 = timers s1) as Hts5 by (cbn; by rewrite (dn_timers _ _ _ _ Hd), Hs3).
  assert (inv env None s5) as Hi5.
  { eapply (inv_same env s1 s5 k q1 q5 []); try done.
    - cbn. rewrite Hpool. symmetry. apply Permutation_cons_append.
    - intros w vq Hw. cbn. apply (dn_vqueues _ _ _ _ Hd). by rewrite Hs3.
    - intros w Hw. cbn. rewrite (dn_others _ _ _ _ Hd); [by rewrite Hs3|].
      destruct Hw as [?|Hw]; [by left|right]. intros ->. congruence.
    - by rewrite Ht5, app_nil_r. }
  split.
  - split; [done|]. apply evolves_fields; [by eapply same_queues|done|]. by rewrite Hts5.
  - split; try done. intros k' q' Hq'. rewrite Hq5. destruct (decide (k = k')) as [<-|Hne].
    + rewrite lookup_insert_eq. rewrite Hq in Hq'. injection Hq' as <-. eauto.
    + rewrite lookup_insert_ne by done. eauto.
Qed.

Lemma refused_trans s1 s2 s3 : refused s1 s2 -> refused s2 s3 -> refused s1 s3.
Proof.
  intros [H1 H2 H3 H4] [H5 H6 H7 H8]. split; try congruence. intros k q Hq.
  destruct (H4 k q Hq) as (q2 & Hq2 & Hl2). destruct (H8 k q2 Hq2) as (q3 & Hq3 & Hl3).
  exists q3. split; [done|]. intros b. by rewrite Hl3, Hl2.
Qed.

Lemma allowed_safe c v b k q q1 s s1 : queues s !! k = Some q -> allowed_spec c v b k q q1 s s1 ->
  safe s s1 /\ refused s s1.
Proof.
  intros Hq H. split.
  - split; [apply H|]. apply evolves_fields; [eapply same_queues; [done|apply H]|apply H|].
    by rewrite (al_timers _ _ _ _ _ _ _ _ H).
  - split; [apply H..|]. intros k' q' Hq'. rewrite (al_queues _ _ _ _ _ _ _ _ H).
    destruct (decide (k = k')) as [<-|Hne].
    + rewrite lookup_insert_eq. rewrite Hq in Hq'. injection Hq' as <-. exists q1. split; [done|apply H].
    + rewrite lookup_insert_ne by done. eauto.
Qed.

(** A buffer of the pool takes the command. *)
Lemma enqueue_accepted s1 s4 s6 k q1 n rest v p c a q4 :
  let q2 := q_set_pool (QdfList rest (max_size (cmd_pool_list q1))) q1 in
  let s3 := set_nodes <[n := CmdList c 0]> (set_queues <[k := q2]> s1) in
  inv env None s1 -> queues s1 !! k = Some q1 -> pool q1 = n :: rest ->
  cmd_ok env k c -> vdev c = Some v -> fst k = p -> vdev_pdev env v = Some p ->
  (a = true -> snd k = SCAN -> active_scan_count s1 < max_active_scans env) ->
  (a = true -> snd k = NS -> Z.testbit (vdev_active_cmd_bitmap q1) (Z.of_nat v) = false) ->
  find_same s1 c (elems (ql a q1)) = None ->
  gave a (is_high_priority c) n v k q2 q4 s3 s4 ->
  nodes s6 = <[n := CmdList c (if a then Z.setbit 0 CMD_MARKED_FOR_ACTIVATION else 0)]> (nodes s1) ->
  queues s6 = queues s4 -> vqueues s6 = vqueues s4 -> timers s6 = timers s4 ->
  trace s6 = trace s4 ++ [EvQueue c SER_REQUEST true a] ->
  fst n = k /\ safe s1 s6 /\ queues s6 !! k = Some q4 /\ pool q4 = rest /\ q_added a (is_high_priority c) n q1 q4 /\
  (snd k = NS -> ~ has_timer (timers s6) n).
Proof.
  intros q2 s3 Hi Hq Hpool Hcmd Hv Hk Hvp Hscan Hns Hfind Hg Hn6 Hq6 Hv6 Ht6 Htr6.
  pose proof (i_queue env None s1 Hi k q1 Hq) as Hok.
  assert (n ∈ pool q1) as Hn by (rewrite Hpool; by left).
  pose proof (pool_addrs_key k n (pool_addr env _ k q1 Hok n Hn)) as Hnk.
  assert (q_added a (is_high_priority c) n q1 q4) as Hadd by (destruct (gv_added _ _ _ _ _ _ _ _ _ Hg); by destruct a).
  assert (pool q4 = rest) as Hpool4 by (by rewrite (gv_pool _ _ _ _ _ _ _ _ _ Hg)).
  assert (queues s6 = <[k := q4]> (queues s1)) as Hq6'.
  { rewrite Hq6, (gv_queues _ _ _ _ _ _ _ _ _ Hg). cbn. by rewrite insert_insert_eq. }
  assert (timers s6 = timers s1) as Ht6' by (by rewrite Ht6, (gv_timers _ _ _ _ _ _ _ _ _ Hg)).
  assert (inv env None s6) as Hi6.
  { eapply (inv_accept env s1 s6 k n rest q1 q4 a (is_high_priority c) c _
      [EvQueue c SER_REQUEST true a]); try done.
    - pose proof (gv_room _ _ _ _ _ _ _ _ _ Hg) as Hroom. by destruct a.
    - intros p' w -> Hw. rewrite Hv in Hw. injection Hw as <-. cbn in Hk. subst p'.
      destruct (gv_ns _ _ _ _ _ _ _ _ _ Hg eq_refl) as (Hbm & Hvqs & Hroom).
      destruct (vdev_queue None s1 p v q1 Hi Hq Hvp) as (vq & Hvq & Hvok).
      split; [exact Hbm|]. rewrite Hv6. split; [exact Hvqs|]. split.
      + intros Ha. apply (idle_list _ p q1 v vq _ (i_ns env None s1 Hi p q1 Hq) Hvok). by apply Hns.
      + intros -> vq' Hvq'. specialize (Hroom vq' Hvq'). rewrite Hvq in Hvq'. injection Hvq' as <-.
        cbn in Hroom |- *. rewrite (v_max_pend _ _ _ _ Hvok) in Hroom. split; [done|].
        intros m Hm. rewrite (v_pend_eq _ _ _ _ Hvok) in Hm. apply elem_of_filter_b in Hm as [_ Hm].
        by apply (find_filter_none _ _ Hfind).
    - intros Hks. split; [|by intros ->; apply Hscan]. rewrite Hv6. by apply (gv_scan _ _ _ _ _ _ _ _ _ Hg).
    - by rewrite Htr6, (gv_trace _ _ _ _ _ _ _ _ _ Hg). }
  split; [done|]. split.
  - split; [done|]. eapply evolves_node; [by eapply same_queues|done| |by rewrite Ht6'].
    right. left. by eapply pool_unmarked.
  - split; [by rewrite Hq6', lookup_insert_eq|]. split; [done|]. split; [done|].
    intros Hkn. rewrite Ht6'. eapply unused_no_timer; [done| |congruence].
    by apply (q_pool env _ k q1 Hok).
Qed.

Lemma no_queue s p t : inv env None s -> ~ is_Some (queues s !! (p, SCAN)) ->
  queues s !! wlan_serialization_get_pdev_queue_obj p t = None.
Proof.
  intros Hi Hno. apply eq_None_not_Some. intros Hs. apply Hno.
  unfold wlan_serialization_get_pdev_queue_obj in Hs. destruct (_ <? _); [done|].
  by apply (i_pair env None s Hi p).
Qed.

Lemma enqueue_ok s c : inv env None s -> 0 <= cmd_type c ->
  (partial \/ forall k, waiting k s + 2 <= f)%nat ->
  wpx partial (wlan_serialization_enqueue_cmd env calls c SER_REQUEST)
    (fun st s' => st = admission s c /\ safe s s' /\ enqueue_post c s st s') s.
Proof.
  intros Hi Hty Hf. remember (admission s c) as adm eqn:Hadm.
  unfold wlan_serialization_enqueue_cmd. unfold admission in Hadm.
  pose proof (safe_refl s Hi) as Hsr. pose proof (refused_refl s) as Hrr.
  destruct (cmd_cb c) as [cb|] eqn:Hcb; [|by apply wpx_mret].
  destruct (wlan_serialization_get_pdev_from_cmd env c) as [p|] eqn:Hp; [|by apply wpx_mret].
  destruct (get_pdev_vdev c p Hp) as (v & Hv & Hvp). rewrite Hv in Hadm.
  eapply wpx_step; [apply get_pdev_obj_eq|]. case_bool_decide as Hobj; cbn [negb]; cycle 1.
  { apply wpx_mret. by rewrite no_queue in Hadm. }
  cbv zeta. destruct (pdev_queues None s p Hi Hobj (cmd_type c)) as [q Hq].
  rewrite Hq in Hadm.
  eapply wpx_step; [by eapply request_refused_eq|].
  destruct (closed s c v); [by apply wpx_mret|].
  destruct (allowed_ok s c p v q Hi Hv Hvp Hq) as (a & s1 & q1 & Hall & Hspec).
  eapply wpx_step; [exact Hall|].
  destruct (allowed_safe _ _ _ _ _ _ _ _ Hq Hspec) as [Hsafe1 Href1].
  assert (inv env None s1) as Hi1 by apply Hspec.
  set (k := wlan_serialization_get_pdev_queue_obj p (cmd_type c)) in *.
  assert (queues s1 !! k = Some q1) as Hq1 by (by rewrite (al_queues _ _ _ _ _ _ _ _ Hspec), lookup_insert_eq).
  eapply wpx_step; [by eapply present_queue_ok|].
  rewrite <- (al_val _ _ _ _ _ _ _ _ Hspec) in Hadm. cbv zeta in Hadm.
  assert (find_same s c (elems (ql a q)) = find_same s1 c (elems (ql a q1))) as Hsame.
  { unfold find_same. by rewrite (al_lists _ _ _ _ _ _ _ _ Hspec), (al_nodes _ _ _ _ _ _ _ _ Hspec). }
  rewrite Hsame in Hadm.
  destruct (find_same s1 c (elems (ql a q1))) as [n0|] eqn:Hfind; cbn [is_found] in Hadm |- *; [by apply wpx_mret|].
  rewrite <- (al_pool _ _ _ _ _ _ _ _ Hspec) in Hadm.
  pose proof (remove_pool_eq s1 k q1 Hq1) as Hfront.
  pose proof (i_queue env None s1 Hi1 k q1 Hq1) as Hok1.
  destruct (pool q1) as [|n rest] eqn:Hpool; (eapply wpx_step; [exact Hfront|]); [by apply wpx_mret|].
  cbn [is_nil orb] in Hadm.
  set (q2 := q_set_pool _ q1). set (s2 := set_queues _ s1).
  assert (n ∈ pool q1) as Hn by (rewrite Hpool; by left).
  assert (is_Some (nodes s1 !! n)) as Hlive by (eapply i_nodes; [done..|]; by apply (pool_addr env (nodes s1) k q1 Hok1)).
  pose proof (node_zero _ _ _ _ Hok1 Hn Hlive) as Hzero.
  eapply wpx_step; [by apply (write_node_eq s2)|]. unfold set_cmd. cbn [cmd cmd_in_use].
  replace (nuse (nodes s2) n) with 0 by (unfold nuse; cbn; by rewrite Hzero).
  set (s3 := set_nodes _ s2).
  assert (ncmd (nodes s3) n = c) as Hc3 by (cbn; by rewrite ncmd_eq).
  assert (forall m, m ∈ elems (ql a q1) -> m <> n) as Hnm.
  { intros m Hm ->. by apply (ql_not_pool env _ k q1 Hok1 a n Hm). }
  assert (fst k = p) as Hkp by (unfold k, wlan_serialization_get_pdev_queue_obj; by destruct (_ <? _)).
  destruct (add_ok s3 p n a q2 v) as (st & s4 & Hadd & Hres); rewrite ?Hc3; try done.
  - cbn. rewrite lookup_insert_eq. eauto.
  - unfold marked. cbn. by rewrite nuse_eq.
  - apply queues_set.
  - intros Ht. unfold k in Hq1. rewrite queue_obj_ns in Hq1 by done.
    destruct (vdev_queue None s1 p v q1 Hi1 Hq1 Hvp) as (vq & Hvq & Hvok). exists vq.
    pose proof (vdev_ok_lists _ _ _ _ Hvok a) as Hvl. split; [done|].
    assert (forall m, m ∈ elems (vl a vq) -> m ∈ elems (ql a q1)) as Hsub.
    { intros m. rewrite Hvl. by intros [_ ?]%elem_of_filter_b. }
    split; [intros Hin; by apply (Hnm n (Hsub n Hin))|]. split; [|split].
    + rewrite Hvl. destruct (list_live_filter s1 (on_vdev (nodes s1) v) _ (live_queue env None s1 _ q1 a Hi1 Hq1)) as [Hnd Hl].
      split; [done|]. intros m Hm. cbn. destruct (decide (n = m)) as [->|]; [rewrite lookup_insert_eq; eauto|].
      rewrite lookup_insert_ne by done. by apply Hl.
    + destruct a; [|rewrite (v_max_pend _ _ _ _ Hvok : max_size (vl false vq) = _); apply (v_len_pend _ _ _ _ Hvok)].
      assert (snd k = NS) as Hkn by (unfold k; by rewrite queue_obj_ns).
      pose proof (al_ns _ _ _ _ _ _ _ _ Hspec eq_refl Hkn) as Hb.
      destruct (idle_list _ p q1 v vq _ (i_ns env None s1 Hi1 p q1 Hq1) Hvok Hb) as [_ ->]. cbn. lia.
    + intros m Hm%Hsub. cbn. rewrite ncmd_ne by (intros ->; by apply (Hnm m Hm)).
      by apply (find_filter_none _ _ Hfind).
  - cbn. unfold q2. rewrite ql_pool. destruct Hok1. destruct a; cbn; lia.
  - rewrite Hc3 in Hadd. eapply wpx_step; [exact Hadd|].
    assert (full (ql a q2) = full (ql a q) /\ vlist s3 v a = vlist s v a) as [Hfull Hvlist].
    { unfold q2. rewrite ql_pool, (al_lists _ _ _ _ _ _ _ _ Hspec). split; [done|].
      unfold vlist. cbn. by rewrite (al_vqueues _ _ _ _ _ _ _ _ Hspec). }
    rewrite Hc3, Hfull, Hvlist in Hres.
    destruct (full (ql a q) || _); [destruct Hres as [-> Hd]|destruct Hres as [-> (q4 & Hg)]].
    + rewrite !bool_decide_eq_true_2 by done. cbn [andb].
      fold k in Hd.
      destruct (enqueue_denied s1 s4 k q1 n rest v p Hi1 Hq1 Hpool Hkp Hvp s3 c eq_refl Hd) as (s5 & Hrel & Hs5 & Hr5).
      eapply wpx_step; [exact Hrel|]. apply wpx_mret. split; [done|].
      split; [by eapply safe_trans|by eapply refused_trans].
    + fold k in Hg.
      assert (cmd_ok env k c) as Hcmd.
      { split; [rewrite Hcb; eauto|]. split; [|done]. unfold key_of. rewrite Hp. done. }
      pose proof (enqueue_accepted s1 s4) as Hacc.
      assert (q_added a (is_high_priority c) n q1 q4 -> q_added a (is_high_priority c) n q q4) as Hspec_added.
      { unfold q_added. by rewrite !(al_lists _ _ _ _ _ _ _ _ Hspec). }
      assert (is_Some (nodes s4 !! n)) as Hlive4.
      { rewrite (gv_nodes _ _ _ _ _ _ _ _ _ Hg). cbn. rewrite lookup_insert_eq. eauto. }
      replace (bool_decide (added a <> WLAN_SER_CMD_PENDING) && bool_decide (added a <> WLAN_SER_CMD_ACTIVE))
        with false by (by destruct a).
      destruct a; cbn [added].
      * rewrite !(bool_decide_eq_true_2 (_ = _)) by done.
        eapply wpx_step; [by apply set_bit_eq|]. eapply wpx_step; [apply history_eq|].
        set (s6 := emit _ _).
        destruct (Hacc s6 k q1 n rest v p c true q4 Hi1 Hq1 Hpool Hcmd Hv Hkp Hvp
          (al_scan _ _ _ _ _ _ _ _ Hspec) (al_ns _ _ _ _ _ _ _ _ Hspec) Hfind Hg)
          as (Hnk & Hs6 & Hq6 & Hp6 & Hadd6 & Ht6); try done.
        { cbn. rewrite (gv_nodes _ _ _ _ _ _ _ _ _ Hg). cbn. by rewrite ncmd_eq, nuse_eq, !insert_insert_eq. }
        apply wpx_bind, wpx_bind. rewrite <- Hkp, <- Hnk.
        eapply wpx_mono; [apply wpx_ret_eq, (co_activate f calls Hcalls n SER_REQUEST s6 q4)|].
        -- apply Hs6.
        -- by rewrite Hnk.
        -- destruct Hadd6 as [H6 _]. cbn in H6. rewrite H6. apply elem_of_ins. by left.
        -- unfold marked. cbn. by rewrite nuse_eq, (gv_nodes _ _ _ _ _ _ _ _ _ Hg); cbn; rewrite nuse_eq.
        -- by rewrite Hnk.
        -- destruct Hf as [?|Hf]; [by left|right]. specialize (Hf k). rewrite Hnk.
           rewrite (waiting_at s6 k q4 Hq6). rewrite (waiting_at s k q Hq) in Hf.
           destruct Hadd6 as [_ H6]. cbn in H6. rewrite H6.
           pose proof (al_lists _ _ _ _ _ _ _ _ Hspec false) as Hl. cbn in Hl. by rewrite Hl.
        -- intros st s7 [Hret (Hi7 & He7 & _)]. apply wpx_mret. split; [done|]. split.
           { split; [done|]. eapply evolves_trans; [apply Hsafe1|]. apply (evolves_unmarked n).
             - eapply evolves_trans; [apply evolves_mono, Hs6|done].
             - eapply pool_unmarked; done. }
           exists s6, n, (fst (fst n)), st. split; [|split_and!; [| |exact Hret]].
           ++ exists k, q, q4. destruct Hcmd as (_ & Hkey & _). split_and!; try done.
              ** cbn. by rewrite ncmd_eq, (gv_nodes _ _ _ _ _ _ _ _ _ Hg); cbn; rewrite ncmd_eq.
              ** by apply Hspec_added.
           ++ unfold marked. cbn. by rewrite nuse_eq, (gv_nodes _ _ _ _ _ _ _ _ _ Hg); cbn; rewrite nuse_eq.
           ++ cbn. by rewrite (gv_trace _ _ _ _ _ _ _ _ _ Hg); cbn; rewrite (al_trace _ _ _ _ _ _ _ _ Hspec).
      * rewrite (bool_decide_eq_false_2 (_ = _)) by done.
        eapply wpx_step; [done|]. eapply wpx_step; [apply history_eq|]. set (s6 := emit _ s4).
        destruct (Hacc s6 k q1 n rest v p c false q4 Hi1 Hq1 Hpool Hcmd Hv Hkp Hvp
          (al_scan _ _ _ _ _ _ _ _ Hspec) (al_ns _ _ _ _ _ _ _ _ Hspec) Hfind Hg)
          as (Hnk & Hs6 & Hq6 & Hp6 & Hadd6 & Ht6); try done.
        { cbn. rewrite (gv_nodes _ _ _ _ _ _ _ _ _ Hg). done. }
        eapply wpx_step; [done|]. apply wpx_mret. split; [done|]. split; [by eapply safe_trans|].
        exists n. split.
        -- exists k, q, q4. destruct Hcmd as (_ & Hkey & _). split_and!; try done.
           ++ cbn. by rewrite (gv_nodes _ _ _ _ _ _ _ _ _ Hg).
           ++ by apply Hspec_added.
        -- cbn. by rewrite (gv_trace _ _ _ _ _ _ _ _ _ Hg); cbn; rewrite (al_trace _ _ _ _ _ _ _ _ Hspec).
Qed.

(** ** The entry points *)

Lemma waiting_bound s k : inv env None s -> (waiting k s <= WLAN_SER_MAX_PENDING_CMDS)%nat.
Proof.
  intros Hi. unfold waiting. destruct (queues s !! k) as [q|] eqn:Hq; [|lia].
  pose proof (q_len_pend env (nodes s) k q (i_queue env None s Hi k q Hq)) as Hl.
  enough (max_pending_of (snd k) <= WLAN_SER_MAX_PENDING_CMDS)%nat by lia.
  destruct (snd k); vm_compute; lia.
Qed.

(** Nesting deep enough for every pending command of a queue. *)
Definition deep : nat := WLAN_SER_MAX_PENDING_CMDS + 2.

Hypothesis Hdeep : (partial \/ deep <= f)%nat.

Lemma deep_waiting s (i : nat) : inv env None s -> (i <= 2)%nat -> (partial \/ forall k, waiting k s + i <= f)%nat.
Proof.
  intros Hi Hn. destruct Hdeep as [?|Hd]; [by left|right]. intros k. pose proof (waiting_bound s k Hi).
  unfold deep in Hd. lia.
Qed.

Lemma deep_one : (partial \/ 1 <= f)%nat.
Proof. destruct Hdeep as [?|Hd]; [by left|right]. unfold deep in Hd. lia. Qed.

Lemma safe_seq {A B} (m : M W A) (m' : A -> M W B) s :
  wpx partial m (fun _ s' => safe s s') s ->
  (forall x s', inv env None s' -> (forall k, is_Some (queues s !! k) <-> is_Some (queues s' !! k)) ->
     wpx partial (m' x) (fun _ s'' => safe s' s'') s') ->
  wpx partial (x ← m; m' x) (fun _ s'' => safe s s'') s.
Proof.
  intros Hm Hk. apply wpx_bind. eapply wpx_mono; [exact Hm|]. intros x s' H'. pose proof H' as [Hi' He'].
  eapply wpx_mono; [apply (Hk x s' Hi' (ev_queues _ _ _ He'))|]. intros y s'' H''.
  exact (safe_trans s s' s'' H' H'').
Qed.

Lemma safe_ret {A} (x : A) s : inv env None s -> wpx partial (mret x) (fun _ s' => safe s s') s.
Proof. intros Hi. by apply safe_refl. Qed.

Lemma safe_wpx {A} (m : M W A) s : wpx partial m (fun _ s' => keeps None s s') s ->
  wpx partial m (fun _ s' => safe s s') s.
Proof. intros H. eapply wpx_mono; [exact H|]. intros x s' H'. by apply keeps_safe. Qed.

Lemma dequeue_safe s c reason a : inv env None s ->
  wpx partial (wlan_serialization_dequeue_cmd env calls c reason a) (fun _ s' => safe s s') s.
Proof.
  intros Hi. apply safe_wpx, (dequeue_ok None); [done|by left|]. intros k _.
  destruct (deep_waiting s 1 Hi ltac:(lia)) as [?|H]; [by left|by right].
Qed.

Lemma validate_type comp t : QDF_IS_STATUS_ERROR (wlan_serialization_validate_cmd comp t) = false -> 0 <= t.
Proof.
  unfold wlan_serialization_validate_cmd. destruct (Z.ltb_spec t 0); [done|lia].
Qed.

(** The answer of the entry point: invalid commands and the rules come first. *)
Definition answer s (oc : option wlan_serialization_command) : wlan_serialization_status :=
  match oc with
  | None => WLAN_SER_CMD_DENIED_UNSPECIFIED
  | Some c =>
      if QDF_IS_STATUS_ERROR (wlan_serialization_validate_cmd (source c) (cmd_type c))
      then WLAN_SER_CMD_DENIED_UNSPECIFIED
      else match wlan_serialization_get_pdev_from_cmd env c, vdev c with
           | Some _, Some v =>
               if rules_loop (Z.to_nat WLAN_UMAC_COMP_ID_MAX) 0 c v s then admission s c
               else WLAN_SER_CMD_DENIED_RULES_FAILED
           | _, _ => WLAN_SER_CMD_DENIED_UNSPECIFIED
           end
  end.

Lemma request_ok s oc : inv env None s ->
  wpx partial (wlan_serialization_request env calls oc)
    (fun st s' => st = answer s oc /\ safe s s' /\
       match oc with Some c => enqueue_post c s st s' | None => refused s s' end) s.
Proof.
  intros Hi. unfold wlan_serialization_request, answer. pose proof (safe_refl s Hi). pose proof (refused_refl s).
  destruct oc as [c|]; [|by apply wpx_mret].
  destruct (QDF_IS_STATUS_ERROR _) eqn:Hval; [by apply wpx_mret|]. apply validate_type in Hval.
  destruct (wlan_serialization_get_pdev_from_cmd env c) as [p|]; [|by apply wpx_mret].
  destruct (vdev c) as [v|]; [|by apply wpx_mret].
  eapply wpx_step; [done|]. cbn beta. destruct (rules_loop _ _ _ _ _); cbn [negb]; [|by apply wpx_mret].
  apply enqueue_ok; [done|done|]. apply deep_waiting; [done|lia].
Qed.

Lemma remove_api_ok s oi : inv env None s ->
  wpx partial (wlan_serialization_remove_cmd env calls oi) (fun _ s' => safe s s') s.
Proof.
  intros Hi. unfold wlan_serialization_remove_cmd. destruct oi as [i|]; [|by apply safe_ret].
  destruct (QDF_IS_STATUS_ERROR _); [by apply safe_ret|].
  apply safe_seq; [by apply dequeue_safe|]. intros x s' Hi' _. by apply safe_ret.
Qed.

Lemma cancel_api_ok s oi : inv env None s ->
  wpx partial (wlan_serialization_cancel_request env calls oi) (fun _ s' => safe s s') s.
Proof.
  intros Hi. unfold wlan_serialization_cancel_request. destruct oi as [i|]; [|by apply safe_ret].
  destruct (QDF_IS_STATUS_ERROR _); [by apply safe_ret|].
  unfold wlan_serialization_find_and_cancel_cmd.
  destruct (wlan_serialization_get_pdev_from_cmd env _) as [p|]; [|by apply safe_ret].
  eapply wpx_step; [apply get_pdev_obj_eq|]. case_bool_decide as Hobj; cbn [negb]; [|by apply safe_ret].
  pose proof deep_one. destruct (req_type i); try (by apply safe_ret); by apply safe_wpx, cancel_handler_ok.
Qed.

Lemma update_timer_ok s oc : inv env None s ->
  wpx partial (wlan_serialization_update_timer env oc) (fun _ s' => safe s s') s.
Proof.
  intros Hi. unfold wlan_serialization_update_timer. destruct oc as [c|]; [|by apply safe_ret].
  destruct (wlan_serialization_get_pdev_from_cmd env c) as [p|]; [|by apply safe_ret].
  unfold wlan_serialization_find_and_update_timer. eapply wpx_step; [done|].
  assert (forall t m, t ∈ timers s -> t_cmd t = Some m -> is_Some (nodes s !! m)) as Hlive.
  { intros t m [i Hit]%list_elem_of_lookup_1. by apply (timers_live None s Hi i t m). }
  destruct (timer_of_spec s 0 (timers s) c Hlive) as (o & Ho & Hspec).
  eapply wpx_step; [exact Ho|]. destruct o as [i|]; [|by apply safe_ret].
  destruct Hspec as (_ & t & m & Ht & Hm & _). rewrite Nat.sub_0_r in Ht.
  eapply wpx_step; [by rewrite Ht|]. eapply wpx_step; [done|]. apply wpx_mret.
  set (t' := Timer (t_cmd t) _).
  assert (forall j u, <[i := t']> (timers s) !! j = Some u -> exists w, timers s !! j = Some w /\ t_cmd w = t_cmd u) as Hold.
  { intros j u Hj. destruct (decide (i = j)) as [->|Hne].
    - rewrite list_lookup_insert_eq in Hj by (by eapply lookup_lt_Some). injection Hj as <-. by exists t.
    - rewrite list_lookup_insert_ne in Hj by done. by exists u. }
  assert (forall n, has_timer (timers s) n -> has_timer (<[i := t']> (timers s)) n) as Hkeep.
  { intros n Hn. eapply has_timer_insert; eauto. }
  split; [|by apply evolves_fields; [done|done|intros n _ _ Hn; by apply Hkeep]].
  eapply (inv_fields env None None s _ []); try done; [by rewrite app_nil_r|]. cbn.
  destruct (i_timers env None s Hi) as [H1 H2 H3 H4]. split.
  - intros j u n Hj Hu. destruct (Hold j u Hj) as (w & Hw & Heq). apply (H1 j w n Hw). congruence.
  - intros j u n Hj Hu. destruct (Hold j u Hj) as (w & Hw & Heq). apply (H2 j w n Hw). congruence.
  - intros j j' u u' n Hj Hj' Hu Hu'. destruct (Hold j u Hj) as (w & Hw & Heq).
    destruct (Hold j' u' Hj') as (w' & Hw' & Heq'). apply (H3 j j' w w' n Hw Hw'); congruence.
  - intros n Hk Ha Hneed Hx. by apply Hkeep, H4.
Qed.

Lemma vdev_obj_eq s v : wlan_serialization_get_vdev_obj (Some v) s =
  Ret (bool_decide (is_Some (vqueues s !! v))) s.
Proof. done. Qed.

Lemma queue_disable_ok s v : inv env None s ->
  wpx partial (wlan_ser_vdev_queue_disable env v) (fun _ s' => safe s s') s.
Proof.
  intros Hi. unfold wlan_ser_vdev_queue_disable.
  destruct (vdev_pdev env v) as [p|] eqn:Hvp; [|by apply safe_ret].
  eapply wpx_step; [apply get_pdev_obj_eq|]. eapply wpx_step; [apply vdev_obj_eq|].
  case_bool_decide as Hobj; cbn [negb orb]; [|by apply safe_ret].
  case_bool_decide as Hv; cbn [negb]; [|by apply safe_ret]. destruct Hv as [vq Hvq].
  destruct (proj1 (i_pair env None s Hi p) Hobj) as [q Hq].
  eapply wpx_step; [by apply write_vqueue_eq|]. apply wpx_mret. split; [|by apply evolves_fields].
  eapply (inv_same env s _ (p, NS) q q []); try done.
  - cbn. by rewrite insert_id.
  - intros w vw Hw. cbn. destruct (decide (v = w)) as [<-|Hne].
    + rewrite lookup_insert_eq. rewrite Hvq in Hw. injection Hw as <-. eexists. split; [done|]. by intros [].
    + rewrite lookup_insert_ne by done. eauto.
  - intros w [?|Hw]; [done|]. cbn in Hw |- *. rewrite lookup_insert_ne; [done|]. congruence.
  - by rewrite app_nil_r.
Qed.

Lemma cancel_scan_safe s p pd vd a : inv env None s -> is_Some (queues s !! (p, SCAN)) ->
  wpx partial (wlan_ser_cancel_scan_cmd env calls p pd vd None a) (fun _ s' => safe s s') s.
Proof. intros Hi [q Hq]. pose proof deep_one. by eapply safe_wpx, ser_cancel_scan_ok. Qed.

Lemma cancel_non_scan_safe s p pd vd a : inv env None s -> is_Some (queues s !! (p, SCAN)) ->
  wpx partial (wlan_ser_cancel_non_scan_cmd env calls p pd vd None WLAN_SER_CMD_NONSCAN a
    WLAN_SER_CMD_ATTR_NONE) (fun _ s' => safe s s') s.
Proof.
  intros Hi [q Hq]%(i_pair env None s Hi). pose proof deep_one. by eapply safe_wpx, ser_cancel_non_scan_ok.
Qed.

Lemma refs_safe s g : inv env None s -> safe s (set_vdev_refs g s).
Proof.
  intros Hi. pose proof (keeps_safe _ _ (keeps_timers s (timers s) (g (vdev_refs s)) Hi eq_refl)) as H.
  by destruct s.
Qed.

Lemma release_ref_ok s v : inv env None s ->
  wpx partial (wlan_objmgr_vdev_release_ref (Some v)) (fun _ s' => safe s s') s.
Proof.
  intros Hi. unfold wlan_objmgr_vdev_release_ref, modify, wpx.
  destruct (_ =? 0); [by apply safe_refl|by apply refs_safe].
Qed.

Lemma with_vdev_ok s p v (purge : M W unit) : inv env None s ->
  (forall s', inv env None s' -> is_Some (queues s' !! (p, SCAN)) ->
     wpx partial purge (fun _ s'' => safe s' s'') s') ->
  wpx partial (with_vdev env p v purge) (fun _ s' => safe s s') s.
Proof.
  intros Hi Hp. unfold with_vdev.
  eapply wpx_step; [apply get_pdev_obj_eq|]. case_bool_decide as Hobj; cbn [negb]; [|by apply safe_ret].
  apply safe_seq.
  - unfold wlan_objmgr_get_vdev_by_id_from_pdev. case_bool_decide; [|by apply safe_ret].
    unfold wlan_objmgr_vdev_try_get_ref. apply wpx_assoc. eapply wpx_step; [done|]. cbn beta.
    destruct (bool_decide _); [|by apply safe_ret]. apply wpx_assoc. eapply wpx_step; [done|].
    by apply wpx_mret, refs_safe.
  - intros [] s1 Hi1 Hq1; cbn [negb]; [|by apply safe_ret].
    apply safe_seq; [apply Hp; [done|by apply Hq1]|]. intros _ s2 Hi2 _. by apply release_ref_ok.
Qed.

(** A sequence of purges. *)
Ltac purges := repeat (apply safe_seq;
  [first [by apply cancel_scan_safe | by apply cancel_non_scan_safe]|];
  let Hi := fresh "Hi" in let Hq := fresh "Hq" in
  intros _ ? Hi Hq;
  match goal with H : is_Some (queues _ !! (_, SER_PDEV_QUEUE_COMP_SCAN)) |- _ => apply Hq in H end);
  by apply safe_ret.

Lemma purge_pdev_ok s p : inv env None s ->
  wpx partial (wlan_serialization_purge_all_pdev_cmd env calls p) (fun _ s' => safe s s') s.
Proof.
  intros Hi. unfold wlan_serialization_purge_all_pdev_cmd.
  eapply wpx_step; [apply get_pdev_obj_eq|]. case_bool_decide as Hobj; cbn [negb]; [|by apply safe_ret].
  purges.
Qed.

Lemma run_api_ok (api : ser_api) s : inv env None s -> wpx partial (run_api env calls api) (fun _ s' => safe s s') s.
Proof.
  intros Hi. destruct api as [c|i|i|c|v|p|p v|p v|p v]; cbn [run_api];
    (apply safe_seq; [|intros ? ? ? _; by apply safe_ret]).
  - eapply wpx_mono; [by apply request_ok|]. by intros st s' (_ & ? & _).
  - by apply remove_api_ok.
  - by apply cancel_api_ok.
  - by apply update_timer_ok.
  - by apply queue_disable_ok.
  - by apply purge_pdev_ok.
  - apply with_vdev_ok; [done|]. intros s1 Hi1 Hq1. purges.
  - apply with_vdev_ok; [done|]. intros s1 Hi1 Hq1. purges.
  - apply with_vdev_ok; [done|]. intros s1 Hi1 Hq1. purges.
Qed.

Lemma timer_cb_ok i s : inv env None s -> (i < length (timers s))%nat ->
  wpx partial (wlan_serialization_generic_timer_cb env calls i) (fun _ s' => safe s s') s.
Proof.
  intros Hi [t Ht]%lookup_lt_is_Some. unfold wlan_serialization_generic_timer_cb.
  eapply wpx_step; [done|]. eapply wpx_step; [by rewrite Ht|].
  destruct (t_cmd t) as [n|] eqn:Hn; [|by apply safe_ret].
  pose proof (timers_live None s Hi i t n Ht Hn) as Hlive.
  eapply wpx_step; [by apply read_cmd_eq|].
  destruct (vdev (ncmd (nodes s) n)) as [v|]; [|by apply safe_ret].
  apply safe_seq.
  { unfold notify. destruct (cmd_cb _) as [cb|]; [|by apply safe_ret].
    apply safe_seq; [|intros ? ? ? _; by apply safe_ret].
    apply safe_wpx, (co_callback f calls Hcalls); [apply deep_one|by right|done]. }
  intros _ s1 Hi1 Hq1.
  assert (is_Some (nodes s1 !! n)) as Hlive1.
  { destruct (i_dom env None s Hi n Hlive) as (q & Hq & Hin).
    destruct (proj1 (Hq1 (fst n)) ltac:(eauto)) as [q1 Hq1']. by eapply i_nodes. }
  eapply wpx_step; [by apply read_cmd_eq|].
  apply safe_seq; [by apply dequeue_safe|]. intros st s2 Hi2 _.
  destruct (bool_decide _); [by apply release_ref_ok|by apply safe_ret].
Qed.

End Calls.
End Run.
