(* ===== verification/SerSafe.v ===== *)
(** The serialization component from its creation on: the clients' callbacks and the
    component's own calls tied together, the states that can be reached, and their
    invariant. *)
From S2P Require Import Prelude Ser SerBase SerInv SerStep SerRun.

(** ** The clients' callbacks *)

(** A callback that does not call the component. *)
Fixpoint quiet {U : Type} (sc : script U) : Prop :=
  match sc with
  | Done _ => True
  | Own _ k => forall s, quiet (k s)
  | Call _ _ => False
  end.

Section Engine.
Context {U : Type} (env : ser_env) (HE : env_ok env).
Abbreviation W := (ser_world U).
Implicit Types (s : W) (f : nat).
Variable callbacks : nat -> wlan_serialization_command -> wlan_serialization_cb_reason -> script U.

(** Callbacks that are told of a cancellation or a release do not call back. *)
Definition release_quiet : Prop := forall cb c r,
  r = WLAN_SER_CB_CANCEL_CMD \/ r = WLAN_SER_CB_RELEASE_MEM_CMD -> quiet (callbacks cb c r).
Definition all_quiet : Prop := forall cb c r, quiet (callbacks cb c r).

Lemma run_quiet calls sc s : quiet sc ->
  exists st s', run_script env calls sc s = Ret st s' /\ noted [] s s'.
Proof.
  revert s. induction sc as [st|g k IH|a k IH]; intros s Hq; [| |done].
  - exists st, s. split; [done|]. split; try done. by rewrite app_nil_r.
  - cbn [run_script]. rewrite bind_modify, bind_gets.
    destruct (IH (set_usr g s) (set_usr g s) (Hq _)) as (st & s' & Hr & []).
    exists st, s'. split; [exact Hr|]. by split.
Qed.

Lemma run_script_ok f calls (Hcalls : calls_ok env True f calls) sc s : inv env None s ->
  wpx True (run_script env calls sc) (fun _ s' => safe env s s') s.
Proof.
  revert s. induction sc as [st|g k IH|a k IH]; intros s Hi; cbn [run_script].
  - by apply safe_ret.
  - apply safe_seq with (m := modify (set_usr g)).
    + apply wpx_eq with tt (set_usr g s); [done|]. split; [|by apply evolves_fields].
      eapply (inv_fields env None None s _ []); try done; [by rewrite app_nil_r|by apply (i_timers env None s Hi)].
    + intros _ s1 Hi1 _. eapply wpx_step; [done|]. by apply IH.
  - apply safe_seq; [by apply (run_api_ok env HE True f calls Hcalls); [left|]|].
    intros r s1 Hi1 _. by apply IH.
Qed.

Lemma noted_keeps partial es s s' : inv env None s -> noted es s s' -> accepted es = [] -> released es = [] ->
  keeps env partial None s s'.
Proof.
  intros Hi [Hn Hq Hv Ht Htr] Ha Hr. split; [|split].
  - eapply (inv_fields env None None s s' es); try done. rewrite Ht. by apply i_timers.
  - apply evolves_fields; [by rewrite Hq|done|]. by rewrite Ht.
  - right. intros k. unfold waiting. by rewrite Hq.
Qed.

Theorem engine_calls_ok partial f : release_quiet -> partial \/ all_quiet ->
  calls_ok env partial f (engine env callbacks f).
Proof.
  intros Hrel Hall. induction f as [|f IH].
  - split.
    + intros cb c r s [Hp|Hp]; [done|lia].
    + intros cb c r s [Hp|Hp]; [done|lia].
    + intros n reason s q _ _ _ _ _ [Hp|Hp]; [done|lia].
  - assert (forall cb c r s, quiet (callbacks cb c r) ->
      wpx partial (cmd_callback (engine env callbacks (S f)) cb c r)
        (fun _ s' => noted [EvCallback c r] s s') s) as Hquiet.
    { intros cb c r s Hq. cbn [engine cmd_callback]. eapply wpx_step; [done|].
      destruct (run_quiet (engine env callbacks f) _ (emit (EvCallback c r) s) Hq) as (st & s' & Hr & Hn).
      eapply wpx_eq; [exact Hr|]. destruct Hn as [? ? ? ? Htr]. split; try done.
      rewrite Htr. cbn. by rewrite app_nil_r. }
    split.
    + intros cb c r s _ Hr. apply Hquiet. by apply Hrel.
    + intros cb c r s _ Hr Hi.
      assert (accepted [EvCallback c r] = [] /\ released [EvCallback c r] = []) as [Ha Hre]
        by (by destruct Hr as [->| ->]).
      destruct Hall as [Hp|Hall].
      * cbn [engine cmd_callback]. eapply wpx_step; [done|].
        assert (calls_ok env True f (engine env callbacks f)) as Hcalls.
        { destruct IH as [H1 H2 H3]. split.
          - intros cb' c' r' s' _ Hr'. pose proof (H1 cb' c' r' s' (or_introl Hp) Hr') as H.
            unfold wpx in *. by destruct (cmd_callback _ _ _ _ _).
          - intros cb' c' r' s' _ Hr' Hi'. pose proof (H2 cb' c' r' s' (or_introl Hp) Hr' Hi') as H.
            unfold wpx in *. destruct (cmd_callback _ _ _ _ _); [|done|done].
            destruct H as (? & ? & _). split; [done|]. split; [done|by left].
          - intros n reason s' q Hi' Hq Hn Hm Ht _. pose proof (H3 n reason s' q Hi' Hq Hn Hm Ht (or_introl Hp)) as H.
            unfold wpx in *. destruct (wlan_serialization_activate_cmd _ _ _ _ _); [|done|done].
            destruct H as (? & ? & _). split; [done|]. split; [done|by left]. }
        set (s1 := emit _ s).
        assert (keeps env True None s s1) as Hk.
        { eapply (noted_keeps True [EvCallback c r]); try done. }
        pose proof (run_script_ok f _ Hcalls (callbacks cb c r) s1 ltac:(apply Hk)) as H.
        unfold wpx in *. destruct (run_script _ _ _ _); [|done|done].
        pose proof (safe_trans env s s1 _ (keeps_safe env True s s1 Hk) H) as [? ?].
        split; [done|]. split; [done|by left].
      * eapply wpx_mono; [by apply Hquiet|]. intros st s' Hn. by apply (noted_keeps partial [EvCallback c r]).
    + intros n reason s q Hi Hq Hn Hm Ht Hf. by apply (activate_body_ok env HE partial f _ IH n reason s q).
Qed.

End Engine.

(** ** The component's life *)

Section Reach.
Context {U : Type} (env : ser_env) (HE : env_ok env).
Abbreviation W := (ser_world U).
Abbreviation NS := SER_PDEV_QUEUE_COMP_NON_SCAN.
Abbreviation SCAN := SER_PDEV_QUEUE_COMP_SCAN.
Implicit Types (s : W) (k : qkey) (n : addr).

(** Creation: the timers of the psoc, then the queues of its pdevs and VDEVs. *)
Definition empty_world (created : gset nat) (u : U) : W :=
  SerWorld ∅ ∅ ∅ [] created ∅ ∅ ∅ [] u.

Fixpoint create_pdevs (ps : list nat) : M W unit :=
  match ps with
  | [] => mret ()
  | p :: ps => wlan_serialization_pdev_create_handler p;; create_pdevs ps
  end.

Fixpoint create_vdevs (vs : list (nat * bool)) : M W unit :=
  match vs with
  | [] => mret ()
  | (v, ap) :: vs => wlan_serialization_vdev_create_handler v ap;; create_vdevs vs
  end.

Definition boot (ps : list nat) (vs : list (nat * bool)) : M W unit :=
  wlan_serialization_psoc_enable (length ps);; create_pdevs ps;; create_vdevs vs.

Definition fresh_queue k : wlan_serialization_pdev_queue :=
  PdevQueue (QdfList [] (max_active_of (snd k))) (QdfList [] (max_pending_of (snd k)))
    (QdfList (pool_addrs k) (cmd_pool_size (snd k))) 0 false 0.
Definition fresh_vqueue : wlan_serialization_vdev_queue :=
  VdevQueue (QdfList [] 1) (QdfList [] 4) false.

Record fresh s : Prop := {
  fr_queue : forall k q, queues s !! k = Some q -> q = fresh_queue k;
  fr_pair : forall p, is_Some (queues s !! (p, SCAN)) <-> is_Some (queues s !! (p, NS));
  fr_nodes : forall n cl, nodes s !! n = Some cl ->
    cl = CmdList zero_cmd 0 /\ is_Some (queues s !! fst n) /\ n ∈ pool_addrs (fst n);
  fr_pool : forall k n, is_Some (queues s !! k) -> n ∈ pool_addrs k -> is_Some (nodes s !! n);
  fr_vqueue : forall v vq, vqueues s !! v = Some vq -> vq = fresh_vqueue;
  fr_timers : forall i t, timers s !! i = Some t -> t_cmd t = None;
  fr_trace : trace s = [];
}.

Lemma create_nodes_lookup k m n :
  create_nodes k m !! n = if bool_decide (n ∈ pool_addrs k) then Some (CmdList zero_cmd 0) else m !! n.
Proof.
  unfold create_nodes. induction (pool_addrs k) as [|a l IH]; [done|]. cbn.
  destruct (decide (a = n)) as [->|Hne].
  - rewrite lookup_insert_eq, bool_decide_eq_true_2; [done|]. by left.
  - rewrite lookup_insert_ne, IH by done. erewrite bool_decide_ext; [done|].
    rewrite elem_of_cons. split; [by right|]. by intros [->|].
Qed.

Lemma fresh_pdev s p : fresh s ->
  fresh (create_queue (p, NS) (create_queue (p, SCAN) s)).
Proof.
  intros [H1 H2 H3 H4 H5 H6 H7].
  assert (forall k, queues (create_queue (p, NS) (create_queue (p, SCAN) s)) !! k =
    if bool_decide (fst k = p) then Some (fresh_queue k) else queues s !! k) as Hq.
  { intros [p' kt]. cbn. case_bool_decide as Hp; cbn in Hp.
    - subst p'. destruct kt; [|by rewrite lookup_insert_eq].
      rewrite lookup_insert_ne by done. by rewrite lookup_insert_eq.
    - rewrite !lookup_insert_ne by congruence. done. }
  assert (forall n, nodes (create_queue (p, NS) (create_queue (p, SCAN) s)) !! n =
    if bool_decide (n ∈ pool_addrs (p, NS)) then Some (CmdList zero_cmd 0)
    else if bool_decide (n ∈ pool_addrs (p, SCAN)) then Some (CmdList zero_cmd 0) else nodes s !! n) as Hn.
  { intros n. change (create_nodes (p, NS) (create_nodes (p, SCAN) (nodes s)) !! n =
      if bool_decide (n ∈ pool_addrs (p, NS)) then Some (CmdList zero_cmd 0)
      else if bool_decide (n ∈ pool_addrs (p, SCAN)) then Some (CmdList zero_cmd 0) else nodes s !! n).
    by rewrite !create_nodes_lookup. }
  split; try done.
  - intros k q. rewrite Hq. case_bool_decide; [by intros [= <-]|apply H1].
  - intros p'. rewrite !Hq. cbn. case_bool_decide; [split; eauto|apply H2].
  - intros n cl. rewrite Hn. case_bool_decide as Ha; [|case_bool_decide as Hb].
    + intros [= <-]. rewrite (pool_addrs_key _ _ Ha), Hq, bool_decide_eq_true_2 by done. eauto.
    + intros [= <-]. rewrite (pool_addrs_key _ _ Hb), Hq, bool_decide_eq_true_2 by done. eauto.
    + intros Hcl. destruct (H3 n cl Hcl) as (-> & Hs & Hin). split; [done|]. split; [|done].
      rewrite Hq. case_bool_decide; [eauto|done].
  - intros k n. rewrite Hq, Hn. case_bool_decide as Hp; intros Hs Hin.
    + destruct k as [p' []]; cbn in Hp; subst p'; [|by rewrite bool_decide_eq_true_2].
      rewrite (bool_decide_eq_true_2 _ Hin). by case_bool_decide.
    + case_bool_decide; [done|]. case_bool_decide; [done|]. by eapply H4.
Qed.

Lemma fresh_vdev s v ap : fresh s ->
  exists s', wlan_serialization_vdev_create_handler v ap s = Ret QDF_STATUS_SUCCESS s' /\ fresh s' /\
    queues s' = queues s /\ (forall w, is_Some (vqueues s !! w) \/ w = v -> is_Some (vqueues s' !! w)).
Proof.
  intros [H1 H2 H3 H4 H5 H6 H7]. eexists. split; [done|]. split; [split; try done|split; [done|]]; cbn.
  - intros w vq. destruct (decide (v = w)) as [->|Hne].
    + rewrite lookup_insert_eq. intros [= <-]. by destruct ap.
    + rewrite lookup_insert_ne by done. apply H5.
  - intros w Hw. destruct (decide (v = w)) as [->|Hne]; [rewrite lookup_insert_eq; eauto|].
    rewrite lookup_insert_ne by done. destruct Hw; [done|congruence].
Qed.

Lemma create_pdevs_fresh ps s : fresh s ->
  exists s', create_pdevs ps s = Ret tt s' /\ fresh s' /\
    forall k, is_Some (queues s' !! k) -> is_Some (queues s !! k) \/ fst k ∈ ps.
Proof.
  revert s. induction ps as [|p ps IH]; intros s Hs.
  - exists s. split; [done|]. split; [done|]. by left.
  - cbn [create_pdevs]. destruct (IH _ (fresh_pdev s p Hs)) as (s' & Hr & Hf & Hq). exists s'.
    split; [exact Hr|]. split; [done|]. intros k Hk. destruct (Hq k Hk) as [Hk'|Hk']; [|by right; right].
    destruct (decide (fst k = p)) as [->|Hne]; [by right; left|left].
    cbn in Hk'. rewrite !lookup_insert_ne in Hk' by (intros <-; done). done.
Qed.

Lemma create_vdevs_fresh vs s : fresh s ->
  exists s', create_vdevs vs s = Ret tt s' /\ fresh s' /\ queues s' = queues s /\
    forall w, is_Some (vqueues s !! w) \/ w ∈ vs.*1 -> is_Some (vqueues s' !! w).
Proof.
  revert s. induction vs as [|[v ap] vs IH]; intros s Hs.
  - exists s. split; [done|]. split; [done|]. split; [done|].
    intros w [Hw|Hw]; [done|]. by apply elem_of_nil in Hw.
  - cbn [create_vdevs]. destruct (fresh_vdev s v ap Hs) as (s1 & Hr1 & Hf1 & Hq1 & Hv1).
    rewrite (bind_ret _ _ _ _ _ Hr1). destruct (IH s1 Hf1) as (s' & Hr & Hf & Hq & Hv).
    exists s'. split; [done|]. split; [done|]. split; [congruence|]. intros w Hw. apply Hv.
    rewrite fmap_cons, elem_of_cons in Hw. destruct Hw as [?|[->|?]]; [left|left|by right]; apply Hv1; auto.
Qed.

Lemma fresh_inv s : fresh s ->
  (forall p v, is_Some (queues s !! (p, NS)) -> vdev_pdev env v = Some p -> is_Some (vqueues s !! v)) ->
  inv env None s.
Proof.
  intros [H1 H2 H3 H4 H5 H6 H7] Hv.
  assert (forall n, nuse (nodes s) n = 0 /\ ncmd (nodes s) n = zero_cmd) as Hn.
  { intros n. unfold nuse, ncmd. destruct (nodes s !! n) as [cl|] eqn:E; [|done].
    by destruct (H3 n cl E) as [-> _]. }
  split.
  - intros k q n Hq. apply H4. eauto.
  - intros n [cl Hcl]. destruct (H3 n cl Hcl) as (_ & [q Hq] & Hin). eauto.
  - done.
  - intros k q Hq. rewrite (H1 k q Hq). split; cbn; try done; try lia.
    + by rewrite app_nil_r.
    + intros n Hin. by apply elem_of_nil in Hin.
    + intros n Hin. by apply elem_of_nil in Hin.
  - intros p q Hq. rewrite (H1 _ q Hq). split; cbn; try done.
    + intros v. apply Z.testbit_0_l.
    + constructor.
    + intros v Hvp. destruct (Hv p v ltac:(eauto) Hvp) as [vq Hvq]. exists vq. split; [done|].
      rewrite (H5 v vq Hvq). split; cbn; try done; [lia|]. intros n m Hin. by apply elem_of_nil in Hin.
  - intros k q Hq. rewrite (H1 k q Hq). unfold life_ok. by rewrite H7.
  - split.
    + intros i t n Hi Ht. by rewrite (H6 i t Hi) in Ht.
    + intros i t n Hi Ht. by rewrite (H6 i t Hi) in Ht.
    + intros i j t u n Hi _ Ht. by rewrite (H6 i t Hi) in Ht.
    + intros n _ Ha. unfold is_active in Ha. by rewrite (proj1 (Hn n)) in Ha.
  - assert (active_scan_count s = 0) as ->; [|lia]. unfold active_scan_count.
    assert (forall m : gmap qkey wlan_serialization_pdev_queue, (forall k q, m !! k = Some q -> q = fresh_queue k) ->
      map_fold wlan_serialization_active_scan_cmd_count_handler 0 m = 0) as Hz; [|by apply Hz].
    intros m. apply (map_fold_weak_ind (fun r m => (forall k q, m !! k = Some q -> q = fresh_queue k) -> r = 0)); [done|].
    intros k q m' r Hk IH Hm. rewrite (Hm k q) by apply lookup_insert_eq.
    assert (r = 0) as ->.
    { apply IH. intros k' q' Hk'. apply Hm. rewrite lookup_insert_ne; [done|]. congruence. }
    unfold wlan_serialization_active_scan_cmd_count_handler. by destruct (snd k).
Qed.

(** Every VDEV of the pdevs is created with them. *)
Definition covers (ps : list nat) (vs : list (nat * bool)) : Prop :=
  forall v p, p ∈ ps -> vdev_pdev env v = Some p -> v ∈ vs.*1.

Theorem ser_boot_inv ps vs created u : covers ps vs ->
  exists s, boot ps vs (empty_world created u) = Ret tt s /\ inv env None s.
Proof.
  intros Hc. unfold boot. set (s0 := set_timers (fun _ => replicate
    (WLAN_SER_MAX_ACTIVE_SCAN_CMDS + length ps * WLAN_SER_MAX_VDEVS) (Timer None None)) (empty_world created u)).
  rewrite (bind_ret _ _ tt _ s0) by done.
  assert (fresh s0) as H0.
  { split; try done; [intros k n [q Hq]; done|].
    intros i t Hi%lookup_replicate. by destruct Hi as [-> _]. }
  destruct (create_pdevs_fresh ps s0 H0) as (s1 & Hr1 & Hf1 & Hq1). rewrite (bind_ret _ _ _ _ _ Hr1).
  destruct (create_vdevs_fresh vs s1 Hf1) as (s2 & Hr2 & Hf2 & Hq2 & Hv2). exists s2. split; [done|].
  apply fresh_inv; [done|]. intros p v Hp Hvp. apply Hv2. right. apply (Hc v p); [|done].
  rewrite Hq2 in Hp. by destruct (Hq1 _ Hp) as [[q Hq]|?].
Qed.

(** *** The states that can be reached *)

Variable callbacks : nat -> wlan_serialization_command -> wlan_serialization_cb_reason -> script U.

(** What happens to the component: a client calls it, a timer expires; and what the
    clients do on their own: they change their state, register rules, and VDEVs are
    created and deleted. *)
Inductive ser_step : Type :=
  | StepApi (a : ser_api)
  | StepTimer (i : nat)
  | StepOwn (g : U -> U)
  | StepRules (t : Z) (cb : option (wlan_serialization_scan_info -> Z -> bool))
  | StepInfo (comp_id t : Z) (cb : option (nat -> U -> wlan_serialization_scan_info))
  | StepCreated (g : gset nat -> gset nat).

Definition set_created (g : gset nat -> gset nat) s : W :=
  SerWorld (nodes s) (queues s) (vqueues s) (timers s) (g (vdev_created s)) (vdev_refs s)
    (comp_info_cb s) (apply_rules_cb s) (trace s) (usr s).

Definition run_step (fuel : nat) (st : ser_step) : M W unit :=
  match st with
  | StepApi a => run_api env (engine env callbacks fuel) a;; mret ()
  | StepTimer i =>
      n ← gets (fun s => length (timers s));
      if (i <? n)%nat then wlan_serialization_generic_timer_cb env (engine env callbacks fuel) i
      else mret ()
  | StepOwn g => modify (set_usr g)
  | StepRules t (Some cb) => wlan_serialization_register_apply_rules_cb t cb;; mret ()
  | StepRules t None => wlan_serialization_deregister_apply_rules_cb t;; mret ()
  | StepInfo comp_id t (Some cb) => wlan_serialization_register_comp_info_cb comp_id t cb;; mret ()
  | StepInfo comp_id t None => wlan_serialization_deregister_comp_info_cb comp_id t;; mret ()
  | StepCreated g => modify (set_created g)
  end.

Inductive reachable : W -> Prop :=
  | reach_boot ps vs created u s :
      covers ps vs -> boot ps vs (empty_world created u) = Ret tt s -> reachable s
  | reach_step s fuel st s' : reachable s -> run_step fuel st s = Ret tt s' -> reachable s'.

Fixpoint run_steps (fuel : nat) (l : list ser_step) : M W unit :=
  match l with
  | [] => mret ()
  | st :: l => run_step fuel st;; run_steps fuel l
  end.

Lemma reachable_steps s fuel l s' : reachable s -> run_steps fuel l s = Ret tt s' -> reachable s'.
Proof.
  revert s. induction l as [|st l IH]; intros s Hr; [by intros [= <-]|].
  cbn [run_steps]. unfold mbind, M_bind. destruct (run_step fuel st s) as [[] s1| |] eqn:E; [|done|done].
  apply IH. by eapply reach_step.
Qed.

Lemma reachable_run ps vs created u fuel l s : covers ps vs ->
  (boot ps vs;; run_steps fuel l) (empty_world created u) = Ret tt s -> reachable s.
Proof.
  intros Hc. unfold mbind, M_bind. destruct (boot ps vs _) as [[] s1| |] eqn:E; [|done|done].
  apply reachable_steps. by eapply reach_boot.
Qed.

Lemma same_safe s s' : inv env None s -> nodes s' = nodes s -> queues s' = queues s ->
  vqueues s' = vqueues s -> trace s' = trace s -> timers s' = timers s -> safe env s s'.
Proof.
  intros Hi Hn Hq Hv Ht Htm. split.
  - eapply (inv_fields env None None s s' []); try done; [by rewrite app_nil_r|].
    rewrite Htm. by apply i_timers.
  - apply evolves_fields; [by rewrite Hq|done|]. by rewrite Htm.
Qed.

Lemma run_step_ok partial fuel st s : release_quiet callbacks -> partial \/ all_quiet callbacks ->
  (partial \/ deep <= fuel)%nat -> inv env None s ->
  wpx partial (run_step fuel st) (fun _ s' => safe env s s') s.
Proof.
  intros Hrel Hall Hf Hi. pose proof (engine_calls_ok env HE callbacks partial fuel Hrel Hall) as Hcalls.
  destruct st as [a|i|g|t [cb|]|c t [cb|]|g]; cbn [run_step].
  - apply (safe_seq env partial); [by eapply run_api_ok|]. intros r s1 Hi1 _. by apply safe_ret.
  - eapply wpx_step; [done|]. destruct (Nat.ltb_spec i (length (timers s))); [|by apply safe_ret].
    by eapply timer_cb_ok.
  - eapply wpx_eq; [done|]. by apply same_safe.
  - unfold wlan_serialization_register_apply_rules_cb. destruct (QDF_IS_STATUS_ERROR _).
    + eapply wpx_step; [done|]. by apply safe_ret.
    + eapply wpx_step; [done|]. apply wpx_mret. by apply same_safe.
  - unfold wlan_serialization_deregister_apply_rules_cb. destruct (QDF_IS_STATUS_ERROR _).
    + eapply wpx_step; [done|]. by apply safe_ret.
    + eapply wpx_step; [done|]. apply wpx_mret. by apply same_safe.
  - unfold wlan_serialization_register_comp_info_cb. destruct (QDF_IS_STATUS_ERROR _).
    + eapply wpx_step; [done|]. by apply safe_ret.
    + eapply wpx_step; [done|]. apply wpx_mret. by apply same_safe.
  - unfold wlan_serialization_deregister_comp_info_cb. destruct (QDF_IS_STATUS_ERROR _).
    + eapply wpx_step; [done|]. by apply safe_ret.
    + eapply wpx_step; [done|]. apply wpx_mret. by apply same_safe.
  - eapply wpx_eq; [done|]. by apply same_safe.
Qed.

Theorem ser_reachable_inv s : release_quiet callbacks -> reachable s -> inv env None s.
Proof.
  intros Hrel. induction 1 as [ps vs created u s Hc Hb|s fuel st s' _ IH Hst].
  - destruct (ser_boot_inv ps vs created u Hc) as (s' & Hb' & Hi). rewrite Hb in Hb'. by injection Hb' as ->.
  - pose proof (run_step_ok True fuel st s Hrel (or_introl I) (or_introl I) IH) as H.
    unfold wpx in H. rewrite Hst in H. apply H.
Qed.

End Reach.
