(* ===== verification/SerSpec.v ===== *)
(** What the serialization component promises, over every sequence of calls, timer
    expiries and callbacks; and where the code falls short of it. *)
From S2P Require Import Prelude Ser SerBase SerInv SerStep SerRun SerSafe.

(** ** A concrete psoc, for the witnesses *)

(** One pdev with five VDEVs; at most two scans. *)
Definition env1 : ser_env := Env (fun v => if (v <? 5)%nat then Some 0%nat else None) false 2.

(** Client 0 succeeds; client 1 fails its activations; client 2 asks from within its
    activation that the command be removed. *)
Definition clients (cb : nat) (c : wlan_serialization_command) (r : wlan_serialization_cb_reason)
  : script unit :=
  match cb, r with
  | 1%nat, WLAN_SER_CB_ACTIVATE_CMD => Done QDF_STATUS_E_FAILURE
  | 2%nat, WLAN_SER_CB_ACTIVATE_CMD =>
      Call (ApiRemove (Some (CmdInfo 0 (cmd_type c) (cmd_id c) WLAN_SER_CANCEL_MAX (vdev c) 0)))
        (fun _ => Done QDF_STATUS_SUCCESS)
  | _, _ => Done QDF_STATUS_SUCCESS
  end.

Definition calm (cb : nat) (c : wlan_serialization_command) (r : wlan_serialization_cb_reason)
  : script unit := Done QDF_STATUS_SUCCESS.

Definition request (cb : nat) (t id : Z) (v : nat) (blocking : bool) : ser_api :=
  ApiRequest (Some (Cmd t id (Some cb) 0 false blocking false SER_REQUEST 10 (Some v) 0)).
Definition remove (t id : Z) (v : nat) : ser_api :=
  ApiRemove (Some (CmdInfo 0 t id WLAN_SER_CANCEL_MAX (Some v) 0)).
Definition cancel (ty : wlan_serialization_cancel_type) (t id : Z) (v : nat) (queues : Z) : ser_api :=
  ApiCancel (Some (CmdInfo 0 t id ty (Some v) queues)).

Definition world0 : ser_world unit := empty_world (list_to_set (seq 0 5)) tt.
Definition vdevs1 : list (nat * bool) := (fun v => (v, true)) <$> seq 0 5.

Definition after callbacks (l : list ser_api) : ser_world unit :=
  match (boot [0%nat] vdevs1;; run_steps env1 callbacks 20 (StepApi <$> l)) world0 with
  | Ret _ s => s
  | _ => world0
  end.

(** The state a call leaves. *)
Definition final {A} (s : ser_world unit) (o : outcome (ser_world unit) A) : ser_world unit :=
  match o with Ret _ s' => s' | _ => s end.

Lemma env1_ok : env_ok env1.
Proof.
  assert (forall v p, vdev_pdev env1 v = Some p -> (v < 5)%nat) as Hlt.
  { intros v p. change ((if (v <? 5)%nat then Some 0%nat else None) = Some p -> (v < 5)%nat).
    destruct (Nat.ltb_spec v 5); [done|discriminate]. }
  split.
  - intros v p H%Hlt. unfold WLAN_UMAC_PSOC_MAX_VDEVS. lia.
  - intros p l Hnd Hl. transitivity (length (seq 0 5)); [|vm_compute; lia].
    apply submseteq_length, NoDup_submseteq; [done|]. intros v Hv. apply elem_of_seq.
    specialize (Hlt v p (Hl v Hv)). lia.
  - vm_compute. intros [=].
Qed.

Lemma covers1 : covers env1 [0%nat] vdevs1.
Proof.
  intros v p _ H. change ((if (v <? 5)%nat then Some 0%nat else None) = Some p) in H.
  destruct (Nat.ltb_spec v 5); [|done].
  unfold vdevs1. rewrite <- list_fmap_compose. apply list_elem_of_fmap. exists v.
  split; [done|]. apply elem_of_seq. lia.
Qed.

Lemma clients_quiet : release_quiet clients.
Proof. intros cb c r [->| ->]; by destruct cb as [|[|[]]]. Qed.

Lemma calm_quiet : all_quiet calm.
Proof. by intros cb c r. Qed.

Lemma calm_release_quiet : release_quiet calm.
Proof. by intros cb c r _. Qed.

Definition returned {A} (o : outcome (ser_world unit) A) : bool :=
  match o with Ret _ _ => true | _ => false end.

Lemma reachable_after callbacks l :
  returned ((boot [0%nat] vdevs1;; run_steps env1 callbacks 20 (StepApi <$> l)) world0) = true ->
  reachable env1 callbacks (after callbacks l).
Proof.
  unfold after. intros H.
  destruct ((boot [0%nat] vdevs1;; _) world0) as [[] s| |] eqn:E; [|done|done].
  eapply reachable_run; [apply covers1|exact E].
Qed.

(** ** Safety *)

Section Safety.
Context {U : Type} (env : ser_env) (HE : env_ok env)
  (callbacks : nat -> wlan_serialization_command -> wlan_serialization_cb_reason -> script U)
  (Hrel : release_quiet callbacks).
Abbreviation NS := SER_PDEV_QUEUE_COMP_NON_SCAN.
Abbreviation act q := (elems (active_list q)).
Abbreviation pend q := (elems (pending_list q)).
Abbreviation pool q := (elems (cmd_pool_list q)).
Implicit Types (s : ser_world U) (n : addr) (k : qkey).

(** C2: in every state that calls, timer expiries and re-entrant activation callbacks can
    lead to, a pdev has at most one active non-scan command per VDEV, and its bitmap has
    exactly the bits of the VDEVs that have one. *)
Theorem one_active_command_per_vdev s p q : reachable env callbacks s ->
  queues s !! (p, NS) = Some q ->
  NoDup ((fun n => vdev (ncmd (nodes s) n)) <$> act q) /\
  forall v : nat, Z.testbit (vdev_active_cmd_bitmap q) (Z.of_nat v) = true <->
    exists n, n ∈ act q /\ vdev (ncmd (nodes s) n) = Some v.
Proof.
  intros Hr Hq. pose proof (ser_reachable_inv env HE callbacks s Hrel Hr) as Hi.
  pose proof (i_ns env None s Hi p q Hq) as Hns. split; [apply (ns_uniq env _ _ _ _ Hns)|].
  intros v. rewrite (ns_bits env _ _ _ _ Hns), existsb_exists. unfold on_vdev.
  split; intros (n & Hn & Hv); exists n; rewrite list_elem_of_In, bool_decide_eq_true in *; done.
Qed.

(** C8: every command a client's request was accepted for is in the active or the pending
    queue, or its owner has been told to release it, exactly once. *)
Theorem accepted_commands_released_once s k q : reachable env callbacks s ->
  queues s !! k = Some q ->
  List.filter (of_key env k) (accepted (trace s)) ≡ₚ
  ((fun n => base (ncmd (nodes s) n)) <$> act q ++ pend q) ++
  List.filter (of_key env k) (released (trace s)).
Proof.
  intros Hr Hq. apply (i_life env None s (ser_reachable_inv env HE callbacks s Hrel Hr) k q Hq).
Qed.

(** the command buffers of a pdev's queue are never lost or used twice: the pool and
    the two queues always share them out; the queues keep to their sizes, and the active
    scans of the psoc to the scan module's limit. *)
Theorem buffers_accounted_for s k q : reachable env callbacks s -> queues s !! k = Some q ->
  pool q ++ act q ++ pend q ≡ₚ pool_addrs k /\
  (length (act q) <= max_active_of (snd k))%nat /\ (length (pend q) <= max_pending_of (snd k))%nat /\
  active_scan_count s <= Z.max 0 (max_active_scans env).
Proof.
  intros Hr Hq. pose proof (ser_reachable_inv env HE callbacks s Hrel Hr) as Hi.
  destruct (i_queue env None s Hi k q Hq). split; [done|]. split; [done|]. split; [done|].
  apply (i_scans env None s Hi).
Qed.

(** the queues of a VDEV are its commands in the queues of the pdev, in the same order,
    at most one active and four pending. *)
Theorem vdev_queues_mirror_pdev s p q v : reachable env callbacks s ->
  queues s !! (p, NS) = Some q -> vdev_pdev env v = Some p ->
  exists vq, vqueues s !! v = Some vq /\
    elems (v_active_list vq) = List.filter (on_vdev (nodes s) v) (act q) /\
    elems (v_pending_list vq) = List.filter (on_vdev (nodes s) v) (pend q) /\
    (length (elems (v_active_list vq)) <= 1)%nat /\ (length (elems (v_pending_list vq)) <= 4)%nat.
Proof.
  intros Hr Hq Hv. pose proof (ser_reachable_inv env HE callbacks s Hrel Hr) as Hi.
  destruct (vdev_queue env None s p v q Hi Hq Hv) as (vq & Hvq & Hok). exists vq. split; [done|].
  split; [apply Hok|]. split; [apply Hok|]. split; [|apply Hok].
  rewrite (v_act_eq _ _ _ _ Hok).
  pose proof (ns_uniq env _ _ _ _ (i_ns env None s Hi p q Hq)) as Hu.
  assert (forall l, NoDup ((fun n => vdev (ncmd (nodes s) n)) <$> l) ->
    (length (List.filter (on_vdev (nodes s) v) l) <= 1)%nat) as H; [|by apply H].
  induction l as [|n l IH]; [cbn; lia|]. cbn. intros [Hn Hnd]%NoDup_cons.
  destruct (on_vdev (nodes s) v n) eqn:E; [|by apply IH]. cbn.
  assert (List.filter (on_vdev (nodes s) v) l = []) as ->; [|cbn; lia].
  apply elem_of_nil_inv. intros m [Hm1 Hm2]%elem_of_filter_b. apply Hn.
  unfold on_vdev in *. rewrite bool_decide_eq_true in *. rewrite E, <- Hm1.
  by apply (list_elem_of_fmap_2 (fun n => vdev (ncmd (nodes s) n))).
Qed.

(** every activated non-scan command has a timer of its own, unless it has no timeout
    and the platform is an emulation; and every timer of a non-scan command is for one that
    is in the active queue, with no other timer. *)
Theorem active_commands_have_timers s p q : reachable env callbacks s ->
  queues s !! (p, NS) = Some q ->
  (forall n, n ∈ act q -> is_active (nodes s) n = true -> needs_timer env (nodes s) n ->
     exists i t, timers s !! i = Some t /\ t_cmd t = Some n) /\
  (forall i j t u n, fst n = (p, NS) -> timers s !! i = Some t -> t_cmd t = Some n ->
     n ∈ act q /\ (timers s !! j = Some u -> t_cmd u = Some n -> i = j)).
Proof.
  intros Hr Hq. pose proof (ser_reachable_inv env HE callbacks s Hrel Hr) as Hi.
  pose proof (i_timers env None s Hi) as Ht. pose proof (i_queue env None s Hi _ q Hq) as Hok.
  assert (forall n, n ∈ act q -> fst n = (p, NS)) as Hk.
  { intros n Hn. apply pool_addrs_key. by apply (ql_addr env _ _ q Hok true). }
  split.
  - intros n Hn Ha Hneed. apply (t_have env _ _ _ Ht n); [by rewrite Hk|done|done|done].
  - intros i j t u n Hkn Hit Htn. split.
    + destruct (t_live env _ _ _ Ht i t n Hit Htn ltac:(by rewrite Hkn)) as [Hu _].
      destruct (in_use_active env None s n Hi Hu) as (q' & Hq' & Hn). rewrite Hkn in Hq'. congruence.
    + intros Hju Hun. apply (t_once env _ _ _ Ht i j t u n); try done. by rewrite Hkn.
Qed.

(** C29: no call and no timer expiry follows a null pointer, unlinks a command from a list
    it is not in or walks out of a list, for clients whose activation and timeout callbacks
    may call the component again, to any depth, while those that are told of a
    cancellation or a release do not.  ([cancel_reentry_walks_out] is what happens when
    one that is told of a cancellation does.) *)
Theorem serialization_no_invalid_access s fuel st : reachable env callbacks s ->
  run_step env callbacks fuel st s <> Crash.
Proof.
  intros Hr Hc. pose proof (ser_reachable_inv env HE callbacks s Hrel Hr) as Hi.
  pose proof (run_step_ok env HE callbacks True fuel st s Hrel (or_introl I) (or_introl I) Hi) as H.
  unfold wpx in H. by rewrite Hc in H.
Qed.

(** C39: when no callback calls the component again every call returns: the activations
    nest at most as deep as a queue has pending commands. *)
Theorem serialization_returns s fuel st : all_quiet callbacks -> reachable env callbacks s ->
  (deep <= fuel)%nat -> exists s', run_step env callbacks fuel st s = Ret tt s'.
Proof.
  intros Hq Hr Hf. pose proof (ser_reachable_inv env HE callbacks s Hrel Hr) as Hi.
  pose proof (run_step_ok env HE callbacks False fuel st s Hrel (or_intror Hq) (or_intror Hf) Hi) as H.
  unfold wpx in H. destruct (run_step env callbacks fuel st s) as [[] s'| |]; [eauto|done|done].
Qed.


(** While a command is being activated nothing that its callback calls removes or
    changes it or stops its timer: a removal or cancellation is only noted in its buffer. *)
Theorem activation_not_interrupted s fuel a r s' n : inv env None s ->
  marked (nodes s) n = true -> run_api env (engine env callbacks fuel) a s = Ret r s' ->
  marked (nodes s') n = true /\ ncmd (nodes s') n = ncmd (nodes s) n /\
  (exists q, queues s' !! fst n = Some q /\ n ∈ act q) /\
  (snd (fst n) = NS -> has_timer (timers s) n -> has_timer (timers s') n).
Proof.
  intros Hi Hm Hrun. pose proof (engine_calls_ok env HE callbacks True fuel Hrel (or_introl I)) as Hcalls.
  pose proof (run_api_ok env HE True fuel _ Hcalls (or_introl I) a s Hi) as H.
  unfold wpx in H. rewrite Hrun in H. destruct H as [Hi' He].
  destruct (ev_pinned _ _ _ He n Hm ltac:(done)) as [Hm' Hc]. split; [done|]. split; [done|]. split.
  - apply (in_use_active env None s' n Hi'). by apply marked_in_use.
  - intros Hk. by apply (ev_timers _ _ _ He n Hm).
Qed.

End Safety.

(** ** Witnesses *)

(** Two commands of VDEV 1, one of which waits; a command of VDEV 2 whose activation
    callback asks for its removal; a scan. *)
Definition run1 : list ser_api :=
  [request 0 1 1 1 false; request 0 1 2 1 false; request 2 1 3 2 false; request 0 0 7 1 false].
Definition state1 : ser_world unit := after clients run1.
Definition queue1 : wlan_serialization_pdev_queue :=
  default (PdevQueue (QdfList [] 0) (QdfList [] 0) (QdfList [] 0) 0 false 0)
    (queues state1 !! (0%nat, SER_PDEV_QUEUE_COMP_NON_SCAN)).

Lemma state1_reachable : reachable env1 clients state1.
Proof. apply reachable_after. vm_compute. reflexivity. Qed.

(** The numbers of the buffers in a queue. *)
Definition numbers (l : qdf_list_t) : list nat := snd <$> elems l.

Lemma one_active_command_per_vdev_witness :
  numbers (active_list queue1) = [0%nat] /\ numbers (pending_list queue1) = [1%nat] /\
  forall v : nat, Z.testbit (vdev_active_cmd_bitmap queue1) (Z.of_nat v) = true <->
    exists n, n ∈ elems (active_list queue1) /\ vdev (ncmd (nodes state1) n) = Some v.
Proof.
  split; [vm_compute; reflexivity|]. split; [vm_compute; reflexivity|].
  apply (one_active_command_per_vdev env1 env1_ok clients clients_quiet state1 0 queue1 state1_reachable).
  vm_compute. reflexivity.
Defined.

Lemma accepted_commands_released_once_witness :
  cmd_id <$> accepted (trace state1) = [1; 2; 3; 7] /\
  List.filter (of_key env1 (0%nat, SER_PDEV_QUEUE_COMP_NON_SCAN)) (accepted (trace state1)) ≡ₚ
  ((fun n => base (ncmd (nodes state1) n)) <$> elems (active_list queue1) ++ elems (pending_list queue1)) ++
  List.filter (of_key env1 (0%nat, SER_PDEV_QUEUE_COMP_NON_SCAN)) (released (trace state1)).
Proof.
  split; [vm_compute; reflexivity|].
  apply (accepted_commands_released_once env1 env1_ok clients clients_quiet state1 _ queue1 state1_reachable).
  vm_compute. reflexivity.
Defined.

Lemma buffers_accounted_for_witness :
  length (elems (cmd_pool_list queue1)) = 83%nat /\
  (length (elems (active_list queue1)) <= 17)%nat /\ active_scan_count state1 <= 2.
Proof.
  split; [vm_compute; reflexivity|].
  destruct (buffers_accounted_for env1 env1_ok clients clients_quiet state1
    (0%nat, SER_PDEV_QUEUE_COMP_NON_SCAN) queue1 state1_reachable) as (_ & Ha & _ & Hs);
    [vm_compute; reflexivity|].
  split; [exact Ha|exact Hs].
Defined.

Lemma vdev_queues_mirror_pdev_witness :
  exists vq, vqueues state1 !! 1%nat = Some vq /\
    elems (v_pending_list vq) = List.filter (on_vdev (nodes state1) 1) (elems (pending_list queue1)).
Proof.
  destruct (vdev_queues_mirror_pdev env1 env1_ok clients clients_quiet state1 0 queue1 1 state1_reachable)
    as (vq & Hvq & _ & Hp & _); [vm_compute; reflexivity|reflexivity|].
  exists vq. split; [exact Hvq|exact Hp].
Defined.

Lemma active_commands_have_timers_witness :
  is_active (nodes state1) (0%nat, SER_PDEV_QUEUE_COMP_NON_SCAN, 0%nat) = true /\
  exists i t, timers state1 !! i = Some t /\ t_cmd t = Some (0%nat, SER_PDEV_QUEUE_COMP_NON_SCAN, 0%nat).
Proof.
  split; [vm_compute; reflexivity|].
  apply (active_commands_have_timers env1 env1_ok clients clients_quiet state1 0 queue1 state1_reachable).
  - vm_compute. reflexivity.
  - vm_compute. left.
  - vm_compute. reflexivity.
  - right. reflexivity.
Defined.

Lemma serialization_no_invalid_access_witness :
  run_step env1 clients 20 (StepApi (remove 1 1 1)) state1 <> Crash /\
  numbers (active_list (default queue1 (queues (after clients (run1 ++ [remove 1 1 1])) !!
    (0%nat, SER_PDEV_QUEUE_COMP_NON_SCAN)))) = [1%nat].
Proof.
  split; [|vm_compute; reflexivity].
  exact (serialization_no_invalid_access env1 env1_ok clients clients_quiet state1 20 _ state1_reachable).
Defined.

Definition state2 : ser_world unit := after calm run1.

Lemma state2_reachable : reachable env1 calm state2.
Proof. apply reachable_after. vm_compute. reflexivity. Qed.

Lemma serialization_returns_witness :
  exists s', run_step env1 calm deep (StepApi (ApiPurgePdev 0)) state2 = Ret tt s'.
Proof.
  apply (serialization_returns env1 env1_ok calm calm_release_quiet state2 deep _ calm_quiet state2_reachable).
  apply Nat.le_refl.
Defined.

Definition command1 : wlan_serialization_command :=
  Cmd 1 9 (Some 0%nat) 0 true false false SER_REQUEST 10 (Some 1%nat) 0.

(** A second VDEV's command of another type is active beside one that is. *)
Definition command2 : wlan_serialization_command :=
  Cmd 1 8 (Some 0%nat) 0 false false false SER_REQUEST 10 (Some 3%nat) 0.
Lemma second_vdev_active : exists s',
  wlan_serialization_request env1 (engine env1 clients 20) (Some command2) state1 = Ret WLAN_SER_CMD_ACTIVE s' /\
  exists q, queues s' !! (0%nat, SER_PDEV_QUEUE_COMP_NON_SCAN) = Some q /\ (2 <= length (elems (active_list q)))%nat.
Proof. eexists. split; [vm_compute; reflexivity|]. eexists. split; [reflexivity|]. apply Nat.leb_le. reflexivity. Qed.

Definition state1_pending : ser_world unit :=
  final state1 (wlan_serialization_request env1 (engine env1 clients 20) (Some command1) state1).


(** ** Callbacks of a cancellation that call the component *)

(** Client 3 cancels the scan with id 3 when a scan of its own is cancelled. *)
Definition reentrant (cb : nat) (c : wlan_serialization_command) (r : wlan_serialization_cb_reason)
  : script unit :=
  match cb, r with
  | 3%nat, WLAN_SER_CB_CANCEL_CMD =>
      Call (cancel WLAN_SER_CANCEL_SINGLE_SCAN 0 3 0 2) (fun _ => Done QDF_STATUS_SUCCESS)
  | _, _ => Done QDF_STATUS_SUCCESS
  end.
Definition five_scans : list ser_api :=
  [request 0 0 1 0 false; request 0 0 2 1 false; request 0 0 3 0 false; request 3 0 4 1 false;
   request 0 0 5 2 false].

(** The scans of VDEV 1 are cancelled: the walk over the pending queue skips the scan with
    id 3 of VDEV 0, removes the one with id 4, and goes on from the one it skipped, which
    the callback has put back into the pool meanwhile. *)
Lemma cancel_reentry_walks_out :
  run_step env1 reentrant 20 (StepApi (cancel WLAN_SER_CANCEL_VDEV_SCANS 0 0 1 2)) (after reentrant five_scans)
  = Crash.
Proof. vm_compute. reflexivity. Qed.

(** A command whose activation callback has not returned: the calls stop there. *)
Definition hold_calls : ser_calls (U := unit) :=
  SerCalls (fun _ _ _ => out_of_fuel) (fun _ _ _ => mret QDF_STATUS_SUCCESS).

Lemma hold_calls_ok : calls_ok env1 True 0 hold_calls.
Proof.
  split; [done|done|]. intros n reason s q Hi _ _ _ _ _. apply wpx_mret. by apply keeps_mono, ser_keeps_refl.
Qed.

Definition state3 : ser_world unit :=
  match wlan_serialization_request env1 hold_calls (Some command1) (after clients []) with
  | Ret _ s => s
  | _ => world0
  end.

Lemma held_inv s c st s' : inv env1 None s ->
  wlan_serialization_request env1 hold_calls (Some c) s = Ret st s' -> inv env1 None s'.
Proof.
  intros Hi Hr. pose proof (request_ok env1 env1_ok True 0 hold_calls hold_calls_ok (or_introl I) s (Some c) Hi) as H.
  unfold wpx in H. rewrite Hr in H. apply H.
Qed.

Lemma idle_reachable : reachable env1 clients (after clients []).
Proof. apply reachable_after. vm_compute. reflexivity. Qed.

Lemma state3_inv : inv env1 None state3.
Proof.
  apply (held_inv (after clients []) command1 WLAN_SER_CMD_ACTIVE).
  - exact (ser_reachable_inv env1 env1_ok clients _ clients_quiet idle_reachable).
  - vm_compute. reflexivity.
Qed.

Definition state4 : ser_world unit :=
  final state3 (run_api env1 (engine env1 clients 20) (remove 1 9 1) state3).

Lemma activation_not_interrupted_witness :
  let n := (0%nat, SER_PDEV_QUEUE_COMP_NON_SCAN, 0%nat) in
  marked (nodes state3) n = true /\ marked (nodes state4) n = true /\
  ncmd (nodes state4) n = ncmd (nodes state3) n.
Proof.
  intros n. assert (marked (nodes state3) n = true) as H3 by (vm_compute; reflexivity).
  split; [exact H3|].
  destruct (activation_not_interrupted env1 env1_ok clients clients_quiet state3 20 (remove 1 9 1) ResVoid
    state4 n state3_inv H3) as (Hm & Hc & _); [vm_compute; reflexivity|].
  split; [exact Hm|exact Hc].
Defined.

(** ** Where the code falls short *)

(** The commands of a queue, by their ids. *)
Definition ids (s : ser_world unit) (l : qdf_list_t) : list Z :=
  (fun n => cmd_id (ncmd (nodes s) n)) <$> elems l.
Definition queue_of (s : ser_world unit) (t : serialization_pdev_queue_type) : wlan_serialization_pdev_queue :=
  default queue1 (queues s !! (0%nat, t)).
Abbreviation non_scan s := (queue_of s SER_PDEV_QUEUE_COMP_NON_SCAN).
Abbreviation scans s := (queue_of s SER_PDEV_QUEUE_COMP_SCAN).

(** a blocking request that is refused as a duplicate is counted as waiting all the same,
    and the count is never taken back: when every command is gone, later requests of idle
    VDEVs are left pending. *)
Theorem refused_blocking_request_stalls_pdev :
  let s := after calm [request 0 1 1 1 false; request 0 1 9 2 true; request 0 1 9 2 true;
    remove 1 1 1; remove 1 9 2; request 0 1 5 3 false; request 0 1 6 4 false] in
  ids s (active_list (non_scan s)) = [] /\ ids s (pending_list (non_scan s)) = [5; 6] /\
  vdev_active_cmd_bitmap (non_scan s) = 0 /\ blocking_cmd_waiting (non_scan s) = 1.
Proof. vm_compute. split; [|split; [|split]]; reflexivity. Qed.

(** when a blocking command goes, the walk over the pending queue starts again after each
    activation without starting its count again, and stops short: the pending command of an
    idle VDEV is left behind although nothing blocks it. *)
Theorem blocking_removal_strands_vdev :
  let s := after calm [request 0 1 10 1 true; request 0 1 1 1 false; request 0 1 2 1 false;
    request 0 1 3 2 false; request 0 1 4 3 false; remove 1 10 1] in
  ids s (active_list (non_scan s)) = [1; 3] /\ ids s (pending_list (non_scan s)) = [2; 4] /\
  existsb (on_vdev (nodes s) 3) (elems (active_list (non_scan s))) = false /\
  blocking_cmd_active (non_scan s) = false /\ blocking_cmd_waiting (non_scan s) = 0.
Proof. vm_compute. split; [|split; [|split; [|split]]]; reflexivity. Qed.

(** cancelling the active command of a VDEV activates none of its pending commands: the
    VDEV is idle with its commands waiting, and later ones wait behind them. *)
Theorem cancel_active_strands_vdev :
  let s := after calm [request 0 1 1 1 false; request 0 1 2 1 false;
    cancel WLAN_SER_CANCEL_NON_SCAN_CMD 1 1 1 WLAN_SERIALIZATION_ACTIVE_QUEUE; request 0 1 3 1 false] in
  ids s (active_list (non_scan s)) = [] /\ ids s (pending_list (non_scan s)) = [2; 3] /\
  vdev_active_cmd_bitmap (non_scan s) = 0.
Proof. vm_compute. split; [|split]; reflexivity. Qed.

(** A duplicate of an active scan is accepted when it has to wait; once both are active,
    removing them by name leaves a timer, and its reference on the VDEV, to a buffer that
    is back in the pool. *)
Theorem duplicate_scan_leaves_timer :
  let s := after calm [request 0 0 1 1 false; request 0 0 2 1 false; request 0 0 2 1 false;
    remove 0 1 1; remove 0 2 1; remove 0 2 1] in
  ids s (active_list (scans s)) = [] /\ ids s (pending_list (scans s)) = [] /\
  omap t_cmd (timers s) <> [] /\ vdev_refs s !! 1%nat = Some 1.
Proof. vm_compute. split; [|split; [|split]]; try reflexivity. intros [=]. Qed.
