(* ===== verification/Obj.v ===== *)
(** The object manager of umac/cmn_services/obj_mgr: the psoc, pdev, vdev and peer
    objects, their references and their links, the component handlers that are called
    when they are created and destroyed, and the lookups.

    An object has an address, a [nat] that is never reused; what is freed is removed
    from the memory, and reading it is a crash.  The four structures share their
    header [wlan_objmgr_hdr].  The build is the one that counts references by caller
    ([ref_id_dbg], WLAN_OBJMGR_REF_ID_DEBUG). *)
From S2P Require Import Prelude.
From S2P Require Import QdfTypes.
Import QdfTypes.Parse.

(** ** Constants and enumerations (wlan_cmn.h, wlan_objmgr_cmn.h) *)

Definition WLAN_UMAC_MAX_COMPONENTS : nat := 38.
Definition WLAN_UMAC_MAX_PDEVS : nat := 3.
Definition WLAN_UMAC_PSOC_MAX_VDEVS : nat := 51.
Definition WLAN_UMAC_PDEV_MAX_VDEVS : nat := 17.
Definition WLAN_UMAC_PSOC_MAX_PEERS : nat := Nat.add 1536 WLAN_UMAC_PSOC_MAX_VDEVS.
Definition WLAN_MAX_PDEV_TEMP_PEERS : nat := 128.
Definition WLAN_MAX_PSOC_TEMP_PEERS : nat := Nat.mul WLAN_MAX_PDEV_TEMP_PEERS WLAN_UMAC_MAX_PDEVS.
Definition WLAN_UMAC_MAX_STA_PEERS : nat := 2.
Definition WLAN_OBJMGR_MAX_DEVICES : nat := 3.
Definition WLAN_PEER_HASHSIZE : nat := 64.

(** [wlan_objmgr_ref_dbgid]: who takes a reference; the manager itself is 0. *)
Definition WLAN_OBJMGR_ID : nat := 0.

Inductive WLAN_OBJ_STATE : Type :=
  | WLAN_OBJ_STATE_ALLOCATED
  | WLAN_OBJ_STATE_CREATED
  | WLAN_OBJ_STATE_DELETED
  | WLAN_OBJ_STATE_PARTIALLY_CREATED
  | WLAN_OBJ_STATE_PARTIALLY_DELETED
  | WLAN_OBJ_STATE_COMP_DEL_PROGRESS
  | WLAN_OBJ_STATE_LOGICALLY_DELETED
  | WLAN_OBJ_STATE_CREATION_FAILED
  | WLAN_OBJ_STATE_DELETION_FAILED.

Inductive wlan_objmgr_obj_type : Type := WLAN_PSOC_OP | WLAN_PDEV_OP | WLAN_VDEV_OP | WLAN_PEER_OP.

Inductive wlan_peer_type : Type :=
  | WLAN_PEER_SELF
  | WLAN_PEER_AP
  | WLAN_PEER_P2P_GO
  | WLAN_PEER_STA
  | WLAN_PEER_P2P_CLI
  | WLAN_PEER_TDLS
  | WLAN_PEER_NAWDS
  | WLAN_PEER_STA_TEMP
  | WLAN_PEER_IBSS
  | WLAN_PEER_NDP.

#[export] Instance obj_state_eq_dec : EqDecision WLAN_OBJ_STATE.
Proof. solve_decision. Defined.
#[export] Instance obj_type_eq_dec : EqDecision wlan_objmgr_obj_type.
Proof. solve_decision. Defined.
#[export] Instance obj_type_countable : Countable wlan_objmgr_obj_type.
Proof.
  refine (inj_countable'
    (fun t => match t with WLAN_PSOC_OP => 0 | WLAN_PDEV_OP => 1 | WLAN_VDEV_OP => 2 | WLAN_PEER_OP => 3 end%nat)
    (fun n => match n with 0 => WLAN_PSOC_OP | 1 => WLAN_PDEV_OP | 2 => WLAN_VDEV_OP | _ => WLAN_PEER_OP end%nat) _).
  by intros [].
Defined.
#[export] Instance peer_type_eq_dec : EqDecision wlan_peer_type.
Proof. solve_decision. Defined.

(** ** Objects (wlan_objmgr_{psoc,pdev,vdev,peer}_obj.h) *)

(** The fields the four structures share.  The arrays are maps with zeroed defaults; a
    component's private object is a pointer that is not NULL. *)
Record wlan_objmgr_hdr : Type := Hdr {
  obj_state : WLAN_OBJ_STATE;
  obj_status : gmap nat QDF_STATUS;
  comp_priv_obj : gmap nat Z;
  ref_cnt : Z;
  ref_id_dbg : gmap nat Z;
}.

Definition zero_hdr : wlan_objmgr_hdr := Hdr WLAN_OBJ_STATE_ALLOCATED ∅ ∅ 0 ∅.

Definition status_of (h : wlan_objmgr_hdr) (id : nat) : QDF_STATUS :=
  default QDF_STATUS_SUCCESS (obj_status h !! id).
Definition refs_by (h : wlan_objmgr_hdr) (id : nat) : Z := default 0 (ref_id_dbg h !! id).

(** The counters are machine integers of the width of their limits; the limits the
    code tests keep them far from overflow ([ObjSpec.objmgr_counters_exact]). *)
Record wlan_objmgr_psoc : Type := Psoc {
  psoc_hdr : wlan_objmgr_hdr;
  psoc_id : nat;
  psoc_pdev_count : nat;
  wlan_pdev_id_map : Z;
  wlan_pdev_list : list (option nat);
  psoc_vdev_count : nat;
  wlan_vdev_id_map : Z;
  psoc_vdev_list : list (option nat);
  psoc_peer_count : nat;
  psoc_temp_peer_count : nat;
  psoc_max_peer_count : nat;
  peer_hash : list (list nat);
}.

Record wlan_objmgr_pdev : Type := Pdev {
  pdev_hdr : wlan_objmgr_hdr;
  wlan_pdev_id : nat;
  wlan_psoc : nat;
  wlan_vdev_list : list nat;
  pdev_vdev_count : nat;
  pdev_max_vdev_count : nat;
  pdev_peer_count : nat;
  pdev_temp_peer_count : nat;
  pdev_max_peer_count : nat;
}.

Record wlan_objmgr_vdev : Type := Vdev {
  vdev_hdr : wlan_objmgr_hdr;
  vdev_id : nat;
  wlan_pdev : nat;
  vdev_opmode : QDF_OPMODE;
  vdev_macaddr : list Z;
  wlan_peer_list : list nat;
  vdev_peer_count : nat;
  vdev_max_peer_count : nat;
  self_peer : option nat;
  bss_peer : option nat;
}.

Record wlan_objmgr_peer : Type := Peer {
  peer_hdr : wlan_objmgr_hdr;
  peer_vdev : nat;
  peer_macaddr : list Z;
  peer_type : wlan_peer_type;
  peer_pdev_id : nat;
}.

(** Any object, as a component that only handles headers sees it. *)
Inductive objref : Type :=
  | OPsoc (p : nat)
  | OPdev (d : nat)
  | OVdev (v : nat)
  | OPeer (x : nat).

#[export] Instance objref_eq_dec : EqDecision objref.
Proof. solve_decision. Defined.

Definition type_of (o : objref) : wlan_objmgr_obj_type :=
  match o with
  | OPsoc _ => WLAN_PSOC_OP
  | OPdev _ => WLAN_PDEV_OP
  | OVdev _ => WLAN_VDEV_OP
  | OPeer _ => WLAN_PEER_OP
  end.

(** [struct wlan_objmgr_global]: the psocs and, for each type of object and component,
    the registered handlers (function pointers, with their arguments). *)
Record wlan_objmgr_global : Type := Global {
  g_psoc : list (option nat);
  create_handler : gmap (wlan_objmgr_obj_type * nat) (nat * Z);
  destroy_handler : gmap (wlan_objmgr_obj_type * nat) (nat * Z);
  status_handler : gmap (wlan_objmgr_obj_type * nat) (nat * Z);
  vdev_peer_free_notify_handler : gmap nat nat;
}.

(** What the manager tells the components and the log: handlers called, memory freed,
    assertions that fail. *)
Inductive obj_event : Type :=
  | EvCreate (o : objref) (comp : nat)
  | EvDestroy (o : objref) (comp : nat)
  | EvStatus (o : objref) (comp : nat) (status : QDF_STATUS)
  | EvPeerFreed (v comp : nat)
  | EvFree (o : objref)
  | EvBug.

Record objmgr_world : Type := World {
  glob : option wlan_objmgr_global;
  psocs : gmap nat wlan_objmgr_psoc;
  pdevs : gmap nat wlan_objmgr_pdev;
  vdevs : gmap nat wlan_objmgr_vdev;
  peers : gmap nat wlan_objmgr_peer;
  next_addr : nat;
  trace : list obj_event;
}.

(** What a component's handler does with the object it is given: attach or detach its
    own private object, and answer. *)
Inductive slot_op : Type :=
  | NoSlot
  | AttachSlot (priv : option Z) (status : QDF_STATUS)
  | DetachSlot (priv : option Z).
Record hresult : Type := HResult { h_status : QDF_STATUS; h_slot : slot_op }.

(** [struct wlan_vdev_create_params], of which the manager reads two fields. *)
Record wlan_vdev_create_params : Type := VdevParams { opmode : QDF_OPMODE; macaddr : list Z }.

(** What is outside the component: what the handlers do, and which allocations fail. *)
Class objmgr_env : Type := ObjmgrEnv {
  handlers : nat -> Z -> objref -> objmgr_world -> hresult;
  malloc_ok : nat -> bool;
}.

Section Obj.
Context {E : objmgr_env}.

Abbreviation W := objmgr_world.
Abbreviation MO := (M W).
Implicit Types (s : W) (o : objref) (h : wlan_objmgr_hdr) (p d v x id comp : nat).

(** ** Memory *)

Definition set_glob f s : W :=
  World (f <$> glob s) (psocs s) (pdevs s) (vdevs s) (peers s) (next_addr s) (trace s).
Definition set_psocs f s : W :=
  World (glob s) (f (psocs s)) (pdevs s) (vdevs s) (peers s) (next_addr s) (trace s).
Definition set_pdevs f s : W :=
  World (glob s) (psocs s) (f (pdevs s)) (vdevs s) (peers s) (next_addr s) (trace s).
Definition set_vdevs f s : W :=
  World (glob s) (psocs s) (pdevs s) (f (vdevs s)) (peers s) (next_addr s) (trace s).
Definition set_peers f s : W :=
  World (glob s) (psocs s) (pdevs s) (vdevs s) (f (peers s)) (next_addr s) (trace s).
Definition emit (e : obj_event) s : W :=
  World (glob s) (psocs s) (pdevs s) (vdevs s) (peers s) (next_addr s) (trace s ++ [e]).

(** [QDF_ASSERT(0)], [QDF_BUG(0)], [WLAN_OBJMGR_BUG(0)]. *)
Definition QDF_BUG : MO unit := modify (emit EvBug).

Definition read_glob : MO wlan_objmgr_global := g ← gets glob; deref g.
Definition read_psoc p : MO wlan_objmgr_psoc := r ← gets (fun s => psocs s !! p); deref r.
Definition read_pdev d : MO wlan_objmgr_pdev := r ← gets (fun s => pdevs s !! d); deref r.
Definition read_vdev v : MO wlan_objmgr_vdev := r ← gets (fun s => vdevs s !! v); deref r.
Definition read_peer x : MO wlan_objmgr_peer := r ← gets (fun s => peers s !! x); deref r.
Definition write_psoc p f : MO unit := read_psoc p;; modify (set_psocs (alter f p)).
Definition write_pdev d f : MO unit := read_pdev d;; modify (set_pdevs (alter f d)).
Definition write_vdev v f : MO unit := read_vdev v;; modify (set_vdevs (alter f v)).
Definition write_peer x f : MO unit := read_peer x;; modify (set_peers (alter f x)).

Definition with_psoc_hdr f (r : wlan_objmgr_psoc) : wlan_objmgr_psoc :=
  Psoc (f (psoc_hdr r)) (psoc_id r) (psoc_pdev_count r) (wlan_pdev_id_map r) (wlan_pdev_list r)
    (psoc_vdev_count r) (wlan_vdev_id_map r) (psoc_vdev_list r) (psoc_peer_count r)
    (psoc_temp_peer_count r) (psoc_max_peer_count r) (peer_hash r).
Definition with_pdev_hdr f (r : wlan_objmgr_pdev) : wlan_objmgr_pdev :=
  Pdev (f (pdev_hdr r)) (wlan_pdev_id r) (wlan_psoc r) (wlan_vdev_list r) (pdev_vdev_count r)
    (pdev_max_vdev_count r) (pdev_peer_count r) (pdev_temp_peer_count r) (pdev_max_peer_count r).
Definition with_vdev_hdr f (r : wlan_objmgr_vdev) : wlan_objmgr_vdev :=
  Vdev (f (vdev_hdr r)) (vdev_id r) (wlan_pdev r) (vdev_opmode r) (vdev_macaddr r)
    (wlan_peer_list r) (vdev_peer_count r) (vdev_max_peer_count r) (self_peer r) (bss_peer r).
Definition with_peer_hdr f (r : wlan_objmgr_peer) : wlan_objmgr_peer :=
  Peer (f (peer_hdr r)) (peer_vdev r) (peer_macaddr r) (peer_type r) (peer_pdev_id r).

Definition get_hdr o s : option wlan_objmgr_hdr :=
  match o with
  | OPsoc p => psoc_hdr <$> psocs s !! p
  | OPdev d => pdev_hdr <$> pdevs s !! d
  | OVdev v => vdev_hdr <$> vdevs s !! v
  | OPeer x => peer_hdr <$> peers s !! x
  end.
Definition upd_hdr o f s : W :=
  match o with
  | OPsoc p => set_psocs (alter (with_psoc_hdr f) p) s
  | OPdev d => set_pdevs (alter (with_pdev_hdr f) d) s
  | OVdev v => set_vdevs (alter (with_vdev_hdr f) v) s
  | OPeer x => set_peers (alter (with_peer_hdr f) x) s
  end.
Definition read_hdr o : MO wlan_objmgr_hdr := h ← gets (get_hdr o); deref h.
Definition write_hdr o f : MO unit := read_hdr o;; modify (upd_hdr o f).

Definition set_state st h : wlan_objmgr_hdr :=
  Hdr st (obj_status h) (comp_priv_obj h) (ref_cnt h) (ref_id_dbg h).
Definition set_status comp st h : wlan_objmgr_hdr :=
  Hdr (obj_state h) (<[comp := st]> (obj_status h)) (comp_priv_obj h) (ref_cnt h) (ref_id_dbg h).
Definition set_priv comp (priv : option Z) h : wlan_objmgr_hdr :=
  Hdr (obj_state h) (obj_status h) (partial_alter (fun _ => priv) comp (comp_priv_obj h))
    (ref_cnt h) (ref_id_dbg h).
(** The two counters change together. *)
Definition add_ref (n : Z) id h : wlan_objmgr_hdr :=
  Hdr (obj_state h) (obj_status h) (comp_priv_obj h) (ref_cnt h + n)
    (<[id := refs_by h id + n]> (ref_id_dbg h)).

(** [qdf_mem_malloc]: an address, unless there is no memory. *)
Definition qdf_mem_malloc : MO (option nat) :=
  a ← gets next_addr;
  modify (fun s => World (glob s) (psocs s) (pdevs s) (vdevs s) (peers s) (S a) (trace s));;
  mret (if malloc_ok a then Some a else None).

(** Removal from a list, of a node that must be in it. *)
Definition list_del x (l : list nat) : MO (list nat) :=
  if bool_decide (x ∈ l) then mret (unlink x l) else crash.

Definition WLAN_PEER_HASH (mac : list Z) : nat := Z.to_nat (nth 5 mac 0 mod Z.of_nat WLAN_PEER_HASHSIZE).
Definition WLAN_ADDR_EQ (a b : list Z) : bool := bool_decide (a = b).

(** ** Registration of handlers (wlan_objmgr_global_obj.c) *)

Definition wlan_objmgr_global_obj_init : MO QDF_STATUS :=
  g ← gets glob;
  match g with
  | Some _ => mret QDF_STATUS_E_FAILURE
  | None =>
      m ← qdf_mem_malloc;
      match m with
      | None => mret QDF_STATUS_E_NOMEM
      | Some _ =>
          modify (fun s =>
            World (Some (Global (replicate WLAN_OBJMGR_MAX_DEVICES None) ∅ ∅ ∅ ∅))
              (psocs s) (pdevs s) (vdevs s) (peers s) (next_addr s) (trace s));;
          mret QDF_STATUS_SUCCESS
      end
  end.

(** Every slot of the psoc table is free. *)
Definition wlan_objmgr_global_obj_can_destroyed : MO QDF_STATUS :=
  g ← read_glob;
  mret (if forallb (fun q => match q with None => true | Some _ => false end) (g_psoc g)
        then QDF_STATUS_SUCCESS else QDF_STATUS_E_FAILURE).

Definition wlan_objmgr_global_obj_deinit : MO QDF_STATUS :=
  g ← gets glob;
  match g with
  | None => mret QDF_STATUS_E_FAILURE
  | Some _ =>
      status ← wlan_objmgr_global_obj_can_destroyed;
      (if QDF_IS_STATUS_SUCCESS status then
         modify (fun s => World None (psocs s) (pdevs s) (vdevs s) (peers s) (next_addr s) (trace s))
       else QDF_BUG);;
      mret QDF_STATUS_SUCCESS
  end.

(** A slot of a handler table: the table's lens, and the two ways it may change. *)
Record table (A : Type) : Type := Table {
  slot : wlan_objmgr_global -> option A;
  fill : option A -> wlan_objmgr_global -> wlan_objmgr_global;
}.
Arguments slot {A}.
Arguments fill {A}.

Definition create_table (t : wlan_objmgr_obj_type) id : table (nat * Z) :=
  Table _ (fun g => create_handler g !! (t, id))
    (fun a g => Global (g_psoc g) (partial_alter (fun _ => a) (t, id) (create_handler g))
       (destroy_handler g) (status_handler g) (vdev_peer_free_notify_handler g)).
Definition destroy_table (t : wlan_objmgr_obj_type) id : table (nat * Z) :=
  Table _ (fun g => destroy_handler g !! (t, id))
    (fun a g => Global (g_psoc g) (create_handler g)
       (partial_alter (fun _ => a) (t, id) (destroy_handler g))
       (status_handler g) (vdev_peer_free_notify_handler g)).
Definition status_table (t : wlan_objmgr_obj_type) id : table (nat * Z) :=
  Table _ (fun g => status_handler g !! (t, id))
    (fun a g => Global (g_psoc g) (create_handler g) (destroy_handler g)
       (partial_alter (fun _ => a) (t, id) (status_handler g)) (vdev_peer_free_notify_handler g)).
Definition free_notify_table id : table nat :=
  Table _ (fun g => vdev_peer_free_notify_handler g !! id)
    (fun a g => Global (g_psoc g) (create_handler g) (destroy_handler g) (status_handler g)
       (partial_alter (fun _ => a) id (vdev_peer_free_notify_handler g))).

(** [assert] says whether the function asserts when it refuses. *)
Definition register_handler {A} (asserts : bool) (t : table A) id (a : A) : MO QDF_STATUS :=
  if (WLAN_UMAC_MAX_COMPONENTS <=? id)%nat then mret QDF_STATUS_MAXCOMP_FAIL
  else
    g ← read_glob;
    match slot t g with
    | Some _ => (if asserts then QDF_BUG else mret ());; mret QDF_STATUS_E_FAILURE
    | None => modify (set_glob (fill t (Some a)));; mret QDF_STATUS_SUCCESS
    end.

(** The function pointer given must be the one registered ([same]). *)
Definition unregister_handler {A} (asserts : bool) (t : table A) id (same : option A -> bool)
  : MO QDF_STATUS :=
  if (WLAN_UMAC_MAX_COMPONENTS <=? id)%nat then mret QDF_STATUS_MAXCOMP_FAIL
  else
    g ← read_glob;
    if negb (same (slot t g)) then
      (if asserts then QDF_BUG else mret ());; mret QDF_STATUS_E_FAILURE
    else modify (set_glob (fill t None));; mret QDF_STATUS_SUCCESS.

Definition same_handler (handler : nat) (a : option (nat * Z)) : bool :=
  match a with Some (f, _) => (f =? handler)%nat | None => false end.

Definition wlan_objmgr_register_psoc_create_handler id handler arg :=
  register_handler true (create_table WLAN_PSOC_OP id) id (handler, arg).
Definition wlan_objmgr_unregister_psoc_create_handler id handler :=
  unregister_handler true (create_table WLAN_PSOC_OP id) id (same_handler handler).
Definition wlan_objmgr_register_psoc_destroy_handler id handler arg :=
  register_handler true (destroy_table WLAN_PSOC_OP id) id (handler, arg).
Definition wlan_objmgr_unregister_psoc_destroy_handler id handler :=
  unregister_handler true (destroy_table WLAN_PSOC_OP id) id (same_handler handler).
Definition wlan_objmgr_register_psoc_status_handler id handler arg :=
  register_handler false (status_table WLAN_PSOC_OP id) id (handler, arg).
Definition wlan_objmgr_unregister_psoc_status_handler id handler :=
  unregister_handler false (status_table WLAN_PSOC_OP id) id (same_handler handler).
Definition wlan_objmgr_register_pdev_create_handler id handler arg :=
  register_handler true (create_table WLAN_PDEV_OP id) id (handler, arg).
Definition wlan_objmgr_unregister_pdev_create_handler id handler :=
  unregister_handler true (create_table WLAN_PDEV_OP id) id (same_handler handler).
Definition wlan_objmgr_register_pdev_destroy_handler id handler arg :=
  register_handler true (destroy_table WLAN_PDEV_OP id) id (handler, arg).
Definition wlan_objmgr_unregister_pdev_destroy_handler id handler :=
  unregister_handler true (destroy_table WLAN_PDEV_OP id) id (same_handler handler).
Definition wlan_objmgr_register_pdev_status_handler id handler arg :=
  register_handler false (status_table WLAN_PDEV_OP id) id (handler, arg).
Definition wlan_objmgr_unregister_pdev_status_handler id handler :=
  unregister_handler false (status_table WLAN_PDEV_OP id) id (same_handler handler).
Definition wlan_objmgr_register_vdev_create_handler id handler arg :=
  register_handler true (create_table WLAN_VDEV_OP id) id (handler, arg).
Definition wlan_objmgr_unregister_vdev_create_handler id handler :=
  unregister_handler true (create_table WLAN_VDEV_OP id) id (same_handler handler).
Definition wlan_objmgr_register_vdev_destroy_handler id handler arg :=
  register_handler true (destroy_table WLAN_VDEV_OP id) id (handler, arg).
Definition wlan_objmgr_unregister_vdev_destroy_handler id handler :=
  unregister_handler true (destroy_table WLAN_VDEV_OP id) id (same_handler handler).
Definition wlan_objmgr_register_vdev_status_handler id handler arg :=
  register_handler false (status_table WLAN_VDEV_OP id) id (handler, arg).
Definition wlan_objmgr_unregister_vdev_status_handler id handler :=
  unregister_handler false (status_table WLAN_VDEV_OP id) id (same_handler handler).
Definition wlan_objmgr_register_peer_create_handler id handler arg :=
  register_handler true (create_table WLAN_PEER_OP id) id (handler, arg).
Definition wlan_objmgr_unregister_peer_create_handler id handler :=
  unregister_handler true (create_table WLAN_PEER_OP id) id (same_handler handler).
Definition wlan_objmgr_register_peer_destroy_handler id handler arg :=
  register_handler true (destroy_table WLAN_PEER_OP id) id (handler, arg).
Definition wlan_objmgr_unregister_peer_destroy_handler id handler :=
  unregister_handler true (destroy_table WLAN_PEER_OP id) id (same_handler handler).
Definition wlan_objmgr_register_peer_status_handler id handler arg :=
  register_handler false (status_table WLAN_PEER_OP id) id (handler, arg).
Definition wlan_objmgr_unregister_peer_status_handler id handler :=
  unregister_handler false (status_table WLAN_PEER_OP id) id (same_handler handler).

(** The two functions of this pair assert on a component out of range. *)
Definition wlan_objmgr_register_vdev_peer_free_notify_handler id (handler : nat) : MO QDF_STATUS :=
  (if (WLAN_UMAC_MAX_COMPONENTS <=? id)%nat then QDF_BUG else mret ());;
  register_handler false (free_notify_table id) id handler.
Definition wlan_objmgr_unregister_vdev_peer_free_notify_handler id (handler : nat) : MO QDF_STATUS :=
  (if (WLAN_UMAC_MAX_COMPONENTS <=? id)%nat then QDF_BUG else mret ());;
  unregister_handler false (free_notify_table id) id
    (fun a => match a with Some f => (f =? handler)%nat | None => false end).

(** ** References and component objects, of any object *)

(** [wlan_objmgr_X_object_status]: the first component, from [id] on, that is not ready
    decides. *)
Fixpoint object_status_loop (n id : nat) h : QDF_STATUS :=
  match n with
  | O => QDF_STATUS_SUCCESS
  | S n =>
      match status_of h id with
      | QDF_STATUS_COMP_DISABLED => object_status_loop n (S id) h
      | QDF_STATUS_COMP_ASYNC =>
          match comp_priv_obj h !! id with
          | None => QDF_STATUS_COMP_ASYNC
          | Some _ => object_status_loop n (S id) h
          end
      | QDF_STATUS_E_NOMEM | QDF_STATUS_E_FAILURE => QDF_STATUS_E_FAILURE
      | _ => object_status_loop n (S id) h
      end
  end.
Definition object_status o : MO QDF_STATUS :=
  h ← read_hdr o; mret (object_status_loop WLAN_UMAC_MAX_COMPONENTS 0 h).

(** [wlan_objmgr_X_get_ref] and [wlan_objmgr_X_try_get_ref]; the pointer may be NULL. *)
Definition obj_get_ref (oo : option objref) id : MO unit :=
  match oo with
  | None => QDF_BUG
  | Some o => write_hdr o (add_ref 1 id)
  end.
Definition obj_try_get_ref (oo : option objref) id : MO QDF_STATUS :=
  match oo with
  | None => QDF_BUG;; mret QDF_STATUS_E_FAILURE
  | Some o =>
      h ← read_hdr o;
      if bool_decide (obj_state h <> WLAN_OBJ_STATE_CREATED) then mret QDF_STATUS_E_RESOURCES
      else obj_get_ref (Some o) id;; mret QDF_STATUS_SUCCESS
  end.

(** The last step of [wlan_objmgr_X_release_ref]: [qdf_atomic_dec_and_test]. *)
Definition dec_and_test o id (destroy : MO QDF_STATUS) : MO unit :=
  write_hdr o (add_ref (-1) id);;
  h ← read_hdr o;
  if ref_cnt h =? 0 then destroy;; mret () else mret ().

(** What a handler does to the component's slot of its object.  While an object is
    created (ALLOCATED) or destroyed (LOGICALLY_DELETED) this is all that attaching and
    detaching do; in the other states they may go on to free the object, which the
    handler of an object that is being destroyed must not do. *)
Definition attach_slot o comp (priv : option Z) status : MO QDF_STATUS :=
  if (WLAN_UMAC_MAX_COMPONENTS <=? comp)%nat then mret QDF_STATUS_MAXCOMP_FAIL
  else
    h ← read_hdr o;
    match comp_priv_obj h !! comp with
    | Some _ => mret QDF_STATUS_E_FAILURE
    | None =>
        write_hdr o (fun h => set_status comp status (set_priv comp priv h));;
        mret QDF_STATUS_SUCCESS
    end.
Definition detach_slot o comp (priv : option Z) : MO QDF_STATUS :=
  if (WLAN_UMAC_MAX_COMPONENTS <=? comp)%nat then mret QDF_STATUS_MAXCOMP_FAIL
  else
    h ← read_hdr o;
    if bool_decide (comp_priv_obj h !! comp <> priv) then
      write_hdr o (set_status comp QDF_STATUS_E_FAILURE);; mret QDF_STATUS_E_FAILURE
    else
      write_hdr o (fun h => set_status comp QDF_STATUS_SUCCESS (set_priv comp None h));;
      mret QDF_STATUS_SUCCESS.

Definition slot_only (st : WLAN_OBJ_STATE) : bool :=
  match st with
  | WLAN_OBJ_STATE_ALLOCATED | WLAN_OBJ_STATE_CREATED | WLAN_OBJ_STATE_LOGICALLY_DELETED => true
  | _ => false
  end.

(** One handler runs during creation or destruction; its answer. *)
Definition run_handler o comp (f : nat * Z) : MO QDF_STATUS :=
  r ← gets (fun s => handlers (fst f) (snd f) o s);
  h ← read_hdr o;
  match h_slot r with
  | NoSlot => mret (h_status r)
  | AttachSlot priv status =>
      if slot_only (obj_state h) then attach_slot o comp priv status;; mret (h_status r) else crash
  | DetachSlot priv =>
      if slot_only (obj_state h) then detach_slot o comp priv;; mret (h_status r) else crash
  end.

Fixpoint create_handlers_loop (n comp : nat) o : MO unit :=
  match n with
  | O => mret ()
  | S n =>
      g ← read_glob;
      (match create_handler g !! (type_of o, comp) with
       | Some f =>
           modify (emit (EvCreate o comp));;
           status ← run_handler o comp f;
           write_hdr o (set_status comp status)
       | None => write_hdr o (set_status comp QDF_STATUS_COMP_DISABLED)
       end);;
      create_handlers_loop n (S comp) o
  end.

(** Only the components that created something are asked to destroy it. *)
Fixpoint destroy_handlers_loop (n comp : nat) o : MO unit :=
  match n with
  | O => mret ()
  | S n =>
      g ← read_glob;
      h ← read_hdr o;
      (match destroy_handler g !! (type_of o, comp) with
       | Some f =>
           if bool_decide (status_of h comp = QDF_STATUS_SUCCESS)
              || bool_decide (status_of h comp = QDF_STATUS_COMP_ASYNC) then
             modify (emit (EvDestroy o comp));;
             status ← run_handler o comp f;
             write_hdr o (set_status comp status)
           else write_hdr o (set_status comp QDF_STATUS_COMP_DISABLED)
       | None => write_hdr o (set_status comp QDF_STATUS_COMP_DISABLED)
       end);;
      destroy_handlers_loop n (S comp) o
  end.

Fixpoint status_handlers_loop (n comp : nat) o status : MO unit :=
  match n with
  | O => mret ()
  | S n =>
      g ← read_glob;
      (match status_handler g !! (type_of o, comp) with
       | Some _ => modify (emit (EvStatus o comp status))
       | None => mret ()
       end);;
      status_handlers_loop n (S comp) o status
  end.

(** The end of [wlan_objmgr_X_obj_create]: the components create their parts; whether
    the object is given to the caller. *)
Definition obj_create_tail o (obj_delete : MO QDF_STATUS) : MO bool :=
  create_handlers_loop WLAN_UMAC_MAX_COMPONENTS 0 o;;
  status ← object_status o;
  match status with
  | QDF_STATUS_SUCCESS =>
      write_hdr o (set_state WLAN_OBJ_STATE_CREATED);;
      status_handlers_loop WLAN_UMAC_MAX_COMPONENTS 0 o QDF_STATUS_SUCCESS;; mret true
  | QDF_STATUS_COMP_ASYNC =>
      write_hdr o (set_state WLAN_OBJ_STATE_PARTIALLY_CREATED);; mret true
  | _ => obj_delete;; mret false
  end.

(** [wlan_objmgr_X_obj_destroy]: the components destroy their parts, then the object is
    freed; now, or by the last asynchronous one. *)
Definition obj_destroy o (obj_free : MO QDF_STATUS) : MO QDF_STATUS :=
  h ← read_hdr o;
  (if bool_decide (obj_state h <> WLAN_OBJ_STATE_LOGICALLY_DELETED) then QDF_BUG else mret ());;
  destroy_handlers_loop WLAN_UMAC_MAX_COMPONENTS 0 o;;
  status ← object_status o;
  match status with
  | QDF_STATUS_E_FAILURE => QDF_BUG;; mret QDF_STATUS_E_FAILURE
  | QDF_STATUS_COMP_ASYNC =>
      write_hdr o (set_state WLAN_OBJ_STATE_PARTIALLY_DELETED);; mret QDF_STATUS_COMP_ASYNC
  | _ => obj_free
  end.

Definition obj_delete o (release : MO unit) : MO QDF_STATUS :=
  write_hdr o (set_state WLAN_OBJ_STATE_LOGICALLY_DELETED);; release;; mret QDF_STATUS_SUCCESS.

(** [wlan_objmgr_X_component_obj_attach]: the last asynchronous component completes the
    creation. *)
Definition component_obj_attach o comp (priv : option Z) status : MO QDF_STATUS :=
  r ← attach_slot o comp priv status;
  if QDF_IS_STATUS_ERROR r then mret r
  else
    h ← read_hdr o;
    if bool_decide (obj_state h <> WLAN_OBJ_STATE_PARTIALLY_CREATED) then mret QDF_STATUS_SUCCESS
    else
      status ← object_status o;
      match status with
      | QDF_STATUS_SUCCESS =>
          write_hdr o (set_state WLAN_OBJ_STATE_CREATED);;
          status_handlers_loop WLAN_UMAC_MAX_COMPONENTS 0 o status;; mret QDF_STATUS_SUCCESS
      | QDF_STATUS_E_FAILURE =>
          write_hdr o (set_state WLAN_OBJ_STATE_CREATION_FAILED);;
          status_handlers_loop WLAN_UMAC_MAX_COMPONENTS 0 o status;; mret QDF_STATUS_SUCCESS
      | _ => mret QDF_STATUS_SUCCESS
      end.

(** [wlan_objmgr_X_component_obj_detach]: the last asynchronous component completes the
    destruction. *)
Definition component_obj_detach o comp (priv : option Z) (obj_free : MO QDF_STATUS) : MO QDF_STATUS :=
  r ← detach_slot o comp priv;
  if QDF_IS_STATUS_ERROR r then mret r
  else
    h ← read_hdr o;
    match obj_state h with
    | WLAN_OBJ_STATE_PARTIALLY_DELETED =>
        status ← object_status o;
        match status with
        | QDF_STATUS_SUCCESS => write_hdr o (set_state WLAN_OBJ_STATE_DELETED);; obj_free
        | QDF_STATUS_E_FAILURE =>
            write_hdr o (set_state WLAN_OBJ_STATE_DELETION_FAILED);; mret QDF_STATUS_SUCCESS
        | _ => mret QDF_STATUS_SUCCESS
        end
    | WLAN_OBJ_STATE_COMP_DEL_PROGRESS =>
        status ← object_status o;
        match status with
        | QDF_STATUS_SUCCESS | QDF_STATUS_E_FAILURE =>
            write_hdr o (set_state WLAN_OBJ_STATE_CREATED);; mret QDF_STATUS_SUCCESS
        | _ => mret QDF_STATUS_SUCCESS
        end
    | _ => mret QDF_STATUS_SUCCESS
    end.

(** [wlan_objmgr_trigger_X_comp_priv_object_creation] and [_deletion]: one component's
    handler runs on an object that exists; what it attaches or detaches goes through
    the functions above. *)
Definition run_handler_full o comp (f : nat * Z) (obj_free : MO QDF_STATUS) : MO QDF_STATUS :=
  r ← gets (fun s => handlers (fst f) (snd f) o s);
  match h_slot r with
  | NoSlot => mret ()
  | AttachSlot priv status => component_obj_attach o comp priv status;; mret ()
  | DetachSlot priv => component_obj_detach o comp priv obj_free;; mret ()
  end;;
  mret (h_status r).

Definition trigger_creation o comp (obj_free : MO QDF_STATUS) : MO QDF_STATUS :=
  if (WLAN_UMAC_MAX_COMPONENTS <=? comp)%nat then mret QDF_STATUS_MAXCOMP_FAIL
  else
    h ← read_hdr o;
    g ← read_glob;
    match comp_priv_obj h !! comp, create_handler g !! (type_of o, comp) with
    | Some _, _ | None, None => mret QDF_STATUS_E_FAILURE
    | None, Some f =>
        status ← run_handler_full o comp f obj_free;
        write_hdr o (set_status comp status);;
        h ← read_hdr o;
        if bool_decide (obj_state h = WLAN_OBJ_STATE_CREATED) then
          status ← object_status o;
          (if bool_decide (status = QDF_STATUS_COMP_ASYNC)
           then write_hdr o (set_state WLAN_OBJ_STATE_PARTIALLY_CREATED) else mret ());;
          mret status
        else mret QDF_STATUS_SUCCESS
    end.

Definition trigger_deletion o comp (obj_free : MO QDF_STATUS) : MO QDF_STATUS :=
  if (WLAN_UMAC_MAX_COMPONENTS <=? comp)%nat then mret QDF_STATUS_MAXCOMP_FAIL
  else
    h ← read_hdr o;
    g ← read_glob;
    match comp_priv_obj h !! comp, destroy_handler g !! (type_of o, comp) with
    | None, _ | Some _, None => mret QDF_STATUS_E_FAILURE
    | Some _, Some f =>
        status ← run_handler_full o comp f obj_free;
        write_hdr o (set_status comp status);;
        h ← read_hdr o;
        if bool_decide (obj_state h = WLAN_OBJ_STATE_CREATED) then
          status ← object_status o;
          (if bool_decide (status = QDF_STATUS_COMP_ASYNC)
           then write_hdr o (set_state WLAN_OBJ_STATE_COMP_DEL_PROGRESS) else mret ());;
          mret status
        else mret QDF_STATUS_SUCCESS
    end.

(** ** The psoc (wlan_objmgr_global_obj.c, wlan_objmgr_psoc_obj.c) *)

Definition wlan_objmgr_psoc_object_status p : MO QDF_STATUS := object_status (OPsoc p).

Fixpoint first_free (index : nat) (l : list (option nat)) : option nat :=
  match l with
  | [] => None
  | None :: _ => Some index
  | Some _ :: l => first_free (S index) l
  end.

Definition set_g_psoc f (g : wlan_objmgr_global) : wlan_objmgr_global :=
  Global (f (g_psoc g)) (create_handler g) (destroy_handler g) (status_handler g)
    (vdev_peer_free_notify_handler g).
Definition set_psoc_id i (r : wlan_objmgr_psoc) : wlan_objmgr_psoc :=
  Psoc (psoc_hdr r) i (psoc_pdev_count r) (wlan_pdev_id_map r) (wlan_pdev_list r)
    (psoc_vdev_count r) (wlan_vdev_id_map r) (psoc_vdev_list r) (psoc_peer_count r)
    (psoc_temp_peer_count r) (psoc_max_peer_count r) (peer_hash r).

Definition wlan_objmgr_psoc_object_attach p : MO QDF_STATUS :=
  g ← read_glob;
  match first_free 0 (g_psoc g) with
  | Some index =>
      modify (set_glob (set_g_psoc (<[index := Some p]>)));;
      write_psoc p (set_psoc_id index);; mret QDF_STATUS_SUCCESS
  | None => mret QDF_STATUS_E_FAILURE
  end.

Definition wlan_objmgr_psoc_object_detach p : MO QDF_STATUS :=
  r ← read_psoc p;
  if (WLAN_OBJMGR_MAX_DEVICES <=? psoc_id r)%nat then QDF_BUG;; mret QDF_STATUS_E_INVAL
  else
    read_glob;; modify (set_glob (set_g_psoc (<[psoc_id r := None]>)));; mret QDF_STATUS_SUCCESS.

Definition wlan_objmgr_psoc_obj_free p : MO QDF_STATUS :=
  status ← wlan_objmgr_psoc_object_detach p;
  if bool_decide (status = QDF_STATUS_E_FAILURE) then mret QDF_STATUS_E_FAILURE
  else
    modify (set_psocs (delete p));; modify (emit (EvFree (OPsoc p)));; mret QDF_STATUS_SUCCESS.

Definition wlan_objmgr_psoc_obj_destroy p : MO QDF_STATUS :=
  obj_destroy (OPsoc p) (wlan_objmgr_psoc_obj_free p).

Definition wlan_objmgr_psoc_get_ref p id : MO unit := obj_get_ref (Some (OPsoc p)) id.
Definition wlan_objmgr_psoc_try_get_ref p id : MO QDF_STATUS := obj_try_get_ref (Some (OPsoc p)) id.

(** A reference the caller did not take is only reported. *)
Definition wlan_objmgr_psoc_release_ref p id : MO unit :=
  h ← read_hdr (OPsoc p);
  (if refs_by h id =? 0 then QDF_BUG else mret ());;
  if ref_cnt h =? 0 then QDF_BUG
  else dec_and_test (OPsoc p) id (wlan_objmgr_psoc_obj_destroy p).

Definition wlan_objmgr_psoc_obj_delete p : MO QDF_STATUS :=
  obj_delete (OPsoc p) (wlan_objmgr_psoc_release_ref p WLAN_OBJMGR_ID).

Definition new_psoc : wlan_objmgr_psoc :=
  Psoc zero_hdr 0 0 0 (replicate WLAN_UMAC_MAX_PDEVS None) 0 0
    (replicate WLAN_UMAC_PSOC_MAX_VDEVS None) 0 0 WLAN_UMAC_PSOC_MAX_PEERS
    (replicate WLAN_PEER_HASHSIZE []).

Definition wlan_objmgr_psoc_obj_create : MO (option nat) :=
  m ← qdf_mem_malloc;
  match m with
  | None => mret None
  | Some p =>
      modify (set_psocs <[p := new_psoc]>);;
      wlan_objmgr_psoc_get_ref p WLAN_OBJMGR_ID;;
      ok ← obj_create_tail (OPsoc p) (wlan_objmgr_psoc_obj_delete p);
      if negb ok then mret None
      else
        status ← wlan_objmgr_psoc_object_attach p;
        if QDF_IS_STATUS_ERROR status then wlan_objmgr_psoc_obj_delete p;; mret None
        else mret (Some p)
  end.

Definition wlan_objmgr_psoc_component_obj_attach p comp priv status :=
  component_obj_attach (OPsoc p) comp priv status.
Definition wlan_objmgr_psoc_component_obj_detach p comp priv :=
  component_obj_detach (OPsoc p) comp priv (wlan_objmgr_psoc_obj_free p).
Definition wlan_objmgr_trigger_psoc_comp_priv_object_creation p comp :=
  trigger_creation (OPsoc p) comp (wlan_objmgr_psoc_obj_free p).
Definition wlan_objmgr_trigger_psoc_comp_priv_object_deletion p comp :=
  trigger_deletion (OPsoc p) comp (wlan_objmgr_psoc_obj_free p).
Definition wlan_objmgr_psoc_get_comp_private_obj p comp : MO (option Z) :=
  if (WLAN_UMAC_MAX_COMPONENTS <=? comp)%nat then QDF_BUG;; mret None
  else h ← read_hdr (OPsoc p); mret (comp_priv_obj h !! comp).

(** [objmgr->wlan_pdev_id_map], [wlan_pdev_list] and [wlan_pdev_count] change together. *)
Definition set_pdev_slot (id : nat) (a : option nat) (r : wlan_objmgr_psoc) : wlan_objmgr_psoc :=
  let map := wlan_pdev_id_map r in
  Psoc (psoc_hdr r) (psoc_id r)
    (match a with Some _ => S (psoc_pdev_count r) | None => pred (psoc_pdev_count r) end)
    (match a with Some _ => Z.setbit map (Z.of_nat id) | None => Z.clearbit map (Z.of_nat id) end)
    (<[id := a]> (wlan_pdev_list r)) (psoc_vdev_count r) (wlan_vdev_id_map r) (psoc_vdev_list r)
    (psoc_peer_count r) (psoc_temp_peer_count r) (psoc_max_peer_count r) (peer_hash r).
Definition set_vdev_slot (id : nat) (a : option nat) (r : wlan_objmgr_psoc) : wlan_objmgr_psoc :=
  let map := wlan_vdev_id_map r in
  Psoc (psoc_hdr r) (psoc_id r) (psoc_pdev_count r) (wlan_pdev_id_map r) (wlan_pdev_list r)
    (match a with Some _ => S (psoc_vdev_count r) | None => pred (psoc_vdev_count r) end)
    (match a with Some _ => Z.setbit map (Z.of_nat id) | None => Z.clearbit map (Z.of_nat id) end)
    (<[id := a]> (psoc_vdev_list r)) (psoc_peer_count r) (psoc_temp_peer_count r)
    (psoc_max_peer_count r) (peer_hash r).

(** The first id below the limit [n + id] whose bit is not set. *)
Fixpoint first_free_id (n id : nat) (map : Z) : option nat :=
  match n with
  | O => None
  | S n => if Z.testbit map (Z.of_nat id) then first_free_id n (S id) map else Some id
  end.

Definition set_pdev_id i (r : wlan_objmgr_pdev) : wlan_objmgr_pdev :=
  Pdev (pdev_hdr r) i (wlan_psoc r) (wlan_vdev_list r) (pdev_vdev_count r)
    (pdev_max_vdev_count r) (pdev_peer_count r) (pdev_temp_peer_count r) (pdev_max_peer_count r).
Definition set_vdev_id i (r : wlan_objmgr_vdev) : wlan_objmgr_vdev :=
  Vdev (vdev_hdr r) i (wlan_pdev r) (vdev_opmode r) (vdev_macaddr r)
    (wlan_peer_list r) (vdev_peer_count r) (vdev_max_peer_count r) (self_peer r) (bss_peer r).

Definition wlan_objmgr_psoc_pdev_attach p d : MO QDF_STATUS :=
  r ← read_psoc p;
  match first_free_id WLAN_UMAC_MAX_PDEVS 0 (wlan_pdev_id_map r) with
  | None => mret QDF_STATUS_E_FAILURE
  | Some id =>
      write_psoc p (set_pdev_slot id (Some d));;
      write_pdev d (set_pdev_id id);;
      wlan_objmgr_psoc_get_ref p WLAN_OBJMGR_ID;; mret QDF_STATUS_SUCCESS
  end.

Definition wlan_objmgr_psoc_pdev_detach p d : MO QDF_STATUS :=
  rd ← read_pdev d;
  let id := wlan_pdev_id rd in
  if (WLAN_UMAC_MAX_PDEVS <=? id)%nat then mret QDF_STATUS_E_FAILURE
  else
    write_psoc p (set_pdev_slot id None);;
    write_pdev d (set_pdev_id 255);;
    wlan_objmgr_psoc_release_ref p WLAN_OBJMGR_ID;; mret QDF_STATUS_SUCCESS.

(** [max_vdev_count] is WLAN_UMAC_PSOC_MAX_VDEVS. *)
Definition wlan_objmgr_psoc_vdev_attach p v : MO QDF_STATUS :=
  r ← read_psoc p;
  match first_free_id WLAN_UMAC_PSOC_MAX_VDEVS 0 (wlan_vdev_id_map r) with
  | None => mret QDF_STATUS_E_FAILURE
  | Some id =>
      write_psoc p (set_vdev_slot id (Some v));;
      write_vdev v (set_vdev_id id);; mret QDF_STATUS_SUCCESS
  end.

Definition wlan_objmgr_psoc_vdev_detach p v : MO QDF_STATUS :=
  rv ← read_vdev v;
  let id := vdev_id rv in
  read_psoc p;;
  if (WLAN_UMAC_PSOC_MAX_VDEVS <=? id)%nat then mret QDF_STATUS_E_FAILURE
  else
    write_psoc p (set_vdev_slot id None);;
    write_vdev v (set_vdev_id 255);; mret QDF_STATUS_SUCCESS.

Definition temporary (t : wlan_peer_type) : bool := bool_decide (t = WLAN_PEER_STA_TEMP).

(** A peer is added to, or removed from, its hash list and counted. *)
Definition set_peer_hash (i : nat) (l : list nat) (t : wlan_peer_type) (count : nat -> nat)
    (r : wlan_objmgr_psoc) : wlan_objmgr_psoc :=
  Psoc (psoc_hdr r) (psoc_id r) (psoc_pdev_count r) (wlan_pdev_id_map r) (wlan_pdev_list r)
    (psoc_vdev_count r) (wlan_vdev_id_map r) (psoc_vdev_list r)
    (if temporary t then psoc_peer_count r else count (psoc_peer_count r))
    (if temporary t then count (psoc_temp_peer_count r) else psoc_temp_peer_count r)
    (psoc_max_peer_count r) (<[i := l]> (peer_hash r)).

Definition wlan_objmgr_psoc_peer_attach p x : MO QDF_STATUS :=
  r ← read_psoc p;
  rx ← read_peer x;
  if (if temporary (peer_type rx) then (WLAN_MAX_PSOC_TEMP_PEERS <=? psoc_temp_peer_count r)%nat
      else (psoc_max_peer_count r <=? psoc_peer_count r)%nat)
  then mret QDF_STATUS_E_FAILURE
  else
    let hash_index := WLAN_PEER_HASH (peer_macaddr rx) in
    l ← deref (peer_hash r !! hash_index);
    write_psoc p (set_peer_hash hash_index (l ++ [x]) (peer_type rx) S);;
    mret QDF_STATUS_SUCCESS.

(** The test for an empty list only looks at the count of the regular peers. *)
Definition wlan_objmgr_psoc_peer_detach p x : MO QDF_STATUS :=
  r ← read_psoc p;
  if (psoc_peer_count r =? 0)%nat then mret QDF_STATUS_E_FAILURE
  else
    rx ← read_peer x;
    let hash_index := WLAN_PEER_HASH (peer_macaddr rx) in
    l ← deref (peer_hash r !! hash_index);
    match l with
    | [] => mret QDF_STATUS_E_FAILURE
    | _ =>
        l ← list_del x l;
        write_psoc p (set_peer_hash hash_index l (peer_type rx) pred);;
        mret QDF_STATUS_SUCCESS
    end.

(** ** The pdev (wlan_objmgr_pdev_obj.c) *)

Definition wlan_objmgr_pdev_object_status d : MO QDF_STATUS := object_status (OPdev d).

Definition wlan_objmgr_pdev_obj_free d : MO QDF_STATUS :=
  r ← read_pdev d;
  status ← wlan_objmgr_psoc_pdev_detach (wlan_psoc r) d;
  if bool_decide (status = QDF_STATUS_E_FAILURE) then mret QDF_STATUS_E_FAILURE
  else
    read_pdev d;;
    modify (set_pdevs (delete d));; modify (emit (EvFree (OPdev d)));; mret QDF_STATUS_SUCCESS.

Definition wlan_objmgr_pdev_obj_destroy d : MO QDF_STATUS :=
  obj_destroy (OPdev d) (wlan_objmgr_pdev_obj_free d).

Definition wlan_objmgr_pdev_get_ref d id : MO unit := obj_get_ref (Some (OPdev d)) id.
Definition wlan_objmgr_pdev_try_get_ref d id : MO QDF_STATUS := obj_try_get_ref (Some (OPdev d)) id.

Definition wlan_objmgr_pdev_release_ref d id : MO unit :=
  h ← read_hdr (OPdev d);
  if refs_by h id =? 0 then QDF_BUG
  else if ref_cnt h =? 0 then QDF_BUG
  else dec_and_test (OPdev d) id (wlan_objmgr_pdev_obj_destroy d).

Definition wlan_objmgr_pdev_obj_delete d : MO QDF_STATUS :=
  obj_delete (OPdev d) (wlan_objmgr_pdev_release_ref d WLAN_OBJMGR_ID).

Definition new_pdev p max_peers : wlan_objmgr_pdev :=
  Pdev zero_hdr 0 p [] 0 WLAN_UMAC_PDEV_MAX_VDEVS 0 0 max_peers.

(** The structure's fields are set after it is attached; they are read by nobody before. *)
Definition wlan_objmgr_pdev_obj_create p : MO (option nat) :=
  m ← qdf_mem_malloc;
  match m with
  | None => mret None
  | Some d =>
      rp ← read_psoc p;
      modify (set_pdevs <[d := new_pdev p (psoc_max_peer_count rp)]>);;
      status ← wlan_objmgr_psoc_pdev_attach p d;
      if QDF_IS_STATUS_ERROR status then modify (set_pdevs (delete d));; mret None
      else
        wlan_objmgr_pdev_get_ref d WLAN_OBJMGR_ID;;
        ok ← obj_create_tail (OPdev d) (wlan_objmgr_pdev_obj_delete d);
        mret (if ok : bool then Some d else None)
  end.

Definition wlan_objmgr_pdev_component_obj_attach d comp priv status :=
  component_obj_attach (OPdev d) comp priv status.
Definition wlan_objmgr_pdev_component_obj_detach d comp priv :=
  component_obj_detach (OPdev d) comp priv (wlan_objmgr_pdev_obj_free d).
Definition wlan_objmgr_trigger_pdev_comp_priv_object_creation d comp :=
  trigger_creation (OPdev d) comp (wlan_objmgr_pdev_obj_free d).
Definition wlan_objmgr_trigger_pdev_comp_priv_object_deletion d comp :=
  trigger_deletion (OPdev d) comp (wlan_objmgr_pdev_obj_free d).
Definition wlan_objmgr_pdev_get_comp_private_obj d comp : MO (option Z) :=
  if (WLAN_UMAC_MAX_COMPONENTS <=? comp)%nat then QDF_BUG;; mret None
  else h ← read_hdr (OPdev d); mret (comp_priv_obj h !! comp).

Definition set_vdevs_of (l : list nat) (n : nat) (r : wlan_objmgr_pdev) : wlan_objmgr_pdev :=
  Pdev (pdev_hdr r) (wlan_pdev_id r) (wlan_psoc r) l n
    (pdev_max_vdev_count r) (pdev_peer_count r) (pdev_temp_peer_count r) (pdev_max_peer_count r).
(** [wlan_pdev_incr_peer_count] and its three siblings. *)
Definition count_peer (t : wlan_peer_type) (count : nat -> nat) (r : wlan_objmgr_pdev) : wlan_objmgr_pdev :=
  Pdev (pdev_hdr r) (wlan_pdev_id r) (wlan_psoc r) (wlan_vdev_list r) (pdev_vdev_count r)
    (pdev_max_vdev_count r)
    (if temporary t then pdev_peer_count r else count (pdev_peer_count r))
    (if temporary t then count (pdev_temp_peer_count r) else pdev_temp_peer_count r)
    (pdev_max_peer_count r).

Definition wlan_objmgr_pdev_vdev_attach d v : MO QDF_STATUS :=
  r ← read_pdev d;
  if (pdev_max_vdev_count r <=? pdev_vdev_count r)%nat then mret QDF_STATUS_E_FAILURE
  else
    write_pdev d (set_vdevs_of (wlan_vdev_list r ++ [v]) (S (pdev_vdev_count r)));;
    wlan_objmgr_pdev_get_ref d WLAN_OBJMGR_ID;; mret QDF_STATUS_SUCCESS.

(** An empty list is left alone. *)
Definition wlan_objmgr_pdev_vdev_detach d v : MO QDF_STATUS :=
  r ← read_pdev d;
  if (pdev_vdev_count r =? 0)%nat then mret QDF_STATUS_E_FAILURE
  else
    l ← (match wlan_vdev_list r with [] => mret [] | l => list_del v l end);
    write_pdev d (set_vdevs_of l (pred (pdev_vdev_count r)));;
    wlan_objmgr_pdev_release_ref d WLAN_OBJMGR_ID;; mret QDF_STATUS_SUCCESS.

(** ** The vdev (wlan_objmgr_vdev_obj.c) *)

Definition wlan_objmgr_vdev_object_status v : MO QDF_STATUS := object_status (OVdev v).

Definition wlan_pdev_get_psoc d : MO nat := r ← read_pdev d; mret (wlan_psoc r).
Definition wlan_vdev_get_psoc v : MO nat := r ← read_vdev v; wlan_pdev_get_psoc (wlan_pdev r).

(** The psoc is found before the reference on the pdev is given back, and used after. *)
Definition wlan_objmgr_vdev_obj_free v : MO QDF_STATUS :=
  r ← read_vdev v;
  psoc ← wlan_pdev_get_psoc (wlan_pdev r);
  status ← wlan_objmgr_pdev_vdev_detach (wlan_pdev r) v;
  if bool_decide (status = QDF_STATUS_E_FAILURE) then mret QDF_STATUS_E_FAILURE
  else
    status ← wlan_objmgr_psoc_vdev_detach psoc v;
    if bool_decide (status = QDF_STATUS_E_FAILURE) then mret QDF_STATUS_E_FAILURE
    else
      read_vdev v;;
      modify (set_vdevs (delete v));; modify (emit (EvFree (OVdev v)));; mret QDF_STATUS_SUCCESS.

Definition wlan_objmgr_vdev_obj_destroy v : MO QDF_STATUS :=
  obj_destroy (OVdev v) (wlan_objmgr_vdev_obj_free v).

Definition wlan_objmgr_vdev_get_ref v id : MO unit := obj_get_ref (Some (OVdev v)) id.
Definition wlan_objmgr_vdev_try_get_ref v id : MO QDF_STATUS := obj_try_get_ref (Some (OVdev v)) id.

Definition wlan_objmgr_vdev_release_ref v id : MO unit :=
  h ← read_hdr (OVdev v);
  if refs_by h id =? 0 then QDF_BUG
  else if ref_cnt h =? 0 then QDF_BUG
  else dec_and_test (OVdev v) id (wlan_objmgr_vdev_obj_destroy v).

Definition wlan_objmgr_vdev_obj_delete v : MO QDF_STATUS :=
  obj_delete (OVdev v) (wlan_objmgr_vdev_release_ref v WLAN_OBJMGR_ID).

Definition new_vdev d (params : wlan_vdev_create_params) max_peers : wlan_objmgr_vdev :=
  Vdev zero_hdr 0 d (opmode params) (macaddr params) [] 0 max_peers None None.

Definition wlan_objmgr_vdev_obj_create d (params : wlan_vdev_create_params) : MO (option nat) :=
  psoc ← wlan_pdev_get_psoc d;
  m ← qdf_mem_malloc;
  match m with
  | None => mret None
  | Some v =>
      bss_chan ← qdf_mem_malloc;
      des_chan ← (match bss_chan with Some _ => qdf_mem_malloc | None => mret None end);
      match des_chan with
      | None => mret None
      | Some _ =>
          rd ← read_pdev d;
          let max_peers := if bool_decide (opmode params = QDF_STA_MODE)
                           then WLAN_UMAC_MAX_STA_PEERS else pdev_max_peer_count rd in
          modify (set_vdevs <[v := new_vdev d params max_peers]>);;
          status ← wlan_objmgr_psoc_vdev_attach psoc v;
          if QDF_IS_STATUS_ERROR status then modify (set_vdevs (delete v));; mret None
          else
            status ← wlan_objmgr_pdev_vdev_attach d v;
            if QDF_IS_STATUS_ERROR status then
              wlan_objmgr_psoc_vdev_detach psoc v;; modify (set_vdevs (delete v));; mret None
            else
              wlan_objmgr_vdev_get_ref v WLAN_OBJMGR_ID;;
              ok ← obj_create_tail (OVdev v) (wlan_objmgr_vdev_obj_delete v);
              mret (if ok : bool then Some v else None)
      end
  end.

Definition wlan_objmgr_vdev_component_obj_attach v comp priv status :=
  component_obj_attach (OVdev v) comp priv status.
Definition wlan_objmgr_vdev_component_obj_detach v comp priv :=
  component_obj_detach (OVdev v) comp priv (wlan_objmgr_vdev_obj_free v).
Definition wlan_objmgr_trigger_vdev_comp_priv_object_creation v comp :=
  trigger_creation (OVdev v) comp (wlan_objmgr_vdev_obj_free v).
Definition wlan_objmgr_trigger_vdev_comp_priv_object_deletion v comp :=
  trigger_deletion (OVdev v) comp (wlan_objmgr_vdev_obj_free v).
Definition wlan_objmgr_vdev_get_comp_private_obj v comp : MO (option Z) :=
  if (WLAN_UMAC_MAX_COMPONENTS <=? comp)%nat then QDF_BUG;; mret None
  else h ← read_hdr (OVdev v); mret (comp_priv_obj h !! comp).

Definition set_peers_of (l : list nat) (n : nat) (r : wlan_objmgr_vdev) : wlan_objmgr_vdev :=
  Vdev (vdev_hdr r) (vdev_id r) (wlan_pdev r) (vdev_opmode r) (vdev_macaddr r)
    l n (vdev_max_peer_count r) (self_peer r) (bss_peer r).
Definition wlan_vdev_set_selfpeer (a : option nat) (r : wlan_objmgr_vdev) : wlan_objmgr_vdev :=
  Vdev (vdev_hdr r) (vdev_id r) (wlan_pdev r) (vdev_opmode r) (vdev_macaddr r)
    (wlan_peer_list r) (vdev_peer_count r) (vdev_max_peer_count r) a (bss_peer r).
Definition wlan_vdev_set_bsspeer (a : option nat) (r : wlan_objmgr_vdev) : wlan_objmgr_vdev :=
  Vdev (vdev_hdr r) (vdev_id r) (wlan_pdev r) (vdev_opmode r) (vdev_macaddr r)
    (wlan_peer_list r) (vdev_peer_count r) (vdev_max_peer_count r) (self_peer r) a.

Definition ap_mode (m : QDF_OPMODE) : bool :=
  bool_decide (m = QDF_SAP_MODE) || bool_decide (m = QDF_P2P_GO_MODE) || bool_decide (m = QDF_NDI_MODE).
Definition sta_mode (m : QDF_OPMODE) : bool :=
  bool_decide (m = QDF_STA_MODE) || bool_decide (m = QDF_P2P_CLIENT_MODE).
Definition ap_peer (t : wlan_peer_type) : bool :=
  bool_decide (t = WLAN_PEER_AP) || bool_decide (t = WLAN_PEER_P2P_GO).
(** The peer becomes the BSS peer of the vdev. *)
Definition sets_bsspeer (r : wlan_objmgr_vdev) (t : wlan_peer_type) (mac : list Z) : bool :=
  (WLAN_ADDR_EQ mac (vdev_macaddr r) && ap_mode (vdev_opmode r))
  || (sta_mode (vdev_opmode r) && ap_peer t).

Definition wlan_objmgr_vdev_peer_attach v x : MO QDF_STATUS :=
  r ← read_vdev v;
  rx ← read_peer x;
  let t := peer_type rx in
  if negb (temporary t) && (vdev_max_peer_count r <=? vdev_peer_count r)%nat
  then mret QDF_STATUS_E_FAILURE
  else
    rd ← read_pdev (wlan_pdev r);
    if (if temporary t then (WLAN_MAX_PDEV_TEMP_PEERS <=? pdev_temp_peer_count rd)%nat
        else (pdev_max_peer_count rd <=? pdev_peer_count rd)%nat)
    then mret QDF_STATUS_E_FAILURE
    else
      write_pdev (wlan_pdev r) (count_peer t S);;
      write_vdev v (set_peers_of (wlan_peer_list r ++ [x]) (S (vdev_peer_count r)));;
      (if WLAN_ADDR_EQ (peer_macaddr rx) (vdev_macaddr r)
       then write_vdev v (wlan_vdev_set_selfpeer (Some x)) else mret ());;
      (if sets_bsspeer r t (peer_macaddr rx)
       then write_vdev v (wlan_vdev_set_bsspeer (Some x)) else mret ());;
      wlan_objmgr_vdev_get_ref v WLAN_OBJMGR_ID;; mret QDF_STATUS_SUCCESS.

Definition wlan_objmgr_vdev_peer_detach v x : MO QDF_STATUS :=
  r ← read_vdev v;
  if (vdev_peer_count r =? 0)%nat then mret QDF_STATUS_E_FAILURE
  else
    (if bool_decide (self_peer r = Some x) then write_vdev v (wlan_vdev_set_selfpeer None) else mret ());;
    (if bool_decide (bss_peer r = Some x) then write_vdev v (wlan_vdev_set_bsspeer None) else mret ());;
    match wlan_peer_list r with
    | [] => mret QDF_STATUS_E_FAILURE
    | l =>
        l ← list_del x l;
        write_vdev v (set_peers_of l (pred (vdev_peer_count r)));;
        rx ← read_peer x;
        write_pdev (wlan_pdev r) (count_peer (peer_type rx) pred);;
        wlan_objmgr_vdev_release_ref v WLAN_OBJMGR_ID;; mret QDF_STATUS_SUCCESS
    end.

Fixpoint peer_freed_notify_loop (n comp : nat) v : MO unit :=
  match n with
  | O => mret ()
  | S n =>
      g ← read_glob;
      (match vdev_peer_free_notify_handler g !! comp with
       | Some _ => modify (emit (EvPeerFreed v comp))
       | None => mret ()
       end);;
      peer_freed_notify_loop n (S comp) v
  end.
Definition wlan_objmgr_vdev_peer_freed_notify v : MO unit :=
  peer_freed_notify_loop WLAN_UMAC_MAX_COMPONENTS 0 v.

(** ** The peer (wlan_objmgr_peer_obj.c) *)

Definition wlan_objmgr_peer_object_status x : MO QDF_STATUS := object_status (OPeer x).

(** Peers of these types hold a reference on the BSS peer of their vdev. *)
Definition holds_bss (t : wlan_peer_type) : bool :=
  bool_decide (t = WLAN_PEER_STA) || bool_decide (t = WLAN_PEER_STA_TEMP)
  || bool_decide (t = WLAN_PEER_P2P_CLI).

Section PeerFree.
(** [wlan_objmgr_peer_release_ref], of the BSS peer. *)
Variable release_bss : option nat -> nat -> MO unit.

Definition peer_obj_free x : MO QDF_STATUS :=
  rx ← read_peer x;
  let v := peer_vdev rx in
  psoc ← wlan_vdev_get_psoc v;
  (if holds_bss (peer_type rx)
   then r ← read_vdev v; release_bss (bss_peer r) WLAN_OBJMGR_ID else mret ());;
  wlan_objmgr_vdev_get_ref v WLAN_OBJMGR_ID;;
  status ← wlan_objmgr_vdev_peer_detach v x;
  if bool_decide (status = QDF_STATUS_E_FAILURE) then
    wlan_objmgr_vdev_release_ref v WLAN_OBJMGR_ID;; mret QDF_STATUS_E_FAILURE
  else
    status ← wlan_objmgr_psoc_peer_detach psoc x;
    if bool_decide (status = QDF_STATUS_E_FAILURE) then
      wlan_objmgr_vdev_release_ref v WLAN_OBJMGR_ID;; mret QDF_STATUS_E_FAILURE
    else
      read_peer x;;
      modify (set_peers (delete x));; modify (emit (EvFree (OPeer x)));;
      wlan_objmgr_vdev_peer_freed_notify v;;
      wlan_objmgr_vdev_release_ref v WLAN_OBJMGR_ID;; mret QDF_STATUS_SUCCESS.

Definition peer_obj_destroy x : MO QDF_STATUS := obj_destroy (OPeer x) (peer_obj_free x).

(** [wlan_objmgr_peer_release_debug_id_ref] and the rest of the release. *)
Definition peer_release_ref (ox : option nat) id : MO unit :=
  match ox with
  | None => QDF_BUG
  | Some x =>
      h ← read_hdr (OPeer x);
      if ref_cnt h =? 0 then QDF_BUG
      else if refs_by h id =? 0 then QDF_BUG
      else dec_and_test (OPeer x) id (peer_obj_destroy x)
  end.
End PeerFree.

(** The last reference of a peer gives back the one it holds on the BSS peer, which may
    be the last of that one. *)
Fixpoint wlan_objmgr_peer_release_ref (fuel : nat) (ox : option nat) id : MO unit :=
  match fuel with
  | O => out_of_fuel
  | S fuel => peer_release_ref (wlan_objmgr_peer_release_ref fuel) ox id
  end.

(** A BSS peer holds no reference on another one: two levels. *)
Definition bss_depth : nat := 2.

Definition wlan_objmgr_peer_obj_free x : MO QDF_STATUS :=
  peer_obj_free (wlan_objmgr_peer_release_ref bss_depth) x.
Definition wlan_objmgr_peer_obj_destroy x : MO QDF_STATUS :=
  peer_obj_destroy (wlan_objmgr_peer_release_ref bss_depth) x.
Abbreviation release_peer := (wlan_objmgr_peer_release_ref (S bss_depth)).

Definition wlan_objmgr_peer_get_ref (ox : option nat) id : MO unit := obj_get_ref (OPeer <$> ox) id.
Definition wlan_objmgr_peer_try_get_ref (ox : option nat) id : MO QDF_STATUS :=
  obj_try_get_ref (OPeer <$> ox) id.

Definition wlan_objmgr_peer_obj_delete x : MO QDF_STATUS :=
  obj_delete (OPeer x) (release_peer (Some x) WLAN_OBJMGR_ID).

Definition wlan_objmgr_peer_obj_create v (type : wlan_peer_type) (mac : list Z) : MO (option nat) :=
  psoc ← wlan_vdev_get_psoc v;
  m ← qdf_mem_malloc;
  match m with
  | None => mret None
  | Some x =>
      modify (set_peers <[x := Peer zero_hdr v mac type 0]>);;
      wlan_objmgr_peer_get_ref (Some x) WLAN_OBJMGR_ID;;
      status ← wlan_objmgr_psoc_peer_attach psoc x;
      if QDF_IS_STATUS_ERROR status then modify (set_peers (delete x));; mret None
      else
        status ← wlan_objmgr_vdev_peer_attach v x;
        if QDF_IS_STATUS_ERROR status then
          wlan_objmgr_psoc_peer_detach psoc x;; modify (set_peers (delete x));; mret None
        else
          r ← read_vdev v;
          rd ← read_pdev (wlan_pdev r);
          write_peer x (fun rx => Peer (peer_hdr rx) (peer_vdev rx) (peer_macaddr rx) (peer_type rx)
                                    (wlan_pdev_id rd));;
          (if holds_bss type then wlan_objmgr_peer_get_ref (bss_peer r) WLAN_OBJMGR_ID else mret ());;
          ok ← obj_create_tail (OPeer x) (wlan_objmgr_peer_obj_delete x);
          mret (if ok : bool then Some x else None)
  end.

Definition wlan_objmgr_peer_component_obj_attach x comp priv status :=
  component_obj_attach (OPeer x) comp priv status.
Definition wlan_objmgr_peer_component_obj_detach x comp priv :=
  component_obj_detach (OPeer x) comp priv (wlan_objmgr_peer_obj_free x).
Definition wlan_objmgr_trigger_peer_comp_priv_object_creation x comp :=
  trigger_creation (OPeer x) comp (wlan_objmgr_peer_obj_free x).
Definition wlan_objmgr_trigger_peer_comp_priv_object_deletion x comp :=
  trigger_deletion (OPeer x) comp (wlan_objmgr_peer_obj_free x).
Definition wlan_objmgr_peer_get_comp_private_obj x comp : MO (option Z) :=
  if (WLAN_UMAC_MAX_COMPONENTS <=? comp)%nat then QDF_BUG;; mret None
  else h ← read_hdr (OPeer x); mret (comp_priv_obj h !! comp).

(** ** Lookups (wlan_objmgr_psoc_obj.c, wlan_objmgr_pdev_obj.c, wlan_objmgr_vdev_obj.c)

    What is found is returned with a reference for the caller, [dbg_id]. *)

(** One entry of a pointer table, with the check of its state or without. *)
Definition take_if_created (o : objref) id : MO bool :=
  status ← obj_try_get_ref (Some o) id; mret (QDF_IS_STATUS_SUCCESS status).
Definition take_any (o : objref) id : MO bool := obj_get_ref (Some o) id;; mret true.

Definition from_slot (a : option nat) (take : nat -> MO bool) : MO (option nat) :=
  match a with
  | None => mret None
  | Some n => ok ← take n; mret (if ok : bool then Some n else None)
  end.

Definition wlan_objmgr_get_pdev_by_id p (id dbg_id : nat) : MO (option nat) :=
  if (WLAN_UMAC_MAX_PDEVS <=? id)%nat then mret None
  else
    r ← read_psoc p;
    a ← deref (wlan_pdev_list r !! id);
    from_slot a (fun d => take_if_created (OPdev d) dbg_id).
Definition wlan_objmgr_get_pdev_by_id_no_state p (id dbg_id : nat) : MO (option nat) :=
  if (WLAN_UMAC_MAX_PDEVS <=? id)%nat then mret None
  else
    r ← read_psoc p;
    a ← deref (wlan_pdev_list r !! id);
    from_slot a (fun d => take_any (OPdev d) dbg_id).
Definition wlan_objmgr_get_vdev_by_id_from_psoc p (id dbg_id : nat) : MO (option nat) :=
  r ← read_psoc p;
  if (WLAN_UMAC_PSOC_MAX_VDEVS <=? id)%nat then mret None
  else
    a ← deref (psoc_vdev_list r !! id);
    from_slot a (fun v => take_if_created (OVdev v) dbg_id).
Definition wlan_objmgr_get_vdev_by_id_from_psoc_no_state p (id dbg_id : nat) : MO (option nat) :=
  r ← read_psoc p;
  if (WLAN_UMAC_PSOC_MAX_VDEVS <=? id)%nat then mret None
  else
    a ← deref (psoc_vdev_list r !! id);
    from_slot a (fun v => take_any (OVdev v) dbg_id).

(** The first object of a list that is wanted and that can be taken. *)
Fixpoint search (l : list nat) (want take : nat -> MO bool) : MO (option nat) :=
  match l with
  | [] => mret None
  | n :: l =>
      w ← want n;
      if w : bool then
        ok ← take n;
        if ok : bool then mret (Some n) else search l want take
      else search l want take
  end.
(** The loop that gives up at the first wanted object. *)
Fixpoint search_first (l : list nat) (want take : nat -> MO bool) : MO (option nat) :=
  match l with
  | [] => mret None
  | n :: l =>
      w ← want n;
      if w : bool then ok ← take n; mret (if ok : bool then Some n else None)
      else search_first l want take
  end.

Definition vdev_has_id (vdev_id' : nat) v : MO bool := r ← read_vdev v; mret (vdev_id r =? vdev_id')%nat.
Definition vdev_has_mac (mac : list Z) v : MO bool :=
  r ← read_vdev v; mret (WLAN_ADDR_EQ (vdev_macaddr r) mac).
Definition vdev_has_opmode (m : QDF_OPMODE) v : MO bool :=
  r ← read_vdev v; mret (bool_decide (vdev_opmode r = m)).

Definition wlan_objmgr_get_vdev_by_opmode_from_psoc p (m : QDF_OPMODE) (dbg_id : nat) : MO (option nat) :=
  r ← read_psoc p;
  search (omap id (psoc_vdev_list r)) (vdev_has_opmode m) (fun v => take_if_created (OVdev v) dbg_id).
Definition wlan_objmgr_get_vdev_by_id_from_pdev d (id dbg_id : nat) : MO (option nat) :=
  r ← read_pdev d;
  search_first (wlan_vdev_list r) (vdev_has_id id) (fun v => take_if_created (OVdev v) dbg_id).
Definition wlan_objmgr_get_vdev_by_id_from_pdev_no_state d (id dbg_id : nat) : MO (option nat) :=
  r ← read_pdev d;
  search_first (wlan_vdev_list r) (vdev_has_id id) (fun v => take_any (OVdev v) dbg_id).
Definition wlan_objmgr_get_vdev_by_macaddr_from_pdev d (mac : list Z) (dbg_id : nat) : MO (option nat) :=
  r ← read_pdev d;
  search (wlan_vdev_list r) (vdev_has_mac mac) (fun v => take_if_created (OVdev v) dbg_id).
Definition wlan_objmgr_get_vdev_by_macaddr_from_pdev_no_state d (mac : list Z) (dbg_id : nat)
  : MO (option nat) :=
  r ← read_pdev d;
  search (wlan_vdev_list r) (vdev_has_mac mac) (fun v => take_any (OVdev v) dbg_id).
Definition wlan_objmgr_pdev_get_first_vdev d (dbg_id : nat) : MO (option nat) :=
  r ← read_pdev d;
  search (wlan_vdev_list r) (fun _ => mret true) (fun v => take_if_created (OVdev v) dbg_id).

Definition wlan_objmgr_get_vdev_by_macaddr_from_psoc p (pdev_id : nat) (mac : list Z) (dbg_id : nat)
  : MO (option nat) :=
  pdev ← wlan_objmgr_get_pdev_by_id p pdev_id dbg_id;
  match pdev with
  | None => mret None
  | Some d =>
      v ← wlan_objmgr_get_vdev_by_macaddr_from_pdev d mac dbg_id;
      wlan_objmgr_pdev_release_ref d dbg_id;; mret v
  end.
Definition wlan_objmgr_get_vdev_by_macaddr_from_psoc_no_state p (pdev_id : nat) (mac : list Z)
    (dbg_id : nat) : MO (option nat) :=
  pdev ← wlan_objmgr_get_pdev_by_id p pdev_id dbg_id;
  match pdev with
  | None => mret None
  | Some d =>
      v ← wlan_objmgr_get_vdev_by_macaddr_from_pdev_no_state d mac dbg_id;
      wlan_objmgr_pdev_release_ref d dbg_id;; mret v
  end.

Definition peer_has_mac (mac : list Z) x : MO bool :=
  r ← read_peer x; mret (WLAN_ADDR_EQ (peer_macaddr r) mac).
Definition peer_has_mac_pdev (mac : list Z) (pdev_id : nat) x : MO bool :=
  r ← read_peer x; mret (WLAN_ADDR_EQ (peer_macaddr r) mac && (peer_pdev_id r =? pdev_id)%nat).
Definition wlan_peer_bssid_match x (bssid : list Z) : MO bool :=
  r ← read_peer x; rv ← read_vdev (peer_vdev r); mret (WLAN_ADDR_EQ (vdev_macaddr rv) bssid).
Definition peer_has_mac_bssid (mac bssid : list Z) (pdev_id : nat) x : MO bool :=
  r ← read_peer x;
  if WLAN_ADDR_EQ (peer_macaddr r) mac then
    b ← wlan_peer_bssid_match x bssid; mret (b && (peer_pdev_id r =? pdev_id)%nat)
  else mret false.
Definition peer_logically_deleted x : MO bool :=
  r ← read_peer x; mret (bool_decide (obj_state (peer_hdr r) = WLAN_OBJ_STATE_LOGICALLY_DELETED)).

Definition wlan_obj_psoc_peerlist_get_peer_by_pdev_id (l : list nat) mac pdev_id dbg_id :=
  search l (peer_has_mac_pdev mac pdev_id) (fun x => take_if_created (OPeer x) dbg_id).
Definition wlan_obj_psoc_peerlist_get_peer (l : list nat) mac dbg_id :=
  search l (peer_has_mac mac) (fun x => take_if_created (OPeer x) dbg_id).
Definition wlan_obj_psoc_peerlist_get_peer_logically_deleted (l : list nat) mac dbg_id :=
  search l (fun x => m ← peer_has_mac mac x; if m : bool then peer_logically_deleted x else mret false)
    (fun x => take_any (OPeer x) dbg_id).
Definition wlan_obj_psoc_peerlist_get_peer_by_mac_n_bssid_no_state (l : list nat) mac bssid pdev_id dbg_id :=
  search l (peer_has_mac_bssid mac bssid pdev_id) (fun x => take_any (OPeer x) dbg_id).
Definition wlan_obj_psoc_peerlist_get_peer_by_mac_n_bssid (l : list nat) mac bssid pdev_id dbg_id :=
  search l (peer_has_mac_bssid mac bssid pdev_id) (fun x => take_if_created (OPeer x) dbg_id).
Definition wlan_obj_psoc_peerlist_get_peer_no_state (l : list nat) mac pdev_id dbg_id :=
  search l (peer_has_mac_pdev mac pdev_id) (fun x => take_any (OPeer x) dbg_id).

(** The hash list of an address, unless the psoc has no (regular) peer. *)
Definition in_hash {A} p (mac : list Z) (none : A) (find : list nat -> MO A) : MO A :=
  r ← read_psoc p;
  if (psoc_peer_count r =? 0)%nat then mret none
  else l ← deref (peer_hash r !! WLAN_PEER_HASH mac); find l.

Definition wlan_objmgr_get_peer p (pdev_id : nat) (mac : list Z) (dbg_id : nat) : MO (option nat) :=
  (if (WLAN_UMAC_MAX_PDEVS <=? pdev_id)%nat then QDF_BUG else mret ());;
  in_hash p mac None (fun l => wlan_obj_psoc_peerlist_get_peer_by_pdev_id l mac pdev_id dbg_id).
Definition wlan_objmgr_get_peer_nolock p (pdev_id : nat) (mac : list Z) (dbg_id : nat) : MO (option nat) :=
  in_hash p mac None (fun l => wlan_obj_psoc_peerlist_get_peer_by_pdev_id l mac pdev_id dbg_id).
Definition wlan_objmgr_get_peer_by_mac p (mac : list Z) (dbg_id : nat) : MO (option nat) :=
  in_hash p mac None (fun l => wlan_obj_psoc_peerlist_get_peer l mac dbg_id).
Definition wlan_objmgr_get_peer_logically_deleted p (mac : list Z) (dbg_id : nat) : MO (option nat) :=
  in_hash p mac None (fun l => wlan_obj_psoc_peerlist_get_peer_logically_deleted l mac dbg_id).
Definition wlan_objmgr_get_peer_by_mac_n_vdev p (pdev_id : nat) (bssid mac : list Z) (dbg_id : nat)
  : MO (option nat) :=
  in_hash p mac None (fun l => wlan_obj_psoc_peerlist_get_peer_by_mac_n_bssid l mac bssid pdev_id dbg_id).
Definition wlan_objmgr_get_peer_by_mac_n_vdev_no_state p (pdev_id : nat) (bssid mac : list Z)
    (dbg_id : nat) : MO (option nat) :=
  in_hash p mac None
    (fun l => wlan_obj_psoc_peerlist_get_peer_by_mac_n_bssid_no_state l mac bssid pdev_id dbg_id).
Definition wlan_objmgr_get_peer_no_state p (pdev_id : nat) (mac : list Z) (dbg_id : nat) : MO (option nat) :=
  in_hash p mac None (fun l => wlan_obj_psoc_peerlist_get_peer_no_state l mac pdev_id dbg_id).

(** The logically deleted peers of a list that are [wanted] and still referenced, the
    last one first, each with a reference; it stops when there is no memory for one. *)
Fixpoint logically_del_loop (l : list nat) (want : nat -> MO bool) (dbg_id : nat) (found : list nat)
  : MO (list nat) :=
  match l with
  | [] => mret found
  | x :: l =>
      w ← want x;
      r ← read_peer x;
      if w && bool_decide (obj_state (peer_hdr r) = WLAN_OBJ_STATE_LOGICALLY_DELETED)
           && negb (ref_cnt (peer_hdr r) =? 0) then
        wlan_objmgr_peer_get_ref (Some x) dbg_id;;
        m ← qdf_mem_malloc;
        match m with
        | None => release_peer (Some x) dbg_id;; QDF_BUG;; mret found
        | Some _ => logically_del_loop l want dbg_id (x :: found)
        end
      else logically_del_loop l want dbg_id found
  end.
Definition populate_logically_del (l : list nat) (want : nat -> MO bool) (dbg_id : nat)
  : MO (list nat) :=
  m ← qdf_mem_malloc;
  match m with None => mret [] | Some _ => logically_del_loop l want dbg_id [] end.

(** A NULL [bssid] matches every vdev. *)
Definition wlan_obj_psoc_populate_logically_del_peerlist_by_mac_n_bssid (l : list nat) (mac : list Z)
    (bssid : option (list Z)) (pdev_id dbg_id : nat) : MO (list nat) :=
  populate_logically_del l (fun x =>
    m ← peer_has_mac_pdev mac pdev_id x;
    if m : bool then match bssid with None => mret true | Some b => wlan_peer_bssid_match x b end
    else mret false) dbg_id.
Definition wlan_objmgr_populate_logically_deleted_peerlist_by_mac_n_vdev p (pdev_id : nat)
    (bssid : option (list Z)) (mac : list Z) (dbg_id : nat) : MO (list nat) :=
  in_hash p mac [] (fun l =>
    wlan_obj_psoc_populate_logically_del_peerlist_by_mac_n_bssid l mac bssid pdev_id dbg_id).

Definition wlan_obj_vdev_populate_logically_del_peerlist (l : list nat) (dbg_id : nat) : MO (list nat) :=
  populate_logically_del l (fun _ => mret true) dbg_id.
Definition wlan_objmgr_vdev_get_log_del_peer_list v (dbg_id : nat) : MO (list nat) :=
  r ← read_vdev v;
  if bool_decide (obj_state (vdev_hdr r) <> WLAN_OBJ_STATE_CREATED) then mret []
  else if (vdev_peer_count r =? 0)%nat then mret []
  else
    wlan_objmgr_vdev_get_ref v dbg_id;;
    l ← wlan_obj_vdev_populate_logically_del_peerlist (wlan_peer_list r) dbg_id;
    wlan_objmgr_vdev_release_ref v dbg_id;; mret l.

(** A reference is taken on every peer that is compared. *)
Fixpoint find_peer_loop (l : list nat) (mac : list Z) (dbg_id : nat) : MO (option nat) :=
  match l with
  | [] => mret None
  | x :: l =>
      status ← wlan_objmgr_peer_try_get_ref (Some x) dbg_id;
      if QDF_IS_STATUS_SUCCESS status then
        m ← peer_has_mac mac x;
        if m : bool then mret (Some x)
        else release_peer (Some x) dbg_id;; find_peer_loop l mac dbg_id
      else find_peer_loop l mac dbg_id
  end.
Definition wlan_objmgr_vdev_find_peer_by_mac v (mac : list Z) (dbg_id : nat) : MO (option nat) :=
  r ← read_vdev v;
  if bool_decide (obj_state (vdev_hdr r) <> WLAN_OBJ_STATE_CREATED) then mret None
  else
    wlan_objmgr_vdev_get_ref v dbg_id;;
    x ← find_peer_loop (wlan_peer_list r) mac dbg_id;
    wlan_objmgr_vdev_release_ref v dbg_id;; mret x.

Definition wlan_objmgr_vdev_try_get_bsspeer v (id : nat) : MO (option nat) :=
  r ← read_vdev v;
  match bss_peer r with
  | None => mret None
  | Some x =>
      status ← wlan_objmgr_peer_try_get_ref (Some x) id;
      mret (if QDF_IS_STATUS_SUCCESS status then Some x else None)
  end.

(** ** Iteration over the objects of a psoc (wlan_objmgr_psoc_obj.c) *)

(** The nodes after [x] in its list. *)
Fixpoint after_node x (l : list nat) : option (list nat) :=
  match l with
  | [] => None
  | y :: l => if (y =? x)%nat then Some l else after_node x l
  end.

Definition hash_list p (i : nat) : MO (list nat) := r ← read_psoc p; deref (peer_hash r !! i).

Definition wlan_psoc_peer_list_peek_active_head p (i dbg_id : nat) : MO (option nat) :=
  l ← hash_list p i;
  search l (fun _ => mret true) (fun x => take_if_created (OPeer x) dbg_id).
Definition wlan_peer_get_next_active_peer_of_psoc p (i : nat) x (dbg_id : nat) : MO (option nat) :=
  l ← hash_list p i;
  l ← deref (after_node x l);
  search l (fun _ => mret true) (fun x => take_if_created (OPeer x) dbg_id).

Section Iterate.
Variable handler : objref -> MO unit.

Fixpoint iterate_hash (fuel : nat) p (i : nat) (peer : option nat) (dbg_id : nat) : MO unit :=
  match peer with
  | None => mret ()
  | Some x =>
      match fuel with
      | O => out_of_fuel
      | S fuel =>
          handler (OPeer x);;
          peer_next ← wlan_peer_get_next_active_peer_of_psoc p i x dbg_id;
          release_peer (Some x) dbg_id;;
          iterate_hash fuel p i peer_next dbg_id
      end
  end.
Fixpoint iterate_hashes (n i : nat) fuel p (dbg_id : nat) : MO unit :=
  match n with
  | O => mret ()
  | S n =>
      peer ← wlan_psoc_peer_list_peek_active_head p i dbg_id;
      iterate_hash fuel p i peer dbg_id;;
      iterate_hashes n (S i) fuel p dbg_id
  end.
Fixpoint iterate_ids (n id : nat) (get : nat -> MO (option nat)) (obj : nat -> objref)
    (release : nat -> MO unit) : MO unit :=
  match n with
  | O => mret ()
  | S n =>
      a ← get id;
      match a with
      | Some a => handler (obj a);; release a
      | None => mret ()
      end;;
      iterate_ids n (S id) get obj release
  end.

Definition wlan_objmgr_iterate_obj_list fuel p (obj_type : wlan_objmgr_obj_type) (dbg_id : nat)
  : MO QDF_STATUS :=
  match obj_type with
  | WLAN_PDEV_OP =>
      iterate_ids WLAN_UMAC_MAX_PDEVS 0 (fun id => wlan_objmgr_get_pdev_by_id p id dbg_id) OPdev
        (fun d => wlan_objmgr_pdev_release_ref d dbg_id)
  | WLAN_VDEV_OP =>
      iterate_ids WLAN_UMAC_PSOC_MAX_VDEVS 0
        (fun id => wlan_objmgr_get_vdev_by_id_from_psoc p id dbg_id) OVdev
        (fun v => wlan_objmgr_vdev_release_ref v dbg_id)
  | WLAN_PEER_OP => iterate_hashes WLAN_PEER_HASHSIZE 0 fuel p dbg_id
  | WLAN_PSOC_OP => mret ()
  end;;
  mret QDF_STATUS_SUCCESS.
End Iterate.

(** [wlan_objmgr_psoc_{peer,vdev,pdev}_delete] *)
Definition delete_handler (o : objref) : MO unit :=
  match o with
  | OPsoc _ => mret ()
  | OPdev d => wlan_objmgr_pdev_obj_delete d;; mret ()
  | OVdev v => wlan_objmgr_vdev_obj_delete v;; mret ()
  | OPeer x => wlan_objmgr_peer_obj_delete x;; mret ()
  end.

Definition wlan_objmgr_free_all_objects_per_psoc fuel p : MO QDF_STATUS :=
  wlan_objmgr_iterate_obj_list delete_handler fuel p WLAN_PEER_OP WLAN_OBJMGR_ID;;
  wlan_objmgr_iterate_obj_list delete_handler fuel p WLAN_VDEV_OP WLAN_OBJMGR_ID;;
  wlan_objmgr_iterate_obj_list delete_handler fuel p WLAN_PDEV_OP WLAN_OBJMGR_ID;;
  mret QDF_STATUS_SUCCESS.

End Obj.
