(* ===== verification/ObjInv.v ===== *)
(** The invariant of the object manager: what the reference counts count, how the lists,
    slots and hash tables of the objects agree with each other; and that adding an
    object, removing one, and changing a header keep it. *)
From S2P Require Import Prelude QdfTypes Obj.

#[global] Arguments WLAN_UMAC_PSOC_MAX_PEERS : simpl never.
#[global] Arguments WLAN_MAX_PSOC_TEMP_PEERS : simpl never.
#[global] Arguments WLAN_MAX_PDEV_TEMP_PEERS : simpl never.

(** ** Headers *)

(** All the references counted by caller. *)
Definition total (h : wlan_objmgr_hdr) : Z := map_fold (fun _ z acc => z + acc) 0 (ref_id_dbg h).

Definition live_state (st : WLAN_OBJ_STATE) : bool :=
  match st with
  | WLAN_OBJ_STATE_LOGICALLY_DELETED | WLAN_OBJ_STATE_PARTIALLY_DELETED
  | WLAN_OBJ_STATE_DELETED | WLAN_OBJ_STATE_DELETION_FAILED => false
  | _ => true
  end.
(** Not deleted by its owner. *)
Definition live (h : wlan_objmgr_hdr) : bool := live_state (obj_state h).
(** The reference an object holds on itself until it is deleted. *)
Definition own (h : wlan_objmgr_hdr) : Z := if live h then 1 else 0.
(** The destroy handlers have run. *)
Definition closed (st : WLAN_OBJ_STATE) : bool :=
  match st with
  | WLAN_OBJ_STATE_PARTIALLY_DELETED | WLAN_OBJ_STATE_DELETED | WLAN_OBJ_STATE_DELETION_FAILED => true
  | _ => false
  end.

(** Its components failed to destroy their parts, or are still to do so. *)
Definition waiting (st : WLAN_OBJ_STATE) : bool :=
  match st with
  | WLAN_OBJ_STATE_PARTIALLY_DELETED | WLAN_OBJ_STATE_DELETION_FAILED => true
  | _ => false
  end.

(** What a handler answers when it failed. *)
Definition comp_failed (st : QDF_STATUS) : bool :=
  match st with QDF_STATUS_E_NOMEM | QDF_STATUS_E_FAILURE => true | _ => false end.
(** No handler fails on an object that is being destroyed. *)
Definition destroys_ok {E : objmgr_env} : Prop := forall f arg o s h,
  get_hdr o s = Some h -> obj_state h = WLAN_OBJ_STATE_LOGICALLY_DELETED ->
  comp_failed (h_status (handlers f arg o s)) = false.
(** Then an object without a reference is one that waits for its components. *)
Definition settled {E : objmgr_env} (h : wlan_objmgr_hdr) : Prop :=
  destroys_ok -> ref_cnt h = 0 -> waiting (obj_state h) = true.

(** The references of an object that has [kids] children, [eo] by caller given out. *)
Record hdr_ok {E : objmgr_env} (kids : Z) (eo : nat -> Z) (h : wlan_objmgr_hdr) : Prop := {
  hdr_refs : forall id, refs_by h id = (if (id =? 0)%nat then own h + kids else 0) + eo id;
  hdr_nonneg : forall id, 0 <= refs_by h id;
  hdr_total : ref_cnt h = total h;
  hdr_closed : closed (obj_state h) = true -> ref_cnt h = 0;
  hdr_settled : settled h;
}.

Section Totals.
Implicit Types (h : wlan_objmgr_hdr) (m : gmap nat Z).

Lemma fold_insert_Z i z m :
  map_fold (fun _ z acc => z + acc) 0 (<[i := z]> m)
  = map_fold (fun _ z acc => z + acc) 0 m - default 0 (m !! i) + z.
Proof.
  assert (forall m i z, m !! i = None ->
    map_fold (fun _ z acc => z + acc) 0 (<[i := z]> m)
    = z + map_fold (fun _ z acc => z + acc) 0 m) as Hnew.
  { intros m' i' z' H. by rewrite map_fold_insert_L; [|intros; lia|]. }
  destruct (m !! i) as [y|] eqn:E; cbn.
  - rewrite <- (insert_delete_id m i y E) at 2. rewrite <- insert_delete_eq.
    rewrite !Hnew by apply lookup_delete_eq. lia.
  - rewrite Hnew by done. lia.
Qed.

Lemma total_add_ref n id h : total (add_ref n id h) = total h + n.
Proof. unfold total, add_ref, refs_by. cbn. rewrite fold_insert_Z. lia. Qed.

Lemma refs_add_ref n id h id' :
  refs_by (add_ref n id h) id' = refs_by h id' + if bool_decide (id' = id) then n else 0.
Proof.
  unfold refs_by at 1, add_ref. cbn. rewrite lookup_insert.
  case_decide; case_bool_decide; subst; try done. unfold refs_by. lia.
Qed.

Lemma total_ge h id : (forall id, 0 <= refs_by h id) -> 0 <= refs_by h id <= total h.
Proof.
  unfold refs_by, total. generalize (ref_id_dbg h). intros m Hm. split; [apply Hm|].
  revert m Hm id.
  refine (map_first_key_ind _ _ _); [intros; by rewrite lookup_empty|].
  intros i z m Hi Hk IH Hm id.
  assert (forall j, 0 <= default 0 (m !! j)) as Hm'.
  { intros j. destruct (decide (j = i)) as [->|Hne]; [by rewrite Hi|].
    specialize (Hm j). by rewrite lookup_insert_ne in Hm by congruence. }
  rewrite fold_insert_Z, Hi. cbn. pose proof (Hm i) as Hz. rewrite lookup_insert_eq in Hz. cbn in Hz.
  pose proof (IH Hm' id) as H1. pose proof (Hm' id) as H2.
  rewrite lookup_insert. case_decide; cbn; lia.
Qed.

End Totals.

(** ** The world *)

(** References given out to the clients, by object and caller. *)
Abbreviation ledger := (objref -> nat -> Z) (only parsing).
Definition bump (e : ledger) (o : objref) (id : nat) (n : Z) : ledger :=
  fun o' id' => e o' id' + if bool_decide (o' = o /\ id' = id) then n else 0.
Definition no_refs : ledger := fun _ _ => 0.
Definition ledger_ok (e : ledger) : Prop := forall o id, 0 <= e o id.
Definition mark (A : objref -> bool) (o : objref) (b : bool) : objref -> bool :=
  fun o' => if bool_decide (o' = o) then b else A o'.

Definition addr_of (o : objref) : nat :=
  match o with OPsoc n | OPdev n | OVdev n | OPeer n => n end.

Section World.
Implicit Types (s : objmgr_world) (o : objref) (p d v x i id : nat).

Context {Env : objmgr_env}.

(** What never changes in an object once it is linked: its parent, its id or address. *)
Definition pdev_keys s : gmap nat (nat * nat) := (fun r => (wlan_psoc r, wlan_pdev_id r)) <$> pdevs s.
Definition vdev_keys s : gmap nat (nat * nat) := (fun r => (wlan_pdev r, vdev_id r)) <$> vdevs s.
Definition peer_keys s : gmap nat (nat * list Z * wlan_peer_type) :=
  (fun r => (peer_vdev r, peer_macaddr r, peer_type r)) <$> peers s.

#[global] Arguments pdev_keys : simpl never.
#[global] Arguments vdev_keys : simpl never.
#[global] Arguments peer_keys : simpl never.

(** Where an object must be found in its psoc: the psoc, and the slot or bucket. *)
Definition vdev_slot s v : option (nat * nat) :=
  match vdev_keys s !! v with
  | Some (d, i) => match pdev_keys s !! d with Some (p, _) => Some (p, i) | None => None end
  | None => None
  end.
Definition peer_slot s x : option (nat * nat) :=
  match peer_keys s !! x with
  | Some (v, mac, _) =>
      match vdev_slot s v with Some (p, _) => Some (p, WLAN_PEER_HASH mac) | None => None end
  | None => None
  end.

Definition holder s x : bool :=
  match peer_keys s !! x with Some (_, _, t) => holds_bss t | None => false end.
Definition temp s x : bool :=
  match peer_keys s !! x with Some (_, _, t) => temporary t | None => false end.

(** The peers of the VDEVs chosen by [Q] that are temporary, or not ([b]). *)
Definition peers_with s (Q : nat -> bool) (b : bool) : nat :=
  size (filter (fun kx : nat * (nat * list Z * wlan_peer_type) =>
                  Q (fst (fst (snd kx))) && Bool.eqb (temporary (snd (snd kx))) b = true) (peer_keys s)).
Definition in_psoc s p v : bool :=
  match vdev_slot s v with Some (p', _) => bool_decide (p' = p) | None => false end.
Definition in_pdev s d v : bool :=
  match vdev_keys s !! v with Some (d', _) => bool_decide (d' = d) | None => false end.

(** The references the children of an object hold on it; for a peer, those of the peers
    whose BSS peer it is. *)
Definition kids s o : Z :=
  match o with
  | OPsoc p => match psocs s !! p with Some r => Z.of_nat (psoc_pdev_count r) | None => 0 end
  | OPdev d => match pdevs s !! d with Some r => Z.of_nat (pdev_vdev_count r) | None => 0 end
  | OVdev v => match vdevs s !! v with Some r => Z.of_nat (vdev_peer_count r) | None => 0 end
  | OPeer x =>
      match peer_keys s !! x with
      | Some (v, _, _) =>
          match vdevs s !! v with
          | Some r =>
              if bool_decide (bss_peer r = Some x)
              then Z.of_nat (length (List.filter (holder s) (wlan_peer_list r))) else 0
          | None => 0
          end
      | None => 0
      end
  end.

Definition is_live s o : bool := match get_hdr o s with Some h => live h | None => false end.

Definition nslots (l : list (option nat)) : nat := length (omap id l).
#[global] Arguments nslots : simpl never.
Definition is_bit (map : Z) (l : list (option nat)) : Prop :=
  forall i a, l !! i = Some a -> Z.testbit map (Z.of_nat i) = bool_decide (is_Some a).

Record psoc_ok s p (r : wlan_objmgr_psoc) : Prop := {
  psoc_pdev_len : length (wlan_pdev_list r) = WLAN_UMAC_MAX_PDEVS;
  psoc_vdev_len : length (psoc_vdev_list r) = WLAN_UMAC_PSOC_MAX_VDEVS;
  psoc_hash_len : length (peer_hash r) = WLAN_PEER_HASHSIZE;
  psoc_pdev_bits : is_bit (wlan_pdev_id_map r) (wlan_pdev_list r);
  psoc_vdev_bits : is_bit (wlan_vdev_id_map r) (psoc_vdev_list r);
  psoc_pdevs : forall i d, wlan_pdev_list r !! i = Some (Some d) <-> pdev_keys s !! d = Some (p, i);
  psoc_vdevs : forall i v, psoc_vdev_list r !! i = Some (Some v) <-> vdev_slot s v = Some (p, i);
  psoc_peers : forall i x,
    (exists l, peer_hash r !! i = Some l /\ x ∈ l) <-> peer_slot s x = Some (p, i);
  psoc_buckets : forall i l, peer_hash r !! i = Some l -> NoDup l;
  psoc_pdev_cnt : psoc_pdev_count r = nslots (wlan_pdev_list r);
  psoc_vdev_cnt : psoc_vdev_count r = nslots (psoc_vdev_list r);
  psoc_peer_cnt : psoc_peer_count r = peers_with s (in_psoc s p) false;
  psoc_temp_cnt : psoc_temp_peer_count r = peers_with s (in_psoc s p) true;
  psoc_peer_max : (psoc_peer_count r <= psoc_max_peer_count r)%nat
                  /\ psoc_max_peer_count r = WLAN_UMAC_PSOC_MAX_PEERS;
  psoc_temp_max : (psoc_temp_peer_count r <= WLAN_MAX_PSOC_TEMP_PEERS)%nat;
}.

Record pdev_ok s d (r : wlan_objmgr_pdev) : Prop := {
  pdev_nodup : NoDup (wlan_vdev_list r);
  pdev_vdev_cnt : pdev_vdev_count r = length (wlan_vdev_list r);
  pdev_vdevs : forall v, v ∈ wlan_vdev_list r <-> exists i, vdev_keys s !! v = Some (d, i);
  pdev_peer_cnt : pdev_peer_count r = peers_with s (in_pdev s d) false;
  pdev_temp_cnt : pdev_temp_peer_count r = peers_with s (in_pdev s d) true;
  pdev_vdev_max : (pdev_vdev_count r <= pdev_max_vdev_count r)%nat
                  /\ pdev_max_vdev_count r = WLAN_UMAC_PDEV_MAX_VDEVS;
  pdev_peer_max : (pdev_peer_count r <= pdev_max_peer_count r)%nat
                  /\ pdev_max_peer_count r = WLAN_UMAC_PSOC_MAX_PEERS;
  pdev_temp_max : (pdev_temp_peer_count r <= WLAN_MAX_PDEV_TEMP_PEERS)%nat;
}.

(** [A] says which objects are live: a peer is not deleted while there are temporary
    peers, which need it. *)
Record vdev_ok (A : objref -> bool) s v (r : wlan_objmgr_vdev) : Prop := {
  vdev_nodup : NoDup (wlan_peer_list r);
  vdev_peer_cnt : vdev_peer_count r = length (wlan_peer_list r);
  vdev_peers : forall x, x ∈ wlan_peer_list r <-> exists m t, peer_keys s !! x = Some (v, m, t);
  vdev_self : forall x, self_peer r = Some x -> x ∈ wlan_peer_list r;
  vdev_bss : forall b, bss_peer r = Some b -> b ∈ wlan_peer_list r /\ holder s b = false;
  vdev_holders : forall x, x ∈ wlan_peer_list r -> holder s x = true -> is_Some (bss_peer r);
  vdev_temps : forall x b, x ∈ wlan_peer_list r -> temp s x = true ->
    bss_peer r = Some b -> A (OPeer b) = true;
}.

Record inv (A : objref -> bool) (e : ledger) s : Prop := {
  inv_glob : exists g, glob s = Some g /\ length (g_psoc g) = WLAN_OBJMGR_MAX_DEVICES
    /\ forall i p, g_psoc g !! i = Some (Some p) -> psoc_id <$> psocs s !! p = Some i;
  inv_fresh : forall o h, get_hdr o s = Some h -> (addr_of o < next_addr s)%nat;
  inv_hdr : forall o h, get_hdr o s = Some h -> hdr_ok (kids s o) (e o) h;
  inv_live : forall o, A o = is_live s o;
  inv_refs : forall o id, e o id <> 0 -> is_Some (get_hdr o s);
  inv_pdev_parent : forall d p i, pdev_keys s !! d = Some (p, i) -> is_Some (psocs s !! p);
  inv_vdev_parent : forall v d i, vdev_keys s !! v = Some (d, i) ->
    exists p j, pdev_keys s !! d = Some (p, j) /\ A (OPsoc p) = true;
  inv_peer_parent : forall x v m t, peer_keys s !! x = Some (v, m, t) -> is_Some (vdev_keys s !! v);
  inv_peer_pdev : forall x r d i p j, peers s !! x = Some r ->
    vdev_keys s !! peer_vdev r = Some (d, i) -> pdev_keys s !! d = Some (p, j) -> peer_pdev_id r = j;
  inv_psoc : forall p r, psocs s !! p = Some r -> psoc_ok s p r;
  inv_pdev : forall d r, pdevs s !! d = Some r -> pdev_ok s d r;
  inv_vdev : forall v r, vdevs s !! v = Some r -> vdev_ok A s v r;
}.

(** ** Changing a header *)

Definition set_trace (t : list obj_event) s : objmgr_world :=
  World (glob s) (psocs s) (pdevs s) (vdevs s) (peers s) (next_addr s) t.

Lemma fmap_alter_same {A B} (g : A -> B) (f : A -> A) (m : gmap nat A) i :
  (forall a, g (f a) = g a) -> g <$> alter f i m = g <$> m.
Proof.
  intros H. apply map_eq. intros j. rewrite !lookup_fmap, lookup_alter.
  case_decide as E; [|done]. subst. destruct (m !! j); cbn; by rewrite ?H.
Qed.

(** The same objects, linked the same way. *)
Definition same_keys s s' : Prop :=
  pdev_keys s' = pdev_keys s /\ vdev_keys s' = vdev_keys s /\ peer_keys s' = peer_keys s.

Lemma same_keys_upd o f s : same_keys s (upd_hdr o f s).
Proof. destruct o; repeat split; by apply fmap_alter_same. Qed.

Section Same.
Context s s' (Hk : same_keys s s').

Lemma same_vdev_slot v : vdev_slot s' v = vdev_slot s v.
Proof using Hk. unfold vdev_slot. destruct Hk as (-> & -> & _). done. Qed.
Lemma same_peer_slot x : peer_slot s' x = peer_slot s x.
Proof using Hk.
  unfold peer_slot. destruct Hk as (_ & _ & ->). destruct (peer_keys s !! x) as [[[v m] t]|]; [|done].
  by rewrite same_vdev_slot.
Qed.
Lemma same_holder x : holder s' x = holder s x.
Proof using Hk. unfold holder. by destruct Hk as (_ & _ & ->). Qed.
Lemma same_temp x : temp s' x = temp s x.
Proof using Hk. unfold temp. by destruct Hk as (_ & _ & ->). Qed.
Lemma same_peers_with Q Q' b : (forall v, Q' v = Q v) -> peers_with s' Q' b = peers_with s Q b.
Proof using Hk.
  intros HQ. unfold peers_with. destruct Hk as (_ & _ & ->). f_equal.
  apply map_filter_ext. intros i x _. cbn. by rewrite HQ.
Qed.
Lemma same_in_psoc p v : in_psoc s' p v = in_psoc s p v.
Proof using Hk. unfold in_psoc. by rewrite same_vdev_slot. Qed.
Lemma same_in_pdev d v : in_pdev s' d v = in_pdev s d v.
Proof using Hk. unfold in_pdev. by destruct Hk as (_ & -> & _). Qed.

Lemma psoc_ok_same p r f : psoc_ok s p r -> psoc_ok s' p (with_psoc_hdr f r).
Proof using Hk.
  intros []. constructor; cbn; try done; intros;
    rewrite ?same_vdev_slot, ?same_peer_slot; try done.
  - destruct Hk as (-> & _ & _). done.
  - rewrite (same_peers_with (in_psoc s p)); [done|]. apply same_in_psoc.
  - rewrite (same_peers_with (in_psoc s p)); [done|]. apply same_in_psoc.
Qed.

Lemma pdev_ok_same d r f : pdev_ok s d r -> pdev_ok s' d (with_pdev_hdr f r).
Proof using Hk.
  intros []. constructor; cbn; try done.
  - destruct Hk as (_ & -> & _). done.
  - rewrite (same_peers_with (in_pdev s d)); [done|]. apply same_in_pdev.
  - rewrite (same_peers_with (in_pdev s d)); [done|]. apply same_in_pdev.
Qed.

Lemma vdev_ok_same A A' v r f :
  (forall x b, x ∈ wlan_peer_list r -> temp s x = true -> bss_peer r = Some b ->
     A (OPeer b) = true -> A' (OPeer b) = true) ->
  vdev_ok A s v r -> vdev_ok A' s' v (with_vdev_hdr f r).
Proof using Hk.
  intros HA []. constructor; cbn; try done; intros *; rewrite ?same_holder, ?same_temp; eauto.
  destruct Hk as (_ & _ & ->). done.
Qed.

Lemma psoc_ok_keys p r : psoc_ok s p r -> psoc_ok s' p r.
Proof using Hk. intros P. destruct r. exact (psoc_ok_same p _ (fun h => h) P). Qed.
Lemma pdev_ok_keys d r : pdev_ok s d r -> pdev_ok s' d r.
Proof using Hk. intros P. destruct r. exact (pdev_ok_same d _ (fun h => h) P). Qed.
Lemma vdev_ok_keys A v r : vdev_ok A s v r -> vdev_ok A s' v r.
Proof using Hk. intros P. destruct r. exact (vdev_ok_same A A v _ (fun h => h) (fun _ _ _ _ _ H => H) P). Qed.

End Same.

Lemma get_hdr_upd o o' f s :
  get_hdr o' (upd_hdr o f s) = if bool_decide (o' = o) then f <$> get_hdr o s else get_hdr o' s.
Proof.
  destruct o as [n|n|n|n], o' as [n'|n'|n'|n']; cbn;
    try (rewrite bool_decide_eq_false_2 by done; done);
    rewrite lookup_alter; destruct (decide (n = n')) as [->|Hne];
    [rewrite bool_decide_eq_true_2 by done|rewrite bool_decide_eq_false_2 by congruence; done
    |rewrite bool_decide_eq_true_2 by done|rewrite bool_decide_eq_false_2 by congruence; done
    |rewrite bool_decide_eq_true_2 by done|rewrite bool_decide_eq_false_2 by congruence; done
    |rewrite bool_decide_eq_true_2 by done|rewrite bool_decide_eq_false_2 by congruence; done];
    rewrite <- !option_fmap_compose; by apply option_fmap_ext.
Qed.

Lemma psocs_upd o f s p r' :
  psocs (upd_hdr o f s) !! p = Some r' ->
  exists r g, psocs s !! p = Some r /\ r' = with_psoc_hdr g r.
Proof.
  destruct o; cbn; intros H; try (exists r', (fun h => h); split; [done|by destruct r']).
  apply lookup_alter_Some in H as [(-> & r & Hr & ->)|[_ H]]; [by eauto|].
  exists r', (fun h => h). split; [done|by destruct r'].
Qed.
Lemma pdevs_upd o f s p r' :
  pdevs (upd_hdr o f s) !! p = Some r' ->
  exists r g, pdevs s !! p = Some r /\ r' = with_pdev_hdr g r.
Proof.
  destruct o; cbn; intros H; try (exists r', (fun h => h); split; [done|by destruct r']).
  apply lookup_alter_Some in H as [(-> & r & Hr & ->)|[_ H]]; [by eauto|].
  exists r', (fun h => h). split; [done|by destruct r'].
Qed.
Lemma vdevs_upd o f s p r' :
  vdevs (upd_hdr o f s) !! p = Some r' ->
  exists r g, vdevs s !! p = Some r /\ r' = with_vdev_hdr g r.
Proof.
  destruct o; cbn; intros H; try (exists r', (fun h => h); split; [done|by destruct r']).
  apply lookup_alter_Some in H as [(-> & r & Hr & ->)|[_ H]]; [by eauto|].
  exists r', (fun h => h). split; [done|by destruct r'].
Qed.
Lemma peers_upd o f s p r' :
  peers (upd_hdr o f s) !! p = Some r' ->
  exists r g, peers s !! p = Some r /\ r' = with_peer_hdr g r.
Proof.
  destruct o; cbn; intros H; try (exists r', (fun h => h); split; [done|by destruct r']).
  apply lookup_alter_Some in H as [(-> & r & Hr & ->)|[_ H]]; [by eauto|].
  exists r', (fun h => h). split; [done|by destruct r'].
Qed.

Lemma kids_upd o f s o' : kids (upd_hdr o f s) o' = kids s o'.
Proof.
  destruct o' as [n|n|n|n].
  - destruct o; cbn; try done. rewrite lookup_alter. case_decide; [subst|done].
    by destruct (psocs s !! n).
  - destruct o; cbn; try done. rewrite lookup_alter. case_decide; [subst|done].
    by destruct (pdevs s !! n).
  - destruct o; cbn; try done. rewrite lookup_alter. case_decide; [subst|done].
    by destruct (vdevs s !! n).
  - pose proof (same_keys_upd o f s) as Hk. unfold kids. rewrite (proj2 (proj2 Hk)).
    destruct (peer_keys s !! n) as [[[v m] t]|]; [|done].
    assert (forall l, List.filter (holder (upd_hdr o f s)) l = List.filter (holder s) l) as Hf.
    { intros l. apply List.filter_ext. intros x. apply same_holder, Hk. }
    destruct o; cbn [upd_hdr vdevs set_psocs set_pdevs set_vdevs set_peers];
      try (destruct (vdevs s !! v); [by rewrite Hf|done]).
    rewrite lookup_alter. case_decide; [subst|destruct (vdevs s !! v); [by rewrite Hf|done]].
    destruct (vdevs s !! v); cbn; [by rewrite Hf|done].
Qed.

(** What may be deleted: a psoc without VDEVs, a BSS peer without temporary peers. *)
Definition deletable s o : Prop :=
  match o with
  | OPsoc p => forall r, psocs s !! p = Some r -> psoc_vdev_count r = 0%nat
  | OPeer b => forall v r x, vdevs s !! v = Some r -> bss_peer r = Some b ->
                 x ∈ wlan_peer_list r -> temp s x = false
  | _ => True
  end.


Lemma kids_nonneg s o : 0 <= kids s o.
Proof.
  destruct o as [p|d|v|x]; cbn.
  - destruct (psocs s !! p); lia.
  - destruct (pdevs s !! d); lia.
  - destruct (vdevs s !! v); lia.
  - destruct (peer_keys s !! x) as [[[v m] t]|]; [|done]. destruct (vdevs s !! v); [|done].
    case_bool_decide; lia.
Qed.

Lemma get_hdr_alive s o h : get_hdr o s = Some h -> is_live s o = live h.
Proof. unfold is_live. by intros ->. Qed.

Lemma nslots_0 l : nslots l = 0%nat -> forall i a, l !! i = Some (Some a) -> False.
Proof.
  intros H i a Hi. unfold nslots in H. apply length_zero_iff_nil in H.
  assert (a ∈ omap id l) as Hin; [|by rewrite H in Hin; apply elem_of_nil in Hin].
  apply list_elem_of_omap. exists (Some a). split; [by eapply list_elem_of_lookup_2|done].
Qed.

Lemma inv_set_trace A e s t : inv A e s -> inv A e (set_trace t s).
Proof.
  intros I. assert (same_keys s (set_trace t s)) as Hk by done.
  destruct I as [H1 H2 H3 H4 H5 H6 H7 H8 H9 H10 H11 H12]. constructor; try done; intros a r Hr.
  - eapply psoc_ok_keys; [done|]. by apply H10.
  - eapply pdev_ok_keys; [done|]. by apply H11.
  - eapply vdev_ok_keys; [done|]. by apply H12.
Qed.

Lemma upd_glob o f s : glob (upd_hdr o f s) = glob s.
Proof. by destruct o. Qed.
Lemma upd_next o f s : next_addr (upd_hdr o f s) = next_addr s.
Proof. by destruct o. Qed.

Lemma inv_upd A e A' e' s o f h :
  inv A e s -> get_hdr o s = Some h ->
  hdr_ok (kids s o) (e' o) (f h) ->
  (forall o' id, o' <> o -> e' o' id = e o' id) ->
  (forall o', o' <> o -> A' o' = A o') -> A' o = live (f h) ->
  (A o = true -> A' o = true \/ deletable s o) ->
  inv A' e' (upd_hdr o f s).
Proof.
  intros I Hh Hok He HA HAo Hdel.
  pose proof (same_keys_upd o f s) as Hk. destruct (Hk) as (Hkd & Hkv & Hkx).
  assert (forall o' h', get_hdr o' (upd_hdr o f s) = Some h' -> exists h0, get_hdr o' s = Some h0) as Hex.
  { intros o' h'. rewrite get_hdr_upd. case_bool_decide; subst; rewrite ?Hh; eauto. }
  constructor; rewrite ?Hkd, ?Hkv, ?Hkx, ?upd_glob, ?upd_next.
  - destruct (inv_glob _ _ _ I) as (g & Hg & Hlen & Hslots). exists g.
    split_and!; [done..|]. intros i p Hi. apply Hslots in Hi as Hp.
    destruct o as [q|q|q|q]; cbn; try done. rewrite lookup_alter. case_decide; [subst|done].
    by destruct (psocs s !! p).
  - intros o' h' H. apply Hex in H as [h0 H]. by apply (inv_fresh _ _ _ I o' h0).
  - intros o' h'. rewrite get_hdr_upd, kids_upd. case_bool_decide as E.
    + subst. rewrite Hh. cbn. by intros [= <-].
    + intros H. destruct (inv_hdr _ _ _ I o' h' H) as [H1 H2 H3 H4 H5].
      constructor; [|done..]. intros id. rewrite He by done. apply H1.
  - intros o'. unfold is_live. rewrite get_hdr_upd. case_bool_decide as E.
    + subst. by rewrite Hh.
    + rewrite HA by done. apply (inv_live _ _ _ I).
  - intros o' id Ho. rewrite get_hdr_upd. case_bool_decide as E; [subst; by rewrite Hh|].
    rewrite He in Ho by done. by apply (inv_refs _ _ _ I o' id).
  - intros d p i Hd. destruct (inv_pdev_parent _ _ _ I d p i Hd) as [r Hr].
    destruct o; cbn; [|by rewrite Hr..]. rewrite lookup_alter. case_decide; subst; rewrite ?Hr; by eexists.
  - intros v d i Hv. destruct (inv_vdev_parent _ _ _ I v d i Hv) as (p & j & Hd & Hp).
    exists p, j. split; [done|]. destruct (decide (o = OPsoc p)) as [->|Hne]; [|by rewrite HA].
    destruct (Hdel Hp) as [|Hz]; [done|]. exfalso.
    destruct (inv_pdev_parent _ _ _ I d p j Hd) as [r Hr].
    pose proof (inv_psoc _ _ _ I p r Hr) as P.
    apply (nslots_0 (psoc_vdev_list r)) with (i := i) (a := v).
    + rewrite <- (psoc_vdev_cnt _ _ _ P). by apply Hz.
    + apply (psoc_vdevs _ _ _ P). unfold vdev_slot. by rewrite Hv, Hd.
  - apply (inv_peer_parent _ _ _ I).
  - intros x r d i p j Hr. apply peers_upd in Hr as (r0 & g & Hr & ->). cbn.
    by apply (inv_peer_pdev _ _ _ I x).
  - intros p r Hr. apply psocs_upd in Hr as (r0 & g & Hr & ->).
    eapply psoc_ok_same; [done|]. by apply (inv_psoc _ _ _ I).
  - intros p r Hr. apply pdevs_upd in Hr as (r0 & g & Hr & ->).
    eapply pdev_ok_same; [done|]. by apply (inv_pdev _ _ _ I).
  - intros v r Hr. apply vdevs_upd in Hr as (r0 & g & Hr & ->).
    pose proof (inv_vdev _ _ _ I v r0 Hr) as V.
    eapply vdev_ok_same; [done| |exact V].
    intros x b Hx Ht Hb Hl. destruct (decide (o = OPeer b)) as [->|Hne]; [|by rewrite HA].
    destruct (Hdel Hl) as [|Hz]; [done|]. by rewrite (Hz v r0 x Hr Hb Hx) in Ht.
Qed.
End World.

(** ** Taking and giving back references, and the life of an object *)

Section Headers.
Context {Env : objmgr_env}.
Implicit Types (s : objmgr_world) (o : objref) (h : wlan_objmgr_hdr) (id : nat).

Lemma bump_same e o id n : bump e o id n o id = e o id + n.
Proof. unfold bump. by rewrite bool_decide_eq_true_2. Qed.
Lemma bump_other e o id n o' id' : o' <> o \/ id' <> id -> bump e o id n o' id' = e o' id'.
Proof. unfold bump. intros Hne. rewrite bool_decide_eq_false_2; [lia|]. intros [-> ->]. by destruct Hne. Qed.
Lemma bump_at e o id n id' : bump e o id n o id' = e o id' + if bool_decide (id' = id) then n else 0.
Proof.
  unfold bump. f_equal. apply (f_equal (fun b : bool => if b then n else 0)), bool_decide_ext. tauto.
Qed.
Lemma mark_same A o b : mark A o b o = b.
Proof. unfold mark. by rewrite bool_decide_eq_true_2. Qed.
Lemma mark_other A o b o' : o' <> o -> mark A o b o' = A o'.
Proof. unfold mark. intros H. by rewrite bool_decide_eq_false_2. Qed.

(** A header whose references and state are those of another. *)
Definition same_refs h h' : Prop :=
  obj_state h' = obj_state h /\ ref_cnt h' = ref_cnt h /\ total h' = total h
  /\ forall id, refs_by h' id = refs_by h id.
(** One reference less; the last one may leave the object closed. *)
Definition dropped id h h' : Prop :=
  ref_cnt h' = ref_cnt h - 1 /\ total h' = total h - 1
  /\ (forall id', refs_by h' id' = refs_by h id' - if bool_decide (id' = id) then 1 else 0)
  /\ (obj_state h' = obj_state h
      \/ ref_cnt h' = 0 /\ live h = false /\ live h' = false)
  /\ settled h'.

Lemma inv_ext A A' e e' s :
  (forall o, A' o = A o) -> (forall o id, e' o id = e o id) -> inv A e s -> inv A' e' s.
Proof.
  intros HA He I. constructor; try apply I.
  - intros o h Hh. destruct (inv_hdr _ _ _ I o h Hh) as [H1 H2 H3 H4 H5]. constructor; [|done..].
    intros id. by rewrite He.
  - intros o. rewrite HA. apply (inv_live _ _ _ I).
  - intros o id. rewrite He. apply (inv_refs _ _ _ I).
  - intros v d i H. setoid_rewrite HA. by apply (inv_vdev_parent _ _ _ I v d i).
  - intros v r Hr. destruct (inv_vdev _ _ _ I v r Hr). constructor; try done.
    intros *. rewrite HA. eauto.
Qed.

Lemma inv_same_refs A e s o h f :
  inv A e s -> get_hdr o s = Some h -> same_refs h (f h) -> inv A e (upd_hdr o f s).
Proof.
  intros I Hh (Hs & Hc & Ht & Hr).
  assert (live (f h) = live h) as Hl by (unfold live; by rewrite Hs).
  apply (inv_upd A e A e s o f h I Hh); try done; [| |by left].
  - destruct (inv_hdr _ _ _ I o h Hh) as [H1 H2 H3 H4 H5]. constructor.
    + intros id. rewrite Hr, H1. unfold own. by rewrite Hl.
    + intros id. rewrite Hr. apply H2.
    + by rewrite Hc, Ht.
    + rewrite Hs, Hc. apply H4.
    + unfold settled. by rewrite Hs, Hc.
  - rewrite Hl, (inv_live _ _ _ I). unfold is_live. by rewrite Hh.
Qed.

Lemma inv_take A e s o h id :
  inv A e s -> get_hdr o s = Some h -> ref_cnt h <> 0 -> 
  inv A (bump e o id 1) (upd_hdr o (add_ref 1 id) s).
Proof.
  intros I Hh Hne. apply (inv_upd A e A _ s o _ h I Hh); try done; [| | |by left].
  - destruct (inv_hdr _ _ _ I o h Hh) as [H1 H2 H3 H4 H5]. constructor; cbn.
    + intros id'. rewrite refs_add_ref, bump_at, H1. unfold own, live, add_ref. cbn. lia.
    + intros id'. rewrite refs_add_ref. specialize (H2 id'). case_bool_decide; lia.
    + rewrite total_add_ref. lia.
    + intros Hcl. by apply H4 in Hcl.
    + intros _ Hz. cbn in Hz. pose proof (total_ge h 0 H2). lia.
  - intros o' id' Ho. apply bump_other. by left.
  - rewrite (inv_live _ _ _ I). unfold is_live. by rewrite Hh.
Qed.

Lemma inv_drop A e s o h h' id :
  inv A (bump e o id 1) s -> get_hdr o s = Some h -> dropped id h h' ->
  0 <= e o id -> inv A e (upd_hdr o (fun _ => h') s).
Proof.
  intros I Hh (Hc & Ht & Hr & Hs & Hset) Hpos.
  assert (live h' = live h) as Hl.
  { destruct Hs as [Hs|(_ & -> & ->)]; [|done]. unfold live. by rewrite Hs. }
  apply (inv_upd A (bump e o id 1) A e s o _ h I Hh); try done; [| | |by left].
  - pose proof (kids_nonneg s o) as Hk.
    destruct (inv_hdr _ _ _ I o h Hh) as [H1 H2 H3 H4 H5]. 
    assert (forall id', refs_by h' id' = (if (id' =? 0)%nat then own h' + kids s o else 0) + e o id') as Hrefs.
    { intros id'. rewrite Hr, H1, bump_at. unfold own. rewrite Hl.
      case_bool_decide; [|lia]. lia. }
    constructor; [done|..].
    + intros id'. destruct (decide (id' = id)) as [->|Hne].
      * rewrite Hrefs. unfold own. destruct (_ =? _)%nat, (live h'); lia.
      * rewrite Hr, bool_decide_eq_false_2 by done. specialize (H2 id'). lia.
    + lia.
    + intros Hcl. destruct Hs as [Hs|[? _]]; [|done]. exfalso. rewrite Hs in Hcl.
      apply H4 in Hcl. pose proof (total_ge h id H2) as Htot.
      specialize (H1 id). rewrite bump_same in H1. unfold own in H1.
      destruct (_ =? _)%nat, (live h); lia.
    + done.
  - intros o' id' Ho. symmetry. apply bump_other. by left.
  - rewrite (inv_live _ _ _ I). unfold is_live. by rewrite Hh.
Qed.

(** What a positive or a zero count says. *)
Section Counts.
Context A e s o h (I : inv A e s) (Hh : get_hdr o s = Some h).

Lemma count_zero :
  ref_cnt h = 0 -> (forall id, 0 <= e o id) ->
  live h = false /\ kids s o = 0 /\ forall id, e o id = 0.
Proof using I Hh.
  intros Hz Hpos. pose proof (kids_nonneg s o) as Hk.
  destruct (inv_hdr _ _ _ I o h Hh) as [H1 H2 H3 H4 H5].
  assert (forall id, refs_by h id = 0) as Hall.
  { intros id. pose proof (total_ge h id H2). lia. }
  pose proof (H1 0%nat) as H0. rewrite Hall in H0. cbn in H0. unfold own in H0.
  pose proof (Hpos 0%nat) as Hp0.
  destruct (live h) eqn:Hl; [lia|]. split_and!; [done|lia|].
  intros id. pose proof (H1 id) as Hi. rewrite Hall in Hi. unfold own in Hi.
  pose proof (Hpos id). rewrite Hl in Hi. destruct (_ =? _)%nat; lia.
Qed.

Lemma count_pos id : 0 < refs_by h id -> 0 < ref_cnt h.
Proof using I Hh.
  intros Hp. destruct (inv_hdr _ _ _ I o h Hh) as [H1 H2 H3 H4 H5].
  pose proof (total_ge h id H2). lia.
Qed.

Lemma count_kids : (forall id, 0 <= e o id) -> own h + kids s o + e o 0%nat <= ref_cnt h.
Proof using I Hh.
  intros Hpos. destruct (inv_hdr _ _ _ I o h Hh) as [H1 H2 H3 H4 H5].
  pose proof (total_ge h 0 H2) as Ht. rewrite (H1 0%nat) in Ht. cbn in Ht. lia.
Qed.

Lemma count_held id : (forall id, 0 <= e o id) -> e o id <= refs_by h id.
Proof using I Hh.
  intros Hpos. pose proof (kids_nonneg s o). destruct (inv_hdr _ _ _ I o h Hh) as [H1 H2 H3 H4 H5].
  rewrite H1. unfold own. destruct (_ =? _)%nat, (live h); lia.
Qed.

End Counts.

(** A live object has a reference. *)
Lemma live_settled st h : settled h -> live h = true -> settled (set_state st h).
Proof.
  intros Hset Hl Hok Hz. apply (Hset Hok) in Hz. unfold live in Hl. by destruct (obj_state h).
Qed.

(** The owner's deletion turns its reference into one that is given back next. *)
Lemma inv_delete A e s o h :
  inv A e s -> get_hdr o s = Some h -> live h = true -> deletable s o ->
  inv (mark A o false) (bump e o 0 1) (upd_hdr o (set_state WLAN_OBJ_STATE_LOGICALLY_DELETED) s).
Proof.
  intros I Hh Hl Hdel. apply (inv_upd A e _ _ s o _ h I Hh); try by right.
  - destruct (inv_hdr _ _ _ I o h Hh) as [H1 H2 H3 H4 H5].
    constructor; try done; [|by apply live_settled].
    intros id. change (refs_by _ id) with (refs_by h id). rewrite H1, bump_at. unfold own, live in *.
    rewrite Hl. cbn. destruct (Nat.eqb_spec id 0); case_bool_decide; subst; done || lia.
  - intros o' id' Ho. apply bump_other. by left.
  - intros o' Ho. by apply mark_other.
  - apply mark_same.
Qed.

(** A live object stays live. *)
Lemma inv_set_live A e s o h st :
  inv A e s -> get_hdr o s = Some h -> live h = true -> live_state st = true ->
  inv A e (upd_hdr o (set_state st) s).
Proof.
  intros I Hh Hl Hst. apply (inv_upd A e A e s o _ h I Hh); try done; [| |by left].
  - destruct (inv_hdr _ _ _ I o h Hh) as [H1 H2 H3 H4 H5]. constructor; try done.
    + intros id. change (refs_by _ id) with (refs_by h id). rewrite H1. unfold own.
      by replace (live (set_state st h)) with (live h) by (unfold live in *; cbn; by rewrite Hl).
    + cbn. by destruct st.
    + by apply live_settled.
  - rewrite (inv_live _ _ _ I). unfold is_live. rewrite Hh. unfold live in *. cbn. by rewrite Hl, Hst.
Qed.

End Headers.
