(* ===== verification/ObjLink.v ===== *)
(** Linking and unlinking objects: that adding an object to its parents, or removing one
    that nothing refers to, keeps the invariant of the object manager. *)
From S2P Require Import Prelude QdfTypes Obj ObjInv.

(** ** Slots *)

Section Slots.
Implicit Types (l : list (option nat)) (i a : nat).

Lemma nslots_fill l i a : l !! i = Some None -> nslots (<[i := Some a]> l) = S (nslots l).
Proof.
  intros H. pose proof (lookup_lt_Some _ _ _ H). rewrite <- (take_drop_middle l i None H) at 2.
  rewrite insert_take_drop by done. unfold nslots. rewrite !omap_app. cbn.
  rewrite !length_app. cbn. lia.
Qed.

Lemma nslots_clear l i a : l !! i = Some (Some a) -> S (nslots (<[i := None]> l)) = nslots l.
Proof.
  intros H. pose proof (lookup_lt_Some _ _ _ H). rewrite <- (take_drop_middle l i _ H) at 2.
  rewrite insert_take_drop by done. unfold nslots. rewrite !omap_app. cbn.
  rewrite !length_app. cbn. lia.
Qed.

Lemma nslots_replicate n : nslots (replicate n None) = 0%nat.
Proof. induction n as [|n IH]; [done|exact IH]. Qed.

Lemma is_bit_fill map l i a :
  is_bit map l -> is_bit (Z.setbit map (Z.of_nat i)) (<[i := Some a]> l).
Proof.
  intros H j b. rewrite list_lookup_insert, Z.setbit_eqb by lia. case_decide as E.
  - intros [= <-]. destruct E as [-> _]. by rewrite Z.eqb_refl.
  - intros Hj. rewrite (H j b Hj). destruct (Z.eqb_spec (Z.of_nat i) (Z.of_nat j)); [|done].
    exfalso. apply E. split; [lia|]. apply lookup_lt_Some in Hj. lia.
Qed.

Lemma is_bit_clear map l i : is_bit map l -> is_bit (Z.clearbit map (Z.of_nat i)) (<[i := None]> l).
Proof.
  intros H j b. rewrite list_lookup_insert, Z.clearbit_eqb by lia. case_decide as E.
  - intros [= <-]. destruct E as [-> _]. rewrite Z.eqb_refl. cbn. by rewrite andb_false_r.
  - intros Hj. rewrite (H j b Hj). destruct (Z.eqb_spec (Z.of_nat i) (Z.of_nat j)).
    + exfalso. apply E. split; [lia|]. apply lookup_lt_Some in Hj. lia.
    + cbn. by rewrite andb_true_r.
Qed.

Lemma is_bit_replicate n : is_bit 0 (replicate n None).
Proof. intros i b H. apply lookup_replicate in H as [-> _]. by rewrite Z.testbit_0_l. Qed.

(** The search for a free id finds an empty slot. *)
Lemma first_free_id_some n id map i :
  first_free_id n id map = Some i -> (id <= i < id + n)%nat /\ Z.testbit map (Z.of_nat i) = false.
Proof.
  revert id. induction n as [|n IH]; intros id; cbn; [done|].
  destruct (Z.testbit map (Z.of_nat id)) eqn:E.
  - intros H. apply IH in H as [? ?]. split; [lia|done].
  - intros [= <-]. split; [lia|done].
Qed.
Lemma first_free_id_none n id map :
  first_free_id n id map = None ->
  forall i, (id <= i < id + n)%nat -> Z.testbit map (Z.of_nat i) = true.
Proof.
  revert id. induction n as [|n IH]; intros id; cbn; [intros; lia|].
  destruct (Z.testbit map (Z.of_nat id)) eqn:E; [|done]. intros H i Hi.
  destruct (decide (i = id)) as [->|]; [done|]. apply (IH (S id)); [done|lia].
Qed.

Lemma free_slot map l n i :
  is_bit map l -> length l = n -> first_free_id n 0 map = Some i -> l !! i = Some None.
Proof.
  intros H Hl Hi. apply first_free_id_some in Hi as [Hlt Hb].
  destruct (lookup_lt_is_Some_2 l i) as [[a|] Ha]; [lia| |done].
  apply H in Ha as Hc. by rewrite Hb, bool_decide_eq_true_2 in Hc.
Qed.

End Slots.

(** ** Counting peers *)

Section Counting.
Implicit Types (s : objmgr_world) (v x : nat).

Definition matching (Q : nat -> bool) (b : bool) (kx : nat * (nat * list Z * wlan_peer_type)) : bool :=
  Q (fst (fst (snd kx))) && Bool.eqb (temporary (snd (snd kx))) b.

Lemma peers_with_ext s s' Q Q' b :
  peer_keys s' = peer_keys s ->
  (forall x v m t, peer_keys s !! x = Some (v, m, t) -> Q' v = Q v) ->
  peers_with s' Q' b = peers_with s Q b.
Proof.
  intros Hk HQ. unfold peers_with. rewrite Hk. f_equal. apply map_filter_ext.
  intros x [[v m] t] Hx. cbn. by rewrite (HQ x v m t Hx).
Qed.

Lemma peers_with_insert s s' Q b x v m t :
  peer_keys s' = <[x := (v, m, t)]> (peer_keys s) -> peer_keys s !! x = None ->
  peers_with s' Q b
  = ((if Q v && Bool.eqb (temporary t) b then 1 else 0) + peers_with s Q b)%nat.
Proof.
  intros Hk Hx. unfold peers_with. rewrite Hk.
  destruct (Q v && Bool.eqb (temporary t) b) eqn:E.
  - rewrite map_filter_insert_True by done. rewrite map_size_insert_None; [done|].
    apply map_lookup_filter_None. by left.
  - rewrite map_filter_insert_False by (cbn; by rewrite E). by rewrite delete_id.
Qed.

Lemma peers_with_delete s s' Q b x v m t :
  peer_keys s' = delete x (peer_keys s) -> peer_keys s !! x = Some (v, m, t) ->
  peers_with s Q b
  = ((if Q v && Bool.eqb (temporary t) b then 1 else 0) + peers_with s' Q b)%nat.
Proof.
  intros Hk Hx. unfold peers_with. rewrite Hk, map_filter_delete.
  destruct (Q v && Bool.eqb (temporary t) b) eqn:E.
  - assert (filter (fun kx => matching Q b kx = true) (peer_keys s) !! x = Some (v, m, t)) as Hf.
    { apply map_lookup_filter_Some. done. }
    unfold matching in Hf. rewrite map_size_delete_Some by eauto.
    enough (size (filter (fun kx : nat * (nat * list Z * wlan_peer_type) =>
      Q (fst (fst (snd kx))) && Bool.eqb (temporary (snd (snd kx))) b = true) (peer_keys s)) <> 0)%nat by lia.
    apply map_size_ne_0_lookup. eauto.
  - rewrite delete_id; [done|]. apply map_lookup_filter_None. right.
    intros k Hk'. rewrite Hx in Hk'. injection Hk' as <-. cbn. by rewrite E.
Qed.

End Counting.

(** ** What it takes to add or remove one object *)

Section Link.
Implicit Types (s : objmgr_world) (o : objref) (p d v x i id : nat).
Context {Env : objmgr_env}.

(** The references counted by the manager and those given out. *)
Definition owed (e : ledger) s o id : Z := (if (id =? 0)%nat then kids s o else 0) + e o id.

Definition glob_ok s : Prop :=
  exists g, glob s = Some g /\ length (g_psoc g) = WLAN_OBJMGR_MAX_DEVICES
    /\ forall i p, g_psoc g !! i = Some (Some p) -> psoc_id <$> psocs s !! p = Some i.

Record links (A : objref -> bool) s : Prop := {
  lk_glob : glob_ok s;
  lk_pdev_parent : forall d p i, pdev_keys s !! d = Some (p, i) -> is_Some (psocs s !! p);
  lk_vdev_parent : forall v d i, vdev_keys s !! v = Some (d, i) ->
    exists p j, pdev_keys s !! d = Some (p, j) /\ A (OPsoc p) = true;
  lk_peer_parent : forall x v m t, peer_keys s !! x = Some (v, m, t) -> is_Some (vdev_keys s !! v);
  lk_peer_pdev : forall x r d i p j, peers s !! x = Some r ->
    vdev_keys s !! peer_vdev r = Some (d, i) -> pdev_keys s !! d = Some (p, j) -> peer_pdev_id r = j;
  lk_psoc : forall p r, psocs s !! p = Some r -> psoc_ok s p r;
  lk_pdev : forall d r, pdevs s !! d = Some r -> pdev_ok s d r;
  lk_vdev : forall v r, vdevs s !! v = Some r -> vdev_ok A s v r;
}.

Lemma hdr_ok_owed A e e' s s' o h :
  inv A e s -> get_hdr o s = Some h -> (forall id, owed e' s' o id = owed e s o id) ->
  hdr_ok (kids s' o) (e' o) h.
Proof.
  intros I Hh He. destruct (inv_hdr _ _ _ I o h Hh) as [H1 H2 H3 H4 H5]. constructor; [|done..].
  intros id. rewrite H1. specialize (He id). unfold owed in He. destruct (_ =? _)%nat; lia.
Qed.

Lemma inv_removed A e e' s s' gone h0 :
  inv A e s -> get_hdr gone s = Some h0 -> live h0 = false ->
  (forall o, get_hdr o s' = if bool_decide (o = gone) then None else get_hdr o s) ->
  next_addr s' = next_addr s ->
  (forall id, e' gone id = 0) ->
  (forall o id, o <> gone -> is_Some (get_hdr o s) -> owed e' s' o id = owed e s o id) ->
  (forall o id, e' o id <> 0 -> is_Some (get_hdr o s)) ->
  links A s' -> inv A e' s'.
Proof.
  intros I Hg Hlive Hget Hnext Hgone Howed Hrefs L.
  constructor; try apply L.
  - intros o h. rewrite Hget, Hnext. case_bool_decide; [done|]. apply (inv_fresh _ _ _ I).
  - intros o h. rewrite Hget. case_bool_decide; [done|]. intros Hh.
    eapply hdr_ok_owed; [done..|]. intros id. apply Howed; eauto.
  - intros o. unfold is_live. rewrite Hget, (inv_live _ _ _ I). unfold is_live.
    case_bool_decide; [|done]. subst. by rewrite Hg.
  - intros o id He. rewrite Hget. case_bool_decide; [subst; by rewrite Hgone in He|]. by eapply Hrefs.
Qed.

Lemma inv_added A e e' s s' new h0 :
  inv A e s -> get_hdr new s = None -> live h0 = true ->
  (forall o, get_hdr o s' = if bool_decide (o = new) then Some h0 else get_hdr o s) ->
  (next_addr s <= next_addr s')%nat -> (addr_of new < next_addr s')%nat ->
  (forall id, e' new id = 0) -> hdr_ok 0 (fun _ => 0) h0 -> kids s' new = 0 ->
  (forall o id, o <> new -> is_Some (get_hdr o s) -> owed e' s' o id = owed e s o id) ->
  (forall o id, o <> new -> e' o id <> 0 -> is_Some (get_hdr o s)) ->
  links (mark A new true) s' -> inv (mark A new true) e' s'.
Proof.
  intros I Hnew Hlive Hget Hnext Hlt He' Hok Hkids Howed Hrefs L.
  constructor; try apply L.
  - intros o h. rewrite Hget. case_bool_decide; [by intros; subst|].
    intros Hh. apply (inv_fresh _ _ _ I) in Hh. lia.
  - intros o h. rewrite Hget. case_bool_decide as E.
    + intros [= <-]. subst. rewrite Hkids. destruct Hok as [H1 H2 H3 H4 H5]. constructor; [|done..].
      intros id. by rewrite He', H1.
    + intros Hh. eapply hdr_ok_owed; [done..|]. intros id. apply Howed; eauto.
  - intros o. unfold mark, is_live. rewrite Hget. case_bool_decide; [done|].
    rewrite (inv_live _ _ _ I). done.
  - intros o id He. rewrite Hget. case_bool_decide; [by eexists|]. by eapply Hrefs.
Qed.

Lemma links_of A e s : inv A e s -> links A s.
Proof. intros []. by constructor. Qed.

(** The keys of objects. *)
Lemma pdev_keys_Some s d p i :
  pdev_keys s !! d = Some (p, i) <-> exists r, pdevs s !! d = Some r /\ p = wlan_psoc r /\ i = wlan_pdev_id r.
Proof.
  unfold pdev_keys. rewrite lookup_fmap. destruct (pdevs s !! d) as [r|]; cbn;
    [|by split; [|intros (? & ? & _)]]. split; [intros [= <- <-]; eauto|by intros (? & [= <-] & -> & ->)].
Qed.
Lemma vdev_keys_Some s v d i :
  vdev_keys s !! v = Some (d, i) <-> exists r, vdevs s !! v = Some r /\ d = wlan_pdev r /\ i = vdev_id r.
Proof.
  unfold vdev_keys. rewrite lookup_fmap. destruct (vdevs s !! v) as [r|]; cbn;
    [|by split; [|intros (? & ? & _)]]. split; [intros [= <- <-]; eauto|by intros (? & [= <-] & -> & ->)].
Qed.
Lemma peer_keys_Some s x v m t :
  peer_keys s !! x = Some (v, m, t)
  <-> exists r, peers s !! x = Some r /\ v = peer_vdev r /\ m = peer_macaddr r /\ t = peer_type r.
Proof.
  unfold peer_keys. rewrite lookup_fmap. destruct (peers s !! x) as [r|]; cbn;
    [|by split; [|intros (? & ? & _)]]. split; [intros [= <- <- <-]; eauto|by intros (? & [= <-] & -> & -> & ->)].
Qed.

Lemma glob_ok_alter A e s s' f p :
  inv A e s -> (forall r, psoc_id (f r) = psoc_id r) ->
  glob s' = glob s -> psocs s' = alter f p (psocs s) -> glob_ok s'.
Proof.
  intros I Hf Hg Hp. destruct (inv_glob _ _ _ I) as (g & Hg' & Hlen & Hs). exists g.
  split_and!; [by rewrite Hg|done|]. intros i q Hi. apply Hs in Hi.
  by rewrite Hp, <- lookup_fmap, (fmap_alter_same psoc_id f _ p Hf), lookup_fmap.
Qed.

Lemma alter_is_Some {B} (f : B -> B) (m : gmap nat B) i j :
  is_Some (m !! j) -> is_Some (alter f i m !! j).
Proof. intros [b Hb]. rewrite lookup_alter. case_decide; subst; rewrite Hb; by eexists. Qed.

Lemma peer_key s x r :
  peers s !! x = Some r -> peer_keys s !! x = Some (peer_vdev r, peer_macaddr r, peer_type r).
Proof. intros H. apply peer_keys_Some. eauto. Qed.

(** *** The psoc *)

Definition psoc_gone p i s : objmgr_world :=
  set_glob (set_g_psoc (<[i := None]>)) (set_psocs (delete p) s).

Lemma get_hdr_psoc_gone p i s o :
  get_hdr o (psoc_gone p i s) = if bool_decide (o = OPsoc p) then None else get_hdr o s.
Proof.
  destruct o as [q|q|q|q]; cbn; try done.
  rewrite lookup_delete. case_decide; subst; [by rewrite bool_decide_eq_true_2|].
  by rewrite bool_decide_eq_false_2 by congruence.
Qed.

Lemma inv_psoc_gone A e s p r :
  inv A e s -> psocs s !! p = Some r -> live (psoc_hdr r) = false ->
  (forall id, e (OPsoc p) id = 0) -> psoc_pdev_count r = 0%nat ->
  inv A e (psoc_gone p (psoc_id r) s).
Proof.
  intros I Hr Hl He Hz.
  assert (same_keys s (psoc_gone p (psoc_id r) s)) as Hk by done.
  assert (forall d i, pdev_keys s !! d = Some (p, i) -> False) as Hnone.
  { intros d i Hd. pose proof (inv_psoc _ _ _ I p r Hr) as P.
    apply (psoc_pdevs _ _ _ P) in Hd. eapply nslots_0; [|done].
    rewrite <- (psoc_pdev_cnt _ _ _ P). done. }
  apply (inv_removed A e e s _ (OPsoc p) (psoc_hdr r)); try done.
  - cbn. by rewrite Hr.
  - intros o. apply get_hdr_psoc_gone.
  - intros o id Hne Ho. unfold owed. f_equal. destruct (_ =? _)%nat; [|done].
    destruct o as [q|q|q|q]; try done. cbn. rewrite lookup_delete_ne by congruence. done.
  - apply (inv_refs _ _ _ I).
  - constructor.
    + destruct (inv_glob _ _ _ I) as (g & Hg & Hlen & Hs). exists (set_g_psoc (<[psoc_id r := None]>) g).
      cbn. rewrite Hg. split_and!; [done|by rewrite length_insert|].
      intros i q. cbn. rewrite list_lookup_insert. case_decide as E; [done|]. intros Hi.
      apply Hs in Hi as Hq. rewrite lookup_delete. case_decide; [|done]. subst.
      rewrite Hr in Hq. injection Hq as Hq. exfalso. apply E. split; [done|].
      rewrite Hq. by eapply lookup_lt_Some.
    + intros d q i Hd. cbn. rewrite lookup_delete. case_decide; [subst; by eapply Hnone in Hd|].
      by apply (inv_pdev_parent _ _ _ I d q i).
    + apply (inv_vdev_parent _ _ _ I).
    + apply (inv_peer_parent _ _ _ I).
    + apply (inv_peer_pdev _ _ _ I).
    + intros q rq. cbn. rewrite lookup_delete. case_decide; [done|]. intros Hq.
      eapply psoc_ok_keys; [done|]. by apply (inv_psoc _ _ _ I).
    + intros d rd Hd. eapply pdev_ok_keys; [done|]. by apply (inv_pdev _ _ _ I).
    + intros v rv Hv. eapply vdev_ok_keys; [done|]. by apply (inv_vdev _ _ _ I).
Qed.

(** *** The pdev *)

Definition pdev_gone p i d s : objmgr_world :=
  set_pdevs (delete d) (set_psocs (alter (set_pdev_slot i None) p) s).

Lemma get_hdr_pdev_gone p i d s o :
  get_hdr o (pdev_gone p i d s) = if bool_decide (o = OPdev d) then None else get_hdr o s.
Proof.
  destruct o as [q|q|q|q]; cbn; try done.
  - rewrite lookup_alter. case_decide; [subst; by destruct (psocs s !! q)|done].
  - rewrite lookup_delete. case_decide; subst; [by rewrite bool_decide_eq_true_2|].
    by rewrite bool_decide_eq_false_2 by congruence.
Qed.

Section PdevGone.
Context A e s d r (I : inv A e s) (Hr : pdevs s !! d = Some r).
Context (Hl : live (pdev_hdr r) = false) (He : forall id, e (OPdev d) id = 0).
Context (Hz : pdev_vdev_count r = 0%nat).
Abbreviation p := (wlan_psoc r).
Abbreviation i := (wlan_pdev_id r).
Abbreviation s' := (pdev_gone p i d s).

Lemma pdev_gone_key : pdev_keys s !! d = Some (p, i).
Proof using Hr. apply pdev_keys_Some. eauto. Qed.
Lemma pdev_gone_keys : pdev_keys s' = delete d (pdev_keys s).
Proof. apply fmap_delete. Qed.
Lemma pdev_gone_empty v j : vdev_keys s !! v = Some (d, j) -> False.
Proof using I Hr Hz.
  intros Hv. pose proof (inv_pdev _ _ _ I d r Hr) as D.
  assert (v ∈ wlan_vdev_list r) as Hin by (apply (pdev_vdevs _ _ _ D); eauto).
  pose proof (pdev_vdev_cnt _ _ _ D) as Hc. rewrite Hz in Hc. symmetry in Hc.
  apply length_zero_iff_nil in Hc. rewrite Hc in Hin. by apply elem_of_nil in Hin.
Qed.
Lemma pdev_gone_vdev_slot v : vdev_slot s' v = vdev_slot s v.
Proof using I Hr Hz.
  unfold vdev_slot. rewrite pdev_gone_keys. change (vdev_keys s') with (vdev_keys s).
  destruct (vdev_keys s !! v) as [[d' j]|] eqn:E; [|done].
  rewrite lookup_delete_ne; [done|]. intros <-. by eapply pdev_gone_empty.
Qed.
Lemma pdev_gone_peer_slot x : peer_slot s' x = peer_slot s x.
Proof using I Hr Hz.
  unfold peer_slot. change (peer_keys s') with (peer_keys s).
  destruct (peer_keys s !! x) as [[[v m] t]|]; [|done]. by rewrite pdev_gone_vdev_slot.
Qed.
Lemma pdev_gone_in_psoc q v : in_psoc s' q v = in_psoc s q v.
Proof using I Hr Hz. unfold in_psoc. by rewrite pdev_gone_vdev_slot. Qed.

Lemma pdev_gone_psoc_ok q rq : psocs s' !! q = Some rq -> psoc_ok s' q rq.
Proof using I Hr Hz.
  intros Hq. cbn in Hq. apply lookup_alter_Some in Hq as [(<- & r0 & Hq & ->)|[Hne Hq]];
    destruct (inv_psoc _ _ _ I _ _ Hq) as [H1 H2 H3 H4 H5 H6 H7 H8 H9 H10 H11 H12 H13 H14 H15];
    constructor; cbn; try done;
    try (intros; rewrite ?pdev_gone_vdev_slot, ?pdev_gone_peer_slot; done);
    try (rewrite (peers_with_ext s s' (in_psoc s q)); [done|done|]; intros; by apply pdev_gone_in_psoc);
    try (rewrite (peers_with_ext s s' (in_psoc s p)); [done|done|]; intros; by apply pdev_gone_in_psoc).
  - by rewrite length_insert.
  - by apply is_bit_clear.
  - intros j d'. rewrite pdev_gone_keys, list_lookup_insert, lookup_delete.
    pose proof pdev_gone_key as Hkey. pose proof (proj2 (H6 i d) Hkey) as Hslot.
    case_decide as E1; case_decide as E2; try done.
    + split; [done|]. intros Hd. apply H6 in Hd. destruct E1 as [E1 _]. congruence.
    + rewrite <- E2. split; [|done]. intros Hd. apply H6 in Hd as Hd'. rewrite Hkey in Hd'.
      injection Hd' as Hd'. exfalso. apply E1. split; [done|]. rewrite Hd'. by eapply lookup_lt_Some.
  - rewrite H10. rewrite <- (nslots_clear (wlan_pdev_list r0) i d); [done|].
    apply H6, pdev_gone_key.
  - intros j d'. rewrite pdev_gone_keys, lookup_delete. case_decide as E1; [|done].
    rewrite <- E1, H6, pdev_gone_key. split; [|done]. intros [= ? ?]. congruence.
Qed.

Lemma inv_pdev_gone : inv A (bump e (OPsoc p) 0 1) s'.
Proof using All.
  destruct (inv_pdev_parent _ _ _ I d p i pdev_gone_key) as [rp Hp].
  pose proof (inv_psoc _ _ _ I p rp Hp) as P.
  assert (wlan_pdev_list rp !! i = Some (Some d)) as Hslot by apply (psoc_pdevs _ _ _ P), pdev_gone_key.
  pose proof (nslots_clear _ _ _ Hslot) as Hcnt. rewrite <- (psoc_pdev_cnt _ _ _ P) in Hcnt.
  apply (inv_removed A e _ s s' (OPdev d) (pdev_hdr r)); try done.
  - cbn. by rewrite Hr.
  - intros o. apply get_hdr_pdev_gone.
  - intros id. rewrite bump_other; [apply He|by left].
  - intros o id Hne Ho. unfold owed. destruct o as [q|q|q|q]; try (rewrite bump_other by (by left); done).
    + destruct (decide (q = p)) as [->|Hq].
      * rewrite bump_at. cbn. rewrite lookup_alter_eq, Hp. cbn. destruct (Nat.eqb_spec id 0); case_bool_decide; lia || done.
      * rewrite bump_other by (left; congruence). cbn. by rewrite lookup_alter_ne.
    + rewrite bump_other by (by left). cbn. by rewrite lookup_delete_ne by congruence.
  - intros o id. destruct (decide (o = OPsoc p)) as [->|Hne]; [cbn; by rewrite Hp|].
    rewrite bump_other by (by left). apply (inv_refs _ _ _ I).
  - constructor.
    + by apply (glob_ok_alter A e s s' (set_pdev_slot i None) p).
    + intros d' q j. rewrite pdev_gone_keys, lookup_delete. case_decide; [done|].
      intros Hd. apply alter_is_Some. by apply (inv_pdev_parent _ _ _ I) in Hd.
    + intros v d' j Hv. destruct (inv_vdev_parent _ _ _ I v d' j Hv) as (q & k & Hd & HA).
      exists q, k. split; [|done]. rewrite pdev_gone_keys, lookup_delete_ne; [done|].
      intros E1. rewrite <- E1 in Hv. by eapply pdev_gone_empty.
    + apply (inv_peer_parent _ _ _ I).
    + intros x rx d' j q k Hx Hv. rewrite pdev_gone_keys, lookup_delete. case_decide; [done|].
      by apply (inv_peer_pdev _ _ _ I x rx d' j).
    + apply pdev_gone_psoc_ok.
    + intros d' rd. cbn. rewrite lookup_delete. case_decide; [done|]. intros Hd.
      destruct (inv_pdev _ _ _ I d' rd Hd) as [H1 H2 H3 H4 H5 H6 H7 H8]. by constructor.
    + intros v rv Hv. destruct (inv_vdev _ _ _ I v rv Hv) as [H1 H2 H3 H4 H5 H6 H7]. by constructor.
Qed.

End PdevGone.

(** *** The vdev *)

Definition vdev_off v (r : wlan_objmgr_pdev) : wlan_objmgr_pdev :=
  set_vdevs_of (unlink v (wlan_vdev_list r)) (pred (pdev_vdev_count r)) r.
Definition vdev_gone p i d v s : objmgr_world :=
  set_vdevs (delete v) (set_pdevs (alter (vdev_off v) d) (set_psocs (alter (set_vdev_slot i None) p) s)).

Lemma get_hdr_vdev_gone p i d v s o :
  get_hdr o (vdev_gone p i d v s) = if bool_decide (o = OVdev v) then None else get_hdr o s.
Proof.
  destruct o as [q|q|q|q]; cbn; try done.
  - rewrite lookup_alter. case_decide; [subst; by destruct (psocs s !! q)|done].
  - rewrite lookup_alter. case_decide; [subst; by destruct (pdevs s !! q)|done].
  - rewrite lookup_delete. case_decide; subst; [by rewrite bool_decide_eq_true_2|].
    by rewrite bool_decide_eq_false_2 by congruence.
Qed.

Section VdevGone.
Context A e s v r p (j : nat) (I : inv A e s) (Hr : vdevs s !! v = Some r).
Context (Hd : pdev_keys s !! wlan_pdev r = Some (p, j)).
Context (Hl : live (vdev_hdr r) = false) (He : forall id, e (OVdev v) id = 0).
Context (Hz : vdev_peer_count r = 0%nat).
Abbreviation d := (wlan_pdev r).
Abbreviation i := (vdev_id r).
Abbreviation s' := (vdev_gone p i d v s).

Lemma vdev_gone_key : vdev_keys s !! v = Some (d, i).
Proof using Hr. apply vdev_keys_Some. eauto. Qed.
Lemma vdev_gone_keys : vdev_keys s' = delete v (vdev_keys s).
Proof. apply fmap_delete. Qed.
Lemma vdev_gone_pdev_keys : pdev_keys s' = pdev_keys s.
Proof. by apply fmap_alter_same. Qed.
Lemma vdev_gone_empty x m t : peer_keys s !! x = Some (v, m, t) -> False.
Proof using I Hr Hz.
  intros Hx. pose proof (inv_vdev _ _ _ I v r Hr) as V.
  assert (x ∈ wlan_peer_list r) as Hin by (apply (vdev_peers _ _ _ _ V); eauto).
  pose proof (vdev_peer_cnt _ _ _ _ V) as Hc. rewrite Hz in Hc. symmetry in Hc.
  apply length_zero_iff_nil in Hc. rewrite Hc in Hin. by apply elem_of_nil in Hin.
Qed.
Lemma vdev_gone_slot v' : vdev_slot s' v' = if bool_decide (v' = v) then None else vdev_slot s v'.
Proof.
  unfold vdev_slot. rewrite vdev_gone_keys, vdev_gone_pdev_keys, lookup_delete.
  case_decide as E1; [by rewrite bool_decide_eq_true_2|by rewrite bool_decide_eq_false_2 by congruence].
Qed.
Lemma vdev_gone_at : vdev_slot s v = Some (p, i).
Proof using Hr Hd. unfold vdev_slot. by rewrite vdev_gone_key, Hd. Qed.
Lemma vdev_gone_peer_slot x : peer_slot s' x = peer_slot s x.
Proof using I Hr Hz.
  unfold peer_slot. change (peer_keys s') with (peer_keys s).
  destruct (peer_keys s !! x) as [[[v' m] t]|] eqn:Hx; [|done].
  rewrite vdev_gone_slot, bool_decide_eq_false_2; [done|].
  intros E1. rewrite E1 in Hx. by eapply vdev_gone_empty.
Qed.
Lemma vdev_gone_in_psoc q b : peers_with s' (in_psoc s' q) b = peers_with s (in_psoc s q) b.
Proof using I Hr Hz.
  apply peers_with_ext; [done|]. intros x v' m t Hx. unfold in_psoc.
  rewrite vdev_gone_slot, bool_decide_eq_false_2; [done|].
  intros E1. rewrite E1 in Hx. by eapply vdev_gone_empty.
Qed.
Lemma vdev_gone_in_pdev q b : peers_with s' (in_pdev s' q) b = peers_with s (in_pdev s q) b.
Proof using I Hr Hz.
  apply peers_with_ext; [done|]. intros x v' m t Hx. unfold in_pdev.
  rewrite vdev_gone_keys, lookup_delete_ne; [done|].
  intros E1. rewrite <- E1 in Hx. by eapply vdev_gone_empty.
Qed.

Lemma vdev_gone_psoc_ok q rq : psocs s' !! q = Some rq -> psoc_ok s' q rq.
Proof using I Hr Hd Hz.
  intros Hq. cbn in Hq. apply lookup_alter_Some in Hq as [(<- & r0 & Hq & ->)|[Hne Hq]];
    destruct (inv_psoc _ _ _ I _ _ Hq) as [H1 H2 H3 H4 H5 H6 H7 H8 H9 H10 H11 H12 H13 H14 H15];
    constructor; cbn; try done;
    try (intros; rewrite ?vdev_gone_pdev_keys, ?vdev_gone_peer_slot, ?vdev_gone_in_psoc; done).
  - by rewrite length_insert.
  - by apply is_bit_clear.
  - intros k v'. rewrite vdev_gone_slot, list_lookup_insert.
    pose proof vdev_gone_at as Hkey. pose proof (proj2 (H7 i v) Hkey) as Hslot.
    case_decide as E1; case_bool_decide as E2; try done.
    + split; [done|]. intros Hv. apply H7 in Hv. destruct E1 as [E1 _]. congruence.
    + rewrite E2. split; [|done]. intros Hv. apply H7 in Hv as Hv'. rewrite Hkey in Hv'.
      injection Hv' as Hv'. exfalso. apply E1. split; [done|]. rewrite Hv'. by eapply lookup_lt_Some.
  - rewrite H11. rewrite <- (nslots_clear (psoc_vdev_list r0) i v); [done|].
    apply H7, vdev_gone_at.
  - intros k v'. rewrite vdev_gone_slot. case_bool_decide as E1; [|done].
    rewrite E1, H7, vdev_gone_at. split; [|done]. intros [= ? ?]. congruence.
Qed.

Lemma vdev_gone_pdev_ok q rq : pdevs s' !! q = Some rq -> pdev_ok s' q rq.
Proof using I Hr Hd Hz.
  intros Hq. cbn in Hq. apply lookup_alter_Some in Hq as [(<- & r0 & Hq & ->)|[Hne Hq]];
    destruct (inv_pdev _ _ _ I _ _ Hq) as [H1 H2 H3 H4 H5 H6 H7 H8];
    constructor; cbn; try done;
    try (rewrite vdev_gone_in_pdev; done).
  - by apply NoDup_unlink.
  - rewrite H2, (length_unlink v); [done|done|]. apply H3. eexists. apply vdev_gone_key.
  - intros v'. rewrite elem_of_unlink, H3, vdev_gone_keys. setoid_rewrite lookup_delete.
    case_decide as E1.
    + split; [intros [E2 _]; congruence|by intros [? ?]].
    + split; [intros [_ ?]; done|]. intros ?. split; [congruence|done].
  - destruct H6. split; [lia|done].
  - intros v'. rewrite vdev_gone_keys. setoid_rewrite lookup_delete. case_decide as E1; [|done].
    rewrite H3. split; [|by intros [? ?]]. intros [k Hk]. rewrite <- E1, vdev_gone_key in Hk.
    injection Hk as Hk _. congruence.
Qed.

Lemma inv_vdev_gone : inv A (bump e (OPdev d) 0 1) s'.
Proof using All.
  destruct (proj1 (pdev_keys_Some _ _ _ _) Hd) as (rd & Hrd & _).
  pose proof (inv_pdev _ _ _ I d rd Hrd) as D.
  assert (v ∈ wlan_vdev_list rd) as Hin by (apply (pdev_vdevs _ _ _ D); eexists; apply vdev_gone_key).
  pose proof (length_unlink v _ (pdev_nodup _ _ _ D) Hin) as Hcnt.
  rewrite <- (pdev_vdev_cnt _ _ _ D) in Hcnt.
  apply (inv_removed A e _ s s' (OVdev v) (vdev_hdr r)); try done.
  - cbn. by rewrite Hr.
  - intros o. apply get_hdr_vdev_gone.
  - intros id. rewrite bump_other; [apply He|by left].
  - intros o id Hne Ho. unfold owed. destruct o as [q|q|q|q]; try (rewrite bump_other by (by left)).
    + cbn. rewrite lookup_alter. case_decide as E1; [|done]. rewrite E1. by destruct (psocs s !! q).
    + destruct (decide (q = d)) as [->|Hq].
      * rewrite bump_at. cbn. rewrite lookup_alter_eq, Hrd. cbn.
        destruct (Nat.eqb_spec id 0); case_bool_decide; lia || done.
      * rewrite bump_other by (left; congruence). cbn. by rewrite lookup_alter_ne.
    + cbn. by rewrite lookup_delete_ne by congruence.
    + unfold kids. change (peer_keys s') with (peer_keys s).
      destruct (peer_keys s !! q) as [[[v' m] t]|] eqn:Hx; [|done]. cbn.
      rewrite lookup_delete_ne; [done|]. intros E1. rewrite <- E1 in Hx. by eapply vdev_gone_empty.
  - intros o id. destruct (decide (o = OPdev d)) as [->|Hne]; [cbn; by rewrite Hrd|].
    rewrite bump_other by (by left). apply (inv_refs _ _ _ I).
  - constructor.
    + by apply (glob_ok_alter A e s s' (set_vdev_slot i None) p).
    + intros d' q k. rewrite vdev_gone_pdev_keys. intros Hk. apply alter_is_Some.
      by apply (inv_pdev_parent _ _ _ I) in Hk.
    + intros v' d' k. rewrite vdev_gone_keys, vdev_gone_pdev_keys, lookup_delete.
      case_decide; [done|]. apply (inv_vdev_parent _ _ _ I).
    + intros x v' m t Hx. rewrite vdev_gone_keys, lookup_delete_ne.
      * by apply (inv_peer_parent _ _ _ I x v' m t).
      * intros E1. rewrite <- E1 in Hx. by eapply vdev_gone_empty.
    + intros x rx d' k q l Hx. rewrite vdev_gone_keys, vdev_gone_pdev_keys, lookup_delete.
      case_decide; [done|]. by apply (inv_peer_pdev _ _ _ I x rx d' k).
    + apply vdev_gone_psoc_ok.
    + apply vdev_gone_pdev_ok.
    + intros v' rv. cbn. rewrite lookup_delete. case_decide; [done|]. intros Hv.
      destruct (inv_vdev _ _ _ I v' rv Hv) as [H1 H2 H3 H4 H5 H6 H7]. by constructor.
Qed.

End VdevGone.

(** *** The peer *)

Definition forget x (a : option nat) : option nat := if bool_decide (a = Some x) then None else a.
Definition peer_off x (r : wlan_objmgr_vdev) : wlan_objmgr_vdev :=
  Vdev (vdev_hdr r) (vdev_id r) (wlan_pdev r) (vdev_opmode r) (vdev_macaddr r)
    (unlink x (wlan_peer_list r)) (pred (vdev_peer_count r)) (vdev_max_peer_count r)
    (forget x (self_peer r)) (forget x (bss_peer r)).
Definition peer_out k x t (r : wlan_objmgr_psoc) : wlan_objmgr_psoc :=
  set_peer_hash k (unlink x (default [] (peer_hash r !! k))) t pred r.
Definition peer_gone p d v k x t s : objmgr_world :=
  set_peers (delete x) (set_vdevs (alter (peer_off x) v)
    (set_pdevs (alter (count_peer t pred) d) (set_psocs (alter (peer_out k x t) p) s))).

Lemma forget_Some x a b : forget x a = Some b <-> a = Some b /\ b <> x.
Proof. unfold forget. case_bool_decide as E1; split; [done|intros [? ?]; congruence|intros E2; split; congruence|by intros [? _]]. Qed.

Lemma get_hdr_peer_gone p d v k x t s o :
  get_hdr o (peer_gone p d v k x t s) = if bool_decide (o = OPeer x) then None else get_hdr o s.
Proof.
  destruct o as [q|q|q|q]; cbn.
  - rewrite lookup_alter. case_decide; [subst; by destruct (psocs s !! q)|done].
  - rewrite lookup_alter. case_decide; [subst; by destruct (pdevs s !! q)|done].
  - rewrite lookup_alter. case_decide; [subst; by destruct (vdevs s !! q)|done].
  - rewrite lookup_delete. case_decide; subst; [by rewrite bool_decide_eq_true_2|].
    by rewrite bool_decide_eq_false_2 by congruence.
Qed.

Section PeerGone.
Context A e s x r (rv : wlan_objmgr_vdev) (p j : nat) (I : inv A e s) (Hr : peers s !! x = Some r).
Context (Hrv : vdevs s !! peer_vdev r = Some rv).
Context (Hd : pdev_keys s !! wlan_pdev rv = Some (p, j)).
Context (Hl : live (peer_hdr r) = false) (He : forall id, e (OPeer x) id = 0).
Context (Hz : kids s (OPeer x) = 0).
Abbreviation v := (peer_vdev r).
Abbreviation d := (wlan_pdev rv).
Abbreviation t := (peer_type r).
Abbreviation k := (WLAN_PEER_HASH (peer_macaddr r)).
Abbreviation s' := (peer_gone p d v k x t s).

(** The BSS peer loses a holder when a holder goes. *)
Definition bss_bump (e : ledger) : ledger :=
  match bss_peer rv with
  | Some b => if holds_bss t then bump e (OPeer b) 0 1 else e
  | None => e
  end.

Lemma peer_gone_key : peer_keys s !! x = Some (v, peer_macaddr r, t).
Proof using Hr. apply peer_keys_Some. eauto. Qed.
Lemma peer_gone_vdev_key : vdev_keys s !! v = Some (d, vdev_id rv).
Proof using Hrv. apply vdev_keys_Some. eauto. Qed.
Lemma peer_gone_keys : peer_keys s' = delete x (peer_keys s).
Proof. apply fmap_delete. Qed.
Lemma peer_gone_pdev_keys : pdev_keys s' = pdev_keys s.
Proof. by apply fmap_alter_same. Qed.
Lemma peer_gone_vdev_keys : vdev_keys s' = vdev_keys s.
Proof. by apply fmap_alter_same. Qed.
Lemma peer_gone_vdev_slot v' : vdev_slot s' v' = vdev_slot s v'.
Proof. unfold vdev_slot. by rewrite peer_gone_vdev_keys, peer_gone_pdev_keys. Qed.
Lemma peer_gone_at : vdev_slot s v = Some (p, vdev_id rv).
Proof using Hrv Hd. unfold vdev_slot. by rewrite peer_gone_vdev_key, Hd. Qed.
Lemma peer_gone_peer_slot y : peer_slot s' y = if bool_decide (y = x) then None else peer_slot s y.
Proof.
  unfold peer_slot. rewrite peer_gone_keys, lookup_delete. case_decide as E1.
  - by rewrite bool_decide_eq_true_2.
  - rewrite bool_decide_eq_false_2 by congruence.
    destruct (peer_keys s !! y) as [[[v' m] t']|]; [|done]. by rewrite peer_gone_vdev_slot.
Qed.
Lemma peer_gone_holder y : holder s' y = negb (bool_decide (y = x)) && holder s y.
Proof.
  unfold holder. rewrite peer_gone_keys, lookup_delete. case_decide as E1.
  - by rewrite bool_decide_eq_true_2.
  - by rewrite bool_decide_eq_false_2 by congruence.
Qed.
Lemma peer_gone_temp y : temp s' y = true -> temp s y = true.
Proof. unfold temp. rewrite peer_gone_keys, lookup_delete. by case_decide. Qed.
Lemma peer_gone_x_holder : holder s x = holds_bss t.
Proof using Hr. unfold holder. by rewrite peer_gone_key. Qed.

Lemma peer_gone_count Q Q' b :
  (forall v', Q' v' = Q v') ->
  peers_with s Q b = ((if Q v && Bool.eqb (temporary t) b then 1 else 0) + peers_with s' Q' b)%nat.
Proof using Hr.
  intros HQ. rewrite (peers_with_delete s s' Q b x v (peer_macaddr r) t);
    [|apply peer_gone_keys|apply peer_gone_key].
  f_equal. symmetry. by apply peers_with_ext.
Qed.
Lemma peer_gone_in_psoc q b :
  peers_with s (in_psoc s q) b
  = ((if bool_decide (p = q) && Bool.eqb (temporary t) b then 1 else 0)
     + peers_with s' (in_psoc s' q) b)%nat.
Proof using Hr Hrv Hd.
  rewrite (peer_gone_count _ (in_psoc s' q)).
  - unfold in_psoc at 1. by rewrite peer_gone_at.
  - intros v'. unfold in_psoc. by rewrite peer_gone_vdev_slot.
Qed.
Lemma peer_gone_in_pdev q b :
  peers_with s (in_pdev s q) b
  = ((if bool_decide (d = q) && Bool.eqb (temporary t) b then 1 else 0)
     + peers_with s' (in_pdev s' q) b)%nat.
Proof using Hr Hrv.
  rewrite (peer_gone_count _ (in_pdev s' q)).
  - unfold in_pdev at 1. by rewrite peer_gone_vdev_key.
  - intros v'. unfold in_pdev. by rewrite peer_gone_vdev_keys.
Qed.

(** The bucket the peer is in. *)
Lemma peer_gone_bucket rp : psocs s !! p = Some rp ->
  exists l, peer_hash rp !! k = Some l /\ x ∈ l /\ NoDup l.
Proof using I Hr Hrv Hd.
  intros Hp. pose proof (inv_psoc _ _ _ I _ _ Hp) as P.
  destruct (proj2 (psoc_peers _ _ _ P k x)) as (l & Hlk & Hx).
  - unfold peer_slot. by rewrite peer_gone_key, peer_gone_at.
  - exists l. split_and!; [done..|]. by apply (psoc_buckets _ _ _ P k).
Qed.

Lemma peer_gone_psoc_ok q rq : psocs s' !! q = Some rq -> psoc_ok s' q rq.
Proof using I Hr Hrv Hd.
  intros Hq. cbn in Hq. apply lookup_alter_Some in Hq as [(<- & r0 & Hq & ->)|[Hne Hq]].
  - destruct (peer_gone_bucket r0 Hq) as (l & Hlk & Hx & Hnd).
    destruct (inv_psoc _ _ _ I _ _ Hq) as [H1 H2 H3 H4 H5 H6 H7 H8 H9 H10 H11 H12 H13 H14 H15].
    rewrite peer_gone_in_psoc, bool_decide_eq_true_2 in H12, H13 by done.
    constructor; cbn; rewrite ?Hlk; try done; cbn;
      try (intros; rewrite ?peer_gone_pdev_keys, ?peer_gone_vdev_slot; done).
    + by rewrite length_insert.
    + intros q y. rewrite peer_gone_peer_slot. setoid_rewrite list_lookup_insert.
      pose proof peer_gone_at as Hat. apply lookup_lt_Some in Hlk as Hlt.
      case_bool_decide as E1.
      * split; [|done]. rewrite E1. intros (l' & Hl' & Hy). exfalso. case_decide as E2.
        -- injection Hl' as <-. by apply elem_of_unlink in Hy as [? _].
        -- assert (peer_slot s x = Some (p, q)) as Hsl by (apply H8; eauto).
           unfold peer_slot in Hsl. rewrite peer_gone_key, Hat in Hsl. injection Hsl as <-.
           by apply E2.
      * rewrite <- H8. case_decide as E2; [|done]. destruct E2 as [<- _]. rewrite Hlk.
        split; intros (l' & [= <-] & Hy).
        -- apply elem_of_unlink in Hy as [_ Hy]. eauto.
        -- eexists. split; [done|]. by apply elem_of_unlink.
    + intros q l'. rewrite list_lookup_insert. case_decide; [|apply H9].
      intros [= <-]. by apply NoDup_unlink.
    + rewrite H12. by destruct (temporary t).
    + rewrite H13. by destruct (temporary t).
    + destruct H14. destruct (temporary t); split; lia || done.
    + destruct (temporary t); lia.
  - destruct (inv_psoc _ _ _ I _ _ Hq) as [H1 H2 H3 H4 H5 H6 H7 H8 H9 H10 H11 H12 H13 H14 H15].
    rewrite peer_gone_in_psoc, bool_decide_eq_false_2 in H12, H13 by done.
    constructor; try done;
      try (intros; rewrite ?peer_gone_pdev_keys, ?peer_gone_vdev_slot; done).
    intros q' y. rewrite peer_gone_peer_slot. case_bool_decide as E1; [|done].
    rewrite E1, H8. unfold peer_slot. rewrite peer_gone_key, peer_gone_at.
    split; [intros [= ? ?]; congruence|done].
Qed.

Lemma peer_gone_pdev_ok q rq : pdevs s' !! q = Some rq -> pdev_ok s' q rq.
Proof using I Hr Hrv Hd.
  intros Hq. cbn in Hq. apply lookup_alter_Some in Hq as [(<- & r0 & Hq & ->)|[Hne Hq]];
    destruct (inv_pdev _ _ _ I _ _ Hq) as [H1 H2 H3 H4 H5 H6 H7 H8];
    rewrite peer_gone_in_pdev in H4, H5.
  - rewrite bool_decide_eq_true_2 in H4, H5 by done. constructor; cbn; try done.
    + by rewrite peer_gone_vdev_keys.
    + rewrite H4. by destruct (temporary t).
    + rewrite H5. by destruct (temporary t).
    + destruct H7. destruct (temporary t); split; lia || done.
    + destruct (temporary t); lia.
  - rewrite bool_decide_eq_false_2 in H4, H5 by done. constructor; try done.
    by rewrite peer_gone_vdev_keys.
Qed.

Lemma peer_gone_in_list : x ∈ wlan_peer_list rv.
Proof using I Hr Hrv.
  apply (vdev_peers _ _ _ _ (inv_vdev _ _ _ I _ _ Hrv)). do 2 eexists. apply peer_gone_key.
Qed.

Lemma peer_gone_no_holders y :
  bss_peer rv = Some x -> y ∈ wlan_peer_list rv -> holder s y = true -> False.
Proof using I Hr Hrv Hz.
  intros Hb Hy Hh. unfold kids in Hz. rewrite peer_gone_key, Hrv, bool_decide_eq_true_2 in Hz by done.
  assert (y ∈ List.filter (holder s) (wlan_peer_list rv)) as Hin by (by apply elem_of_filter_b).
  destruct (List.filter _ _); [by apply elem_of_nil in Hin|]. cbn in Hz. lia.
Qed.

Lemma peer_gone_vdev_ok q rq : vdevs s' !! q = Some rq -> vdev_ok A s' q rq.
Proof using I Hr Hrv Hd Hz.
  intros Hq. cbn in Hq. apply lookup_alter_Some in Hq as [(<- & r0 & Hq & ->)|[Hne Hq]].
  - rewrite Hrv in Hq. injection Hq as <-.
    destruct (inv_vdev _ _ _ I _ _ Hrv) as [H1 H2 H3 H4 H5 H6 H7]. constructor; cbn.
    + by apply NoDup_unlink.
    + rewrite H2, (length_unlink x _ H1 peer_gone_in_list). done.
    + intros y. rewrite elem_of_unlink, H3, peer_gone_keys. setoid_rewrite lookup_delete.
      case_decide as E1; [split; [intros [E2 _]; congruence|by intros (? & ? & ?)]|].
      split; [by intros [_ ?]|]. intros ?. split; [congruence|done].
    + intros y. rewrite forget_Some, elem_of_unlink. intros [Hy Hne]. split; [done|]. by apply H4.
    + intros b. rewrite forget_Some, elem_of_unlink, peer_gone_holder. intros [Hb Hne].
      apply H5 in Hb as [? Hh]. rewrite Hh. by rewrite andb_false_r.
    + intros y [Hne Hy]%elem_of_unlink. rewrite peer_gone_holder. intros [_ Hh]%andb_prop.
      destruct (H6 y Hy Hh) as [b Hb]. exists b. apply forget_Some. split; [done|]. intros ->.
      by apply (peer_gone_no_holders y).
    + intros y b [Hne Hy]%elem_of_unlink Ht [Hb _]%forget_Some. apply (H7 y); [done| |done].
      by apply peer_gone_temp.
  - destruct (inv_vdev _ _ _ I _ _ Hq) as [H1 H2 H3 H4 H5 H6 H7].
    assert (forall y, y ∈ wlan_peer_list rq -> y <> x) as Hnx.
    { intros y Hy. apply H3 in Hy as (m & t' & Hy). intros E1. rewrite E1, peer_gone_key in Hy. congruence. }
    constructor; try done.
    + intros y. rewrite H3, peer_gone_keys. setoid_rewrite lookup_delete.
      case_decide as E1; [|done]. rewrite <- E1. split; [|by intros (? & ? & ?)].
      intros (m & t' & Hy). rewrite peer_gone_key in Hy. congruence.
    + intros b Hb. apply H5 in Hb as [? Hh]. split; [done|]. by rewrite peer_gone_holder, Hh, andb_false_r.
    + intros y Hy. rewrite peer_gone_holder. intros [_ Hh]%andb_prop. by apply (H6 y).
    + intros y b Hy Ht. apply (H7 y b Hy). by apply peer_gone_temp.
Qed.

(** The holders of a BSS peer, without this one. *)
Lemma peer_gone_kids y :
  y <> x -> kids s (OPeer y)
  = kids s' (OPeer y) + if holds_bss t && bool_decide (bss_peer rv = Some y) then 1 else 0.
Proof using I Hr Hrv.
  intros Hy. unfold kids. rewrite peer_gone_keys, lookup_delete_ne by congruence.
  destruct (inv_vdev _ _ _ I _ _ Hrv) as [H1 H2 H3 H4 H5 H6 H7].
  destruct (peer_keys s !! y) as [[[v' m] t']|] eqn:Hk.
  2:{ rewrite bool_decide_eq_false_2; [by rewrite andb_false_r|].
      intros Hb. apply H5 in Hb as [Hb _]. apply H3 in Hb as (m & t' & Hb). congruence. }
  cbn. rewrite lookup_alter. case_decide as E1.
  - rewrite <- E1, Hrv. cbn.
    assert (bool_decide (forget x (bss_peer rv) = Some y) = bool_decide (bss_peer rv = Some y)) as ->.
    { apply bool_decide_ext. rewrite forget_Some. tauto. }
    case_bool_decide as E2; [|by rewrite andb_false_r].
    rewrite (filter_ext_elem (holder s') (holder s)).
    2:{ intros z [Hz' _]%elem_of_unlink. rewrite peer_gone_holder. by rewrite bool_decide_eq_false_2. }
    rewrite filter_unlink, andb_true_r. pose proof peer_gone_x_holder as Hxh.
    destruct (holds_bss t).
    + rewrite (length_unlink x (List.filter (holder s) (wlan_peer_list rv))); [lia|by apply NoDup_filter_b|].
      apply elem_of_filter_b. split; [done|]. apply peer_gone_in_list.
    + rewrite unlink_id; [lia|]. intros [Hin _]%elem_of_filter_b. congruence.
  - destruct (vdevs s !! v') as [rv'|] eqn:Hv'.
    + destruct (inv_vdev _ _ _ I _ _ Hv') as [_ _ H3' _ H5' _ _].
      rewrite (bool_decide_eq_false_2 (bss_peer rv = Some y)).
      2:{ intros Hb. apply H5 in Hb as [Hb _]. apply H3 in Hb as (m' & t'' & Hb). congruence. }
      rewrite andb_false_r, Z.add_0_r. case_bool_decide; [|done].
      f_equal. f_equal. apply filter_ext_elem. intros z Hz'. rewrite peer_gone_holder.
      rewrite bool_decide_eq_false_2; [done|]. intros E2. apply H3' in Hz' as (m' & t'' & Hz').
      rewrite E2, peer_gone_key in Hz'. congruence.
    + destruct (inv_peer_parent _ _ _ I y v' m t' Hk) as [[d' i'] Hv].
      apply vdev_keys_Some in Hv as (? & ? & _). congruence.
Qed.

Lemma inv_peer_gone : inv A (bump (bss_bump e) (OVdev v) 0 1) s'.
Proof using All.
  assert (forall o id, o <> OPeer x -> (forall b, bss_peer rv = Some b -> o <> OPeer b) ->
            bss_bump e o id = e o id) as Hbb.
  { intros o id _ Hb. unfold bss_bump. destruct (bss_peer rv) as [b|]; [|done].
    destruct (holds_bss t); [|done]. apply bump_other. left. by apply Hb. }
  destruct (inv_vdev _ _ _ I _ _ Hrv) as [H1 H2 H3 H4 H5 H6 H7].
  apply (inv_removed A e _ s s' (OPeer x) (peer_hdr r)); try done.
  - cbn. by rewrite Hr.
  - intros o. apply get_hdr_peer_gone.
  - intros id. rewrite bump_other by (by left). unfold bss_bump.
    destruct (bss_peer rv) as [b|] eqn:Hb; [|apply He]. pose proof peer_gone_x_holder as Hxh.
    destruct (holds_bss t); [|apply He]. rewrite bump_other; [apply He|].
    left. intros [= E1]. destruct (H5 b eq_refl) as [_ Hh]. congruence.
  - intros o id Hne Ho. unfold owed. destruct o as [q|q|q|q].
    + rewrite bump_other, Hbb by (done || (by left)). cbn. rewrite lookup_alter.
      case_decide as E1; [|done]. rewrite E1. by destruct (psocs s !! q).
    + rewrite bump_other, Hbb by (done || (by left)). cbn. rewrite lookup_alter.
      case_decide as E1; [|done]. rewrite E1. by destruct (pdevs s !! q).
    + destruct (decide (q = v)) as [->|Hq].
      * rewrite bump_at, Hbb by done. cbn. rewrite lookup_alter_eq, Hrv. cbn.
        rewrite H2. rewrite (length_unlink x _ H1 peer_gone_in_list).
        destruct (Nat.eqb_spec id 0); case_bool_decide; lia || done.
      * rewrite bump_other, Hbb by (done || (left; congruence)). cbn. by rewrite lookup_alter_ne.
    + rewrite bump_other by (by left). rewrite (peer_gone_kids q) by congruence.
      unfold bss_bump. destruct (bss_peer rv) as [b|]; [|rewrite andb_false_r; destruct (_ =? _)%nat; lia].
      destruct (holds_bss t); cbn [andb]; [|destruct (_ =? _)%nat; lia].
      destruct (decide (b = q)) as [->|Hq].
      * rewrite bump_at, (bool_decide_eq_true_2 (Some q = Some q)) by done.
        destruct (Nat.eqb_spec id 0); case_bool_decide; lia || done.
      * rewrite bool_decide_eq_false_2, bump_other by (congruence || (left; congruence)).
        destruct (_ =? _)%nat; lia.
  - intros o id. destruct (decide (o = OVdev v)) as [->|Hne]; [cbn; by rewrite Hrv|].
    rewrite bump_other by (by left). unfold bss_bump.
    destruct (bss_peer rv) as [b|]; [|apply (inv_refs _ _ _ I)].
    destruct (holds_bss t); [|apply (inv_refs _ _ _ I)].
    destruct (decide (o = OPeer b)) as [->|Hnb]; [|rewrite bump_other by (by left); apply (inv_refs _ _ _ I)].
    intros _. destruct (H5 b eq_refl) as [Hb _]. apply H3 in Hb as (m & t' & Hb).
    apply peer_keys_Some in Hb as (rb & Hrb & _). cbn. by rewrite Hrb.
  - constructor.
    + by apply (glob_ok_alter A e s s' (peer_out k x t) p).
    + intros d' q i'. rewrite peer_gone_pdev_keys. intros Hk. apply alter_is_Some.
      by apply (inv_pdev_parent _ _ _ I) in Hk.
    + intros v' d' i'. rewrite peer_gone_vdev_keys, peer_gone_pdev_keys. apply (inv_vdev_parent _ _ _ I).
    + intros y v' m t'. rewrite peer_gone_keys, peer_gone_vdev_keys, lookup_delete.
      case_decide; [done|]. apply (inv_peer_parent _ _ _ I).
    + intros y ry d' i' q l. cbn. rewrite lookup_delete, peer_gone_vdev_keys, peer_gone_pdev_keys.
      case_decide; [done|]. apply (inv_peer_pdev _ _ _ I).
    + apply peer_gone_psoc_ok.
    + apply peer_gone_pdev_ok.
    + apply peer_gone_vdev_ok.
Qed.

End PeerGone.

(** *** New objects *)

(** The header of an object that has its own reference. *)
Definition fresh_hdr : wlan_objmgr_hdr := add_ref 1 WLAN_OBJMGR_ID zero_hdr.

Lemma fresh_hdr_ok : hdr_ok 0 (fun _ => 0) fresh_hdr.
Proof.
  constructor; try done.
  - intros id. unfold fresh_hdr. rewrite refs_add_ref. unfold WLAN_OBJMGR_ID. cbn.
    destruct (Nat.eqb_spec id 0) as [->|]; [done|]. rewrite bool_decide_eq_false_2 by done.
    unfold refs_by. cbn. by rewrite lookup_empty.
  - intros id. unfold fresh_hdr. rewrite refs_add_ref. unfold refs_by. cbn. rewrite lookup_empty.
    cbn. case_bool_decide; lia.
Qed.

Definition take_addr s : objmgr_world :=
  World (glob s) (psocs s) (pdevs s) (vdevs s) (peers s) (S (next_addr s)) (trace s).

Lemma fresh_none A e s o : inv A e s -> (next_addr s <= addr_of o)%nat -> get_hdr o s = None.
Proof.
  intros I Ho. destruct (get_hdr o s) as [h|] eqn:E; [|done]. apply (inv_fresh _ _ _ I) in E. lia.
Qed.
Lemma fresh_refs A e s o id : inv A e s -> (next_addr s <= addr_of o)%nat -> e o id = 0.
Proof.
  intros I Ho. destruct (Z.eq_dec (e o id) 0) as [|Hne]; [done|].
  apply (inv_refs _ _ _ I) in Hne. rewrite (fresh_none A e s o I Ho) in Hne. by destruct Hne.
Qed.
Lemma inv_take_addr A e s : inv A e s -> inv A e (take_addr s).
Proof.
  intros I. assert (same_keys s (take_addr s)) as Hk by done.
  destruct I as [H1 H2 H3 H4 H5 H6 H7 H8 H9 H10 H11 H12].
  constructor; try done; try (intros a r Hr).
  - apply H2 in Hr. cbn. lia.
  - eapply psoc_ok_keys; [done|]. by apply H10.
  - eapply pdev_ok_keys; [done|]. by apply H11.
  - eapply vdev_ok_keys; [done|]. by apply H12.
Qed.

Lemma get_hdr_insert_psoc s p r o :
  get_hdr o (set_psocs <[p := r]> s) = if bool_decide (o = OPsoc p) then Some (psoc_hdr r) else get_hdr o s.
Proof.
  destruct o as [q|q|q|q]; cbn; try done. rewrite lookup_insert.
  case_decide; subst; [by rewrite bool_decide_eq_true_2|by rewrite bool_decide_eq_false_2 by congruence].
Qed.

Definition psoc_new p s : objmgr_world :=
  set_psocs <[p := with_psoc_hdr (fun _ => fresh_hdr) new_psoc]> (take_addr s).

Lemma inv_psoc_new A e s p :
  inv A e s -> next_addr s = p -> inv (mark A (OPsoc p) true) e (psoc_new p s).
Proof.
  intros I Hp. assert (get_hdr (OPsoc p) s = None) as Hn by (apply (fresh_none _ _ _ _ I); cbn; lia).
  assert (psocs s !! p = None) as Hn'.
  { cbn in Hn. by destruct (psocs s !! p). }
  assert (same_keys s (psoc_new p s)) as Hk by done.
  assert (forall d i, pdev_keys s !! d = Some (p, i) -> False) as Hnd.
  { intros d i Hd. apply (inv_pdev_parent _ _ _ I) in Hd as [r Hr]. congruence. }
  assert (forall v i, vdev_slot s v = Some (p, i) -> False) as Hnv.
  { intros v i. unfold vdev_slot. destruct (vdev_keys s !! v) as [[d j]|]; [|done].
    destruct (pdev_keys s !! d) as [[q k]|] eqn:Hd; [|done]. intros [= -> ->]. by eapply Hnd. }
  assert (forall b, peers_with s (in_psoc s p) b = 0%nat) as Hc.
  { intros b. unfold peers_with. rewrite map_size_empty_iff. apply map_empty. intros x.
    apply map_lookup_filter_None. right. intros [[v m] t] _. cbn. unfold in_psoc.
    destruct (vdev_slot s v) as [[q i]|] eqn:Hv; [|done].
    case_bool_decide; [|done]. subst q. by apply Hnv in Hv. }
  apply (inv_added A e e s _ (OPsoc p) fresh_hdr); try done; cbn; try lia.
  - intros o. unfold psoc_new. rewrite get_hdr_insert_psoc. by destruct o.
  - intros id. apply (fresh_refs _ _ _ _ _ I). cbn. lia.
  - apply fresh_hdr_ok.
  - by rewrite lookup_insert_eq.
  - intros o id Hne Ho. unfold owed. f_equal. destruct (_ =? _)%nat; [|done].
    destruct o as [q|q|q|q]; try done. cbn. by rewrite lookup_insert_ne by congruence.
  - intros o id _. apply (inv_refs _ _ _ I).
  - constructor.
    + destruct (inv_glob _ _ _ I) as (g & Hg & Hlen & Hs). exists g. split_and!; [done..|].
      intros i q Hi. apply Hs in Hi. cbn. rewrite lookup_insert. case_decide; [|done]. subst q.
      by rewrite Hn' in Hi.
    + intros d q i Hd. cbn. rewrite lookup_insert. case_decide; [by eexists|].
      by apply (inv_pdev_parent _ _ _ I d q i).
    + intros v d i Hv. destruct (inv_vdev_parent _ _ _ I v d i Hv) as (q & k & Hd & HA).
      exists q, k. split; [done|]. unfold mark. by case_bool_decide.
    + apply (inv_peer_parent _ _ _ I).
    + apply (inv_peer_pdev _ _ _ I).
    + intros q rq. cbn. rewrite lookup_insert. case_decide as E1.
      2:{ intros Hq. eapply psoc_ok_keys; [done|]. by apply (inv_psoc _ _ _ I). }
      intros [= <-]. rewrite <- E1. apply (psoc_ok_keys s _ Hk). constructor; cbn; try done.
      * apply (is_bit_replicate WLAN_UMAC_MAX_PDEVS).
      * apply (is_bit_replicate WLAN_UMAC_PSOC_MAX_VDEVS).
      * intros i d. split; [|intros Hd; exfalso; by eapply Hnd].
        intros H. by apply (lookup_replicate_1 WLAN_UMAC_MAX_PDEVS) in H as [? _].
      * intros i v. split; [|intros Hv; exfalso; by eapply Hnv].
        intros H. by apply (lookup_replicate_1 WLAN_UMAC_PSOC_MAX_VDEVS) in H as [? _].
      * intros i x. split.
        -- intros (l & Hl & Hx). apply (lookup_replicate_1 WLAN_PEER_HASHSIZE) in Hl as [-> _].
           by apply elem_of_nil in Hx.
        -- unfold peer_slot. destruct (peer_keys s !! x) as [[[v m] t]|]; [|done].
           destruct (vdev_slot s v) as [[q' i']|] eqn:Hv; [|done].
           intros [= E2 _]. exfalso. rewrite E2 in Hv. by eapply Hnv.
      * intros i l Hl. apply (lookup_replicate_1 WLAN_PEER_HASHSIZE) in Hl as [-> _]. constructor.
      * split; [apply Nat.le_0_l|done].
      * apply Nat.le_0_l.
    + intros d rd Hd. eapply pdev_ok_keys; [done|]. by apply (inv_pdev _ _ _ I).
    + intros v rv Hv. eapply vdev_ok_keys; [done|].
      destruct (inv_vdev _ _ _ I v rv Hv) as [H1 H2 H3 H4 H5 H6 H7]. constructor; try done.
Qed.

(** The psoc enters the table of psocs. *)
Definition psoc_listed p i s : objmgr_world :=
  set_psocs (alter (set_psoc_id i) p) (set_glob (set_g_psoc (<[i := Some p]>)) s).

Lemma inv_psoc_listed A e s p i g :
  inv A e s -> glob s = Some g -> g_psoc g !! i = Some None ->
  (forall j, g_psoc g !! j <> Some (Some p)) -> is_Some (psocs s !! p) ->
  inv A e (psoc_listed p i s).
Proof.
  intros I Hg Hi Hnot [r Hr]. assert (same_keys s (psoc_listed p i s)) as Hk by done.
  assert (forall o, get_hdr o (psoc_listed p i s) = get_hdr o s) as Hget.
  { intros [q|q|q|q]; cbn; try done. rewrite lookup_alter. case_decide; [subst|done].
    by destruct (psocs s !! q). }
  constructor.
  - destruct (inv_glob _ _ _ I) as (g' & Hg' & Hlen & Hs). rewrite Hg in Hg'. injection Hg' as <-.
    exists (set_g_psoc (<[i := Some p]>) g). cbn. rewrite Hg. split_and!; [done|by rewrite length_insert|].
    intros j q. cbn. rewrite list_lookup_insert, lookup_alter. case_decide as E1.
    + intros [= <-]. destruct E1 as [<- _]. by rewrite decide_True, Hr.
    + intros Hj. rewrite decide_False; [by apply Hs|]. intros <-. by eapply Hnot.
  - intros o h. rewrite Hget. apply (inv_fresh _ _ _ I).
  - intros o h. rewrite Hget. intros Ho. replace (kids (psoc_listed p i s) o) with (kids s o).
    + by apply (inv_hdr _ _ _ I).
    + destruct o as [q|q|q|q]; cbn; try done. rewrite lookup_alter. case_decide; [subst|done].
      by destruct (psocs s !! q).
  - intros o. unfold is_live. rewrite Hget. apply (inv_live _ _ _ I).
  - intros o id. rewrite Hget. apply (inv_refs _ _ _ I).
  - intros d q j Hd. apply alter_is_Some. by apply (inv_pdev_parent _ _ _ I d q j).
  - apply (inv_vdev_parent _ _ _ I).
  - apply (inv_peer_parent _ _ _ I).
  - apply (inv_peer_pdev _ _ _ I).
  - intros q rq Hq. apply (psoc_ok_keys s _ Hk). cbn in Hq.
    apply lookup_alter_Some in Hq as [(<- & r0 & Hq & ->)|[_ Hq]]; [|by apply (inv_psoc _ _ _ I)].
    destruct (inv_psoc _ _ _ I _ _ Hq). by constructor.
  - intros d rd Hd. eapply pdev_ok_keys; [done|]. by apply (inv_pdev _ _ _ I).
  - intros v rv Hv. eapply vdev_ok_keys; [done|]. by apply (inv_vdev _ _ _ I).
Qed.

Lemma get_hdr_take_addr s o : get_hdr o (take_addr s) = get_hdr o s.
Proof. by destruct o. Qed.

Definition pdev_at p i max : wlan_objmgr_pdev :=
  Pdev fresh_hdr i p [] 0 WLAN_UMAC_PDEV_MAX_VDEVS 0 0 max.
Definition pdev_new p i d max s : objmgr_world :=
  set_pdevs <[d := pdev_at p i max]> (set_psocs (alter (set_pdev_slot i (Some d)) p) (take_addr s)).

Section PdevNew.
Context A e s p (i d : nat) rp (I : inv A e s) (Hp : psocs s !! p = Some rp).
Context (Hd : next_addr s = d) (Hi : wlan_pdev_list rp !! i = Some None).
Abbreviation s' := (pdev_new p i d (psoc_max_peer_count rp) s).

Lemma pdev_new_fresh : pdev_keys s !! d = None.
Proof using I Hd.
  assert (get_hdr (OPdev d) s = None) as H by (apply (fresh_none _ _ _ _ I); cbn; lia).
  unfold pdev_keys. rewrite lookup_fmap. cbn in H. by destruct (pdevs s !! d).
Qed.
Lemma pdev_new_keys : pdev_keys s' = <[d := (p, i)]> (pdev_keys s).
Proof. etrans; [apply fmap_insert|done]. Qed.
Lemma pdev_new_child v j : vdev_keys s !! v = Some (d, j) -> False.
Proof using I Hd.
  intros Hv. destruct (inv_vdev_parent _ _ _ I v d j Hv) as (q & k & Hk & _).
  by rewrite pdev_new_fresh in Hk.
Qed.
Lemma pdev_new_vdev_slot v : vdev_slot s' v = vdev_slot s v.
Proof using I Hd.
  unfold vdev_slot. rewrite pdev_new_keys. change (vdev_keys s') with (vdev_keys s).
  destruct (vdev_keys s !! v) as [[d' j]|] eqn:E1; [|done].
  rewrite lookup_insert_ne; [done|]. intros E2. rewrite <- E2 in E1. by eapply pdev_new_child.
Qed.
Lemma pdev_new_peer_slot x : peer_slot s' x = peer_slot s x.
Proof using I Hd.
  unfold peer_slot. change (peer_keys s') with (peer_keys s).
  destruct (peer_keys s !! x) as [[[v m] t]|]; [|done]. by rewrite pdev_new_vdev_slot.
Qed.
Lemma pdev_new_in_psoc q b : peers_with s' (in_psoc s' q) b = peers_with s (in_psoc s q) b.
Proof using I Hd.
  apply peers_with_ext; [done|]. intros x v m t _. unfold in_psoc. by rewrite pdev_new_vdev_slot.
Qed.
Lemma pdev_new_no_peers b : peers_with s (in_pdev s d) b = 0%nat.
Proof using I Hd.
  unfold peers_with. rewrite map_size_empty_iff. apply map_empty. intros x.
  apply map_lookup_filter_None. right. intros [[v m] t] _. cbn. unfold in_pdev.
  destruct (vdev_keys s !! v) as [[d' j]|] eqn:E1; [|done].
  rewrite bool_decide_eq_false_2; [done|]. intros E2. rewrite E2 in E1. by eapply pdev_new_child.
Qed.

Lemma pdev_new_psoc_ok q rq : psocs s' !! q = Some rq -> psoc_ok s' q rq.
Proof using I Hp Hd Hi.
  intros Hq. cbn in Hq. apply lookup_alter_Some in Hq as [(<- & r0 & Hq & ->)|[Hne Hq]];
    destruct (inv_psoc _ _ _ I _ _ Hq) as [H1 H2 H3 H4 H5 H6 H7 H8 H9 H10 H11 H12 H13 H14 H15];
    constructor; cbn; try done;
    try (intros; rewrite ?pdev_new_vdev_slot, ?pdev_new_peer_slot, ?pdev_new_in_psoc; done);
    rewrite Hp in Hq || idtac.
  - by rewrite length_insert.
  - by apply is_bit_fill.
  - injection Hq as <-. intros j d'. rewrite pdev_new_keys, list_lookup_insert, lookup_insert.
    case_decide as E1; case_decide as E2; try done.
    + by destruct E1 as [<- _]; rewrite E2.
    + destruct E1 as [<- _]. split; [congruence|]. intros Hk. apply H6 in Hk. congruence.
    + split.
      * intros Hk. apply H6 in Hk. rewrite <- E2, pdev_new_fresh in Hk. done.
      * intros [= E3]. exfalso. apply E1. split; [done|]. by apply lookup_lt_Some in Hi.
  - injection Hq as <-. by rewrite H10, nslots_fill.
  - intros j d'. rewrite pdev_new_keys, lookup_insert. case_decide as E1; [|done].
    rewrite <- E1, H6, pdev_new_fresh. split; [done|congruence].
Qed.

Lemma inv_pdev_new : inv (mark A (OPdev d) true) (bump e (OPsoc p) 0 (-1)) s'.
Proof using All.
  pose proof (inv_psoc _ _ _ I p rp Hp) as P.
  apply (inv_added A e _ s s' (OPdev d) fresh_hdr); try done.
  - apply (fresh_none _ _ _ _ I). cbn. lia.
  - intros o. destruct o as [q|q|q|q]; cbn; try done.
    + rewrite lookup_alter. case_decide as E1; [|done]. rewrite E1. by destruct (psocs s !! q).
    + rewrite lookup_insert. case_decide as E1;
        [by rewrite bool_decide_eq_true_2 by congruence|by rewrite bool_decide_eq_false_2 by congruence].
  - cbn. lia.
  - cbn. lia.
  - intros id. rewrite bump_other by (by left). apply (fresh_refs _ _ _ _ _ I). cbn. lia.
  - apply fresh_hdr_ok.
  - cbn. by rewrite lookup_insert_eq.
  - intros o id Hne Ho. unfold owed. destruct o as [q|q|q|q]; try (rewrite bump_other by (by left); done).
    + destruct (decide (q = p)) as [->|Hq].
      * rewrite bump_at. cbn. rewrite lookup_alter_eq, Hp. cbn [set_pdev_slot psoc_pdev_count fmap option_fmap option_map].
        destruct (Nat.eqb_spec id 0); case_bool_decide; lia || done.
      * rewrite bump_other by (left; congruence). cbn. by rewrite lookup_alter_ne.
    + rewrite bump_other by (by left). cbn. by rewrite lookup_insert_ne by congruence.
  - intros o id Hne. destruct (decide (o = OPsoc p)) as [->|Hnp]; [cbn; by rewrite Hp|].
    rewrite bump_other by (by left). apply (inv_refs _ _ _ I).
  - constructor.
    + by apply (glob_ok_alter A e s s' (set_pdev_slot i (Some d)) p).
    + intros d' q j. rewrite pdev_new_keys, lookup_insert. intros Hk. apply alter_is_Some. cbn.
      case_decide; [injection Hk as <- _; by rewrite Hp|]. by apply (inv_pdev_parent _ _ _ I) in Hk.
    + intros v d' j Hv. destruct (inv_vdev_parent _ _ _ I v d' j Hv) as (q & k & Hk & HA).
      exists q, k. split; [|done]. rewrite pdev_new_keys, lookup_insert_ne; [done|].
      intros E1. rewrite <- E1 in Hv. by eapply pdev_new_child.
    + apply (inv_peer_parent _ _ _ I).
    + intros x rx d' j q k Hx Hv. rewrite pdev_new_keys, lookup_insert_ne.
      * by apply (inv_peer_pdev _ _ _ I x rx d' j).
      * intros E1. rewrite <- E1 in Hv. by eapply pdev_new_child.
    + apply pdev_new_psoc_ok.
    + intros d' rd. cbn. rewrite lookup_insert. case_decide as E1.
      * intros [= <-]. rewrite <- E1. constructor; cbn; try done.
        -- constructor.
        -- intros v. split; [intros H; by apply elem_of_nil in H|].
           intros [j Hv]. exfalso. by eapply pdev_new_child.
        -- symmetry. apply pdev_new_no_peers.
        -- symmetry. apply pdev_new_no_peers.
        -- split; [apply Nat.le_0_l|done].
        -- split; [apply Nat.le_0_l|]. apply (psoc_peer_max _ _ _ P).
        -- apply Nat.le_0_l.
      * intros Hk. destruct (inv_pdev _ _ _ I d' rd Hk) as [H1 H2 H3 H4 H5 H6 H7 H8]. by constructor.
    + intros v rv Hv. destruct (inv_vdev _ _ _ I v rv Hv) as [H1 H2 H3 H4 H5 H6 H7]. by constructor.
Qed.

End PdevNew.

Definition vdev_on v (r : wlan_objmgr_pdev) : wlan_objmgr_pdev :=
  set_vdevs_of (wlan_vdev_list r ++ [v]) (S (pdev_vdev_count r)) r.
Definition vdev_at i d (params : wlan_vdev_create_params) max : wlan_objmgr_vdev :=
  Vdev fresh_hdr i d (opmode params) (macaddr params) [] 0 max None None.
Definition vdev_new p i d v params max s : objmgr_world :=
  set_vdevs <[v := vdev_at i d params max]>
    (set_pdevs (alter (vdev_on v) d) (set_psocs (alter (set_vdev_slot i (Some v)) p) s)).

Section VdevNew.
Context (A : objref -> bool) (e : ledger) s (p i j d v : nat) (rp : wlan_objmgr_psoc) (rd : wlan_objmgr_pdev).
Context (params : wlan_vdev_create_params) (max : nat) (I : inv A e s).
Context (Hp : psocs s !! p = Some rp) (Hi : psoc_vdev_list rp !! i = Some None).
Context (Hd : pdevs s !! d = Some rd) (Hdk : pdev_keys s !! d = Some (p, j)).
Context (Hcnt : (pdev_vdev_count rd < pdev_max_vdev_count rd)%nat) (HA : A (OPsoc p) = true).
Context (Hv : vdevs s !! v = None) (Hlt : (v < next_addr s)%nat).
Abbreviation s' := (vdev_new p i d v params max s).

Lemma vdev_new_fresh : vdev_keys s !! v = None.
Proof using Hv. unfold vdev_keys. by rewrite lookup_fmap, Hv. Qed.
Lemma vdev_new_keys : vdev_keys s' = <[v := (d, i)]> (vdev_keys s).
Proof. etrans; [apply fmap_insert|done]. Qed.
Lemma vdev_new_pdev_keys : pdev_keys s' = pdev_keys s.
Proof. by apply fmap_alter_same. Qed.
Lemma vdev_new_child x m t : peer_keys s !! x = Some (v, m, t) -> False.
Proof using I Hv.
  intros Hx. destruct (inv_peer_parent _ _ _ I x v m t Hx) as [k Hk]. by rewrite vdev_new_fresh in Hk.
Qed.
Lemma vdev_new_vdev_slot v' :
  vdev_slot s' v' = if bool_decide (v' = v) then Some (p, i) else vdev_slot s v'.
Proof using Hdk.
  unfold vdev_slot. rewrite vdev_new_keys, vdev_new_pdev_keys, lookup_insert.
  case_decide as E1; [rewrite bool_decide_eq_true_2 by done; by rewrite Hdk|].
  by rewrite bool_decide_eq_false_2 by congruence.
Qed.
Lemma vdev_new_slot_none : vdev_slot s v = None.
Proof using Hv. unfold vdev_slot. by rewrite vdev_new_fresh. Qed.
Lemma vdev_new_peer_slot x : peer_slot s' x = peer_slot s x.
Proof using I Hdk Hv.
  unfold peer_slot. change (peer_keys s') with (peer_keys s).
  destruct (peer_keys s !! x) as [[[v' m] t]|] eqn:Hx; [|done].
  rewrite vdev_new_vdev_slot, bool_decide_eq_false_2; [done|].
  intros E1. rewrite E1 in Hx. by eapply vdev_new_child.
Qed.
Lemma vdev_new_in_psoc q b : peers_with s' (in_psoc s' q) b = peers_with s (in_psoc s q) b.
Proof using I Hdk Hv.
  apply peers_with_ext; [done|]. intros x v' m t Hx. unfold in_psoc.
  rewrite vdev_new_vdev_slot, bool_decide_eq_false_2; [done|].
  intros E1. rewrite E1 in Hx. by eapply vdev_new_child.
Qed.
Lemma vdev_new_in_pdev q b : peers_with s' (in_pdev s' q) b = peers_with s (in_pdev s q) b.
Proof using I Hv.
  apply peers_with_ext; [done|]. intros x v' m t Hx. unfold in_pdev.
  rewrite vdev_new_keys, lookup_insert_ne; [done|].
  intros E1. rewrite <- E1 in Hx. by eapply vdev_new_child.
Qed.

Lemma vdev_new_psoc_ok q rq : psocs s' !! q = Some rq -> psoc_ok s' q rq.
Proof using I Hp Hi Hdk Hv.
  intros Hq. cbn in Hq. apply lookup_alter_Some in Hq as [(<- & r0 & Hq & ->)|[Hne Hq]];
    destruct (inv_psoc _ _ _ I _ _ Hq) as [H1 H2 H3 H4 H5 H6 H7 H8 H9 H10 H11 H12 H13 H14 H15];
    constructor; cbn; try done;
    try (intros; rewrite ?vdev_new_pdev_keys, ?vdev_new_peer_slot, ?vdev_new_in_psoc; done);
    rewrite Hp in Hq || idtac.
  - by rewrite length_insert.
  - by apply is_bit_fill.
  - injection Hq as <-. intros k v'. rewrite vdev_new_vdev_slot, list_lookup_insert.
    case_decide as E1; case_bool_decide as E2.
    + destruct E1 as [<- _]. by rewrite E2.
    + destruct E1 as [<- _]. split; [congruence|]. intros Hk. apply H7 in Hk. congruence.
    + split.
      * intros Hk. apply H7 in Hk. rewrite E2, vdev_new_slot_none in Hk. done.
      * intros [= E3]. exfalso. apply E1. split; [done|]. by apply lookup_lt_Some in Hi.
    + done.
  - injection Hq as <-. by rewrite H11, nslots_fill.
  - intros k v'. rewrite vdev_new_vdev_slot. case_bool_decide as E1; [|done].
    rewrite E1, H7, vdev_new_slot_none. split; [done|congruence].
Qed.

Lemma vdev_new_pdev_ok q rq : pdevs s' !! q = Some rq -> pdev_ok s' q rq.
Proof using All.
  intros Hq. cbn in Hq. apply lookup_alter_Some in Hq as [(<- & r0 & Hq & ->)|[Hne Hq]];
    destruct (inv_pdev _ _ _ I _ _ Hq) as [H1 H2 H3 H4 H5 H6 H7 H8];
    constructor; cbn; try done; try (rewrite vdev_new_in_pdev; done).
  - apply NoDup_app. split_and!; [done| |apply NoDup_singleton]. intros y Hy ->%list_elem_of_singleton.
    apply H3 in Hy as [k Hk]. by rewrite vdev_new_fresh in Hk.
  - rewrite length_app, H2. cbn. lia.
  - intros v'. rewrite elem_of_app, list_elem_of_singleton, H3, vdev_new_keys.
    setoid_rewrite lookup_insert. case_decide as E1.
    + split; [intros _; by eexists|]. intros _. by right.
    + split; [intros [?|?]; [done|congruence]|by left].
  - rewrite Hd in Hq. injection Hq as <-. destruct H6. split; [lia|done].
  - intros v'. rewrite vdev_new_keys. setoid_rewrite lookup_insert. case_decide as E1; [|done].
    rewrite H3, <- E1, vdev_new_fresh. split; [by intros [? ?]|]. intros [? [= ? ?]]. congruence.
Qed.

Lemma inv_vdev_new : inv (mark A (OVdev v) true) (bump e (OPdev d) 0 (-1)) s'.
Proof using All.
  assert (get_hdr (OVdev v) s = None) as Hnone by (cbn; by rewrite Hv).
  assert (forall id, e (OVdev v) id = 0) as Hev.
  { intros id. destruct (Z.eq_dec (e (OVdev v) id) 0) as [|Hne]; [done|].
    apply (inv_refs _ _ _ I) in Hne. rewrite Hnone in Hne. by destruct Hne. }
  apply (inv_added A e _ s s' (OVdev v) fresh_hdr); try done.
  - intros o. destruct o as [q|q|q|q]; cbn; try done.
    + rewrite lookup_alter. case_decide as E1; [|done]. rewrite E1. by destruct (psocs s !! q).
    + rewrite lookup_alter. case_decide as E1; [|done]. rewrite E1. by destruct (pdevs s !! q).
    + rewrite lookup_insert. case_decide as E1;
        [by rewrite bool_decide_eq_true_2 by congruence|by rewrite bool_decide_eq_false_2 by congruence].
  - intros id. rewrite bump_other by (by left). apply Hev.
  - apply fresh_hdr_ok.
  - cbn. by rewrite lookup_insert_eq.
  - intros o id Hne Ho. unfold owed. destruct o as [q|q|q|q]; try (rewrite bump_other by (by left)).
    + cbn. rewrite lookup_alter. case_decide as E1; [|done]. rewrite E1. by destruct (psocs s !! q).
    + destruct (decide (q = d)) as [->|Hq].
      * rewrite bump_at. cbn. rewrite lookup_alter_eq, Hd. cbn [vdev_on set_vdevs_of pdev_vdev_count fmap option_fmap option_map].
        destruct (Nat.eqb_spec id 0); case_bool_decide; lia || done.
      * rewrite bump_other by (left; congruence). cbn. by rewrite lookup_alter_ne.
    + cbn. by rewrite lookup_insert_ne by congruence.
    + unfold kids. change (peer_keys s') with (peer_keys s).
      destruct (peer_keys s !! q) as [[[v' m] t]|] eqn:Hx; [|done]. cbn.
      rewrite lookup_insert_ne; [done|]. intros E1. rewrite <- E1 in Hx. by eapply vdev_new_child.
  - intros o id Hne. destruct (decide (o = OPdev d)) as [->|Hnp]; [cbn; by rewrite Hd|].
    rewrite bump_other by (by left). apply (inv_refs _ _ _ I).
  - constructor.
    + by apply (glob_ok_alter A e s s' (set_vdev_slot i (Some v)) p).
    + intros d' q k. rewrite vdev_new_pdev_keys. intros Hk. apply alter_is_Some.
      by apply (inv_pdev_parent _ _ _ I) in Hk.
    + intros v' d' k. rewrite vdev_new_keys, vdev_new_pdev_keys, lookup_insert.
      case_decide; [|apply (inv_vdev_parent _ _ _ I)]. intros [= <- <-]. by exists p, j.
    + intros x v' m t Hx. rewrite vdev_new_keys, lookup_insert_ne.
      * by apply (inv_peer_parent _ _ _ I x v' m t).
      * intros E1. rewrite <- E1 in Hx. by eapply vdev_new_child.
    + intros x rx d' k q l Hx. rewrite vdev_new_keys, vdev_new_pdev_keys, lookup_insert.
      case_decide as E1; [|by apply (inv_peer_pdev _ _ _ I x rx d' k)].
      exfalso. apply (vdev_new_child x (peer_macaddr rx) (peer_type rx)).
      apply peer_keys_Some. eauto.
    + apply vdev_new_psoc_ok.
    + apply vdev_new_pdev_ok.
    + intros v' rv. cbn. rewrite lookup_insert. case_decide as E1.
      * intros [= <-]. rewrite <- E1. constructor; cbn; try done.
        -- constructor.
        -- intros x. split; [intros H; by apply elem_of_nil in H|].
           intros (m & t & Hx). exfalso. by eapply vdev_new_child.
        -- intros x H. by apply elem_of_nil in H.
      * intros Hk. destruct (inv_vdev _ _ _ I v' rv Hk) as [H1 H2 H3 H4 H5 H6 H7]. by constructor.
Qed.

End VdevNew.

Definition peer_on x mac t (r : wlan_objmgr_vdev) : wlan_objmgr_vdev :=
  Vdev (vdev_hdr r) (vdev_id r) (wlan_pdev r) (vdev_opmode r) (vdev_macaddr r)
    (wlan_peer_list r ++ [x]) (S (vdev_peer_count r)) (vdev_max_peer_count r)
    (if WLAN_ADDR_EQ mac (vdev_macaddr r) then Some x else self_peer r)
    (if sets_bsspeer r t mac then Some x else bss_peer r).
Definition peer_in k x t (r : wlan_objmgr_psoc) : wlan_objmgr_psoc :=
  set_peer_hash k (default [] (peer_hash r !! k) ++ [x]) t S r.
Definition peer_at v mac t j : wlan_objmgr_peer := Peer fresh_hdr v mac t j.
Definition peer_new p d v j x mac t s : objmgr_world :=
  set_peers <[x := peer_at v mac t j]> (set_vdevs (alter (peer_on x mac t) v)
    (set_pdevs (alter (count_peer t S) d)
       (set_psocs (alter (peer_in (WLAN_PEER_HASH mac) x t) p) s))).

Section PeerNew.
Context (A : objref -> bool) (e : ledger) s (p j v x : nat) (mac : list Z) (t : wlan_peer_type).
Context (rp : wlan_objmgr_psoc) (rd : wlan_objmgr_pdev) (rv : wlan_objmgr_vdev) (I : inv A e s).
Abbreviation d := (wlan_pdev rv).
Abbreviation k := (WLAN_PEER_HASH mac).
Context (Hp : psocs s !! p = Some rp) (Hd : pdevs s !! d = Some rd) (Hv : vdevs s !! v = Some rv).
Context (Hdk : pdev_keys s !! d = Some (p, j)).
Context (Hx : peers s !! x = None) (Hlt : (x < next_addr s)%nat).
Context (Hpc : if temporary t then (psoc_temp_peer_count rp < WLAN_MAX_PSOC_TEMP_PEERS)%nat
               else (psoc_peer_count rp < psoc_max_peer_count rp)%nat).
Context (Hdc : if temporary t then (pdev_temp_peer_count rd < WLAN_MAX_PDEV_TEMP_PEERS)%nat
               else (pdev_peer_count rd < pdev_max_peer_count rd)%nat).
Context (Hsets : sets_bsspeer rv t mac = true -> bss_peer rv = None /\ holds_bss t = false).
Context (Hholds : holds_bss t = true -> is_Some (bss_peer rv)).
Context (Htemp : temporary t = true -> forall b, bss_peer rv = Some b -> A (OPeer b) = true).
Abbreviation s' := (peer_new p d v j x mac t s).

(** The BSS peer gains a holder. *)
Definition bss_held (e : ledger) : ledger :=
  match bss_peer rv with
  | Some b => if holds_bss t then bump e (OPeer b) 0 (-1) else e
  | None => e
  end.

Lemma peer_new_fresh : peer_keys s !! x = None.
Proof using Hx. unfold peer_keys. by rewrite lookup_fmap, Hx. Qed.
Lemma peer_new_vdev_key : vdev_keys s !! v = Some (d, vdev_id rv).
Proof using Hv. apply vdev_keys_Some. eauto. Qed.
Lemma peer_new_keys : peer_keys s' = <[x := (v, mac, t)]> (peer_keys s).
Proof. etrans; [apply fmap_insert|done]. Qed.
Lemma peer_new_pdev_keys : pdev_keys s' = pdev_keys s.
Proof. by apply fmap_alter_same. Qed.
Lemma peer_new_vdev_keys : vdev_keys s' = vdev_keys s.
Proof. by apply fmap_alter_same. Qed.
Lemma peer_new_vdev_slot v' : vdev_slot s' v' = vdev_slot s v'.
Proof. unfold vdev_slot. by rewrite peer_new_vdev_keys, peer_new_pdev_keys. Qed.
Lemma peer_new_at : vdev_slot s v = Some (p, vdev_id rv).
Proof using Hv Hdk. unfold vdev_slot. by rewrite peer_new_vdev_key, Hdk. Qed.
Lemma peer_new_peer_slot y : peer_slot s' y = if bool_decide (y = x) then Some (p, k) else peer_slot s y.
Proof using Hv Hdk.
  unfold peer_slot. rewrite peer_new_keys, lookup_insert. case_decide as E1.
  - rewrite bool_decide_eq_true_2 by done. by rewrite peer_new_vdev_slot, peer_new_at.
  - rewrite bool_decide_eq_false_2 by congruence.
    destruct (peer_keys s !! y) as [[[v' m] t']|]; [|done]. by rewrite peer_new_vdev_slot.
Qed.
Lemma peer_new_slot_none : peer_slot s x = None.
Proof using Hx. unfold peer_slot. by rewrite peer_new_fresh. Qed.
Lemma peer_new_holder y : holder s' y = if bool_decide (y = x) then holds_bss t else holder s y.
Proof.
  unfold holder. rewrite peer_new_keys, lookup_insert. case_decide as E1.
  - by rewrite bool_decide_eq_true_2.
  - by rewrite bool_decide_eq_false_2 by congruence.
Qed.
Lemma peer_new_temp y : temp s' y = if bool_decide (y = x) then temporary t else temp s y.
Proof.
  unfold temp. rewrite peer_new_keys, lookup_insert. case_decide as E1.
  - by rewrite bool_decide_eq_true_2.
  - by rewrite bool_decide_eq_false_2 by congruence.
Qed.
Lemma peer_new_count Q Q' b :
  (forall v', Q' v' = Q v') ->
  peers_with s' Q' b = ((if Q v && Bool.eqb (temporary t) b then 1 else 0) + peers_with s Q b)%nat.
Proof using Hx.
  intros HQ. rewrite <- (peers_with_insert s s' Q b x v mac t peer_new_keys peer_new_fresh).
  by apply peers_with_ext.
Qed.
Lemma peer_new_in_psoc q b :
  peers_with s' (in_psoc s' q) b
  = ((if bool_decide (p = q) && Bool.eqb (temporary t) b then 1 else 0)
     + peers_with s (in_psoc s q) b)%nat.
Proof using Hv Hdk Hx.
  rewrite (peer_new_count (in_psoc s q)).
  - unfold in_psoc at 1. by rewrite peer_new_at.
  - intros v'. unfold in_psoc. by rewrite peer_new_vdev_slot.
Qed.
Lemma peer_new_in_pdev q b :
  peers_with s' (in_pdev s' q) b
  = ((if bool_decide (d = q) && Bool.eqb (temporary t) b then 1 else 0)
     + peers_with s (in_pdev s q) b)%nat.
Proof using Hv Hx.
  rewrite (peer_new_count (in_pdev s q)).
  - unfold in_pdev at 1. by rewrite peer_new_vdev_key.
  - intros v'. unfold in_pdev. by rewrite peer_new_vdev_keys.
Qed.

Lemma peer_new_psoc_ok q rq : psocs s' !! q = Some rq -> psoc_ok s' q rq.
Proof using All.
  intros Hq. cbn in Hq. apply lookup_alter_Some in Hq as [(<- & r0 & Hq & ->)|[Hne Hq]].
  - rewrite Hp in Hq. injection Hq as <-.
    destruct (inv_psoc _ _ _ I _ _ Hp) as [H1 H2 H3 H4 H5 H6 H7 H8 H9 H10 H11 H12 H13 H14 H15].
    assert (k < length (peer_hash rp))%nat as Hkl.
    { rewrite H3. unfold WLAN_PEER_HASH, WLAN_PEER_HASHSIZE.
      pose proof (Z.mod_pos_bound (nth 5 mac 0) (Z.of_nat 64)). lia. }
    destruct (lookup_lt_is_Some_2 _ _ Hkl) as [l Hlk].
    assert (x ∉ l) as Hxl.
    { intros Hin. assert (peer_slot s x = Some (p, k)) as Hs by (apply H8; eauto).
      by rewrite peer_new_slot_none in Hs. }
    constructor; cbn; rewrite ?Hlk; try done; cbn;
      rewrite ?peer_new_in_psoc, ?(bool_decide_eq_true_2 (p = p)) by done;
      try (intros; rewrite ?peer_new_pdev_keys, ?peer_new_vdev_slot; done).
    + by rewrite length_insert.
    + intros q y. rewrite peer_new_peer_slot. setoid_rewrite list_lookup_insert.
      case_bool_decide as E1.
      * rewrite E1. split.
        -- intros (l' & Hl' & Hy). case_decide as E2; [by destruct E2 as [<- _]|].
           assert (peer_slot s x = Some (p, q)) as Hs by (apply H8; eauto).
           by rewrite peer_new_slot_none in Hs.
        -- intros [= <-]. rewrite decide_True by done. eexists. split; [done|].
           apply elem_of_app. right. by apply list_elem_of_singleton.
      * rewrite <- H8. case_decide as E2; [|done]. destruct E2 as [<- _]. rewrite Hlk.
        split; intros (l' & [= <-] & Hy).
        -- apply elem_of_app in Hy as [Hy|Hy%list_elem_of_singleton]; [eauto|done].
        -- eexists. split; [done|]. apply elem_of_app. by left.
    + intros q l'. rewrite list_lookup_insert. case_decide; [|apply H9].
      intros [= <-]. apply NoDup_app. split_and!; [by apply (H9 k)| |apply NoDup_singleton].
      by intros y Hy ->%list_elem_of_singleton.
    + rewrite H12. by destruct (temporary t).
    + rewrite H13. by destruct (temporary t).
    + destruct H14. destruct (temporary t); split; lia || done.
    + destruct (temporary t); lia.
  - destruct (inv_psoc _ _ _ I _ _ Hq) as [H1 H2 H3 H4 H5 H6 H7 H8 H9 H10 H11 H12 H13 H14 H15].
    constructor; rewrite ?peer_new_in_psoc, ?(bool_decide_eq_false_2 (p = q)) by done; try done;
      try (intros; rewrite ?peer_new_pdev_keys, ?peer_new_vdev_slot; done).
    intros q' y. rewrite peer_new_peer_slot. case_bool_decide as E1; [|done].
    rewrite E1, H8, peer_new_slot_none. split; [done|congruence].
Qed.

Lemma peer_new_pdev_ok q rq : pdevs s' !! q = Some rq -> pdev_ok s' q rq.
Proof using All.
  intros Hq. cbn in Hq. apply lookup_alter_Some in Hq as [(<- & r0 & Hq & ->)|[Hne Hq]];
    destruct (inv_pdev _ _ _ I _ _ Hq) as [H1 H2 H3 H4 H5 H6 H7 H8];
    constructor; cbn; rewrite ?peer_new_in_pdev, ?peer_new_vdev_keys,
      ?(bool_decide_eq_true_2 (d = d)), ?(bool_decide_eq_false_2 (d = q)) by done; try done.
  - rewrite H4. by destruct (temporary t).
  - rewrite H5. by destruct (temporary t).
  - rewrite Hd in Hq. injection Hq as <-. destruct H7. destruct (temporary t); split; lia || done.
  - rewrite Hd in Hq. injection Hq as <-. destruct (temporary t); lia.
Qed.

Lemma peer_new_vdev_ok q rq :
  vdevs s' !! q = Some rq -> vdev_ok (mark A (OPeer x) true) s' q rq.
Proof using All.
  assert (forall b, A (OPeer b) = true -> mark A (OPeer x) true (OPeer b) = true) as Hmark.
  { intros b Hb. unfold mark. by case_bool_decide. }
  intros Hq. cbn in Hq. apply lookup_alter_Some in Hq as [(<- & r0 & Hq & ->)|[Hne Hq]].
  - rewrite Hv in Hq. injection Hq as <-.
    destruct (inv_vdev _ _ _ I _ _ Hv) as [H1 H2 H3 H4 H5 H6 H7].
    assert (forall y, y ∈ wlan_peer_list rv -> y <> x) as Hnx.
    { intros y Hy. apply H3 in Hy as (m & t' & Hy). intros E1. by rewrite E1, peer_new_fresh in Hy. }
    constructor; cbn.
    + apply NoDup_app. split_and!; [done| |apply NoDup_singleton].
      intros y Hy ->%list_elem_of_singleton. by apply Hnx in Hy.
    + rewrite length_app, H2. cbn. lia.
    + intros y. rewrite elem_of_app, list_elem_of_singleton, H3, peer_new_keys.
      setoid_rewrite lookup_insert. case_decide as E1.
      * split; [intros _; by eauto|]. intros _. by right.
      * split; [intros [?|?]; [done|congruence]|by left].
    + intros y. rewrite elem_of_app, list_elem_of_singleton. destruct (WLAN_ADDR_EQ _ _).
      * intros [= ->]. by right.
      * intros Hy. left. by apply H4.
    + intros b. rewrite elem_of_app, list_elem_of_singleton, peer_new_holder.
      destruct (sets_bsspeer rv t mac) eqn:Es.
      * intros [= ->]. rewrite bool_decide_eq_true_2 by done. split; [by right|]. by apply Hsets.
      * intros Hb. apply H5 in Hb as [Hb Hh]. rewrite bool_decide_eq_false_2 by by apply Hnx.
        split; [by left|done].
    + intros y Hy. rewrite peer_new_holder. intros Hh.
      destruct (sets_bsspeer rv t mac) eqn:Es; [by eexists|].
      apply elem_of_app in Hy as [Hy|Hy%list_elem_of_singleton].
      * rewrite bool_decide_eq_false_2 in Hh by by apply Hnx. by apply (H6 y).
      * rewrite bool_decide_eq_true_2 in Hh by done. by apply Hholds.
    + intros y b Hy Ht. rewrite peer_new_temp in Ht.
      destruct (sets_bsspeer rv t mac) eqn:Es.
      * intros [= ->]. apply mark_same.
      * intros Hb. apply Hmark. apply elem_of_app in Hy as [Hy|Hy%list_elem_of_singleton].
        -- rewrite bool_decide_eq_false_2 in Ht by by apply Hnx. by apply (H7 y).
        -- rewrite bool_decide_eq_true_2 in Ht by done. by apply Htemp.
  - destruct (inv_vdev _ _ _ I _ _ Hq) as [H1 H2 H3 H4 H5 H6 H7].
    assert (forall y, y ∈ wlan_peer_list rq -> y <> x) as Hnx.
    { intros y Hy. apply H3 in Hy as (m & t' & Hy). intros E1. by rewrite E1, peer_new_fresh in Hy. }
    constructor; try done.
    + intros y. rewrite H3, peer_new_keys. setoid_rewrite lookup_insert.
      case_decide as E1; [|done]. rewrite <- E1. rewrite peer_new_fresh.
      split; [by intros (? & ? & ?)|]. intros (? & ? & [= ? ? ?]). congruence.
    + intros b Hb. apply H5 in Hb as [Hb Hh]. rewrite peer_new_holder.
      by rewrite bool_decide_eq_false_2 by by apply Hnx.
    + intros y Hy. rewrite peer_new_holder, bool_decide_eq_false_2 by by apply Hnx. by apply H6.
    + intros y b Hy. rewrite peer_new_temp, bool_decide_eq_false_2 by by apply Hnx.
      intros Ht Hb. apply Hmark. by apply (H7 y).
Qed.

(** The holders of a BSS peer, with this one. *)
Lemma peer_new_kids y :
  y <> x -> kids s' (OPeer y)
  = kids s (OPeer y) + if holds_bss t && bool_decide (bss_peer rv = Some y) then 1 else 0.
Proof using All.
  intros Hy. unfold kids. rewrite peer_new_keys, lookup_insert_ne by congruence.
  destruct (inv_vdev _ _ _ I _ _ Hv) as [H1 H2 H3 H4 H5 H6 H7].
  destruct (peer_keys s !! y) as [[[v' m] t']|] eqn:Hk.
  2:{ rewrite bool_decide_eq_false_2; [by rewrite andb_false_r|].
      intros Hb. apply H5 in Hb as [Hb _]. apply H3 in Hb as (m & t' & Hb). congruence. }
  assert (forall z, z ∈ wlan_peer_list rv -> holder s' z = holder s z) as Hold.
  { intros z Hz. rewrite peer_new_holder, bool_decide_eq_false_2; [done|].
    intros ->. apply H3 in Hz as (m' & t'' & Hz). by rewrite peer_new_fresh in Hz. }
  cbn. rewrite lookup_alter. case_decide as E1.
  - rewrite <- E1, Hv. cbn. rewrite List.filter_app, (filter_ext_elem (holder s') (holder s)) by done.
    cbn. rewrite peer_new_holder, (bool_decide_eq_true_2 (x = x)) by done.
    destruct (sets_bsspeer rv t mac) eqn:Es.
    + destruct (Hsets eq_refl) as [Hb Hh]. rewrite Hb, Hh.
      by rewrite !bool_decide_eq_false_2 by congruence.
    + case_bool_decide; [|by rewrite andb_false_r]. rewrite andb_true_r.
      destruct (holds_bss t); rewrite length_app; cbn; lia.
  - destruct (vdevs s !! v') as [rv'|] eqn:Hv'.
    + destruct (inv_vdev _ _ _ I _ _ Hv') as [_ _ H3' _ H5' _ _].
      rewrite (bool_decide_eq_false_2 (bss_peer rv = Some y)).
      2:{ intros Hb. apply H5 in Hb as [Hb _]. apply H3 in Hb as (m' & t'' & Hb). congruence. }
      rewrite andb_false_r, Z.add_0_r. case_bool_decide; [|done].
      f_equal. f_equal. apply filter_ext_elem. intros z Hz'. rewrite peer_new_holder.
      rewrite bool_decide_eq_false_2; [done|]. intros E2. apply H3' in Hz' as (m' & t'' & Hz').
      by rewrite E2, peer_new_fresh in Hz'.
    + destruct (inv_peer_parent _ _ _ I y v' m t' Hk) as [[d' i'] Hv''].
      apply vdev_keys_Some in Hv'' as (? & ? & _). congruence.
Qed.

Lemma peer_new_kids_x : kids s' (OPeer x) = 0.
Proof using All.
  unfold kids. rewrite peer_new_keys, lookup_insert_eq. cbn. rewrite lookup_alter_eq, Hv. cbn.
  destruct (inv_vdev _ _ _ I _ _ Hv) as [H1 H2 H3 H4 H5 H6 H7].
  case_bool_decide as E1; [|done]. destruct (sets_bsspeer rv t mac) eqn:Es.
  - destruct (Hsets eq_refl) as [Hb Hh]. rewrite (filter_ext_elem _ (fun _ => false)).
    { by induction (wlan_peer_list rv ++ [x]). }
    intros y Hy. rewrite peer_new_holder. apply elem_of_app in Hy as [Hy|Hy%list_elem_of_singleton].
    + case_bool_decide; [done|]. destruct (holder s y) eqn:Ey; [|done].
      destruct (H6 y Hy Ey). congruence.
    + by rewrite bool_decide_eq_true_2.
  - destruct (H5 x E1) as [Hin _]. apply H3 in Hin as (m & t' & Hin). by rewrite peer_new_fresh in Hin.
Qed.

Lemma inv_peer_new : inv (mark A (OPeer x) true) (bump (bss_held e) (OVdev v) 0 (-1)) s'.
Proof using All.
  assert (get_hdr (OPeer x) s = None) as Hnone by (cbn; by rewrite Hx).
  assert (forall id, e (OPeer x) id = 0) as Hex.
  { intros id. destruct (Z.eq_dec (e (OPeer x) id) 0) as [|Hne]; [done|].
    apply (inv_refs _ _ _ I) in Hne. rewrite Hnone in Hne. by destruct Hne. }
  destruct (inv_vdev _ _ _ I _ _ Hv) as [H1 H2 H3 H4 H5 H6 H7].
  assert (forall b, bss_peer rv = Some b -> b <> x /\ is_Some (get_hdr (OPeer b) s)) as Hbex.
  { intros b Hb. apply H5 in Hb as [Hb _]. apply H3 in Hb as (m & t' & Hb).
    split; [intros ->; by rewrite peer_new_fresh in Hb|].
    apply peer_keys_Some in Hb as (rb & Hrb & _). cbn. by rewrite Hrb. }
  assert (forall o id, (forall b, bss_peer rv = Some b -> o <> OPeer b) -> bss_held e o id = e o id) as Hbb.
  { intros o id Hb. unfold bss_held. destruct (bss_peer rv) as [b|]; [|done].
    destruct (holds_bss t); [|done]. apply bump_other. left. by apply Hb. }
  apply (inv_added A e _ s s' (OPeer x) fresh_hdr); try done.
  - intros o. destruct o as [q|q|q|q]; cbn.
    + rewrite lookup_alter. case_decide as E1; [|done]. rewrite E1. by destruct (psocs s !! q).
    + rewrite lookup_alter. case_decide as E1; [|done]. rewrite E1. by destruct (pdevs s !! q).
    + rewrite lookup_alter. case_decide as E1; [|done]. rewrite E1. by destruct (vdevs s !! q).
    + rewrite lookup_insert. case_decide as E1;
        [by rewrite bool_decide_eq_true_2 by congruence|by rewrite bool_decide_eq_false_2 by congruence].
  - intros id. rewrite bump_other by (by left). rewrite Hbb; [apply Hex|].
    intros b Hb. apply Hbex in Hb as [? _]. congruence.
  - apply fresh_hdr_ok.
  - apply peer_new_kids_x.
  - intros o id Hne Ho. unfold owed. destruct o as [q|q|q|q].
    + rewrite bump_other, Hbb by (done || (by left)). cbn. rewrite lookup_alter.
      case_decide as E1; [|done]. rewrite E1. by destruct (psocs s !! q).
    + rewrite bump_other, Hbb by (done || (by left)). cbn. rewrite lookup_alter.
      case_decide as E1; [|done]. rewrite E1. by destruct (pdevs s !! q).
    + destruct (decide (q = v)) as [->|Hq].
      * rewrite bump_at, Hbb by done. cbn. rewrite lookup_alter_eq, Hv.
        cbn [peer_on vdev_peer_count fmap option_fmap option_map].
        destruct (Nat.eqb_spec id 0); case_bool_decide; lia || done.
      * rewrite bump_other, Hbb by (done || (left; congruence)). cbn. by rewrite lookup_alter_ne.
    + rewrite bump_other by (by left). rewrite (peer_new_kids q) by congruence.
      unfold bss_held. destruct (bss_peer rv) as [b|]; [|rewrite andb_false_r; destruct (_ =? _)%nat; lia].
      destruct (holds_bss t); cbn [andb]; [|destruct (_ =? _)%nat; lia].
      destruct (decide (b = q)) as [->|Hq].
      * rewrite bump_at, (bool_decide_eq_true_2 (Some q = Some q)) by done.
        destruct (Nat.eqb_spec id 0); case_bool_decide; lia || done.
      * rewrite bool_decide_eq_false_2, bump_other by (congruence || (left; congruence)).
        destruct (_ =? _)%nat; lia.
  - intros o id Hne. destruct (decide (o = OVdev v)) as [->|Hnp]; [cbn; by rewrite Hv|].
    rewrite bump_other by (by left). unfold bss_held.
    destruct (bss_peer rv) as [b|]; [|apply (inv_refs _ _ _ I)].
    destruct (holds_bss t); [|apply (inv_refs _ _ _ I)].
    destruct (decide (o = OPeer b)) as [->|Hnb]; [|rewrite bump_other by (by left); apply (inv_refs _ _ _ I)].
    intros _. by apply Hbex.
  - constructor.
    + by apply (glob_ok_alter A e s s' (peer_in k x t) p).
    + intros d' q i'. rewrite peer_new_pdev_keys. intros Hk. apply alter_is_Some.
      by apply (inv_pdev_parent _ _ _ I) in Hk.
    + intros v' d' i'. rewrite peer_new_vdev_keys, peer_new_pdev_keys. apply (inv_vdev_parent _ _ _ I).
    + intros y v' m t'. rewrite peer_new_keys, peer_new_vdev_keys, lookup_insert.
      case_decide; [|apply (inv_peer_parent _ _ _ I)]. intros [= <- _ _].
      rewrite peer_new_vdev_key. by eexists.
    + intros y ry d' i' q l. cbn. rewrite lookup_insert, peer_new_vdev_keys, peer_new_pdev_keys.
      case_decide; [|apply (inv_peer_pdev _ _ _ I)]. intros [= <-]. cbn.
      rewrite peer_new_vdev_key. intros [= <- _]. rewrite Hdk. by intros [= _ <-].
    + apply peer_new_psoc_ok.
    + apply peer_new_pdev_ok.
    + apply peer_new_vdev_ok.
Qed.

End PeerNew.

End Link.
