(* ===== verification/ObjRun.v ===== *)
(** What the operations of the object manager do: each runs to its end, without reading
    memory that was freed, and keeps the invariant; the release of a last reference with
    all it brings about first. *)
From S2P Require Import Prelude QdfTypes Obj ObjInv ObjLink.

Abbreviation twp := (wpx False) (only parsing).

Section Steps.
Implicit Types (s : objmgr_world) (o : objref) (h : wlan_objmgr_hdr) (p d v x id : nat).

(** ** The header of one object *)

(** The world where [o] has the header [h], and the events are [t]. *)
Definition hset o h t s : objmgr_world := set_trace t (upd_hdr o (fun _ => h) s).

Lemma upd_upd o f g s : upd_hdr o f (upd_hdr o g s) = upd_hdr o (fun h => f (g h)) s.
Proof.
  destruct o; cbn; unfold set_psocs, set_pdevs, set_vdevs, set_peers; cbn; by rewrite alter_alter_eq.
Qed.
Lemma upd_ext o f g s h : get_hdr o s = Some h -> f h = g h -> upd_hdr o f s = upd_hdr o g s.
Proof.
  intros Hh Hfg. destruct o as [n|n|n|n]; cbn in *; unfold set_psocs, set_pdevs, set_vdevs, set_peers;
    f_equal; apply alter_ext; intros r Hr; rewrite Hr in Hh; injection Hh as <-.
  - unfold with_psoc_hdr. by rewrite Hfg.
  - unfold with_pdev_hdr. by rewrite Hfg.
  - unfold with_vdev_hdr. by rewrite Hfg.
  - unfold with_peer_hdr. by rewrite Hfg.
Qed.
Lemma upd_id o s h : get_hdr o s = Some h -> upd_hdr o (fun _ => h) s = s.
Proof.
  intros Hh. destruct s, o as [n|n|n|n]; cbn in *; unfold set_psocs, set_pdevs, set_vdevs, set_peers;
    f_equal; apply alter_id; cbn; intros r Hr; rewrite Hr in Hh; injection Hh as <-; by destruct r.
Qed.
Lemma upd_trace o f t s : upd_hdr o f (set_trace t s) = set_trace t (upd_hdr o f s).
Proof. by destruct o. Qed.
Lemma get_hdr_trace o t s : get_hdr o (set_trace t s) = get_hdr o s.
Proof. by destruct o. Qed.
Lemma set_trace_id s : set_trace (trace s) s = s.
Proof. by destruct s. Qed.

Lemma hset_id o h s : get_hdr o s = Some h -> hset o h (trace s) s = s.
Proof. intros Hh. unfold hset. by rewrite (upd_id o s h), set_trace_id. Qed.
Lemma hset_hset o h h' t t' s : hset o h' t' (hset o h t s) = hset o h' t' s.
Proof. unfold hset. rewrite upd_trace, upd_upd. done. Qed.
Lemma get_hdr_hset o h t s : is_Some (get_hdr o s) -> get_hdr o (hset o h t s) = Some h.
Proof.
  intros [h0 Hh]. unfold hset. rewrite get_hdr_trace, get_hdr_upd, bool_decide_eq_true_2 by done.
  by rewrite Hh.
Qed.
Lemma get_hdr_hset_ne o o' h t s : o' <> o -> get_hdr o' (hset o h t s) = get_hdr o' s.
Proof.
  intros Hne. unfold hset. by rewrite get_hdr_trace, get_hdr_upd, bool_decide_eq_false_2.
Qed.
Lemma upd_hset o f h t s :
  is_Some (get_hdr o s) -> upd_hdr o f (hset o h t s) = hset o (f h) t s.
Proof.
  intros Hs. unfold hset. rewrite upd_trace, upd_upd. done.
Qed.
Lemma emit_hset ev o h t s : emit ev (hset o h t s) = hset o h (t ++ [ev]) s.
Proof. done. Qed.
Lemma glob_hset o h t s : glob (hset o h t s) = glob s.
Proof. apply upd_glob. Qed.
Lemma trace_hset o h t s : trace (hset o h t s) = t.
Proof. done. Qed.

(** ** Steps *)

Context {E : objmgr_env}.

Lemma wpx_modify_bind {B} f (k : unit -> M objmgr_world B) Q s :
  twp (k tt) Q (f s) -> twp (a ← modify f; k a) Q s.
Proof. done. Qed.

Lemma wpx_gets_bind {A B} (f : objmgr_world -> A) (k : A -> M objmgr_world B) Q s :
  twp (k (f s)) Q s -> twp (a ← gets f; k a) Q s.
Proof. done. Qed.

Lemma read_hdr_ret o h s : get_hdr o s = Some h -> read_hdr o s = Ret h s.
Proof. unfold read_hdr, mbind, M_bind, gets. by intros ->. Qed.
Lemma write_hdr_ret o f h s : get_hdr o s = Some h -> write_hdr o f s = Ret tt (upd_hdr o f s).
Proof. intros Hh. unfold write_hdr. by rewrite (bind_ret _ _ _ _ _ (read_hdr_ret o h s Hh)). Qed.
Lemma read_glob_ret g s : glob s = Some g -> read_glob s = Ret g s.
Proof. unfold read_glob, mbind, M_bind, gets. by intros ->. Qed.
Lemma read_psoc_ret p r s : psocs s !! p = Some r -> read_psoc p s = Ret r s.
Proof. unfold read_psoc, mbind, M_bind, gets. by intros ->. Qed.
Lemma read_pdev_ret p r s : pdevs s !! p = Some r -> read_pdev p s = Ret r s.
Proof. unfold read_pdev, mbind, M_bind, gets. by intros ->. Qed.
Lemma read_vdev_ret p r s : vdevs s !! p = Some r -> read_vdev p s = Ret r s.
Proof. unfold read_vdev, mbind, M_bind, gets. by intros ->. Qed.
Lemma read_peer_ret p r s : peers s !! p = Some r -> read_peer p s = Ret r s.
Proof. unfold read_peer, mbind, M_bind, gets. by intros ->. Qed.
Lemma write_psoc_ret p f r s :
  psocs s !! p = Some r -> write_psoc p f s = Ret tt (set_psocs (alter f p) s).
Proof. intros H. unfold write_psoc. by rewrite (bind_ret _ _ _ _ _ (read_psoc_ret p r s H)). Qed.
Lemma write_pdev_ret p f r s :
  pdevs s !! p = Some r -> write_pdev p f s = Ret tt (set_pdevs (alter f p) s).
Proof. intros H. unfold write_pdev. by rewrite (bind_ret _ _ _ _ _ (read_pdev_ret p r s H)). Qed.
Lemma write_vdev_ret p f r s :
  vdevs s !! p = Some r -> write_vdev p f s = Ret tt (set_vdevs (alter f p) s).
Proof. intros H. unfold write_vdev. by rewrite (bind_ret _ _ _ _ _ (read_vdev_ret p r s H)). Qed.
Lemma write_peer_ret p f r s :
  peers s !! p = Some r -> write_peer p f s = Ret tt (set_peers (alter f p) s).
Proof. intros H. unfold write_peer. by rewrite (bind_ret _ _ _ _ _ (read_peer_ret p r s H)). Qed.

Lemma same_refs_refl h : same_refs h h.
Proof. done. Qed.
Lemma same_refs_trans h h' h'' : same_refs h h' -> same_refs h' h'' -> same_refs h h''.
Proof.
  intros (Hs1 & Hc1 & Ht1 & Hr1) (Hs2 & Hc2 & Ht2 & Hr2).
  split_and!; [congruence..|]. intros id. by rewrite Hr2, Hr1.
Qed.
Lemma same_refs_status comp st h : same_refs h (set_status comp st h).
Proof. done. Qed.
Lemma same_refs_priv comp a h : same_refs h (set_priv comp a h).
Proof. done. Qed.

(** ** Handlers

    Whatever the handlers answer, only the component slots of the object change. *)
Section Handlers.
Context o s g (Ho : is_Some (get_hdr o s)) (Hg : glob s = Some g).

(** Only the slots of the header have changed. *)
Definition slots_only {A} h (_ : A) (s' : objmgr_world) : Prop :=
  exists h' t', s' = hset o h' t' s /\ same_refs h h'.

Lemma twp_read_hset {B} h t (k : wlan_objmgr_hdr -> M objmgr_world B) Q :
  twp (k h) Q (hset o h t s) -> twp (a ← read_hdr o; k a) Q (hset o h t s).
Proof using Ho. intros H. eapply wpx_step; [by apply read_hdr_ret, get_hdr_hset|done]. Qed.
Lemma twp_write_hset {B} f h t (k : unit -> M objmgr_world B) Q :
  twp (k tt) Q (hset o (f h) t s) -> twp (a ← write_hdr o f; k a) Q (hset o h t s).
Proof using Ho.
  intros H. eapply wpx_step; [by eapply write_hdr_ret, get_hdr_hset|]. by rewrite upd_hset.
Qed.
Lemma twp_write_hset_last f h t Q :
  Q tt (hset o (f h) t s) -> twp (write_hdr o f) Q (hset o h t s).
Proof using Ho.
  intros H. eapply wpx_eq; [by eapply write_hdr_ret, get_hdr_hset|]. by rewrite upd_hset.
Qed.
Lemma twp_glob_hset {B} h t (k : wlan_objmgr_global -> M objmgr_world B) Q :
  twp (k g) Q (hset o h t s) -> twp (a ← read_glob; k a) Q (hset o h t s).
Proof using Hg. intros H. eapply wpx_step; [by apply read_glob_ret; rewrite glob_hset|done]. Qed.

Lemma slots_only_same {A} h h0 t (a : A) : same_refs h0 h -> slots_only h0 a (hset o h t s).
Proof. intros H. by exists h, t. Qed.

Lemma slots_only_weaken {A B} (m : M objmgr_world A) (k : A -> M objmgr_world B) h0 h t Q :
  same_refs h0 h ->
  twp m (slots_only h) (hset o h t s) ->
  (forall a h' t', same_refs h0 h' -> twp (k a) Q (hset o h' t' s)) ->
  twp (a ← m; k a) Q (hset o h t s).
Proof.
  intros H0 Hm Hk. apply wpx_bind. eapply wpx_mono; [exact Hm|].
  intros a s' (h' & t' & -> & Hh'). apply Hk. by eapply same_refs_trans.
Qed.

Lemma attach_slot_slots comp priv st h t :
  twp (attach_slot o comp priv st) (slots_only h) (hset o h t s).
Proof using Ho.
  unfold attach_slot. destruct (_ <=? _)%nat; [by apply slots_only_same|].
  apply twp_read_hset. destruct (comp_priv_obj h !! comp); [by apply slots_only_same|].
  apply twp_write_hset. by apply slots_only_same.
Qed.
Lemma detach_slot_slots comp priv h t :
  twp (detach_slot o comp priv) (slots_only h) (hset o h t s).
Proof using Ho.
  unfold detach_slot. destruct (_ <=? _)%nat; [by apply slots_only_same|].
  apply twp_read_hset. destruct (bool_decide _); apply twp_write_hset; by apply slots_only_same.
Qed.

Lemma run_handler_slots comp f h t :
  slot_only (obj_state h) = true -> twp (run_handler o comp f) (slots_only h) (hset o h t s).
Proof using Ho.
  intros Hst. unfold run_handler. apply wpx_gets_bind.
  apply twp_read_hset. destruct (h_slot _) as [|priv st|priv]; [by apply slots_only_same| |].
  - rewrite Hst. eapply slots_only_weaken; [done|apply attach_slot_slots|].
    intros a h' t' Hh. by apply slots_only_same.
  - rewrite Hst. eapply slots_only_weaken; [done|apply detach_slot_slots|].
    intros a h' t' Hh. by apply slots_only_same.
Qed.

Lemma same_refs_slot_only h h' : same_refs h h' -> slot_only (obj_state h') = slot_only (obj_state h).
Proof. by intros (-> & _). Qed.

Lemma create_loop_slots n comp h t :
  slot_only (obj_state h) = true ->
  twp (create_handlers_loop n comp o) (slots_only h) (hset o h t s).
Proof using Ho Hg.
  revert comp h t. induction n as [|n IH]; intros comp h t Hst; cbn [create_handlers_loop];
    [by apply slots_only_same|].
  apply twp_glob_hset. destruct (create_handler g !! _) as [f|].
  - apply wpx_assoc, wpx_modify_bind. rewrite emit_hset. apply wpx_assoc.
    eapply slots_only_weaken; [done|by apply run_handler_slots|].
    intros a h' t' Hh. apply twp_write_hset.
    eapply wpx_mono; [apply IH; cbn; by rewrite (same_refs_slot_only _ _ Hh)|].
    intros [] s' (h'' & t'' & -> & Hh''). exists h'', t''. split; [done|].
    eapply same_refs_trans; [exact Hh|]. by eapply same_refs_trans; [|exact Hh''].
  - apply twp_write_hset. eapply wpx_mono; [by apply IH|].
    intros [] s' (h'' & t'' & -> & Hh''). exists h'', t''. split; [done|].
    by eapply same_refs_trans; [|exact Hh''].
Qed.

(** A loop goes on with a header that has the same references. *)
Lemma slots_only_step (m : M objmgr_world unit) h h' t :
  same_refs h h' -> twp m (slots_only h') (hset o h' t s) -> twp m (slots_only h) (hset o h' t s).
Proof.
  intros Hh Hm. eapply wpx_mono; [exact Hm|]. intros a s' (h'' & t'' & -> & Hh'').
  exists h'', t''. split; [done|]. by eapply same_refs_trans.
Qed.

(** What a handler answers is what the environment says. *)
Lemma run_handler_answer comp f h t :
  slot_only (obj_state h) = true ->
  twp (run_handler o comp f) (fun st _ => st = h_status (handlers (fst f) (snd f) o (hset o h t s)))
    (hset o h t s).
Proof using Ho.
  intros Hst. unfold run_handler. apply wpx_gets_bind. apply twp_read_hset.
  destruct (h_slot _) as [|priv st|priv]; [done| |]; rewrite Hst; apply wpx_bind.
  - eapply wpx_mono; [apply attach_slot_slots|]. done.
  - eapply wpx_mono; [apply detach_slot_slots|]. done.
Qed.

(** No component from [lo] up to [hi] failed. *)
Definition none_failed lo hi h : Prop :=
  forall c, (lo <= c < hi)%nat -> comp_failed (status_of h c) = false.

Lemma none_failed_set lo c st h :
  none_failed lo c h -> comp_failed st = false -> none_failed lo (S c) (set_status c st h).
Proof.
  intros Hn Hst c' Hc'. unfold status_of. cbn. destruct (decide (c' = c)) as [->|Hne].
  - by rewrite lookup_insert_eq.
  - rewrite lookup_insert_ne by done. apply Hn. lia.
Qed.

(** A handler changes the slot of its component only. *)
Lemma run_handler_others comp f h t :
  slot_only (obj_state h) = true ->
  twp (run_handler o comp f) (fun _ s' => exists h' t', s' = hset o h' t' s /\ same_refs h h'
    /\ forall c, c <> comp -> status_of h' c = status_of h c) (hset o h t s).
Proof using Ho.
  intros Hst. unfold run_handler. apply wpx_gets_bind. apply twp_read_hset.
  assert (forall a st c, c <> comp -> status_of (set_status comp st (set_priv comp a h)) c = status_of h c) as Hother.
  { intros a st c Hc. unfold status_of. cbn. by rewrite lookup_insert_ne. }
  destruct (h_slot _) as [|priv st|priv]; [by exists h, t| |]; rewrite Hst; apply wpx_bind.
  - unfold attach_slot. destruct (_ <=? _)%nat; [by exists h, t|]. apply twp_read_hset.
    destruct (comp_priv_obj h !! comp); [by exists h, t|]. apply twp_write_hset.
    eexists _, t. split_and!; [done|done|]. intros c Hc. by apply (Hother priv st c).
  - unfold detach_slot. destruct (_ <=? _)%nat; [by exists h, t|]. apply twp_read_hset.
    destruct (bool_decide _); apply twp_write_hset; eexists _, t; (split_and!; [done|done|]); intros c Hc.
    + unfold status_of. cbn. by rewrite lookup_insert_ne.
    + by apply (Hother None QDF_STATUS_SUCCESS c).
Qed.

Lemma destroy_loop_slots n : forall comp h t,
  obj_state h = WLAN_OBJ_STATE_LOGICALLY_DELETED -> (destroys_ok -> none_failed 0 comp h) ->
  twp (destroy_handlers_loop n comp o) (fun _ s' => exists h' t', s' = hset o h' t' s /\ same_refs h h'
    /\ (destroys_ok -> none_failed 0 (comp + n) h')) (hset o h t s).
Proof using Ho Hg.
  induction n as [|n IH]; intros comp h t Hst Hn; cbn [destroy_handlers_loop].
  { exists h, t. by rewrite Nat.add_0_r. }
  apply twp_glob_hset, twp_read_hset. rewrite <- Nat.add_succ_comm.
  assert (forall st, comp_failed st = false -> twp (destroy_handlers_loop n (S comp) o)
    (fun _ s' => exists h' t', s' = hset o h' t' s /\ same_refs h h'
       /\ (destroys_ok -> none_failed 0 (S comp + n) h')) (hset o (set_status comp st h) t s)) as Hlast.
  { intros st Hf. eapply wpx_mono; [apply (IH (S comp) (set_status comp st h) t); [done|]|done].
    intros Hok. by apply none_failed_set; [apply Hn|]. }
  destruct (destroy_handler g !! _) as [f|]; [|by apply twp_write_hset, Hlast].
  destruct (_ || _); [|by apply twp_write_hset, Hlast].
  apply wpx_assoc, wpx_modify_bind. rewrite emit_hset. apply wpx_assoc, wpx_bind.
  eapply wpx_mono; [apply wpx_both; [apply run_handler_others|apply run_handler_answer]; by rewrite Hst|].
  intros st s1 [(h1 & t1 & -> & Hs & Hoth) ->]. apply twp_write_hset.
  eapply wpx_mono; [apply IH|].
  - destruct Hs as (Hs & _). cbn. by rewrite Hs.
  - intros Hok. apply none_failed_set.
    + intros c Hc. rewrite Hoth by lia. by apply Hn.
    + eapply Hok; [by apply get_hdr_hset|done].
  - intros u s2 (h2 & t2 & -> & Hs2 & Hn2). exists h2, t2. split_and!; [done| |done].
    by eapply same_refs_trans; [exact Hs|].
Qed.

(** If no component failed, the object is destroyed or waits. *)
Lemma none_failed_status n c h :
  none_failed c (c + n) h -> object_status_loop n c h <> QDF_STATUS_E_FAILURE.
Proof.
  revert c. induction n as [|n IH]; intros c Hn; [done|]. cbn [object_status_loop].
  assert (object_status_loop n (S c) h <> QDF_STATUS_E_FAILURE).
  { apply IH. intros c' Hc'. apply Hn. lia. }
  pose proof (Hn c ltac:(lia)) as Hc. destruct (status_of h c); try done. by destruct (comp_priv_obj h !! c).
Qed.

Lemma status_loop_slots n comp status h t :
  twp (status_handlers_loop n comp o status) (slots_only h) (hset o h t s).
Proof using Hg.
  revert comp h t. induction n as [|n IH]; intros comp h t; cbn [status_handlers_loop];
    [by apply slots_only_same|].
  apply twp_glob_hset. destruct (status_handler g !! _); [|apply IH].
  apply wpx_modify_bind. rewrite emit_hset. apply IH.
Qed.

Lemma twp_object_status_hset {B} h t (k : QDF_STATUS -> M objmgr_world B) Q :
  twp (k (object_status_loop WLAN_UMAC_MAX_COMPONENTS 0 h)) Q (hset o h t s) ->
  twp (a ← object_status o; k a) Q (hset o h t s).
Proof using Ho. intros H. unfold object_status. apply wpx_assoc, twp_read_hset. exact H. Qed.

(** A header that has only become that of an object in the state [st]. *)
Definition same_refs_in (st : WLAN_OBJ_STATE) h h' : Prop :=
  obj_state h' = st /\ ref_cnt h' = ref_cnt h /\ total h' = total h
  /\ forall id, refs_by h' id = refs_by h id.
Lemma same_refs_set_state st h h' : same_refs h h' -> same_refs_in st h (set_state st h').
Proof. intros (_ & Hc & Ht & Hr). by split_and!. Qed.
Lemma same_refs_in_trans st h h' h'' : same_refs_in st h h' -> same_refs h' h'' -> same_refs_in st h h''.
Proof.
  intros (Hs1 & Hc1 & Ht1 & Hr1) (Hs2 & Hc2 & Ht2 & Hr2). split_and!; [congruence..|].
  intros id. by rewrite Hr2, Hr1.
Qed.

(** The components create their parts: the object is created, now or later, or deleted. *)
Lemma twp_create_tail h t del Q :
  obj_state h = WLAN_OBJ_STATE_ALLOCATED ->
  (forall st h' t', st = WLAN_OBJ_STATE_CREATED \/ st = WLAN_OBJ_STATE_PARTIALLY_CREATED ->
     same_refs_in st h h' -> Q true (hset o h' t' s)) ->
  (forall h' t', same_refs h h' -> twp del (fun _ => Q false) (hset o h' t' s)) ->
  twp (obj_create_tail o del) Q (hset o h t s).
Proof using Ho Hg.
  intros Hst Hok Hfail. unfold obj_create_tail.
  eapply slots_only_weaken; [done|apply create_loop_slots; by rewrite Hst|].
  intros [] h' t' Hh. apply twp_object_status_hset.
  assert (twp (del;; mret false) Q (hset o h' t' s)) as Hdel.
  { apply wpx_bind. eapply wpx_mono; [by apply Hfail|]. done. }
  destruct (object_status_loop _ _ _); try exact Hdel.
  - apply twp_write_hset.
    eapply slots_only_weaken; [done|apply status_loop_slots|].
    intros [] h'' t'' Hh''. apply (Hok WLAN_OBJ_STATE_CREATED); [by left|].
    eapply same_refs_in_trans; [|exact Hh'']. by apply same_refs_set_state.
  - apply twp_write_hset. apply (Hok WLAN_OBJ_STATE_PARTIALLY_CREATED); [by right|].
    by apply same_refs_set_state.
Qed.

(** The components destroy their parts: the object is freed, now or later, or kept. *)
Lemma twp_obj_destroy h t (free : M objmgr_world QDF_STATUS) Q :
  obj_state h = WLAN_OBJ_STATE_LOGICALLY_DELETED ->
  (forall h' t', same_refs h h' -> ~ destroys_ok -> Q QDF_STATUS_E_FAILURE (hset o h' t' s)) ->
  (forall h' t', same_refs_in WLAN_OBJ_STATE_PARTIALLY_DELETED h h' ->
     Q QDF_STATUS_COMP_ASYNC (hset o h' t' s)) ->
  (forall h' t', same_refs h h' -> twp free Q (hset o h' t' s)) ->
  twp (obj_destroy o free) Q (hset o h t s).
Proof using Ho Hg.
  intros Hst Hfail Hasync Hfree. unfold obj_destroy. apply twp_read_hset.
  rewrite bool_decide_eq_false_2 by (intros H; by apply H).
  eapply wpx_step; [reflexivity|].
  apply wpx_bind. eapply wpx_mono; [apply (destroy_loop_slots _ 0 h t Hst); intros _ c Hc; lia|].
  intros [] s1 (h' & t' & -> & Hh & Hn). apply twp_object_status_hset.
  destruct (object_status_loop _ _ _) eqn:Hos; try by apply Hfree.
  - apply wpx_modify_bind. rewrite emit_hset. apply Hfail; [done|]. intros Hok.
    by apply (none_failed_status WLAN_UMAC_MAX_COMPONENTS 0 h' (Hn Hok)).
  - apply twp_write_hset. apply Hasync. by apply same_refs_set_state.
Qed.

End Handlers.

(** ** Giving back a reference *)

(** One that was taken; the object is deleted if it is the last. *)
Definition releasable id h : Prop :=
  1 <= refs_by h id /\ 1 <= ref_cnt h
  /\ (ref_cnt h = 1 -> obj_state h = WLAN_OBJ_STATE_LOGICALLY_DELETED).

Lemma dropped_add_ref id h h' : same_refs (add_ref (-1) id h) h' -> settled h' -> dropped id h h'.
Proof.
  intros (Hs & Hc & Ht & Hr) Hset. split_and!.
  - by rewrite Hc.
  - rewrite Ht, total_add_ref. lia.
  - intros id'. rewrite Hr, refs_add_ref. case_bool_decide; lia.
  - left. by rewrite Hs.
  - done.
Qed.

Lemma dropped_waits id h h' :
  same_refs_in WLAN_OBJ_STATE_PARTIALLY_DELETED (add_ref (-1) id h) h' ->
  ref_cnt h = 1 -> live h = false -> dropped id h h'.
Proof.
  intros (Hs & Hc & Ht & Hr) Hone Hl. split_and!.
  - by rewrite Hc.
  - rewrite Ht, total_add_ref. lia.
  - intros id'. rewrite Hr, refs_add_ref. case_bool_decide; lia.
  - right. split_and!; [rewrite Hc; cbn; lia|done|]. unfold live. by rewrite Hs.
  - intros _ _. by rewrite Hs.
Qed.

Lemma live_deleted h : obj_state h = WLAN_OBJ_STATE_LOGICALLY_DELETED -> live h = false.
Proof. unfold live. by intros ->. Qed.

Lemma twp_dec_and_test o id h s g (free : M objmgr_world QDF_STATUS) Q :
  get_hdr o s = Some h -> glob s = Some g -> releasable id h ->
  (forall h' t, dropped id h h' -> Q tt (hset o h' t s)) ->
  (ref_cnt h = 1 -> forall h' t, twp free (fun _ => Q tt) (hset o h' t s)) ->
  twp (dec_and_test o id (obj_destroy o free)) Q s.
Proof.
  intros Hh Hg (Hr1 & Hc1 & Hst) Hdrop Hfree. assert (is_Some (get_hdr o s)) as Ho by eauto.
  rewrite <- (hset_id o h s Hh). unfold dec_and_test.
  apply twp_write_hset; [done|]. apply twp_read_hset; [done|].
  change (ref_cnt (add_ref (-1) id h)) with (ref_cnt h + -1).
  destruct (Z.eqb_spec (ref_cnt h + -1) 0) as [Hz|Hz].
  2:{ apply Hdrop, dropped_add_ref; [done|]. intros _ Hz0. cbn in Hz0. lia. }
  assert (ref_cnt h = 1) as Hone by lia. specialize (Hst Hone).
  pose proof (live_deleted h Hst) as Hl.
  apply wpx_bind. eapply twp_obj_destroy; [done|done|done| | |].
  - intros h' t' Hs Hok. apply Hdrop, dropped_add_ref; [done|]. intros Hok'. by destruct Hok.
  - intros h' t' Hs. by apply Hdrop, dropped_waits.
  - intros h' t' Hs. eapply wpx_mono; [by apply Hfree|]. done.
Qed.

(** From the invariant. *)
Lemma inv_releasable A e s o h id :
  inv A (bump e o id 1) s -> (forall id, 0 <= e o id) -> get_hdr o s = Some h -> releasable id h.
Proof.
  intros I He Hh. destruct (inv_hdr _ _ _ I o h Hh) as [H1 H2 H3 H4 H5].
  pose proof (kids_nonneg s o) as Hk. pose proof (total_ge h id H2) as Ht.
  pose proof (H1 id) as Hid. rewrite bump_same in Hid. pose proof (He id) as Hpos.
  assert (1 <= refs_by h id) as Hr.
  { rewrite Hid. unfold own. destruct (_ =? _)%nat, (live h); lia. }
  split_and!; [done|lia|]. intros Hone.
  assert (live h = false) as Hl.
  { destruct (live h) eqn:Hl; [|done]. exfalso.
    pose proof (H1 0%nat) as H0. cbn in H0. unfold own in H0. rewrite Hl in H0.
    pose proof (He 0%nat) as He0. rewrite bump_at in H0.
    destruct (decide (id = 0%nat)) as [->|Hne].
    - rewrite bool_decide_eq_true_2 in H0 by done. lia.
    - assert (refs_by h 0 + refs_by h id <= total h) as Hsum.
      { replace (refs_by h id) with (refs_by (add_ref (- refs_by h 0) 0 h) id).
        2:{ rewrite refs_add_ref, bool_decide_eq_false_2 by done. lia. }
        enough (refs_by (add_ref (- refs_by h 0) 0 h) id <= total (add_ref (- refs_by h 0) 0 h)) as Hle
          by (rewrite total_add_ref in Hle; lia).
        apply total_ge. intros id'. rewrite refs_add_ref. specialize (H2 id').
        destruct (decide (id' = 0%nat)) as [->|];
          [rewrite bool_decide_eq_true_2 by done|rewrite bool_decide_eq_false_2 by done]; lia. }
      rewrite bool_decide_eq_false_2 in H0 by done. lia. }
  unfold live in Hl. destruct (obj_state h) eqn:Hst; try done; exfalso;
    assert (ref_cnt h = 0) by (by apply H4); lia.
Qed.

End Steps.
