(* ===== verification/ObjFree.v ===== *)
(** Freeing objects: what the release of a last reference does to the object, to its
    parents and to their parents, and that the invariant holds when all is done. *)
From S2P Require Import Prelude QdfTypes Obj ObjInv ObjLink ObjRun.

Section Free.
Context {E : objmgr_env}.
Implicit Types (s : objmgr_world) (o : objref) (h : wlan_objmgr_hdr) (p d v x id : nat).

(** The table of psocs exists. *)
Definition listed s : Prop :=
  exists g, glob s = Some g /\ length (g_psoc g) = WLAN_OBJMGR_MAX_DEVICES.

Lemma inv_listed A e s : inv A e s -> listed s.
Proof. intros I. destruct (inv_glob _ _ _ I) as (g & Hg & Hl & _). by exists g. Qed.

(** ** The psoc *)

Lemma twp_psoc_free p r s Q :
  psocs s !! p = Some r -> listed s ->
  (forall t, Q QDF_STATUS_SUCCESS (set_trace t (psoc_gone p (psoc_id r) s))) ->
  twp (wlan_objmgr_psoc_obj_free p) Q s.
Proof.
  intros Hp (g & Hg & Hl) HQ. unfold wlan_objmgr_psoc_obj_free, wlan_objmgr_psoc_object_detach.
  apply wpx_assoc. eapply wpx_step; [by apply read_psoc_ret|].
  destruct (Nat.leb_spec WLAN_OBJMGR_MAX_DEVICES (psoc_id r)) as [Hge|Hlt].
  - apply wpx_assoc, wpx_modify_bind. eapply wpx_step; [reflexivity|].
    rewrite bool_decide_eq_false_2 by done. do 2 apply wpx_modify_bind. cbn.
    replace (set_psocs (delete p) (emit EvBug s))
      with (set_trace (trace s ++ [EvBug]) (psoc_gone p (psoc_id r) s)); [apply (HQ _)|].
    unfold psoc_gone, set_trace, set_psocs, set_glob. cbn. rewrite Hg. cbn. do 2 f_equal.
    unfold set_g_psoc. destruct g; cbn in *. f_equal. apply list_insert_ge. lia.
  - apply wpx_assoc. eapply wpx_step; [by apply read_glob_ret|].
    apply wpx_assoc, wpx_modify_bind. eapply wpx_step; [reflexivity|].
    rewrite bool_decide_eq_false_2 by done. do 2 apply wpx_modify_bind. apply HQ.
Qed.

Lemma psoc_gone_hset p i h t s : psoc_gone p i (hset (OPsoc p) h t s) = set_trace t (psoc_gone p i s).
Proof.
  unfold psoc_gone, hset, set_trace, set_glob, set_psocs. cbn. f_equal. apply delete_alter_eq.
Qed.

Lemma listed_hset o h t s : listed s -> listed (hset o h t s).
Proof. intros (g & Hg & Hl). exists g. by rewrite glob_hset. Qed.

Lemma psocs_hset p h t s r :
  psocs s !! p = Some r -> psocs (hset (OPsoc p) h t s) !! p = Some (with_psoc_hdr (fun _ => h) r).
Proof. intros Hp. cbn. by rewrite lookup_alter_eq, Hp. Qed.
Lemma pdevs_hset p h t s r :
  pdevs s !! p = Some r -> pdevs (hset (OPdev p) h t s) !! p = Some (with_pdev_hdr (fun _ => h) r).
Proof. intros Hp. cbn. by rewrite lookup_alter_eq, Hp. Qed.
Lemma vdevs_hset p h t s r :
  vdevs s !! p = Some r -> vdevs (hset (OVdev p) h t s) !! p = Some (with_vdev_hdr (fun _ => h) r).
Proof. intros Hp. cbn. by rewrite lookup_alter_eq, Hp. Qed.
Lemma peers_hset p h t s r :
  peers s !! p = Some r -> peers (hset (OPeer p) h t s) !! p = Some (with_peer_hdr (fun _ => h) r).
Proof. intros Hp. cbn. by rewrite lookup_alter_eq, Hp. Qed.

Lemma releasable_tests id h : releasable id h -> (refs_by h id =? 0) = false /\ (ref_cnt h =? 0) = false.
Proof. intros (H1 & H2 & _). split; apply Z.eqb_neq; lia. Qed.

Lemma twp_psoc_release p id r s Q :
  psocs s !! p = Some r -> listed s -> releasable id (psoc_hdr r) ->
  (forall h' t, dropped id (psoc_hdr r) h' -> Q tt (hset (OPsoc p) h' t s)) ->
  (ref_cnt (psoc_hdr r) = 1 -> forall t, Q tt (set_trace t (psoc_gone p (psoc_id r) s))) ->
  twp (wlan_objmgr_psoc_release_ref p id) Q s.
Proof.
  intros Hp Hl Hrel Hdrop Hgone. destruct (releasable_tests id _ Hrel) as [H1 H2].
  assert (get_hdr (OPsoc p) s = Some (psoc_hdr r)) as Hh by (cbn; by rewrite Hp).
  unfold wlan_objmgr_psoc_release_ref. eapply wpx_step; [by apply read_hdr_ret|].
  rewrite H1, H2. eapply wpx_step; [reflexivity|]. destruct (Hl) as (g & Hg & _).
  eapply twp_dec_and_test; [done..|exact Hdrop|].
  intros Hone h' t. eapply twp_psoc_free; [by apply psocs_hset|by apply listed_hset|].
  intros t'. rewrite psoc_gone_hset. cbn. by apply Hgone.
Qed.

(** ** The pdev *)

(** What happens to the psoc when a pdev is freed. *)
Lemma twp_pdev_free d r rp s Q :
  pdevs s !! d = Some r -> psocs s !! wlan_psoc r = Some rp -> listed s ->
  (wlan_pdev_id r < WLAN_UMAC_MAX_PDEVS)%nat -> releasable 0 (psoc_hdr rp) ->
  (forall h' t, dropped 0 (psoc_hdr rp) h' -> Q QDF_STATUS_SUCCESS
     (hset (OPsoc (wlan_psoc r)) h' t (pdev_gone (wlan_psoc r) (wlan_pdev_id r) d s))) ->
  (ref_cnt (psoc_hdr rp) = 1 -> forall t, Q QDF_STATUS_SUCCESS (set_trace t
     (psoc_gone (wlan_psoc r) (psoc_id rp) (pdev_gone (wlan_psoc r) (wlan_pdev_id r) d s)))) ->
  twp (wlan_objmgr_pdev_obj_free d) Q s.
Proof.
  intros Hd Hp Hl Hi Hrel Hdrop Hgone. unfold wlan_objmgr_pdev_obj_free, wlan_objmgr_psoc_pdev_detach.
  eapply wpx_step; [by apply read_pdev_ret|]. apply wpx_assoc.
  eapply wpx_step; [by apply read_pdev_ret|]. rewrite (proj2 (Nat.leb_gt _ _) Hi).
  apply wpx_assoc. eapply wpx_step; [by eapply write_psoc_ret|].
  apply wpx_assoc. eapply wpx_step; [by eapply write_pdev_ret|].
  apply wpx_assoc, wpx_bind.
  eapply twp_psoc_release.
  - cbn. by rewrite lookup_alter_eq, Hp.
  - done.
  - exact Hrel.
  - intros h' t Hh'. eapply wpx_step; [reflexivity|]. rewrite bool_decide_eq_false_2 by done.
    eapply wpx_step; [apply read_pdev_ret; cbn; by rewrite lookup_alter_eq, Hd|].
    do 2 apply wpx_modify_bind. apply wpx_mret.
    specialize (Hdrop h' (t ++ [EvFree (OPdev d)]) Hh').
    unfold hset, set_trace, pdev_gone, set_psocs, set_pdevs, emit in *. cbn in *.
    by rewrite delete_alter_eq.
  - intros Hone t. eapply wpx_step; [reflexivity|]. rewrite bool_decide_eq_false_2 by done.
    eapply wpx_step; [apply read_pdev_ret; cbn; by rewrite lookup_alter_eq, Hd|].
    do 2 apply wpx_modify_bind. apply wpx_mret.
    specialize (Hgone Hone (t ++ [EvFree (OPdev d)])).
    unfold psoc_gone, set_trace, pdev_gone, set_psocs, set_pdevs, set_glob, emit in *. cbn in *.
    rewrite !delete_alter_eq in Hgone. rewrite !delete_alter_eq. exact Hgone.
Qed.

Lemma pdev_gone_hset p i d h t s :
  pdev_gone p i d (hset (OPdev d) h t s) = set_trace t (pdev_gone p i d s).
Proof. unfold pdev_gone, hset, set_trace, set_pdevs, set_psocs. cbn. by rewrite delete_alter_eq. Qed.
Lemma hset_set_trace o h t t' s : hset o h t (set_trace t' s) = hset o h t s.
Proof. unfold hset. by rewrite upd_trace. Qed.

Lemma twp_pdev_release d id r rp s Q :
  pdevs s !! d = Some r -> psocs s !! wlan_psoc r = Some rp -> listed s ->
  (wlan_pdev_id r < WLAN_UMAC_MAX_PDEVS)%nat -> releasable 0 (psoc_hdr rp) ->
  releasable id (pdev_hdr r) ->
  (forall h' t, dropped id (pdev_hdr r) h' -> Q tt (hset (OPdev d) h' t s)) ->
  (ref_cnt (pdev_hdr r) = 1 -> forall h' t, dropped 0 (psoc_hdr rp) h' -> Q tt
     (hset (OPsoc (wlan_psoc r)) h' t (pdev_gone (wlan_psoc r) (wlan_pdev_id r) d s))) ->
  (ref_cnt (pdev_hdr r) = 1 -> ref_cnt (psoc_hdr rp) = 1 -> forall t, Q tt (set_trace t
     (psoc_gone (wlan_psoc r) (psoc_id rp) (pdev_gone (wlan_psoc r) (wlan_pdev_id r) d s)))) ->
  twp (wlan_objmgr_pdev_release_ref d id) Q s.
Proof.
  intros Hd Hp Hl Hi Hrp Hrel Hdrop Hgone Hgone2. destruct (releasable_tests id _ Hrel) as [H1 H2].
  assert (get_hdr (OPdev d) s = Some (pdev_hdr r)) as Hh by (cbn; by rewrite Hd).
  unfold wlan_objmgr_pdev_release_ref. eapply wpx_step; [by apply read_hdr_ret|].
  rewrite H1, H2. destruct (Hl) as (g & Hg & _).
  eapply twp_dec_and_test; [done..|exact Hdrop|].
  intros Hone h' t.
  eapply twp_pdev_free; [by apply pdevs_hset|exact Hp|by apply listed_hset|done|done| |].
  - intros hp' t' Hdp. cbn. rewrite pdev_gone_hset, hset_set_trace. by apply Hgone.
  - intros Hone' t'. cbn. rewrite pdev_gone_hset. by apply Hgone2.
Qed.

(** ** The vdev *)

(** The psoc is not freed with the last VDEV: its owner may not have deleted it. *)
Lemma twp_vdev_free v r rd rp s Q :
  vdevs s !! v = Some r -> pdevs s !! wlan_pdev r = Some rd -> psocs s !! wlan_psoc rd = Some rp ->
  listed s -> (vdev_id r < WLAN_UMAC_PSOC_MAX_VDEVS)%nat ->
  (wlan_pdev_id rd < WLAN_UMAC_MAX_PDEVS)%nat ->
  v ∈ wlan_vdev_list rd -> pdev_vdev_count rd <> 0%nat ->
  releasable 0 (pdev_hdr rd) -> releasable 0 (psoc_hdr rp) -> ref_cnt (psoc_hdr rp) <> 1 ->
  (forall h' t, dropped 0 (pdev_hdr rd) h' -> Q QDF_STATUS_SUCCESS
     (hset (OPdev (wlan_pdev r)) h' t
        (vdev_gone (wlan_psoc rd) (vdev_id r) (wlan_pdev r) v s))) ->
  (ref_cnt (pdev_hdr rd) = 1 -> forall h' t, dropped 0 (psoc_hdr rp) h' -> Q QDF_STATUS_SUCCESS
     (hset (OPsoc (wlan_psoc rd)) h' t
        (pdev_gone (wlan_psoc rd) (wlan_pdev_id rd) (wlan_pdev r)
           (vdev_gone (wlan_psoc rd) (vdev_id r) (wlan_pdev r) v s)))) ->
  twp (wlan_objmgr_vdev_obj_free v) Q s.
Proof.
  intros Hv Hd Hp Hl Hi Hj Hin Hcnt Hrd Hrp Hne Hdrop Hgone.
  unfold wlan_objmgr_vdev_obj_free, wlan_objmgr_pdev_vdev_detach.
  eapply wpx_step; [by apply read_vdev_ret|].
  eapply wpx_step; [unfold wlan_pdev_get_psoc; by rewrite (bind_ret _ _ _ _ _ (read_pdev_ret _ _ _ Hd))|].
  apply wpx_assoc. eapply wpx_step; [by apply read_pdev_ret|].
  rewrite (proj2 (Nat.eqb_neq _ _) Hcnt). apply wpx_assoc.
  assert (forall l : list nat, v ∈ l -> (match l with [] => mret [] | y :: l' => list_del v (y :: l') end) s
            = Ret (unlink v l) s) as Hdel.
  { intros [|y l] Hl'; [by apply elem_of_nil in Hl'|]. unfold list_del.
    by rewrite bool_decide_eq_true_2. }
  eapply wpx_step; [by apply (Hdel (wlan_vdev_list rd))|]. clear Hdel.
  apply wpx_assoc. eapply wpx_step; [by eapply write_pdev_ret|].
  set (s1 := set_pdevs _ s).
  assert (s1 = set_pdevs (alter (vdev_off v) (wlan_pdev r)) s) as Hs1.
  { unfold s1, set_pdevs. f_equal. apply alter_ext. intros r' Hr'. rewrite Hd in Hr'.
    by injection Hr' as <-. }
  clearbody s1. subst s1. apply wpx_assoc, wpx_bind.
  eapply twp_pdev_release with (r := vdev_off v rd) (rp := rp).
  - cbn. by rewrite lookup_alter_eq, Hd.
  - exact Hp.
  - done.
  - done.
  - done.
  - exact Hrd.
  - intros h' t Hh'. eapply wpx_step; [reflexivity|]. rewrite bool_decide_eq_false_2 by done.
    unfold wlan_objmgr_psoc_vdev_detach. apply wpx_assoc. eapply wpx_step; [by apply read_vdev_ret|].
    apply wpx_assoc. eapply wpx_step; [apply read_psoc_ret; exact Hp|].
    rewrite (proj2 (Nat.leb_gt _ _) Hi).
    apply wpx_assoc. eapply wpx_step; [eapply write_psoc_ret; exact Hp|].
    apply wpx_assoc. eapply wpx_step; [by eapply write_vdev_ret|].
    eapply wpx_step; [reflexivity|]. rewrite bool_decide_eq_false_2 by done.
    eapply wpx_step; [apply read_vdev_ret; cbn; by rewrite lookup_alter_eq, Hv|].
    do 2 apply wpx_modify_bind. apply wpx_mret.
    specialize (Hdrop h' (t ++ [EvFree (OVdev v)]) Hh').
    unfold hset, set_trace, vdev_gone, set_psocs, set_pdevs, set_vdevs, emit in *. cbn in *.
    by rewrite delete_alter_eq.
  - intros Hone h' t Hh'. cbn in *. eapply wpx_step; [reflexivity|]. rewrite bool_decide_eq_false_2 by done.
    unfold wlan_objmgr_psoc_vdev_detach. apply wpx_assoc. eapply wpx_step; [by apply read_vdev_ret|].
    apply wpx_assoc. eapply wpx_step.
    { apply read_psoc_ret. cbn. by rewrite !lookup_alter_eq, Hp. }
    rewrite (proj2 (Nat.leb_gt _ _) Hi).
    apply wpx_assoc. eapply wpx_step.
    { eapply write_psoc_ret. cbn. by rewrite !lookup_alter_eq, Hp. }
    apply wpx_assoc. eapply wpx_step; [by eapply write_vdev_ret|].
    eapply wpx_step; [reflexivity|]. rewrite bool_decide_eq_false_2 by done.
    eapply wpx_step; [apply read_vdev_ret; cbn; by rewrite lookup_alter_eq, Hv|].
    do 2 apply wpx_modify_bind. apply wpx_mret.
    specialize (Hgone Hone h' (t ++ [EvFree (OVdev v)]) Hh').
    unfold hset, set_trace, vdev_gone, pdev_gone, set_psocs, set_pdevs, set_vdevs, emit in *. cbn in *.
    rewrite !delete_alter_eq, !alter_alter_eq in Hgone. by rewrite !delete_alter_eq, !alter_alter_eq.
  - done.
Qed.

(** ** Releases keep the invariant *)

Lemma bump_comm e o id n o' id' n' : forall o1 id1,
  bump (bump e o id n) o' id' n' o1 id1 = bump (bump e o' id' n') o id n o1 id1.
Proof. intros. unfold bump. lia. Qed.
Lemma bump_nonneg e o id n : ledger_ok e -> 0 <= n -> ledger_ok (bump e o id n).
Proof. intros He Hn o' id'. unfold bump. specialize (He o' id'). case_bool_decide; lia. Qed.

Lemma inv_hset A e s o h h' id t :
  inv A (bump e o id 1) s -> ledger_ok e -> get_hdr o s = Some h -> dropped id h h' ->
  inv A e (hset o h' t s).
Proof. intros I He Hh Hd. apply inv_set_trace. by eapply inv_drop. Qed.

(** The header of an object with its last reference given back, as if it were to wait
    for its components. *)
Definition last_hdr id h : wlan_objmgr_hdr :=
  set_state WLAN_OBJ_STATE_PARTIALLY_DELETED (add_ref (-1) id h).

Lemma inv_last A e s o h id :
  inv A (bump e o id 1) s -> ledger_ok e -> get_hdr o s = Some h -> ref_cnt h = 1 ->
  let s1 := upd_hdr o (fun _ => last_hdr id h) s in
  inv A e s1 /\ live h = false /\ kids s o = 0 /\ forall id, e o id = 0.
Proof.
  intros I He Hh Hone s1.
  assert (live h = false) as Hl.
  { destruct (inv_releasable A e s o h id I (He o) Hh) as (_ & _ & Hst). by apply live_deleted, Hst. }
  assert (inv A e s1) as I1.
  { eapply inv_drop; [done..|apply dropped_waits; [by apply same_refs_set_state|done..]|done]. }
  split; [done|]. split; [done|]. assert (get_hdr o s1 = Some (last_hdr id h)) as Hh1.
  { unfold s1. rewrite get_hdr_upd, bool_decide_eq_true_2 by done. by rewrite Hh. }
  destruct (count_zero _ _ _ _ _ I1 Hh1) as (H1 & H2 & H3); [cbn; lia|by apply He|].
  unfold s1 in H2. rewrite kids_upd in H2. done.
Qed.

(** What frees an object without a reference need not look at its header. *)
Definition frees A e (o : objref) (free : M objmgr_world QDF_STATUS) : Prop :=
  forall s h h' t, inv A e s -> get_hdr o s = Some h -> ref_cnt h = 0 ->
    twp free (fun _ => inv A e) (hset o h' t s).

Lemma inv_dec_and_test A e s o h id (free : M objmgr_world QDF_STATUS) :
  inv A (bump e o id 1) s -> ledger_ok e -> get_hdr o s = Some h -> frees A e o free ->
  twp (dec_and_test o id (obj_destroy o free)) (fun _ => inv A e) s.
Proof.
  intros I He Hh Hfree. destruct (inv_glob _ _ _ I) as (g & Hg & _).
  eapply twp_dec_and_test; [done..|by eapply inv_releasable| |].
  - intros h' t Hd. by eapply inv_hset.
  - intros Hone h' t. destruct (inv_last A e s o h id I He Hh Hone) as (I1 & _).
    rewrite <- (hset_hset o (last_hdr id h) h' (trace s)).
    eapply Hfree; [by apply (inv_set_trace _ _ _ (trace s)) in I1|apply get_hdr_hset; eauto|cbn; lia].
Qed.

Lemma inv_psoc_gone_last A e s p r id :
  inv A (bump e (OPsoc p) id 1) s -> ledger_ok e -> psocs s !! p = Some r ->
  ref_cnt (psoc_hdr r) = 1 -> inv A e (psoc_gone p (psoc_id r) s).
Proof.
  intros I He Hp Hone.
  destruct (inv_last A e s (OPsoc p) (psoc_hdr r) id I He) as (I1 & Hl & Hk & Hz);
    [cbn; by rewrite Hp|done|].
  replace (psoc_gone p (psoc_id r) s)
    with (psoc_gone p (psoc_id r) (upd_hdr (OPsoc p) (fun _ => last_hdr id (psoc_hdr r)) s)).
  2:{ unfold psoc_gone, set_glob, set_psocs. cbn. by rewrite delete_alter_eq. }
  change (psoc_id r) with (psoc_id (with_psoc_hdr (fun _ => last_hdr id (psoc_hdr r)) r)).
  apply inv_psoc_gone; [done|cbn; by rewrite lookup_alter_eq, Hp|done|done|].
  cbn in Hk |- *. rewrite Hp in Hk. lia.
Qed.

Lemma inv_pdev_gone_last A e s d r id :
  inv A (bump e (OPdev d) id 1) s -> ledger_ok e -> pdevs s !! d = Some r ->
  ref_cnt (pdev_hdr r) = 1 ->
  inv A (bump e (OPsoc (wlan_psoc r)) 0 1) (pdev_gone (wlan_psoc r) (wlan_pdev_id r) d s).
Proof.
  intros I He Hd Hone.
  destruct (inv_last A e s (OPdev d) (pdev_hdr r) id I He) as (I1 & Hl & Hk & Hz);
    [cbn; by rewrite Hd|done|].
  replace (pdev_gone (wlan_psoc r) (wlan_pdev_id r) d s)
    with (pdev_gone (wlan_psoc r) (wlan_pdev_id r) d
            (upd_hdr (OPdev d) (fun _ => last_hdr id (pdev_hdr r)) s)).
  2:{ unfold pdev_gone, set_pdevs, set_psocs. cbn. by rewrite delete_alter_eq. }
  apply (inv_pdev_gone A e _ d (with_pdev_hdr (fun _ => last_hdr id (pdev_hdr r)) r) I1);
    [cbn; by rewrite lookup_alter_eq, Hd|done|done|].
  cbn in Hk |- *. rewrite Hd in Hk. lia.
Qed.

Lemma inv_psoc_free A e p : ledger_ok e -> frees A e (OPsoc p) (wlan_objmgr_psoc_obj_free p).
Proof.
  intros He s h h' t I Hh Hz. destruct (count_zero _ _ _ _ _ I Hh Hz) as (Hl & Hk & Hz'); [by apply He|].
  cbn in Hh, Hk. destruct (psocs s !! p) as [r|] eqn:Hp; [|done]. injection Hh as <-.
  eapply twp_psoc_free; [by apply psocs_hset|by eapply listed_hset, inv_listed|]. intros t'.
  rewrite psoc_gone_hset. do 2 apply inv_set_trace. cbn [psoc_id with_psoc_hdr].
  apply inv_psoc_gone; [done..|]. lia.
Qed.

Lemma inv_psoc_release A e s p id :
  inv A (bump e (OPsoc p) id 1) s -> ledger_ok e -> is_Some (psocs s !! p) ->
  twp (wlan_objmgr_psoc_release_ref p id) (fun _ => inv A e) s.
Proof.
  intros I He [r Hp]. assert (get_hdr (OPsoc p) s = Some (psoc_hdr r)) as Hh by (cbn; by rewrite Hp).
  eapply twp_psoc_release; [done|by eapply inv_listed|by eapply inv_releasable| |].
  - intros h' t Hd. by eapply inv_hset.
  - intros Hone t. apply inv_set_trace. by eapply inv_psoc_gone_last.
Qed.

(** The chain from an object up to its psoc. *)
Lemma inv_pdev_psoc A e s d r :
  inv A e s -> pdevs s !! d = Some r ->
  exists rp, psocs s !! wlan_psoc r = Some rp
    /\ (wlan_pdev_id r < WLAN_UMAC_MAX_PDEVS)%nat
    /\ pdev_keys s !! d = Some (wlan_psoc r, wlan_pdev_id r).
Proof.
  intros I Hd. assert (pdev_keys s !! d = Some (wlan_psoc r, wlan_pdev_id r)) as Hk
    by (apply pdev_keys_Some; eauto).
  destruct (inv_pdev_parent _ _ _ I _ _ _ Hk) as [rp Hp]. exists rp. split_and!; [done| |done].
  pose proof (inv_psoc _ _ _ I _ _ Hp) as P. apply (psoc_pdevs _ _ _ P) in Hk as Hs.
  apply lookup_lt_Some in Hs. by rewrite (psoc_pdev_len _ _ _ P) in Hs.
Qed.

Lemma inv_pdev_free A e d : ledger_ok e -> frees A e (OPdev d) (wlan_objmgr_pdev_obj_free d).
Proof.
  intros He s h h0 t0 I Hh Hz. destruct (count_zero _ _ _ _ _ I Hh Hz) as (Hl & Hk & Hz'); [by apply He|].
  cbn in Hh, Hk. destruct (pdevs s !! d) as [r|] eqn:Hd; [|done]. injection Hh as <-.
  destruct (inv_pdev_psoc _ _ _ _ _ I Hd) as (rp & Hp & Hi & _).
  assert (inv A (bump e (OPsoc (wlan_psoc r)) 0 1)
            (pdev_gone (wlan_psoc r) (wlan_pdev_id r) d s)) as I1.
  { apply (inv_pdev_gone A e s d r); done || lia. }
  set (s1 := pdev_gone _ _ _ s) in *.
  set (rp1 := set_pdev_slot (wlan_pdev_id r) None rp).
  assert (psocs s1 !! wlan_psoc r = Some rp1) as Hp1 by (cbn; by rewrite lookup_alter_eq, Hp).
  assert (get_hdr (OPsoc (wlan_psoc r)) s1 = Some (psoc_hdr rp)) as Hh1 by (cbn -[s1]; by rewrite Hp1).
  eapply twp_pdev_free; [by apply pdevs_hset|exact Hp|by eapply listed_hset, inv_listed|done| | |].
  - by eapply inv_releasable.
  - intros h' t Hd'. cbn. rewrite pdev_gone_hset, hset_set_trace. by eapply inv_hset.
  - intros Hone t. cbn. rewrite pdev_gone_hset.
    change (inv A e (set_trace t (psoc_gone (wlan_psoc r) (psoc_id rp1) s1))).
    apply inv_set_trace. by apply (inv_psoc_gone_last A e s1 _ rp1 0).
Qed.

Lemma inv_pdev_release A e s d id :
  inv A (bump e (OPdev d) id 1) s -> ledger_ok e -> is_Some (pdevs s !! d) ->
  twp (wlan_objmgr_pdev_release_ref d id) (fun _ => inv A e) s.
Proof.
  intros I He [r Hd]. assert (get_hdr (OPdev d) s = Some (pdev_hdr r)) as Hh by (cbn; by rewrite Hd).
  destruct (releasable_tests id (pdev_hdr r)) as [H1 H2]; [by eapply inv_releasable|].
  unfold wlan_objmgr_pdev_release_ref. eapply wpx_step; [by apply read_hdr_ret|]. rewrite H1, H2.
  eapply inv_dec_and_test; [done..|by apply inv_pdev_free].
Qed.

(** The psoc of a VDEV is live, and holds more than one reference. *)
Lemma inv_vdev_chain A e s v r :
  inv A e s -> ledger_ok e -> vdevs s !! v = Some r ->
  exists rd rp, pdevs s !! wlan_pdev r = Some rd /\ psocs s !! wlan_psoc rd = Some rp
    /\ (vdev_id r < WLAN_UMAC_PSOC_MAX_VDEVS)%nat
    /\ (wlan_pdev_id rd < WLAN_UMAC_MAX_PDEVS)%nat
    /\ v ∈ wlan_vdev_list rd /\ pdev_vdev_count rd <> 0%nat
    /\ pdev_keys s !! wlan_pdev r = Some (wlan_psoc rd, wlan_pdev_id rd)
    /\ A (OPsoc (wlan_psoc rd)) = true
    /\ releasable 0 (psoc_hdr rp) /\ ref_cnt (psoc_hdr rp) <> 1.
Proof.
  intros I He Hv. assert (vdev_keys s !! v = Some (wlan_pdev r, vdev_id r)) as Hk
    by (apply vdev_keys_Some; eauto).
  destruct (inv_vdev_parent _ _ _ I _ _ _ Hk) as (p & j & Hd & HA).
  pose proof Hd as Hd'. apply pdev_keys_Some in Hd' as (rd & Hrd & -> & ->).
  destruct (inv_pdev_psoc _ _ _ _ _ I Hrd) as (rp & Hp & Hj & _).
  pose proof (inv_pdev _ _ _ I _ _ Hrd) as D. pose proof (inv_psoc _ _ _ I _ _ Hp) as P.
  assert (v ∈ wlan_vdev_list rd) as Hin by (apply (pdev_vdevs _ _ _ D); eauto).
  assert (get_hdr (OPsoc (wlan_psoc rd)) s = Some (psoc_hdr rp)) as Hh by (cbn; by rewrite Hp).
  assert (live (psoc_hdr rp) = true) as Hlive.
  { pose proof (inv_live _ _ _ I (OPsoc (wlan_psoc rd))) as HL.
    rewrite HA in HL. unfold is_live in HL. by rewrite Hh in HL. }
  assert (psoc_pdev_count rp <> 0%nat) as Hcp.
  { rewrite (psoc_pdev_cnt _ _ _ P). intros Hz. apply (psoc_pdevs _ _ _ P) in Hd.
    by eapply nslots_0. }
  destruct (inv_hdr _ _ _ I _ _ Hh) as [H1 H2 H3 H4 H5].
  pose proof (H1 0%nat) as H0. cbn in H0. rewrite Hp in H0. unfold own in H0. rewrite Hlive in H0.
  pose proof (total_ge _ 0 H2) as Ht. pose proof (He (OPsoc (wlan_psoc rd)) 0%nat) as Hez.
  exists rd, rp. split_and!; try done.
  - assert (vdev_slot s v = Some (wlan_psoc rd, vdev_id r)) as Hs
      by (unfold vdev_slot; by rewrite Hk, Hd).
    apply (psoc_vdevs _ _ _ P) in Hs. apply lookup_lt_Some in Hs.
    by rewrite (psoc_vdev_len _ _ _ P) in Hs.
  - rewrite (pdev_vdev_cnt _ _ _ D). by destruct (wlan_vdev_list rd); [apply elem_of_nil in Hin|].
  - split_and!; lia.
  - lia.
Qed.

Lemma vdev_gone_hset p i d v h t s :
  vdev_gone p i d v (hset (OVdev v) h t s) = set_trace t (vdev_gone p i d v s).
Proof. unfold vdev_gone, hset, set_trace, set_vdevs. cbn. by rewrite delete_alter_eq. Qed.

Lemma inv_vdev_free A e v : ledger_ok e -> frees A e (OVdev v) (wlan_objmgr_vdev_obj_free v).
Proof.
  intros He s h h0 t0 I Hh Hz. destruct (count_zero _ _ _ _ _ I Hh Hz) as (Hl & Hk & Hz'); [by apply He|].
  cbn in Hh, Hk. destruct (vdevs s !! v) as [r|] eqn:Hv; [|done]. injection Hh as <-.
  destruct (inv_vdev_chain _ _ _ _ _ I He Hv)
    as (rd & rp & Hd & Hp & Hi & Hj & Hin & Hcnt & Hdk & HA & Hrp & Hne).
  assert (inv A (bump e (OPdev (wlan_pdev r)) 0 1)
            (vdev_gone (wlan_psoc rd) (vdev_id r) (wlan_pdev r) v s)) as I1.
  { eapply inv_vdev_gone; done || lia. }
  set (s1 := vdev_gone _ _ _ _ s) in *.
  set (rd1 := vdev_off v rd).
  assert (pdevs s1 !! wlan_pdev r = Some rd1) as Hd1 by (cbn; by rewrite lookup_alter_eq, Hd).
  assert (get_hdr (OPdev (wlan_pdev r)) s1 = Some (pdev_hdr rd)) as Hh1 by (cbn -[s1]; by rewrite Hd1).
  eapply twp_vdev_free; [by apply vdevs_hset|exact Hd|exact Hp|by eapply listed_hset, inv_listed|done..| |done|done| |].
  - by eapply inv_releasable.
  - intros h' t Hd'. cbn. rewrite vdev_gone_hset, hset_set_trace. by eapply inv_hset.
  - intros Hone h' t Hd'. cbn. rewrite vdev_gone_hset.
    change (inv A e (hset (OPsoc (wlan_psoc rd)) h' t (pdev_gone (wlan_psoc rd1) (wlan_pdev_id rd1) (wlan_pdev r) s1))).
    eapply (inv_hset A e _ (OPsoc (wlan_psoc rd)) (psoc_hdr rp) h' 0); [|done| |done].
    + change (wlan_psoc rd) with (wlan_psoc rd1). change (wlan_pdev_id rd) with (wlan_pdev_id rd1).
      by apply (inv_pdev_gone_last A e s1 _ rd1 0).
    + cbn. by rewrite !lookup_alter_eq, Hp.
Qed.

Lemma inv_vdev_release A e s v id :
  inv A (bump e (OVdev v) id 1) s -> ledger_ok e -> is_Some (vdevs s !! v) ->
  twp (wlan_objmgr_vdev_release_ref v id) (fun _ => inv A e) s.
Proof.
  intros I He [r Hv]. assert (get_hdr (OVdev v) s = Some (vdev_hdr r)) as Hh by (cbn; by rewrite Hv).
  destruct (releasable_tests id (vdev_hdr r)) as [H1 H2]; [by eapply inv_releasable|].
  unfold wlan_objmgr_vdev_release_ref. eapply wpx_step; [by apply read_hdr_ret|]. rewrite H1, H2.
  eapply inv_dec_and_test; [done..|by apply inv_vdev_free].
Qed.

End Free.
