(* ===== verification/ObjPeer.v ===== *)
(** Freeing a peer, and the BSS peer and the VDEV with it if theirs was the last
    reference. *)
From S2P Require Import Prelude QdfTypes Obj ObjInv ObjLink ObjRun ObjFree.

Section PeerFree.
Context {E : objmgr_env}.
Implicit Types (s : objmgr_world) (o : objref) (h : wlan_objmgr_hdr) (p d v x id : nat).

(** One of several references on a VDEV. *)
Lemma twp_vdev_release_more v id h s Q :
  get_hdr (OVdev v) s = Some h -> listed s -> 1 <= refs_by h id -> 2 <= ref_cnt h ->
  (forall h' t, dropped id h h' -> obj_state h' = obj_state h -> Q tt (hset (OVdev v) h' t s)) ->
  twp (wlan_objmgr_vdev_release_ref v id) Q s.
Proof.
  intros Hh (g & Hg & _) Hr Hc Hdrop. unfold wlan_objmgr_vdev_release_ref.
  eapply wpx_step; [by apply read_hdr_ret|].
  rewrite (proj2 (Z.eqb_neq _ _)) by lia. rewrite (proj2 (Z.eqb_neq _ _)) by lia.
  eapply twp_dec_and_test; [done..|split_and!; [done|lia|lia]| |].
  - intros h' t Hd. apply Hdrop; [done|]. destruct Hd as (Hc' & _ & _ & [Hs|[Hz _]] & _); [done|lia].
  - intros Hone. lia.
Qed.

(** [wlan_objmgr_peer_obj_free], after the reference on the BSS peer is given back. *)
Definition peer_free_tail (psoc v x : nat) : M objmgr_world QDF_STATUS :=
  wlan_objmgr_vdev_get_ref v WLAN_OBJMGR_ID;;
  status ← wlan_objmgr_vdev_peer_detach v x;
  if bool_decide (status = QDF_STATUS_E_FAILURE) then
    wlan_objmgr_vdev_release_ref v WLAN_OBJMGR_ID;; mret QDF_STATUS_E_FAILURE
  else
    status ← wlan_objmgr_psoc_peer_detach psoc x;
    if bool_decide (status = QDF_STATUS_E_FAILURE) then
      wlan_objmgr_vdev_release_ref v WLAN_OBJMGR_ID;; mret QDF_STATUS_E_FAILURE
    else
      read_peer x;;
      modify (set_peers (delete x));; modify (emit (EvFree (OPeer x)));;
      wlan_objmgr_vdev_peer_freed_notify v;;
      wlan_objmgr_vdev_release_ref v WLAN_OBJMGR_ID;; mret QDF_STATUS_SUCCESS.

Lemma set_trace_trace t t' s : set_trace t (set_trace t' s) = set_trace t s.
Proof. done. Qed.

Lemma twp_freed_notify v s g Q :
  glob s = Some g -> (forall t, Q tt (set_trace t s)) ->
  twp (wlan_objmgr_vdev_peer_freed_notify v) Q s.
Proof.
  unfold wlan_objmgr_vdev_peer_freed_notify. generalize WLAN_UMAC_MAX_COMPONENTS 0%nat. intros n.
  revert s. induction n as [|n IH]; intros s comp Hg HQ; cbn [peer_freed_notify_loop].
  - apply wpx_mret. rewrite <- (set_trace_id s). apply HQ.
  - eapply wpx_step; [by apply read_glob_ret|]. destruct (_ !! comp).
    + apply wpx_modify_bind. by apply IH.
    + eapply wpx_step; [reflexivity|]. by apply IH.
Qed.

Section Tail.
Context s x (rx : wlan_objmgr_peer) (rv : wlan_objmgr_vdev) (rd : wlan_objmgr_pdev).
Context (rp : wlan_objmgr_psoc) (l : list nat).
Abbreviation v := (peer_vdev rx).
Abbreviation d := (wlan_pdev rv).
Abbreviation p := (wlan_psoc rd).
Abbreviation k := (WLAN_PEER_HASH (peer_macaddr rx)).

(** The peer is where it should be. *)
Record attached : Prop := {
  at_peer : peers s !! x = Some rx;
  at_vdev : vdevs s !! v = Some rv;
  at_pdev : pdevs s !! d = Some rd;
  at_psoc : psocs s !! p = Some rp;
  at_bucket : peer_hash rp !! k = Some l;
  at_hash : x ∈ l;
  at_list : x ∈ wlan_peer_list rv;
  at_vcount : vdev_peer_count rv <> 0%nat;
  at_pcount : psoc_peer_count rp <> 0%nat;
  at_vref : 1 <= refs_by (vdev_hdr rv) 0;
  at_vcnt : 1 <= ref_cnt (vdev_hdr rv);
  at_listed : listed s;
}.
Context (At : attached).

(** The VDEV's part of the removal, with the reference that guards it. *)
Definition peer_detached h t : objmgr_world :=
  hset (OVdev v) h t (set_vdevs (alter (peer_off x) v)
    (set_pdevs (alter (count_peer (peer_type rx) pred) d) s)).

Lemma twp_vdev_peer_detach Q :
  (forall h' t, same_refs (vdev_hdr rv) h' -> Q QDF_STATUS_SUCCESS (peer_detached h' t)) ->
  twp (wlan_objmgr_vdev_peer_detach v x) Q (upd_hdr (OVdev v) (add_ref 1 0) s).
Proof using At.
  intros HQ. destruct At as [Hx Hv Hd Hp Hl Hxl Hxv Hcv Hcp Hr Hc Hg].
  set (h1 := add_ref 1 0 (vdev_hdr rv)).
  set (s1 := upd_hdr _ _ s). set (rv1 := with_vdev_hdr (fun _ => h1) rv).
  assert (vdevs s1 !! v = Some rv1) as Hv1 by (cbn; by rewrite lookup_alter_eq, Hv).
  unfold wlan_objmgr_vdev_peer_detach. eapply wpx_step; [by apply read_vdev_ret|].
  rewrite (proj2 (Nat.eqb_neq (vdev_peer_count rv1) _) Hcv).
  set (self' := fun r => wlan_vdev_set_selfpeer (forget x (self_peer rv)) r).
  set (bss' := fun r => wlan_vdev_set_bsspeer (forget x (bss_peer rv)) r).
  assert (forall f a b (c : bool) s2 r2, vdevs s2 !! v = Some r2 -> (c = true -> a = f r2) ->
    (c = false -> a = r2) -> b = alter (fun _ => a) v (vdevs s2) ->
    (if c then write_vdev v f else mret tt) s2 = Ret tt (set_vdevs (fun _ => b) s2)) as Hif.
  { intros f a b [|] s2 r2 Hr2 Ha1 Ha2 ->.
    - rewrite (write_vdev_ret _ _ _ _ Hr2). f_equal. unfold set_vdevs. f_equal.
      apply alter_ext. intros r' Hr'. rewrite Hr2 in Hr'. injection Hr' as <-. by rewrite Ha1.
    - rewrite Ha2 by done. unfold mret, M_ret. f_equal. destruct s2; unfold set_vdevs; cbn. f_equal.
      symmetry. apply alter_id. intros r' Hr'. cbn in Hr2. congruence. }
  eapply wpx_step.
  { eapply (Hif _ (self' rv1)); [exact Hv1| | |reflexivity];
      intros Hcase; [apply bool_decide_eq_true in Hcase|apply bool_decide_eq_false in Hcase];
      cbn in Hcase; unfold self', forget.
    - by rewrite bool_decide_eq_true_2.
    - rewrite bool_decide_eq_false_2 by done. done. }
  set (s2 := set_vdevs _ s1).
  assert (vdevs s2 !! v = Some (self' rv1)) as Hv2 by (cbn -[s1]; by rewrite lookup_alter_eq, Hv1).
  eapply wpx_step.
  { eapply (Hif _ (bss' (self' rv1))); [exact Hv2| | |reflexivity];
      intros Hcase; [apply bool_decide_eq_true in Hcase|apply bool_decide_eq_false in Hcase];
      cbn in Hcase; unfold bss', forget.
    - by rewrite bool_decide_eq_true_2.
    - rewrite bool_decide_eq_false_2 by done. done. }
  set (s3 := set_vdevs _ s2).
  assert (vdevs s3 !! v = Some (bss' (self' rv1))) as Hv3 by (cbn -[s2]; by rewrite lookup_alter_eq, Hv2).
  change (wlan_peer_list rv1) with (wlan_peer_list rv).
  destruct (wlan_peer_list rv) as [|y ys] eqn:El; [by apply elem_of_nil in Hxv|]. rewrite <- El.
  rewrite <- El in Hxv.
  eapply wpx_step; [unfold list_del; by rewrite bool_decide_eq_true_2|].
  eapply wpx_step; [by eapply write_vdev_ret|].
  eapply wpx_step; [by apply read_peer_ret|].
  eapply wpx_step; [by eapply write_pdev_ret|].
  set (s4 := set_pdevs _ _).
  assert (s4 = peer_detached h1 (trace s)) as ->.
  { unfold s4, s3, s2, s1, peer_detached, hset, set_trace, set_vdevs, set_pdevs. cbn. f_equal.
    rewrite !alter_alter_eq. apply alter_ext. intros r' Hr'. rewrite Hv in Hr'. injection Hr' as <-.
    unfold bss', self', rv1, h1. cbn. done. }
  assert (get_hdr (OVdev v) (peer_detached h1 (trace s)) = Some h1) as Hh1.
  { unfold peer_detached. rewrite get_hdr_hset; [done|]. cbn. rewrite lookup_alter_eq, Hv. by eexists. }
  apply wpx_bind. eapply twp_vdev_release_more; [exact Hh1| | | |].
  - destruct Hg as (g & Hg & Hlen). exists g. by split.
  - unfold h1. change WLAN_OBJMGR_ID with 0%nat. rewrite refs_add_ref, bool_decide_eq_true_2 by done. lia.
  - unfold h1. cbn. lia.
  - intros h' t (Hc' & Ht' & Hr' & _) Hs'. apply wpx_mret. unfold peer_detached at 1. rewrite hset_hset.
    apply HQ. unfold h1 in *. split_and!; [done|rewrite Hc'; cbn; lia|rewrite Ht', total_add_ref; lia|].
    intros id. rewrite Hr', refs_add_ref. change WLAN_OBJMGR_ID with 0%nat. lia.
Qed.

Lemma twp_peer_tail Q :
  (forall h' t, same_refs (vdev_hdr rv) h' ->
     twp (wlan_objmgr_vdev_release_ref v WLAN_OBJMGR_ID) (fun _ => Q QDF_STATUS_SUCCESS)
       (hset (OVdev v) h' t (peer_gone p d v k x (peer_type rx) s))) ->
  twp (peer_free_tail p v x) Q s.
Proof using At.
  intros HQ. pose proof twp_vdev_peer_detach as Hdet.
  destruct At as [Hx Hv Hd Hp Hl Hxl Hxv Hcv Hcp Hr Hc Hg].
  unfold peer_free_tail. eapply wpx_step.
  { eapply write_hdr_ret. cbn. by rewrite Hv. }
  apply wpx_bind, Hdet. intros h' t Hh'. rewrite bool_decide_eq_false_2 by done.
  unfold wlan_objmgr_psoc_peer_detach. apply wpx_assoc.
  eapply wpx_step; [apply read_psoc_ret; exact Hp|]. rewrite (proj2 (Nat.eqb_neq _ _) Hcp).
  apply wpx_assoc. eapply wpx_step; [apply read_peer_ret; exact Hx|].
  apply wpx_assoc. eapply wpx_step; [by rewrite Hl|].
  destruct l as [|y ys] eqn:El; [by apply elem_of_nil in Hxl|]. rewrite <- El in *.
  apply wpx_assoc. eapply wpx_step; [unfold list_del; rewrite bool_decide_eq_true_2; [done|exact Hxl]|].
  apply wpx_assoc. eapply wpx_step; [eapply write_psoc_ret; exact Hp|].
  eapply wpx_step; [reflexivity|]. rewrite bool_decide_eq_false_2 by done.
  eapply wpx_step; [apply read_peer_ret; exact Hx|].
  do 2 apply wpx_modify_bind. destruct Hg as (g & Hg & Hlen). apply wpx_bind.
  eapply twp_freed_notify; [exact Hg|]. intros t'. apply wpx_bind.
  specialize (HQ h' t' Hh').
  replace (set_trace t' _) with (hset (OVdev v) h' t' (peer_gone p d v k x (peer_type rx) s)); [exact HQ|].
  unfold peer_detached, hset, peer_gone, set_trace, set_peers, set_psocs, set_vdevs, set_pdevs, emit. cbn.
  f_equal. apply alter_ext. intros r' Hr'. rewrite Hp in Hr'. injection Hr' as <-.
  unfold peer_out. by rewrite Hl.
Qed.

End Tail.

(** ** Two peers of a VDEV *)

Lemma unlink_unlink x b (l : list nat) : unlink x (unlink b l) = unlink b (unlink x l).
Proof. exact (filter_unlink _ b l). Qed.
Lemma forget_forget x b a : forget x (forget b a) = forget b (forget x a).
Proof. unfold forget. repeat case_bool_decide; congruence. Qed.
Lemma peer_out_hash k x t r : peer_hash (peer_out k x t r) = alter (unlink x) k (peer_hash r).
Proof.
  cbn. rewrite list_insert_alter. apply list_alter_ext; [|done]. intros l Hl. by rewrite Hl.
Qed.
Lemma peer_out_out k k' x b t t' r :
  peer_out k x t (peer_out k' b t' r) = peer_out k' b t' (peer_out k x t r).
Proof.
  assert (peer_hash (peer_out k x t (peer_out k' b t' r))
          = peer_hash (peer_out k' b t' (peer_out k x t r))) as Hh.
  { rewrite !peer_out_hash. destruct (decide (k = k')) as [->|Hne].
    - rewrite !list_alter_alter_eq. apply list_alter_ext; [|done]. intros l _. apply unlink_unlink.
    - by apply list_alter_alter_ne. }
  unfold peer_out, set_peer_hash in *. cbn in Hh |- *. rewrite Hh.
  by destruct (temporary t), (temporary t').
Qed.

Lemma peer_off_off x b f r :
  peer_off x (with_vdev_hdr f (peer_off b r)) = with_vdev_hdr f (peer_off b (peer_off x r)).
Proof.
  unfold peer_off, with_vdev_hdr. cbn -[unlink].
  by rewrite unlink_unlink, (forget_forget x b (self_peer r)), (forget_forget x b (bss_peer r)).
Qed.

Lemma world_ext s s' :
  glob s = glob s' -> psocs s = psocs s' -> pdevs s = pdevs s' -> vdevs s = vdevs s' ->
  peers s = peers s' -> next_addr s = next_addr s' -> trace s = trace s' -> s = s'.
Proof. destruct s, s'. cbn. congruence. Qed.

Lemma peer_gone_gone p d v k x t k' b t' h tr s :
  peer_gone p d v k x t (hset (OVdev v) h tr (peer_gone p d v k' b t' s))
  = hset (OVdev v) h tr (peer_gone p d v k' b t' (peer_gone p d v k x t s)).
Proof.
  apply world_ext; cbn; try done; rewrite ?alter_alter_eq.
  - apply alter_ext. intros r _. apply peer_out_out.
  - apply alter_ext. intros r _. unfold count_peer. cbn. by destruct (temporary t), (temporary t').
  - apply alter_ext. intros r _. apply peer_off_off.
  - apply delete_delete.
Qed.

Lemma peer_gone_hset_ne p d v k x t b h tr s :
  x <> b ->
  peer_gone p d v k x t (hset (OPeer b) h tr s) = hset (OPeer b) h tr (peer_gone p d v k x t s).
Proof. intros Hne. apply world_ext; cbn; try done. by rewrite delete_alter_ne. Qed.
Lemma peer_gone_hset p d v k x t h tr s :
  peer_gone p d v k x t (hset (OPeer x) h tr s) = set_trace tr (peer_gone p d v k x t s).
Proof. apply world_ext; cbn; try done. by rewrite delete_alter_eq. Qed.

(** ** A peer that holds no BSS peer *)

Section Plain.
Context s x (rx : wlan_objmgr_peer) (rv : wlan_objmgr_vdev) (rd : wlan_objmgr_pdev).
Context (rp : wlan_objmgr_psoc) (l : list nat) (At : attached s x rx rv rd rp l).
Abbreviation v := (peer_vdev rx).
Abbreviation gone := (peer_gone (wlan_psoc rd) (wlan_pdev rv) v (WLAN_PEER_HASH (peer_macaddr rx)) x
                        (peer_type rx)).

Lemma attached_hset h t : attached (hset (OPeer x) h t s) x (with_peer_hdr (fun _ => h) rx) rv rd rp l.
Proof using At. destruct At. constructor; try done. by apply peers_hset. Qed.

Lemma vdev_get_psoc_ret : wlan_vdev_get_psoc v s = Ret (wlan_psoc rd) s.
Proof using At.
  unfold wlan_vdev_get_psoc, wlan_pdev_get_psoc.
  rewrite (bind_ret _ _ _ _ _ (read_vdev_ret _ _ _ (at_vdev _ _ _ _ _ _ _ At))).
  by rewrite (bind_ret _ _ _ _ _ (read_pdev_ret _ _ _ (at_pdev _ _ _ _ _ _ _ At))).
Qed.

Lemma twp_plain_free rel Q :
  holds_bss (peer_type rx) = false ->
  (forall h' t, same_refs (vdev_hdr rv) h' ->
     twp (wlan_objmgr_vdev_release_ref v WLAN_OBJMGR_ID) (fun _ => Q QDF_STATUS_SUCCESS)
       (hset (OVdev v) h' t (gone s))) ->
  twp (peer_obj_free rel x) Q s.
Proof using At.
  intros Hb HQ. unfold peer_obj_free.
  eapply wpx_step; [by apply read_peer_ret, (at_peer _ _ _ _ _ _ _ At)|].
  eapply wpx_step; [apply vdev_get_psoc_ret|]. rewrite Hb. eapply wpx_step; [reflexivity|].
  exact (twp_peer_tail s x rx rv rd rp l At Q HQ).
Qed.

End Plain.

(** The reference of a holder on its BSS peer is given back; the VDEV outlives it. *)
Lemma twp_bss_release s b rb rv rd rp l n Q :
  attached s b rb rv rd rp l -> holds_bss (peer_type rb) = false ->
  releasable 0 (peer_hdr rb) -> 2 <= refs_by (vdev_hdr rv) 0 -> 2 <= ref_cnt (vdev_hdr rv) ->
  (forall h' t, dropped 0 (peer_hdr rb) h' -> Q tt (hset (OPeer b) h' t s)) ->
  (ref_cnt (peer_hdr rb) = 1 -> forall h' t, dropped 0 (vdev_hdr rv) h' ->
     Q tt (hset (OVdev (peer_vdev rb)) h' t
       (peer_gone (wlan_psoc rd) (wlan_pdev rv) (peer_vdev rb) (WLAN_PEER_HASH (peer_macaddr rb)) b
          (peer_type rb) s))) ->
  twp (wlan_objmgr_peer_release_ref (S n) (Some b) WLAN_OBJMGR_ID) Q s.
Proof.
  intros At Hb Hrel Hr2 Hc2 Hdrop Hgone. destruct (releasable_tests 0 _ Hrel) as [H1 H2].
  assert (get_hdr (OPeer b) s = Some (peer_hdr rb)) as Hh
    by (cbn; by rewrite (at_peer _ _ _ _ _ _ _ At)).
  cbn [wlan_objmgr_peer_release_ref]. unfold peer_release_ref.
  eapply wpx_step; [by apply read_hdr_ret|]. change WLAN_OBJMGR_ID with 0%nat. rewrite H1, H2.
  destruct (at_listed _ _ _ _ _ _ _ At) as (g & Hg & Hlen).
  eapply twp_dec_and_test; [done..|exact Hdrop|].
  intros Hone h' t.
  apply (twp_plain_free _ _ _ _ _ _ _ (attached_hset _ _ _ _ _ _ _ At h' t)); [done|]. cbn.
  intros hv tv Hhv. rewrite peer_gone_hset, hset_set_trace.
  eapply twp_vdev_release_more.
  - apply get_hdr_hset. cbn. rewrite lookup_alter_eq, (at_vdev _ _ _ _ _ _ _ At). by eexists.
  - apply listed_hset. by exists g.
  - destruct Hhv as (_ & _ & _ & ->). unfold WLAN_OBJMGR_ID. lia.
  - destruct Hhv as (_ & -> & _). lia.
  - intros hv' tv' (Hc' & Ht' & Hr' & _ & Hset') Hs'. rewrite hset_hset. apply Hgone; [done|].
    destruct Hhv as (Hs & Hc & Ht & Hr). split_and!; [by rewrite Hc', Hc|by rewrite Ht', Ht| | |done].
    + intros id. by rewrite Hr', Hr.
    + left. by rewrite Hs', Hs.
Qed.

(** ** From the invariant *)

Lemma peers_with_pos s Q b y v m t :
  peer_keys s !! y = Some (v, m, t) -> Q v = true -> temporary t = b -> peers_with s Q b <> 0%nat.
Proof.
  intros Hy HQ Ht. unfold peers_with. apply map_size_ne_0_lookup. exists y, (v, m, t).
  apply map_lookup_filter_Some. split; [done|]. cbn. rewrite HQ, Ht. by destruct b.
Qed.

Lemma temporary_holds t : temporary t = true -> holds_bss t = true.
Proof. by destruct t. Qed.

(** Where a peer is found; there is a regular peer if it is temporary. *)
Lemma inv_attached A e s x rx :
  inv A e s -> ledger_ok e -> peers s !! x = Some rx ->
  exists rv rd rp l, attached s x rx rv rd rp l
    /\ pdev_keys s !! wlan_pdev rv = Some (wlan_psoc rd, wlan_pdev_id rd)
    /\ own (vdev_hdr rv) + Z.of_nat (vdev_peer_count rv) <= refs_by (vdev_hdr rv) 0 <= ref_cnt (vdev_hdr rv).
Proof.
  intros I He Hx. assert (peer_keys s !! x = Some (peer_vdev rx, peer_macaddr rx, peer_type rx)) as Hk
    by (apply peer_keys_Some; eauto).
  destruct (inv_peer_parent _ _ _ I _ _ _ _ Hk) as [[d i] Hvk].
  pose proof Hvk as Hvk'. apply vdev_keys_Some in Hvk' as (rv & Hv & -> & ->).
  destruct (inv_vdev_chain _ _ _ _ _ I He Hv) as (rd & rp & Hd & Hp & _ & _ & _ & _ & Hdk & _).
  pose proof (inv_vdev _ _ _ I _ _ Hv) as V. pose proof (inv_psoc _ _ _ I _ _ Hp) as P.
  assert (x ∈ wlan_peer_list rv) as Hin by (apply (vdev_peers _ _ _ _ V); eauto).
  assert (vdev_slot s (peer_vdev rx) = Some (wlan_psoc rd, vdev_id rv)) as Hslot
    by (unfold vdev_slot; by rewrite Hvk, Hdk).
  destruct (proj2 (psoc_peers _ _ _ P (WLAN_PEER_HASH (peer_macaddr rx)) x)) as (l & Hl & Hxl).
  { unfold peer_slot. by rewrite Hk, Hslot. }
  assert (vdev_peer_count rv <> 0%nat) as Hvc.
  { rewrite (vdev_peer_cnt _ _ _ _ V). by destruct (wlan_peer_list rv); [apply elem_of_nil in Hin|]. }
  assert (psoc_peer_count rp <> 0%nat) as Hpc.
  { rewrite (psoc_peer_cnt _ _ _ P).
    assert (in_psoc s (wlan_psoc rd) (peer_vdev rx) = true) as Hq
      by (unfold in_psoc; rewrite Hslot; by apply bool_decide_eq_true).
    destruct (temporary (peer_type rx)) eqn:Ht; [|by eapply peers_with_pos].
    assert (holder s x = true) as Hh by (unfold holder; rewrite Hk; by apply temporary_holds).
    destruct (vdev_holders _ _ _ _ V x Hin Hh) as [b Hb].
    apply (vdev_bss _ _ _ _ V) in Hb as [Hb Hbh].
    apply (vdev_peers _ _ _ _ V) in Hb as (m & t & Hb).
    eapply peers_with_pos; [exact Hb|done|]. unfold holder in Hbh. rewrite Hb in Hbh.
    destruct (temporary t) eqn:Ht'; [|done]. by rewrite temporary_holds in Hbh. }
  assert (get_hdr (OVdev (peer_vdev rx)) s = Some (vdev_hdr rv)) as Hh by (cbn; by rewrite Hv).
  destruct (inv_hdr _ _ _ I _ _ Hh) as [H1 H2 H3 H4 H5].
  pose proof (total_ge _ 0 H2) as Ht. pose proof (H1 0%nat) as H0. cbn in H0. rewrite Hv in H0.
  pose proof (He (OVdev (peer_vdev rx)) 0%nat). unfold own in H0.
  assert (0 <= (if live (vdev_hdr rv) then 1 else 0)) by (by destruct (live _)).
  exists rv, rd, rp, l. split; [|split; [done|unfold own; lia]].
  constructor; try done; [lia|lia|by eapply inv_listed].
Qed.


Abbreviation gone_of s x rx rv rd :=
  (peer_gone (wlan_psoc rd) (wlan_pdev rv) (peer_vdev rx) (WLAN_PEER_HASH (peer_macaddr rx)) x
     (peer_type rx) s).

(** The removal of a peer that holds no reference. *)
Lemma inv_plain_gone A e s x rx rv rd rp l :
  inv A e s -> attached s x rx rv rd rp l ->
  pdev_keys s !! wlan_pdev rv = Some (wlan_psoc rd, wlan_pdev_id rd) ->
  holds_bss (peer_type rx) = false ->
  live (peer_hdr rx) = false -> (forall id, e (OPeer x) id = 0) -> kids s (OPeer x) = 0 ->
  inv A (bump e (OVdev (peer_vdev rx)) 0 1) (gone_of s x rx rv rd).
Proof.
  intros I At Hk Hb Hl He Hz. destruct At as [Hx Hv _ _ _ _ _ _ _ _ _ _].
  eapply inv_ext; [done| |by eapply inv_peer_gone].
  intros o id. unfold bss_bump. rewrite Hb. by destruct (bss_peer rv).
Qed.

Lemma inv_plain_gone_last A e s x rx rv rd rp l id :
  inv A (bump e (OPeer x) id 1) s -> ledger_ok e -> attached s x rx rv rd rp l ->
  pdev_keys s !! wlan_pdev rv = Some (wlan_psoc rd, wlan_pdev_id rd) ->
  holds_bss (peer_type rx) = false -> ref_cnt (peer_hdr rx) = 1 ->
  inv A (bump e (OVdev (peer_vdev rx)) 0 1) (gone_of s x rx rv rd).
Proof.
  intros I He At Hk Hb Hone. pose proof (at_peer _ _ _ _ _ _ _ At) as Hx.
  destruct (inv_last A e s (OPeer x) (peer_hdr rx) id I He) as (I1 & Hl & Hz & He0);
    [cbn; by rewrite Hx|done|].
  set (h0 := last_hdr id (peer_hdr rx)) in *.
  pose proof (inv_set_trace _ _ _ (trace s) I1) as I2.
  change (set_trace (trace s) (upd_hdr (OPeer x) (fun _ => h0) s)) with (hset (OPeer x) h0 (trace s) s) in I2.
  assert (inv A (bump e (OVdev (peer_vdev rx)) 0 1)
            (gone_of (hset (OPeer x) h0 (trace s) s) x rx rv rd)) as I3.
  { apply (inv_plain_gone A e _ x (with_peer_hdr (fun _ => h0) rx) rv rd rp l I2); try done.
    - by apply attached_hset.
    - rewrite <- Hz. apply (kids_upd (OPeer x) (fun _ => h0) s (OPeer x)). }
  rewrite peer_gone_hset in I3. exact (inv_set_trace _ _ _ (trace (gone_of s x rx rv rd)) I3).
Qed.

(** A VDEV whose header only changed its slots gives back a reference. *)
Lemma inv_vdev_hset_release A e s v h h' t :
  inv A (bump e (OVdev v) 0 1) s -> ledger_ok e -> get_hdr (OVdev v) s = Some h -> same_refs h h' ->
  twp (wlan_objmgr_vdev_release_ref v WLAN_OBJMGR_ID) (fun _ => inv A e) (hset (OVdev v) h' t s).
Proof.
  intros I He Hh Hs. apply inv_vdev_release; [|done|].
  - apply inv_set_trace. by eapply inv_same_refs.
  - cbn in Hh |- *. rewrite lookup_alter_eq. destruct (vdevs s !! v); [by eexists|done].
Qed.

Section Holder.
Context (A : objref -> bool) (e : ledger) s x (rx : wlan_objmgr_peer) (rv : wlan_objmgr_vdev) (rd : wlan_objmgr_pdev).
Context (rp : wlan_objmgr_psoc) (l : list nat) (b : nat) (rb : wlan_objmgr_peer) (lb : list nat).
Context (I : inv A e s) (He : ledger_ok e) (At : attached s x rx rv rd rp l).
Context (Atb : attached s b rb rv rd rp lb).
Context (Hk : pdev_keys s !! wlan_pdev rv = Some (wlan_psoc rd, wlan_pdev_id rd)).
Context (Hh : holds_bss (peer_type rx) = true) (Hbss : bss_peer rv = Some b).
Context (Hl : live (peer_hdr rx) = false) (He0 : forall id, e (OPeer x) id = 0).
Context (Hz : kids s (OPeer x) = 0).
(** The header of the holder as its components left it. *)
Context (hx : wlan_objmgr_hdr) (tx : list obj_event).
Abbreviation v := (peer_vdev rx).
Abbreviation s1 := (gone_of s x rx rv rd).
Abbreviation sx := (hset (OPeer x) hx tx s).

Lemma holder_bss : b <> x /\ peer_vdev rb = v /\ holds_bss (peer_type rb) = false.
Proof using All.
  destruct At as [Hx Hv _ _ _ _ Hxv _ _ _ _ _]. pose proof (at_peer _ _ _ _ _ _ _ Atb) as Hb.
  pose proof (inv_vdev _ _ _ I _ _ Hv) as V. destruct (vdev_bss _ _ _ _ V b Hbss) as [Hbv Hbh].
  assert (holder s x = true) as Hxh
    by (unfold holder; rewrite (peer_key s x rx Hx); done).
  assert (peer_keys s !! b = Some (peer_vdev rb, peer_macaddr rb, peer_type rb)) as Hbk
    by (apply peer_keys_Some; eauto).
  split_and!; [congruence| |].
  - apply (vdev_peers _ _ _ _ V) in Hbv as (m & t & Hbv). congruence.
  - unfold holder in Hbh. by rewrite Hbk in Hbh.
Qed.

(** Without the holder, the BSS peer and the VDEV have a reference to give back. *)
Lemma holder_gone : inv A (bump (bump e (OVdev v) 0 1) (OPeer b) 0 1) s1.
Proof using All.
  destruct At as [Hx Hv _ _ _ _ _ _ _ _ _ _].
  eapply inv_ext; [done| |by eapply inv_peer_gone].
  intros o id. unfold bss_bump. rewrite Hbss, Hh. apply bump_comm.
Qed.

Lemma holder_ledger : ledger_ok (bump e (OVdev v) 0 1).
Proof using He. by apply bump_nonneg. Qed.

Lemma holder_bss_hdr : get_hdr (OPeer b) s1 = Some (peer_hdr rb).
Proof using All.
  rewrite get_hdr_peer_gone, bool_decide_eq_false_2.
  - cbn. by rewrite (at_peer _ _ _ _ _ _ _ Atb).
  - intros [= E1]. by destruct holder_bss as [? _].
Qed.

(** The BSS peer is left, with a reference less. *)
Lemma holder_dropped h' t :
  dropped 0 (peer_hdr rb) h' ->
  twp (peer_free_tail (wlan_psoc rd) v x) (fun _ => inv A e) (hset (OPeer b) h' t sx).
Proof using All.
  intros Hd. destruct holder_bss as (Hne & _ & _). pose proof holder_gone as I1.
  assert (attached (hset (OPeer b) h' t sx) x (with_peer_hdr (fun _ => hx) rx) rv rd rp l) as At1.
  { pose proof (attached_hset _ _ _ _ _ _ _ At hx tx) as Atx. destruct Atx. constructor; try done.
    cbn. rewrite lookup_alter_ne by done. done. }
  apply (twp_peer_tail _ _ _ _ _ _ _ At1 (fun _ => inv A e)).
  intros hv tv Hhv. cbn [peer_vdev peer_macaddr peer_type with_peer_hdr].
  rewrite peer_gone_hset_ne by congruence. rewrite peer_gone_hset, hset_set_trace.
  eapply inv_vdev_hset_release; [|done| |exact Hhv].
  - eapply inv_hset; [exact I1|apply holder_ledger|apply holder_bss_hdr|done].
  - rewrite get_hdr_hset_ne by done. rewrite get_hdr_peer_gone. cbn.
    by rewrite (at_vdev _ _ _ _ _ _ _ At).
Qed.

(** The BSS peer goes first. *)
Lemma holder_bss_gone h' t :
  ref_cnt (peer_hdr rb) = 1 -> dropped 0 (vdev_hdr rv) h' ->
  1 <= refs_by h' 0 -> 1 <= ref_cnt h' ->
  twp (peer_free_tail (wlan_psoc rd) v x) (fun _ => inv A e)
    (hset (OVdev v) h' t (gone_of sx b rb rv rd)).
Proof using All.
  intros Hone Hd Hr Hc. destruct holder_bss as (Hne & Hbv & Hbh). pose proof holder_gone as I1.
  assert (live (peer_hdr rb) = false) as Hbl.
  { destruct (inv_last A (bump e (OVdev v) 0 1) s1 (OPeer b) (peer_hdr rb) 0 I1) as (_ & Hl' & _);
      [apply holder_ledger|apply holder_bss_hdr|done|done]. }
  assert (temporary (peer_type rx) = false) as Hreg.
  { destruct (temporary (peer_type rx)) eqn:Ht; [exfalso|done].
    pose proof (inv_vdev _ _ _ I _ _ (at_vdev _ _ _ _ _ _ _ At)) as V.
    assert (A (OPeer b) = true) as HA.
    { apply (vdev_temps _ _ _ _ V x b); [apply (at_list _ _ _ _ _ _ _ At)| |done].
      unfold temp. rewrite (peer_key s x rx (at_peer _ _ _ _ _ _ _ At)). done. }
    rewrite (inv_live _ _ _ I) in HA. unfold is_live in HA. cbn in HA.
    rewrite (at_peer _ _ _ _ _ _ _ Atb) in HA. cbn in HA. congruence. }
  (* the removal of the BSS peer keeps the invariant without the holder *)
  set (rv1 := peer_off x rv). set (rd1 := count_peer (peer_type rx) pred rd).
  set (k := WLAN_PEER_HASH (peer_macaddr rx)). set (kb := WLAN_PEER_HASH (peer_macaddr rb)).
  assert (peers s1 !! b = Some rb) as Hb1.
  { cbn. rewrite lookup_delete_ne by congruence. apply (at_peer _ _ _ _ _ _ _ Atb). }
  destruct (inv_attached _ _ _ _ _ I1 (bump_nonneg _ (OPeer b) 0 1 holder_ledger ltac:(lia)) Hb1)
    as (rv1' & rd1' & rp1 & lb1 & Atb1 & Hk1 & _).
  assert (rv1' = rv1) as ->.
  { pose proof (at_vdev _ _ _ _ _ _ _ Atb1) as Hv1. rewrite Hbv in Hv1. cbn in Hv1.
    rewrite lookup_alter_eq, (at_vdev _ _ _ _ _ _ _ At) in Hv1. by injection Hv1. }
  assert (rd1' = rd1) as ->.
  { pose proof (at_pdev _ _ _ _ _ _ _ Atb1) as Hd1. cbn in Hd1.
    rewrite lookup_alter_eq, (at_pdev _ _ _ _ _ _ _ At) in Hd1. by injection Hd1. }
  assert (rp1 = peer_out k x (peer_type rx) rp) as ->.
  { pose proof (at_psoc _ _ _ _ _ _ _ Atb1) as Hp1. cbn in Hp1.
    rewrite lookup_alter_eq, (at_psoc _ _ _ _ _ _ _ At) in Hp1. by injection Hp1. }
  pose proof (inv_plain_gone_last _ _ _ _ _ _ _ _ _ 0 I1 holder_ledger Atb1 Hk1 Hbh Hone) as I2.
  rewrite Hbv in I2. cbn [rd1 rv1 peer_off count_peer wlan_psoc wlan_pdev] in I2.
  set (s2 := peer_gone _ _ _ _ b _ s1) in I2.
  (* where the holder is when the BSS peer has gone *)
  assert (attached (hset (OVdev v) h' t (gone_of sx b rb rv rd)) x (with_peer_hdr (fun _ => hx) rx)
            (with_vdev_hdr (fun _ => h') (peer_off b rv)) (count_peer (peer_type rb) pred rd)
            (peer_out kb b (peer_type rb) rp)
            (if decide (k = kb) then unlink b l else l)) as At1.
  { destruct At as [Hx Hv Hpd Hp Hlk Hxl Hxv Hvc Hpc _ _ Hg].
    pose proof (at_list _ _ _ _ _ _ _ Atb) as Hbvl.
    pose proof (at_vcount _ _ _ _ _ _ _ Atb1) as Hvc1. pose proof (at_pcount _ _ _ _ _ _ _ Atb1) as Hpc1.
    cbn in Hvc1, Hpc1. rewrite Hreg in Hpc1. rewrite Hbv.
    constructor; cbn -[peer_out]; rewrite ?lookup_alter_eq, ?Hv, ?Hpd, ?Hp; try done.
    - by rewrite lookup_delete_ne, lookup_alter_eq, Hx.
    - rewrite peer_out_hash, list_lookup_alter. unfold k in *. rewrite Hlk.
      destruct (decide (WLAN_PEER_HASH (peer_macaddr rx) = kb)) as [E1|E1].
      + by rewrite decide_True, <- E1, Hlk by done.
      + by rewrite decide_False by congruence.
    - destruct (decide _); [|done]. by apply elem_of_unlink.
    - by apply elem_of_unlink.
    - cbn. destruct (temporary (peer_type rb)) eqn:Ht; [|done].
      by rewrite temporary_holds in Hbh. }
  pose proof (twp_peer_tail _ _ _ _ _ _ _ At1 (fun _ => inv A e)) as Htail.
  cbn [count_peer wlan_psoc] in Htail. apply Htail. clear Htail.
  intros hv tv Hhv. cbn [with_vdev_hdr vdev_hdr peer_off wlan_pdev] in Hhv |- *.
  cbn [peer_vdev peer_macaddr peer_type with_peer_hdr].
  rewrite Hbv, peer_gone_gone, peer_gone_hset. fold k kb.
  eapply inv_vdev_hset_release; [|done| |exact Hhv].
  - change (inv A (bump e (OVdev v) 0 1) (hset (OVdev v) h' t s2)).
    eapply (inv_hset A (bump e (OVdev v) 0 1) s2); [exact I2|apply holder_ledger| |exact Hd].
    unfold s2. rewrite !get_hdr_peer_gone. cbn. by rewrite (at_vdev _ _ _ _ _ _ _ At).
  - apply get_hdr_hset. rewrite !get_hdr_peer_gone. cbn. rewrite lookup_alter_eq, (at_vdev _ _ _ _ _ _ _ At). by eexists.
Qed.

End Holder.

Lemma inv_peer_free A e x n :
  ledger_ok e -> frees A e (OPeer x) (peer_obj_free (wlan_objmgr_peer_release_ref (S n)) x).
Proof.
  intros He s h hx tx I Hh Hz0. destruct (count_zero _ _ _ _ _ I Hh Hz0) as (Hl & Hz & He0); [by apply He|].
  cbn in Hh. destruct (peers s !! x) as [rx|] eqn:Hx; [|done]. injection Hh as <-.
  destruct (inv_attached _ _ _ _ _ I He Hx) as (rv & rd & rp & l & At & Hk & Hrefs).
  destruct (holds_bss (peer_type rx)) eqn:Hb.
  2:{ apply (twp_plain_free _ _ _ _ _ _ _ (attached_hset _ _ _ _ _ _ _ At hx tx)); [done|].
      intros h' t Hs. cbn. rewrite peer_gone_hset, hset_set_trace.
      eapply inv_vdev_hset_release; [by eapply inv_plain_gone|done| |exact Hs].
      rewrite get_hdr_peer_gone. cbn. by rewrite (at_vdev _ _ _ _ _ _ _ At). }
  pose proof (inv_vdev _ _ _ I _ _ (at_vdev _ _ _ _ _ _ _ At)) as V.
  assert (holder s x = true) as Hxh.
  { unfold holder, peer_keys. by rewrite lookup_fmap, Hx. }
  destruct (vdev_holders _ _ _ _ V x (at_list _ _ _ _ _ _ _ At) Hxh) as [b Hbss].
  destruct (vdev_bss _ _ _ _ V b Hbss) as [Hbv Hbh].
  apply (vdev_peers _ _ _ _ V) in Hbv as (m & t & Hbk). pose proof Hbk as Hbk'.
  apply peer_keys_Some in Hbk' as (rb & Hrb & Hbv & -> & ->).
  destruct (inv_attached _ _ _ _ _ I He Hrb) as (rv' & rd' & rp' & lb & Atb & _ & _).
  assert (rv' = rv) as -> by (pose proof (at_vdev _ _ _ _ _ _ _ At); pose proof (at_vdev _ _ _ _ _ _ _ Atb); congruence).
  assert (rd' = rd) as -> by (pose proof (at_pdev _ _ _ _ _ _ _ At); pose proof (at_pdev _ _ _ _ _ _ _ Atb); congruence).
  assert (rp' = rp) as -> by (pose proof (at_psoc _ _ _ _ _ _ _ At); pose proof (at_psoc _ _ _ _ _ _ _ Atb); congruence).
  destruct (holder_bss A e s x rx rv rd rp l b rb lb) as (Hne & _ & Hbn); try done.
  assert (2 <= Z.of_nat (vdev_peer_count rv)) as Hcnt.
  { rewrite (vdev_peer_cnt _ _ _ _ V).
    rewrite (length_unlink x _ (vdev_nodup _ _ _ _ V) (at_list _ _ _ _ _ _ _ At)).
    assert (b ∈ unlink x (wlan_peer_list rv)) as Hin.
    { apply elem_of_unlink. split; [done|apply (at_list _ _ _ _ _ _ _ Atb)]. }
    destruct (unlink x (wlan_peer_list rv)); [by apply elem_of_nil in Hin|]. cbn. lia. }
  assert (0 <= own (vdev_hdr rv)) as Hown by (unfold own; destruct (live (vdev_hdr rv)); done).
  unfold peer_obj_free.
  pose proof (attached_hset _ _ _ _ _ _ _ At hx tx) as Atx.
  eapply wpx_step; [apply read_peer_ret, (at_peer _ _ _ _ _ _ _ Atx)|].
  eapply wpx_step; [exact (vdev_get_psoc_ret _ _ _ _ _ _ _ Atx)|].
  cbn [peer_vdev peer_type with_peer_hdr].
  rewrite Hb. apply wpx_assoc. eapply wpx_step; [apply read_vdev_ret, (at_vdev _ _ _ _ _ _ _ Atx)|].
  rewrite Hbss. apply wpx_bind.
  assert (holder_gone_at : inv A (bump (bump e (OVdev (peer_vdev rx)) 0 1) (OPeer b) 0 1) (gone_of s x rx rv rd))
    by (by eapply holder_gone).
  assert (attached (hset (OPeer x) hx tx s) b rb rv rd rp lb) as Atbx.
  { destruct Atb. constructor; try done. cbn. by rewrite lookup_alter_ne. }
  apply (twp_bss_release _ b rb rv rd rp lb n); try done; try lia.
  - eapply inv_releasable; [exact holder_gone_at|intros; by apply bump_nonneg|].
    by eapply holder_bss_hdr.
  - intros h' t' Hd. by eapply holder_dropped.
  - intros Hone h' t' Hd. replace (OVdev (peer_vdev rb)) with (OVdev (peer_vdev rx)) by (by rewrite Hbv).
    pose proof (holder_bss_gone A e s x rx rv rd rp l b rb lb I He At Atb Hk Hb Hbss Hl He0 Hz
                  hx tx h' t' Hone Hd) as Hlast.
    apply Hlast; destruct Hd as (Hc' & _ & Hr' & _);
      [rewrite Hr', bool_decide_eq_true_2 by done|]; lia.
Qed.

Lemma inv_peer_release A e s x id n :
  inv A (bump e (OPeer x) id 1) s -> ledger_ok e -> is_Some (peers s !! x) ->
  twp (wlan_objmgr_peer_release_ref (S (S n)) (Some x) id) (fun _ => inv A e) s.
Proof.
  intros I He [r Hx]. assert (get_hdr (OPeer x) s = Some (peer_hdr r)) as Hh by (cbn; by rewrite Hx).
  destruct (releasable_tests id (peer_hdr r)) as [H1 H2]; [by eapply inv_releasable|].
  cbn [wlan_objmgr_peer_release_ref]. unfold peer_release_ref at 1.
  eapply wpx_step; [by apply read_hdr_ret|]. rewrite H1, H2.
  eapply inv_dec_and_test; [done..|by apply inv_peer_free].
Qed.

End PeerFree.
