(* ===== verification/ObjStep.v ===== *)
(** The operations of the clients, one by one: deletion, references, the components'
    private objects, creation, lookups; each runs to its end and keeps the invariant. *)
From S2P Require Import Prelude QdfTypes Obj ObjInv ObjLink ObjRun ObjFree ObjPeer.

Section Step.
Context {E : objmgr_env}.
Implicit Types (s : objmgr_world) (o : objref) (h : wlan_objmgr_hdr) (p d v x id comp : nat).

(** ** Any object *)

Definition obj_free o : M objmgr_world QDF_STATUS :=
  match o with
  | OPsoc p => wlan_objmgr_psoc_obj_free p
  | OPdev d => wlan_objmgr_pdev_obj_free d
  | OVdev v => wlan_objmgr_vdev_obj_free v
  | OPeer x => wlan_objmgr_peer_obj_free x
  end.
Definition release_ref o id : M objmgr_world unit :=
  match o with
  | OPsoc p => wlan_objmgr_psoc_release_ref p id
  | OPdev d => wlan_objmgr_pdev_release_ref d id
  | OVdev v => wlan_objmgr_vdev_release_ref v id
  | OPeer x => wlan_objmgr_peer_release_ref (S bss_depth) (Some x) id
  end.
Definition delete_obj o : M objmgr_world QDF_STATUS :=
  match o with
  | OPsoc p => wlan_objmgr_psoc_obj_delete p
  | OPdev d => wlan_objmgr_pdev_obj_delete d
  | OVdev v => wlan_objmgr_vdev_obj_delete v
  | OPeer x => wlan_objmgr_peer_obj_delete x
  end.

Lemma get_hdr_at o s h : get_hdr o s = Some h ->
  match o with
  | OPsoc p => is_Some (psocs s !! p)
  | OPdev d => is_Some (pdevs s !! d)
  | OVdev v => is_Some (vdevs s !! v)
  | OPeer x => is_Some (peers s !! x)
  end.
Proof. destruct o; cbn; by destruct (_ !! _); [eexists|]. Qed.

Lemma inv_free A e o : ledger_ok e -> frees A e o (obj_free o).
Proof.
  intros He. destruct o as [p|d|v|x].
  - exact (inv_psoc_free A e p He).
  - exact (inv_pdev_free A e d He).
  - exact (inv_vdev_free A e v He).
  - exact (inv_peer_free A e x _ He).
Qed.

Lemma inv_release_ref A e s o h id :
  inv A (bump e o id 1) s -> ledger_ok e -> get_hdr o s = Some h ->
  twp (release_ref o id) (fun _ => inv A e) s.
Proof.
  intros I He Hh. apply get_hdr_at in Hh. destruct o; cbn [release_ref].
  - by apply inv_psoc_release.
  - by apply inv_pdev_release.
  - by apply inv_vdev_release.
  - by apply inv_peer_release.
Qed.

Lemma inv_obj_delete A e s o h :
  inv A e s -> ledger_ok e -> get_hdr o s = Some h -> live h = true -> deletable s o ->
  twp (delete_obj o) (fun _ => inv (mark A o false) e) s.
Proof.
  intros I He Hh Hl Hdel.
  replace (delete_obj o) with (obj_delete o (release_ref o WLAN_OBJMGR_ID)) by by destruct o.
  unfold obj_delete. eapply wpx_step; [by eapply write_hdr_ret|]. apply wpx_bind.
  eapply wpx_mono; [eapply inv_release_ref|].
  - by eapply inv_delete.
  - done.
  - rewrite get_hdr_upd, bool_decide_eq_true_2 by done. by rewrite Hh.
  - done.
Qed.

(** ** The components' private objects *)

Lemma inv_hset_same A e s o h h' t :
  inv A e s -> get_hdr o s = Some h -> same_refs h h' -> inv A e (hset o h' t s).
Proof. intros I Hh Hs. by eapply inv_set_trace, inv_same_refs. Qed.

(** A header that only moved to another state, live or not as before. *)
Lemma inv_hset_in A e s o h h' t st :
  inv A e s -> get_hdr o s = Some h -> same_refs_in st h h' -> live_state st = live h ->
  (closed st = true -> ref_cnt h = 0) -> live_state st || waiting st = true ->
  inv A e (hset o h' t s).
Proof.
  intros I Hh (Hs & Hc & Ht & Hr) Hl Hcl Hw. apply inv_set_trace.
  assert (live h' = live h) as Hl' by (unfold live at 1; by rewrite Hs).
  apply (inv_upd A e A e s o _ h I Hh); try done; [| |by left].
  - destruct (inv_hdr _ _ _ I o h Hh) as [H1 H2 H3 H4 H5]. constructor.
    + intros id. rewrite Hr, H1. unfold own. by rewrite Hl'.
    + intros id. by rewrite Hr.
    + by rewrite Hc, Ht.
    + rewrite Hs, Hc. done.
    + intros Hok Hz. rewrite Hs. destruct (waiting st); [done|]. rewrite orb_false_r in Hw.
      rewrite Hc in Hz. apply (H5 Hok) in Hz. rewrite Hw in Hl. unfold live in Hl.
      by destruct (obj_state h).
  - rewrite Hl', (inv_live _ _ _ I). by apply get_hdr_alive.
Qed.

Section Component.
Context A e s o h (I : inv A e s) (He : ledger_ok e) (Hh : get_hdr o s = Some h).

Lemma component_exists : is_Some (get_hdr o s).
Proof using Hh. eauto. Qed.

(** The slots have changed: the invariant goes on. *)
Lemma slots_inv h' t : same_refs h h' -> inv A e (hset o h' t s) /\ get_hdr o (hset o h' t s) = Some h'.
Proof using I Hh. intros Hs. split; [by eapply inv_hset_same|apply get_hdr_hset, component_exists]. Qed.

Lemma inv_component_attach comp priv status :
  twp (component_obj_attach o comp priv status) (fun _ => inv A e) s.
Proof using I He Hh.
  pose proof component_exists as Ho. destruct (inv_glob _ _ _ I) as (g & Hg & _).
  rewrite <- (hset_id o h s Hh). unfold component_obj_attach.
  eapply (slots_only_weaken o s); [apply same_refs_refl|by apply attach_slot_slots|].
  intros r h1 t1 Hs1. destruct (slots_inv h1 t1 Hs1) as [I1 Hh1].
  destruct (QDF_IS_STATUS_ERROR r); [done|]. apply twp_read_hset; [done|].
  case_bool_decide as Hpc; [done|]. apply twp_object_status_hset; [done|].
  assert (forall st k, live_state st = true ->
    twp (status_handlers_loop WLAN_UMAC_MAX_COMPONENTS 0 o k;; mret QDF_STATUS_SUCCESS)
      (fun _ => inv A e) (hset o (set_state st h1) t1 s)) as Hdone.
  { intros st k Hlive. eapply (slots_only_weaken o s); [apply same_refs_refl|by eapply status_loop_slots|].
    intros _ h2 t2 Hs2. apply wpx_mret. eapply inv_hset_in; [exact I|exact Hh| | | |].
    - eapply same_refs_in_trans; [|exact Hs2]. by apply same_refs_set_state.
    - rewrite Hlive. destruct Hs1 as (Hs1 & _). unfold live. rewrite <- Hs1, Hpc. done.
    - by destruct st.
    - by rewrite Hlive. }
  destruct (object_status_loop _ _ _); try done; apply twp_write_hset; try done; by apply Hdone.
Qed.

Lemma inv_component_detach comp priv :
  twp (component_obj_detach o comp priv (obj_free o)) (fun _ => inv A e) s.
Proof using I He Hh.
  pose proof component_exists as Ho.
  rewrite <- (hset_id o h s Hh). unfold component_obj_detach.
  eapply (slots_only_weaken o s); [apply same_refs_refl|by apply detach_slot_slots|].
  intros r h1 t1 Hs1. destruct (slots_inv h1 t1 Hs1) as [I1 Hh1].
  destruct (QDF_IS_STATUS_ERROR r); [done|]. apply twp_read_hset; [done|].
  assert (obj_state h1 = obj_state h) as Hst by apply Hs1.
  destruct (obj_state h1) eqn:Est; try done; apply twp_object_status_hset; try done.
  - assert (ref_cnt h = 0) as Hz by (apply (hdr_closed _ _ _ (inv_hdr _ _ _ I o h Hh)); by rewrite <- Hst).
    assert (live h = false) as Hl by (unfold live; by rewrite <- Hst).
    destruct (object_status_loop _ _ _); try done; apply twp_write_hset; try done.
    + by eapply inv_free.
    + eapply inv_hset_in; [exact I|exact Hh|by apply same_refs_set_state|by rewrite Hl|done|done].
  - assert (inv A e (hset o (set_state WLAN_OBJ_STATE_CREATED h1) t1 s)) as Hset.
    { eapply inv_hset_in; [exact I|exact Hh|by apply same_refs_set_state| |done|done].
      unfold live. by rewrite <- Hst. }
    destruct (object_status_loop _ _ _); try done; apply twp_write_hset; done.
Qed.

End Component.

(** What a live object's handler does leaves it live. *)
Lemma live_hdr A e s o : inv A e s -> A o = true -> exists h, get_hdr o s = Some h /\ live h = true.
Proof.
  intros I HA. rewrite (inv_live _ _ _ I) in HA. unfold is_live in HA.
  destruct (get_hdr o s) as [h|]; [by eauto|done].
Qed.

Lemma inv_run_handler_full A e s o comp f :
  inv A e s -> ledger_ok e -> A o = true ->
  twp (run_handler_full o comp f (obj_free o)) (fun _ => inv A e) s.
Proof.
  intros I He HA. destruct (live_hdr _ _ _ _ I HA) as (h & Hh & _).
  unfold run_handler_full. apply wpx_gets_bind. destruct (h_slot _) as [|priv st|priv].
  - done.
  - apply wpx_assoc, wpx_bind. eapply wpx_mono; [by eapply inv_component_attach|]. done.
  - apply wpx_assoc, wpx_bind. eapply wpx_mono; [by eapply inv_component_detach|]. done.
Qed.

(** The end of both triggers. *)
Lemma inv_trigger_end A e s o comp status st :
  inv A e s -> A o = true -> live_state st = true ->
  twp (write_hdr o (set_status comp status);;
       h ← read_hdr o;
       if bool_decide (obj_state h = WLAN_OBJ_STATE_CREATED) then
         status ← object_status o;
         (if bool_decide (status = QDF_STATUS_COMP_ASYNC) then write_hdr o (set_state st) else mret ());;
         mret status
       else mret QDF_STATUS_SUCCESS) (fun _ => inv A e) s.
Proof.
  intros I HA Hst. destruct (live_hdr _ _ _ _ I HA) as (h & Hh & Hl).
  assert (is_Some (get_hdr o s)) as Ho by eauto.
  rewrite <- (hset_id o h s Hh). apply twp_write_hset; [done|]. apply twp_read_hset; [done|].
  assert (inv A e (hset o (set_status comp status h) (trace s) s)) as I1.
  { by eapply inv_hset_same. }
  case_bool_decide; [|done]. apply twp_object_status_hset; [done|].
  case_bool_decide; [|done]. apply twp_write_hset; [done|]. apply wpx_mret.
  eapply inv_hset_in; [exact I|exact Hh|by apply same_refs_set_state| |by destruct st|by rewrite Hst].
  by rewrite Hst, Hl.
Qed.

Lemma inv_trigger_creation A e s o comp :
  inv A e s -> ledger_ok e -> A o = true ->
  twp (trigger_creation o comp (obj_free o)) (fun _ => inv A e) s.
Proof.
  intros I He HA. destruct (live_hdr _ _ _ _ I HA) as (h & Hh & _).
  destruct (inv_glob _ _ _ I) as (g & Hg & _). unfold trigger_creation.
  destruct (_ <=? _)%nat; [done|]. eapply wpx_step; [by apply read_hdr_ret|].
  eapply wpx_step; [by apply read_glob_ret|]. destruct (comp_priv_obj h !! comp); [done|].
  destruct (create_handler g !! _) as [f|]; [|done].
  apply wpx_bind. eapply wpx_mono; [by apply inv_run_handler_full|]. intros st s' I'.
  by apply inv_trigger_end.
Qed.

Lemma inv_trigger_deletion A e s o comp :
  inv A e s -> ledger_ok e -> A o = true ->
  twp (trigger_deletion o comp (obj_free o)) (fun _ => inv A e) s.
Proof.
  intros I He HA. destruct (live_hdr _ _ _ _ I HA) as (h & Hh & _).
  destruct (inv_glob _ _ _ I) as (g & Hg & _). unfold trigger_deletion.
  destruct (_ <=? _)%nat; [done|]. eapply wpx_step; [by apply read_hdr_ret|].
  eapply wpx_step; [by apply read_glob_ret|]. destruct (comp_priv_obj h !! comp); [|done].
  destruct (destroy_handler g !! _) as [f|]; [|done].
  apply wpx_bind. eapply wpx_mono; [by apply inv_run_handler_full|]. intros st s' I'.
  by apply inv_trigger_end.
Qed.

(** ** References *)

Lemma inv_get_ref A e s o h id :
  inv A e s -> get_hdr o s = Some h -> ref_cnt h <> 0 ->
  twp (obj_get_ref (Some o) id) (fun _ => inv A (bump e o id 1)) s.
Proof.
  intros I Hh Hne. eapply wpx_eq; [by eapply write_hdr_ret|]. by eapply inv_take.
Qed.

Lemma live_count A e s o h :
  inv A e s -> ledger_ok e -> get_hdr o s = Some h -> live h = true -> ref_cnt h <> 0.
Proof.
  intros I He Hh Hl. pose proof (count_kids _ _ _ _ _ I Hh (He o)) as Hc.
  pose proof (kids_nonneg s o). pose proof (He o 0%nat). unfold own in Hc. rewrite Hl in Hc. lia.
Qed.

(** A reference is taken exactly when the object is created. *)
Lemma twp_try_get_ref A e s o h id :
  inv A e s -> ledger_ok e -> get_hdr o s = Some h ->
  twp (obj_try_get_ref (Some o) id) (fun status s' =>
    if bool_decide (obj_state h = WLAN_OBJ_STATE_CREATED)
    then status = QDF_STATUS_SUCCESS /\ s' = upd_hdr o (add_ref 1 id) s /\ inv A (bump e o id 1) s'
    else status = QDF_STATUS_E_RESOURCES /\ s' = s) s.
Proof.
  intros I He Hh. unfold obj_try_get_ref. eapply wpx_step; [by apply read_hdr_ret|].
  destruct (bool_decide (obj_state h = WLAN_OBJ_STATE_CREATED)) eqn:Hst.
  - apply bool_decide_eq_true in Hst. rewrite bool_decide_eq_false_2 by (intros H; by apply H).
    eapply wpx_step; [by eapply write_hdr_ret|]. apply wpx_mret. split_and!; [done..|].
    eapply inv_take; [done..|]. eapply live_count; [done..|]. unfold live. by rewrite Hst.
  - apply bool_decide_eq_false in Hst. by rewrite bool_decide_eq_true_2.
Qed.

End Step.
