(* ===== verification/ObjCreate.v ===== *)
(** Creating objects: on every path, failures included, the invariant holds. *)
From S2P Require Import Prelude QdfTypes Obj ObjInv ObjLink ObjRun ObjFree ObjPeer ObjStep.

Section Create.
Context {E : objmgr_env}.
Implicit Types (s : objmgr_world) (o : objref) (h : wlan_objmgr_hdr) (p d v x id comp : nat).

(** What a creation gives: an object of its caller, or nothing. *)
Definition created A e (K : nat -> objref) (r : option nat) s' : Prop :=
  match r with
  | Some n => inv (mark A (K n) true) e s' /\ A (K n) = false
  | None => inv A e s'
  end.

Lemma deletable_hset s o h t : deletable s o -> deletable (hset o h t s) o.
Proof.
  destruct o as [p|d|v|b]; try done; cbn.
  - intros H r. rewrite lookup_alter_eq. destruct (psocs s !! p) as [r0|]; [|done].
    intros [= <-]. exact (H r0 eq_refl).
  - intros H v r x Hr Hb Hx. rewrite <- (H v r x Hr Hb Hx). unfold temp.
    replace (peer_keys (hset (OPeer b) h t s)) with (peer_keys s); [done|].
    symmetry. by apply fmap_alter_same.
Qed.

Lemma unmark A o : A o = false -> forall o', A o' = mark (mark A o true) o false o'.
Proof. intros HA o'. unfold mark. case_bool_decide; congruence. Qed.

Lemma inv_create_tail A e s o h :
  inv (mark A o true) e s -> ledger_ok e -> A o = false ->
  get_hdr o s = Some h -> obj_state h = WLAN_OBJ_STATE_ALLOCATED -> deletable s o ->
  twp (obj_create_tail o (delete_obj o)) (fun ok s' =>
    if ok : bool then inv (mark A o true) e s' /\ exists h' t', s' = hset o h' t' s
    else inv A e s') s.
Proof.
  intros I He HA Hh Hst Hdel. destruct (inv_glob _ _ _ I) as (g & Hg & _).
  assert (is_Some (get_hdr o s)) as Ho by eauto. rewrite <- (hset_id o h s Hh) at 1.
  assert (live h = true) as Hl by (unfold live; by rewrite Hst).
  eapply twp_create_tail; [done|exact Hg|done| |].
  - intros st h' t' Hs Hr. split; [|by eauto].
    eapply inv_hset_in; [done|done|exact Hr| | |]; destruct Hs as [-> | ->]; done.
  - intros h' t' Hs. eapply wpx_mono; [eapply inv_obj_delete|].
    + by eapply inv_hset_same.
    + done.
    + by apply get_hdr_hset.
    + destruct Hs as (Hs & _). unfold live. by rewrite Hs, Hst.
    + by apply deletable_hset.
    + intros a s' I'. eapply inv_ext; [|done|exact I']. by apply unmark.
Qed.

(** Storage. *)
Lemma malloc_ret s :
  qdf_mem_malloc s
  = Ret (if malloc_ok (next_addr s) then Some (next_addr s) else None) (take_addr s).
Proof. done. Qed.

Lemma fresh_dead A e s o : inv A e s -> (next_addr s <= addr_of o)%nat -> A o = false.
Proof.
  intros I Hle. rewrite (inv_live _ _ _ I). unfold is_live. by rewrite (fresh_none _ _ _ _ I Hle).
Qed.

(** ** The psoc *)

Lemma first_free_slot index l i :
  first_free index l = Some i -> exists k, i = (index + k)%nat /\ l !! k = Some None.
Proof.
  revert index. induction l as [|[a|] l IH]; intros index; cbn; [done| |].
  - intros H. apply IH in H as (k & -> & Hk). exists (S k). split; [lia|done].
  - intros [= <-]. exists 0%nat. split; [lia|done].
Qed.

Lemma inv_psoc_create A e s :
  inv A e s -> ledger_ok e ->
  twp wlan_objmgr_psoc_obj_create (created A e OPsoc) s.
Proof.
  intros I He. unfold wlan_objmgr_psoc_obj_create. eapply wpx_step; [apply malloc_ret|].
  pose proof (inv_take_addr _ _ _ I) as I0.
  destruct (malloc_ok _); [|exact I0]. set (p := next_addr s).
  apply wpx_modify_bind.
  pose proof (fresh_dead A e s (OPsoc p) I (Nat.le_refl _)) as HA.
  pose proof (inv_psoc_new A e s p I eq_refl) as I1.
  eapply wpx_step.
  { eapply write_hdr_ret. cbn. by rewrite lookup_insert_eq. }
  replace (upd_hdr (OPsoc p) (add_ref 1 WLAN_OBJMGR_ID) (set_psocs <[p:=new_psoc]> (take_addr s)))
    with (psoc_new p s).
  2:{ apply world_ext; try done. cbn. by rewrite alter_insert_eq. }
  assert (get_hdr (OPsoc p) (psoc_new p s) = Some fresh_hdr) as Hh
    by (cbn; by rewrite lookup_insert_eq).
  apply wpx_bind. eapply wpx_mono.
  { apply (inv_create_tail A e (psoc_new p s) (OPsoc p) fresh_hdr I1 He HA Hh); [done|].
    intros r. cbn. rewrite lookup_insert_eq. by intros [= <-]. }
  intros [] s'; cbn [negb]; [|done]. intros [I2 (h' & t' & Hs')].
  destruct (inv_glob _ _ _ I2) as (g & Hg & Hlen & Hslots).
  unfold wlan_objmgr_psoc_object_attach. apply wpx_assoc. eapply wpx_step; [by apply read_glob_ret|].
  assert (exists r, psocs s' !! p = Some r /\ psoc_vdev_count r = 0%nat) as (r & Hp & Hz).
  { subst s'. cbn. rewrite lookup_alter_eq, lookup_insert_eq. eexists. by split. }
  destruct (first_free 0 (g_psoc g)) as [i|] eqn:Hfree.
  - apply wpx_assoc, wpx_modify_bind. apply wpx_assoc.
    eapply wpx_step; [eapply write_psoc_ret; exact Hp|]. eapply wpx_step; [reflexivity|].
    apply wpx_mret. split; [|done].
    apply first_free_slot in Hfree as (k & -> & Hk). cbn in Hk.
    apply (inv_psoc_listed (mark A (OPsoc p) true) e s' p k g I2 Hg Hk); [|by eexists].
    intros j Hj. subst s'. rewrite glob_hset in Hg.
    destruct (inv_glob _ _ _ I) as (g' & Hg' & _ & Hslots').
    assert (g' = g) as -> by (cbn in Hg; congruence).
    apply Hslots' in Hj. pose proof (fresh_none A e s (OPsoc p) I (Nat.le_refl _)) as Hn. cbn in Hn.
    by destruct (psocs s !! p).
  - eapply wpx_step; [reflexivity|]. cbn [QDF_IS_STATUS_ERROR QDF_IS_STATUS_SUCCESS negb].
    apply wpx_bind. change (wlan_objmgr_psoc_obj_delete p) with (delete_obj (OPsoc p)).
    destruct (live_hdr _ _ _ (OPsoc p) I2 (mark_same _ _ _)) as (h & Hh2 & Hl).
    eapply wpx_mono; [eapply (inv_obj_delete _ _ _ _ _ I2 He Hh2 Hl)|].
    + intros r0 Hr0. rewrite Hp in Hr0. by injection Hr0 as <-.
    + intros a s'' I'. apply wpx_mret. cbn. eapply inv_ext; [|done|exact I']. by apply unmark.
Qed.

(** ** The pdev *)

Lemma inv_pdev_create A e s p rp :
  inv A e s -> ledger_ok e -> psocs s !! p = Some rp -> ref_cnt (psoc_hdr rp) <> 0 ->
  twp (wlan_objmgr_pdev_obj_create p) (created A e OPdev) s.
Proof.
  intros I He Hp Href. unfold wlan_objmgr_pdev_obj_create. eapply wpx_step; [apply malloc_ret|].
  pose proof (inv_take_addr _ _ _ I) as I0.
  destruct (malloc_ok _); [|exact I0]. set (d := next_addr s).
  pose proof (fresh_dead A e s (OPdev d) I (Nat.le_refl _)) as HA.
  assert (pdevs s !! d = None) as Hnone.
  { pose proof (fresh_none A e s (OPdev d) I (Nat.le_refl _)) as H. cbn in H. by destruct (pdevs s !! d). }
  eapply wpx_step; [apply read_psoc_ret; exact Hp|]. apply wpx_modify_bind.
  unfold wlan_objmgr_psoc_pdev_attach. apply wpx_assoc.
  eapply wpx_step; [apply read_psoc_ret; exact Hp|].
  destruct (first_free_id WLAN_UMAC_MAX_PDEVS 0 (wlan_pdev_id_map rp)) as [i|] eqn:Hi.
  2:{ eapply wpx_step; [reflexivity|]. cbn [QDF_IS_STATUS_ERROR QDF_IS_STATUS_SUCCESS negb].
      apply wpx_modify_bind. apply wpx_mret. cbn [created].
      replace (set_pdevs _ _) with (take_addr s); [exact I0|].
      apply world_ext; try done. cbn. by rewrite delete_insert_id. }
  pose proof (inv_psoc _ _ _ I _ _ Hp) as P.
  apply (free_slot _ (wlan_pdev_list rp)) in Hi; [|apply P|apply P].
  apply wpx_assoc. eapply wpx_step; [eapply write_psoc_ret; exact Hp|].
  apply wpx_assoc. eapply wpx_step.
  { eapply write_pdev_ret. cbn. by rewrite lookup_insert_eq. }
  apply wpx_assoc. eapply wpx_step.
  { eapply write_hdr_ret. cbn. by rewrite lookup_alter_eq, Hp. }
  eapply wpx_step; [reflexivity|]. cbn [QDF_IS_STATUS_ERROR QDF_IS_STATUS_SUCCESS negb].
  eapply wpx_step.
  { eapply write_hdr_ret. cbn. by rewrite lookup_alter_eq, lookup_insert_eq. }
  pose proof (inv_pdev_new A e s p i d rp I Hp eq_refl Hi) as I1.
  set (s1 := pdev_new p i d (psoc_max_peer_count rp) s) in *.
  assert (get_hdr (OPsoc p) s1 = Some (psoc_hdr rp)) as Hhp
    by (cbn; by rewrite lookup_alter_eq, Hp).
  pose proof (inv_take _ _ _ _ _ 0 I1 Hhp Href) as I2.
  replace (upd_hdr (OPdev d) _ _) with (upd_hdr (OPsoc p) (add_ref 1 0) s1).
  2:{ apply world_ext; try done. cbn. by rewrite !alter_insert_eq. }
  apply wpx_bind. eapply wpx_mono.
  { eapply (inv_create_tail A e _ (OPdev d) fresh_hdr).
    - eapply inv_ext; [done| |exact I2]. intros o id. unfold bump. case_bool_decide; lia.
    - done.
    - done.
    - cbn. by rewrite lookup_insert_eq.
    - done.
    - done. }
  intros [] s'; [|done]. intros [I3 _]. by split.
Qed.

(** ** The vdev *)

Lemma vdev_slot_restored i v r :
  psoc_vdev_list r !! i = Some None -> is_bit (wlan_vdev_id_map r) (psoc_vdev_list r) ->
  set_vdev_slot i None (set_vdev_slot i (Some v) r) = r.
Proof.
  intros Hi Hb. destruct r. unfold set_vdev_slot. cbn in *. f_equal.
  - apply Z.bits_inj'. intros n Hn. rewrite Z.clearbit_eqb, Z.setbit_eqb by lia.
    destruct (Z.eqb_spec (Z.of_nat i) n) as [<-|]; cbn; [|by rewrite andb_true_r].
    apply Hb in Hi. by rewrite Hi, bool_decide_eq_false_2 by (intros []; done).
  - rewrite list_insert_insert_eq. by apply list_insert_id.
Qed.

Lemma inv_vdev_create A e s d rd params :
  inv A e s -> ledger_ok e -> pdevs s !! d = Some rd -> ref_cnt (pdev_hdr rd) <> 0 ->
  A (OPsoc (wlan_psoc rd)) = true ->
  twp (wlan_objmgr_vdev_obj_create d params) (created A e OVdev) s.
Proof.
  intros I He Hd Href Hlive. unfold wlan_objmgr_vdev_obj_create.
  eapply wpx_step.
  { unfold wlan_pdev_get_psoc. by rewrite (bind_ret _ _ _ _ _ (read_pdev_ret _ _ _ Hd)). }
  set (p := wlan_psoc rd) in *.
  eapply wpx_step; [apply malloc_ret|].
  pose proof (inv_take_addr _ _ _ I) as I0. pose proof (inv_take_addr _ _ _ I0) as I0'.
  pose proof (inv_take_addr _ _ _ I0') as I0''.
  destruct (malloc_ok (next_addr s)); [|exact I0]. set (v := next_addr s).
  eapply wpx_step; [apply malloc_ret|].
  destruct (malloc_ok (next_addr (take_addr s))); [|eapply wpx_step; [reflexivity|]; exact I0'].
  eapply wpx_step; [apply malloc_ret|].
  destruct (malloc_ok _); [|exact I0''].
  set (s0 := take_addr (take_addr (take_addr s))) in *.
  pose proof (fresh_dead A e s (OVdev v) I (Nat.le_refl _)) as HA.
  assert (vdevs s !! v = None) as Hnone.
  { pose proof (fresh_none A e s (OVdev v) I (Nat.le_refl _)) as H. cbn in H. by destruct (vdevs s !! v). }
  eapply wpx_step; [apply read_pdev_ret; exact Hd|]. apply wpx_modify_bind.
  set (max := if bool_decide _ then _ else _).
  destruct (inv_pdev_psoc _ _ _ _ _ I Hd) as (rp & Hp & _ & Hdk). fold p in Hp, Hdk.
  unfold wlan_objmgr_psoc_vdev_attach. apply wpx_assoc.
  eapply wpx_step; [apply read_psoc_ret; exact Hp|].
  destruct (first_free_id WLAN_UMAC_PSOC_MAX_VDEVS 0 (wlan_vdev_id_map rp)) as [i|] eqn:Hi.
  2:{ eapply wpx_step; [reflexivity|]. cbn [QDF_IS_STATUS_ERROR QDF_IS_STATUS_SUCCESS negb].
      apply wpx_modify_bind. apply wpx_mret. cbn [created].
      replace (set_vdevs _ _) with s0; [exact I0''|].
      apply world_ext; try done. cbn. by rewrite delete_insert_id. }
  pose proof (inv_psoc _ _ _ I _ _ Hp) as P.
  apply (free_slot _ (psoc_vdev_list rp)) in Hi; [|apply P|apply P].
  apply wpx_assoc. eapply wpx_step; [eapply write_psoc_ret; exact Hp|].
  apply wpx_assoc. eapply wpx_step.
  { eapply write_vdev_ret. cbn. by rewrite lookup_insert_eq. }
  eapply wpx_step; [reflexivity|]. cbn [QDF_IS_STATUS_ERROR QDF_IS_STATUS_SUCCESS negb].
  unfold wlan_objmgr_pdev_vdev_attach. apply wpx_assoc.
  eapply wpx_step; [apply read_pdev_ret; exact Hd|].
  destruct (Nat.leb_spec (pdev_max_vdev_count rd) (pdev_vdev_count rd)) as [Hge|Hlt].
  { eapply wpx_step; [reflexivity|]. cbn [QDF_IS_STATUS_ERROR QDF_IS_STATUS_SUCCESS negb].
    unfold wlan_objmgr_psoc_vdev_detach. apply wpx_assoc.
    eapply wpx_step.
    { apply read_vdev_ret. cbn. by rewrite lookup_alter_eq, lookup_insert_eq. }
    apply wpx_assoc. eapply wpx_step.
    { apply read_psoc_ret. cbn. by rewrite lookup_alter_eq, Hp. }
    cbn [set_vdev_id vdev_id].
    apply lookup_lt_Some in Hi as Hlt. rewrite (psoc_vdev_len _ _ _ P) in Hlt.
    rewrite (proj2 (Nat.leb_gt _ _) Hlt).
    apply wpx_assoc. eapply wpx_step.
    { eapply write_psoc_ret. cbn. by rewrite lookup_alter_eq, Hp. }
    apply wpx_assoc. eapply wpx_step.
    { eapply write_vdev_ret. cbn. by rewrite lookup_alter_eq, lookup_insert_eq. }
    eapply wpx_step; [reflexivity|]. apply wpx_modify_bind. apply wpx_mret. cbn [created].
    replace (set_vdevs _ _) with s0; [exact I0''|].
    apply world_ext; try done; cbn.
    - rewrite alter_alter_eq. symmetry. apply alter_id. intros r Hr. fold p in Hr.
      rewrite Hp in Hr. injection Hr as <-. apply vdev_slot_restored; [done|apply P].
    - by rewrite !delete_alter_eq, delete_insert_id. }
  apply wpx_assoc. eapply wpx_step; [eapply write_pdev_ret; exact Hd|].
  apply wpx_assoc. eapply wpx_step.
  { eapply write_hdr_ret. cbn. by rewrite lookup_alter_eq, Hd. }
  eapply wpx_step; [reflexivity|]. cbn [QDF_IS_STATUS_ERROR QDF_IS_STATUS_SUCCESS negb].
  eapply wpx_step.
  { eapply write_hdr_ret. cbn. by rewrite lookup_alter_eq, lookup_insert_eq. }
  assert (inv (mark A (OVdev v) true) (bump e (OPdev d) 0 (-1)) (vdev_new p i d v params max s0)) as I1.
  { eapply (inv_vdev_new A e s0 p i (wlan_pdev_id rd) d v rp rd); try done. cbn. unfold v. lia. }
  set (s1 := vdev_new p i d v params max s0) in *.
  assert (get_hdr (OPdev d) s1 = Some (pdev_hdr rd)) as Hhd
    by (cbn; by rewrite lookup_alter_eq, Hd).
  pose proof (inv_take _ _ _ _ _ 0 I1 Hhd Href) as I2.
  replace (upd_hdr (OVdev v) _ _) with (upd_hdr (OPdev d) (add_ref 1 0) s1).
  2:{ apply world_ext; try done; cbn.
      - rewrite !alter_alter_eq. apply alter_ext. intros r Hr. rewrite Hd in Hr. by injection Hr as <-.
      - by rewrite !alter_insert_eq. }
  apply wpx_bind. eapply wpx_mono.
  { eapply (inv_create_tail A e _ (OVdev v) fresh_hdr).
    - eapply inv_ext; [done| |exact I2]. intros o id. unfold bump. case_bool_decide; lia.
    - done.
    - done.
    - cbn. by rewrite lookup_insert_eq.
    - done.
    - done. }
  intros [] s'; [|done]. intros [I3 _]. by split.
Qed.

(** ** The peer *)

Lemma unlink_app_last x (l : list nat) : x ∉ l -> unlink x (l ++ [x]) = l.
Proof.
  intros Hx. unfold unlink. rewrite List.filter_app. cbn. rewrite bool_decide_eq_true_2 by done.
  cbn. rewrite app_nil_r. by apply unlink_id.
Qed.

Lemma peer_restored k x t r l :
  peer_hash r !! k = Some l -> x ∉ l ->
  set_peer_hash k (unlink x (l ++ [x])) t pred (set_peer_hash k (l ++ [x]) t S r) = r.
Proof.
  intros Hl Hx. destruct r. unfold set_peer_hash. cbn in *. rewrite unlink_app_last by done.
  rewrite list_insert_insert_eq, list_insert_id by done. by destruct (temporary t).
Qed.

(** What its caller must see to: one BSS peer at a time, that the peers which need it
    can still refer to. *)
Record peer_allowed (A : objref -> bool) s (rv : wlan_objmgr_vdev) (t : wlan_peer_type) (mac : list Z)
  : Prop := {
  pa_sets : sets_bsspeer rv t mac = true -> bss_peer rv = None /\ holds_bss t = false;
  pa_holds : holds_bss t = true -> exists b rb, bss_peer rv = Some b /\ peers s !! b = Some rb
               /\ ref_cnt (peer_hdr rb) <> 0;
  pa_temp : temporary t = true -> forall b, bss_peer rv = Some b -> A (OPeer b) = true;
}.

(** A BSS peer that no peer holds may be deleted. *)
Lemma no_kids_deletable A e s x : inv A e s -> kids s (OPeer x) = 0 -> deletable s (OPeer x).
Proof.
  intros I Hz v r y Hv Hb Hy. destruct (temp s y) eqn:Ht; [exfalso|done].
  pose proof (inv_vdev _ _ _ I _ _ Hv) as V. destruct (vdev_bss _ _ _ _ V x Hb) as [Hx _].
  apply (vdev_peers _ _ _ _ V) in Hx as (m & t & Hx).
  assert (holder s y = true) as Hh.
  { unfold temp in Ht. unfold holder. destruct (peer_keys s !! y) as [[[? ?] ty]|]; [|done].
    by apply temporary_holds. }
  unfold kids in Hz. rewrite Hx, Hv, bool_decide_eq_true_2 in Hz by done.
  assert (y ∈ List.filter (holder s) (wlan_peer_list r)) as Hin by (by apply elem_of_filter_b).
  destruct (List.filter _ _); [by apply elem_of_nil in Hin|]. cbn in Hz. lia.
Qed.

Section PeerCreate.
Context (A : objref -> bool) (e : ledger) s v (rv : wlan_objmgr_vdev) (t : wlan_peer_type) (mac : list Z).
Context (I : inv A e s) (He : ledger_ok e) (Hv : vdevs s !! v = Some rv).
Context (Href : ref_cnt (vdev_hdr rv) <> 0) (Hall : peer_allowed A s rv t mac).
Abbreviation x := (next_addr s).
Abbreviation k := (WLAN_PEER_HASH mac).
Abbreviation d := (wlan_pdev rv).

(** The world before the peer is linked: it is nowhere to be found. *)
Definition peer_alone h j : objmgr_world := set_peers <[x := Peer h v mac t j]> (take_addr s).

Lemma peer_create_none : peers s !! x = None.
Proof using I.
  pose proof (fresh_none A e s (OPeer x) I (Nat.le_refl _)) as H. cbn in H. by destruct (peers s !! x).
Qed.

Lemma peer_alone_gone h j : set_peers (delete x) (peer_alone h j) = take_addr s.
Proof using I. apply world_ext; try done. cbn. by rewrite delete_insert_id by apply peer_create_none. Qed.

(** Linking it to the VDEV. *)
Definition peer_linked f h j p : objmgr_world :=
  set_vdevs (alter f v) (set_pdevs (alter (count_peer t S) d)
    (set_psocs (alter (peer_in k x t) p) (peer_alone h j))).

Lemma twp_vdev_peer_attach rd p h Q :
  pdevs s !! d = Some rd ->
  let s1 := set_psocs (alter (peer_in k x t) p) (peer_alone h 0) in
  (Q QDF_STATUS_E_FAILURE s1) ->
  ((if temporary t then (pdev_temp_peer_count rd < WLAN_MAX_PDEV_TEMP_PEERS)%nat
    else (pdev_peer_count rd < pdev_max_peer_count rd)%nat) ->
   Q QDF_STATUS_SUCCESS (upd_hdr (OVdev v) (add_ref 1 0) (peer_linked (peer_on x mac t) h 0 p))) ->
  twp (wlan_objmgr_vdev_peer_attach v x) Q s1.
Proof using All.
  intros Hd s1 Hfail Hok. unfold wlan_objmgr_vdev_peer_attach.
  eapply wpx_step; [apply read_vdev_ret; exact Hv|].
  eapply wpx_step; [apply read_peer_ret; cbn; by rewrite lookup_insert_eq|]. cbn [peer_type peer_macaddr].
  destruct (_ && _); [exact Hfail|].
  eapply wpx_step; [apply read_pdev_ret; exact Hd|].
  destruct (if temporary t then _ else _) eqn:Hlim; [exact Hfail|].
  assert (if temporary t then (pdev_temp_peer_count rd < WLAN_MAX_PDEV_TEMP_PEERS)%nat
          else (pdev_peer_count rd < pdev_max_peer_count rd)%nat) as Hlt.
  { destruct (temporary t); by apply Nat.leb_gt. }
  specialize (Hok Hlt). clear Hfail Hlim.
  eapply wpx_step; [eapply write_pdev_ret; exact Hd|].
  eapply wpx_step; [eapply write_vdev_ret; exact Hv|].
  set (rv1 := set_peers_of (wlan_peer_list rv ++ [x]) (S (vdev_peer_count rv)) rv).
  set (s2 := set_vdevs _ _).
  assert (vdevs s2 !! v = Some rv1) as Hv1 by (cbn; by rewrite lookup_alter_eq, Hv).
  set (f1 := fun r => wlan_vdev_set_selfpeer (if WLAN_ADDR_EQ mac (vdev_macaddr rv) then Some x else self_peer rv) r).
  eapply (wpx_step _ _ _ tt _ _ (set_vdevs (alter f1 v) s2)).
  { destruct (WLAN_ADDR_EQ mac (vdev_macaddr rv)) eqn:Em.
    - by rewrite (write_vdev_ret _ _ _ _ Hv1).
    - unfold mret, M_ret. f_equal. apply world_ext; try done. cbn. symmetry. rewrite alter_alter_eq.
      apply alter_ext. intros r Hr. rewrite Hv in Hr. by injection Hr as <-. }
  set (s3 := set_vdevs _ s2).
  assert (vdevs s3 !! v = Some (f1 rv1)) as Hv2 by (cbn -[s2]; by rewrite lookup_alter_eq, Hv1).
  set (f2 := fun r => wlan_vdev_set_bsspeer (if sets_bsspeer rv t mac then Some x else bss_peer rv) r).
  eapply (wpx_step _ _ _ tt _ _ (set_vdevs (alter f2 v) s3)).
  { destruct (sets_bsspeer rv t mac) eqn:Em.
    - by rewrite (write_vdev_ret _ _ _ _ Hv2).
    - unfold mret, M_ret. f_equal. apply world_ext; try done. cbn. symmetry. rewrite !alter_alter_eq.
      apply alter_ext. intros r Hr. rewrite Hv in Hr. by injection Hr as <-. }
  set (s4 := set_vdevs _ s3).
  assert (get_hdr (OVdev v) s4 = Some (vdev_hdr rv)) as Hh
    by (cbn -[s3]; by rewrite lookup_alter_eq, Hv2).
  eapply wpx_step; [by eapply write_hdr_ret|]. apply wpx_mret.
  replace s4 with (peer_linked (peer_on x mac t) h 0 p); [exact Hok|].
  apply world_ext; try done. cbn. rewrite !alter_alter_eq. apply alter_ext. intros r Hr.
  rewrite Hv in Hr. by injection Hr as <-.
Qed.

(** Its place in the hash table, taken and given back. *)
Lemma psoc_peer_attached p rp h l Q :
  psocs s !! p = Some rp -> peer_hash rp !! k = Some l ->
  Q QDF_STATUS_E_FAILURE (peer_alone h 0) ->
  ((if temporary t then (psoc_temp_peer_count rp < WLAN_MAX_PSOC_TEMP_PEERS)%nat
    else (psoc_peer_count rp < psoc_max_peer_count rp)%nat) ->
   Q QDF_STATUS_SUCCESS (set_psocs (alter (peer_in k x t) p) (peer_alone h 0))) ->
  twp (wlan_objmgr_psoc_peer_attach p x) Q (peer_alone h 0).
Proof using I.
  intros Hp Hl Hfail Hok. unfold wlan_objmgr_psoc_peer_attach.
  eapply wpx_step; [apply read_psoc_ret; exact Hp|].
  eapply wpx_step; [apply read_peer_ret; cbn; by rewrite lookup_insert_eq|]. cbn [peer_type peer_macaddr].
  destruct (if temporary t then _ else _) eqn:Hlim; [exact Hfail|].
  assert (if temporary t then (psoc_temp_peer_count rp < WLAN_MAX_PSOC_TEMP_PEERS)%nat
          else (psoc_peer_count rp < psoc_max_peer_count rp)%nat) as Hlt.
  { destruct (temporary t); by apply Nat.leb_gt. }
  eapply wpx_step; [by rewrite Hl|]. eapply wpx_step; [eapply write_psoc_ret; exact Hp|].
  apply wpx_mret. replace (set_psocs _ _) with (set_psocs (alter (peer_in k x t) p) (peer_alone h 0)); [by apply Hok|].
  apply world_ext; try done. cbn. apply alter_ext. intros r Hr. rewrite Hp in Hr. injection Hr as <-.
  unfold peer_in. by rewrite Hl.
Qed.

Lemma psoc_peer_detached p rp h l Q :
  psocs s !! p = Some rp -> peer_hash rp !! k = Some l -> x ∉ l ->
  (temporary t = true -> psoc_peer_count rp <> 0%nat) ->
  (forall st, Q st (peer_alone h 0)) ->
  twp (wlan_objmgr_psoc_peer_detach p x) Q (set_psocs (alter (peer_in k x t) p) (peer_alone h 0)).
Proof using I.
  intros Hp Hl Hx Hc HQ. apply lookup_lt_Some in Hl as Hlt. unfold wlan_objmgr_psoc_peer_detach.
  assert (peer_in k x t rp = set_peer_hash k (l ++ [x]) t S rp) as Hin by (unfold peer_in; by rewrite Hl).
  eapply wpx_step; [apply read_psoc_ret; cbn; rewrite lookup_alter_eq, Hp; cbn; by rewrite Hin|].
  assert (psoc_peer_count (set_peer_hash k (l ++ [x]) t S rp) <> 0%nat) as Hne.
  { cbn. destruct (temporary t); [by apply Hc|done]. }
  rewrite (proj2 (Nat.eqb_neq _ _) Hne).
  eapply wpx_step; [apply read_peer_ret; cbn; by rewrite lookup_insert_eq|]. cbn [peer_type peer_macaddr].
  eapply wpx_step.
  { cbn [set_peer_hash peer_hash]. by rewrite list_lookup_insert_eq. }
  destruct (l ++ [x]) as [|y ys] eqn:El; [by destruct l|]. rewrite <- El.
  eapply wpx_step.
  { unfold list_del. rewrite bool_decide_eq_true_2; [done|]. apply elem_of_app. right. by apply list_elem_of_singleton. }
  eapply wpx_step; [eapply write_psoc_ret; cbn; by rewrite lookup_alter_eq, Hp|].
  apply wpx_mret. replace (set_psocs _ _) with (peer_alone h 0); [apply HQ|].
  apply world_ext; try done. cbn. rewrite alter_alter_eq. symmetry. apply alter_id. intros r Hr.
  rewrite Hp in Hr. injection Hr as <-. cbn [compose]. rewrite Hin, <- El. by apply peer_restored.
Qed.

Lemma inv_peer_create : twp (wlan_objmgr_peer_obj_create v t mac) (created A e OPeer) s.
Proof using All.
  destruct (inv_vdev_chain _ _ _ _ _ I He Hv)
    as (rd & rp & Hd & Hp & _ & _ & _ & _ & Hdk & _).
  pose proof (inv_psoc _ _ _ I _ _ Hp) as P.
  assert (k < length (peer_hash rp))%nat as Hkl.
  { rewrite (psoc_hash_len _ _ _ P). unfold WLAN_PEER_HASH, WLAN_PEER_HASHSIZE.
    pose proof (Z.mod_pos_bound (nth 5 mac 0) (Z.of_nat 64)). lia. }
  destruct (lookup_lt_is_Some_2 _ _ Hkl) as [l Hl].
  pose proof peer_create_none as Hnone.
  assert (x ∉ l) as Hxl.
  { intros Hin. assert (peer_slot s x = Some (wlan_psoc rd, k)) as Hs by (apply (psoc_peers _ _ _ P); eauto).
    unfold peer_slot, peer_keys in Hs. by rewrite lookup_fmap, Hnone in Hs. }
  pose proof (fresh_dead A e s (OPeer x) I (Nat.le_refl _)) as HA.
  unfold wlan_objmgr_peer_obj_create. eapply wpx_step.
  { unfold wlan_vdev_get_psoc, wlan_pdev_get_psoc.
    rewrite (bind_ret _ _ _ _ _ (read_vdev_ret _ _ _ Hv)).
    by rewrite (bind_ret _ _ _ _ _ (read_pdev_ret _ _ _ Hd)). }
  eapply wpx_step; [apply malloc_ret|]. pose proof (inv_take_addr _ _ _ I) as I0.
  destruct (malloc_ok _); [|exact I0]. apply wpx_modify_bind.
  eapply wpx_step; [eapply write_hdr_ret; cbn; by rewrite lookup_insert_eq|].
  replace (upd_hdr _ _ _) with (peer_alone fresh_hdr 0).
  2:{ apply world_ext; try done. cbn. by rewrite alter_insert_eq. }
  apply wpx_bind. eapply psoc_peer_attached; [done|done| |].
  { cbn [QDF_IS_STATUS_ERROR QDF_IS_STATUS_SUCCESS negb]. apply wpx_modify_bind. apply wpx_mret.
    by rewrite peer_alone_gone. }
  intros Hpc. cbn [QDF_IS_STATUS_ERROR QDF_IS_STATUS_SUCCESS negb].
  apply wpx_bind. eapply twp_vdev_peer_attach; [done| |].
  { cbn [QDF_IS_STATUS_ERROR QDF_IS_STATUS_SUCCESS negb]. apply wpx_bind.
    eapply psoc_peer_detached; [done..| |].
    - intros Ht. destruct (pa_holds _ _ _ _ _ Hall (temporary_holds t Ht)) as (b & rb & Hbss & Hb & _).
      destruct (inv_attached _ _ _ _ _ I He Hb) as (rv' & rd' & rp' & l' & Atb & _).
      pose proof (inv_vdev _ _ _ I _ _ Hv) as V. destruct (vdev_bss _ _ _ _ V b Hbss) as [Hbv _].
      apply (vdev_peers _ _ _ _ V) in Hbv as (m & tb & Hbv). rewrite (peer_key s b rb Hb) in Hbv.
      injection Hbv as Hbv _ _. destruct Atb as [_ Hv' Hd' Hp' _ _ _ _ Hc _ _ _].
      rewrite Hbv, Hv in Hv'. injection Hv' as <-. rewrite Hd in Hd'. injection Hd' as <-.
      rewrite Hp in Hp'. by injection Hp' as <-.
    - intros st. apply wpx_modify_bind. apply wpx_mret. by rewrite peer_alone_gone. }
  intros Hdc. cbn [QDF_IS_STATUS_ERROR QDF_IS_STATUS_SUCCESS negb].
  set (p := wlan_psoc rd) in *. set (j := wlan_pdev_id rd) in *.
  assert (inv (mark A (OPeer x) true) (bump (bss_held t rv e) (OVdev v) 0 (-1))
            (peer_new p d v j x mac t (take_addr s))) as I1.
  { eapply (inv_peer_new A e (take_addr s) p j v x mac t rp rd rv I0); try done.
    - cbn. lia.
    - apply (pa_sets _ _ _ _ _ Hall).
    - intros Hh. destruct (pa_holds _ _ _ _ _ Hall Hh) as (b & rb & Hb & _). by eexists.
    - apply (pa_temp _ _ _ _ _ Hall). }
  set (s1 := peer_new p d v j x mac t (take_addr s)) in *.
  assert (get_hdr (OVdev v) s1 = Some (vdev_hdr rv)) as Hhv by (cbn; by rewrite lookup_alter_eq, Hv).
  pose proof (inv_take _ _ _ _ _ 0 I1 Hhv Href) as I2.
  assert (inv (mark A (OPeer x) true) (bss_held t rv e) (upd_hdr (OVdev v) (add_ref 1 0) s1)) as I3.
  { eapply inv_ext; [done| |exact I2]. intros o id. unfold bump. case_bool_decide; lia. }
  clear I2. set (s2 := upd_hdr (OVdev v) (add_ref 1 0) s1) in *.
  eapply wpx_step; [apply read_vdev_ret; cbn; by rewrite !lookup_alter_eq, Hv|].
  eapply wpx_step; [apply read_pdev_ret; cbn; by rewrite !lookup_alter_eq, Hd|].
  eapply wpx_step; [eapply write_peer_ret; cbn; by rewrite lookup_insert_eq|].
  replace (set_peers _ _) with s2.
  2:{ apply world_ext; try done. cbn. by rewrite alter_insert_eq. }
  assert (forall s3, inv (mark A (OPeer x) true) e s3 -> get_hdr (OPeer x) s3 = Some fresh_hdr ->
    kids s3 (OPeer x) = 0 ->
    twp (ok ← obj_create_tail (OPeer x) (wlan_objmgr_peer_obj_delete x);
         mret (if ok : bool then Some x else None)) (created A e OPeer) s3) as Htail.
  { intros s3 J Hh Hz. apply wpx_bind. eapply wpx_mono.
    { apply (inv_create_tail A e s3 (OPeer x) fresh_hdr J He HA Hh); [done|].
      by eapply no_kids_deletable. }
    intros [] s'; [|done]. intros [J' _]. by split. }
  assert (kids s1 (OPeer x) = 0) as Hz1.
  { eapply (peer_new_kids_x A e (take_addr s) p j v x mac t rp rd rv I0); try done.
    - cbn. lia.
    - apply (pa_sets _ _ _ _ _ Hall).
    - intros Hh. destruct (pa_holds _ _ _ _ _ Hall Hh) as (b & rb & Hb & _). by eexists.
    - apply (pa_temp _ _ _ _ _ Hall). }
  assert (kids s2 (OPeer x) = 0) as Hz2 by (unfold s2; by rewrite kids_upd).
  assert (get_hdr (OPeer x) s2 = Some fresh_hdr) as Hh2 by (cbn; by rewrite lookup_insert_eq).
  unfold bss_held in I3.
  destruct (holds_bss t) eqn:Hh.
  - destruct (pa_holds _ _ _ _ _ Hall Hh) as (b & rb & Hbss & Hb & Hbref). rewrite Hbss in I3.
    assert (b <> x) as Hne by (intros ->; congruence).
    assert (get_hdr (OPeer b) s2 = Some (peer_hdr rb)) as Hhb
      by (cbn; rewrite lookup_insert_ne by congruence; by rewrite Hb).
    assert (sets_bsspeer rv t mac = false) as Hsets.
    { destruct (sets_bsspeer rv t mac) eqn:Es; [|done].
      destruct (pa_sets _ _ _ _ _ Hall Es) as [? _]. congruence. }
    pose proof (inv_take _ _ _ _ _ 0 I3 Hhb Hbref) as I4.
    cbn [with_vdev_hdr peer_on bss_peer]. rewrite Hsets, Hbss.
    eapply wpx_step; [by eapply write_hdr_ret|]. apply Htail.
    + eapply inv_ext; [done| |exact I4]. intros o id. unfold bump. case_bool_decide; lia.
    + by rewrite get_hdr_upd, bool_decide_eq_false_2 by congruence.
    + by rewrite kids_upd.
  - eapply wpx_step; [reflexivity|]. apply Htail; [|done|done].
    by destruct (bss_peer rv).
Qed.

End PeerCreate.
End Create.
