(* ===== verification/ObjFind.v ===== *)
(** Lookups: what each finds, and that what it finds is given with a reference. *)
From S2P Require Import Prelude QdfTypes Obj ObjInv ObjLink ObjRun ObjFree ObjPeer ObjStep.
Import QdfTypes.Parse.

Section Find.
Context {E : objmgr_env}.
Implicit Types (s : objmgr_world) (o : objref) (h : wlan_objmgr_hdr) (p d v x id n : nat).

(** ** What is given *)

Definition is_created s o : bool :=
  match get_hdr o s with Some h => bool_decide (obj_state h = WLAN_OBJ_STATE_CREATED) | None => false end.

(** The world after the object [r], if any, is given to [id]; and the ledger. *)
Definition taken (K : nat -> objref) id (r : option nat) s : objmgr_world :=
  match r with Some n => upd_hdr (K n) (add_ref 1 id) s | None => s end.
Definition give (K : nat -> objref) id (r : option nat) (e : ledger) : ledger :=
  match r with Some n => bump e (K n) id 1 | None => e end.
Definition give_all (K : nat -> objref) id (l : list nat) (e : ledger) : ledger :=
  foldr (fun n e => bump e (K n) id 1) e l.

(** No object waits to be freed: none has lost all its references. *)
Definition no_dead s : Prop := forall o h, get_hdr o s = Some h -> ref_cnt h <> 0.

Lemma is_created_live s o : is_created s o = true -> exists h, get_hdr o s = Some h /\ live h = true.
Proof.
  unfold is_created. destruct (get_hdr o s) as [h|]; [|done]. intros Hst%bool_decide_eq_true.
  exists h. split; [done|]. unfold live. by rewrite Hst.
Qed.

Lemma inv_taken_created A e s (K : nat -> objref) id r :
  inv A e s -> ledger_ok e -> (forall n, r = Some n -> is_created s (K n) = true) ->
  inv A (give K id r e) (taken K id r s).
Proof.
  intros I He Hr. destruct r as [n|]; [|done]. destruct (is_created_live _ _ (Hr n eq_refl)) as (h & Hh & Hl).
  eapply inv_take; [done..|]. by eapply live_count.
Qed.
Lemma inv_taken_any A e s (K : nat -> objref) id r :
  inv A e s -> no_dead s -> (forall n, r = Some n -> is_Some (get_hdr (K n) s)) ->
  inv A (give K id r e) (taken K id r s).
Proof.
  intros I Hd Hr. destruct r as [n|]; [|done]. destruct (Hr n eq_refl) as [h Hh].
  eapply inv_take; [done..|]. by eapply Hd.
Qed.

Lemma try_get_ref_ret s o id :
  is_Some (get_hdr o s) ->
  obj_try_get_ref (Some o) id s
  = if is_created s o then Ret QDF_STATUS_SUCCESS (upd_hdr o (add_ref 1 id) s)
    else Ret QDF_STATUS_E_RESOURCES s.
Proof.
  intros [h Hh]. unfold obj_try_get_ref, is_created. rewrite (bind_ret _ _ _ _ _ (read_hdr_ret o h s Hh)), Hh.
  destruct (bool_decide (obj_state h = WLAN_OBJ_STATE_CREATED)) eqn:Hst.
  - apply bool_decide_eq_true in Hst. rewrite bool_decide_eq_false_2 by (intros H; by apply H).
    unfold obj_get_ref. by rewrite (bind_ret _ _ _ _ _ (write_hdr_ret o _ h s Hh)).
  - apply bool_decide_eq_false in Hst. by rewrite bool_decide_eq_true_2.
Qed.
Lemma take_created_ret s o id :
  is_Some (get_hdr o s) ->
  take_if_created o id s
  = Ret (is_created s o) (if is_created s o then upd_hdr o (add_ref 1 id) s else s).
Proof.
  intros Ho. unfold take_if_created.
  destruct (is_created s o) eqn:Hc; rewrite (bind_ret _ _ _ _ _ (eq_trans (try_get_ref_ret s o id Ho) ltac:(rewrite Hc; reflexivity)));
    done.
Qed.
Lemma take_any_ret s o id :
  is_Some (get_hdr o s) -> take_any o id s = Ret true (upd_hdr o (add_ref 1 id) s).
Proof.
  intros [h Hh]. unfold take_any, obj_get_ref. by rewrite (bind_ret _ _ _ _ _ (write_hdr_ret o _ h s Hh)).
Qed.

(** ** Searching a list *)

Section Search.
Context s (K : nat -> objref) id (want take : nat -> M objmgr_world bool) (w c : nat -> bool) (l : list nat).
Context (Hw : forall n, n ∈ l -> want n s = Ret (w n) s).
Context (Ht : forall n, n ∈ l -> take n s = Ret (c n) (if c n then upd_hdr (K n) (add_ref 1 id) s else s)).

Lemma search_ret :
  search l want take s
  = Ret (List.find (fun n => w n && c n) l) (taken K id (List.find (fun n => w n && c n) l) s).
Proof using Hw Ht.
  induction l as [|n l' IH]; [done|]. cbn [search List.find].
  rewrite (bind_ret _ _ _ _ _ (Hw n (list_elem_of_here _ _))).
  assert (search l' want take s
    = Ret (List.find (fun n => w n && c n) l') (taken K id (List.find (fun n => w n && c n) l') s)) as IH'.
  { apply IH; intros m Hm; [apply Hw|apply Ht]; by right. }
  destruct (w n); [|done]. rewrite (bind_ret _ _ _ _ _ (Ht n (list_elem_of_here _ _))). by destruct (c n).
Qed.

Definition first_if : option nat :=
  match List.find w l with Some n => if c n then Some n else None | None => None end.
Lemma search_first_ret : search_first l want take s = Ret first_if (taken K id first_if s).
Proof using Hw Ht.
  unfold first_if. induction l as [|n l' IH]; [done|]. cbn [search_first List.find].
  rewrite (bind_ret _ _ _ _ _ (Hw n (list_elem_of_here _ _))).
  destruct (w n).
  - rewrite (bind_ret _ _ _ _ _ (Ht n (list_elem_of_here _ _))). by destruct (c n).
  - apply IH; intros m Hm; [apply Hw|apply Ht]; by right.
Qed.
End Search.

(** ** By id *)

Definition slot_if (c : nat -> bool) (a : option (option nat)) : option nat :=
  match a with Some (Some n) => if c n then Some n else None | _ => None end.

Lemma from_slot_ret s (K : nat -> objref) id a (take : nat -> M objmgr_world bool) (c : nat -> bool) :
  (forall n, a = Some n -> take n s = Ret (c n) (if c n then upd_hdr (K n) (add_ref 1 id) s else s)) ->
  from_slot a take s = Ret (slot_if c (Some a)) (taken K id (slot_if c (Some a)) s).
Proof.
  intros Ht. destruct a as [n|]; [|done]. cbn [from_slot slot_if].
  rewrite (bind_ret _ _ _ _ _ (Ht n eq_refl)). by destruct (c n).
Qed.

Section ById.
Context A e s (I : inv A e s) p rp (Hp : psocs s !! p = Some rp).

Lemma pdev_in_slot i d : wlan_pdev_list rp !! i = Some (Some d) -> is_Some (get_hdr (OPdev d) s).
Proof using I Hp.
  intros Hd. apply (psoc_pdevs _ _ _ (inv_psoc _ _ _ I _ _ Hp)) in Hd.
  apply pdev_keys_Some in Hd as (r & Hr & _). cbn. by rewrite Hr.
Qed.
Lemma vdev_in_slot i v : psoc_vdev_list rp !! i = Some (Some v) -> is_Some (get_hdr (OVdev v) s).
Proof using I Hp.
  intros Hv. apply (psoc_vdevs _ _ _ (inv_psoc _ _ _ I _ _ Hp)) in Hv. unfold vdev_slot in Hv.
  destruct (vdev_keys s !! v) as [[d j]|] eqn:Hk; [|done].
  apply vdev_keys_Some in Hk as (r & Hr & _). cbn. by rewrite Hr.
Qed.

(** One form for the four functions. *)
Lemma slot_lookup_ret (K : nat -> objref) (l : list (option nat)) i id
    (take : nat -> M objmgr_world bool) (c : nat -> bool) n :
  length l = n ->
  (forall a, l !! i = Some (Some a) ->
     take a s = Ret (c a) (if c a then upd_hdr (K a) (add_ref 1 id) s else s)) ->
  (if (n <=? i)%nat then mret None
   else a ← deref (l !! i); from_slot a take) s
  = Ret (slot_if c (l !! i)) (taken K id (slot_if c (l !! i)) s).
Proof.
  intros Hl Ht. destruct (Nat.leb_spec n i) as [Hge|Hlt].
  - by rewrite lookup_ge_None_2 by lia.
  - destruct (lookup_lt_is_Some_2 l i) as [a Ha]; [lia|]. rewrite Ha.
    apply from_slot_ret. intros b ->. by apply Ht.
Qed.

Lemma get_pdev_by_id_ret i id :
  wlan_objmgr_get_pdev_by_id p i id s
  = let r := slot_if (fun d => is_created s (OPdev d)) (wlan_pdev_list rp !! i) in
    Ret r (taken OPdev id r s).
Proof using I Hp.
  unfold wlan_objmgr_get_pdev_by_id. pose proof (psoc_pdev_len _ _ _ (inv_psoc _ _ _ I _ _ Hp)) as Hl.
  cbn zeta. rewrite <- (slot_lookup_ret OPdev _ i id (fun d => take_if_created (OPdev d) id) _ _ Hl).
  - destruct (_ <=? _)%nat; [done|]. by rewrite (bind_ret _ _ _ _ _ (read_psoc_ret _ _ _ Hp)).
  - intros d Hd. apply take_created_ret. by eapply pdev_in_slot.
Qed.
Lemma get_pdev_by_id_no_state_ret i id :
  wlan_objmgr_get_pdev_by_id_no_state p i id s
  = let r := slot_if (fun _ => true) (wlan_pdev_list rp !! i) in Ret r (taken OPdev id r s).
Proof using I Hp.
  unfold wlan_objmgr_get_pdev_by_id_no_state. pose proof (psoc_pdev_len _ _ _ (inv_psoc _ _ _ I _ _ Hp)) as Hl.
  cbn zeta. rewrite <- (slot_lookup_ret OPdev _ i id (fun d => take_any (OPdev d) id) _ _ Hl).
  - destruct (_ <=? _)%nat; [done|]. by rewrite (bind_ret _ _ _ _ _ (read_psoc_ret _ _ _ Hp)).
  - intros d Hd. apply take_any_ret. by eapply pdev_in_slot.
Qed.
Lemma get_vdev_by_id_from_psoc_ret i id :
  wlan_objmgr_get_vdev_by_id_from_psoc p i id s
  = let r := slot_if (fun v => is_created s (OVdev v)) (psoc_vdev_list rp !! i) in
    Ret r (taken OVdev id r s).
Proof using I Hp.
  unfold wlan_objmgr_get_vdev_by_id_from_psoc. pose proof (psoc_vdev_len _ _ _ (inv_psoc _ _ _ I _ _ Hp)) as Hl.
  rewrite (bind_ret _ _ _ _ _ (read_psoc_ret _ _ _ Hp)). apply slot_lookup_ret; [done|].
  intros v Hv. apply take_created_ret. by eapply vdev_in_slot.
Qed.
Lemma get_vdev_by_id_from_psoc_no_state_ret i id :
  wlan_objmgr_get_vdev_by_id_from_psoc_no_state p i id s
  = let r := slot_if (fun _ => true) (psoc_vdev_list rp !! i) in Ret r (taken OVdev id r s).
Proof using I Hp.
  unfold wlan_objmgr_get_vdev_by_id_from_psoc_no_state.
  pose proof (psoc_vdev_len _ _ _ (inv_psoc _ _ _ I _ _ Hp)) as Hl.
  rewrite (bind_ret _ _ _ _ _ (read_psoc_ret _ _ _ Hp)). apply slot_lookup_ret; [done|].
  intros v Hv. apply take_any_ret. by eapply vdev_in_slot.
Qed.

(** ** VDEVs of a psoc or a pdev *)

Definition vdev_is (f : wlan_objmgr_vdev -> bool) s v : bool :=
  match vdevs s !! v with Some r => f r | None => false end.

Lemma vdev_has_ret (f : wlan_objmgr_vdev -> bool) v :
  is_Some (vdevs s !! v) -> (r ← read_vdev v; mret (f r)) s = Ret (vdev_is f s v) s.
Proof.
  intros [r Hr]. rewrite (bind_ret _ _ _ _ _ (read_vdev_ret _ _ _ Hr)). unfold vdev_is. by rewrite Hr.
Qed.

Lemma get_vdev_by_opmode_from_psoc_ret m id :
  wlan_objmgr_get_vdev_by_opmode_from_psoc p m id s
  = let r := List.find (fun v => vdev_is (fun r => bool_decide (vdev_opmode r = m)) s v
                                 && is_created s (OVdev v)) (omap Datatypes.id (psoc_vdev_list rp)) in
    Ret r (taken OVdev id r s).
Proof using I Hp.
  unfold wlan_objmgr_get_vdev_by_opmode_from_psoc.
  rewrite (bind_ret _ _ _ _ _ (read_psoc_ret _ _ _ Hp)).
  assert (forall v, v ∈ omap Datatypes.id (psoc_vdev_list rp) -> is_Some (get_hdr (OVdev v) s)) as Hin.
  { intros v (a & Ha & Hv)%list_elem_of_omap. apply list_elem_of_lookup in Ha as [i Hi].
    cbn in Hv. subst a. by eapply vdev_in_slot. }
  apply search_ret.
  - intros v Hv. apply vdev_has_ret. apply Hin in Hv as [h Hh]. by apply get_hdr_at in Hh.
  - intros v Hv. apply take_created_ret. by apply Hin.
Qed.

End ById.

Section OnPdev.
Context A e s (I : inv A e s) d rd (Hd : pdevs s !! d = Some rd).

Lemma vdev_on_pdev v : v ∈ wlan_vdev_list rd -> is_Some (get_hdr (OVdev v) s).
Proof using I Hd.
  intros Hv. apply (pdev_vdevs _ _ _ (inv_pdev _ _ _ I _ _ Hd)) in Hv as [i Hv].
  apply vdev_keys_Some in Hv as (r & Hr & _). cbn. by rewrite Hr.
Qed.
Lemma vdev_on_pdev' v : v ∈ wlan_vdev_list rd -> is_Some (vdevs s !! v).
Proof using I Hd. intros [h Hh]%vdev_on_pdev. by apply get_hdr_at in Hh. Qed.

Lemma get_vdev_by_id_from_pdev_ret i id :
  wlan_objmgr_get_vdev_by_id_from_pdev d i id s
  = let r := first_if (vdev_is (fun r => vdev_id r =? i)%nat s) (fun v => is_created s (OVdev v))
               (wlan_vdev_list rd) in
    Ret r (taken OVdev id r s).
Proof using I Hd.
  unfold wlan_objmgr_get_vdev_by_id_from_pdev. rewrite (bind_ret _ _ _ _ _ (read_pdev_ret _ _ _ Hd)).
  apply search_first_ret; intros v Hv.
  - apply vdev_has_ret. by apply vdev_on_pdev'.
  - apply take_created_ret. by apply vdev_on_pdev.
Qed.
Lemma get_vdev_by_id_from_pdev_no_state_ret i id :
  wlan_objmgr_get_vdev_by_id_from_pdev_no_state d i id s
  = let r := first_if (vdev_is (fun r => vdev_id r =? i)%nat s) (fun _ => true) (wlan_vdev_list rd) in
    Ret r (taken OVdev id r s).
Proof using I Hd.
  unfold wlan_objmgr_get_vdev_by_id_from_pdev_no_state. rewrite (bind_ret _ _ _ _ _ (read_pdev_ret _ _ _ Hd)).
  apply search_first_ret; intros v Hv.
  - apply vdev_has_ret. by apply vdev_on_pdev'.
  - apply take_any_ret. by apply vdev_on_pdev.
Qed.
Lemma get_vdev_by_macaddr_from_pdev_ret mac id :
  wlan_objmgr_get_vdev_by_macaddr_from_pdev d mac id s
  = let r := List.find (fun v => vdev_is (fun r => WLAN_ADDR_EQ (vdev_macaddr r) mac) s v
                                 && is_created s (OVdev v)) (wlan_vdev_list rd) in
    Ret r (taken OVdev id r s).
Proof using I Hd.
  unfold wlan_objmgr_get_vdev_by_macaddr_from_pdev. rewrite (bind_ret _ _ _ _ _ (read_pdev_ret _ _ _ Hd)).
  apply search_ret; intros v Hv.
  - apply vdev_has_ret. by apply vdev_on_pdev'.
  - apply take_created_ret. by apply vdev_on_pdev.
Qed.
Lemma get_vdev_by_macaddr_from_pdev_no_state_ret mac id :
  wlan_objmgr_get_vdev_by_macaddr_from_pdev_no_state d mac id s
  = let r := List.find (fun v => vdev_is (fun r => WLAN_ADDR_EQ (vdev_macaddr r) mac) s v && true)
               (wlan_vdev_list rd) in
    Ret r (taken OVdev id r s).
Proof using I Hd.
  unfold wlan_objmgr_get_vdev_by_macaddr_from_pdev_no_state. rewrite (bind_ret _ _ _ _ _ (read_pdev_ret _ _ _ Hd)).
  apply (search_ret _ OVdev id _ _ _ (fun _ => true)); intros v Hv.
  - apply vdev_has_ret. by apply vdev_on_pdev'.
  - apply take_any_ret. by apply vdev_on_pdev.
Qed.
Lemma pdev_get_first_vdev_ret id :
  wlan_objmgr_pdev_get_first_vdev d id s
  = let r := List.find (fun v => true && is_created s (OVdev v)) (wlan_vdev_list rd) in
    Ret r (taken OVdev id r s).
Proof using I Hd.
  unfold wlan_objmgr_pdev_get_first_vdev. rewrite (bind_ret _ _ _ _ _ (read_pdev_ret _ _ _ Hd)).
  apply (search_ret _ OVdev id _ _ (fun _ => true)); intros v Hv; [done|].
  apply take_created_ret. by apply vdev_on_pdev.
Qed.

End OnPdev.

(** ** Peers of a psoc *)

Definition peer_is (f : wlan_objmgr_peer -> bool) s x : bool :=
  match peers s !! x with Some r => f r | None => false end.

Section InHash.
Context A e s (I : inv A e s) (He : ledger_ok e) p rp (Hp : psocs s !! p = Some rp) (mac : list Z).

Definition hash_bucket : list nat := default [] (peer_hash rp !! WLAN_PEER_HASH mac).

Lemma hash_bucket_Some : peer_hash rp !! WLAN_PEER_HASH mac = Some hash_bucket.
Proof using I Hp.
  unfold hash_bucket. destruct (lookup_lt_is_Some_2 (peer_hash rp) (WLAN_PEER_HASH mac)) as [l Hl];
    [|by rewrite Hl].
  rewrite (psoc_hash_len _ _ _ (inv_psoc _ _ _ I _ _ Hp)). unfold WLAN_PEER_HASH, WLAN_PEER_HASHSIZE.
  pose proof (Z.mod_pos_bound (nth 5 mac 0) (Z.of_nat 64)). lia.
Qed.

(** The list has the peers of the psoc whose address has this hash. *)
Lemma elem_of_bucket x :
  x ∈ hash_bucket <-> peer_slot s x = Some (p, WLAN_PEER_HASH mac).
Proof using I Hp.
  rewrite <- (psoc_peers _ _ _ (inv_psoc _ _ _ I _ _ Hp)). pose proof hash_bucket_Some as Hb.
  split; [by eauto|]. intros (l & Hl & Hx). rewrite Hb in Hl. by injection Hl as ->.
Qed.
Lemma bucket_peer x : x ∈ hash_bucket -> exists r, peers s !! x = Some r.
Proof using I Hp.
  intros Hx%elem_of_bucket. unfold peer_slot in Hx.
  destruct (peer_keys s !! x) as [[[v m] t]|] eqn:Hk; [|done].
  apply peer_keys_Some in Hk as (r & Hr & _). by eauto.
Qed.
Lemma bucket_hdr x : x ∈ hash_bucket -> is_Some (get_hdr (OPeer x) s).
Proof using I Hp. intros [r Hr]%bucket_peer. cbn. by rewrite Hr. Qed.

(** The psoc has regular peers if it has any. *)
Lemma bucket_count x : x ∈ hash_bucket -> psoc_peer_count rp <> 0%nat.
Proof using I He Hp.
  intros Hx. destruct (bucket_peer x Hx) as [r Hr]. apply elem_of_bucket in Hx.
  destruct (inv_attached _ _ _ _ _ I He Hr) as (rv & rd & rp' & l & [Hx' Hv Hd Hp' _ _ _ _ Hc _ _ _] & Hk & _).
  unfold peer_slot in Hx. rewrite (peer_key s x r Hr) in Hx. unfold vdev_slot in Hx.
  assert (vdev_keys s !! peer_vdev r = Some (wlan_pdev rv, vdev_id rv)) as Hvk
    by (apply vdev_keys_Some; eauto).
  rewrite Hvk, Hk in Hx. injection Hx as <-. rewrite Hp in Hp'. by injection Hp' as <-.
Qed.

Lemma in_hash_ret {B} (none : B) (find : list nat -> M objmgr_world B) res s' :
  find hash_bucket s = Ret res s' -> (hash_bucket = [] -> res = none /\ s' = s) ->
  in_hash p mac none find s = Ret res s'.
Proof using I He Hp.
  intros Hf Hnil. unfold in_hash. rewrite (bind_ret _ _ _ _ _ (read_psoc_ret _ _ _ Hp)).
  destruct (Nat.eqb_spec (psoc_peer_count rp) 0) as [Hz|Hz].
  - destruct hash_bucket as [|x l] eqn:Hb; [by destruct (Hnil eq_refl) as [-> ->]|].
    exfalso. apply (bucket_count x); [|done]. rewrite Hb. by left.
  - by rewrite (bind_deref _ _ _ _ hash_bucket_Some).
Qed.

Definition found (w : nat -> bool) (c : nat -> bool) : option nat := List.find (fun x => w x && c x) hash_bucket.

(** One form for the lookups in the hash table. *)
Lemma hash_search_ret (want : nat -> M objmgr_world bool) (w : nat -> bool) id
    (take : nat -> M objmgr_world bool) (c : nat -> bool) :
  (forall x, x ∈ hash_bucket -> want x s = Ret (w x) s) ->
  (forall x, x ∈ hash_bucket ->
     take x s = Ret (c x) (if c x then upd_hdr (OPeer x) (add_ref 1 id) s else s)) ->
  in_hash p mac None (fun l => search l want take) s = Ret (found w c) (taken OPeer id (found w c) s).
Proof using I He Hp.
  intros Hw Ht. apply in_hash_ret.
  - by apply search_ret.
  - unfold found. by intros ->.
Qed.

Lemma peer_has_mac_ret x : x ∈ hash_bucket ->
  peer_has_mac mac x s = Ret (peer_is (fun r => WLAN_ADDR_EQ (peer_macaddr r) mac) s x) s.
Proof using I Hp.
  intros [r Hr]%bucket_peer. unfold peer_has_mac, peer_is.
  by rewrite (bind_ret _ _ _ _ _ (read_peer_ret _ _ _ Hr)), Hr.
Qed.
Lemma peer_has_mac_pdev_ret pdev_id x : x ∈ hash_bucket ->
  peer_has_mac_pdev mac pdev_id x s
  = Ret (peer_is (fun r => WLAN_ADDR_EQ (peer_macaddr r) mac && (peer_pdev_id r =? pdev_id)%nat) s x) s.
Proof using I Hp.
  intros [r Hr]%bucket_peer. unfold peer_has_mac_pdev, peer_is.
  by rewrite (bind_ret _ _ _ _ _ (read_peer_ret _ _ _ Hr)), Hr.
Qed.
Definition bssid_match bssid s (r : wlan_objmgr_peer) : bool :=
  vdev_is (fun rv => WLAN_ADDR_EQ (vdev_macaddr rv) bssid) s (peer_vdev r).
Lemma peer_vdev_exists x r : peers s !! x = Some r -> is_Some (vdevs s !! peer_vdev r).
Proof using I He.
  intros Hr. destruct (inv_attached _ _ _ _ _ I He Hr) as (rv & rd & rp' & l & [_ Hv _ _ _ _ _ _ _ _ _ _] & _).
  by eexists.
Qed.
Lemma peer_has_mac_bssid_ret bssid pdev_id x : x ∈ hash_bucket ->
  peer_has_mac_bssid mac bssid pdev_id x s
  = Ret (peer_is (fun r => WLAN_ADDR_EQ (peer_macaddr r) mac
                           && (bssid_match bssid s r && (peer_pdev_id r =? pdev_id)%nat)) s x) s.
Proof using I He Hp.
  intros [r Hr]%bucket_peer. unfold peer_has_mac_bssid, peer_is, wlan_peer_bssid_match.
  rewrite (bind_ret _ _ _ _ _ (read_peer_ret _ _ _ Hr)), Hr.
  destruct (WLAN_ADDR_EQ (peer_macaddr r) mac); [|done].
  rewrite bind_assoc. rewrite (bind_ret _ _ _ _ _ (read_peer_ret _ _ _ Hr)).
  destruct (peer_vdev_exists x r Hr) as [rv Hv].
  rewrite bind_assoc. rewrite (bind_ret _ _ _ _ _ (read_vdev_ret _ _ _ Hv)).
  unfold bssid_match, vdev_is. by rewrite Hv.
Qed.

(** The seven functions. *)
Lemma get_peer_by_mac_ret id :
  wlan_objmgr_get_peer_by_mac p mac id s
  = let r := found (peer_is (fun r => WLAN_ADDR_EQ (peer_macaddr r) mac) s) (fun x => is_created s (OPeer x)) in
    Ret r (taken OPeer id r s).
Proof using I He Hp.
  apply hash_search_ret; intros x Hx; [by apply peer_has_mac_ret|by apply take_created_ret, bucket_hdr].
Qed.
Lemma get_peer_nolock_ret pdev_id id :
  wlan_objmgr_get_peer_nolock p pdev_id mac id s
  = let r := found (peer_is (fun r => WLAN_ADDR_EQ (peer_macaddr r) mac && (peer_pdev_id r =? pdev_id)%nat) s)
               (fun x => is_created s (OPeer x)) in
    Ret r (taken OPeer id r s).
Proof using I He Hp.
  apply hash_search_ret; intros x Hx; [by apply peer_has_mac_pdev_ret|by apply take_created_ret, bucket_hdr].
Qed.
Lemma get_peer_no_state_ret pdev_id id :
  wlan_objmgr_get_peer_no_state p pdev_id mac id s
  = let r := found (peer_is (fun r => WLAN_ADDR_EQ (peer_macaddr r) mac && (peer_pdev_id r =? pdev_id)%nat) s)
               (fun _ => true) in
    Ret r (taken OPeer id r s).
Proof using I He Hp.
  apply hash_search_ret; intros x Hx; [by apply peer_has_mac_pdev_ret|by apply take_any_ret, bucket_hdr].
Qed.
Lemma get_peer_by_mac_n_vdev_ret pdev_id bssid id :
  wlan_objmgr_get_peer_by_mac_n_vdev p pdev_id bssid mac id s
  = let r := found (peer_is (fun r => WLAN_ADDR_EQ (peer_macaddr r) mac
                               && (bssid_match bssid s r && (peer_pdev_id r =? pdev_id)%nat)) s)
               (fun x => is_created s (OPeer x)) in
    Ret r (taken OPeer id r s).
Proof using I He Hp.
  apply hash_search_ret; intros x Hx; [by apply peer_has_mac_bssid_ret|by apply take_created_ret, bucket_hdr].
Qed.
Lemma get_peer_by_mac_n_vdev_no_state_ret pdev_id bssid id :
  wlan_objmgr_get_peer_by_mac_n_vdev_no_state p pdev_id bssid mac id s
  = let r := found (peer_is (fun r => WLAN_ADDR_EQ (peer_macaddr r) mac
                               && (bssid_match bssid s r && (peer_pdev_id r =? pdev_id)%nat)) s)
               (fun _ => true) in
    Ret r (taken OPeer id r s).
Proof using I He Hp.
  apply hash_search_ret; intros x Hx; [by apply peer_has_mac_bssid_ret|by apply take_any_ret, bucket_hdr].
Qed.
Lemma get_peer_logically_deleted_ret id :
  wlan_objmgr_get_peer_logically_deleted p mac id s
  = let r := found (peer_is (fun r => WLAN_ADDR_EQ (peer_macaddr r) mac
                && bool_decide (obj_state (peer_hdr r) = WLAN_OBJ_STATE_LOGICALLY_DELETED)) s)
               (fun _ => true) in
    Ret r (taken OPeer id r s).
Proof using I He Hp.
  apply hash_search_ret; intros x Hx; [|by apply take_any_ret, bucket_hdr].
  rewrite (bind_ret _ _ _ _ _ (peer_has_mac_ret x Hx)). apply bucket_peer in Hx as [r Hr].
  unfold peer_is. rewrite Hr. destruct (WLAN_ADDR_EQ (peer_macaddr r) mac); [|done].
  unfold peer_logically_deleted. by rewrite (bind_ret _ _ _ _ _ (read_peer_ret _ _ _ Hr)).
Qed.

End InHash.

End Find.
