(* ===== verification/ObjLook.v ===== *)
(** Lookups that take and give back references on the way, and those that return a list. *)
From S2P Require Import Prelude QdfTypes Obj ObjInv ObjLink ObjRun ObjFree ObjPeer ObjStep ObjCreate ObjFind.
Import QdfTypes.Parse.

Section Look.
Context {E : objmgr_env}.
Implicit Types (s : objmgr_world) (o : objref) (h : wlan_objmgr_hdr) (p d v x id n : nat).

(** ** A reference of several is given back *)

Lemma release_live_ret A e s o h id :
  inv A (bump e o id 1) s -> ledger_ok e -> get_hdr o s = Some h -> live h = true ->
  release_ref o id s = Ret tt (upd_hdr o (add_ref (-1) id) s).
Proof.
  intros I He Hh Hl. pose proof (inv_releasable _ _ _ _ _ _ I (He o) Hh) as (H1 & H2 & H3).
  assert (ref_cnt h <> 1) as Hne.
  { intros Hone. apply H3 in Hone. unfold live in Hl. by rewrite Hone in Hl. }
  assert (forall destroy, dec_and_test o id destroy s = Ret tt (upd_hdr o (add_ref (-1) id) s)) as Hdec.
  { intros destroy. unfold dec_and_test. rewrite (bind_ret _ _ _ _ _ (write_hdr_ret _ _ _ _ Hh)).
    rewrite (bind_ret _ _ _ _ _ (read_hdr_ret o (add_ref (-1) id h) _ ltac:(by rewrite get_hdr_upd, bool_decide_eq_true_2, Hh))).
    cbn [add_ref ref_cnt]. by rewrite (proj2 (Z.eqb_neq _ _)) by lia. }
  destruct (releasable_tests id h ltac:(done)) as [Ht1 Ht2].
  destruct o; cbn [release_ref wlan_objmgr_peer_release_ref];
    unfold wlan_objmgr_psoc_release_ref, wlan_objmgr_pdev_release_ref, wlan_objmgr_vdev_release_ref,
      peer_release_ref;
    rewrite (bind_ret _ _ _ _ _ (read_hdr_ret _ _ _ Hh)), Ht1, Ht2; apply Hdec.
Qed.

(** Worlds that differ in reference counts only. *)
Inductive alike s : objmgr_world -> Prop :=
  | alike_refl : alike s s
  | alike_ref s' o (n : Z) id : alike s s' -> alike s (upd_hdr o (add_ref n id) s')
  | alike_alloc s' : alike s s' -> alike s (take_addr s').

Lemma alike_trans s s' s'' : alike s s' -> alike s' s'' -> alike s s''.
Proof. intros Ha. induction 1; [done|by constructor..]. Qed.

Lemma alike_state s s' o : alike s s' -> obj_state <$> get_hdr o s' = obj_state <$> get_hdr o s.
Proof.
  induction 1 as [|s' o' n id _ IH|s' _ IH]; [done| |done].
  rewrite get_hdr_upd. case_bool_decide; [|done]. subst. rewrite <- IH. by destruct (get_hdr o' s').
Qed.
Lemma alike_created s s' o : alike s s' -> is_created s' o = is_created s o.
Proof.
  intros Ha. apply (alike_state s s' o) in Ha. unfold is_created.
  destruct (get_hdr o s') as [h'|], (get_hdr o s) as [h|]; try done. cbn in Ha. by injection Ha as ->.
Qed.
Lemma alike_exists s s' o : alike s s' -> is_Some (get_hdr o s) -> is_Some (get_hdr o s').
Proof.
  intros Ha Ho. apply (alike_state s s' o) in Ha.
  by destruct (get_hdr o s'), (get_hdr o s).
Qed.
Lemma alike_keys s s' : alike s s' -> same_keys s s'.
Proof.
  induction 1 as [|s' o' n id _ (H1 & H2 & H3)|s' _ IH]; [done| |done].
  destruct (same_keys_upd o' (add_ref n id) s') as (K1 & K2 & K3).
  split_and!; congruence.
Qed.
(** What is read of a peer or a VDEV, its header aside. *)
Lemma alike_peer s s' (f : wlan_objmgr_peer -> bool) x :
  (forall g r, f (with_peer_hdr g r) = f r) -> alike s s' -> peer_is f s' x = peer_is f s x.
Proof.
  intros Hf. induction 1 as [|s' o' n id _ IH|s' _ IH]; [done| |done].
  rewrite <- IH. destruct o'; try done. unfold peer_is. cbn. rewrite lookup_alter. case_decide; [|done].
  subst. destruct (peers s' !! x); [|done]. cbn. apply Hf.
Qed.
Lemma alike_vdev s s' (f : wlan_objmgr_vdev -> bool) v :
  (forall g r, f (with_vdev_hdr g r) = f r) -> alike s s' -> vdev_is f s' v = vdev_is f s v.
Proof.
  intros Hf. induction 1 as [|s' o' n id _ IH|s' _ IH]; [done| |done].
  rewrite <- IH. destruct o'; try done. unfold vdev_is. cbn. rewrite lookup_alter. case_decide; [|done].
  subst. destruct (vdevs s' !! v); [|done]. cbn. apply Hf.
Qed.

Lemma if_ret {B} (b : bool) (a a' : B) s s' :
  (if b then Ret a s else Ret a' s') = Ret (if b then a else a') (if b then s else s').
Proof. by destruct b. Qed.

Lemma find_ext {B} (f g : B -> bool) (l : list B) : (forall y, f y = g y) -> List.find f l = List.find g l.
Proof. intros Hfg. induction l as [|y l IH]; [done|]. cbn. by rewrite Hfg, IH. Qed.

(** ** A VDEV of a psoc by its address *)

Lemma given_back A e s o h id K r s1 :
  inv A (bump (give K id r e) o id 1) s1 -> ledger_ok e -> get_hdr o s = Some h -> live h = true ->
  alike s s1 -> release_ref o id s1 = Ret tt (upd_hdr o (add_ref (-1) id) s1).
Proof.
  intros I He Hh Hl Ha. pose proof (alike_state s s1 o Ha) as Hst. rewrite Hh in Hst.
  destruct (get_hdr o s1) as [h1|] eqn:Hh1; [|done]. injection Hst as Hst.
  eapply release_live_ret; [done| |done|].
  - destruct r; [by apply bump_nonneg|done].
  - unfold live in *. by rewrite Hst.
Qed.

Lemma give_bump K id r e o id' (n : Z) o1 id1 :
  give K id r (bump e o id' n) o1 id1 = bump (give K id r e) o id' n o1 id1.
Proof. destruct r; [|done]. cbn. by rewrite bump_comm. Qed.

Lemma give_ok K id r e : ledger_ok e -> ledger_ok (give K id r e).
Proof. intros He. destruct r; [by apply bump_nonneg|done]. Qed.

(** The object has another reference, its own. *)
Lemma given_back_inv A e s o h id K r s1 :
  inv A (bump (give K id r e) o id 1) s1 -> ledger_ok e -> get_hdr o s = Some h -> live h = true ->
  alike s s1 -> inv A (give K id r e) (upd_hdr o (add_ref (-1) id) s1).
Proof.
  intros I He Hh Hl Ha. pose proof (alike_state s s1 o Ha) as Hst. rewrite Hh in Hst.
  destruct (get_hdr o s1) as [h1|] eqn:Hh1; [|done]. injection Hst as Hst.
  destruct (inv_releasable _ _ _ _ _ _ I (give_ok K id r e He o) Hh1) as (_ & _ & Hlast).
  replace (upd_hdr _ _ _) with (upd_hdr o (fun _ => add_ref (-1) id h1) s1) by (symmetry; by eapply upd_ext).
  eapply inv_drop; [exact I|done|apply dropped_add_ref; [done|]|by apply give_ok].
  intros _ Hz. cbn in Hz. specialize (Hlast ltac:(lia)). unfold live in Hl. by rewrite <- Hst, Hlast in Hl.
Qed.

Section Psoc.
Context A e s (I : inv A e s) (He : ledger_ok e).

Lemma is_created_exists o : is_created s o = true -> is_Some (get_hdr o s).
Proof. unfold is_created. destruct (get_hdr o s); [by eauto|done]. Qed.

(** With a reference on the PDEV, around a lookup on it. *)
Lemma around_pdev p rp i id (find : nat -> M objmgr_world (option nat)) (c : nat -> nat -> bool) :
  psocs s !! p = Some rp ->
  (forall d h rd s', get_hdr (OPdev d) s = Some h -> s' = upd_hdr (OPdev d) (add_ref 1 id) s ->
     pdevs s' !! d = Some rd -> inv A (bump e (OPdev d) id 1) s' ->
     exists r, find d s' = Ret r (taken OVdev id r s')
       /\ inv A (give OVdev id r (bump e (OPdev d) id 1)) (taken OVdev id r s')
       /\ forall v, r = Some v -> c d v = true) ->
  twp (pdev ← wlan_objmgr_get_pdev_by_id p i id;
       match pdev with
       | None => mret None
       | Some d => v ← find d; wlan_objmgr_pdev_release_ref d id;; mret v
       end)
    (fun r s' => inv A (give OVdev id r e) s' /\ alike s s'
       /\ forall v, r = Some v -> exists d, wlan_pdev_list rp !! i = Some (Some d) /\ c d v = true) s.
Proof using I He.
  intros Hp Hfind. eapply wpx_step; [by eapply get_pdev_by_id_ret|]. cbn zeta.
  destruct (slot_if _ _) as [d|] eqn:Hs; [|by apply wpx_mret; split_and!; [done|constructor|]].
  assert (is_created s (OPdev d) = true /\ wlan_pdev_list rp !! i = Some (Some d)) as [Hc Hi].
  { unfold slot_if in Hs. destruct (_ !! i) as [[d'|]|]; try done.
    destruct (is_created s (OPdev d')) eqn:Hc; [|done]. injection Hs as ->. done. }
  pose proof (inv_taken_created A e s OPdev id (Some d) I He ltac:(by intros ? [= <-])) as I1.
  destruct (is_created_live _ _ Hc) as (h & Hh & Hl).
  cbn [taken give] in *. set (s1 := upd_hdr (OPdev d) (add_ref 1 id) s) in *.
  assert (alike s s1) as Ha by (repeat constructor).
  destruct (alike_exists s s1 (OPdev d) Ha ltac:(by eauto)) as [h1 Hh1].
  destruct (get_hdr_at _ _ _ Hh1) as [rd Hd].
  destruct (Hfind d h rd s1 Hh eq_refl Hd I1) as (r & Hr & Ir & Hcr).
  eapply wpx_step; [exact Hr|].
  assert (inv A (bump (give OVdev id r e) (OPdev d) id 1) (taken OVdev id r s1)) as I2.
  { eapply inv_ext; [done| |exact Ir]. intros. by rewrite give_bump. }
  assert (alike s (taken OVdev id r s1)) as Ha2 by (destruct r; by repeat constructor).
  eapply wpx_step; [exact (given_back A e s (OPdev d) h id _ _ _ I2 He Hh Hl Ha2)|].
  apply wpx_mret. split_and!; [|by constructor|by eauto].
  exact (given_back_inv A e s (OPdev d) h id _ _ _ I2 He Hh Hl Ha2).
Qed.

(** What is found has the address, and (but for the second function) is created. *)
Lemma inv_get_vdev_by_macaddr_from_psoc p rp i mac id :
  psocs s !! p = Some rp ->
  twp (wlan_objmgr_get_vdev_by_macaddr_from_psoc p i mac id)
    (fun r s' => inv A (give OVdev id r e) s' /\ alike s s'
       /\ forall v, r = Some v -> exists d, wlan_pdev_list rp !! i = Some (Some d)
            /\ vdev_is (fun r => WLAN_ADDR_EQ (vdev_macaddr r) mac) s v && is_created s (OVdev v) = true) s.
Proof using I He.
  intros Hp.
  apply (around_pdev p rp i id (fun d => wlan_objmgr_get_vdev_by_macaddr_from_pdev d mac id)
    (fun _ v => vdev_is (fun r => WLAN_ADDR_EQ (vdev_macaddr r) mac) s v && is_created s (OVdev v))); [done|].
  intros d h rd s' Hh Hs' Hd I'. assert (alike s s') as Ha by (subst; by repeat constructor).
  eexists. split; [by eapply get_vdev_by_macaddr_from_pdev_ret|].
  assert (forall v, List.find (fun v => vdev_is (fun r => WLAN_ADDR_EQ (vdev_macaddr r) mac) s' v
            && is_created s' (OVdev v)) (wlan_vdev_list rd) = Some v ->
          vdev_is (fun r => WLAN_ADDR_EQ (vdev_macaddr r) mac) s' v = true /\ is_created s' (OVdev v) = true)
    as Hf.
  { intros v Hv. apply find_some in Hv as [_ Hv]. by apply andb_true_iff in Hv. }
  split.
  - apply inv_taken_created; [done|by apply bump_nonneg|]. intros v Hv. by apply Hf.
  - intros v Hv. destruct (Hf v Hv) as [H1 H2].
    rewrite <- (alike_vdev s s' _ v) by done. rewrite <- (alike_created s s') by done. by rewrite H1, H2.
Qed.

Lemma no_dead_take o h id : no_dead s -> get_hdr o s = Some h -> no_dead (upd_hdr o (add_ref 1 id) s).
Proof using I.
  intros Hn Hh o' h'. rewrite get_hdr_upd. case_bool_decide; [|by apply Hn].
  subst. rewrite Hh. intros [= <-]. destruct (inv_hdr _ _ _ I o h Hh) as [_ H2 H3 _].
  pose proof (total_ge h id H2). cbn. lia.
Qed.

Lemma inv_get_vdev_by_macaddr_from_psoc_no_state p rp i mac id :
  psocs s !! p = Some rp -> no_dead s ->
  twp (wlan_objmgr_get_vdev_by_macaddr_from_psoc_no_state p i mac id)
    (fun r s' => inv A (give OVdev id r e) s' /\ alike s s') s.
Proof using I He.
  intros Hp Hn. eapply wpx_mono.
  { apply (around_pdev p rp i id
      (fun d => wlan_objmgr_get_vdev_by_macaddr_from_pdev_no_state d mac id) (fun _ _ => true)); [done|].
    intros d h rd s' Hh -> Hd I'. eexists. split; [by eapply get_vdev_by_macaddr_from_pdev_no_state_ret|].
    split; [|done]. apply inv_taken_any; [done| |].
    - by eapply no_dead_take.
    - intros v Hv. apply find_some in Hv as [Hv _]. apply list_elem_of_In in Hv.
      by eapply vdev_on_pdev. }
  cbn. by intros r s' (? & ? & _).
Qed.

(** ** The peers of a VDEV *)

Lemma peers_of_vdev v rv x :
  vdevs s !! v = Some rv -> x ∈ wlan_peer_list rv -> is_Some (get_hdr (OPeer x) s).
Proof using I.
  intros Hv Hx. apply (vdev_peers _ _ _ _ (inv_vdev _ _ _ I _ _ Hv)) in Hx as (m & t & Hx).
  apply peer_keys_Some in Hx as (r & Hr & _). cbn. by rewrite Hr.
Qed.

Lemma inv_try_get_bsspeer v rv id :
  vdevs s !! v = Some rv ->
  wlan_objmgr_vdev_try_get_bsspeer v id s
  = let r := slot_if (fun x => is_created s (OPeer x)) (Some (bss_peer rv)) in Ret r (taken OPeer id r s).
Proof using I.
  intros Hv. unfold wlan_objmgr_vdev_try_get_bsspeer.
  rewrite (bind_ret _ _ _ _ _ (read_vdev_ret _ _ _ Hv)). destruct (bss_peer rv) as [x|] eqn:Hb; [|done].
  pose proof (proj1 (vdev_bss _ _ _ _ (inv_vdev _ _ _ I _ _ Hv) x Hb)) as Hx.
  unfold wlan_objmgr_peer_try_get_ref. cbn [fmap option_fmap option_map slot_if].
  pose proof (try_get_ref_ret s (OPeer x) id (peers_of_vdev v rv x Hv Hx)) as Ht.
  rewrite (bind_ret _ _ _ _ _ (eq_trans Ht (if_ret _ _ _ _ _))). by destruct (is_created s (OPeer x)).
Qed.

End Psoc.

(** Compared peers are referenced on the way; only the last reference stays. *)
Lemma inv_find_peer_loop A e mac id l : forall s,
  inv A e s -> ledger_ok e -> (forall x, x ∈ l -> is_Some (get_hdr (OPeer x) s)) ->
  twp (find_peer_loop l mac id) (fun r s' => inv A (give OPeer id r e) s'
    /\ r = List.find (fun x => peer_is (fun r => WLAN_ADDR_EQ (peer_macaddr r) mac) s x
                               && is_created s (OPeer x)) l /\ alike s s') s.
Proof.
  induction l as [|x l IH]; intros s I He Hl; [by apply wpx_mret; split_and!; [done..|constructor]|].
  cbn [find_peer_loop List.find]. pose proof (Hl x (list_elem_of_here _ _)) as [h Hx].
  pose proof (try_get_ref_ret s (OPeer x) id ltac:(by eauto)) as Ht.
  assert (forall y, y ∈ l -> is_Some (get_hdr (OPeer y) s)) as Hl' by (intros; apply Hl; by right).
  destruct (is_created s (OPeer x)) eqn:Hc.
  - eapply wpx_step; [exact Ht|]. cbn [QDF_IS_STATUS_SUCCESS].
    pose proof (inv_taken_created A e s OPeer id (Some x) I He ltac:(by intros ? [= <-])) as I1.
    cbn [taken give] in I1. set (s1 := upd_hdr (OPeer x) (add_ref 1 id) s) in *.
    assert (alike s s1) as Ha by repeat constructor.
    destruct (get_hdr_at _ _ _ Hx) as [r Hr].
    assert (exists r1, peers s1 !! x = Some r1 /\ peer_macaddr r1 = peer_macaddr r) as (r1 & Hr1 & Hm).
    { cbn. rewrite lookup_alter_eq, Hr. by eexists. }
    eapply wpx_step; [unfold peer_has_mac; by rewrite (bind_ret _ _ _ _ _ (read_peer_ret _ _ _ Hr1))|].
    unfold peer_is at 1. rewrite Hr, Hm. destruct (WLAN_ADDR_EQ (peer_macaddr r) mac).
    { apply wpx_mret. by split_and!. }
    destruct (is_created_live _ _ Hc) as (h0 & Hh0 & Hl0).
    pose proof (given_back A e s (OPeer x) h0 id OPeer None s1 I1 He Hh0 Hl0 Ha) as Hrel.
    eapply wpx_step; [exact Hrel|].
    pose proof (given_back_inv A e s (OPeer x) h0 id OPeer None s1 I1 He Hh0 Hl0 Ha) as I2.
    cbn [give] in I2. set (s2 := upd_hdr (OPeer x) (add_ref (-1) id) s1) in *.
    assert (alike s s2) as Ha2 by repeat constructor.
    eapply wpx_mono; [apply (IH s2 I2 He)|].
    + intros y Hy. eapply alike_exists; [done|by apply Hl'].
    + intros r' s' (Ir & -> & Ha'). split_and!; [done| |by eapply alike_trans].
      apply find_ext. intros y. by rewrite (alike_peer s s2), (alike_created s s2).
  - eapply wpx_step; [exact Ht|]. cbn [QDF_IS_STATUS_SUCCESS]. rewrite andb_false_r.
    by apply IH.
Qed.

(** Around a walk of a VDEV's peers: the VDEV itself is referenced meanwhile. *)
Lemma around_vdev {B} A e s v h id (m : M objmgr_world B) (G : B -> ledger -> ledger)
    (R : B -> objmgr_world -> Prop) :
  inv A e s -> ledger_ok e -> get_hdr (OVdev v) s = Some h -> live h = true ->
  (forall r e o id (n : Z) o1 id1, G r (bump e o id n) o1 id1 = bump (G r e) o id n o1 id1) ->
  (forall r e, ledger_ok e -> ledger_ok (G r e)) ->
  (forall s', s' = upd_hdr (OVdev v) (add_ref 1 id) s -> inv A (bump e (OVdev v) id 1) s' ->
     twp m (fun r s'' => inv A (G r (bump e (OVdev v) id 1)) s'' /\ R r s'') s') ->
  twp (wlan_objmgr_vdev_get_ref v id;; r ← m; wlan_objmgr_vdev_release_ref v id;; mret r)
    (fun r s' => inv A (G r e) s' /\ exists s'', R r s'') s.
Proof.
  intros I He Hh Hl HG HGok Hm. eapply wpx_step; [by eapply write_hdr_ret|].
  pose proof (inv_take _ _ _ _ _ id I Hh (live_count _ _ _ _ _ I He Hh Hl)) as I1.
  apply wpx_bind. eapply wpx_mono; [by apply Hm|]. intros r s2 [I2 HR].
  assert (inv A (bump (G r e) (OVdev v) id 1) s2) as I3.
  { eapply inv_ext; [done| |exact I2]. intros. by rewrite HG. }
  pose proof (HGok r e He) as HGe.
  destruct (inv_refs _ _ _ I3 (OVdev v) id) as [h2 Hh2].
  { rewrite bump_same. specialize (HGe (OVdev v) id). lia. }
  apply wpx_bind. eapply wpx_mono; [exact (inv_release_ref A (G r e) s2 _ _ _ I3 HGe Hh2)|].
  intros u s3 I4. apply wpx_mret. split; [done|by exists s2].
Qed.

Lemma inv_vdev_find_peer_by_mac A e s v rv mac id :
  inv A e s -> ledger_ok e -> vdevs s !! v = Some rv ->
  twp (wlan_objmgr_vdev_find_peer_by_mac v mac id) (fun r s' => inv A (give OPeer id r e) s'
    /\ r = if bool_decide (obj_state (vdev_hdr rv) <> WLAN_OBJ_STATE_CREATED) then None
           else List.find (fun x => peer_is (fun r => WLAN_ADDR_EQ (peer_macaddr r) mac) s x
                               && is_created s (OPeer x)) (wlan_peer_list rv)) s.
Proof.
  intros I He Hv. unfold wlan_objmgr_vdev_find_peer_by_mac.
  eapply wpx_step; [by apply read_vdev_ret|]. case_bool_decide as Hst; [by apply wpx_mret|].
  assert (get_hdr (OVdev v) s = Some (vdev_hdr rv)) as Hh by (cbn; by rewrite Hv).
  eapply wpx_mono; [eapply (around_vdev A e s v (vdev_hdr rv) id _ (fun r => give OPeer id r)
    (fun r _ => r = List.find (fun x => peer_is (fun r => WLAN_ADDR_EQ (peer_macaddr r) mac) s x
                               && is_created s (OPeer x)) (wlan_peer_list rv))); try done|].
  - unfold live. destruct (obj_state (vdev_hdr rv)); done || (exfalso; by apply Hst).
  - intros. by rewrite give_bump.
  - intros. by apply give_ok.
  - intros s' Hs' I'. assert (alike s s') as Ha by (subst; by repeat constructor).
    eapply wpx_mono; [apply inv_find_peer_loop; [exact I'|by apply bump_nonneg|]|].
    + intros x Hx. eapply alike_exists; [done|]. by eapply peers_of_vdev.
    + intros r s'' (Ir & -> & _). split; [done|]. apply find_ext. intros y.
      by rewrite (alike_peer s s'), (alike_created s s').
  - cbn. by intros r s' (? & s'' & ->).
Qed.

(** ** Logically deleted peers *)

Definition log_deleted s x : bool :=
  match get_hdr (OPeer x) s with
  | Some h => bool_decide (obj_state h = WLAN_OBJ_STATE_LOGICALLY_DELETED)
  | None => false
  end.
Lemma alike_deleted s s' x : alike s s' -> log_deleted s' x = log_deleted s x.
Proof.
  intros Ha. apply (alike_state s s' (OPeer x)) in Ha. unfold log_deleted.
  destruct (get_hdr (OPeer x) s') as [h'|], (get_hdr (OPeer x) s) as [h|]; try done. cbn in Ha. by injection Ha as ->.
Qed.

Lemma give_all_bump K id l e o id' (n : Z) o1 id1 :
  give_all K id l (bump e o id' n) o1 id1 = bump (give_all K id l e) o id' n o1 id1.
Proof. induction l as [|x l IH]; [done|]. unfold give_all, bump in *. cbn. rewrite IH. lia. Qed.
Lemma give_all_ok K id l e : ledger_ok e -> ledger_ok (give_all K id l e).
Proof. intros He. induction l as [|x l IH]; [done|]. by apply bump_nonneg. Qed.

Section LogDel.
Context (A : objref -> bool) (e : ledger) id (want : nat -> M objmgr_world bool) (w : nat -> bool) s (He : ledger_ok e).

(** Each of them is given with a reference. *)
Lemma inv_logically_del_loop l : forall found s1,
  inv A (give_all OPeer id found e) s1 -> alike s s1 ->
  (forall x s', x ∈ l -> alike s s' -> want x s' = Ret (w x) s') ->
  (forall x, x ∈ l -> is_Some (get_hdr (OPeer x) s)) ->
  (forall x, x ∈ found -> w x && log_deleted s x = true) ->
  twp (logically_del_loop l want id found) (fun r s' => inv A (give_all OPeer id r e) s'
    /\ forall x, x ∈ r -> w x && log_deleted s x = true) s1.
Proof using He.
  induction l as [|x l IH]; intros found s1 I Ha Hw Hl Hf; [by apply wpx_mret|].
  cbn [logically_del_loop]. eapply wpx_step; [apply Hw; [by left|done]|].
  pose proof (alike_exists _ _ (OPeer x) Ha (Hl x (list_elem_of_here _ _))) as [h Hh].
  destruct (get_hdr_at _ _ _ Hh) as [r Hr]. eapply wpx_step; [by apply read_peer_ret|].
  assert (peer_hdr r = h) as -> by (cbn in Hh; rewrite Hr in Hh; by injection Hh).
  assert (forall found s2, inv A (give_all OPeer id found e) s2 -> alike s s2 ->
    (forall x, x ∈ found -> w x && log_deleted s x = true) ->
    twp (logically_del_loop l want id found) (fun r s' => inv A (give_all OPeer id r e) s'
      /\ forall x, x ∈ r -> w x && log_deleted s x = true) s2) as Hrest.
  { intros f2 s2 I2 Ha2 Hf2. apply IH; try done; intros; [apply Hw|apply Hl]; by try right. }
  destruct (w x && _ && _) eqn:Hc; [|by apply Hrest].
  apply andb_true_iff in Hc as [[Hwx Hst%bool_decide_eq_true]%andb_true_iff Hcnt].
  apply negb_true_iff, Z.eqb_neq in Hcnt. cbn [wlan_objmgr_peer_get_ref].
  eapply wpx_step; [by eapply (write_hdr_ret (OPeer x))|].
  pose proof (inv_take _ _ _ _ _ id I Hh Hcnt) as I1.
  eapply wpx_step; [apply malloc_ret|]. apply inv_take_addr in I1. destruct (malloc_ok _).
  - apply Hrest; [exact I1|by repeat constructor|].
    intros y [->|Hy]%elem_of_cons; [|by apply Hf]. rewrite <- (alike_deleted s s1) by done.
    unfold log_deleted. by rewrite Hwx, Hh, Hst, bool_decide_eq_true_2.
  - apply wpx_bind.
    eapply wpx_mono; [eapply (inv_release_ref _ _ _ (OPeer x)); [exact I1|by apply give_all_ok|]|].
    + transitivity (get_hdr (OPeer x) (upd_hdr (OPeer x) (add_ref 1 id) s1)); [done|].
      by rewrite get_hdr_upd, bool_decide_eq_true_2, Hh.
    + intros u s2 I2. apply wpx_modify_bind. apply wpx_mret. split; [|done].
      exact (inv_set_trace _ _ _ _ I2).
Qed.

Lemma inv_populate_logically_del l :
  inv A e s ->
  (forall x s', x ∈ l -> alike s s' -> want x s' = Ret (w x) s') ->
  (forall x, x ∈ l -> is_Some (get_hdr (OPeer x) s)) ->
  twp (populate_logically_del l want id) (fun r s' => inv A (give_all OPeer id r e) s'
    /\ forall x, x ∈ r -> w x && log_deleted s x = true) s.
Proof using He.
  intros I Hw Hl. unfold populate_logically_del. eapply wpx_step; [apply malloc_ret|].
  apply inv_take_addr in I. destruct (malloc_ok _).
  - apply inv_logically_del_loop; try done; [by repeat constructor|]. by intros x Hx%elem_of_nil.
  - apply wpx_mret. split; [done|]. by intros x Hx%elem_of_nil.
Qed.
End LogDel.

(** The list by address, of a psoc. *)
Lemma in_hash_twp {B} A e s p rp mac (none : B) (find : list nat -> M objmgr_world B) Q :
  inv A e s -> ledger_ok e -> psocs s !! p = Some rp ->
  Q none s -> twp (find (hash_bucket rp mac)) Q s ->
  twp (in_hash p mac none find) Q s.
Proof.
  intros I He Hp HQ Hf. unfold in_hash. eapply wpx_step; [by apply read_psoc_ret|].
  destruct (_ =? _)%nat; [done|].
  eapply wpx_step; [|exact Hf]. by rewrite (hash_bucket_Some _ _ _ I _ _ Hp mac).
Qed.

Definition listed_peer mac bssid i s x : bool :=
  peer_is (fun r => WLAN_ADDR_EQ (peer_macaddr r) mac && (peer_pdev_id r =? i)%nat) s x
  && match bssid with
     | None => true
     | Some b => match peers s !! x with Some r => bssid_match b s r | None => false end
     end.

Lemma alike_peer_vdev s s' x : alike s s' -> peer_vdev <$> peers s' !! x = peer_vdev <$> peers s !! x.
Proof.
  induction 1 as [|s' o' n id _ IH|s' _ IH]; [done| |done].
  rewrite <- IH. destruct o'; try done. cbn. rewrite lookup_alter. case_decide; [|done].
  subst. by destruct (peers s' !! x).
Qed.

Lemma alike_listed mac bssid i s s' x : alike s s' -> listed_peer mac bssid i s' x = listed_peer mac bssid i s x.
Proof.
  intros Ha. unfold listed_peer. rewrite (alike_peer s s') by done. f_equal. destruct bssid as [b|]; [|done].
  pose proof (alike_peer_vdev s s' x Ha) as Hv.
  destruct (peers s' !! x) as [r'|], (peers s !! x) as [r|]; try done. injection Hv as Hv.
  unfold bssid_match. rewrite (alike_vdev s s') by done. by rewrite Hv.
Qed.

Section LogDelOf.
Context (A : objref -> bool) (e : ledger) s (I : inv A e s) (He : ledger_ok e).

Lemma inv_populate_logically_deleted p rp i bssid mac id :
  psocs s !! p = Some rp ->
  twp (wlan_objmgr_populate_logically_deleted_peerlist_by_mac_n_vdev p i bssid mac id)
    (fun r s' => inv A (give_all OPeer id r e) s'
       /\ forall x, x ∈ r -> listed_peer mac bssid i s x && log_deleted s x = true) s.
Proof using I He.
  intros Hp. eapply in_hash_twp; [done..| |].
  { split; [done|]. by intros x Hx%elem_of_nil. }
  eapply (inv_populate_logically_del A e id _ (listed_peer mac bssid i s)); [done|done| |].
  2:{ intros x Hx. by eapply bucket_hdr. }
  intros x s' Hx Ha. rewrite <- (alike_listed _ _ _ s s') by done.
  destruct (bucket_peer _ _ _ I _ _ Hp mac x Hx) as [r0 Hr0].
  destruct (alike_exists s s' (OPeer x) Ha) as [h Hh]; [cbn; by rewrite Hr0|].
  destruct (get_hdr_at _ _ _ Hh) as [r Hr]. unfold listed_peer, peer_is.
  unfold peer_has_mac_pdev. rewrite bind_assoc, (bind_ret _ _ _ _ _ (read_peer_ret _ _ _ Hr)), Hr.
  unfold mbind at 1, M_bind at 1. cbn [mret M_ret].
  destruct (WLAN_ADDR_EQ _ _ && _); [|done]. destruct bssid as [b|]; [|done].
  unfold wlan_peer_bssid_match, bssid_match, vdev_is.
  rewrite (bind_ret _ _ _ _ _ (read_peer_ret _ _ _ Hr)).
  pose proof (alike_peer_vdev s s' x Ha) as Hpv. rewrite Hr, Hr0 in Hpv. injection Hpv as Hpv.
  destruct (peer_vdev_exists _ _ _ I He x r0 Hr0) as [rv Hrv].
  destruct (alike_exists s s' (OVdev (peer_vdev r)) Ha) as [hv Hhv]; [cbn; by rewrite Hpv, Hrv|].
  destruct (get_hdr_at _ _ _ Hhv) as [rv' Hrv'].
  by rewrite (bind_ret _ _ _ _ _ (read_vdev_ret _ _ _ Hrv')), Hrv'.
Qed.

Lemma inv_vdev_get_log_del_peer_list v rv id :
  vdevs s !! v = Some rv ->
  twp (wlan_objmgr_vdev_get_log_del_peer_list v id)
    (fun r s' => inv A (give_all OPeer id r e) s'
       /\ forall x, x ∈ r -> log_deleted s x = true) s.
Proof using I He.
  intros Hv. unfold wlan_objmgr_vdev_get_log_del_peer_list.
  eapply wpx_step; [by apply read_vdev_ret|].
  assert (forall x, x ∈ @nil nat -> log_deleted s x = true) as Hnil by (by intros x Hx%elem_of_nil).
  case_bool_decide as Hst; [by apply wpx_mret|]. destruct (_ =? _)%nat; [by apply wpx_mret|].
  assert (get_hdr (OVdev v) s = Some (vdev_hdr rv)) as Hh by (cbn; by rewrite Hv).
  eapply wpx_mono; [eapply (around_vdev A e s v (vdev_hdr rv) id _ (fun r => give_all OPeer id r)
    (fun r _ => forall x, x ∈ r -> log_deleted s x = true)); try done|].
  - unfold live. destruct (obj_state (vdev_hdr rv)); done || (exfalso; by apply Hst).
  - intros. by rewrite give_all_bump.
  - intros. by apply give_all_ok.
  - intros s' Hs' I'. assert (alike s s') as Ha by (subst; by repeat constructor).
    eapply wpx_mono;
      [apply (inv_populate_logically_del A _ id _ (fun _ => true) s' (bump_nonneg _ _ _ 1 He ltac:(lia)) _ I')|].
    + done.
    + intros x Hx. eapply alike_exists; [done|]. by eapply peers_of_vdev.
    + cbn. intros r s'' [Ir Hr]. split; [done|]. intros x Hx. rewrite <- (alike_deleted s s') by done. by apply Hr.
  - cbn. by intros r s' (? & s'' & ?).
Qed.

(** [wlan_objmgr_get_peer] reports an id out of range, and goes on. *)
Lemma inv_get_peer p rp i mac id :
  psocs s !! p = Some rp ->
  twp (wlan_objmgr_get_peer p i mac id)
    (fun r s' => inv A (give OPeer id r e) s'
       /\ r = found rp mac (peer_is (fun r => WLAN_ADDR_EQ (peer_macaddr r) mac && (peer_pdev_id r =? i)%nat) s)
               (fun x => is_created s (OPeer x))) s.
Proof using I He.
  intros Hp. unfold wlan_objmgr_get_peer.
  assert (forall s0, inv A e s0 -> psocs s0 !! p = Some rp ->
    (forall x, is_created s0 (OPeer x) = is_created s (OPeer x)) -> (peers s0 = peers s) ->
    twp (wlan_objmgr_get_peer_nolock p i mac id)
    (fun r s' => inv A (give OPeer id r e) s'
       /\ r = found rp mac (peer_is (fun r => WLAN_ADDR_EQ (peer_macaddr r) mac && (peer_pdev_id r =? i)%nat) s)
               (fun x => is_created s (OPeer x))) s0) as Hno.
  { intros s0 I0 Hp0 Hc Hps. eapply wpx_eq; [by eapply get_peer_nolock_ret|]. cbn zeta.
    assert (found rp mac (peer_is (fun r => WLAN_ADDR_EQ (peer_macaddr r) mac && (peer_pdev_id r =? i)%nat) s0)
               (fun x => is_created s0 (OPeer x))
            = found rp mac (peer_is (fun r => WLAN_ADDR_EQ (peer_macaddr r) mac && (peer_pdev_id r =? i)%nat) s)
               (fun x => is_created s (OPeer x))) as <-.
    { apply find_ext. intros y. rewrite Hc. unfold peer_is. by rewrite Hps. }
    split; [|done]. apply inv_taken_created; [done..|]. intros x Hx. apply find_some in Hx as [_ Hx].
    by apply andb_true_iff in Hx as [_ Hx]. }
  destruct (_ <=? _)%nat; [|by eapply wpx_step; [reflexivity|apply Hno]].
  apply wpx_modify_bind. apply Hno; [exact (inv_set_trace _ _ _ _ I)|done..].
Qed.
End LogDelOf.

End Look.
