(* ===== verification/ObjComp.v ===== *)
(** The components' parts of an object: which handlers are called, in which order, and
    what their answers make of the object. *)
From S2P Require Import Prelude QdfTypes Obj ObjInv ObjLink ObjRun.
Import QdfTypes.Parse.

Section Comp.
Context {E : objmgr_env}.
Implicit Types (s : objmgr_world) (o : objref) (h : wlan_objmgr_hdr) (comp c n : nat).

(** ** The status of an object *)

(** A component is ready if it did not fail and, when it answers later, it has answered. *)
Definition comp_ready h c : bool :=
  match status_of h c with
  | QDF_STATUS_E_NOMEM | QDF_STATUS_E_FAILURE => false
  | QDF_STATUS_COMP_ASYNC => bool_decide (is_Some (comp_priv_obj h !! c))
  | _ => true
  end.
(** The first component that is not ready decides. *)
Definition status_spec h (l : list nat) : QDF_STATUS :=
  match List.find (fun c => negb (comp_ready h c)) l with
  | None => QDF_STATUS_SUCCESS
  | Some c => if bool_decide (status_of h c = QDF_STATUS_COMP_ASYNC)
              then QDF_STATUS_COMP_ASYNC else QDF_STATUS_E_FAILURE
  end.

Lemma object_status_loop_spec n : forall c h, object_status_loop n c h = status_spec h (seq c n).
Proof.
  unfold status_spec. induction n as [|n IH]; intros c h; [done|].
  cbn [object_status_loop seq List.find]. rewrite IH.
  destruct (comp_ready h c) eqn:Hr; unfold comp_ready in Hr; cbn [negb];
    destruct (status_of h c) eqn:Hst; try done; by destruct (comp_priv_obj h !! c).
Qed.

(** ** Calling the handlers *)

(** Only what the component [c] keeps in the object has changed. *)
Definition touches c h h' : Prop :=
  same_refs h h' /\ forall c', c' <> c ->
    status_of h' c' = status_of h c' /\ comp_priv_obj h' !! c' = comp_priv_obj h !! c'.

Lemma touches_refl c h : touches c h h.
Proof. split; [done|]. done. Qed.
Lemma touches_trans c h h' h'' : touches c h h' -> touches c h' h'' -> touches c h h''.
Proof.
  intros [R1 H1] [R2 H2]. split; [by eapply same_refs_trans|]. intros c' Hc.
  destruct (H1 c' Hc), (H2 c' Hc). split; congruence.
Qed.
Lemma touches_status c st h : touches c h (set_status c st h).
Proof.
  split; [done|]. intros c' Hc. split; [|done]. unfold status_of. cbn. by rewrite lookup_insert_ne.
Qed.
Lemma touches_priv c a h : touches c h (set_priv c a h).
Proof.
  split; [done|]. intros c' Hc. split; [done|]. cbn. by rewrite lookup_partial_alter_ne.
Qed.
Lemma status_of_set c st h : status_of (set_status c st h) c = st.
Proof. unfold status_of. cbn. by rewrite lookup_insert_eq. Qed.

(** What a handler makes of its component's part of the object. *)
Definition priv_after (op : slot_op) (a : option Z) : option Z :=
  match op with
  | NoSlot => a
  | AttachSlot p _ => match a with Some _ => a | None => p end
  | DetachSlot p => if bool_decide (a = p) then None else a
  end.

(** The handlers that are called: of the components that registered one, and, to destroy,
    whose part was created, or was to be. *)
Definition creates o (g : wlan_objmgr_global) c : option (nat * Z) := create_handler g !! (type_of o, c).
Definition destroys o (g : wlan_objmgr_global) h c : option (nat * Z) :=
  if bool_decide (status_of h c = QDF_STATUS_SUCCESS) || bool_decide (status_of h c = QDF_STATUS_COMP_ASYNC)
  then destroy_handler g !! (type_of o, c) else None.
Definition called (hf : nat -> option (nat * Z)) c : bool := bool_decide (is_Some (hf c)).

Section Handlers.
Context o s g (Ho : is_Some (get_hdr o s)) (Hg : glob s = Some g).

Lemma run_handler_left c f h t :
  slot_only (obj_state h) = true -> (c < WLAN_UMAC_MAX_COMPONENTS)%nat ->
  twp (run_handler o c f) (fun st s' => exists h', s' = hset o h' t s /\ touches c h h' /\
    let r := handlers (fst f) (snd f) o (hset o h t s) in
    st = h_status r /\ comp_priv_obj h' !! c = priv_after (h_slot r) (comp_priv_obj h !! c)) (hset o h t s).
Proof using Ho.
  intros Hst Hc. unfold run_handler. apply wpx_gets_bind. apply twp_read_hset; [done|].
  destruct (h_slot _) as [|priv st|priv]; [by exists h| |]; rewrite Hst; apply wpx_bind.
  - unfold attach_slot. rewrite (proj2 (Nat.leb_gt _ _) Hc). apply twp_read_hset; [done|]. cbn [priv_after].
    destruct (comp_priv_obj h !! c) eqn:Hp; [by exists h|]. apply twp_write_hset; [done|].
    eexists. split_and!; [done|eapply touches_trans; [apply touches_priv|apply touches_status]|done|].
    cbn. by rewrite lookup_partial_alter_eq.
  - unfold detach_slot. rewrite (proj2 (Nat.leb_gt _ _) Hc). apply twp_read_hset; [done|]. cbn [priv_after].
    destruct (bool_decide (comp_priv_obj h !! c <> priv)) eqn:Hp; apply twp_write_hset; try done; eexists;
      (split_and!; [done| |done|]).
    + apply touches_status.
    + apply bool_decide_eq_true in Hp. by rewrite bool_decide_eq_false_2.
    + eapply touches_trans; [apply touches_priv|apply touches_status].
    + apply bool_decide_eq_false, dec_stable in Hp. rewrite bool_decide_eq_true_2 by done.
      cbn. by rewrite lookup_partial_alter_eq.
Qed.

(** ** What the handlers leave *)

Section Parts.
Context (ev : nat -> obj_event) (hf : nat -> option (nat * Z)) (h0 : wlan_objmgr_hdr).

(** The events once the components [0 .. n-1] had their turn. *)
Definition calls_upto n : list obj_event := trace s ++ (ev <$> List.filter (called hf) (seq 0 n)).
(** The header when [c] has its turn: the components before it have what [h1] says. *)
Definition at_turn h1 c hc : Prop :=
  same_refs h0 hc /\ forall c', let from := if (c' <? c)%nat then h1 else h0 in
    status_of hc c' = status_of from c' /\ comp_priv_obj hc !! c' = comp_priv_obj from !! c'.
(** What is left of the part of [c]: its status is what its handler answers, in the
    world where it is called, or that it has no part. *)
Definition part_left h1 c : Prop :=
  match hf c with
  | None => status_of h1 c = QDF_STATUS_COMP_DISABLED /\ comp_priv_obj h1 !! c = comp_priv_obj h0 !! c
  | Some f => exists hc, at_turn h1 c hc /\
      let r := handlers (fst f) (snd f) o (hset o hc (calls_upto (S c)) s) in
      status_of h1 c = h_status r /\ comp_priv_obj h1 !! c = priv_after (h_slot r) (comp_priv_obj h0 !! c)
  end.

(** The components before [c] had their turn. *)
Definition turned c h : Prop := at_turn h c h /\ forall c', (c' < c)%nat -> part_left h c'.

Lemma turned_start : turned 0 h0.
Proof. split; [|intros c' Hc'; lia]. split; [done|]. by intros c'. Qed.

Lemma part_left_later c h h' c' : touches c h h' -> (c' < c)%nat -> part_left h c' -> part_left h' c'.
Proof.
  intros [_ Ht] Hlt. unfold part_left. destruct (Ht c' ltac:(lia)) as [-> ->].
  destruct (hf c') as [f|]; [|done]. intros (hc & [Hr Hat] & H). exists hc. split; [|done].
  split; [done|]. intros c1. specialize (Hat c1). revert Hat. cbn zeta.
  destruct (Nat.ltb_spec c1 c'); [|done]. destruct (Ht c1 ltac:(lia)) as [-> ->]. done.
Qed.

Lemma turned_step c h h' : turned c h -> touches c h h' -> part_left h' c -> turned (S c) h'.
Proof.
  intros [[Hr Hat] Hl] Ht Hp. split.
  - split; [by eapply same_refs_trans; [|apply Ht]|]. intros c'. specialize (Hat c'). revert Hat. cbn zeta.
    destruct (Nat.ltb_spec c' (S c)); [done|]. destruct (proj2 Ht c' ltac:(lia)) as [-> ->].
    by rewrite (proj2 (Nat.ltb_ge c' c)) by lia.
  - intros c' Hc'. destruct (decide (c' = c)) as [->|Hne]; [done|].
    eapply part_left_later; [done|lia|]. apply Hl. lia.
Qed.

Lemma turned_skip c h : turned c h -> hf c = None -> turned (S c) (set_status c QDF_STATUS_COMP_DISABLED h).
Proof.
  intros Hc Hf. eapply turned_step; [done|apply touches_status|]. unfold part_left. rewrite Hf, status_of_set.
  destruct (proj2 (proj1 Hc) c) as [_ Hp]. by rewrite Nat.ltb_irrefl in Hp.
Qed.

Lemma turned_call c h h' f : turned c h -> hf c = Some f -> touches c h h' ->
  let r := handlers (fst f) (snd f) o (hset o h (calls_upto (S c)) s) in
  comp_priv_obj h' !! c = priv_after (h_slot r) (comp_priv_obj h !! c) ->
  turned (S c) (set_status c (h_status r) h').
Proof.
  intros Hc Hf Ht r Hp. assert (touches c h (set_status c (h_status r) h')) as Ht'
    by (eapply touches_trans; [exact Ht|apply touches_status]).
  eapply turned_step; [exact Hc|exact Ht'|]. unfold part_left. rewrite Hf. destruct (proj1 Hc) as [Hr Hat].
  exists h. split.
  - split; [done|]. intros c'. specialize (Hat c'). revert Hat. cbn zeta.
    destruct (Nat.ltb_spec c' c); [|done]. destruct (proj2 Ht' c' ltac:(lia)) as [-> ->]. done.
  - fold r. rewrite status_of_set. split; [done|]. specialize (Hat c). cbn zeta in Hat.
    rewrite Nat.ltb_irrefl in Hat. by rewrite <- (proj2 Hat).
Qed.

Lemma calls_upto_S c : calls_upto (S c) = calls_upto c ++ if called hf c then [ev c] else [].
Proof.
  unfold calls_upto. rewrite seq_S, List.filter_app, fmap_app, <- app_assoc. cbn [List.filter Nat.add].
  by destruct (called hf c).
Qed.

(** One turn: the handler is called, or not, and the loop goes on. *)
Lemma twp_turn c h (k : M objmgr_world unit) Q :
  slot_only (obj_state h0) = true -> (c < WLAN_UMAC_MAX_COMPONENTS)%nat -> turned c h ->
  (forall h', turned (S c) h' -> twp k Q (hset o h' (calls_upto (S c)) s)) ->
  twp ((match hf c with
        | Some f => modify (emit (ev c));; status ← run_handler o c f; write_hdr o (set_status c status)
        | None => write_hdr o (set_status c QDF_STATUS_COMP_DISABLED)
        end);; k) Q (hset o h (calls_upto c) s).
Proof using Ho.
  intros Hst Hc Ht Hk. rewrite calls_upto_S in Hk. unfold called in Hk. destruct (hf c) as [f|] eqn:Hf.
  - rewrite bool_decide_eq_true_2 in Hk by (by eexists).
    apply wpx_assoc, wpx_modify_bind. rewrite emit_hset. apply wpx_assoc, wpx_bind.
    eapply wpx_mono; [apply run_handler_left; [|done]|].
    { destruct (proj1 (proj1 Ht)) as (-> & _). done. }
    intros st s1 (h1 & -> & Hto & -> & Hp). apply twp_write_hset; [done|]. apply Hk.
    assert (calls_upto c ++ [ev c] = calls_upto (S c)) as Hev.
    { rewrite calls_upto_S. unfold called. by rewrite Hf, bool_decide_eq_true_2 by (by eexists). }
    rewrite Hev in Hp |- *. by apply (turned_call c h h1 f).
  - rewrite bool_decide_eq_false_2, app_nil_r in Hk by (by intros [? ?]).
    apply twp_write_hset; [done|]. by apply Hk, turned_skip.
Qed.

End Parts.

Lemma create_loop_calls h0 : slot_only (obj_state h0) = true -> forall n c h,
  (c + n <= WLAN_UMAC_MAX_COMPONENTS)%nat -> turned (EvCreate o) (creates o g) h0 c h ->
  twp (create_handlers_loop n c o) (fun _ s' => exists h',
    s' = hset o h' (calls_upto (EvCreate o) (creates o g) (c + n)) s
    /\ turned (EvCreate o) (creates o g) h0 (c + n) h')
    (hset o h (calls_upto (EvCreate o) (creates o g) c) s).
Proof using Ho Hg.
  intros Hst n. induction n as [|n IH]; intros c h Hn Ht; [exists h; by rewrite Nat.add_0_r|].
  cbn [create_handlers_loop]. eapply twp_glob_hset; [exact Hg|]. rewrite <- Nat.add_succ_comm.
  apply (twp_turn (EvCreate o) (creates o g) h0); [done|lia|done|]. intros h' Ht'. apply IH; [lia|done].
Qed.

Lemma destroy_loop_calls h0 : slot_only (obj_state h0) = true -> forall n c h,
  (c + n <= WLAN_UMAC_MAX_COMPONENTS)%nat -> turned (EvDestroy o) (destroys o g h0) h0 c h ->
  twp (destroy_handlers_loop n c o) (fun _ s' => exists h',
    s' = hset o h' (calls_upto (EvDestroy o) (destroys o g h0) (c + n)) s
    /\ turned (EvDestroy o) (destroys o g h0) h0 (c + n) h')
    (hset o h (calls_upto (EvDestroy o) (destroys o g h0) c) s).
Proof using Ho Hg.
  intros Hst n. induction n as [|n IH]; intros c h Hn Ht; [exists h; by rewrite Nat.add_0_r|].
  cbn [destroy_handlers_loop]. eapply twp_glob_hset; [exact Hg|]. apply twp_read_hset; [done|].
  rewrite <- Nat.add_succ_comm.
  destruct (proj2 (proj1 Ht) c) as [Hsc _]. rewrite Nat.ltb_irrefl in Hsc. cbn [Init.Nat.add] in Hsc.
  assert (forall m : nat * Z -> M objmgr_world unit, forall m0,
    match destroy_handler g !! (type_of o, c) with
    | Some f => if bool_decide (status_of h c = QDF_STATUS_SUCCESS)
                   || bool_decide (status_of h c = QDF_STATUS_COMP_ASYNC) then m f else m0
    | None => m0
    end = match destroys o g h0 c with Some f => m f | None => m0 end) as Hcase.
  { intros m m0. unfold destroys. rewrite <- Hsc. by destruct (_ || _), (destroy_handler g !! _). }
  rewrite (Hcase (fun f => _)). apply (twp_turn (EvDestroy o) (destroys o g h0) h0); [done|lia|done|].
  intros h' Ht'. apply IH; [lia|done].
Qed.

Definition has_status c : bool := bool_decide (is_Some (status_handler g !! (type_of o, c))).

Lemma status_loop_calls st n : forall c h t,
  status_handlers_loop n c o st (hset o h t s)
  = Ret tt (hset o h (t ++ ((fun c => EvStatus o c st) <$> List.filter has_status (seq c n))) s).
Proof using Hg.
  induction n as [|n IH]; intros c h t; [by rewrite app_nil_r|].
  cbn [status_handlers_loop seq List.filter].
  rewrite (bind_ret _ _ _ _ _ (read_glob_ret g (hset o h t s) ltac:(by rewrite glob_hset))).
  unfold has_status at 1. destruct (status_handler g !! _) eqn:Hc.
  - rewrite bool_decide_eq_true_2 by (by eexists). rewrite (bind_ret _ _ tt _ (hset o h (t ++ [EvStatus o c st]) s)) by done.
    rewrite IH. cbn. by rewrite <- app_assoc.
  - rewrite bool_decide_eq_false_2 by (intros [? ?]; congruence).
    rewrite (bind_ret _ _ tt _ (hset o h t s)) by done. apply IH.
Qed.

End Handlers.

Lemma twp_ret {A} (m : M objmgr_world A) Q s : twp m Q s -> exists a s', m s = Ret a s' /\ Q a s'.
Proof. unfold wpx. destruct (m s); [by eauto|done|done]. Qed.

Definition components : list nat := seq 0 WLAN_UMAC_MAX_COMPONENTS.
Definition ready_status h : QDF_STATUS := status_spec h components.
Lemma elem_of_components c : c ∈ components <-> (c < WLAN_UMAC_MAX_COMPONENTS)%nat.
Proof. unfold components. rewrite list_elem_of_In, in_seq. lia. Qed.

(** ** Creation and destruction *)

(** Creating an object calls the create handler of each component that registered
    one, once and in the order of the components; the status of a component is what its
    handler answers.  When every component is ready the object is created and the
    components that asked for it are told; when one is to answer later it is partially
    created; when one failed the object is deleted. *)
Theorem create_tail_calls o s g h (del : M objmgr_world QDF_STATUS) :
  glob s = Some g -> get_hdr o s = Some h -> obj_state h = WLAN_OBJ_STATE_ALLOCATED ->
  let created := trace s ++ (EvCreate o <$> List.filter (called (creates o g)) components) in
  exists h1, same_refs h h1 /\
    (forall c, c ∈ components -> part_left o s (EvCreate o) (creates o g) h h1 c) /\
    obj_create_tail o del s
    = match ready_status h1 with
      | QDF_STATUS_SUCCESS =>
          Ret true (hset o (set_state WLAN_OBJ_STATE_CREATED h1)
            (created ++ ((fun c => EvStatus o c QDF_STATUS_SUCCESS) <$> List.filter (has_status o g) components)) s)
      | QDF_STATUS_COMP_ASYNC => Ret true (hset o (set_state WLAN_OBJ_STATE_PARTIALLY_CREATED h1) created s)
      | _ => (del;; mret false) (hset o h1 created s)
      end.
Proof.
  intros Hg Hh Hst created. assert (is_Some (get_hdr o s)) as Ho by eauto.
  destruct (twp_ret _ _ _ (create_loop_calls o s g Ho Hg h ltac:(by rewrite Hst) WLAN_UMAC_MAX_COMPONENTS 0 h
    (Nat.le_refl _) (turned_start o s _ _ h))) as ([] & s1 & H1 & (h1 & -> & [[Hr _] Hp])).
  exists h1. split; [done|]. split.
  { intros c Hc%elem_of_components. by apply Hp. }
  unfold calls_upto in H1. cbn [seq List.filter fmap list_fmap Init.Nat.add] in H1. rewrite app_nil_r in H1.
  unfold obj_create_tail. rewrite hset_id in H1 by done.
  rewrite (bind_ret _ _ _ _ _ H1). unfold object_status. rewrite bind_assoc.
  rewrite (bind_ret _ _ _ _ _ (read_hdr_ret o h1 _ (get_hdr_hset o h1 _ s Ho))).
  rewrite object_status_loop_spec. fold components. fold (ready_status h1). fold created.
  rewrite (bind_ret (mret (ready_status h1)) _ (ready_status h1) _ (hset o h1 created s)) by done.
  destruct (ready_status h1); try (lazymatch goal with |- _ = (del;; _) _ => reflexivity end).
  - rewrite (bind_ret _ _ tt _ (hset o (set_state WLAN_OBJ_STATE_CREATED h1) created s)).
    2:{ rewrite (write_hdr_ret o _ h1) by (by apply get_hdr_hset). by rewrite upd_hset. }
    pose proof (status_loop_calls o s g Hg QDF_STATUS_SUCCESS WLAN_UMAC_MAX_COMPONENTS 0
      (set_state WLAN_OBJ_STATE_CREATED h1) created) as Hstl.
    fold components in Hstl. rewrite (bind_ret _ _ _ _ _ Hstl). reflexivity.
  - rewrite (bind_ret _ _ tt _ (hset o (set_state WLAN_OBJ_STATE_PARTIALLY_CREATED h1) created s)); [done|].
    rewrite (write_hdr_ret o _ h1) by (by apply get_hdr_hset). by rewrite upd_hset.
Qed.

(** C37: Destroying a logically deleted object calls the destroy handlers of exactly the
    components that have one and whose part was created, or was to be, once and in order.
    The status of such a component is what its handler answers, given the object as the
    components before it left it, and its private object what the handler made of it; the
    others are marked as disabled.  The first component that is not ready decides: the
    object is kept and the failure reported if it failed, and partially deleted if it is
    to answer later and has no private object; if there is none the object is freed. *)
Theorem obj_destroy_calls o s g h (free : M objmgr_world QDF_STATUS) :
  glob s = Some g -> get_hdr o s = Some h -> obj_state h = WLAN_OBJ_STATE_LOGICALLY_DELETED ->
  let destroyed := trace s ++ (EvDestroy o <$> List.filter (called (destroys o g h)) components) in
  exists h1, same_refs h h1 /\
    (forall c, c ∈ components -> part_left o s (EvDestroy o) (destroys o g h) h h1 c) /\
    obj_destroy o free s
    = match ready_status h1 with
      | QDF_STATUS_E_FAILURE => Ret QDF_STATUS_E_FAILURE (hset o h1 (destroyed ++ [EvBug]) s)
      | QDF_STATUS_COMP_ASYNC =>
          Ret QDF_STATUS_COMP_ASYNC (hset o (set_state WLAN_OBJ_STATE_PARTIALLY_DELETED h1) destroyed s)
      | _ => free (hset o h1 destroyed s)
      end.
Proof.
  intros Hg Hh Hst destroyed. assert (is_Some (get_hdr o s)) as Ho by eauto.
  destruct (twp_ret _ _ _ (destroy_loop_calls o s g Ho Hg h ltac:(by rewrite Hst) WLAN_UMAC_MAX_COMPONENTS 0 h
    (Nat.le_refl _) (turned_start o s _ _ h))) as ([] & s1 & H1 & (h1 & -> & [[Hr _] Hp])).
  exists h1. split; [done|]. split.
  { intros c Hc%elem_of_components. by apply Hp. }
  unfold calls_upto in H1. cbn [seq List.filter fmap list_fmap Init.Nat.add] in H1. rewrite app_nil_r in H1.
  unfold obj_destroy. rewrite hset_id in H1 by done.
  rewrite (bind_ret _ _ _ _ _ (read_hdr_ret o h s Hh)).
  rewrite bool_decide_eq_false_2 by (intros Hne; by apply Hne).
  rewrite (bind_ret (mret ()) _ tt s s) by done.
  rewrite (bind_ret _ _ _ _ _ H1). unfold object_status. rewrite bind_assoc.
  rewrite (bind_ret _ _ _ _ _ (read_hdr_ret o h1 _ (get_hdr_hset o h1 _ s Ho))).
  rewrite object_status_loop_spec. fold components. fold (ready_status h1). fold destroyed.
  rewrite (bind_ret (mret (ready_status h1)) _ (ready_status h1) _ (hset o h1 destroyed s)) by done.
  destruct (ready_status h1); try (lazymatch goal with |- _ = Ret _ _ => idtac | |- _ => reflexivity end);
    [reflexivity|].
  rewrite (bind_ret _ _ tt _ (hset o (set_state WLAN_OBJ_STATE_PARTIALLY_DELETED h1) destroyed s)); [done|].
  rewrite (write_hdr_ret o _ h1) by (by apply get_hdr_hset). by rewrite upd_hset.
Qed.

(** A component attaches its part of an object once: it is refused, and nothing
    changes, when the component does not exist or has a part already.  On a partially
    created object the last part that is awaited completes the creation, or makes it
    fail, and the components that asked for it are told which. *)
Theorem component_attach_result o s g h comp priv st :
  glob s = Some g -> get_hdr o s = Some h ->
  let h1 := set_status comp st (set_priv comp priv h) in
  let told st := trace s ++ ((fun c => EvStatus o c st) <$> List.filter (has_status o g) components) in
  component_obj_attach o comp priv st s
  = if (WLAN_UMAC_MAX_COMPONENTS <=? comp)%nat then Ret QDF_STATUS_MAXCOMP_FAIL s
    else match comp_priv_obj h !! comp with
      | Some _ => Ret QDF_STATUS_E_FAILURE s
      | None =>
          Ret QDF_STATUS_SUCCESS
            (match obj_state h, ready_status h1 with
             | WLAN_OBJ_STATE_PARTIALLY_CREATED, QDF_STATUS_SUCCESS =>
                 hset o (set_state WLAN_OBJ_STATE_CREATED h1) (told QDF_STATUS_SUCCESS) s
             | WLAN_OBJ_STATE_PARTIALLY_CREATED, QDF_STATUS_E_FAILURE =>
                 hset o (set_state WLAN_OBJ_STATE_CREATION_FAILED h1) (told QDF_STATUS_E_FAILURE) s
             | _, _ => hset o h1 (trace s) s
             end)
      end.
Proof.
  intros Hg Hh h1 told. assert (is_Some (get_hdr o s)) as Ho by eauto.
  unfold component_obj_attach, attach_slot. destruct (_ <=? _)%nat; [done|].
  rewrite bind_assoc, (bind_ret _ _ _ _ _ (read_hdr_ret o h s Hh)).
  destruct (comp_priv_obj h !! comp); [done|]. rewrite bind_assoc.
  rewrite (bind_ret _ _ _ _ _ (write_hdr_ret o _ h s Hh)).
  replace (upd_hdr o _ s) with (hset o h1 (trace s) s).
  2:{ pose proof (upd_hset o (fun h => set_status comp st (set_priv comp priv h)) h (trace s) s) as Hu.
      rewrite hset_id in Hu by done. by rewrite Hu. }
  rewrite (bind_ret (mret QDF_STATUS_SUCCESS) _ QDF_STATUS_SUCCESS _ (hset o h1 (trace s) s)) by done.
  cbn [QDF_IS_STATUS_ERROR QDF_IS_STATUS_SUCCESS negb].
  rewrite (bind_ret _ _ _ _ _ (read_hdr_ret o h1 _ (get_hdr_hset o h1 _ s Ho))).
  change (obj_state h1) with (obj_state h). case_bool_decide as Hpc; [by destruct (obj_state h)|].
  assert (obj_state h = WLAN_OBJ_STATE_PARTIALLY_CREATED) as ->
    by (destruct (decide (obj_state h = WLAN_OBJ_STATE_PARTIALLY_CREATED)); done).
  unfold object_status. rewrite bind_assoc.
  rewrite (bind_ret _ _ _ _ _ (read_hdr_ret o h1 _ (get_hdr_hset o h1 _ s Ho))).
  rewrite object_status_loop_spec. fold components. fold (ready_status h1).
  rewrite (bind_ret (mret (ready_status h1)) _ (ready_status h1) _ (hset o h1 (trace s) s)) by done.
  assert (forall f k, (write_hdr o f;; status_handlers_loop WLAN_UMAC_MAX_COMPONENTS 0 o k;; mret QDF_STATUS_SUCCESS)
    (hset o h1 (trace s) s) = Ret QDF_STATUS_SUCCESS (hset o (f h1) (told k) s)) as Hend.
  { intros f k. rewrite (bind_ret _ _ tt _ (hset o (f h1) (trace s) s)).
    2:{ rewrite (write_hdr_ret o _ h1) by (by apply get_hdr_hset). by rewrite upd_hset. }
    pose proof (status_loop_calls o s g Hg k WLAN_UMAC_MAX_COMPONENTS 0 (f h1) (trace s)) as Hstl.
    fold components in Hstl. rewrite (bind_ret _ _ _ _ _ Hstl). reflexivity. }
  destruct (ready_status h1); try (lazymatch goal with |- context [told] => apply Hend | |- _ => reflexivity end).
Qed.

End Comp.
