(* ===== verification/ObjSafe.v ===== *)
(** The clients of the object manager: their operations, what they must see to, and that
    every history of such operations runs without a crash. *)
From S2P Require Import Prelude QdfTypes Obj ObjInv ObjLink ObjRun ObjFree ObjPeer ObjStep ObjCreate ObjFind ObjLook.
Import QdfTypes.Parse.

Section Safe.
Context {E : objmgr_env}.
Implicit Types (s : objmgr_world) (o : objref) (h : wlan_objmgr_hdr) (p d v x i id comp : nat).

(** ** Lookups of one object *)

Inductive lookup_op : Type :=
  | PdevById (p i : nat)
  | PdevByIdNoState (p i : nat)
  | VdevById (p i : nat)
  | VdevByIdNoState (p i : nat)
  | VdevByOpmode (p : nat) (m : QDF_OPMODE)
  | VdevByIdFromPdev (d i : nat)
  | VdevByIdFromPdevNoState (d i : nat)
  | VdevByMac (d : nat) (mac : list Z)
  | VdevByMacNoState (d : nat) (mac : list Z)
  | FirstVdev (d : nat)
  | VdevByMacFromPsoc (p i : nat) (mac : list Z)
  | VdevByMacFromPsocNoState (p i : nat) (mac : list Z)
  | GetPeer (p i : nat) (mac : list Z)
  | GetPeerNolock (p i : nat) (mac : list Z)
  | GetPeerByMac (p : nat) (mac : list Z)
  | GetPeerLogicallyDeleted (p : nat) (mac : list Z)
  | GetPeerByMacVdev (p i : nat) (bssid mac : list Z)
  | GetPeerByMacVdevNoState (p i : nat) (bssid mac : list Z)
  | GetPeerNoState (p i : nat) (mac : list Z)
  | FindPeer (v : nat) (mac : list Z)
  | TryGetBsspeer (v : nat).

Definition run_lookup (l : lookup_op) id : M objmgr_world (option nat) :=
  match l with
  | PdevById p i => wlan_objmgr_get_pdev_by_id p i id
  | PdevByIdNoState p i => wlan_objmgr_get_pdev_by_id_no_state p i id
  | VdevById p i => wlan_objmgr_get_vdev_by_id_from_psoc p i id
  | VdevByIdNoState p i => wlan_objmgr_get_vdev_by_id_from_psoc_no_state p i id
  | VdevByOpmode p m => wlan_objmgr_get_vdev_by_opmode_from_psoc p m id
  | VdevByIdFromPdev d i => wlan_objmgr_get_vdev_by_id_from_pdev d i id
  | VdevByIdFromPdevNoState d i => wlan_objmgr_get_vdev_by_id_from_pdev_no_state d i id
  | VdevByMac d mac => wlan_objmgr_get_vdev_by_macaddr_from_pdev d mac id
  | VdevByMacNoState d mac => wlan_objmgr_get_vdev_by_macaddr_from_pdev_no_state d mac id
  | FirstVdev d => wlan_objmgr_pdev_get_first_vdev d id
  | VdevByMacFromPsoc p i mac => wlan_objmgr_get_vdev_by_macaddr_from_psoc p i mac id
  | VdevByMacFromPsocNoState p i mac => wlan_objmgr_get_vdev_by_macaddr_from_psoc_no_state p i mac id
  | GetPeer p i mac => wlan_objmgr_get_peer p i mac id
  | GetPeerNolock p i mac => wlan_objmgr_get_peer_nolock p i mac id
  | GetPeerByMac p mac => wlan_objmgr_get_peer_by_mac p mac id
  | GetPeerLogicallyDeleted p mac => wlan_objmgr_get_peer_logically_deleted p mac id
  | GetPeerByMacVdev p i bssid mac => wlan_objmgr_get_peer_by_mac_n_vdev p i bssid mac id
  | GetPeerByMacVdevNoState p i bssid mac => wlan_objmgr_get_peer_by_mac_n_vdev_no_state p i bssid mac id
  | GetPeerNoState p i mac => wlan_objmgr_get_peer_no_state p i mac id
  | FindPeer v mac => wlan_objmgr_vdev_find_peer_by_mac v mac id
  | TryGetBsspeer v => wlan_objmgr_vdev_try_get_bsspeer v id
  end.

(** Where it looks, and the kind of object it finds. *)
Definition lookup_on (l : lookup_op) : objref :=
  match l with
  | PdevById p _ | PdevByIdNoState p _ | VdevById p _ | VdevByIdNoState p _ | VdevByOpmode p _
  | VdevByMacFromPsoc p _ _ | VdevByMacFromPsocNoState p _ _ | GetPeer p _ _ | GetPeerNolock p _ _
  | GetPeerByMac p _ | GetPeerLogicallyDeleted p _ | GetPeerByMacVdev p _ _ _
  | GetPeerByMacVdevNoState p _ _ _ | GetPeerNoState p _ _ => OPsoc p
  | VdevByIdFromPdev d _ | VdevByIdFromPdevNoState d _ | VdevByMac d _ | VdevByMacNoState d _
  | FirstVdev d => OPdev d
  | FindPeer v _ | TryGetBsspeer v => OVdev v
  end.
Definition lookup_finds (l : lookup_op) : nat -> objref :=
  match l with
  | PdevById _ _ | PdevByIdNoState _ _ => OPdev
  | VdevById _ _ | VdevByIdNoState _ _ | VdevByOpmode _ _ | VdevByIdFromPdev _ _
  | VdevByIdFromPdevNoState _ _ | VdevByMac _ _ | VdevByMacNoState _ _ | FirstVdev _
  | VdevByMacFromPsoc _ _ _ | VdevByMacFromPsocNoState _ _ _ => OVdev
  | _ => OPeer
  end.
(** Those that take what they find whatever its state. *)
Definition ignores_state (l : lookup_op) : bool :=
  match l with
  | PdevByIdNoState _ _ | VdevByIdNoState _ _ | VdevByIdFromPdevNoState _ _ | VdevByMacNoState _ _
  | VdevByMacFromPsocNoState _ _ _ | GetPeerByMacVdevNoState _ _ _ _ | GetPeerNoState _ _ _
  | GetPeerLogicallyDeleted _ _ => true
  | _ => false
  end.

Lemma slot_if_Some c a n : slot_if c a = Some n -> a = Some (Some n) /\ c n = true.
Proof.
  destruct a as [[m|]|]; cbn; try done. destruct (c m) eqn:Hc; [|done]. by intros [= ->].
Qed.
Lemma find_and_Some (w c : nat -> bool) l n :
  List.find (fun n => w n && c n) l = Some n -> n ∈ l /\ w n = true /\ c n = true.
Proof. intros [Hn [Hw Hc]%andb_true_iff]%find_some. by apply list_elem_of_In in Hn. Qed.
Lemma first_if_Some w c l n : first_if w c l = Some n -> n ∈ l /\ w n = true /\ c n = true.
Proof.
  unfold first_if. destruct (List.find w l) as [m|] eqn:Hf; [|done].
  destruct (c m) eqn:Hc; [|done]. intros [= ->]. apply find_some in Hf as [Hn Hw].
  by apply list_elem_of_In in Hn.
Qed.

(** One step to the invariant, from the exact result of a lookup. *)
Lemma looked_created A e s (K : nat -> objref) id (m : M objmgr_world (option nat)) r :
  inv A e s -> ledger_ok e -> m s = Ret r (taken K id r s) ->
  (forall n, r = Some n -> is_created s (K n) = true) ->
  twp m (fun r s' => inv A (give K id r e) s') s.
Proof. intros I He Hm Hr. eapply wpx_eq; [done|]. by apply inv_taken_created. Qed.
Lemma looked_any A e s (K : nat -> objref) id (m : M objmgr_world (option nat)) r :
  inv A e s -> no_dead s -> m s = Ret r (taken K id r s) ->
  (forall n, r = Some n -> is_Some (get_hdr (K n) s)) ->
  twp m (fun r s' => inv A (give K id r e) s') s.
Proof. intros I Hn Hm Hr. eapply wpx_eq; [done|]. by apply inv_taken_any. Qed.

Lemma inv_lookup A e s l id :
  inv A e s -> ledger_ok e -> is_Some (get_hdr (lookup_on l) s) ->
  (ignores_state l = true -> no_dead s) ->
  twp (run_lookup l id) (fun r s' => inv A (give (lookup_finds l) id r e) s') s.
Proof.
  intros I He [h Hh] Hn. apply get_hdr_at in Hh.
  destruct l; cbn [lookup_on run_lookup lookup_finds ignores_state] in *; destruct Hh as [r Hr];
    try specialize (Hn eq_refl).
  - eapply looked_created; [done..|by eapply get_pdev_by_id_ret|]. by intros n [_ H]%slot_if_Some.
  - eapply looked_any; [done..|by eapply get_pdev_by_id_no_state_ret|].
    intros n [H _]%slot_if_Some. by eapply pdev_in_slot.
  - eapply looked_created; [done..|by eapply get_vdev_by_id_from_psoc_ret|]. by intros n [_ H]%slot_if_Some.
  - eapply looked_any; [done..|by eapply get_vdev_by_id_from_psoc_no_state_ret|].
    intros n [H _]%slot_if_Some. by eapply vdev_in_slot.
  - eapply looked_created; [done..|by eapply get_vdev_by_opmode_from_psoc_ret|].
    by intros n (_ & _ & H)%find_and_Some.
  - eapply looked_created; [done..|by eapply get_vdev_by_id_from_pdev_ret|].
    by intros n (_ & _ & H)%first_if_Some.
  - eapply looked_any; [done..|by eapply get_vdev_by_id_from_pdev_no_state_ret|].
    intros n (H & _)%first_if_Some. by eapply vdev_on_pdev.
  - eapply looked_created; [done..|by eapply get_vdev_by_macaddr_from_pdev_ret|].
    by intros n (_ & _ & H)%find_and_Some.
  - eapply looked_any; [done..|by eapply get_vdev_by_macaddr_from_pdev_no_state_ret|].
    intros n (H & _)%find_and_Some. by eapply vdev_on_pdev.
  - eapply looked_created; [done..|by eapply pdev_get_first_vdev_ret|].
    by intros n (_ & _ & H)%(find_and_Some (fun _ => true)).
  - eapply wpx_mono; [by eapply inv_get_vdev_by_macaddr_from_psoc|]. by intros ? ? [? _].
  - eapply wpx_mono; [by eapply inv_get_vdev_by_macaddr_from_psoc_no_state|]. by intros ? ? [? _].
  - eapply wpx_mono; [by eapply inv_get_peer|]. by intros ? ? [? _].
  - eapply looked_created; [done..|by eapply get_peer_nolock_ret|]. by intros n (_ & _ & H)%find_and_Some.
  - eapply looked_created; [done..|by eapply get_peer_by_mac_ret|]. by intros n (_ & _ & H)%find_and_Some.
  - eapply looked_any; [done..|by eapply get_peer_logically_deleted_ret|].
    intros n (H & _)%find_and_Some. by eapply bucket_hdr.
  - eapply looked_created; [done..|by eapply get_peer_by_mac_n_vdev_ret|].
    by intros n (_ & _ & H)%find_and_Some.
  - eapply looked_any; [done..|by eapply get_peer_by_mac_n_vdev_no_state_ret|].
    intros n (H & _)%find_and_Some. by eapply bucket_hdr.
  - eapply looked_any; [done..|by eapply get_peer_no_state_ret|].
    intros n (H & _)%find_and_Some. by eapply bucket_hdr.
  - eapply wpx_mono; [by eapply inv_vdev_find_peer_by_mac|]. by intros ? ? [? _].
  - eapply looked_created; [done..|by eapply inv_try_get_bsspeer|]. by intros n [_ H]%slot_if_Some.
Qed.

(** What a lookup that looks at the state finds is created. *)
Lemma lookup_created A e s l id :
  inv A e s -> ledger_ok e -> is_Some (get_hdr (lookup_on l) s) -> ignores_state l = false ->
  twp (run_lookup l id) (fun r _ => forall n, r = Some n -> is_created s (lookup_finds l n) = true) s.
Proof.
  intros I He [h Hh] Hst. apply get_hdr_at in Hh.
  destruct l; cbn [lookup_on run_lookup lookup_finds ignores_state] in *; destruct Hh as [r Hr]; try done.
  - eapply wpx_eq; [by eapply get_pdev_by_id_ret|]. by intros n [_ H]%slot_if_Some.
  - eapply wpx_eq; [by eapply get_vdev_by_id_from_psoc_ret|]. by intros n [_ H]%slot_if_Some.
  - eapply wpx_eq; [by eapply get_vdev_by_opmode_from_psoc_ret|]. by intros n (_ & _ & H)%find_and_Some.
  - eapply wpx_eq; [by eapply get_vdev_by_id_from_pdev_ret|]. by intros n (_ & _ & H)%first_if_Some.
  - eapply wpx_eq; [by eapply get_vdev_by_macaddr_from_pdev_ret|]. by intros n (_ & _ & H)%find_and_Some.
  - eapply wpx_eq; [by eapply pdev_get_first_vdev_ret|]. by intros n (_ & _ & H)%(find_and_Some (fun _ => true)).
  - eapply wpx_mono; [by eapply inv_get_vdev_by_macaddr_from_psoc|]. intros a s' (_ & _ & Hv) n Hn.
    destruct (Hv n Hn) as (d' & _ & Hb). by apply andb_true_iff in Hb as [_ Hb].
  - eapply wpx_mono; [by eapply inv_get_peer|]. intros a s' [_ ->] n Hf. by apply find_and_Some in Hf as (_ & _ & Hf).
  - eapply wpx_eq; [by eapply get_peer_nolock_ret|]. by intros n (_ & _ & H)%find_and_Some.
  - eapply wpx_eq; [by eapply get_peer_by_mac_ret|]. by intros n (_ & _ & H)%find_and_Some.
  - eapply wpx_eq; [by eapply get_peer_by_mac_n_vdev_ret|]. by intros n (_ & _ & H)%find_and_Some.
  - eapply wpx_mono; [by eapply inv_vdev_find_peer_by_mac|]. intros a s' [_ ->] n. case_bool_decide; [done|].
    by intros (_ & _ & Hcr)%find_and_Some.
  - eapply wpx_eq; [by eapply inv_try_get_bsspeer|]. by intros n [_ H]%slot_if_Some.
Qed.

(** ** Registration *)

Inductive handler_kind : Type := HCreate | HDestroy | HStatus.

Definition run_register (k : handler_kind) (t : wlan_objmgr_obj_type) :
  nat -> nat -> Z -> M objmgr_world QDF_STATUS :=
  match k, t with
  | HCreate, WLAN_PSOC_OP => wlan_objmgr_register_psoc_create_handler
  | HCreate, WLAN_PDEV_OP => wlan_objmgr_register_pdev_create_handler
  | HCreate, WLAN_VDEV_OP => wlan_objmgr_register_vdev_create_handler
  | HCreate, WLAN_PEER_OP => wlan_objmgr_register_peer_create_handler
  | HDestroy, WLAN_PSOC_OP => wlan_objmgr_register_psoc_destroy_handler
  | HDestroy, WLAN_PDEV_OP => wlan_objmgr_register_pdev_destroy_handler
  | HDestroy, WLAN_VDEV_OP => wlan_objmgr_register_vdev_destroy_handler
  | HDestroy, WLAN_PEER_OP => wlan_objmgr_register_peer_destroy_handler
  | HStatus, WLAN_PSOC_OP => wlan_objmgr_register_psoc_status_handler
  | HStatus, WLAN_PDEV_OP => wlan_objmgr_register_pdev_status_handler
  | HStatus, WLAN_VDEV_OP => wlan_objmgr_register_vdev_status_handler
  | HStatus, WLAN_PEER_OP => wlan_objmgr_register_peer_status_handler
  end.
Definition run_unregister (k : handler_kind) (t : wlan_objmgr_obj_type) :
  nat -> nat -> M objmgr_world QDF_STATUS :=
  match k, t with
  | HCreate, WLAN_PSOC_OP => wlan_objmgr_unregister_psoc_create_handler
  | HCreate, WLAN_PDEV_OP => wlan_objmgr_unregister_pdev_create_handler
  | HCreate, WLAN_VDEV_OP => wlan_objmgr_unregister_vdev_create_handler
  | HCreate, WLAN_PEER_OP => wlan_objmgr_unregister_peer_create_handler
  | HDestroy, WLAN_PSOC_OP => wlan_objmgr_unregister_psoc_destroy_handler
  | HDestroy, WLAN_PDEV_OP => wlan_objmgr_unregister_pdev_destroy_handler
  | HDestroy, WLAN_VDEV_OP => wlan_objmgr_unregister_vdev_destroy_handler
  | HDestroy, WLAN_PEER_OP => wlan_objmgr_unregister_peer_destroy_handler
  | HStatus, WLAN_PSOC_OP => wlan_objmgr_unregister_psoc_status_handler
  | HStatus, WLAN_PDEV_OP => wlan_objmgr_unregister_pdev_status_handler
  | HStatus, WLAN_VDEV_OP => wlan_objmgr_unregister_vdev_status_handler
  | HStatus, WLAN_PEER_OP => wlan_objmgr_unregister_peer_status_handler
  end.

(** The tables of handlers are no part of the invariant. *)
Definition keeps_psocs (f : wlan_objmgr_global -> wlan_objmgr_global) : Prop :=
  forall g, g_psoc (f g) = g_psoc g.

Lemma inv_set_glob A e s f : inv A e s -> keeps_psocs f -> inv A e (set_glob f s).
Proof.
  intros I Hf. constructor; try apply I.
  - destruct (inv_glob _ _ _ I) as (g & Hg & Hl & Hs). exists (f g).
    cbn. rewrite Hg, Hf. by split_and!.
  - intros p r Hr. exact (psoc_ok_keys s (set_glob f s) ltac:(done) p r (inv_psoc _ _ _ I p r Hr)).
  - intros d r Hr. exact (pdev_ok_keys s (set_glob f s) ltac:(done) d r (inv_pdev _ _ _ I d r Hr)).
  - intros v r Hr. exact (vdev_ok_keys s (set_glob f s) ltac:(done) A v r (inv_vdev _ _ _ I v r Hr)).
Qed.

Lemma inv_register_handler {B} A e s asserts (t : table B) comp a :
  inv A e s -> keeps_psocs (fill _ t (Some a)) ->
  twp (register_handler asserts t comp a) (fun _ => inv A e) s.
Proof.
  intros I Hf. destruct (inv_glob _ _ _ I) as (g & Hg & _). unfold register_handler.
  destruct (_ <=? _)%nat; [done|]. eapply wpx_step; [by apply read_glob_ret|].
  destruct (slot _ t g).
  - destruct asserts; [|done]. exact (inv_set_trace _ _ _ _ I).
  - apply wpx_modify_bind, wpx_mret. by apply inv_set_glob.
Qed.
Lemma inv_unregister_handler {B} A e s asserts (t : table B) comp same :
  inv A e s -> keeps_psocs (fill _ t None) ->
  twp (unregister_handler asserts t comp same) (fun _ => inv A e) s.
Proof.
  intros I Hf. destruct (inv_glob _ _ _ I) as (g & Hg & _). unfold unregister_handler.
  destruct (_ <=? _)%nat; [done|]. eapply wpx_step; [by apply read_glob_ret|].
  destruct (negb _).
  - destruct asserts; [|done]. exact (inv_set_trace _ _ _ _ I).
  - apply wpx_modify_bind, wpx_mret. by apply inv_set_glob.
Qed.

(** ** All the operations *)

Inductive obj_op : Type :=
  | OpRegister (k : handler_kind) (t : wlan_objmgr_obj_type) (comp handler : nat) (arg : Z)
  | OpUnregister (k : handler_kind) (t : wlan_objmgr_obj_type) (comp handler : nat)
  | OpRegisterFreeNotify (comp handler : nat)
  | OpUnregisterFreeNotify (comp handler : nat)
  | OpPsocCreate
  | OpPdevCreate (p : nat)
  | OpVdevCreate (d : nat) (params : wlan_vdev_create_params)
  | OpPeerCreate (v : nat) (t : wlan_peer_type) (mac : list Z)
  | OpDelete (o : objref)
  | OpGetRef (o : objref) (id : nat)
  | OpTryGetRef (o : objref) (id : nat)
  | OpRelease (o : objref) (id : nat)
  | OpAttach (o : objref) (comp : nat) (priv : option Z) (status : QDF_STATUS)
  | OpDetach (o : objref) (comp : nat) (priv : option Z)
  | OpTriggerCreation (o : objref) (comp : nat)
  | OpTriggerDeletion (o : objref) (comp : nat)
  | OpLookup (l : lookup_op) (id : nat)
  | OpDeletedPeers (p i : nat) (bssid : option (list Z)) (mac : list Z) (id : nat)
  | OpDeletedPeersOfVdev (v id : nat).

Definition ignore {B} (m : M objmgr_world B) : M objmgr_world (list objref) := m;; mret [].
Definition gives (K : nat -> objref) (m : M objmgr_world (option nat)) : M objmgr_world (list objref) :=
  r ← m; mret (match r with Some n => [K n] | None => [] end).
Definition gives_list (m : M objmgr_world (list nat)) : M objmgr_world (list objref) :=
  l ← m; mret (OPeer <$> l).

(** The objects a client gets: created for it, or referenced for it. *)
Definition run_op (op : obj_op) : M objmgr_world (list objref) :=
  match op with
  | OpRegister k t comp handler arg => ignore (run_register k t comp handler arg)
  | OpUnregister k t comp handler => ignore (run_unregister k t comp handler)
  | OpRegisterFreeNotify comp handler => ignore (wlan_objmgr_register_vdev_peer_free_notify_handler comp handler)
  | OpUnregisterFreeNotify comp handler => ignore (wlan_objmgr_unregister_vdev_peer_free_notify_handler comp handler)
  | OpPsocCreate => gives OPsoc wlan_objmgr_psoc_obj_create
  | OpPdevCreate p => gives OPdev (wlan_objmgr_pdev_obj_create p)
  | OpVdevCreate d params => gives OVdev (wlan_objmgr_vdev_obj_create d params)
  | OpPeerCreate v t mac => gives OPeer (wlan_objmgr_peer_obj_create v t mac)
  | OpDelete o => ignore (delete_obj o)
  | OpGetRef o id => obj_get_ref (Some o) id;; mret [o]
  | OpTryGetRef o id =>
      status ← obj_try_get_ref (Some o) id; mret (if QDF_IS_STATUS_SUCCESS status then [o] else [])
  | OpRelease o id => ignore (release_ref o id)
  | OpAttach o comp priv status => ignore (component_obj_attach o comp priv status)
  | OpDetach o comp priv => ignore (component_obj_detach o comp priv (obj_free o))
  | OpTriggerCreation o comp => ignore (trigger_creation o comp (obj_free o))
  | OpTriggerDeletion o comp => ignore (trigger_deletion o comp (obj_free o))
  | OpLookup l id => gives (lookup_finds l) (run_lookup l id)
  | OpDeletedPeers p i bssid mac id =>
      gives_list (wlan_objmgr_populate_logically_deleted_peerlist_by_mac_n_vdev p i bssid mac id)
  | OpDeletedPeersOfVdev v id => gives_list (wlan_objmgr_vdev_get_log_del_peer_list v id)
  end.

(** Which objects their owners have not deleted, after an operation. *)
Definition op_live (op : obj_op) (r : list objref) (A : objref -> bool) : objref -> bool :=
  match op with
  | OpPsocCreate | OpPdevCreate _ | OpVdevCreate _ _ | OpPeerCreate _ _ _ =>
      foldr (fun o A => mark A o true) A r
  | OpDelete o => mark A o false
  | _ => A
  end.
(** The references the clients have, after an operation. *)
Definition bump_all id (r : list objref) (e : ledger) : ledger := foldr (fun o e => bump e o id 1) e r.
Definition op_refs (op : obj_op) (r : list objref) (e : ledger) : ledger :=
  match op with
  | OpGetRef _ id | OpTryGetRef _ id | OpLookup _ id | OpDeletedPeers _ _ _ _ id
  | OpDeletedPeersOfVdev _ id => bump_all id r e
  | OpRelease o id => bump e o id (-1)
  | _ => e
  end.

(** An object that is in memory, and one that also has a reference left. *)
Definition exists_obj s o : Prop := is_Some (get_hdr o s).
Definition referenced s o : Prop := exists h, get_hdr o s = Some h /\ ref_cnt h <> 0.

(** What a client must see to. *)
Definition legal (op : obj_op) (A : objref -> bool) (e : ledger) s : Prop :=
  match op with
  | OpPdevCreate p => referenced s (OPsoc p)
  | OpVdevCreate d _ => referenced s (OPdev d)
      /\ forall rd, pdevs s !! d = Some rd -> A (OPsoc (wlan_psoc rd)) = true
  | OpPeerCreate v t mac => referenced s (OVdev v)
      /\ forall rv, vdevs s !! v = Some rv -> peer_allowed A s rv t mac
  | OpDelete o => A o = true /\ deletable s o
  | OpGetRef o _ => referenced s o
  | OpTryGetRef o _ | OpAttach o _ _ _ | OpDetach o _ _ => exists_obj s o
  | OpRelease o id => 0 < e o id
  | OpTriggerCreation o _ | OpTriggerDeletion o _ => A o = true
  | OpLookup l _ => exists_obj s (lookup_on l) /\ (ignores_state l = true -> no_dead s)
  | OpDeletedPeers p _ _ _ _ => exists_obj s (OPsoc p)
  | OpDeletedPeersOfVdev v _ => exists_obj s (OVdev v)
  | _ => True
  end.

(** ** Every operation keeps the invariant *)

Lemma twp_ignore {B} (m : M objmgr_world B) (Q : objmgr_world -> Prop) s :
  twp m (fun _ => Q) s -> twp (ignore m) (fun r s' => r = [] /\ Q s') s.
Proof. intros Hm. apply wpx_bind. eapply wpx_mono; [done|]. intros. by apply wpx_mret. Qed.

Lemma bump_all_give K id r e :
  forall o i, bump_all id (match r with Some n => [K n] | None => [] end) e o i = give K id r e o i.
Proof. by destruct r. Qed.
Lemma bump_all_list K id l e : bump_all id (K <$> l) e = give_all K id l e.
Proof.
  unfold bump_all, give_all. induction l as [|n l IH]; [done|]. rewrite fmap_cons. cbn [foldr]. by rewrite IH.
Qed.

Lemma bump_all_ok id r e : ledger_ok e -> ledger_ok (bump_all id r e).
Proof. intros He. induction r; [done|]. by apply bump_nonneg. Qed.

Lemma twp_gives A e s K id (m : M objmgr_world (option nat)) :
  twp m (fun r s' => inv A (give K id r e) s') s ->
  twp (gives K m) (fun r s' => inv A (bump_all id r e) s') s.
Proof.
  intros Hm. apply wpx_bind. eapply wpx_mono; [done|]. intros r s' I'. apply wpx_mret.
  eapply inv_ext; [done| |exact I']. intros. by rewrite (bump_all_give K).
Qed.
Lemma twp_created A e s K (m : M objmgr_world (option nat)) :
  twp m (created A e K) s ->
  twp (gives K m) (fun r s' => inv (foldr (fun o A => mark A o true) A r) e s') s.
Proof.
  intros Hm. apply wpx_bind. eapply wpx_mono; [done|]. intros [n|] s' I'; apply wpx_mret; [|done].
  by destruct I'.
Qed.
Lemma twp_gives_list A e s id (P : nat -> Prop) (m : M objmgr_world (list nat)) :
  twp m (fun r s' => inv A (give_all OPeer id r e) s' /\ forall x, x ∈ r -> P x) s ->
  twp (gives_list m) (fun r s' => inv A (bump_all id r e) s') s.
Proof.
  intros Hm. apply wpx_bind. eapply wpx_mono; [done|]. intros l s' [I' _]. apply wpx_mret.
  by rewrite bump_all_list.
Qed.

Lemma op_refs_ok op r A e s : ledger_ok e -> legal op A e s -> ledger_ok (op_refs op r e).
Proof.
  intros He Hl. destruct op; try done; try by apply bump_all_ok.
  intros o' id'. cbn in *. unfold bump. specialize (He o' id'). case_bool_decide as Hc; [|lia].
  destruct Hc as [-> ->]. lia.
Qed.

Lemma inv_register A e s k t comp handler arg :
  inv A e s -> twp (run_register k t comp handler arg) (fun _ => inv A e) s.
Proof. intros I. destruct k, t; by apply inv_register_handler. Qed.
Lemma inv_unregister A e s k t comp handler :
  inv A e s -> twp (run_unregister k t comp handler) (fun _ => inv A e) s.
Proof. intros I. destruct k, t; by apply inv_unregister_handler. Qed.
Lemma inv_assert A e s (b : bool) :
  inv A e s -> twp (if b then QDF_BUG else mret ()) (fun _ => inv A e) s.
Proof. intros I. destruct b; [|done]. exact (inv_set_trace _ _ _ _ I). Qed.

Lemma inv_op A e s op :
  inv A e s -> ledger_ok e -> legal op A e s ->
  twp (run_op op) (fun r s' => inv (op_live op r A) (op_refs op r e) s') s.
Proof.
  intros I He Hl.
  assert (forall B (m : M objmgr_world B) A', twp m (fun _ => inv A' e) s ->
    twp (ignore m) (fun _ => inv A' e) s) as Hig.
  { intros B m A' Hm. eapply wpx_mono; [by apply twp_ignore|]. by intros ? ? [_ ?]. }
  destruct op; cbn [run_op op_live op_refs legal] in *.
  - by apply Hig, inv_register.
  - by apply Hig, inv_unregister.
  - apply Hig, wpx_bind. eapply wpx_mono; [by apply inv_assert|]. intros u s1 I1. by apply inv_register_handler.
  - apply Hig, wpx_bind. eapply wpx_mono; [by apply inv_assert|]. intros u s1 I1. by apply inv_unregister_handler.
  - by apply twp_created, inv_psoc_create.
  - destruct Hl as (h & Hh & Hr). destruct (get_hdr_at _ _ _ Hh) as [rp Hp]. cbn in Hh. rewrite Hp in Hh.
    injection Hh as <-. by eapply twp_created, inv_pdev_create.
  - destruct Hl as ((h & Hh & Hr) & Hl). destruct (get_hdr_at _ _ _ Hh) as [rd Hd]. cbn in Hh. rewrite Hd in Hh.
    injection Hh as <-. eapply twp_created, inv_vdev_create; eauto.
  - destruct Hl as ((h & Hh & Hr) & Hl). destruct (get_hdr_at _ _ _ Hh) as [rv Hv]. cbn in Hh. rewrite Hv in Hh.
    injection Hh as <-. eapply twp_created, inv_peer_create; eauto.
  - destruct Hl as [HA Hdel]. destruct (live_hdr _ _ _ _ I HA) as (h & Hh & Hlive).
    apply Hig. by eapply inv_obj_delete.
  - destruct Hl as (h & Hh & Hr). apply wpx_bind. eapply wpx_mono; [by eapply inv_get_ref|].
    intros u s1 I1. by apply wpx_mret.
  - destruct Hl as [h Hh]. apply wpx_bind. eapply wpx_mono; [by eapply twp_try_get_ref|].
    intros st s1 Hs. apply wpx_mret. case_bool_decide; [by destruct Hs as (-> & _ & ?)|by destruct Hs as (-> & ->)].
  - assert (inv A (bump (bump e o id (-1)) o id 1) s) as I'.
    { eapply inv_ext; [done| |exact I]. intros. unfold bump. case_bool_decide; lia. }
    destruct (inv_refs _ _ _ I o id ltac:(lia)) as [h Hh].
    eapply wpx_mono; [apply twp_ignore; eapply (inv_release_ref _ _ _ _ _ _ I'); [|done]|by intros ? ? [_ ?]].
    exact (op_refs_ok (OpRelease o id) [] A e s He Hl).
  - destruct Hl as [h Hh]. by eapply Hig, inv_component_attach.
  - destruct Hl as [h Hh]. by eapply Hig, inv_component_detach.
  - by apply Hig, inv_trigger_creation.
  - by apply Hig, inv_trigger_deletion.
  - destruct Hl as [Ho Hn]. by apply twp_gives, inv_lookup.
  - destruct Hl as [h Hh]. destruct (get_hdr_at _ _ _ Hh) as [rp Hp].
    eapply twp_gives_list. by eapply inv_populate_logically_deleted.
  - destruct Hl as [h Hh]. destruct (get_hdr_at _ _ _ Hh) as [rv Hv].
    eapply twp_gives_list. by eapply inv_vdev_get_log_del_peer_list.
Qed.

(** ** Histories *)

(** The world once the manager is initialised: no object. *)
Definition no_world : objmgr_world := World None ∅ ∅ ∅ ∅ 0 [].
Definition empty_world : objmgr_world :=
  World (Some (Global (replicate WLAN_OBJMGR_MAX_DEVICES None) ∅ ∅ ∅ ∅)) ∅ ∅ ∅ ∅ 1 [].

Lemma objmgr_init : malloc_ok 0 = true ->
  wlan_objmgr_global_obj_init no_world = Ret QDF_STATUS_SUCCESS empty_world.
Proof.
  intros Hm. unfold wlan_objmgr_global_obj_init.
  rewrite (bind_ret (gets glob) _ None no_world no_world) by done.
  rewrite (bind_ret _ _ _ _ _ (malloc_ret no_world)). cbn [no_world next_addr]. by rewrite Hm.
Qed.

(** The objects not deleted, the references given out, the world, after the operations
    of any clients, one after the other. *)
Inductive reachable : (objref -> bool) -> ledger -> objmgr_world -> Prop :=
  | reach_init : reachable (fun _ => false) no_refs empty_world
  | reach_op A e s op r s' :
      reachable A e s -> legal op A e s -> run_op op s = Ret r s' ->
      reachable (op_live op r A) (op_refs op r e) s'.

Lemma inv_empty : inv (fun _ => false) no_refs empty_world.
Proof.
  constructor; try (intros; done).
  - eexists. split; [done|]. split; [done|]. intros i p Hi. by apply lookup_replicate in Hi as [? _].
  - intros [] h Hh; cbn in Hh; by rewrite lookup_empty in Hh.
  - intros [] h Hh; cbn in Hh; by rewrite lookup_empty in Hh.
  - intros []; cbn; by unfold is_live; cbn; rewrite lookup_empty.
Qed.

Lemma reachable_world A e s : reachable A e s -> inv A e s /\ ledger_ok e.
Proof.
  induction 1 as [|A e s op r s' _ [I He] Hl Hr]; [split; [apply inv_empty|done]|].
  split; [|by eapply op_refs_ok]. pose proof (inv_op _ _ _ _ I He Hl) as Hop.
  unfold wpx in Hop. by rewrite Hr in Hop.
Qed.

Lemma reachable_op A e s op :
  reachable A e s -> legal op A e s ->
  exists r s', run_op op s = Ret r s' /\ reachable (op_live op r A) (op_refs op r e) s'.
Proof.
  intros Hr Hl. destruct (reachable_world _ _ _ Hr) as [I He].
  pose proof (inv_op _ _ _ _ I He Hl) as Hop. unfold wpx in Hop.
  destruct (run_op op s) as [r s'| |] eqn:Hrun; [|done|done].
  exists r, s'. split; [done|]. by econstructor.
Qed.

End Safe.
