(* ===== verification/ObjSpec.v ===== *)
(** What the object manager promises to the components that use it. *)
From S2P Require Import Prelude QdfTypes Obj ObjInv ObjLink ObjRun ObjFree ObjPeer ObjStep ObjCreate ObjFind ObjLook ObjSafe ObjComp.
Import QdfTypes.Parse.

Section Spec.
Context {E : objmgr_env}.
Implicit Types (s : objmgr_world) (o : objref) (h : wlan_objmgr_hdr) (p d v x i id comp : nat).

(** ** Children *)

Definition parent s o : option objref :=
  match o with
  | OPsoc _ => None
  | OPdev d => (fun r => OPsoc (wlan_psoc r)) <$> pdevs s !! d
  | OVdev v => (fun r => OPdev (wlan_pdev r)) <$> vdevs s !! v
  | OPeer x => (fun r => OVdev (peer_vdev r)) <$> peers s !! x
  end.

(** How many objects in memory satisfy a test. *)
Definition count_if {R} (m : gmap nat R) (f : R -> bool) : nat :=
  size (filter (fun kr : nat * R => f (snd kr) = true) m).
Definition bss_of s v : option nat := r ← vdevs s !! v; bss_peer r.
(** The objects that have a reference on [o] while they exist. *)
Definition children s o : nat :=
  match o with
  | OPsoc p => count_if (pdevs s) (fun r => bool_decide (wlan_psoc r = p))
  | OPdev d => count_if (vdevs s) (fun r => bool_decide (wlan_pdev r = d))
  | OVdev v => count_if (peers s) (fun r => bool_decide (peer_vdev r = v))
  | OPeer b => count_if (peers s) (fun r => holds_bss (peer_type r)
                                           && bool_decide (bss_of s (peer_vdev r) = Some b))
  end.

Lemma count_if_list {R} (m : gmap nat R) (f : R -> bool) l :
  NoDup l -> (forall x, x ∈ l <-> exists r, m !! x = Some r /\ f r = true) -> count_if m f = length l.
Proof.
  intros Hl Hin. unfold count_if. rewrite <- size_dom.
  replace (dom (filter (fun kr : nat * R => f (snd kr) = true) m)) with (list_to_set l : gset nat).
  { by apply size_list_to_set. }
  apply set_eq. intros x. rewrite elem_of_list_to_set, Hin, elem_of_dom. split.
  - intros (r & Hr & Hf). exists r. by apply map_lookup_filter_Some.
  - intros (r & Hr). apply map_lookup_filter_Some in Hr. eauto.
Qed.

(** A slot holds an object once. *)
Lemma NoDup_slots (l : list (option nat)) (f : nat -> option nat) :
  (forall i a, l !! i = Some (Some a) -> f a = Some i) -> NoDup (omap Datatypes.id l).
Proof.
  assert (forall k, (forall i a, l !! i = Some (Some a) -> f a = Some (k + i)%nat) ->
    NoDup (omap Datatypes.id l)) as H; [|by apply (H 0%nat)].
  induction l as [|[a|] l IH]; intros k Hf; cbn; [constructor| |].
  - constructor.
    + intros (b & Hb & Ha)%list_elem_of_omap. cbn in Ha. subst b.
      apply list_elem_of_lookup in Hb as [i Hi]. pose proof (Hf (S i) a Hi) as H1.
      pose proof (Hf 0%nat a eq_refl) as H2. rewrite H1 in H2. injection H2. lia.
    + apply (IH (S k)). intros i b Hb. rewrite (Hf (S i) b Hb). f_equal. lia.
  - apply (IH (S k)). intros i b Hb. rewrite (Hf (S i) b Hb). f_equal. lia.
Qed.

Section Kids.
Context A e s (I : inv A e s) (He : ledger_ok e).

Lemma kids_children o : exists_obj s o -> kids s o = Z.of_nat (children s o).
Proof using I He.
  intros [h Hh]. apply get_hdr_at in Hh. destruct o as [p|d|v|b]; destruct Hh as [r Hr]; cbn [kids children].
  - rewrite Hr. pose proof (inv_psoc _ _ _ I _ _ Hr) as P. rewrite (psoc_pdev_cnt _ _ _ P). f_equal.
    symmetry. apply count_if_list.
    + apply (NoDup_slots _ (fun d => snd <$> pdev_keys s !! d)). intros i d Hd.
      apply (psoc_pdevs _ _ _ P) in Hd. by rewrite Hd.
    + intros d. rewrite list_elem_of_omap. split.
      * intros (a & Ha & Hd). cbn in Hd. subst a. apply list_elem_of_lookup in Ha as [i Hi].
        apply (psoc_pdevs _ _ _ P), pdev_keys_Some in Hi as (rd & Hrd & Hpe & _).
        exists rd. split; [done|]. by apply bool_decide_eq_true.
      * intros (rd & Hrd & Hp%bool_decide_eq_true). exists (Some d). split; [|done].
        apply list_elem_of_lookup. exists (wlan_pdev_id rd). apply (psoc_pdevs _ _ _ P).
        apply pdev_keys_Some. eauto.
  - rewrite Hr. pose proof (inv_pdev _ _ _ I _ _ Hr) as D. rewrite (pdev_vdev_cnt _ _ _ D). f_equal.
    symmetry. apply count_if_list; [apply (pdev_nodup _ _ _ D)|]. intros v. rewrite (pdev_vdevs _ _ _ D). split.
    + intros (i & (rv & Hrv & Hpe & _)%vdev_keys_Some). exists rv. split; [done|]. by apply bool_decide_eq_true.
    + intros (rv & Hrv & Hd%bool_decide_eq_true). exists (vdev_id rv). apply vdev_keys_Some. eauto.
  - rewrite Hr. pose proof (inv_vdev _ _ _ I _ _ Hr) as V. rewrite (vdev_peer_cnt _ _ _ _ V). f_equal.
    symmetry. apply count_if_list; [apply (vdev_nodup _ _ _ _ V)|]. intros x. rewrite (vdev_peers _ _ _ _ V). split.
    + intros (m & t & (rx & Hrx & Hpe & _)%peer_keys_Some). exists rx. split; [done|]. by apply bool_decide_eq_true.
    + intros (rx & Hrx & Hv%bool_decide_eq_true). exists (peer_macaddr rx), (peer_type rx). apply peer_keys_Some. eauto.
  - rewrite (peer_key s b r Hr). destruct (inv_attached _ _ _ _ _ I He Hr) as (rv & rd & rp & l & At & _).
    destruct At as [_ Hv _ _ _ _ _ _ _ _ _]. rewrite Hv.
    pose proof (inv_vdev _ _ _ I _ _ Hv) as V. case_bool_decide as Hbss.
    + f_equal. symmetry. apply count_if_list; [by apply NoDup_filter_b, (vdev_nodup _ _ _ _ V)|].
      intros x. rewrite elem_of_filter_b, (vdev_peers _ _ _ _ V). split.
      * intros [Hx (m & t & Hk)]. pose proof Hk as Hk'.
        apply peer_keys_Some in Hk as (rx & Hrx & Hvx & _ & Ht). exists rx. split; [done|].
        unfold holder in Hx. rewrite Hk' in Hx. rewrite <- Ht, Hx, <- Hvx. unfold bss_of. rewrite Hv. cbn.
        by rewrite Hbss, bool_decide_eq_true_2.
      * intros (rx & Hrx & [Ht Hb%bool_decide_eq_true]%andb_true_iff).
        assert (peer_vdev rx = peer_vdev r) as Hsame.
        { unfold bss_of in Hb. destruct (vdevs s !! peer_vdev rx) as [rv'|] eqn:Hv'; [|done]. cbn in Hb.
          destruct (vdev_bss _ _ _ _ (inv_vdev _ _ _ I _ _ Hv') b Hb) as [Hbl _].
          apply (vdev_peers _ _ _ _ (inv_vdev _ _ _ I _ _ Hv')) in Hbl as (m & t & Hk).
          rewrite (peer_key s b r Hr) in Hk. by injection Hk. }
        split; [unfold holder; by rewrite (peer_key s x rx Hrx)|].
        exists (peer_macaddr rx), (peer_type rx). rewrite (peer_key s x rx Hrx). by rewrite Hsame.
    + unfold count_if. symmetry. apply (f_equal Z.of_nat (y := 0%nat)). apply map_size_empty_iff, map_empty.
      intros x. apply map_lookup_filter_None. right. intros rx Hrx [_ Hb%bool_decide_eq_true]%andb_true_iff.
      cbn in Hb. unfold bss_of in Hb. destruct (vdevs s !! peer_vdev rx) as [rv'|] eqn:Hv'; [|done]. cbn in Hb.
      destruct (vdev_bss _ _ _ _ (inv_vdev _ _ _ I _ _ Hv') b Hb) as [Hbl _].
      apply (vdev_peers _ _ _ _ (inv_vdev _ _ _ I _ _ Hv')) in Hbl as (m & t & Hk).
      rewrite (peer_key s b r Hr) in Hk. injection Hk as Hk _ _. rewrite <- Hk, Hv in Hv'. injection Hv' as <-.
      by apply Hbss.
Qed.

End Kids.
(** ** What reachable worlds are like *)

(** C3: Whatever clients do, one operation after the other, that is allowed, each
    operation runs to its end: it reads no object that was freed, its cascades of
    releases end, and it leaves a world from which the next one runs the same way. *)
Theorem objmgr_safe A e s op :
  reachable A e s -> legal op A e s ->
  exists r s', run_op op s = Ret r s' /\ reachable (op_live op r A) (op_refs op r e) s'.
Proof. apply reachable_op. Qed.

Section Reachable.
Context (A : objref -> bool) (e : ledger) s (R : reachable A e s).

Lemma reach_inv : inv A e s.
Proof using R. by destruct (reachable_world _ _ _ R). Qed.
Lemma reach_ledger : ledger_ok e.
Proof using R. by destruct (reachable_world _ _ _ R). Qed.

Lemma own_A o h : get_hdr o s = Some h -> own h = if A o then 1 else 0.
Proof using R. intros Hh. unfold own. rewrite (inv_live _ _ _ reach_inv o). by rewrite (get_hdr_alive _ _ _ Hh). Qed.

End Reachable.

(** C7: The references recorded in an object under each caller are those its clients
    took and have not given back; under the manager's own id, also the one of its owner,
    until it deletes the object, and one for each child (for a BSS peer, each peer that
    needs it).  The total is their sum. *)
Theorem objmgr_refs_counted A e s o h :
  reachable A e s -> get_hdr o s = Some h ->
  (forall id, refs_by h id
     = (if (id =? WLAN_OBJMGR_ID)%nat then (if A o then 1 else 0) + Z.of_nat (children s o) else 0) + e o id)
  /\ ref_cnt h = total h.
Proof.
  intros R Hh. pose proof (reach_inv _ _ _ R) as I. pose proof (reach_ledger _ _ _ R) as He.
  destruct (inv_hdr _ _ _ I o h Hh) as [H1 H2 H3 H4 H5]. split; [|done].
  intros id. rewrite H1, (own_A _ _ _ R o h Hh). rewrite (kids_children A e s I He) by (by eexists). done.
Qed.

Lemma objmgr_parent_referenced A e s c o :
  reachable A e s -> exists_obj s c -> parent s c = Some o -> referenced s o.
Proof.
  intros R [h Hc] Hpar. pose proof (reach_inv _ _ _ R) as I. pose proof (reach_ledger _ _ _ R) as He.
  apply get_hdr_at in Hc.
  assert (forall B (m : gmap nat B) n r (f : B -> bool), m !! n = Some r -> f r = true -> count_if m f <> 0%nat) as Hcnt.
  { intros B m n r f Hr Hf. apply map_size_ne_0_lookup. exists n, r. by apply map_lookup_filter_Some. }
  assert (exists_obj s o /\ children s o <> 0%nat) as [[ho Hho] Hch].
  { destruct c as [p|d|v|x]; cbn in Hpar; [done|..]; destruct Hc as [r Hr]; rewrite Hr in Hpar; injection Hpar as <-;
      (split; [unfold exists_obj; cbn|by eapply Hcnt; [exact Hr|apply bool_decide_eq_true]]).
    - destruct (inv_pdev_parent _ _ _ I d (wlan_psoc r) (wlan_pdev_id r)) as [rp ->];
        [apply pdev_keys_Some; eauto|by eexists].
    - destruct (inv_vdev_parent _ _ _ I v (wlan_pdev r) (vdev_id r)) as (p & j & Hk & _);
        [apply vdev_keys_Some; eauto|]. apply pdev_keys_Some in Hk as (rd & -> & _). by eexists.
    - destruct (inv_peer_parent _ _ _ I x (peer_vdev r) (peer_macaddr r) (peer_type r)) as [[d j] Hk];
        [by apply peer_key|]. apply vdev_keys_Some in Hk as (rv & -> & _). by eexists. }
  exists ho. split; [done|]. pose proof (count_kids _ _ _ _ _ I Hho (He o)) as Hk.
  rewrite (kids_children A e s I He o ltac:(by eexists)) in Hk. pose proof (He o 0%nat). unfold own in Hk.
  destruct (live ho); lia.
Qed.

(** C12: An object that its owner has not deleted, that a client has a reference on, or
    that is the parent of an object in memory, is in memory and has a reference: none is
    freed while it can be used. *)
Theorem objmgr_held_in_memory A e s o :
  reachable A e s ->
  A o = true \/ (exists id, 0 < e o id) \/ (exists c, exists_obj s c /\ parent s c = Some o) ->
  referenced s o.
Proof.
  intros R Ho. pose proof (reach_inv _ _ _ R) as I. pose proof (reach_ledger _ _ _ R) as He.
  destruct Ho as [HA|[[id Hid]|(c & Hc & Hpar)]].
  - destruct (live_hdr _ _ _ _ I HA) as (h & Hh & Hl). exists h. split; [done|]. by eapply live_count.
  - destruct (inv_refs _ _ _ I o id) as [h Hh]; [lia|]. exists h. split; [done|].
    pose proof (count_held _ _ _ _ _ I Hh id (He o)). pose proof (count_pos _ _ _ _ _ I Hh id ltac:(lia)). lia.
  - by eapply objmgr_parent_referenced.
Qed.

(** C19: Objects, lists, slots and hash buckets agree: a PDEV is in the slot of its id in
    its psoc and nowhere else, a VDEV in that of its psoc and in the list of its PDEV, a
    peer in the bucket of its address and in the list of its VDEV; each bit of an id map
    says whether its slot is taken; the self and BSS peers of a VDEV are on its list. *)
Theorem objmgr_well_formed A e s :
  reachable A e s ->
  (forall p r, psocs s !! p = Some r -> psoc_ok s p r)
  /\ (forall d r, pdevs s !! d = Some r -> pdev_ok s d r)
  /\ (forall v r, vdevs s !! v = Some r -> vdev_ok A s v r)
  /\ forall c o, exists_obj s c -> parent s c = Some o -> exists_obj s o.
Proof.
  intros R. pose proof (reach_inv _ _ _ R) as I. split_and!; [apply I|apply I|apply I|].
  intros c o Hc Hp. destruct (objmgr_parent_referenced A e s c o R Hc Hp) as (h & Hh & _). by eexists.
Qed.

(** ** Counters *)

Lemma nslots_le l : (nslots l <= length l)%nat.
Proof. unfold nslots. induction l as [|[a|] l IH]; cbn; lia. Qed.

Lemma count_if_ext {R} (m : gmap nat R) (f g : R -> bool) :
  (forall x r, m !! x = Some r -> f r = g r) -> count_if m f = count_if m g.
Proof. intros Hfg. unfold count_if. f_equal. apply map_filter_ext. intros x r Hr. cbn. by rewrite (Hfg x r Hr). Qed.

(** A count over the peers as they are kept by key. *)
Lemma peers_with_count s Q b :
  peers_with s Q b
  = count_if (peers s) (fun r => Q (peer_vdev r) && Bool.eqb (temporary (peer_type r)) b).
Proof.
  unfold peers_with, count_if, peer_keys. rewrite map_filter_fmap, map_size_fmap. done.
Qed.

Definition vdev_in_psoc s p v : bool :=
  match vdevs s !! v with
  | Some r => match pdevs s !! wlan_pdev r with Some rd => bool_decide (wlan_psoc rd = p) | None => false end
  | None => false
  end.
Definition vdev_in_pdev s d v : bool :=
  match vdevs s !! v with Some r => bool_decide (wlan_pdev r = d) | None => false end.

Lemma in_psoc_eq s p v : in_psoc s p v = vdev_in_psoc s p v.
Proof.
  unfold in_psoc, vdev_slot, vdev_in_psoc, vdev_keys, pdev_keys. rewrite !lookup_fmap.
  destruct (vdevs s !! v) as [r|]; [|done]. cbn. rewrite lookup_fmap. by destruct (pdevs s !! wlan_pdev r).
Qed.
Lemma in_pdev_eq s d v : in_pdev s d v = vdev_in_pdev s d v.
Proof. unfold in_pdev, vdev_in_pdev, vdev_keys. rewrite lookup_fmap. by destruct (vdevs s !! v). Qed.

Definition peers_on s (on : nat -> bool) (temp : bool) : nat :=
  count_if (peers s) (fun r => on (peer_vdev r) && Bool.eqb (temporary (peer_type r)) temp).

Lemma peers_with_on s Q Q' b : (forall v, Q v = Q' v) -> peers_with s Q b = peers_on s Q' b.
Proof. intros HQ. rewrite peers_with_count. apply count_if_ext. intros x r _. by rewrite HQ. Qed.

Lemma vdevs_of_psoc A e s p r :
  inv A e s -> psocs s !! p = Some r ->
  psoc_vdev_count r = size (filter (fun kv : nat * wlan_objmgr_vdev => vdev_in_psoc s p (fst kv) = true) (vdevs s)).
Proof.
  intros I Hr. pose proof (inv_psoc _ _ _ I _ _ Hr) as P. rewrite (psoc_vdev_cnt _ _ _ P). unfold nslots.
  rewrite <- size_dom.
  replace (dom (filter _ (vdevs s))) with (list_to_set (omap Datatypes.id (psoc_vdev_list r)) : gset nat).
  { symmetry. apply size_list_to_set, (NoDup_slots _ (fun v => snd <$> vdev_slot s v)). intros i v Hv.
    apply (psoc_vdevs _ _ _ P) in Hv. by rewrite Hv. }
  apply set_eq. intros v. rewrite elem_of_list_to_set, list_elem_of_omap, elem_of_dom.
  assert (is_Some (filter (fun kv : nat * wlan_objmgr_vdev => vdev_in_psoc s p (fst kv) = true) (vdevs s) !! v)
          <-> in_psoc s p v = true) as ->.
  { rewrite in_psoc_eq. split.
    - intros [rv [_ Hv]%map_lookup_filter_Some]. done.
    - intros Hv. unfold vdev_in_psoc in Hv. destruct (vdevs s !! v) as [rv|] eqn:Hrv; [|done].
      exists rv. apply map_lookup_filter_Some. split; [done|]. cbn. unfold vdev_in_psoc. by rewrite Hrv. }
  unfold in_psoc. split.
  - intros (a & Ha & Hv). cbn in Hv. subst a. apply list_elem_of_lookup in Ha as [i Hi].
    apply (psoc_vdevs _ _ _ P) in Hi. rewrite Hi. by apply bool_decide_eq_true.
  - intros Hv. destruct (vdev_slot s v) as [[p' i]|] eqn:Hs; [|done]. apply bool_decide_eq_true in Hv as ->.
    exists (Some v). split; [|done]. apply list_elem_of_lookup. exists i. by apply (psoc_vdevs _ _ _ P).
Qed.

(** C38: The counters of a psoc and of a PDEV are exactly the numbers of objects in
    memory that are its PDEVs, its VDEVs, its regular and its temporary peers, and none
    goes beyond its limit. *)
Theorem objmgr_counters_exact A e s p r d rd :
  reachable A e s -> psocs s !! p = Some r -> pdevs s !! d = Some rd ->
  (psoc_pdev_count r = children s (OPsoc p) /\ psoc_pdev_count r <= WLAN_UMAC_MAX_PDEVS)%nat
  /\ (psoc_vdev_count r = size (filter (fun kv : nat * wlan_objmgr_vdev => vdev_in_psoc s p (fst kv) = true) (vdevs s))
      /\ psoc_vdev_count r <= WLAN_UMAC_PSOC_MAX_VDEVS)%nat
  /\ (psoc_peer_count r = peers_on s (vdev_in_psoc s p) false
      /\ psoc_peer_count r <= WLAN_UMAC_PSOC_MAX_PEERS)%nat
  /\ (psoc_temp_peer_count r = peers_on s (vdev_in_psoc s p) true
      /\ psoc_temp_peer_count r <= WLAN_MAX_PSOC_TEMP_PEERS)%nat
  /\ (pdev_vdev_count rd = children s (OPdev d) /\ pdev_vdev_count rd <= WLAN_UMAC_PDEV_MAX_VDEVS)%nat
  /\ (pdev_peer_count rd = peers_on s (vdev_in_pdev s d) false
      /\ pdev_peer_count rd <= WLAN_UMAC_PSOC_MAX_PEERS)%nat
  /\ (pdev_temp_peer_count rd = peers_on s (vdev_in_pdev s d) true
      /\ pdev_temp_peer_count rd <= WLAN_MAX_PDEV_TEMP_PEERS)%nat.
Proof.
  intros R Hr Hd. pose proof (reach_inv _ _ _ R) as I. pose proof (reach_ledger _ _ _ R) as He.
  pose proof (inv_psoc _ _ _ I _ _ Hr) as P. pose proof (inv_pdev _ _ _ I _ _ Hd) as D.
  pose proof (kids_children A e s I He (OPsoc p)) as K1. pose proof (kids_children A e s I He (OPdev d)) as K2.
  unfold kids, exists_obj in K1, K2. cbn in K1, K2. rewrite Hr in K1. rewrite Hd in K2.
  specialize (K1 ltac:(by eexists)). specialize (K2 ltac:(by eexists)).
  pose proof (nslots_le (wlan_pdev_list r)) as L1. pose proof (nslots_le (psoc_vdev_list r)) as L2.
  rewrite (psoc_pdev_len _ _ _ P), <- (psoc_pdev_cnt _ _ _ P) in L1.
  rewrite (psoc_vdev_len _ _ _ P), <- (psoc_vdev_cnt _ _ _ P) in L2.
  destruct (psoc_peer_max _ _ _ P) as [P1 P2]. rewrite P2 in P1.
  destruct (pdev_vdev_max _ _ _ D) as [D1 D2]. rewrite D2 in D1.
  destruct (pdev_peer_max _ _ _ D) as [D3 D4]. rewrite D4 in D3.
  split_and!; try done; try (by apply Nat2Z.inj).
  - by eapply vdevs_of_psoc.
  - rewrite (psoc_peer_cnt _ _ _ P). apply peers_with_on, in_psoc_eq.
  - rewrite (psoc_temp_cnt _ _ _ P). apply peers_with_on, in_psoc_eq.
  - apply (psoc_temp_max _ _ _ P).
  - rewrite (pdev_peer_cnt _ _ _ D). apply peers_with_on, in_pdev_eq.
  - rewrite (pdev_temp_cnt _ _ _ D). apply peers_with_on, in_pdev_eq.
  - apply (pdev_temp_max _ _ _ D).
Qed.

(** ** Lookups *)

(** The peers of a psoc that have an address. *)
Definition psoc_peer s p (mac : list Z) x : Prop :=
  exists r, peers s !! x = Some r /\ vdev_in_psoc s p (peer_vdev r) = true /\ peer_macaddr r = mac.

Section Lookups.
Context (A : objref -> bool) (e : ledger) s (R : reachable A e s) p rp (Hp : psocs s !! p = Some rp).

Lemma bucket_psoc_peer mac x :
  x ∈ hash_bucket rp mac /\ peer_is (fun r => WLAN_ADDR_EQ (peer_macaddr r) mac) s x = true <-> psoc_peer s p mac x.
Proof using R Hp.
  pose proof (reach_inv _ _ _ R) as I. rewrite (elem_of_bucket _ _ _ I _ _ Hp mac x).
  unfold peer_is, psoc_peer, WLAN_ADDR_EQ. split.
  - intros [Hs Hm]. destruct (peers s !! x) as [r|] eqn:Hr; [|done]. apply bool_decide_eq_true in Hm.
    exists r. split_and!; [done| |done]. unfold peer_slot in Hs. rewrite (peer_key s x r Hr) in Hs.
    rewrite <- in_psoc_eq. unfold in_psoc. destruct (vdev_slot s (peer_vdev r)) as [[p' i]|]; [|done].
    apply bool_decide_eq_true. by injection Hs.
  - intros (r & Hr & Hv & Hm). rewrite Hr. split; [|by apply bool_decide_eq_true].
    unfold peer_slot. rewrite (peer_key s x r Hr), <- in_psoc_eq in *. unfold in_psoc in Hv.
    destruct (vdev_slot s (peer_vdev r)) as [[p' i]|]; [|done]. apply bool_decide_eq_true in Hv as ->. by rewrite Hm.
Qed.

(** C22: The lookup of a peer by address gives a created peer of the psoc that has it,
    with a reference for the caller and no other change; it finds none exactly when the
    psoc has no created peer of that address. *)
Theorem get_peer_by_mac_finds mac id :
  exists r, wlan_objmgr_get_peer_by_mac p mac id s
            = Ret r (match r with Some x => upd_hdr (OPeer x) (add_ref 1 id) s | None => s end)
    /\ match r with
       | Some x => psoc_peer s p mac x /\ is_created s (OPeer x) = true
       | None => forall x, psoc_peer s p mac x -> is_created s (OPeer x) = false
       end.
Proof using R Hp.
  pose proof (reach_inv _ _ _ R) as I. pose proof (reach_ledger _ _ _ R) as He.
  eexists. split; [rewrite (get_peer_by_mac_ret A e s I He p rp Hp mac id); reflexivity|].
  unfold found. destruct (List.find _ _) as [x|] eqn:Hf.
  - apply find_and_Some in Hf as (Hx & Hm & Hc). split; [|done]. by apply bucket_psoc_peer.
  - intros x [Hx Hm]%bucket_psoc_peer. apply list_elem_of_In in Hx.
    pose proof (find_none _ _ Hf x Hx) as Hn. cbn in Hn. by rewrite Hm in Hn.
Qed.

(** The lookup of a VDEV by id gives the created VDEV of the psoc that has it, with a
    reference for the caller and no other change; it finds none exactly when there is none. *)
Theorem get_vdev_by_id_finds i id :
  exists r, wlan_objmgr_get_vdev_by_id_from_psoc p i id s
            = Ret r (match r with Some v => upd_hdr (OVdev v) (add_ref 1 id) s | None => s end)
    /\ forall v, r = Some v <->
         vdev_in_psoc s p v = true /\ vdev_id <$> vdevs s !! v = Some i /\ is_created s (OVdev v) = true.
Proof using R Hp.
  pose proof (reach_inv _ _ _ R) as I. pose proof (inv_psoc _ _ _ I _ _ Hp) as P.
  eexists. split; [rewrite (get_vdev_by_id_from_psoc_ret A e s I p rp Hp i id); reflexivity|].
  assert (forall v, psoc_vdev_list rp !! i = Some (Some v) <->
    vdev_in_psoc s p v = true /\ vdev_id <$> vdevs s !! v = Some i) as Hslot.
  { intros v. rewrite (psoc_vdevs _ _ _ P), <- in_psoc_eq. unfold in_psoc, vdev_slot, vdev_keys. rewrite lookup_fmap.
    destruct (vdevs s !! v) as [r|]; cbn; [|by split; [|intros [? _]]].
    destruct (pdev_keys s !! wlan_pdev r) as [[p' j]|]; [|by split; [|intros [? _]]]. split.
    - intros [= -> ->]. by rewrite bool_decide_eq_true.
    - intros [->%bool_decide_eq_true [= ->]]. done. }
  intros v. rewrite (assoc and), <- Hslot. split; [by intros [-> ->]%slot_if_Some|].
  intros [-> Hc]. cbn. by rewrite Hc.
Qed.

(** What a lookup that looks at the state gives is created when it is given, and so
    not deleted by its owner; whatever a lookup gives, it has a reference for the caller. *)
Theorem lookup_gives_created l id n s' :
  legal (OpLookup l id) A e s -> run_lookup l id s = Ret (Some n) s' ->
  (ignores_state l = false -> is_created s (lookup_finds l n) = true /\ A (lookup_finds l n) = true)
  /\ exists h', get_hdr (lookup_finds l n) s' = Some h' /\ 1 <= refs_by h' id.
Proof using R.
  intros Hl Hrun. pose proof (reach_inv _ _ _ R) as I. pose proof (reach_ledger _ _ _ R) as He.
  destruct Hl as [Ho Hnd]. split.
  - intros Hst. assert (is_created s (lookup_finds l n) = true) as Hc.
    { pose proof (lookup_created A e s l id I He Ho Hst) as Hw. unfold wpx in Hw. rewrite Hrun in Hw. by apply Hw. }
    split; [done|]. destruct (is_created_live _ _ Hc) as (h & Hh & Hlive).
    rewrite (inv_live _ _ _ I). by rewrite (get_hdr_alive _ _ _ Hh).
  - pose proof (inv_lookup A e s l id I He Ho Hnd) as Hw. unfold wpx in Hw. rewrite Hrun in Hw. cbn [give] in Hw.
    pose proof (He (lookup_finds l n) id) as Hpos.
    destruct (inv_refs _ _ _ Hw (lookup_finds l n) id) as [h' Hh']; [rewrite bump_same; lia|].
    exists h'. split; [done|].
    pose proof (count_held _ _ _ _ _ Hw Hh' id (bump_nonneg _ _ _ 1 He ltac:(lia) _)) as Hc.
    rewrite bump_same in Hc. lia.
Qed.

End Lookups.

(** ** Nothing is leaked *)

(** When no destroy handler fails, an object without a reference is one whose components
    are still to answer, or answered with a failure. *)
Lemma unreferenced_waits A e s o h :
  destroys_ok -> reachable A e s -> get_hdr o s = Some h -> ref_cnt h = 0 -> waiting (obj_state h) = true.
Proof. intros Hok R Hh. apply (hdr_settled _ _ _ (inv_hdr _ _ _ (reach_inv _ _ _ R) o h Hh) Hok). Qed.

Lemma total_zero h : (forall id, refs_by h id = 0) -> total h = 0.
Proof.
  unfold refs_by, total. generalize (ref_id_dbg h). intros m.
  apply (map_fold_weak_ind (fun r m => (forall id, default 0 (m !! id) = 0) -> r = 0)); [done|].
  clear m. intros i z m r Hi IH Hm. rewrite (IH).
  - specialize (Hm i). rewrite lookup_insert_eq in Hm. cbn in Hm. lia.
  - intros j. specialize (Hm j). rewrite lookup_insert in Hm. case_decide; [subst; by rewrite Hi|done].
Qed.

Lemma count_if_0 {R} (m : gmap nat R) f : m = ∅ -> count_if m f = 0%nat.
Proof. intros ->. unfold count_if. by rewrite map_filter_empty, map_size_empty. Qed.

Section NoLeak.
Context (A : objref -> bool) (e : ledger) s (R : reachable A e s).
Context (HA : forall o, A o = false) (He0 : forall o id, e o id = 0) (Hok : destroys_ok).
Context (Hn : forall o h, get_hdr o s = Some h -> waiting (obj_state h) = false).

Lemma has_children o h : get_hdr o s = Some h -> children s o <> 0%nat.
Proof using R HA He0 Hok Hn.
  intros Hh Hz. pose proof (reach_inv _ _ _ R) as I. pose proof (reach_ledger _ _ _ R) as He.
  destruct (inv_hdr _ _ _ I o h Hh) as [H1 H2 H3 H4 H5].
  enough (ref_cnt h = 0) as Hcnt by (apply (H5 Hok) in Hcnt; by rewrite (Hn o h Hh) in Hcnt).
  rewrite H3. apply total_zero. intros id. rewrite H1, (own_A _ _ _ R o h Hh), HA, He0, (kids_children A e s I He) by (by eexists).
  rewrite Hz. by destruct (_ =? _)%nat.
Qed.

Lemma no_peers : peers s = ∅.
Proof using R HA He0 Hok Hn.
  pose proof (reach_inv _ _ _ R) as I.
  apply map_empty. intros b. destruct (peers s !! b) as [rb|] eqn:Hb; [exfalso|done].
  apply (has_children (OPeer b) (peer_hdr rb)); [cbn; by rewrite Hb|]. unfold children, count_if.
  apply map_size_empty_iff, map_empty. intros y. apply map_lookup_filter_None. right.
  intros ry Hy [Hh _]%andb_true_iff. cbn in Hh.
  assert (holder s y = true) as Hy' by (unfold holder; by rewrite (peer_key s y ry Hy)).
  apply (has_children (OPeer y) (peer_hdr ry)); [cbn; by rewrite Hy|]. unfold children, count_if.
  apply map_size_empty_iff, map_empty. intros z. apply map_lookup_filter_None. right.
  intros rz Hz [_ Hbss%bool_decide_eq_true]%andb_true_iff. cbn in Hbss. unfold bss_of in Hbss.
  destruct (vdevs s !! peer_vdev rz) as [rv|] eqn:Hv; [|done]. cbn in Hbss.
  destruct (vdev_bss _ _ _ _ (inv_vdev _ _ _ I _ _ Hv) y Hbss) as [_ Hf]. congruence.
Qed.

(** One level: objects without children are not there. *)
Lemma no_objects {R'} (m : gmap nat R') (K : nat -> objref) :
  (forall n r, m !! n = Some r -> exists h, get_hdr (K n) s = Some h) ->
  (forall n, children s (K n) = 0%nat) -> m = ∅.
Proof using R HA He0 Hok Hn.
  intros Hh Hc. apply map_empty. intros n. destruct (m !! n) as [r|] eqn:Hr; [exfalso|done].
  destruct (Hh n r Hr) as [h Hh']. by apply (has_children (K n) h Hh').
Qed.

Lemma no_vdevs : vdevs s = ∅.
Proof using R HA He0 Hok Hn.
  apply (no_objects _ OVdev).
  - intros n r Hr. cbn. rewrite Hr. by eexists.
  - intros n. by apply count_if_0, no_peers.
Qed.
Lemma no_pdevs : pdevs s = ∅.
Proof using R HA He0 Hok Hn.
  apply (no_objects _ OPdev).
  - intros n r Hr. cbn. rewrite Hr. by eexists.
  - intros n. by apply count_if_0, no_vdevs.
Qed.
Lemma no_psocs : psocs s = ∅.
Proof using R HA He0 Hok Hn.
  apply (no_objects _ OPsoc).
  - intros n r Hr. cbn. rewrite Hr. by eexists.
  - intros n. by apply count_if_0, no_pdevs.
Qed.

End NoLeak.

(** C23: The destroy handlers of the components may answer at once or later, but do not
    fail.  Then, when the owners have deleted every object, the clients have given every
    reference back, and no object is still partially deleted, or failed to be deleted
    when a component detached its part, no object is left in memory, and the manager
    itself can be destroyed. *)
Theorem objmgr_no_leak A e s :
  destroys_ok -> reachable A e s -> (forall o, A o = false) -> (forall o id, e o id = 0) ->
  (forall o h, get_hdr o s = Some h -> obj_state h <> WLAN_OBJ_STATE_PARTIALLY_DELETED
                                     /\ obj_state h <> WLAN_OBJ_STATE_DELETION_FAILED) ->
  psocs s = ∅ /\ pdevs s = ∅ /\ vdevs s = ∅ /\ peers s = ∅
  /\ wlan_objmgr_global_obj_can_destroyed s = Ret QDF_STATUS_SUCCESS s.
Proof.
  intros Hok R HA He Hw.
  assert (forall o h, get_hdr o s = Some h -> waiting (obj_state h) = false) as Hn.
  { intros o h Hh. destruct (Hw o h Hh) as [H1 H2]. by destruct (obj_state h). }
  pose proof (no_psocs A e s R HA He Hok Hn) as Hp.
  split_and!; [done|by eapply no_pdevs|by eapply no_vdevs|by eapply no_peers|].
  destruct (inv_glob _ _ _ (reach_inv _ _ _ R)) as (g & Hg & _ & Hs).
  unfold wlan_objmgr_global_obj_can_destroyed. rewrite (bind_ret _ _ _ _ _ (read_glob_ret _ _ Hg)).
  replace (forallb _ (g_psoc g)) with true; [done|]. symmetry. apply forallb_forall. intros [p|] Hin; [|done].
  apply list_elem_of_In, list_elem_of_lookup in Hin as [i Hi]. apply Hs in Hi. by rewrite Hp, lookup_empty in Hi.
Qed.

(** ** Histories, run *)

Definition obj_state_of : Type := (objref -> bool) * ledger * objmgr_world.
Definition start : obj_state_of := (fun _ => false, no_refs, empty_world).
Definition advance (w : obj_state_of) (op : obj_op) : obj_state_of :=
  let '(A, e, s) := w in
  match run_op op s with
  | Ret r s' => (op_live op r A, op_refs op r e, s')
  | _ => w
  end.
Definition history (ops : list obj_op) : obj_state_of := foldl advance start ops.
Definition reaches (w : obj_state_of) : Prop := let '(A, e, s) := w in reachable A e s.
Definition allowed (w : obj_state_of) (op : obj_op) : Prop := let '(A, e, s) := w in legal op A e s.

Lemma reaches_advance w op : reaches w -> allowed w op -> reaches (advance w op).
Proof.
  destruct w as [[A e] s]. cbn. intros R Hl. destruct (reachable_op A e s op R Hl) as (r & s' & Hrun & R').
  by rewrite Hrun.
Qed.
Lemma reaches_start : reaches start.
Proof. exact reach_init. Qed.

(** A test for what clients must see to, that accepts what the examples need. *)
Definition referencedb s o : bool :=
  match get_hdr o s with Some h => negb (ref_cnt h =? 0) | None => false end.
Definition peer_allowedb (A : objref -> bool) s (rv : wlan_objmgr_vdev) t mac : bool :=
  implb (sets_bsspeer rv t mac) (bool_decide (bss_peer rv = None) && negb (holds_bss t))
  && match bss_peer rv with
     | Some b => implb (holds_bss t) (referencedb s (OPeer b)) && implb (temporary t) (A (OPeer b))
     | None => negb (holds_bss t)
     end.
Definition allowedb (w : obj_state_of) (op : obj_op) : bool :=
  let '(A, e, s) := w in
  match op with
  | OpRegister _ _ _ _ _ | OpUnregister _ _ _ _ | OpRegisterFreeNotify _ _ | OpUnregisterFreeNotify _ _
  | OpPsocCreate => true
  | OpPdevCreate p => referencedb s (OPsoc p)
  | OpVdevCreate d _ => referencedb s (OPdev d)
      && match pdevs s !! d with Some rd => A (OPsoc (wlan_psoc rd)) | None => true end
  | OpPeerCreate v t mac => referencedb s (OVdev v)
      && match vdevs s !! v with Some rv => peer_allowedb A s rv t mac | None => true end
  | OpDelete o => A o
      && match o with
         | OPsoc p => match psocs s !! p with Some r => (psoc_vdev_count r =? 0)%nat | None => true end
         | OPeer _ => kids s o =? 0
         | _ => true
         end
  | OpGetRef o _ => referencedb s o
  | OpTryGetRef o _ | OpAttach o _ _ _ | OpDetach o _ _ => bool_decide (is_Some (get_hdr o s))
  | OpRelease o id => 0 <? e o id
  | OpTriggerCreation o _ | OpTriggerDeletion o _ => A o
  | OpLookup l _ => bool_decide (is_Some (get_hdr (lookup_on l) s)) && negb (ignores_state l)
  | OpDeletedPeers p _ _ _ _ => bool_decide (is_Some (get_hdr (OPsoc p) s))
  | OpDeletedPeersOfVdev v _ => bool_decide (is_Some (get_hdr (OVdev v) s))
  end.

Lemma referencedb_ok s o : referencedb s o = true -> referenced s o.
Proof.
  unfold referencedb, referenced. destruct (get_hdr o s) as [h|]; [|done].
  intros Hz%negb_true_iff%Z.eqb_neq. eauto.
Qed.
Lemma peer_allowedb_ok A s rv t mac : peer_allowedb A s rv t mac = true -> peer_allowed A s rv t mac.
Proof.
  intros [H1 H2]%andb_true_iff. constructor.
  - intros Hs. rewrite Hs in H1. cbn in H1. apply andb_true_iff in H1 as [Hb%bool_decide_eq_true Hh%negb_true_iff]. done.
  - intros Hh. destruct (bss_peer rv) as [b|]; [|by rewrite Hh in H2].
    apply andb_true_iff in H2 as [H2 _]. rewrite Hh in H2. cbn in H2.
    apply referencedb_ok in H2 as (hb & Hhb & Hr). cbn in Hhb. destruct (peers s !! b) as [rb|] eqn:Hb; [|done].
    injection Hhb as <-. eauto.
  - intros Ht b Hb. rewrite Hb in H2. apply andb_true_iff in H2 as [_ H2]. by rewrite Ht in H2.
Qed.

Lemma allowedb_ok w op : reaches w -> allowedb w op = true -> allowed w op.
Proof.
  destruct w as [[A e] s]. intros R. pose proof (reach_inv _ _ _ R) as I.
  destruct op; cbn [allowedb allowed legal]; intros H; try done;
    try (apply andb_true_iff in H as [H1 H2]); try (by apply referencedb_ok);
    try (by apply bool_decide_eq_true in H).
  - split; [by apply referencedb_ok|]. intros rd Hrd. by rewrite Hrd in H2.
  - split; [by apply referencedb_ok|]. intros rv Hrv. rewrite Hrv in H2. by apply peer_allowedb_ok.
  - split; [done|]. destruct o as [p|d|v|x]; try done.
    + intros r Hr. rewrite Hr in H2. by apply Nat.eqb_eq.
    + eapply no_kids_deletable; [done|by apply Z.eqb_eq].
  - by apply Z.ltb_lt.
  - split; [by apply bool_decide_eq_true in H1|]. intros Hi. by rewrite Hi in H2.
Qed.

Fixpoint historyb (w : obj_state_of) (ops : list obj_op) : bool :=
  match ops with
  | [] => true
  | op :: ops => allowedb w op && historyb (advance w op) ops
  end.
Lemma history_reaches_from ops : forall w, reaches w -> historyb w ops = true -> reaches (foldl advance w ops).
Proof.
  induction ops as [|op ops IH]; intros w R H; [done|]. cbn in H. apply andb_true_iff in H as [H1 H2].
  cbn. apply IH; [|done]. apply reaches_advance; [done|]. by apply allowedb_ok.
Qed.
Lemma history_reaches ops : historyb start ops = true -> reaches (history ops).
Proof. apply history_reaches_from, reaches_start. Qed.

End Spec.

(** Components that do nothing, memory that does not fail. *)
Definition quiet_env : objmgr_env :=
  ObjmgrEnv (fun _ _ _ _ => HResult QDF_STATUS_SUCCESS NoSlot) (fun _ => true).

Definition station_mac : list Z := [2; 0; 0; 0; 0; 1].
Definition ap_mac : list Z := [2; 0; 0; 0; 0; 9].
Definition station_vdev : list obj_op :=
  [OpPsocCreate; OpPdevCreate 1; OpVdevCreate 2 (VdevParams QDF_STA_MODE station_mac)].
(** A psoc (at 1), its PDEV (2), a station VDEV (3) and the peer of its AP (6), on which a
    client has a reference. *)
Definition station_ops : list obj_op :=
  station_vdev ++ [OpPeerCreate 3 WLAN_PEER_AP ap_mac; OpLookup (GetPeerByMac 1 ap_mac) 7].

Abbreviation run_all ops := (history (E := quiet_env) ops).
Abbreviation world_of w := (snd w).
Abbreviation live_in w := (fst (fst w)).
Abbreviation refs_in w := (snd (fst w)).

Lemma station_reaches : reaches (E := quiet_env) (run_all station_ops).
Proof. apply history_reaches. vm_compute. reflexivity. Qed.

(** A VDEV that is deleted after its PDEV and its psoc, all of which are still in
    memory because the VDEV holds them, is freed with a use after free: giving back the
    reference on the PDEV frees the PDEV and the psoc, and the VDEV is taken out of the
    psoc's table afterwards. *)
Theorem vdev_free_uses_freed_psoc :
  let s := world_of (run_all station_vdev) in
  let delete o := delete_obj (E := quiet_env) o in
  match (delete (OPsoc 1);; delete (OPdev 2)) s with
  | Ret _ s1 => exists_obj s1 (OPsoc 1) /\ exists_obj s1 (OPdev 2) /\ exists_obj s1 (OVdev 3)
                /\ delete (OVdev 3) s1 = Crash
  | _ => False
  end.
Proof. vm_compute. split_and!; try reflexivity; eexists; reflexivity. Qed.

(** ** The theorems at work *)

Lemma reaches_reachable {E : objmgr_env} (w : obj_state_of) : reaches w -> reachable (live_in w) (refs_in w) (world_of w).
Proof. by destruct w as [[A e] s]. Qed.
Definition station : obj_state_of := run_all station_ops.
Lemma station_reachable : reachable (E := quiet_env) (live_in station) (refs_in station) (world_of station).
Proof. apply reaches_reachable, station_reaches. Qed.
Abbreviation psoc1 := (default new_psoc (psocs (world_of station) !! 1%nat)).
Abbreviation pdev2 := (default (new_pdev 0 0) (pdevs (world_of station) !! 2%nat)).
Abbreviation hdr_of o := (default zero_hdr (get_hdr o (world_of station))).

Lemma station_psoc : psocs (world_of station) !! 1%nat = Some psoc1.
Proof. vm_compute. reflexivity. Qed.

(** The client gives its reference on the AP's peer back. *)
Lemma objmgr_safe_witness :
  exists r s', run_op (E := quiet_env) (OpRelease (OPeer 6) 7) (world_of station) = Ret r s'
    /\ reachable (E := quiet_env) (op_live (OpRelease (OPeer 6) 7) r (live_in station))
         (op_refs (OpRelease (OPeer 6) 7) r (refs_in station)) s'.
Proof. apply objmgr_safe; [exact station_reachable|]. vm_compute. reflexivity. Defined.

Lemma objmgr_refs_counted_witness :
  refs_by (hdr_of (OPeer 6)) 7%nat = 0 + refs_in station (OPeer 6%nat) 7%nat
  /\ ref_cnt (hdr_of (OPeer 6)) = total (hdr_of (OPeer 6)).
Proof.
  destruct (objmgr_refs_counted (E := quiet_env) _ _ _ (OPeer 6) (hdr_of (OPeer 6)) station_reachable) as [H1 H2].
  - vm_compute. reflexivity.
  - split; [exact (H1 7%nat)|exact H2].
Defined.

(** The PDEV, as the VDEV's parent. *)
Lemma objmgr_held_in_memory_witness : referenced (world_of station) (OPdev 2).
Proof.
  apply (objmgr_held_in_memory (E := quiet_env) _ _ _ _ station_reachable). right. right.
  exists (OVdev 3). split; [eexists|]; vm_compute; reflexivity.
Defined.

Lemma objmgr_well_formed_witness : psoc_ok (world_of station) 1 psoc1.
Proof.
  destruct (objmgr_well_formed (E := quiet_env) _ _ _ station_reachable) as (H & _).
  apply H. vm_compute. reflexivity.
Defined.

Lemma objmgr_counters_exact_witness :
  psoc_vdev_count psoc1
  = size (filter (fun kv : nat * wlan_objmgr_vdev => vdev_in_psoc (world_of station) 1 (fst kv) = true)
            (vdevs (world_of station))).
Proof.
  destruct (objmgr_counters_exact (E := quiet_env) _ _ _ 1 psoc1 2 pdev2 station_reachable)
    as (_ & [H _] & _); [vm_compute; reflexivity..|exact H].
Defined.

Lemma get_peer_by_mac_finds_witness :
  exists x s', wlan_objmgr_get_peer_by_mac 1 ap_mac 5 (world_of station) = Ret (Some x) s'
    /\ psoc_peer (world_of station) 1 ap_mac x.
Proof.
  destruct (get_peer_by_mac_finds (E := quiet_env) _ _ _ station_reachable 1 psoc1 station_psoc
    ap_mac 5) as ([x|] & H & Hr).
  - eexists x, _. split; [exact H|exact (proj1 Hr)].
  - exfalso. assert (is_created (world_of station) (OPeer 6) = false) as Hf.
    { apply Hr. eexists. split_and!; vm_compute; reflexivity. }
    revert Hf. vm_compute. discriminate.
Defined.

Lemma get_vdev_by_id_finds_witness :
  exists s', wlan_objmgr_get_vdev_by_id_from_psoc 1 0 5 (world_of station) = Ret (Some 3%nat) s'.
Proof.
  destruct (get_vdev_by_id_finds (E := quiet_env) _ _ _ station_reachable 1 psoc1 station_psoc
    0 5) as (r & H & Hv).
  assert (r = Some 3%nat) as -> by (apply Hv; vm_compute; split_and!; reflexivity).
  eexists. exact H.
Defined.

Lemma lookup_gives_created_witness :
  is_created (world_of station) (OPeer 6) = true /\ live_in station (OPeer 6%nat) = true.
Proof.
  destruct (lookup_gives_created (E := quiet_env) _ _ _ station_reachable (GetPeerByMac 1 ap_mac) 5 6
    (upd_hdr (OPeer 6) (add_ref 1 5) (world_of station))) as [H _].
  - split; [eexists; vm_compute; reflexivity|done].
  - vm_compute. reflexivity.
  - exact (H eq_refl).
Defined.

Definition no_object s : Prop := psocs s = ∅ /\ pdevs s = ∅ /\ vdevs s = ∅ /\ peers s = ∅.
Lemma no_object_hdr s o : no_object s -> get_hdr o s = None.
Proof. intros (H1 & H2 & H3 & H4). destruct o; cbn [get_hdr]; rewrite ?H1, ?H2, ?H3, ?H4; by rewrite lookup_empty. Qed.

(** Everything is deleted, the children first. *)
Lemma teardown_empty :
  no_object (world_of (run_all (station_ops ++ [OpRelease (OPeer 6) 7; OpDelete (OPeer 6); OpDelete (OVdev 3);
    OpDelete (OPdev 2); OpDelete (OPsoc 1)]))).
Proof. vm_compute. by split_and!. Qed.

(** A component that destroys its part later: the psoc waits for it. *)
Definition late_env (priv : option Z) : objmgr_env :=
  ObjmgrEnv (fun handler _ _ _ =>
      if bool_decide (handler = 1%nat) then HResult QDF_STATUS_SUCCESS (AttachSlot priv QDF_STATUS_SUCCESS)
      else HResult QDF_STATUS_COMP_ASYNC NoSlot)
    (fun _ => true).
Definition late_ops : list obj_op :=
  [OpRegister HCreate WLAN_PSOC_OP 3 1 0; OpRegister HDestroy WLAN_PSOC_OP 3 2 0; OpPsocCreate; OpDelete (OPsoc 1)].
Definition late (priv : option Z) (ops : list obj_op) : obj_state_of := history (E := late_env priv) (late_ops ++ ops).

Lemma late_psoc_waits :
  obj_state <$> get_hdr (OPsoc 1) (world_of (late None [])) = Some WLAN_OBJ_STATE_PARTIALLY_DELETED.
Proof. vm_compute. reflexivity. Qed.

(** A component that still has its private object is not waited for, whatever it
    answers: its detaching the object later is an access to freed memory. *)
Lemma late_psoc_not_awaited :
  psocs (world_of (late (Some 7) [])) = ∅
  /\ run_op (E := late_env (Some 7)) (OpDetach (OPsoc 1) 3 (Some 7)) (world_of (late (Some 7) [])) = Crash.
Proof. split; vm_compute; reflexivity. Qed.

Definition late_end : obj_state_of := late None [OpDetach (OPsoc 1) 3 None].
Lemma late_end_reachable :
  reachable (E := late_env None) (live_in late_end) (refs_in late_end) (world_of late_end).
Proof. apply reaches_reachable, history_reaches. vm_compute. reflexivity. Qed.
Lemma late_end_empty o : get_hdr o (world_of late_end) = None.
Proof. apply no_object_hdr. vm_compute. by split_and!. Qed.

Lemma objmgr_no_leak_witness :
  wlan_objmgr_global_obj_can_destroyed (world_of late_end) = Ret QDF_STATUS_SUCCESS (world_of late_end).
Proof.
  pose proof (reach_inv (E := late_env None) _ _ _ late_end_reachable) as I.
  refine (proj2 (proj2 (proj2 (proj2 (objmgr_no_leak (E := late_env None) _ _ _ _ late_end_reachable _ _ _))))).
  - intros f arg o s h _ _. cbn. by destruct (bool_decide (f = 1%nat)).
  - intros o. rewrite (inv_live _ _ _ I). unfold is_live. by rewrite late_end_empty.
  - intros o id. destruct (decide (refs_in late_end o id = 0)) as [Hz|Hz]; [done|].
    apply (inv_refs _ _ _ I) in Hz as [h Hh]. by rewrite late_end_empty in Hh.
  - intros o h Hh. by rewrite late_end_empty in Hh.
Defined.

(** A psoc that is being created, or destroyed, with one component registered. *)
Definition one_handler : wlan_objmgr_global :=
  Global (replicate WLAN_OBJMGR_MAX_DEVICES None) {[(WLAN_PSOC_OP, 3%nat) := (1%nat, 0)]}
    {[(WLAN_PSOC_OP, 3%nat) := (2%nat, 0)]} ∅ ∅.
Definition psoc_world h : objmgr_world :=
  World (Some one_handler) {[1%nat := with_psoc_hdr (fun _ => h) new_psoc]} ∅ ∅ ∅ 2 [].
Definition deleted_hdr : wlan_objmgr_hdr := set_state WLAN_OBJ_STATE_LOGICALLY_DELETED zero_hdr.
Definition waiting_hdr : wlan_objmgr_hdr :=
  set_status 3 QDF_STATUS_COMP_ASYNC (set_state WLAN_OBJ_STATE_PARTIALLY_CREATED zero_hdr).

Lemma create_tail_calls_witness :
  exists h1, same_refs fresh_hdr h1 /\
    exists b s', obj_create_tail (E := quiet_env) (OPsoc 1) (mret QDF_STATUS_SUCCESS) (psoc_world fresh_hdr) = Ret b s'
      /\ trace s' = [EvCreate (OPsoc 1) 3].
Proof.
  destruct (create_tail_calls (E := quiet_env) (OPsoc 1) (psoc_world fresh_hdr) one_handler fresh_hdr
    (mret QDF_STATUS_SUCCESS)) as (h1 & Hr & _ & Hc); [reflexivity|vm_compute; reflexivity|reflexivity|].
  exists h1. split; [exact Hr|]. eexists _, _. split; [vm_compute; reflexivity|vm_compute; reflexivity].
Defined.

Lemma obj_destroy_calls_witness :
  exists h1, same_refs deleted_hdr h1 /\ status_of h1 3 = QDF_STATUS_COMP_ASYNC /\
    exists s', obj_destroy (E := late_env None) (OPsoc 1) (mret QDF_STATUS_SUCCESS) (psoc_world deleted_hdr)
      = Ret QDF_STATUS_COMP_ASYNC s' /\ trace s' = [EvDestroy (OPsoc 1) 3].
Proof.
  destruct (obj_destroy_calls (E := late_env None) (OPsoc 1) (psoc_world deleted_hdr) one_handler deleted_hdr
    (mret QDF_STATUS_SUCCESS)) as (h1 & Hr & Hp & Hc); [reflexivity|vm_compute; reflexivity|reflexivity|].
  exists h1. split; [exact Hr|]. split.
  - destruct (Hp 3%nat ltac:(by apply elem_of_components, Nat.ltb_lt)) as (hc & _ & Hst & _). exact Hst.
  - eexists. split; [vm_compute; reflexivity|vm_compute; reflexivity].
Defined.

(** The component that was to answer later does. *)
Lemma component_attach_result_witness :
  exists s', component_obj_attach (OPsoc 1) 3 (Some 99) QDF_STATUS_SUCCESS (psoc_world waiting_hdr)
             = Ret QDF_STATUS_SUCCESS s'
    /\ is_created s' (OPsoc 1) = true.
Proof.
  pose proof (component_attach_result (OPsoc 1) (psoc_world waiting_hdr) one_handler waiting_hdr 3 (Some 99)
    QDF_STATUS_SUCCESS eq_refl ltac:(vm_compute; reflexivity)) as H.
  eexists. split; [exact H|]. vm_compute. reflexivity.
Defined.
