(* ===== verification/ItemPool.v ===== *)
(** * The interface of a pool of fixed-size items

    What a component that takes its objects from a pool (the scheduler its messages)
    relies on: the operations, the items in use, and their laws.  FlexMem shows that
    the pools of qdf/src/qdf_flex_mem.c have it. *)
From S2P Require Import Prelude.

(** The operations of a pool with state [P]; [pool_live] lists the items that are in
    use. *)
Class item_pool (P : Type) : Type := ItemPool {
  pool_ok : P -> Prop;
  pool_live : P -> list Z;
  pool_init : M P unit;
  pool_deinit : M P unit;
  pool_alloc : M P (option Z);
  pool_free : Z -> M P unit;
}.

(** Allocation gives an item that was not in use, or none; freeing an item in use ends
    its use; neither touches other items or fails. *)
Class item_pool_laws (P : Type) `{item_pool P} : Prop := ItemPoolLaws {
  pool_live_NoDup p : pool_ok p -> NoDup (pool_live p);
  pool_init_ok p : pool_ok p ->
    exists p', pool_init p = Ret tt p' /\ pool_ok p' /\ pool_live p' ≡ₚ pool_live p;
  pool_deinit_ok p : pool_ok p ->
    exists p', pool_deinit p = Ret tt p' /\ pool_ok p' /\ pool_live p' ≡ₚ pool_live p;
  pool_alloc_ok p : pool_ok p ->
    exists r p', pool_alloc p = Ret r p' /\ pool_ok p' /\
                 pool_live p' ≡ₚ option_list r ++ pool_live p;
  pool_free_ok p a : pool_ok p -> a ∈ pool_live p ->
    exists p', pool_free a p = Ret tt p' /\ pool_ok p' /\ pool_live p ≡ₚ a :: pool_live p';
}.
