(* ===== verification/FlexMem.v ===== *)
(** * Pools of equal items: qdf/src/qdf_flex_mem.c and qdf_flex_mem.h

    A pool is a list of segments of 32 items with a bitmap each.  [qdf_talloc], the
    memory behind dynamic segments, is the environment's.  Theorems: the operations
    implement the interface [item_pool]: what is in use is what was allocated and not
    freed, items do not overlap, and no operation fails; and how many empty segments
    are kept. *)
From S2P Require Import Prelude ItemPool.

(** ** Data *)

Definition QDF_FM_BITMAP_BITS : Z := 32.

(** [struct qdf_flex_mem_segment]; [bytes] is the address of the items. *)
Record qdf_flex_mem_segment : Type := Segment {
  dynamic : bool;
  used_bitmap : Z;
  bytes : Z;
}.

(** [sizeof(struct qdf_flex_mem_segment)]: a list node, a flag, a word, a pointer. *)
Definition sizeof_segment : Z := 32.

(** [struct qdf_flex_mem_pool]; [tallocs] counts the calls of the allocator. *)
Record qdf_flex_mem_pool : Type := Pool {
  seg_list : list qdf_flex_mem_segment;
  reduction_limit : Z;
  item_size : Z;
  tallocs : nat;
}.

(** The memory a segment takes: its items, behind its own structure when both were
    allocated together. *)
Definition seg_block (size : Z) (seg : qdf_flex_mem_segment) : Z * Z :=
  if dynamic seg
  then (bytes seg - sizeof_segment, sizeof_segment + size * QDF_FM_BITMAP_BITS)
  else (bytes seg, size * QDF_FM_BITMAP_BITS).

Definition blocks (p : qdf_flex_mem_pool) : list (Z * Z) :=
  seg_block (item_size p) <$> seg_list p.

(** The answer of the [n]-th call of the allocator, for a size, when some blocks of
    memory are taken. *)
Class talloc_env : Type := TallocEnv { talloc : nat -> list (Z * Z) -> Z -> option Z }.

Section FlexMem.
Context {T : talloc_env}.
Implicit Types (p : qdf_flex_mem_pool) (seg : qdf_flex_mem_segment) (ptr size i : Z).

Abbreviation MP := (M qdf_flex_mem_pool).

(** ** Operations *)

Definition set_segs l p : qdf_flex_mem_pool := Pool l (reduction_limit p) (item_size p) (tallocs p).
Definition set_used b seg : qdf_flex_mem_segment := Segment (dynamic seg) b (bytes seg).

Definition qdf_talloc size : MP (option Z) :=
  r ← gets (fun p => talloc (tallocs p) (blocks p) size);
  modify (fun p => Pool (seg_list p) (reduction_limit p) (item_size p) (S (tallocs p)));;
  mret r.

(** [DEFINE_QDF_FLEX_MEM_POOL]: one static segment, whose items are at [head]. *)
Definition DEFINE_QDF_FLEX_MEM_POOL (head size_of_item rm_limit : Z) : qdf_flex_mem_pool :=
  Pool [Segment false 0 head] rm_limit size_of_item 0.

Definition qdf_flex_mem_seg_alloc : MP (option qdf_flex_mem_segment) :=
  total_size ← gets (fun p => sizeof_segment + item_size p * QDF_FM_BITMAP_BITS);
  r ← qdf_talloc total_size;
  match r with
  | None => mret None
  | Some a =>
      let seg := Segment true 0 (a + sizeof_segment) in
      modify (fun p => set_segs (seg_list p ++ [seg]) p);;
      mret (Some seg)
  end.

Fixpoint seg_alloc_loop (n : nat) : MP unit :=
  match n with
  | O => mret ()
  | S n' => qdf_flex_mem_seg_alloc;; seg_alloc_loop n'
  end.

Definition qdf_flex_mem_init : MP unit :=
  limit ← gets reduction_limit;
  seg_alloc_loop (Z.to_nat limit).

(** The segments that the loop leaves: those with items in use. *)
Definition qdf_flex_mem_deinit : MP unit :=
  modify (fun p => set_segs (List.filter (fun seg => negb (used_bitmap seg =? 0)) (seg_list p)) p).

(** [qdf_ffz]: the first zero bit, -1 when there is none in 32 bits. *)
Fixpoint ffz_from (n : nat) (i mask : Z) : Z :=
  match n with
  | O => i
  | S n' => if Z.testbit mask i then ffz_from n' (i + 1) mask else i
  end.
Definition qdf_ffz (mask : Z) : Z := if mask =? 2 ^ 32 - 1 then -1 else ffz_from 64 0 mask.

(** The first free item of the segments, and the segments with its bit flipped. *)
Fixpoint alloc_from size (segs : list qdf_flex_mem_segment)
    : option (Z * list qdf_flex_mem_segment) :=
  match segs with
  | [] => None
  | seg :: rest =>
      let index := qdf_ffz (used_bitmap seg) in
      if index <? 0 then
        match alloc_from size rest with
        | Some (ptr, rest') => Some (ptr, seg :: rest')
        | None => None
        end
      else
        Some (bytes seg + index * size,
              set_used (Z.lxor (used_bitmap seg) (Z.shiftl 1 index)) seg :: rest)
  end.

(** The last segment of the list is the one just allocated. *)
Definition mark_last (l : list qdf_flex_mem_segment) : list qdf_flex_mem_segment :=
  match last l with
  | Some seg => removelast l ++ [set_used 1 seg]
  | None => l
  end.

Definition qdf_flex_mem_alloc : MP (option Z) :=
  found ← gets (fun p => alloc_from (item_size p) (seg_list p));
  match found with
  | Some (ptr, segs) => modify (set_segs segs);; mret (Some ptr)
  | None =>
      seg ← qdf_flex_mem_seg_alloc;
      match seg with
      | None => mret None
      | Some seg => modify (fun p => set_segs (mark_last (seg_list p)) p);; mret (Some (bytes seg))
      end
  end.

(** What becomes of a segment without items in use: freed when it is dynamic and
    there are more segments than the pool keeps.  [size] segments are in the list. *)
Definition qdf_flex_mem_seg_free (count limit : Z) seg : list qdf_flex_mem_segment :=
  if negb (dynamic seg) then [seg]
  else if count <=? limit then [seg]
  else [].

(** The walk to the segment that holds [ptr]; an index outside the bitmap and a
    pointer of no segment are assertions of the code. *)
Fixpoint free_from (count limit size ptr : Z) (segs : list qdf_flex_mem_segment)
    : option (list qdf_flex_mem_segment) :=
  match segs with
  | [] => None
  | seg :: rest =>
      let low_addr := bytes seg in
      let high_addr := low_addr + size * QDF_FM_BITMAP_BITS in
      if (ptr <? low_addr) || (high_addr <? ptr) then
        rest' ← free_from count limit size ptr rest; mret (seg :: rest')
      else
        let index := (ptr - low_addr) / size in
        if index <? QDF_FM_BITMAP_BITS then
          let used := Z.lxor (used_bitmap seg) (Z.shiftl 1 index) in
          Some ((if used =? 0 then qdf_flex_mem_seg_free count limit (set_used used seg)
                 else [set_used used seg]) ++ rest)
        else None
  end.

Definition qdf_flex_mem_free ptr : MP unit :=
  segs ← gets (fun p =>
    free_from (Z.of_nat (length (seg_list p))) (reduction_limit p) (item_size p) ptr (seg_list p));
  segs' ← deref segs;
  modify (set_segs segs').

(** ** Items in use *)

Definition used_items size seg : list Z :=
  (fun i => bytes seg + i * size) <$>
    List.filter (Z.testbit (used_bitmap seg)) (seqZ 0 QDF_FM_BITMAP_BITS).

Definition live p : list Z := concat (used_items (item_size p) <$> seg_list p).

(** Two blocks of memory do not overlap. *)
Definition apart (b c : Z * Z) : Prop := b.1 + b.2 <= c.1 \/ c.1 + c.2 <= b.1.

Definition apart_from (b : Z * Z) (l : list (Z * Z)) : Prop := Forall (apart b) l.

Fixpoint pairwise_apart (l : list (Z * Z)) : Prop :=
  match l with
  | [] => True
  | b :: l' => apart_from b l' /\ pairwise_apart l'
  end.

(** The dynamic segments that are kept although they are empty. *)
Definition empty_segs (segs : list qdf_flex_mem_segment) : list qdf_flex_mem_segment :=
  List.filter (fun seg => dynamic seg && (used_bitmap seg =? 0)) segs.

(** The state of a pool: only the first segment may be static. *)
Record pool_inv p : Prop := {
  inv_size : 0 < item_size p;
  inv_limit : 0 <= reduction_limit p;
  inv_bitmaps : Forall (fun seg => 0 <= used_bitmap seg < 2 ^ 32) (seg_list p);
  inv_static : Forall (fun seg => dynamic seg = true) (tail (seg_list p));
  inv_apart : pairwise_apart (blocks p);
}.

End FlexMem.

(** What an allocator promises: memory that is not taken. *)
Class talloc_laws (T : talloc_env) : Prop := TallocLaws {
  talloc_fresh n taken size a :
    talloc n taken size = Some a -> 0 < a /\ apart_from (a, size) taken;
}.

(** ** Bitmaps *)

(** Two filters that differ at one element. *)
Lemma filter_flip {A} (P Q : A -> bool) (l : list A) x :
  NoDup l -> x ∈ l -> P x = false -> Q x = true -> (forall y, y <> x -> Q y = P y) ->
  List.filter Q l ≡ₚ x :: List.filter P l.
Proof.
  induction l as [|y l IH]; intros Hnd Hin HP HQ Hoth; [by apply elem_of_nil in Hin|].
  apply NoDup_cons in Hnd as [Hy Hnd]. cbn. apply elem_of_cons in Hin as [<-|Hin].
  - rewrite HP, HQ. f_equiv. rewrite (filter_ext_elem Q P); [done|].
    intros z Hz. apply Hoth. by intros ->.
  - rewrite (Hoth y) by (by intros ->). destruct (P y); rewrite (IH Hnd Hin HP HQ Hoth);
      [constructor|done].
Qed.

Definition flip i b : Z := Z.lxor b (Z.shiftl 1 i).

Lemma testbit_one i j : 0 <= i -> 0 <= j -> Z.testbit (Z.shiftl 1 i) j = bool_decide (j = i).
Proof.
  intros Hi Hj. rewrite Z.shiftl_1_l. destruct (decide (j = i)) as [->|Hne].
  - rewrite bool_decide_eq_true_2 by done. by apply Z.pow2_bits_true.
  - rewrite bool_decide_eq_false_2 by done. by apply Z.pow2_bits_false; auto.
Qed.

Lemma testbit_flip i j b :
  0 <= i -> 0 <= j -> Z.testbit (flip i b) j = xorb (Z.testbit b j) (bool_decide (j = i)).
Proof. intros. unfold flip. by rewrite Z.lxor_spec, testbit_one. Qed.

Lemma flip_range i b : 0 <= i < 32 -> 0 <= b < 2 ^ 32 -> 0 <= flip i b < 2 ^ 32.
Proof.
  intros Hi Hb. unfold flip. assert (0 <= Z.shiftl 1 i) by (rewrite Z.shiftl_1_l; lia).
  split; [apply Z.lxor_nonneg; lia|].
  destruct (decide (Z.lxor b (Z.shiftl 1 i) = 0)) as [->|Hnz]; [lia|].
  assert (0 <= Z.lxor b (Z.shiftl 1 i)) by (apply Z.lxor_nonneg; lia).
  apply Z.log2_lt_pow2; [lia|].
  apply Z.le_lt_trans with (Z.max (Z.log2 b) (Z.log2 (Z.shiftl 1 i))).
  { apply Z.log2_lxor; lia. }
  apply Z.max_lub_lt.
  - destruct (decide (b = 0)) as [->|]; [cbn; lia|]. apply Z.log2_lt_pow2; lia.
  - rewrite Z.shiftl_1_l, Z.log2_pow2; lia.
Qed.

Lemma ffz_from_spec n i mask :
  0 <= i -> let k := ffz_from n i mask in
  i <= k <= i + Z.of_nat n /\ (forall j, i <= j < k -> Z.testbit mask j = true) /\
  (k < i + Z.of_nat n -> Z.testbit mask k = false).
Proof.
  revert i. induction n as [|n IH]; intros i Hi; [cbn; repeat split; intros; lia|].
  cbn [ffz_from]. destruct (Z.testbit mask i) eqn:E.
  - destruct (IH (i + 1) ltac:(lia)) as (H1 & H2 & H3). cbv zeta in *. repeat split; [lia|lia| |].
    + intros j Hj. destruct (decide (j = i)) as [->|]; [done|]. apply H2. lia.
    + intros Hk. apply H3. lia.
  - cbv zeta. repeat split; intros; [lia|lia|lia|done].
Qed.

Lemma all_ones b : 0 <= b < 2 ^ 32 -> (forall j, 0 <= j < 32 -> Z.testbit b j = true) -> b = 2 ^ 32 - 1.
Proof.
  intros Hb H. replace (2 ^ 32 - 1) with (Z.ones 32) by done.
  apply Z.bits_inj'. intros j Hj. destruct (Z_lt_ge_dec j 32).
  - rewrite H by lia. by rewrite Z.ones_spec_low.
  - rewrite Z.ones_spec_high by lia. rewrite <- (Z.mod_small b (2 ^ 32)) by done.
    by rewrite Z.mod_pow2_bits_high by lia.
Qed.

(** The search finds a free bit of the bitmap unless it is full. *)
Lemma qdf_ffz_spec b :
  0 <= b < 2 ^ 32 ->
  qdf_ffz b = -1 \/ 0 <= qdf_ffz b < 32 /\ Z.testbit b (qdf_ffz b) = false.
Proof.
  intros Hb. unfold qdf_ffz. destruct (b =? 2 ^ 32 - 1) eqn:E; [by left|right].
  apply Z.eqb_neq in E. destruct (ffz_from_spec 64 0 b ltac:(lia)) as (H1 & H2 & H3).
  cbv zeta in *. assert (ffz_from 64 0 b < 32) as Hlt.
  { destruct (Z_lt_ge_dec (ffz_from 64 0 b) 32); [done|]. exfalso. apply E.
    apply all_ones; [done|]. intros j Hj. apply H2. lia. }
  split; [lia|]. apply H3. lia.
Qed.

(** Flipping a bit adds an item or takes it away. *)
Lemma used_items_flip size seg i :
  0 <= i < 32 -> Z.testbit (used_bitmap seg) i = false ->
  used_items size (set_used (flip i (used_bitmap seg)) seg) ≡ₚ
    (bytes seg + i * size) :: used_items size seg.
Proof.
  intros Hi Hb. unfold used_items.
  apply (fmap_Permutation (fun j => bytes seg + j * size) _
           (i :: List.filter (Z.testbit (used_bitmap seg)) (seqZ 0 QDF_FM_BITMAP_BITS))).
  cbn [used_bitmap set_used]. apply filter_flip.
  - apply NoDup_seqZ.
  - apply elem_of_seqZ. unfold QDF_FM_BITMAP_BITS. lia.
  - done.
  - rewrite testbit_flip by lia. by rewrite Hb, bool_decide_eq_true_2.
  - intros j Hj. destruct (Z_lt_ge_dec j 0); [by rewrite !Z.testbit_neg_r|].
    rewrite testbit_flip by lia. rewrite bool_decide_eq_false_2 by done. by rewrite xorb_false_r.
Qed.

Lemma flip_flip i b : flip i (flip i b) = b.
Proof. unfold flip. by rewrite Z.lxor_assoc, Z.lxor_nilpotent, Z.lxor_0_r. Qed.

Lemma used_items_unflip size seg i :
  0 <= i < 32 -> Z.testbit (used_bitmap seg) i = true ->
  used_items size seg ≡ₚ
    (bytes seg + i * size) :: used_items size (set_used (flip i (used_bitmap seg)) seg).
Proof.
  intros Hi Hb.
  pose proof (used_items_flip size (set_used (flip i (used_bitmap seg)) seg) i Hi) as H.
  cbn [used_bitmap set_used bytes] in H. rewrite testbit_flip, Hb, bool_decide_eq_true_2 in H by lia.
  rewrite flip_flip in H. specialize (H eq_refl). destruct seg; exact H.
Qed.

Lemma elem_of_used_items size seg a :
  a ∈ used_items size seg <->
  exists i, a = bytes seg + i * size /\ 0 <= i < 32 /\ Z.testbit (used_bitmap seg) i = true.
Proof.
  unfold used_items. rewrite list_elem_of_fmap. split; intros (i & H).
  - destruct H as [-> H]. apply elem_of_filter_b in H as [Hb Hi%elem_of_seqZ].
    exists i. by unfold QDF_FM_BITMAP_BITS in Hi.
  - exists i. destruct H as (-> & Hi & Hb). split; [done|]. apply elem_of_filter_b.
    split; [done|]. apply elem_of_seqZ. unfold QDF_FM_BITMAP_BITS. lia.
Qed.

Lemma used_items_empty size seg : used_bitmap seg = 0 -> used_items size seg = [].
Proof.
  intros H. unfold used_items. rewrite H.
  rewrite (filter_ext_elem _ (fun _ => false)); [|intros x _; apply Z.testbit_0_l].
  by induction (seqZ 0 QDF_FM_BITMAP_BITS).
Qed.

Lemma used_items_NoDup size seg : 0 < size -> NoDup (used_items size seg).
Proof.
  intros Hsize. unfold used_items. apply (NoDup_fmap_2_strong _); [|apply NoDup_filter_b, NoDup_seqZ].
  intros i j _ _ H. nia.
Qed.

(** From here on only through these lemmas: unfolding them computes on bits. *)
#[local] Opaque qdf_ffz flip used_items.

(** ** Segments *)

Section Segments.
Context (size : Z) (Hsize : 0 < size).
Implicit Types (seg : qdf_flex_mem_segment) (segs : list qdf_flex_mem_segment).

Definition live_segs segs : list Z := concat (used_items size <$> segs).
Definition seg_blocks segs : list (Z * Z) := seg_block size <$> segs.
Definition bitmaps_ok segs : Prop := Forall (fun seg => 0 <= used_bitmap seg < 2 ^ 32) segs.

Lemma live_segs_cons seg segs : live_segs (seg :: segs) = used_items size seg ++ live_segs segs.
Proof. reflexivity. Qed.

Lemma live_segs_app segs segs' : live_segs (segs ++ segs') = live_segs segs ++ live_segs segs'.
Proof. unfold live_segs. by rewrite fmap_app, concat_app. Qed.

Lemma empty_segs_cons seg segs :
  empty_segs (seg :: segs) =
  if dynamic seg && (used_bitmap seg =? 0) then seg :: empty_segs segs else empty_segs segs.
Proof. reflexivity. Qed.

Lemma used_items_in_seg seg a :
  a ∈ used_items size seg -> bytes seg <= a /\ a + size <= bytes seg + size * 32.
Proof. intros (i & -> & Hi & _)%elem_of_used_items. nia. Qed.

Lemma elem_of_live_segs segs a :
  a ∈ live_segs segs <-> exists seg, seg ∈ segs /\ a ∈ used_items size seg.
Proof.
  unfold live_segs. rewrite list_elem_of_In, in_concat. split.
  - intros (l & Hl & Ha). apply list_elem_of_In, list_elem_of_fmap in Hl as (seg & -> & Hs).
    exists seg. split; [done|by apply list_elem_of_In].
  - intros (seg & Hs & Ha). exists (used_items size seg). rewrite <- !list_elem_of_In.
    split; [by apply list_elem_of_fmap_2|done].
Qed.

(** An item of one segment is outside the memory of the others. *)
Lemma apart_items seg seg' a :
  apart (seg_block size seg) (seg_block size seg') ->
  a ∈ used_items size seg' ->
  a + size <= bytes seg \/ bytes seg + size * 32 <= a.
Proof.
  intros H Ha%used_items_in_seg.
  unfold apart, seg_block, sizeof_segment, QDF_FM_BITMAP_BITS in H.
  destruct (dynamic seg), (dynamic seg'); cbn in H; lia.
Qed.

(** Behind the structure of its own segment it is not even at the end of another. *)
Lemma apart_items_strict seg seg' a :
  apart (seg_block size seg) (seg_block size seg') -> dynamic seg' = true ->
  a ∈ used_items size seg' ->
  a < bytes seg \/ bytes seg + size * 32 < a.
Proof.
  intros H Hd Ha%used_items_in_seg.
  unfold apart, seg_block, sizeof_segment, QDF_FM_BITMAP_BITS in H.
  rewrite Hd in H. destruct (dynamic seg); cbn in H; lia.
Qed.

Lemma apart_from_elem b segs seg :
  apart_from b (seg_blocks segs) -> seg ∈ segs -> apart b (seg_block size seg).
Proof.
  unfold apart_from. rewrite Forall_forall. intros H Hs. apply H. by apply list_elem_of_fmap_2.
Qed.

Lemma live_segs_NoDup segs : pairwise_apart (seg_blocks segs) -> NoDup (live_segs segs).
Proof.
  induction segs as [|seg segs IH]; [constructor|]. intros [Hap Hpw]. rewrite live_segs_cons.
  apply NoDup_app. split; [by apply used_items_NoDup|]. split; [|by apply IH].
  intros a Ha (seg' & Hs & Ha')%elem_of_live_segs.
  pose proof (apart_items _ _ _ (apart_from_elem _ _ _ Hap Hs) Ha').
  apply used_items_in_seg in Ha. lia.
Qed.

(** Any two different items in use are disjoint pieces of memory. *)
Lemma live_segs_apart segs a b :
  pairwise_apart (seg_blocks segs) -> a ∈ live_segs segs -> b ∈ live_segs segs -> a <> b ->
  apart (a, size) (b, size).
Proof.
  intros Hpw Ha Hb Hne. unfold apart. cbn.
  enough (forall segs, pairwise_apart (seg_blocks segs) -> forall a b, a ∈ live_segs segs ->
            b ∈ live_segs segs -> a < b -> a + size <= b) as H.
  { destruct (Z_lt_ge_dec a b); [left; by apply (H segs)|right]. apply (H segs); [done..|].
    assert (a <> b) by done. lia. }
  clear - Hsize. intros segs. induction segs as [|seg segs IH]; intros Hpw a b Ha Hb Hlt;
    [by apply elem_of_nil in Ha|].
  destruct Hpw as [Hap Hpw]. rewrite live_segs_cons in Ha, Hb.
  apply elem_of_app in Ha as [Ha|Ha], Hb as [Hb|Hb].
  - apply elem_of_used_items in Ha as (i & -> & _), Hb as (j & -> & _). assert (i < j) by nia. nia.
  - apply elem_of_live_segs in Hb as (seg' & Hs & Hb).
    pose proof (apart_items _ _ _ (apart_from_elem _ _ _ Hap Hs) Hb).
    apply used_items_in_seg in Ha. lia.
  - apply elem_of_live_segs in Ha as (seg' & Hs & Ha).
    pose proof (apart_items _ _ _ (apart_from_elem _ _ _ Hap Hs) Ha).
    apply used_items_in_seg in Hb. lia.
  - by apply IH.
Qed.

(** *** Allocation *)

Lemma alloc_from_spec segs ptr segs' :
  bitmaps_ok segs -> alloc_from size segs = Some (ptr, segs') ->
  live_segs segs' ≡ₚ ptr :: live_segs segs /\ bitmaps_ok segs' /\
  seg_blocks segs' = seg_blocks segs /\ (dynamic <$> segs') = (dynamic <$> segs) /\
  (length (empty_segs segs') <=
   length (empty_segs segs))%nat.
Proof.
  revert segs'. induction segs as [|seg segs IH]; intros segs' Hb; [done|].
  apply Forall_cons in Hb as [Hb0 Hb]. cbn [alloc_from].
  destruct (qdf_ffz_spec _ Hb0) as [Hf|[Hr Hf]].
  - rewrite Hf. cbn [Z.ltb Z.compare]. destruct (alloc_from size segs) as [[q r]|] eqn:E; [|done].
    intros [= <- <-]. destruct (IH r Hb eq_refl) as (H1 & H2 & H3 & H4 & H5).
    repeat split.
    + rewrite !live_segs_cons, H1. by rewrite Permutation_middle.
    + by apply Forall_cons.
    + unfold seg_blocks in *. cbn. by rewrite H3.
    + cbn. by rewrite H4.
    + rewrite !empty_segs_cons. destruct (dynamic seg && _); cbn; lia.
  - assert ((qdf_ffz (used_bitmap seg) <? 0) = false) as -> by lia. intros [= <- <-].
    change (Z.lxor ?b (Z.shiftl 1 ?i)) with (flip i b). repeat split.
    + rewrite !live_segs_cons. by rewrite (used_items_flip size seg _ Hr Hf).
    + apply Forall_cons. split; [|done]. cbn. apply flip_range; lia.
    + rewrite !empty_segs_cons. cbn [dynamic used_bitmap set_used]. assert ((flip (qdf_ffz (used_bitmap seg)) (used_bitmap seg) =? 0) = false) as ->.
      { apply Z.eqb_neq. intros H0.
        pose proof (testbit_flip (qdf_ffz (used_bitmap seg)) (qdf_ffz (used_bitmap seg)) (used_bitmap seg)
                      ltac:(lia) ltac:(lia)) as Ht.
        rewrite H0, Z.testbit_0_l, Hf, bool_decide_eq_true_2 in Ht by reflexivity. discriminate Ht. }
      rewrite andb_false_r. destruct (dynamic seg && _); cbn; lia.
Qed.

(** *** Freeing *)

Lemma free_here seg segs ptr :
  bytes seg <= ptr <= bytes seg + size * 32 ->
  pairwise_apart (seg_blocks (seg :: segs)) -> Forall (fun s => dynamic s = true) segs ->
  ptr ∈ live_segs (seg :: segs) -> ptr ∈ used_items size seg.
Proof.
  intros Hr [Hap Hpw] Hd. cbn. intros [|(seg' & Hs & Ha)%elem_of_live_segs]%elem_of_app; [done|].
  pose proof (apart_items_strict _ _ _ (apart_from_elem _ _ _ Hap Hs)
                (proj1 (Forall_forall _ _) Hd _ Hs) Ha). lia.
Qed.

Lemma free_from_spec count limit segs ptr :
  bitmaps_ok segs -> pairwise_apart (seg_blocks segs) ->
  Forall (fun seg => dynamic seg = true) (tail segs) -> ptr ∈ live_segs segs ->
  exists segs', free_from count limit size ptr segs = Some segs' /\
    live_segs segs ≡ₚ ptr :: live_segs segs' /\ bitmaps_ok segs' /\
    pairwise_apart (seg_blocks segs') /\
    (forall b, apart_from b (seg_blocks segs) -> apart_from b (seg_blocks segs')) /\
    (Forall (fun seg => dynamic seg = true) segs ->
     Forall (fun seg => dynamic seg = true) segs') /\
    Forall (fun seg => dynamic seg = true) (tail segs').
Proof.
  induction segs as [|seg segs IH]; intros Hb Hpw Hd Hin; [by apply elem_of_nil in Hin|].
  apply Forall_cons in Hb as [Hb0 Hb]. cbn [tail] in Hd. cbn [free_from].
  unfold QDF_FM_BITMAP_BITS in *.
  destruct ((ptr <? bytes seg) || (bytes seg + size * 32 <? ptr)) eqn:Hout.
  - (* in another segment *)
    assert (ptr ∈ live_segs segs) as Hin'.
    { rewrite live_segs_cons in Hin. apply elem_of_app in Hin as [H%used_items_in_seg|]; [|done]. lia. }
    destruct Hpw as [Hap Hpw].
    destruct (IH Hb Hpw ltac:(by destruct segs; inversion Hd) Hin')
      as (segs' & -> & H1 & H2 & H3 & H4 & H5 & H6).
    exists (seg :: segs'). split; [done|]. split.
    { rewrite !live_segs_cons, H1. by rewrite Permutation_middle. }
    split; [by apply Forall_cons|]. split; [split; [by apply H4|done]|]. split.
    { intros b [Hb1 Hb2]%Forall_cons. apply Forall_cons. split; [done|]. by apply H4. }
    split; [|by apply H5]. intros [Hd0 _]%Forall_cons. apply Forall_cons. split; [done|by apply H5].
  - (* in this one *)
    assert (bytes seg <= ptr <= bytes seg + size * 32) as Hr by lia.
    destruct (proj1 (elem_of_used_items _ _ _) (free_here _ _ _ Hr Hpw Hd Hin))
      as (i & -> & Hi & Hbit).
    replace (bytes seg + i * size - bytes seg) with (i * size) by lia.
    rewrite Z.div_mul by lia. assert ((i <? 32) = true) as -> by lia.
    change (Z.lxor ?b (Z.shiftl 1 i)) with (flip i b).
    pose proof (used_items_unflip size seg i Hi Hbit) as Hu.
    set (used := flip i (used_bitmap seg)) in *.
    assert (0 <= used < 2 ^ 32) as Hrange by (apply flip_range; lia).
    destruct Hpw as [Hap Hpw].
    assert (forall l, (l = [set_used used seg] \/ l = [] /\ used = 0) ->
      live_segs (seg :: segs) ≡ₚ bytes seg + i * size :: live_segs (l ++ segs) /\
      bitmaps_ok (l ++ segs) /\ pairwise_apart (seg_blocks (l ++ segs)) /\
      (forall b, apart_from b (seg_blocks (seg :: segs)) -> apart_from b (seg_blocks (l ++ segs))) /\
      (Forall (fun s => dynamic s = true) (seg :: segs) ->
       Forall (fun s => dynamic s = true) (l ++ segs)) /\
      Forall (fun s => dynamic s = true) (tail (l ++ segs))) as Hl.
    { intros l [->|[-> H0]]; cbn [app tail]; rewrite !live_segs_cons.
      - rewrite Hu. split_and!; auto;
          first [by apply Forall_cons | by split | by intros [? ?]%Forall_cons; apply Forall_cons].
      - rewrite Hu, used_items_empty by done. split_and!; auto.
        + by intros b [_ ?]%Forall_cons.
        + by destruct segs; inversion Hd. }
    eexists. split; [reflexivity|]. apply Hl.
    destruct (used =? 0) eqn:E0; [|by left]. apply Z.eqb_eq in E0.
    unfold qdf_flex_mem_seg_free. destruct (negb (dynamic _)); [by left|].
    destruct (count <=? limit); [by left|by right].
Qed.

(** A segment that empties is kept only while there are few. *)
Lemma free_from_reserve count limit segs ptr segs' :
  free_from count limit size ptr segs = Some segs' ->
  (length segs' <= length segs)%nat /\
  ((length (empty_segs segs') <= length (empty_segs segs))%nat \/ count <= limit).
Proof.
  revert segs'. induction segs as [|seg segs IH]; intros segs'; [done|]. cbn [free_from].
  destruct (_ || _).
  - destruct (free_from _ _ _ _ segs) as [r|]; [|done]. intros [= <-].
    destruct (IH r eq_refl) as [H1 H2]. split; [cbn; lia|]. destruct H2 as [H2|]; [left|by right].
    rewrite !empty_segs_cons. destruct (_ && _); cbn [app length]; lia.
  - destruct (_ <? _); [|done]. intros [= <-]. cbv zeta.
    set (used := Z.lxor _ _). destruct (used =? 0) eqn:E.
    + unfold qdf_flex_mem_seg_free. destruct (dynamic (set_used used seg)) eqn:Ed; cbn [negb].
      * destruct (count <=? limit) eqn:Ec; [split; [cbn; lia|right; lia]|].
        split; [cbn; lia|left]. cbn [app]. rewrite !empty_segs_cons. destruct (_ && _); cbn [app length]; lia.
      * split; [cbn; lia|left]. cbn [app]. rewrite !empty_segs_cons, Ed. change (dynamic seg) with (dynamic (set_used used seg)).
        rewrite Ed. cbn [andb length]. lia.
    + split; [cbn; lia|left]. cbn [app]. rewrite !empty_segs_cons. cbn [used_bitmap set_used].
      rewrite E, andb_false_r. destruct (_ && _); cbn [app length]; lia.
Qed.

Lemma length_empty_segs segs : (length (empty_segs segs) <= length segs)%nat.
Proof. apply List.filter_length_le. Qed.

End Segments.

(** ** Pools *)

Lemma apart_sym b c : apart b c -> apart c b.
Proof. unfold apart. tauto. Qed.

Lemma pairwise_apart_snoc l b :
  pairwise_apart l -> apart_from b l -> pairwise_apart (l ++ [b]).
Proof.
  induction l as [|c l IH]; intros Hl Hb; [done|].
  destruct Hl as [Hc Hl]. apply Forall_cons in Hb as [Hbc Hb]. split; [|by apply IH].
  unfold apart_from. apply Forall_app. split; [done|]. apply Forall_singleton. by apply apart_sym.
Qed.

Section Pools.
Context {T : talloc_env} {L : talloc_laws T}.
Implicit Types p : qdf_flex_mem_pool.

(** What does not change. *)
Definition same_pool p p' : Prop :=
  item_size p' = item_size p /\ reduction_limit p' = reduction_limit p.

Lemma seg_alloc_ok p :
  pool_inv p ->
  exists r p', qdf_flex_mem_seg_alloc p = Ret r p' /\ same_pool p p' /\
  match r with
  | None => seg_list p' = seg_list p
  | Some seg =>
      seg_list p' = seg_list p ++ [seg] /\ used_bitmap seg = 0 /\ dynamic seg = true /\
      apart_from (seg_block (item_size p) seg) (blocks p)
  end.
Proof.
  intros Hinv. unfold qdf_flex_mem_seg_alloc, qdf_talloc.
  rewrite bind_gets, bind_assoc, bind_gets, bind_assoc, bind_modify.
  unfold mret at 1, M_ret at 1, mbind, M_bind. cbn.
  destruct (talloc _ _ _) as [a|] eqn:E.
  - apply talloc_fresh in E as [_ Hap]. eexists _, _. split; [reflexivity|]. split; [done|].
    split_and!; [done..|]. unfold seg_block. cbn. by replace (a + sizeof_segment - sizeof_segment) with a by lia.
  - eexists _, _. split; [reflexivity|]. by split.
Qed.

Lemma pool_inv_snoc p p' seg b :
  pool_inv p -> same_pool p p' -> seg_list p' = seg_list p ++ [set_used b seg] ->
  dynamic seg = true -> 0 <= b < 2 ^ 32 ->
  apart_from (seg_block (item_size p) seg) (blocks p) -> pool_inv p'.
Proof.
  intros [H1 H2 H3 H4 H5] [Hs Hl] Hsegs Hd Hb Hap.
  constructor; unfold blocks in *; rewrite ?Hs, ?Hl, ?Hsegs; [done..| | |].
  - by apply Forall_app, conj; [|apply Forall_singleton].
  - destruct (seg_list p) as [|s0 l]; cbn; [done|]. by apply Forall_app, conj; [|apply Forall_singleton].
  - rewrite fmap_app. by apply pairwise_apart_snoc.
Qed.

Lemma set_used_same seg : set_used (used_bitmap seg) seg = seg.
Proof. by destruct seg. Qed.

Lemma seg_alloc_loop_ok n p :
  pool_inv p ->
  exists p', seg_alloc_loop n p = Ret tt p' /\ pool_inv p' /\ same_pool p p' /\
    live p' ≡ₚ live p /\
    (length (empty_segs (seg_list p')) <= length (empty_segs (seg_list p)) + n)%nat.
Proof.
  revert p. induction n as [|n IH]; intros p Hinv.
  { exists p. split; [done|]. split_and!; [done..|lia]. }
  cbn [seg_alloc_loop]. destruct (seg_alloc_ok p Hinv) as (r & p1 & Hr & Hs & Hcase).
  rewrite (bind_ret _ _ _ _ _ Hr).
  assert (pool_inv p1 /\ live p1 ≡ₚ live p /\
          (length (empty_segs (seg_list p1)) <= S (length (empty_segs (seg_list p))))%nat)
    as (Hinv1 & Hlive & Hres).
  { destruct r as [seg|].
    - destruct Hcase as (Hsegs & Hu & Hd & Hap). split_and!.
      + apply (pool_inv_snoc p p1 seg 0); [done..| |done|lia|done].
        rewrite <- Hu at 1. by rewrite set_used_same.
      + unfold live. destruct Hs as [-> _]. rewrite Hsegs.
        change (concat (used_items ?s <$> ?l)) with (live_segs s l).
        rewrite live_segs_app. unfold live_segs at 2. cbn.
        by rewrite used_items_empty, app_nil_r.
      + rewrite Hsegs. unfold empty_segs. rewrite List.filter_app, length_app. cbn.
        destruct (_ && _); cbn; lia.
    - split_and!; [| |rewrite Hcase; lia].
      + destruct Hinv, Hs as [Hsz Hl]. constructor; unfold blocks in *; by rewrite ?Hsz, ?Hl, ?Hcase.
      + unfold live. destruct Hs as [-> _]. by rewrite Hcase. }
  destruct (IH p1 Hinv1) as (p' & H1 & H2 & H3 & H4 & H5).
  exists p'. split; [done|]. destruct Hs, H3. split_and!; [done|split; congruence| |lia].
  by rewrite H4.
Qed.

Lemma init_ok p :
  pool_inv p ->
  exists p', qdf_flex_mem_init p = Ret tt p' /\ pool_inv p' /\ same_pool p p' /\
    live p' ≡ₚ live p /\
    Z.of_nat (length (empty_segs (seg_list p'))) <=
      Z.of_nat (length (empty_segs (seg_list p))) + reduction_limit p.
Proof.
  intros Hinv. unfold qdf_flex_mem_init. rewrite bind_gets.
  destruct (seg_alloc_loop_ok (Z.to_nat (reduction_limit p)) p Hinv) as (p' & H1 & H2 & H3 & H4 & H5).
  pose proof (inv_limit p Hinv).
  exists p'. split_and!; [done..|lia].
Qed.

Lemma tail_dynamic_ext l l' :
  dynamic <$> l = dynamic <$> l' ->
  Forall (fun seg => dynamic seg = true) (tail l') ->
  Forall (fun seg => dynamic seg = true) (tail l).
Proof.
  intros H Hl. apply (Forall_fmap dynamic (fun d => d = true)).
  apply (Forall_fmap dynamic (fun d => d = true)) in Hl.
  replace (dynamic <$> tail l) with (tail (dynamic <$> l)) by (by destruct l).
  rewrite H. by destruct l'.
Qed.

Lemma alloc_ok p :
  pool_inv p ->
  exists r p', qdf_flex_mem_alloc p = Ret r p' /\ pool_inv p' /\ same_pool p p' /\
    live p' ≡ₚ option_list r ++ live p /\
    (length (empty_segs (seg_list p')) <= length (empty_segs (seg_list p)))%nat.
Proof.
  intros Hinv. unfold qdf_flex_mem_alloc. rewrite bind_gets.
  destruct (alloc_from _ _) as [[ptr segs]|] eqn:E.
  - destruct Hinv as [H1 H2 H3 H4 H5].
    destruct (alloc_from_spec _ _ _ _ H3 E) as (A1 & A2 & A3 & A4 & A5).
    eexists _, _. split; [reflexivity|]. split_and!; [|done| |done].
    + constructor; cbn; [done..| |].
      * by apply (tail_dynamic_ext _ (seg_list p)).
      * unfold blocks. cbn. by unfold seg_blocks in A3; rewrite A3.
    + exact A1.
  - destruct (seg_alloc_ok p Hinv) as (r & p1 & Hr & Hs & Hcase). rewrite (bind_ret _ _ _ _ _ Hr).
    destruct r as [seg|]; [|eexists _, _; split; [reflexivity|]].
    + destruct Hcase as (Hsegs & Hu & Hd & Hap). rewrite bind_modify.
      eexists _, _. split; [reflexivity|].
      assert (mark_last (seg_list p1) = seg_list p ++ [set_used 1 seg]) as Hm.
      { unfold mark_last. by rewrite Hsegs, last_snoc, removelast_last. }
      destruct Hs as [Hsz Hl]. split_and!.
      * by apply (pool_inv_snoc p _ seg 1); [done|split|cbn|..].
      * by split.
      * unfold live. cbn. rewrite Hm, Hsz.
        change (concat (used_items ?s <$> ?l)) with (live_segs s l).
        rewrite live_segs_app. unfold live_segs at 2. cbn. rewrite app_nil_r.
        pose proof (used_items_flip (item_size p) seg 0 ltac:(lia)) as Hf.
        rewrite Hu in Hf. specialize (Hf (Z.testbit_0_l _)).
        change (flip 0 0) with 1 in Hf. rewrite Hf, used_items_empty by done.
        replace (bytes seg + 0 * item_size p) with (bytes seg) by lia.
        by rewrite Permutation_app_comm.
      * cbn. rewrite Hm. unfold empty_segs. rewrite List.filter_app, length_app. cbn.
        rewrite andb_false_r. cbn. lia.
    + destruct Hinv, Hs as [Hsz Hl]. split_and!; [|done| |by rewrite Hcase].
      * constructor; unfold blocks in *; by rewrite ?Hsz, ?Hl, ?Hcase.
      * unfold live. by rewrite Hsz, Hcase.
Qed.

Lemma free_ok p ptr :
  pool_inv p -> ptr ∈ live p ->
  exists p', qdf_flex_mem_free ptr p = Ret tt p' /\ pool_inv p' /\ same_pool p p' /\
    live p ≡ₚ ptr :: live p' /\
    (Z.of_nat (length (empty_segs (seg_list p))) <= reduction_limit p ->
     Z.of_nat (length (empty_segs (seg_list p'))) <= reduction_limit p').
Proof.
  intros [H1 H2 H3 H4 H5] Hin.
  destruct (free_from_spec (item_size p) H1 (Z.of_nat (length (seg_list p))) (reduction_limit p)
              (seg_list p) ptr H3 H5 H4 Hin) as (segs' & Hf & F1 & F2 & F3 & _ & _ & F4).
  exists (set_segs segs' p). split.
  { unfold qdf_flex_mem_free. rewrite bind_gets, Hf. done. }
  split_and!; [by constructor|done|exact F1|]. intros Hres. cbn [seg_list reduction_limit set_segs].
  destruct (free_from_reserve _ _ _ _ _ _ Hf) as [Hlen [?|?]]; [lia|].
  pose proof (length_empty_segs segs'). lia.
Qed.

Lemma live_deinit p :
  concat (used_items (item_size p) <$> List.filter (fun seg => negb (used_bitmap seg =? 0)) (seg_list p))
  = live p.
Proof.
  unfold live. induction (seg_list p) as [|seg l IH]; [done|]. cbn.
  destruct (used_bitmap seg =? 0) eqn:E; cbn; rewrite <- IH; [|done].
  by rewrite used_items_empty by lia.
Qed.

Lemma pairwise_apart_filter {A} (f : A -> Z * Z) (P : A -> bool) (l : list A) :
  pairwise_apart (f <$> l) -> pairwise_apart (f <$> List.filter P l).
Proof.
  induction l as [|x l IH]; [done|]. intros [Hx Hl]. cbn. destruct (P x); [|by apply IH].
  split; [|by apply IH]. unfold apart_from in *. rewrite Forall_forall in *.
  intros b (y & -> & [_ Hy]%elem_of_filter_b)%list_elem_of_fmap. apply Hx. by apply list_elem_of_fmap_2.
Qed.

Lemma tail_filter_dynamic (P : qdf_flex_mem_segment -> bool) l :
  Forall (fun seg => dynamic seg = true) (tail l) ->
  Forall (fun seg => dynamic seg = true) (tail (List.filter P l)).
Proof.
  rewrite !Forall_forall. destruct l as [|s l]; [done|]. cbn. intros H x Hx. apply H.
  destruct (P s); cbn in Hx.
  - by apply elem_of_filter_b in Hx as [_ ?].
  - destruct (List.filter P l) as [|y k] eqn:E; [by apply elem_of_nil in Hx|].
    eapply elem_of_filter_b. rewrite E. by apply list_elem_of_further.
Qed.

Lemma deinit_ok p :
  pool_inv p ->
  exists p', qdf_flex_mem_deinit p = Ret tt p' /\ pool_inv p' /\ same_pool p p' /\
    live p' = live p /\ empty_segs (seg_list p') = [].
Proof.
  intros [H1 H2 H3 H4 H5]. eexists. split; [reflexivity|]. split_and!; [|done|exact (live_deinit p)|].
  - constructor; cbn; [done..| | |].
    + rewrite Forall_forall in *. intros s [_ Hs]%elem_of_filter_b. by apply H3.
    + by apply tail_filter_dynamic.
    + by apply pairwise_apart_filter.
  - cbn. unfold empty_segs. clear. induction (seg_list p) as [|s l IH]; [done|]. cbn.
    destruct (used_bitmap s =? 0) eqn:E; cbn; [|rewrite E, andb_false_r]; by apply IH.
Qed.

(** The pools implement the interface. *)
#[export] Instance flex_mem_pool : item_pool qdf_flex_mem_pool := {|
  pool_ok := pool_inv;
  pool_live := live;
  pool_init := qdf_flex_mem_init;
  pool_deinit := qdf_flex_mem_deinit;
  pool_alloc := qdf_flex_mem_alloc;
  pool_free := qdf_flex_mem_free;
|}.

#[export] Instance flex_mem_pool_laws : item_pool_laws qdf_flex_mem_pool.
Proof.
  constructor; cbn.
  - intros p [H1 H2 H3 H4 H5]. by apply live_segs_NoDup.
  - intros p H. destruct (init_ok p H) as (p' & ? & ? & ? & ? & _). by exists p'.
  - intros p H. destruct (deinit_ok p H) as (p' & ? & ? & ? & Hl & _). exists p'. by rewrite Hl.
  - intros p H. destruct (alloc_ok p H) as (r & p' & ? & ? & ? & ? & _). by exists r, p'.
  - intros p a H Ha. destruct (free_ok p a H Ha) as (p' & ? & ? & ? & ? & _). by exists p'.
Qed.

End Pools.

(** ** Histories of a pool *)

Section Histories.
Context {T : talloc_env} {L : talloc_laws T}.
Implicit Types (p : qdf_flex_mem_pool) (held : list Z).

(** The pools that a client with the items [held] can have: set up once, then items
    taken and given back in any order. *)
Inductive pool_reachable (head size limit : Z) : list Z -> qdf_flex_mem_pool -> Prop :=
  | reach_init p :
      qdf_flex_mem_init (DEFINE_QDF_FLEX_MEM_POOL head size limit) = Ret tt p ->
      pool_reachable head size limit [] p
  | reach_alloc held p r p' :
      pool_reachable head size limit held p -> qdf_flex_mem_alloc p = Ret r p' ->
      pool_reachable head size limit (option_list r ++ held) p'
  | reach_free held p a held' p' :
      pool_reachable head size limit held p -> held ≡ₚ a :: held' ->
      qdf_flex_mem_free a p = Ret tt p' ->
      pool_reachable head size limit held' p'.

Lemma DEFINE_inv head size limit :
  0 < size -> 0 <= limit -> pool_inv (DEFINE_QDF_FLEX_MEM_POOL head size limit).
Proof.
  intros. constructor; cbn; [done..|by repeat constructor|constructor|by repeat constructor].
Qed.

Lemma pool_reachable_inv head size limit held p :
  0 < size -> 0 <= limit -> pool_reachable head size limit held p ->
  pool_inv p /\ item_size p = size /\ reduction_limit p = limit /\ live p ≡ₚ held /\
  Z.of_nat (length (empty_segs (seg_list p))) <= limit.
Proof.
  intros Hsize Hlimit. induction 1 as [p Hp|held p r p' _ IH Hp|held p a held' p' _ IH Hperm Hp].
  - destruct (init_ok _ (DEFINE_inv head size limit Hsize Hlimit)) as (p' & Hp' & Hi & [Hs Hl] & Hlive & Hr).
    rewrite Hp in Hp'. injection Hp' as <-. cbn in Hs, Hl, Hr. split_and!; [done..| |lia].
    rewrite Hlive. unfold live. cbn. by rewrite used_items_empty.
  - destruct IH as (Hi & <- & <- & Hlive & Hr).
    destruct (alloc_ok p Hi) as (r' & q & Hq & Hi' & [Hs Hl] & Hlive' & Hr').
    rewrite Hp in Hq. injection Hq as <- <-. split_and!; [done..| |lia].
    by rewrite Hlive', Hlive.
  - destruct IH as (Hi & <- & <- & Hlive & Hr).
    destruct (free_ok p a Hi) as (q & Hq & Hi' & [Hs Hl] & Hlive' & Hr').
    { rewrite Hlive, Hperm. by apply list_elem_of_here. }
    rewrite Hp in Hq. injection Hq as <-. split_and!; [done..| |rewrite <- Hl; by apply Hr'].
    apply (Permutation_cons_inv (a := a)). by rewrite <- Hlive', Hlive.
Qed.

(** C28: whatever items a client takes from a pool and gives back, the items marked as
    used in the bitmaps are exactly those it holds, none is handed out twice, no two
    overlap in memory, every item it holds can be given back without a failed
    assertion, at most [reduction_limit] empty segments are kept, and an item is only
    refused when the system has no memory for a further segment. *)
Theorem flex_mem_items_exact head size limit held p :
  0 < size -> 0 <= limit -> pool_reachable head size limit held p ->
  live p ≡ₚ held /\ NoDup held /\
  (forall a b, a ∈ held -> b ∈ held -> a <> b -> apart (a, size) (b, size)) /\
  (forall a, a ∈ held -> exists p', qdf_flex_mem_free a p = Ret tt p') /\
  Z.of_nat (length (empty_segs (seg_list p))) <= limit /\
  (exists r p', qdf_flex_mem_alloc p = Ret r p' /\
     (r = None ->
      talloc (tallocs p) (blocks p) (sizeof_segment + size * QDF_FM_BITMAP_BITS) = None)).
Proof.
  intros Hsize Hlimit Hp.
  destruct (pool_reachable_inv _ _ _ _ _ Hsize Hlimit Hp) as (Hi & Hs & Hl & Hlive & Hr).
  pose proof (inv_apart p Hi) as Hap. unfold blocks in Hap. rewrite Hs in Hap.
  assert (live p = live_segs size (seg_list p)) as Hls by (unfold live; by rewrite Hs).
  split_and!; [done| | | |done|].
  - rewrite <- Hlive, Hls. by apply live_segs_NoDup.
  - intros a b. rewrite <- Hlive, Hls. by apply live_segs_apart.
  - intros a Ha. rewrite <- Hlive in Ha. destruct (free_ok p a Hi Ha) as (p' & Hf & _). by exists p'.
  - destruct (alloc_ok p Hi) as (r & p' & Ha & _). exists r, p'. split; [done|]. intros ->.
    unfold qdf_flex_mem_alloc in Ha. rewrite bind_gets in Ha.
    destruct (alloc_from _ _) as [[ptr segs]|]; [done|]. revert Ha.
    unfold qdf_flex_mem_seg_alloc, qdf_talloc, mbind, M_bind, gets, modify, mret, M_ret. cbn.
    rewrite Hs. by destruct (talloc _ _ _).
Qed.

End Histories.

(** An allocator that puts each block behind all others, and has no memory left after
    [n] blocks. *)
Definition bump (n : nat) : talloc_env := {|
  talloc k taken size :=
    if (k <? n)%nat then Some (foldr (fun b top => Z.max (b.1 + b.2) top) 4096 taken) else None
|}.

#[export] Instance bump_laws n : talloc_laws (bump n).
Proof.
  constructor. intros k taken size a. unfold talloc, bump. destruct (k <? n)%nat; [|done]. intros [= <-]. split.
  - induction taken; cbn; lia.
  - apply Forall_forall. intros b Hb. right. cbn.
    induction taken as [|c taken IH]; [by apply elem_of_nil in Hb|]. cbn.
    apply elem_of_cons in Hb as [->|Hb]; [lia|]. specialize (IH Hb). lia.
Qed.

(** Two items taken, the first given back. *)
Definition after {A} (m : M qdf_flex_mem_pool A) (p : qdf_flex_mem_pool) : qdf_flex_mem_pool :=
  match m p with Ret _ p' => p' | _ => p end.

Lemma flex_mem_items_exact_witness :
  exists p, @pool_reachable (bump 40) 1024 80 2 [1104] p /\ live p ≡ₚ [1104].
Proof.
  pose (p0 := after (@qdf_flex_mem_init (bump 40)) (DEFINE_QDF_FLEX_MEM_POOL 1024 80 2)).
  pose (p1 := after (@qdf_flex_mem_alloc (bump 40)) p0).
  pose (p2 := after (@qdf_flex_mem_alloc (bump 40)) p1).
  exists (after (qdf_flex_mem_free 1024) p2).
  assert (@pool_reachable (bump 40) 1024 80 2 [1104] (after (qdf_flex_mem_free 1024) p2)) as H.
  { apply (@reach_free (bump 40) 1024 80 2 [1104; 1024] p2 1024); [|apply Permutation_swap|by vm_compute].
    apply (@reach_alloc (bump 40) 1024 80 2 [1024] p1 (Some 1104)); [|by vm_compute].
    apply (@reach_alloc (bump 40) 1024 80 2 [] p0 (Some 1024)); [|by vm_compute].
    apply reach_init. by vm_compute. }
  split; [exact H|].
  exact (proj1 (@flex_mem_items_exact (bump 40) (bump_laws 40) 1024 80 2 [1104] _
                  ltac:(lia) ltac:(lia) H)).
Defined.
