(* ===== verification/QdfOs.v ===== *)
(** * Events and timers: qdf/linux/src/qdf_event.c, qdf_mc_timer.c

    [Module Event]: the events threads wait on.  [Module McTimer]: the timers whose
    callbacks the scheduler runs, built without the debug list of timers
    (TIMER_MANAGER).  The kernel timer behind one is a flag, armed or not: an armed one
    may go off at any moment.  Theorems: what is counted as running is running, and
    what goes wrong when a timer goes off while it is being stopped. *)
From S2P Require Import Prelude.

Module Event.

(** [qdf_event_t]: a completion (the number of waits it lets through), the cookie of
    an initialized event, and two flags. *)
Record qdf_event_t : Type := Event {
  complete : Z;
  initialized : bool;
  done : bool;
  force_set : bool;
}.
(** Static memory. *)
Definition event_zero : qdf_event_t := Event 0 false false false.

Definition UINT_MAX : Z := 2 ^ 32 - 1.

Definition qdf_event_create (e : qdf_event_t) : QDF_STATUS * qdf_event_t :=
  if initialized e then (QDF_STATUS_E_BUSY, e)
  else (QDF_STATUS_SUCCESS, Event 0 true (done e) (force_set e)).

(** [complete]: one more wait passes. *)
Definition qdf_event_set (e : qdf_event_t) : QDF_STATUS * qdf_event_t :=
  if initialized e then
    (QDF_STATUS_SUCCESS,
     Event (if complete e =? UINT_MAX then UINT_MAX else complete e + 1) true true (force_set e))
  else (QDF_STATUS_E_INVAL, e).

Definition qdf_event_reset (e : qdf_event_t) : QDF_STATUS * qdf_event_t :=
  if initialized e then (QDF_STATUS_SUCCESS, Event 0 true false false)
  else (QDF_STATUS_E_INVAL, e).

Definition qdf_event_destroy (e : qdf_event_t) : QDF_STATUS * qdf_event_t :=
  if initialized e then (QDF_STATUS_SUCCESS, event_zero) else (QDF_STATUS_E_INVAL, e).

(** [qdf_wait_single_event] without a timeout: [None] while it blocks. *)
Definition qdf_wait_single_event (e : qdf_event_t) : option (QDF_STATUS * qdf_event_t) :=
  if initialized e then
    if complete e =? 0 then None
    else Some (QDF_STATUS_SUCCESS,
               Event (if complete e =? UINT_MAX then UINT_MAX else complete e - 1) true
                 (done e) (force_set e))
  else Some (QDF_STATUS_E_INVAL, e).

End Event.

Module McTimer.

(** [QDF_TIMER_STATE], an enumeration from [QDF_TIMER_STATE_COOKIE] on; the memory of
    a timer that was never initialized may hold any number. *)
Definition QDF_TIMER_STATE_UNUSED : Z := 0x12.
Definition QDF_TIMER_STATE_STOPPED : Z := 0x13.
Definition QDF_TIMER_STATE_STARTING : Z := 0x14.
Definition QDF_TIMER_STATE_RUNNING : Z := 0x15.

Inductive QDF_TIMER_TYPE : Type := QDF_TIMER_TYPE_SW | QDF_TIMER_TYPE_WAKE_APPS.
#[export] Instance QDF_TIMER_TYPE_eq_dec : EqDecision QDF_TIMER_TYPE.
Proof. solve_decision. Defined.

Definition LINUX_TIMER_COOKIE : Z := 0x12341234.
Definition LINUX_INVALID_TIMER_COOKIE : Z := 0xfeedface.

(** [qdf_mc_timer_t]; [armed] is whether the kernel timer is pending. *)
Record qdf_mc_timer_t : Type := Timer {
  cookie : Z;
  armed : bool;
  callback : option Z;
  user_data : option Z;
  timer_type : QDF_TIMER_TYPE;
  state : Z;
}.

(** Timers by address, and the count of running timers that keep the system awake. *)
Record mc_timers : Type := Timers {
  timers : gmap Z qdf_mc_timer_t;
  persistent_timer_count : Z;
}.

Abbreviation MT := (M mc_timers).
Implicit Types (t : Z) (r : qdf_mc_timer_t) (s : mc_timers).

Definition set_timers f s : mc_timers := Timers (f (timers s)) (persistent_timer_count s).
Definition set_count f s : mc_timers := Timers (timers s) (wrap 32 (f (persistent_timer_count s))).
Definition with_state st r : qdf_mc_timer_t :=
  Timer (cookie r) (armed r) (callback r) (user_data r) (timer_type r) st.
Definition with_armed a r : qdf_mc_timer_t :=
  Timer (cookie r) a (callback r) (user_data r) (timer_type r) (state r).
Definition with_cookie c r : qdf_mc_timer_t :=
  Timer c (armed r) (callback r) (user_data r) (timer_type r) (state r).

Definition read_timer t : MT qdf_mc_timer_t := r ← gets (fun s => timers s !! t); deref r.
Definition write_timer t f : MT unit := read_timer t;; modify (set_timers (alter f t)).

Definition qdf_try_allowing_sleep (type : QDF_TIMER_TYPE) : MT unit :=
  if bool_decide (type = QDF_TIMER_TYPE_WAKE_APPS) then modify (set_count (fun n => n - 1))
  else mret ().

Definition qdf_mc_timer_get_current_state (timer : option Z) : MT Z :=
  match timer with
  | None => mret QDF_TIMER_STATE_UNUSED
  | Some t =>
      r ← read_timer t;
      mret (if bool_decide (state r ∈ [QDF_TIMER_STATE_STOPPED; QDF_TIMER_STATE_STARTING;
                                       QDF_TIMER_STATE_RUNNING; QDF_TIMER_STATE_UNUSED])
            then state r else QDF_TIMER_STATE_UNUSED)
  end.

(** Setting up the kernel timer leaves it unarmed. *)
Definition qdf_mc_timer_init (timer : option Z) (type : QDF_TIMER_TYPE) (cb data : option Z)
    : MT QDF_STATUS :=
  match timer, cb with
  | Some t, Some _ =>
      write_timer t (fun _ => Timer LINUX_TIMER_COOKIE false cb data type QDF_TIMER_STATE_STOPPED);;
      mret QDF_STATUS_SUCCESS
  | _, _ => mret QDF_STATUS_E_FAULT
  end.

Definition qdf_mc_timer_destroy (timer : option Z) : MT QDF_STATUS :=
  match timer with
  | None => mret QDF_STATUS_E_FAULT
  | Some t =>
      r ← read_timer t;
      if negb (cookie r =? LINUX_TIMER_COOKIE) then mret QDF_STATUS_E_INVAL
      else
        v_status ←
          (if state r =? QDF_TIMER_STATE_STARTING then mret QDF_STATUS_E_BUSY
           else if state r =? QDF_TIMER_STATE_RUNNING then
             write_timer t (with_armed false);; mret QDF_STATUS_SUCCESS
           else if state r =? QDF_TIMER_STATE_STOPPED then mret QDF_STATUS_SUCCESS
           else if state r =? QDF_TIMER_STATE_UNUSED then mret QDF_STATUS_E_ALREADY
           else mret QDF_STATUS_E_FAULT);
        if QDF_IS_STATUS_SUCCESS v_status then
          write_timer t (with_cookie LINUX_INVALID_TIMER_COOKIE ∘ with_state QDF_TIMER_STATE_UNUSED);;
          mret v_status
        else mret v_status
  end.

Definition qdf_mc_timer_start (timer : option Z) (expiration_time : Z) : MT QDF_STATUS :=
  match timer with
  | None => mret QDF_STATUS_E_INVAL
  | Some t =>
      r ← read_timer t;
      if negb (cookie r =? LINUX_TIMER_COOKIE) then mret QDF_STATUS_E_INVAL
      else if expiration_time <? 10 then mret QDF_STATUS_E_INVAL
      else if negb (state r =? QDF_TIMER_STATE_STOPPED) then mret QDF_STATUS_E_ALREADY
      else
        write_timer t (with_armed true);;
        write_timer t (with_state QDF_TIMER_STATE_RUNNING);;
        (if bool_decide (timer_type r = QDF_TIMER_TYPE_WAKE_APPS)
         then modify (set_count (fun n => n + 1)) else mret ());;
        mret QDF_STATUS_SUCCESS
  end.

(** [qdf_mc_timer_stop] takes the lock twice; between its two parts anything may
    happen to the timer.  The first part: whether there is anything to stop. *)
Definition stop_begin (timer : option Z) : MT (QDF_STATUS * bool) :=
  match timer with
  | None => mret (QDF_STATUS_E_INVAL, false)
  | Some t =>
      r ← read_timer t;
      if negb (cookie r =? LINUX_TIMER_COOKIE) then mret (QDF_STATUS_E_INVAL, false)
      else mret (QDF_STATUS_SUCCESS, state r =? QDF_TIMER_STATE_RUNNING)
  end.
Definition stop_end t : MT unit :=
  write_timer t (with_armed false);;
  write_timer t (with_state QDF_TIMER_STATE_STOPPED);;
  r ← read_timer t;
  qdf_try_allowing_sleep (timer_type r).

Definition qdf_mc_timer_stop (timer : option Z) : MT QDF_STATUS :=
  r ← stop_begin timer;
  match timer, r with
  | Some t, (st, true) => stop_end t;; mret st
  | _, (st, _) => mret st
  end.

Definition qdf_mc_timer_stop_sync (timer : option Z) : MT QDF_STATUS :=
  match timer with
  | None => mret QDF_STATUS_E_INVAL
  | Some t =>
      r ← read_timer t;
      if negb (cookie r =? LINUX_TIMER_COOKIE) then mret QDF_STATUS_E_INVAL
      else if negb (state r =? QDF_TIMER_STATE_RUNNING) then mret QDF_STATUS_SUCCESS
      else
        write_timer t (with_state QDF_TIMER_STATE_STOPPED);;
        write_timer t (with_armed false);;
        qdf_try_allowing_sleep (timer_type r);;
        mret QDF_STATUS_SUCCESS
  end.

(** The part of [scheduler_mc_timer_callback] under the timer's lock: what a timer that
    went off is to run, and with which data. *)
Definition mc_timer_expired t
    : MT (QDF_STATUS * option Z * option Z * QDF_TIMER_TYPE) :=
  r ← read_timer t;
  if state r =? QDF_TIMER_STATE_STARTING then
    write_timer t (with_state QDF_TIMER_STATE_STOPPED);;
    mret (QDF_STATUS_E_ALREADY, None, None, QDF_TIMER_TYPE_SW)
  else if state r =? QDF_TIMER_STATE_STOPPED then
    mret (QDF_STATUS_E_ALREADY, None, None, QDF_TIMER_TYPE_SW)
  else if state r =? QDF_TIMER_STATE_UNUSED then
    mret (QDF_STATUS_E_EXISTS, None, None, QDF_TIMER_TYPE_SW)
  else if state r =? QDF_TIMER_STATE_RUNNING then
    write_timer t (with_state QDF_TIMER_STATE_STOPPED);;
    mret (QDF_STATUS_SUCCESS, callback r, user_data r, timer_type r)
  else mret (QDF_STATUS_E_FAULT, None, None, QDF_TIMER_TYPE_SW).

(** The kernel timer goes off: it is no longer pending when its function runs. *)
Definition kernel_timer_fires t : MT bool :=
  r ← read_timer t;
  if armed r then write_timer t (with_armed false);; mret true else mret false.

(** Going off up to the point where the message for the scheduler is built. *)
Definition timer_goes_off t : MT (option (option Z * option Z)) :=
  fires ← kernel_timer_fires t;
  if fires : bool then
    x ← mc_timer_expired t;
    let '(status, cb, data, type) := x in
    if QDF_IS_STATUS_ERROR status then mret None
    else qdf_try_allowing_sleep type;; mret (Some (cb, data))
  else mret None.

(** ** Histories of timers *)

Inductive timer_op : Type :=
  | TInit t (type : QDF_TIMER_TYPE) (cb data : option Z)
  | TDestroy t
  | TStart t (expiration_time : Z)
  | TStop t
  | TStopSync t
  | TFire t.

Definition op_timer (o : timer_op) : Z :=
  match o with
  | TInit t _ _ _ | TDestroy t | TStart t _ | TStop t | TStopSync t | TFire t => t
  end.

Definition run_op (o : timer_op) : MT unit :=
  match o with
  | TInit t type cb data => qdf_mc_timer_init (Some t) type cb data;; mret ()
  | TDestroy t => qdf_mc_timer_destroy (Some t);; mret ()
  | TStart t e => qdf_mc_timer_start (Some t) e;; mret ()
  | TStop t => qdf_mc_timer_stop (Some t);; mret ()
  | TStopSync t => qdf_mc_timer_stop_sync (Some t);; mret ()
  | TFire t => timer_goes_off t;; mret ()
  end.

Definition running r : bool :=
  (cookie r =? LINUX_TIMER_COOKIE) && (state r =? QDF_TIMER_STATE_RUNNING).
Definition keeps_awake r : bool :=
  running r && bool_decide (timer_type r = QDF_TIMER_TYPE_WAKE_APPS).

(** Callers name timers of their memory, and neither initialize nor destroy one that
    runs. *)
Definition legal_op (o : timer_op) s : Prop :=
  match o with
  | TInit t _ _ _ | TDestroy t => exists r, timers s !! t = Some r /\ running r = false
  | TStart t _ | TStop t | TStopSync t | TFire t => is_Some (timers s !! t)
  end.

(** Memory without a timer in it, and what the operations make of it. *)
Inductive timers_reachable : mc_timers -> Prop :=
  | timers_zero m :
      map_Forall (fun _ r => cookie r <> LINUX_TIMER_COOKIE /\ armed r = false) m ->
      timers_reachable (Timers m 0)
  | timers_step s o s' :
      timers_reachable s -> legal_op o s -> run_op o s = Ret tt s' -> timers_reachable s'.

Definition awake_count (m : gmap Z qdf_mc_timer_t) : nat :=
  size (filter (fun x => keeps_awake x.2 = true) m).

Definition timer_ok r : Prop :=
  armed r = running r /\
  (cookie r = LINUX_TIMER_COOKIE ->
   state r = QDF_TIMER_STATE_STOPPED \/ state r = QDF_TIMER_STATE_RUNNING).

Record timers_inv s : Prop := {
  inv_timers : map_Forall (fun _ r => timer_ok r) (timers s);
  inv_count : persistent_timer_count s = wrap 32 (Z.of_nat (awake_count (timers s)));
}.

Lemma write_timer_eq t f s r :
  timers s !! t = Some r ->
  write_timer t f s = Ret tt (set_timers (fun m => <[t := f r]> m) s).
Proof.
  intros H. unfold write_timer, read_timer. rewrite bind_assoc, bind_gets, H.
  change (Ret (S := mc_timers) tt (set_timers (alter f t) s) =
          Ret tt (set_timers (fun m => <[t := f r]> m) s)).
  unfold set_timers. do 2 f_equal. apply map_eq. intros t'.
  destruct (decide (t' = t)) as [->|]; [by rewrite lookup_alter_eq, lookup_insert_eq, H|].
  by rewrite lookup_alter_ne, lookup_insert_ne.
Qed.

Lemma read_timer_eq t s r : timers s !! t = Some r -> read_timer t s = Ret r s.
Proof. intros H. unfold read_timer. by rewrite bind_gets, H. Qed.

Lemma awake_count_insert m t r r' :
  m !! t = Some r ->
  (awake_count (<[t := r']> m) + Nat.b2n (keeps_awake r) =
   awake_count m + Nat.b2n (keeps_awake r'))%nat.
Proof.
  intros H. unfold awake_count. set (P := fun x : Z * qdf_mc_timer_t => keeps_awake x.2 = true).
  assert (filter P m !! t = if keeps_awake r then Some r else None) as Hlook.
  { destruct (keeps_awake r) eqn:E.
    - apply map_lookup_filter_Some. by split.
    - apply map_lookup_filter_None. right. intros x Hx. rewrite H in Hx. injection Hx as <-.
      unfold P. cbn. by rewrite E. }
  destruct (keeps_awake r') eqn:E'.
  - rewrite map_filter_insert_True by done. rewrite map_size_insert, Hlook.
    destruct (keeps_awake r); cbn; lia.
  - rewrite map_filter_insert_False by (unfold P; cbn; by rewrite E').
    rewrite map_filter_delete, map_size_delete, Hlook.
    destruct (keeps_awake r); cbn -[size]; [|lia].
    assert (size (filter P m) <> 0)%nat; [|lia].
    intros H0%map_size_empty_inv. by rewrite H0, lookup_empty in Hlook.
Qed.

Lemma wrap_add_l w a b : wrap w (wrap w a + b) = wrap w (a + b).
Proof. apply Zplus_mod_idemp_l. Qed.

(** A timer replaced, with the change of the count that goes with it. *)
Lemma timers_inv_update s t r r' d :
  timers_inv s -> timers s !! t = Some r -> timer_ok r' ->
  d = Z.b2z (keeps_awake r') - Z.b2z (keeps_awake r) ->
  timers_inv (set_count (fun n => n + d) (set_timers (fun m => <[t := r']> m) s)).
Proof.
  intros [H1 H2] Hr Hok ->. constructor; cbn.
  - by apply map_Forall_insert_2.
  - rewrite H2. rewrite wrap_add_l. f_equal.
    pose proof (awake_count_insert (timers s) t r r' Hr).
    destruct (keeps_awake r), (keeps_awake r'); cbn in *; lia.
Qed.

Lemma set_count_id s : timers_inv s -> set_count (fun n => n + 0) s = s.
Proof.
  intros [_ H]. destruct s as [m n]. cbn in *. unfold set_count. cbn. f_equal.
  by rewrite Z.add_0_r, H, wrap_idem.
Qed.

Lemma timers_inv_same s t r r' :
  timers_inv s -> timers s !! t = Some r -> timer_ok r' -> keeps_awake r' = keeps_awake r ->
  timers_inv (set_timers (fun m => <[t := r']> m) s).
Proof.
  intros Hi Hr Hok He.
  pose proof (timers_inv_update s t r r' 0 Hi Hr Hok ltac:(rewrite He; lia)) as [H1 H2].
  constructor; [exact H1|]. cbn in *. rewrite <- H2. destruct Hi as [_ ->].
  by rewrite Z.add_0_r, wrap_idem.
Qed.

(** *** Each operation *)

(** A symbolic step on the timer at [t]. *)
Ltac timer_step H :=
  first
    [ rewrite bind_assoc
    | rewrite (bind_ret _ _ _ _ _ (read_timer_eq _ _ _ H))
    | rewrite (bind_ret _ _ _ _ _ (write_timer_eq _ _ _ _ H)) ].

Lemma running_state r :
  timer_ok r -> cookie r = LINUX_TIMER_COOKIE ->
  (state r =? QDF_TIMER_STATE_RUNNING) = running r /\
  (state r =? QDF_TIMER_STATE_STOPPED) = negb (running r) /\
  (state r =? QDF_TIMER_STATE_STARTING) = false /\ (state r =? QDF_TIMER_STATE_UNUSED) = false.
Proof.
  intros [_ Hs] Hc. unfold running. rewrite Hc. by destruct (Hs Hc) as [->| ->].
Qed.

Lemma write_write {B} t f g (k : unit -> unit -> MT B) s r :
  timers s !! t = Some r ->
  (a ← write_timer t f; b ← write_timer t g; k a b) s =
  k tt tt (set_timers (fun m => <[t := g (f r)]> m) s).
Proof.
  intros H. rewrite (bind_ret _ _ _ _ _ (write_timer_eq _ _ _ _ H)).
  rewrite (bind_ret _ _ _ _ _ (write_timer_eq t g _ (f r) (lookup_insert_eq _ _ _))).
  f_equal. unfold set_timers. cbn. by rewrite insert_insert_eq.
Qed.

Lemma allowing_sleep_eq type s :
  timers_inv s -> exists s', qdf_try_allowing_sleep type s = Ret tt s' /\
    s' = set_count (fun n => n + (if bool_decide (type = QDF_TIMER_TYPE_WAKE_APPS) then -1 else 0)) s.
Proof.
  intros H. unfold qdf_try_allowing_sleep. eexists. split; [|reflexivity].
  destruct (bool_decide _); [done|]. by rewrite set_count_id.
Qed.

(** The timer stops: what stopping it and its going off have in common. *)
Lemma timer_stopped_inv s t r r' :
  timers_inv s -> timers s !! t = Some r -> cookie r' = cookie r ->
  timer_type r' = timer_type r -> running r = true ->
  armed r' = false -> state r' = QDF_TIMER_STATE_STOPPED ->
  exists s', qdf_try_allowing_sleep (timer_type r)
               (set_timers (fun m => <[t := r']> m) s) = Ret tt s' /\ timers_inv s' /\
    timers s' = <[t := r']> (timers s).
Proof.
  intros Hi Hr Hc Ht Hrun Ha Hs.
  assert (running r' = false) as Hrun' by (unfold running; by rewrite Hs, andb_false_r).
  assert (timer_ok r') as Hok by (split; [congruence|by left]).
  pose proof (timers_inv_update s t r r' _ Hi Hr Hok eq_refl) as H.
  unfold keeps_awake in H. rewrite Hrun, Hrun' in H. cbn [andb Z.b2z] in H.
  unfold qdf_try_allowing_sleep.
  destruct (bool_decide (timer_type r = _)); eexists; (split; [reflexivity|]); cbn in H; split; [exact H|done| |done].
  destruct H as [H1 H2], Hi as [_ Hn]. constructor; [exact H1|]. cbn in *. rewrite <- H2.
  by rewrite Z.add_0_r, Hn, wrap_idem.
Qed.

Lemma timer_not_running r :
  timer_ok r -> cookie r = LINUX_TIMER_COOKIE -> running r = false ->
  state r = QDF_TIMER_STATE_STOPPED.
Proof.
  intros [_ Hs] Hc. unfold running. rewrite Hc. by destruct (Hs Hc) as [->| ->].
Qed.

Lemma init_inv s t type cb data r :
  timers_inv s -> timers s !! t = Some r -> running r = false ->
  exists st s', qdf_mc_timer_init (Some t) type cb data s = Ret st s' /\ timers_inv s'.
Proof.
  intros Hi Hr Hrun. unfold qdf_mc_timer_init. destruct cb as [cb|]; [|by eexists _, _].
  rewrite (bind_ret _ _ _ _ _ (write_timer_eq _ _ _ _ Hr)). eexists _, _. split; [reflexivity|].
  apply (timers_inv_same _ _ r); [done..| |].
  - split; [done|by left].
  - unfold keeps_awake. by rewrite Hrun.
Qed.

Lemma destroy_inv s t r :
  timers_inv s -> timers s !! t = Some r -> running r = false ->
  exists st s', qdf_mc_timer_destroy (Some t) s = Ret st s' /\ timers_inv s'.
Proof.
  intros Hi Hr Hrun. unfold qdf_mc_timer_destroy.
  rewrite (bind_ret _ _ _ _ _ (read_timer_eq _ _ _ Hr)).
  destruct (cookie r =? LINUX_TIMER_COOKIE) eqn:Ec; cbn [negb]; [|by eexists _, _].
  apply Z.eqb_eq in Ec. pose proof (inv_timers s Hi t r Hr) as Hok.
  rewrite (timer_not_running r Hok Ec Hrun). cbn -[write_timer].
  rewrite bind_ret with (a := QDF_STATUS_SUCCESS) (s' := s) by done. cbn -[write_timer].
  rewrite (bind_ret _ _ _ _ _ (write_timer_eq _ _ _ _ Hr)). eexists _, _. split; [reflexivity|].
  apply (timers_inv_same _ _ r); [done..| |].
  - destruct Hok as [Ha _]. split; [|by intros ?].
    cbn. by rewrite Ha, Hrun.
  - unfold keeps_awake. by rewrite Hrun.
Qed.

Lemma start_inv s t e r :
  timers_inv s -> timers s !! t = Some r ->
  exists st s', qdf_mc_timer_start (Some t) e s = Ret st s' /\ timers_inv s'.
Proof.
  intros Hi Hr. unfold qdf_mc_timer_start.
  rewrite (bind_ret _ _ _ _ _ (read_timer_eq _ _ _ Hr)).
  destruct (cookie r =? LINUX_TIMER_COOKIE) eqn:Ec; cbn [negb]; [|by eexists _, _].
  destruct (e <? 10); [by eexists _, _|].
  destruct (state r =? QDF_TIMER_STATE_STOPPED) eqn:Es; cbn [negb]; [|by eexists _, _].
  apply Z.eqb_eq in Ec, Es. rewrite (write_write _ _ _ _ _ _ Hr).
  set (r' := with_state _ _).
  assert (running r = false) as Hrun by (unfold running; by rewrite Es, andb_false_r).
  assert (running r' = true) as Hrun' by (unfold running; cbn; by rewrite Ec).
  assert (timer_ok r') as Hok by (split; [done|by right]).
  pose proof (timers_inv_update s t r r' _ Hi Hr Hok eq_refl) as H.
  unfold keeps_awake in H. rewrite Hrun, Hrun' in H. cbn [andb] in H.
  change (timer_type r') with (timer_type r) in H.
  destruct (bool_decide (timer_type r = _)); cbn in H; eexists _, _; (split; [reflexivity|]).
  - exact H.
  - destruct H as [H1 H2], Hi as [_ Hn]. constructor; [exact H1|]. cbn in *. rewrite <- H2.
    by rewrite Z.add_0_r, Hn, wrap_idem.
Qed.

Lemma stop_end_inv s t r :
  timers_inv s -> timers s !! t = Some r -> running r = true ->
  exists s', stop_end t s = Ret tt s' /\ timers_inv s'.
Proof.
  intros Hi Hr Hrun. unfold stop_end. rewrite (write_write _ _ _ _ _ _ Hr).
  rewrite (bind_ret _ _ _ _ _ (read_timer_eq t _ _ (lookup_insert_eq _ _ _))).
  destruct (timer_stopped_inv s t r (with_state QDF_TIMER_STATE_STOPPED (with_armed false r)))
    as (s' & ? & ? & _); [done..|]. by exists s'.
Qed.

Lemma stop_inv s t r :
  timers_inv s -> timers s !! t = Some r ->
  exists st s', qdf_mc_timer_stop (Some t) s = Ret st s' /\ timers_inv s'.
Proof.
  intros Hi Hr. unfold qdf_mc_timer_stop, stop_begin. rewrite bind_assoc.
  rewrite (bind_ret _ _ _ _ _ (read_timer_eq _ _ _ Hr)).
  destruct (cookie r =? LINUX_TIMER_COOKIE) eqn:Ec; cbn [negb]; [|by eexists _, _].
  apply Z.eqb_eq in Ec. pose proof (inv_timers s Hi t r Hr) as Hok.
  destruct (running_state r Hok Ec) as (-> & _).
  rewrite bind_ret with (a := (QDF_STATUS_SUCCESS, running r)) (s' := s) by done.
  destruct (running r) eqn:Hrun; [|by eexists _, _].
  destruct (stop_end_inv s t r Hi Hr Hrun) as (s' & Hs' & Hi').
  exists QDF_STATUS_SUCCESS, s'. by rewrite (bind_ret _ _ _ _ _ Hs').
Qed.

Lemma stop_sync_inv s t r :
  timers_inv s -> timers s !! t = Some r ->
  exists st s', qdf_mc_timer_stop_sync (Some t) s = Ret st s' /\ timers_inv s'.
Proof.
  intros Hi Hr. unfold qdf_mc_timer_stop_sync.
  rewrite (bind_ret _ _ _ _ _ (read_timer_eq _ _ _ Hr)).
  destruct (cookie r =? LINUX_TIMER_COOKIE) eqn:Ec; cbn [negb]; [|by eexists _, _].
  apply Z.eqb_eq in Ec. pose proof (inv_timers s Hi t r Hr) as Hok.
  destruct (running_state r Hok Ec) as (-> & _).
  destruct (running r) eqn:Hrun; [|by eexists _, _]. cbn [negb].
  rewrite (write_write _ _ _ _ _ _ Hr).
  edestruct (timer_stopped_inv s t r (with_armed false (with_state QDF_TIMER_STATE_STOPPED r)))
    as (s' & Hs' & Hi' & _); [done..|].
  exists QDF_STATUS_SUCCESS, s'. by rewrite (bind_ret _ _ _ _ _ Hs').
Qed.

(** The steps of an armed timer that goes off. *)
Lemma fire_steps s t r :
  timers_inv s -> timers s !! t = Some r ->
  if running r then
    exists s1 s2 s3, kernel_timer_fires t s = Ret true s1 /\
      mc_timer_expired t s1 = Ret (QDF_STATUS_SUCCESS, callback r, user_data r, timer_type r) s2 /\
      qdf_try_allowing_sleep (timer_type r) s2 = Ret tt s3 /\ timers_inv s3 /\
      timers s3 = <[t := with_state QDF_TIMER_STATE_STOPPED (with_armed false r)]> (timers s)
  else kernel_timer_fires t s = Ret false s.
Proof.
  intros Hi Hr. unfold kernel_timer_fires.
  rewrite (bind_ret _ _ _ _ _ (read_timer_eq _ _ _ Hr)).
  pose proof (inv_timers s Hi t r Hr) as [-> _].
  destruct (running r) eqn:Hrun; [|done].
  rewrite (bind_ret _ _ _ _ _ (write_timer_eq _ _ _ _ Hr)).
  set (s1 := set_timers _ s). set (r1 := with_armed false r).
  assert (timers s1 !! t = Some r1) as Hr1 by apply lookup_insert_eq.
  set (r2 := with_state QDF_TIMER_STATE_STOPPED r1).
  exists s1, (set_timers (fun m => <[t := r2]> m) s).
  destruct (timer_stopped_inv s t r r2) as (s3 & Hs3 & Hi3 & Ht3); [done..|].
  exists s3. split_and!; [done| |done..].
  unfold mc_timer_expired. rewrite (bind_ret _ _ _ _ _ (read_timer_eq _ _ _ Hr1)).
  pose proof Hrun as Hrun'. unfold running in Hrun'. apply andb_true_iff in Hrun' as [_ Hst].
  apply Z.eqb_eq in Hst. cbn [state with_armed r1]. rewrite Hst.
  cbn [Z.eqb Pos.eqb QDF_TIMER_STATE_RUNNING QDF_TIMER_STATE_STARTING QDF_TIMER_STATE_STOPPED
       QDF_TIMER_STATE_UNUSED].
  rewrite (bind_ret _ _ _ _ _ (write_timer_eq _ _ _ _ Hr1)).
  unfold mret, M_ret. f_equal. unfold set_timers, s1. cbn. by rewrite insert_insert_eq.
Qed.

(** An armed timer that goes off is stopped, and its callback is the message's. *)
Lemma fire_inv s t r :
  timers_inv s -> timers s !! t = Some r ->
  exists s', timer_goes_off t s =
      Ret (if running r then Some (callback r, user_data r) else None) s' /\ timers_inv s' /\
    (running r = true ->
     exists r', timers s' !! t = Some r' /\ running r' = false /\ armed r' = false).
Proof.
  intros Hi Hr. pose proof (fire_steps s t r Hi Hr) as H. unfold timer_goes_off.
  destruct (running r) eqn:Hrun; [|exists s; by rewrite (bind_ret _ _ _ _ _ H)].
  destruct H as (s1 & s2 & s3 & H1 & H2 & H3 & Hi3 & Ht3). exists s3.
  rewrite (bind_ret _ _ _ _ _ H1), (bind_ret _ _ _ _ _ H2). cbn [QDF_IS_STATUS_ERROR QDF_IS_STATUS_SUCCESS negb].
  rewrite (bind_ret _ _ _ _ _ H3). split_and!; [done..|]. intros _. eexists.
  rewrite Ht3, lookup_insert_eq. split_and!; [done| |done]. unfold running. cbn. by rewrite andb_false_r.
Qed.

Lemma run_op_inv o s :
  timers_inv s -> legal_op o s -> exists s', run_op o s = Ret tt s' /\ timers_inv s'.
Proof.
  intros Hi Hl. unfold run_op. destruct o as [t type cb data|t|t e|t|t|t]; cbn in Hl;
    (destruct Hl as (r & Hr & Hrun) || destruct Hl as (r & Hr)).
  - destruct (init_inv s t type cb data r Hi Hr Hrun) as (st & s' & H & ?).
    exists s'. by rewrite (bind_ret _ _ _ _ _ H).
  - destruct (destroy_inv s t r Hi Hr Hrun) as (st & s' & H & ?).
    exists s'. by rewrite (bind_ret _ _ _ _ _ H).
  - destruct (start_inv s t e r Hi Hr) as (st & s' & H & ?). exists s'. by rewrite (bind_ret _ _ _ _ _ H).
  - destruct (stop_inv s t r Hi Hr) as (st & s' & H & ?). exists s'. by rewrite (bind_ret _ _ _ _ _ H).
  - destruct (stop_sync_inv s t r Hi Hr) as (st & s' & H & ?). exists s'. by rewrite (bind_ret _ _ _ _ _ H).
  - destruct (fire_inv s t r Hi Hr) as (s' & H & ? & _). exists s'. by rewrite (bind_ret _ _ _ _ _ H).
Qed.

Lemma timers_reachable_inv s : timers_reachable s -> timers_inv s.
Proof.
  induction 1 as [m Hm|s o s' _ IH Hl Hrun].
  - assert (forall t r, m !! t = Some r -> running r = false) as Hrun.
    { intros t r Hr. destruct (Hm t r Hr) as [Hc _]. unfold running.
      by rewrite (proj2 (Z.eqb_neq _ _) Hc). }
    constructor; cbn.
    + intros t r Hr. destruct (Hm t r Hr) as [Hc Ha]. split; [by rewrite Ha, (Hrun t r Hr)|done].
    + unfold awake_count. rewrite (proj2 (map_empty_filter _ _)); [done|].
      intros t r Hr. cbn. unfold keeps_awake. by rewrite (Hrun t r Hr).
  - destruct (run_op_inv o s IH Hl) as (s'' & H & Hi). by rewrite Hrun in H; injection H as <-.
Qed.

(** C35: after any sequence of operations, one after the other, that neither initializes nor
    destroys a running timer ([legal_op]), the kernel timer of each MC timer is pending
    exactly while its state is RUNNING, the count of persistent timers is the number of
    running timers that keep the system awake, every further such operation returns, and a
    timer goes off exactly when it runs, once: with its own callback and data, and stopped
    afterwards.  The code needs both conditions: destroying a running timer leaves it in
    the count ([destroy_running_keeps_count]), and [qdf_mc_timer_stop], which is one step
    here, counts a timer that goes off between its two locked parts out twice
    ([stop_race_counts_twice]). *)
Theorem mc_timers_exact s :
  timers_reachable s ->
  persistent_timer_count s = wrap 32 (Z.of_nat (awake_count (timers s))) /\
  (forall o, legal_op o s -> exists s', run_op o s = Ret tt s') /\
  (forall t r, timers s !! t = Some r ->
     armed r = running r /\
     exists s', timer_goes_off t s =
         Ret (if running r then Some (callback r, user_data r) else None) s' /\
       exists r', timers s' !! t = Some r' /\ running r' = false).
Proof.
  intros Hs%timers_reachable_inv. split_and!.
  - apply Hs.
  - intros o Hl. destruct (run_op_inv o s Hs Hl) as (s' & ? & _). by exists s'.
  - intros t r Hr. split; [apply (inv_timers s Hs t r Hr)|].
    destruct (fire_inv s t r Hs Hr) as (s' & Hf & Hi & Hstop). exists s'. split; [done|].
    destruct (running r) eqn:Hrun.
    + destruct (Hstop eq_refl) as (r' & ? & ? & _). by exists r'.
    + assert (armed r = false) as Ha by (rewrite <- Hrun; apply (inv_timers s Hs t r Hr)).
      unfold timer_goes_off, kernel_timer_fires in Hf.
      rewrite bind_assoc, (bind_ret _ _ _ _ _ (read_timer_eq _ _ _ Hr)), Ha in Hf.
      injection Hf as <-. by exists r.
Qed.

Definition blank : qdf_mc_timer_t := Timer 0 false None None QDF_TIMER_TYPE_SW 0.

(** A timer that keeps the system awake, started. *)
Lemma mc_timers_exact_witness :
  exists s, timers_reachable s /\ persistent_timer_count s = 1 /\ awake_count (timers s) = 1%nat /\
    persistent_timer_count s = wrap 32 (Z.of_nat (awake_count (timers s))).
Proof.
  pose (s0 := Timers {[1 := blank]} 0).
  pose (s1 := match run_op (TInit 1 QDF_TIMER_TYPE_WAKE_APPS (Some 7) (Some 9)) s0 with
              | Ret _ s => s | _ => s0 end).
  pose (s2 := match run_op (TStart 1 100) s1 with Ret _ s => s | _ => s1 end).
  assert (timers_reachable s2) as H.
  { apply (timers_step s1 (TStart 1 100)); [|by eexists|by vm_compute].
    apply (timers_step s0 (TInit 1 QDF_TIMER_TYPE_WAKE_APPS (Some 7) (Some 9)));
      [|by eexists|by vm_compute].
    apply timers_zero. apply map_Forall_singleton. by split. }
  exists s2. split_and!; [exact H|by vm_compute|by vm_compute|].
  exact (proj1 (mc_timers_exact s2 H)).
Defined.

(** When a timer goes off between the two locked parts of [qdf_mc_timer_stop], the count
    is decremented twice, and wraps below zero. *)
Lemma stop_race_counts_twice :
  let s := Timers {[1 := Timer LINUX_TIMER_COOKIE true (Some 7) None QDF_TIMER_TYPE_WAKE_APPS
                          QDF_TIMER_STATE_RUNNING]} 1 in
  exists s', (_ ← stop_begin (Some 1); _ ← timer_goes_off 1; stop_end 1) s = Ret tt s' /\
    persistent_timer_count s' = 2 ^ 32 - 1.
Proof. cbv zeta. eexists. split; by vm_compute. Qed.

(** Destroying a running timer keeps it in the count. *)
Lemma destroy_running_keeps_count :
  let s := Timers {[1 := Timer LINUX_TIMER_COOKIE true (Some 7) None QDF_TIMER_TYPE_WAKE_APPS
                          QDF_TIMER_STATE_RUNNING]} 1 in
  exists s', qdf_mc_timer_destroy (Some 1) s = Ret QDF_STATUS_SUCCESS s' /\
    persistent_timer_count s' = 1 /\ awake_count (timers s') = 0%nat.
Proof. cbv zeta. eexists. split; [|split]; by vm_compute. Qed.

End McTimer.
