(* ===== verification/Sched.v ===== *)
(** * The scheduler: scheduler/src/scheduler_core.c and scheduler_api.c

    Six message queues, one thread that empties them in the order of their numbers.
    [sched_world] is the scheduler's static memory, the pool its messages come from,
    the messages by address, and the point [thread] at which the scheduler thread is.
    Other threads call the functions of the interface between any two steps of the
    thread; a function is one step of theirs.  What the callbacks do is a [script]. *)
From S2P Require Import Prelude ItemPool QdfOs.
Import Event McTimer.

(** ** Constants *)

Definition SCHEDULER_CORE_MAX_MESSAGES : Z := 4000.
Definition SCHEDULER_NUMBER_OF_MSG_QUEUE : nat := 6.
Definition SCHEDULER_WRAPPER_MAX_FAIL_COUNT : Z := SCHEDULER_CORE_MAX_MESSAGES * 3.

(** These are used as the numbers of bits. *)
Definition MC_POST_EVENT_MASK : Z := 0x001.
Definition MC_SUSPEND_EVENT_MASK : Z := 0x002.
Definition MC_SHUTDOWN_EVENT_MASK : Z := 0x010.

Definition SYS_MSG_COOKIE : Z := 0xFACE.
Definition SYS_MSG_ID_MC_TIMER : Z := 0.

Definition scheduler_get_src_id (qid : Z) : Z := Z.land (Z.shiftr qid 20) 0x3FF.
Definition scheduler_get_dest_id (qid : Z) : Z := Z.land (Z.shiftr qid 10) 0x3FF.
Definition scheduler_get_que_id (qid : Z) : Z := Z.land qid 0x3FF.
Definition scheduler_get_qid (src dest que_id : Z) : Z :=
  Z.lor (Z.lor que_id (Z.shiftl dest 10)) (Z.shiftl src 20).

(** [QDF_MODULE_ID] (qdf/inc/qdf_types.h): those the scheduler names, and their number. *)
Definition QDF_MODULE_ID_WMA : Z := 54.
Definition QDF_MODULE_ID_SYS : Z := 55.
Definition QDF_MODULE_ID_TARGET_IF : Z := 73.
Definition QDF_MODULE_ID_SCHEDULER : Z := 74.
Definition QDF_MODULE_ID_MAX : Z := 122.

(** ** Data *)

(** [struct scheduler_msg]; functions and memory are addresses. *)
Record scheduler_msg : Type := Msg {
  type : Z;
  reserved : Z;
  bodyval : Z;
  bodyptr : option Z;
  callback : option Z;
  flush_callback : option Z;
  queue_id : Z;
  queue_depth : Z;
  queued_at_us : Z;
}.

(** The functions of the type [scheduler_msg_process_fn_t] that are registered for a
    queue: those of scheduler_api.c, or a client's. *)
Inductive process_fn : Type :=
  | scheduler_target_if_mq_handler_fn
  | scheduler_os_if_mq_handler_fn
  | scheduler_timer_q_mq_handler_fn
  | scheduler_mlme_mq_handler_fn
  | scheduler_scan_mq_handler_fn
  | client_fn (f : Z).

(** [struct scheduler_mq_type]: the addresses of the messages, first to last. *)
Record scheduler_mq_type : Type := Mq { mq_list : list Z; mq_qid : Z }.

Record scheduler_mq_ctx : Type := MqCtx {
  sch_msg_q : list scheduler_mq_type;
  scheduler_msg_qid_to_qidx : list Z;
  scheduler_msg_process_fn : list (option process_fn);
}.

(** [struct scheduler_ctx]; of the thread, whether there is one. *)
Record scheduler_ctx : Type := Ctx {
  queue_ctx : scheduler_mq_ctx;
  sch_start_event : qdf_event_t;
  sch_thread : bool;
  sch_shutdown : qdf_event_t;
  sch_event_flag : Z;
  resume_sch_event : qdf_event_t;
  sch_last_qidx : Z;
  watchdog_msg_type : Z;
  hdd_callback : option Z;
  legacy_wma_handler : option Z;
  legacy_sys_handler : option Z;
  watchdog_timer : bool;
  watchdog_callback : option Z;
}.

Record sched_history_item : Type := HistoryItem {
  h_callback : option Z;
  h_type_id : Z;
  h_queue_id : Z;
  h_queue_start_us : Z;
  h_queue_duration_us : Z;
  h_queue_depth : Z;
  h_run_start_us : Z;
  h_run_duration_us : Z;
}.

(** Where the scheduler thread is: not created, in [scheduler_thread] waiting for an
    event, in the loop of [scheduler_thread_process_queues] at a queue, waiting to be
    resumed (with the value of [shutdown]), or at its end. *)
Inductive thread_pc : Type :=
  | T_none
  | T_wait
  | T_scan (i : nat)
  | T_suspended (shutdown : bool)
  | T_exited.

(** What can be observed: messages entering and leaving the queues, the thread starting
    on the queues, the calls of clients' functions, memory of clients freed, failed
    assertions.  [EvDrop]: a message taken from a queue without a handler. *)
Inductive sched_event : Type :=
  | EvPut (a : Z) (i : nat) (front : bool)
  | EvTake (a : Z) (i : nat)
  | EvDrop (a : Z) (i : nat)
  | EvFlush (a : Z) (i : nat)
  | EvWake
  | EvQueuesInit
  | EvCall (f a : Z)
  | EvTimerCall (f : Z) (data : option Z)
  | EvFlushCall (f a : Z)
  | EvSuspended (f : Z)
  | EvFreeBody (p : Z)
  | EvPanic.

Record sched_world {P : Type} : Type := World {
  gp_sched_ctx : bool;
  g_sched_ctx : scheduler_ctx;
  sched_queue_depth : Z;
  sched_dup_fail_count : Z;
  sched_pool : P;
  messages : gmap Z scheduler_msg;
  sched_history : list sched_history_item;
  sched_history_index : Z;
  os_timers : mc_timers;
  scheduler_timer_callback : bool;
  now : Z;
  thread : thread_pc;
  trace : list sched_event;
}.

Arguments sched_world : clear implicits.
Arguments World {P}.

(** The functions of the interface that any thread, and any callback, may call; and the
    moments at which a timer goes off. *)
Inductive client_op : Type :=
  | CPost (qid : Z) (msg : option scheduler_msg) (is_high_priority : bool)
  | CPostMessage (src_id dest_id que_id : Z) (msg : option scheduler_msg)
  | CTimer (o : timer_op)
  | CTimerFires (t : Z)
  | CWatchdogFires
  | CRegisterModule (qid : Z) (fn : option process_fn)
  | CDeregisterModule (qid : Z)
  | CRegisterWma (f : option Z)
  | CDeregisterWma
  | CRegisterSys (f : option Z)
  | CDeregisterSys
  | CRegisterSuspend (f : option Z)
  | CResume
  | CWakeUp
  | CSetEventMask (event_mask : Z)
  | CClearEventMask (event_mask : Z)
  | CGetQueueSize (qid : Z).

(** What a client's function does: calls the interface, looks at the world, and answers
    a status. *)
Inductive script (P : Type) : Type :=
  | Answer (status : QDF_STATUS)
  | Do (op : client_op) (k : QDF_STATUS -> script P)
  | Look (k : sched_world P -> script P).
Arguments Answer {P} status.
Arguments Do {P} op k.
Arguments Look {P} k.

(** The clients: message callbacks and handlers, timer callbacks, flush callbacks and
    the suspend callback; whether a thread can be created; the size of the history. *)
Class sched_env (P : Type) : Type := SchedEnv {
  msg_does : Z -> Z -> scheduler_msg -> script P;
  timer_does : Z -> option Z -> script P;
  flush_does : Z -> Z -> scheduler_msg -> script P;
  suspend_does : Z -> script P;
  thread_ok : nat -> bool;
  WLAN_SCHED_HISTORY_SIZE : nat;
}.

Definition set_queued (qid depth at_us : Z) (m : scheduler_msg) : scheduler_msg :=
  Msg (type m) (reserved m) (bodyval m) (bodyptr m) (callback m) (flush_callback m) qid depth at_us.
Definition clear_callback (m : scheduler_msg) : scheduler_msg :=
  Msg (type m) (reserved m) (bodyval m) (bodyptr m) None (flush_callback m) (queue_id m)
    (queue_depth m) (queued_at_us m).

Section SchedCtx.
Implicit Types (c : scheduler_ctx).
Definition upd_queues f c : scheduler_ctx :=
  Ctx (f (queue_ctx c)) (sch_start_event c) (sch_thread c) (sch_shutdown c) (sch_event_flag c)
    (resume_sch_event c) (sch_last_qidx c) (watchdog_msg_type c) (hdd_callback c)
    (legacy_wma_handler c) (legacy_sys_handler c) (watchdog_timer c) (watchdog_callback c).
Definition upd_start f c : scheduler_ctx :=
  Ctx (queue_ctx c) (f (sch_start_event c)) (sch_thread c) (sch_shutdown c) (sch_event_flag c)
    (resume_sch_event c) (sch_last_qidx c) (watchdog_msg_type c) (hdd_callback c)
    (legacy_wma_handler c) (legacy_sys_handler c) (watchdog_timer c) (watchdog_callback c).
Definition upd_thread_ptr f c : scheduler_ctx :=
  Ctx (queue_ctx c) (sch_start_event c) (f (sch_thread c)) (sch_shutdown c) (sch_event_flag c)
    (resume_sch_event c) (sch_last_qidx c) (watchdog_msg_type c) (hdd_callback c)
    (legacy_wma_handler c) (legacy_sys_handler c) (watchdog_timer c) (watchdog_callback c).
Definition upd_shutdown f c : scheduler_ctx :=
  Ctx (queue_ctx c) (sch_start_event c) (sch_thread c) (f (sch_shutdown c)) (sch_event_flag c)
    (resume_sch_event c) (sch_last_qidx c) (watchdog_msg_type c) (hdd_callback c)
    (legacy_wma_handler c) (legacy_sys_handler c) (watchdog_timer c) (watchdog_callback c).
Definition upd_flag f c : scheduler_ctx :=
  Ctx (queue_ctx c) (sch_start_event c) (sch_thread c) (sch_shutdown c) (f (sch_event_flag c))
    (resume_sch_event c) (sch_last_qidx c) (watchdog_msg_type c) (hdd_callback c)
    (legacy_wma_handler c) (legacy_sys_handler c) (watchdog_timer c) (watchdog_callback c).
Definition upd_resume f c : scheduler_ctx :=
  Ctx (queue_ctx c) (sch_start_event c) (sch_thread c) (sch_shutdown c) (sch_event_flag c)
    (f (resume_sch_event c)) (sch_last_qidx c) (watchdog_msg_type c) (hdd_callback c)
    (legacy_wma_handler c) (legacy_sys_handler c) (watchdog_timer c) (watchdog_callback c).
Definition upd_last_qidx f c : scheduler_ctx :=
  Ctx (queue_ctx c) (sch_start_event c) (sch_thread c) (sch_shutdown c) (sch_event_flag c)
    (resume_sch_event c) (f (sch_last_qidx c)) (watchdog_msg_type c) (hdd_callback c)
    (legacy_wma_handler c) (legacy_sys_handler c) (watchdog_timer c) (watchdog_callback c).
Definition upd_hdd f c : scheduler_ctx :=
  Ctx (queue_ctx c) (sch_start_event c) (sch_thread c) (sch_shutdown c) (sch_event_flag c)
    (resume_sch_event c) (sch_last_qidx c) (watchdog_msg_type c) (f (hdd_callback c))
    (legacy_wma_handler c) (legacy_sys_handler c) (watchdog_timer c) (watchdog_callback c).
Definition upd_wma f c : scheduler_ctx :=
  Ctx (queue_ctx c) (sch_start_event c) (sch_thread c) (sch_shutdown c) (sch_event_flag c)
    (resume_sch_event c) (sch_last_qidx c) (watchdog_msg_type c) (hdd_callback c)
    (f (legacy_wma_handler c)) (legacy_sys_handler c) (watchdog_timer c) (watchdog_callback c).
Definition upd_sys f c : scheduler_ctx :=
  Ctx (queue_ctx c) (sch_start_event c) (sch_thread c) (sch_shutdown c) (sch_event_flag c)
    (resume_sch_event c) (sch_last_qidx c) (watchdog_msg_type c) (hdd_callback c)
    (legacy_wma_handler c) (f (legacy_sys_handler c)) (watchdog_timer c) (watchdog_callback c).
Definition upd_watchdog f c : scheduler_ctx :=
  Ctx (queue_ctx c) (sch_start_event c) (sch_thread c) (sch_shutdown c) (sch_event_flag c)
    (resume_sch_event c) (sch_last_qidx c) (watchdog_msg_type c) (hdd_callback c)
    (legacy_wma_handler c) (legacy_sys_handler c) (f (watchdog_timer c)) (watchdog_callback c).

Definition set_watchdog (ty : Z) (cb : option Z) c : scheduler_ctx :=
  Ctx (queue_ctx c) (sch_start_event c) (sch_thread c) (sch_shutdown c) (sch_event_flag c)
    (resume_sch_event c) (sch_last_qidx c) ty (hdd_callback c) (legacy_wma_handler c)
    (legacy_sys_handler c) (watchdog_timer c) cb.

Definition queues c : list (list Z) := mq_list <$> sch_msg_q (queue_ctx c).
Definition fns c : list (option process_fn) := scheduler_msg_process_fn (queue_ctx c).
Definition qidx_map c : list Z := scheduler_msg_qid_to_qidx (queue_ctx c).
Definition upd_mq (i : nat) (f : list Z -> list Z) c : scheduler_ctx :=
  upd_queues (fun q => MqCtx (alter (fun mq => Mq (f (mq_list mq)) (mq_qid mq)) i (sch_msg_q q))
    (scheduler_msg_qid_to_qidx q) (scheduler_msg_process_fn q)) c.
Definition upd_mq_qid (i : nat) (qid : Z) c : scheduler_ctx :=
  upd_queues (fun q => MqCtx (alter (fun mq => Mq (mq_list mq) qid) i (sch_msg_q q))
    (scheduler_msg_qid_to_qidx q) (scheduler_msg_process_fn q)) c.
Definition upd_qidx (l : list Z) c : scheduler_ctx :=
  upd_queues (fun q => MqCtx (sch_msg_q q) l (scheduler_msg_process_fn q)) c.
Definition upd_fns (l : list (option process_fn)) c : scheduler_ctx :=
  upd_queues (fun q => MqCtx (sch_msg_q q) (scheduler_msg_qid_to_qidx q) l) c.
End SchedCtx.

(** An array element written: outside the array is a crash. *)
Definition array_set {S A} (l : list A) (i : Z) (x : A) : M S (list A) :=
  if (0 <=? i) && (i <? Z.of_nat (length l)) then mret (<[Z.to_nat i := x]> l) else crash.
Definition array_get {S A} (l : list A) (i : Z) : M S A :=
  if 0 <=? i then deref (l !! Z.to_nat i) else crash.

Section Sched.
Context {P : Type} `{IP : item_pool P} {E : sched_env P}.

Abbreviation W := (sched_world P).
Abbreviation MW := (M W).
Implicit Types (s : W) (a : Z) (i : nat) (m : scheduler_msg).

Definition set_gp f s : W :=
  World (f (gp_sched_ctx s)) (g_sched_ctx s) (sched_queue_depth s) (sched_dup_fail_count s)
    (sched_pool s) (messages s) (sched_history s) (sched_history_index s) (os_timers s)
    (scheduler_timer_callback s) (now s) (thread s) (trace s).
Definition set_ctx f s : W :=
  World (gp_sched_ctx s) (f (g_sched_ctx s)) (sched_queue_depth s) (sched_dup_fail_count s)
    (sched_pool s) (messages s) (sched_history s) (sched_history_index s) (os_timers s)
    (scheduler_timer_callback s) (now s) (thread s) (trace s).
Definition set_depth f s : W :=
  World (gp_sched_ctx s) (g_sched_ctx s) (f (sched_queue_depth s)) (sched_dup_fail_count s)
    (sched_pool s) (messages s) (sched_history s) (sched_history_index s) (os_timers s)
    (scheduler_timer_callback s) (now s) (thread s) (trace s).
Definition set_fail_count f s : W :=
  World (gp_sched_ctx s) (g_sched_ctx s) (sched_queue_depth s) (f (sched_dup_fail_count s))
    (sched_pool s) (messages s) (sched_history s) (sched_history_index s) (os_timers s)
    (scheduler_timer_callback s) (now s) (thread s) (trace s).
Definition set_pool f s : W :=
  World (gp_sched_ctx s) (g_sched_ctx s) (sched_queue_depth s) (sched_dup_fail_count s)
    (f (sched_pool s)) (messages s) (sched_history s) (sched_history_index s) (os_timers s)
    (scheduler_timer_callback s) (now s) (thread s) (trace s).
Definition set_messages f s : W :=
  World (gp_sched_ctx s) (g_sched_ctx s) (sched_queue_depth s) (sched_dup_fail_count s)
    (sched_pool s) (f (messages s)) (sched_history s) (sched_history_index s) (os_timers s)
    (scheduler_timer_callback s) (now s) (thread s) (trace s).
Definition set_history f s : W :=
  World (gp_sched_ctx s) (g_sched_ctx s) (sched_queue_depth s) (sched_dup_fail_count s)
    (sched_pool s) (messages s) (f (sched_history s)) (sched_history_index s) (os_timers s)
    (scheduler_timer_callback s) (now s) (thread s) (trace s).
Definition set_history_index f s : W :=
  World (gp_sched_ctx s) (g_sched_ctx s) (sched_queue_depth s) (sched_dup_fail_count s)
    (sched_pool s) (messages s) (sched_history s) (f (sched_history_index s)) (os_timers s)
    (scheduler_timer_callback s) (now s) (thread s) (trace s).
Definition set_os_timers f s : W :=
  World (gp_sched_ctx s) (g_sched_ctx s) (sched_queue_depth s) (sched_dup_fail_count s)
    (sched_pool s) (messages s) (sched_history s) (sched_history_index s) (f (os_timers s))
    (scheduler_timer_callback s) (now s) (thread s) (trace s).
Definition set_timer_callback f s : W :=
  World (gp_sched_ctx s) (g_sched_ctx s) (sched_queue_depth s) (sched_dup_fail_count s)
    (sched_pool s) (messages s) (sched_history s) (sched_history_index s) (os_timers s)
    (f (scheduler_timer_callback s)) (now s) (thread s) (trace s).
Definition set_now f s : W :=
  World (gp_sched_ctx s) (g_sched_ctx s) (sched_queue_depth s) (sched_dup_fail_count s)
    (sched_pool s) (messages s) (sched_history s) (sched_history_index s) (os_timers s)
    (scheduler_timer_callback s) (f (now s)) (thread s) (trace s).
Definition set_thread f s : W :=
  World (gp_sched_ctx s) (g_sched_ctx s) (sched_queue_depth s) (sched_dup_fail_count s)
    (sched_pool s) (messages s) (sched_history s) (sched_history_index s) (os_timers s)
    (scheduler_timer_callback s) (now s) (f (thread s)) (trace s).
Definition set_trace f s : W :=
  World (gp_sched_ctx s) (g_sched_ctx s) (sched_queue_depth s) (sched_dup_fail_count s)
    (sched_pool s) (messages s) (sched_history s) (sched_history_index s) (os_timers s)
    (scheduler_timer_callback s) (now s) (thread s) (f (trace s)).

Definition emit (e : sched_event) : MW unit := modify (set_trace (fun l => l ++ [e])).
Definition QDF_DEBUG_PANIC : MW unit := emit EvPanic.
Definition ctx {A} (f : scheduler_ctx -> A) : MW A := gets (fun s => f (g_sched_ctx s)).
Definition upd (f : scheduler_ctx -> scheduler_ctx) : MW unit := modify (set_ctx f).
Definition when (b : bool) (m : MW unit) : MW unit := if b then m else mret ().

(** A program on a part of the memory. *)
Definition on_pool {A} (m : M P A) : MW A := fun s =>
  match m (sched_pool s) with
  | Ret x p => Ret x (set_pool (fun _ => p) s)
  | Crash => Crash
  | OutOfFuel => OutOfFuel
  end.
Definition on_timers {A} (m : M mc_timers A) : MW A := fun s =>
  match m (os_timers s) with
  | Ret x t => Ret x (set_os_timers (fun _ => t) s)
  | Crash => Crash
  | OutOfFuel => OutOfFuel
  end.

(** A call on an event of the context. *)
Definition on_event (get : scheduler_ctx -> qdf_event_t)
    (put : (qdf_event_t -> qdf_event_t) -> scheduler_ctx -> scheduler_ctx)
    (f : qdf_event_t -> QDF_STATUS * qdf_event_t) : MW QDF_STATUS :=
  e ← ctx get;
  let '(status, e') := f e in
  upd (put (fun _ => e'));; mret status.

(** [qdf_atomic_set_bit] and the like, on the 64 bits of [sch_event_flag]. *)
Definition qdf_atomic_set_bit (nr : Z) : MW unit :=
  if (0 <=? nr) && (nr <? 64) then upd (upd_flag (fun b => Z.setbit b nr)) else crash.
Definition qdf_atomic_clear_bit (nr : Z) : MW unit :=
  if (0 <=? nr) && (nr <? 64) then upd (upd_flag (fun b => Z.clearbit b nr)) else crash.
Definition qdf_atomic_test_bit (nr : Z) : MW bool := ctx (fun c => Z.testbit (sch_event_flag c) nr).
Definition qdf_atomic_test_and_clear_bit (nr : Z) : MW bool :=
  b ← qdf_atomic_test_bit nr; qdf_atomic_clear_bit nr;; mret b.

Definition read_msg a : MW scheduler_msg := m ← gets (fun s => messages s !! a); deref m.

(** ** History *)

Definition sched_history_queue i a : MW unit :=
  q ← ctx (fun c => sch_msg_q (queue_ctx c) !! i);
  mq ← deref q;
  t ← gets now;
  read_msg a;;
  modify (set_messages (alter (set_queued (mq_qid mq) (Z.of_nat (length (mq_list mq))) t) a)).

Definition sched_history_start a : MW unit :=
  started_at_us ← gets now;
  m ← read_msg a;
  idx ← gets sched_history_index;
  hist ← gets sched_history;
  hist' ← array_set hist idx
    (HistoryItem (callback m) (type m) 0 (queued_at_us m) (wrap 32 (started_at_us - queued_at_us m))
       (queue_depth m) started_at_us 0);
  modify (set_history (fun _ => hist')).

Definition sched_history_stop : MW unit :=
  idx ← gets sched_history_index;
  hist ← gets sched_history;
  h ← array_get hist idx;
  stopped_at_us ← gets now;
  hist' ← array_set hist idx
    (HistoryItem (h_callback h) (h_type_id h) (h_queue_id h) (h_queue_start_us h)
       (h_queue_duration_us h) (h_queue_depth h) (h_run_start_us h)
       (wrap 32 (stopped_at_us - h_run_start_us h)));
  modify (set_history (fun _ => hist'));;
  modify (set_history_index (fun n => wrap 32 (n + 1) mod Z.of_nat WLAN_SCHED_HISTORY_SIZE)).

(** The items that are printed, oldest first. *)
Definition sched_history_print : MW (list sched_history_item) :=
  hist ← gets sched_history;
  idx ← gets sched_history_index;
  mret (List.filter (fun h => match h_callback h with Some _ => true | None => false end)
          (drop (Z.to_nat idx) hist ++ take (Z.to_nat idx) hist)).

(** ** The context and the queues *)

Definition scheduler_create_ctx : MW QDF_STATUS :=
  on_pool pool_init;; modify (set_gp (fun _ => true));; mret QDF_STATUS_SUCCESS.

Definition scheduler_destroy_ctx : MW QDF_STATUS :=
  modify (set_gp (fun _ => false));; on_pool pool_deinit;; mret QDF_STATUS_SUCCESS.

(** Whether the pointer is not NULL. *)
Definition scheduler_get_context : MW bool :=
  b ← gets gp_sched_ctx; when (negb b) QDF_DEBUG_PANIC;; mret b.

Definition scheduler_mq_init i : MW QDF_STATUS :=
  upd (upd_mq i (fun _ => []));; mret QDF_STATUS_SUCCESS.

(** Destroying a list that is not empty fails an assertion. *)
Definition scheduler_mq_deinit i : MW unit :=
  q ← ctx (fun c => queues c !! i);
  l ← deref q;
  when (negb (bool_decide (l = []))) QDF_DEBUG_PANIC.

Fixpoint mq_init_loop (todo : nat) i : MW QDF_STATUS :=
  match todo with
  | O => mret QDF_STATUS_SUCCESS
  | S todo' =>
      status ← scheduler_mq_init i;
      if QDF_IS_STATUS_ERROR status then mret status else mq_init_loop todo' (S i)
  end.
Fixpoint mq_deinit_loop (todo : nat) i : MW unit :=
  match todo with
  | O => mret ()
  | S todo' => scheduler_mq_deinit i;; mq_deinit_loop todo' (S i)
  end.

Definition no_qidx : list Z :=
  replicate (Z.to_nat QDF_MODULE_ID_MAX) (Z.of_nat SCHEDULER_NUMBER_OF_MSG_QUEUE).

Definition scheduler_all_queues_init : MW QDF_STATUS :=
  modify (set_depth (fun _ => 0));;
  status ← mq_init_loop SCHEDULER_NUMBER_OF_MSG_QUEUE 0;
  if QDF_IS_STATUS_ERROR status then mret status
  else upd (upd_qidx no_qidx);; emit EvQueuesInit;; mret status.

Definition scheduler_all_queues_deinit : MW QDF_STATUS :=
  mq_deinit_loop SCHEDULER_NUMBER_OF_MSG_QUEUE 0;;
  upd (upd_qidx no_qidx);; mret QDF_STATUS_SUCCESS.

Definition scheduler_queues_init : MW QDF_STATUS :=
  status ← scheduler_all_queues_init;
  if QDF_IS_STATUS_ERROR status then scheduler_all_queues_deinit;; mret status else mret status.
Definition scheduler_queues_deinit : MW QDF_STATUS := scheduler_all_queues_deinit.

Definition scheduler_mq_put i a : MW unit :=
  sched_history_queue i a;; upd (upd_mq i (fun l => l ++ [a]));; emit (EvPut a i false).
Definition scheduler_mq_put_front i a : MW unit :=
  sched_history_queue i a;; upd (upd_mq i (fun l => a :: l));; emit (EvPut a i true).

(** [qdf_list_remove_front]. *)
Definition scheduler_mq_get i : MW (option Z) :=
  q ← ctx (fun c => queues c !! i);
  l ← deref q;
  match l with
  | [] => mret None
  | a :: rest => upd (upd_mq i (fun _ => rest));; mret (Some a)
  end.

(** ** Messages *)

Definition scheduler_core_msg_dup m : MW (option Z) :=
  modify (set_depth (fun n => n + 1));;
  depth ← gets sched_queue_depth;
  if SCHEDULER_CORE_MAX_MESSAGES <? depth then
    modify (set_fail_count (fun n => swrap 32 (n + 1)));;
    fails ← gets sched_dup_fail_count;
    when (SCHEDULER_WRAPPER_MAX_FAIL_COUNT <? fails) QDF_DEBUG_PANIC;;
    modify (set_depth (fun n => n - 1));;
    mret None
  else
    dup ← on_pool pool_alloc;
    match dup with
    | None => modify (set_depth (fun n => n - 1));; mret None
    | Some a =>
        modify (set_messages (<[a := m]>));;
        modify (set_fail_count (fun _ => 0));;
        mret (Some a)
    end.

Definition scheduler_core_msg_free a : MW unit :=
  on_pool (pool_free a);;
  modify (set_messages (delete a));;
  modify (set_depth (fun n => n - 1)).

(** ** Posting *)

(** The answer, and the caller's message, which posting may change. *)
Definition scheduler_post_msg_by_priority (qid : Z) (msg : option scheduler_msg)
    (is_high_priority : bool) : MW (QDF_STATUS * option scheduler_msg) :=
  match msg with
  | None => QDF_DEBUG_PANIC;; mret (QDF_STATUS_E_INVAL, None)
  | Some m =>
      c ← scheduler_get_context;
      if negb c then mret (QDF_STATUS_E_INVAL, msg)
      else
        running ← ctx sch_thread;
        if negb running then mret (QDF_STATUS_E_FAILURE, msg)
        else if negb (reserved m =? 0) && negb (reserved m =? SYS_MSG_COOKIE) then
          QDF_DEBUG_PANIC;; mret (QDF_STATUS_E_FAILURE, msg)
        else
          let dest_id := scheduler_get_dest_id qid in
          let src_id := scheduler_get_src_id qid in
          let que_id := scheduler_get_que_id qid in
          if (QDF_MODULE_ID_MAX <=? que_id) || (QDF_MODULE_ID_MAX <=? src_id) ||
             (QDF_MODULE_ID_MAX <=? dest_id) then mret (QDF_STATUS_E_FAILURE, msg)
          else
            let wma := que_id =? QDF_MODULE_ID_WMA in
            let m := if wma then clear_callback m else m in
            let que_id := if wma then QDF_MODULE_ID_TARGET_IF else que_id in
            map ← ctx qidx_map;
            qidx ← array_get map que_id;
            if Z.of_nat SCHEDULER_NUMBER_OF_MSG_QUEUE <=? qidx then
              mret (QDF_STATUS_E_FAILURE, Some m)
            else
              l ← ctx fns;
              fn ← array_get l qidx;
              match fn with
              | None => QDF_DEBUG_PANIC;; mret (QDF_STATUS_E_FAILURE, Some m)
              | Some _ =>
                  queue_msg ← scheduler_core_msg_dup m;
                  match queue_msg with
                  | None => mret (QDF_STATUS_E_NOMEM, Some m)
                  | Some a =>
                      (if is_high_priority then scheduler_mq_put_front (Z.to_nat qidx) a
                       else scheduler_mq_put (Z.to_nat qidx) a);;
                      qdf_atomic_set_bit MC_POST_EVENT_MASK;;
                      mret (QDF_STATUS_SUCCESS, Some m)
                  end
              end
  end.

Definition scheduler_post_msg (qid : Z) (msg : option scheduler_msg)
    : MW (QDF_STATUS * option scheduler_msg) :=
  scheduler_post_msg_by_priority qid msg false.

Definition scheduler_post_message_debug (src_id dest_id que_id : Z) (msg : option scheduler_msg)
    : MW (QDF_STATUS * option scheduler_msg) :=
  scheduler_post_msg (scheduler_get_qid src_id dest_id que_id) msg.

Definition scheduler_get_queue_size (qid : Z) : MW (QDF_STATUS * option Z) :=
  c ← gets gp_sched_ctx;
  if negb c then mret (QDF_STATUS_E_INVAL, None)
  else
    let qid := if qid =? QDF_MODULE_ID_WMA then QDF_MODULE_ID_TARGET_IF else qid in
    map ← ctx qidx_map;
    qidx ← array_get map qid;
    if Z.of_nat SCHEDULER_NUMBER_OF_MSG_QUEUE <=? qidx then mret (QDF_STATUS_E_FAILURE, None)
    else
      q ← ctx (fun c => queues c !! Z.to_nat qidx);
      l ← deref q;
      mret (QDF_STATUS_SUCCESS, Some (Z.of_nat (length l))).

(** ** Registration *)

Definition scheduler_register_module (qid : Z) (cb : option process_fn) : MW QDF_STATUS :=
  c ← scheduler_get_context;
  if negb c then mret QDF_STATUS_E_FAILURE
  else
    last ← ctx sch_last_qidx;
    if Z.of_nat SCHEDULER_NUMBER_OF_MSG_QUEUE <=? last then mret QDF_STATUS_E_FAILURE
    else
      map ← ctx qidx_map;
      map' ← array_set map qid last;
      upd (upd_qidx map');;
      upd (upd_mq_qid (Z.to_nat last) qid);;
      l ← ctx fns;
      l' ← array_set l last cb;
      upd (upd_fns l');;
      upd (upd_last_qidx (fun n => wrap 8 (n + 1)));;
      mret QDF_STATUS_SUCCESS.

Definition scheduler_deregister_module (qid : Z) : MW QDF_STATUS :=
  c ← scheduler_get_context;
  if negb c then mret QDF_STATUS_E_FAILURE
  else
    map ← ctx qidx_map;
    qidx ← array_get map qid;
    l ← ctx fns;
    l' ← array_set l qidx None;
    upd (upd_fns l');;
    upd (upd_last_qidx (fun n => wrap 8 (n - 1)));;
    map' ← array_set map qidx (Z.of_nat SCHEDULER_NUMBER_OF_MSG_QUEUE);
    upd (upd_qidx map');;
    mret QDF_STATUS_SUCCESS.

Definition with_ctx (m : MW QDF_STATUS) : MW QDF_STATUS :=
  c ← scheduler_get_context; if negb c then mret QDF_STATUS_E_FAILURE else m.

Definition scheduler_register_wma_legacy_handler (cb : option Z) : MW QDF_STATUS :=
  with_ctx (upd (upd_wma (fun _ => cb));; mret QDF_STATUS_SUCCESS).
Definition scheduler_register_sys_legacy_handler (cb : option Z) : MW QDF_STATUS :=
  with_ctx (upd (upd_sys (fun _ => cb));; mret QDF_STATUS_SUCCESS).
Definition scheduler_deregister_wma_legacy_handler : MW QDF_STATUS :=
  with_ctx (upd (upd_wma (fun _ => None));; mret QDF_STATUS_SUCCESS).
Definition scheduler_deregister_sys_legacy_handler : MW QDF_STATUS :=
  with_ctx (upd (upd_sys (fun _ => None));; mret QDF_STATUS_SUCCESS).

Definition scheduler_resume : MW unit :=
  c ← scheduler_get_context;
  when c (on_event resume_sch_event upd_resume qdf_event_set;; mret ()).
Definition scheduler_register_hdd_suspend_callback (cb : option Z) : MW unit :=
  c ← scheduler_get_context; when c (upd (upd_hdd (fun _ => cb))).
(** Waking up the thread: it looks at its event bits again, which the model lets it do
    at any time. *)
Definition scheduler_wake_up_controller_thread : MW unit :=
  c ← scheduler_get_context; when c (mret ()).
Definition scheduler_set_event_mask (event_mask : Z) : MW unit :=
  c ← scheduler_get_context; when c (qdf_atomic_set_bit event_mask).
Definition scheduler_clear_event_mask (event_mask : Z) : MW unit :=
  c ← scheduler_get_context; when c (qdf_atomic_clear_bit event_mask).

(** ** Timers *)

(** The watchdog's timer goes off while a message is being handled. *)
Definition scheduler_watchdog_timeout : MW unit :=
  b ← qdf_atomic_test_bit MC_SHUTDOWN_EVENT_MASK;
  if b : bool then mret () else QDF_DEBUG_PANIC.

(** The flush callback of timer messages, which are the model's only messages with
    this address. *)
Definition scheduler_msg_flush_noop : Z := 0.

Definition scheduler_mc_timer_callback (timer : option Z) : MW unit :=
  match timer with
  | None => QDF_DEBUG_PANIC
  | Some t =>
      x ← on_timers (mc_timer_expired t);
      let '(status, cb, user_data, ty) := x in
      if QDF_IS_STATUS_ERROR status then mret ()
      else
        on_timers (qdf_try_allowing_sleep ty);;
        match cb with
        | None => QDF_DEBUG_PANIC
        | Some _ =>
            let msg := Msg SYS_MSG_ID_MC_TIMER SYS_MSG_COOKIE 0 user_data cb
                         (Some scheduler_msg_flush_noop) 0 0 0 in
            scheduler_post_message_debug QDF_MODULE_ID_SCHEDULER QDF_MODULE_ID_SCHEDULER
              QDF_MODULE_ID_SYS (Some msg);;
            mret ()
        end
  end.

(** The kernel timer of an MC timer goes off: [__os_mc_timer_shim] calls the function
    that was registered. *)
Definition os_mc_timer_shim t : MW unit :=
  fires ← on_timers (kernel_timer_fires t);
  if fires : bool then
    registered ← gets scheduler_timer_callback;
    if registered : bool then scheduler_mc_timer_callback (Some t) else crash
  else mret ().

(** ** Calls of clients *)

Definition run_client_op (o : client_op) : MW QDF_STATUS :=
  match o with
  | CPost qid msg high => x ← scheduler_post_msg_by_priority qid msg high; mret (fst x)
  | CPostMessage src dest que msg => x ← scheduler_post_message_debug src dest que msg; mret (fst x)
  | CTimer o => on_timers (run_op o);; mret QDF_STATUS_SUCCESS
  | CTimerFires t => os_mc_timer_shim t;; mret QDF_STATUS_SUCCESS
  | CWatchdogFires =>
      armed ← ctx watchdog_timer;
      when armed (upd (upd_watchdog (fun _ => false));; scheduler_watchdog_timeout);;
      mret QDF_STATUS_SUCCESS
  | CRegisterModule qid fn => scheduler_register_module qid fn
  | CDeregisterModule qid => scheduler_deregister_module qid
  | CRegisterWma f => scheduler_register_wma_legacy_handler f
  | CDeregisterWma => scheduler_deregister_wma_legacy_handler
  | CRegisterSys f => scheduler_register_sys_legacy_handler f
  | CDeregisterSys => scheduler_deregister_sys_legacy_handler
  | CRegisterSuspend f => scheduler_register_hdd_suspend_callback f;; mret QDF_STATUS_SUCCESS
  | CResume => scheduler_resume;; mret QDF_STATUS_SUCCESS
  | CWakeUp => scheduler_wake_up_controller_thread;; mret QDF_STATUS_SUCCESS
  | CSetEventMask b => scheduler_set_event_mask b;; mret QDF_STATUS_SUCCESS
  | CClearEventMask b => scheduler_clear_event_mask b;; mret QDF_STATUS_SUCCESS
  | CGetQueueSize qid => x ← scheduler_get_queue_size qid; mret (fst x)
  end.

Fixpoint run_script (p : script P) : MW QDF_STATUS :=
  match p with
  | Answer status => mret status
  | Do o k => r ← run_client_op o; run_script (k r)
  | Look k => fun s => run_script (k s) s
  end.

Definition call_msg_fn (f a : Z) : MW QDF_STATUS :=
  m ← read_msg a; emit (EvCall f a);; run_script (msg_does f a m).

(** ** Queue handlers *)

Definition scheduler_target_if_mq_handler (msg : option Z) : MW QDF_STATUS :=
  c ← scheduler_get_context;
  match msg with
  | None => QDF_DEBUG_PANIC;; mret QDF_STATUS_E_FAILURE
  | Some a =>
      if negb c then mret QDF_STATUS_E_FAILURE
      else
        m ← read_msg a;
        match callback m with
        | None => h ← ctx legacy_wma_handler; f ← deref h; call_msg_fn f a
        | Some f => call_msg_fn f a
        end
  end.

(** What scheduler_os_if_mq_handler, scheduler_mlme_mq_handler and
    scheduler_scan_mq_handler do: the callback's answer is dropped. *)
Definition call_callback (msg : option Z) : MW QDF_STATUS :=
  match msg with
  | None => QDF_DEBUG_PANIC;; mret QDF_STATUS_E_FAILURE
  | Some a =>
      m ← read_msg a;
      match callback m with
      | None => QDF_DEBUG_PANIC;; mret QDF_STATUS_E_FAILURE
      | Some f => call_msg_fn f a;; mret QDF_STATUS_SUCCESS
      end
  end.
Definition scheduler_os_if_mq_handler := call_callback.
Definition scheduler_mlme_mq_handler := call_callback.
Definition scheduler_scan_mq_handler := call_callback.

Definition scheduler_timer_q_mq_handler (msg : option Z) : MW QDF_STATUS :=
  c ← scheduler_get_context;
  match msg with
  | None => QDF_DEBUG_PANIC;; mret QDF_STATUS_E_FAILURE
  | Some a =>
      if negb c then mret QDF_STATUS_E_FAILURE
      else
        m ← read_msg a;
        if negb (reserved m =? SYS_MSG_COOKIE) || negb (type m =? SYS_MSG_ID_MC_TIMER) then
          h ← ctx legacy_sys_handler; f ← deref h; call_msg_fn f a
        else
          match callback m with
          | None => QDF_DEBUG_PANIC;; mret QDF_STATUS_E_FAILURE
          | Some f =>
              emit (EvTimerCall f (bodyptr m));; run_script (timer_does f (bodyptr m));;
              mret QDF_STATUS_SUCCESS
          end
  end.

Definition run_process_fn (fn : process_fn) a : MW QDF_STATUS :=
  match fn with
  | scheduler_target_if_mq_handler_fn => scheduler_target_if_mq_handler (Some a)
  | scheduler_os_if_mq_handler_fn => scheduler_os_if_mq_handler (Some a)
  | scheduler_timer_q_mq_handler_fn => scheduler_timer_q_mq_handler (Some a)
  | scheduler_mlme_mq_handler_fn => scheduler_mlme_mq_handler (Some a)
  | scheduler_scan_mq_handler_fn => scheduler_scan_mq_handler (Some a)
  | client_fn f => call_msg_fn f a
  end.

(** ** The thread *)

Definition call_suspend : MW unit :=
  h ← ctx hdd_callback;
  match h with
  | Some f => emit (EvSuspended f);; run_script (suspend_does f);; mret ()
  | None => mret ()
  end.

(** One round of the loop of [scheduler_thread_process_queues] at queue [i]: the queue
    of the next round, or [None] when it breaks off to shut down. *)
Definition process_queues_round i : MW (option nat) :=
  stop ← qdf_atomic_test_bit MC_SHUTDOWN_EVENT_MASK;
  if stop : bool then
    suspend ← qdf_atomic_test_and_clear_bit MC_SUSPEND_EVENT_MASK;
    when suspend call_suspend;;
    mret None
  else
    msg ← scheduler_mq_get i;
    match msg with
    | None => mret (Some (S i))
    | Some a =>
        l ← ctx fns;
        fn ← array_get l (Z.of_nat i);
        match fn with
        | Some fn =>
            emit (EvTake a i);;
            m ← read_msg a;
            upd (set_watchdog (type m) (callback m));;
            sched_history_start a;;
            upd (upd_watchdog (fun _ => true));;
            run_process_fn fn a;;
            upd (upd_watchdog (fun _ => false));;
            sched_history_stop;;
            scheduler_core_msg_free a
        | None => emit (EvDrop a i)
        end;;
        mret (Some O)
    end.

(** The end of the round of [scheduler_thread]: back to waiting, or out. *)
Definition thread_loop (shutdown : bool) : MW unit :=
  if shutdown then
    on_event sch_shutdown upd_shutdown qdf_event_set;;
    modify (set_thread (fun _ => T_exited))
  else modify (set_thread (fun _ => T_wait)).

(** After the loop over the queues. *)
Definition process_queues_end (shutdown : bool) : MW unit :=
  suspend ← qdf_atomic_test_and_clear_bit MC_SUSPEND_EVENT_MASK;
  if suspend : bool then
    on_event resume_sch_event upd_resume qdf_event_reset;;
    call_suspend;;
    modify (set_thread (fun _ => T_suspended shutdown))
  else thread_loop shutdown.

(** The scheduler thread up to the next point where others may run. *)
Definition scheduler_thread_step : MW unit :=
  pc ← gets thread;
  match pc with
  | T_none | T_exited => mret ()
  | T_wait =>
      post ← qdf_atomic_test_bit MC_POST_EVENT_MASK;
      suspend ← qdf_atomic_test_bit MC_SUSPEND_EVENT_MASK;
      if (post || suspend) : bool then
        qdf_atomic_clear_bit MC_POST_EVENT_MASK;;
        emit EvWake;; modify (set_thread (fun _ => T_scan 0))
      else mret ()
  | T_scan i =>
      if (i <? SCHEDULER_NUMBER_OF_MSG_QUEUE)%nat then
        r ← process_queues_round i;
        match r with
        | Some i' => modify (set_thread (fun _ => T_scan i'))
        | None => process_queues_end true
        end
      else process_queues_end false
  | T_suspended shutdown =>
      e ← ctx resume_sch_event;
      match qdf_wait_single_event e with
      | None => mret ()
      | Some (_, e') => upd (upd_resume (fun _ => e'));; thread_loop shutdown
      end
  end.

(** The prologue of [scheduler_thread]. *)
Definition scheduler_thread_start : MW unit :=
  on_event sch_start_event upd_start qdf_event_set;; modify (set_thread (fun _ => T_wait)).

(** ** Flushing *)

Fixpoint flush_loop (fuel : nat) i : MW unit :=
  match fuel with
  | O => out_of_fuel
  | S fuel' =>
      msg ← scheduler_mq_get i;
      match msg with
      | None => mret ()
      | Some a =>
          emit (EvFlush a i);;
          m ← read_msg a;
          match flush_callback m, bodyptr m with
          | Some f, _ => emit (EvFlushCall f a);; run_script (flush_does f a m);; mret ()
          | None, Some p => emit (EvFreeBody p)
          | None, None => mret ()
          end;;
          scheduler_core_msg_free a;;
          flush_loop fuel' i
      end
  end.

(** The loop runs once for each message that is in the queue at its start. *)
Definition scheduler_flush_single_queue i : MW unit :=
  q ← ctx (fun c => queues c !! i);
  l ← deref q;
  flush_loop (S (length l)) i.

Fixpoint queues_flush_loop (todo : nat) i : MW unit :=
  match todo with
  | O => mret ()
  | S todo' => scheduler_flush_single_queue i;; queues_flush_loop todo' (S i)
  end.
Definition scheduler_queues_flush : MW unit := queues_flush_loop SCHEDULER_NUMBER_OF_MSG_QUEUE 0.

(** ** Life cycle *)

(** [scheduler_disable] up to its wait, and from there on: [None] while it waits. *)
Definition scheduler_disable_begin : MW QDF_STATUS :=
  c ← scheduler_get_context;
  if negb c then mret QDF_STATUS_E_INVAL
  else
    qdf_atomic_set_bit MC_SHUTDOWN_EVENT_MASK;;
    qdf_atomic_set_bit MC_POST_EVENT_MASK;;
    mret QDF_STATUS_SUCCESS.
Definition scheduler_disable_end : MW (option QDF_STATUS) :=
  e ← ctx sch_shutdown;
  match qdf_wait_single_event e with
  | None => mret None
  | Some (_, e') =>
      upd (upd_shutdown (fun _ => e'));;
      upd (upd_thread_ptr (fun _ => false));;
      scheduler_queues_flush;;
      mret (Some QDF_STATUS_SUCCESS)
  end.

(** The new thread runs its prologue, which is what the caller waits for. *)
Definition scheduler_enable : MW QDF_STATUS :=
  c ← scheduler_get_context;
  if negb c then mret QDF_STATUS_E_INVAL
  else
    qdf_atomic_clear_bit MC_SHUTDOWN_EVENT_MASK;;
    qdf_atomic_clear_bit MC_POST_EVENT_MASK;;
    created ← gets (fun s => thread_ok (length (trace s)));
    upd (upd_thread_ptr (fun _ => created));;
    if negb created then mret QDF_STATUS_E_RESOURCES
    else
      scheduler_thread_start;;
      e ← ctx sch_start_event;
      match qdf_wait_single_event e with
      | None => out_of_fuel
      | Some (_, e') => upd (upd_start (fun _ => e'));; mret QDF_STATUS_SUCCESS
      end.

Definition scheduler_init : MW QDF_STATUS :=
  status ← scheduler_create_ctx;
  if QDF_IS_STATUS_ERROR status then mret status
  else
    c ← scheduler_get_context;
    if negb c then scheduler_destroy_ctx;; mret QDF_STATUS_E_FAILURE
    else
      status ← scheduler_queues_init;
      if QDF_IS_STATUS_ERROR status then scheduler_destroy_ctx;; mret status
      else
        status ← on_event sch_start_event upd_start qdf_event_create;
        if QDF_IS_STATUS_ERROR status then
          scheduler_queues_deinit;; scheduler_destroy_ctx;; mret status
        else
          status ← on_event sch_shutdown upd_shutdown qdf_event_create;
          if QDF_IS_STATUS_ERROR status then
            on_event sch_start_event upd_start qdf_event_destroy;;
            scheduler_queues_deinit;; scheduler_destroy_ctx;; mret status
          else
            status ← on_event resume_sch_event upd_resume qdf_event_create;
            if QDF_IS_STATUS_ERROR status then
              on_event sch_shutdown upd_shutdown qdf_event_destroy;;
              on_event sch_start_event upd_start qdf_event_destroy;;
              scheduler_queues_deinit;; scheduler_destroy_ctx;; mret status
            else
              upd (upd_flag (fun _ => 0));;
              upd (upd_watchdog (fun _ => false));;
              modify (set_timer_callback (fun _ => true));;
              mret QDF_STATUS_SUCCESS.

Definition scheduler_deinit : MW QDF_STATUS :=
  c ← scheduler_get_context;
  if negb c then mret QDF_STATUS_E_INVAL
  else
    upd (upd_watchdog (fun _ => false));;
    on_event resume_sch_event upd_resume qdf_event_destroy;;
    on_event sch_shutdown upd_shutdown qdf_event_destroy;;
    on_event sch_start_event upd_start qdf_event_destroy;;
    scheduler_queues_deinit;;
    scheduler_destroy_ctx;;
    mret QDF_STATUS_SUCCESS.

(** ** Steps of the system *)

Inductive sched_step : Type :=
  | SClient (o : client_op)
  | SThread
  | SInit
  | SEnable
  | SDisableBegin
  | SDisableEnd
  | SDeinit
  | STime (us : Z).

Definition run_step (x : sched_step) : MW unit :=
  match x with
  | SClient o => run_client_op o;; mret ()
  | SThread => scheduler_thread_step
  | SInit => scheduler_init;; mret ()
  | SEnable => scheduler_enable;; mret ()
  | SDisableBegin => scheduler_disable_begin;; mret ()
  | SDisableEnd => scheduler_disable_end;; mret ()
  | SDeinit => scheduler_deinit;; mret ()
  | STime us => modify (set_now (fun t => wrap 64 (t + us)))
  end.

(** Static memory before the scheduler is used, with a pool and the timers of the
    driver's memory. *)
Definition ctx_zero : scheduler_ctx :=
  Ctx (MqCtx (replicate SCHEDULER_NUMBER_OF_MSG_QUEUE (Mq [] 0))
         (replicate (Z.to_nat QDF_MODULE_ID_MAX) 0)
         (replicate SCHEDULER_NUMBER_OF_MSG_QUEUE None))
    event_zero false event_zero 0 event_zero 0 0 None None None false None.
Definition world_zero (p : P) (t : mc_timers) : W :=
  World false ctx_zero 0 0 p ∅
    (replicate WLAN_SCHED_HISTORY_SIZE (HistoryItem None 0 0 0 0 0 0 0)) 0 t false 0 T_none [].

End Sched.
