(* ===== verification/SchedInv.v ===== *)
(** * The scheduler's invariant

    [sched_inv cur k s]: the state of the scheduler while the messages [cur] are in the
    hands of running code and the thread has passed the first [k] queues; what the
    interface's functions do to it.  [spec_run] is the abstract scheduler that reads the
    trace: six lists, and the order in which messages may leave them. *)
From S2P Require Import Prelude ItemPool QdfOs Sched.
Import Event McTimer.

(** ** The abstract scheduler *)

(** The queues, and the messages that came since the thread last took one or woke up. *)
Record prio_spec : Type := Spec { sp_queues : list (list Z); sp_fresh : list Z }.
Definition spec_zero : prio_spec := Spec (replicate SCHEDULER_NUMBER_OF_MSG_QUEUE []) [].

(** The first message of a queue leaves it. *)
Definition spec_pop (a : Z) (i : nat) (q : list (list Z)) : option (list (list Z)) :=
  match q !! i with
  | Some (b :: rest) => if bool_decide (a = b) then Some (<[i := rest]> q) else None
  | _ => None
  end.

(** A message may be taken for handling when the queues before its own hold only
    messages that came after the one taken before it. *)
Definition spec_step (sp : prio_spec) (e : sched_event) : option prio_spec :=
  match e with
  | EvPut a i front =>
      Some (Spec (alter (fun l => if front then a :: l else l ++ [a]) i (sp_queues sp))
              (a :: sp_fresh sp))
  | EvTake a i =>
      if forallb (forallb (fun b => bool_decide (b ∈ sp_fresh sp))) (take i (sp_queues sp)) then
        q ← spec_pop a i (sp_queues sp); Some (Spec q [])
      else None
  | EvFlush a i => q ← spec_pop a i (sp_queues sp); Some (Spec q (sp_fresh sp))
  | EvDrop _ _ => None
  | EvWake => Some (Spec (sp_queues sp) [])
  | EvQueuesInit =>
      if forallb (fun l => bool_decide (l = [])) (sp_queues sp) then Some sp else None
  | _ => Some sp
  end.

Definition spec_run (l : list sched_event) : option prio_spec :=
  foldl (fun o e => sp ← o; spec_step sp e) (Some spec_zero) l.

Lemma spec_run_snoc l e : spec_run (l ++ [e]) = (sp ← spec_run l; spec_step sp e).
Proof. unfold spec_run. by rewrite foldl_app. Qed.

(** ** What callers see to *)

Section Legal.
Context {P : Type} `{IP : item_pool P} {E : sched_env P}.
Abbreviation W := (sched_world P).
Implicit Types (s : W) (c : scheduler_ctx).

(** The handlers of the first and the third kind call the registered legacy handlers. *)
Definition legacy_for (fn : process_fn) c : Prop :=
  match fn with
  | scheduler_target_if_mq_handler_fn => is_Some (legacy_wma_handler c)
  | scheduler_timer_q_mq_handler_fn => is_Some (legacy_sys_handler c)
  | _ => True
  end.

Definition module_id (qid : Z) : Prop := 0 <= qid < QDF_MODULE_ID_MAX.

(** What a call of the interface requires: module ids in range; a module is registered
    with a handler whose legacy handlers are there, and deregistered when its queue is
    empty; legacy handlers stay while the scheduler runs; the POST bit is the
    scheduler's own to clear; timers are used as [McTimer] requires, and after the
    scheduler was first initialized. *)
Definition legal_client (o : client_op) s : Prop :=
  match o with
  | CTimer (TFire _) => False
  | CTimer o => scheduler_timer_callback s = true /\ legal_op o (os_timers s)
  | CTimerFires t => is_Some (timers (os_timers s) !! t)
  | CRegisterModule qid fn =>
      module_id qid /\ exists fn', fn = Some fn' /\ legacy_for fn' (g_sched_ctx s)
  | CDeregisterModule qid =>
      module_id qid /\
      exists qidx, qidx_map (g_sched_ctx s) !! Z.to_nat qid = Some qidx /\
                   queues (g_sched_ctx s) !! Z.to_nat qidx = Some []
  | CRegisterWma f | CRegisterSys f => is_Some f
  | CDeregisterWma | CDeregisterSys => sch_thread (g_sched_ctx s) = false
  | CSetEventMask b => 0 <= b < 64
  | CClearEventMask b => 0 <= b < 64 /\ b <> MC_POST_EVENT_MASK
  | CGetQueueSize qid => module_id qid
  | _ => True
  end.

Fixpoint legal_script (p : script P) s : Prop :=
  match p with
  | Answer _ => True
  | Do o k => legal_client o s /\ forall r s', run_client_op o s = Ret r s' -> legal_script (k r) s'
  | Look k => legal_script (k s) s
  end.

(** Clients' functions call the interface as it requires. *)
Class env_legal : Prop := EnvLegal {
  msg_legal f a m s : legal_script (msg_does f a m) s;
  timer_legal f d s : legal_script (timer_does f d) s;
  flush_legal f a m s : legal_script (flush_does f a m) s;
  suspend_legal f s : legal_script (suspend_does f) s;
  history_size : (0 < WLAN_SCHED_HISTORY_SIZE)%nat;
}.

(** ** The invariant *)

Definition queued s : list Z := concat (queues (g_sched_ctx s)).

Definition thread_active (pc : thread_pc) : bool :=
  match pc with T_none | T_exited => false | _ => true end.

(** The queues the thread has passed since it last took a message or woke up. *)
Definition scanned (pc : thread_pc) : nat :=
  match pc with
  | T_wait | T_suspended false => SCHEDULER_NUMBER_OF_MSG_QUEUE
  | T_scan i => i
  | _ => 0
  end.

(** What holds of the context alone. *)
Record ctx_inv c : Prop := {
  c_queues : length (queues c) = SCHEDULER_NUMBER_OF_MSG_QUEUE;
  c_fns : length (fns c) = SCHEDULER_NUMBER_OF_MSG_QUEUE;
  c_map : length (qidx_map c) = Z.to_nat QDF_MODULE_ID_MAX;
  c_map_range : Forall (fun x => 0 <= x <= Z.of_nat SCHEDULER_NUMBER_OF_MSG_QUEUE) (qidx_map c);
  c_last : 0 <= sch_last_qidx c;
  c_handled i l : queues c !! i = Some l -> l <> [] -> exists fn, fns c !! i = Some (Some fn);
  c_legacy i fn : sch_thread c = true -> fns c !! i = Some (Some fn) -> legacy_for fn c;
}.

(** Messages: those in use are in the queues or being worked on, and are counted. *)
Record msgs_inv (cur : list Z) s : Prop := {
  m_pool : pool_ok (sched_pool s);
  m_live : pool_live (sched_pool s) ≡ₚ cur ++ queued s;
  m_mem a : is_Some (messages s !! a) <-> a ∈ pool_live (sched_pool s);
  m_depth : sched_queue_depth s = Z.of_nat (length (pool_live (sched_pool s)));
  m_max : sched_queue_depth s <= SCHEDULER_CORE_MAX_MESSAGES;
}.

(** The thread and its events. *)
Record thread_inv s : Prop := {
  t_active : thread_active (thread s) = true -> sch_thread (g_sched_ctx s) = true;
  t_none : thread s = T_none -> sch_thread (g_sched_ctx s) = false;
  t_ctx : sch_thread (g_sched_ctx s) = true -> gp_sched_ctx s = true;
  t_events : let c := g_sched_ctx s in
    initialized (sch_start_event c) = gp_sched_ctx s /\
    initialized (sch_shutdown c) = gp_sched_ctx s /\
    initialized (resume_sch_event c) = gp_sched_ctx s;
  t_start : 0 <= complete (sch_start_event (g_sched_ctx s));
  t_shutdown : complete (sch_shutdown (g_sched_ctx s)) =
    if sch_thread (g_sched_ctx s) && negb (thread_active (thread s)) then 1 else 0;
  t_callback : scheduler_timer_callback s = true \/
    forall t r, timers (os_timers s) !! t = Some r -> running r = false;
  t_timers : timers_inv (os_timers s);
  t_history : length (sched_history s) = WLAN_SCHED_HISTORY_SIZE;
  t_history_index : 0 <= sched_history_index s < Z.of_nat WLAN_SCHED_HISTORY_SIZE;
}.

(** The order of messages: a message in a queue that the thread has passed will be seen,
    since the POST bit is set, and came after the thread passed. *)
Record order_inv (k : nat) s : Prop := {
  o_wake j l : (j < k)%nat -> queues (g_sched_ctx s) !! j = Some l -> l <> [] ->
    Z.testbit (sch_event_flag (g_sched_ctx s)) MC_POST_EVENT_MASK = true;
  o_spec : exists sp, spec_run (trace s) = Some sp /\ sp_queues sp = queues (g_sched_ctx s) /\
    forall j l a, (j < k)%nat -> queues (g_sched_ctx s) !! j = Some l -> a ∈ l -> a ∈ sp_fresh sp;
}.

Record sched_inv (cur : list Z) (k : nat) s : Prop := {
  inv_ctx : ctx_inv (g_sched_ctx s);
  inv_msgs : msgs_inv cur s;
  inv_thread : thread_inv s;
  inv_order : order_inv k s;
}.

(** Between steps. *)
Record sched_ok s : Prop := {
  ok_inv : sched_inv [] (scanned (thread s)) s;
  ok_stopped : sch_thread (g_sched_ctx s) = false -> queued s = [];
}.

(** What a call of the interface leaves alone. *)
Record frame s s' : Prop := {
  fr_thread : thread s' = thread s;
  fr_gp : gp_sched_ctx s' = gp_sched_ctx s;
  fr_running : sch_thread (g_sched_ctx s') = sch_thread (g_sched_ctx s);
  fr_queues : sch_thread (g_sched_ctx s) = false ->
    queues (g_sched_ctx s') = queues (g_sched_ctx s);
  fr_trace : exists l, trace s' = trace s ++ l;
}.

(** ** Frames *)

Lemma frame_refl s : frame s s.
Proof. constructor; try done. exists []. by rewrite app_nil_r. Qed.

Lemma frame_trans s1 s2 s3 : frame s1 s2 -> frame s2 s3 -> frame s1 s3.
Proof.
  intros [A1 A2 A3 A4 [l1 A5]] [B1 B2 B3 B4 [l2 B5]]. constructor; try congruence.
  - intros H. rewrite B4, A4; congruence.
  - exists (l1 ++ l2). by rewrite B5, A5, app_assoc.
Qed.

(** ** Steps on the parts *)

Lemma array_get_ret {S A} (l : list A) i x (s : S) :
  0 <= i -> l !! Z.to_nat i = Some x -> array_get l i s = Ret x s.
Proof. intros Hi Hl. unfold array_get. rewrite (proj2 (Z.leb_le _ _)), Hl by done. done. Qed.

Lemma array_set_ret {S A} (l : list A) i x (s : S) :
  0 <= i < Z.of_nat (length l) -> array_set l i x s = Ret (<[Z.to_nat i := x]> l) s.
Proof.
  intros Hi. unfold array_set.
  by rewrite (proj2 (Z.leb_le _ _)), (proj2 (Z.ltb_lt _ _)) by lia.
Qed.

Lemma on_pool_ret {A} (m : M P A) x p s :
  m (sched_pool s) = Ret x p -> on_pool m s = Ret x (set_pool (fun _ => p) s).
Proof. unfold on_pool. by intros ->. Qed.

Lemma on_timers_ret {A} (m : M mc_timers A) x t s :
  m (os_timers s) = Ret x t -> on_timers m s = Ret x (set_os_timers (fun _ => t) s).
Proof. unfold on_timers. by intros ->. Qed.

Lemma set_bit_ret nr s :
  0 <= nr < 64 -> qdf_atomic_set_bit nr s = Ret tt (set_ctx (upd_flag (fun b => Z.setbit b nr)) s).
Proof.
  intros H. unfold qdf_atomic_set_bit.
  by rewrite (proj2 (Z.leb_le _ _)), (proj2 (Z.ltb_lt _ _)) by lia.
Qed.

Lemma clear_bit_ret nr s :
  0 <= nr < 64 ->
  qdf_atomic_clear_bit nr s = Ret tt (set_ctx (upd_flag (fun b => Z.clearbit b nr)) s).
Proof.
  intros H. unfold qdf_atomic_clear_bit.
  by rewrite (proj2 (Z.leb_le _ _)), (proj2 (Z.ltb_lt _ _)) by lia.
Qed.

Lemma read_msg_ret a m s : messages s !! a = Some m -> read_msg a s = Ret m s.
Proof. intros H. unfold read_msg. by rewrite bind_gets, H. Qed.

Lemma on_event_ret get put f s :
  on_event get put f s =
  Ret (f (get (g_sched_ctx s))).1 (set_ctx (put (fun _ => (f (get (g_sched_ctx s))).2)) s).
Proof.
  unfold on_event, ctx. rewrite bind_gets. by destruct (f (get (g_sched_ctx s))).
Qed.

(** ** Queues as lists of lists *)

Lemma queues_upd_mq i f c : queues (upd_mq i f c) = alter f i (queues c).
Proof.
  unfold queues, upd_mq. cbn. apply list_eq. intros j.
  rewrite !list_lookup_alter, !list_lookup_fmap, !list_lookup_alter. case_decide; [|done].
  by destruct (sch_msg_q (queue_ctx c) !! i).
Qed.

Lemma queues_upd_mq_qid i q c : queues (upd_mq_qid i q c) = queues c.
Proof.
  unfold queues, upd_mq_qid. cbn. apply list_eq. intros j.
  rewrite !list_lookup_fmap, list_lookup_alter. case_decide as Hij; [subst j|done].
  by destruct (sch_msg_q (queue_ctx c) !! i).
Qed.

Lemma concat_alter {A} (L : list (list A)) i l :
  L !! i = Some l ->
  exists rest, concat L ≡ₚ l ++ rest /\ forall f, concat (alter f i L) ≡ₚ f l ++ rest.
Proof.
  revert i. induction L as [|x L IH]; intros [|i] H; try done; cbn in *.
  - injection H as ->. exists (concat L). split; done.
  - destruct (IH i H) as (rest & H1 & H2). exists (x ++ rest). split.
    + rewrite H1. by rewrite !app_assoc, (Permutation_app_comm x l).
    + intros f. rewrite H2. by rewrite !app_assoc, (Permutation_app_comm x (f l)).
Qed.

Lemma queue_some c i :
  ctx_inv c -> (i < SCHEDULER_NUMBER_OF_MSG_QUEUE)%nat -> exists l, queues c !! i = Some l.
Proof. intros H Hi. apply lookup_lt_is_Some. by rewrite (c_queues c H). Qed.

Lemma fn_some c i :
  ctx_inv c -> (i < SCHEDULER_NUMBER_OF_MSG_QUEUE)%nat -> exists fn, fns c !! i = Some fn.
Proof. intros H Hi. apply lookup_lt_is_Some. by rewrite (c_fns c H). Qed.

Lemma elem_queued s i l a : queues (g_sched_ctx s) !! i = Some l -> a ∈ l -> a ∈ queued s.
Proof.
  intros H Ha. destruct (concat_alter _ _ _ H) as (rest & Hp & _). unfold queued. rewrite Hp.
  apply elem_of_app. by left.
Qed.

(** ** Events that only the client sees *)

(** Events of which the abstract scheduler takes no notice. *)
Definition silent (e : sched_event) : bool :=
  match e with
  | EvPut _ _ _ | EvTake _ _ | EvDrop _ _ | EvFlush _ _ | EvWake | EvQueuesInit => false
  | _ => true
  end.

Lemma spec_run_silent l e : silent e = true -> spec_run (l ++ [e]) = spec_run l.
Proof. intros H. rewrite spec_run_snoc. destruct (spec_run l) as [sp|]; [|done]. by destruct e. Qed.

Lemma order_inv_mono k k' s : (k' <= k)%nat -> order_inv k s -> order_inv k' s.
Proof.
  intros Hk [H1 (sp & A1 & A2 & A3)]. constructor.
  - intros j l Hj. apply H1. lia.
  - exists sp. split_and!; [done..|]. intros j l a Hj. apply A3. lia.
Qed.

Lemma sched_inv_mono cur k k' s : (k' <= k)%nat -> sched_inv cur k s -> sched_inv cur k' s.
Proof. intros Hk [H1 H2 H3 H4]. constructor; try done. by apply (order_inv_mono k). Qed.

(** What the invariant depends on of an order: the queues, the POST bit and the trace. *)
Lemma order_inv_ext k s s' :
  queues (g_sched_ctx s') = queues (g_sched_ctx s) ->
  (Z.testbit (sch_event_flag (g_sched_ctx s)) MC_POST_EVENT_MASK = true ->
   Z.testbit (sch_event_flag (g_sched_ctx s')) MC_POST_EVENT_MASK = true) ->
  spec_run (trace s') = spec_run (trace s) ->
  order_inv k s -> order_inv k s'.
Proof.
  intros Hq Hf Ht [H1 H2]. constructor; rewrite Hq.
  - intros j l Hj Hl Hne. apply Hf. by apply (H1 j l).
  - by rewrite Ht.
Qed.

Lemma msgs_inv_ext cur s s' :
  sched_pool s' = sched_pool s -> messages s' = messages s ->
  sched_queue_depth s' = sched_queue_depth s ->
  queues (g_sched_ctx s') = queues (g_sched_ctx s) ->
  msgs_inv cur s -> msgs_inv cur s'.
Proof.
  intros Hp Hm Hd Hq [H1 H2 H3 H4 H5].
  constructor; unfold queued in *; by rewrite ?Hp, ?Hm, ?Hd, ?Hq.
Qed.

Lemma emit_inv cur k s e :
  silent e = true -> sched_inv cur k s ->
  exists s', emit e s = Ret tt s' /\ sched_inv cur k s' /\ frame s s' /\ messages s' = messages s /\
    sched_pool s' = sched_pool s.
Proof.
  intros He [H1 H2 H3 H4]. eexists. split; [reflexivity|]. split_and!; [|by constructor; eauto|done..].
  constructor; [done| | |].
  - by apply (msgs_inv_ext _ s).
  - destruct H3. by constructor.
  - apply (order_inv_ext _ s); try done. by apply spec_run_silent.
Qed.

(** ** Worlds that differ in what the invariant does not see *)

Record same_for_inv s s' : Prop := {
  sm_ctx : g_sched_ctx s' = g_sched_ctx s;
  sm_gp : gp_sched_ctx s' = gp_sched_ctx s;
  sm_pool : sched_pool s' = sched_pool s;
  sm_messages : messages s' = messages s;
  sm_depth : sched_queue_depth s' = sched_queue_depth s;
  sm_thread : thread s' = thread s;
  sm_timers : os_timers s' = os_timers s;
  sm_callback : scheduler_timer_callback s' = scheduler_timer_callback s;
  sm_history : length (sched_history s') = length (sched_history s);
  sm_index : sched_history_index s' = sched_history_index s;
  sm_trace : exists l, trace s' = trace s ++ l /\ forallb silent l = true;
}.

Lemma spec_run_app_silent l l' : forallb silent l' = true -> spec_run (l ++ l') = spec_run l.
Proof.
  revert l. induction l' as [|e l' IH]; intros l H; [by rewrite app_nil_r|].
  cbn in H. apply andb_true_iff in H as [He H].
  replace (l ++ e :: l') with ((l ++ [e]) ++ l') by (by rewrite <- app_assoc).
  rewrite IH by done. by apply spec_run_silent.
Qed.

Lemma sched_inv_same cur k s s' : same_for_inv s s' -> sched_inv cur k s -> sched_inv cur k s'.
Proof.
  intros [E1 E2 E3 E4 E5 E6 E7 E8 E9 E10 (l & E11 & E12)] [H1 H2 H3 H4]. constructor.
  - by rewrite E1.
  - apply (msgs_inv_ext _ s); try done. by rewrite E1.
  - destruct H3. constructor; rewrite ?E1, ?E2, ?E6, ?E7, ?E8, ?E9, ?E10; done.
  - apply (order_inv_ext _ s); [by rewrite E1|by rewrite E1| |done].
    by rewrite E11, spec_run_app_silent.
Qed.

Lemma frame_same s s' : same_for_inv s s' -> frame s s'.
Proof.
  intros [E1 E2 E3 E4 E5 E6 E7 E8 E9 E10 (l & E11 & E12)].
  constructor; rewrite ?E1, ?E2, ?E6; try done. by exists l.
Qed.

Lemma same_refl s : same_for_inv s s.
Proof. constructor; try done. exists []. by rewrite app_nil_r. Qed.

Lemma same_panic s : same_for_inv s (set_trace (fun l => l ++ [EvPanic]) s).
Proof. constructor; try done. by exists [EvPanic]. Qed.

(** [when b QDF_DEBUG_PANIC]. *)
Lemma when_panic b s : exists s', when b QDF_DEBUG_PANIC s = Ret tt s' /\ same_for_inv s s'.
Proof.
  destruct b; [|exists s; split; [done|apply same_refl]].
  eexists. split; [reflexivity|apply same_panic].
Qed.

Lemma get_context_ret s :
  exists s', scheduler_get_context s = Ret (gp_sched_ctx s) s' /\ same_for_inv s s'.
Proof.
  unfold scheduler_get_context. rewrite bind_gets.
  destruct (when_panic (negb (gp_sched_ctx s)) s) as (s' & H & Hs).
  exists s'. by rewrite (bind_ret _ _ _ _ _ H).
Qed.

(** With a context, nothing happens. *)
Lemma get_context_true s : gp_sched_ctx s = true -> scheduler_get_context s = Ret true s.
Proof. intros H. unfold scheduler_get_context. by rewrite bind_gets, H. Qed.

Section Laws.
Context {L : item_pool_laws P}.

(** ** A message duplicated and freed *)

Lemma dup_ok cur k s m :
  sched_inv cur k s ->
  exists r s', scheduler_core_msg_dup m s = Ret r s' /\ frame s s' /\
    g_sched_ctx s' = g_sched_ctx s /\
    match r with
    | None => sched_inv cur k s' /\ messages s' = messages s /\
        (exists l, trace s' = trace s ++ l /\ forallb silent l = true) /\
        (sched_queue_depth s = SCHEDULER_CORE_MAX_MESSAGES \/
         exists p, pool_alloc (sched_pool s) = Ret None p)
    | Some a =>
        sched_inv (a :: cur) k s' /\ messages s' = <[a := m]> (messages s) /\
        (a ∉ pool_live (sched_pool s)) /\ trace s' = trace s /\
        sched_queue_depth s < SCHEDULER_CORE_MAX_MESSAGES
    end.
Proof.
  intros Hi. unfold scheduler_core_msg_dup. rewrite bind_modify, bind_gets.
  cbn [sched_queue_depth set_depth].
  destruct (SCHEDULER_CORE_MAX_MESSAGES <? sched_queue_depth s + 1) eqn:Efull.
  - rewrite bind_modify, bind_gets. destruct (when_panic
      (SCHEDULER_WRAPPER_MAX_FAIL_COUNT <? swrap 32 (sched_dup_fail_count s + 1))
      (set_fail_count (fun n => swrap 32 (n + 1)) (set_depth (fun n => n + 1) s)))
      as (s1 & H1 & Hs1).
    cbn [sched_dup_fail_count set_fail_count set_depth]. rewrite (bind_ret _ _ _ _ _ H1).
    rewrite bind_modify. eexists None, _. split; [reflexivity|].
    assert (same_for_inv s (set_depth (fun n => n - 1) s1)) as Hs.
    { destruct Hs1. constructor; cbn in *; try done. lia. }
    pose proof (m_max _ _ (inv_msgs _ _ _ Hi)).
    split_and!; [by apply frame_same|apply Hs|by apply (sched_inv_same _ _ s)|apply Hs|apply Hs|left; lia].
  - pose proof (inv_msgs _ _ _ Hi) as Hm.
    destruct (pool_alloc_ok (sched_pool s) (m_pool _ _ Hm)) as (r & p & Ha & Hok & Hlive).
    rewrite (bind_ret _ _ _ _ _ (on_pool_ret pool_alloc r p (set_depth (fun n => n + 1) s) Ha)).
    destruct r as [a|]; cbn in Hlive.
    + rewrite !bind_modify. eexists (Some a), _. split; [reflexivity|].
      pose proof (pool_live_NoDup p Hok) as Hnd. rewrite Hlive in Hnd.
      apply NoDup_cons in Hnd as [Hnew _].
      split_and!; [|done| |done..|lia].
      { constructor; try done. exists []. by rewrite app_nil_r. }
      destruct Hi as [I1 I2 I3 I4]. constructor; [done| | |].
      * destruct I2 as [M1 M2 M3 M4 M5].
        constructor; cbn [sched_pool messages sched_queue_depth set_pool set_messages set_fail_count
                          set_depth]; [done| | | |lia].
        -- rewrite Hlive, M2. done.
        -- intros b. rewrite Hlive, elem_of_cons, <- M3. destruct (decide (b = a)) as [->|Hne].
           ++ rewrite lookup_insert_eq. split; [by left|by eexists].
           ++ rewrite lookup_insert_ne by done. split; [by right|by intros [|]].
        -- rewrite Hlive, M4. cbn. lia.
      * destruct I3. by constructor.
      * by apply (order_inv_ext _ s).
    + rewrite bind_modify. eexists None, _. split; [reflexivity|].
      split_and!; [|done| |done|exists []; by rewrite app_nil_r|right; by exists p].
      { constructor; try done. exists []. by rewrite app_nil_r. }
      destruct Hi as [I1 I2 I3 I4]. constructor; [done| | |].
      * destruct I2 as [M1 M2 M3 M4 M5].
        constructor; cbn [sched_pool messages sched_queue_depth set_pool set_messages set_fail_count
                          set_depth]; [done| | | |lia].
        -- by rewrite Hlive.
        -- intros b. by rewrite Hlive.
        -- rewrite Hlive, M4. lia.
      * destruct I3. by constructor.
      * by apply (order_inv_ext _ s).
Qed.

Lemma msg_free_ok cur k s a :
  sched_inv (a :: cur) k s ->
  exists s', scheduler_core_msg_free a s = Ret tt s' /\ frame s s' /\
    sched_inv cur k s' /\ g_sched_ctx s' = g_sched_ctx s /\ trace s' = trace s /\
    messages s' = delete a (messages s).
Proof.
  intros [I1 [M1 M2 M3 M4 M5] I3 I4]. unfold scheduler_core_msg_free.
  assert (a ∈ pool_live (sched_pool s)) as Hin by (rewrite M2; by apply list_elem_of_here).
  destruct (pool_free_ok _ a M1 Hin) as (p & Hf & Hok & Hlive).
  rewrite (bind_ret _ _ _ _ _ (on_pool_ret _ _ _ _ Hf)), bind_modify.
  eexists. split; [reflexivity|]. split_and!; [| |done..].
  { constructor; try done. exists []. by rewrite app_nil_r. }
  pose proof (pool_live_NoDup _ M1) as Hnd. rewrite Hlive in Hnd. apply NoDup_cons in Hnd as [Ha Hnd].
  constructor; [done| | |].
  - constructor; cbn [sched_pool messages sched_queue_depth set_pool set_messages set_depth]; [done| | | |lia].
    + apply (Permutation_cons_inv (a := a)). by rewrite <- Hlive, M2.
    + intros b. destruct (decide (b = a)) as [->|Hne].
      * rewrite lookup_delete_eq. split; [by intros []|done].
      * rewrite lookup_delete_ne, M3, Hlive, elem_of_cons by done. split; [by intros [|]|by right].
    + rewrite M4, Hlive. cbn. lia.
  - destruct I3. by constructor.
  - by apply (order_inv_ext _ s).
Qed.

(** ** A message put in a queue *)

Lemma history_queue_ret i a s m :
  ctx_inv (g_sched_ctx s) -> (i < SCHEDULER_NUMBER_OF_MSG_QUEUE)%nat -> messages s !! a = Some m ->
  exists qid depth at_us, sched_history_queue i a s =
    Ret tt (set_messages (alter (set_queued qid depth at_us) a) s).
Proof.
  intros Hc Hi Hm. unfold sched_history_queue, ctx. rewrite bind_gets.
  assert (is_Some (sch_msg_q (queue_ctx (g_sched_ctx s)) !! i)) as [mq Hq].
  { apply lookup_lt_is_Some. pose proof (c_queues _ Hc) as Hl. unfold queues in Hl.
    rewrite length_fmap in Hl. lia. }
  rewrite Hq, (bind_deref _ _ _ _ eq_refl), bind_gets.
  rewrite (bind_ret _ _ _ _ _ (read_msg_ret _ _ _ Hm)). by eexists _, _, _.
Qed.

Lemma lookup_alter_some {A} (f : A -> A) (l : list A) i j x :
  alter f i l !! j = Some x ->
  (j = i /\ exists y, l !! i = Some y /\ x = f y) \/ (j <> i /\ l !! j = Some x).
Proof.
  rewrite list_lookup_alter. case_decide as H; [subst j|by right].
  intros (y & -> & Hy)%fmap_Some. left. split; [done|]. by exists y.
Qed.

Lemma put_ok cur k s (a : Z) (i : nat) m fn (front : bool) :
  sched_inv (a :: cur) k s -> messages s !! a = Some m ->
  (i < SCHEDULER_NUMBER_OF_MSG_QUEUE)%nat -> fns (g_sched_ctx s) !! i = Some (Some fn) ->
  sch_thread (g_sched_ctx s) = true ->
  exists s', (_ ← ((if front then scheduler_mq_put_front i a else scheduler_mq_put i a) : M W unit);
              qdf_atomic_set_bit MC_POST_EVENT_MASK) s = Ret tt s' /\
    frame s s' /\ sched_inv cur k s' /\
    queues (g_sched_ctx s') =
      alter (fun l : list Z => if front then a :: l else l ++ [a]) i (queues (g_sched_ctx s)) /\
    trace s' = trace s ++ [EvPut a i front] /\
    (exists q d t, messages s' = <[a := set_queued q d t m]> (messages s)) /\
    Z.testbit (sch_event_flag (g_sched_ctx s')) MC_POST_EVENT_MASK = true.
Proof.
  intros [I1 I2 I3 I4] Hm Hi Hfn Hrun.
  destruct (history_queue_ret i a s m I1 Hi Hm) as (q & d & t & Hh).
  set (put := fun l : list Z => if front then a :: l else l ++ [a]).
  set (s1 := set_messages (alter (set_queued q d t) a) s) in *.
  set (s2 := set_trace (fun l => l ++ [EvPut a i front]) (set_ctx (upd_mq i put) s1)).
  set (s3 := set_ctx (upd_flag (fun b => Z.setbit b MC_POST_EVENT_MASK)) s2).
  assert (queues (g_sched_ctx s3) = alter put i (queues (g_sched_ctx s))) as Hqs.
  { apply queues_upd_mq. }
  assert (Z.testbit (sch_event_flag (g_sched_ctx s3)) MC_POST_EVENT_MASK = true) as Hbit.
  { change (Z.testbit (Z.setbit (sch_event_flag (g_sched_ctx s)) MC_POST_EVENT_MASK)
              MC_POST_EVENT_MASK = true). by rewrite Z.setbit_eq. }
  assert (messages s3 = <[a := set_queued q d t m]> (messages s)) as Hms.
  { cbn. apply map_eq. intros b. destruct (decide (b = a)) as [->|].
    - by rewrite lookup_alter_eq, lookup_insert_eq, Hm.
    - by rewrite lookup_alter_ne, lookup_insert_ne. }
  exists s3. split_and!; [| | |done|done|by eexists _, _, _|done].
  { transitivity ((_ ← upd (upd_mq i put); _ ← emit (EvPut a i front);
                   qdf_atomic_set_bit MC_POST_EVENT_MASK) s1).
    - unfold scheduler_mq_put, scheduler_mq_put_front. by destruct front;
        rewrite !bind_assoc, (bind_ret _ _ _ _ _ Hh), bind_assoc.
    - unfold upd, emit. rewrite !bind_modify. by apply set_bit_ret. }
  { constructor; try done. - intros H. congruence. - by exists [EvPut a i front]. }
  destruct (queue_some _ _ I1 Hi) as [l Hl].
  constructor.
  - destruct I1 as [C1 C2 C3 C4 C5 C6 C7].
    constructor; rewrite ?Hqs; try done; [by rewrite length_alter|].
    intros j lj [[-> _]|[_ Hj]]%lookup_alter_some Hne; [by exists fn|by apply (C6 j lj)].
  - destruct I2 as [M1 M2 M3 M4 M5]. constructor; try done.
    + cbn [sched_pool set_ctx set_trace set_messages s3 s2 s1]. unfold queued. rewrite Hqs, M2.
      destruct (concat_alter _ _ _ Hl) as (rest & R1 & R2). rewrite (R2 put).
      unfold queued. rewrite R1. unfold put. destruct front; cbn.
      * by rewrite Permutation_middle.
      * rewrite (Permutation_app_comm l [a]), <- app_assoc. cbn. by rewrite Permutation_middle.
    + intros b. change (sched_pool s3) with (sched_pool s). rewrite Hms, <- M3.
      destruct (decide (b = a)) as [->|].
      * rewrite lookup_insert_eq, Hm. split; by eexists.
      * by rewrite lookup_insert_ne.
  - destruct I3. constructor; done.
  - destruct I4 as [O1 (sp & O2 & O3 & O4)]. constructor; [done|].
    eexists. split; [|split].
    + cbn [trace s3 s2 s1 set_ctx set_trace set_messages]. by rewrite spec_run_snoc, O2.
    + by rewrite Hqs, <- O3.
    + cbn [sp_fresh]. rewrite Hqs. intros j lj b Hj [[-> (y & Hy & ->)]|[_ Hlj]]%lookup_alter_some Hb.
      * assert (b = a \/ b ∈ y) as [->|Hb'].
        { unfold put in Hb. destruct front; [by apply elem_of_cons in Hb|].
          apply elem_of_app in Hb as [|Hb]; [by right|left; by apply list_elem_of_singleton in Hb]. }
        -- by apply list_elem_of_here.
        -- apply list_elem_of_further. by apply (O4 i y).
      * apply list_elem_of_further. by apply (O4 j lj).
Qed.

(** ** Posting *)

(** The queue a message goes to: that of its module, if one is registered there. *)
Definition route (qid : Z) c : option nat :=
  let que_id := scheduler_get_que_id qid in
  if (QDF_MODULE_ID_MAX <=? que_id) || (QDF_MODULE_ID_MAX <=? scheduler_get_src_id qid) ||
     (QDF_MODULE_ID_MAX <=? scheduler_get_dest_id qid) then None
  else
    let que_id := if que_id =? QDF_MODULE_ID_WMA then QDF_MODULE_ID_TARGET_IF else que_id in
    qidx ← qidx_map c !! Z.to_nat que_id;
    fn ← fns c !! Z.to_nat qidx;
    match fn with Some _ => Some (Z.to_nat qidx) | None => None end.

(** Whether and how a post is refused before a message is made. *)
Definition post_refused (qid : Z) (msg : option scheduler_msg) s : option QDF_STATUS :=
  match msg with
  | None => Some QDF_STATUS_E_INVAL
  | Some m =>
      if negb (gp_sched_ctx s) then Some QDF_STATUS_E_INVAL
      else if negb (sch_thread (g_sched_ctx s)) then Some QDF_STATUS_E_FAILURE
      else if negb (reserved m =? 0) && negb (reserved m =? SYS_MSG_COOKIE) then
        Some QDF_STATUS_E_FAILURE
      else match route qid (g_sched_ctx s) with
           | None => Some QDF_STATUS_E_FAILURE
           | Some _ => None
           end
  end.

(** The message as it is queued: one for the legacy WMA module loses its callback. *)
Definition queued_msg (qid : Z) (m : scheduler_msg) : scheduler_msg :=
  if scheduler_get_que_id qid =? QDF_MODULE_ID_WMA then clear_callback m else m.

(** What a post may do to the world. *)
Inductive post_result (qid : Z) (msg : option scheduler_msg) (high : bool) s s' : QDF_STATUS -> Prop :=
  | post_no st :
      post_refused qid msg s = Some st -> same_for_inv s s' -> post_result qid msg high s s' st
  | post_nomem :
      post_refused qid msg s = None ->
      queues (g_sched_ctx s') = queues (g_sched_ctx s) -> messages s' = messages s ->
      (exists l, trace s' = trace s ++ l /\ forallb silent l = true) ->
      (sched_queue_depth s = SCHEDULER_CORE_MAX_MESSAGES \/
       exists p, pool_alloc (sched_pool s) = Ret None p) ->
      post_result qid msg high s s' QDF_STATUS_E_NOMEM
  | post_yes a i m q d t :
      post_refused qid msg s = None -> route qid (g_sched_ctx s) = Some i -> msg = Some m ->
      a ∉ pool_live (sched_pool s) -> sched_queue_depth s < SCHEDULER_CORE_MAX_MESSAGES ->
      queues (g_sched_ctx s') =
        alter (fun l : list Z => if high then a :: l else l ++ [a]) i (queues (g_sched_ctx s)) ->
      messages s' = <[a := set_queued q d t (queued_msg qid m)]> (messages s) ->
      trace s' = trace s ++ [EvPut a i high] ->
      Z.testbit (sch_event_flag (g_sched_ctx s')) MC_POST_EVENT_MASK = true ->
      post_result qid msg high s s' QDF_STATUS_SUCCESS.

Lemma que_id_nonneg qid : 0 <= scheduler_get_que_id qid.
Proof. unfold scheduler_get_que_id. apply Z.land_nonneg. by right. Qed.

Lemma map_lookup c q :
  ctx_inv c -> 0 <= q < QDF_MODULE_ID_MAX ->
  exists x, qidx_map c !! Z.to_nat q = Some x /\ 0 <= x <= Z.of_nat SCHEDULER_NUMBER_OF_MSG_QUEUE.
Proof.
  intros Hc Hq. destruct (lookup_lt_is_Some_2 (qidx_map c) (Z.to_nat q)) as [x Hx].
  { rewrite (c_map c Hc). lia. }
  exists x. split; [done|]. pose proof (c_map_range c Hc) as Hr. rewrite Forall_lookup in Hr.
  by apply (Hr _ _ Hx).
Qed.

Lemma post_ok cur k s qid msg high :
  sched_inv cur k s ->
  exists st msg' s', scheduler_post_msg_by_priority qid msg high s = Ret (st, msg') s' /\
    frame s s' /\ sched_inv cur k s' /\ post_result qid msg high s s' st.
Proof.
  intros Hi. unfold scheduler_post_msg_by_priority.
  destruct msg as [m|].
  2:{ eexists _, _, _. split; [reflexivity|]. pose proof (same_panic s).
      split_and!; [by apply frame_same|by apply (sched_inv_same _ _ s)|by apply post_no]. }
  assert (forall st s', same_for_inv s s' -> post_refused qid (Some m) s = Some st ->
    frame s s' /\ sched_inv cur k s' /\ post_result qid (Some m) high s s' st) as Hno.
  { intros st s' Hs Hr. split_and!; [by apply frame_same|by apply (sched_inv_same _ _ s)|by apply post_no]. }
  destruct (get_context_ret s) as (s1 & Hc1 & Hs1).
  rewrite (bind_ret _ _ _ _ _ Hc1). unfold post_refused in Hno.
  destruct (gp_sched_ctx s) eqn:Hgp; cbn [negb] in *;
    [|by eexists _, _, _; split; [reflexivity|]; apply Hno].
  rewrite (get_context_true s Hgp) in Hc1. injection Hc1 as <-. clear Hs1.
  unfold ctx. rewrite bind_gets. pose proof (inv_ctx _ _ _ Hi) as Hc.
  destruct (sch_thread (g_sched_ctx s)) eqn:Hrun; cbn [negb] in *;
    [|by eexists _, _, _; split; [reflexivity|]; apply Hno; [apply same_refl|]].
  destruct (negb (reserved m =? 0) && negb (reserved m =? SYS_MSG_COOKIE)) eqn:Hres.
  { eexists _, _, _. split; [reflexivity|]. by apply Hno; [apply same_panic|]. }
  unfold route in Hno.
  pose proof (que_id_nonneg qid) as Hq0.
  destruct ((QDF_MODULE_ID_MAX <=? scheduler_get_que_id qid) || _ || _) eqn:Hids.
  { eexists _, _, _. split; [reflexivity|]. by apply Hno; [apply same_refl|]. }
  rewrite bind_gets.
  set (q := if scheduler_get_que_id qid =? QDF_MODULE_ID_WMA then QDF_MODULE_ID_TARGET_IF
            else scheduler_get_que_id qid) in *.
  assert (0 <= q < QDF_MODULE_ID_MAX) as Hq.
  { pose proof Hids as [[Hid _]%orb_false_iff _]%orb_false_iff. apply Z.leb_gt in Hid.
    unfold q. destruct (scheduler_get_que_id qid =? QDF_MODULE_ID_WMA); [done|lia]. }
  destruct (map_lookup _ q Hc Hq) as (x & Hx & Hxr).
  rewrite (bind_ret _ _ _ _ _ (array_get_ret _ _ _ _ (proj1 Hq) Hx)).
  rewrite Hx in Hno. cbn [mbind option_bind] in Hno.
  destruct (Z.of_nat SCHEDULER_NUMBER_OF_MSG_QUEUE <=? x) eqn:Hfull.
  { eexists _, _, _. split; [reflexivity|]. apply Hno; [apply same_refl|].
    rewrite lookup_ge_None_2; [done|]. rewrite (c_fns _ Hc). lia. }
  assert (Z.to_nat x < SCHEDULER_NUMBER_OF_MSG_QUEUE)%nat as Hxi by lia.
  destruct (fn_some _ _ Hc Hxi) as [fn Hfn].
  rewrite bind_gets, (bind_ret _ _ _ _ _ (array_get_ret _ _ _ _ (proj1 Hxr) Hfn)).
  rewrite Hfn in Hno. cbn [mbind option_bind] in Hno.
  destruct fn as [fn|].
  2:{ eexists _, _, _. split; [reflexivity|]. by apply Hno; [apply same_panic|]. }
  clear Hno.
  assert (route qid (g_sched_ctx s) = Some (Z.to_nat x)) as Hroute.
  { unfold route. rewrite Hids. fold q. rewrite Hx. cbn. by rewrite Hfn. }
  assert (post_refused qid (Some m) s = None) as Hrefused.
  { unfold post_refused. by rewrite Hgp, Hrun, Hres, Hroute. }
  destruct (dup_ok cur k s (queued_msg qid m) Hi) as (r & s1 & Hd & Hf1 & Hctx1 & Hcase).
  unfold queued_msg in Hd at 1. rewrite (bind_ret _ _ _ _ _ Hd).
  destruct r as [a|].
  - destruct Hcase as (Hi1 & Hms1 & Hnew & Htr1 & Hdepth).
    destruct (put_ok cur k s1 a (Z.to_nat x) (queued_msg qid m) fn high)
      as (s2 & Hput & Hf2 & Hi2 & Hq2 & Ht2 & (qq & d & t & Hm2) & Hb2); try done.
    { by rewrite Hms1, lookup_insert_eq. }
    { by rewrite Hctx1. }
    { by rewrite Hctx1. }
    eexists QDF_STATUS_SUCCESS, _, s2. split_and!; [| |done|].
    + rewrite <- bind_assoc. by rewrite (bind_ret _ _ _ _ _ Hput).
    + by apply (frame_trans s s1).
    + eapply (post_yes _ _ _ _ _ a (Z.to_nat x) m qq d t); try done.
      * by rewrite Hq2, Hctx1.
      * by rewrite Hm2, Hms1, insert_insert_eq.
      * by rewrite Ht2, Htr1.
  - destruct Hcase as (Hi1 & Hms1 & Htr1 & Hwhy).
    eexists _, _, s1. split; [reflexivity|]. split_and!; [done|done|].
    apply post_nomem; try done. by rewrite Hctx1.
Qed.

(** ** Programs that keep the invariant *)

Definition keeps {A} (cur : list Z) (k : nat) (m : M W A) s : Prop :=
  exists r s', m s = Ret r s' /\ frame s s' /\ sched_inv cur k s'.

Lemma keeps_ret {A} cur k (x : A) s : sched_inv cur k s -> keeps cur k (mret x) s.
Proof. intros Hi. exists x, s. split_and!; [done|apply frame_refl|done]. Qed.

Lemma keeps_bind {A B} cur k (m : M W A) (g : A -> M W B) s :
  keeps cur k m s ->
  (forall r s', m s = Ret r s' -> frame s s' -> sched_inv cur k s' -> keeps cur k (g r) s') ->
  keeps cur k (r ← m; g r) s.
Proof.
  intros (r & s1 & H1 & Hf1 & Hi1) Hg.
  destruct (Hg r s1 H1 Hf1 Hi1) as (r' & s2 & H2 & Hf2 & Hi2).
  exists r', s2. rewrite (bind_ret _ _ _ _ _ H1). split_and!; [done|by apply (frame_trans s s1)|done].
Qed.

(** Where only the answer changes. *)
Lemma keeps_bind_ret {A B} cur k (m : M W A) (g : A -> B) s :
  keeps cur k m s -> keeps cur k (r ← m; mret (g r)) s.
Proof. intros H. apply keeps_bind; [done|]. intros. by apply keeps_ret. Qed.

Lemma keeps_step {A B} cur k (m : M W A) (g : A -> M W B) r s s' :
  m s = Ret r s' -> frame s s' -> keeps cur k (g r) s' -> keeps cur k (r ← m; g r) s.
Proof.
  intros H1 Hf1 (r' & s2 & H2 & Hf2 & Hi2). exists r', s2. rewrite (bind_ret _ _ _ _ _ H1).
  split_and!; [done|by apply (frame_trans s s')|done].
Qed.

Lemma keeps_eq {A} cur k (m m' : M W A) s s' :
  m s = m' s' -> frame s s' -> keeps cur k m' s' -> keeps cur k m s.
Proof.
  intros H1 Hf1 (r' & s2 & H2 & Hf2 & Hi2). exists r', s2. rewrite H1.
  split_and!; [done|by apply (frame_trans s s')|done].
Qed.

Lemma keeps_gets {A B} cur k (h : W -> A) (g : A -> M W B) s :
  keeps cur k (g (h s)) s -> keeps cur k (x ← gets h; g x) s.
Proof. apply keeps_step; [done|apply frame_refl]. Qed.

Lemma keeps_same {A} cur k (m : M W A) s r s' :
  sched_inv cur k s -> m s = Ret r s' -> same_for_inv s s' -> keeps cur k m s.
Proof.
  intros Hi Hm Hs. exists r, s'. split_and!; [done|by apply frame_same|by apply (sched_inv_same _ _ s)].
Qed.

Lemma panic_keeps cur k s : sched_inv cur k s -> keeps cur k QDF_DEBUG_PANIC s.
Proof. intros Hi. eapply keeps_same; [done|reflexivity|apply same_panic]. Qed.

(** What an update of the context must leave, besides what [ctx_inv] says. *)
Record ctx_same c c' : Prop := {
  cs_queues : queues c' = queues c;
  cs_thread : sch_thread c' = sch_thread c;
  cs_start : sch_start_event c' = sch_start_event c;
  cs_shutdown : sch_shutdown c' = sch_shutdown c;
  cs_resume : initialized (resume_sch_event c') = initialized (resume_sch_event c);
  cs_post : Z.testbit (sch_event_flag c) MC_POST_EVENT_MASK = true ->
    Z.testbit (sch_event_flag c') MC_POST_EVENT_MASK = true;
}.

Lemma upd_keeps cur k f s :
  sched_inv cur k s -> ctx_inv (f (g_sched_ctx s)) -> ctx_same (g_sched_ctx s) (f (g_sched_ctx s)) ->
  keeps cur k (upd f) s.
Proof.
  intros [H1 H2 H3 H4] Hc [C1 C2 C3 C4 C5 C6]. eexists _, _. split; [reflexivity|]. split.
  - constructor; try done. exists []. by rewrite app_nil_r.
  - constructor; [done| | |].
    + by apply (msgs_inv_ext _ s).
    + destruct H3. constructor; cbn; rewrite ?C2, ?C3, ?C4, ?C5; done.
    + by apply (order_inv_ext _ s).
Qed.

(** An update that leaves the queues, the handlers and the tables. *)
Lemma upd_plain_keeps cur k f s :
  sched_inv cur k s -> queue_ctx (f (g_sched_ctx s)) = queue_ctx (g_sched_ctx s) ->
  sch_last_qidx (f (g_sched_ctx s)) = sch_last_qidx (g_sched_ctx s) ->
  ctx_same (g_sched_ctx s) (f (g_sched_ctx s)) ->
  (sch_thread (g_sched_ctx s) = true ->
   forall fn, legacy_for fn (g_sched_ctx s) -> legacy_for fn (f (g_sched_ctx s))) ->
  keeps cur k (upd f) s.
Proof.
  intros Hi Hq Hl Hs Hleg. apply upd_keeps; [done| |done].
  pose proof (inv_ctx _ _ _ Hi) as [C1 C2 C3 C4 C5 C6 C7]. destruct Hs as [_ S2 _ _ _ _].
  constructor; unfold queues, fns, qidx_map in *; rewrite ?Hq, ?Hl; try done.
  intros i fn Hrun Hfn. apply Hleg; [by rewrite <- S2|]. apply (C7 i); [by rewrite <- S2|done].
Qed.

Ltac plain :=
  apply upd_plain_keeps;
    [assumption|reflexivity|reflexivity|by constructor|intros _ fn H; by destruct fn].

Lemma with_context {A} cur k s (m : M W A) x :
  sched_inv cur k s -> (gp_sched_ctx s = true -> keeps cur k m s) ->
  keeps cur k (c ← scheduler_get_context; if negb c then mret x else m) s.
Proof.
  intros Hi Hm. destruct (get_context_ret s) as (s1 & H1 & Hs1).
  destruct (gp_sched_ctx s) eqn:Egp.
  - rewrite (get_context_true s Egp) in H1. injection H1 as <-.
    eapply keeps_step; [by apply get_context_true|apply frame_refl|]. by apply Hm.
  - eapply keeps_step; [exact H1|by apply frame_same|]. apply keeps_ret. by apply (sched_inv_same _ _ s).
Qed.

Lemma with_context_unit cur k s (m : M W unit) :
  sched_inv cur k s -> (gp_sched_ctx s = true -> keeps cur k m s) ->
  keeps cur k (c ← scheduler_get_context; when c m) s.
Proof.
  intros Hi Hm. destruct (with_context cur k s m tt Hi Hm) as (r & s' & H & ?).
  exists r, s'. split; [|done]. rewrite <- H. unfold mbind, M_bind.
  destruct (scheduler_get_context s) as [[]| |]; done.
Qed.

Lemma set_bit_keeps cur k nr s :
  sched_inv cur k s -> 0 <= nr < 64 -> keeps cur k (qdf_atomic_set_bit nr) s.
Proof.
  intros Hi Hnr. unfold qdf_atomic_set_bit.
  rewrite (proj2 (Z.leb_le _ _)), (proj2 (Z.ltb_lt _ _)) by lia.
  apply upd_plain_keeps; [done..| |by intros _ []].
  constructor; try done. intros H.
  change (Z.testbit (Z.setbit (sch_event_flag (g_sched_ctx s)) nr) MC_POST_EVENT_MASK = true).
  by rewrite Z.setbit_eqb, H, orb_true_r by lia.
Qed.

Lemma clear_bit_keeps cur k nr s :
  sched_inv cur k s -> 0 <= nr < 64 -> nr <> MC_POST_EVENT_MASK ->
  keeps cur k (qdf_atomic_clear_bit nr) s.
Proof.
  intros Hi Hnr Hne. unfold qdf_atomic_clear_bit.
  rewrite (proj2 (Z.leb_le _ _)), (proj2 (Z.ltb_lt _ _)) by lia.
  apply upd_plain_keeps; [done..| |by intros _ []].
  constructor; try done. intros H.
  change (Z.testbit (Z.clearbit (sch_event_flag (g_sched_ctx s)) nr) MC_POST_EVENT_MASK = true).
  by rewrite Z.clearbit_neq.
Qed.

(** *** Registration *)

(** A program that amounts to one update. *)
Lemma upd_like {A} cur k (m : M W A) f r s :
  m s = Ret r (set_ctx f s) -> keeps cur k (upd f) s -> keeps cur k m s.
Proof. intros Hm (r' & s' & H & ?). injection H as <- <-. by exists r, (set_ctx f s). Qed.

Lemma register_module_keeps cur k qid fn s :
  sched_inv cur k s -> module_id qid -> legacy_for fn (g_sched_ctx s) ->
  keeps cur k (scheduler_register_module qid (Some fn)) s.
Proof.
  intros Hi Hq Hleg. apply with_context; [done|]. intros Hgp.
  pose proof (inv_ctx _ _ _ Hi) as [C1 C2 C3 C4 C5 C6 C7].
  apply keeps_gets. destruct (_ <=? _) eqn:Elast; [by apply keeps_ret|].
  set (c := g_sched_ctx s) in *. set (last := sch_last_qidx c) in *.
  assert (Z.to_nat last < SCHEDULER_NUMBER_OF_MSG_QUEUE)%nat as Hlast by lia.
  set (map' := <[Z.to_nat qid := last]> (qidx_map c)).
  set (fns' := <[Z.to_nat last := Some fn]> (fns c)).
  apply (upd_like _ _ _ (fun c => upd_last_qidx (fun n => wrap 8 (n + 1))
           (upd_fns fns' (upd_mq_qid (Z.to_nat last) qid (upd_qidx map' c)))) QDF_STATUS_SUCCESS).
  { unfold ctx. rewrite bind_gets.
    rewrite (bind_ret _ _ _ _ _ (array_set_ret (qidx_map c) qid _ _ ltac:(unfold module_id in Hq; rewrite C3; lia))).
    unfold upd. rewrite !bind_modify, bind_gets.
    match goal with |- context [array_set ?l _ (Some fn)] => change l with (fns c) end.
    rewrite (bind_ret _ _ _ _ _ (array_set_ret (fns c) last _ _ ltac:(rewrite C2; lia))).
    by rewrite !bind_modify. }
  apply upd_keeps; [done| |].
  - assert (forall i f, fns' !! i = Some (Some f) -> f = fn \/ fns c !! i = Some (Some f)) as Hfns.
    { intros i f. unfold fns'. rewrite list_lookup_insert. case_decide; [|by right].
      intros [= ->]. by left. }
    match goal with |- ctx_inv ?x => set (c' := x) end.
    assert (queues c' = queues c) as Hqs by exact (queues_upd_mq_qid _ _ (upd_qidx map' c)).
    assert (fns c' = fns') as Hf' by done. assert (qidx_map c' = map') as Hm' by done.
    constructor; rewrite ?Hqs, ?Hf', ?Hm'; [done| | | |apply wrap_range; lia| |].
    + unfold fns'. by rewrite length_insert.
    + unfold map'. by rewrite length_insert.
    + unfold map'. apply Forall_insert; [done|]. lia.
    + intros i l Hl Hne. unfold fns'. rewrite list_lookup_insert.
      case_decide; [by eexists|]. by apply (C6 i l).
    + intros i f Hrun [-> |Hf]%Hfns.
      * by destruct fn.
      * specialize (C7 i f Hrun Hf). by destruct f.
  - constructor; try done. exact (queues_upd_mq_qid _ _ (upd_qidx map' c)).
Qed.

Lemma deregister_module_keeps cur k qid qidx s :
  sched_inv cur k s -> module_id qid ->
  qidx_map (g_sched_ctx s) !! Z.to_nat qid = Some qidx ->
  queues (g_sched_ctx s) !! Z.to_nat qidx = Some [] ->
  keeps cur k (scheduler_deregister_module qid) s.
Proof.
  intros Hi Hq Hqidx Hempty. apply with_context; [done|]. intros Hgp.
  pose proof (inv_ctx _ _ _ Hi) as [C1 C2 C3 C4 C5 C6 C7].
  set (c := g_sched_ctx s) in *.
  assert (0 <= qidx) as Hq0.
  { pose proof (proj1 (Forall_lookup _ _) C4 _ _ Hqidx) as Hr. cbn in Hr. lia. }
  assert (Z.to_nat qidx < SCHEDULER_NUMBER_OF_MSG_QUEUE)%nat as Hlt.
  { rewrite <- C1. by eapply lookup_lt_Some. }
  set (fns' := <[Z.to_nat qidx := None]> (fns c)).
  set (map' := <[Z.to_nat qidx := Z.of_nat SCHEDULER_NUMBER_OF_MSG_QUEUE]> (qidx_map c)).
  apply (upd_like _ _ _ (fun c => upd_qidx map'
           (upd_last_qidx (fun n => wrap 8 (n - 1)) (upd_fns fns' c))) QDF_STATUS_SUCCESS).
  { unfold ctx. rewrite bind_gets.
    rewrite (bind_ret _ _ _ _ _ (array_get_ret (qidx_map c) qid _ _ ltac:(unfold module_id in Hq; lia) Hqidx)).
    rewrite bind_gets. change (fns (g_sched_ctx s)) with (fns c).
    rewrite (bind_ret _ _ _ _ _ (array_set_ret (fns c) qidx _ _ ltac:(rewrite C2; lia))).
    unfold upd. rewrite !bind_modify.
    rewrite (bind_ret _ _ _ _ _ (array_set_ret (qidx_map c) qidx _ _
      ltac:(rewrite C3; unfold SCHEDULER_NUMBER_OF_MSG_QUEUE, QDF_MODULE_ID_MAX in *; lia))).
    by rewrite bind_modify. }
  apply upd_keeps; [done| |].
  - match goal with |- ctx_inv ?x => set (c' := x) end.
    assert (queues c' = queues c) as Hqs by done.
    assert (fns c' = fns') as Hf' by done. assert (qidx_map c' = map') as Hm' by done.
    constructor; rewrite ?Hqs, ?Hf', ?Hm'; [done| | | |apply wrap_range; lia| |].
    + unfold fns'. by rewrite length_insert.
    + unfold map'. by rewrite length_insert.
    + unfold map'. apply Forall_insert; [done|]. lia.
    + intros i l Hl Hne. unfold fns'. rewrite list_lookup_insert_ne; [by apply (C6 i l)|].
      intros <-. rewrite Hempty in Hl. by injection Hl as <-.
    + intros i f Hrun. unfold fns'. rewrite list_lookup_insert. case_decide; [done|].
      intros Hf. specialize (C7 i f Hrun Hf). by destruct f.
  - by constructor.
Qed.

Lemma register_wma_keeps cur k f s :
  sched_inv cur k s -> is_Some f -> keeps cur k (scheduler_register_wma_legacy_handler f) s.
Proof.
  intros Hi Hf. apply with_context; [done|]. intros _. apply keeps_bind_ret.
  apply upd_plain_keeps; [done..|by constructor|]. intros _ fn H. by destruct fn.
Qed.

Lemma register_sys_keeps cur k f s :
  sched_inv cur k s -> is_Some f -> keeps cur k (scheduler_register_sys_legacy_handler f) s.
Proof.
  intros Hi Hf. apply with_context; [done|]. intros _. apply keeps_bind_ret.
  apply upd_plain_keeps; [done..|by constructor|]. intros _ fn H. by destruct fn.
Qed.

Lemma deregister_wma_keeps cur k s :
  sched_inv cur k s -> sch_thread (g_sched_ctx s) = false ->
  keeps cur k scheduler_deregister_wma_legacy_handler s.
Proof.
  intros Hi Hrun. apply with_context; [done|]. intros _. apply keeps_bind_ret.
  apply upd_plain_keeps; [done..|by constructor|]. congruence.
Qed.

Lemma deregister_sys_keeps cur k s :
  sched_inv cur k s -> sch_thread (g_sched_ctx s) = false ->
  keeps cur k scheduler_deregister_sys_legacy_handler s.
Proof.
  intros Hi Hrun. apply with_context; [done|]. intros _. apply keeps_bind_ret.
  apply upd_plain_keeps; [done..|by constructor|]. congruence.
Qed.

(** *** Events and the rest *)

Lemma resume_keeps cur k s : sched_inv cur k s -> keeps cur k scheduler_resume s.
Proof.
  intros Hi. apply with_context_unit; [done|]. intros Hgp. apply keeps_bind_ret.
  set (e := (qdf_event_set (resume_sch_event (g_sched_ctx s))).2).
  apply (upd_like _ _ _ (upd_resume (fun _ => e)) (qdf_event_set (resume_sch_event (g_sched_ctx s))).1).
  { apply on_event_ret. }
  apply upd_plain_keeps; [done..| |by intros _ []].
  constructor; try done. cbn. unfold e, qdf_event_set. by destruct (initialized (resume_sch_event _)) eqn:?.
Qed.

Lemma hdd_keeps cur k f s :
  sched_inv cur k s -> keeps cur k (scheduler_register_hdd_suspend_callback f) s.
Proof.
  intros Hi. apply with_context_unit; [done|]. intros _.
  apply upd_plain_keeps; [done..|by constructor|by intros _ []].
Qed.

Lemma queue_size_keeps cur k qid s :
  sched_inv cur k s -> module_id qid ->
  exists st n, scheduler_get_queue_size qid s = Ret (st, n) s /\
    (st = QDF_STATUS_SUCCESS ->
     exists i l, n = Some (Z.of_nat (length l)) /\ queues (g_sched_ctx s) !! i = Some l).
Proof.
  intros Hi Hq. unfold scheduler_get_queue_size. rewrite bind_gets.
  destruct (negb (gp_sched_ctx s)); [by eexists _, _|]. unfold ctx. rewrite bind_gets.
  set (q := if qid =? QDF_MODULE_ID_WMA then QDF_MODULE_ID_TARGET_IF else qid).
  pose proof (inv_ctx _ _ _ Hi) as Hc.
  assert (0 <= q < QDF_MODULE_ID_MAX) as Hq'.
  { unfold q, module_id in *. by destruct (qid =? QDF_MODULE_ID_WMA). }
  destruct (map_lookup _ q Hc Hq') as (x & Hx & Hxr).
  rewrite (bind_ret _ _ _ _ _ (array_get_ret _ _ _ _ (proj1 Hq') Hx)).
  destruct (_ <=? x) eqn:Ex; [by eexists _, _|]. rewrite bind_gets.
  destruct (queue_some _ (Z.to_nat x) Hc ltac:(lia)) as [l Hl].
  rewrite Hl, (bind_deref _ _ _ _ eq_refl). eexists _, _. split; [reflexivity|].
  intros _. by exists (Z.to_nat x), l.
Qed.

Lemma watchdog_keeps cur k s :
  sched_inv cur k s -> keeps cur k scheduler_watchdog_timeout s.
Proof.
  intros Hi. unfold scheduler_watchdog_timeout, qdf_atomic_test_bit, ctx. apply keeps_gets.
  destruct (Z.testbit _ _); [by apply keeps_ret|by apply panic_keeps].
Qed.

(** *** Timers *)

Lemma set_os_timers_inv cur k s ts :
  sched_inv cur k s -> timers_inv ts ->
  (scheduler_timer_callback s = true \/ forall t r, timers ts !! t = Some r -> running r = false) ->
  sched_inv cur k (set_os_timers (fun _ => ts) s) /\ frame s (set_os_timers (fun _ => ts) s).
Proof.
  intros [H1 H2 H3 H4] Hts Hcb. split; [constructor|].
  - done.
  - by apply (msgs_inv_ext _ s).
  - destruct H3. by constructor.
  - by apply (order_inv_ext _ s).
  - constructor; try done. exists []. by rewrite app_nil_r.
Qed.

Lemma timer_op_keeps cur k o s :
  sched_inv cur k s -> scheduler_timer_callback s = true -> legal_op o (os_timers s) ->
  keeps cur k (on_timers (run_op o)) s.
Proof.
  intros Hi Hcb Hl. destruct (run_op_inv o (os_timers s)) as (ts & Hr & Hts);
    [apply (inv_thread _ _ _ Hi)|done|].
  exists tt, (set_os_timers (fun _ => ts) s).
  destruct (set_os_timers_inv cur k s ts) as [? ?]; [done..|by left|].
  split_and!; [by apply on_timers_ret|done..].
Qed.

Lemma timer_fires_keeps cur k t s :
  sched_inv cur k s -> is_Some (timers (os_timers s) !! t) -> keeps cur k (os_mc_timer_shim t) s.
Proof.
  intros Hi [r Hr]. pose proof (inv_thread _ _ _ Hi) as Ht.
  pose proof (fire_steps (os_timers s) t r (t_timers _ Ht) Hr) as Hf. unfold os_mc_timer_shim.
  destruct (running r) eqn:Hrun.
  2:{ exists tt, (set_os_timers (fun _ => os_timers s) s).
      destruct (set_os_timers_inv cur k s (os_timers s)) as [? ?]; [done|apply Ht..|].
      by rewrite (bind_ret _ _ _ _ _ (on_timers_ret _ _ _ _ Hf)). }
  destruct Hf as (s1 & s2 & s3 & F1 & F2 & F3 & Hi3 & Ht3).
  destruct (t_callback _ Ht) as [Hcb|Hcb]; [|specialize (Hcb t r Hr); congruence].
  destruct (set_os_timers_inv cur k s s3) as [Hi' Hf']; [done..|by left|].
  set (post := match callback r with
               | None => QDF_DEBUG_PANIC
               | Some _ =>
                   scheduler_post_message_debug QDF_MODULE_ID_SCHEDULER QDF_MODULE_ID_SCHEDULER
                     QDF_MODULE_ID_SYS
                     (Some (Msg SYS_MSG_ID_MC_TIMER SYS_MSG_COOKIE 0 (user_data r) (callback r)
                              (Some scheduler_msg_flush_noop) 0 0 0));; mret ()
               end : M W unit).
  apply (keeps_eq _ _ _ post _ (set_os_timers (fun _ => s3) s)); [|done|].
  - rewrite (bind_ret _ _ _ _ _ (on_timers_ret _ _ _ _ F1)), bind_gets.
    cbn [scheduler_timer_callback set_os_timers]. rewrite Hcb. unfold scheduler_mc_timer_callback.
    rewrite (bind_ret _ _ _ _ _ (on_timers_ret _ _ _ (set_os_timers (fun _ => s1) s) F2)).
    cbn [QDF_IS_STATUS_ERROR QDF_IS_STATUS_SUCCESS negb].
    by rewrite (bind_ret _ _ _ _ _ (on_timers_ret _ _ _
                  (set_os_timers (fun _ => s2) (set_os_timers (fun _ => s1) s)) F3)).
  - unfold post. destruct (callback r); [|by apply panic_keeps]. apply keeps_bind_ret.
    destruct (post_ok cur k (set_os_timers (fun _ => s3) s)
      (scheduler_get_qid QDF_MODULE_ID_SCHEDULER QDF_MODULE_ID_SCHEDULER QDF_MODULE_ID_SYS)
      (Some (Msg SYS_MSG_ID_MC_TIMER SYS_MSG_COOKIE 0 (user_data r) (Some z)
               (Some scheduler_msg_flush_noop) 0 0 0)) false Hi')
      as (st & msg' & s' & Hp & ? & ? & _). by exists (st, msg'), s'.
Qed.

(** *** Any call, any script *)

Lemma client_op_keeps cur k o s :
  sched_inv cur k s -> legal_client o s -> keeps cur k (run_client_op o) s.
Proof.
  intros Hi Hl. destruct o as [qid msg high|src dest que msg|o|t| |qid fn|qid|f| |f| |f| | |b|b|qid];
    cbn [run_client_op]; cbn [legal_client] in Hl.
  - apply keeps_bind_ret. destruct (post_ok cur k s qid msg high Hi) as (st & m & s' & ? & ? & ? & _).
    by exists (st, m), s'.
  - apply keeps_bind_ret.
    destruct (post_ok cur k s (scheduler_get_qid src dest que) msg false Hi) as (st & m & s' & ? & ? & ? & _).
    by exists (st, m), s'.
  - apply keeps_bind_ret. destruct o; try done; destruct Hl; by apply timer_op_keeps.
  - apply keeps_bind_ret. by apply timer_fires_keeps.
  - apply keeps_gets. apply keeps_bind_ret. destruct (watchdog_timer _); [|by apply keeps_ret]. cbn [when].
    apply keeps_bind.
    + apply upd_plain_keeps; [done..|by constructor|by intros _ []].
    + intros _ s' _ _ Hi'. by apply watchdog_keeps.
  - destruct Hl as (Hq & fn' & -> & Hleg). by apply register_module_keeps.
  - destruct Hl as (Hq & x & Hx & He). by apply (deregister_module_keeps _ _ _ x).
  - by apply register_wma_keeps.
  - by apply deregister_wma_keeps.
  - by apply register_sys_keeps.
  - by apply deregister_sys_keeps.
  - apply keeps_bind_ret. by apply hdd_keeps.
  - apply keeps_bind_ret. by apply resume_keeps.
  - apply keeps_bind_ret. apply with_context_unit; [done|]. intros _. by apply keeps_ret.
  - apply keeps_bind_ret. apply with_context_unit; [done|]. intros _. by apply set_bit_keeps.
  - apply keeps_bind_ret. apply with_context_unit; [done|]. intros _. destruct Hl. by apply clear_bit_keeps.
  - apply keeps_bind_ret. destruct (queue_size_keeps cur k qid s Hi Hl) as (st & n & H & _).
    exists (st, n), s. split_and!; [done|apply frame_refl|done].
Qed.

Lemma script_keeps cur k p s :
  sched_inv cur k s -> legal_script p s -> keeps cur k (run_script p) s.
Proof.
  revert s. induction p as [st|o g IH|g IH]; intros s Hi Hl; cbn [run_script].
  - by apply keeps_ret.
  - destruct Hl as [Hl Hg]. apply keeps_bind; [by apply client_op_keeps|].
    intros r s' Hr _ Hi'. apply IH; [done|by apply Hg].
  - apply (keeps_eq _ _ _ (run_script (g s)) s s); [done|apply frame_refl|]. by apply IH.
Qed.

End Laws.
End Legal.

Arguments env_legal P {IP E}.
