(* ===== verification/SchedStep.v ===== *)
(** * The steps of the scheduler keep its invariant

    The handlers, a round of the thread, flushing, and the life cycle. *)
From S2P Require Import Prelude ItemPool QdfOs Sched SchedInv.
Import Event.

Section Step.
Context {P : Type} `{IP : item_pool P} {E : sched_env P} {L : item_pool_laws P} {H : env_legal P}.
Abbreviation W := (sched_world P).
Implicit Types (s : W) (c : scheduler_ctx) (a : Z) (i k : nat) (cur : list Z).

Lemma bind_mret {A B} (x : A) (g : A -> M W B) s : (y ← mret x; g y) s = g x s.
Proof. done. Qed.

(** ** Handlers *)

Lemma cur_msg cur k s a :
  sched_inv (a :: cur) k s -> exists m, messages s !! a = Some m.
Proof.
  intros Hi. apply (m_mem _ _ (inv_msgs _ _ _ Hi)). rewrite (m_live _ _ (inv_msgs _ _ _ Hi)).
  apply list_elem_of_here.
Qed.

Lemma call_msg_fn_keeps cur k f a s :
  sched_inv (a :: cur) k s -> keeps (a :: cur) k (call_msg_fn f a) s.
Proof.
  intros Hi. destruct (cur_msg _ _ _ _ Hi) as [m Hm]. unfold call_msg_fn.
  eapply keeps_step; [by apply read_msg_ret|apply frame_refl|].
  destruct (emit_inv (a :: cur) k s (EvCall f a) eq_refl Hi) as (s1 & H1 & Hi1 & Hf1 & _).
  eapply keeps_step; [exact H1|done|]. apply script_keeps; [done|]. apply msg_legal.
Qed.

Lemma call_callback_keeps cur k a s :
  sched_inv (a :: cur) k s -> keeps (a :: cur) k (call_callback (Some a)) s.
Proof.
  intros Hi. destruct (cur_msg _ _ _ _ Hi) as [m Hm]. unfold call_callback.
  eapply keeps_step; [by apply read_msg_ret|apply frame_refl|].
  destruct (callback m); apply keeps_bind_ret; [by apply call_msg_fn_keeps|by apply panic_keeps].
Qed.

Lemma target_if_keeps cur k a s :
  sched_inv (a :: cur) k s -> is_Some (legacy_wma_handler (g_sched_ctx s)) ->
  gp_sched_ctx s = true ->
  keeps (a :: cur) k (scheduler_target_if_mq_handler (Some a)) s.
Proof.
  intros Hi [f Hf] Hgp. unfold scheduler_target_if_mq_handler.
  eapply keeps_step; [by apply get_context_true|apply frame_refl|]. cbn [negb].
  destruct (cur_msg _ _ _ _ Hi) as [m Hm].
  eapply keeps_step; [by apply read_msg_ret|apply frame_refl|].
  destruct (callback m); [by apply call_msg_fn_keeps|].
  apply keeps_gets. rewrite Hf. eapply keeps_step; [reflexivity|apply frame_refl|].
  by apply call_msg_fn_keeps.
Qed.

Lemma timer_q_keeps cur k a s :
  sched_inv (a :: cur) k s -> is_Some (legacy_sys_handler (g_sched_ctx s)) ->
  gp_sched_ctx s = true ->
  keeps (a :: cur) k (scheduler_timer_q_mq_handler (Some a)) s.
Proof.
  intros Hi [f Hf] Hgp. unfold scheduler_timer_q_mq_handler.
  eapply keeps_step; [by apply get_context_true|apply frame_refl|]. cbn [negb].
  destruct (cur_msg _ _ _ _ Hi) as [m Hm].
  eapply keeps_step; [by apply read_msg_ret|apply frame_refl|].
  destruct (_ || _).
  - apply keeps_gets. rewrite Hf. eapply keeps_step; [reflexivity|apply frame_refl|].
    by apply call_msg_fn_keeps.
  - destruct (callback m) as [g|]; [|apply keeps_bind_ret; by apply panic_keeps].
    destruct (emit_inv _ k s (EvTimerCall g (bodyptr m)) eq_refl Hi) as (s1 & H1 & Hi1 & Hf1 & _).
    eapply keeps_step; [exact H1|done|]. apply keeps_bind_ret.
    apply script_keeps; [done|]. apply timer_legal.
Qed.

Lemma process_fn_keeps cur k fn a s :
  sched_inv (a :: cur) k s -> legacy_for fn (g_sched_ctx s) -> gp_sched_ctx s = true ->
  keeps (a :: cur) k (run_process_fn fn a) s.
Proof.
  intros Hi Hleg Hgp. destruct fn; cbn [run_process_fn].
  - by apply target_if_keeps.
  - by apply call_callback_keeps.
  - by apply timer_q_keeps.
  - by apply call_callback_keeps.
  - by apply call_callback_keeps.
  - by apply call_msg_fn_keeps.
Qed.

Lemma call_suspend_keeps cur k s : sched_inv cur k s -> keeps cur k call_suspend s.
Proof.
  intros Hi. unfold call_suspend. apply keeps_gets.
  destruct (hdd_callback _) as [f|]; [|by apply keeps_ret].
  destruct (emit_inv _ k s (EvSuspended f) eq_refl Hi) as (s1 & H1 & Hi1 & Hf1 & _).
  eapply keeps_step; [exact H1|done|]. apply keeps_bind_ret.
  apply script_keeps; [done|]. apply suspend_legal.
Qed.

(** ** A message leaves its queue *)

(** The world after the first message of a queue was taken out. *)
Definition popped i rest (e : sched_event) s : W :=
  set_trace (fun l => l ++ [e]) (set_ctx (upd_mq i (fun _ => rest)) s).

Lemma mq_get_some i a rest s :
  queues (g_sched_ctx s) !! i = Some (a :: rest) ->
  scheduler_mq_get i s = Ret (Some a) (set_ctx (upd_mq i (fun _ => rest)) s).
Proof.
  intros Hq. unfold scheduler_mq_get, ctx. rewrite bind_gets, Hq, (bind_deref _ _ _ _ eq_refl).
  by unfold upd.
Qed.

Lemma mq_get_none i s :
  queues (g_sched_ctx s) !! i = Some [] -> scheduler_mq_get i s = Ret None s.
Proof.
  intros Hq. unfold scheduler_mq_get, ctx. by rewrite bind_gets, Hq, (bind_deref _ _ _ _ eq_refl).
Qed.

Lemma alter_const_insert {A} (l : list A) i x : alter (fun _ => x) i l = <[i := x]> l.
Proof.
  revert i. induction l as [|y l IH]; intros [|i]; try done.
  change (y :: alter (fun _ => x) i l = y :: <[i := x]> l). by rewrite IH.
Qed.

Lemma popped_queues i rest e s :
  queues (g_sched_ctx (popped i rest e s)) = <[i := rest]> (queues (g_sched_ctx s)).
Proof. rewrite <- alter_const_insert. apply queues_upd_mq. Qed.

Lemma popped_inv k k' i a rest e s sp' :
  sched_inv [] k s -> queues (g_sched_ctx s) !! i = Some (a :: rest) -> (k' <= k)%nat ->
  spec_run (trace s ++ [e]) = Some sp' ->
  sp_queues sp' = <[i := rest]> (queues (g_sched_ctx s)) ->
  (forall j l b, (j < k')%nat -> <[i := rest]> (queues (g_sched_ctx s)) !! j = Some l -> b ∈ l ->
     b ∈ sp_fresh sp') ->
  sched_inv [a] k' (popped i rest e s).
Proof.
  intros [I1 I2 I3 I4] Hq Hk Hsp Hspq Hfresh.
  assert (forall j l, <[i := rest]> (queues (g_sched_ctx s)) !! j = Some l -> l <> [] ->
    exists l', queues (g_sched_ctx s) !! j = Some l' /\ l' <> []) as Hold.
  { intros j l. rewrite list_lookup_insert. case_decide as Hij; [|by eexists].
    destruct Hij as [<- _]. intros _ _. by eexists. }
  constructor.
  - destruct I1 as [C1 C2 C3 C4 C5 C6 C7].
    constructor; rewrite ?popped_queues; try done; [by rewrite length_insert|].
    intros j l Hj Hne. destruct (Hold j l Hj Hne) as (l' & Hl' & Hne'). by apply (C6 j l').
  - destruct I2 as [M1 M2 M3 M4 M5]. constructor; try done.
    unfold queued. rewrite popped_queues, <- alter_const_insert.
    destruct (concat_alter _ _ _ Hq) as (r & R1 & R2). rewrite (R2 (fun _ => rest)).
    change (sched_pool (popped i rest e s)) with (sched_pool s). rewrite M2. unfold queued. by rewrite R1.
  - destruct I3. by constructor.
  - destruct I4 as [O1 _]. constructor; rewrite ?popped_queues.
    + intros j l Hj Hl Hne. destruct (Hold j l Hl Hne) as (l' & Hl' & Hne').
      apply (O1 j l'); [lia|done..].
    + exists sp'. split_and!; [exact Hsp|done|done].
Qed.

Lemma taken_inv i a rest s :
  sched_inv [] i s -> queues (g_sched_ctx s) !! i = Some (a :: rest) ->
  sched_inv [a] 0 (popped i rest (EvTake a i) s).
Proof.
  intros Hi Hq. destruct (o_spec _ _ (inv_order _ _ _ Hi)) as (sp & S1 & S2 & S3).
  apply (popped_inv i 0 i a rest _ s (Spec (<[i := rest]> (queues (g_sched_ctx s))) []));
    [done..|lia| |done|].
  - rewrite spec_run_snoc, S1. cbn. rewrite S2.
    rewrite (proj2 (forallb_forall _ _)).
    + unfold spec_pop. rewrite Hq. by rewrite bool_decide_eq_true_2.
    + intros l Hl. apply forallb_forall. intros b Hb. apply bool_decide_eq_true.
      apply list_elem_of_In in Hl, Hb. apply elem_of_take in Hl as (j & Hj & Hlt).
      by apply (S3 j l).
  - intros j l b Hj. lia.
Qed.

Lemma flushed_inv i a rest s :
  sched_inv [] 0 s -> queues (g_sched_ctx s) !! i = Some (a :: rest) ->
  sched_inv [a] 0 (popped i rest (EvFlush a i) s).
Proof.
  intros Hi Hq. destruct (o_spec _ _ (inv_order _ _ _ Hi)) as (sp & S1 & S2 & S3).
  apply (popped_inv 0 0 i a rest _ s (Spec (<[i := rest]> (queues (g_sched_ctx s))) (sp_fresh sp)));
    [done..|lia| |done|].
  - rewrite spec_run_snoc, S1. cbn. rewrite S2. unfold spec_pop. rewrite Hq.
    by rewrite bool_decide_eq_true_2.
  - intros j l b Hj. lia.
Qed.

(** ** History *)

Lemma set_history_inv cur k s l :
  sched_inv cur k s -> length l = WLAN_SCHED_HISTORY_SIZE ->
  sched_inv cur k (set_history (fun _ => l) s) /\ frame s (set_history (fun _ => l) s).
Proof.
  intros [H1 H2 H3 H4] Hl. split; [constructor; [done|by apply (msgs_inv_ext _ s)| |by apply (order_inv_ext _ s)]|].
  - destruct H3. by constructor.
  - constructor; try done. exists []. by rewrite app_nil_r.
Qed.

Lemma set_history_index_inv cur k s g :
  sched_inv cur k s -> 0 <= g (sched_history_index s) < Z.of_nat WLAN_SCHED_HISTORY_SIZE ->
  sched_inv cur k (set_history_index g s) /\ frame s (set_history_index g s).
Proof.
  intros [H1 H2 H3 H4] Hg. split; [constructor; [done|by apply (msgs_inv_ext _ s)| |by apply (order_inv_ext _ s)]|].
  - destruct H3. by constructor.
  - constructor; try done. exists []. by rewrite app_nil_r.
Qed.

Lemma history_start_ret cur k a s :
  sched_inv (a :: cur) k s ->
  exists l, sched_history_start a s = Ret tt (set_history (fun _ => l) s) /\
            length l = WLAN_SCHED_HISTORY_SIZE.
Proof.
  intros Hi. pose proof (inv_thread _ _ _ Hi) as Ht. unfold sched_history_start.
  rewrite bind_gets. destruct (cur_msg _ _ _ _ Hi) as [m Hm].
  rewrite (bind_ret _ _ _ _ _ (read_msg_ret _ _ _ Hm)), !bind_gets.
  pose proof (t_history _ Ht) as Hlen. pose proof (t_history_index _ Ht).
  rewrite (bind_ret _ _ _ _ _ (array_set_ret (sched_history s) (sched_history_index s) _ _ ltac:(lia))).
  eexists. split; [reflexivity|]. by rewrite length_insert.
Qed.

Lemma history_stop_ok cur k s :
  sched_inv cur k s ->
  exists s', sched_history_stop s = Ret tt s' /\ frame s s' /\ sched_inv cur k s' /\
    g_sched_ctx s' = g_sched_ctx s /\ trace s' = trace s /\ messages s' = messages s.
Proof.
  intros Hi. pose proof (inv_thread _ _ _ Hi) as Ht. unfold sched_history_stop.
  pose proof (t_history_index _ Ht) as Hidx. pose proof (t_history _ Ht) as Hlen.
  rewrite !bind_gets.
  destruct (lookup_lt_is_Some_2 (sched_history s) (Z.to_nat (sched_history_index s))) as [h Hh]; [lia|].
  rewrite (bind_ret _ _ _ _ _ (array_get_ret _ _ h s (proj1 Hidx) Hh)), bind_gets.
  rewrite (bind_ret _ _ _ _ _ (array_set_ret (sched_history s) (sched_history_index s) _ s ltac:(lia))).
  rewrite bind_modify.
  match goal with |- context [set_history (fun _ => ?l) s] =>
    destruct (set_history_inv cur k s l) as [Hi1 Hf1]; [done|by rewrite length_insert|] end.
  eexists. split; [reflexivity|].
  edestruct set_history_index_inv as [Hi2 Hf2]; [exact Hi1| |].
  2:{ split_and!; [|exact Hi2|done..]. eapply frame_trans; [exact Hf1|exact Hf2]. }
  apply Z.mod_pos_bound. pose proof history_size. lia.
Qed.

(** ** A round of the thread *)

(** The world in which a taken message's handler is called. *)
Lemma before_handler i a rest s fn :
  sched_inv [] i s -> queues (g_sched_ctx s) !! i = Some (a :: rest) ->
  sch_thread (g_sched_ctx s) = true -> fns (g_sched_ctx s) !! i = Some (Some fn) ->
  exists m s1, messages s !! a = Some m /\ messages s1 = messages s /\
    (forall g : M W unit,
       (emit (EvTake a i);; m ← read_msg a; upd (set_watchdog (type m) (callback m));;
        sched_history_start a;; upd (upd_watchdog (fun _ => true));; g)
         (set_ctx (upd_mq i (fun _ => rest)) s) = g s1) /\
    sched_inv [a] 0 s1 /\ legacy_for fn (g_sched_ctx s1) /\ trace s1 = trace s ++ [EvTake a i] /\
    frame s s1 /\
    g_sched_ctx s1 = upd_watchdog (fun _ => true)
      (set_watchdog (type m) (callback m) (upd_mq i (fun _ => rest) (g_sched_ctx s))).
Proof.
  intros Hi Hq Hrun Hfn. pose proof (taken_inv i a rest s Hi Hq) as Hi1.
  destruct (cur_msg _ _ _ _ Hi1) as [m Hm].
  set (s0 := popped i rest (EvTake a i) s) in *.
  destruct (upd_plain_keeps [a] 0 (set_watchdog (type m) (callback m)) s0 Hi1 eq_refl eq_refl)
    as (r2 & s2 & [= <- <-] & Hf2 & Hi2); [by constructor|by intros _ []|].
  set (s2 := set_ctx (set_watchdog (type m) (callback m)) s0) in *.
  destruct (history_start_ret [] 0 a s2 Hi2) as (l & H3 & Hlen).
  destruct (set_history_inv [a] 0 s2 l Hi2 Hlen) as [Hi3 Hf3].
  set (s3 := set_history (fun _ => l) s2) in *.
  destruct (upd_plain_keeps [a] 0 (upd_watchdog (fun _ => true)) s3 Hi3 eq_refl eq_refl)
    as (r4 & s4 & [= <- <-] & Hf4 & Hi4); [by constructor|by intros _ []|].
  exists m, (set_ctx (upd_watchdog (fun _ => true)) s3). split_and!; [exact Hm|done| |done| |done| |done].
  - intros g. unfold emit, upd. rewrite bind_modify.
    rewrite (bind_ret _ _ _ _ _ (read_msg_ret a m s0 Hm)), bind_modify.
    by rewrite (bind_ret _ _ _ _ _ H3), bind_modify.
  - pose proof (c_legacy _ (inv_ctx _ _ _ Hi) i fn Hrun Hfn) as Hleg. by destruct fn.
  - constructor; try done; [congruence|by exists [EvTake a i]].
Qed.

(** A round that takes a message: the world [s1] in which its handler runs, the world [s2]
    it leaves, and the end of the round. *)
Lemma round_take i a rest s :
  sched_inv [] i s -> sch_thread (g_sched_ctx s) = true ->
  queues (g_sched_ctx s) !! i = Some (a :: rest) ->
  Z.testbit (sch_event_flag (g_sched_ctx s)) MC_SHUTDOWN_EVENT_MASK = false ->
  exists fn m s1 r s2 s3,
    fns (g_sched_ctx s) !! i = Some (Some fn) /\ messages s !! a = Some m /\
    messages s1 = messages s /\ trace s1 = trace s ++ [EvTake a i] /\ frame s s1 /\
    sched_inv [a] 0 s1 /\
    g_sched_ctx s1 = upd_watchdog (fun _ => true)
      (set_watchdog (type m) (callback m) (upd_mq i (fun _ => rest) (g_sched_ctx s))) /\
    run_process_fn fn a s1 = Ret r s2 /\ frame s1 s2 /\
    process_queues_round i s = Ret (Some 0%nat) s3 /\ sched_inv [] 0 s3 /\ frame s2 s3 /\
    g_sched_ctx s3 = upd_watchdog (fun _ => false) (g_sched_ctx s2) /\
    trace s3 = trace s2 /\ messages s3 = delete a (messages s2).
Proof.
  intros Hi Hrun Hq Hbit. pose proof (inv_ctx _ _ _ Hi) as Hc.
  destruct (c_handled _ Hc i _ Hq) as [fn Hfn]; [done|].
  destruct (before_handler i a rest s fn Hi Hq Hrun Hfn)
    as (m & s1 & Hm & Hms1 & H1 & Hi1 & Hleg & Ht1 & Hf1 & Hc1).
  assert (gp_sched_ctx s1 = true) as Hgp1.
  { apply (t_ctx _ (inv_thread _ _ _ Hi1)). by rewrite (fr_running _ _ Hf1). }
  destruct (process_fn_keeps [] 0 fn a s1 Hi1 Hleg Hgp1) as (r2 & s2 & H2 & Hf2 & Hi2).
  destruct (upd_plain_keeps [a] 0 (upd_watchdog (fun _ => false)) s2 Hi2 eq_refl eq_refl)
    as (r3 & s3 & [= <- <-] & Hf3 & Hi3); [by constructor|by intros _ []|].
  destruct (history_stop_ok [a] 0 _ Hi3) as (s4 & H4 & Hf4 & Hi4 & Hc4 & Ht4 & Hm4).
  destruct (msg_free_ok [] 0 s4 a Hi4) as (s5 & H5 & Hf5 & Hi5 & Hc5 & Ht5 & Hm5).
  exists fn, m, s1, r2, s2, s5. split_and!; try done.
  - unfold process_queues_round, qdf_atomic_test_bit, ctx. rewrite bind_gets, Hbit.
    rewrite (bind_ret _ _ _ _ _ (mq_get_some _ _ _ _ Hq)), bind_gets.
    change (fns (g_sched_ctx (set_ctx _ s))) with (fns (g_sched_ctx s)).
    rewrite (bind_ret _ _ _ _ _ (array_get_ret (fns (g_sched_ctx s)) (Z.of_nat i) _ _ ltac:(lia)
               ltac:(rewrite Nat2Z.id; exact Hfn))).
    cbn match. rewrite (bind_ret _ _ tt _ s5); [done|]. rewrite H1, (bind_ret _ _ _ _ _ H2).
    unfold upd. by rewrite bind_modify, (bind_ret _ _ _ _ _ H4).
  - eapply frame_trans; [exact Hf3|]. by apply (frame_trans _ s4).
  - by rewrite Hc5, Hc4.
  - by rewrite Ht5, Ht4.
  - by rewrite Hm5, Hm4.
Qed.

Lemma round_ok i s :
  sched_inv [] i s -> sch_thread (g_sched_ctx s) = true ->
  (i < SCHEDULER_NUMBER_OF_MSG_QUEUE)%nat ->
  exists r s', process_queues_round i s = Ret r s' /\ frame s s' /\
    sched_inv [] (match r with Some i' => i' | None => 0 end) s' /\
    (forall i', r = Some i' -> i' = 0%nat \/ i' = S i).
Proof.
  intros Hi Hrun Hlt. pose proof (inv_ctx _ _ _ Hi) as Hc.
  destruct (Z.testbit (sch_event_flag (g_sched_ctx s)) MC_SHUTDOWN_EVENT_MASK) eqn:Hbit.
  - unfold process_queues_round, qdf_atomic_test_and_clear_bit, qdf_atomic_test_bit, ctx.
    rewrite bind_gets, Hbit, bind_assoc, bind_gets, bind_assoc.
    destruct (clear_bit_keeps [] i MC_SUSPEND_EVENT_MASK s Hi) as (r1 & s1 & H1 & Hf1 & Hi1); [done..|].
    rewrite (bind_ret _ _ _ _ _ H1).
    assert (keeps [] i (when (Z.testbit (sch_event_flag (g_sched_ctx s)) MC_SUSPEND_EVENT_MASK)
                          call_suspend) s1) as (r2 & s2 & H2 & Hf2 & Hi2).
    { destruct (Z.testbit _ MC_SUSPEND_EVENT_MASK); [by apply call_suspend_keeps|by apply keeps_ret]. }
    exists None, s2. split_and!; [|by apply (frame_trans s s1)| |done].
    + by rewrite bind_mret, (bind_ret _ _ _ _ _ H2).
    + apply (sched_inv_mono _ i); [lia|done].
  - destruct (queue_some _ i Hc Hlt) as [l Hq]. destruct l as [|a rest].
    + unfold process_queues_round, qdf_atomic_test_bit, ctx.
      rewrite bind_gets, Hbit, (bind_ret _ _ _ _ _ (mq_get_none _ _ Hq)).
      exists (Some (S i)), s. split_and!; [done|apply frame_refl| |naive_solver].
      destruct Hi as [I1 I2 I3 [O1 (sp & O2 & O3 & O4)]]. constructor; try done. constructor.
      * intros j l Hj Hl Hne. destruct (decide (j = i)) as [->|]; [congruence|].
        apply (O1 j l); [lia|done..].
      * exists sp. split_and!; [done..|]. intros j l b Hj Hl Hb.
        destruct (decide (j = i)) as [->|]; [|apply (O4 j l); [lia|done..]].
        rewrite Hq in Hl. injection Hl as <-. by apply elem_of_nil in Hb.
    + destruct (round_take i a rest s Hi Hrun Hq Hbit)
        as (fn & m & s1 & r & s2 & s3 & _ & _ & _ & _ & Hf1 & _ & _ & _ & Hf2 & H3 & Hi3 & Hf3 & _).
      exists (Some 0%nat), s3. split_and!; [done| |done|naive_solver].
      eapply frame_trans; [exact Hf1|]. by apply (frame_trans s1 s2).
Qed.

(** ** The thread *)

Lemma set_thread_inv cur k s pc :
  sched_inv cur k s -> thread_active (thread s) = true -> thread_active pc = true ->
  sched_inv cur k (set_thread (fun _ => pc) s).
Proof.
  intros [H1 H2 H3 H4] Hs Hpc.
  constructor; [done|by apply (msgs_inv_ext _ s)| |by apply (order_inv_ext _ s)].
  destruct H3 as [T1 T2 T3 T4 T5 T6 T7 T8 T9 T10]. constructor; try done; cbn.
  - intros _. by apply T1.
  - intros ->. done.
  - by rewrite T6, Hs, Hpc.
Qed.

(** A running thread comes to rest in a world. *)
Definition rests (m : M W unit) s : Prop := exists s', m s = Ret tt s' /\ sched_ok s'.

Lemma running_ok s :
  sched_inv [] (scanned (thread s)) s -> sch_thread (g_sched_ctx s) = true -> sched_ok s.
Proof. intros Hi Hrun. constructor; [done|congruence]. Qed.

Lemma thread_loop_rests sh k s :
  sched_inv [] k s -> thread_active (thread s) = true ->
  (sh = false -> (SCHEDULER_NUMBER_OF_MSG_QUEUE <= k)%nat) -> rests (thread_loop sh) s.
Proof.
  intros Hi Hact Hk. pose proof (t_active _ (inv_thread _ _ _ Hi) Hact) as Hrun.
  unfold thread_loop. destruct sh.
  - eexists. split.
    { rewrite (bind_ret _ _ _ _ _ (on_event_ret _ _ _ s)). reflexivity. }
    apply running_ok; [|done]. cbn [scanned thread set_thread].
    apply (sched_inv_mono _ k 0) in Hi; [|lia].
    destruct Hi as [I1 I2 I3 I4].
    constructor; [|by apply (msgs_inv_ext _ s)| |by apply (order_inv_ext _ s)].
    { destruct I1. by constructor. }
    destruct I3 as [T1 T2 T3 T4 T5 T6 T7 T8 T9 T10]. cbn in T4. destruct T4 as (E1 & E2 & E3).
    assert (gp_sched_ctx s = true) as Hgp by auto.
    assert (initialized (qdf_event_set (sch_shutdown (g_sched_ctx s))).2 = true) as Ei.
    { unfold qdf_event_set. rewrite E2, Hgp. done. }
    constructor; try done; cbn -[qdf_event_set].
    + rewrite Ei. split_and!; congruence.
    + unfold qdf_event_set. rewrite E2, Hgp. cbn. rewrite T6, Hrun, Hact. done.
  - eexists. split; [reflexivity|]. apply running_ok; [|done].
    apply (sched_inv_mono _ k); [by apply Hk|]. by apply set_thread_inv.
Qed.

Lemma queues_end_rests sh k s :
  sched_inv [] k s -> thread_active (thread s) = true ->
  (sh = false -> (SCHEDULER_NUMBER_OF_MSG_QUEUE <= k)%nat) -> rests (process_queues_end sh) s.
Proof.
  intros Hi Hact Hk. pose proof (t_active _ (inv_thread _ _ _ Hi) Hact) as Hrun.
  unfold rests, process_queues_end, qdf_atomic_test_and_clear_bit, qdf_atomic_test_bit, ctx.
  destruct (clear_bit_keeps [] k MC_SUSPEND_EVENT_MASK s Hi) as (r1 & s1 & H1 & Hf1 & Hi1); [done..|].
  rewrite bind_assoc, bind_gets, bind_assoc, (bind_ret _ _ _ _ _ H1), bind_mret.
  assert (thread_active (thread s1) = true) as Hact1 by (by rewrite (fr_thread _ _ Hf1)).
  destruct (Z.testbit _ _).
  2:{ by apply (thread_loop_rests sh k). }
  rewrite (bind_ret _ _ _ _ _ (on_event_ret _ _ _ s1)).
  set (e := (qdf_event_reset (resume_sch_event (g_sched_ctx s1))).2).
  destruct (upd_plain_keeps [] k (upd_resume (fun _ => e)) s1 Hi1 eq_refl eq_refl)
    as (r2 & s2 & [= <- <-] & Hf2 & Hi2); [|by intros _ []|].
  { constructor; try done. cbn. unfold e, qdf_event_reset. by destruct (initialized (resume_sch_event _)) eqn:?. }
  destruct (call_suspend_keeps [] k _ Hi2) as (r3 & s3 & H3 & Hf3 & Hi3).
  rewrite (bind_ret _ _ _ _ _ H3). eexists. split; [reflexivity|].
  assert (thread_active (thread s3) = true) as Hact3.
  { by rewrite (fr_thread _ _ Hf3), (fr_thread _ _ Hf2). }
  apply running_ok; [|by apply (t_active _ (inv_thread _ _ _ Hi3))].
  apply (sched_inv_mono _ k); [destruct sh; cbn; [lia|by apply Hk]|]. by apply set_thread_inv.
Qed.

Lemma thread_wakes s :
  sched_inv [] (scanned T_wait) s -> thread s = T_wait ->
  rests (qdf_atomic_clear_bit MC_POST_EVENT_MASK;;
         emit EvWake;; modify (set_thread (fun _ => T_scan 0))) s.
Proof.
  intros Hi Hpc. eexists. split.
  { by rewrite (bind_ret _ _ _ _ _ (clear_bit_ret MC_POST_EVENT_MASK s ltac:(done))). }
  assert (sch_thread (g_sched_ctx s) = true) as Hrun.
  { apply (t_active _ (inv_thread _ _ _ Hi)). by rewrite Hpc. }
  apply running_ok; [|done]. cbn [scanned thread set_thread].
  destruct Hi as [I1 I2 I3 [O1 (sp & O2 & O3 & O4)]].
  constructor; [|by apply (msgs_inv_ext _ s)| |].
  - destruct I1. by constructor.
  - destruct I3 as [T1 T2 T3 T4 T5 T6 T7 T8 T9 T10]. constructor; try done.
    cbn. by rewrite T6, Hpc.
  - constructor; [lia|]. exists (Spec (queues (g_sched_ctx s)) []). split_and!; [|done|lia].
    cbn. by rewrite spec_run_snoc, O2, <- O3.
Qed.

Lemma thread_step_ok s : sched_ok s -> rests scheduler_thread_step s.
Proof.
  intros [Hi Hstop]. unfold rests, scheduler_thread_step. rewrite bind_gets.
  pose proof (inv_thread _ _ _ Hi) as Ht.
  destruct (thread s) as [| |i|sh|] eqn:Hpc; cbn [scanned] in Hi.
  - exists s. split; [done|]. constructor; [by rewrite Hpc|done].
  - unfold qdf_atomic_test_bit, ctx. rewrite !bind_gets. destruct (_ || _); [by apply thread_wakes|].
    exists s. split; [done|]. constructor; [by rewrite Hpc|done].
  - assert (sch_thread (g_sched_ctx s) = true) as Hrun by (apply (t_active _ Ht); by rewrite Hpc).
    destruct (i <? SCHEDULER_NUMBER_OF_MSG_QUEUE)%nat eqn:Elt.
    + destruct (round_ok i s Hi Hrun) as (r & s1 & H1 & Hf1 & Hi1 & Hr); [by apply Nat.ltb_lt|].
      rewrite (bind_ret _ _ _ _ _ H1).
      assert (thread s1 = T_scan i) as Hpc1 by (by rewrite (fr_thread _ _ Hf1)).
      destruct r as [i'|].
      * eexists. split; [reflexivity|]. apply running_ok; cbn; [|by rewrite (fr_running _ _ Hf1)].
        apply set_thread_inv; [done|by rewrite Hpc1|done].
      * apply (queues_end_rests true 0); [done|by rewrite Hpc1|done].
    + apply Nat.ltb_ge in Elt. apply (queues_end_rests false i); [done|by rewrite Hpc|done].
  - unfold ctx. rewrite bind_gets. unfold qdf_wait_single_event.
    destruct (t_events _ Ht) as (_ & _ & E3).
    assert (sch_thread (g_sched_ctx s) = true) as Hrun by (apply (t_active _ Ht); by rewrite Hpc).
    rewrite E3, (t_ctx _ Ht Hrun).
    destruct (_ =? 0); [exists s; split; [done|]; constructor; [by rewrite Hpc|done]|].
    match goal with |- context [upd_resume (fun _ => ?e)] => 
      destruct (upd_plain_keeps [] (scanned (T_suspended sh)) (upd_resume (fun _ => e)) s Hi eq_refl eq_refl)
        as (r2 & s2 & [= <- <-] & Hf2 & Hi2); [|by intros _ []|] end.
    { constructor; try done. cbn. by rewrite E3, (t_ctx _ Ht Hrun). }
    unfold upd. rewrite bind_modify.
    apply (thread_loop_rests sh (scanned (T_suspended sh))); [done|by rewrite (fr_thread _ _ Hf2), Hpc|].
    by intros ->.
  - exists s. split; [done|]. constructor; [by rewrite Hpc|done].
Qed.

(** A call of the interface between steps. *)
Lemma calls_ok s s' :
  sched_ok s -> frame s s' -> sched_inv [] (scanned (thread s)) s' -> sched_ok s'.
Proof.
  intros [_ Hq] Hf Hi. constructor; [by rewrite (fr_thread _ _ Hf)|].
  rewrite (fr_running _ _ Hf). unfold queued in *. intros Hstop.
  rewrite (fr_queues _ _ Hf) by done. by apply Hq.
Qed.

(** ** Flushing *)


(** What flushing leaves alone: everything but the queues and the messages. *)
Record calm s s' : Prop := {
  ca_thread : thread s' = thread s;
  ca_gp : gp_sched_ctx s' = gp_sched_ctx s;
  ca_running : sch_thread (g_sched_ctx s') = sch_thread (g_sched_ctx s);
}.

Lemma calm_trans s1 s2 s3 : calm s1 s2 -> calm s2 s3 -> calm s1 s3.
Proof. intros [] []. constructor; congruence. Qed.
Lemma frame_calm s s' : frame s s' -> calm s s'.
Proof. intros []. by constructor. Qed.

(** A flush callback, or the message's memory freed. *)
Lemma flush_call_keeps cur k a m s :
  sched_inv cur k s ->
  keeps cur k (match flush_callback m, bodyptr m with
               | Some f, _ => emit (EvFlushCall f a);; run_script (flush_does f a m);; mret ()
               | None, Some p => emit (EvFreeBody p)
               | None, None => mret ()
               end) s.
Proof.
  intros Hi. destruct (flush_callback m) as [f|].
  - destruct (emit_inv _ k s (EvFlushCall f a) eq_refl Hi) as (s1 & H1 & Hi1 & Hf1 & _).
    eapply keeps_step; [exact H1|done|]. apply keeps_bind_ret.
    apply script_keeps; [done|]. apply flush_legal.
  - destruct (bodyptr m) as [p|]; [|by apply keeps_ret].
    destruct (emit_inv _ k s (EvFreeBody p) eq_refl Hi) as (s1 & H1 & Hi1 & Hf1 & _).
    by exists tt, s1.
Qed.

Lemma flush_loop_ok i l s :
  sched_inv [] 0 s -> sch_thread (g_sched_ctx s) = false -> queues (g_sched_ctx s) !! i = Some l ->
  exists s', flush_loop (S (length l)) i s = Ret tt s' /\ sched_inv [] 0 s' /\ calm s s' /\
             queues (g_sched_ctx s') = <[i := []]> (queues (g_sched_ctx s)).
Proof.
  revert s. induction l as [|a rest IH]; intros s Hi Hstop Hq.
  - exists s. cbn. rewrite (bind_ret _ _ _ _ _ (mq_get_none _ _ Hq)).
    split_and!; [done..|by rewrite list_insert_id].
  - cbn [length]. remember (S (length rest)) as n. cbn [flush_loop]. subst n.
    rewrite (bind_ret _ _ _ _ _ (mq_get_some _ _ _ _ Hq)).
    pose proof (flushed_inv i a rest s Hi Hq) as Hi1.
    pose proof (popped_queues i rest (EvFlush a i) s) as Hq1.
    set (s1 := popped i rest (EvFlush a i) s) in *.
    destruct (cur_msg _ _ _ _ Hi1) as [m Hm].
    rewrite (bind_ret _ _ tt _ s1) by done.
    rewrite (bind_ret _ _ _ _ _ (read_msg_ret _ _ _ Hm)).
    destruct (flush_call_keeps [a] 0 a m s1 Hi1) as ([] & s2 & H2 & Hf2 & Hi2).
    rewrite (bind_ret _ _ _ _ _ H2).
    destruct (msg_free_ok [] 0 s2 a Hi2) as (s3 & H3 & Hf3 & Hi3 & _).
    rewrite (bind_ret _ _ _ _ _ H3).
    pose proof (frame_trans _ _ _ Hf2 Hf3) as Hf13.
    assert (queues (g_sched_ctx s3) = <[i := rest]> (queues (g_sched_ctx s))) as Hq3.
    { by rewrite (fr_queues _ _ Hf13). }
    destruct (IH s3) as (s4 & H4 & Hi4 & Hc4 & Hq4); [done| | |].
    { by rewrite (fr_running _ _ Hf13). }
    { rewrite Hq3, list_lookup_insert_eq; [done|]. by eapply lookup_lt_Some. }
    exists s4. split_and!; [done..| |].
    + eapply calm_trans; [|exact Hc4]. by destruct (frame_calm _ _ Hf13).
    + by rewrite Hq4, Hq3, list_insert_insert_eq.
Qed.

Lemma queues_flush_ok todo i s :
  sched_inv [] 0 s -> sch_thread (g_sched_ctx s) = false ->
  (todo + i)%nat = SCHEDULER_NUMBER_OF_MSG_QUEUE ->
  (forall j l, (j < i)%nat -> queues (g_sched_ctx s) !! j = Some l -> l = []) ->
  exists s', queues_flush_loop todo i s = Ret tt s' /\ sched_inv [] 0 s' /\ calm s s' /\
             queued s' = [].
Proof.
  revert i s. induction todo as [|todo IH]; intros i s Hi Hstop Hn Hempty.
  - exists s. split_and!; [done..|]. unfold queued.
    assert (queues (g_sched_ctx s) = replicate SCHEDULER_NUMBER_OF_MSG_QUEUE []) as ->; [|done].
    symmetry. apply replicate_as_elem_of. split; [apply (c_queues _ (inv_ctx _ _ _ Hi))|].
    intros l [j Hj]%list_elem_of_lookup. apply (Hempty j); [|done].
    apply lookup_lt_Some in Hj. rewrite (c_queues _ (inv_ctx _ _ _ Hi)) in Hj. lia.
  - destruct (queue_some _ i (inv_ctx _ _ _ Hi)) as [l Hl]; [lia|].
    destruct (flush_loop_ok i l s Hi Hstop Hl) as (s1 & H1 & Hi1 & Hc1 & Hq1).
    destruct (IH (S i) s1) as (s2 & H2 & Hi2 & Hc2 & He2); [done| |lia| |].
    { by rewrite (ca_running _ _ Hc1). }
    { intros j l' Hj. rewrite Hq1, list_lookup_insert. case_decide as Hij; [by intros [= <-]|].
      apply Hempty. apply lookup_lt_Some in Hl. lia. }
    exists s2. split_and!; [|done|by apply (calm_trans _ s1)|done].
    cbn [queues_flush_loop]. unfold scheduler_flush_single_queue, ctx.
    by rewrite bind_assoc, bind_gets, Hl, bind_assoc, (bind_deref _ _ _ _ eq_refl),
      (bind_ret _ _ _ _ _ H1).
Qed.

(** ** Life cycle *)

(** Without a thread, nothing is queued and no pool item is in use. *)
Lemma stopped_idle s :
  sched_ok s -> sch_thread (g_sched_ctx s) = false ->
  queues (g_sched_ctx s) = replicate SCHEDULER_NUMBER_OF_MSG_QUEUE [] /\
  thread_active (thread s) = false /\ scanned (thread s) = 0%nat /\
  pool_live (sched_pool s) = [] /\ sched_queue_depth s = 0.
Proof.
  intros [Hi Hq] Hstop. specialize (Hq Hstop).
  assert (thread_active (thread s) = false) as Hact.
  { destruct (thread_active (thread s)) eqn:Ea; [|done].
    rewrite (t_active _ (inv_thread _ _ _ Hi) Ea) in Hstop. done. }
  assert (pool_live (sched_pool s) = []) as Hlive.
  { pose proof (m_live _ _ (inv_msgs _ _ _ Hi)) as Hp. rewrite Hq in Hp. by apply Permutation_nil_r in Hp. }
  split_and!; [|done|by destruct (thread s)|done|].
  - symmetry. apply replicate_as_elem_of. split; [apply (c_queues _ (inv_ctx _ _ _ Hi))|].
    intros l [j Hj]%list_elem_of_lookup. destruct (concat_alter _ _ _ Hj) as (r & R1 & _).
    unfold queued in Hq. rewrite Hq in R1. apply Permutation_nil_l in R1.
    by destruct l.
  - by rewrite (m_depth _ _ (inv_msgs _ _ _ Hi)), Hlive.
Qed.

(** What initializing and deinitializing come to, where no thread runs. *)
Record idle_step s s' : Prop := {
  id_thread : thread s' = thread s;
  id_messages : messages s' = messages s;
  id_pool : pool_ok (sched_pool s');
  id_live : pool_live (sched_pool s') = [];
  id_depth : sched_queue_depth s' = 0;
  id_timers : os_timers s' = os_timers s;
  id_callback : scheduler_timer_callback s = true -> scheduler_timer_callback s' = true;
  id_history : length (sched_history s') = length (sched_history s);
  id_index : sched_history_index s' = sched_history_index s;
  id_trace : spec_run (trace s') = spec_run (trace s);
  id_queues : queues (g_sched_ctx s') = replicate SCHEDULER_NUMBER_OF_MSG_QUEUE [];
  id_fns : fns (g_sched_ctx s') = fns (g_sched_ctx s);
  id_map : qidx_map (g_sched_ctx s') = no_qidx;
  id_last : sch_last_qidx (g_sched_ctx s') = sch_last_qidx (g_sched_ctx s);
  id_running : sch_thread (g_sched_ctx s') = false;
  id_start : initialized (sch_start_event (g_sched_ctx s')) = gp_sched_ctx s' /\
             complete (sch_start_event (g_sched_ctx s')) = 0;
  id_shutdown : initialized (sch_shutdown (g_sched_ctx s')) = gp_sched_ctx s' /\
                complete (sch_shutdown (g_sched_ctx s')) = 0;
  id_resume : initialized (resume_sch_event (g_sched_ctx s')) = gp_sched_ctx s';
}.

Lemma idle_ok s s' :
  sched_ok s -> sch_thread (g_sched_ctx s) = false -> idle_step s s' -> sched_ok s'.
Proof.
  intros Hok Hstop Hid. destruct (stopped_idle s Hok Hstop) as (Hqs & Hact & Hsc & Hlive & Hdepth).
  destruct Hok as [[I1 I2 I3 I4] _].
  assert (queued s' = []) as Hq' by (unfold queued; by rewrite (id_queues _ _ Hid)).
  constructor; [|done]. rewrite (id_thread _ _ Hid), Hsc.
  destruct (id_start _ _ Hid) as [S1 S2]. destruct (id_shutdown _ _ Hid) as [S3 S4].
  constructor.
  - destruct I1 as [K1 K2 K3 K4 K5 K6 K7].
    constructor; rewrite ?(id_queues _ _ Hid), ?(id_fns _ _ Hid), ?(id_map _ _ Hid), ?(id_last _ _ Hid); try done.
    + apply Forall_replicate. cbn. lia.
    + intros i l [-> _]%lookup_replicate. done.
    + rewrite (id_running _ _ Hid). done.
  - destruct I2 as [M1 M2 M3 M4 M5].
    constructor; rewrite ?(id_live _ _ Hid), ?(id_depth _ _ Hid), ?Hq', ?(id_messages _ _ Hid); try done.
    + apply (id_pool _ _ Hid).
    + intros a. by rewrite M3, Hlive.
  - destruct I3 as [T1 T2 T3 T4 T5 T6 T7 T8 T9 T10].
    constructor; rewrite ?(id_thread _ _ Hid), ?(id_running _ _ Hid), ?(id_timers _ _ Hid),
      ?(id_history _ _ Hid), ?(id_index _ _ Hid), ?Hact, ?S2, ?S4; try done.
    + split_and!; [done..|apply (id_resume _ _ Hid)].
    + destruct T7 as [T7|T7]; [left; by apply (id_callback _ _ Hid)|by right].
  - destruct I4 as [O1 (sp & O2 & O3 & O4)]. constructor; [lia|].
    exists sp. split_and!; [by rewrite (id_trace _ _ Hid)| |lia].
    by rewrite O3, Hqs, (id_queues _ _ Hid).
Qed.

Lemma mq_init_loop_ret s :
  exists f, mq_init_loop SCHEDULER_NUMBER_OF_MSG_QUEUE 0 s = Ret QDF_STATUS_SUCCESS (set_ctx f s) /\
    forall c, length (queues c) = SCHEDULER_NUMBER_OF_MSG_QUEUE ->
      queues (f c) = replicate SCHEDULER_NUMBER_OF_MSG_QUEUE [] /\
      fns (f c) = fns c /\ f c = upd_queues (fun _ => queue_ctx (f c)) c.
Proof.
  set (clear := fun i => upd_mq i (fun _ => [])).
  exists (fun c => clear 5%nat (clear 4%nat (clear 3%nat (clear 2%nat (clear 1%nat (clear 0%nat c)))))).
  split; [done|]. intros c Hl. split_and!; [|done|done].
  unfold clear. rewrite !queues_upd_mq.
  destruct (queues c) as [|? [|? [|? [|? [|? [|? [|]]]]]]]; done.
Qed.

Lemma create_ret get put s : initialized (get (g_sched_ctx s)) = false ->
  exists e, initialized e = true /\ complete e = 0 /\
    on_event get put qdf_event_create s = Ret QDF_STATUS_SUCCESS (set_ctx (put (fun _ => e)) s).
Proof.
  intros He. eexists. split_and!; [| |by rewrite on_event_ret; unfold qdf_event_create; rewrite He]; done.
Qed.

(** Past a test of a status that is [QDF_STATUS_SUCCESS]. *)
Ltac success := change (QDF_IS_STATUS_ERROR QDF_STATUS_SUCCESS) with false; cbn match.

Lemma sched_init_ok s : sched_ok s -> gp_sched_ctx s = false -> rests (scheduler_init;; mret ()) s.
Proof.
  intros Hok Hgp.
  assert (sch_thread (g_sched_ctx s) = false) as Hstop.
  { destruct (sch_thread (g_sched_ctx s)) eqn:Hr; [|done].
    pose proof (t_ctx _ (inv_thread _ _ _ (ok_inv _ Hok)) Hr). congruence. }
  destruct (stopped_idle s Hok Hstop) as (Hqs & Hact & Hsc & Hlive & Hdepth).
  pose proof Hok as [[I1 I2 I3 I4] _]. rewrite Hsc in I4.
  destruct (pool_init_ok _ (m_pool _ _ I2)) as (p & Hp & Hpok & Hplive). rewrite Hlive in Hplive.
  apply Permutation_nil_r in Hplive.
  destruct (t_events _ I3) as (E1 & E2 & E3). rewrite Hgp in E1, E2, E3.
  unfold rests, scheduler_init, scheduler_create_ctx.
  rewrite !bind_assoc, (bind_ret _ _ _ _ _ (on_pool_ret _ _ _ _ Hp)), !bind_assoc, bind_modify, bind_mret.
  set (s1 := set_gp (fun _ => true) (set_pool (fun _ => p) s)). success.
  rewrite bind_assoc, (bind_ret _ _ _ _ _ (get_context_true s1 eq_refl)). cbn [negb].
  unfold scheduler_queues_init, scheduler_all_queues_init.
  rewrite !bind_assoc, bind_modify.
  destruct (mq_init_loop_ret (set_depth (fun _ => 0) s1)) as (f & Hf & Hfq).
  rewrite !bind_assoc, (bind_ret _ _ _ _ _ Hf). success.
  destruct (Hfq (g_sched_ctx s) (c_queues _ I1)) as (Q1 & Q2 & Q3).
  unfold upd, emit. repeat (first [rewrite bind_assoc | rewrite bind_modify | rewrite bind_mret]); success.
  repeat (first [rewrite bind_assoc | rewrite bind_mret]); success.
  rewrite bind_assoc.
  match goal with |- context [(on_event _ upd_start _ ≫= _) ?x] => set (s2 := x) end.
  set (q := upd_qidx no_qidx (f (g_sched_ctx s))).
  assert (g_sched_ctx s2 = upd_queues (fun _ => queue_ctx q) (g_sched_ctx s)) as Hc2.
  { change (upd_qidx no_qidx (f (g_sched_ctx s)) = upd_queues (fun _ => queue_ctx q) (g_sched_ctx s)).
    unfold q. rewrite Q3. done. }
  destruct (create_ret sch_start_event upd_start s2) as (e1 & I11 & I12 & C1); [by rewrite Hc2|].
  rewrite (bind_ret _ _ _ _ _ C1). success. rewrite bind_assoc.
  set (s3 := set_ctx (upd_start (fun _ => e1)) s2).
  destruct (create_ret sch_shutdown upd_shutdown s3) as (e2 & I21 & I22 & C2);
    [change (initialized (sch_shutdown (g_sched_ctx s2)) = false); by rewrite Hc2|].
  rewrite (bind_ret _ _ _ _ _ C2). success. rewrite bind_assoc.
  set (s4 := set_ctx (upd_shutdown (fun _ => e2)) s3).
  destruct (create_ret resume_sch_event upd_resume s4) as (e3 & I31 & I32 & C3);
    [change (initialized (resume_sch_event (g_sched_ctx s2)) = false); by rewrite Hc2|].
  rewrite (bind_ret _ _ _ _ _ C3). success.
  eexists. split; [reflexivity|]. apply (idle_ok s); [done..|].
  constructor; try done.
  - destruct (o_spec _ _ I4) as (sp & O1 & O2 & O3).
    change (spec_run (trace s ++ [EvQueuesInit]) = spec_run (trace s)).
    rewrite spec_run_snoc, O1. cbn. by rewrite O2, Hqs.
  - change (sch_last_qidx (f (g_sched_ctx s)) = sch_last_qidx (g_sched_ctx s)). by rewrite Q3.
  - change (sch_thread (f (g_sched_ctx s)) = false). by rewrite Q3.
Qed.

Lemma mq_deinit_loop_ret todo i s :
  queues (g_sched_ctx s) = replicate SCHEDULER_NUMBER_OF_MSG_QUEUE [] ->
  (todo + i)%nat = SCHEDULER_NUMBER_OF_MSG_QUEUE -> mq_deinit_loop todo i s = Ret tt s.
Proof.
  intros Hq. revert i. induction todo as [|todo IH]; intros i Hn; [done|]. cbn [mq_deinit_loop].
  rewrite (bind_ret _ _ tt s s); [apply IH; lia|].
  unfold scheduler_mq_deinit, ctx. rewrite bind_gets, Hq, lookup_replicate_2 by lia. done.
Qed.

Lemma destroy_ret get put s : initialized (get (g_sched_ctx s)) = true ->
  on_event get put qdf_event_destroy s =
  Ret QDF_STATUS_SUCCESS (set_ctx (put (fun _ => event_zero)) s).
Proof. intros He. rewrite on_event_ret. unfold qdf_event_destroy. by rewrite He. Qed.

Lemma sched_deinit_ok s :
  sched_ok s -> sch_thread (g_sched_ctx s) = false -> rests (scheduler_deinit;; mret ()) s.
Proof.
  intros Hok Hstop. destruct (stopped_idle s Hok Hstop) as (Hqs & Hact & Hsc & Hlive & Hdepth).
  pose proof Hok as [[I1 I2 I3 I4] _]. unfold rests, scheduler_deinit.
  destruct (get_context_ret s) as (s0 & H0 & Hs0). rewrite bind_assoc, (bind_ret _ _ _ _ _ H0).
  destruct (gp_sched_ctx s) eqn:Hgp; cbn [negb].
  2:{ exists s0. split; [done|]. constructor.
      - rewrite (sm_thread _ _ Hs0). by apply (sched_inv_same _ _ s), (ok_inv _ Hok).
      - unfold queued. rewrite (sm_ctx _ _ Hs0). apply (ok_stopped _ Hok). }
  rewrite (get_context_true s Hgp) in H0. injection H0 as <-. clear Hs0.
  destruct (t_events _ I3) as (E1 & E2 & E3). rewrite Hgp in E1, E2, E3.
  unfold upd at 1. rewrite !bind_assoc, bind_modify, bind_assoc.
  set (s1 := set_ctx (upd_watchdog (fun _ => false)) s).
  rewrite (bind_ret _ _ _ _ _ (destroy_ret resume_sch_event upd_resume s1 E3)), bind_assoc.
  set (s2 := set_ctx (upd_resume (fun _ => event_zero)) s1).
  rewrite (bind_ret _ _ _ _ _ (destroy_ret sch_shutdown upd_shutdown s2 E2)), bind_assoc.
  set (s3 := set_ctx (upd_shutdown (fun _ => event_zero)) s2).
  rewrite (bind_ret _ _ _ _ _ (destroy_ret sch_start_event upd_start s3 E1)).
  set (s4 := set_ctx (upd_start (fun _ => event_zero)) s3).
  unfold scheduler_queues_deinit, scheduler_all_queues_deinit.
  rewrite !bind_assoc, (bind_ret _ _ _ _ _ (mq_deinit_loop_ret SCHEDULER_NUMBER_OF_MSG_QUEUE 0 s4 Hqs eq_refl)).
  unfold upd. rewrite !bind_assoc, bind_modify, bind_mret.
  set (s5 := set_ctx (upd_qidx no_qidx) s4). unfold scheduler_destroy_ctx.
  rewrite !bind_assoc, bind_modify.
  destruct (pool_deinit_ok _ (m_pool _ _ I2)) as (p & Hp & Hpok & Hplive). rewrite Hlive in Hplive.
  apply Permutation_nil_r in Hplive.
  rewrite !bind_assoc, (bind_ret _ _ _ _ _ (on_pool_ret _ _ _ (set_gp (fun _ => false) s5) Hp)).
  eexists. split; [reflexivity|]. apply (idle_ok s); [done..|]. by constructor.
Qed.

(** A wait after [qdf_event_set] passes. *)
Lemma set_then_wait e : initialized e = true -> 0 <= complete e ->
  exists e', qdf_wait_single_event (qdf_event_set e).2 = Some (QDF_STATUS_SUCCESS, e') /\
    initialized e' = true /\ 0 <= complete e'.
Proof.
  intros Hi Hc. unfold qdf_event_set, qdf_wait_single_event, UINT_MAX. rewrite Hi. cbn.
  repeat case_match; try lia; eexists; (split; [done|]); cbn; split; try done; lia.
Qed.

(** Enabling, with a thread or without. *)
Lemma enabled_ok s s' (created : bool) :
  sched_ok s -> gp_sched_ctx s = true -> sch_thread (g_sched_ctx s) = false ->
  (forall i fn, fns (g_sched_ctx s) !! i = Some (Some fn) -> legacy_for fn (g_sched_ctx s)) ->
  (exists flag start, g_sched_ctx s' =
     upd_start (fun _ => start) (upd_thread_ptr (fun _ => created)
       (upd_flag (fun _ => flag) (g_sched_ctx s))) /\ initialized start = true /\ 0 <= complete start) ->
  s' = set_thread (fun pc => if created then T_wait else pc)
         (set_ctx (fun _ => g_sched_ctx s') s) ->
  sched_ok s'.
Proof.
  intros Hok Hgp Hstop Hleg (flag & start & Hctx & Hsi & Hsc') Hs'.
  destruct (stopped_idle s Hok Hstop) as (Hqs & Hact & Hsc & Hlive & Hdepth).
  pose proof Hok as [[I1 I2 I3 I4] Hq0]. rewrite Hs'. clear Hs'. rewrite Hctx.
  assert (forall k s'', queues (g_sched_ctx s'') = queues (g_sched_ctx s) -> trace s'' = trace s ->
    order_inv k s'') as Hord.
  { intros k s'' Hq Ht. destruct I4 as [_ (sp & O2 & O3 & O4)]. constructor; rewrite Hq, Hqs.
    - intros j l _ [-> _]%lookup_replicate. done.
    - exists sp. rewrite Ht, O3, Hqs. split_and!; [done..|].
      intros j l a _ [-> _]%lookup_replicate Ha. by apply elem_of_nil in Ha. }
  constructor; [|by intros _; apply Hq0].
  constructor; [| | |by apply Hord].
  - destruct I1. constructor; try done. intros i fn _ Hfn. by apply (Hleg i).
  - by apply (msgs_inv_ext _ s).
  - destruct I3 as [T1 T2 T3 (E1 & E2 & E3) T5 T6 T7 T8 T9 T10].
    constructor; cbn; try done.
    + by destruct created; [|rewrite Hact].
    + by destruct created.
    + split_and!; congruence.
    + rewrite T6, Hstop. cbn. destruct created; [done|]. by rewrite Hact.
Qed.

Lemma enable_ok s :
  sched_ok s -> gp_sched_ctx s = true -> sch_thread (g_sched_ctx s) = false ->
  (forall i fn, fns (g_sched_ctx s) !! i = Some (Some fn) -> legacy_for fn (g_sched_ctx s)) ->
  rests (scheduler_enable;; mret ()) s.
Proof.
  intros Hok Hgp Hstop Hleg. unfold rests, scheduler_enable.
  rewrite bind_assoc, (bind_ret _ _ _ _ _ (get_context_true s Hgp)). cbn [negb].
  rewrite bind_assoc, (bind_ret _ _ _ _ _ (clear_bit_ret MC_SHUTDOWN_EVENT_MASK s ltac:(done))), bind_assoc.
  set (s1 := set_ctx (upd_flag (fun b => Z.clearbit b MC_SHUTDOWN_EVENT_MASK)) s).
  rewrite (bind_ret _ _ _ _ _ (clear_bit_ret MC_POST_EVENT_MASK s1 ltac:(done))), bind_assoc, bind_gets.
  set (s2 := set_ctx (upd_flag (fun b => Z.clearbit b MC_POST_EVENT_MASK)) s1).
  set (created := thread_ok (length (trace s2))). unfold upd. rewrite bind_assoc, bind_modify.
  pose proof (inv_thread _ _ _ (ok_inv _ Hok)) as Ht.
  destruct (t_events _ Ht) as (E1 & _ & _). rewrite Hgp in E1. pose proof (t_start _ Ht) as Hst.
  destruct created eqn:Ec; cbn [negb].
  - unfold scheduler_thread_start. rewrite !bind_assoc.
    match goal with |- context [(on_event _ _ _ ≫= _) ?x] => set (s3 := x) end.
    rewrite (bind_ret _ _ _ _ _ (on_event_ret sch_start_event upd_start qdf_event_set s3)).
    rewrite bind_modify. unfold ctx. rewrite bind_assoc, bind_gets.
    change (sch_start_event (g_sched_ctx s3)) with (sch_start_event (g_sched_ctx s)).
    destruct (set_then_wait (sch_start_event (g_sched_ctx s))) as (e' & Hw & He1 & He2); [done..|].
    match goal with |- context [qdf_wait_single_event ?x] =>
      change x with (qdf_event_set (sch_start_event (g_sched_ctx s))).2 end.
    rewrite Hw. eexists. split; [reflexivity|].
    apply (enabled_ok s _ true); try done. by eexists _, e'.
  - eexists. split; [reflexivity|]. apply (enabled_ok s _ false); try done.
    eexists _, (sch_start_event (g_sched_ctx s)). by split.
Qed.

Lemma disable_begin_ok s : sched_ok s -> rests (scheduler_disable_begin;; mret ()) s.
Proof.
  intros Hok. pose proof (ok_inv _ Hok) as Hi. unfold rests, scheduler_disable_begin.
  destruct (keeps_bind_ret [] (scanned (thread s)) (c ← scheduler_get_context;
     if negb c then mret QDF_STATUS_E_INVAL else
     qdf_atomic_set_bit MC_SHUTDOWN_EVENT_MASK;; qdf_atomic_set_bit MC_POST_EVENT_MASK;;
     mret QDF_STATUS_SUCCESS) (fun _ => tt) s) as (r & s1 & H1 & Hf1 & Hi1).
  { apply with_context; [done|]. intros _. apply keeps_bind; [by apply set_bit_keeps|].
    intros _ s1 _ _ Hi1. apply keeps_bind_ret. by apply set_bit_keeps. }
  exists s1. destruct r. split; [done|]. by apply (calls_ok s).
Qed.

Lemma disable_end_ok s :
  sched_ok s ->
  exists r s', scheduler_disable_end s = Ret r s' /\ sched_ok s' /\
    (thread s = T_exited -> sch_thread (g_sched_ctx s) = true ->
     r = Some QDF_STATUS_SUCCESS /\ sch_thread (g_sched_ctx s') = false).
Proof.
  intros Hok. pose proof Hok as [Hi Hq]. unfold scheduler_disable_end, ctx.
  rewrite bind_gets. pose proof (inv_thread _ _ _ Hi) as Ht.
  destruct (qdf_wait_single_event _) as [[st e']|] eqn:Hw.
  2:{ exists None, s. split_and!; [done..|]. intros Hpc Hrun. exfalso. revert Hw.
      destruct (t_events _ Ht) as (_ & E2 & _). unfold qdf_wait_single_event.
      by rewrite E2, (t_ctx _ Ht Hrun), (t_shutdown _ Ht), Hrun, Hpc. }
  assert (thread_active (thread s) = false /\ initialized e' = gp_sched_ctx s /\ complete e' = 0)
    as (Hact & He1 & He2).
  { destruct (t_events _ Ht) as (_ & E2 & _). pose proof (t_shutdown _ Ht) as Hsd.
    unfold qdf_wait_single_event in Hw. rewrite E2 in Hw. destruct (gp_sched_ctx s) eqn:Hgp.
    - destruct (sch_thread (g_sched_ctx s) && negb (thread_active (thread s))) eqn:Ea; rewrite Hsd in Hw; [|done].
      apply andb_true_iff in Ea as [_ ->%negb_true_iff]. cbn in Hw. by injection Hw as <- <-.
    - injection Hw as <- <-. destruct (sch_thread (g_sched_ctx s)) eqn:Hr.
      { rewrite (t_ctx _ Ht Hr) in Hgp. done. }
      split_and!; [|done..]. destruct (thread_active (thread s)) eqn:Ha; [|done].
      by rewrite (t_active _ Ht Ha) in Hr. }
  assert (scanned (thread s) = 0%nat) as Hsc by (by destruct (thread s)).
  unfold upd. rewrite !bind_modify.
  match goal with |- context [(_ ≫= _) ?x] => set (s1 := x) end.
  assert (sched_inv [] 0 s1) as Hi1.
  { rewrite Hsc in Hi. destruct Hi as [I1 I2 I3 I4].
    constructor; [|by apply (msgs_inv_ext _ s)| |by apply (order_inv_ext _ s)].
    - destruct I1. constructor; try done.
    - destruct I3 as [T1 T2 T3 (E1 & E2 & E3) T5 T6 T7 T8 T9 T10]. constructor; cbn; try done.
      by rewrite Hact. }
  destruct (queues_flush_ok SCHEDULER_NUMBER_OF_MSG_QUEUE 0 s1) as (s2 & H2 & Hi2 & Hc2 & He); [done..|lia|].
  unfold scheduler_queues_flush. rewrite (bind_ret _ _ _ _ _ H2).
  exists (Some QDF_STATUS_SUCCESS), s2. split_and!; [done| |split; [done|by rewrite (ca_running _ _ Hc2)]]. constructor; [|done].
  rewrite (ca_thread _ _ Hc2). change (thread s1) with (thread s). by rewrite Hsc.
Qed.

Lemma time_ok us s : sched_ok s -> sched_ok (set_now (fun t => wrap 64 (t + us)) s).
Proof.
  intros Hok. pose proof (ok_inv _ Hok) as Hi.
  assert (same_for_inv s (set_now (fun t => wrap 64 (t + us)) s)) as Hs.
  { constructor; try done. exists []. by rewrite app_nil_r. }
  apply (calls_ok s); [done|by apply frame_same|by apply (sched_inv_same _ _ s)].
Qed.

(** ** Any step *)

(** When the life cycle's functions may be called: once for each change of state, and
    the thread runs only with the legacy handlers of the registered modules. *)
Definition legal_step (x : sched_step) s : Prop :=
  match x with
  | SClient o => legal_client o s
  | SInit => gp_sched_ctx s = false
  | SEnable => gp_sched_ctx s = true /\ sch_thread (g_sched_ctx s) = false /\
      forall i fn, fns (g_sched_ctx s) !! i = Some (Some fn) -> legacy_for fn (g_sched_ctx s)
  | SDeinit => sch_thread (g_sched_ctx s) = false
  | SThread | SDisableBegin | SDisableEnd | STime _ => True
  end.

Lemma step_ok x s : sched_ok s -> legal_step x s -> rests (run_step x) s.
Proof.
  intros Hok Hl. destruct x as [o| | | | | | |us]; cbn [run_step]; cbn [legal_step] in Hl.
  - destruct (keeps_bind_ret _ _ _ (fun _ => tt) s (client_op_keeps [] (scanned (thread s)) o s (ok_inv _ Hok) Hl))
      as ([] & s1 & H1 & Hf1 & Hi1).
    exists s1. split; [done|]. by apply (calls_ok s).
  - by apply thread_step_ok.
  - by apply sched_init_ok.
  - destruct Hl as (? & ? & ?). by apply enable_ok.
  - by apply disable_begin_ok.
  - destruct (disable_end_ok s Hok) as (r & s' & H1 & Hok' & _). exists s'. split; [|done].
    by rewrite (bind_ret _ _ _ _ _ H1).
  - by apply sched_deinit_ok.
  - eexists. split; [reflexivity|]. by apply time_ok.
Qed.

End Step.
