(* ===== verification/SchedSpec.v ===== *)
(** * What the scheduler promises

    Over every history of calls, thread steps and life cycle: it never crashes, it
    refines the abstract scheduler of SchedInv, it loses no message, its answers are
    the documented ones, it empties its queues, and it stops when told to.  The last
    part shows what happens when modules are deregistered out of order. *)
From S2P Require Import Prelude ItemPool FlexMem QdfOs Sched SchedInv SchedStep.
Import Event.

Section Spec.
Context {P : Type} `{IP : item_pool P} {E : sched_env P} {L : item_pool_laws P} {H : env_legal P}.
Abbreviation W := (sched_world P).
Implicit Types (s : W) (a : Z) (i : nat).

(** The worlds that legal steps lead to, from static memory, an unused pool and timers
    of which none runs. *)
Inductive reachable : W -> Prop :=
  | reach_zero p t :
      pool_ok p -> pool_live p = [] -> McTimer.timers_inv t ->
      (forall x r, McTimer.timers t !! x = Some r -> McTimer.running r = false) ->
      reachable (world_zero p t)
  | reach_step s x s' : reachable s -> legal_step x s -> run_step x s = Ret tt s' -> reachable s'.

Lemma reachable_ok s : reachable s -> sched_ok s.
Proof.
  induction 1 as [p t Hp Hl Ht Hr|s x s' _ IH Hx Hs].
  - constructor; [|done]. constructor.
    + constructor; try done.
      * apply Forall_replicate. cbn. lia.
      * intros i l Hi Hne. apply (lookup_replicate_1 SCHEDULER_NUMBER_OF_MSG_QUEUE []) in Hi as [-> _]. done.
    + constructor; cbn; try done; rewrite ?Hl; try done.
      intros a. rewrite lookup_empty. split; [by intros []|by intros ?%elem_of_nil].
    + constructor; cbn; try done; [by right|by rewrite length_replicate|].
      pose proof history_size. lia.
    + constructor; cbn; [lia|]. exists spec_zero. split_and!; [done..|lia].
  - destruct (step_ok x s IH Hx) as (s'' & Hs' & Hok). rewrite Hs in Hs'. by injection Hs' as <-.
Qed.

(** C14: the scheduler never crashes or gets stuck: whatever clients' functions do within
    the rules of the interface, every call, every step of the scheduler thread, and every
    call of the life cycle, in any order, runs to its end; no message is read after it
    was freed, no queue, handler table or history entry outside its array is accessed,
    and the flush of the queues ends. *)
Theorem sched_safe x s :
  reachable s -> legal_step x s -> exists s', run_step x s = Ret tt s' /\ reachable s'.
Proof.
  intros Hs Hx. destruct (step_ok x s (reachable_ok s Hs) Hx) as (s' & Hr & _).
  exists s'. split; [done|]. by apply (reach_step s x).
Qed.

(** C4: the scheduler refines the abstract one: what entered and left the queues,
    recorded in order, is accepted by [spec_run], and its six lists are the queues.
    So every message leaves the front of the queue it was put in, a message put with
    high priority leaves before those already there, a message is taken for handling only when the queues
    before its own hold nothing but messages that came after the thread had last taken
    one or woken up, no message is taken from a queue whose module has no handler, and
    initializing the queues never drops a message. *)
Theorem sched_refines s :
  reachable s ->
  exists sp, spec_run (trace s) = Some sp /\ sp_queues sp = queues (g_sched_ctx s).
Proof.
  intros Hs%reachable_ok. destruct (o_spec _ _ (inv_order _ _ _ (ok_inv _ Hs))) as (sp & H1 & H2 & _).
  by exists sp.
Qed.

(** C18: no message is lost or leaked: the items of the pool in use are exactly the
    messages in the queues, each in one queue once; the counter of queued messages is
    exact and never exceeds its limit; and while no thread runs, nothing is queued and
    nothing is in use. *)
Theorem sched_messages_accounted s :
  reachable s ->
  pool_live (sched_pool s) ≡ₚ queued s /\ NoDup (queued s) /\
  (forall a, is_Some (messages s !! a) <-> a ∈ queued s) /\
  sched_queue_depth s = Z.of_nat (length (queued s)) /\
  sched_queue_depth s <= SCHEDULER_CORE_MAX_MESSAGES /\
  (sch_thread (g_sched_ctx s) = false -> queued s = [] /\ sched_queue_depth s = 0).
Proof.
  intros Hs%reachable_ok. pose proof (inv_msgs _ _ _ (ok_inv _ Hs)) as [M1 M2 M3 M4 M5].
  cbn [app] in M2. split_and!; [done| | |by rewrite M4, M2|done|].
  - rewrite <- M2. by apply pool_live_NoDup.
  - intros a. by rewrite M3, M2.
  - intros Hstop. pose proof (ok_stopped _ Hs Hstop) as Hq. split; [done|].
    by rewrite M4, M2, Hq.
Qed.

(** C32: what posting answers, on every path: a post without message or context is
    invalid; one to a scheduler that does not run, with a reserved field that is no
    cookie, with module ids out of range, or to a module without a handler, fails; in
    all these nothing changes.  Otherwise, when 4000 messages are queued or the pool
    gives no item, the answer is NOMEM and no message was queued; else the message is
    copied (without its callback, for the legacy WMA module) to the back or the front
    of its module's queue, and the POST bit wakes up the thread. *)
Theorem post_answers qid msg high s :
  reachable s ->
  exists st msg' s', scheduler_post_msg_by_priority qid msg high s = Ret (st, msg') s' /\
    post_result qid msg high s s' st.
Proof.
  intros Hs%reachable_ok.
  destruct (post_ok [] (scanned (thread s)) s qid msg high (ok_inv _ Hs)) as (st & m & s' & ? & _ & _ & ?).
  by exists st, m, s'.
Qed.

(** ** Handling a message *)

(** The function that a message of a queue with the handler [fn] is given to. *)
Definition dispatch_event (fn : process_fn) (a : Z) (m : scheduler_msg) (c : scheduler_ctx)
    : sched_event :=
  let call f := match f with Some f => EvCall f a | None => EvPanic end in
  match fn with
  | scheduler_target_if_mq_handler_fn =>
      call (match callback m with Some f => Some f | None => legacy_wma_handler c end)
  | scheduler_timer_q_mq_handler_fn =>
      if bool_decide (reserved m = SYS_MSG_COOKIE /\ type m = SYS_MSG_ID_MC_TIMER) then
        match callback m with Some f => EvTimerCall f (bodyptr m) | None => EvPanic end
      else call (legacy_sys_handler c)
  | client_fn f => EvCall f a
  | _ => call (callback m)
  end.

Lemma bind_ret_inv {A B} (m : M W A) (k : A -> M W B) s r s' :
  (x ← m; k x) s = Ret r s' -> exists x s1, m s = Ret x s1 /\ k x s1 = Ret r s'.
Proof. unfold mbind, M_bind. destruct (m s) as [x s1| |]; [|done..]. by exists x, s1. Qed.

Lemma emit_script_first cur k e p s r s' :
  sched_inv cur k s -> silent e = true -> (forall s, legal_script p s) ->
  (emit e;; run_script p) s = Ret r s' -> exists l, trace s' = trace s ++ e :: l.
Proof.
  intros Hi He Hp Hs. destruct (emit_inv cur k s e He Hi) as (s1 & H1 & Hi1 & _).
  rewrite (bind_ret _ _ _ _ _ H1) in Hs. injection H1 as <-.
  destruct (script_keeps cur k p _ Hi1 (Hp _)) as (r' & s2 & H2 & Hf2 & _).
  rewrite Hs in H2. injection H2 as <- <-. destruct (fr_trace _ _ Hf2) as [l Hl].
  exists l. rewrite Hl. cbn. by rewrite <- app_assoc.
Qed.

Lemma call_msg_fn_first cur k f a s r s' :
  sched_inv (a :: cur) k s -> call_msg_fn f a s = Ret r s' ->
  exists l, trace s' = trace s ++ EvCall f a :: l.
Proof.
  intros Hi. destruct (cur_msg _ _ _ _ Hi) as [m Hm]. unfold call_msg_fn.
  rewrite (bind_ret _ _ _ _ _ (read_msg_ret _ _ _ Hm)).
  apply (emit_script_first (a :: cur) k); [done..|]. apply msg_legal.
Qed.

Lemma call_callback_first cur k a m s r s' :
  sched_inv (a :: cur) k s -> messages s !! a = Some m -> call_callback (Some a) s = Ret r s' ->
  exists l, trace s' =
    trace s ++ match callback m with Some f => EvCall f a | None => EvPanic end :: l.
Proof.
  intros Hi Hm. unfold call_callback. rewrite (bind_ret _ _ _ _ _ (read_msg_ret _ _ _ Hm)).
  destruct (callback m) as [f|]; intros (x & s1 & H1 & [= <- <-])%bind_ret_inv.
  - by apply (call_msg_fn_first cur k f a s x).
  - injection H1 as <- <-. by exists [].
Qed.

Lemma process_fn_first cur k fn a m s r s' :
  sched_inv (a :: cur) k s -> messages s !! a = Some m -> gp_sched_ctx s = true ->
  legacy_for fn (g_sched_ctx s) -> run_process_fn fn a s = Ret r s' ->
  exists l, trace s' = trace s ++ dispatch_event fn a m (g_sched_ctx s) :: l.
Proof.
  intros Hi Hm Hgp Hleg. pose proof (call_callback_first cur k a m s r s' Hi Hm) as Hcb.
  destruct fn; cbn [run_process_fn dispatch_event]; try exact Hcb.
  - unfold scheduler_target_if_mq_handler.
    rewrite (bind_ret _ _ _ _ _ (get_context_true s Hgp)). cbn [negb].
    rewrite (bind_ret _ _ _ _ _ (read_msg_ret _ _ _ Hm)). destruct Hleg as [f Hf]. rewrite Hf.
    destruct (callback m); [by apply (call_msg_fn_first cur k)|].
    unfold ctx. rewrite bind_gets, Hf, (bind_deref _ _ _ _ eq_refl).
    by apply (call_msg_fn_first cur k).
  - unfold scheduler_timer_q_mq_handler.
    rewrite (bind_ret _ _ _ _ _ (get_context_true s Hgp)). cbn [negb].
    rewrite (bind_ret _ _ _ _ _ (read_msg_ret _ _ _ Hm)). destruct Hleg as [f Hf]. rewrite Hf.
    assert ((negb (reserved m =? SYS_MSG_COOKIE) || negb (type m =? SYS_MSG_ID_MC_TIMER)) =
            negb (bool_decide (reserved m = SYS_MSG_COOKIE /\ type m = SYS_MSG_ID_MC_TIMER))) as ->.
    { case_bool_decide; lia. }
    destruct (bool_decide _); cbn [negb].
    + destruct (callback m) as [g|].
      * intros Hs. rewrite <- bind_assoc in Hs. apply bind_ret_inv in Hs as (x & s1 & H1 & [= <- <-]).
        apply (emit_script_first (a :: cur) k _ _ _ _ _ Hi) in H1; [done..|]. apply timer_legal.
      * intros (x & s1 & H1 & [= <- <-])%bind_ret_inv. injection H1 as <- <-. by exists [].
    + unfold ctx. rewrite bind_gets, Hf, (bind_deref _ _ _ _ eq_refl).
      by apply (call_msg_fn_first cur k).
  - by apply (call_msg_fn_first cur k).
Qed.

(** a message at the front of the queue that the thread looks at is given to the
    function its queue's handler chooses: to its callback, to the legacy WMA handler
    when it has none, to the timer's callback with the timer's data if the message
    carries the cookie and the type of a timer message and to the legacy SYS handler
    otherwise, or to the client's own handler.  It is taken out before and freed after,
    and the thread starts again at the first queue. *)
Theorem sched_dispatch s i a rest :
  reachable s -> thread s = T_scan i ->
  queues (g_sched_ctx s) !! i = Some (a :: rest) ->
  Z.testbit (sch_event_flag (g_sched_ctx s)) MC_SHUTDOWN_EVENT_MASK = false ->
  exists fn m s' l,
    fns (g_sched_ctx s) !! i = Some (Some fn) /\ messages s !! a = Some m /\
    scheduler_thread_step s = Ret tt s' /\ thread s' = T_scan 0 /\ messages s' !! a = None /\
    trace s' = trace s ++ EvTake a i :: dispatch_event fn a m (g_sched_ctx s) :: l.
Proof.
  intros Hs%reachable_ok Hpc Hq Hbit. pose proof (ok_inv _ Hs) as Hi. rewrite Hpc in Hi. cbn in Hi.
  pose proof (inv_thread _ _ _ Hi) as Ht.
  assert (sch_thread (g_sched_ctx s) = true) as Hrun by (apply (t_active _ Ht); by rewrite Hpc).
  destruct (round_take i a rest s Hi Hrun Hq Hbit)
    as (fn & m & s1 & r & s2 & s3 & Hfn & Hm & Hm1 & Ht1 & Hf1 & Hi1 & Hc1 & H2 & Hf2 & H3 & Hi3 & Hf3 & Hc3 & Ht3 & Hm3).
  pose proof (c_legacy _ (inv_ctx _ _ _ Hi) i fn Hrun Hfn) as Hleg.
  destruct (process_fn_first [] 0 fn a m s1 r s2 Hi1) as [l Hl]; [by rewrite Hm1| | |done|].
  { rewrite (fr_gp _ _ Hf1). by apply (t_ctx _ Ht). }
  { rewrite Hc1. by destruct fn. }
  exists fn, m, (set_thread (fun _ => T_scan 0) s3), l. split_and!; [done|done| |done| |].
  - unfold scheduler_thread_step. rewrite bind_gets, Hpc.
    assert (i < SCHEDULER_NUMBER_OF_MSG_QUEUE)%nat as Hlt.
    { rewrite <- (c_queues _ (inv_ctx _ _ _ Hi)). by eapply lookup_lt_Some. }
    by rewrite (proj2 (Nat.ltb_lt _ _) Hlt), (bind_ret _ _ _ _ _ H3).
  - cbn. rewrite Hm3. apply lookup_delete_eq.
  - cbn. rewrite Ht3, Hl, Ht1, Hc1, <- app_assoc. by destruct fn.
Qed.

(** ** Emptying the queues *)

(** Clients that leave the queues and the thread's event bits alone. *)
Definition leaves_queues s s' : Prop :=
  queues (g_sched_ctx s') = queues (g_sched_ctx s) /\
  sch_event_flag (g_sched_ctx s') = sch_event_flag (g_sched_ctx s).
Definition quiet {A} (m : M W A) : Prop := forall s r s', m s = Ret r s' -> leaves_queues s s'.

Class env_quiet : Prop := EnvQuiet {
  msg_quiet f a m : quiet (run_script (msg_does f a m));
  timer_quiet f d : quiet (run_script (timer_does f d));
}.

Lemma quiet_mret {A} (x : A) : quiet (mret x).
Proof. intros s r s' [= <- <-]. done. Qed.
Lemma quiet_bind {A B} (m : M W A) (k : A -> M W B) :
  quiet m -> (forall x, quiet (k x)) -> quiet (x ← m; k x).
Proof.
  intros Hm Hk s r s' (x & s1 & H1 & H2)%bind_ret_inv.
  destruct (Hm _ _ _ H1), (Hk _ _ _ _ H2). split; congruence.
Qed.
Lemma quiet_gets {A} (f : W -> A) : quiet (gets f).
Proof. intros s r s' [= <- <-]. done. Qed.
Lemma quiet_deref {A} (o : option A) : quiet (deref o : M W A).
Proof. destruct o; [apply quiet_mret|by intros s r s' [=]]. Qed.
Lemma quiet_emit e : quiet (emit e : M W unit).
Proof. intros s r s' [= <- <-]. done. Qed.

Create HintDb quiet.
Hint Resolve quiet_mret quiet_gets quiet_deref quiet_emit msg_quiet timer_quiet : quiet.
Ltac quiet_tac :=
  repeat first [solve [auto with quiet] | apply quiet_bind; [|intros ?] | case_match].

Section Drain.
Context {Q : env_quiet}.

Lemma quiet_get_context : quiet (scheduler_get_context : M W bool).
Proof. unfold scheduler_get_context, when, QDF_DEBUG_PANIC. quiet_tac. Qed.
Lemma quiet_call_msg_fn f a : quiet (call_msg_fn f a : M W QDF_STATUS).
Proof. unfold call_msg_fn, read_msg. quiet_tac. Qed.
Hint Resolve quiet_get_context quiet_call_msg_fn : quiet.

Lemma quiet_process_fn fn a : quiet (run_process_fn fn a : M W QDF_STATUS).
Proof.
  assert (quiet (call_callback (Some a) : M W QDF_STATUS)) as Hcb.
  { unfold call_callback, read_msg, QDF_DEBUG_PANIC. quiet_tac. }
  destruct fn; cbn [run_process_fn]; auto with quiet.
  - unfold scheduler_target_if_mq_handler, read_msg, ctx. quiet_tac.
  - unfold scheduler_timer_q_mq_handler, read_msg, ctx, QDF_DEBUG_PANIC. quiet_tac.
Qed.

(** The thread serves the queues: it is not told to shut down or to suspend. *)
Definition serving s : Prop :=
  (thread s = T_wait \/ exists i, thread s = T_scan i) /\
  Z.testbit (sch_event_flag (g_sched_ctx s)) MC_SHUTDOWN_EVENT_MASK = false /\
  Z.testbit (sch_event_flag (g_sched_ctx s)) MC_SUSPEND_EVENT_MASK = false.

Definition posted s : bool := Z.testbit (sch_event_flag (g_sched_ctx s)) MC_POST_EVENT_MASK.

(** What is left to do: seven steps for each message, a pass for a set POST bit, and
    the rest of the present pass. *)
Definition work s : nat :=
  7 * length (queued s) + (if posted s then 9 else 0) +
  match thread s with
  | T_scan i => if (i <? SCHEDULER_NUMBER_OF_MSG_QUEUE)%nat then 7 - i else 1
  | _ => 0
  end.

(** A step that does work: nothing is queued by it, and what leaves is taken. *)
Definition works s : Prop :=
  exists s' l, scheduler_thread_step s = Ret tt s' /\ serving s' /\ (work s' < work s)%nat /\
    trace s' = trace s ++ l /\
    (forall a, a ∈ queued s -> a ∈ queued s' \/ exists i, EvTake a i ∈ l).

Lemma wait_works s :
  sched_ok s -> serving s -> thread s = T_wait ->
  works s \/ (queued s = [] /\ posted s = false).
Proof.
  intros Hok (_ & Hsh & Hsu) Hpc. destruct (posted s) eqn:Hpost.
  - left. exists (set_thread (fun _ => T_scan 0) (set_trace (fun l => l ++ [EvWake])
      (set_ctx (upd_flag (fun b => Z.clearbit b MC_POST_EVENT_MASK)) s))), [EvWake].
    split_and!; [| | |done|by left].
    + unfold scheduler_thread_step. rewrite bind_gets, Hpc. unfold qdf_atomic_test_bit, ctx.
      rewrite !bind_gets. unfold posted in Hpost. rewrite Hpost. cbn [orb].
      by rewrite (bind_ret _ _ _ _ _ (clear_bit_ret MC_POST_EVENT_MASK s ltac:(done))).
    + split_and!; cbn [thread set_thread]; [right; by eexists| |];
        cbn -[Z.clearbit Z.testbit]; by rewrite Z.clearbit_neq.
    + unfold work. rewrite Hpost, Hpc.
      match goal with |- (_ * length ?x + (if ?y then _ else _) + _ < _)%nat =>
        change x with (queued s); replace y with false end; [cbn; lia|].
      symmetry. apply Z.clearbit_eq.
  - right. split; [|done]. destruct (queued s) as [|a l] eqn:Hq; [done|exfalso].
    assert (a ∈ queued s) as Ha by (rewrite Hq; apply list_elem_of_here).
    unfold queued in Ha. apply list_elem_of_In, in_concat in Ha as (q & Hq1 & Hq2).
    apply list_elem_of_In, list_elem_of_lookup in Hq1 as [j Hj].
    pose proof (ok_inv _ Hok) as Hi. rewrite Hpc in Hi. cbn in Hi.
    pose proof (o_wake _ _ (inv_order _ _ _ Hi) j q) as Hw. unfold posted in Hpost.
    rewrite Hw in Hpost; [done| |done|by intros ->].
    apply lookup_lt_Some in Hj. by rewrite (c_queues _ (inv_ctx _ _ _ Hi)) in Hj.
Qed.

Lemma scan_end_works s i :
  sched_ok s -> serving s -> thread s = T_scan i -> (SCHEDULER_NUMBER_OF_MSG_QUEUE <= i)%nat -> works s.
Proof.
  intros Hok (_ & Hsh & Hsu) Hpc Hge.
  exists (set_thread (fun _ => T_wait) (set_ctx (upd_flag (fun b => Z.clearbit b MC_SUSPEND_EVENT_MASK)) s)), [].
  assert ((i <? SCHEDULER_NUMBER_OF_MSG_QUEUE)%nat = false) as Hlt by by apply Nat.ltb_ge.
  split_and!; [| | |by rewrite app_nil_r|by left].
  - unfold scheduler_thread_step. rewrite bind_gets, Hpc, Hlt.
    unfold process_queues_end, qdf_atomic_test_and_clear_bit, qdf_atomic_test_bit, ctx.
    rewrite bind_assoc, bind_gets, bind_assoc,
      (bind_ret _ _ _ _ _ (clear_bit_ret MC_SUSPEND_EVENT_MASK s ltac:(done))), bind_mret, Hsu. done.
  - split_and!; [by left| |]; cbn -[Z.clearbit Z.testbit]; [by rewrite Z.clearbit_neq|apply Z.clearbit_eq].
  - unfold work. rewrite Hpc, Hlt.
    match goal with |- (_ * length ?x + (if ?y then _ else _) + _ < _)%nat =>
      change x with (queued s); replace y with (posted s) end; [cbn; lia|].
    unfold posted. cbn -[Z.clearbit Z.testbit]. by rewrite Z.clearbit_neq.
Qed.

Lemma scan_works s i :
  sched_ok s -> serving s -> thread s = T_scan i -> (i < SCHEDULER_NUMBER_OF_MSG_QUEUE)%nat -> works s.
Proof.
  intros Hok (_ & Hsh & Hsu) Hpc Hlt. pose proof (ok_inv _ Hok) as Hi. rewrite Hpc in Hi. cbn in Hi.
  pose proof (inv_thread _ _ _ Hi) as Ht.
  assert (sch_thread (g_sched_ctx s) = true) as Hrun by (apply (t_active _ Ht); by rewrite Hpc).
  assert (forall i' s1, process_queues_round i s = Ret (Some i') s1 ->
    scheduler_thread_step s = Ret tt (set_thread (fun _ => T_scan i') s1)) as Hstep.
  { intros i' s1 H1. unfold scheduler_thread_step.
    by rewrite bind_gets, Hpc, (proj2 (Nat.ltb_lt _ _) Hlt), (bind_ret _ _ _ _ _ H1). }
  destruct (queue_some _ i (inv_ctx _ _ _ Hi) Hlt) as [[|a rest] Hq].
  - exists (set_thread (fun _ => T_scan (S i)) s), [].
    split_and!; [| | |by rewrite app_nil_r|by left].
    + apply Hstep. unfold process_queues_round, qdf_atomic_test_bit, ctx.
      by rewrite bind_gets, Hsh, (bind_ret _ _ _ _ _ (mq_get_none _ _ Hq)).
    + split_and!; [right; by eexists|done|done].
    + unfold work. rewrite Hpc, (proj2 (Nat.ltb_lt _ _) Hlt). cbn [thread set_thread].
      change (queued (set_thread _ s)) with (queued s). change (posted (set_thread _ s)) with (posted s).
      unfold SCHEDULER_NUMBER_OF_MSG_QUEUE in *. destruct (S i <? 6)%nat eqn:Elt; lia.
  - destruct (round_take i a rest s Hi Hrun Hq Hsh)
      as (fn & m & s1 & r & s2 & s3 & _ & _ & _ & Ht1 & _ & _ & Hc1 & H2 & Hf2 & H3 & _ & _ & Hc3 & Ht3 & _).
    destruct (quiet_process_fn fn a _ _ _ H2) as [Hq2 Hfl2].
    assert (queues (g_sched_ctx s3) = <[i := rest]> (queues (g_sched_ctx s))) as Hq3.
    { rewrite Hc3. transitivity (queues (g_sched_ctx s2)); [done|]. rewrite Hq2, Hc1.
      rewrite <- alter_const_insert. apply queues_upd_mq. }
    assert (sch_event_flag (g_sched_ctx s3) = sch_event_flag (g_sched_ctx s)) as Hfl3.
    { rewrite Hc3. transitivity (sch_event_flag (g_sched_ctx s2)); [done|]. by rewrite Hfl2, Hc1. }
    destruct (concat_alter _ _ _ Hq) as (q & Q1 & Q2). specialize (Q2 (fun _ => rest)).
    rewrite alter_const_insert, <- Hq3 in Q2.
    destruct (fr_trace _ _ Hf2) as [l Hl].
    exists (set_thread (fun _ => T_scan 0) s3), (EvTake a i :: l). split_and!.
    + by apply Hstep.
    + split_and!; [right; by eexists| |]; cbn -[Z.testbit]; by rewrite Hfl3.
    + unfold work. rewrite Hpc, (proj2 (Nat.ltb_lt _ _) Hlt). cbn [thread set_thread].
      change (queued (set_thread _ s3)) with (concat (queues (g_sched_ctx s3))).
      unfold queued. rewrite Q1, Q2. unfold posted. cbn [g_sched_ctx set_thread]. rewrite Hfl3.
      rewrite !length_app. cbn [length]. unfold SCHEDULER_NUMBER_OF_MSG_QUEUE in *. cbn. lia.
    + cbn. by rewrite Ht3, Hl, Ht1, <- app_assoc.
    + intros b. unfold queued at 1. rewrite Q1. intros [[->|Hb]%elem_of_cons|Hb]%elem_of_app.
      * right. exists i. apply list_elem_of_here.
      * left. change (b ∈ concat (queues (g_sched_ctx s3))). rewrite Q2. apply elem_of_app. by left.
      * left. change (b ∈ concat (queues (g_sched_ctx s3))). rewrite Q2. apply elem_of_app. by right.
Qed.

Lemma serving_works s :
  sched_ok s -> serving s ->
  works s \/ (thread s = T_wait /\ queued s = []).
Proof.
  intros Hok Hs. pose proof Hs as ([Hpc|[i Hpc]] & _).
  - destruct (wait_works s Hok Hs Hpc) as [Hw|[Hq _]]; [by left|by right].
  - left. destruct (decide (i < SCHEDULER_NUMBER_OF_MSG_QUEUE)%nat).
    + by apply (scan_works s i).
    + apply (scan_end_works s i); [done..|lia].
Qed.

End Drain.

Fixpoint thread_steps (n : nat) : M W unit :=
  match n with O => mret () | S n' => scheduler_thread_step;; thread_steps n' end.

(** C26: the queues are emptied and no wake-up is lost: whatever is queued, even while the
    thread waits, when clients' callbacks post nothing more and the thread is not told
    to stop, it comes back to waiting with all queues empty within a number of its steps that is
    linear in the number of messages, and every message was taken for handling. *)
Theorem sched_drains {Q : env_quiet} s :
  reachable s -> serving s ->
  exists n s' l, (n <= 7 * length (queued s) + 16)%nat /\ thread_steps n s = Ret tt s' /\
    thread s' = T_wait /\ queued s' = [] /\ trace s' = trace s ++ l /\
    (forall a, a ∈ queued s -> exists i, EvTake a i ∈ l).
Proof.
  intros Hs%reachable_ok Hserv.
  assert (exists n s' l, (n <= work s)%nat /\ thread_steps n s = Ret tt s' /\
    thread s' = T_wait /\ queued s' = [] /\ trace s' = trace s ++ l /\
    (forall a, a ∈ queued s -> exists i, EvTake a i ∈ l)) as (n & s' & l & Hn & ?).
  { remember (work s) as w eqn:Hw. revert s Hw Hs Hserv.
    induction (lt_wf w) as [w _ IH]. intros s -> Hok Hserv.
    destruct (serving_works s Hok Hserv) as [(s1 & l1 & H1 & Hserv1 & Hlt & Ht1 & Hel1)|[Hpc Hq]].
    - destruct (thread_step_ok s Hok) as (s1' & H1' & Hok1). rewrite H1 in H1'. injection H1' as <-.
      destruct (IH _ Hlt s1 eq_refl Hok1 Hserv1) as (n & s2 & l2 & Hn & H2 & Hpc2 & Hq2 & Ht2 & Hel2).
      exists (S n), s2, (l1 ++ l2). split_and!; [lia| |done|done| |].
      + cbn [thread_steps]. by rewrite (bind_ret _ _ _ _ _ H1).
      + by rewrite Ht2, Ht1, app_assoc.
      + intros a Ha. destruct (Hel1 a Ha) as [Ha1|[i Hi]].
        * destruct (Hel2 a Ha1) as [i Hi]. exists i. apply elem_of_app. by right.
        * exists i. apply elem_of_app. by left.
    - exists 0%nat, s, []. split_and!; [lia|done..|by rewrite app_nil_r|].
      intros a. rewrite Hq. by intros ?%elem_of_nil. }
  exists n, s', l. split; [|done]. unfold work in Hn.
  destruct (posted s), (thread s); try case_match; lia.
Qed.

(** ** Stopping *)

(** The end of a pass when no suspension is asked for. *)
Lemma queues_end_ret sh s :
  Z.testbit (sch_event_flag (g_sched_ctx s)) MC_SUSPEND_EVENT_MASK = false ->
  process_queues_end sh s =
  thread_loop sh (set_ctx (upd_flag (fun b => Z.clearbit b MC_SUSPEND_EVENT_MASK)) s).
Proof.
  intros Hsu. unfold process_queues_end, qdf_atomic_test_and_clear_bit, qdf_atomic_test_bit, ctx.
  by rewrite bind_assoc, bind_gets, bind_assoc,
    (bind_ret _ _ _ _ _ (clear_bit_ret MC_SUSPEND_EVENT_MASK s ltac:(done))), bind_mret, Hsu.
Qed.

(** The thread has been told to shut down, and will see it. *)
Definition stopping s : Prop :=
  Z.testbit (sch_event_flag (g_sched_ctx s)) MC_SHUTDOWN_EVENT_MASK = true /\
  Z.testbit (sch_event_flag (g_sched_ctx s)) MC_POST_EVENT_MASK = true /\
  Z.testbit (sch_event_flag (g_sched_ctx s)) MC_SUSPEND_EVENT_MASK = false.

(** [n] steps bring the thread to its end. *)
Definition exits (n : nat) s : Prop :=
  exists s', thread_steps n s = Ret tt s' /\ thread s' = T_exited /\
    sch_thread (g_sched_ctx s') = sch_thread (g_sched_ctx s).

Lemma exits_step n s s1 :
  scheduler_thread_step s = Ret tt s1 -> sch_thread (g_sched_ctx s1) = sch_thread (g_sched_ctx s) ->
  exits n s1 -> exits (S n) s.
Proof.
  intros H1 Hr (s2 & H2 & Hpc & Hr2). exists s2. split_and!; [|done|congruence].
  cbn [thread_steps]. by rewrite (bind_ret _ _ _ _ _ H1).
Qed.

Lemma scan_exits s i :
  thread s = T_scan i -> (i < SCHEDULER_NUMBER_OF_MSG_QUEUE)%nat ->
  Z.testbit (sch_event_flag (g_sched_ctx s)) MC_SHUTDOWN_EVENT_MASK = true ->
  Z.testbit (sch_event_flag (g_sched_ctx s)) MC_SUSPEND_EVENT_MASK = false -> exits 1 s.
Proof.
  intros Hpc Hlt Hsh Hsu. unfold exits. cbn [thread_steps]. unfold scheduler_thread_step.
  rewrite bind_assoc, bind_gets, Hpc, (proj2 (Nat.ltb_lt _ _) Hlt).
  unfold process_queues_round, qdf_atomic_test_and_clear_bit, qdf_atomic_test_bit, ctx.
  rewrite !bind_assoc, bind_gets, Hsh, !bind_assoc, bind_gets, !bind_assoc, Hsu.
  rewrite (bind_ret _ _ _ _ _ (clear_bit_ret MC_SUSPEND_EVENT_MASK s ltac:(done))), bind_mret.
  set (s1 := set_ctx _ s).
  assert (Z.testbit (sch_event_flag (g_sched_ctx s1)) MC_SUSPEND_EVENT_MASK = false) as Hsu1.
  { apply Z.clearbit_eq. }
  cbn [when]. rewrite bind_assoc, !bind_mret.
  eexists. split; [|split].
  - unfold mbind at 1, M_bind. rewrite (queues_end_ret _ _ Hsu1). unfold thread_loop.
    by rewrite (bind_ret _ _ _ _ _ (on_event_ret _ _ _ _)).
  - done.
  - done.
Qed.

Lemma wait_exits s : thread s = T_wait -> stopping s -> exits 2 s.
Proof.
  intros Hpc (Hsh & Hp & Hsu). eapply exits_step.
  - unfold scheduler_thread_step. rewrite bind_gets, Hpc. unfold qdf_atomic_test_bit, ctx.
    rewrite !bind_gets, Hp. cbn [orb].
    by rewrite (bind_ret _ _ _ _ _ (clear_bit_ret MC_POST_EVENT_MASK s ltac:(done))).
  - done.
  - apply (scan_exits _ 0); [done|unfold SCHEDULER_NUMBER_OF_MSG_QUEUE; lia|..];
      cbn -[Z.clearbit Z.testbit]; by rewrite Z.clearbit_neq.
Qed.

Lemma stopping_exits s :
  thread s = T_wait \/ (exists i, thread s = T_scan i) -> stopping s ->
  exists n, (n <= 3)%nat /\ exits n s.
Proof.
  intros [Hpc|[i Hpc]] Hst; [exists 2%nat; split; [lia|by apply wait_exits]|].
  destruct (decide (i < SCHEDULER_NUMBER_OF_MSG_QUEUE)%nat).
  - exists 1%nat. split; [lia|]. destruct Hst as (? & _ & ?). by apply (scan_exits s i).
  - exists 3%nat. split; [lia|]. destruct Hst as (Hsh & Hp & Hsu). eapply exits_step.
    + unfold scheduler_thread_step. rewrite bind_gets, Hpc, (proj2 (Nat.ltb_ge _ _)) by lia.
      by rewrite queues_end_ret.
    + done.
    + apply wait_exits; [done|].
      split_and!; cbn -[Z.clearbit Z.testbit]; [by rewrite Z.clearbit_neq..|apply Z.clearbit_eq].
Qed.

Lemma thread_steps_ok n s s' : sched_ok s -> thread_steps n s = Ret tt s' -> sched_ok s'.
Proof.
  revert s. induction n as [|n IH]; intros s Hok; cbn [thread_steps]; [by intros [= <-]|].
  destruct (thread_step_ok s Hok) as (s1 & H1 & Hok1). rewrite (bind_ret _ _ _ _ _ H1). by apply IH.
Qed.

(** C34: disabling the scheduler ends: once its two bits are set, the running thread,
    unless it is being suspended, comes to its end within three steps, the caller's
    wait passes, the queues are flushed, and nothing is queued or in use any more. *)
Theorem sched_disable_stops s :
  reachable s -> thread s = T_wait \/ (exists i, thread s = T_scan i) ->
  Z.testbit (sch_event_flag (g_sched_ctx s)) MC_SUSPEND_EVENT_MASK = false ->
  exists s1 n s2 s3,
    scheduler_disable_begin s = Ret QDF_STATUS_SUCCESS s1 /\
    (n <= 3)%nat /\ thread_steps n s1 = Ret tt s2 /\
    scheduler_disable_end s2 = Ret (Some QDF_STATUS_SUCCESS) s3 /\
    sch_thread (g_sched_ctx s3) = false /\ queued s3 = [] /\ pool_live (sched_pool s3) = [].
Proof.
  intros Hok%reachable_ok Hpc Hsu. pose proof (inv_thread _ _ _ (ok_inv _ Hok)) as Ht.
  assert (sch_thread (g_sched_ctx s) = true) as Hrun.
  { apply (t_active _ Ht). by destruct Hpc as [->|[i ->]]. }
  pose proof (get_context_true s (t_ctx _ Ht Hrun)) as Hctx.
  set (s0 := set_ctx (upd_flag (fun b => Z.setbit b MC_SHUTDOWN_EVENT_MASK)) s).
  set (s1 := set_ctx (upd_flag (fun b => Z.setbit b MC_POST_EVENT_MASK)) s0).
  assert (scheduler_disable_begin s = Ret QDF_STATUS_SUCCESS s1) as H1.
  { unfold scheduler_disable_begin. rewrite (bind_ret _ _ _ _ _ Hctx). cbn [negb].
    rewrite (bind_ret _ _ _ _ _ (set_bit_ret MC_SHUTDOWN_EVENT_MASK s ltac:(done))).
    by rewrite (bind_ret _ _ _ _ _ (set_bit_ret MC_POST_EVENT_MASK s0 ltac:(done))). }
  assert (sched_ok s1) as Hok1.
  { destruct (disable_begin_ok s Hok) as (s1' & H1' & Hok1). rewrite (bind_ret _ _ _ _ _ H1) in H1'.
    by injection H1' as <-. }
  destruct (stopping_exits s1) as (n & Hn & s2 & H2 & Hpc2 & Hrun2); [done| |].
  { split_and!; cbn -[Z.setbit Z.testbit];
      rewrite ?(Z.setbit_eqb _ MC_POST_EVENT_MASK), ?(Z.setbit_eqb _ MC_SHUTDOWN_EVENT_MASK) by done; done. }
  pose proof (thread_steps_ok n s1 s2 Hok1 H2) as Hok2.
  destruct (disable_end_ok s2 Hok2) as (r & s3 & H3 & Hok3 & Hr).
  destruct Hr as [-> Hrun3]; [done|by rewrite Hrun2|].
  exists s1, n, s2, s3. split_and!; try done; [by apply (ok_stopped _ Hok3)|].
  by destruct (stopped_idle s3 Hok3 Hrun3) as (_ & _ & _ & Hl & _).
Qed.

End Spec.

(** ** Modules deregistered out of order *)

Section Misroute.
Context {P : Type} `{IP : item_pool P} {E : sched_env P} {L : item_pool_laws P} {H : env_legal P}.
Abbreviation W := (sched_world P).
Implicit Types (s : W).

(** deregistering a module other than the last one registered misroutes messages:
    the counter of registered modules goes down, so the next module to be registered
    takes the queue of the module that was registered last, and messages for that
    module, whose entry stays in the table, are then handled by the new module's
    handler. *)
Theorem deregister_misroutes s qa qb qc fnc x n :
  reachable s -> gp_sched_ctx s = true ->
  module_id qa -> module_id qb -> module_id qc -> qb <> qc ->
  sch_last_qidx (g_sched_ctx s) = n -> 0 < n <= Z.of_nat SCHEDULER_NUMBER_OF_MSG_QUEUE ->
  qidx_map (g_sched_ctx s) !! Z.to_nat qa = Some x -> x < n - 1 ->
  qidx_map (g_sched_ctx s) !! Z.to_nat qb = Some (n - 1) -> qb <> x ->
  exists s1 s2,
    scheduler_deregister_module qa s = Ret QDF_STATUS_SUCCESS s1 /\
    scheduler_register_module qc (Some fnc) s1 = Ret QDF_STATUS_SUCCESS s2 /\
    qidx_map (g_sched_ctx s2) !! Z.to_nat qb = qidx_map (g_sched_ctx s2) !! Z.to_nat qc /\
    qidx_map (g_sched_ctx s2) !! Z.to_nat qb = Some (n - 1) /\
    fns (g_sched_ctx s2) !! Z.to_nat (n - 1) = Some (Some fnc).
Proof.
  intros Hok%reachable_ok Hgp Ha Hb Hc Hbc Hn Hnr Hx Hxn Hmb Hbx.
  pose proof (inv_ctx _ _ _ (ok_inv _ Hok)) as [C1 C2 C3 C4 C5 C6 C7].
  unfold module_id in *. set (c := g_sched_ctx s) in *.
  assert (0 <= x) as Hx0 by (pose proof (proj1 (Forall_lookup _ _) C4 _ _ Hx) as Hr; cbn in Hr; lia).
  unfold SCHEDULER_NUMBER_OF_MSG_QUEUE, QDF_MODULE_ID_MAX in *.
  set (fns1 := <[Z.to_nat x := None]> (fns c)).
  set (map1 := <[Z.to_nat x := 6]> (qidx_map c)).
  set (s1 := set_ctx (upd_qidx map1) (set_ctx (upd_last_qidx (fun n => wrap 8 (n - 1))) (set_ctx (upd_fns fns1) s))).
  assert (scheduler_deregister_module qa s = Ret QDF_STATUS_SUCCESS s1) as H1.
  { unfold scheduler_deregister_module. rewrite (bind_ret _ _ _ _ _ (get_context_true s Hgp)). cbn [negb].
    unfold ctx. rewrite bind_gets.
    rewrite (bind_ret _ _ _ _ _ (array_get_ret (qidx_map c) qa _ _ ltac:(lia) Hx)), bind_gets.
    rewrite (bind_ret _ _ _ _ _ (array_set_ret (fns c) x _ _ ltac:(rewrite C2; lia))).
    unfold upd. rewrite !bind_modify.
    by rewrite (bind_ret _ _ _ _ _ (array_set_ret (qidx_map c) x _ _ ltac:(rewrite C3; lia))). }
  assert (sch_last_qidx (g_sched_ctx s1) = n - 1) as Hlast.
  { change (wrap 8 (sch_last_qidx c - 1) = n - 1). rewrite Hn. apply wrap_small. unfold in_u. change (2 ^ 8) with 256. lia. }
  set (map2 := <[Z.to_nat qc := n - 1]> map1).
  set (fns2 := <[Z.to_nat (n - 1) := Some fnc]> fns1).
  set (s2 := set_ctx (upd_last_qidx (fun n => wrap 8 (n + 1))) (set_ctx (upd_fns fns2)
               (set_ctx (upd_mq_qid (Z.to_nat (n - 1)) qc) (set_ctx (upd_qidx map2) s1)))).
  assert (scheduler_register_module qc (Some fnc) s1 = Ret QDF_STATUS_SUCCESS s2) as H2.
  { unfold scheduler_register_module. rewrite (bind_ret _ _ _ _ _ (get_context_true s1 Hgp)). cbn [negb].
    unfold ctx. rewrite bind_gets, Hlast. rewrite (proj2 (Z.leb_gt _ _)) by (unfold SCHEDULER_NUMBER_OF_MSG_QUEUE; lia).
    rewrite bind_gets. change (qidx_map (g_sched_ctx s1)) with map1.
    rewrite (bind_ret _ _ _ _ _ (array_set_ret map1 qc _ _ ltac:(unfold map1; rewrite length_insert, C3; lia))).
    unfold upd. rewrite !bind_modify, bind_gets.
    match goal with |- context [array_set ?l _ (Some fnc)] => change l with fns1 end.
    rewrite (bind_ret _ _ _ _ _ (array_set_ret fns1 (n - 1) _ _ ltac:(unfold fns1; rewrite length_insert, C2; lia))).
    done. }
  exists s1, s2. split_and!; [done..| | |].
  - change (map2 !! Z.to_nat qb = map2 !! Z.to_nat qc). unfold map2.
    rewrite list_lookup_insert_eq by (unfold map1; rewrite length_insert, C3; lia).
    rewrite list_lookup_insert_ne by lia. unfold map1. by rewrite list_lookup_insert_ne by lia.
  - change (map2 !! Z.to_nat qb = Some (n - 1)). unfold map2, map1. by rewrite !list_lookup_insert_ne by lia.
  - change (fns2 !! Z.to_nat (n - 1) = Some (Some fnc)). unfold fns2.
    rewrite list_lookup_insert_eq; [done|]. unfold fns1. rewrite length_insert, C2. lia.
Qed.

(** A message in the queue of a module that was deregistered is taken out and forgotten:
    it is never freed, and stays counted. *)
Lemma unhandled_message_leaks i a rest s :
  thread s = T_scan i -> (i < SCHEDULER_NUMBER_OF_MSG_QUEUE)%nat ->
  queues (g_sched_ctx s) !! i = Some (a :: rest) -> fns (g_sched_ctx s) !! i = Some None ->
  Z.testbit (sch_event_flag (g_sched_ctx s)) MC_SHUTDOWN_EVENT_MASK = false ->
  exists s', scheduler_thread_step s = Ret tt s' /\
    queues (g_sched_ctx s') !! i = Some rest /\ sched_pool s' = sched_pool s /\
    messages s' = messages s /\ sched_queue_depth s' = sched_queue_depth s.
Proof.
  intros Hpc Hlt Hq Hfn Hsh. eexists. split.
  - unfold scheduler_thread_step. rewrite bind_gets, Hpc, (proj2 (Nat.ltb_lt _ _) Hlt).
    unfold process_queues_round, qdf_atomic_test_bit, ctx. rewrite bind_assoc, bind_gets, Hsh.
    rewrite bind_assoc, (bind_ret _ _ _ _ _ (mq_get_some _ _ _ _ Hq)), !bind_assoc, bind_gets.
    change (fns (g_sched_ctx (set_ctx _ s))) with (fns (g_sched_ctx s)). rewrite bind_assoc.
    by rewrite (bind_ret _ _ _ _ _ (array_get_ret (fns (g_sched_ctx s)) (Z.of_nat i) _ _ ltac:(lia)
                  ltac:(rewrite Nat2Z.id; exact Hfn))).
  - split_and!; [|done..]. cbn [g_sched_ctx set_thread set_trace set_ctx].
    change (queues (upd_mq i (fun _ => rest) (g_sched_ctx s)) !! i = Some rest).
    rewrite queues_upd_mq, list_lookup_alter_eq, Hq. done.
Qed.

End Misroute.

(** ** An instance

    Messages of 80 bytes from a pool like that of scheduler_core.c; clients whose
    functions only answer. *)

Module Demo.

#[export] Instance demo_pool : item_pool qdf_flex_mem_pool := @flex_mem_pool (bump 40).
#[export] Instance demo_pool_laws : item_pool_laws qdf_flex_mem_pool :=
  @flex_mem_pool_laws (bump 40) (bump_laws 40).
#[export] Instance demo_env : sched_env qdf_flex_mem_pool := {|
  msg_does _ _ _ := Answer QDF_STATUS_SUCCESS;
  timer_does _ _ := Answer QDF_STATUS_SUCCESS;
  flush_does _ _ _ := Answer QDF_STATUS_SUCCESS;
  suspend_does _ := Answer QDF_STATUS_SUCCESS;
  thread_ok _ := true;
  WLAN_SCHED_HISTORY_SIZE := 4;
|}.
#[export] Instance demo_legal : env_legal qdf_flex_mem_pool.
Proof. constructor; try done. cbn. lia. Qed.
#[export] Instance demo_quiet : env_quiet.
Proof. constructor; intros; apply quiet_mret. Qed.

Abbreviation W := (sched_world qdf_flex_mem_pool).

Definition sched_pool_zero : qdf_flex_mem_pool := DEFINE_QDF_FLEX_MEM_POOL 1024 80 2.
Definition boot : W := world_zero sched_pool_zero (McTimer.Timers ∅ 0).

Fixpoint run_steps (xs : list sched_step) (s : W) : W :=
  match xs with
  | [] => s
  | x :: xs => match run_step x s with Ret _ s' => run_steps xs s' | _ => s end
  end.

Lemma boot_reachable : reachable boot.
Proof.
  apply reach_zero.
  - by apply DEFINE_inv.
  - by vm_compute.
  - constructor; [apply map_Forall_empty|by vm_compute].
  - intros x r Hr. exfalso. by apply (lookup_empty_Some (M := gmap Z) x r) in Hr.
Qed.

Definition post (que : Z) (m : scheduler_msg) : sched_step :=
  SClient (CPostMessage 20 que que (Some m)).
Definition msg (ty f : Z) : scheduler_msg := Msg ty 0 0 None (Some f) None 0 0 0.

(** Three modules, the thread started, a message for the third and one for the first. *)
Definition setup : list sched_step :=
  [SInit;
   SClient (CRegisterModule 20 (Some scheduler_os_if_mq_handler_fn));
   SClient (CRegisterModule 21 (Some (client_fn 7)));
   SClient (CRegisterModule 22 (Some (client_fn 8)));
   SEnable].
(** The worlds after the first steps. *)
Definition stage (n : nat) : W := run_steps (take n setup) boot.
Definition running : W := stage 5.
Definition posted_two : W := run_steps [post 22 (msg 1 100); post 20 (msg 2 101)] running.
(** The thread about to look at the first queue. *)
Definition scanning : W := run_steps [SThread] posted_two.

Lemma stage_step n x :
  reachable (stage n) -> legal_step x (stage n) -> run_step x (stage n) = Ret tt (stage (S n)) ->
  reachable (stage (S n)).
Proof. apply reach_step. Qed.

Lemma stage_1 : reachable (stage 1).
Proof. apply (stage_step 0 SInit); [apply boot_reachable|by vm_compute|by vm_compute]. Qed.
Lemma stage_2 : reachable (stage 2).
Proof.
  apply (stage_step 1 (SClient (CRegisterModule 20 (Some scheduler_os_if_mq_handler_fn))));
    [apply stage_1|split; [done|by eexists]|by vm_compute].
Qed.
Lemma stage_3 : reachable (stage 3).
Proof.
  apply (stage_step 2 (SClient (CRegisterModule 21 (Some (client_fn 7)))));
    [apply stage_2|split; [done|by eexists]|by vm_compute].
Qed.
Lemma stage_4 : reachable (stage 4).
Proof.
  apply (stage_step 3 (SClient (CRegisterModule 22 (Some (client_fn 8)))));
    [apply stage_3|split; [done|by eexists]|by vm_compute].
Qed.
Lemma stage_4_legal : legal_step SEnable (stage 4).
Proof.
  split_and!; [by vm_compute..|]. intros i fn Hfn.
  assert (fns (g_sched_ctx (stage 4)) =
    [Some scheduler_os_if_mq_handler_fn; Some (client_fn 7); Some (client_fn 8); None; None; None])
    as Hf by by vm_compute.
  rewrite Hf in Hfn. clear Hf. revert Hfn. generalize (g_sched_ctx (stage 4)) as c. intros c.
  do 6 (destruct i as [|i]; [by intros [= <-]|]). done.
Qed.
Lemma running_reachable : reachable running.
Proof. apply (stage_step 4 SEnable); [apply stage_4|apply stage_4_legal|by vm_compute]. Qed.

Lemma posted_reachable : reachable posted_two.
Proof.
  eapply (reach_step (run_steps [post 22 (msg 1 100)] running) (post 20 (msg 2 101))); [|done|by vm_compute].
  eapply (reach_step running (post 22 (msg 1 100))); [apply running_reachable|done|by vm_compute].
Qed.

Lemma scanning_reachable : reachable scanning.
Proof. eapply (reach_step posted_two SThread); [apply posted_reachable|done|by vm_compute]. Qed.

End Demo.

Import Demo.

Lemma sched_safe_witness : exists s', run_step SThread posted_two = Ret tt s' /\ thread s' = T_scan 0.
Proof.
  destruct (sched_safe SThread posted_two posted_reachable I) as (s' & H & _).
  exists s'. split; [exact H|]. revert H. vm_compute. by intros [= <-].
Defined.

Lemma sched_refines_witness :
  exists sp, spec_run (trace posted_two) = Some sp /\ sp_queues sp !! 0%nat = Some [1104].
Proof.
  destruct (sched_refines posted_two posted_reachable) as (sp & H1 & H2).
  exists sp. split; [exact H1|]. rewrite H2. by vm_compute.
Defined.

Lemma sched_messages_accounted_witness :
  queued posted_two = [1104; 1024] /\ pool_live (sched_pool posted_two) ≡ₚ [1104; 1024].
Proof.
  assert (queued posted_two = [1104; 1024]) as Hq by by vm_compute. split; [exact Hq|].
  destruct (sched_messages_accounted posted_two posted_reachable) as (H & _).
  rewrite Hq in H. exact H.
Defined.

(** Posting to a module that is not registered. *)
Lemma post_answers_witness :
  exists msg' s', scheduler_post_msg_by_priority (scheduler_get_qid 20 23 23) (Some (msg 1 1)) true running =
    Ret (QDF_STATUS_E_FAILURE, msg') s' /\
    post_result (scheduler_get_qid 20 23 23) (Some (msg 1 1)) true running s' QDF_STATUS_E_FAILURE.
Proof.
  destruct (post_answers (scheduler_get_qid 20 23 23) (Some (msg 1 1)) true running running_reachable)
    as (st & m & s' & H1 & H2).
  assert (st = QDF_STATUS_E_FAILURE) as ->.
  { revert H1. vm_compute. by intros [=]. }
  exists m, s'. split; [exact H1|exact H2].
Defined.

Lemma sched_dispatch_witness :
  queues (g_sched_ctx scanning) !! 0%nat = Some [1104] /\
  exists s' l, scheduler_thread_step scanning = Ret tt s' /\
    trace s' = trace scanning ++ EvTake 1104 0 :: EvCall 101 1104 :: l.
Proof.
  assert (queues (g_sched_ctx scanning) !! 0%nat = Some [1104]) as Hq by by vm_compute.
  split; [exact Hq|].
  destruct (sched_dispatch scanning 0 1104 [] scanning_reachable ltac:(by vm_compute) Hq ltac:(by vm_compute))
    as (fn & m & s' & l & Hfn & Hm & Hs & _ & _ & Ht).
  exists s', l. split; [exact Hs|]. rewrite Ht. do 2 f_equal.
  assert (fns (g_sched_ctx scanning) !! 0%nat = Some (Some scheduler_os_if_mq_handler_fn)) as Hf by by vm_compute.
  assert (callback <$> messages scanning !! 1104 = Some (Some 101)) as Hc by by vm_compute.
  rewrite Hf in Hfn. injection Hfn as <-. rewrite Hm in Hc. injection Hc as Hc.
  cbn. by rewrite Hc.
Defined.

Lemma sched_drains_witness :
  serving posted_two /\ length (queued posted_two) = 2%nat /\
  exists n s', thread_steps n posted_two = Ret tt s' /\ queued s' = [].
Proof.
  assert (serving posted_two) as Hs by (split_and!; [left|..]; by vm_compute).
  split; [exact Hs|]. split; [by vm_compute|].
  destruct (sched_drains posted_two posted_reachable Hs) as (n & s' & l & _ & H1 & _ & H2 & _).
  by exists n, s'.
Defined.

Lemma sched_disable_stops_witness :
  exists s1 n s2 s3, scheduler_disable_begin posted_two = Ret QDF_STATUS_SUCCESS s1 /\
    thread_steps n s1 = Ret tt s2 /\ scheduler_disable_end s2 = Ret (Some QDF_STATUS_SUCCESS) s3 /\
    queued s3 = [].
Proof.
  assert (thread posted_two = T_wait) as Hpc by by vm_compute.
  assert (Z.testbit (sch_event_flag (g_sched_ctx posted_two)) MC_SUSPEND_EVENT_MASK = false) as Hsu
    by by vm_compute.
  destruct (sched_disable_stops posted_two posted_reachable (or_introl Hpc) Hsu)
    as (s1 & n & s2 & s3 & H1 & _ & H2 & H3 & _ & H4 & _).
  exists s1, n, s2, s3. exact (conj H1 (conj H2 (conj H3 H4))).
Defined.

(** Of the modules 20, 21 and 22, 20 is deregistered and 23 registered: messages for 22
    go to the handler of 23. *)
Lemma deregister_misroutes_witness :
  exists s1 s2,
    scheduler_deregister_module 20 running = Ret QDF_STATUS_SUCCESS s1 /\
    scheduler_register_module 23 (Some (client_fn 9)) s1 = Ret QDF_STATUS_SUCCESS s2 /\
    qidx_map (g_sched_ctx s2) !! 22%nat = Some 2 /\
    fns (g_sched_ctx s2) !! 2%nat = Some (Some (client_fn 9)).
Proof.
  assert (module_id 20 /\ module_id 22 /\ module_id 23) as (M1 & M2 & M3) by done.
  assert (22 <> 23 /\ 22 <> 0 /\ 0 < 3 - 1) as (N1 & N2 & N3) by done.
  assert (0 < 3 <= Z.of_nat SCHEDULER_NUMBER_OF_MSG_QUEUE) as Hr by done.
  assert (gp_sched_ctx running = true) as Hgp by by vm_compute.
  assert (sch_last_qidx (g_sched_ctx running) = 3) as Hn by by vm_compute.
  assert (qidx_map (g_sched_ctx running) !! Z.to_nat 20 = Some 0) as Ha by by vm_compute.
  assert (qidx_map (g_sched_ctx running) !! Z.to_nat 22 = Some (3 - 1)) as Hb by by vm_compute.
  destruct (deregister_misroutes running 20 22 23 (client_fn 9) 0 3 running_reachable Hgp
              M1 M2 M3 N1 Hn Hr Ha N3 Hb N2)
    as (s1 & s2 & H1 & H2 & _ & H3 & H4).
  exists s1, s2. exact (conj H1 (conj H2 (conj H3 H4))).
Defined.
