(* ===== verification/Ie.v ===== *)
(** * Information elements and channel numbers: umac/cmn_services/utils/src/wlan_utility.c

    A pointer into a buffer is the list of the bytes from it to the end of the memory
    that may be read; advancing it is dropping bytes.  Theorems: the walk over a list
    of elements stays within it, and finds the first element that matches; channel
    numbers survive the conversion to a frequency and back. *)
From S2P Require Import Prelude.

(** ** Bytes *)

Abbreviation memory := (list Z) (only parsing).

Definition byte (b : Z) : Prop := 0 <= b < 256.
Abbreviation bytes_ok := (Forall byte) (only parsing).

Definition zlen {A} (l : list A) : Z := Z.of_nat (length l).

Section Read.
Context {S : Type}.

(** [p[i]]. *)
Definition rd (p : memory) (i : nat) : M S Z := deref (p !! i).

(** [qdf_mem_cmp(p, q, n) == 0]; all [n] bytes of both must be readable. *)
Definition qdf_mem_eq (p q : memory) (n : Z) : M S bool :=
  if (n <=? Z.of_nat (length p)) && (n <=? Z.of_nat (length q))
  then mret (bool_decide (take (Z.to_nat n) p = take (Z.to_nat n) q))
  else crash.

End Read.

(** [p + k] for a pointer. *)
Definition skip (k : Z) (p : memory) : memory := drop (Z.to_nat k) p.

(** ** The walk over the elements *)

Section Walk.
Context {S : Type}.

(** [wlan_is_ie_valid]; each round consumes two bytes of the length or more. *)
Fixpoint ie_valid_loop (fuel : nat) (ie : memory) (ie_len : Z) : M S bool :=
  match fuel with
  | O => out_of_fuel
  | Datatypes.S fuel' =>
      if ie_len =? 0 then mret true
      else if ie_len <? 2 then mret false
      else
        elen ← rd ie 1;
        let ie_len := ie_len - 2 in
        let ie := skip 2 ie in
        if ie_len <? elen then mret false
        else ie_valid_loop fuel' (skip elen ie) (ie_len - elen)
  end.

Definition wlan_is_ie_valid (ie : memory) (ie_len : Z) : M S bool :=
  ie_valid_loop (Datatypes.S (Z.to_nat ie_len)) ie ie_len.

(** The loop of [wlan_get_ie_ptr_from_eid_n_oui]. *)
Fixpoint eid_n_oui_loop (fuel : nat) (eid : Z) (oui : option memory) (oui_size : Z)
    (ptr : memory) (left : Z) : M S (option memory) :=
  match fuel with
  | O => out_of_fuel
  | Datatypes.S fuel' =>
      if 2 <=? left then
        elem_id ← rd ptr 0;
        elem_len ← rd ptr 1;
        let left := left - 2 in
        let next := eid_n_oui_loop fuel' eid oui oui_size
                      (skip (elem_len + 2) ptr) (left - elem_len) in
        if left <? elem_len then mret None
        else if eid =? elem_id then
          match oui with
          | None => mret (Some ptr)
          | Some o =>
              if left <? oui_size then mret None
              else
                same ← qdf_mem_eq (skip 2 ptr) o oui_size;
                if (same : bool) then mret (Some ptr) else next
          end
        else next
      else mret None
  end.

Definition wlan_get_ie_ptr_from_eid_n_oui (eid : Z) (oui : option memory) (oui_size : Z)
    (ie : memory) (ie_len : Z) : M S (option memory) :=
  eid_n_oui_loop (Datatypes.S (Z.to_nat ie_len)) eid oui oui_size ie ie_len.

(** The length is an [int], and is passed on as a [uint16_t]. *)
Definition wlan_get_ie_ptr_from_eid (eid : Z) (ie : memory) (ie_len : Z)
    : M S (option memory) :=
  wlan_get_ie_ptr_from_eid_n_oui eid None 0 ie (wrap 16 ie_len).

Definition WLAN_MAC_EID_VENDOR : Z := 221.
Definition WLAN_MAC_EID_EXT : Z := 255.

Definition wlan_get_vendor_ie_ptr_from_oui (oui : memory) (oui_size : Z)
    (ie : memory) (ie_len : Z) : M S (option memory) :=
  wlan_get_ie_ptr_from_eid_n_oui WLAN_MAC_EID_VENDOR (Some oui) oui_size ie ie_len.

Definition wlan_get_ext_ie_ptr_from_ext_id (oui : memory) (oui_size : Z)
    (ie : memory) (ie_len : Z) : M S (option memory) :=
  wlan_get_ie_ptr_from_eid_n_oui WLAN_MAC_EID_EXT (Some oui) oui_size ie ie_len.

End Walk.

(** ** Channels and frequencies *)

Definition WLAN_24_GHZ_BASE_FREQ : Z := 2407.
Definition WLAN_5_GHZ_BASE_FREQ : Z := 5000.
Definition WLAN_24_GHZ_CHANNEL_14 : Z := 14.
Definition WLAN_24_GHZ_CHANNEL_15 : Z := 15.
Definition WLAN_24_GHZ_CHANNEL_27 : Z := 27.
Definition WLAN_5_GHZ_CHANNEL_170 : Z := 170.
Definition WLAN_CHAN_SPACING_5MHZ : Z := 5.
Definition WLAN_CHAN_SPACING_20MHZ : Z := 20.
Definition WLAN_CHAN_14_FREQ : Z := 2484.
Definition WLAN_CHAN_15_FREQ : Z := 2512.
Definition WLAN_CHAN_170_FREQ : Z := 5852.

Definition wlan_chan_to_freq (chan : Z) : Z :=
  if chan =? 0 then 0
  else if chan <? WLAN_24_GHZ_CHANNEL_14 then
    WLAN_24_GHZ_BASE_FREQ + chan * WLAN_CHAN_SPACING_5MHZ
  else if chan =? WLAN_24_GHZ_CHANNEL_14 then WLAN_CHAN_14_FREQ
  else if chan <? WLAN_24_GHZ_CHANNEL_27 then
    WLAN_CHAN_15_FREQ + (chan - WLAN_24_GHZ_CHANNEL_15) * WLAN_CHAN_SPACING_20MHZ
  else if chan =? WLAN_5_GHZ_CHANNEL_170 then WLAN_CHAN_170_FREQ
  else WLAN_5_GHZ_BASE_FREQ + chan * WLAN_CHAN_SPACING_5MHZ.

(** The differences are of a [uint32_t] and wrap; the result is a [uint8_t]. *)
Definition wlan_freq_to_chan (freq : Z) : Z :=
  if freq =? 0 then 0
  else wrap 8
    (if (WLAN_24_GHZ_BASE_FREQ <? freq) && (freq <? WLAN_CHAN_14_FREQ) then
       wrap 32 (freq - WLAN_24_GHZ_BASE_FREQ) / WLAN_CHAN_SPACING_5MHZ
     else if freq =? WLAN_CHAN_14_FREQ then WLAN_24_GHZ_CHANNEL_14
     else if (WLAN_24_GHZ_BASE_FREQ <? freq) && (freq <? WLAN_5_GHZ_BASE_FREQ) then
       wrap 32 (freq - WLAN_CHAN_15_FREQ) / WLAN_CHAN_SPACING_20MHZ + WLAN_24_GHZ_CHANNEL_15
     else
       wrap 32 (freq - WLAN_5_GHZ_BASE_FREQ) / WLAN_CHAN_SPACING_5MHZ).

(** ** Lists of elements *)

(** An element: its id and its body. *)
Abbreviation element := (Z * list Z)%type (only parsing).

Definition ie_bytes (e : element) : memory := e.1 :: Z.of_nat (length e.2) :: e.2.

Definition ies_bytes (l : list element) : memory := concat (ie_bytes <$> l).

Definition ies_len (l : list element) : Z := Z.of_nat (length (ies_bytes l)).

Definition ie_ok (e : element) : Prop := (length e.2 < 256)%nat.

(** What an element must have to be looked for: its id, and the bytes the memory has
    behind the header. *)
Definition ie_hit (eid : Z) (oui : option memory) (oui_size : Z) (e : element) (after : memory) : bool :=
  (eid =? e.1) &&
  match oui with
  | None => true
  | Some o => bool_decide (take (Z.to_nat oui_size) (e.2 ++ after) = take (Z.to_nat oui_size) o)
  end.

Section Facts.
Context {S : Type}.
Implicit Types (s : S) (l : list element) (p tail : memory).

Lemma skip_app k p q : Z.of_nat (length p) = k -> skip k (p ++ q) = q.
Proof. intros <-. unfold skip. rewrite Nat2Z.id. apply drop_app_length. Qed.

Lemma ies_bytes_cons e l : ies_bytes (e :: l) = ie_bytes e ++ ies_bytes l.
Proof. done. Qed.

Lemma ies_len_cons e l : ies_len (e :: l) = 2 + Z.of_nat (length e.2) + ies_len l.
Proof. unfold ies_len. rewrite ies_bytes_cons, length_app. cbn [ie_bytes length]. lia. Qed.

Lemma ies_len_nonneg l : 0 <= ies_len l.
Proof. unfold ies_len. lia. Qed.

(** Past the header and the body of an element. *)
Lemma skip_ie e q : skip (Z.of_nat (length e.2) + 2) (ie_bytes e ++ q) = q.
Proof. apply skip_app. cbn [ie_bytes length]. lia. Qed.

(** One round of the walk, on a complete element. *)
Lemma eid_loop_step fuel eid e q left s :
  2 + Z.of_nat (length e.2) <= left ->
  eid_n_oui_loop (Datatypes.S fuel) eid None 0 (ie_bytes e ++ q) left s =
    if eid =? e.1 then Ret (Some (ie_bytes e ++ q)) s
    else eid_n_oui_loop fuel eid None 0 q (left - 2 - Z.of_nat (length e.2)) s.
Proof.
  intros Hl. cbn [eid_n_oui_loop].
  rewrite (proj2 (Z.leb_le 2 left)) by lia. unfold rd. cbn [ie_bytes app lookup list_lookup].
  rewrite !(bind_deref (Some _) _ _ s eq_refl). cbn beta zeta.
  rewrite (proj2 (Z.ltb_ge _ _)) by lia.
  change (e.1 :: Z.of_nat (length e.2) :: e.2 ++ q) with (ie_bytes e ++ q).
  rewrite skip_ie. by destruct (eid =? e.1).
Qed.

(** Where the walk ends without a hit: behind the last complete element. *)
Lemma eid_loop_tail fuel eid p left s :
  left <= Z.of_nat (length p) ->
  left < 2 \/ (exists i n p', p = i :: n :: p' /\ left < 2 + n) ->
  eid_n_oui_loop (Datatypes.S fuel) eid None 0 p left s = Ret None s.
Proof.
  intros Hm [Hl|(i & n & p' & -> & Hl)]; cbn [eid_n_oui_loop].
  - by rewrite (proj2 (Z.leb_gt 2 left)).
  - destruct (Z.leb_spec 2 left); [|done]. unfold rd. cbn [lookup list_lookup].
    rewrite !(bind_deref (Some _) _ _ s eq_refl). cbn beta zeta.
    by rewrite (proj2 (Z.ltb_lt _ _)) by lia.
Qed.

End Facts.

(** ** What the walk finds *)

(** The memory from the first element with an id on. *)
Fixpoint find_ie (eid : Z) (l : list element) (tail : memory) : option memory :=
  match l with
  | [] => None
  | e :: l' => if eid =? e.1 then Some (ies_bytes l ++ tail) else find_ie eid l' tail
  end.

(** Nothing, or an element longer than the bytes left. *)
Definition incomplete (p : memory) (left : Z) : Prop :=
  left < 2 \/ (exists i n p', p = i :: n :: p' /\ left < 2 + n).

(** Every buffer is some complete elements and an incomplete rest. *)
Lemma split_ies p left :
  bytes_ok p -> 0 <= left <= Z.of_nat (length p) ->
  exists l tail, p = ies_bytes l ++ tail /\ Forall ie_ok l /\ ies_len l <= left /\
                 incomplete tail (left - ies_len l).
Proof.
  remember (length p) as n eqn:En. revert p left En.
  induction n as [n IH] using lt_wf_ind. intros p left -> Hb Hl.
  destruct (decide (left < 2)) as [Hs|Hs].
  { exists [], p. split_and!; [done|constructor|unfold ies_len; cbn; lia|].
    left. unfold ies_len. cbn. lia. }
  destruct p as [|i [|m p]]; cbn [length] in Hl; [lia..|].
  destruct (decide (left < 2 + m)) as [Hm|Hm].
  { exists [], (i :: m :: p). split_and!; [done|constructor|unfold ies_len; cbn; lia|].
    right. exists i, m, p. split; [done|]. unfold ies_len. cbn. lia. }
  apply Forall_cons in Hb as [_ [Hm8 Hb]%Forall_cons]. unfold byte in Hm8.
  assert (length (take (Z.to_nat m) p) = Z.to_nat m) as Ht by (rewrite length_take; lia).
  set (e := (i, take (Z.to_nat m) p)).
  assert (ie_bytes e ++ drop (Z.to_nat m) p = i :: m :: p) as He.
  { unfold e, ie_bytes. cbn [fst snd app]. rewrite Ht, Z2Nat.id, take_drop by lia. done. }
  destruct (IH (length (drop (Z.to_nat m) p)) ltac:(rewrite length_drop; cbn; lia)
              (drop (Z.to_nat m) p) (left - 2 - m) eq_refl) as (l & tl & Hp & Hok & Hle & Hi).
  { by apply Forall_drop. }
  { rewrite length_drop. lia. }
  assert (ies_len (e :: l) = 2 + m + ies_len l) as Hlen.
  { rewrite ies_len_cons. unfold e. cbn [snd]. rewrite Ht. lia. }
  exists (e :: l), tl. split; [by rewrite ies_bytes_cons, <- app_assoc, <- Hp|].
  split; [constructor; [unfold ie_ok, e; cbn [snd]; rewrite Ht; lia|done]|].
  split; [lia|]. by replace (left - ies_len (e :: l)) with (left - 2 - m - ies_len l) by lia.
Qed.

Lemma eid_loop_finds {S} fuel eid l tail left (s : S) :
  (Z.to_nat left < fuel)%nat -> ies_len l <= left ->
  left - ies_len l <= Z.of_nat (length tail) -> incomplete tail (left - ies_len l) ->
  eid_n_oui_loop fuel eid None 0 (ies_bytes l ++ tail) left s = Ret (find_ie eid l tail) s.
Proof.
  revert fuel left. induction l as [|e l IH]; intros [|fuel] left Hf Hl Hm Hi; [lia| |lia|].
  - rewrite Z.sub_0_r in *. by apply eid_loop_tail.
  - rewrite ies_len_cons in *. pose proof (ies_len_nonneg l).
    rewrite ies_bytes_cons, <- app_assoc, eid_loop_step by lia. cbn [find_ie].
    rewrite ies_bytes_cons, <- app_assoc. destruct (eid =? e.1); [done|].
    replace (left - (2 + Z.of_nat (length e.2) + ies_len l))
      with (left - 2 - Z.of_nat (length e.2) - ies_len l) in * by lia.
    apply IH; [lia..|done].
Qed.

(** C36: [wlan_get_ie_ptr_from_eid] reads any buffer as the complete elements it starts
    with and a rest, returns the first of these elements with the id asked for and NULL
    when there is none, reads nothing behind the length given and always returns. *)
Theorem get_ie_ptr_exact {S} eid (p : memory) ie_len (s : S) :
  bytes_ok p -> 0 <= ie_len <= Z.of_nat (length p) -> ie_len < 2 ^ 16 ->
  exists l tail, p = ies_bytes l ++ tail /\ Forall ie_ok l /\ ies_len l <= ie_len /\
    incomplete tail (ie_len - ies_len l) /\
    wlan_get_ie_ptr_from_eid eid p ie_len s = Ret (find_ie eid l tail) s.
Proof.
  intros Hb Hl H16. destruct (split_ies p ie_len Hb Hl) as (l & tl & -> & Hok & Hle & Hi).
  exists l, tl. split_and!; [done..|].
  unfold wlan_get_ie_ptr_from_eid, wlan_get_ie_ptr_from_eid_n_oui.
  rewrite wrap_small by (unfold in_u; lia). rewrite length_app in Hl.
  apply eid_loop_finds; [lia|done|unfold ies_len in *; lia|done].
Qed.

Lemma get_ie_ptr_exact_witness :
  exists l tail, [1; 1; 7; 48; 2; 1; 0; 9] = ies_bytes l ++ tail /\ Forall ie_ok l /\
    ies_len l <= 7 /\ incomplete tail (7 - ies_len l) /\
    wlan_get_ie_ptr_from_eid 48 [1; 1; 7; 48; 2; 1; 0; 9] 7 tt = Ret (find_ie 48 l tail) tt.
Proof.
  apply (get_ie_ptr_exact 48 [1; 1; 7; 48; 2; 1; 0; 9] 7 tt).
  - repeat constructor; discriminate.
  - split; discriminate.
  - reflexivity.
Defined.

(** What is found is an element of the list, all of it inside the buffer. *)
Lemma find_ie_elem eid l tail ptr :
  find_ie eid l tail = Some ptr ->
  exists e q, ptr = ie_bytes e ++ q /\ e ∈ l /\ e.1 = eid.
Proof.
  induction l as [|e l IH]; [done|]. cbn [find_ie]. destruct (Z.eqb_spec eid e.1) as [->|].
  - intros [= <-]. exists e, (ies_bytes l ++ tail).
    rewrite app_assoc, elem_of_cons. auto.
  - intros (e' & q & ? & ? & ?)%IH. exists e', q. by rewrite elem_of_cons; auto.
Qed.

(** *** With an OUI *)

(** A round of the walk for an OUI, on a complete element: either the element matches
    with all it is compared with inside the buffer, or the walk ends, or it goes on. *)
Lemma eid_oui_step {S} fuel eid o osz e q left (s : S) :
  0 <= osz <= Z.of_nat (length o) ->
  2 + Z.of_nat (length e.2) <= left -> left <= Z.of_nat (length (ie_bytes e ++ q)) ->
  eid_n_oui_loop (Datatypes.S fuel) eid (Some o) osz (ie_bytes e ++ q) left s =
    if (eid =? e.1) && (left - 2 <? osz) then Ret None s
    else if ie_hit eid (Some o) osz e q then Ret (Some (ie_bytes e ++ q)) s
    else eid_n_oui_loop fuel eid (Some o) osz q (left - 2 - Z.of_nat (length e.2)) s.
Proof.
  intros Ho Hl Hm. cbn [eid_n_oui_loop].
  rewrite (proj2 (Z.leb_le 2 left)) by lia. unfold rd. cbn [ie_bytes app lookup list_lookup].
  rewrite !(bind_deref (Some _) _ _ s eq_refl). cbn beta zeta.
  rewrite (proj2 (Z.ltb_ge _ _)) by lia.
  change (e.1 :: Z.of_nat (length e.2) :: e.2 ++ q) with (ie_bytes e ++ q).
  rewrite skip_ie. unfold ie_hit. destruct (eid =? e.1); [|done]. cbn [andb].
  destruct (Z.ltb_spec (left - 2) osz) as [|Hosz]; [done|].
  change (skip 2 (ie_bytes e ++ q)) with (e.2 ++ q).
  cbn [ie_bytes app length] in Hm. unfold qdf_mem_eq.
  rewrite !(proj2 (Z.leb_le _ _)) by lia. cbn [andb].
  rewrite (bind_ret (mret _) _ _ s s eq_refl). by destruct (bool_decide _).
Qed.

Lemma eid_oui_tail {S} fuel eid o osz p left (s : S) :
  left <= Z.of_nat (length p) -> incomplete p left ->
  eid_n_oui_loop (Datatypes.S fuel) eid (Some o) osz p left s = Ret None s.
Proof.
  intros Hm [Hl|(i & n & p' & -> & Hl)]; cbn [eid_n_oui_loop].
  - by rewrite (proj2 (Z.leb_gt 2 left)).
  - destruct (Z.leb_spec 2 left); [|done]. unfold rd. cbn [lookup list_lookup].
    rewrite !(bind_deref (Some _) _ _ s eq_refl). cbn beta zeta.
    by rewrite (proj2 (Z.ltb_lt _ _)) by lia.
Qed.

Lemma eid_oui_loop_safe {S} fuel eid o osz l tail left (s : S) :
  0 <= osz <= Z.of_nat (length o) -> (Z.to_nat left < fuel)%nat -> ies_len l <= left ->
  left - ies_len l <= Z.of_nat (length tail) -> incomplete tail (left - ies_len l) ->
  exists r, eid_n_oui_loop fuel eid (Some o) osz (ies_bytes l ++ tail) left s = Ret r s /\
    (r = None \/ exists e q, r = Some (ie_bytes e ++ q) /\ e ∈ l /\
                             ie_hit eid (Some o) osz e q = true).
Proof.
  intros Ho. revert fuel left.
  induction l as [|e l IH]; intros [|fuel] left Hf Hl Hm Hi; [lia| |lia|].
  - rewrite Z.sub_0_r in *. exists None. split; [by apply eid_oui_tail|by left].
  - rewrite ies_len_cons in *. pose proof (ies_len_nonneg l).
    rewrite ies_bytes_cons, <- app_assoc, eid_oui_step; [|done|lia|].
    2:{ unfold ies_len in *. rewrite !length_app. cbn [ie_bytes length]. lia. }
    destruct (_ && _); [by exists None; auto|].
    destruct (ie_hit eid (Some o) osz e (ies_bytes l ++ tail)) eqn:Eh.
    { eexists. split; [done|]. right. exists e, (ies_bytes l ++ tail).
      split; [done|]. split; [|done]. by apply elem_of_cons; left. }
    replace (left - (2 + Z.of_nat (length e.2) + ies_len l))
      with (left - 2 - Z.of_nat (length e.2) - ies_len l) in * by lia.
    destruct (IH fuel (left - 2 - Z.of_nat (length e.2))) as (r & Hr & Hres); [lia..|done|].
    exists r. split; [done|]. destruct Hres as [->|(e' & q & ? & ? & ?)]; [by left|].
    right. exists e', q. by rewrite elem_of_cons; auto.
Qed.

(** The search for an OUI is also confined to the buffer, and what it returns is a
    complete element of it. *)
Lemma get_oui_ptr_safe {S} eid o osz p ie_len (s : S) :
  bytes_ok p -> 0 <= ie_len <= Z.of_nat (length p) -> 0 <= osz <= Z.of_nat (length o) ->
  exists l tail r, p = ies_bytes l ++ tail /\ Forall ie_ok l /\ ies_len l <= ie_len /\
    wlan_get_ie_ptr_from_eid_n_oui eid (Some o) osz p ie_len s = Ret r s /\
    (r = None \/ exists e q, r = Some (ie_bytes e ++ q) /\ e ∈ l /\
                             ie_hit eid (Some o) osz e q = true).
Proof.
  intros Hb Hl Ho. destruct (split_ies p ie_len Hb Hl) as (l & tl & -> & Hok & Hle & Hi).
  rewrite length_app in Hl.
  destruct (eid_oui_loop_safe (Datatypes.S (Z.to_nat ie_len)) eid o osz l tl ie_len s)
    as (r & Hr & Hres); [done|lia|done|unfold ies_len in *; lia|done|].
  by exists l, tl, r.
Qed.

(** The comparison with an OUI may run past the element into the next one: here three
    bytes of body and the next element's id are taken for a WPA OUI and type. *)
Lemma oui_match_past_element :
  wlan_get_vendor_ie_ptr_from_oui [0; 80; 242; 1] 4 [221; 3; 0; 80; 242; 1; 0] 7 tt =
    Ret (Some [221; 3; 0; 80; 242; 1; 0]) tt.
Proof. reflexivity. Qed.

(** *** Validity of a list *)

Lemma ie_valid_loop_spec {S} fuel l tail len (s : S) :
  (Z.to_nat len < fuel)%nat -> ies_len l <= len ->
  len - ies_len l <= Z.of_nat (length tail) -> incomplete tail (len - ies_len l) ->
  ie_valid_loop fuel (ies_bytes l ++ tail) len s = Ret (ies_len l =? len) s.
Proof.
  revert fuel len. induction l as [|e l IH]; intros [|fuel] len Hf Hl Hm Hi; [lia| |lia|].
  - change (ies_len []) with 0 in *. rewrite Z.sub_0_r in *. cbn [ie_valid_loop].
    rewrite Z.eqb_sym. destruct (Z.eqb_spec 0 len); [by subst|].
    destruct (Z.ltb_spec len 2); [done|].
    destruct Hi as [Hi|(i & m & p' & -> & Hi)]; [lia|]. unfold rd.
    cbn [ies_bytes fmap list_fmap concat app lookup list_lookup].
    rewrite (bind_deref (Some _) _ _ s eq_refl). cbn beta zeta.
    by rewrite (proj2 (Z.ltb_lt _ _)) by lia.
  - pose proof (ies_len_nonneg l) as Hnn'. rewrite ies_len_cons in *.
    rewrite ies_bytes_cons, <- app_assoc. cbn [ie_valid_loop].
    rewrite (proj2 (Z.eqb_neq len 0)), (proj2 (Z.ltb_ge len 2)) by lia. unfold rd.
    cbn [ie_bytes app lookup list_lookup]. rewrite (bind_deref (Some _) _ _ s eq_refl).
    cbn beta zeta. rewrite (proj2 (Z.ltb_ge _ _)) by lia.
    change (skip 2 _) with (e.2 ++ ies_bytes l ++ tail). rewrite skip_app by done.
    replace (len - (2 + Z.of_nat (length e.2) + ies_len l))
      with (len - 2 - Z.of_nat (length e.2) - ies_len l) in * by lia.
    rewrite IH; [|lia..|done].
    f_equal. destruct (Z.eqb_spec (ies_len l) (len - 2 - Z.of_nat (length e.2))),
      (Z.eqb_spec (2 + Z.of_nat (length e.2) + ies_len l) len); lia || done.
Qed.

(** [wlan_is_ie_valid] answers whether the buffer is a list of elements, to its end. *)
Lemma ie_valid_exact {S} (p : memory) ie_len (s : S) :
  bytes_ok p -> 0 <= ie_len <= Z.of_nat (length p) ->
  exists b : bool, wlan_is_ie_valid p ie_len s = Ret b s /\
    (b = true <-> exists l : list element, Forall ie_ok l /\ take (Z.to_nat ie_len) p = ies_bytes l).
Proof.
  intros Hb Hl. destruct (split_ies p ie_len Hb Hl) as (l & tl & -> & Hok & Hle & Hi).
  rewrite length_app in Hl. exists (ies_len l =? ie_len). split.
  { apply ie_valid_loop_spec; [lia|done|unfold ies_len in *; lia|done]. }
  rewrite Z.eqb_eq. split.
  - intros <-. exists l. split; [done|]. unfold ies_len. rewrite Nat2Z.id. apply take_app_length.
  - intros (l' & Hok' & Ht).
    assert (ies_len l' = ie_len) as Hl'.
    { unfold ies_len. rewrite <- Ht, length_take, length_app. lia. }
    assert (ie_valid_loop (Datatypes.S (Z.to_nat ie_len)) (ies_bytes l ++ tl) ie_len s =
            Ret true s) as Ht2.
    { rewrite <- (take_drop (Z.to_nat ie_len) (ies_bytes l ++ tl)), Ht.
      rewrite ie_valid_loop_spec; [by rewrite (proj2 (Z.eqb_eq _ _))|lia..|].
      left. lia. }
    rewrite ie_valid_loop_spec in Ht2; [|lia|done|unfold ies_len in *; lia|done].
    injection Ht2 as Heq. by apply Z.eqb_eq.
Qed.

(** ** Channels *)

(** a channel number survives the conversion to a frequency and back: so distinct
    channels have distinct frequencies, and every channel that the driver can name has
    one. *)
Theorem chan_freq_roundtrip chan :
  0 <= chan < 256 -> wlan_freq_to_chan (wlan_chan_to_freq chan) = chan.
Proof.
  intros Hc.
  assert (forallb (fun c => wlan_freq_to_chan (wlan_chan_to_freq c) =? c) (seqZ 0 256) = true)
    as Hall by reflexivity.
  apply Z.eqb_eq, (proj1 (forallb_forall _ _) Hall), list_elem_of_In, elem_of_seqZ. lia.
Qed.

Lemma chan_freq_roundtrip_witness : wlan_freq_to_chan (wlan_chan_to_freq 170) = 170.
Proof. apply (chan_freq_roundtrip 170). split; [discriminate|reflexivity]. Defined.

(** A frequency between the channels 14 and 15 gives a number that wrapped around. *)
Lemma freq_between_channels_wraps : wlan_freq_to_chan 2500 = 219.
Proof. reflexivity. Qed.
