(* ===== verification/Crypto.v ===== *)
(** * Crypto parameters: umac/cmn_services/crypto/

    The security parameters of a VDEV or a peer (wlan_crypto_global_def.h,
    wlan_crypto_def_i.h), their setters and getters (wlan_crypto_param_handling.c and
    the first part of wlan_crypto_global_api.c), and the tables between the ciphers and
    key managements of the driver and the suites of the standard.  Sets of ciphers are
    words with a bit per cipher.  Theorems: what setting ciphers stores; which suites
    the tables translate, there and back; and comparisons of a set with the number of a
    bit. *)
From S2P Require Import Prelude Ie.

(** ** Data *)

(** [enum wlan_crypto_cipher_type] *)
Definition WLAN_CRYPTO_CIPHER_WEP : Z := 0.
Definition WLAN_CRYPTO_CIPHER_TKIP : Z := 1.
Definition WLAN_CRYPTO_CIPHER_AES_OCB : Z := 2.
Definition WLAN_CRYPTO_CIPHER_AES_CCM : Z := 3.
Definition WLAN_CRYPTO_CIPHER_WAPI_SMS4 : Z := 4.
Definition WLAN_CRYPTO_CIPHER_CKIP : Z := 5.
Definition WLAN_CRYPTO_CIPHER_AES_CMAC : Z := 6.
Definition WLAN_CRYPTO_CIPHER_AES_CCM_256 : Z := 7.
Definition WLAN_CRYPTO_CIPHER_AES_CMAC_256 : Z := 8.
Definition WLAN_CRYPTO_CIPHER_AES_GCM : Z := 9.
Definition WLAN_CRYPTO_CIPHER_AES_GCM_256 : Z := 10.
Definition WLAN_CRYPTO_CIPHER_AES_GMAC : Z := 11.
Definition WLAN_CRYPTO_CIPHER_AES_GMAC_256 : Z := 12.
Definition WLAN_CRYPTO_CIPHER_WAPI_GCM4 : Z := 13.
Definition WLAN_CRYPTO_CIPHER_FILS_AEAD : Z := 14.
Definition WLAN_CRYPTO_CIPHER_WEP_40 : Z := 15.
Definition WLAN_CRYPTO_CIPHER_WEP_104 : Z := 16.
Definition WLAN_CRYPTO_CIPHER_NONE : Z := 17.
Definition WLAN_CRYPTO_CIPHER_MAX : Z := WLAN_CRYPTO_CIPHER_NONE + 1.
Definition WLAN_CRYPTO_CIPHER_INVALID : Z := WLAN_CRYPTO_CIPHER_MAX + 1.

(** [enum wlan_crypto_auth_mode] *)
Definition WLAN_CRYPTO_AUTH_NONE : Z := 0.
Definition WLAN_CRYPTO_AUTH_OPEN : Z := 1.
Definition WLAN_CRYPTO_AUTH_SHARED : Z := 2.
Definition WLAN_CRYPTO_AUTH_8021X : Z := 3.
Definition WLAN_CRYPTO_AUTH_AUTO : Z := 4.
Definition WLAN_CRYPTO_AUTH_WPA : Z := 5.
Definition WLAN_CRYPTO_AUTH_RSNA : Z := 6.
Definition WLAN_CRYPTO_AUTH_WAPI : Z := 8.

(** [enum wlan_crypto_cap] *)
Definition WLAN_CRYPTO_CAP_AES : Z := 4.
Definition WLAN_CRYPTO_CAP_WEP : Z := 5.
Definition WLAN_CRYPTO_CAP_CKIP : Z := 6.
Definition WLAN_CRYPTO_CAP_TKIP_MIC : Z := 7.
Definition WLAN_CRYPTO_CAP_CCM256 : Z := 8.
Definition WLAN_CRYPTO_CAP_GCM : Z := 9.
Definition WLAN_CRYPTO_CAP_GCM_256 : Z := 10.
Definition WLAN_CRYPTO_CAP_WAPI_SMS4 : Z := 11.
Definition WLAN_CRYPTO_CAP_WAPI_GCM4 : Z := 12.
Definition WLAN_CRYPTO_CAP_PMF_OFFLOAD : Z := 14.
Definition WLAN_CRYPTO_CAP_FILS_AEAD : Z := 16.

(** [enum wlan_crypto_rsn_cap]: masks. *)
Definition WLAN_CRYPTO_RSN_CAP_PREAUTH : Z := 1.
Definition WLAN_CRYPTO_RSN_CAP_MFP_ENABLED : Z := 128.
Definition WLAN_CRYPTO_RSN_CAP_MFP_REQUIRED : Z := 64.

(** [enum wlan_crypto_key_mgmt] *)
Definition WLAN_CRYPTO_KEY_MGMT_IEEE8021X : Z := 0.
Definition WLAN_CRYPTO_KEY_MGMT_PSK : Z := 1.
Definition WLAN_CRYPTO_KEY_MGMT_NONE : Z := 2.
Definition WLAN_CRYPTO_KEY_MGMT_FT_IEEE8021X : Z := 5.
Definition WLAN_CRYPTO_KEY_MGMT_FT_PSK : Z := 6.
Definition WLAN_CRYPTO_KEY_MGMT_IEEE8021X_SHA256 : Z := 7.
Definition WLAN_CRYPTO_KEY_MGMT_PSK_SHA256 : Z := 8.
Definition WLAN_CRYPTO_KEY_MGMT_SAE : Z := 10.
Definition WLAN_CRYPTO_KEY_MGMT_FT_SAE : Z := 11.
Definition WLAN_CRYPTO_KEY_MGMT_WAPI_PSK : Z := 12.
Definition WLAN_CRYPTO_KEY_MGMT_WAPI_CERT : Z := 13.
Definition WLAN_CRYPTO_KEY_MGMT_CCKM : Z := 14.
Definition WLAN_CRYPTO_KEY_MGMT_OSEN : Z := 15.
Definition WLAN_CRYPTO_KEY_MGMT_IEEE8021X_SUITE_B : Z := 16.
Definition WLAN_CRYPTO_KEY_MGMT_IEEE8021X_SUITE_B_192 : Z := 17.
Definition WLAN_CRYPTO_KEY_MGMT_FILS_SHA256 : Z := 18.
Definition WLAN_CRYPTO_KEY_MGMT_FILS_SHA384 : Z := 19.
Definition WLAN_CRYPTO_KEY_MGMT_FT_FILS_SHA256 : Z := 20.
Definition WLAN_CRYPTO_KEY_MGMT_FT_FILS_SHA384 : Z := 21.
Definition WLAN_CRYPTO_KEY_MGMT_OWE : Z := 22.
Definition WLAN_CRYPTO_KEY_MGMT_DPP : Z := 23.
Definition WLAN_CRYPTO_KEY_MGMT_FT_IEEE8021X_SHA384 : Z := 24.

Definition WLAN_CRYPTO_MAX_PMKID : nat := 16.

(** [struct wlan_crypto_params]; [pmksa] holds pointers. *)
Record wlan_crypto_params : Type := Params {
  authmodeset : Z;
  ucastcipherset : Z;
  mcastcipherset : Z;
  mgmtcipherset : Z;
  cipher_caps : Z;
  key_mgmt : Z;
  pmksa : list (option Z);
  rsn_caps : Z;
}.

(** [qdf_mem_zero] of the structure. *)
Definition zero_params : wlan_crypto_params :=
  Params 0 0 0 0 0 0 (replicate WLAN_CRYPTO_MAX_PMKID None) 0.

(** [enum wlan_crypto_param_type] *)
Inductive wlan_crypto_param_type : Type :=
  | WLAN_CRYPTO_PARAM_AUTH_MODE
  | WLAN_CRYPTO_PARAM_UCAST_CIPHER
  | WLAN_CRYPTO_PARAM_MCAST_CIPHER
  | WLAN_CRYPTO_PARAM_MGMT_CIPHER
  | WLAN_CRYPTO_PARAM_CIPHER_CAP
  | WLAN_CRYPTO_PARAM_RSN_CAP
  | WLAN_CRYPTO_PARAM_KEY_MGMT
  | WLAN_CRYPTO_PARAM_PMKSA.

Section Setters.
Implicit Types (v : Z) (p : wlan_crypto_params).

Definition set_auth v p :=
  Params v (ucastcipherset p) (mcastcipherset p) (mgmtcipherset p) (cipher_caps p)
         (key_mgmt p) (pmksa p) (rsn_caps p).
Definition set_ucast v p :=
  Params (authmodeset p) v (mcastcipherset p) (mgmtcipherset p) (cipher_caps p)
         (key_mgmt p) (pmksa p) (rsn_caps p).
Definition set_mcast v p :=
  Params (authmodeset p) (ucastcipherset p) v (mgmtcipherset p) (cipher_caps p)
         (key_mgmt p) (pmksa p) (rsn_caps p).
Definition set_mgmt v p :=
  Params (authmodeset p) (ucastcipherset p) (mcastcipherset p) v (cipher_caps p)
         (key_mgmt p) (pmksa p) (rsn_caps p).
Definition set_caps v p :=
  Params (authmodeset p) (ucastcipherset p) (mcastcipherset p) (mgmtcipherset p) v
         (key_mgmt p) (pmksa p) (rsn_caps p).
Definition set_keymgmt v p :=
  Params (authmodeset p) (ucastcipherset p) (mcastcipherset p) (mgmtcipherset p)
         (cipher_caps p) v (pmksa p) (rsn_caps p).
Definition set_pmksas (l : list (option Z)) p :=
  Params (authmodeset p) (ucastcipherset p) (mcastcipherset p) (mgmtcipherset p)
         (cipher_caps p) (key_mgmt p) l (rsn_caps p).
Definition set_rsncaps v p :=
  Params (authmodeset p) (ucastcipherset p) (mcastcipherset p) (mgmtcipherset p)
         (cipher_caps p) (key_mgmt p) (pmksa p) v.

End Setters.

(** ** Sets as words *)

(** [1 << c] *)
Definition BIT (c : Z) : Z := Z.shiftl 1 c.

(** [SET_PARAM], [HAS_PARAM], [CLEAR_PARAM]: [(~1) << i] keeps the bits above [i]. *)
Definition SET_PARAM (param val : Z) : Z := Z.lor param (BIT val).
Definition HAS_PARAM (param val : Z) : bool := negb (Z.land param (BIT val) =? 0).
Definition CLEAR_PARAM (param val : Z) : Z := Z.land param (wrap 32 (Z.shiftl (Z.lnot 1) val)).

Section Macros.
Implicit Types (c : Z) (p : wlan_crypto_params).

Definition RESET_AUTHMODE p := set_auth (BIT WLAN_CRYPTO_AUTH_OPEN) p.
Definition SET_AUTHMODE c p := set_auth (SET_PARAM (authmodeset p) c) p.

Definition RESET_UCAST_CIPHERS p := set_ucast (BIT WLAN_CRYPTO_CIPHER_NONE) p.
Definition SET_UCAST_CIPHER c p := set_ucast (SET_PARAM (ucastcipherset p) c) p.
Definition HAS_UCAST_CIPHER p c : bool := HAS_PARAM (ucastcipherset p) c.

Definition RESET_MCAST_CIPHERS p := set_mcast (BIT WLAN_CRYPTO_CIPHER_NONE) p.
Definition SET_MCAST_CIPHER c p := set_mcast (SET_PARAM (mcastcipherset p) c) p.
Definition HAS_MCAST_CIPHER p c : bool := HAS_PARAM (mcastcipherset p) c.

Definition RESET_MGMT_CIPHERS p := set_mgmt (BIT WLAN_CRYPTO_CIPHER_NONE) p.
Definition HAS_MGMT_CIPHER p c : bool := HAS_PARAM (mgmtcipherset p) c.

Definition RESET_KEY_MGMT p := set_keymgmt (BIT WLAN_CRYPTO_KEY_MGMT_NONE) p.
Definition SET_KEY_MGMT c p := set_keymgmt (SET_PARAM (key_mgmt p) c) p.
Definition HAS_KEY_MGMT p c : bool := HAS_PARAM (key_mgmt p) c.

Definition RESET_CIPHER_CAP p := set_caps 0 p.
Definition SET_CIPHER_CAP c p := set_caps (SET_PARAM (cipher_caps p) c) p.
Definition HAS_CIPHER_CAP p c : bool := HAS_PARAM (cipher_caps p) c.

Definition UCAST_CIPHER_MATCH p q : bool :=
  negb (Z.land (ucastcipherset p) (ucastcipherset q) =? 0).
Definition MCAST_CIPHER_MATCH p q : bool :=
  negb (Z.land (mcastcipherset p) (mcastcipherset q) =? 0).
Definition KEY_MGMTSET_MATCH p q : bool :=
  negb (Z.land (key_mgmt p) (key_mgmt q) =? 0) || ((key_mgmt p =? 0) && (key_mgmt q =? 0)).

End Macros.

Definition IS_MGMT_CIPHER (c : Z) : bool :=
  (c =? WLAN_CRYPTO_CIPHER_AES_CMAC) || (c =? WLAN_CRYPTO_CIPHER_AES_CMAC_256) ||
  (c =? WLAN_CRYPTO_CIPHER_AES_GMAC) || (c =? WLAN_CRYPTO_CIPHER_AES_GMAC_256).
Definition IS_FILS_CIPHER (c : Z) : bool := c =? WLAN_CRYPTO_CIPHER_FILS_AEAD.

Abbreviation MP := (M wlan_crypto_params).

(** [SET_MGMT_CIPHER] on a number that is not known to be a bit of the word: the shift
    is undefined unless it is. *)
Definition SET_MGMT_CIPHER (c : Z) : MP unit :=
  if (0 <=? c) && (c <? 32)
  then modify (fun p => set_mgmt (SET_PARAM (mgmtcipherset p) c) p)
  else crash.

(** A [switch] over numbers that returns -1 by default. *)
Definition switch (w : Z) (cases : list (Z * Z)) : Z :=
  match List.find (fun c => w =? c.1) cases with Some c => c.2 | None => -1 end.

(** ** Setting and reading parameters *)

Definition cipher2cap (cipher : Z) : Z :=
  Z.max 0 (switch cipher
    [(WLAN_CRYPTO_CIPHER_WEP, WLAN_CRYPTO_CAP_WEP);
     (WLAN_CRYPTO_CIPHER_WEP_40, WLAN_CRYPTO_CAP_WEP);
     (WLAN_CRYPTO_CIPHER_WEP_104, WLAN_CRYPTO_CAP_WEP);
     (WLAN_CRYPTO_CIPHER_AES_OCB, WLAN_CRYPTO_CAP_AES);
     (WLAN_CRYPTO_CIPHER_AES_CCM, WLAN_CRYPTO_CAP_AES);
     (WLAN_CRYPTO_CIPHER_AES_CCM_256, WLAN_CRYPTO_CAP_AES);
     (WLAN_CRYPTO_CIPHER_AES_GCM, WLAN_CRYPTO_CAP_AES);
     (WLAN_CRYPTO_CIPHER_AES_GCM_256, WLAN_CRYPTO_CAP_AES);
     (WLAN_CRYPTO_CIPHER_CKIP, WLAN_CRYPTO_CAP_CKIP);
     (WLAN_CRYPTO_CIPHER_TKIP, WLAN_CRYPTO_CAP_TKIP_MIC);
     (WLAN_CRYPTO_CIPHER_WAPI_SMS4, WLAN_CRYPTO_CAP_WAPI_SMS4);
     (WLAN_CRYPTO_CIPHER_WAPI_GCM4, WLAN_CRYPTO_CAP_WAPI_GCM4);
     (WLAN_CRYPTO_CIPHER_FILS_AEAD, WLAN_CRYPTO_CAP_FILS_AEAD)]).

Definition wlan_crypto_set_authmode (value : Z) : MP QDF_STATUS :=
  modify (set_auth value);; mret QDF_STATUS_SUCCESS.
Definition wlan_crypto_get_authmode (p : wlan_crypto_params) : Z := swrap 32 (authmodeset p).

(** The loop both cipher setters have, [n] ciphers from the [i]-th on. *)
Fixpoint ciphers_loop (SET : Z -> wlan_crypto_params -> wlan_crypto_params) (n : nat)
    (i cipher : Z) (status : QDF_STATUS) : MP QDF_STATUS :=
  match n with
  | O => mret status
  | S n' =>
      status' ←
        (if HAS_PARAM cipher i then
           let cap := cipher2cap i in
           has ← gets (fun p => HAS_CIPHER_CAP p cap);
           if negb (cap =? 0) && has
           then modify (SET i);; mret QDF_STATUS_SUCCESS
           else mret status
         else mret status);
      ciphers_loop SET n' (i + 1) (CLEAR_PARAM cipher i) status'
  end.

Definition wlan_crypto_set_mcastcipher (cipher : Z) : MP QDF_STATUS :=
  modify RESET_MCAST_CIPHERS;;
  ciphers_loop SET_MCAST_CIPHER (Z.to_nat WLAN_CRYPTO_CIPHER_MAX) 0 cipher QDF_STATUS_E_INVAL.
Definition wlan_crypto_get_mcastcipher (p : wlan_crypto_params) : Z := swrap 32 (mcastcipherset p).

Definition wlan_crypto_set_ucastciphers (cipher : Z) : MP QDF_STATUS :=
  modify RESET_UCAST_CIPHERS;;
  ciphers_loop SET_UCAST_CIPHER (Z.to_nat WLAN_CRYPTO_CIPHER_MAX) 0 cipher QDF_STATUS_E_INVAL.
Definition wlan_crypto_get_ucastciphers (p : wlan_crypto_params) : Z := swrap 32 (ucastcipherset p).

Definition wlan_crypto_set_mgmtcipher (value : Z) : MP QDF_STATUS :=
  SET_MGMT_CIPHER value;; mret QDF_STATUS_SUCCESS.
Definition wlan_crypto_get_mgmtciphers (p : wlan_crypto_params) : Z := swrap 32 (mgmtcipherset p).

Definition wlan_crypto_set_cipher_cap (value : Z) : MP QDF_STATUS :=
  modify (set_caps value);; mret QDF_STATUS_SUCCESS.
Definition wlan_crypto_get_cipher_cap (p : wlan_crypto_params) : Z := swrap 32 (cipher_caps p).

(** The field has 16 bits. *)
Definition wlan_crypto_set_rsn_cap (value : Z) : MP QDF_STATUS :=
  modify (set_rsncaps (wrap 16 value));; mret QDF_STATUS_SUCCESS.
Definition wlan_crypto_get_rsn_cap (p : wlan_crypto_params) : Z := rsn_caps p.

Definition wlan_crypto_set_key_mgmt (value : Z) : MP QDF_STATUS :=
  modify (set_keymgmt value);; mret QDF_STATUS_SUCCESS.
Definition wlan_crypto_get_key_mgmt (p : wlan_crypto_params) : Z := swrap 32 (key_mgmt p).

Definition wlan_crypto_set_param (param : wlan_crypto_param_type) (value : Z) : MP QDF_STATUS :=
  match param with
  | WLAN_CRYPTO_PARAM_AUTH_MODE => wlan_crypto_set_authmode value
  | WLAN_CRYPTO_PARAM_UCAST_CIPHER => wlan_crypto_set_ucastciphers value
  | WLAN_CRYPTO_PARAM_MCAST_CIPHER => wlan_crypto_set_mcastcipher value
  | WLAN_CRYPTO_PARAM_MGMT_CIPHER => wlan_crypto_set_mgmtcipher value
  | WLAN_CRYPTO_PARAM_CIPHER_CAP => wlan_crypto_set_cipher_cap value
  | WLAN_CRYPTO_PARAM_RSN_CAP => wlan_crypto_set_rsn_cap value
  | WLAN_CRYPTO_PARAM_KEY_MGMT => wlan_crypto_set_key_mgmt value
  | WLAN_CRYPTO_PARAM_PMKSA => mret QDF_STATUS_E_INVAL
  end.

(** The number of [QDF_STATUS_E_INVAL], where it is returned as an [int32_t]. *)
Definition E_INVAL_number : Z := 4.

Definition wlan_crypto_get_param_value (param : wlan_crypto_param_type)
    (p : wlan_crypto_params) : Z :=
  match param with
  | WLAN_CRYPTO_PARAM_AUTH_MODE => wlan_crypto_get_authmode p
  | WLAN_CRYPTO_PARAM_UCAST_CIPHER => wlan_crypto_get_ucastciphers p
  | WLAN_CRYPTO_PARAM_MCAST_CIPHER => wlan_crypto_get_mcastcipher p
  | WLAN_CRYPTO_PARAM_MGMT_CIPHER => wlan_crypto_get_mgmtciphers p
  | WLAN_CRYPTO_PARAM_CIPHER_CAP => wlan_crypto_get_cipher_cap p
  | WLAN_CRYPTO_PARAM_RSN_CAP => wlan_crypto_get_rsn_cap p
  | WLAN_CRYPTO_PARAM_KEY_MGMT => wlan_crypto_get_key_mgmt p
  | WLAN_CRYPTO_PARAM_PMKSA => E_INVAL_number
  end.

(** *** Through a VDEV or a peer

    What the object manager has for the component may be NULL. *)

Abbreviation params_of := (option wlan_crypto_params) (only parsing).

Definition wlan_crypto_set_vdev_param (param : wlan_crypto_param_type) (value : Z)
    : M params_of QDF_STATUS := fun crypto =>
  match crypto with
  | None => Ret QDF_STATUS_E_INVAL None
  | Some p =>
      match wlan_crypto_set_param param value p with
      | Ret st p' => Ret st (Some p')
      | Crash => Crash
      | OutOfFuel => OutOfFuel
      end
  end.

Definition wlan_crypto_set_peer_param (param : wlan_crypto_param_type) (value : Z)
    : M params_of QDF_STATUS := fun crypto =>
  match crypto with
  | None => Ret QDF_STATUS_E_INVAL None
  | Some p =>
      match wlan_crypto_set_param param value p with
      | Ret st p' => Ret st (Some p')
      | Crash => Crash
      | OutOfFuel => OutOfFuel
      end
  end.

Definition wlan_crypto_get_param (crypto : params_of) (param : wlan_crypto_param_type) : Z :=
  match crypto with
  | None => E_INVAL_number
  | Some p => wlan_crypto_get_param_value param p
  end.

Definition wlan_crypto_get_peer_param (crypto : params_of) (param : wlan_crypto_param_type) : Z :=
  match crypto with
  | None => E_INVAL_number
  | Some p => wlan_crypto_get_param_value param p
  end.

(** [vdev] and [peer] are NULL or have the parameters given. *)
Definition wlan_crypto_is_htallowed (vdev peer : option params_of) : Z :=
  let body ucast_cipher :=
    let has c := negb (Z.land ucast_cipher (BIT c) =? 0) in
    Z.b2z
      (has WLAN_CRYPTO_CIPHER_WEP ||
       (has WLAN_CRYPTO_CIPHER_TKIP && negb (has WLAN_CRYPTO_CIPHER_AES_CCM) &&
        negb (has WLAN_CRYPTO_CIPHER_AES_GCM) && negb (has WLAN_CRYPTO_CIPHER_AES_GCM_256) &&
        negb (has WLAN_CRYPTO_CIPHER_AES_CCM_256))) in
  match vdev, peer with
  | None, None => 0
  | Some v, _ => body (wlan_crypto_get_param v WLAN_CRYPTO_PARAM_UCAST_CIPHER)
  | None, Some q => body (wlan_crypto_get_peer_param q WLAN_CRYPTO_PARAM_UCAST_CIPHER)
  end.

(** A [QDF_STATUS] returned as a [bool] is true unless it is success. *)
Definition E_INVAL_as_bool : bool := true.

Definition wlan_crypto_vdev_is_pmf_enabled (vdev : option params_of) : bool :=
  match vdev with
  | None => false
  | Some None => E_INVAL_as_bool
  | Some (Some p) =>
      negb (Z.land (rsn_caps p) WLAN_CRYPTO_RSN_CAP_MFP_ENABLED =? 0) ||
      negb (Z.land (rsn_caps p) WLAN_CRYPTO_RSN_CAP_MFP_REQUIRED =? 0)
  end.

Definition wlan_crypto_vdev_is_pmf_required (vdev : option params_of) : bool :=
  match vdev with
  | None => false
  | Some None => E_INVAL_as_bool
  | Some (Some p) => negb (Z.land (rsn_caps p) WLAN_CRYPTO_RSN_CAP_MFP_REQUIRED =? 0)
  end.

Definition wlan_crypto_is_pmf_enabled (vdev peer : option params_of) : bool :=
  match vdev, peer with
  | None, _ | _, None => false
  | Some None, _ | _, Some None => E_INVAL_as_bool
  | Some (Some p), Some (Some q) =>
      (negb (Z.land (rsn_caps p) WLAN_CRYPTO_RSN_CAP_MFP_ENABLED =? 0) &&
       negb (Z.land (rsn_caps q) WLAN_CRYPTO_RSN_CAP_MFP_ENABLED =? 0)) ||
      negb (Z.land (rsn_caps p) WLAN_CRYPTO_RSN_CAP_MFP_REQUIRED =? 0)
  end.

(** The conversion of [x & mask] to a [bool]. *)
Definition masked (x mask : Z) : bool := negb (Z.land x mask =? 0).

Definition wlan_crypto_vdev_has_auth_mode (crypto : params_of) (authvalue : Z) : bool :=
  masked (wlan_crypto_get_param crypto WLAN_CRYPTO_PARAM_AUTH_MODE) authvalue.
Definition wlan_crypto_peer_has_auth_mode (crypto : params_of) (authvalue : Z) : bool :=
  masked (wlan_crypto_get_peer_param crypto WLAN_CRYPTO_PARAM_AUTH_MODE) authvalue.
Definition wlan_crypto_vdev_has_ucastcipher (crypto : params_of) (ucastcipher : Z) : bool :=
  masked (wlan_crypto_get_param crypto WLAN_CRYPTO_PARAM_UCAST_CIPHER) ucastcipher.
Definition wlan_crypto_peer_has_ucastcipher (crypto : params_of) (ucastcipher : Z) : bool :=
  masked (wlan_crypto_get_peer_param crypto WLAN_CRYPTO_PARAM_UCAST_CIPHER) ucastcipher.
Definition wlan_crypto_vdev_has_mcastcipher (crypto : params_of) (mcastcipher : Z) : bool :=
  masked (wlan_crypto_get_param crypto WLAN_CRYPTO_PARAM_MCAST_CIPHER) mcastcipher.
Definition wlan_crypto_peer_has_mcastcipher (crypto : params_of) (mcastcipher : Z) : bool :=
  masked (wlan_crypto_get_peer_param crypto WLAN_CRYPTO_PARAM_MCAST_CIPHER) mcastcipher.
Definition wlan_crypto_vdev_has_mgmtcipher (crypto : params_of) (mgmtcipher : Z) : bool :=
  masked (wlan_crypto_get_param crypto WLAN_CRYPTO_PARAM_MGMT_CIPHER) mgmtcipher.
Definition wlan_crypto_peer_has_mgmtcipher (crypto : params_of) (mgmtcipher : Z) : bool :=
  masked (wlan_crypto_get_peer_param crypto WLAN_CRYPTO_PARAM_MGMT_CIPHER) mgmtcipher.

(** [wlan_crypto_check_open_none] and [wlan_crypto_check_wep], for a VDEV that was found;
    both compare the sets with numbers of ciphers and modes, as the code does. *)
Definition wlan_crypto_check_open_none (crypto : params_of) : bool :=
  match crypto with
  | None => false
  | Some p =>
      (mcastcipherset p =? WLAN_CRYPTO_CIPHER_NONE) &&
      ((authmodeset p =? WLAN_CRYPTO_AUTH_AUTO) || (authmodeset p =? WLAN_CRYPTO_AUTH_NONE))
  end.

Definition wep_number (set : Z) : bool :=
  (set =? WLAN_CRYPTO_CIPHER_WEP) || (set =? WLAN_CRYPTO_CIPHER_WEP_40) ||
  (set =? WLAN_CRYPTO_CIPHER_WEP_104).

Definition wlan_crypto_check_wep (crypto : params_of) : bool :=
  match crypto with
  | None => false
  | Some p =>
      wep_number (ucastcipherset p) && wep_number (mcastcipherset p) &&
      (ucastcipherset p =? mcastcipherset p) &&
      ((authmodeset p =? WLAN_CRYPTO_AUTH_AUTO) || (authmodeset p =? WLAN_CRYPTO_AUTH_OPEN) ||
       (authmodeset p =? WLAN_CRYPTO_AUTH_SHARED))
  end.

Definition wlan_crypto_merge_prarams (dst src : wlan_crypto_params) : wlan_crypto_params :=
  Params (Z.lor (authmodeset dst) (authmodeset src))
         (Z.lor (ucastcipherset dst) (ucastcipherset src))
         (Z.lor (mcastcipherset dst) (mcastcipherset src))
         (Z.lor (mgmtcipherset dst) (mgmtcipherset src))
         (Z.lor (cipher_caps dst) (cipher_caps src))
         (Z.lor (key_mgmt dst) (key_mgmt src))
         (pmksa dst)
         (Z.lor (rsn_caps dst) (rsn_caps src)).

Definition wlan_crypto_reset_prarams (p : wlan_crypto_params) : wlan_crypto_params :=
  Params 0 0 0 0 0 0 (pmksa p) 0.

(** ** Suites (wlan_cmn_ieee80211.h) *)

Definition WLAN_WPA_OUI : Z := 0xf25000.
Definition WLAN_RSN_OUI : Z := 0xac0f00.
Definition WLAN_WAPI_OUI : Z := 0x721400.
Definition WLAN_WPA_SEL (x : Z) : Z := Z.lor (Z.shiftl x 24) WLAN_WPA_OUI.
Definition WLAN_RSN_SEL (x : Z) : Z := Z.lor (Z.shiftl x 24) WLAN_RSN_OUI.
Definition WLAN_WAPI_SEL (x : Z) : Z := Z.lor (Z.shiftl x 24) WLAN_WAPI_OUI.
Definition CCKM_AKM : Z := 0x00964000.
Definition WLAN_RSN_DPP_AKM : Z := 0x029A6F50.
Definition RSN_AUTH_KEY_MGMT_OSEN : Z := 0x019a6f50.
Definition WPA_TYPE_OUI : Z := WLAN_WPA_SEL 1.

Definition WLAN_WAI_CERT_OR_SMS4 : Z := 1.
Definition WLAN_WAI_PSK : Z := 2.
Definition WLAN_CRYPTO_WAPI_SMS4_CIPHER : Z := 1.

Definition wlan_crypto_wpa_cipher_to_suite (cipher : Z) : Z :=
  switch cipher
    [(WLAN_CRYPTO_CIPHER_TKIP, WLAN_WPA_SEL 2);
     (WLAN_CRYPTO_CIPHER_AES_CCM, WLAN_WPA_SEL 4);
     (WLAN_CRYPTO_CIPHER_NONE, WLAN_WPA_SEL 0)].

Definition wlan_crypto_rsn_cipher_to_suite (cipher : Z) : Z :=
  switch cipher
    [(WLAN_CRYPTO_CIPHER_TKIP, WLAN_RSN_SEL 2);
     (WLAN_CRYPTO_CIPHER_AES_CCM, WLAN_RSN_SEL 4);
     (WLAN_CRYPTO_CIPHER_AES_CCM_256, WLAN_RSN_SEL 10);
     (WLAN_CRYPTO_CIPHER_AES_GCM, WLAN_RSN_SEL 8);
     (WLAN_CRYPTO_CIPHER_AES_GCM_256, WLAN_RSN_SEL 9);
     (WLAN_CRYPTO_CIPHER_AES_CMAC, WLAN_RSN_SEL 6);
     (WLAN_CRYPTO_CIPHER_AES_CMAC_256, WLAN_RSN_SEL 13);
     (WLAN_CRYPTO_CIPHER_AES_GMAC, WLAN_RSN_SEL 11);
     (WLAN_CRYPTO_CIPHER_AES_GMAC_256, WLAN_RSN_SEL 12);
     (WLAN_CRYPTO_CIPHER_NONE, WLAN_RSN_SEL 0)].

Definition wlan_crypto_rsn_keymgmt_to_suite (keymgmt : Z) : Z :=
  switch keymgmt
    [(WLAN_CRYPTO_KEY_MGMT_NONE, WLAN_RSN_SEL 0);
     (WLAN_CRYPTO_KEY_MGMT_IEEE8021X, WLAN_RSN_SEL 1);
     (WLAN_CRYPTO_KEY_MGMT_PSK, WLAN_RSN_SEL 2);
     (WLAN_CRYPTO_KEY_MGMT_FT_IEEE8021X, WLAN_RSN_SEL 3);
     (WLAN_CRYPTO_KEY_MGMT_FT_PSK, WLAN_RSN_SEL 4);
     (WLAN_CRYPTO_KEY_MGMT_IEEE8021X_SHA256, WLAN_RSN_SEL 5);
     (WLAN_CRYPTO_KEY_MGMT_PSK_SHA256, WLAN_RSN_SEL 6);
     (WLAN_CRYPTO_KEY_MGMT_SAE, WLAN_RSN_SEL 8);
     (WLAN_CRYPTO_KEY_MGMT_FT_SAE, WLAN_RSN_SEL 9);
     (WLAN_CRYPTO_KEY_MGMT_IEEE8021X_SUITE_B, WLAN_RSN_SEL 11);
     (WLAN_CRYPTO_KEY_MGMT_IEEE8021X_SUITE_B_192, WLAN_RSN_SEL 12);
     (WLAN_CRYPTO_KEY_MGMT_CCKM, CCKM_AKM);
     (WLAN_CRYPTO_KEY_MGMT_OSEN, RSN_AUTH_KEY_MGMT_OSEN);
     (WLAN_CRYPTO_KEY_MGMT_FILS_SHA256, WLAN_RSN_SEL 14);
     (WLAN_CRYPTO_KEY_MGMT_FILS_SHA384, WLAN_RSN_SEL 15);
     (WLAN_CRYPTO_KEY_MGMT_FT_FILS_SHA256, WLAN_RSN_SEL 16);
     (WLAN_CRYPTO_KEY_MGMT_FT_FILS_SHA384, WLAN_RSN_SEL 17);
     (WLAN_CRYPTO_KEY_MGMT_OWE, WLAN_RSN_SEL 18);
     (WLAN_CRYPTO_KEY_MGMT_DPP, WLAN_RSN_DPP_AKM)].

Definition wlan_crypto_wpa_keymgmt_to_suite (keymgmt : Z) : Z :=
  switch keymgmt
    [(WLAN_CRYPTO_KEY_MGMT_NONE, WLAN_WPA_SEL 0);
     (WLAN_CRYPTO_KEY_MGMT_IEEE8021X, WLAN_WPA_SEL 1);
     (WLAN_CRYPTO_KEY_MGMT_PSK, WLAN_WPA_SEL 2);
     (WLAN_CRYPTO_KEY_MGMT_CCKM, CCKM_AKM)].

(** The other direction, on the selector that was read. *)
Definition wpa_suite_cipher (w : Z) : Z :=
  switch w
    [(WLAN_WPA_SEL 2, WLAN_CRYPTO_CIPHER_TKIP);
     (WLAN_WPA_SEL 4, WLAN_CRYPTO_CIPHER_AES_CCM);
     (WLAN_WPA_SEL 0, WLAN_CRYPTO_CIPHER_NONE)].

Definition wpa_suite_keymgmt (w : Z) : Z :=
  switch w
    [(WLAN_WPA_SEL 1, WLAN_CRYPTO_KEY_MGMT_IEEE8021X);
     (WLAN_WPA_SEL 2, WLAN_CRYPTO_KEY_MGMT_PSK);
     (CCKM_AKM, WLAN_CRYPTO_KEY_MGMT_CCKM);
     (WLAN_WPA_SEL 0, WLAN_CRYPTO_KEY_MGMT_NONE)].

Definition rsn_suite_cipher (w : Z) : Z :=
  switch w
    [(WLAN_RSN_SEL 2, WLAN_CRYPTO_CIPHER_TKIP);
     (WLAN_RSN_SEL 4, WLAN_CRYPTO_CIPHER_AES_CCM);
     (WLAN_RSN_SEL 10, WLAN_CRYPTO_CIPHER_AES_CCM_256);
     (WLAN_RSN_SEL 8, WLAN_CRYPTO_CIPHER_AES_GCM);
     (WLAN_RSN_SEL 9, WLAN_CRYPTO_CIPHER_AES_GCM_256);
     (WLAN_RSN_SEL 6, WLAN_CRYPTO_CIPHER_AES_CMAC);
     (WLAN_RSN_SEL 13, WLAN_CRYPTO_CIPHER_AES_CMAC_256);
     (WLAN_RSN_SEL 11, WLAN_CRYPTO_CIPHER_AES_GMAC);
     (WLAN_RSN_SEL 12, WLAN_CRYPTO_CIPHER_AES_GMAC_256);
     (WLAN_RSN_SEL 0, WLAN_CRYPTO_CIPHER_NONE)].

Definition rsn_suite_keymgmt (w : Z) : Z :=
  switch w
    [(WLAN_RSN_SEL 1, WLAN_CRYPTO_KEY_MGMT_IEEE8021X);
     (WLAN_RSN_SEL 2, WLAN_CRYPTO_KEY_MGMT_PSK);
     (WLAN_RSN_SEL 3, WLAN_CRYPTO_KEY_MGMT_FT_IEEE8021X);
     (WLAN_RSN_SEL 4, WLAN_CRYPTO_KEY_MGMT_FT_PSK);
     (WLAN_RSN_SEL 5, WLAN_CRYPTO_KEY_MGMT_IEEE8021X_SHA256);
     (WLAN_RSN_SEL 6, WLAN_CRYPTO_KEY_MGMT_PSK_SHA256);
     (WLAN_RSN_SEL 8, WLAN_CRYPTO_KEY_MGMT_SAE);
     (WLAN_RSN_SEL 9, WLAN_CRYPTO_KEY_MGMT_FT_SAE);
     (WLAN_RSN_SEL 11, WLAN_CRYPTO_KEY_MGMT_IEEE8021X_SUITE_B);
     (WLAN_RSN_SEL 12, WLAN_CRYPTO_KEY_MGMT_IEEE8021X_SUITE_B_192);
     (CCKM_AKM, WLAN_CRYPTO_KEY_MGMT_CCKM);
     (RSN_AUTH_KEY_MGMT_OSEN, WLAN_CRYPTO_KEY_MGMT_OSEN);
     (WLAN_RSN_SEL 14, WLAN_CRYPTO_KEY_MGMT_FILS_SHA256);
     (WLAN_RSN_SEL 15, WLAN_CRYPTO_KEY_MGMT_FILS_SHA384);
     (WLAN_RSN_SEL 16, WLAN_CRYPTO_KEY_MGMT_FT_FILS_SHA256);
     (WLAN_RSN_SEL 17, WLAN_CRYPTO_KEY_MGMT_FT_FILS_SHA384);
     (WLAN_RSN_SEL 18, WLAN_CRYPTO_KEY_MGMT_OWE);
     (WLAN_RSN_DPP_AKM, WLAN_CRYPTO_KEY_MGMT_DPP);
     (WLAN_RSN_SEL 13, WLAN_CRYPTO_KEY_MGMT_FT_IEEE8021X_SHA384)].

Definition wapi_suite_cipher (w : Z) : Z :=
  switch w [(WLAN_WAPI_SEL WLAN_CRYPTO_WAPI_SMS4_CIPHER, WLAN_CRYPTO_CIPHER_WAPI_SMS4)].

Definition wapi_suite_keymgmt (w : Z) : Z :=
  switch w
    [(WLAN_WAPI_SEL WLAN_WAI_PSK, WLAN_CRYPTO_KEY_MGMT_WAPI_PSK);
     (WLAN_WAPI_SEL WLAN_WAI_CERT_OR_SMS4, WLAN_CRYPTO_KEY_MGMT_WAPI_CERT)].

(** ** Words as sets *)

Lemma testbit_BIT v j : 0 <= v -> Z.testbit (BIT v) j = (j =? v).
Proof.
  intros Hv. unfold BIT. rewrite Z.shiftl_1_l. destruct (Z.eqb_spec j v) as [->|].
  - by apply Z.pow2_bits_true.
  - by apply Z.pow2_bits_false.
Qed.

Lemma HAS_PARAM_testbit p v : 0 <= v -> HAS_PARAM p v = Z.testbit p v.
Proof.
  intros Hv. unfold HAS_PARAM. destruct (Z.testbit p v) eqn:Ht.
  - apply negb_true_iff, Z.eqb_neq. intros H0.
    assert (Z.testbit (Z.land p (BIT v)) v = true) as Hb.
    { by rewrite Z.land_spec, Ht, testbit_BIT, Z.eqb_refl by done. }
    by rewrite H0, Z.bits_0 in Hb.
  - apply negb_false_iff, Z.eqb_eq, Z.bits_inj'. intros j _.
    rewrite Z.land_spec, testbit_BIT, Z.bits_0 by done.
    destruct (Z.eqb_spec j v) as [->|]; [by rewrite Ht|by rewrite andb_false_r].
Qed.

Lemma testbit_SET p v j : 0 <= v -> Z.testbit (SET_PARAM p v) j = Z.testbit p j || (j =? v).
Proof. intros. unfold SET_PARAM. by rewrite Z.lor_spec, testbit_BIT. Qed.

(** Clearing the lowest bits leaves those above. *)
Lemma testbit_CLEAR p v j :
  0 <= v -> v < j < 32 -> Z.testbit (CLEAR_PARAM p v) j = Z.testbit p j.
Proof.
  intros Hv Hj. unfold CLEAR_PARAM, wrap. rewrite Z.land_spec, Z.mod_pow2_bits_low by lia.
  rewrite Z.shiftl_spec, Z.lnot_spec by lia.
  rewrite (Z.bits_above_log2 1 (j - v)) by (cbn; lia). apply andb_true_r.
Qed.

(** ** Setting ciphers *)

(** The driver can have a cipher: there is a capability for it, and the parameters have
    that. *)
Definition capable (p : wlan_crypto_params) (c : Z) : bool :=
  negb (cipher2cap c =? 0) && HAS_CIPHER_CAP p (cipher2cap c).

Lemma testbit_foldl_SET l b j :
  Forall (fun c => 0 <= c) l ->
  Z.testbit (foldl SET_PARAM b l) j = Z.testbit b j || bool_decide (j ∈ l).
Proof.
  intros Hl. revert b. induction Hl as [|c l Hc Hl IH]; intros b; cbn [foldl].
  - rewrite bool_decide_eq_false_2 by apply not_elem_of_nil. by rewrite orb_false_r.
  - rewrite IH, testbit_SET by done. rewrite <- orb_assoc. f_equal.
    destruct (Z.eqb_spec j c) as [->|]; cbn [orb].
    + symmetry. apply bool_decide_eq_true_2. by left.
    + apply bool_decide_ext. rewrite elem_of_cons. tauto.
Qed.

Section Loop.
Variables (fld : wlan_crypto_params -> Z) (upd : Z -> wlan_crypto_params -> wlan_crypto_params).
Hypothesis fld_upd : forall v p, fld (upd v p) = v.
Hypothesis caps_upd : forall v p, cipher_caps (upd v p) = cipher_caps p.
Hypothesis upd_upd : forall v v' p, upd v (upd v' p) = upd v p.
Hypothesis upd_fld : forall p, upd (fld p) p = p.
Let SET c p := upd (SET_PARAM (fld p) c) p.

(** What is selected of the ciphers from [i] on. *)
Definition selected (cipher i : Z) (n : nat) (p : wlan_crypto_params) : list Z :=
  List.filter (fun j => Z.testbit cipher j && capable p j) (seqZ i (Z.of_nat n)).

Lemma selected_S cipher i n p :
  selected cipher i (S n) p =
    (if Z.testbit cipher i && capable p i then [i] else []) ++ selected cipher (i + 1) n p.
Proof.
  unfold selected. rewrite seqZ_cons by lia. cbn [List.filter].
  replace (Z.succ i) with (i + 1) by lia.
  replace (Z.pred (Z.of_nat (S n))) with (Z.of_nat n) by lia.
  by destruct (_ && _).
Qed.

Lemma selected_ext cipher cipher' i n p p' :
  (forall j, i <= j < i + Z.of_nat n -> Z.testbit cipher j = Z.testbit cipher' j) ->
  cipher_caps p = cipher_caps p' -> selected cipher i n p = selected cipher' i n p'.
Proof.
  intros Hb Hc. apply filter_ext_elem. intros j Hj%elem_of_seqZ. f_equal; [by apply Hb|].
  unfold capable, HAS_CIPHER_CAP. by rewrite Hc.
Qed.

Lemma ciphers_loop_eq n i cipher st p :
  0 <= i -> i + Z.of_nat n <= 32 ->
  ciphers_loop SET n i cipher st p =
    Ret (if selected cipher i n p is [] then st else QDF_STATUS_SUCCESS)
        (upd (foldl SET_PARAM (fld p) (selected cipher i n p)) p).
Proof.
  revert i cipher st p. induction n as [|n IH]; intros i cipher st p Hi Hn.
  { change (selected cipher i 0 p) with (@nil Z). cbn. by rewrite upd_fld. }
  rewrite selected_S. cbn [ciphers_loop]. rewrite HAS_PARAM_testbit by done.
  assert (forall p', cipher_caps p' = cipher_caps p ->
            selected (CLEAR_PARAM cipher i) (i + 1) n p' = selected cipher (i + 1) n p) as Hsel.
  { intros p' Hp'. apply selected_ext; [|done]. intros j Hj. apply testbit_CLEAR; lia. }
  unfold mbind, M_bind. destruct (Z.testbit cipher i); cbn [andb].
  - cbn [gets]. fold (capable p i). destruct (capable p i); cbn [modify mret M_ret].
    + rewrite IH, Hsel by (lia || apply caps_upd). unfold SET at 1. cbn [app foldl].
      rewrite fld_upd. f_equal; [by destruct (selected _ _ _ _)|]. unfold SET. by rewrite upd_upd.
    + rewrite IH, Hsel by (lia || done). done.
  - cbn [mret M_ret]. rewrite IH, Hsel by (lia || done). done.
Qed.

Lemma elem_of_selected cipher i n p j :
  j ∈ selected cipher i n p <->
    Z.testbit cipher j && capable p j = true /\ i <= j < i + Z.of_nat n.
Proof. unfold selected. by rewrite elem_of_filter_b, elem_of_seqZ. Qed.

(** The setters of a set of ciphers, from the set with the cipher for none. *)
Lemma set_ciphers_exact value p :
  let p0 := upd (BIT WLAN_CRYPTO_CIPHER_NONE) p in
  exists set st,
    ciphers_loop SET (Z.to_nat WLAN_CRYPTO_CIPHER_MAX) 0 value QDF_STATUS_E_INVAL p0 =
      Ret st (upd set p) /\
    (forall j, Z.testbit set j =
       (j =? WLAN_CRYPTO_CIPHER_NONE) ||
       ((0 <=? j) && (j <? WLAN_CRYPTO_CIPHER_MAX) && Z.testbit value j && capable p j)) /\
    (st = QDF_STATUS_SUCCESS <->
       exists j, 0 <= j < WLAN_CRYPTO_CIPHER_MAX /\ Z.testbit value j = true /\
                 capable p j = true) /\
    (st = QDF_STATUS_SUCCESS \/ st = QDF_STATUS_E_INVAL).
Proof.
  intros p0. change (Z.to_nat WLAN_CRYPTO_CIPHER_MAX) with 18%nat.
  rewrite ciphers_loop_eq by lia.
  assert (selected value 0 18 p0 = selected value 0 18 p) as -> by (apply selected_ext; [done|apply caps_upd]).
  unfold p0. rewrite fld_upd, upd_upd. eexists _, _. split; [done|]. split; [|split].
  - intros j. rewrite testbit_foldl_SET, testbit_BIT by
      (done || (apply Forall_forall; intros c Hc%elem_of_selected; lia)). f_equal.
    apply eq_true_iff_eq. rewrite bool_decide_eq_true, elem_of_selected, !andb_true_iff.
    rewrite Z.leb_le, Z.ltb_lt. change (0 + Z.of_nat 18) with WLAN_CRYPTO_CIPHER_MAX. tauto.
  - destruct (selected value 0 18 p) as [|c l] eqn:El.
    + split; [done|]. intros (j & Hj & Hv & Hc).
      assert (j ∈ selected value 0 18 p) as Hin
        by (rewrite elem_of_selected, Hv, Hc; done).
      rewrite El in Hin. by apply elem_of_nil in Hin.
    + split; [intros _|done]. assert (c ∈ selected value 0 18 p) as Hin
        by (rewrite El; left).
      apply elem_of_selected in Hin as [[??]%andb_true_iff ?]. by exists c.
  - destruct (selected value 0 18 p); auto.
Qed.

End Loop.

(** setting the unicast ciphers of a VDEV or peer stores those asked for that it is
    capable of, and the bit for no cipher; it fails when that is none, changes nothing
    else, and leaves a set that later queries see. *)
Theorem set_ucastciphers_exact value p :
  exists set st,
    wlan_crypto_set_param WLAN_CRYPTO_PARAM_UCAST_CIPHER value p = Ret st (set_ucast set p) /\
    (forall j, Z.testbit set j =
       (j =? WLAN_CRYPTO_CIPHER_NONE) ||
       ((0 <=? j) && (j <? WLAN_CRYPTO_CIPHER_MAX) && Z.testbit value j && capable p j)) /\
    (st = QDF_STATUS_SUCCESS <->
       exists j, 0 <= j < WLAN_CRYPTO_CIPHER_MAX /\ Z.testbit value j = true /\
                 capable p j = true) /\
    (st = QDF_STATUS_SUCCESS \/ st = QDF_STATUS_E_INVAL).
Proof.
  exact (set_ciphers_exact ucastcipherset set_ucast (fun _ _ => eq_refl) (fun _ _ => eq_refl)
           (fun _ _ _ => eq_refl) ltac:(by intros []) value p).
Qed.

Lemma set_mcastcipher_exact value p :
  exists set st,
    wlan_crypto_set_param WLAN_CRYPTO_PARAM_MCAST_CIPHER value p = Ret st (set_mcast set p) /\
    (forall j, Z.testbit set j =
       (j =? WLAN_CRYPTO_CIPHER_NONE) ||
       ((0 <=? j) && (j <? WLAN_CRYPTO_CIPHER_MAX) && Z.testbit value j && capable p j)) /\
    (st = QDF_STATUS_SUCCESS <->
       exists j, 0 <= j < WLAN_CRYPTO_CIPHER_MAX /\ Z.testbit value j = true /\
                 capable p j = true) /\
    (st = QDF_STATUS_SUCCESS \/ st = QDF_STATUS_E_INVAL).
Proof.
  exact (set_ciphers_exact mcastcipherset set_mcast (fun _ _ => eq_refl) (fun _ _ => eq_refl)
           (fun _ _ _ => eq_refl) ltac:(by intros []) value p).
Qed.

(** ** Suites *)

Lemma switch_elem w cases : switch w cases <> -1 -> (w, switch w cases) ∈ cases.
Proof.
  unfold switch. destruct (List.find _ cases) as [[x c]|] eqn:Ef; [|done]. intros _.
  apply List.find_some in Ef as [Hin Hx]. cbn in *. apply Z.eqb_eq in Hx as ->.
  by apply list_elem_of_In.
Qed.

Lemma switch_range w cases :
  forallb (fun c => (0 <=? c.2) && (c.2 <? 32)) cases = true -> -1 <= switch w cases < 32.
Proof.
  intros Hall. destruct (decide (switch w cases = -1)) as [->|Hn]; [lia|].
  apply switch_elem, list_elem_of_In, (proj1 (forallb_forall _ _) Hall) in Hn.
  cbn in Hn. apply andb_true_iff in Hn as [?%Z.leb_le ?%Z.ltb_lt]. lia.
Qed.

(** Two tables are inverse on the cases of the first, but for the exceptions. *)
Lemma switch_inverse (exc : Z * Z -> bool) cases cases' :
  forallb (fun c => exc c || (switch c.2 cases' =? c.1)) cases = true ->
  forall w, switch w cases <> -1 -> exc (w, switch w cases) = false ->
    switch (switch w cases) cases' = w.
Proof.
  intros Hall w Hw He. apply Z.eqb_eq.
  pose proof (proj1 (forallb_forall _ _) Hall (w, switch w cases)) as H. cbn beta in H.
  rewrite He in H. apply H. by apply list_elem_of_In, switch_elem.
Qed.

(** the tables between ciphers and suites are inverse to each other: a suite that is
    written for a cipher or a key management is read back as the same, but that of no key
    management; and what is read is written back as the same suite, but that of
    FT with SHA384, which has none. *)
Theorem rsn_suites_inverse :
  (forall c, wlan_crypto_rsn_cipher_to_suite c <> -1 ->
     rsn_suite_cipher (wlan_crypto_rsn_cipher_to_suite c) = c) /\
  (forall w, rsn_suite_cipher w <> -1 ->
     wlan_crypto_rsn_cipher_to_suite (rsn_suite_cipher w) = w) /\
  (forall k, wlan_crypto_rsn_keymgmt_to_suite k <> -1 -> k <> WLAN_CRYPTO_KEY_MGMT_NONE ->
     rsn_suite_keymgmt (wlan_crypto_rsn_keymgmt_to_suite k) = k) /\
  (forall w, rsn_suite_keymgmt w <> -1 ->
     rsn_suite_keymgmt w <> WLAN_CRYPTO_KEY_MGMT_FT_IEEE8021X_SHA384 ->
     wlan_crypto_rsn_keymgmt_to_suite (rsn_suite_keymgmt w) = w) /\
  wlan_crypto_rsn_keymgmt_to_suite WLAN_CRYPTO_KEY_MGMT_FT_IEEE8021X_SHA384 = -1.
Proof.
  split_and!; [| | | |done].
  - intros c Hc. by apply (switch_inverse (fun _ => false)).
  - intros w Hw. by apply (switch_inverse (fun _ => false)).
  - intros k Hk Hn. apply (switch_inverse (fun c => c.1 =? WLAN_CRYPTO_KEY_MGMT_NONE));
      [done..|]. by apply Z.eqb_neq.
  - intros w Hw Hn.
    apply (switch_inverse (fun c => c.2 =? WLAN_CRYPTO_KEY_MGMT_FT_IEEE8021X_SHA384));
      [done..|]. by apply Z.eqb_neq.
Qed.

Lemma rsn_suites_inverse_witness :
  rsn_suite_cipher (wlan_crypto_rsn_cipher_to_suite WLAN_CRYPTO_CIPHER_AES_CCM) =
    WLAN_CRYPTO_CIPHER_AES_CCM.
Proof. apply (proj1 rsn_suites_inverse). discriminate. Defined.

Lemma wpa_suites_inverse :
  (forall c, wlan_crypto_wpa_cipher_to_suite c <> -1 ->
     wpa_suite_cipher (wlan_crypto_wpa_cipher_to_suite c) = c) /\
  (forall k, wlan_crypto_wpa_keymgmt_to_suite k <> -1 ->
     wpa_suite_keymgmt (wlan_crypto_wpa_keymgmt_to_suite k) = k).
Proof. split; intros c Hc; by apply (switch_inverse (fun _ => false)). Qed.

(** ** Where the code compares a set with the number of a bit *)

(** A VDEV just created, with no cipher and open authentication, is not open. *)
Lemma open_not_recognized p :
  wlan_crypto_check_open_none
    (Some (RESET_AUTHMODE (RESET_UCAST_CIPHERS (RESET_MCAST_CIPHERS p)))) = false.
Proof. done. Qed.

Lemma wep_number_bit set : Z.testbit set WLAN_CRYPTO_CIPHER_NONE = true -> wep_number set = false.
Proof.
  intros Hb. unfold wep_number. rewrite !orb_false_iff, !Z.eqb_neq.
  split_and!; intros ->; discriminate Hb.
Qed.

(** Whatever ciphers are set through the component's own interface, a VDEV is not
    recognized as one with WEP. *)
Lemma wep_not_recognized p value :
  exists set st,
    wlan_crypto_set_param WLAN_CRYPTO_PARAM_UCAST_CIPHER value p = Ret st (set_ucast set p) /\
    wlan_crypto_check_wep (Some (set_ucast set p)) = false.
Proof.
  destruct (set_ciphers_exact ucastcipherset set_ucast (fun _ _ => eq_refl) (fun _ _ => eq_refl)
    (fun _ _ _ => eq_refl) ltac:(by intros []) value p) as (set & st & Hs & Hb & _).
  exists set, st. split; [exact Hs|]. unfold wlan_crypto_check_wep. cbn [ucastcipherset set_ucast].
  rewrite wep_number_bit; [done|]. by rewrite Hb.
Qed.

(** The management ciphers are documented as a bitmap, but taken as the number of a bit:
    a bitmap sets another cipher, or shifts too far. *)
Lemma set_mgmtcipher_takes_number p :
  wlan_crypto_set_param WLAN_CRYPTO_PARAM_MGMT_CIPHER (BIT WLAN_CRYPTO_CIPHER_AES_CMAC) p =
    Crash.
Proof. done. Qed.

(** High-throughput rates are said to be allowed exactly with the ciphers that the
    comment says they are not allowed with. *)
Lemma ht_allowed_with_wep p :
  wlan_crypto_is_htallowed (Some (Some (set_ucast (BIT WLAN_CRYPTO_CIPHER_WEP) p))) None = 1 /\
  wlan_crypto_is_htallowed (Some (Some (set_ucast (BIT WLAN_CRYPTO_CIPHER_AES_CCM) p))) None = 0.
Proof. done. Qed.

(** A VDEV the component has nothing for counts as requiring protected frames. *)
Lemma pmf_required_without_params : wlan_crypto_vdev_is_pmf_required (Some None) = true.
Proof. done. Qed.
