(* ===== verification/CryptoIe.v ===== *)
(** * The security elements: RSN, WPA and WAPI (wlan_crypto_global_api.c)

    Each element has a routine that reads it into crypto parameters and one that writes
    it from those of a VDEV.  The readers have a pointer to the element, [frm], and the
    bytes left, [len], a [uint8_t]; the writers append to the buffer.  A round of a
    [for] loop over suites is one step of a [Fixpoint]; what is written out once per
    cipher in the code is a fold over the ciphers in that order.  Suites are stored as
    on a little-endian host. *)
From S2P Require Import Prelude Ie Crypto.

(** ** Reading and writing numbers *)

(** [LE_READ_2], [LE_READ_4]. *)
Definition LE_READ_2 {S} (p : memory) : M S Z :=
  b0 ← rd p 0; b1 ← rd p 1; mret (Z.lor b0 (Z.shiftl b1 8)).
Definition LE_READ_4 {S} (p : memory) : M S Z :=
  b0 ← rd p 0; b1 ← rd p 1; b2 ← rd p 2; b3 ← rd p 3;
  mret (Z.lor (Z.lor (Z.lor b0 (Z.shiftl b1 8)) (Z.shiftl b2 16)) (Z.shiftl b3 24)).

(** [len -= k] of a [uint8_t]. *)
Definition less (len k : Z) : Z := wrap 8 (len - k).

Definition le16 (v : Z) : list Z := [wrap 8 v; wrap 8 (Z.shiftr v 8)].
Definition le32 (v : Z) : list Z :=
  [wrap 8 v; wrap 8 (Z.shiftr v 8); wrap 8 (Z.shiftr v 16); wrap 8 (Z.shiftr v 24)].

(** [WLAN_CRYPTO_ADDSHORT], [WLAN_CRYPTO_ADDSELECTOR]. *)
Definition WLAN_CRYPTO_ADDSHORT (frm : memory) (v : Z) : memory :=
  frm ++ [Z.land v 0xff; wrap 8 (Z.shiftr v 8)].
Definition WLAN_CRYPTO_ADDSELECTOR (frm : memory) (sel : Z) : memory :=
  frm ++ le32 (wrap 32 sel).

Definition PMKID_LEN : Z := 16.
Definition WPA_VERSION : Z := 1.
Definition RSN_VERSION : Z := 1.
Definition WAPI_VERSION : Z := 1.
Definition WLAN_ELEMID_RSN : Z := 48.
Definition WLAN_ELEMID_WAPI : Z := 68.
Definition WLAN_ELEMID_VENDOR : Z := 221.
Definition WLAN_CRYPTO_WAPI_IE_LEN : Z := 20.

Section SuiteReaders.
Context {S : Type}.

Definition wlan_crypto_wpa_suite_to_cipher (sel : memory) : M S Z :=
  w ← LE_READ_4 sel; mret (wpa_suite_cipher w).
Definition wlan_crypto_wpa_suite_to_keymgmt (sel : memory) : M S Z :=
  w ← LE_READ_4 sel; mret (wpa_suite_keymgmt w).
Definition wlan_crypto_rsn_suite_to_cipher (sel : memory) : M S Z :=
  w ← LE_READ_4 sel; mret (rsn_suite_cipher w).
Definition wlan_crypto_rsn_suite_to_keymgmt (sel : memory) : M S Z :=
  w ← LE_READ_4 sel; mret (rsn_suite_keymgmt w).
Definition wlan_crypto_wapi_suite_to_cipher (sel : memory) : M S Z :=
  w ← LE_READ_4 sel; mret (wapi_suite_cipher w).
Definition wlan_crypto_wapi_keymgmt (sel : memory) : M S Z :=
  w ← LE_READ_4 sel; mret (wapi_suite_keymgmt w).

End SuiteReaders.

Abbreviation setter := (Z -> wlan_crypto_params -> wlan_crypto_params) (only parsing).

(** A loop over [n] suites that skips those it does not know; it returns the pointer and
    the length left. *)
Fixpoint lenient_suites (conv : memory -> MP Z) (SET : setter) (n : nat)
    (frm : memory) (len : Z) : MP (memory * Z) :=
  match n with
  | O => mret (frm, len)
  | S n' =>
      w ← conv frm;
      (if 0 <=? w then modify (SET w) else mret ());;
      lenient_suites conv SET n' (skip 4 frm) (less len 4)
  end.

(** One that fails on them. *)
Fixpoint strict_suites (conv : memory -> MP Z) (SET : setter) (n : nat)
    (frm : memory) (len : Z) : MP (option (memory * Z)) :=
  match n with
  | O => mret (Some (frm, len))
  | S n' =>
      w ← conv frm;
      if w <? 0 then mret None
      else
        modify (SET w);;
        strict_suites conv SET n' (skip 4 frm) (less len 4)
  end.

(** ** The RSN element *)

(** [wlan_crypto_rsnie_check], from its end: the group management cipher, *)
Definition rsn_bip (frm : memory) (len : Z) : MP QDF_STATUS :=
  mfp ← gets (fun p => masked (rsn_caps p) WLAN_CRYPTO_RSN_CAP_MFP_ENABLED);
  if (len =? 0) && mfp then
    SET_MGMT_CIPHER WLAN_CRYPTO_CIPHER_AES_CMAC;; mret QDF_STATUS_SUCCESS
  else if 4 <=? len then
    w ← wlan_crypto_rsn_suite_to_cipher frm;
    SET_MGMT_CIPHER w;; mret QDF_STATUS_SUCCESS
  else mret QDF_STATUS_SUCCESS.

(** the PMKIDs, *)
Definition rsn_pmkids (frm : memory) (len : Z) : MP QDF_STATUS :=
  if 2 <=? len then
    n ← LE_READ_2 frm;
    let frm := skip 2 frm in
    let len := less len 2 in
    if negb (n =? 0) && negb (len =? 0) then
      if n * PMKID_LEN <=? len then
        rsn_bip (skip (n * PMKID_LEN) frm) (less len (n * PMKID_LEN))
      else mret QDF_STATUS_E_INVAL
    else if negb (n =? 0) && (len =? 0) then mret QDF_STATUS_E_INVAL
    else rsn_bip frm len
  else rsn_bip frm len.

(** the capabilities, *)
Definition rsn_capabilities (frm : memory) (len : Z) : MP QDF_STATUS :=
  if 2 <=? len then
    w ← LE_READ_2 frm;
    modify (set_rsncaps w);;
    rsn_pmkids (skip 2 frm) (less len 2)
  else if negb (len =? 0) && (len <? 2) then mret QDF_STATUS_E_INVAL
  else rsn_pmkids frm len.

(** the key managements, *)
Definition rsn_key_mgmts (frm : memory) (len : Z) : MP QDF_STATUS :=
  if len =? 0 then
    modify (SET_KEY_MGMT WLAN_CRYPTO_KEY_MGMT_IEEE8021X);; mret QDF_STATUS_SUCCESS
  else if len <? 2 then mret QDF_STATUS_E_INVAL
  else
    n ← LE_READ_2 frm;
    let frm := skip 2 frm in
    let len := less len 2 in
    let continue '(frm, len) :=
      none ← gets (fun p => key_mgmt p =? 0);
      if (none : bool) then mret QDF_STATUS_E_INVAL else rsn_capabilities frm len in
    if negb (n =? 0) then
      if len <? n * 4 then mret QDF_STATUS_E_INVAL
      else
        r ← lenient_suites wlan_crypto_rsn_suite_to_keymgmt SET_KEY_MGMT (Z.to_nat n) frm len;
        continue r
    else
      modify (SET_KEY_MGMT WLAN_CRYPTO_KEY_MGMT_IEEE8021X);;
      continue (frm, len).

(** the unicast ciphers, *)
Definition rsn_ucast_ciphers (frm : memory) (len : Z) : MP QDF_STATUS :=
  if len =? 0 then
    modify (SET_UCAST_CIPHER WLAN_CRYPTO_CIPHER_AES_CCM);;
    modify (SET_KEY_MGMT WLAN_CRYPTO_KEY_MGMT_IEEE8021X);; mret QDF_STATUS_SUCCESS
  else if len <? 2 then mret QDF_STATUS_E_INVAL
  else
    n ← LE_READ_2 frm;
    let frm := skip 2 frm in
    let len := less len 2 in
    let continue '(frm, len) :=
      none ← gets (fun p => ucastcipherset p =? 0);
      if (none : bool) then mret QDF_STATUS_E_INVAL else rsn_key_mgmts frm len in
    if negb (n =? 0) then
      if len <? n * 4 then mret QDF_STATUS_E_INVAL
      else
        r ← lenient_suites wlan_crypto_rsn_suite_to_cipher SET_UCAST_CIPHER (Z.to_nat n) frm len;
        continue r
    else
      modify (SET_UCAST_CIPHER WLAN_CRYPTO_CIPHER_AES_CCM);;
      continue (frm, len).

(** the group cipher, *)
Definition rsn_mcast_cipher (frm : memory) (len : Z) : MP QDF_STATUS :=
  if len =? 0 then
    modify (SET_MCAST_CIPHER WLAN_CRYPTO_CIPHER_AES_CCM);;
    modify (SET_UCAST_CIPHER WLAN_CRYPTO_CIPHER_AES_CCM);;
    modify (SET_KEY_MGMT WLAN_CRYPTO_KEY_MGMT_IEEE8021X);; mret QDF_STATUS_SUCCESS
  else if len <? 4 then mret QDF_STATUS_E_INVAL
  else
    w ← wlan_crypto_rsn_suite_to_cipher frm;
    if w <? 0 then mret QDF_STATUS_E_INVAL
    else
      modify (SET_MCAST_CIPHER w);;
      none ← gets (fun p => mcastcipherset p =? 0);
      if (none : bool) then mret QDF_STATUS_E_INVAL
      else rsn_ucast_ciphers (skip 4 frm) (less len 4).

(** and the header and version. *)
Definition wlan_crypto_rsnie_check (frm : memory) : MP QDF_STATUS :=
  len ← rd frm 1;
  if len <? 2 then mret QDF_STATUS_E_INVAL
  else
    modify (fun _ => zero_params);;
    modify (SET_AUTHMODE WLAN_CRYPTO_AUTH_RSNA);;
    let frm := skip 2 frm in
    w ← LE_READ_2 frm;
    if negb (w =? RSN_VERSION) then mret QDF_STATUS_E_INVAL
    else rsn_mcast_cipher (skip 2 frm) (less len 2).

(** *** Writing it *)

(** One block of the writers: when the set has the cipher, count it and add its suite. *)
Definition add_suite (conv : Z -> Z) (has : Z -> bool) (selcnt : nat) (frm : memory) (c : Z)
    : memory :=
  if has c then
    WLAN_CRYPTO_ADDSELECTOR (alter (fun b => wrap 8 (b + 1)) selcnt frm) (conv c)
  else frm.

Definition add_suites (conv : Z -> Z) (has : Z -> bool) (order : list Z) (frm : memory) : memory :=
  foldl (add_suite conv has (length frm)) (WLAN_CRYPTO_ADDSHORT frm 0) order.

(** The group cipher: the first the set has. *)
Definition add_group (conv : Z -> Z) (has : Z -> bool) (order : list Z) (frm : memory) : memory :=
  match List.find has order with
  | Some c => WLAN_CRYPTO_ADDSELECTOR frm (conv c)
  | None => frm
  end.

Definition rsn_mcast_order : list Z :=
  [WLAN_CRYPTO_CIPHER_TKIP; WLAN_CRYPTO_CIPHER_AES_CCM; WLAN_CRYPTO_CIPHER_AES_CCM_256;
   WLAN_CRYPTO_CIPHER_AES_GCM; WLAN_CRYPTO_CIPHER_AES_GCM_256].
Definition rsn_ucast_order : list Z :=
  [WLAN_CRYPTO_CIPHER_AES_CCM_256; WLAN_CRYPTO_CIPHER_AES_GCM_256; WLAN_CRYPTO_CIPHER_AES_CCM;
   WLAN_CRYPTO_CIPHER_AES_GCM; WLAN_CRYPTO_CIPHER_TKIP].
Definition rsn_akm_order : list Z :=
  [WLAN_CRYPTO_KEY_MGMT_IEEE8021X; WLAN_CRYPTO_KEY_MGMT_PSK;
   WLAN_CRYPTO_KEY_MGMT_FT_IEEE8021X; WLAN_CRYPTO_KEY_MGMT_FT_PSK;
   WLAN_CRYPTO_KEY_MGMT_IEEE8021X_SHA256; WLAN_CRYPTO_KEY_MGMT_PSK_SHA256;
   WLAN_CRYPTO_KEY_MGMT_SAE; WLAN_CRYPTO_KEY_MGMT_FT_SAE;
   WLAN_CRYPTO_KEY_MGMT_IEEE8021X_SUITE_B; WLAN_CRYPTO_KEY_MGMT_IEEE8021X_SUITE_B_192;
   WLAN_CRYPTO_KEY_MGMT_FILS_SHA256; WLAN_CRYPTO_KEY_MGMT_FILS_SHA384;
   WLAN_CRYPTO_KEY_MGMT_FT_FILS_SHA256; WLAN_CRYPTO_KEY_MGMT_FT_FILS_SHA384;
   WLAN_CRYPTO_KEY_MGMT_OWE; WLAN_CRYPTO_KEY_MGMT_DPP; WLAN_CRYPTO_KEY_MGMT_OSEN].
Definition rsn_mgmt_order : list Z :=
  [WLAN_CRYPTO_CIPHER_AES_CMAC; WLAN_CRYPTO_CIPHER_AES_GMAC; WLAN_CRYPTO_CIPHER_AES_CMAC_256;
   WLAN_CRYPTO_CIPHER_AES_GMAC_256].

(** The list of PMKIDs: one, or none. *)
Definition add_pmkid (pmkid : option (list Z)) (frm : memory) : memory :=
  match pmkid with
  | Some id => WLAN_CRYPTO_ADDSHORT frm 1 ++ id
  | None => WLAN_CRYPTO_ADDSHORT frm 0
  end.

(** [iebuf[1] = frm - iebuf - 2] *)
Definition set_length (frm : memory) : memory :=
  <[1%nat := wrap 8 (Z.of_nat (length frm) - 2)]> frm.

Definition rsnie_of (p : wlan_crypto_params) (pmkid : option (list Z)) : memory :=
  let frm := WLAN_CRYPTO_ADDSHORT [WLAN_ELEMID_RSN; 0] RSN_VERSION in
  let frm := add_group wlan_crypto_rsn_cipher_to_suite (HAS_MCAST_CIPHER p) rsn_mcast_order frm in
  let frm := add_suites wlan_crypto_rsn_cipher_to_suite (HAS_UCAST_CIPHER p) rsn_ucast_order frm in
  let frm :=
    add_suites wlan_crypto_rsn_keymgmt_to_suite (HAS_KEY_MGMT p)
      (if HAS_KEY_MGMT p WLAN_CRYPTO_KEY_MGMT_CCKM then [WLAN_CRYPTO_KEY_MGMT_CCKM]
       else rsn_akm_order) frm in
  let frm := WLAN_CRYPTO_ADDSHORT frm (rsn_caps p) in
  let frm := add_pmkid pmkid frm in
  let frm :=
    if masked (rsn_caps p) WLAN_CRYPTO_RSN_CAP_MFP_ENABLED then
      foldl (fun frm c => if HAS_MGMT_CIPHER p c
                          then WLAN_CRYPTO_ADDSELECTOR frm (wlan_crypto_rsn_cipher_to_suite c)
                          else frm) frm rsn_mgmt_order
    else frm in
  set_length frm.

(** The caller's buffer.  A writer has a pointer into it and no length: it stores byte
    after byte from the start, so an element of [frm] is in the first bytes afterwards,
    the bytes behind it are the caller's, and a buffer that is too short is overrun. *)
Inductive built : Type :=
  | NoElement
  | Built (iebuf : memory) (frm : Z)
  | Overrun.

Definition write_element (iebuf frm : memory) : built :=
  if zlen frm <=? zlen iebuf
  then Built (frm ++ drop (length frm) iebuf) (zlen frm)
  else Overrun.

(** A writer of [body]: nothing is written without a buffer or parameters of the VDEV; the
    pointer that is returned is [frm] bytes behind [iebuf]. *)
Definition build_element (crypto : option wlan_crypto_params) (iebuf : option memory)
    (body : wlan_crypto_params -> memory) : built :=
  match iebuf, crypto with
  | Some buf, Some p => write_element buf (body p)
  | _, _ => NoElement
  end.

Definition wlan_crypto_build_rsnie_with_pmksa (crypto : option wlan_crypto_params)
    (iebuf : option memory) (pmkid : option (list Z)) : built :=
  build_element crypto iebuf (fun p => rsnie_of p pmkid).

(** ** The WPA element *)

(** [wlan_crypto_wpaie_check], from its end: the key managements and capabilities, *)
Definition wpa_key_mgmts (frm : memory) (len : Z) : MP QDF_STATUS :=
  n ← LE_READ_2 frm;
  let frm := skip 2 frm in
  let len := less len 2 in
  if len <? n * 4 then mret QDF_STATUS_E_INVAL
  else
    modify RESET_KEY_MGMT;;
    r ← strict_suites wlan_crypto_wpa_suite_to_keymgmt SET_KEY_MGMT (Z.to_nat n) frm len;
    match r with
    | None => mret QDF_STATUS_E_INVAL
    | Some (frm, len) =>
        if 2 <=? len then
          w ← LE_READ_2 frm;
          modify (set_rsncaps w);; mret QDF_STATUS_SUCCESS
        else mret QDF_STATUS_SUCCESS
    end.

(** the unicast ciphers, *)
Definition wpa_ucast_ciphers (frm : memory) (len : Z) : MP QDF_STATUS :=
  n ← LE_READ_2 frm;
  let frm := skip 2 frm in
  let len := less len 2 in
  if len <? n * 4 + 2 then mret QDF_STATUS_E_INVAL
  else
    modify RESET_UCAST_CIPHERS;;
    r ← strict_suites wlan_crypto_wpa_suite_to_cipher SET_UCAST_CIPHER (Z.to_nat n) frm len;
    match r with
    | None => mret QDF_STATUS_E_INVAL
    | Some (frm, len) =>
        none ← gets (fun p => ucastcipherset p =? 0);
        if (none : bool) then mret QDF_STATUS_E_INVAL else wpa_key_mgmts frm len
    end.

(** and the fixed part. *)
Definition wlan_crypto_wpaie_check (frm : memory) : MP QDF_STATUS :=
  len ← rd frm 1;
  modify RESET_AUTHMODE;;
  modify (SET_AUTHMODE WLAN_CRYPTO_AUTH_WPA);;
  if len <? 14 then mret QDF_STATUS_E_INVAL
  else
    let frm := skip 6 frm in
    let len := less len 4 in
    w ← LE_READ_2 frm;
    if negb (w =? WPA_VERSION) then mret QDF_STATUS_E_INVAL
    else
      let frm := skip 2 frm in
      let len := less len 2 in
      modify RESET_MCAST_CIPHERS;;
      w ← wlan_crypto_wpa_suite_to_cipher frm;
      if w <? 0 then mret QDF_STATUS_E_INVAL
      else
        modify (SET_MCAST_CIPHER w);;
        wpa_ucast_ciphers (skip 4 frm) (less len 4).

Definition wpa_ucast_order : list Z := [WLAN_CRYPTO_CIPHER_AES_CCM; WLAN_CRYPTO_CIPHER_TKIP].
Definition wpa_mcast_order : list Z := [WLAN_CRYPTO_CIPHER_TKIP; WLAN_CRYPTO_CIPHER_AES_CCM].

(** The one key management that is written. *)
Definition wpa_akm (p : wlan_crypto_params) : Z :=
  match List.find (HAS_KEY_MGMT p)
          [WLAN_CRYPTO_KEY_MGMT_IEEE8021X; WLAN_CRYPTO_KEY_MGMT_PSK; WLAN_CRYPTO_KEY_MGMT_CCKM] with
  | Some k => k
  | None => WLAN_CRYPTO_KEY_MGMT_NONE
  end.

Definition wpaie_of (p : wlan_crypto_params) : memory :=
  let frm := WLAN_CRYPTO_ADDSELECTOR [WLAN_ELEMID_VENDOR; 0] WPA_TYPE_OUI in
  let frm := WLAN_CRYPTO_ADDSHORT frm WPA_VERSION in
  let frm := add_group wlan_crypto_wpa_cipher_to_suite (HAS_MCAST_CIPHER p) wpa_mcast_order frm in
  let frm := add_suites wlan_crypto_wpa_cipher_to_suite (HAS_UCAST_CIPHER p) wpa_ucast_order frm in
  let frm := add_suites wlan_crypto_wpa_keymgmt_to_suite (fun _ => true) [wpa_akm p] frm in
  let frm :=
    if negb (rsn_caps p =? 0) && negb (rsn_caps p =? WLAN_CRYPTO_RSN_CAP_PREAUTH)
    then WLAN_CRYPTO_ADDSHORT frm (rsn_caps p) else frm in
  set_length frm.

Definition wlan_crypto_build_wpaie (crypto : option wlan_crypto_params)
    (iebuf : option memory) : built :=
  build_element crypto iebuf wpaie_of.

(** ** The WAPI element *)

(** [wlan_crypto_wapiie_check], from its end: the unicast and the group ciphers, *)
Definition wapi_ciphers (frm : memory) (len : Z) : MP QDF_STATUS :=
  n ← LE_READ_2 frm;
  let frm := skip 2 frm in
  let len := less len 2 in
  if len <? n * 4 + 2 then mret QDF_STATUS_E_INVAL
  else
    modify RESET_UCAST_CIPHERS;;
    r ← strict_suites wlan_crypto_wapi_suite_to_cipher SET_UCAST_CIPHER (Z.to_nat n) frm len;
    match r with
    | None => mret QDF_STATUS_E_INVAL
    | Some (frm, len) =>
        none ← gets (fun p => ucastcipherset p =? 0);
        if (none : bool) then mret QDF_STATUS_E_INVAL
        else
          modify RESET_MCAST_CIPHERS;;
          w ← wlan_crypto_wapi_suite_to_cipher frm;
          if w <? 0 then mret QDF_STATUS_E_INVAL
          else modify (SET_MCAST_CIPHER w);; mret QDF_STATUS_SUCCESS
    end.

(** and the fixed part and the key managements. *)
Definition wlan_crypto_wapiie_check (frm : memory) : MP QDF_STATUS :=
  len ← rd frm 1;
  modify RESET_AUTHMODE;;
  modify (SET_AUTHMODE WLAN_CRYPTO_AUTH_WAPI);;
  if len <? WLAN_CRYPTO_WAPI_IE_LEN then mret QDF_STATUS_E_INVAL
  else
    let frm := skip 2 frm in
    w ← LE_READ_2 frm;
    let frm := skip 2 frm in
    let len := less len 2 in
    if negb (w =? WAPI_VERSION) then mret QDF_STATUS_E_INVAL
    else
      n ← LE_READ_2 frm;
      let frm := skip 2 frm in
      let len := less len 2 in
      if len <? n * 4 + 2 then mret QDF_STATUS_E_INVAL
      else
        modify RESET_KEY_MGMT;;
        r ← strict_suites wlan_crypto_wapi_keymgmt SET_KEY_MGMT (Z.to_nat n) frm len;
        match r with
        | None => mret QDF_STATUS_E_INVAL
        | Some (frm, len) => wapi_ciphers frm len
        end.

(** The suites of the key managements, which have no table of their own. *)
Definition wapi_akm_suite (k : Z) : Z :=
  WLAN_WAPI_SEL (if k =? WLAN_CRYPTO_KEY_MGMT_WAPI_PSK then WLAN_WAI_PSK
                 else WLAN_WAI_CERT_OR_SMS4).
Definition wapi_akm_order : list Z :=
  [WLAN_CRYPTO_KEY_MGMT_WAPI_PSK; WLAN_CRYPTO_KEY_MGMT_WAPI_CERT].

(** [sta]: the VDEV is a station or a P2P client. *)
Definition wapiie_of (p : wlan_crypto_params) (sta : bool) : memory :=
  let sms4 := WLAN_WAPI_SEL WLAN_CRYPTO_WAPI_SMS4_CIPHER in
  let frm := WLAN_CRYPTO_ADDSHORT [WLAN_ELEMID_WAPI; 0] WAPI_VERSION in
  let frm := add_suites wapi_akm_suite (HAS_KEY_MGMT p) wapi_akm_order frm in
  let frm := add_suites (fun _ => sms4) (HAS_UCAST_CIPHER p) [WLAN_CRYPTO_CIPHER_WAPI_SMS4] frm in
  let frm := WLAN_CRYPTO_ADDSELECTOR frm sms4 in
  let frm := WLAN_CRYPTO_ADDSHORT frm (rsn_caps p) in
  let frm := if sta then WLAN_CRYPTO_ADDSHORT frm 0 else frm in
  set_length frm.

Definition wlan_crypto_build_wapiie (crypto : option wlan_crypto_params)
    (iebuf : option memory) (sta : bool) : built :=
  build_element crypto iebuf (fun p => wapiie_of p sta).

(** ** Matching a peer against a VDEV *)

Definition wlan_crypto_rsn_info (vdev : option wlan_crypto_params) (peer : wlan_crypto_params)
    : bool :=
  match vdev with
  | None => false
  | Some mine =>
      UCAST_CIPHER_MATCH peer mine && MCAST_CIPHER_MATCH peer mine &&
      KEY_MGMTSET_MATCH peer mine &&
      negb (wlan_crypto_vdev_is_pmf_required (Some vdev) &&
            negb (masked (rsn_caps peer) WLAN_CRYPTO_RSN_CAP_MFP_ENABLED)) &&
      negb (negb (wlan_crypto_vdev_is_pmf_enabled (Some vdev)) &&
            masked (rsn_caps peer) WLAN_CRYPTO_RSN_CAP_MFP_REQUIRED)
  end.

Definition wlan_get_crypto_params_from_rsn_ie (ie_ptr : memory) (ie_len : Z) : MP QDF_STATUS :=
  modify (fun _ => zero_params);;
  rsn_ie ← wlan_get_ie_ptr_from_eid WLAN_ELEMID_RSN ie_ptr ie_len;
  match rsn_ie with
  | None => mret QDF_STATUS_E_INVAL
  | Some frm => wlan_crypto_rsnie_check frm
  end.

Definition wlan_get_crypto_params_from_wpa_ie (ie_ptr : memory) (ie_len : Z) : MP QDF_STATUS :=
  modify (fun _ => zero_params);;
  wpa_ie ← wlan_get_vendor_ie_ptr_from_oui (le32 WPA_TYPE_OUI) 4 ie_ptr ie_len;
  match wpa_ie with
  | None => mret QDF_STATUS_E_INVAL
  | Some frm => wlan_crypto_wpaie_check frm
  end.

(** [vdev] is the VDEV found by its id, with its parameters; the state is the peer's
    parameters, an argument of the C functions. *)
Definition wlan_crypto_check_rsn_match (psoc : bool) (vdev : option (option wlan_crypto_params))
    (ie_ptr : memory) (ie_len : Z) : MP bool :=
  if psoc then
    status ← wlan_get_crypto_params_from_rsn_ie ie_ptr ie_len;
    if QDF_IS_STATUS_SUCCESS status then
      match vdev with
      | None => mret false
      | Some crypto => gets (wlan_crypto_rsn_info crypto)
      end
    else mret false
  else mret false.

Definition wlan_crypto_check_wpa_match (psoc : bool) (vdev : option (option wlan_crypto_params))
    (ie_ptr : memory) (ie_len : Z) : MP bool :=
  if psoc then
    match vdev with
    | None => mret false
    | Some crypto =>
        status ← wlan_get_crypto_params_from_wpa_ie ie_ptr ie_len;
        if QDF_IS_STATUS_SUCCESS status then gets (wlan_crypto_rsn_info crypto) else mret false
    end
  else mret false.

(** The state is the VDEV's parameters; [local] is the variable of the function, which
    each of the two readers clears before it fills it. *)
Definition merge_local (read : MP QDF_STATUS) : MP bool := fun mine =>
  match read zero_params with
  | Ret status local =>
      if QDF_IS_STATUS_SUCCESS status then Ret true (wlan_crypto_merge_prarams mine local)
      else Ret false mine
  | Crash => Crash
  | OutOfFuel => OutOfFuel
  end.

Definition wlan_set_vdev_crypto_prarams_from_ie (ie_ptr : option memory) (ie_len : Z)
    : MP QDF_STATUS :=
  match ie_ptr with
  | None => mret QDF_STATUS_E_FAILURE
  | Some ie_ptr =>
      modify wlan_crypto_reset_prarams;;
      rsn ← merge_local (wlan_get_crypto_params_from_rsn_ie ie_ptr ie_len);
      wpa ← merge_local (wlan_get_crypto_params_from_wpa_ie ie_ptr ie_len);
      mret (if rsn || wpa then QDF_STATUS_SUCCESS else QDF_STATUS_E_FAILURE)
  end.
