(* ===== verification/CryptoRsn.v ===== *)
(** * What the RSN element means to the driver

    The layout of the element as the standard has it ([rsn_element], [rsn_body]) and
    what the driver takes from it ([rsn_params]).  Theorems: [wlan_crypto_rsnie_check]
    accepts exactly the elements with a layout, the suites it needs among those it knows,
    and gives what they mean; it reads nothing behind the element; and it shifts by a
    negative number exactly when the group management cipher is one it does not know. *)
From S2P Require Import Prelude Ie Crypto CryptoIe.

(** ** Numbers in memory *)

Lemma zlen_app {A} (p q : list A) : zlen (p ++ q) = zlen p + zlen q.
Proof. unfold zlen. rewrite length_app. lia. Qed.

Lemma zlen_nonneg {A} (l : list A) : 0 <= zlen l.
Proof. unfold zlen. lia. Qed.

Lemma zlen_nil {A} (l : list A) : zlen l = 0 <-> l = [].
Proof. unfold zlen. destruct l; cbn; split; (done || lia). Qed.

Lemma wrap_shiftr v k : 0 <= k -> wrap 8 (Z.shiftr v k) = (v / 2 ^ k) mod 256.
Proof. intros. unfold wrap. by rewrite Z.shiftr_div_pow2. Qed.

Lemma lor_byte lo hi k : 0 <= k -> 0 <= lo < 2 ^ k -> Z.lor lo (Z.shiftl hi k) = hi * 2 ^ k + lo.
Proof. intros. rewrite Z.lor_comm. by apply lor_shiftl_add. Qed.

Section Numbers.
Context {S : Type}.
Implicit Types (s : S) (q : list Z).

Lemma read_le16 v q s : in_u 16 v -> LE_READ_2 (le16 v ++ q) s = Ret v s.
Proof.
  intros Hv. unfold LE_READ_2, le16, rd. cbn [app lookup list_lookup].
  rewrite !(bind_deref (Some _) _ _ s eq_refl). cbn [mret M_ret]. f_equal.
  rewrite wrap_shiftr by lia. unfold wrap, in_u in *. change (2 ^ 8) with 256.
  rewrite lor_byte by (lia || (change (2 ^ 8) with 256; apply Z.mod_pos_bound; lia)).
  change (2 ^ 8) with 256. change (2 ^ 16) with 65536 in Hv.
  rewrite (Z.mod_small (v / 256)) by (split; [apply Z.div_pos; lia|apply Z.div_lt_upper_bound; lia]).
  pose proof (Z.div_mod v 256 ltac:(lia)). lia.
Qed.

Lemma read_le32 v q s : in_u 32 v -> LE_READ_4 (le32 v ++ q) s = Ret v s.
Proof.
  intros Hv. unfold LE_READ_4, le32, rd. cbn [app lookup list_lookup].
  rewrite !(bind_deref (Some _) _ _ s eq_refl). cbn [mret M_ret]. f_equal.
  rewrite !wrap_shiftr by lia. unfold wrap, in_u in *.
  change (2 ^ 8) with 256. change (2 ^ 16) with 65536. change (2 ^ 24) with 16777216.
  assert (v mod 256 + (v / 256) mod 256 * 256 = v mod 65536) as H16.
  { pose proof (Z.rem_mul_r v 256 256 ltac:(lia) ltac:(lia)) as H.
    change (256 * 256) with 65536 in H. lia. }
  assert (v mod 65536 + (v / 65536) mod 256 * 65536 = v mod 16777216) as H24.
  { pose proof (Z.rem_mul_r v 65536 256 ltac:(lia) ltac:(lia)) as H.
    change (65536 * 256) with 16777216 in H. lia. }
  pose proof (Z.mod_pos_bound v 256 ltac:(lia)).
  pose proof (Z.mod_pos_bound v 65536 ltac:(lia)).
  pose proof (Z.mod_pos_bound v 16777216 ltac:(lia)).
  rewrite (lor_byte (v mod 256)) by (change (2 ^ 8) with 256; lia).
  change (2 ^ 8) with 256.
  replace ((v / 256) mod 256 * 256 + v mod 256) with (v mod 65536) by lia.
  rewrite (lor_byte (v mod 65536)) by (change (2 ^ 16) with 65536; lia).
  change (2 ^ 16) with 65536.
  replace ((v / 65536) mod 256 * 65536 + v mod 65536) with (v mod 16777216) by lia.
  rewrite lor_byte by (change (2 ^ 24) with 16777216; lia).
  change (2 ^ 24) with 16777216. change (2 ^ 32) with 4294967296 in Hv.
  rewrite (Z.mod_small (v / 16777216))
    by (split; [apply Z.div_pos; lia|apply Z.div_lt_upper_bound; lia]).
  pose proof (Z.div_mod v 16777216 ltac:(lia)). lia.
Qed.

End Numbers.

Lemma zlen_le16 v : zlen (le16 v) = 2.
Proof. done. Qed.
Lemma zlen_le32 v : zlen (le32 v) = 4.
Proof. done. Qed.

(** Any two bytes, and any four, are a number. *)
Lemma le16_bytes b0 b1 : byte b0 -> byte b1 -> [b0; b1] = le16 (b0 + 256 * b1).
Proof.
  unfold byte, le16. intros. rewrite wrap_shiftr by lia. unfold wrap. change (2 ^ 8) with 256.
  repeat f_equal; rewrite Z.add_comm, Z.mul_comm.
  - by rewrite Z.add_comm, Z_mod_plus_full, Z.mod_small.
  - rewrite Z.div_add_l, Z.div_small, Z.add_0_r, Z.mod_small; lia.
Qed.

Lemma le32_bytes b0 b1 b2 b3 :
  byte b0 -> byte b1 -> byte b2 -> byte b3 ->
  [b0; b1; b2; b3] = le32 (b0 + 256 * (b1 + 256 * (b2 + 256 * b3))).
Proof.
  unfold byte, le32. intros. rewrite !wrap_shiftr by lia. unfold wrap.
  change (2 ^ 8) with 256. change (2 ^ 16) with (256 * 256).
  change (2 ^ 24) with (256 * 256 * 256).
  assert (forall a b, 0 <= a < 256 -> (a + 256 * b) mod 256 = a /\ (a + 256 * b) / 256 = b) as Hab.
  { intros a b Ha. split.
    - by rewrite Z.mul_comm, Z_mod_plus_full, Z.mod_small.
    - by rewrite Z.mul_comm, Z.div_add, Z.div_small by lia. }
  rewrite <- !Z.div_div by lia.
  rewrite !(proj1 (Hab b0 _ ltac:(done))), !(proj2 (Hab b0 _ ltac:(done))).
  rewrite !(proj1 (Hab b1 _ ltac:(done))), !(proj2 (Hab b1 _ ltac:(done))).
  rewrite !(proj1 (Hab b2 _ ltac:(done))), !(proj2 (Hab b2 _ ltac:(done))).
  by rewrite Z.mod_small.
Qed.

Lemma split_le16 p :
  bytes_ok p -> 2 <= zlen p -> exists v q, p = le16 v ++ q /\ in_u 16 v /\ bytes_ok q.
Proof.
  unfold zlen. intros Hb Hl. destruct p as [|b0 [|b1 q]]; cbn in Hl; [lia..|].
  apply Forall_cons in Hb as [H0 [H1 Hb]%Forall_cons].
  exists (b0 + 256 * b1), q. rewrite <- le16_bytes by done. split; [done|].
  split; [|done]. unfold byte, in_u in *. lia.
Qed.

Lemma split_le32 p :
  bytes_ok p -> 4 <= zlen p -> exists v q, p = le32 v ++ q /\ in_u 32 v /\ bytes_ok q.
Proof.
  unfold zlen. intros Hb Hl. destruct p as [|b0 [|b1 [|b2 [|b3 q]]]]; cbn in Hl; [lia..|].
  apply Forall_cons in Hb as [H0 [H1 [H2 [H3 Hb]%Forall_cons]%Forall_cons]%Forall_cons].
  exists (b0 + 256 * (b1 + 256 * (b2 + 256 * b3))), q.
  rewrite <- le32_bytes by done. split; [done|]. split; [|done]. unfold byte, in_u in *. lia.
Qed.

(** Any bytes are words, as many as they are enough for, and a rest. *)
Lemma split_words n p :
  bytes_ok p -> Z.of_nat n * 4 <= zlen p ->
  exists l q, p = concat (le32 <$> l) ++ q /\ length l = n /\ Forall (in_u 32) l /\ bytes_ok q.
Proof.
  revert p. induction n as [|n IH]; intros p Hb Hl; [by exists [], p|].
  destruct (split_le32 p) as (v & q & -> & Hv & Hq); [done|lia|].
  rewrite zlen_app, zlen_le32 in Hl.
  destruct (IH q) as (l & q' & -> & Hn & Hu & Hq'); [done|lia|].
  exists (v :: l), q'. cbn [fmap list_fmap concat length]. rewrite <- app_assoc.
  auto using Forall_cons_2.
Qed.

(** And chunks of sixteen. *)
Lemma split_pmkids n p :
  bytes_ok p -> Z.of_nat n * PMKID_LEN <= zlen p ->
  exists l q, p = concat l ++ q /\ length l = n /\
    Forall (fun id => zlen id = PMKID_LEN) l /\ bytes_ok q.
Proof.
  unfold PMKID_LEN. revert p. induction n as [|n IH]; intros p Hb Hl; [by exists [], p|].
  destruct (IH (drop 16 p)) as (l & q & Hp & Hn & Hu & Hq).
  { by apply Forall_drop. }
  { unfold zlen in *. rewrite length_drop. lia. }
  exists (take 16 p :: l), q. cbn [concat length]. split_and!; [|lia| |done].
  - by rewrite <- app_assoc, <- Hp, take_drop.
  - constructor; [|done]. unfold zlen in *. rewrite length_take. lia.
Qed.

Lemma zlen_words (l : list Z) : zlen (concat (le32 <$> l)) = zlen l * 4.
Proof.
  induction l as [|v l IH]; [done|]. cbn [fmap list_fmap concat].
  rewrite zlen_app, zlen_le32, IH. unfold zlen. cbn [length]. lia.
Qed.

Lemma zlen_pmkids (l : list (list Z)) :
  Forall (fun id => zlen id = PMKID_LEN) l -> zlen (concat l) = zlen l * PMKID_LEN.
Proof.
  induction 1 as [|id l Hid _ IH]; [done|]. cbn [concat].
  rewrite zlen_app, IH, Hid. unfold zlen. cbn [length]. unfold PMKID_LEN. lia.
Qed.

(** [len -= k], when [k] bytes were consumed. *)
Lemma less_app (p q : list Z) k : zlen p = k -> zlen (p ++ q) < 256 -> less (zlen (p ++ q)) k = zlen q.
Proof.
  intros Hk Hl. rewrite zlen_app in *. unfold less. pose proof (zlen_nonneg p). pose proof (zlen_nonneg q).
  rewrite wrap_small; [lia|]. unfold in_u. change (2 ^ 8) with 256. lia.
Qed.

Lemma skip_zlen k (p q : list Z) : zlen p = k -> skip k (p ++ q) = q.
Proof. apply skip_app. Qed.

(** ** The element *)

(** The fields after the version, each of which may be missing with those after it, and
    bytes the driver does not look at. *)
Record rsn_element : Type := RsnElement {
  re_group : option Z;
  re_pairwise : option (list Z);
  re_akms : option (list Z);
  re_caps : option Z;
  re_pmkids : option (list (list Z));
  re_mgmt : option Z;
  re_trailer : list Z;
}.

Definition field {A} (f : A -> list Z) (o : option A) : list Z :=
  match o with Some x => f x | None => [] end.

Definition suites_bytes (l : list Z) : list Z := le16 (zlen l) ++ concat (le32 <$> l).
Definition pmkids_bytes (l : list (list Z)) : list Z := le16 (zlen l) ++ concat l.

Section Layout.
Implicit Types (e : rsn_element).

(** The bytes from a field on. *)
Definition from_mgmt e : list Z := field le32 (re_mgmt e) ++ re_trailer e.
Definition from_pmkids e : list Z := field pmkids_bytes (re_pmkids e) ++ from_mgmt e.
Definition from_caps e : list Z := field le16 (re_caps e) ++ from_pmkids e.
Definition from_akms e : list Z := field suites_bytes (re_akms e) ++ from_caps e.
Definition from_pairwise e : list Z := field suites_bytes (re_pairwise e) ++ from_akms e.
Definition from_group e : list Z := field le32 (re_group e) ++ from_pairwise e.

Definition rsn_body e : list Z := le16 RSN_VERSION ++ from_group e.

(** Fields are of their size; nothing follows a missing one but bytes that are too few
    for it, and those only towards the end. *)
Definition mgmt_ok e : Prop :=
  match re_mgmt e with Some s => in_u 32 s | None => zlen (re_trailer e) < 4 end.
Definition pmkids_ok e : Prop :=
  match re_pmkids e with
  | Some l => Forall (fun id => zlen id = PMKID_LEN) l /\ mgmt_ok e
  | None => re_mgmt e = None /\ zlen (re_trailer e) < 2
  end.
Definition caps_ok e : Prop :=
  match re_caps e with Some c => in_u 16 c /\ pmkids_ok e | None => from_pmkids e = [] end.
Definition akms_ok e : Prop :=
  match re_akms e with Some l => Forall (in_u 32) l /\ caps_ok e | None => from_caps e = [] end.
Definition pairwise_ok e : Prop :=
  match re_pairwise e with Some l => Forall (in_u 32) l /\ akms_ok e | None => from_akms e = [] end.
Definition rsn_layout e : Prop :=
  match re_group e with Some g => in_u 32 g /\ pairwise_ok e | None => from_pairwise e = [] end.

(** ** Its meaning *)

(** The set of those suites of a list that a table knows. *)
Definition suites_set (tab : Z -> Z) (l : list Z) : Z :=
  foldl (fun set s => if 0 <=? tab s then SET_PARAM set (tab s) else set) 0 l.

(** A list that is missing or empty stands for a default. *)
Definition suites_or (tab : Z -> Z) (default : Z) (o : option (list Z)) : Z :=
  match o with
  | None | Some [] => BIT default
  | Some l => suites_set tab l
  end.

Definition rsn_group e : Z :=
  BIT (match re_group e with Some g => rsn_suite_cipher g | None => WLAN_CRYPTO_CIPHER_AES_CCM end).
Definition rsn_ucast e : Z := suites_or rsn_suite_cipher WLAN_CRYPTO_CIPHER_AES_CCM (re_pairwise e).
Definition rsn_akm e : Z :=
  suites_or rsn_suite_keymgmt WLAN_CRYPTO_KEY_MGMT_IEEE8021X (re_akms e).
Definition rsn_capability e : Z := match re_caps e with Some c => c | None => 0 end.

(** The group management cipher: by default CMAC, when frames are protected. *)
Definition rsn_mgmt e : Z :=
  match re_mgmt e with
  | Some s => BIT (rsn_suite_cipher s)
  | None =>
      if masked (rsn_capability e) WLAN_CRYPTO_RSN_CAP_MFP_ENABLED &&
         bool_decide (re_trailer e = [])
      then BIT WLAN_CRYPTO_CIPHER_AES_CMAC else 0
  end.

Definition rsn_params e : wlan_crypto_params :=
  Params (BIT WLAN_CRYPTO_AUTH_RSNA) (rsn_ucast e) (rsn_group e) (rsn_mgmt e) 0 (rsn_akm e)
         (pmksa zero_params) (rsn_capability e).

(** What the driver asks of the suites. *)
Definition rsn_acceptable e : bool :=
  match re_group e with Some g => 0 <=? rsn_suite_cipher g | None => true end &&
  negb (rsn_ucast e =? 0) && negb (rsn_akm e =? 0).

Definition rsn_mgmt_known e : bool :=
  match re_mgmt e with Some s => 0 <=? rsn_suite_cipher s | None => true end.

End Layout.

(** ** Reading what was laid out *)

Lemma rsn_suite_cipher_range s : -1 <= rsn_suite_cipher s < 32.
Proof. by apply switch_range. Qed.
Lemma rsn_suite_keymgmt_range s : -1 <= rsn_suite_keymgmt s < 32.
Proof. by apply switch_range. Qed.

(** What the last field makes of the parameters read so far. *)
Definition mgmt_result (e : rsn_element) (p : wlan_crypto_params) :
    outcome wlan_crypto_params QDF_STATUS :=
  match re_mgmt e with
  | Some s =>
      if 0 <=? rsn_suite_cipher s
      then Ret QDF_STATUS_SUCCESS
             (set_mgmt (SET_PARAM (mgmtcipherset p) (rsn_suite_cipher s)) p)
      else Crash
  | None =>
      Ret QDF_STATUS_SUCCESS
        (if masked (rsn_caps p) WLAN_CRYPTO_RSN_CAP_MFP_ENABLED && bool_decide (re_trailer e = [])
         then set_mgmt (SET_PARAM (mgmtcipherset p) WLAN_CRYPTO_CIPHER_AES_CMAC) p else p)
  end.

Lemma zlen_eqb_nil (l : list Z) : (zlen l =? 0) = bool_decide (l = []).
Proof. by destruct l. Qed.

(** The parameters as they are filled. *)
Abbreviation filled u m k rc :=
  (Params (BIT WLAN_CRYPTO_AUTH_RSNA) u m 0 0 k (pmksa zero_params) rc).

Section Reading.
Implicit Types (e : rsn_element) (rest q : list Z) (p : wlan_crypto_params).

Lemma conv_cipher s q p :
  in_u 32 s -> wlan_crypto_rsn_suite_to_cipher (le32 s ++ q) p = Ret (rsn_suite_cipher s) p.
Proof.
  intros Hs. unfold wlan_crypto_rsn_suite_to_cipher.
  by rewrite (bind_ret _ _ _ _ _ (read_le32 s q p Hs)).
Qed.

Lemma conv_keymgmt s q p :
  in_u 32 s -> wlan_crypto_rsn_suite_to_keymgmt (le32 s ++ q) p = Ret (rsn_suite_keymgmt s) p.
Proof.
  intros Hs. unfold wlan_crypto_rsn_suite_to_keymgmt.
  by rewrite (bind_ret _ _ _ _ _ (read_le32 s q p Hs)).
Qed.

Lemma read_mgmt e rest p :
  mgmt_ok e -> zlen (from_mgmt e) < 256 ->
  rsn_bip (from_mgmt e ++ rest) (zlen (from_mgmt e)) p = mgmt_result e p.
Proof.
  unfold mgmt_ok, from_mgmt, mgmt_result, rsn_bip. intros Hok Hl. rewrite bind_gets.
  destruct (re_mgmt e) as [s|]; cbn [field] in *.
  - rewrite zlen_app, zlen_le32 in *. pose proof (zlen_nonneg (re_trailer e)).
    rewrite (proj2 (Z.eqb_neq _ _)), (proj2 (Z.leb_le _ _)) by lia. cbn [andb].
    rewrite <- app_assoc. rewrite (bind_ret _ _ _ _ _ (conv_cipher s _ p Hok)).
    unfold SET_MGMT_CIPHER. pose proof (rsn_suite_cipher_range s).
    rewrite (proj2 (Z.ltb_lt _ 32)), andb_true_r by lia.
    by destruct (0 <=? rsn_suite_cipher s).
  - cbn [app] in *. rewrite zlen_eqb_nil, andb_comm.
    destruct (masked _ _ && _); [done|]. by rewrite (proj2 (Z.leb_gt _ _)).
Qed.

Lemma read_pmkids e rest p :
  pmkids_ok e -> zlen (from_pmkids e) < 256 ->
  rsn_pmkids (from_pmkids e ++ rest) (zlen (from_pmkids e)) p = mgmt_result e p.
Proof.
  unfold pmkids_ok, from_pmkids, rsn_pmkids. destruct (re_pmkids e) as [l|] eqn:El; cbn [field].
  - intros [Hids Hok] Hl. unfold pmkids_bytes in *. rewrite <- app_assoc in *.
    assert (zlen l < 256) as Hn.
    { rewrite !zlen_app, (zlen_pmkids l Hids), zlen_le16 in Hl. unfold PMKID_LEN in Hl.
      pose proof (zlen_nonneg (from_mgmt e)). pose proof (zlen_nonneg l). lia. }
    rewrite (proj2 (Z.leb_le 2 _)) by (rewrite zlen_app, zlen_le16; pose proof (zlen_nonneg (concat l ++ from_mgmt e)); lia).
    rewrite <- app_assoc. erewrite bind_ret by
      (apply read_le16; unfold in_u; change (2 ^ 16) with 65536; pose proof (zlen_nonneg l); lia).
    cbn beta zeta. rewrite less_app, skip_zlen by done.
    rewrite zlen_app, zlen_le16 in Hl. destruct (Z.eqb_spec (zlen l) 0) as [H0|H0]; cbn [negb andb].
    + apply zlen_nil in H0 as ->. by apply read_mgmt; [|cbn in Hl; lia].
    + assert (zlen (concat l) = zlen l * PMKID_LEN) as Hc by (by apply zlen_pmkids).
      rewrite zlen_app in *. pose proof (zlen_nonneg (from_mgmt e)). pose proof (zlen_nonneg l).
      unfold PMKID_LEN in *. rewrite (proj2 (Z.eqb_neq _ 0)) by lia. cbn [negb].
      rewrite (proj2 (Z.leb_le _ _)) by lia.
      rewrite <- (app_assoc (concat l)), (skip_zlen _ (concat l)) by done.
      rewrite <- zlen_app, less_app by (rewrite ?zlen_app; lia). apply read_mgmt; [done|lia].
  - intros [Hm Ht] Hl. unfold from_mgmt. rewrite Hm. cbn [field app].
    rewrite (proj2 (Z.leb_gt 2 _)) by lia.
    pose proof (read_mgmt e rest p) as Hr. unfold mgmt_ok, from_mgmt in Hr. rewrite Hm in Hr.
    cbn [field app] in Hr. apply Hr; lia.
Qed.

(** Nothing from a field on: all that follow are missing. *)
Lemma from_mgmt_nil e : from_mgmt e = [] -> re_mgmt e = None /\ re_trailer e = [].
Proof. unfold from_mgmt. by destruct (re_mgmt e). Qed.
Lemma from_pmkids_nil e : from_pmkids e = [] -> re_pmkids e = None /\ from_mgmt e = [].
Proof. unfold from_pmkids. by destruct (re_pmkids e). Qed.
Lemma from_caps_nil e : from_caps e = [] -> re_caps e = None /\ from_pmkids e = [].
Proof. unfold from_caps. by destruct (re_caps e). Qed.
Lemma from_akms_nil e : from_akms e = [] -> re_akms e = None /\ from_caps e = [].
Proof. unfold from_akms. by destruct (re_akms e). Qed.
Lemma from_pairwise_nil e : from_pairwise e = [] -> re_pairwise e = None /\ from_akms e = [].
Proof. unfold from_pairwise. by destruct (re_pairwise e). Qed.

Lemma read_caps e rest u m k :
  caps_ok e -> zlen (from_caps e) < 256 ->
  rsn_capabilities (from_caps e ++ rest) (zlen (from_caps e)) (filled u m k 0) =
    mgmt_result e (filled u m k (rsn_capability e)).
Proof.
  unfold caps_ok, from_caps, rsn_capabilities, rsn_capability.
  destruct (re_caps e) as [c|]; cbn [field].
  - intros [Hc Hok] Hl. rewrite (proj2 (Z.leb_le 2 _)) by
      (rewrite zlen_app, zlen_le16; pose proof (zlen_nonneg (from_pmkids e)); lia).
    rewrite <- app_assoc. rewrite (bind_ret _ _ _ _ _ (read_le16 c _ _ Hc)). rewrite bind_modify.
    rewrite less_app, skip_zlen by done. apply read_pmkids; [done|].
    rewrite zlen_app, zlen_le16 in Hl. lia.
  - intros Hn Hl. rewrite Hn. apply from_pmkids_nil in Hn as [Hp Hn].
    apply from_mgmt_nil in Hn as [Hm Ht].
    unfold mgmt_result. rewrite Hm. by rewrite Ht.
Qed.

Lemma lenient_eq conv SET (tab : Z -> Z) l q rest p :
  (forall s q p, in_u 32 s -> conv (le32 s ++ q) p = Ret (tab s) p) ->
  Forall (in_u 32) l -> zlen (concat (le32 <$> l) ++ q) < 256 ->
  lenient_suites conv SET (length l) (concat (le32 <$> l) ++ q ++ rest)
      (zlen (concat (le32 <$> l) ++ q)) p =
    Ret (q ++ rest, zlen q)
        (foldl (fun p s => if 0 <=? tab s then SET (tab s) p else p) p l).
Proof.
  intros Hconv Hl. revert p. induction Hl as [|s l Hs Hl IH]; intros p Hz; [done|].
  cbn [fmap list_fmap concat length lenient_suites foldl] in *. rewrite <- !app_assoc in *.
  rewrite (bind_ret _ _ _ _ _ (Hconv s _ p Hs)).
  rewrite less_app, skip_zlen by done. rewrite zlen_app, zlen_le32 in Hz.
  destruct (0 <=? tab s); [rewrite bind_modify|rewrite (bind_ret (mret ()) _ tt p p eq_refl)];
    (rewrite IH; [done|lia]).
Qed.

Lemma fold_keymgmt (tab : Z -> Z) l u m k rc :
  foldl (fun p s => if 0 <=? tab s then SET_KEY_MGMT (tab s) p else p) (filled u m k rc) l =
    filled u m (foldl (fun set s => if 0 <=? tab s then SET_PARAM set (tab s) else set) k l) rc.
Proof.
  revert k. induction l as [|s l IH]; intros k; [done|]. cbn [foldl].
  destruct (0 <=? tab s); apply IH.
Qed.

Lemma fold_ucast (tab : Z -> Z) l u m k rc :
  foldl (fun p s => if 0 <=? tab s then SET_UCAST_CIPHER (tab s) p else p) (filled u m k rc) l =
    filled (foldl (fun set s => if 0 <=? tab s then SET_PARAM set (tab s) else set) u l) m k rc.
Proof.
  revert u. induction l as [|s l IH]; intros u; [done|]. cbn [foldl].
  destruct (0 <=? tab s); apply IH.
Qed.

(** A list of suites on the wire: its count, and whether it is short enough. *)
Lemma suites_small l q : zlen (suites_bytes l ++ q) < 256 -> Forall (in_u 32) l ->
  in_u 16 (zlen l) /\ zlen (concat (le32 <$> l) ++ q) < 256.
Proof.
  unfold suites_bytes. rewrite <- app_assoc, !zlen_app, zlen_le16, zlen_words. intros Hz _.
  unfold in_u. change (2 ^ 16) with 65536. pose proof (zlen_nonneg q). pose proof (zlen_nonneg l).
  lia.
Qed.

Lemma suites_or_zero tab c o : 0 <= c ->
  suites_or tab c o = 0 -> exists s l, o = Some (s :: l) /\ suites_set tab (s :: l) = 0.
Proof.
  intros Hc. assert (BIT c <> 0) as Hn.
  { unfold BIT. rewrite Z.shiftl_1_l. apply Z.pow_nonzero; lia. }
  destruct o as [[|s l]|]; cbn [suites_or]; [done| |done]. eauto.
Qed.

(** The default of the missing fields, when nothing follows. *)
Lemma mgmt_result_nil e u m k :
  from_caps e = [] ->
  mgmt_result e (filled u m k (rsn_capability e)) = Ret QDF_STATUS_SUCCESS (filled u m k 0).
Proof.
  intros Hn. apply from_caps_nil in Hn as [Hc Hn]. apply from_pmkids_nil in Hn as [_ Hn].
  apply from_mgmt_nil in Hn as [Hm Ht]. unfold mgmt_result, rsn_capability. by rewrite Hm, Hc.
Qed.

(** A count and its suites, or a default for none, and what follows: the shape of two
    stages of the reader. *)
Definition counted conv SET (dflt : wlan_crypto_params -> wlan_crypto_params)
    (next : memory * Z -> MP QDF_STATUS) (frm : memory) (len : Z) : MP QDF_STATUS :=
  if len <? 2 then mret QDF_STATUS_E_INVAL
  else
    n ← LE_READ_2 frm;
    let frm := skip 2 frm in
    let len := less len 2 in
    if negb (n =? 0) then
      if len <? n * 4 then mret QDF_STATUS_E_INVAL
      else r ← lenient_suites conv SET (Z.to_nat n) frm len; next r
    else modify dflt;; next (frm, len).

Definition after_akms : memory * Z -> MP QDF_STATUS := fun '(frm, len) =>
  none ← gets (fun p => key_mgmt p =? 0);
  if (none : bool) then mret QDF_STATUS_E_INVAL else rsn_capabilities frm len.
Definition after_pairwise : memory * Z -> MP QDF_STATUS := fun '(frm, len) =>
  none ← gets (fun p => ucastcipherset p =? 0);
  if (none : bool) then mret QDF_STATUS_E_INVAL else rsn_key_mgmts frm len.

Lemma key_mgmts_counted frm len :
  (len =? 0) = false ->
  rsn_key_mgmts frm len =
    counted wlan_crypto_rsn_suite_to_keymgmt SET_KEY_MGMT
      (SET_KEY_MGMT WLAN_CRYPTO_KEY_MGMT_IEEE8021X) after_akms frm len.
Proof. intros H. unfold rsn_key_mgmts. by rewrite H. Qed.

Lemma ucast_ciphers_counted frm len :
  (len =? 0) = false ->
  rsn_ucast_ciphers frm len =
    counted wlan_crypto_rsn_suite_to_cipher SET_UCAST_CIPHER
      (SET_UCAST_CIPHER WLAN_CRYPTO_CIPHER_AES_CCM) after_pairwise frm len.
Proof. intros H. unfold rsn_ucast_ciphers. by rewrite H. Qed.

Lemma read_counted conv SET (tab : Z -> Z) dflt next l q rest p :
  (forall s q p, in_u 32 s -> conv (le32 s ++ q) p = Ret (tab s) p) ->
  Forall (in_u 32) l -> zlen (suites_bytes l ++ q) < 256 ->
  counted conv SET dflt next ((suites_bytes l ++ q) ++ rest) (zlen (suites_bytes l ++ q)) p =
    next (q ++ rest, zlen q)
      match l with
      | [] => dflt p
      | _ => foldl (fun p s => if 0 <=? tab s then SET (tab s) p else p) p l
      end.
Proof.
  intros Hconv Hw Hl. destruct (suites_small _ _ Hl Hw) as [Hn Hz]. unfold counted.
  unfold suites_bytes in *. rewrite <- !app_assoc in *. rewrite zlen_app, zlen_le16.
  pose proof (zlen_nonneg (concat (le32 <$> l) ++ q)). rewrite (proj2 (Z.ltb_ge _ 2)) by lia.
  rewrite (bind_ret _ _ _ _ _ (read_le16 _ _ _ Hn)). cbn beta zeta.
  rewrite <- (zlen_le16 (zlen l)), <- zlen_app, less_app, skip_zlen by (done || by rewrite zlen_app).
  destruct l as [|s l]; [done|]. change (zlen (s :: l) =? 0) with false. cbn [negb].
  rewrite (proj2 (Z.ltb_ge _ _)) by
    (rewrite zlen_app, zlen_words; pose proof (zlen_nonneg q); lia).
  rewrite (Nat2Z.id (length (s :: l)) : Z.to_nat (zlen (s :: l)) = _).
  by rewrite (bind_ret _ _ _ _ _ (lenient_eq _ SET _ _ _ _ _ Hconv Hw Hz)).
Qed.

(** Too few bytes for the count, or for the suites. *)
Lemma reject_counted conv SET dflt next body rest p :
  zlen body < 256 ->
  zlen body = 1 \/ (exists n q, body = le16 n ++ q /\ in_u 16 n /\ zlen q < n * 4) ->
  counted conv SET dflt next (body ++ rest) (zlen body) p = Ret QDF_STATUS_E_INVAL p.
Proof.
  unfold counted. intros Hz [->|(n & q & -> & Hn & Hlt)]; [done|]. pose proof (zlen_nonneg q).
  rewrite zlen_app, zlen_le16 in *. rewrite (proj2 (Z.ltb_ge _ 2)) by lia.
  rewrite <- app_assoc, (bind_ret _ _ _ _ _ (read_le16 n _ _ Hn)). cbn beta zeta.
  rewrite <- (zlen_le16 n), <- zlen_app, less_app by (done || by rewrite zlen_app).
  by rewrite (proj2 (Z.eqb_neq n 0)), (proj2 (Z.ltb_lt _ _)) by lia.
Qed.

Lemma suites_some l q : (zlen (suites_bytes l ++ q) =? 0) = false.
Proof.
  unfold suites_bytes. rewrite <- app_assoc, zlen_app, zlen_le16. apply Z.eqb_neq.
  pose proof (zlen_nonneg (concat (le32 <$> l) ++ q)). lia.
Qed.

Lemma after_suites l q : zlen (suites_bytes l ++ q) < 256 -> zlen q < 256.
Proof. rewrite zlen_app. pose proof (zlen_nonneg (suites_bytes l)). lia. Qed.

Lemma read_akms e rest u m :
  akms_ok e -> zlen (from_akms e) < 256 ->
  rsn_key_mgmts (from_akms e ++ rest) (zlen (from_akms e)) (filled u m 0 0) =
    if rsn_akm e =? 0 then Ret QDF_STATUS_E_INVAL (filled u m 0 0)
    else mgmt_result e (filled u m (rsn_akm e) (rsn_capability e)).
Proof.
  unfold akms_ok, from_akms, rsn_akm. destruct (re_akms e) as [l|]; cbn [field].
  2:{ intros Hn Hl. by rewrite Hn, mgmt_result_nil. }
  intros [Hw Hok] Hl.
  rewrite key_mgmts_counted, (read_counted _ _ _ _ _ _ _ _ _ conv_keymgmt Hw Hl)
    by apply suites_some.
  unfold after_akms.
  apply after_suites in Hl. rewrite bind_gets.
  destruct l as [|s l]; [by apply read_caps|]. rewrite fold_keymgmt. cbn [key_mgmt suites_or].
  fold (suites_set rsn_suite_keymgmt (s :: l)).
  destruct (Z.eqb_spec (suites_set rsn_suite_keymgmt (s :: l)) 0) as [->|]; [done|].
  by apply read_caps.
Qed.

Lemma read_pairwise e rest m :
  pairwise_ok e -> zlen (from_pairwise e) < 256 ->
  rsn_ucast_ciphers (from_pairwise e ++ rest) (zlen (from_pairwise e)) (filled 0 m 0 0) =
    if rsn_ucast e =? 0 then Ret QDF_STATUS_E_INVAL (filled 0 m 0 0)
    else if rsn_akm e =? 0 then Ret QDF_STATUS_E_INVAL (filled (rsn_ucast e) m 0 0)
    else mgmt_result e (filled (rsn_ucast e) m (rsn_akm e) (rsn_capability e)).
Proof.
  unfold pairwise_ok, from_pairwise, rsn_ucast. destruct (re_pairwise e) as [l|]; cbn [field].
  2:{ intros Hn Hl. rewrite Hn. apply from_akms_nil in Hn as [Ha Hn]. unfold rsn_akm.
      by rewrite Ha, mgmt_result_nil. }
  intros [Hw Hok] Hl.
  rewrite ucast_ciphers_counted, (read_counted _ _ _ _ _ _ _ _ _ conv_cipher Hw Hl)
    by apply suites_some.
  unfold after_pairwise.
  apply after_suites in Hl. rewrite bind_gets.
  destruct l as [|s l]; [by apply read_akms|]. rewrite fold_ucast. cbn [ucastcipherset suites_or].
  fold (suites_set rsn_suite_cipher (s :: l)).
  destruct (Z.eqb_spec (suites_set rsn_suite_cipher (s :: l)) 0) as [->|]; [done|].
  by apply read_akms.
Qed.

(** The group's bit is never clear. *)
Lemma BIT_nonzero c : 0 <= c -> BIT c <> 0.
Proof. intros. unfold BIT. rewrite Z.shiftl_1_l. apply Z.pow_nonzero; lia. Qed.

Lemma SET_PARAM_0 c : SET_PARAM 0 c = BIT c.
Proof. done. Qed.

(** What the whole of the reader makes of an element. *)
Definition rsn_result (e : rsn_element) (r : outcome wlan_crypto_params QDF_STATUS) : Prop :=
  if rsn_acceptable e
  then r = mgmt_result e (filled (rsn_ucast e) (rsn_group e) (rsn_akm e) (rsn_capability e))
  else exists p', r = Ret QDF_STATUS_E_INVAL p'.

Lemma read_group e rest :
  rsn_layout e -> zlen (from_group e) < 256 ->
  rsn_result e (rsn_mcast_cipher (from_group e ++ rest) (zlen (from_group e)) (filled 0 0 0 0)).
Proof.
  unfold rsn_layout, from_group, rsn_mcast_cipher, rsn_result, rsn_acceptable, rsn_group.
  destruct (re_group e) as [g|]; cbn [field].
  2:{ intros Hn Hl. rewrite Hn. apply from_pairwise_nil in Hn as [Hp Hn].
      apply from_akms_nil in Hn as [Ha Hn]. unfold rsn_ucast, rsn_akm.
      by rewrite Ha, Hp, mgmt_result_nil. }
  intros [Hg Hok] Hl. rewrite <- !app_assoc in *. rewrite zlen_app, zlen_le32 in *.
  pose proof (zlen_nonneg (from_pairwise e)).
  rewrite (proj2 (Z.eqb_neq (4 + _) 0)), (proj2 (Z.ltb_ge (4 + _) 4)) by lia.
  rewrite (bind_ret _ _ _ _ _ (conv_cipher g _ _ Hg)).
  destruct (Z.ltb_spec (rsn_suite_cipher g) 0) as [Hlt|Hge].
  { rewrite (proj2 (Z.leb_gt _ _)) by done. by eexists. }
  rewrite (proj2 (Z.leb_le _ _)) by done. rewrite bind_modify, bind_gets. cbn [andb].
  unfold SET_MCAST_CIPHER. cbn [mcastcipherset set_mcast].
  rewrite SET_PARAM_0, (proj2 (Z.eqb_neq (BIT _) 0)) by (by apply BIT_nonzero).
  rewrite <- (zlen_le32 g), <- zlen_app, less_app, skip_zlen by
    (done || (rewrite zlen_app, zlen_le32; lia)).
  pose proof (read_pairwise e rest (BIT (rsn_suite_cipher g)) Hok ltac:(lia)) as Hr.
  unfold set_mcast in *. cbn in Hr |- *. rewrite Hr.
  destruct (rsn_ucast e =? 0); [by eexists|]. by destruct (rsn_akm e =? 0); [eexists|].
Qed.

Lemma check_reads e id rest p :
  rsn_layout e -> zlen (rsn_body e) < 256 ->
  rsn_result e (wlan_crypto_rsnie_check (id :: zlen (rsn_body e) :: rsn_body e ++ rest) p).
Proof.
  intros Hok Hl. unfold wlan_crypto_rsnie_check, rd. cbn [lookup list_lookup].
  rewrite (bind_deref (Some _) _ _ p eq_refl).
  unfold rsn_body in *. rewrite zlen_app, zlen_le16 in *. pose proof (zlen_nonneg (from_group e)).
  rewrite (proj2 (Z.ltb_ge _ 2)) by lia. rewrite !bind_modify. cbn beta zeta.
  change (skip 2 (id :: ?l :: ?q)) with q. rewrite <- app_assoc.
  rewrite (bind_ret _ _ _ _ _ (read_le16 RSN_VERSION _ _ ltac:(done))).
  change (negb (RSN_VERSION =? RSN_VERSION)) with false. cbn iota.
  rewrite <- (zlen_le16 RSN_VERSION), <- zlen_app, less_app, skip_zlen by
    (done || (rewrite zlen_app, zlen_le16; lia)).
  apply read_group; [done|lia].
Qed.

End Reading.

(** ** Any bytes are an element, or rejected *)

Section Splitting.
Implicit Types (e : rsn_element) (body rest q : list Z) (p : wlan_crypto_params).

Definition rejects (stage : memory -> Z -> MP QDF_STATUS) body : Prop :=
  forall rest p, exists p', stage (body ++ rest) (zlen body) p = Ret QDF_STATUS_E_INVAL p'.

Lemma split_mgmt body :
  bytes_ok body -> exists m tr, mgmt_ok (RsnElement None None None None None m tr) /\
                                body = from_mgmt (RsnElement None None None None None m tr).
Proof.
  intros Hb. destruct (decide (4 <= zlen body)) as [Hl|Hl].
  - destruct (split_le32 body Hb Hl) as (s & q & -> & Hs & _). by exists (Some s), q.
  - exists None, body. unfold mgmt_ok. cbn. split; [lia|done].
Qed.

Lemma split_pmkid_list body :
  bytes_ok body -> zlen body < 256 ->
  (exists e, pmkids_ok e /\ body = from_pmkids e) \/ rejects rsn_pmkids body.
Proof.
  intros Hb Hz. destruct (decide (2 <= zlen body)) as [Hl|Hl].
  2:{ left. exists (RsnElement None None None None None None body).
      unfold pmkids_ok. cbn. split; [split; [done|lia]|done]. }
  destruct (split_le16 body Hb Hl) as (n & q & -> & Hn & Hq).
  assert (forall rest p, rsn_pmkids ((le16 n ++ q) ++ rest) (zlen (le16 n ++ q)) p =
    (if negb (n =? 0) && negb (zlen q =? 0) then
       if n * PMKID_LEN <=? zlen q then
         rsn_bip (skip (n * PMKID_LEN) (q ++ rest)) (less (zlen q) (n * PMKID_LEN))
       else mret QDF_STATUS_E_INVAL
     else if negb (n =? 0) && (zlen q =? 0) then mret QDF_STATUS_E_INVAL
     else rsn_bip (q ++ rest) (zlen q)) p) as Heq.
  { intros rest p. unfold rsn_pmkids. rewrite (proj2 (Z.leb_le _ _)) by done.
    rewrite <- app_assoc, (bind_ret _ _ _ _ _ (read_le16 n _ _ Hn)). cbn beta zeta.
    by rewrite less_app, skip_zlen. }
  destruct (Z.eqb_spec n 0) as [->|Hn0].
  { left. destruct (split_mgmt q Hq) as (m & tr & Hok & ->).
    by exists (RsnElement None None None None (Some []) m tr). }
  unfold in_u in Hn. destruct (Z.leb_spec (n * PMKID_LEN) (zlen q)) as [Hfit|Hfit].
  - left. destruct (split_pmkids (Z.to_nat n) q) as (ids & q' & -> & Hlen & Hids & Hq');
      [done|lia|]. destruct (split_mgmt q' Hq') as (m & tr & Hok & ->).
    exists (RsnElement None None None None (Some ids) m tr). split; [done|].
    unfold from_pmkids, pmkids_bytes. cbn [field re_pmkids].
    assert (zlen ids = n) as -> by (unfold zlen; lia). by rewrite <- app_assoc.
  - right. intros rest p. rewrite Heq. cbn [negb]. rewrite ?andb_true_l.
    destruct (zlen q =? 0); by eexists.
Qed.

Lemma split_capabilities body :
  bytes_ok body -> zlen body < 256 ->
  (exists e, caps_ok e /\ body = from_caps e) \/ rejects rsn_capabilities body.
Proof.
  intros Hb Hz. destruct (decide (2 <= zlen body)) as [Hl|Hl].
  - destruct (split_le16 body Hb Hl) as (c & q & -> & Hc & Hq).
    destruct (split_pmkid_list q Hq) as [(e & Hok & ->)|Hr].
    { rewrite zlen_app, zlen_le16 in Hz. lia. }
    + left. by exists (RsnElement None None None (Some c) (re_pmkids e) (re_mgmt e) (re_trailer e)).
    + right. intros rest p. unfold rsn_capabilities. rewrite (proj2 (Z.leb_le _ _)) by done.
      rewrite <- app_assoc, (bind_ret _ _ _ _ _ (read_le16 c _ _ Hc)), bind_modify.
      rewrite less_app, skip_zlen by done. apply Hr.
  - destruct (decide (body = [])) as [->|Hne].
    { left. by exists (RsnElement None None None None None None []). }
    right. intros rest p. unfold rsn_capabilities. rewrite (proj2 (Z.leb_gt _ _)) by lia.
    assert (zlen body <> 0) as H0 by (by rewrite zlen_nil).
    rewrite (proj2 (Z.eqb_neq _ _)), (proj2 (Z.ltb_lt _ _)) by (done || lia). by eexists.
Qed.

(** The four shapes of a counted list. *)
Lemma split_suites body :
  bytes_ok body ->
  body = [] \/ zlen body = 1 \/
  (exists l q, body = suites_bytes l ++ q /\ Forall (in_u 32) l /\ bytes_ok q) \/
  (exists n q, body = le16 n ++ q /\ in_u 16 n /\ zlen q < n * 4).
Proof.
  intros Hb. destruct (decide (2 <= zlen body)) as [Hl|Hl].
  - do 2 right. destruct (split_le16 body Hb Hl) as (n & q & -> & Hn & Hq).
    destruct (decide (n * 4 <= zlen q)) as [Hfit|Hfit]; [left|right; exists n, q; split_and!; (done || lia)].
    unfold in_u in Hn. destruct (split_words (Z.to_nat n) q) as (l & q' & -> & Hlen & Hw & Hq');
      [done|lia|].
    exists l, q'. unfold suites_bytes. rewrite <- app_assoc.
    by assert (zlen l = n) as -> by (unfold zlen; lia).
  - destruct (decide (zlen body = 0)) as [->%zlen_nil|]; [by left|].
    right; left. pose proof (zlen_nonneg body). lia.
Qed.

Lemma short_some body :
  (exists n q, body = le16 n ++ q /\ in_u 16 n /\ zlen q < n * 4) -> (zlen body =? 0) = false.
Proof.
  intros (n & q & -> & _). rewrite zlen_app, zlen_le16. apply Z.eqb_neq.
  pose proof (zlen_nonneg q). lia.
Qed.

Lemma split_key_mgmts body :
  bytes_ok body -> zlen body < 256 ->
  (exists e, akms_ok e /\ body = from_akms e) \/ rejects rsn_key_mgmts body.
Proof.
  intros Hb Hz. destruct (split_suites body Hb) as [->|[H1|[(l & q & -> & Hw & Hq)|Hshort]]].
  - left. by exists (RsnElement None None None None None None []).
  - right. intros rest p. rewrite key_mgmts_counted, reject_counted by (auto || by rewrite H1). eauto.
  - destruct (split_capabilities q Hq (after_suites l q Hz)) as [(e & Hok & ->)|Hr].
    + left. by exists (RsnElement None None (Some l) (re_caps e) (re_pmkids e) (re_mgmt e) (re_trailer e)).
    + right. intros rest p.
      rewrite key_mgmts_counted, (read_counted _ _ _ _ _ _ _ _ _ conv_keymgmt Hw Hz)
        by apply suites_some.
      unfold after_akms. rewrite bind_gets. destruct (_ =? 0); [by eexists|apply Hr].
  - right. intros rest p. rewrite key_mgmts_counted, reject_counted by (auto || by apply short_some). eauto.
Qed.

Lemma split_ucast_ciphers body :
  bytes_ok body -> zlen body < 256 ->
  (exists e, pairwise_ok e /\ body = from_pairwise e) \/ rejects rsn_ucast_ciphers body.
Proof.
  intros Hb Hz. destruct (split_suites body Hb) as [->|[H1|[(l & q & -> & Hw & Hq)|Hshort]]].
  - left. by exists (RsnElement None None None None None None []).
  - right. intros rest p. rewrite ucast_ciphers_counted, reject_counted by (auto || by rewrite H1). eauto.
  - destruct (split_key_mgmts q Hq (after_suites l q Hz)) as [(e & Hok & ->)|Hr].
    + left. by exists (RsnElement None (Some l) (re_akms e) (re_caps e) (re_pmkids e) (re_mgmt e) (re_trailer e)).
    + right. intros rest p.
      rewrite ucast_ciphers_counted, (read_counted _ _ _ _ _ _ _ _ _ conv_cipher Hw Hz)
        by apply suites_some.
      unfold after_pairwise. rewrite bind_gets. destruct (_ =? 0); [by eexists|apply Hr].
  - right. intros rest p. rewrite ucast_ciphers_counted, reject_counted by (auto || by apply short_some). eauto.
Qed.

Lemma split_group_cipher body :
  bytes_ok body -> zlen body < 256 ->
  (exists e, rsn_layout e /\ body = from_group e) \/ rejects rsn_mcast_cipher body.
Proof.
  intros Hb Hz. destruct (decide (4 <= zlen body)) as [Hl|Hl].
  - destruct (split_le32 body Hb Hl) as (g & q & -> & Hg & Hq).
    destruct (split_ucast_ciphers q Hq) as [(e & Hok & ->)|Hr].
    { rewrite zlen_app, zlen_le32 in Hz. lia. }
    + left. by exists (RsnElement (Some g) (re_pairwise e) (re_akms e) (re_caps e) (re_pmkids e)
                         (re_mgmt e) (re_trailer e)).
    + right. intros rest p. unfold rsn_mcast_cipher.
      rewrite (proj2 (Z.eqb_neq _ 0)), (proj2 (Z.ltb_ge _ 4)) by lia.
      rewrite <- app_assoc, (bind_ret _ _ _ _ _ (conv_cipher g _ _ Hg)).
      destruct (_ <? 0); [by eexists|]. rewrite bind_modify, bind_gets.
      destruct (_ =? 0); [by eexists|]. rewrite less_app, skip_zlen by done. apply Hr.
  - destruct (decide (body = [])) as [->|Hne].
    { left. by exists (RsnElement None None None None None None []). }
    right. intros rest p. unfold rsn_mcast_cipher.
    assert (zlen body <> 0) as H0 by (by rewrite zlen_nil).
    rewrite (proj2 (Z.eqb_neq _ _)), (proj2 (Z.ltb_lt _ _)) by (done || lia). by eexists.
Qed.

Lemma check_splits id body :
  bytes_ok body -> zlen body < 256 ->
  (exists e, rsn_layout e /\ body = rsn_body e) \/
  (forall rest p, exists p', wlan_crypto_rsnie_check (id :: zlen body :: body ++ rest) p =
                             Ret QDF_STATUS_E_INVAL p').
Proof.
  intros Hb Hz. destruct (decide (2 <= zlen body)) as [Hl|Hl].
  - destruct (split_le16 body Hb Hl) as (v & q & -> & Hv & Hq).
    assert (forall rest p, wlan_crypto_rsnie_check (id :: zlen (le16 v ++ q) :: (le16 v ++ q) ++ rest) p =
      (if negb (v =? RSN_VERSION) then mret QDF_STATUS_E_INVAL
       else rsn_mcast_cipher (q ++ rest) (zlen q)) (filled 0 0 0 0)) as Heq.
    { intros rest p. unfold wlan_crypto_rsnie_check, rd. cbn [lookup list_lookup].
      rewrite (bind_deref (Some _) _ _ p eq_refl), (proj2 (Z.ltb_ge _ 2)) by done.
      rewrite !bind_modify. cbn beta zeta. change (skip 2 (id :: ?l :: ?q)) with q.
      rewrite <- app_assoc, (bind_ret _ _ _ _ _ (read_le16 v _ _ Hv)).
      by rewrite less_app, skip_zlen. }
    destruct (Z.eqb_spec v RSN_VERSION) as [->|Hne].
    + destruct (split_group_cipher q Hq) as [(e & Hok & ->)|Hr].
      { rewrite zlen_app, zlen_le16 in Hz. lia. }
      * left. by exists e.
      * right. intros rest p. rewrite Heq. apply Hr.
    + right. intros rest p. rewrite Heq. by eexists.
  - right. intros rest p. unfold wlan_crypto_rsnie_check, rd. cbn [lookup list_lookup].
    rewrite (bind_deref (Some _) _ _ p eq_refl), (proj2 (Z.ltb_lt _ 2)) by lia. by eexists.
Qed.

End Splitting.

(** ** The reader, on any bytes *)

Lemma mgmt_result_known e :
  mgmt_result e (filled (rsn_ucast e) (rsn_group e) (rsn_akm e) (rsn_capability e)) =
    if rsn_mgmt_known e then Ret QDF_STATUS_SUCCESS (rsn_params e) else Crash.
Proof.
  unfold mgmt_result, rsn_mgmt_known, rsn_params, rsn_mgmt. cbn [mgmtcipherset rsn_caps].
  destruct (re_mgmt e) as [s|]; [by destruct (0 <=? _)|].
  by destruct (_ && _).
Qed.

(** An element with a layout whose suites are known is read as what it means, *)
Lemma rsnie_read_acceptable e id rest p :
  rsn_layout e -> zlen (rsn_body e) < 256 -> rsn_acceptable e = true ->
  wlan_crypto_rsnie_check (id :: zlen (rsn_body e) :: rsn_body e ++ rest) p =
    if rsn_mgmt_known e then Ret QDF_STATUS_SUCCESS (rsn_params e) else Crash.
Proof.
  intros Hok Hz Ha. pose proof (check_reads e id rest p Hok Hz) as Hr.
  unfold rsn_result in Hr. rewrite Ha, mgmt_result_known in Hr. exact Hr.
Qed.

(** and every other one is refused. *)
Lemma rsnie_check_cases id body rest p :
  bytes_ok body -> zlen body < 256 ->
  (exists e, rsn_layout e /\ body = rsn_body e /\ rsn_acceptable e = true) \/
  (exists p', wlan_crypto_rsnie_check (id :: zlen body :: body ++ rest) p = Ret QDF_STATUS_E_INVAL p').
Proof.
  intros Hb Hz. destruct (check_splits id body Hb Hz) as [(e & Hok & Heq)|Hr]; [|right; apply Hr].
  destruct (rsn_acceptable e) eqn:Ha; [left; by exists e|right].
  pose proof (check_reads e id rest p Hok) as Hr. unfold rsn_result in Hr.
  rewrite Ha, <- Heq in Hr. by apply Hr.
Qed.

(** C5: [wlan_crypto_rsnie_check], on any element, reads nothing behind its end, returns,
    and succeeds exactly on the bytes of a layout of the standard whose group cipher is
    known and whose lists have a suite that is known, with the parameters that they mean;
    it shifts by a negative number exactly when the group management cipher of such an
    element is unknown; everything else is E_INVAL. *)
Theorem rsnie_check_exact id body rest p :
  bytes_ok body -> zlen body < 256 ->
  let r := wlan_crypto_rsnie_check (id :: zlen body :: body ++ rest) p in
  (forall p', r = Ret QDF_STATUS_SUCCESS p' <->
     exists e, rsn_layout e /\ body = rsn_body e /\ rsn_acceptable e = true /\
               rsn_mgmt_known e = true /\ p' = rsn_params e) /\
  (r = Crash <->
     exists e, rsn_layout e /\ body = rsn_body e /\ rsn_acceptable e = true /\
               rsn_mgmt_known e = false) /\
  (forall st p', r = Ret st p' -> st = QDF_STATUS_SUCCESS \/ st = QDF_STATUS_E_INVAL) /\
  r <> OutOfFuel.
Proof.
  intros Hb Hz r.
  assert (forall e, rsn_layout e -> body = rsn_body e -> rsn_acceptable e = true ->
            r = if rsn_mgmt_known e then Ret QDF_STATUS_SUCCESS (rsn_params e) else Crash) as Hread
    by (intros e Hok -> Ha; by apply rsnie_read_acceptable).
  pose proof (rsnie_check_cases id body rest p Hb Hz : _ \/ exists p', r = _) as Hcases.
  assert (forall e, rsn_layout e -> body = rsn_body e -> rsn_acceptable e = true ->
            forall p', r <> Ret QDF_STATUS_E_INVAL p') as Hno.
  { intros e Hok Heq Ha p'. rewrite (Hread e Hok Heq Ha). by destruct (rsn_mgmt_known e). }
  clearbody r. split_and!.
  - intros p'. split.
    + intros ->. destruct Hcases as [(e & Hok & Heq & Ha)|[? ?]]; [|done].
      pose proof (Hread e Hok Heq Ha) as Hr. exists e.
      destruct (rsn_mgmt_known e); [|done]. by injection Hr as ->.
    + intros (e & Hok & Heq & Ha & Hk & ->). by rewrite (Hread e Hok Heq Ha), Hk.
  - split.
    + intros ->. destruct Hcases as [(e & Hok & Heq & Ha)|[? ?]]; [|done].
      pose proof (Hread e Hok Heq Ha) as Hr. exists e. by destruct (rsn_mgmt_known e).
    + intros (e & Hok & Heq & Ha & Hk). by rewrite (Hread e Hok Heq Ha), Hk.
  - intros st p' ->. destruct Hcases as [(e & Hok & Heq & Ha)|[? [= ->]]]; [left|by right].
    pose proof (Hread e Hok Heq Ha) as Hr. destruct (rsn_mgmt_known e); [|done].
    by injection Hr as ->.
  - intros ->. destruct Hcases as [(e & Hok & Heq & Ha)|[? ?]]; [|done].
    pose proof (Hread e Hok Heq Ha) as Hr. by destruct (rsn_mgmt_known e).
Qed.

Lemma rsnie_check_exact_witness :
  exists e, rsn_layout e /\ [1; 0; 0; 15; 172; 4] = rsn_body e /\ rsn_acceptable e = true /\
    rsn_mgmt_known e = true /\
    Params 64 8 8 0 0 1 (pmksa zero_params) 0 = rsn_params e.
Proof.
  apply (proj1 (rsnie_check_exact 48 [1; 0; 0; 15; 172; 4] [] zero_params
                  ltac:(repeat constructor; discriminate) eq_refl)).
  reflexivity.
Defined.

(** A group management cipher of another vendor: the shift is by -1. *)
Lemma unknown_mgmt_cipher_shifts_negative :
  wlan_crypto_rsnie_check
    ([48; 26; 1; 0; 0; 15; 172; 4; 1; 0; 0; 15; 172; 4; 1; 0; 0; 15; 172; 2; 128; 0; 0; 0] ++
     [0; 80; 242; 6]) zero_params = Crash.
Proof. reflexivity. Qed.
