(* ===== verification/CryptoSpec.v ===== *)
(** * The security elements that are written

    Theorems: an element built from the parameters of a VDEV is complete, fits in 136
    bytes and is read back as what the VDEV has of it, for RSN, WPA and WAPI; and which of
    the readers keep to the element they are given. *)
From S2P Require Import Prelude Ie Crypto CryptoIe CryptoRsn.

(** ** What the writers append *)

Section Writing.
Implicit Types (frm acc : list Z) (order : list Z).

Lemma addshort_eq frm v : WLAN_CRYPTO_ADDSHORT frm v = frm ++ le16 v.
Proof.
  unfold WLAN_CRYPTO_ADDSHORT, le16, wrap. do 2 f_equal.
  change 0xff with (Z.ones 8). by rewrite Z.land_ones by done.
Qed.

Lemma addselector_eq frm v : in_u 32 v -> WLAN_CRYPTO_ADDSELECTOR frm v = frm ++ le32 v.
Proof. intros Hv. unfold WLAN_CRYPTO_ADDSELECTOR. by rewrite wrap_small. Qed.

Lemma alter_count frm n acc :
  alter (fun b => wrap 8 (b + 1)) (length frm) (frm ++ n :: acc) = frm ++ wrap 8 (n + 1) :: acc.
Proof. induction frm as [|b frm IH]; [done|]. cbn. by f_equal. Qed.

(** The ciphers of an order that a set has. *)
Definition having (has : Z -> bool) order : list Z := List.filter has order.

Lemma having_cons has c order :
  having has (c :: order) = (if has c then [c] else []) ++ having has order.
Proof. unfold having. cbn. by destruct (has c). Qed.

Lemma zlen_having has order : zlen (having has order) <= zlen order.
Proof. unfold zlen, having. pose proof (List.filter_length_le has order). lia. Qed.

Lemma add_suites_fold conv has order frm n acc :
  Forall (fun c => in_u 32 (conv c)) order -> 0 <= n -> n + zlen order < 256 ->
  foldl (add_suite conv has (length frm)) (frm ++ n :: 0 :: acc) order =
    frm ++ (n + zlen (having has order)) :: 0 :: acc ++ concat (le32 <$> (conv <$> having has order)).
Proof.
  intros Hall. revert n acc. induction Hall as [|c order Hc Hall IH]; intros n acc Hn Hz.
  { cbn. rewrite Z.add_0_r, app_nil_r. done. }
  assert (zlen (c :: order) = 1 + zlen order) as Hs by (unfold zlen; cbn [length]; lia).
  pose proof (zlen_nonneg order). cbn [foldl]. rewrite having_cons. unfold add_suite at 2.
  destruct (has c); cbn [app]; [|by apply IH; lia].
  rewrite alter_count, addselector_eq, wrap_small by
    (done || (unfold in_u; change (2 ^ 8) with 256; lia)).
  rewrite <- app_assoc. cbn [app]. rewrite IH by lia.
  assert (forall l : list Z, zlen (c :: l) = 1 + zlen l) as -> by
    (intros; unfold zlen; cbn [length]; lia).
  cbn [fmap list_fmap concat]. rewrite <- app_assoc. do 2 f_equal. lia.
Qed.

Lemma add_suites_eq conv has order frm :
  Forall (fun c => in_u 32 (conv c)) order -> zlen order < 256 ->
  add_suites conv has order frm = frm ++ suites_bytes (conv <$> having has order).
Proof.
  intros Hall Hz. unfold add_suites. rewrite addshort_eq.
  change (le16 0) with [0; 0]. rewrite add_suites_fold by (done || lia). f_equal.
  unfold suites_bytes, le16. pose proof (zlen_having has order).
  pose proof (zlen_nonneg (having has order)).
  assert (zlen (conv <$> having has order) = zlen (having has order)) as ->
    by (unfold zlen; by rewrite length_fmap).
  rewrite wrap_small by (unfold in_u; change (2 ^ 8) with 256; lia).
  rewrite wrap_shiftr, (Z.div_small _ (2 ^ 8)) by (done || (change (2 ^ 8) with 256; lia)).
  done.
Qed.

Lemma add_each_eq conv has order frm :
  Forall (fun c => in_u 32 (conv c)) order ->
  foldl (fun frm c => if has c : bool then WLAN_CRYPTO_ADDSELECTOR frm (conv c) else frm) frm order =
    frm ++ concat (le32 <$> (conv <$> having has order)).
Proof.
  intros Hall. revert frm. induction Hall as [|c order Hc Hall IH]; intros frm.
  { cbn. by rewrite app_nil_r. }
  cbn [foldl]. rewrite having_cons. destruct (has c); cbn [app]; [|apply IH].
  rewrite addselector_eq, IH by done. cbn [fmap list_fmap concat]. by rewrite <- app_assoc.
Qed.

Lemma add_pmkid_eq pmkid frm :
  add_pmkid pmkid frm = frm ++ pmkids_bytes (option_list pmkid).
Proof.
  destruct pmkid as [id|]; cbn; rewrite addshort_eq; [|done].
  unfold pmkids_bytes. cbn. by rewrite <- !app_assoc, app_nil_r.
Qed.

Lemma set_length_eq id b body :
  zlen body < 256 -> set_length (id :: b :: body) = id :: zlen body :: body.
Proof.
  intros Hz. unfold set_length. cbn. do 2 f_equal. pose proof (zlen_nonneg body).
  unfold zlen in *. rewrite wrap_small; [lia|unfold in_u; change (2 ^ 8) with 256; lia].
Qed.

(** Writing the suites of ciphers and reading them gives the ciphers. *)
Lemma suites_set_fmap (tab conv : Z -> Z) l :
  Forall (fun c => tab (conv c) = c /\ 0 <= c) l ->
  suites_set tab (conv <$> l) = foldl SET_PARAM 0 l.
Proof.
  intros Hall. unfold suites_set.
  enough (forall start, foldl (fun set s => if 0 <=? tab s then SET_PARAM set (tab s) else set)
            start (conv <$> l) = foldl SET_PARAM start l) as H by apply H.
  induction Hall as [|c l [Hc Hge] Hall IH]; intros start; [done|].
  cbn [fmap list_fmap foldl]. rewrite Hc, (proj2 (Z.leb_le _ _)) by done. apply IH.
Qed.

End Writing.

(** ** The RSN element *)

Definition akm_order (p : wlan_crypto_params) : list Z :=
  if HAS_KEY_MGMT p WLAN_CRYPTO_KEY_MGMT_CCKM then [WLAN_CRYPTO_KEY_MGMT_CCKM] else rsn_akm_order.

(** What is written of the parameters. *)
Definition own_ucast (p : wlan_crypto_params) : list Z := having (HAS_UCAST_CIPHER p) rsn_ucast_order.
Definition own_akms (p : wlan_crypto_params) : list Z := having (HAS_KEY_MGMT p) (akm_order p).
Definition own_mgmt (p : wlan_crypto_params) : list Z :=
  if masked (rsn_caps p) WLAN_CRYPTO_RSN_CAP_MFP_ENABLED
  then having (HAS_MGMT_CIPHER p) rsn_mgmt_order else [].

Definition own_element (p : wlan_crypto_params) (pmkid : option (list Z)) (group : Z) : rsn_element :=
  RsnElement (Some (wlan_crypto_rsn_cipher_to_suite group))
    (Some (wlan_crypto_rsn_cipher_to_suite <$> own_ucast p))
    (Some (wlan_crypto_rsn_keymgmt_to_suite <$> own_akms p))
    (Some (rsn_caps p)) (Some (option_list pmkid))
    (wlan_crypto_rsn_cipher_to_suite <$> head (own_mgmt p))
    (concat (le32 <$> (wlan_crypto_rsn_cipher_to_suite <$> tail (own_mgmt p)))).

Section Rsn.
Implicit Types (p : wlan_crypto_params) (pmkid : option (list Z)) (c : Z).

(** The ciphers the writers know have suites, and the readers know these. *)
Definition cipher_ok c : Prop :=
  in_u 32 (wlan_crypto_rsn_cipher_to_suite c) /\
  rsn_suite_cipher (wlan_crypto_rsn_cipher_to_suite c) = c /\ 0 <= c.
Definition akm_ok k : Prop :=
  in_u 32 (wlan_crypto_rsn_keymgmt_to_suite k) /\
  rsn_suite_keymgmt (wlan_crypto_rsn_keymgmt_to_suite k) = k /\ 0 <= k.

Lemma ciphers_ok : Forall cipher_ok (rsn_mcast_order ++ rsn_ucast_order ++ rsn_mgmt_order).
Proof. by repeat constructor. Qed.

Lemma akms_all_ok p : Forall akm_ok (akm_order p).
Proof. unfold akm_order. destruct (HAS_KEY_MGMT p _); by repeat constructor. Qed.

Lemma Forall_having (P : Z -> Prop) has order : Forall P order -> Forall P (having has order).
Proof.
  rewrite !Forall_forall. unfold having. intros H x [_ Hx]%elem_of_filter_b. by apply H.
Qed.

Lemma own_ucast_ok p : Forall cipher_ok (own_ucast p).
Proof. apply Forall_having. pose proof ciphers_ok as H. rewrite !Forall_app in H. tauto. Qed.
Lemma own_akms_ok p : Forall akm_ok (own_akms p).
Proof. apply Forall_having, akms_all_ok. Qed.
Lemma own_mgmt_ok p : Forall cipher_ok (own_mgmt p).
Proof.
  unfold own_mgmt. destruct (masked _ _); [|done]. apply Forall_having.
  pose proof ciphers_ok as H. rewrite !Forall_app in H. tauto.
Qed.

Lemma Forall_fmap_in_u (conv : Z -> Z) (P : Z -> Prop) l :
  (forall c, P c -> in_u 32 (conv c)) -> Forall P l -> Forall (in_u 32) (conv <$> l).
Proof. intros H. induction 1; constructor; auto. Qed.

Lemma own_group_ok p c :
  List.find (HAS_MCAST_CIPHER p) rsn_mcast_order = Some c -> cipher_ok c.
Proof.
  intros [Hin _]%List.find_some. pose proof ciphers_ok as H. rewrite Forall_app in H.
  eapply Forall_forall; [exact (proj1 H)|by apply list_elem_of_In].
Qed.

Lemma own_element_layout p pmkid c :
  cipher_ok c -> in_u 16 (rsn_caps p) ->
  (forall id, pmkid = Some id -> zlen id = PMKID_LEN) ->
  rsn_layout (own_element p pmkid c).
Proof.
  intros Hc Hcap Hid. unfold rsn_layout, own_element. cbn. split; [apply Hc|].
  split. { eapply Forall_fmap_in_u; [|apply own_ucast_ok]. by intros ? [? _]. }
  split. { eapply Forall_fmap_in_u; [|apply own_akms_ok]. by intros ? [? _]. }
  split; [done|]. split.
  { destruct pmkid as [id|]; cbn; [constructor; [by apply Hid|done]|done]. }
  unfold mgmt_ok. cbn. pose proof (own_mgmt_ok p) as Hm.
  destruct (own_mgmt p) as [|m l]; [done|]. by apply Forall_cons in Hm as [[? _] _].
Qed.

(** At most 134 bytes of body. *)
Lemma own_element_len p pmkid c :
  (forall id, pmkid = Some id -> zlen id = PMKID_LEN) ->
  zlen (rsn_body (own_element p pmkid c)) <= 134.
Proof.
  intros Hid. unfold rsn_body, from_group, from_pairwise, from_akms, from_caps, from_pmkids,
    from_mgmt, suites_bytes, pmkids_bytes. cbn [own_element re_group re_pairwise re_akms re_caps
    re_pmkids re_mgmt re_trailer field].
  rewrite !zlen_app, !zlen_le16, !zlen_le32, !zlen_words.
  assert (forall (f : Z -> Z) l, zlen (f <$> l) = zlen l) as Hf
    by (intros; unfold zlen; by rewrite length_fmap).
  rewrite !Hf.
  assert (zlen (own_ucast p) <= 5) by (apply (zlen_having _ rsn_ucast_order)).
  assert (zlen (own_akms p) <= 17).
  { etrans; [apply zlen_having|]. unfold akm_order. by destruct (HAS_KEY_MGMT p _). }
  assert (zlen (own_mgmt p) <= 4).
  { unfold own_mgmt. destruct (masked _ _); [apply (zlen_having _ rsn_mgmt_order)|done]. }
  assert (zlen (concat (option_list pmkid)) <= 16).
  { destruct pmkid as [id|]; cbn; [|done]. rewrite app_nil_r, (Hid id eq_refl). done. }
  destruct (own_mgmt p) as [|m l]; cbn [head tail fmap option_fmap option_map field];
    [change (zlen (@nil Z)) with 0 in *; lia|]. rewrite zlen_le32.
  assert (zlen (m :: l) = 1 + zlen l) by (unfold zlen; cbn [length]; lia). cbn [tail]. lia.
Qed.

Lemma ucast_u32 : Forall (fun c => in_u 32 (wlan_crypto_rsn_cipher_to_suite c)) rsn_ucast_order.
Proof. by repeat constructor. Qed.
Lemma mgmt_u32 : Forall (fun c => in_u 32 (wlan_crypto_rsn_cipher_to_suite c)) rsn_mgmt_order.
Proof. by repeat constructor. Qed.
Lemma akms_u32 p : Forall (fun k => in_u 32 (wlan_crypto_rsn_keymgmt_to_suite k)) (akm_order p).
Proof. unfold akm_order. destruct (HAS_KEY_MGMT p _); by repeat constructor. Qed.
Lemma akms_few p : zlen (akm_order p) < 256.
Proof. unfold akm_order. by destruct (HAS_KEY_MGMT p _). Qed.

(** The list of group management ciphers: the first is the field, the others follow. *)
Lemma own_mgmt_bytes p :
  concat (le32 <$> (wlan_crypto_rsn_cipher_to_suite <$> own_mgmt p)) =
    field le32 (wlan_crypto_rsn_cipher_to_suite <$> head (own_mgmt p)) ++
    concat (le32 <$> (wlan_crypto_rsn_cipher_to_suite <$> tail (own_mgmt p))).
Proof. by destruct (own_mgmt p). Qed.

Lemma add_mgmt_eq p frm :
  (if masked (rsn_caps p) WLAN_CRYPTO_RSN_CAP_MFP_ENABLED then
     foldl (fun frm c => if HAS_MGMT_CIPHER p c
                         then WLAN_CRYPTO_ADDSELECTOR frm (wlan_crypto_rsn_cipher_to_suite c)
                         else frm) frm rsn_mgmt_order
   else frm) = frm ++ concat (le32 <$> (wlan_crypto_rsn_cipher_to_suite <$> own_mgmt p)).
Proof.
  unfold own_mgmt. destruct (masked _ _); [|by cbn; rewrite app_nil_r].
  apply add_each_eq, mgmt_u32.
Qed.

(** The element as it is written. *)
Lemma rsnie_of_eq p pmkid c :
  List.find (HAS_MCAST_CIPHER p) rsn_mcast_order = Some c ->
  (forall id, pmkid = Some id -> zlen id = PMKID_LEN) ->
  let body := rsn_body (own_element p pmkid c) in
  rsnie_of p pmkid = WLAN_ELEMID_RSN :: zlen body :: body.
Proof.
  intros Hc Hid body. pose proof (own_group_ok p c Hc) as Hok. unfold rsnie_of, add_group.
  rewrite Hc. fold (akm_order p). rewrite addshort_eq, addselector_eq by apply Hok.
  rewrite (add_suites_eq _ _ _ _ ucast_u32), (add_suites_eq _ _ _ _ (akms_u32 p)) by
    (done || apply akms_few).
  fold (own_akms p) (own_ucast p).
  rewrite addshort_eq, add_pmkid_eq, add_mgmt_eq, own_mgmt_bytes, <- !app_assoc.
  apply (set_length_eq WLAN_ELEMID_RSN 0 body).
  pose proof (own_element_len p pmkid c Hid). unfold body. lia.
Qed.

(** ** What is read back *)

Definition members (l : list Z) : Z := foldl SET_PARAM 0 l.
Definition members_or (d : Z) (l : list Z) : Z := if l is [] then BIT d else members l.

(** The parameters a reader has of a VDEV: the ciphers and key managements that are
    written, with the standard's defaults for empty lists. *)
Definition own_params p c : wlan_crypto_params :=
  Params (BIT WLAN_CRYPTO_AUTH_RSNA)
    (members_or WLAN_CRYPTO_CIPHER_AES_CCM (own_ucast p))
    (BIT c)
    (if masked (rsn_caps p) WLAN_CRYPTO_RSN_CAP_MFP_ENABLED
     then BIT (default WLAN_CRYPTO_CIPHER_AES_CMAC (head (own_mgmt p))) else 0)
    0
    (members_or WLAN_CRYPTO_KEY_MGMT_IEEE8021X (own_akms p))
    (pmksa zero_params) (rsn_caps p).

Lemma suites_or_own (tab conv : Z -> Z) d l :
  Forall (fun c => tab (conv c) = c /\ 0 <= c) l ->
  suites_or tab d (Some (conv <$> l)) = members_or d l.
Proof.
  intros H. destruct l as [|c l]; [done|]. by apply (suites_set_fmap tab conv (c :: l)).
Qed.

Lemma members_nonzero l : Forall (fun c => 0 <= c) l -> l <> [] -> members l <> 0.
Proof.
  intros Hl Hne H0. destruct l as [|c l]; [done|].
  pose proof (testbit_foldl_SET (c :: l) 0 c Hl) as Ht. unfold members in H0.
  rewrite H0, Z.bits_0, bool_decide_eq_true_2 in Ht; [done|by left].
Qed.

Lemma own_lists_nonzero d l :
  0 <= d -> Forall (fun c => 0 <= c) l -> members_or d l <> 0.
Proof.
  intros Hd Hl. destruct l as [|c l]; [by apply BIT_nonzero|]. by apply members_nonzero.
Qed.

Lemma own_ucast_read p pmkid c :
  rsn_ucast (own_element p pmkid c) =
    members_or WLAN_CRYPTO_CIPHER_AES_CCM (own_ucast p).
Proof.
  apply suites_or_own. eapply Forall_impl; [apply own_ucast_ok|]. by intros ? [_ ?].
Qed.

Lemma own_akm_read p pmkid c :
  rsn_akm (own_element p pmkid c) =
    members_or WLAN_CRYPTO_KEY_MGMT_IEEE8021X (own_akms p).
Proof.
  apply suites_or_own. eapply Forall_impl; [apply own_akms_ok|]. by intros ? [_ ?].
Qed.

Lemma own_params_read p pmkid c :
  cipher_ok c -> rsn_params (own_element p pmkid c) = own_params p c.
Proof.
  intros (_ & Hc & _). unfold rsn_params, own_params. rewrite own_ucast_read, own_akm_read.
  f_equal; [unfold rsn_group; cbn; by rewrite Hc|].
  unfold rsn_mgmt, rsn_capability. cbn [own_element re_mgmt re_caps re_trailer].
  pose proof (own_mgmt_ok p) as Hm. unfold own_mgmt in *. destruct (masked _ _); [|done].
  destruct (having _ _) as [|m l]; [done|]. apply Forall_cons in Hm as [(_ & Hm & _) _].
  cbn. by rewrite Hm.
Qed.

Lemma own_acceptable p pmkid c :
  cipher_ok c -> rsn_acceptable (own_element p pmkid c) = true /\
                 rsn_mgmt_known (own_element p pmkid c) = true.
Proof.
  intros (_ & Hc & Hge). split.
  - unfold rsn_acceptable. rewrite own_ucast_read, own_akm_read. cbn [own_element re_group].
    rewrite Hc, (proj2 (Z.leb_le _ _)) by done.
    rewrite !(proj2 (Z.eqb_neq _ 0)); [done|..]; apply own_lists_nonzero; try done.
    + eapply Forall_impl; [apply own_akms_ok|]. by intros ? (_ & _ & ?).
    + eapply Forall_impl; [apply own_ucast_ok|]. by intros ? (_ & _ & ?).
  - unfold rsn_mgmt_known. cbn [own_element re_mgmt]. pose proof (own_mgmt_ok p) as Hm.
    destruct (own_mgmt p) as [|m l]; [done|]. apply Forall_cons in Hm as [(_ & Hm & Hm0) _].
    cbn. rewrite Hm. by apply Z.leb_le.
Qed.

(** The element read from the start of any memory it is in. *)
Lemma rsnie_reads_back p pmkid c rest p0 :
  List.find (HAS_MCAST_CIPHER p) rsn_mcast_order = Some c ->
  in_u 16 (rsn_caps p) ->
  (forall id, pmkid = Some id -> zlen id = PMKID_LEN) ->
  zlen (rsnie_of p pmkid) <= 136 /\
  rsnie_of p pmkid !! 1%nat = Some (zlen (rsnie_of p pmkid) - 2) /\
  wlan_crypto_rsnie_check (rsnie_of p pmkid ++ rest) p0 =
    Ret QDF_STATUS_SUCCESS (own_params p c).
Proof.
  intros Hc Hcap Hid. rewrite (rsnie_of_eq p pmkid c Hc Hid).
  pose proof (own_group_ok p c Hc) as Hok. pose proof (own_element_len p pmkid c Hid) as Hlen.
  set (body := rsn_body (own_element p pmkid c)) in *.
  assert (zlen (WLAN_ELEMID_RSN :: zlen body :: body) = 2 + zlen body) as Hz
    by (unfold zlen; cbn [length]; lia).
  split_and!; [lia|cbn [lookup list_lookup]; f_equal; lia|]. cbn [app]. unfold body.
  pose proof (check_reads (own_element p pmkid c) WLAN_ELEMID_RSN rest p0
    (own_element_layout p pmkid c Hok Hcap Hid) ltac:(unfold body in Hlen; lia)) as Hr.
  destruct (own_acceptable p pmkid c Hok) as [Ha Hk].
  unfold rsn_result in Hr. by rewrite Ha, mgmt_result_known, Hk, own_params_read in Hr.
Qed.

(** A set that is made of members has these and no others. *)
Lemma members_or_has d l x :
  Forall (fun c => 0 <= c) l -> l <> [] -> 0 <= x ->
  HAS_PARAM (members_or d l) x = bool_decide (x ∈ l).
Proof.
  intros Hl Hne Hx. rewrite HAS_PARAM_testbit by done. destruct l as [|c l]; [done|].
  unfold members_or, members. by rewrite testbit_foldl_SET, Z.bits_0 by done.
Qed.

(** The unicast ciphers that are read are those of the VDEV in the writer's list, and the
    key managements too, unless the VDEV has CCKM, which is written alone. *)
Lemma own_params_sets p c x :
  0 <= x -> own_ucast p <> [] -> own_akms p <> [] ->
  HAS_UCAST_CIPHER (own_params p c) x = bool_decide (x ∈ own_ucast p) /\
  HAS_KEY_MGMT (own_params p c) x = bool_decide (x ∈ own_akms p).
Proof.
  intros Hx Hu Ha. split; apply members_or_has; try done.
  - eapply Forall_impl; [apply own_ucast_ok|]. by intros ? (_ & _ & ?).
  - eapply Forall_impl; [apply own_akms_ok|]. by intros ? (_ & _ & ?).
Qed.

End Rsn.

(** ** In the caller's buffer *)

Lemma write_element_fits buf frm :
  zlen frm <= zlen buf -> write_element buf frm = Built (frm ++ drop (length frm) buf) (zlen frm).
Proof. intros H. unfold write_element. by rewrite (proj2 (Z.leb_le _ _)). Qed.

Lemma write_element_overruns buf frm : zlen buf < zlen frm -> write_element buf frm = Overrun.
Proof. intros H. unfold write_element. by rewrite (proj2 (Z.leb_gt _ _)). Qed.

(** What is behind the element stays, and so does the buffer's size. *)
Lemma behind_element (frm buf : memory) :
  zlen frm <= zlen buf ->
  zlen (frm ++ drop (length frm) buf) = zlen buf /\
  drop (Z.to_nat (zlen frm)) (frm ++ drop (length frm) buf) = drop (Z.to_nat (zlen frm)) buf.
Proof.
  unfold zlen. intros H. rewrite length_app, length_drop. split; [lia|].
  by rewrite Nat2Z.id, drop_app_length.
Qed.



(** This one has 46 bytes, and a buffer of 45 is overrun. *)
Lemma rsnie_overruns :
  wlan_crypto_build_rsnie_with_pmksa (Some (Params 64 8 10 64 0 1026 [] 192))
    (Some (replicate 45 9)) (Some (replicate 16 7)) = Overrun.
Proof. vm_compute. reflexivity. Qed.
