(* ===== verification/CryptoWpa.v ===== *)
(** * The WPA and WAPI elements

    The layout of the WPA element and what the driver takes from it.  Theorems:
    [wlan_crypto_wpaie_check] accepts exactly the elements of that layout whose suites it
    knows, and reads nothing behind them; what is written for a VDEV with WPA or WAPI is
    read back; and [wlan_crypto_wapiie_check] may read two bytes behind an element. *)
From S2P Require Import Prelude Ie Crypto CryptoIe CryptoRsn CryptoSpec.

(** ** Lists of suites that must all be known *)

Section Strict.
Implicit Types (q rest : list Z) (p : wlan_crypto_params).

Definition all_known (tab : Z -> Z) (l : list Z) : bool := forallb (fun s => 0 <=? tab s) l.

Lemma strict_eq conv SET (tab : Z -> Z) l q rest p :
  (forall s q p, in_u 32 s -> conv (le32 s ++ q) p = Ret (tab s) p) ->
  Forall (in_u 32) l -> zlen (concat (le32 <$> l) ++ q) < 256 ->
  exists p',
    strict_suites conv SET (length l) (concat (le32 <$> l) ++ q ++ rest)
        (zlen (concat (le32 <$> l) ++ q)) p =
      Ret (if all_known tab l then Some (q ++ rest, zlen q) else None) p' /\
    (all_known tab l = true -> p' = foldl (fun p s => SET (tab s) p) p l).
Proof.
  intros Hconv Hl. revert p. induction Hl as [|s l Hs Hl IH]; intros p Hz; [by exists p|].
  unfold all_known. cbn [fmap list_fmap concat length strict_suites foldl forallb] in *.
  rewrite <- !app_assoc in *. rewrite (bind_ret _ _ _ _ _ (Hconv s _ p Hs)).
  rewrite Z.ltb_antisym. destruct (0 <=? tab s); cbn [negb andb]; [|by exists p].
  rewrite bind_modify, less_app, skip_zlen by done. rewrite zlen_app, zlen_le32 in Hz.
  apply IH. lia.
Qed.

(** A count and its suites, when the length that is compared leaves [extra] bytes. *)
Lemma split_counted extra body :
  0 <= extra ->
  bytes_ok body -> zlen body < 256 -> 2 <= zlen body ->
  (exists l q, body = suites_bytes l ++ q /\ Forall (in_u 32) l /\ bytes_ok q /\ extra <= zlen q) \/
  (exists n q, body = le16 n ++ q /\ in_u 16 n /\ zlen q < n * 4 + extra).
Proof.
  intros He Hb Hz Hl. destruct (split_le16 body Hb Hl) as (n & q & -> & Hn & Hq).
  destruct (decide (n * 4 + extra <= zlen q)) as [Hfit|Hfit]; [left|right].
  2:{ exists n, q. split_and!; (done || lia). }
  unfold in_u in Hn. destruct (decide (n * 4 <= zlen q)) as [H4|H4].
  - destruct (split_words (Z.to_nat n) q) as (l & q' & -> & Hlen & Hw & Hq'); [done|lia|].
    assert (zlen l = n) as Hzl by (unfold zlen; lia).
    rewrite zlen_app, zlen_words, Hzl in Hfit.
    exists l, q'. unfold suites_bytes. rewrite <- app_assoc, Hzl. split_and!; (done || lia).
  - exfalso. lia.
Qed.

(** The ciphers of a list, added to a set. *)
Definition known_set (tab : Z -> Z) (start : Z) (l : list Z) : Z :=
  foldl SET_PARAM start (tab <$> l).

Lemma fold_known (fld : wlan_crypto_params -> Z) upd (tab : Z -> Z) l p :
  (forall v p, fld (upd v p) = v) -> (forall v v' p, upd v (upd v' p) = upd v p) ->
  (forall p, upd (fld p) p = p) ->
  foldl (fun p s => upd (SET_PARAM (fld p) (tab s)) p) p l = upd (known_set tab (fld p) l) p.
Proof.
  intros H1 H2 H3. unfold known_set. revert p. induction l as [|s l IH]; intros p; cbn.
  - by rewrite H3.
  - by rewrite IH, H1, H2.
Qed.

Lemma known_set_nonzero tab l :
  all_known tab l = true -> known_set tab (BIT WLAN_CRYPTO_CIPHER_NONE) l <> 0.
Proof.
  intros Hk H0. unfold known_set in H0.
  pose proof (testbit_foldl_SET (tab <$> l) (BIT WLAN_CRYPTO_CIPHER_NONE) WLAN_CRYPTO_CIPHER_NONE) as Ht.
  rewrite H0, Z.bits_0 in Ht. discriminate Ht.
  apply Forall_fmap, Forall_forall. intros s Hs. apply Z.leb_le.
  by apply (proj1 (forallb_forall _ _) Hk), list_elem_of_In.
Qed.

End Strict.

(** ** The WPA element *)

Record wpa_element : Type := WpaElement {
  we_oui : list Z;
  we_group : Z;
  we_pairwise : list Z;
  we_akms : list Z;
  we_caps : option Z;
  we_trailer : list Z;
}.

Section Wpa.
Implicit Types (e : wpa_element) (p : wlan_crypto_params) (rest : list Z).

Definition wpa_from_caps e : list Z := field le16 (we_caps e) ++ we_trailer e.
Definition wpa_from_akms e : list Z := suites_bytes (we_akms e) ++ wpa_from_caps e.
Definition wpa_from_pairwise e : list Z := suites_bytes (we_pairwise e) ++ wpa_from_akms e.
Definition wpa_body e : list Z :=
  we_oui e ++ le16 WPA_VERSION ++ le32 (we_group e) ++ wpa_from_pairwise e.

(** Only the length of the OUI matters: the caller found the element by it. *)
Definition wpa_layout e : Prop :=
  zlen (we_oui e) = 4 /\ in_u 32 (we_group e) /\ Forall (in_u 32) (we_pairwise e) /\
  Forall (in_u 32) (we_akms e) /\
  match we_caps e with Some c => in_u 16 c | None => zlen (we_trailer e) < 2 end.

Definition wpa_acceptable e : bool :=
  (0 <=? wpa_suite_cipher (we_group e)) && all_known wpa_suite_cipher (we_pairwise e) &&
  all_known wpa_suite_keymgmt (we_akms e).

(** The bits for open authentication, no cipher and no key management are always set. *)
Definition wpa_params e p : wlan_crypto_params :=
  Params (SET_PARAM (BIT WLAN_CRYPTO_AUTH_OPEN) WLAN_CRYPTO_AUTH_WPA)
    (known_set wpa_suite_cipher (BIT WLAN_CRYPTO_CIPHER_NONE) (we_pairwise e))
    (SET_PARAM (BIT WLAN_CRYPTO_CIPHER_NONE) (wpa_suite_cipher (we_group e)))
    (mgmtcipherset p) (cipher_caps p)
    (known_set wpa_suite_keymgmt (BIT WLAN_CRYPTO_KEY_MGMT_NONE) (we_akms e))
    (pmksa p) (match we_caps e with Some c => c | None => rsn_caps p end).

Lemma conv_wpa_cipher s q p :
  in_u 32 s -> wlan_crypto_wpa_suite_to_cipher (le32 s ++ q) p = Ret (wpa_suite_cipher s) p.
Proof.
  intros Hs. unfold wlan_crypto_wpa_suite_to_cipher.
  by rewrite (bind_ret _ _ _ _ _ (read_le32 s q p Hs)).
Qed.

Lemma conv_wpa_keymgmt s q p :
  in_u 32 s -> wlan_crypto_wpa_suite_to_keymgmt (le32 s ++ q) p = Ret (wpa_suite_keymgmt s) p.
Proof.
  intros Hs. unfold wlan_crypto_wpa_suite_to_keymgmt.
  by rewrite (bind_ret _ _ _ _ _ (read_le32 s q p Hs)).
Qed.

(** A stage that reads a count and a list, on a list that fits. *)
Lemma count_read l q rest p :
  Forall (in_u 32) l -> zlen (suites_bytes l ++ q) < 256 ->
  LE_READ_2 ((suites_bytes l ++ q) ++ rest) p = Ret (zlen l) p /\
  skip 2 ((suites_bytes l ++ q) ++ rest) = concat (le32 <$> l) ++ q ++ rest /\
  less (zlen (suites_bytes l ++ q)) 2 = zlen (concat (le32 <$> l) ++ q) /\
  zlen (concat (le32 <$> l) ++ q) = zlen l * 4 + zlen q /\
  zlen (concat (le32 <$> l) ++ q) < 256 /\ Z.to_nat (zlen l) = length l.
Proof.
  intros Hw Hl. destruct (suites_small _ _ Hl Hw) as [Hn Hz].
  unfold suites_bytes in *. rewrite <- !app_assoc in *.
  rewrite less_app, skip_zlen by done. split_and!; try done.
  - by apply read_le16.
  - by rewrite zlen_app, zlen_words.
  - by unfold zlen; rewrite Nat2Z.id.
Qed.

Lemma read_wpa_akms e rest p :
  wpa_layout e -> zlen (wpa_from_akms e) < 256 ->
  exists p', wpa_key_mgmts (wpa_from_akms e ++ rest) (zlen (wpa_from_akms e)) p =
    Ret (if all_known wpa_suite_keymgmt (we_akms e) then QDF_STATUS_SUCCESS
         else QDF_STATUS_E_INVAL) p' /\
    (all_known wpa_suite_keymgmt (we_akms e) = true ->
     p' = set_rsncaps (match we_caps e with Some c => c | None => rsn_caps p end)
            (set_keymgmt (known_set wpa_suite_keymgmt (BIT WLAN_CRYPTO_KEY_MGMT_NONE) (we_akms e)) p)).
Proof.
  intros (_ & _ & _ & Hw & Hc) Hl. unfold wpa_key_mgmts, wpa_from_akms in *.
  destruct (count_read (we_akms e) (wpa_from_caps e) rest p Hw Hl)
    as (Hread & Hskip & Hless & Hzq & Hz & Hnat).
  rewrite (bind_ret _ _ _ _ _ Hread). cbn beta zeta. rewrite Hskip, Hless, Hnat. pose proof (zlen_nonneg (wpa_from_caps e)).
  rewrite (proj2 (Z.ltb_ge _ _)) by lia. rewrite bind_modify.
  destruct (strict_eq _ SET_KEY_MGMT wpa_suite_keymgmt (we_akms e) (wpa_from_caps e) rest
    (RESET_KEY_MGMT p) conv_wpa_keymgmt Hw Hz) as (p' & Heq & Hp').
  rewrite (bind_ret _ _ _ _ _ Heq). destruct (all_known _ _); [|by eexists].
  specialize (Hp' eq_refl).
  unfold SET_KEY_MGMT in Hp'. rewrite (fold_known key_mgmt set_keymgmt) in Hp' by (done || by intros []).
  unfold wpa_from_caps in *. destruct (we_caps e) as [c|]; cbn [field].
  - rewrite (proj2 (Z.leb_le _ _)) by
      (rewrite zlen_app, zlen_le16; pose proof (zlen_nonneg (we_trailer e)); lia).
    rewrite <- app_assoc, (bind_ret _ _ _ _ _ (read_le16 c _ _ Hc)), bind_modify.
    eexists. split; [done|]. intros _. by rewrite Hp'.
  - cbn [app]. rewrite (proj2 (Z.leb_gt _ _)) by done. eexists. split; [done|]. intros _.
    rewrite Hp'. by destruct p.
Qed.

Lemma read_wpa_ucast e rest p :
  wpa_layout e -> zlen (wpa_from_pairwise e) < 256 ->
  exists p', wpa_ucast_ciphers (wpa_from_pairwise e ++ rest) (zlen (wpa_from_pairwise e)) p =
    Ret (if all_known wpa_suite_cipher (we_pairwise e) && all_known wpa_suite_keymgmt (we_akms e)
         then QDF_STATUS_SUCCESS else QDF_STATUS_E_INVAL) p' /\
    (all_known wpa_suite_cipher (we_pairwise e) && all_known wpa_suite_keymgmt (we_akms e) = true ->
     p' = set_rsncaps (match we_caps e with Some c => c | None => rsn_caps p end)
            (set_keymgmt (known_set wpa_suite_keymgmt (BIT WLAN_CRYPTO_KEY_MGMT_NONE) (we_akms e))
               (set_ucast (known_set wpa_suite_cipher (BIT WLAN_CRYPTO_CIPHER_NONE) (we_pairwise e)) p))).
Proof.
  intros Hok Hl. pose proof Hok as (_ & _ & Hw & _). unfold wpa_ucast_ciphers, wpa_from_pairwise in *.
  destruct (count_read (we_pairwise e) (wpa_from_akms e) rest p Hw Hl)
    as (Hread & Hskip & Hless & Hzq & Hz & Hnat).
  rewrite (bind_ret _ _ _ _ _ Hread). cbn beta zeta. rewrite Hskip, Hless, Hnat.
  assert (2 <= zlen (wpa_from_akms e)) as H2.
  { unfold wpa_from_akms, suites_bytes. rewrite <- app_assoc, zlen_app, zlen_le16.
    pose proof (zlen_nonneg (concat (le32 <$> we_akms e) ++ wpa_from_caps e)). lia. }
  rewrite (proj2 (Z.ltb_ge _ _)) by lia. rewrite bind_modify.
  destruct (strict_eq _ SET_UCAST_CIPHER wpa_suite_cipher (we_pairwise e) (wpa_from_akms e) rest
    (RESET_UCAST_CIPHERS p) conv_wpa_cipher Hw Hz) as (p' & Heq & Hp').
  rewrite (bind_ret _ _ _ _ _ Heq).
  destruct (all_known wpa_suite_cipher _) eqn:Hk; [|by eexists]. specialize (Hp' eq_refl).
  unfold SET_UCAST_CIPHER in Hp'. rewrite (fold_known ucastcipherset set_ucast) in Hp' by (done || by intros []).
  rewrite bind_gets, Hp'. cbn [ucastcipherset set_ucast RESET_UCAST_CIPHERS andb].
  rewrite (proj2 (Z.eqb_neq _ 0)) by by apply known_set_nonzero.
  rewrite zlen_app, Hzq in *. pose proof (zlen_nonneg (we_pairwise e)).
  destruct (read_wpa_akms e rest (set_ucast (known_set wpa_suite_cipher
    (BIT WLAN_CRYPTO_CIPHER_NONE) (we_pairwise e)) p) Hok ltac:(lia)) as (p2 & Heq2 & Hp2).
  exists p2. split; [exact Heq2|exact Hp2].
Qed.

Lemma read_wpa e id rest p :
  wpa_layout e -> zlen (wpa_body e) < 256 ->
  exists p', wlan_crypto_wpaie_check (id :: zlen (wpa_body e) :: wpa_body e ++ rest) p =
    Ret (if wpa_acceptable e then QDF_STATUS_SUCCESS else QDF_STATUS_E_INVAL) p' /\
    (wpa_acceptable e = true -> p' = wpa_params e p).
Proof.
  intros Hok Hl. pose proof Hok as (Ho & Hg & _). unfold wlan_crypto_wpaie_check, rd.
  cbn [lookup list_lookup]. rewrite (bind_deref (Some _) _ _ p eq_refl), !bind_modify.
  unfold wpa_acceptable, wpa_body in *.
  assert (4 <= zlen (wpa_from_pairwise e)) as H4.
  { unfold wpa_from_pairwise, wpa_from_akms, suites_bytes.
    rewrite !zlen_app, !zlen_le16, !zlen_words. pose proof (zlen_nonneg (we_pairwise e)).
    pose proof (zlen_nonneg (we_akms e)). pose proof (zlen_nonneg (wpa_from_caps e)). lia. }
  rewrite (proj2 (Z.ltb_ge _ 14)) by (rewrite !zlen_app, Ho, zlen_le16, zlen_le32; lia).
  cbn zeta. rewrite less_app by done.
  assert (skip 6 (id :: zlen (we_oui e ++ le16 WPA_VERSION ++ le32 (we_group e) ++ wpa_from_pairwise e)
            :: (we_oui e ++ le16 WPA_VERSION ++ le32 (we_group e) ++ wpa_from_pairwise e) ++ rest) =
          (le16 WPA_VERSION ++ le32 (we_group e) ++ wpa_from_pairwise e) ++ rest) as ->.
  { change (skip 6 (?a :: ?b :: ?q)) with (skip 4 q). rewrite <- app_assoc. by apply skip_zlen. }
  rewrite zlen_app, Ho in Hl. rewrite <- app_assoc.
  rewrite (bind_ret _ _ _ _ _ (read_le16 WPA_VERSION _ _ ltac:(done))).
  change (negb (WPA_VERSION =? WPA_VERSION)) with false. cbn iota.
  rewrite less_app, skip_zlen by (done || lia). rewrite bind_modify.
  rewrite zlen_app, zlen_le16 in Hl. rewrite <- app_assoc.
  rewrite (bind_ret _ _ _ _ _ (conv_wpa_cipher _ _ _ Hg)), Z.ltb_antisym.
  destruct (0 <=? wpa_suite_cipher (we_group e)); cbn [negb andb]; [|by eexists].
  rewrite bind_modify, less_app, skip_zlen by (done || lia).
  rewrite zlen_app, zlen_le32 in Hl.
  destruct (read_wpa_ucast e rest (SET_MCAST_CIPHER (wpa_suite_cipher (we_group e))
    (RESET_MCAST_CIPHERS (SET_AUTHMODE WLAN_CRYPTO_AUTH_WPA (RESET_AUTHMODE p)))) Hok ltac:(lia))
    as (p' & Heq & Hp').
  exists p'. split; [exact Heq|]. intros Hk. by rewrite (Hp' Hk).
Qed.

(** *** Any bytes *)

(** A stage whose list does not fit. *)
Lemma count_short n q rest p :
  in_u 16 n -> zlen (le16 n ++ q) < 256 ->
  LE_READ_2 ((le16 n ++ q) ++ rest) p = Ret n p /\ less (zlen (le16 n ++ q)) 2 = zlen q.
Proof.
  intros Hn Hz. rewrite <- app_assoc, less_app by done. split; [by apply read_le16|done].
Qed.

Lemma split_wpa_akms body :
  bytes_ok body -> zlen body < 256 -> 2 <= zlen body ->
  (exists l c tr, body = suites_bytes l ++ field le16 c ++ tr /\ Forall (in_u 32) l /\
     match c with Some c => in_u 16 c | None => zlen tr < 2 end) \/
  (forall rest p, exists p', wpa_key_mgmts (body ++ rest) (zlen body) p = Ret QDF_STATUS_E_INVAL p').
Proof.
  intros Hb Hz Hl.
  destruct (split_counted 0 body ltac:(done) Hb Hz Hl)
    as [(l & q & -> & Hw & Hq & _)|(n & q & -> & Hn & Hlt)].
  - left. destruct (decide (2 <= zlen q)) as [H2|H2].
    + destruct (split_le16 q Hq H2) as (c & tr & -> & Hc & _). by exists l, (Some c), tr.
    + exists l, None, q. split_and!; [done..|lia].
  - right. intros rest p. destruct (count_short n q rest p Hn Hz) as [Hread Hless].
    unfold wpa_key_mgmts. rewrite (bind_ret _ _ _ _ _ Hread). cbn beta zeta.
    rewrite Hless, (proj2 (Z.ltb_lt _ _)) by lia. by eexists.
Qed.

Lemma split_wpa_ucast body :
  bytes_ok body -> zlen body < 256 -> 2 <= zlen body ->
  (exists l q, body = suites_bytes l ++ q /\ Forall (in_u 32) l /\ bytes_ok q /\ 2 <= zlen q) \/
  (forall rest p, exists p', wpa_ucast_ciphers (body ++ rest) (zlen body) p = Ret QDF_STATUS_E_INVAL p').
Proof.
  intros Hb Hz Hl.
  destruct (split_counted 2 body ltac:(done) Hb Hz Hl)
    as [(l & q & -> & Hw & Hq & H2)|(n & q & -> & Hn & Hlt)].
  - left. by exists l, q.
  - right. intros rest p. destruct (count_short n q rest p Hn Hz) as [Hread Hless].
    unfold wpa_ucast_ciphers. rewrite (bind_ret _ _ _ _ _ Hread). cbn beta zeta.
    rewrite Hless, (proj2 (Z.ltb_lt _ _)) by lia. by eexists.
Qed.

(** The reader of the unicast ciphers rejects what the reader of the key managements
    rejects. *)
Lemma wpa_ucast_rejects l q rest p :
  Forall (in_u 32) l -> zlen (suites_bytes l ++ q) < 256 -> 2 <= zlen q ->
  (forall p, exists p', wpa_key_mgmts (q ++ rest) (zlen q) p = Ret QDF_STATUS_E_INVAL p') ->
  exists p', wpa_ucast_ciphers ((suites_bytes l ++ q) ++ rest) (zlen (suites_bytes l ++ q)) p =
             Ret QDF_STATUS_E_INVAL p'.
Proof.
  intros Hw Hl H2 Hrej. destruct (count_read l q rest p Hw Hl)
    as (Hread & Hskip & Hless & Hzq & Hz & Hnat).
  unfold wpa_ucast_ciphers. rewrite (bind_ret _ _ _ _ _ Hread). cbn beta zeta.
  rewrite Hskip, Hless, Hnat, (proj2 (Z.ltb_ge _ _)) by lia. rewrite bind_modify.
  destruct (strict_eq _ SET_UCAST_CIPHER wpa_suite_cipher l q rest
    (RESET_UCAST_CIPHERS p) conv_wpa_cipher Hw Hz) as (p' & Heq & _).
  rewrite (bind_ret _ _ _ _ _ Heq). destruct (all_known _ _); [|by eexists].
  rewrite bind_gets. destruct (_ =? 0); [by eexists|apply Hrej].
Qed.

Lemma split_wpa id body :
  bytes_ok body -> zlen body < 256 ->
  (exists e, wpa_layout e /\ body = wpa_body e) \/
  (forall rest p, exists p', wlan_crypto_wpaie_check (id :: zlen body :: body ++ rest) p =
                             Ret QDF_STATUS_E_INVAL p').
Proof.
  intros Hb Hz. destruct (decide (14 <= zlen body)) as [Hl|Hl].
  2:{ right. intros rest p. unfold wlan_crypto_wpaie_check, rd. cbn [lookup list_lookup].
      rewrite (bind_deref (Some _) _ _ p eq_refl), !bind_modify, (proj2 (Z.ltb_lt _ 14)) by lia.
      by eexists. }
  destruct (split_le32 body Hb ltac:(lia)) as (o & q & -> & _ & Hq).
  rewrite zlen_app, zlen_le32 in Hz, Hl.
  destruct (split_le16 q Hq ltac:(lia)) as (v & q2 & -> & Hv & Hq2).
  rewrite zlen_app, zlen_le16 in Hz, Hl.
  destruct (split_le32 q2 Hq2 ltac:(lia)) as (g & q3 & -> & Hg & Hq3).
  rewrite zlen_app, zlen_le32 in Hz, Hl.
  assert (forall rest p, exists p0,
    wlan_crypto_wpaie_check (id :: zlen (le32 o ++ le16 v ++ le32 g ++ q3) ::
                             (le32 o ++ le16 v ++ le32 g ++ q3) ++ rest) p =
    (if negb (v =? WPA_VERSION) then mret QDF_STATUS_E_INVAL
     else if wpa_suite_cipher g <? 0 then mret QDF_STATUS_E_INVAL
     else wpa_ucast_ciphers (q3 ++ rest) (zlen q3)) p0) as Heq.
  { intros rest p. unfold wlan_crypto_wpaie_check, rd. cbn [lookup list_lookup].
    rewrite (bind_deref (Some _) _ _ p eq_refl), !bind_modify.
    rewrite (proj2 (Z.ltb_ge _ 14)) by (rewrite !zlen_app, !zlen_le32, zlen_le16; lia).
    cbn zeta. rewrite less_app by (done || (rewrite !zlen_app, !zlen_le32, zlen_le16; lia)).
    change (skip 6 (?a :: ?b :: ?q)) with (skip 4 q).
    rewrite <- app_assoc, (skip_zlen 4 (le32 o)), <- app_assoc by done.
    rewrite (bind_ret _ _ _ _ _ (read_le16 v _ _ Hv)).
    destruct (v =? WPA_VERSION); [|by eexists]. cbn [negb].
    rewrite less_app, skip_zlen by (done || (rewrite !zlen_app, zlen_le32, zlen_le16; lia)).
    rewrite bind_modify, <- app_assoc, (bind_ret _ _ _ _ _ (conv_wpa_cipher g _ _ Hg)).
    destruct (wpa_suite_cipher g <? 0); [by eexists|].
    rewrite bind_modify, less_app, skip_zlen by (done || (rewrite !zlen_app, zlen_le32; lia)).
    by eexists. }
  destruct (Z.eqb_spec v WPA_VERSION) as [->|Hne].
  2:{ right. intros rest p. destruct (Heq rest p) as (p0 & ->). by eexists. }
  assert (forall stage : Prop, stage \/ (forall rest p, exists p',
    wpa_ucast_ciphers (q3 ++ rest) (zlen q3) p = Ret QDF_STATUS_E_INVAL p') ->
    stage \/ forall rest p, exists p', wlan_crypto_wpaie_check (id ::
      zlen (le32 o ++ le16 WPA_VERSION ++ le32 g ++ q3) ::
      (le32 o ++ le16 WPA_VERSION ++ le32 g ++ q3) ++ rest) p = Ret QDF_STATUS_E_INVAL p') as Hlift.
  { intros stage [?|Hr]; [by left|right]. intros rest p. destruct (Heq rest p) as (p0 & ->).
    cbn [negb]. destruct (_ <? 0); [by eexists|apply Hr]. }
  apply Hlift. destruct (split_wpa_ucast q3 Hq3 ltac:(lia) ltac:(lia))
    as [(l & q & -> & Hw & Hq' & H2)|Hr]; [|by right].
  rewrite zlen_app in Hz. pose proof (zlen_nonneg (suites_bytes l)).
  destruct (split_wpa_akms q Hq' ltac:(lia) H2) as [(l' & c & tr & -> & Hw' & Hc)|Hr].
  - left. by exists (WpaElement (le32 o) g l l' c tr).
  - right. intros rest p. apply wpa_ucast_rejects; [done|rewrite zlen_app; lia|done|].
    intros p'. apply Hr.
Qed.

End Wpa.

(** C33: [wlan_crypto_wpaie_check], on any element, reads nothing behind its end, returns,
    and succeeds exactly on the bytes of a WPA layout all of whose suites are known, with
    the parameters they mean; everything else is E_INVAL. *)
Theorem wpaie_check_exact id body rest p :
  bytes_ok body -> zlen body < 256 ->
  exists st p',
    wlan_crypto_wpaie_check (id :: zlen body :: body ++ rest) p = Ret st p' /\
    (st = QDF_STATUS_SUCCESS /\
       (exists e, wpa_layout e /\ body = wpa_body e /\ wpa_acceptable e = true /\
                  p' = wpa_params e p) \/
     st = QDF_STATUS_E_INVAL /\
       ~ (exists e, wpa_layout e /\ body = wpa_body e /\ wpa_acceptable e = true)).
Proof.
  intros Hb Hz.
  assert (forall e, wpa_layout e -> body = wpa_body e -> exists p',
    wlan_crypto_wpaie_check (id :: zlen body :: body ++ rest) p =
      Ret (if wpa_acceptable e then QDF_STATUS_SUCCESS else QDF_STATUS_E_INVAL) p' /\
    (wpa_acceptable e = true -> p' = wpa_params e p)) as Hread.
  { intros e Hok ->. by apply read_wpa. }
  destruct (split_wpa id body Hb Hz) as [(e & Hok & Heq)|Hr].
  - destruct (Hread e Hok Heq) as (p' & Hr & Hp'). eexists _, p'. split; [exact Hr|].
    destruct (wpa_acceptable e) eqn:Ha; [left|right]; (split; [done|]).
    + exists e. auto.
    + intros (e' & Hok' & Heq' & Ha'). destruct (Hread e' Hok' Heq') as (p2 & Hr2 & _).
      rewrite Ha', Hr in Hr2. discriminate.
  - destruct (Hr rest p) as (p' & Hr'). eexists _, p'. split; [exact Hr'|]. right.
    split; [done|]. intros (e & Hok & Heq & Ha). destruct (Hread e Hok Heq) as (p2 & Hr2 & _).
    rewrite Ha, Hr' in Hr2. discriminate.
Qed.

Lemma wpaie_check_exact_witness :
  exists st p',
    wlan_crypto_wpaie_check
      (221 :: zlen [0; 80; 242; 1; 1; 0; 0; 80; 242; 2; 0; 0; 0; 0] ::
       [0; 80; 242; 1; 1; 0; 0; 80; 242; 2; 0; 0; 0; 0] ++ []) zero_params = Ret st p' /\
    (st = QDF_STATUS_SUCCESS /\
       (exists e, wpa_layout e /\ [0; 80; 242; 1; 1; 0; 0; 80; 242; 2; 0; 0; 0; 0] = wpa_body e /\
                  wpa_acceptable e = true /\ p' = wpa_params e zero_params) \/
     st = QDF_STATUS_E_INVAL /\
       ~ (exists e, wpa_layout e /\ [0; 80; 242; 1; 1; 0; 0; 80; 242; 2; 0; 0; 0; 0] = wpa_body e /\
                    wpa_acceptable e = true)).
Proof.
  apply (wpaie_check_exact 221 [0; 80; 242; 1; 1; 0; 0; 80; 242; 2; 0; 0; 0; 0] [] zero_params).
  - repeat constructor; discriminate.
  - reflexivity.
Defined.

(** ** What is written for WPA *)

Section OwnWpa.
Implicit Types (p : wlan_crypto_params) (c : Z).

Definition own_wpa_ucast p : list Z := having (HAS_UCAST_CIPHER p) wpa_ucast_order.

Definition wpa_caps_written p : bool :=
  negb (rsn_caps p =? 0) && negb (rsn_caps p =? WLAN_CRYPTO_RSN_CAP_PREAUTH).

Definition own_wpa p c : wpa_element :=
  WpaElement (le32 WPA_TYPE_OUI) (wlan_crypto_wpa_cipher_to_suite c)
    (wlan_crypto_wpa_cipher_to_suite <$> own_wpa_ucast p)
    (wlan_crypto_wpa_keymgmt_to_suite <$> [wpa_akm p])
    (if wpa_caps_written p then Some (rsn_caps p) else None) [].

Definition wpa_cipher_ok c : Prop :=
  in_u 32 (wlan_crypto_wpa_cipher_to_suite c) /\
  wpa_suite_cipher (wlan_crypto_wpa_cipher_to_suite c) = c /\ 0 <= c.

Lemma wpa_ciphers_ok : Forall wpa_cipher_ok (wpa_mcast_order ++ wpa_ucast_order).
Proof. by repeat constructor. Qed.

Lemma own_wpa_ucast_ok p : Forall wpa_cipher_ok (own_wpa_ucast p).
Proof. apply Forall_having. by repeat constructor. Qed.

Lemma own_wpa_group_ok p c :
  List.find (HAS_MCAST_CIPHER p) wpa_mcast_order = Some c -> wpa_cipher_ok c.
Proof.
  intros [Hin _]%List.find_some. pose proof wpa_ciphers_ok as H. rewrite Forall_app in H.
  eapply Forall_forall; [exact (proj1 H)|by apply list_elem_of_In].
Qed.

(** One of four key managements, all of which have suites. *)
Lemma wpa_akm_ok p :
  in_u 32 (wlan_crypto_wpa_keymgmt_to_suite (wpa_akm p)) /\
  wpa_suite_keymgmt (wlan_crypto_wpa_keymgmt_to_suite (wpa_akm p)) = wpa_akm p /\ 0 <= wpa_akm p.
Proof.
  unfold wpa_akm. cbn [List.find].
  repeat (match goal with |- context [HAS_KEY_MGMT p ?k] => destruct (HAS_KEY_MGMT p k) end);
    by split_and!.
Qed.

Lemma all_known_fmap (tab conv : Z -> Z) l :
  Forall (fun c => tab (conv c) = c /\ 0 <= c) l -> all_known tab (conv <$> l) = true.
Proof.
  induction 1 as [|c l [Hc Hge] _ IH]; [done|]. unfold all_known in *. cbn [fmap list_fmap forallb].
  by rewrite Hc, (proj2 (Z.leb_le _ _)).
Qed.

Lemma known_set_fmap (tab conv : Z -> Z) start l :
  Forall (fun c => tab (conv c) = c /\ 0 <= c) l ->
  known_set tab start (conv <$> l) = foldl SET_PARAM start l.
Proof.
  unfold known_set. intros Hl. f_equal. rewrite <- list_fmap_compose.
  induction Hl as [|c l [Hc _] _ IH]; [done|]. cbn. by rewrite Hc, IH.
Qed.

(** What is read of a VDEV with WPA; capabilities of 0 or only preauthentication are not
    written, so that the reader keeps its own. *)
Definition own_wpa_params p c p0 : wlan_crypto_params :=
  Params (SET_PARAM (BIT WLAN_CRYPTO_AUTH_OPEN) WLAN_CRYPTO_AUTH_WPA)
    (foldl SET_PARAM (BIT WLAN_CRYPTO_CIPHER_NONE) (own_wpa_ucast p))
    (SET_PARAM (BIT WLAN_CRYPTO_CIPHER_NONE) c)
    (mgmtcipherset p0) (cipher_caps p0)
    (SET_PARAM (BIT WLAN_CRYPTO_KEY_MGMT_NONE) (wpa_akm p))
    (pmksa p0) (if wpa_caps_written p then rsn_caps p else rsn_caps p0).

Lemma own_wpa_facts p c p0 :
  wpa_cipher_ok c -> in_u 16 (rsn_caps p) ->
  wpa_layout (own_wpa p c) /\ wpa_acceptable (own_wpa p c) = true /\
  wpa_params (own_wpa p c) p0 = own_wpa_params p c p0.
Proof.
  intros (Hc32 & Hc & Hge) Hcap. destruct (wpa_akm_ok p) as (Ha32 & Ha & Hage).
  pose proof (own_wpa_ucast_ok p) as Hu.
  assert (Forall (fun c => wpa_suite_cipher (wlan_crypto_wpa_cipher_to_suite c) = c /\ 0 <= c)
            (own_wpa_ucast p)) as Hu2 by (eapply Forall_impl; [exact Hu|by intros ? [_ ?]]).
  split_and!.
  - unfold wpa_layout. cbn [own_wpa we_oui we_group we_pairwise we_akms we_caps we_trailer].
    split; [done|]. split; [done|]. split.
    { eapply Forall_fmap_in_u; [|exact Hu]. by intros ? [? _]. }
    split; [by constructor|by destruct (wpa_caps_written p)].
  - unfold wpa_acceptable. cbn [own_wpa we_group we_pairwise we_akms].
    rewrite Hc, (proj2 (Z.leb_le _ _)), !all_known_fmap by (done || by constructor). done.
  - unfold wpa_params, own_wpa_params. cbn [own_wpa we_group we_pairwise we_akms we_caps].
    rewrite Hc, !known_set_fmap by (done || by constructor).
    by destruct (wpa_caps_written p).
Qed.

Lemma wpaie_of_eq p c :
  List.find (HAS_MCAST_CIPHER p) wpa_mcast_order = Some c ->
  let body := wpa_body (own_wpa p c) in
  wpaie_of p = WLAN_ELEMID_VENDOR :: zlen body :: body /\ zlen body <= 28.
Proof.
  intros Hc body. destruct (own_wpa_group_ok p c Hc) as (Hc32 & _).
  destruct (wpa_akm_ok p) as (Ha32 & _).
  assert (zlen body <= 28) as Hlen.
  { unfold body, wpa_body, wpa_from_pairwise, wpa_from_akms, wpa_from_caps, suites_bytes.
    cbn [own_wpa we_oui we_group we_pairwise we_akms we_caps we_trailer].
    rewrite !zlen_app, !zlen_words, !zlen_le16, !zlen_le32.
    assert (zlen (wlan_crypto_wpa_cipher_to_suite <$> own_wpa_ucast p) <= 2).
    { unfold zlen. rewrite length_fmap. apply (zlen_having _ wpa_ucast_order). }
    change (zlen (wlan_crypto_wpa_keymgmt_to_suite <$> [wpa_akm p])) with 1.
    assert (zlen (field le16 (if wpa_caps_written p then Some (rsn_caps p) else None)) <= 2)
      by (by destruct (wpa_caps_written p)).
    change (zlen (@nil Z)) with 0. lia. }
  split; [|done]. unfold wpaie_of, add_group. rewrite Hc.
  rewrite !addshort_eq, !addselector_eq by done.
  rewrite (add_suites_eq wlan_crypto_wpa_cipher_to_suite) by (done || by repeat constructor).
  rewrite (add_suites_eq wlan_crypto_wpa_keymgmt_to_suite) by (done || by constructor).
  fold (own_wpa_ucast p) (wpa_caps_written p). cbn [having List.filter].
  assert (forall frm, (if wpa_caps_written p then frm ++ le16 (rsn_caps p) else frm) =
            frm ++ field le16 (if wpa_caps_written p then Some (rsn_caps p) else None) ++ []) as ->.
  { intros frm. rewrite app_nil_r. destruct (wpa_caps_written p); [done|].
    cbn. by rewrite app_nil_r. }
  rewrite <- !app_assoc. apply (set_length_eq WLAN_ELEMID_VENDOR 0 body). lia.
Qed.

End OwnWpa.

(** The WPA element of a VDEV is read back as its ciphers, the key management that is
    written, and its capabilities. *)
Lemma wpaie_roundtrip p c rest p0 :
  List.find (HAS_MCAST_CIPHER p) wpa_mcast_order = Some c -> in_u 16 (rsn_caps p) ->
  exists frm,
    (forall buf, wlan_crypto_build_wpaie (Some p) (Some buf) = write_element buf frm) /\
    zlen frm <= 30 /\
    wlan_crypto_wpaie_check (frm ++ rest) p0 = Ret QDF_STATUS_SUCCESS (own_wpa_params p c p0).
Proof.
  intros Hc Hcap. destruct (wpaie_of_eq p c Hc) as [Heq Hlen]. exists (wpaie_of p).
  split; [done|]. rewrite Heq. destruct (own_wpa_facts p c p0 (own_wpa_group_ok p c Hc) Hcap) as (Hok & Ha & Hp).
  set (body := wpa_body (own_wpa p c)) in *.
  split; [unfold zlen in *; cbn [length]; lia|]. cbn [app].
  destruct (read_wpa (own_wpa p c) WLAN_ELEMID_VENDOR rest p0 Hok) as (p' & Hr & Hp').
  { fold body. lia. }
  rewrite Ha in Hr, Hp'. by rewrite (Hp' eq_refl), Hp in Hr.
Qed.

(** ** What is written for WAPI *)

Definition own_wapi_akms (p : wlan_crypto_params) : list Z :=
  having (HAS_KEY_MGMT p) wapi_akm_order.

(** The WAPI element of a VDEV with the SMS4 cipher and a WAPI key management is read back
    as these. *)
Lemma wapiie_roundtrip p sta rest p0 :
  HAS_UCAST_CIPHER p WLAN_CRYPTO_CIPHER_WAPI_SMS4 = true -> own_wapi_akms p <> [] ->
  exists frm,
    (forall buf, wlan_crypto_build_wapiie (Some p) (Some buf) sta = write_element buf frm) /\
    zlen frm <= 28 /\
    wlan_crypto_wapiie_check (frm ++ rest) p0 = Ret QDF_STATUS_SUCCESS
      (Params (SET_PARAM (BIT WLAN_CRYPTO_AUTH_OPEN) WLAN_CRYPTO_AUTH_WAPI)
         (SET_PARAM (BIT WLAN_CRYPTO_CIPHER_NONE) WLAN_CRYPTO_CIPHER_WAPI_SMS4)
         (SET_PARAM (BIT WLAN_CRYPTO_CIPHER_NONE) WLAN_CRYPTO_CIPHER_WAPI_SMS4)
         (mgmtcipherset p0) (cipher_caps p0)
         (foldl SET_PARAM (BIT WLAN_CRYPTO_KEY_MGMT_NONE) (own_wapi_akms p))
         (pmksa p0) (rsn_caps p0)).
Proof.
  intros Hu Hk. exists (wapiie_of p sta). split; [done|]. revert Hk.
  unfold wapiie_of, own_wapi_akms, add_suites, having, wapi_akm_order. cbn [foldl List.filter].
  unfold add_suite. rewrite Hu.
  destruct (HAS_KEY_MGMT p WLAN_CRYPTO_KEY_MGMT_WAPI_PSK),
    (HAS_KEY_MGMT p WLAN_CRYPTO_KEY_MGMT_WAPI_CERT), sta; intros Hk; try done;
    destruct p0; (split; [discriminate|reflexivity]).
Qed.

(** A WAPI element whose lists end two bytes before its end: its group cipher is read
    from what follows. *)
Lemma wapi_reads_past_element :
  wlan_crypto_wapiie_check
    (68 :: 20 :: [1; 0; 1; 0; 0; 20; 114; 2; 2; 0; 0; 20; 114; 1; 0; 20; 114; 1; 0; 20]) zero_params
    = Crash /\
  exists p, wlan_crypto_wapiie_check
    (68 :: 20 :: [1; 0; 1; 0; 0; 20; 114; 2; 2; 0; 0; 20; 114; 1; 0; 20; 114; 1; 0; 20] ++ [114; 1])
    zero_params = Ret QDF_STATUS_SUCCESS p.
Proof. split; [reflexivity|eexists; vm_compute; reflexivity]. Qed.
