(* ===== verification/CryptoMatch.v ===== *)
(** * Matching a peer's RSN element against a VDEV

    The walk over the elements of a frame, the reader of the RSN element and the
    comparison with the VDEV's parameters, together.  Theorems: a match means that the
    frame has an RSN element that shares a unicast cipher, the group cipher and a key
    management with the VDEV and agrees with it on protected frames; and the element a
    VDEV builds matches the VDEV. *)
From S2P Require Import Prelude Ie Crypto CryptoIe CryptoRsn CryptoSpec.

Section Match.
Implicit Types (p mine : wlan_crypto_params) (buf : list Z).

(** An element inside a buffer consists of bytes of it. *)
Lemma element_bytes_ok l tail (e : element) :
  bytes_ok (ies_bytes l ++ tail) -> e ∈ l -> bytes_ok e.2.
Proof.
  intros [Hb _]%Forall_app Hin. apply Forall_forall. intros b Hbin.
  eapply Forall_forall; [exact Hb|]. unfold ies_bytes. apply list_elem_of_In, in_concat. 
  exists (ie_bytes e). rewrite <- !list_elem_of_In.
  split; [by apply list_elem_of_fmap_2|]. unfold ie_bytes. by do 2 right.
Qed.

Definition shares (a b : Z) : Prop := Z.land a b <> 0.

(** Two parties that agree on whether frames are protected. *)
Definition pmf_agrees (mine caps : Z) : Prop :=
  (masked mine WLAN_CRYPTO_RSN_CAP_MFP_REQUIRED = true ->
     masked caps WLAN_CRYPTO_RSN_CAP_MFP_ENABLED = true) /\
  (masked caps WLAN_CRYPTO_RSN_CAP_MFP_REQUIRED = true ->
     masked mine WLAN_CRYPTO_RSN_CAP_MFP_ENABLED || masked mine WLAN_CRYPTO_RSN_CAP_MFP_REQUIRED = true).

Lemma rsn_info_true mine p :
  wlan_crypto_rsn_info (Some mine) p = true <->
    shares (ucastcipherset p) (ucastcipherset mine) /\
    shares (mcastcipherset p) (mcastcipherset mine) /\
    KEY_MGMTSET_MATCH p mine = true /\ pmf_agrees (rsn_caps mine) (rsn_caps p).
Proof.
  unfold wlan_crypto_rsn_info, UCAST_CIPHER_MATCH, MCAST_CIPHER_MATCH, shares, pmf_agrees.
  unfold wlan_crypto_vdev_is_pmf_required, wlan_crypto_vdev_is_pmf_enabled.
  fold (masked (rsn_caps mine) WLAN_CRYPTO_RSN_CAP_MFP_REQUIRED)
    (masked (rsn_caps mine) WLAN_CRYPTO_RSN_CAP_MFP_ENABLED).
  rewrite !andb_true_iff, !negb_true_iff, !Z.eqb_neq.
  destruct (masked (rsn_caps mine) WLAN_CRYPTO_RSN_CAP_MFP_REQUIRED),
    (masked (rsn_caps mine) WLAN_CRYPTO_RSN_CAP_MFP_ENABLED),
    (masked (rsn_caps p) WLAN_CRYPTO_RSN_CAP_MFP_REQUIRED),
    (masked (rsn_caps p) WLAN_CRYPTO_RSN_CAP_MFP_ENABLED); cbn; intuition congruence.
Qed.

(** The first RSN element of a frame, and what the reader makes of it. *)
Lemma params_from_rsn_ie buf ie_len p0 :
  bytes_ok buf -> 0 <= ie_len <= zlen buf -> ie_len < 2 ^ 16 ->
  exists l tail, buf = ies_bytes l ++ tail /\
    (wlan_get_crypto_params_from_rsn_ie buf ie_len p0 = Ret QDF_STATUS_E_INVAL zero_params \/
     exists body rest, (WLAN_ELEMID_RSN, body) ∈ l /\ bytes_ok body /\ zlen body < 256 /\
       wlan_get_crypto_params_from_rsn_ie buf ie_len p0 =
         wlan_crypto_rsnie_check (WLAN_ELEMID_RSN :: zlen body :: body ++ rest) zero_params).
Proof.
  intros Hb Hl H16. unfold wlan_get_crypto_params_from_rsn_ie. rewrite bind_modify.
  destruct (split_ies buf ie_len Hb Hl) as (l & tl & -> & Hok & Hle & Hi).
  exists l, tl. split; [done|]. unfold wlan_get_ie_ptr_from_eid, wlan_get_ie_ptr_from_eid_n_oui.
  unfold zlen in Hl. rewrite length_app in Hl. rewrite wrap_small by (unfold in_u; lia).
  erewrite bind_ret by (apply eid_loop_finds; [lia|done|unfold ies_len in *; lia|done]).
  destruct (find_ie WLAN_ELEMID_RSN l tl) as [ptr|] eqn:Ef; [right|by left].
  destruct (find_ie_elem _ _ _ _ Ef) as ([id body] & q & -> & Hin & Hid). cbn in Hid. subst id.
  exists body, q. split; [done|]. split; [by apply (element_bytes_ok l tl (WLAN_ELEMID_RSN, body))|].
  split; [|done]. pose proof (proj1 (Forall_forall _ _) Hok _ Hin) as H. unfold ie_ok in H.
  unfold zlen. cbn in H. lia.
Qed.

End Match.

(** C10: [wlan_crypto_check_rsn_match] always returns on a frame without an unknown group
    management cipher, whatever the bytes; when it answers true, the frame has an RSN
    element of the standard's layout that shares a unicast cipher, the group cipher and a
    key management with the VDEV, and neither side requires protected frames of one that
    does not have them; the parameters it gives are those the element means. *)
Theorem rsn_match_sound mine buf ie_len p0 :
  bytes_ok buf -> 0 <= ie_len <= zlen buf -> ie_len < 2 ^ 16 ->
  let r := wlan_crypto_check_rsn_match true (Some (Some mine)) buf ie_len p0 in
  exists l tail, buf = ies_bytes l ++ tail /\
    (forall p', r = Ret true p' -> exists e, (WLAN_ELEMID_RSN, rsn_body e) ∈ l /\ rsn_layout e /\
       p' = rsn_params e /\ shares (rsn_ucast e) (ucastcipherset mine) /\
       shares (rsn_group e) (mcastcipherset mine) /\ shares (rsn_akm e) (key_mgmt mine) /\
       pmf_agrees (rsn_caps mine) (rsn_capability e)) /\
    (r = Crash -> exists e, (WLAN_ELEMID_RSN, rsn_body e) ∈ l /\ rsn_layout e /\
       rsn_mgmt_known e = false) /\
    r <> OutOfFuel.
Proof.
  intros Hb Hl H16 r. destruct (params_from_rsn_ie buf ie_len p0 Hb Hl H16) as (l & tl & Hbuf & Hr).
  exists l, tl. split; [done|]. unfold wlan_crypto_check_rsn_match in r.
  destruct Hr as [Hr|(body & rest & Hin & Hbb & Hzb & Hr)].
  { subst r. rewrite (bind_ret _ _ _ _ _ Hr). done. }
  destruct (rsnie_check_cases WLAN_ELEMID_RSN body rest zero_params Hbb Hzb)
    as [(e & Hok & -> & Ha)|(p1 & Ec)].
  - rewrite (rsnie_read_acceptable e _ rest zero_params Hok Hzb Ha) in Hr.
    destruct (rsn_mgmt_known e) eqn:Hk.
    + subst r. rewrite (bind_ret _ _ _ _ _ Hr). cbn [QDF_IS_STATUS_SUCCESS].
      split; [|done]. intros p' [= Hm <-]. apply rsn_info_true in Hm as (Hu & Hg & Hm & Hp).
      exists e. split_and!; try done.
      unfold KEY_MGMTSET_MATCH in Hm. cbn [key_mgmt rsn_params] in Hm.
      unfold rsn_acceptable in Ha. apply andb_true_iff in Ha as [_ Ha].
      apply negb_true_iff in Ha. rewrite Ha, orb_false_r in Hm.
      by apply Z.eqb_neq, negb_true_iff.
    + assert (r = Crash) as -> by (subst r; unfold mbind, M_bind; by rewrite Hr).
      split; [done|]. split; [|done]. intros _. by exists e.
  - rewrite Ec in Hr. subst r. by rewrite (bind_ret _ _ _ _ _ Hr).
Qed.

Lemma rsn_match_sound_witness :
  let mine := Params 66 8 8 64 0 1 [] 128 in
  let buf := [1; 1; 2; 48; 20; 1; 0; 0; 15; 172; 4; 1; 0; 0; 15; 172; 4; 1; 0; 0; 15; 172; 1; 128; 0] in
  let r := wlan_crypto_check_rsn_match true (Some (Some mine)) buf 25 zero_params in
  exists l tail, buf = ies_bytes l ++ tail /\
    (forall p', r = Ret true p' -> exists e, (WLAN_ELEMID_RSN, rsn_body e) ∈ l /\ rsn_layout e /\
       p' = rsn_params e /\ shares (rsn_ucast e) (ucastcipherset mine) /\
       shares (rsn_group e) (mcastcipherset mine) /\ shares (rsn_akm e) (key_mgmt mine) /\
       pmf_agrees (rsn_caps mine) (rsn_capability e)) /\
    (r = Crash -> exists e, (WLAN_ELEMID_RSN, rsn_body e) ∈ l /\ rsn_layout e /\
       rsn_mgmt_known e = false) /\
    r <> OutOfFuel.
Proof.
  apply (rsn_match_sound (Params 66 8 8 64 0 1 [] 128)
    [1; 1; 2; 48; 20; 1; 0; 0; 15; 172; 4; 1; 0; 0; 15; 172; 4; 1; 0; 0; 15; 172; 1; 128; 0]
    25 zero_params).
  - repeat constructor; discriminate.
  - split; discriminate.
  - reflexivity.
Defined.

(** ** A VDEV's own element *)

Lemma find_ie_app eid l1 l2 tail :
  (forall e : element, e ∈ l1 -> e.1 <> eid) -> find_ie eid (l1 ++ l2) tail = find_ie eid l2 tail.
Proof.
  induction l1 as [|e l1 IH]; intros H; [done|]. cbn [app find_ie].
  rewrite (proj2 (Z.eqb_neq _ _)).
  - apply IH. intros e' Hin. apply H. by right.
  - intros ->. by apply (H e); [left|].
Qed.

Lemma ies_bytes_app l1 l2 : ies_bytes (l1 ++ l2) = ies_bytes l1 ++ ies_bytes l2.
Proof. unfold ies_bytes. by rewrite fmap_app, concat_app. Qed.

(** Two sets with a common bit. *)
Lemma shares_bit a b j : Z.testbit a j = true -> Z.testbit b j = true -> shares a b.
Proof.
  intros Ha Hb H0. assert (Z.testbit (Z.land a b) j = true) as Ht by (by rewrite Z.land_spec, Ha, Hb).
  by rewrite H0, Z.bits_0 in Ht.
Qed.

(** A set shares a bit with those of its members that are written. *)
Lemma members_share (set : Z) order :
  Forall (fun c => 0 <= c) order -> having (HAS_PARAM set) order <> [] ->
  shares (members (having (HAS_PARAM set) order)) set.
Proof.
  intros Hall Hne. destruct (having (HAS_PARAM set) order) as [|c l] eqn:El; [done|].
  assert (c ∈ having (HAS_PARAM set) order) as Hin by (rewrite El; left).
  unfold having in Hin. apply elem_of_filter_b in Hin as [Hc Hin].
  pose proof (proj1 (Forall_forall _ _) Hall c Hin) as Hge. cbn in Hge.
  apply (shares_bit _ _ c); [|by rewrite <- HAS_PARAM_testbit].
  unfold members. rewrite testbit_foldl_SET.
  - rewrite bool_decide_eq_true_2 by left. by rewrite orb_true_r.
  - rewrite <- El. by apply Forall_having.
Qed.

(** What was built is in front of the pointer that is returned. *)
Lemma built_take p pmkid buf0 buf' n :
  wlan_crypto_build_rsnie_with_pmksa (Some p) (Some buf0) pmkid = Built buf' n ->
  take (Z.to_nat n) buf' = rsnie_of p pmkid.
Proof.
  cbn [wlan_crypto_build_rsnie_with_pmksa build_element]. unfold write_element.
  destruct (_ <=? _); [|done]. intros [= <- <-]. unfold zlen. by rewrite Nat2Z.id, take_app_length.
Qed.

(** C21: a VDEV matches a frame that carries the element built for it, between other
    elements, and the match gives [own_params], under these conditions: one of its group
    ciphers, one of its unicast ciphers and one of its key managements are among those that
    the writer of the element knows (a VDEV whose only key management is one that is never
    written does not match itself, [ft_sha384_does_not_match_itself]); it has protected
    management frames enabled when it requires them; its capabilities have 16 bits and the
    PMKID 16 bytes; the buffer had room for the element; and the frame has less than 2^16
    bytes and no other RSN element in front. *)
Theorem own_element_matches p pmkid c buf0 buf' n l1 l2 p0 :
  List.find (HAS_MCAST_CIPHER p) rsn_mcast_order = Some c ->
  in_u 16 (rsn_caps p) ->
  (forall id, pmkid = Some id -> zlen id = PMKID_LEN) ->
  own_ucast p <> [] -> own_akms p <> [] ->
  (masked (rsn_caps p) WLAN_CRYPTO_RSN_CAP_MFP_REQUIRED = true ->
   masked (rsn_caps p) WLAN_CRYPTO_RSN_CAP_MFP_ENABLED = true) ->
  wlan_crypto_build_rsnie_with_pmksa (Some p) (Some buf0) pmkid = Built buf' n ->
  (forall e : element, e ∈ l1 -> e.1 <> WLAN_ELEMID_RSN) ->
  let buf := ies_bytes l1 ++ take (Z.to_nat n) buf' ++ ies_bytes l2 in
  zlen buf < 2 ^ 16 ->
  wlan_crypto_check_rsn_match true (Some (Some p)) buf (zlen buf) p0 = Ret true (own_params p c).
Proof.
  intros Hc Hcap Hid Hu Ha Hpmf Hb Hno buf Hz. apply built_take in Hb.
  set (body := rsn_body (own_element p pmkid c)).
  assert (buf = ies_bytes (l1 ++ (WLAN_ELEMID_RSN, body) :: l2) ++ []) as Hbuf.
  { unfold buf. rewrite Hb, (rsnie_of_eq p pmkid c Hc Hid), ies_bytes_app, app_nil_r. done. }
  assert (zlen buf = ies_len (l1 ++ (WLAN_ELEMID_RSN, body) :: l2)) as Hlen
    by (rewrite Hbuf, app_nil_r; done).
  unfold wlan_crypto_check_rsn_match, wlan_get_crypto_params_from_rsn_ie.
  rewrite bind_assoc, bind_modify, bind_assoc.
  unfold wlan_get_ie_ptr_from_eid, wlan_get_ie_ptr_from_eid_n_oui.
  rewrite wrap_small by (unfold in_u; pose proof (zlen_nonneg buf); lia).
  rewrite Hlen, Hbuf. erewrite bind_ret by
    (apply eid_loop_finds; [lia|lia|rewrite Z.sub_diag; done|left; lia]).
  rewrite find_ie_app by done. cbn [find_ie fst]. rewrite Z.eqb_refl.
  destruct (rsnie_reads_back p pmkid c (ies_bytes l2) zero_params Hc Hcap Hid)
    as (_ & _ & Hr).
  rewrite (rsnie_of_eq p pmkid c Hc Hid) in Hr. fold body in Hr.
  rewrite app_nil_r. change (ies_bytes ((WLAN_ELEMID_RSN, body) :: l2)) with
    ((WLAN_ELEMID_RSN :: zlen body :: body) ++ ies_bytes l2).
  rewrite (bind_ret _ _ _ _ _ Hr). cbn [QDF_IS_STATUS_SUCCESS]. unfold gets. f_equal.
  apply rsn_info_true. unfold own_params. cbn [ucastcipherset mcastcipherset rsn_caps].
  unfold KEY_MGMTSET_MATCH. cbn [key_mgmt]. split; [|split; [|split]].
  - unfold members_or. destruct (own_ucast p) eqn:Eu; [done|]. rewrite <- Eu in *.
    apply members_share; [by repeat constructor|done].
  - apply List.find_some in Hc as Hc2. destruct Hc2 as [Hin Hhas].
    assert (0 <= c) by (by destruct (own_group_ok p c Hc) as (_ & _ & ?)).
    apply (shares_bit _ _ c); [by rewrite testbit_BIT, Z.eqb_refl|].
    by rewrite <- HAS_PARAM_testbit.
  - apply orb_true_iff. left. apply negb_true_iff, Z.eqb_neq.
    unfold members_or. destruct (own_akms p) eqn:Ea; [done|]. rewrite <- Ea in *.
    apply members_share; [unfold akm_order; destruct (HAS_KEY_MGMT _ _); by repeat constructor|done].
  - split; [done|]. intros Hq. by rewrite Hq, orb_true_r.
Qed.

Lemma own_element_matches_witness :
  exists buf n,
    wlan_crypto_build_rsnie_with_pmksa (Some (Params 64 8 10 64 0 1026 [] 192))
      (Some (replicate 136 0)) None = Built buf n /\
    let frame := ies_bytes [(1, [130; 132])] ++ take (Z.to_nat n) buf ++ ies_bytes [(50, [12])] in
    wlan_crypto_check_rsn_match true (Some (Some (Params 64 8 10 64 0 1026 [] 192)))
      frame (zlen frame) zero_params =
    Ret true (own_params (Params 64 8 10 64 0 1026 [] 192) 1).
Proof.
  eexists _, _. split; [reflexivity|].
  apply (own_element_matches (Params 64 8 10 64 0 1026 [] 192) None 1 (replicate 136 0) _ _
    [(1, [130; 132])] [(50, [12])]).
  - reflexivity.
  - split; [discriminate|reflexivity].
  - discriminate.
  - discriminate.
  - discriminate.
  - reflexivity.
  - reflexivity.
  - intros e ->%list_elem_of_singleton. discriminate.
  - reflexivity.
Defined.

(** A VDEV with FT over 802.1X and SHA384 as its only key management: the suite is read but
    never written, the list in its element is empty, and it does not match itself. *)
Lemma ft_sha384_does_not_match_itself :
  let p := Params 64 8 10 64 0 (BIT WLAN_CRYPTO_KEY_MGMT_FT_IEEE8021X_SHA384) [] 192 in
  exists buf n,
    wlan_crypto_build_rsnie_with_pmksa (Some p) (Some (replicate 136 0)) None = Built buf n /\
    wlan_crypto_check_rsn_match true (Some (Some p)) (take (Z.to_nat n) buf) n zero_params =
      Ret false (own_params p 1) /\
    HAS_KEY_MGMT (own_params p 1) WLAN_CRYPTO_KEY_MGMT_IEEE8021X = true.
Proof. eexists _, _. split; [reflexivity|]. split; vm_compute; reflexivity. Qed.
