(* ===== verification/Pmksa.v ===== *)
(** * The PMKSA cache (wlan_crypto_global_api.c)

    A VDEV keeps up to sixteen pairwise master keys of access points, as pointers to
    entries that clients allocate and hand over.  The memory of the entries is a map from
    addresses; freeing removes, reading what is not there is a crash.  The loops over the
    slots are [for_slots] and, where they end at the first slot that passes a test,
    [find_slot]. *)
From S2P Require Import Prelude QdfTypes.
Import QdfTypes.Parse.
From S2P Require Import Ie Crypto CryptoIe.

(** ** Data *)

Definition MAX_PMK_LEN : Z := 64.
Definition WLAN_CACHE_ID_LEN : Z := 2.

(** [struct wlan_crypto_pmksa] *)
Record wlan_crypto_pmksa : Type := Pmksa {
  bssid : list Z;
  pmkid : list Z;
  pmk : list Z;
  pmk_len : Z;
  ssid_len : Z;
  ssid : list Z;
  cache_id : list Z;
  single_pmk_supported : bool;
}.

(** The entries in memory, and the slots of the VDEV's parameters. *)
Record pmksa_world : Type := PmksaWorld {
  entries : gmap Z wlan_crypto_pmksa;
  slots : list (option Z);
}.

Section Ops.
Abbreviation MW := (M pmksa_world).
Implicit Types (i : nat) (a ptr : Z).

Definition set_entries m (w : pmksa_world) : pmksa_world := PmksaWorld m (slots w).
Definition set_slots l (w : pmksa_world) : pmksa_world := PmksaWorld (entries w) l.

(** [crypto_params->pmksa[i]] *)
Definition slot i : MW (option Z) := o ← gets (fun w => slots w !! i); deref o.
Definition put_slot i (o : option Z) : MW unit := modify (fun w => set_slots (<[i := o]> (slots w)) w).
Definition entry ptr : MW wlan_crypto_pmksa := o ← gets (fun w => entries w !! ptr); deref o.

(** [qdf_mem_zero] and [qdf_mem_free] of an entry. *)
Definition free_entry ptr : MW unit :=
  e ← entry ptr;
  modify (fun w => set_entries (delete ptr (entries w)) w).

(** Free the entry of a slot and empty it. *)
Definition free_slot i ptr : MW unit := free_entry ptr;; put_slot i None.

(** [for (i = 0; i < WLAN_CRYPTO_MAX_PMKID; i++)]: with a body for the slots that are
    not NULL, and with a test that ends the loop at the first slot that passes it. *)
Fixpoint for_slots (n i : nat) (body : nat -> Z -> MW unit) : MW unit :=
  match n with
  | O => mret ()
  | S n' =>
      o ← slot i;
      match o with None => mret () | Some ptr => body i ptr end;;
      for_slots n' (S i) body
  end.

Fixpoint find_slot (n i : nat) (test : Z -> MW bool) : MW (option (nat * Z)) :=
  match n with
  | O => mret None
  | S n' =>
      o ← slot i;
      match o with
      | None => find_slot n' (S i) test
      | Some ptr =>
          b ← test ptr;
          if (b : bool) then mret (Some (i, ptr)) else find_slot n' (S i) test
      end
  end.

(** Whether an entry is for the same access point, or the same FILS network. *)
Definition pmksa_match (arg ptr : Z) : MW bool :=
  p ← entry arg;
  e ← entry ptr;
  if bool_decide (bssid p = bssid e) then mret true
  else if ssid_len p =? 0 then mret false
  else
    s ← qdf_mem_eq (ssid p) (ssid e) (ssid_len p);
    if (s : bool) then qdf_mem_eq (cache_id p) (cache_id e) WLAN_CACHE_ID_LEN else mret false.

(** [qdf_mem_copy(del_pmk, pmk, pmk_len)] into a cleared array of 64 bytes. *)
Definition copy_pmk (e : wlan_crypto_pmksa) : MW (list Z) :=
  if pmk_len e <=? MAX_PMK_LEN
  then mret (take (Z.to_nat (pmk_len e)) (pmk e) ++ replicate (Z.to_nat (MAX_PMK_LEN - pmk_len e)) 0)
  else crash.

(** The inner loop of [wlan_crypto_del_pmksa]: the entries with the deleted key. *)
Definition del_same_pmk (del_pmk : list Z) : MW unit :=
  for_slots WLAN_CRYPTO_MAX_PMKID 0 (fun j ptr =>
    e ← entry ptr;
    if pmk_len e =? 0 then mret ()
    else
      same ← qdf_mem_eq (pmk e) del_pmk (pmk_len e);
      if (same : bool) then free_slot j ptr else mret ()).

Definition wlan_crypto_del_pmksa (arg : Z) : MW QDF_STATUS :=
  found ← find_slot WLAN_CRYPTO_MAX_PMKID 0 (pmksa_match arg);
  match found with
  | None => mret QDF_STATUS_SUCCESS
  | Some (i, ptr) =>
      e ← entry ptr;
      del_pmk ← copy_pmk e;
      free_slot i ptr;;
      del_same_pmk del_pmk;;
      mret QDF_STATUS_SUCCESS
  end.

Fixpoint first_empty (n i : nat) : MW (option nat) :=
  match n with
  | O => mret None
  | S n' =>
      o ← slot i;
      match o with None => mret (Some i) | Some _ => first_empty n' (S i) end
  end.

Definition wlan_crypto_set_pmksa (arg : Z) : MW QDF_STATUS :=
  wlan_crypto_del_pmksa arg;;
  found ← first_empty WLAN_CRYPTO_MAX_PMKID 0;
  match found with
  | None => mret QDF_STATUS_E_INVAL
  | Some i => put_slot i (Some arg);; mret QDF_STATUS_SUCCESS
  end.

Definition wlan_crypto_pmksa_flush : MW QDF_STATUS :=
  for_slots WLAN_CRYPTO_MAX_PMKID 0 free_slot;; mret QDF_STATUS_SUCCESS.

(** [crypto]: the VDEV has the component's object. *)
Definition wlan_crypto_set_del_pmksa (op_mode : QDF_OPMODE) (crypto : bool) (arg : option Z)
    (set : bool) : MW QDF_STATUS :=
  match op_mode with
  | QDF_STA_MODE | QDF_SAP_MODE =>
      match arg, set with
      | None, true => mret QDF_STATUS_E_INVAL
      | _, _ =>
          if crypto then
            match arg, set with
            | Some a, true => wlan_crypto_set_pmksa a
            | Some a, false => wlan_crypto_del_pmksa a
            | None, _ => wlan_crypto_pmksa_flush
            end
          else mret QDF_STATUS_E_INVAL
      end
  | _ => mret QDF_STATUS_E_NOSUPPORT
  end.

Definition wlan_crypto_get_peer_pmksa (crypto : bool) (arg : option Z) : MW (option Z) :=
  match arg with
  | None => mret None
  | Some a =>
      if crypto then
        found ← find_slot WLAN_CRYPTO_MAX_PMKID 0 (pmksa_match a); mret (snd <$> found)
      else mret None
  end.

Definition bssid_is (b : list Z) (ptr : Z) : MW bool :=
  e ← entry ptr; mret (bool_decide (b = bssid e)).

Definition wlan_crypto_get_pmksa (crypto : bool) (b : option (list Z)) : MW (option Z) :=
  match b with
  | None => mret None
  | Some b =>
      if crypto then
        found ← find_slot WLAN_CRYPTO_MAX_PMKID 0 (bssid_is b); mret (snd <$> found)
      else mret None
  end.

(** The RSN element for an access point, with the PMKID of its entry. *)
Definition wlan_crypto_build_rsnie (crypto : option wlan_crypto_params)
    (iebuf : option memory) (b : option (list Z)) : MW built :=
  ptr ← wlan_crypto_get_pmksa (match crypto with Some _ => true | None => false end) b;
  id ← match ptr with
       | Some a => e ← entry a; mret (Some (pmkid e))
       | None => mret None
       end;
  mret (wlan_crypto_build_rsnie_with_pmksa crypto iebuf id).

Definition wlan_crypto_selective_clear_sae_single_pmk_entries (crypto : bool)
    (conn_bssid : list Z) : MW unit :=
  if crypto then
    for_slots WLAN_CRYPTO_MAX_PMKID 0 (fun i ptr =>
      e ← entry ptr;
      if single_pmk_supported e && negb (bool_decide (conn_bssid = bssid e))
      then free_slot i ptr else mret ())
  else mret ().

Definition set_single_pmk (b : bool) (e : wlan_crypto_pmksa) : wlan_crypto_pmksa :=
  Pmksa (bssid e) (pmkid e) (pmk e) (pmk_len e) (ssid_len e) (ssid e) (cache_id e) b.

Definition wlan_crypto_set_sae_single_pmk_bss_cap (crypto : bool) (b : list Z)
    (single_pmk_capable_bss : bool) : MW unit :=
  if crypto then
    for_slots WLAN_CRYPTO_MAX_PMKID 0 (fun _ ptr =>
      e ← entry ptr;
      if bool_decide (b = bssid e) then
        modify (fun w => set_entries (<[ptr := set_single_pmk single_pmk_capable_bss e]> (entries w)) w)
      else mret ())
  else mret ().

End Ops.
