(* ===== verification/PmksaInv.v ===== *)
(** * The PMKSA cache, value by value

    The cache as sixteen places for values, without addresses ([c_map], [c_del],
    [c_set], [c_get]), its correspondence to the slots and the memory ([cache_of],
    [pmksa_inv]), and for each operation the lemma that it runs to its end, keeps the
    invariant and does to the places what its abstract operation does. *)
From S2P Require Import Prelude Ie Crypto CryptoIe Pmksa.

(** ** The abstract cache *)

Abbreviation cache := (list (option wlan_crypto_pmksa)) (only parsing).

Definition matches (p e : wlan_crypto_pmksa) : bool :=
  bool_decide (bssid p = bssid e) ||
  (negb (ssid_len p =? 0) &&
   bool_decide (take (Z.to_nat (ssid_len p)) (ssid p) = take (Z.to_nat (ssid_len p)) (ssid e)) &&
   bool_decide (cache_id p = cache_id e)).

(** The key of an entry, and 64 bytes with it in front. *)
Definition key_bytes (e : wlan_crypto_pmksa) : list Z := take (Z.to_nat (pmk_len e)) (pmk e).
Definition key_buffer (e : wlan_crypto_pmksa) : list Z :=
  key_bytes e ++ replicate (Z.to_nat (MAX_PMK_LEN - pmk_len e)) 0.

(** [e'] goes when [e] is deleted: its key is the beginning of that of [e]. *)
Definition same_key (e e' : wlan_crypto_pmksa) : bool :=
  negb (pmk_len e' =? 0) && bool_decide (key_bytes e' = take (Z.to_nat (pmk_len e')) (key_buffer e)).

Definition holds (P : wlan_crypto_pmksa -> bool) (o : option wlan_crypto_pmksa) : Prop :=
  match o with Some e => P e = true | None => False end.
#[export] Instance holds_dec P o : Decision (holds P o).
Proof. destruct o; cbn; apply _. Defined.

(** What happens to each entry; [None]: its place becomes free. *)
Definition c_map (f : wlan_crypto_pmksa -> option wlan_crypto_pmksa) (c : cache) : cache :=
  (fun o => o ≫= f) <$> c.
Definition drop_if (P : wlan_crypto_pmksa -> bool) (e : wlan_crypto_pmksa) : option wlan_crypto_pmksa :=
  if P e then None else Some e.

Definition c_find P (c : cache) : option (nat * option wlan_crypto_pmksa) := list_find (holds P) c.

Definition c_del (p : wlan_crypto_pmksa) (c : cache) : cache :=
  match c_find (matches p) c with
  | Some (i, Some e) => c_map (drop_if (same_key e)) (<[i := None]> c)
  | _ => c
  end.

(** The entry goes to the first free place. *)
Definition c_place (p : wlan_crypto_pmksa) (c : cache) : option nat :=
  fst <$> list_find (fun o => o = None) (c_del p c).
Definition c_set (p : wlan_crypto_pmksa) (c : cache) : option cache :=
  (fun i => <[i := Some p]> (c_del p c)) <$> c_place p c.

Definition c_get P (c : cache) : option wlan_crypto_pmksa := c_find P c ≫= snd.

(** ** The correspondence *)

Definition entry_ok (e : wlan_crypto_pmksa) : Prop :=
  length (pmk e) = 64%nat /\ length (ssid e) = 32%nat /\ length (cache_id e) = 2%nat /\
  0 <= pmk_len e <= 64 /\ 0 <= ssid_len e <= 32.

Definition cache_of (w : pmksa_world) : cache := (fun o => o ≫= fun a => entries w !! a) <$> slots w.

(** [own]: the entries that are the client's.  Every entry in memory is the client's or
    in one slot. *)
Record pmksa_inv (own : gmap Z wlan_crypto_pmksa) (w : pmksa_world) : Prop := {
  inv_len : length (slots w) = WLAN_CRYPTO_MAX_PMKID;
  inv_once : forall i j a, slots w !! i = Some (Some a) -> slots w !! j = Some (Some a) -> i = j;
  inv_own : own ⊆ entries w;
  inv_held : forall i a, slots w !! i = Some (Some a) -> is_Some (entries w !! a) /\ own !! a = None;
  inv_all : forall a, is_Some (entries w !! a) ->
    is_Some (own !! a) \/ exists i, slots w !! i = Some (Some a);
  inv_wf : map_Forall (fun _ e => entry_ok e) (entries w);
}.

(** ** The operations on slots *)

Section Slots.
Implicit Types (w : pmksa_world) (own : gmap Z wlan_crypto_pmksa) (a ptr : Z) (i n : nat).

Lemma slot_eq {B} w i o (k : option Z -> M pmksa_world B) :
  slots w !! i = Some o -> (o' ← slot i; k o') w = k o w.
Proof. intros Hi. unfold slot. rewrite bind_assoc, bind_gets, Hi. done. Qed.

Lemma entry_eq {B} w a e (k : wlan_crypto_pmksa -> M pmksa_world B) :
  entries w !! a = Some e -> (e' ← entry a; k e') w = k e w.
Proof. intros Ha. unfold entry. rewrite bind_assoc, bind_gets, Ha. done. Qed.

Lemma cache_slot w i : cache_of w !! i = (fun o => o ≫= fun a => entries w !! a) <$> slots w !! i.
Proof. apply list_lookup_fmap. Qed.

Lemma cache_entry own w i a :
  pmksa_inv own w -> slots w !! i = Some (Some a) ->
  exists e, entries w !! a = Some e /\ cache_of w !! i = Some (Some e) /\ entry_ok e.
Proof.
  intros Hinv Hi. destruct (inv_held _ _ Hinv i a Hi) as [[e He] _].
  exists e. rewrite cache_slot, Hi. cbn. rewrite He. split_and!; try done.
  by apply (inv_wf _ _ Hinv a).
Qed.

Lemma cache_empty w i : slots w !! i = Some None -> cache_of w !! i = Some None.
Proof. intros Hi. by rewrite cache_slot, Hi. Qed.

Lemma slot_bound own w i : pmksa_inv own w -> (i < WLAN_CRYPTO_MAX_PMKID)%nat -> is_Some (slots w !! i).
Proof. intros Hinv Hi. apply lookup_lt_is_Some. by rewrite (inv_len _ _ Hinv). Qed.

(** Freeing the entry of a slot. *)
Definition freed w i a : pmksa_world := PmksaWorld (delete a (entries w)) (<[i := None]> (slots w)).

Lemma free_slot_eq own w i a :
  pmksa_inv own w -> slots w !! i = Some (Some a) -> free_slot i a w = Ret tt (freed w i a).
Proof.
  intros Hinv Hi. destruct (inv_held _ _ Hinv i a Hi) as [[e He] _].
  unfold free_slot, free_entry. rewrite bind_assoc, (entry_eq _ _ _ _ He). done.
Qed.

Lemma freed_lookup w i a j b :
  slots (freed w i a) !! j = Some (Some b) -> j <> i /\ slots w !! j = Some (Some b).
Proof.
  cbn. destruct (decide (i = j)) as [<-|Hne].
  - destruct (decide (i < length (slots w))%nat).
    + by rewrite list_lookup_insert_eq.
    + rewrite list_insert_ge by lia. intros Hl%lookup_lt_Some. lia.
  - rewrite list_lookup_insert_ne by done. by split.
Qed.

Lemma freed_inv own w i a :
  pmksa_inv own w -> slots w !! i = Some (Some a) -> pmksa_inv own (freed w i a).
Proof.
  intros Hinv Hi. destruct (inv_held _ _ Hinv i a Hi) as [_ Hown]. split.
  - cbn. rewrite length_insert. apply Hinv.
  - intros j k b [_ Hj]%freed_lookup [_ Hk]%freed_lookup. by eapply inv_once.
  - cbn. apply map_subseteq_spec. intros b e Hb. apply lookup_delete_Some.
    split; [congruence|]. eapply lookup_weaken; [done|apply Hinv].
  - intros j b [Hne Hj]%freed_lookup. cbn. rewrite lookup_delete_ne.
    + by apply (inv_held _ _ Hinv j).
    + intros ->. apply Hne. by eapply inv_once.
  - intros b [e Hb]. cbn in Hb. apply lookup_delete_Some in Hb as [Hne Hb]. destruct (inv_all _ _ Hinv b) as [?|[j Hj]]; [by eexists|by left|].
    right. exists j. cbn. rewrite list_lookup_insert_ne; [done|congruence].
  - cbn. apply map_Forall_delete, Hinv.
Qed.

Lemma freed_cache own w i a :
  pmksa_inv own w -> slots w !! i = Some (Some a) -> cache_of (freed w i a) = <[i := None]> (cache_of w).
Proof.
  intros Hinv Hi. unfold cache_of. cbn. rewrite list_fmap_insert. cbn.
  apply list_eq. intros j. destruct (decide (i = j)) as [<-|Hne].
  - apply lookup_lt_Some in Hi. rewrite list_lookup_insert_eq by (by rewrite length_fmap).
    by rewrite list_lookup_insert_eq by (by rewrite length_fmap).
  - rewrite !list_lookup_insert_ne, !list_lookup_fmap by done.
    destruct (slots w !! j) as [[b|]|] eqn:Hj; cbn; try done. f_equal.
    apply lookup_delete_ne. intros ->. apply Hne. by eapply inv_once.
Qed.

(** The searches. *)
Lemma find_slot_spec own w (test : Z -> M pmksa_world bool) P n i :
  pmksa_inv own w ->
  (forall j a e, slots w !! j = Some (Some a) -> entries w !! a = Some e -> test a w = Ret (P e) w) ->
  (i + n = WLAN_CRYPTO_MAX_PMKID)%nat ->
  (forall j o, (j < i)%nat -> cache_of w !! j = Some o -> ~ holds P o) ->
  match c_find P (cache_of w) with
  | None => find_slot n i test w = Ret None w
  | Some (k, o) =>
      exists a e, slots w !! k = Some (Some a) /\ entries w !! a = Some e /\ o = Some e /\
        find_slot n i test w = Ret (Some (k, a)) w
  end.
Proof.
  intros Hinv Htest. revert i. induction n as [|n IH]; intros i Hn Hbefore.
  - destruct (c_find P (cache_of w)) as [[k o]|] eqn:Hf; [|done].
    apply list_find_Some in Hf as (Hk & Ho & _). exfalso. apply (Hbefore k o); [|done..].
    apply lookup_lt_Some in Hk. unfold cache_of in Hk. rewrite length_fmap, (inv_len _ _ Hinv) in Hk. lia.
  - destruct (slot_bound own w i Hinv) as [o Hi]; [lia|].
    cbn [find_slot]. rewrite (slot_eq _ _ _ _ Hi).
    assert (forall o', cache_of w !! i = Some o' -> ~ holds P o' ->
      forall j o, (j < S i)%nat -> cache_of w !! j = Some o -> ~ holds P o) as Hnext.
    { intros o' Ho' Hno j o'' Hj Ho''. destruct (decide (j = i)) as [->|]; [congruence|].
      apply (Hbefore j); [lia|done]. }
    destruct o as [a|].
    + destruct (cache_entry own w i a Hinv Hi) as (e & He & Hc & _).
      rewrite (bind_ret _ _ _ _ _ (Htest i a e Hi He)). destruct (P e) eqn:HP.
      * assert (c_find P (cache_of w) = Some (i, Some e)) as ->; [|by exists a, e].
        apply list_find_Some. split_and!; [done..|]. intros j y Hj Hlt. by apply (Hbefore j).
      * apply IH; [lia|]. apply (Hnext _ Hc). cbn. congruence.
    + apply IH; [lia|]. apply (Hnext None); [by apply cache_empty|]. cbn. tauto.
Qed.

(** The loops over all slots. *)
Lemma for_slots_spec own (body : nat -> Z -> M pmksa_world unit) f :
  (forall w i a e, pmksa_inv own w -> slots w !! i = Some (Some a) -> entries w !! a = Some e ->
    exists w', body i a w = Ret tt w' /\ pmksa_inv own w' /\ cache_of w' = <[i := f e]> (cache_of w)) ->
  forall n i w, pmksa_inv own w -> (i + n = WLAN_CRYPTO_MAX_PMKID)%nat ->
  exists w', for_slots n i body w = Ret tt w' /\ pmksa_inv own w' /\
    cache_of w' = take i (cache_of w) ++ c_map f (drop i (cache_of w)).
Proof.
  intros Hbody n. induction n as [|n IH]; intros i w Hinv Hn; cbn [for_slots].
  - exists w. split_and!; [done..|].
    rewrite take_ge, drop_ge; [by rewrite app_nil_r|..];
      unfold cache_of; rewrite length_fmap, (inv_len _ _ Hinv); lia.
  - destruct (slot_bound own w i Hinv) as [o Hi]; [lia|].
    assert (exists w1, match o with None => mret tt | Some a => body i a end w = Ret tt w1 /\
      pmksa_inv own w1 /\ cache_of w1 = <[i := default None (cache_of w !! i) ≫= f]> (cache_of w))
      as (w1 & E1 & Hinv1 & Hc1).
    { destruct o as [a|].
      - destruct (cache_entry own w i a Hinv Hi) as (e & He & Hc & _). rewrite Hc. by apply Hbody.
      - exists w. rewrite (cache_empty _ _ Hi). split_and!; [done..|]. symmetry.
        apply list_insert_id. by apply cache_empty. }
    rewrite (slot_eq _ _ _ _ Hi), (bind_ret _ _ _ _ _ E1).
    destruct (IH (S i) w1 Hinv1) as (w2 & E2 & Hinv2 & Hc2); [lia|].
    exists w2. split_and!; [done..|]. rewrite Hc2, Hc1.
    assert (exists o', cache_of w !! i = Some o') as [o' Ho'] by (rewrite cache_slot, Hi; by eexists).
    rewrite Ho'. cbn [default from_option id]. rewrite (take_S_r _ _ (o' ≫= f)), drop_insert_lt by
      (rewrite ?list_lookup_insert_eq; eauto using lookup_lt_Some with lia).
    rewrite take_insert_ge, <- app_assoc, (drop_S _ _ _ Ho') by lia. done.
Qed.

Lemma all_slots own (body : nat -> Z -> M pmksa_world unit) f w :
  (forall w i a e, pmksa_inv own w -> slots w !! i = Some (Some a) -> entries w !! a = Some e ->
    exists w', body i a w = Ret tt w' /\ pmksa_inv own w' /\ cache_of w' = <[i := f e]> (cache_of w)) ->
  pmksa_inv own w ->
  exists w', for_slots WLAN_CRYPTO_MAX_PMKID 0 body w = Ret tt w' /\ pmksa_inv own w' /\
    cache_of w' = c_map f (cache_of w).
Proof.
  intros Hbody Hinv. apply (for_slots_spec own body f Hbody WLAN_CRYPTO_MAX_PMKID 0 w Hinv eq_refl).
Qed.

(** Freeing a slot, or not. *)
Lemma free_if own w i a e (b : bool) :
  pmksa_inv own w -> slots w !! i = Some (Some a) -> entries w !! a = Some e ->
  exists w', (if b then free_slot i a else mret ()) w = Ret tt w' /\ pmksa_inv own w' /\
    cache_of w' = <[i := if b then None else Some e]> (cache_of w).
Proof.
  intros Hinv Hi He. destruct b.
  - exists (freed w i a). rewrite (free_slot_eq own) by done.
    split_and!; [done|by apply freed_inv|by eapply freed_cache].
  - exists w. split_and!; [done..|]. symmetry. apply list_insert_id.
    by rewrite cache_slot, Hi; cbn; rewrite He.
Qed.

Lemma mem_eq_take w (p q : list Z) k :
  0 <= k <= Z.of_nat (length p) -> k <= Z.of_nat (length q) ->
  qdf_mem_eq p q k w = Ret (bool_decide (take (Z.to_nat k) p = take (Z.to_nat k) q)) w.
Proof. intros. unfold qdf_mem_eq. by rewrite !(proj2 (Z.leb_le _ _)) by lia. Qed.

Lemma match_eq own w j a b p e :
  pmksa_inv own w -> entries w !! a = Some p -> slots w !! j = Some (Some b) -> entries w !! b = Some e ->
  pmksa_match a b w = Ret (matches p e) w.
Proof.
  intros Hinv Hp Hj He. unfold pmksa_match. rewrite (entry_eq _ _ _ _ Hp), (entry_eq _ _ _ _ He).
  destruct (inv_wf _ _ Hinv _ _ Hp) as (_ & Hps & Hpc & _ & Hpl).
  destruct (inv_wf _ _ Hinv _ _ He) as (_ & Hes & Hec & _).
  unfold matches. destruct (bool_decide (bssid p = bssid e)); [done|].
  destruct (ssid_len p =? 0); [done|]. cbn [orb negb andb].
  rewrite (bind_ret _ _ _ _ _ (mem_eq_take w (ssid p) (ssid e) (ssid_len p) ltac:(lia) ltac:(lia))).
  destruct (bool_decide _); [|done].
  rewrite mem_eq_take by (rewrite ?Hpc, ?Hec; unfold WLAN_CACHE_ID_LEN; lia).
  rewrite !take_ge by (rewrite ?Hpc, ?Hec; done). done.
Qed.

Lemma bssid_eq w a e b : entries w !! a = Some e -> bssid_is b a w = Ret (bool_decide (b = bssid e)) w.
Proof. intros He. unfold bssid_is. by rewrite (entry_eq _ _ _ _ He). Qed.

Lemma search own w test P :
  pmksa_inv own w ->
  (forall j a e, slots w !! j = Some (Some a) -> entries w !! a = Some e -> test a w = Ret (P e) w) ->
  match c_find P (cache_of w) with
  | None => find_slot WLAN_CRYPTO_MAX_PMKID 0 test w = Ret None w
  | Some (k, o) =>
      exists a e, slots w !! k = Some (Some a) /\ entries w !! a = Some e /\ o = Some e /\
        find_slot WLAN_CRYPTO_MAX_PMKID 0 test w = Ret (Some (k, a)) w
  end.
Proof. intros Hinv Htest. apply (find_slot_spec own); [done..|intros; lia]. Qed.

(** Reading an entry of the cache through the pointer that a search returned. *)
Lemma get_spec own w test P :
  pmksa_inv own w ->
  (forall j a e, slots w !! j = Some (Some a) -> entries w !! a = Some e -> test a w = Ret (P e) w) ->
  exists r, (found ← find_slot WLAN_CRYPTO_MAX_PMKID 0 test; mret (snd <$> found)) w = Ret r w /\
    (r ≫= fun a => entries w !! a) = c_get P (cache_of w) /\ (is_Some r <-> is_Some (c_get P (cache_of w))).
Proof.
  intros Hinv Htest. pose proof (search own w test P Hinv Htest) as Hs. unfold c_get.
  destruct (c_find P (cache_of w)) as [[k o]|].
  - destruct Hs as (a & e & Hk & He & -> & E). exists (Some a).
    rewrite (bind_ret _ _ _ _ _ E). cbn. split_and!; [done..|by split; intros; eexists].
  - exists None. rewrite (bind_ret _ _ _ _ _ Hs). split_and!; [done|done|]. split; intros [? [=]].
Qed.

(** ** The operations *)

Lemma copy_eq w e : entry_ok e -> copy_pmk e w = Ret (key_buffer e) w.
Proof.
  intros (_ & _ & _ & Hl & _). unfold copy_pmk. by rewrite (proj2 (Z.leb_le _ _)) by (unfold MAX_PMK_LEN; lia).
Qed.

Lemma key_buffer_len e : entry_ok e -> Z.of_nat (length (key_buffer e)) = 64.
Proof.
  intros (Hp & _ & _ & Hl & _). unfold key_buffer, key_bytes.
  rewrite length_app, length_take, length_replicate, Hp. unfold MAX_PMK_LEN. lia.
Qed.

Lemma same_pmk_spec own w e :
  pmksa_inv own w -> entry_ok e ->
  exists w', del_same_pmk (key_buffer e) w = Ret tt w' /\ pmksa_inv own w' /\
    cache_of w' = c_map (drop_if (same_key e)) (cache_of w).
Proof.
  intros Hinv He. apply all_slots; [|done]. clear w Hinv. intros w i a e' Hinv Hi Ha.
  rewrite (entry_eq _ _ _ _ Ha). destruct (inv_wf _ _ Hinv _ _ Ha) as (Hp & _ & _ & Hl & _).
  pose proof (key_buffer_len e He). unfold drop_if, same_key, key_bytes.
  destruct (pmk_len e' =? 0).
  - cbn. by apply (free_if own w i a e' false).
  - rewrite (bind_ret _ _ _ _ _
      (mem_eq_take w (pmk e') (key_buffer e) (pmk_len e') ltac:(lia) ltac:(lia))). cbn [negb andb].
    by apply free_if.
Qed.

Lemma del_spec own w a p :
  pmksa_inv own w -> entries w !! a = Some p ->
  exists w', wlan_crypto_del_pmksa a w = Ret QDF_STATUS_SUCCESS w' /\ pmksa_inv own w' /\
    cache_of w' = c_del p (cache_of w).
Proof.
  intros Hinv Hp. unfold wlan_crypto_del_pmksa, c_del.
  pose proof (search own w (pmksa_match a) (matches p) Hinv) as Hs.
  destruct (c_find (matches p) (cache_of w)) as [[k o]|].
  - destruct Hs as (b & e & Hk & He & -> & E); [eauto using match_eq|].
    rewrite (bind_ret _ _ _ _ _ E), (entry_eq _ _ _ _ He).
    pose proof (inv_wf _ _ Hinv _ _ He) as Hok.
    rewrite (bind_ret _ _ _ _ _ (copy_eq w e Hok)), (bind_ret _ _ _ _ _ (free_slot_eq _ _ _ _ Hinv Hk)).
    destruct (same_pmk_spec own (freed w k b) e) as (w' & E' & Hinv' & Hc'); [by apply freed_inv|done|].
    exists w'. rewrite (bind_ret _ _ _ _ _ E'). split_and!; [done..|].
    by rewrite Hc', (freed_cache own) by done.
  - exists w. rewrite (bind_ret _ _ _ _ _ (Hs ltac:(eauto using match_eq))). done.
Qed.

Lemma empty_slot own w i o :
  pmksa_inv own w -> slots w !! i = Some o ->
  exists c, cache_of w !! i = Some c /\ (o = None <-> c = None).
Proof.
  intros Hinv Hi. destruct o as [a|].
  - destruct (cache_entry own w i a Hinv Hi) as (e & _ & Hc & _). by exists (Some e).
  - exists None. split; [by apply cache_empty|done].
Qed.

Lemma first_empty_spec own w n i :
  pmksa_inv own w -> (i + n = WLAN_CRYPTO_MAX_PMKID)%nat ->
  (forall j o, (j < i)%nat -> cache_of w !! j = Some o -> o <> None) ->
  first_empty n i w = Ret (fst <$> list_find (fun o => o = None) (cache_of w)) w.
Proof.
  intros Hinv. revert i. induction n as [|n IH]; intros i Hn Hbefore.
  - destruct (list_find _ (cache_of w)) as [[k o]|] eqn:Hf; [|done].
    apply list_find_Some in Hf as (Hk & Ho & _). exfalso. apply (Hbefore k o); [|done..].
    apply lookup_lt_Some in Hk. unfold cache_of in Hk. rewrite length_fmap, (inv_len _ _ Hinv) in Hk. lia.
  - destruct (slot_bound own w i Hinv) as [o Hi]; [lia|].
    destruct (empty_slot own w i o Hinv Hi) as (c & Hc & Hoc).
    cbn [first_empty]. rewrite (slot_eq _ _ _ _ Hi). destruct o as [a|].
    + apply IH; [lia|]. intros j o Hj Ho. destruct (decide (j = i)) as [->|].
      * rewrite Hc in Ho. simplify_eq. intros Hcn. by apply Hoc in Hcn.
      * apply (Hbefore j); [lia|done].
    + assert (list_find (fun o => o = None) (cache_of w) = Some (i, c)) as ->; [|done].
      apply list_find_Some. split_and!; [done|by apply Hoc|]. intros j y Hj Hlt. by apply (Hbefore j).
Qed.

(** The client's entry goes into a slot. *)
Lemma slot_put_inv own w i a p :
  pmksa_inv own w -> own !! a = Some p -> slots w !! i = Some None ->
  let w' := set_slots (<[i := Some a]> (slots w)) w in
  pmksa_inv (delete a own) w' /\ cache_of w' = <[i := Some p]> (cache_of w).
Proof.
  intros Hinv Ha Hi w'. pose proof (lookup_lt_Some _ _ _ Hi) as Hlt.
  assert (entries w !! a = Some p) as Hp by (eapply lookup_weaken; [done|apply Hinv]).
  assert (forall j b, slots w' !! j = Some (Some b) ->
    (j = i /\ b = a) \/ (j <> i /\ b <> a /\ slots w !! j = Some (Some b))) as Hlook.
  { intros j b. cbn. destruct (decide (i = j)) as [<-|Hne].
    - rewrite list_lookup_insert_eq by done. intros [= <-]. by left.
    - rewrite list_lookup_insert_ne by done. intros Hj. right. split_and!; [done| |done].
      intros ->. destruct (inv_held _ _ Hinv j a Hj). congruence. }
  split; [split|].
  - cbn. rewrite length_insert. apply Hinv.
  - intros j k b [[-> ->]|(? & ? & Hj)]%Hlook [[-> ?]|(? & ? & Hk)]%Hlook; try done. by eapply inv_once.
  - cbn. etrans; [apply delete_subseteq|apply Hinv].
  - intros j b [[-> ->]|(? & ? & Hj)]%Hlook; cbn.
    + split; [by eexists|]. apply lookup_delete_eq.
    + rewrite lookup_delete_ne by done. by apply (inv_held _ _ Hinv j).
  - intros b Hb. destruct (decide (b = a)) as [->|Hne].
    + right. exists i. cbn. by rewrite list_lookup_insert_eq.
    + rewrite lookup_delete_ne by done. destruct (inv_all _ _ Hinv b Hb) as [|[j Hj]]; [by left|].
      right. exists j. cbn. rewrite list_lookup_insert_ne; [done|congruence].
  - apply Hinv.
  - unfold cache_of. cbn. rewrite list_fmap_insert. cbn. by rewrite Hp.
Qed.

Lemma set_at own w a p :
  pmksa_inv own w -> own !! a = Some p ->
  match c_place p (cache_of w) with
  | Some i => exists w', wlan_crypto_set_pmksa a w = Ret QDF_STATUS_SUCCESS w' /\
                pmksa_inv (delete a own) w' /\ cache_of w' = <[i := Some p]> (c_del p (cache_of w)) /\
                slots w' !! i = Some (Some a)
  | None => exists w', wlan_crypto_set_pmksa a w = Ret QDF_STATUS_E_INVAL w' /\
                pmksa_inv own w' /\ cache_of w' = c_del p (cache_of w)
  end.
Proof.
  intros Hinv Ha.
  assert (entries w !! a = Some p) as Hp by (eapply lookup_weaken; [done|apply Hinv]).
  destruct (del_spec own w a p Hinv Hp) as (w1 & E1 & Hinv1 & Hc1).
  unfold c_place, wlan_crypto_set_pmksa. rewrite <- Hc1, (bind_ret _ _ _ _ _ E1).
  rewrite (bind_ret _ _ _ _ _
    (first_empty_spec own w1 WLAN_CRYPTO_MAX_PMKID 0 Hinv1 eq_refl ltac:(intros; lia))).
  destruct (list_find _ (cache_of w1)) as [[i o]|] eqn:Hf; cbn [fmap option_fmap option_map fst].
  - apply list_find_Some in Hf as (Hi & -> & _). rewrite cache_slot in Hi.
    apply fmap_Some in Hi as (o & Hi & Ho). destruct (empty_slot own w1 i o Hinv1 Hi) as (c & Hc & Hoc).
    rewrite cache_slot, Hi in Hc. cbn in Hc. rewrite (proj2 Hoc) in Hi by congruence.
    destruct (slot_put_inv own w1 i a p Hinv1 Ha Hi) as [Hinv2 Hc2].
    eexists. split_and!; [done|done|done|]. cbn. apply list_lookup_insert_eq. by eapply lookup_lt_Some.
  - by exists w1.
Qed.

Lemma set_spec own w a p :
  pmksa_inv own w -> own !! a = Some p ->
  match c_set p (cache_of w) with
  | Some c => exists w', wlan_crypto_set_pmksa a w = Ret QDF_STATUS_SUCCESS w' /\
                pmksa_inv (delete a own) w' /\ cache_of w' = c
  | None => exists w', wlan_crypto_set_pmksa a w = Ret QDF_STATUS_E_INVAL w' /\
                pmksa_inv own w' /\ cache_of w' = c_del p (cache_of w)
  end.
Proof.
  intros Hinv Ha. pose proof (set_at own w a p Hinv Ha) as H. unfold c_set.
  destruct (c_place p (cache_of w)); [|done]. cbn. destruct H as (w' & ? & ? & ? & _).
  by exists w'.
Qed.

Lemma flush_spec own w :
  pmksa_inv own w ->
  exists w', wlan_crypto_pmksa_flush w = Ret QDF_STATUS_SUCCESS w' /\ pmksa_inv own w' /\
    cache_of w' = c_map (fun _ => None) (cache_of w).
Proof.
  intros Hinv. destruct (all_slots own free_slot (fun _ => None) w) as (w' & E & Hinv' & Hc); [|done|].
  { intros w0 i a e H0 Hi Ha. by apply (free_if own w0 i a e true). }
  exists w'. unfold wlan_crypto_pmksa_flush. by rewrite (bind_ret _ _ _ _ _ E).
Qed.

Lemma clear_spec own w b :
  pmksa_inv own w ->
  exists w', wlan_crypto_selective_clear_sae_single_pmk_entries true b w = Ret tt w' /\ pmksa_inv own w' /\
    cache_of w' = c_map (drop_if (fun e => single_pmk_supported e && negb (bool_decide (b = bssid e)))) (cache_of w).
Proof.
  intros Hinv. apply all_slots; [|done]. intros w0 i a e H0 Hi Ha.
  rewrite (entry_eq _ _ _ _ Ha). by apply free_if.
Qed.

(** Changing a stored entry. *)
Lemma update_inv own w i a e' :
  pmksa_inv own w -> slots w !! i = Some (Some a) -> entry_ok e' ->
  let w' := set_entries (<[a := e']> (entries w)) w in
  pmksa_inv own w' /\ cache_of w' = <[i := Some e']> (cache_of w).
Proof.
  intros Hinv Hi He'. cbn. destruct (inv_held _ _ Hinv i a Hi) as [Ha Hown].
  assert (forall b, is_Some (<[a := e']> (entries w) !! b) <-> is_Some (entries w !! b)) as Hdom.
  { intros b. rewrite lookup_insert_is_Some'. split; [intros [<-|?]; done|by right]. }
  split; [split; cbn|].
  - apply Hinv.
  - apply Hinv.
  - apply insert_subseteq_r; [done|apply Hinv].
  - intros j b Hj. rewrite Hdom. by apply (inv_held _ _ Hinv j).
  - intros b. rewrite Hdom. apply Hinv.
  - by apply map_Forall_insert_2; [|apply Hinv].
  - unfold cache_of. cbn. apply list_eq. intros j. destruct (decide (i = j)) as [<-|Hne].
    + rewrite list_lookup_insert_eq by (rewrite length_fmap; by eapply lookup_lt_Some).
      rewrite list_lookup_fmap, Hi. cbn. by rewrite lookup_insert_eq.
    + rewrite list_lookup_insert_ne, !list_lookup_fmap by done.
      destruct (slots w !! j) as [[b|]|] eqn:Hj; cbn; try done. f_equal.
      apply lookup_insert_ne. intros ->. apply Hne. by eapply inv_once.
Qed.

Lemma cap_spec own w b capable :
  pmksa_inv own w ->
  exists w', wlan_crypto_set_sae_single_pmk_bss_cap true b capable w = Ret tt w' /\ pmksa_inv own w' /\
    cache_of w' =
      c_map (fun e => Some (if bool_decide (b = bssid e) then set_single_pmk capable e else e)) (cache_of w).
Proof.
  intros Hinv. apply all_slots; [|done]. intros w0 i a e H0 Hi Ha. rewrite (entry_eq _ _ _ _ Ha).
  destruct (bool_decide (b = bssid e)).
  - destruct (update_inv own w0 i a (set_single_pmk capable e) H0 Hi) as [Hinv' Hc];
      [exact (inv_wf _ _ H0 a e Ha)|]. by eexists.
  - by apply (free_if own w0 i a e false).
Qed.

(** The client allocates an entry, and frees one of its own. *)
Lemma entry_alloc_inv own w a p :
  pmksa_inv own w -> entries w !! a = None -> entry_ok p ->
  let w' := set_entries (<[a := p]> (entries w)) w in
  pmksa_inv (<[a := p]> own) w' /\ cache_of w' = cache_of w.
Proof.
  intros Hinv Ha Hp. cbn.
  assert (forall j b, slots w !! j = Some (Some b) -> a <> b) as Hne.
  { intros j b Hj <-. destruct (inv_held _ _ Hinv j a Hj) as [[? ?] _]. congruence. }
  split; [split; cbn|].
  - apply Hinv.
  - apply Hinv.
  - apply insert_mono, Hinv.
  - intros j b Hj. pose proof (Hne j b Hj). rewrite !lookup_insert_ne by done. by apply (inv_held _ _ Hinv j).
  - intros b. rewrite !lookup_insert_is_Some'. intros [->|Hb]; [by left; left|].
    destruct (inv_all _ _ Hinv b Hb); eauto.
  - apply map_Forall_insert_2; [done|apply Hinv].
  - unfold cache_of. cbn. apply list_fmap_ext. intros j o Hj. destruct o as [b|]; [|done]. cbn.
    apply lookup_insert_ne. by eapply Hne.
Qed.

Lemma free_inv own w a p :
  pmksa_inv own w -> own !! a = Some p ->
  exists w', free_entry a w = Ret tt w' /\ pmksa_inv (delete a own) w' /\ cache_of w' = cache_of w.
Proof.
  intros Hinv Ha. assert (entries w !! a = Some p) as Hp by (eapply lookup_weaken; [done|apply Hinv]).
  assert (forall j b, slots w !! j = Some (Some b) -> a <> b) as Hne.
  { intros j b Hj <-. destruct (inv_held _ _ Hinv j a Hj). congruence. }
  exists (set_entries (delete a (entries w)) w). split_and!.
  - unfold free_entry. by rewrite (entry_eq _ _ _ _ Hp).
  - split; cbn.
    + apply Hinv.
    + apply Hinv.
    + apply delete_mono, Hinv.
    + intros j b Hj. pose proof (Hne j b Hj). rewrite !lookup_delete_ne by done. by apply (inv_held _ _ Hinv j).
    + intros b [e Hb]. apply lookup_delete_Some in Hb as [? Hb]. rewrite lookup_delete_ne by done.
      apply (inv_all _ _ Hinv b). by eexists.
    + apply map_Forall_delete, Hinv.
  - unfold cache_of. cbn. apply list_fmap_ext. intros j o Hj. destruct o as [b|]; [|done]. cbn.
    apply lookup_delete_ne. by eapply Hne.
Qed.

End Slots.
