(* ===== verification/PmksaSpec.v ===== *)
(** * What the PMKSA cache promises

    Clients that allocate the entries they pass ([perform]) against an abstract cache
    ([cache_step]).  Theorems: any history runs to its end with the answers of the
    abstract cache, and every entry in memory is in exactly one slot; an entry that was
    set is the one that is found; and a set may leave a second, outdated entry for the
    same access point. *)
From S2P Require Import Prelude QdfTypes.
Import QdfTypes.Parse.
From S2P Require Import Ie Crypto CryptoIe Pmksa PmksaInv.

(** ** Histories

    A client has one entry at a time: it allocates it, hands it over or passes it to be
    compared, and frees it unless it was taken. *)

Inductive pmksa_call : Type :=
  | PSet (m : QDF_OPMODE) (e : wlan_crypto_pmksa)
  | PDel (m : QDF_OPMODE) (e : wlan_crypto_pmksa)
  | PFlush (m : QDF_OPMODE)
  | PGetPeer (e : wlan_crypto_pmksa)
  | PGet (b : list Z)
  | PClear (b : list Z)
  | PCap (b : list Z) (capable : bool).

Inductive pmksa_answer : Type :=
  | AStatus (st : QDF_STATUS)
  | AEntry (e : option wlan_crypto_pmksa)
  | ADone.

Definition call_entry_ok (c : pmksa_call) : Prop :=
  match c with PSet _ e | PDel _ e | PGetPeer e => entry_ok e | _ => True end.

Definition supported (m : QDF_OPMODE) : bool :=
  match m with QDF_STA_MODE | QDF_SAP_MODE => true | _ => false end.

Definition cache_step (call : pmksa_call) (c : cache) : pmksa_answer * cache :=
  match call with
  | PSet m e =>
      if supported m then
        match c_set e c with
        | Some c' => (AStatus QDF_STATUS_SUCCESS, c')
        | None => (AStatus QDF_STATUS_E_INVAL, c_del e c)
        end
      else (AStatus QDF_STATUS_E_NOSUPPORT, c)
  | PDel m e =>
      if supported m then (AStatus QDF_STATUS_SUCCESS, c_del e c) else (AStatus QDF_STATUS_E_NOSUPPORT, c)
  | PFlush m =>
      if supported m then (AStatus QDF_STATUS_SUCCESS, c_map (fun _ => None) c)
      else (AStatus QDF_STATUS_E_NOSUPPORT, c)
  | PGetPeer e => (AEntry (c_get (matches e) c), c)
  | PGet b => (AEntry (c_get (fun e => bool_decide (b = bssid e)) c), c)
  | PClear b =>
      (ADone, c_map (drop_if (fun e => single_pmk_supported e && negb (bool_decide (b = bssid e)))) c)
  | PCap b capable =>
      (ADone, c_map (fun e => Some (if bool_decide (b = bssid e) then set_single_pmk capable e else e)) c)
  end.

Fixpoint cache_run (calls : list pmksa_call) (c : cache) : list pmksa_answer * cache :=
  match calls with
  | [] => ([], c)
  | call :: calls =>
      let '(r, c') := cache_step call c in
      let '(rs, c'') := cache_run calls c' in (r :: rs, c'')
  end.

Section Client.
Context (alloc : gmap Z wlan_crypto_pmksa -> Z).
Abbreviation MW := (M pmksa_world).

Definition allocate (e : wlan_crypto_pmksa) : MW Z :=
  a ← gets (fun w => alloc (entries w));
  modify (fun w => set_entries (<[a := e]> (entries w)) w);;
  mret a.

Definition read_entry (o : option Z) : MW (option wlan_crypto_pmksa) :=
  match o with
  | None => mret None
  | Some a => e ← entry a; mret (Some e)
  end.

Definition perform (call : pmksa_call) : MW pmksa_answer :=
  match call with
  | PSet m e =>
      a ← allocate e;
      st ← wlan_crypto_set_del_pmksa m true (Some a) true;
      (if QDF_IS_STATUS_SUCCESS st then mret () else free_entry a);;
      mret (AStatus st)
  | PDel m e =>
      a ← allocate e;
      st ← wlan_crypto_set_del_pmksa m true (Some a) false;
      free_entry a;;
      mret (AStatus st)
  | PFlush m => st ← wlan_crypto_set_del_pmksa m true None false; mret (AStatus st)
  | PGetPeer e =>
      a ← allocate e;
      o ← wlan_crypto_get_peer_pmksa true (Some a);
      r ← read_entry o;
      free_entry a;;
      mret (AEntry r)
  | PGet b => o ← wlan_crypto_get_pmksa true (Some b); r ← read_entry o; mret (AEntry r)
  | PClear b => wlan_crypto_selective_clear_sae_single_pmk_entries true b;; mret ADone
  | PCap b capable => wlan_crypto_set_sae_single_pmk_bss_cap true b capable;; mret ADone
  end.

Fixpoint perform_all (calls : list pmksa_call) : MW (list pmksa_answer) :=
  match calls with
  | [] => mret []
  | call :: calls => r ← perform call; rs ← perform_all calls; mret (r :: rs)
  end.

Context (Hfresh : forall m, m !! alloc m = None).

Lemma allocate_spec w e :
  pmksa_inv ∅ w -> entry_ok e ->
  exists a w', allocate e w = Ret a w' /\ pmksa_inv {[a := e]} w' /\ cache_of w' = cache_of w.
Proof.
  intros Hinv He. destruct (entry_alloc_inv ∅ w (alloc (entries w)) e Hinv (Hfresh _) He) as [Hi Hc].
  by exists (alloc (entries w)), (set_entries (<[alloc (entries w) := e]> (entries w)) w).
Qed.

Lemma free_own w a e :
  pmksa_inv {[a := e]} w ->
  exists w', free_entry a w = Ret tt w' /\ pmksa_inv ∅ w' /\ cache_of w' = cache_of w.
Proof.
  intros Hinv. destruct (free_inv _ w a e Hinv) as (w' & E & Hinv' & Hc); [apply lookup_singleton_eq|].
  exists w'. by rewrite delete_singleton_eq in Hinv'.
Qed.

Lemma own_in_memory w a e : pmksa_inv {[a := e]} w -> entries w !! a = Some e.
Proof. intros Hinv. eapply lookup_weaken; [|apply Hinv]. apply lookup_singleton_eq. Qed.

Lemma read_found {B} own w test P (k : option wlan_crypto_pmksa -> MW B) :
  pmksa_inv own w ->
  (forall j a e, slots w !! j = Some (Some a) -> entries w !! a = Some e -> test a w = Ret (P e) w) ->
  (o ← (found ← find_slot WLAN_CRYPTO_MAX_PMKID 0 test; mret (snd <$> found)); r ← read_entry o; k r) w =
    k (c_get P (cache_of w)) w.
Proof.
  intros Hinv Htest. destruct (get_spec own w test P Hinv Htest) as (r & E & Hr & Hsome).
  rewrite (bind_ret _ _ _ _ _ E). destruct r as [a|]; cbn [mbind option_bind] in Hr; cbn [read_entry].
  - destruct (proj1 Hsome ltac:(by eexists)) as [e He]. rewrite He in Hr |- *.
    by rewrite bind_assoc, (entry_eq _ _ _ _ Hr).
  - by rewrite <- Hr.
Qed.

Lemma mode_unsupported m crypto arg set :
  supported m = false -> wlan_crypto_set_del_pmksa m crypto arg set = mret QDF_STATUS_E_NOSUPPORT.
Proof. by destruct m. Qed.

Lemma set_refines w m e :
  pmksa_inv ∅ w -> entry_ok e ->
  exists w', perform (PSet m e) w = Ret (fst (cache_step (PSet m e) (cache_of w))) w' /\
    pmksa_inv ∅ w' /\ cache_of w' = snd (cache_step (PSet m e) (cache_of w)).
Proof.
  intros Hinv He. destruct (allocate_spec w e Hinv He) as (a & w1 & E1 & Hinv1 & <-).
  cbn [perform cache_step]. rewrite (bind_ret _ _ _ _ _ E1).
  pose proof (set_spec _ w1 a e Hinv1 (lookup_singleton_eq _ _)) as Hset.
  destruct (supported m) eqn:Hm.
  - assert (wlan_crypto_set_del_pmksa m true (Some a) true = wlan_crypto_set_pmksa a) as ->
      by (by destruct m).
    destruct (c_set e (cache_of w1)) as [c|].
    + destruct Hset as (w2 & E2 & Hinv2 & <-). rewrite (bind_ret _ _ _ _ _ E2).
      exists w2. rewrite delete_singleton_eq in Hinv2. done.
    + destruct Hset as (w2 & E2 & Hinv2 & <-). rewrite (bind_ret _ _ _ _ _ E2).
      destruct (free_own w2 a e Hinv2) as (w3 & E3 & Hinv3 & <-).
      exists w3. cbn [QDF_IS_STATUS_SUCCESS]. by rewrite (bind_ret _ _ _ _ _ E3).
  - rewrite (mode_unsupported _ _ _ _ Hm). destruct (free_own w1 a e Hinv1) as (w3 & E3 & Hinv3 & <-).
    exists w3. split_and!; [|done..]. cbn. exact (bind_ret (free_entry a) _ _ _ _ E3).
Qed.

Lemma del_refines w m e :
  pmksa_inv ∅ w -> entry_ok e ->
  exists w', perform (PDel m e) w = Ret (fst (cache_step (PDel m e) (cache_of w))) w' /\
    pmksa_inv ∅ w' /\ cache_of w' = snd (cache_step (PDel m e) (cache_of w)).
Proof.
  intros Hinv He. destruct (allocate_spec w e Hinv He) as (a & w1 & E1 & Hinv1 & <-).
  cbn [perform cache_step]. rewrite (bind_ret _ _ _ _ _ E1).
  destruct (supported m) eqn:Hm.
  - assert (wlan_crypto_set_del_pmksa m true (Some a) false = wlan_crypto_del_pmksa a) as ->
      by (by destruct m).
    destruct (del_spec _ w1 a e Hinv1 (own_in_memory _ _ _ Hinv1)) as (w2 & E2 & Hinv2 & <-).
    rewrite (bind_ret _ _ _ _ _ E2). destruct (free_own w2 a e Hinv2) as (w3 & E3 & Hinv3 & <-).
    exists w3. by rewrite (bind_ret _ _ _ _ _ E3).
  - rewrite (mode_unsupported _ _ _ _ Hm). destruct (free_own w1 a e Hinv1) as (w3 & E3 & Hinv3 & <-).
    exists w3. split_and!; [|done..]. cbn. exact (bind_ret (free_entry a) _ _ _ _ E3).
Qed.

(** One call of a client. *)
Lemma perform_spec w call :
  pmksa_inv ∅ w -> call_entry_ok call ->
  exists w', perform call w = Ret (fst (cache_step call (cache_of w))) w' /\ pmksa_inv ∅ w' /\
    cache_of w' = snd (cache_step call (cache_of w)).
Proof.
  intros Hinv Hok. destruct call as [m e|m e|m|e|b|b|b capable].
  - by apply set_refines.
  - by apply del_refines.
  - destruct (flush_spec _ w Hinv) as (w' & E & Hinv' & Hc).
    cbn [perform cache_step]. destruct (supported m) eqn:Hm.
    + exists w'. destruct m; try done; cbn; by rewrite (bind_ret _ _ _ _ _ E).
    + exists w. by rewrite (mode_unsupported _ _ _ _ Hm).
  - destruct (allocate_spec w e Hinv Hok) as (a & w1 & E1 & Hinv1 & <-).
    cbn [perform cache_step]. rewrite (bind_ret _ _ _ _ _ E1). unfold wlan_crypto_get_peer_pmksa.
    rewrite (read_found _ w1 (pmksa_match a) (matches e) _ Hinv1) by eauto using match_eq, own_in_memory.
    destruct (free_own w1 a e Hinv1) as (w3 & E3 & Hinv3 & Hc).
    exists w3. by rewrite (bind_ret _ _ _ _ _ E3).
  - exists w. cbn [perform cache_step]. unfold wlan_crypto_get_pmksa.
    by rewrite (read_found ∅ w (bssid_is b) (fun e => bool_decide (b = bssid e)) _ Hinv)
      by eauto using bssid_eq.
  - destruct (clear_spec _ w b Hinv) as (w' & E & Hinv' & Hc). exists w'. cbn [perform].
    by rewrite (bind_ret _ _ _ _ _ E).
  - destruct (cap_spec _ w b capable Hinv) as (w' & E & Hinv' & Hc). exists w'. cbn [perform].
    by rewrite (bind_ret _ _ _ _ _ E).
Qed.

(** C11: A client of the PMKSA cache that allocates each entry it passes, and frees it
    unless the cache took it, may make any calls in any order: none of them reads or
    frees memory that is not there, their answers are those of sixteen places for
    values, the cache holds what these hold, and every entry in memory is in exactly
    one slot, so that nothing leaks and nothing is freed twice. *)
Theorem pmksa_refines calls w :
  pmksa_inv ∅ w -> Forall call_entry_ok calls ->
  exists w', perform_all calls w = Ret (fst (cache_run calls (cache_of w))) w' /\
    cache_of w' = snd (cache_run calls (cache_of w)) /\ pmksa_inv ∅ w'.
Proof.
  intros Hinv Hok. revert w Hinv. induction Hok as [|call calls Hcall _ IH]; intros w Hinv; [by exists w|].
  destruct (perform_spec w call Hinv Hcall) as (w1 & E1 & Hinv1 & Hc1).
  destruct (IH w1 Hinv1) as (w2 & E2 & Hc2 & Hinv2). exists w2.
  cbn [perform_all cache_run]. rewrite (bind_ret _ _ _ _ _ E1), (bind_ret _ _ _ _ _ E2).
  destruct (cache_step call (cache_of w)) as [r c]. cbn [fst snd] in *. rewrite <- Hc1.
  by destruct (cache_run calls (cache_of w1)).
Qed.
End Client.

Definition empty_world : pmksa_world := PmksaWorld ∅ (replicate WLAN_CRYPTO_MAX_PMKID None).

Lemma empty_inv : pmksa_inv ∅ empty_world.
Proof.
  assert (forall i o, slots empty_world !! i = Some o -> o = None) as H.
  { intros i o [-> _]%lookup_replicate. done. }
  split; cbn.
  - done.
  - by intros i j a Hi%H.
  - done.
  - by intros i a Hi%H.
  - intros a [e He]. by rewrite lookup_empty in He.
  - apply map_Forall_empty.
Qed.

Definition example_entry (b s c k : Z) : wlan_crypto_pmksa :=
  Pmksa (replicate 6 b) (replicate 16 0) (replicate 64 k) 32 1 (replicate 32 s) (replicate 2 c) false.

Lemma example_ok b s c k : entry_ok (example_entry b s c k).
Proof. unfold entry_ok. cbn. split_and!; (done || lia). Qed.

Lemma pmksa_refines_witness :
  exists w', perform_all (fun m => fresh (dom m))
      [PSet QDF_STA_MODE (example_entry 1 1 1 1); PGet (replicate 6 1); PFlush QDF_STA_MODE] empty_world =
    Ret [AStatus QDF_STATUS_SUCCESS; AEntry (Some (example_entry 1 1 1 1)); AStatus QDF_STATUS_SUCCESS] w' /\
    cache_of w' = replicate 16 None /\ pmksa_inv ∅ w'.
Proof.
  apply (pmksa_refines (fun m => fresh (dom m))
    (fun m => proj1 (not_elem_of_dom m _) (is_fresh (dom m)))
    [PSet QDF_STA_MODE (example_entry 1 1 1 1); PGet (replicate 6 1); PFlush QDF_STA_MODE]
    empty_world empty_inv).
  repeat constructor; (apply example_ok || done).
Defined.

(** ** What a set leaves *)

Lemma matches_self p : matches p p = true.
Proof. unfold matches. by rewrite bool_decide_true. Qed.

(** Deleting changes nothing but that entries go. *)
Lemma c_del_lookup p c i :
  c_del p c !! i = c !! i \/ c_del p c !! i = Some None /\ is_Some (c !! i).
Proof.
  unfold c_del. destruct (c_find (matches p) c) as [[j [e|]]|]; try by left.
  unfold c_map. rewrite list_lookup_fmap. destruct (decide (j = i)) as [->|Hne].
  - destruct (decide (i < length c)%nat) as [Hlt|].
    + rewrite list_lookup_insert_eq by done. right. split; [done|]. by apply lookup_lt_is_Some.
    + left. rewrite list_insert_ge by lia. by rewrite lookup_ge_None_2 by lia.
  - rewrite list_lookup_insert_ne by done. destruct (c !! i) as [[e'|]|]; cbn; [|by left..].
    unfold drop_if. destruct (same_key e e'); [by right|by left].
Qed.

Lemma c_del_found p c k o : c_find (matches p) c = Some (k, o) -> c_del p c !! k = Some None.
Proof.
  intros Hf. unfold c_del. rewrite Hf. apply list_find_Some in Hf as (Hk & Ho & _).
  destruct o as [e|]; [|done]. unfold c_map.
  rewrite list_lookup_fmap, list_lookup_insert_eq; [done|by eapply lookup_lt_Some].
Qed.

(** The entries in front of the place of a new one do not match it. *)
Lemma before_place p c i :
  c_place p c = Some i ->
  (i < length c)%nat /\
  forall j o, (j < i)%nat -> c_del p c !! j = Some o -> exists e, o = Some e /\ matches p e = false.
Proof.
  intros Hp. apply fmap_Some in Hp as ([i' o'] & Hf & ->). apply list_find_Some in Hf as (Hi & -> & Hbefore).
  cbn [fst]. split.
  { destruct (c_del_lookup p c i') as [E|[_ [? E]]];
      [rewrite E in Hi; by eapply lookup_lt_Some|by eapply lookup_lt_Some]. }
  intros j o Hj Ho. destruct o as [e|]; [|by destruct (Hbefore j None Ho Hj)]. exists e. split; [done|].
  destruct (matches p e) eqn:Hm; [|done]. exfalso.
  assert (c !! j = Some (Some e)) as Hcj by (destruct (c_del_lookup p c j) as [E|[E _]]; congruence).
  destruct (c_find (matches p) c) as [[k ok]|] eqn:Hfind.
  - pose proof Hfind as Hk. apply list_find_Some in Hk as (Hk & Hok & Hfirst).
    destruct (decide (j < k)%nat) as [Hlt|]; [by apply (Hfirst j _ Hcj Hlt)|].
    apply (Hbefore k None); [by eapply c_del_found|lia|done].
  - apply list_find_None in Hfind. by apply (Forall_lookup_1 _ _ _ _ Hfind Hcj).
Qed.

Lemma found_at own w test P a i p :
  pmksa_inv own w ->
  (forall j a e, slots w !! j = Some (Some a) -> entries w !! a = Some e -> test a w = Ret (P e) w) ->
  slots w !! i = Some (Some a) -> cache_of w !! i = Some (Some p) -> P p = true ->
  (forall j o, (j < i)%nat -> cache_of w !! j = Some o -> ~ holds P o) ->
  (found ← find_slot WLAN_CRYPTO_MAX_PMKID 0 test; mret (snd <$> found)) w = Ret (Some a) w.
Proof.
  intros Hinv Htest Hi Hc HP Hbefore. pose proof (search own w test P Hinv Htest) as Hs.
  assert (c_find P (cache_of w) = Some (i, Some p)) as Hf by 
    (apply list_find_Some; split_and!; [done..|]; intros j y Hj Hlt; by apply (Hbefore j)).
  rewrite Hf in Hs. destruct Hs as (b & e & Hb & _ & _ & E). rewrite (bind_ret _ _ _ _ _ E).
  assert (b = a) as -> by congruence. done.
Qed.

(** Whether there is a place for an entry: one that is free, or that of an entry that it
    replaces. *)
Definition has_place (p : wlan_crypto_pmksa) (c : cache) : Prop :=
  None ∈ c \/ exists e, Some e ∈ c /\ matches p e = true.

Lemma place_iff p c : has_place p c <-> is_Some (c_place p c).
Proof.
  unfold c_place. rewrite fmap_is_Some. split.
  - intros Hp. assert (None ∈ c_del p c) as Hnone; [|by eapply list_find_elem_of].
    destruct Hp as [[i Hi]%list_elem_of_lookup_1|(e & He & Hm)].
    + apply (list_elem_of_lookup_2 _ i). destruct (c_del_lookup p c i) as [E|[E _]]; congruence.
    + destruct (list_find_elem_of (holds (matches p)) c (Some e) He Hm) as [[k o] Hf].
      apply (list_elem_of_lookup_2 _ k). by eapply c_del_found.
  - intros [[i o] (Hi & -> & _)%list_find_Some]. destruct (c_find (matches p) c) as [[k o]|] eqn:Hf.
    + apply list_find_Some in Hf as (Hk & Ho & _). right. destruct o as [e|]; [|done].
      exists e. split; [by apply (list_elem_of_lookup_2 _ k)|done].
    + left. unfold c_del in Hi. rewrite Hf in Hi. by apply (list_elem_of_lookup_2 _ i).
Qed.

Lemma no_place_del p c : ~ has_place p c -> c_del p c = c.
Proof.
  intros Hno. unfold c_del. destruct (c_find (matches p) c) as [[k o]|] eqn:Hf; [|done].
  apply list_find_Some in Hf as (Hk & Ho & _). destruct o as [e|]; [|done].
  destruct Hno. right. exists e. split; [by apply (list_elem_of_lookup_2 _ k)|done].
Qed.

Lemma not_before w i p (P : wlan_crypto_pmksa -> bool) (c : cache) :
  c_place p c = Some i -> cache_of w = <[i := Some p]> (c_del p c) ->
  (forall e, P e = true -> matches p e = true) ->
  forall j o, (j < i)%nat -> cache_of w !! j = Some o -> ~ holds P o.
Proof.
  intros Hp -> HP j o Hj Ho. rewrite list_lookup_insert_ne in Ho by lia.
  destruct (proj2 (before_place p c i Hp) j o Hj Ho) as (e & -> & Hm).
  intros HPe. apply HP in HPe. congruence.
Qed.

(** C20: Setting an entry of the client succeeds exactly when a slot is free or holds an
    entry for the same access point or FILS network, and then looking for its access
    point, by address or by the entry, finds this entry and not an older one, and the RSN
    element built for the access point carries its PMKID; when it fails the entry is
    still the client's and the cache is unchanged. *)
Theorem pmksa_set_then_get own w a p :
  pmksa_inv own w -> own !! a = Some p ->
  (has_place p (cache_of w) -> exists w',
     wlan_crypto_set_pmksa a w = Ret QDF_STATUS_SUCCESS w' /\ pmksa_inv (delete a own) w' /\
     wlan_crypto_get_pmksa true (Some (bssid p)) w' = Ret (Some a) w' /\
     wlan_crypto_get_peer_pmksa true (Some a) w' = Ret (Some a) w' /\
     forall c buf, wlan_crypto_build_rsnie (Some c) (Some buf) (Some (bssid p)) w' =
                   Ret (write_element buf (rsnie_of c (Some (pmkid p)))) w') /\
  (~ has_place p (cache_of w) -> exists w',
     wlan_crypto_set_pmksa a w = Ret QDF_STATUS_E_INVAL w' /\ pmksa_inv own w' /\
     cache_of w' = cache_of w).
Proof.
  intros Hinv Ha. pose proof (set_at own w a p Hinv Ha) as Hset. pose proof (place_iff p (cache_of w)) as Hiff.
  destruct (c_place p (cache_of w)) as [i|] eqn:Hplace; split; intros Hp.
  - destruct Hset as (w' & E & Hinv' & Hc & Hi). exists w'.
    pose proof (before_place _ _ _ Hplace) as [Hlt _].
    assert (cache_of w' !! i = Some (Some p)) as Hci.
    { rewrite Hc. apply list_lookup_insert_eq. destruct (c_del_lookup p (cache_of w) i) as [E'|[E' _]];
        [|by eapply lookup_lt_Some]. apply lookup_lt_is_Some. rewrite E'. by apply lookup_lt_is_Some. }
    assert (entries w' !! a = Some p) as Hp'.
    { rewrite cache_slot, Hi in Hci. cbn in Hci. by injection Hci. }
    assert (wlan_crypto_get_pmksa true (Some (bssid p)) w' = Ret (Some a) w') as Hget.
    { apply (found_at _ _ _ (fun e => bool_decide (bssid p = bssid e)) _ i p Hinv');
        eauto using bssid_eq, bool_decide_eq_true_2.
      eapply not_before; [done..|]. intros e He. unfold matches. by rewrite He. }
    split_and!; [done..| |]; cbn [wlan_crypto_get_peer_pmksa].
    + apply (found_at _ _ _ (matches p) _ i p Hinv'); eauto using match_eq, matches_self.
      by eapply not_before.
    + intros c buf. unfold wlan_crypto_build_rsnie.
      by rewrite (bind_ret _ _ _ _ _ Hget), bind_assoc, (entry_eq _ _ _ _ Hp').
  - destruct Hp. apply Hiff. by eexists.
  - apply Hiff in Hp as [? [=]].
  - destruct Hset as (w' & E & Hinv' & Hc). exists w'. by rewrite no_place_del in Hc.
Qed.

Lemma pmksa_set_then_get_witness :
  exists w', wlan_crypto_set_pmksa 5 (PmksaWorld {[5 := example_entry 1 1 1 1]} (replicate 16 None)) =
      Ret QDF_STATUS_SUCCESS w' /\ wlan_crypto_get_pmksa true (Some (replicate 6 1)) w' = Ret (Some 5) w'.
Proof.
  destruct (entry_alloc_inv ∅ empty_world 5 (example_entry 1 1 1 1) empty_inv eq_refl (example_ok 1 1 1 1)) as [Hinv _].
  destruct (pmksa_set_then_get _ _ 5 _ Hinv eq_refl) as [H _].
  destruct H as (w' & E & _ & G & _).
  - left. apply (list_elem_of_lookup_2 _ 0%nat). reflexivity.
  - exists w'. split; [exact E|exact G].
Defined.

(** ** Outdated entries *)

(** An entry that takes the place of one of its FILS network stays beside an older entry
    for its own access point, which is found when the new one is deleted. *)
Lemma set_leaves_outdated :
  let calls := [PSet QDF_STA_MODE (example_entry 1 1 1 1); PSet QDF_STA_MODE (example_entry 2 2 2 2);
                PSet QDF_STA_MODE (example_entry 2 1 1 3)] in
  take 3 (snd (cache_run calls (replicate 16 None))) =
    [Some (example_entry 2 1 1 3); Some (example_entry 2 2 2 2); None] /\
  fst (cache_step (PGet (replicate 6 2))
        (snd (cache_run (calls ++ [PDel QDF_STA_MODE (example_entry 2 1 1 3)]) (replicate 16 None)))) =
    AEntry (Some (example_entry 2 2 2 2)).
Proof. vm_compute. done. Qed.

(** An entry that is in a slot must not be set again: it is freed and stored. *)
Lemma set_twice_frees_what_it_stores :
  exists w', wlan_crypto_set_pmksa 5
      (PmksaWorld {[5 := example_entry 1 1 1 1]} (Some 5 :: replicate 15 None)) =
    Ret QDF_STATUS_SUCCESS w' /\ slots w' !! 0%nat = Some (Some 5) /\ entries w' !! 5 = None /\
    wlan_crypto_pmksa_flush w' = Crash.
Proof. eexists. split; [vm_compute; reflexivity|]. done. Qed.
