(* ===== verification/Nol.v ===== *)
(** * The non-occupancy list: umac/dfs/core/src/misc/dfs_nol.c

    A channel on which radar was detected must not be used for a time.  The list has an
    element per channel, linked by [nol_next], with a timer that takes it off again; a
    removed element waits in a second list for a work item that frees it, since a timer's
    handler must not free the timer.

    [nol_world] is the memory of the elements, by address, with both lists; the clock;
    and what the rest of the driver was told.  A timer goes off not before its time, and
    its handler is in two parts, since it takes the lock of the list only for the first:
    other routines may run before it gets the lock and after it gave it back.  Waiting for
    a timer ([qdf_timer_free]) runs its handler to the end.

    Timers are not scaled ([qdf_timer_get_multiplier] is one).  Left out are the history of
    the list for stations, and [utils_dfs_save_nol], which hands a copy of the list to the
    platform. *)
From S2P Require Import Prelude.

(** ** Data *)

Definition DFS_NOL_TIMEOUT_S : Z := 30 * 60.
Definition DFS_CHAN_MAX : nat := 25.
Definition NUM_CHANNELS_160MHZ : nat := 8.
(** [WLAN_UMAC_MAX_PDEVS] *)
Definition NOL_MAX_PDEVS : nat := 3.

(** [struct dfs_nolelem]; [nol_timer] is the time at which the timer goes off. *)
Record dfs_nolelem : Type := Nolelem {
  nol_freq : Z;
  nol_chwidth : Z;
  nol_start_us : Z;
  nol_timeout_ms : Z;
  nol_timer : option Z;
  nol_next : option Z;
}.

(** [struct dfsreq_nolelem] *)
Record dfsreq_nolelem : Type := ReqElem {
  req_freq : Z;
  req_chwidth : Z;
  req_start_us : Z;
  req_timeout_ms : Z;
}.

(** How far the handler of a timer is: before and after the part that has the lock. *)
Inductive stage : Type := Fired | Deleted.

Record handler : Type := Handler {
  h_elem : Z;
  h_freq : Z;
  h_width : Z;
  h_stage : stage;
}.

(** What other components are told; the marks of the regulatory component and the list of
    the driver layer are in the world. *)
Inductive nol_event : Type :=
  | NolStarted (freq : Z)
  | NolFinished (freq : Z)
  | NolTimeoutNotification
  | UnmarkPrecac (freq : Z)
  | RcacStart.

Record nol_world : Type := NolWorld {
  nol_mem : gmap Z dfs_nolelem;
  dfs_nol : option Z;
  dfs_nol_count : Z;
  dfs_nol_free_list : list Z;
  free_work : bool;
  wlan_dfs_nol_timeout : Z;
  nol_clock : Z;
  handlers : list handler;
  reg_nol : gset Z;
  clist : list dfsreq_nolelem;
  psoc_nol : option (list dfsreq_nolelem);
  nol_events : list nol_event;
}.

Section Setters.
Implicit Types w : nol_world.

Definition set_mem v w := NolWorld v (dfs_nol w) (dfs_nol_count w) (dfs_nol_free_list w) (free_work w)
  (wlan_dfs_nol_timeout w) (nol_clock w) (handlers w) (reg_nol w) (clist w) (psoc_nol w) (nol_events w).
Definition set_head v w := NolWorld (nol_mem w) v (dfs_nol_count w) (dfs_nol_free_list w) (free_work w)
  (wlan_dfs_nol_timeout w) (nol_clock w) (handlers w) (reg_nol w) (clist w) (psoc_nol w) (nol_events w).
Definition set_count v w := NolWorld (nol_mem w) (dfs_nol w) v (dfs_nol_free_list w) (free_work w)
  (wlan_dfs_nol_timeout w) (nol_clock w) (handlers w) (reg_nol w) (clist w) (psoc_nol w) (nol_events w).
Definition set_free_list v w := NolWorld (nol_mem w) (dfs_nol w) (dfs_nol_count w) v (free_work w)
  (wlan_dfs_nol_timeout w) (nol_clock w) (handlers w) (reg_nol w) (clist w) (psoc_nol w) (nol_events w).
Definition set_work v w := NolWorld (nol_mem w) (dfs_nol w) (dfs_nol_count w) (dfs_nol_free_list w) v
  (wlan_dfs_nol_timeout w) (nol_clock w) (handlers w) (reg_nol w) (clist w) (psoc_nol w) (nol_events w).
Definition set_nol_timeout v w := NolWorld (nol_mem w) (dfs_nol w) (dfs_nol_count w) (dfs_nol_free_list w)
  (free_work w) v (nol_clock w) (handlers w) (reg_nol w) (clist w) (psoc_nol w) (nol_events w).
Definition set_clock v w := NolWorld (nol_mem w) (dfs_nol w) (dfs_nol_count w) (dfs_nol_free_list w)
  (free_work w) (wlan_dfs_nol_timeout w) v (handlers w) (reg_nol w) (clist w) (psoc_nol w) (nol_events w).
Definition set_handlers v w := NolWorld (nol_mem w) (dfs_nol w) (dfs_nol_count w) (dfs_nol_free_list w)
  (free_work w) (wlan_dfs_nol_timeout w) (nol_clock w) v (reg_nol w) (clist w) (psoc_nol w) (nol_events w).
Definition set_reg v w := NolWorld (nol_mem w) (dfs_nol w) (dfs_nol_count w) (dfs_nol_free_list w)
  (free_work w) (wlan_dfs_nol_timeout w) (nol_clock w) (handlers w) v (clist w) (psoc_nol w) (nol_events w).
Definition set_clist v w := NolWorld (nol_mem w) (dfs_nol w) (dfs_nol_count w) (dfs_nol_free_list w)
  (free_work w) (wlan_dfs_nol_timeout w) (nol_clock w) (handlers w) (reg_nol w) v (psoc_nol w) (nol_events w).
Definition set_psoc_nol v w := NolWorld (nol_mem w) (dfs_nol w) (dfs_nol_count w) (dfs_nol_free_list w)
  (free_work w) (wlan_dfs_nol_timeout w) (nol_clock w) (handlers w) (reg_nol w) (clist w) v (nol_events w).
Definition set_events v w := NolWorld (nol_mem w) (dfs_nol w) (dfs_nol_count w) (dfs_nol_free_list w)
  (free_work w) (wlan_dfs_nol_timeout w) (nol_clock w) (handlers w) (reg_nol w) (clist w) (psoc_nol w) v.

End Setters.

Section Elem.
Implicit Types e : dfs_nolelem.

Definition set_next n e :=
  Nolelem (nol_freq e) (nol_chwidth e) (nol_start_us e) (nol_timeout_ms e) (nol_timer e) n.
Definition set_timer t e :=
  Nolelem (nol_freq e) (nol_chwidth e) (nol_start_us e) (nol_timeout_ms e) t (nol_next e).
Definition set_start s t e :=
  Nolelem (nol_freq e) (nol_chwidth e) s t (nol_timer e) (nol_next e).

End Elem.

(** ** Operations *)

Section Ops.

(** Memory for an element, or none; whether there is memory for an array; and which
    channels need radar detection. *)
Context (alloc : nol_world -> option Z) (alloc_array : nol_world -> bool) (is_dfs : Z -> bool).

Abbreviation MN := (M nol_world).
Implicit Types (p freq : Z) (ptr loc : option Z) (fuel : nat).

Definition read_elem p : MN dfs_nolelem := o ← gets (fun w => nol_mem w !! p); deref o.
Definition write_elem p (f : dfs_nolelem -> dfs_nolelem) : MN unit :=
  e ← read_elem p; modify (fun w => set_mem (<[p := f e]> (nol_mem w)) w).

(** One round more than there are elements. *)
Definition rounds : MN nat := gets (fun w => S (size (nol_mem w))).

Definition emit (ev : nol_event) : MN unit := modify (fun w => set_events (nol_events w ++ [ev]) w).

(** [utils_dfs_reg_update_nol_chan_for_freq] with [DFS_NOL_SET] and [DFS_NOL_RESET]. *)
Definition reg_nol_set (fs : list Z) : MN unit :=
  modify (fun w => set_reg (list_to_set fs ∪ reg_nol w) w).
Definition reg_nol_reset (fs : list Z) : MN unit :=
  modify (fun w => set_reg (reg_nol w ∖ list_to_set fs) w).

(** *** Timers *)

Definition qdf_timer_stop p : MN unit := write_elem p (set_timer None).
(** A delay that is negative as an [int] is taken for the longest there is, in ticks of a
    millisecond. *)
Definition MAX_JIFFY_OFFSET_US : Z := 2 ^ 62 * 1000.
Definition qdf_timer_mod p (msec : Z) : MN unit :=
  t ← gets nol_clock;
  write_elem p (set_timer (Some (t + (if msec <? 2 ^ 31 then msec * 1000 else MAX_JIFFY_OFFSET_US)))).

(** *** The list *)

(** [*prev_next = v]: in the head, or in the element before. *)
Definition write_next loc (v : option Z) : MN unit :=
  match loc with
  | None => modify (set_head v)
  | Some q => write_elem q (set_next v)
  end.

(** The loop of [dfs_nol_delete], at the element [ptr] that [loc] points to. *)
Fixpoint delete_loop fuel loc ptr (delfreq delchwidth : Z) : MN unit :=
  match fuel with
  | O => out_of_fuel
  | S fuel' =>
      match ptr with
      | None => mret ()
      | Some p =>
          e ← read_elem p;
          if (nol_freq e =? delfreq) && (nol_chwidth e =? delchwidth) then
            write_next loc (nol_next e);;
            modify (fun w => set_free_list (dfs_nol_free_list w ++ [p]) w);;
            modify (fun w => set_count (Z.max 0 (dfs_nol_count w - 1)) w);;
            delete_loop fuel' loc (nol_next e) delfreq delchwidth
          else delete_loop fuel' (Some p) (nol_next e) delfreq delchwidth
      end
  end.

Definition dfs_nol_delete (delfreq delchwidth : Z) : MN unit :=
  n ← rounds; head ← gets dfs_nol; delete_loop n None head delfreq delchwidth.

Definition DFS_NOL_DELETE_CHAN_LOCKED (delfreq delchwidth : Z) : MN unit :=
  dfs_nol_delete delfreq delchwidth;; modify (set_work true).

(** [dfs_get_nol] into an array of [cap] elements. *)
Fixpoint get_loop fuel ptr (cap : nat) (acc : list dfsreq_nolelem) : MN (list dfsreq_nolelem) :=
  match fuel with
  | O => out_of_fuel
  | S fuel' =>
      match ptr with
      | None => mret acc
      | Some p =>
          e ← read_elem p;
          if (length acc <? cap)%nat then
            get_loop fuel' (nol_next e) cap
              (acc ++ [ReqElem (wrap 16 (nol_freq e)) (wrap 16 (nol_chwidth e)) (nol_start_us e)
                         (nol_timeout_ms e)])
          else crash
      end
  end.

Definition dfs_get_nol (cap : nat) : MN (list dfsreq_nolelem) :=
  n ← rounds; head ← gets dfs_nol; get_loop n head cap [].

Definition dfs_getnol : MN (list dfsreq_nolelem) := dfs_get_nol DFS_CHAN_MAX.

(** The list goes to the driver layer, in an array of [dfs_nol_count] elements. *)
Definition dfs_nol_update : MN unit :=
  count ← gets dfs_nol_count;
  if count =? 0 then modify (set_clist [])
  else
    ok ← gets alloc_array;
    if (ok : bool) then
      l ← dfs_get_nol (Z.to_nat count); modify (set_clist l)
    else mret ().

(** The search of [dfs_nol_addchan]: the element, or else the last one. *)
Fixpoint find_elem fuel ptr (prev : option Z) freq (ch_width : Z) : MN (option Z * option Z) :=
  match fuel with
  | O => out_of_fuel
  | S fuel' =>
      match ptr with
      | None => mret (None, prev)
      | Some p =>
          e ← read_elem p;
          if (nol_freq e =? freq) && (nol_chwidth e =? ch_width) then mret (Some p, prev)
          else find_elem fuel' (nol_next e) (Some p) freq ch_width
      end
  end.

Definition CH_WIDTH : Z := 20.

Definition dfs_nol_addchan freq (dfs_nol_timeout : Z) : MN unit :=
  n ← rounds; head ← gets dfs_nol;
  found ← find_elem n head head freq CH_WIDTH;
  t ← gets nol_clock;
  let ms := wrap 32 (dfs_nol_timeout * 1000) in
  match found with
  | (Some p, _) =>
      write_elem p (set_start t ms);;
      qdf_timer_stop p;;
      qdf_timer_mod p ms
  | (None, prev) =>
      o ← gets alloc;
      match o with
      | None => mret ()
      | Some a =>
          modify (fun w => set_mem (<[a := Nolelem freq CH_WIDTH t ms None None]> (nol_mem w)) w);;
          write_next prev (Some a);;
          qdf_timer_mod a ms;;
          modify (fun w => set_count (dfs_nol_count w + 1) w)
      end
  end.

(** [dfs_is_freq_in_nol] (dfs_random_chan_sel.c) *)
Fixpoint in_nol_loop fuel ptr freq : MN bool :=
  match fuel with
  | O => out_of_fuel
  | S fuel' =>
      match ptr with
      | None => mret false
      | Some p =>
          e ← read_elem p;
          if freq =? nol_freq e then mret true else in_nol_loop fuel' (nol_next e) freq
      end
  end.

Definition dfs_is_freq_in_nol freq : MN bool :=
  n ← rounds; head ← gets dfs_nol; in_nol_loop n head freq.

(** *** The timer's handler, [dfs_remove_from_nol] *)

(** The timer goes off; the handler reads its element. *)
Definition timer_fires p : MN unit :=
  e ← read_elem p;
  write_elem p (set_timer None);;
  modify (fun w => set_handlers (handlers w ++ [Handler p (nol_freq e) (nol_chwidth e) Fired]) w).

(** What follows the part with the lock. *)
Definition remove_from_nol_rest delfreq : MN unit :=
  dfs_nol_update;;
  emit NolTimeoutNotification;;
  emit (NolFinished delfreq);;
  emit (UnmarkPrecac delfreq);;
  emit RcacStart;;
  reg_nol_reset [delfreq].

Definition handler_of p (l : list handler) : option handler := List.find (fun h => h_elem h =? p) l.

(** The next part of the handler of an element, if it is running. *)
Definition handler_step p : MN unit :=
  o ← gets (fun w => handler_of p (handlers w));
  match o with
  | None => mret ()
  | Some h =>
      match h_stage h with
      | Fired =>
          DFS_NOL_DELETE_CHAN_LOCKED (h_freq h) (h_width h);;
          modify (fun w => set_handlers
            (List.map (fun h' => if h_elem h' =? p
               then Handler p (h_freq h') (h_width h') Deleted else h') (handlers w)) w)
      | Deleted =>
          remove_from_nol_rest (h_freq h);;
          modify (fun w => set_handlers (List.filter (fun h' => negb (h_elem h' =? p)) (handlers w)) w)
      end
  end.

(** [del_timer_sync]: the timer is stopped, and its handler waited for. *)
Definition qdf_timer_free p : MN unit :=
  qdf_timer_stop p;; handler_step p;; handler_step p.

Definition qdf_mem_free p : MN unit :=
  e ← read_elem p; modify (fun w => set_mem (delete p (nol_mem w)) w).

(** *** Freeing *)

Fixpoint free_loop fuel : MN unit :=
  match fuel with
  | O => out_of_fuel
  | S fuel' =>
      l ← gets dfs_nol_free_list;
      match l with
      | [] => mret ()
      | nol_head :: rest =>
          modify (set_free_list rest);;
          qdf_timer_free nol_head;;
          qdf_mem_free nol_head;;
          free_loop fuel'
      end
  end.

Definition dfs_nol_elem_free_work_cb : MN unit :=
  modify (set_work false);; n ← rounds; free_loop n.

(** [qdf_flush_work]: a scheduled work item is run. *)
Definition dfs_nol_workqueue_cleanup : MN unit :=
  b ← gets free_work; if (b : bool) then dfs_nol_elem_free_work_cb else mret ().

Fixpoint cleanup_loop fuel : MN unit :=
  match fuel with
  | O => out_of_fuel
  | S fuel' =>
      head ← gets dfs_nol;
      match head with
      | None => mret ()
      | Some nol =>
          e ← read_elem nol;
          modify (set_head (nol_next e));;
          modify (fun w => set_count (dfs_nol_count w - 1) w);;
          reg_nol_reset [nol_freq e];;
          qdf_timer_free nol;;
          qdf_mem_free nol;;
          cleanup_loop fuel'
      end
  end.

Definition dfs_nol_timer_cleanup : MN unit := n ← rounds; cleanup_loop n.

Definition dfs_nol_attach : MN unit :=
  modify (set_nol_timeout DFS_NOL_TIMEOUT_S);; modify (set_free_list []).

Definition dfs_nol_detach : MN unit := dfs_nol_timer_cleanup;; dfs_nol_workqueue_cleanup.

(** The time of [DFS_SET_NOL_TIMEOUT], in seconds. *)
Definition dfs_set_nol_timeout (t : Z) : MN unit :=
  modify (set_nol_timeout (if t =? 0 then DFS_NOL_TIMEOUT_S else t)).

(** [dfs_stop], without what it does to the history of the list. *)
Definition dfs_stop : MN unit := dfs_nol_timer_cleanup;; dfs_nol_workqueue_cleanup.

Definition utils_dfs_clear_nol_channels : MN unit := dfs_nol_timer_cleanup;; dfs_nol_update.

(** *** Radar *)

(** [dfs_radar_add_channel_list_to_nol_for_freq]: the loop, with the channels added. *)
Fixpoint radar_loop (freq_list : list Z) (last_chan_freq : Z) (nol_freq_list : list Z)
    : MN (list Z) :=
  match freq_list with
  | [] => mret nol_freq_list
  | freq :: rest =>
      if (freq =? 0) || (freq =? last_chan_freq) then radar_loop rest last_chan_freq nol_freq_list
      else if negb (is_dfs freq) then radar_loop rest last_chan_freq nol_freq_list
      else
        timeout ← gets wlan_dfs_nol_timeout;
        dfs_nol_addchan freq timeout;;
        emit (NolStarted freq);;
        radar_loop rest freq (nol_freq_list ++ [freq])
  end.

Definition dfs_radar_add_channel_list_to_nol_for_freq (freq_list : list Z) : MN QDF_STATUS :=
  if (NUM_CHANNELS_160MHZ <? length freq_list)%nat then mret QDF_STATUS_E_FAILURE
  else
    added ← radar_loop freq_list 0 [];
    match added with
    | [] => mret QDF_STATUS_E_FAILURE
    | _ => reg_nol_set added;; dfs_nol_update;; mret QDF_STATUS_SUCCESS
    end.

(** [dfs_remove_spoof_channel_from_nol], for the channels of the last radar. *)
Fixpoint spoof_find fuel ptr freq : MN unit :=
  match fuel with
  | O => out_of_fuel
  | S fuel' =>
      match ptr with
      | None => mret ()
      | Some p =>
          e ← read_elem p;
          if nol_freq e =? freq then qdf_timer_mod p 0 else spoof_find fuel' (nol_next e) freq
      end
  end.

Fixpoint spoof_loop (freq_list : list Z) : MN unit :=
  match freq_list with
  | [] => mret ()
  | freq :: rest =>
      n ← rounds; head ← gets dfs_nol; spoof_find n head freq;; spoof_loop rest
  end.

Definition dfs_remove_spoof_channel_from_nol (freq_list : list Z) : MN unit :=
  spoof_loop (take NUM_CHANNELS_160MHZ freq_list);; reg_nol_reset freq_list.

(** *** Setting the list, and keeping it over a restart *)

(** Milliseconds since a time, as an [uint32_t]. *)
Definition elapsed_ms (now start : Z) : Z := wrap 32 (wrap 64 (now - start) / 1000).

Fixpoint set_nol_loop (l : list dfsreq_nolelem) : MN unit :=
  match l with
  | [] => mret ()
  | e :: rest =>
      t ← gets nol_clock;
      let elapsed := elapsed_ms t (req_start_us e) in
      (if elapsed <? req_timeout_ms e then
         dfs_nol_addchan (req_freq e) ((req_timeout_ms e - elapsed) / 1000);;
         reg_nol_set [req_freq e]
       else mret ());;
      set_nol_loop rest
  end.

(** [nchan] elements of the array [l]. *)
Definition dfs_set_nol (l : list dfsreq_nolelem) (nchan : nat) : MN unit :=
  if (nchan <=? length l)%nat then set_nol_loop (take nchan l);; dfs_nol_update else crash.

(** The copy for the restart, of one of the radios. *)
Definition dfs_init_tmp_psoc_nol (num_radios : nat) : MN unit :=
  if (NOL_MAX_PDEVS <? num_radios)%nat then mret ()
  else ok ← gets alloc_array; modify (set_psoc_nol (if (ok : bool) then Some [] else None)).
Definition dfs_deinit_tmp_psoc_nol : MN unit := modify (set_psoc_nol None).

(** The remaining time of an element, an [uint32_t]. *)
Definition paused (now : Z) (e : dfsreq_nolelem) : dfsreq_nolelem :=
  ReqElem (req_freq e) (req_chwidth e) (req_start_us e)
    (wrap 32 (req_timeout_ms e - elapsed_ms now (req_start_us e))).

(** The copies are appended to an array of [DFS_CHAN_MAX] elements. *)
Definition dfs_save_dfs_nol_in_psoc : MN unit :=
  count ← gets dfs_nol_count;
  if count =? 0 then mret ()
  else
    o ← gets psoc_nol;
    match o with
    | None => mret ()
    | Some saved =>
        l ← dfs_getnol;
        t ← gets nol_clock;
        if (length saved + length l <=? DFS_CHAN_MAX)%nat
        then modify (set_psoc_nol (Some (saved ++ (paused t <$> l))))
        else crash
    end.

Definition restarted (now : Z) (e : dfsreq_nolelem) : dfsreq_nolelem :=
  ReqElem (req_freq e) (req_chwidth e) now (req_timeout_ms e).

Definition within (low high : Z) (e : dfsreq_nolelem) : bool :=
  (low <? req_freq e) && (req_freq e <? high).

Definition dfs_reinit_nol_from_psoc_copy (low_5ghz_freq high_5ghz_freq : Z) : MN unit :=
  o ← gets psoc_nol;
  match o with
  | None | Some [] => mret ()
  | Some saved =>
      t ← gets nol_clock;
      let inside := within low_5ghz_freq high_5ghz_freq in
      modify (set_psoc_nol (Some ((fun e => if inside e then restarted t e else e) <$> saved)));;
      let req := restarted t <$> List.filter inside saved in
      dfs_set_nol req (length req)
  end.

(** [dfs_nol_free_list], which nothing calls: the elements are freed with their timers. *)
Fixpoint free_list_loop fuel ptr : MN unit :=
  match fuel with
  | O => out_of_fuel
  | S fuel' =>
      match ptr with
      | None => modify (set_head None)
      | Some p =>
          e ← read_elem p;
          qdf_mem_free p;;
          modify (fun w => set_count (dfs_nol_count w - 1) w);;
          free_list_loop fuel' (nol_next e)
      end
  end.

Definition free_nol_list : MN unit := n ← rounds; head ← gets dfs_nol; free_list_loop n head.

(** ** Histories *)

(** What happens to the list: time passes, a timer goes off or its handler goes on, and
    the routines above are called. *)
Inductive nol_op : Type :=
  | Tick (d : Z)
  | TimerFires (p : Z)
  | HandlerStep (p : Z)
  | AddChan (freq timeout : Z)
  | RadarFound (freq_list : list Z)
  | RemoveSpoof (freq_list : list Z)
  | SetTimeout (timeout : Z)
  | GetNol
  | SetNol (l : list dfsreq_nolelem) (nchan : nat)
  | NolUpdate
  | ClearNol
  | FreeWork
  | InitPsoc (num_radios : nat)
  | DeinitPsoc
  | SaveInPsoc
  | ReinitFromPsoc (low high : Z)
  | StopNol.

Definition run_nol (op : nol_op) : MN unit :=
  match op with
  | Tick d => modify (fun w => set_clock (nol_clock w + d) w)
  | TimerFires p => timer_fires p
  | HandlerStep p => handler_step p
  | AddChan freq timeout => dfs_nol_addchan freq timeout
  | RadarFound l => dfs_radar_add_channel_list_to_nol_for_freq l;; mret ()
  | RemoveSpoof l => dfs_remove_spoof_channel_from_nol l
  | SetTimeout t => dfs_set_nol_timeout t
  | GetNol => dfs_getnol;; mret ()
  | SetNol l nchan => dfs_set_nol l nchan
  | NolUpdate => dfs_nol_update
  | ClearNol => utils_dfs_clear_nol_channels
  | FreeWork => dfs_nol_workqueue_cleanup
  | InitPsoc num_radios => dfs_init_tmp_psoc_nol num_radios
  | DeinitPsoc => dfs_deinit_tmp_psoc_nol
  | SaveInPsoc => dfs_save_dfs_nol_in_psoc
  | ReinitFromPsoc low high => dfs_reinit_nol_from_psoc_copy low high
  | StopNol => dfs_nol_detach
  end.

Fixpoint run_nols (ops : list nol_op) : MN unit :=
  match ops with
  | [] => mret ()
  | op :: ops => run_nol op;; run_nols ops
  end.

End Ops.

Definition nol_start : nol_world :=
  NolWorld ∅ None 0 [] false DFS_NOL_TIMEOUT_S 0 [] ∅ [] None [].
