(* ===== verification/NolInv.v ===== *)
(** * The invariant of the non-occupancy list

    The list of the elements that [nol_next] links ([chain]), what every routine that walks
    it does to it, and the invariant [nol_inv]: every element in memory is on the list or
    waits to be freed, the counter is the length of the list, no channel is on it twice,
    and every element on it has its timer armed or its handler about to take it off. *)
From S2P Require Import Prelude Nol.

(** ** Linked elements *)

Abbreviation nol_heap := (gmap Z dfs_nolelem) (only parsing).

(** From [ptr] the elements [l] are linked, up to the pointer [last]. *)
Fixpoint seg (m : nol_heap) (ptr : option Z) (l : list Z) (last : option Z) : Prop :=
  match l with
  | [] => ptr = last
  | p :: l' => ptr = Some p /\ exists e, m !! p = Some e /\ seg m (nol_next e) l' last
  end.
Abbreviation chain m ptr l := (seg m ptr l None) (only parsing).

(** An element but for its link. *)
Definition core (e : dfs_nolelem) : dfs_nolelem := set_next None e.
Definition same_cores (m m' : nol_heap) : Prop := forall p, core <$> m !! p = core <$> m' !! p.

Section Chains.
Implicit Types (m : nol_heap) (l : list Z) (ptr last : option Z) (p : Z).

Lemma seg_elem m ptr l last p : seg m ptr l last -> p ∈ l -> exists e, m !! p = Some e.
Proof.
  revert ptr. induction l as [|q l IH]; intros ptr; [by intros _ ?%elem_of_nil|].
  intros (_ & e & He & Hc) [->|Hp]%elem_of_cons; [by exists e|by eapply IH].
Qed.

Lemma seg_app m ptr l1 l2 last :
  seg m ptr (l1 ++ l2) last <-> exists mid, seg m ptr l1 mid /\ seg m mid l2 last.
Proof.
  revert ptr. induction l1 as [|p l1 IH]; intros ptr; cbn [app seg].
  - split; [by exists ptr|]. by intros (mid & -> & ?).
  - split.
    + intros (-> & e & He & (mid & ? & ?)%IH). exists mid. eauto.
    + intros (mid & (-> & e & He & H1) & H2). split; [done|]. exists e. split; [done|].
      apply IH. by exists mid.
Qed.

(** A change outside the list, or a change that keeps the links. *)
Lemma seg_ext m m' ptr l last :
  (forall p, p ∈ l -> nol_next <$> m !! p = nol_next <$> m' !! p) -> seg m ptr l last -> seg m' ptr l last.
Proof.
  revert ptr. induction l as [|p l IH]; intros ptr Heq; [done|].
  intros (-> & e & He & Hc). pose proof (Heq p ltac:(by left)) as Hp. rewrite He in Hp. cbn in Hp.
  symmetry in Hp. apply fmap_Some in Hp as (e' & He' & Hn). split; [done|]. exists e'. split; [done|].
  rewrite <- Hn. apply IH; [|done]. intros q Hq. apply Heq. by right.
Qed.

Lemma seg_insert_ne m ptr l last p e : p ∉ l -> seg m ptr l last -> seg (<[p := e]> m) ptr l last.
Proof.
  intros Hp. apply seg_ext. intros q Hq. rewrite lookup_insert_ne; [done|]. by intros ->.
Qed.

Lemma seg_update m ptr l last p e e' :
  m !! p = Some e -> nol_next e' = nol_next e -> seg m ptr l last -> seg (<[p := e']> m) ptr l last.
Proof.
  intros He Hf. apply seg_ext. intros q _. destruct (decide (p = q)) as [->|Hne].
  - rewrite lookup_insert_eq, He. cbn. by rewrite Hf.
  - by rewrite lookup_insert_ne.
Qed.

Lemma seg_delete m ptr l last p : p ∉ l -> seg m ptr l last -> seg (delete p m) ptr l last.
Proof.
  intros Hp. apply seg_ext. intros q Hq. rewrite lookup_delete_ne; [done|]. by intros ->.
Qed.

(** Writing the link of the last element. *)
Lemma seg_snoc m ptr b q last e v :
  q ∉ b -> m !! q = Some e -> seg m ptr (b ++ [q]) last ->
  seg (<[q := set_next v e]> m) ptr (b ++ [q]) v.
Proof.
  intros Hq He (mid & Hb & (-> & _))%seg_app. apply seg_app. exists (Some q).
  split; [by apply seg_insert_ne|]. cbn. split; [done|]. exists (set_next v e).
  by rewrite lookup_insert_eq.
Qed.

Lemma seg_bound m ptr l last : seg m ptr l last -> NoDup l -> (length l <= size m)%nat.
Proof.
  intros Hc Hnd. rewrite <- size_dom. rewrite <- (size_list_to_set (C := gset Z) l) by done.
  apply subseteq_size. intros p Hp%elem_of_list_to_set. apply elem_of_dom.
  destruct (seg_elem m ptr l last p Hc Hp) as [e He]. by eexists.
Qed.

Lemma same_cores_refl m : same_cores m m.
Proof. done. Qed.

Lemma same_cores_trans m1 m2 m3 : same_cores m1 m2 -> same_cores m2 m3 -> same_cores m1 m3.
Proof. intros H1 H2 p. by rewrite (H1 p). Qed.

Lemma same_cores_link m p e n : m !! p = Some e -> same_cores m (<[p := set_next n e]> m).
Proof.
  intros He q. destruct (decide (p = q)) as [->|].
  - by rewrite lookup_insert_eq, He.
  - by rewrite lookup_insert_ne.
Qed.

Lemma same_cores_lookup m m' p e :
  same_cores m m' -> m !! p = Some e -> exists e', m' !! p = Some e' /\ core e' = core e.
Proof.
  intros Hs He. pose proof (Hs p) as H. rewrite He in H. symmetry in H.
  apply fmap_Some in H as (e' & ? & ?). by exists e'.
Qed.

Lemma same_cores_sym m m' : same_cores m m' -> same_cores m' m.
Proof. intros H p. by rewrite H. Qed.

Lemma core_eq e e' :
  core e = core e' <->
  nol_freq e = nol_freq e' /\ nol_chwidth e = nol_chwidth e' /\ nol_start_us e = nol_start_us e' /\
  nol_timeout_ms e = nol_timeout_ms e' /\ nol_timer e = nol_timer e'.
Proof. destruct e, e'. cbn. split; [by intros [=]|by intros (-> & -> & -> & -> & ->)]. Qed.

End Chains.

(** ** Walking the list *)

Definition matching (f wd : Z) (e : dfs_nolelem) : bool := (nol_freq e =? f) && (nol_chwidth e =? wd).
Definition matches_at (m : nol_heap) (f wd : Z) (p : Z) : bool :=
  match m !! p with Some e => matching f wd e | None => false end.

Section Walks.
Implicit Types (w : nol_world) (l : list Z) (p f : Z).

Lemma read_eq {B} w p e (k : dfs_nolelem -> M nol_world B) :
  nol_mem w !! p = Some e -> (e' ← read_elem p; k e') w = k e w.
Proof. intros He. unfold read_elem. rewrite bind_assoc, bind_gets, He. done. Qed.

Lemma write_eq w p e g :
  nol_mem w !! p = Some e -> write_elem p g w = Ret tt (set_mem (<[p := g e]> (nol_mem w)) w).
Proof. intros He. unfold write_elem. by rewrite (read_eq _ _ _ _ He). Qed.

Lemma matches_at_core m m' f wd p : same_cores m m' -> matches_at m f wd p = matches_at m' f wd p.
Proof.
  intros H. unfold matches_at. pose proof (H p) as Hp.
  destruct (m !! p) as [e|], (m' !! p) as [e'|]; try done. cbn in Hp. injection Hp.
  unfold matching. by intros _ _ _ -> ->.
Qed.

(** The world with its memory and lists changed. *)
Definition relink (m : nol_heap) (head : option Z) (fl : list Z) (count : Z) w : nol_world :=
  NolWorld m head count fl (free_work w) (wlan_dfs_nol_timeout w) (nol_clock w) (handlers w)
    (reg_nol w) (clist w) (psoc_nol w) (nol_events w).

(** The pointer to the element behind [before] is in the head, or in its last element. *)
Definition loc_ok (loc : option Z) (before : list Z) : Prop :=
  match loc with
  | None => before = []
  | Some q => exists b, before = b ++ [q]
  end.

Lemma write_next_eq w loc before last v :
  loc_ok loc before -> NoDup before -> seg (nol_mem w) (dfs_nol w) before last ->
  exists m' h', write_next loc v w = Ret tt (relink m' h' (dfs_nol_free_list w) (dfs_nol_count w) w) /\
    same_cores (nol_mem w) m' /\ seg m' h' before v /\
    (forall p, p ∉ before -> m' !! p = nol_mem w !! p).
Proof.
  intros Hloc Hnd Hseg. destruct loc as [q|]; cbn in *.
  - destruct Hloc as [b ->]. apply NoDup_app in Hnd as (_ & Hq & _).
    assert (q ∉ b) as Hqb by (intros Hin; by apply (Hq q Hin), list_elem_of_singleton).
    destruct (seg_elem _ _ _ _ q Hseg) as [e He]; [set_solver|].
    exists (<[q := set_next v e]> (nol_mem w)), (dfs_nol w). rewrite (write_eq _ _ _ _ He).
    split_and!; [done|by apply same_cores_link|by eapply seg_snoc|].
    intros p Hp. rewrite lookup_insert_ne; [done|]. set_solver.
  - subst before. exists (nol_mem w), v. by split_and!.
Qed.

Definition stays m f wd l : list Z := List.filter (fun p => negb (matches_at m f wd p)) l.
Definition goes m f wd l : list Z := List.filter (matches_at m f wd) l.

Lemma goes_core m m' f wd l : same_cores m m' -> goes m f wd l = goes m' f wd l.
Proof. intros H. apply filter_ext. intros p. by apply matches_at_core. Qed.

Lemma stays_core m m' f wd l : same_cores m m' -> stays m f wd l = stays m' f wd l.
Proof. intros H. apply filter_ext. intros p. by rewrite (matches_at_core m m'). Qed.

Lemma delete_loop_eq f wd l : forall fuel loc before ptr w,
  (length l < fuel)%nat -> Z.of_nat (length l) <= dfs_nol_count w ->
  NoDup (before ++ l) -> loc_ok loc before ->
  seg (nol_mem w) (dfs_nol w) before ptr -> chain (nol_mem w) ptr l ->
  exists m' h', delete_loop fuel loc ptr f wd w =
      Ret tt (relink m' h' (dfs_nol_free_list w ++ goes (nol_mem w) f wd l)
                (dfs_nol_count w - Z.of_nat (length (goes (nol_mem w) f wd l))) w) /\
    same_cores (nol_mem w) m' /\ chain m' h' (before ++ stays (nol_mem w) f wd l).
Proof.
  induction l as [|p l IH]; intros [|fuel] loc before ptr w Hfuel Hcount Hnd Hloc Hb Hl;
    cbn [length] in *; try lia.
  - cbn in Hl. subst ptr. exists (nol_mem w), (dfs_nol w). cbn [delete_loop goes stays List.filter length].
    rewrite !app_nil_r, Z.sub_0_r. by destruct w.
  - destruct Hl as (-> & e & He & Hl). cbn [delete_loop]. rewrite (read_eq _ _ _ _ He).
    assert (matches_at (nol_mem w) f wd p = matching f wd e) as Hm by (unfold matches_at; by rewrite He).
    unfold goes, stays. cbn [List.filter]. rewrite Hm. fold (matching f wd e).
    destruct (matching f wd e); cbn [negb].
    + destruct (write_next_eq w loc before (Some p) (nol_next e) Hloc) as (m1 & h1 & E1 & Hs1 & Hb1 & Hsame);
        [by apply NoDup_app in Hnd as (? & _)|done|].
      rewrite (bind_ret _ _ _ _ _ E1), !bind_modify.
      change (set_count _ _) with
        (relink m1 h1 (dfs_nol_free_list w ++ [p]) (Z.max 0 (dfs_nol_count w - 1)) w).
      set (w1 := relink _ _ _ _ _).
      assert (Hl1 : chain m1 (nol_next e) l).
      { eapply seg_ext; [|exact Hl]. intros q Hq. rewrite Hsame; [done|].
        apply NoDup_app in Hnd as (_ & Hd & _). intros Hqb. apply (Hd q Hqb). by right. }
      destruct (IH fuel loc before (nol_next e) w1) as (m2 & h2 & E2 & Hs2 & Hc2).
      { lia. }
      { cbn. lia. }
      { apply NoDup_app in Hnd as (Ha & Hd & [_ Hc]%NoDup_cons). apply NoDup_app.
        split_and!; [done| |done]. intros q Hq Hql. apply (Hd q Hq). by right. }
      { done. }
      { done. }
      { done. }
      exists m2, h2. rewrite E2. cbn in Hs2, Hc2. rewrite <- (stays_core _ _ f wd l Hs1) in Hc2.
      split_and!; [|by eapply same_cores_trans|done]. subst w1. unfold relink. cbn [nol_mem dfs_nol dfs_nol_count
        dfs_nol_free_list free_work wlan_dfs_nol_timeout nol_clock handlers reg_nol clist psoc_nol nol_events].
      rewrite <- (goes_core _ _ f wd l Hs1), <- app_assoc. cbn [app length]. do 2 f_equal.
      change (List.filter (matches_at (nol_mem w) f wd) l) with (goes (nol_mem w) f wd l). lia.
    + destruct (IH fuel (Some p) (before ++ [p]) (nol_next e) w) as (m2 & h2 & E2 & Hs2 & Hc2).
      { lia. }
      { lia. }
      { by rewrite <- app_assoc. }
      { by exists before. }
      { apply seg_app. exists (Some p). split; [done|]. cbn. split; [done|]. by exists e. }
      { done. }
      exists m2, h2. split_and!; [done..|]. by rewrite <- app_assoc in Hc2.
Qed.

(** The elements of the list, and what callers get of them. *)
Definition elems (m : gmap Z dfs_nolelem) l : list dfs_nolelem := omap (fun p => m !! p) l.
Definition req_of (e : dfs_nolelem) : dfsreq_nolelem :=
  ReqElem (wrap 16 (nol_freq e)) (wrap 16 (nol_chwidth e)) (nol_start_us e) (nol_timeout_ms e).

Lemma get_loop_eq l : forall fuel ptr cap acc w,
  (length l < fuel)%nat -> (length acc + length l <= cap)%nat -> chain (nol_mem w) ptr l ->
  get_loop fuel ptr cap acc w = Ret (acc ++ (req_of <$> elems (nol_mem w) l)) w.
Proof.
  induction l as [|p l IH]; intros [|fuel] ptr cap acc w Hfuel Hcap Hl; cbn [length] in *; try lia.
  - cbn in Hl. subst ptr. cbn. by rewrite app_nil_r.
  - destruct Hl as (-> & e & He & Hl). cbn [get_loop]. rewrite (read_eq _ _ _ _ He).
    rewrite (proj2 (Nat.ltb_lt _ _)) by lia.
    rewrite IH by (rewrite ?length_app; cbn [length]; (lia || done)).
    unfold elems. cbn [omap list_omap]. rewrite He. cbn [fmap list_fmap]. by rewrite <- app_assoc.
Qed.

Lemma find_elem_eq f wd l : forall fuel ptr prev w,
  (length l < fuel)%nat -> chain (nol_mem w) ptr l ->
  exists prev', find_elem fuel ptr prev f wd w = Ret (List.find (matches_at (nol_mem w) f wd) l, prev') w /\
    (List.find (matches_at (nol_mem w) f wd) l = None ->
     prev' = match last l with Some q => Some q | None => prev end).
Proof.
  induction l as [|p l IH]; intros [|fuel] ptr prev w Hfuel Hl; cbn [length] in *; try lia.
  - cbn in Hl. subst ptr. by exists prev.
  - destruct Hl as (-> & e & He & Hl). cbn [find_elem List.find]. rewrite (read_eq _ _ _ _ He).
    assert (matches_at (nol_mem w) f wd p = matching f wd e) as -> by (unfold matches_at; by rewrite He).
    fold (matching f wd e). destruct (matching f wd e); [by exists prev|].
    destruct (IH fuel (nol_next e) (Some p) w ltac:(lia) Hl) as (prev' & E & Hprev).
    exists prev'. split; [done|]. intros Hnone. rewrite (Hprev Hnone), last_cons. by destruct (last l).
Qed.

Definition freq_at (m : gmap Z dfs_nolelem) f p : bool :=
  match m !! p with Some e => nol_freq e =? f | None => false end.

Lemma in_nol_eq f l : forall fuel ptr w,
  (length l < fuel)%nat -> chain (nol_mem w) ptr l ->
  in_nol_loop fuel ptr f w = Ret (existsb (freq_at (nol_mem w) f) l) w.
Proof.
  induction l as [|p l IH]; intros [|fuel] ptr w Hfuel Hl; cbn [length] in *; try lia.
  - cbn in Hl. by subst ptr.
  - destruct Hl as (-> & e & He & Hl). cbn [in_nol_loop existsb]. rewrite (read_eq _ _ _ _ He).
    assert (freq_at (nol_mem w) f p = (f =? nol_freq e)) as ->
      by (unfold freq_at; rewrite He; apply Z.eqb_sym).
    destruct (f =? nol_freq e); [done|]. apply IH; [lia|done].
Qed.

Lemma timer_mod_eq p msec w e :
  nol_mem w !! p = Some e -> msec < 2 ^ 31 ->
  qdf_timer_mod p msec w =
    Ret tt (set_mem (<[p := set_timer (Some (nol_clock w + msec * 1000)) e]> (nol_mem w)) w).
Proof.
  intros He Hm. unfold qdf_timer_mod. rewrite bind_gets, (proj2 (Z.ltb_lt _ _)) by done.
  by apply write_eq.
Qed.

Lemma alter_set (m : nol_heap) p e g : m !! p = Some e -> alter g p m = <[p := g e]> m.
Proof.
  intros He. apply map_eq. intros q. destruct (decide (p = q)) as [->|].
  - by rewrite lookup_insert_eq, lookup_alter_eq, He.
  - by rewrite lookup_insert_ne, lookup_alter_ne.
Qed.

Lemma spoof_find_eq f l : forall fuel ptr w,
  (length l < fuel)%nat -> chain (nol_mem w) ptr l ->
  spoof_find fuel ptr f w =
    Ret tt (match List.find (freq_at (nol_mem w) f) l with
            | Some p => set_mem (alter (set_timer (Some (nol_clock w + 0))) p (nol_mem w)) w
            | None => w
            end).
Proof.
  induction l as [|p l IH]; intros [|fuel] ptr w Hfuel Hl; cbn [length] in *; try lia.
  - cbn in Hl. by subst ptr.
  - destruct Hl as (-> & e & He & Hl). cbn [spoof_find List.find]. rewrite (read_eq _ _ _ _ He).
    assert (freq_at (nol_mem w) f p = (nol_freq e =? f)) as -> by (unfold freq_at; by rewrite He).
    destruct (nol_freq e =? f).
    + rewrite (timer_mod_eq p 0 w e He) by lia. by rewrite (alter_set _ _ _ _ He).
    + apply IH; [lia|done].
Qed.

End Walks.

(** ** The invariant *)

Section Inv.
Context (channels : gset Z).
Implicit Types (w : nol_world) (l x : list Z) (p q f d : Z) (e : dfs_nolelem).

(** The channels are those that need radar detection; a period is less than 2^31 ms. *)
Definition elem_ok (now : Z) e : Prop :=
  nol_freq e ∈ channels /\ nol_chwidth e = CH_WIDTH /\ 0 <= nol_timeout_ms e < 2 ^ 31 /\
  0 <= nol_start_us e <= now.

Definition nol_end e : Z := nol_start_us e + nol_timeout_ms e * 1000.

(** An armed timer goes off when the period ends, or is due. *)
Definition timer_ok (now : Z) e : Prop :=
  forall t, nol_timer e = Some t -> t <= nol_end e \/ t <= now.

Definition about_to_delete w p : Prop :=
  exists h, h ∈ handlers w /\ h_elem h = p /\ h_stage h = Fired.

Definition handler_ok w l (h : handler) : Prop :=
  exists e, nol_mem w !! h_elem h = Some e /\ h_freq h = nol_freq e /\ h_width h = CH_WIDTH /\
            (h_stage h = Deleted -> h_elem h ∉ l).

Definition saved_ok (e : dfsreq_nolelem) : Prop :=
  req_freq e ∈ channels /\ 0 <= req_timeout_ms e < 2 ^ 31.

(** [l] are the elements of the list; [x] those that a routine has taken off and is about
    to free. *)
Record nol_inv l x w : Prop := {
  ni_chain : chain (nol_mem w) (dfs_nol w) l;
  ni_nodup : NoDup (l ++ dfs_nol_free_list w ++ x);
  ni_dom : forall p, is_Some (nol_mem w !! p) <-> p ∈ l ++ dfs_nol_free_list w ++ x;
  ni_count : dfs_nol_count w = Z.of_nat (length l);
  ni_elem : forall p e, nol_mem w !! p = Some e -> elem_ok (nol_clock w) e /\ timer_ok (nol_clock w) e;
  ni_freqs : forall p q e e', p ∈ l -> q ∈ l -> nol_mem w !! p = Some e -> nol_mem w !! q = Some e' ->
    nol_freq e = nol_freq e' -> p = q;
  ni_armed : forall p e, p ∈ l -> nol_mem w !! p = Some e -> is_Some (nol_timer e) \/ about_to_delete w p;
  ni_handlers : NoDup (h_elem <$> handlers w);
  ni_handler : forall h, h ∈ handlers w -> handler_ok w l h;
  ni_timeout : 0 <= wlan_dfs_nol_timeout w * 1000 < 2 ^ 31;
  ni_saved : forall s, psoc_nol w = Some s -> Forall saved_ok s /\ (length s <= DFS_CHAN_MAX)%nat;
  ni_clock : 0 <= nol_clock w;
}.

(** A channel that stays on the list until [d], and is marked: its timer does not go off
    before, and nothing else is about to take it off. *)
Record kept l f d w : Prop := {
  k_elem : exists p e t, p ∈ l /\ nol_mem w !! p = Some e /\ nol_freq e = f /\ nol_timer e = Some t /\ d <= t;
  k_reg : f ∈ reg_nol w;
  k_handlers : forall h, h ∈ handlers w -> h_freq h <> f;
  k_others : forall p e, p ∉ l -> nol_mem w !! p = Some e -> nol_freq e = f -> nol_timer e = None;
}.

Lemma elem_ok_core now e e' : core e = core e' -> elem_ok now e -> elem_ok now e'.
Proof. unfold elem_ok. by intros (-> & -> & -> & -> & _)%core_eq. Qed.

Lemma timer_ok_core now e e' : core e = core e' -> timer_ok now e -> timer_ok now e'.
Proof. unfold timer_ok, nol_end. by intros (_ & _ & -> & -> & ->)%core_eq. Qed.

Lemma inv_elem l x w p :
  nol_inv l x w -> p ∈ l -> exists e, nol_mem w !! p = Some e.
Proof. intros Hinv. apply (seg_elem _ _ _ _ p (ni_chain _ _ _ Hinv)). Qed.

Lemma inv_nodup_list l x w : nol_inv l x w -> NoDup l.
Proof. intros Hinv. pose proof (ni_nodup _ _ _ Hinv) as H. by apply NoDup_app in H as (? & _). Qed.

Lemma rounds_enough l x w : nol_inv l x w -> (length l < S (size (nol_mem w)))%nat.
Proof.
  intros Hinv. pose proof (seg_bound _ _ _ _ (ni_chain _ _ _ Hinv) (inv_nodup_list _ _ _ Hinv)). lia.
Qed.

(** An element that may join the list: its timer is armed, and no other has its channel. *)
Definition may_join w l p : Prop :=
  (p ∉ h_elem <$> handlers w) /\
  exists e, nol_mem w !! p = Some e /\ is_Some (nol_timer e) /\
    forall q e', q ∈ l -> nol_mem w !! q = Some e' -> nol_freq e' = nol_freq e -> q = p.

Lemma joined_freqs l l' x w p q e e' :
  nol_inv l x w -> (forall r, r ∈ l' -> r ∈ l \/ may_join w l' r) -> p ∈ l' -> q ∈ l' ->
  nol_mem w !! p = Some e -> nol_mem w !! q = Some e' -> nol_freq e = nol_freq e' -> p = q.
Proof.
  intros Hinv Hj Hp Hq He He' Hf. destruct (Hj p Hp) as [Hpl|(_ & e1 & He1 & _ & Hu)].
  - destruct (Hj q Hq) as [Hql|(_ & e1 & He1 & _ & Hu)]; [by eapply (ni_freqs _ _ _ Hinv p q)|].
    apply (Hu p e); congruence.
  - symmetry. apply (Hu q e'); congruence.
Qed.

(** Elements move between the lists. *)
Lemma inv_relink l l' x x' w m' h' fl' c' :
  nol_inv l x w -> same_cores (nol_mem w) m' -> chain m' h' l' ->
  l' ++ fl' ++ x' ≡ₚ l ++ dfs_nol_free_list w ++ x -> (forall p, p ∈ l' -> p ∈ l \/ may_join w l' p) ->
  c' = Z.of_nat (length l') -> nol_inv l' x' (relink m' h' fl' c' w).
Proof.
  intros Hinv Hs Hc Hperm Hsub ->. pose proof (same_cores_sym _ _ Hs) as Hs'.
  assert (forall p e, m' !! p = Some e -> exists e', nol_mem w !! p = Some e' /\ core e' = core e) as Hback
    by (intros p e; by apply same_cores_lookup).
  split; cbn; try apply Hinv.
  - done.
  - rewrite Hperm. apply Hinv.
  - intros p. rewrite (elem_of_Permutation_proper _ _ _ Hperm), <- (ni_dom _ _ _ Hinv).
    split; intros [e He]; [by destruct (Hback p e He) as (e' & ? & _); exists e'|].
    by destruct (same_cores_lookup _ _ _ _ Hs He) as (e' & ? & _); exists e'.
  - done.
  - intros p e He. destruct (Hback p e He) as (e' & He' & Hcore).
    destruct (ni_elem _ _ _ Hinv p e' He'). eauto using elem_ok_core, timer_ok_core.
  - intros p q e e' Hp Hq He He' Hf.
    destruct (Hback p e He) as (e1 & He1 & (Hf1 & _)%core_eq).
    destruct (Hback q e' He') as (e2 & He2 & (Hf2 & _)%core_eq).
    apply (joined_freqs l l' x w p q e1 e2); eauto. congruence.
  - intros p e Hp He. destruct (Hback p e He) as (e' & He' & (_ & _ & _ & _ & Ht)%core_eq).
    rewrite <- Ht. destruct (Hsub p Hp) as [Hpl|(_ & e1 & He1 & Harm & _)].
    + exact (ni_armed _ _ _ Hinv p e' Hpl He').
    + left. congruence.
  - intros h Hh. destruct (ni_handler _ _ _ Hinv h Hh) as (e & He & Hf & Hw & Hd).
    destruct (same_cores_lookup _ _ _ _ Hs He) as (e' & He' & (Hf' & _)%core_eq).
    exists e'. cbn. rewrite Hf'. split_and!; [done..|]. intros Hst Hin.
    destruct (Hsub _ Hin) as [Hpl|[Hno _]]; [by apply (Hd Hst)|].
    apply Hno. by apply list_elem_of_fmap_2.
Qed.

Lemma kept_relink l l' f d w m' h' fl' c' :
  kept l f d w -> same_cores (nol_mem w) m' ->
  (forall p e, nol_mem w !! p = Some e -> nol_freq e = f -> p ∈ l <-> p ∈ l') ->
  kept l' f d (relink m' h' fl' c' w).
Proof.
  intros [(p & e & t & Hp & He & Hf & Ht & Hd) Hreg Hh Ho] Hs Hl. split; cbn.
  - destruct (same_cores_lookup _ _ _ _ Hs He) as (e' & He' & (Hf' & _ & _ & _ & Ht')%core_eq).
    exists p, e', t. rewrite Hf', Ht', Hf. split_and!; try done. by apply (Hl p e).
  - done.
  - done.
  - intros q e' Hq He' Hfq.
    destruct (same_cores_lookup _ _ _ _ (same_cores_sym _ _ Hs) He') as (e1 & He1 & (Hf1 & _ & _ & _ & Ht1)%core_eq).
    rewrite <- Ht1. apply (Ho q e1); [|done|congruence]. rewrite (Hl q e1); [done|done|congruence].
Qed.

(** Changing the times of an element. *)
Lemma elem_update_inv l x w p e e' :
  nol_inv l x w -> nol_mem w !! p = Some e ->
  nol_next e' = nol_next e -> nol_freq e' = nol_freq e ->
  elem_ok (nol_clock w) e' -> timer_ok (nol_clock w) e' ->
  (p ∈ l -> is_Some (nol_timer e') \/ about_to_delete w p) ->
  nol_inv l x (set_mem (<[p := e']> (nol_mem w)) w).
Proof.
  intros Hinv He Hn Hf Hok Htok Harm. split; cbn; try apply Hinv.
  - eapply seg_update; [done|done|apply Hinv].
  - intros q. rewrite <- (ni_dom _ _ _ Hinv). destruct (decide (p = q)) as [->|].
    + rewrite lookup_insert_eq, He. split; by eexists.
    + by rewrite lookup_insert_ne.
  - intros q eq. destruct (decide (p = q)) as [->|].
    + rewrite lookup_insert_eq. intros [= <-]. done.
    + rewrite lookup_insert_ne by done. apply Hinv.
  - intros q q' e1 e2 Hq Hq'. 
    assert (forall r er, <[p := e']> (nol_mem w) !! r = Some er ->
      exists e0, nol_mem w !! r = Some e0 /\ nol_freq e0 = nol_freq er) as Hb.
    { intros r er. destruct (decide (p = r)) as [->|].
      - rewrite lookup_insert_eq. intros [= <-]. by exists e.
      - rewrite lookup_insert_ne by done. by exists er. }
    intros (e3 & He3 & Hf3)%Hb (e4 & He4 & Hf4)%Hb Heq.
    apply (ni_freqs _ _ _ Hinv q q' e3 e4); [done..|congruence].
  - intros q eq Hq. destruct (decide (p = q)) as [->|].
    + rewrite lookup_insert_eq. intros [= <-]. by apply Harm.
    + rewrite lookup_insert_ne by done. by apply (ni_armed _ _ _ Hinv).
  - intros h Hh. destruct (ni_handler _ _ _ Hinv h Hh) as (eh & Heh & Hfh & Hwh & Hdh).
    unfold handler_ok. cbn. destruct (decide (p = h_elem h)) as [->|].
    + exists e'. rewrite lookup_insert_eq. split_and!; [done|congruence|done|done].
    + exists eh. by rewrite lookup_insert_ne.
Qed.

End Inv.
