(* ===== verification/NolRun.v ===== *)
(** * What the routines of the non-occupancy list do

    Each routine, from a world that satisfies [nol_inv], runs to its end, keeps the
    invariant, and keeps a channel that is [kept] unless it is a routine that takes it off
    or sets it anew. *)
From S2P Require Import Prelude Nol NolInv.

Section Run.
Context (alloc_array : nol_world -> bool) (channels : gset Z).
Implicit Types (w : nol_world) (l x : list Z) (p q f d : Z) (e : dfs_nolelem).

Abbreviation nol_inv := (NolInv.nol_inv channels).

(** ** Parts that change nothing of the elements *)

Lemma inv_frame l x w w' :
  nol_inv l x w -> nol_mem w' = nol_mem w -> dfs_nol w' = dfs_nol w -> dfs_nol_count w' = dfs_nol_count w ->
  dfs_nol_free_list w' = dfs_nol_free_list w -> nol_clock w' = nol_clock w -> handlers w' = handlers w ->
  wlan_dfs_nol_timeout w' = wlan_dfs_nol_timeout w -> psoc_nol w' = psoc_nol w -> nol_inv l x w'.
Proof.
  intros [] Hm Hh Hc Hf Hcl Hhs Ht Hp.
  split; unfold handler_ok, about_to_delete in *; rewrite ?Hm, ?Hh, ?Hc, ?Hf, ?Hcl, ?Hhs, ?Ht, ?Hp; done.
Qed.

Lemma kept_frame l f d w w' :
  kept l f d w -> nol_mem w' = nol_mem w -> handlers w' = handlers w ->
  (f ∈ reg_nol w -> f ∈ reg_nol w') -> kept l f d w'.
Proof. intros [] Hm Hh Hr. split; rewrite ?Hm, ?Hh; auto. Qed.

Lemma elems_len m l : (forall p, p ∈ l -> is_Some (m !! p)) -> length (elems m l) = length l.
Proof.
  induction l as [|p l IH]; intros H; [done|]. unfold elems. cbn [omap list_omap].
  destruct (H p ltac:(by left)) as [e ->]. cbn [length]. f_equal. apply IH. intros q Hq. apply H. by right.
Qed.

(** The list has a channel once, so it fits in an array with a place for each. *)
Lemma list_fits l x w : nol_inv l x w -> (length l <= size channels)%nat.
Proof.
  intros Hinv.
  set (fr := fun p => match nol_mem w !! p with Some e => nol_freq e | None => 0 end).
  assert (forall p, p ∈ l -> exists e, nol_mem w !! p = Some e /\ fr p = nol_freq e) as Hfr.
  { intros p Hp. destruct (inv_elem _ _ _ _ _ Hinv Hp) as [e He]. exists e. unfold fr. by rewrite He. }
  rewrite <- (length_fmap fr l), <- (size_list_to_set (C := gset Z)).
  - apply subseteq_size. intros c [p [-> Hp]]%elem_of_list_to_set%list_elem_of_fmap.
    destruct (Hfr p Hp) as (e & He & ->). by destruct (ni_elem _ _ _ _ Hinv p e He) as [(? & _) _].
  - apply NoDup_fmap_2_strong; [|by eapply inv_nodup_list].
    intros p q Hp Hq Heq. destruct (Hfr p Hp) as (e & He & Ep), (Hfr q Hq) as (e' & He' & Eq).
    apply (ni_freqs _ _ _ _ Hinv p q e e'); congruence.
Qed.

Lemma get_nol_eq l x w cap :
  nol_inv l x w -> (length l <= cap)%nat ->
  dfs_get_nol cap w = Ret (req_of <$> elems (nol_mem w) l) w.
Proof.
  intros Hinv Hcap. unfold dfs_get_nol, rounds. rewrite !bind_gets.
  by rewrite (get_loop_eq l _ _ cap [] w (rounds_enough _ _ _ _ Hinv) Hcap (ni_chain _ _ _ _ Hinv)).
Qed.

Lemma update_eq l x w :
  nol_inv l x w -> exists c, dfs_nol_update alloc_array w = Ret tt (set_clist c w) /\
    (alloc_array w = true -> c = req_of <$> elems (nol_mem w) l).
Proof.
  intros Hinv. unfold dfs_nol_update. rewrite bind_gets, (ni_count _ _ _ _ Hinv).
  destruct (Z.eqb_spec (Z.of_nat (length l)) 0) as [Hl|Hl].
  - exists []. split; [done|]. assert (l = []) as -> by (destruct l; cbn in Hl; (done || lia)). done.
  - rewrite bind_gets. destruct (alloc_array w) eqn:Ha.
    + exists (req_of <$> elems (nol_mem w) l). split; [|done].
      rewrite (bind_ret _ _ _ _ _ (get_nol_eq l x w (Z.to_nat (Z.of_nat (length l))) Hinv ltac:(lia))). done.
    + exists (clist w). split; [|done]. by destruct w.
Qed.

(** ** Deleting *)

Lemma matches_freq l x w f p :
  nol_inv l x w -> matches_at (nol_mem w) f CH_WIDTH p = freq_at (nol_mem w) f p.
Proof.
  intros Hinv. unfold matches_at, freq_at, matching. destruct (nol_mem w !! p) as [e|] eqn:He; [|done].
  destruct (ni_elem _ _ _ _ Hinv p e He) as [(_ & -> & _) _]. by rewrite Z.eqb_refl, andb_true_r.
Qed.

Lemma freq_at_iff m f p : freq_at m f p = true <-> exists e, m !! p = Some e /\ nol_freq e = f.
Proof.
  unfold freq_at. destruct (m !! p) as [e|]; [|split; [done|by intros (? & ? & _)]]. rewrite Z.eqb_eq.
  split; [by intros <-; exists e|by intros (? & [= <-] & ?)].
Qed.

Lemma stays_goes_perm m f wd l : stays m f wd l ++ goes m f wd l ≡ₚ l.
Proof.
  induction l as [|p l IH]; [done|]. unfold stays, goes in *. cbn [List.filter].
  destruct (matches_at m f wd p); cbn [negb app]; [|by constructor].
  rewrite <- Permutation_middle. by constructor.
Qed.

Definition without w f l : list Z := List.filter (fun p => negb (freq_at (nol_mem w) f p)) l.
Definition of_freq w f l : list Z := List.filter (freq_at (nol_mem w) f) l.

Lemma elem_of_without w f l p : p ∈ without w f l <-> p ∈ l /\ freq_at (nol_mem w) f p = false.
Proof. unfold without. rewrite elem_of_filter_b, negb_true_iff. tauto. Qed.

Lemma delete_eq l x w f :
  nol_inv l x w ->
  exists m' h',
    let w' := relink m' h' (dfs_nol_free_list w ++ of_freq w f l)
                (Z.of_nat (length (without w f l))) w in
    dfs_nol_delete f CH_WIDTH w = Ret tt w' /\ same_cores (nol_mem w) m' /\
    nol_inv (without w f l) x w'.
Proof.
  intros Hinv. unfold dfs_nol_delete, rounds. rewrite !bind_gets.
  destruct (delete_loop_eq f CH_WIDTH l (S (size (nol_mem w))) None [] (dfs_nol w) w)
    as (m' & h' & E & Hs & Hc).
  { by eapply rounds_enough. }
  { rewrite (ni_count _ _ _ _ Hinv). lia. }
  { by eapply inv_nodup_list. }
  { done. }
  { done. }
  { apply Hinv. }
  assert (stays (nol_mem w) f CH_WIDTH l = without w f l) as Hst.
  { apply filter_ext. intros p. by rewrite (matches_freq l x w). }
  assert (goes (nol_mem w) f CH_WIDTH l = of_freq w f l) as Hgo.
  { apply filter_ext. intros p. by rewrite (matches_freq l x w). }
  pose proof (stays_goes_perm (nol_mem w) f CH_WIDTH l) as Hperm. rewrite Hst, Hgo in *.
  exists m', h'. cbn [app] in Hc. assert (dfs_nol_count w - Z.of_nat (length (of_freq w f l)) =
    Z.of_nat (length (without w f l))) as Hcount.
  { apply Permutation_length in Hperm. rewrite length_app in Hperm. rewrite (ni_count _ _ _ _ Hinv). lia. }
  rewrite Hcount in E. split_and!; [done|done|].
  apply (inv_relink _ l _ x x); [done..| | |done].
  - etrans; [|apply Permutation_app_tail, Hperm]. rewrite <- !app_assoc. apply Permutation_app_head.
    rewrite !app_assoc. apply Permutation_app_tail, Permutation_app_comm.
  - intros p Hp. left. by apply elem_of_without in Hp as [? _].
Qed.


(** ** Timers and their handlers *)

Lemma inv_set_handlers l x w hs :
  nol_inv l x w -> NoDup (h_elem <$> hs) ->
  (forall h, h ∈ hs -> handler_ok w l h) ->
  (forall p e, p ∈ l -> nol_mem w !! p = Some e -> is_Some (nol_timer e) \/
     exists h, h ∈ hs /\ h_elem h = p /\ h_stage h = Fired) ->
  nol_inv l x (set_handlers hs w).
Proof. intros [] Hnd Hok Harm. by split. Qed.

Definition mark (p : Z) (hs : list handler) : list handler :=
  List.map (fun h => if h_elem h =? p then Handler p (h_freq h) (h_width h) Deleted else h) hs.
Definition drop_handler (p : Z) (hs : list handler) : list handler :=
  List.filter (fun h => negb (h_elem h =? p)) hs.

#[local] Arguments mark : simpl never.
#[local] Arguments drop_handler : simpl never.
#[local] Arguments handler_of : simpl never.

Lemma handler_of_some p hs h : handler_of p hs = Some h -> h ∈ hs /\ h_elem h = p.
Proof.
  unfold handler_of. intros Hf%List.find_some. by rewrite <- list_elem_of_In, Z.eqb_eq in Hf.
Qed.

Lemma handler_of_in hs h : NoDup (h_elem <$> hs) -> h ∈ hs -> handler_of (h_elem h) hs = Some h.
Proof.
  induction hs as [|h' hs IH]; [by intros _ ?%elem_of_nil|].
  intros [Hn Hnd]%NoDup_cons Hin. unfold handler_of. cbn [List.find].
  destruct (Z.eqb_spec (h_elem h') (h_elem h)) as [Heq|Hne].
  - apply elem_of_cons in Hin as [->|Hin]; [done|]. exfalso. apply Hn. rewrite Heq.
    by apply list_elem_of_fmap_2.
  - apply elem_of_cons in Hin as [->|Hin]; [done|]. by apply IH.
Qed.

Lemma handler_of_none p hs : handler_of p hs = None <-> p ∉ h_elem <$> hs.
Proof.
  split.
  - intros Hn [h [-> Hh]]%list_elem_of_fmap. unfold handler_of in Hn.
    apply list_elem_of_In, (List.find_none _ _ Hn) in Hh. cbn in Hh. by rewrite Z.eqb_refl in Hh.
  - intros Hp. destruct (handler_of p hs) as [h|] eqn:E; [|done].
    apply handler_of_some in E as [Hh <-]. destruct Hp. by apply list_elem_of_fmap_2.
Qed.

Lemma mark_elems p hs : h_elem <$> mark p hs = h_elem <$> hs.
Proof.
  unfold mark. induction hs as [|h hs IH]; [done|]. cbn. f_equal; [|done].
  by destruct (Z.eqb_spec (h_elem h) p).
Qed.

Lemma elem_of_mark p hs h :
  h ∈ mark p hs -> exists h', h' ∈ hs /\ h_elem h = h_elem h' /\ h_freq h = h_freq h' /\ h_width h = h_width h' /\
    ((h_elem h = p /\ h_stage h = Deleted) \/ (h_elem h <> p /\ h = h')).
Proof.
  unfold mark. rewrite list_elem_of_In, in_map_iff. intros (h' & <- & Hh').
  exists h'. rewrite list_elem_of_In. destruct (Z.eqb_spec (h_elem h') p); cbn; split_and!; auto.
Qed.

Lemma drop_elems p hs : h_elem <$> drop_handler p hs = List.filter (fun q => negb (q =? p)) (h_elem <$> hs).
Proof.
  unfold drop_handler. induction hs as [|h hs IH]; [done|]. cbn.
  destruct (h_elem h =? p); cbn; [done|by f_equal].
Qed.

Lemma elem_of_drop p hs h : h ∈ drop_handler p hs <-> h ∈ hs /\ h_elem h <> p.
Proof.
  unfold drop_handler. rewrite elem_of_filter_b, negb_true_iff, Z.eqb_neq. tauto.
Qed.

(** The part of the handler with the lock. *)
Lemma step_fired l x w p h :
  nol_inv l x w -> handler_of p (handlers w) = Some h -> h_stage h = Fired ->
  let f := h_freq h in
  exists m' h',
    let w' := set_handlers (mark p (handlers w)) (set_work true
                (relink m' h' (dfs_nol_free_list w ++ of_freq w f l)
                  (Z.of_nat (length (without w f l))) w)) in
    handler_step alloc_array p w = Ret tt w' /\ same_cores (nol_mem w) m' /\
    nol_inv (without w f l) x w'.
Proof.
  intros Hinv Hh Hst f. destruct (handler_of_some _ _ _ Hh) as [Hin Hp].
  destruct (ni_handler _ _ _ _ Hinv h Hin) as (e & He & Hf & Hw & _).
  destruct (delete_eq l x w f Hinv) as (m' & h' & E & Hs & Hinv'). exists m', h'.
  split_and!; [|done|].
  - unfold handler_step. rewrite bind_gets, Hh, Hst. unfold DFS_NOL_DELETE_CHAN_LOCKED.
    rewrite bind_assoc, Hw, (bind_ret _ _ _ _ _ E), bind_modify. done.
  - apply inv_set_handlers.
    + eapply inv_frame; [exact Hinv'|done..].
    + rewrite mark_elems. apply Hinv.
    + intros h1 (h2 & Hh2 & He1 & Hf1 & Hw1 & Hcase)%elem_of_mark.
      destruct (ni_handler _ _ _ _ Hinv' h2 Hh2) as (e2 & He2 & Hf2 & Hw2 & Hd2).
      exists e2. cbn in He2 |- *. rewrite He1, Hf1, Hw1. split_and!; [done..|].
      destruct Hcase as [[Hep _]|[_ ->]]; [|done]. intros _ [_ Hno]%elem_of_without.
      rewrite <- He1, Hep, <- Hp in Hno. unfold freq_at in Hno. rewrite He in Hno.
      apply Z.eqb_neq in Hno. by destruct Hno.
    + intros q e1 Hq He1. destruct (ni_armed _ _ _ _ Hinv' q e1 Hq He1) as [|(h1 & Hh1 & Hq1 & Hs1)]; [by left|].
      right. exists h1. split_and!; [|done..]. cbn in Hh1.
      apply elem_of_without in Hq as [_ Hno]. unfold mark. apply list_elem_of_In, in_map_iff.
      exists h1. rewrite <- list_elem_of_In. split; [|done].
      destruct (Z.eqb_spec (h_elem h1) p) as [Heq|]; [|done]. exfalso.
      rewrite <- Hq1, Heq, <- Hp in Hno. unfold freq_at in Hno. rewrite He in Hno.
      apply Z.eqb_neq in Hno. by destruct Hno.
Qed.

(** The rest of it. *)
Lemma step_deleted l x w p h :
  nol_inv l x w -> handler_of p (handlers w) = Some h -> h_stage h = Deleted ->
  exists c ev,
    let w' := set_handlers (drop_handler p (handlers w))
                (set_reg (reg_nol w ∖ list_to_set [h_freq h]) (set_events ev (set_clist c w))) in
    handler_step alloc_array p w = Ret tt w' /\ nol_inv l x w'.
Proof.
  intros Hinv Hh Hst. destruct (handler_of_some _ _ _ Hh) as [Hin Hp].
  destruct (update_eq l x w Hinv) as (c & E & _). eexists c, _. split.
  - unfold handler_step. rewrite bind_gets, Hh, Hst. unfold remove_from_nol_rest.
    rewrite bind_assoc, (bind_ret _ _ _ _ _ E). done.
  - apply inv_set_handlers.
    + eapply inv_frame; [exact Hinv|done..].
    + cbn. rewrite drop_elems. apply NoDup_filter_b, Hinv.
    + intros h1 [Hh1 _]%elem_of_drop. by apply (ni_handler _ _ _ _ Hinv).
    + intros q e1 Hq He1. destruct (ni_armed _ _ _ _ Hinv q e1 Hq He1) as [|(h1 & Hh1 & Hq1 & Hs1)]; [by left|].
      right. exists h1. split_and!; [|done..]. apply elem_of_drop. split; [done|].
      intros Heq. rewrite <- Heq, (handler_of_in _ _ (ni_handlers _ _ _ _ Hinv) Hh1) in Hh.
      congruence.
Qed.

(** ** Quiet steps

    What the handlers of other channels do, and the rest of freeing an element: it takes
    elements off the list, but not a channel that is kept. *)

(** A channel is on the list, or about to lose its mark, or is not marked. *)
Definition tracked l f w : Prop :=
  (exists p e, p ∈ l /\ nol_mem w !! p = Some e /\ nol_freq e = f) \/
  (exists h, h ∈ handlers w /\ h_freq h = f /\ h_stage h = Deleted) \/ f ∉ reg_nol w.

Record quiet l w l' w' : Prop := {
  q_clock : nol_clock w' = nol_clock w;
  q_psoc : psoc_nol w' = psoc_nol w;
  q_kept : forall f d, kept l f d w -> kept l' f d w';
  q_size : (size (nol_mem w') <= size (nol_mem w))%nat;
  q_sub : forall p, p ∈ l' -> p ∈ l;
  q_handlers : forall p, handler_of p (handlers w) = None -> handler_of p (handlers w') = None;
  q_timer : forall p e t, nol_mem w' !! p = Some e -> nol_timer e = Some t ->
    exists e0, nol_mem w !! p = Some e0 /\ nol_timer e0 = Some t;
  q_tracked : forall f, tracked l f w -> tracked l' f w';
}.

(** The work item is scheduled, or nothing new waits for it. *)
Definition works w w' : Prop :=
  free_work w' = true \/
  (dfs_nol_free_list w' = dfs_nol_free_list w /\ free_work w' = free_work w).

Lemma works_trans w1 w2 w3 : works w1 w2 -> works w2 w3 -> works w1 w3.
Proof. unfold works. intros W1 [|[-> ->]]; [by left|done]. Qed.

Lemma quiet_refl l w : quiet l w l w.
Proof. split; eauto. Qed.

Lemma quiet_trans l1 l2 l3 w1 w2 w3 : quiet l1 w1 l2 w2 -> quiet l2 w2 l3 w3 -> quiet l1 w1 l3 w3.
Proof.
  intros [C1 P1 K1 S1 U1 H1 T1 D1] [C2 P2 K2 S2 U2 H2 T2 D2]. split; eauto; [congruence|congruence|lia|].
  intros p e t He Ht. destruct (T2 p e t He Ht) as (e0 & He0 & Ht0). eauto.
Qed.

Lemma quiet_frame l w w' :
  nol_mem w' = nol_mem w -> handlers w' = handlers w -> nol_clock w' = nol_clock w ->
  reg_nol w' = reg_nol w -> psoc_nol w' = psoc_nol w -> quiet l w l w'.
Proof.
  intros Hm Hh Hc Hr Hp. split; unfold tracked; rewrite ?Hm, ?Hh, ?Hc, ?Hr; eauto.
  intros f d Hk. eapply kept_frame; [done..|]. by rewrite Hr.
Qed.

Lemma same_cores_size m m' : same_cores m m' -> size m' = size m.
Proof.
  intros H. rewrite <- !size_dom. f_equal. apply set_eq. intros p. rewrite !elem_of_dom.
  pose proof (H p) as Hp. destruct (m !! p), (m' !! p); try done; split; by eexists.
Qed.

(** How many parts of its handler an element has before it. *)
Definition parts_left p w : nat :=
  match handler_of p (handlers w) with
  | None => 0
  | Some h => match h_stage h with Fired => 2 | Deleted => 1 end
  end.

Lemma handler_of_mark p q hs :
  handler_of q (mark p hs) = (if decide (q = p)
    then (fun h => Handler p (h_freq h) (h_width h) Deleted) <$> handler_of q hs else handler_of q hs).
Proof.
  unfold handler_of, mark. induction hs as [|h hs IH]; [by destruct (decide (q = p))|]. cbn.
  destruct (Z.eqb_spec (h_elem h) p) as [Hp|Hp]; cbn.
  - destruct (Z.eqb_spec p q) as [->|Hq].
    + rewrite Hp, Z.eqb_refl. by rewrite decide_True.
    + rewrite (proj2 (Z.eqb_neq (h_elem h) q)) by congruence. done.
  - destruct (Z.eqb_spec (h_elem h) q) as [<-|Hq]; [by rewrite decide_False|done].
Qed.

Lemma handler_of_drop p q hs :
  handler_of q (drop_handler p hs) = (if decide (q = p) then None else handler_of q hs).
Proof.
  unfold handler_of, drop_handler. induction hs as [|h hs IH]; [by destruct (decide (q = p))|]. cbn.
  destruct (Z.eqb_spec (h_elem h) p) as [Hp|Hp]; cbn.
  - rewrite IH. destruct (decide (q = p)) as [->|]; [done|]. by rewrite (proj2 (Z.eqb_neq _ _)) by congruence.
  - destruct (Z.eqb_spec (h_elem h) q) as [<-|Hq]; [by rewrite decide_False|done].
Qed.

Lemma kept_fired l f' d w p h m' h' :
  kept l f' d w -> h ∈ handlers w -> same_cores (nol_mem w) m' ->
  kept (without w (h_freq h) l) f' d
    (set_handlers (mark p (handlers w)) (set_work true
      (relink m' h' (dfs_nol_free_list w ++ of_freq w (h_freq h) l)
        (Z.of_nat (length (without w (h_freq h) l))) w))).
Proof.
  intros Hk Hin Hs. pose proof (k_handlers _ _ _ _ Hk) as Hh.
  destruct (kept_relink l (without w (h_freq h) l) f' d w m' h'
    (dfs_nol_free_list w ++ of_freq w (h_freq h) l) (Z.of_nat (length (without w (h_freq h) l))) Hk Hs) as [].
  - intros q e He Hf. rewrite elem_of_without. split; [|tauto]. intros Hq. split; [done|].
    unfold freq_at. rewrite He, Hf. apply Z.eqb_neq. by apply not_eq_sym, Hh.
  - split; [done..| |done]. cbn. intros h1 (h2 & Hh2 & _ & -> & _)%elem_of_mark. by apply Hh.
Qed.

Lemma kept_deleted l f' d w p h c ev :
  kept l f' d w -> h ∈ handlers w ->
  kept l f' d (set_handlers (drop_handler p (handlers w))
    (set_reg (reg_nol w ∖ list_to_set [h_freq h]) (set_events ev (set_clist c w)))).
Proof.
  intros [He Hr Hh Ho] Hin. pose proof (Hh h Hin). split; [done| | |done]; cbn.
  - apply elem_of_difference. split; [done|]. intros [->%elem_of_singleton|?%elem_of_empty]%elem_of_union; done.
  - intros h1 [Hh1 _]%elem_of_drop. by apply Hh.
Qed.

Lemma mark_in p hs h : h ∈ hs -> h_stage h = Deleted \/ h_elem h = p ->
  exists h', h' ∈ mark p hs /\ h_freq h' = h_freq h /\ h_stage h' = Deleted.
Proof.
  intros Hh Hs. exists (if h_elem h =? p then Handler p (h_freq h) (h_width h) Deleted else h). split.
  - unfold mark. apply list_elem_of_In, in_map_iff. exists h. by rewrite <- list_elem_of_In.
  - destruct (Z.eqb_spec (h_elem h) p); [done|]. split; [done|]. by destruct Hs.
Qed.

Lemma tracked_fired l f' w p h m' h' :
  handler_of p (handlers w) = Some h -> same_cores (nol_mem w) m' -> tracked l f' w ->
  tracked (without w (h_freq h) l) f'
    (set_handlers (mark p (handlers w)) (set_work true
      (relink m' h' (dfs_nol_free_list w ++ of_freq w (h_freq h) l)
        (Z.of_nat (length (without w (h_freq h) l))) w))).
Proof.
  intros [Hin Hp]%handler_of_some Hs [(q & e & Hq & He & Hf)|[(h1 & Hh1 & Hf1 & Hs1)|Hr]]; unfold tracked; cbn.
  - destruct (decide (f' = h_freq h)) as [->|Hne].
    + right; left. destruct (mark_in p _ h Hin) as (h2 & ? & ? & ?); [by right|]. eauto.
    + left. destruct (same_cores_lookup _ _ _ _ Hs He) as (e' & He' & (Hf' & _)%core_eq).
      exists q, e'. rewrite elem_of_without, Hf'. split_and!; try done. unfold freq_at. rewrite He.
      apply Z.eqb_neq. congruence.
  - right; left. destruct (mark_in p _ h1 Hh1) as (h2 & ? & ? & ?); [by left|]. exists h2. split; [done|]. by split; [congruence|].
  - by right; right.
Qed.

Lemma tracked_deleted l x f' w p h c ev :
  nol_inv l x w -> handler_of p (handlers w) = Some h -> tracked l f' w ->
  tracked l f' (set_handlers (drop_handler p (handlers w))
    (set_reg (reg_nol w ∖ list_to_set [h_freq h]) (set_events ev (set_clist c w)))).
Proof.
  intros Hinv Hh [Hl|[(h1 & Hh1 & Hf1 & Hs1)|Hr]]; unfold tracked; cbn; [by left| |].
  - destruct (decide (h_elem h1 = p)) as [Hp|Hp].
    + right; right. pose proof (handler_of_in _ _ (ni_handlers _ _ _ _ Hinv) Hh1) as Heq.
      rewrite Hp, Hh in Heq. injection Heq as ->. intros [_ Hn]%elem_of_difference. apply Hn.
      rewrite <- Hf1. apply elem_of_union_l. by apply elem_of_singleton.
    + right; left. exists h1. by rewrite elem_of_drop.
  - right; right. by intros [? _]%elem_of_difference.
Qed.

Lemma handler_step_runs l x w p :
  nol_inv l x w ->
  exists l' w', handler_step alloc_array p w = Ret tt w' /\ nol_inv l' x w' /\ quiet l w l' w' /\
    works w w' /\ parts_left p w' = pred (parts_left p w).
Proof.
  intros Hinv. unfold parts_left. destruct (handler_of p (handlers w)) as [h|] eqn:Hh.
  2:{ exists l, w. split_and!; [|done|apply quiet_refl|by right|by rewrite Hh].
      unfold handler_step. by rewrite bind_gets, Hh. }
  destruct (handler_of_some _ _ _ Hh) as [Hin Hp]. destruct (h_stage h) eqn:Hst.
  - destruct (step_fired l x w p h Hinv Hh Hst) as (m' & h' & E & Hs & Hinv').
    eexists _, _. split_and!; [exact E|exact Hinv'| |by left|].
    + split; [done|done| |cbn; by rewrite (same_cores_size _ _ Hs)| | | |].
      * intros f' d Hk. by apply kept_fired.
      * by intros q [? _]%elem_of_without.
      * intros q Hq. cbn. rewrite handler_of_mark, Hq. by destruct (decide (q = p)).
      * intros q e t He Ht. destruct (same_cores_lookup _ _ _ _ (same_cores_sym _ _ Hs) He)
          as (e0 & He0 & (_ & _ & _ & _ & Ht0)%core_eq). exists e0. by rewrite Ht0.
      * intros f'. by apply tracked_fired.
    + cbn. rewrite handler_of_mark, decide_True, Hh by done. done.
  - destruct (step_deleted l x w p h Hinv Hh Hst) as (c & ev & E & Hinv').
    eexists _, _. split_and!; [exact E|exact Hinv'| |by right|].
    + split; [done|done| |done|done| | |].
      * intros f' d Hk. by apply kept_deleted.
      * intros q Hq. cbn. rewrite handler_of_drop, Hq. by destruct (decide (q = p)).
      * eauto.
      * intros f'. by eapply tracked_deleted.
    + cbn. by rewrite handler_of_drop, decide_True.
Qed.

End Run.
