(* ===== verification/NolFree.v ===== *)
(** * Freeing the elements of the non-occupancy list

    An element that is off the list is freed when its timer is stopped and its handler has
    ended; the loops that free elements run until there is none. *)
From S2P Require Import Prelude Nol NolInv NolRun.

Section Free.
Context (alloc_array : nol_world -> bool) (channels : gset Z).
Implicit Types (w : nol_world) (l x : list Z) (p q f d : Z) (e : dfs_nolelem).

Abbreviation nol_inv := (NolInv.nol_inv channels).

Lemma limbo_off l x w p : nol_inv l x w -> p ∈ dfs_nol_free_list w ++ x -> p ∉ l.
Proof.
  intros Hinv Hp Hl. pose proof (ni_nodup _ _ _ _ Hinv) as (_ & Hd & _)%NoDup_app. by apply (Hd p).
Qed.

Lemma limbo_elem l x w p : nol_inv l x w -> p ∈ x -> exists e, nol_mem w !! p = Some e.
Proof. intros Hinv Hp. apply (ni_dom _ _ _ _ Hinv). rewrite !elem_of_app. auto. Qed.

(** A change of an element that is not the one of the channel. *)
Lemma kept_update l f d w p e e' :
  kept l f d w -> nol_mem w !! p = Some e -> nol_freq e' = nol_freq e ->
  (nol_freq e = f -> (p ∉ l) /\ nol_timer e' = None) ->
  kept l f d (set_mem (<[p := e']> (nol_mem w)) w).
Proof.
  intros [(q & eq & t & Hq & Heq & Hf & Ht & Hd) Hr Hh Ho] He Hfe Hoff. split; cbn; [|done|done|].
  - exists q, eq, t. split_and!; try done. rewrite lookup_insert_ne; [done|]. intros ->.
    rewrite He in Heq. injection Heq as ->. by apply (Hoff Hf).
  - intros r er Hrl. destruct (decide (p = r)) as [->|Hne].
    + rewrite lookup_insert_eq. intros [= <-] Hf'. apply Hoff. congruence.
    + rewrite lookup_insert_ne by done. by apply Ho.
Qed.

Lemma timer_stop_runs l x w p :
  nol_inv l x w -> p ∈ x ->
  exists w', qdf_timer_stop p w = Ret tt w' /\ nol_inv l x w' /\ quiet l w l w' /\ works w w'.
Proof.
  intros Hinv Hp. destruct (limbo_elem _ _ _ _ Hinv Hp) as [e He].
  assert (p ∉ l) as Hl by (apply (limbo_off _ _ _ _ Hinv); rewrite elem_of_app; by right).
  eexists. split_and!; [by apply write_eq| | |by right].
  - destruct (ni_elem _ _ _ _ Hinv p e He) as [Hok _]. by eapply elem_update_inv.
  - split; cbn; [done|done| |by rewrite map_size_insert_Some|done|done| |].
    + intros f d Hk. by eapply kept_update.
    + intros q eq t. destruct (decide (p = q)) as [->|Hne].
      * rewrite lookup_insert_eq. by intros [= <-].
      * rewrite lookup_insert_ne by done. eauto.
    + intros f [(q & eq & Hq & Heq & Hf)|Ht]; [|by right]. left. exists q, eq. cbn.
      rewrite lookup_insert_ne; [done|]. by intros ->.
Qed.

Lemma timer_free_runs l x w p :
  nol_inv l x w -> p ∈ x ->
  exists l' w', qdf_timer_free alloc_array p w = Ret tt w' /\ nol_inv l' x w' /\ quiet l w l' w' /\
    works w w' /\ handler_of p (handlers w') = None.
Proof.
  intros Hinv Hp. destruct (timer_stop_runs l x w p Hinv Hp) as (w1 & E1 & Hinv1 & Hq1 & Hw1).
  destruct (handler_step_runs alloc_array channels l x w1 p Hinv1) as (l2 & w2 & E2 & Hinv2 & Hq2 & Hw2 & Hp2).
  destruct (handler_step_runs alloc_array channels l2 x w2 p Hinv2) as (l3 & w3 & E3 & Hinv3 & Hq3 & Hw3 & Hp3).
  exists l3, w3. split_and!; [|done|by eauto using quiet_trans|by eauto using works_trans|].
  - unfold qdf_timer_free. by rewrite (bind_ret _ _ _ _ _ E1), (bind_ret _ _ _ _ _ E2).
  - rewrite Hp2 in Hp3. unfold parts_left in Hp3.
    destruct (handler_of p (handlers w3)) as [h|]; [|done].
    destruct (handler_of p (handlers w1)) as [h1|]; [destruct (h_stage h1)|]; by destruct (h_stage h).
Qed.

Lemma inv_mem_free l p x w :
  nol_inv l (p :: x) w -> handler_of p (handlers w) = None ->
  exists w', qdf_mem_free p w = Ret tt w' /\ nol_inv l x w' /\ quiet l w l w' /\ works w w' /\
    (size (nol_mem w') < size (nol_mem w))%nat.
Proof.
  intros Hinv Hno%handler_of_none. destruct (limbo_elem _ _ _ p Hinv ltac:(by left)) as [e He].
  assert (p ∉ l) as Hl by (apply (limbo_off _ _ _ _ Hinv); set_solver).
  assert (size (delete p (nol_mem w)) = pred (size (nol_mem w))) as Hs
    by (apply map_size_delete_Some; by eexists).
  assert (size (nol_mem w) <> 0%nat) as Hne.
  { intros H0%map_size_empty_inv. rewrite H0 in He. by rewrite lookup_empty in He. }
  exists (set_mem (delete p (nol_mem w)) w). split_and!; [| | |by right|cbn; lia].
  - unfold qdf_mem_free. by rewrite (read_eq _ _ _ _ He).
  - assert (forall q, q <> p -> delete p (nol_mem w) !! q = nol_mem w !! q) as Hd
      by (intros; by rewrite lookup_delete_ne by congruence).
    pose proof (ni_nodup _ _ _ _ Hinv) as Hnd. rewrite !app_assoc, <- Permutation_middle in Hnd.
    rewrite <- !app_assoc in Hnd. apply NoDup_cons in Hnd as [Hp Hnd].
    split; cbn; try apply Hinv; try done.
    + by apply seg_delete, Hinv.
    + intros q. destruct (decide (q = p)) as [->|Hq].
      * rewrite lookup_delete_eq. split; [by intros [? ?]|done].
      * rewrite Hd by done. rewrite (ni_dom _ _ _ _ Hinv), !elem_of_app, elem_of_cons. tauto.
    + intros q eq. destruct (decide (q = p)) as [->|Hq]; [by rewrite lookup_delete_eq|].
      rewrite Hd by done. by apply (ni_elem _ _ _ _ Hinv).
    + intros q q' e1 e2 Hq Hq'. rewrite !Hd by (intros ->; done). by apply (ni_freqs _ _ _ _ Hinv).
    + intros q eq Hq. rewrite Hd by (intros ->; done). by apply (ni_armed _ _ _ _ Hinv).
    + intros h Hh. destruct (ni_handler _ _ _ _ Hinv h Hh) as (eh & Heh & ?). exists eh. cbn.
      rewrite Hd; [done|]. intros <-. apply Hno. by apply list_elem_of_fmap_2.
  - split; cbn; [done|done| |lia|done|done| |].
    + intros f d [(q & eq & t & Hq & Heq & Hf) Hr Hh Ho]. split; cbn; [|done|done|].
      * exists q, eq, t. rewrite lookup_delete_ne; [done|]. by intros ->.
      * intros q' e' Hq' [_ He']%lookup_delete_Some. by apply (Ho q' e').
    + intros q e' t [_ He']%lookup_delete_Some. eauto.
    + intros f [(q & eq & Hq & Heq & Hf)|Ht]; [|by right]. left. exists q, eq. cbn.
      rewrite lookup_delete_ne; [done|]. by intros ->.
Qed.

(** Both together, as in the two loops. *)
Lemma free_elem_runs {B} l p x w (k : unit -> M nol_world B) :
  nol_inv l (p :: x) w ->
  exists l' w', (qdf_timer_free alloc_array p;; r ← qdf_mem_free p; k r) w = k tt w' /\ nol_inv l' x w' /\
    quiet l w l' w' /\ works w w' /\ (size (nol_mem w') < size (nol_mem w))%nat.
Proof.
  intros Hinv. destruct (timer_free_runs l (p :: x) w p Hinv ltac:(by left)) as (l1 & w1 & E1 & Hinv1 & Hq1 & Hw1 & Hno).
  destruct (inv_mem_free l1 p x w1 Hinv1 Hno) as (w2 & E2 & Hinv2 & Hq2 & Hw2 & Hs).
  exists l1, w2. split_and!; [|done|by eauto using quiet_trans|by eauto using works_trans|].
  - by rewrite (bind_ret _ _ _ _ _ E1), (bind_ret _ _ _ _ _ E2).
  - pose proof (q_size _ _ _ _ Hq1). lia.
Qed.

(** The first of the elements that wait is taken out, and the first of the list. *)
Lemma inv_pop_free l p rest x w :
  nol_inv l x w -> dfs_nol_free_list w = p :: rest -> nol_inv l (p :: x) (set_free_list rest w).
Proof.
  intros Hinv Hf. apply (inv_relink channels l l x (p :: x) w (nol_mem w) (dfs_nol w) rest (dfs_nol_count w));
    [done|done|apply Hinv| |by left|apply Hinv].
  rewrite Hf. apply Permutation_app_head. cbn. by rewrite <- Permutation_middle.
Qed.

Lemma inv_pop_head l p e x w :
  nol_inv (p :: l) x w -> nol_mem w !! p = Some e ->
  nol_inv l (p :: x) (set_count (dfs_nol_count w - 1) (set_head (nol_next e) w)).
Proof.
  intros Hinv He. apply (inv_relink channels (p :: l) l x (p :: x) w (nol_mem w) (nol_next e)
    (dfs_nol_free_list w) (dfs_nol_count w - 1)); [done|done| | | |].
  - destruct (ni_chain _ _ _ _ Hinv) as (_ & e' & He' & Hc). by simplify_eq.
  - cbn. rewrite !app_assoc. symmetry. apply Permutation_middle.
  - intros q Hq. left. by right.
  - rewrite (ni_count _ _ _ _ Hinv). cbn [length]. lia.
Qed.

Lemma free_loop_runs : forall fuel l x w,
  (size (nol_mem w) < fuel)%nat -> nol_inv l x w ->
  exists l' w', free_loop alloc_array fuel w = Ret tt w' /\ nol_inv l' x w' /\ quiet l w l' w' /\
    dfs_nol_free_list w' = [].
Proof.
  induction fuel as [|fuel IH]; intros l x w Hfuel Hinv; [lia|]. cbn [free_loop]. rewrite bind_gets.
  destruct (dfs_nol_free_list w) as [|p rest] eqn:Hf.
  { exists l, w. by split_and!; [| |apply quiet_refl|]. }
  pose proof (inv_pop_free _ _ _ _ _ Hinv Hf) as Hinv1. rewrite bind_modify.
  destruct (free_elem_runs l p x _ (fun _ => free_loop alloc_array fuel) Hinv1)
    as (l2 & w2 & E2 & Hinv2 & Hq2 & _ & Hs). cbn in Hs.
  destruct (IH l2 x w2 ltac:(lia) Hinv2) as (l3 & w3 & E3 & Hinv3 & Hq3 & Hf3).
  exists l3, w3. split_and!; [by rewrite E2|done| |done].
  eapply quiet_trans; [|done]. eapply quiet_trans; [|done]. by apply quiet_frame.
Qed.

(** The work item frees everything that waits. *)
Lemma work_runs l w :
  nol_inv l [] w -> dfs_nol_free_list w = [] \/ free_work w = true ->
  exists l' w', dfs_nol_workqueue_cleanup alloc_array w = Ret tt w' /\ nol_inv l' [] w' /\ quiet l w l' w' /\
    dfs_nol_free_list w' = [].
Proof.
  intros Hinv Hw. unfold dfs_nol_workqueue_cleanup. rewrite bind_gets. destruct (free_work w).
  - unfold dfs_nol_elem_free_work_cb, rounds. rewrite bind_modify, bind_gets.
    destruct (free_loop_runs (S (size (nol_mem w))) l [] (set_work false w)) as (l' & w' & E & ? & ? & ?);
      [cbn; lia|by eapply inv_frame|].
    exists l', w'. split_and!; [done..| |done]. eapply quiet_trans; [|done]. by apply quiet_frame.
  - exists l, w. destruct Hw as [Hw|Hw]; [|done]. by split_and!; [| |apply quiet_refl|].
Qed.

Lemma cleanup_loop_runs : forall fuel l x w,
  (size (nol_mem w) < fuel)%nat -> nol_inv l x w ->
  exists w', cleanup_loop alloc_array fuel w = Ret tt w' /\ nol_inv [] x w' /\ works w w' /\
    nol_clock w' = nol_clock w /\ psoc_nol w' = psoc_nol w.
Proof.
  induction fuel as [|fuel IH]; intros l x w Hfuel Hinv; [lia|]. cbn [cleanup_loop]. rewrite bind_gets.
  pose proof (ni_chain _ _ _ _ Hinv) as Hc. destruct l as [|p l].
  { cbn in Hc. rewrite Hc. exists w. by split_and!; [| |right| |]. }
  destruct Hc as (Hhead & e & He & _). rewrite Hhead, (read_eq _ _ _ _ He), !bind_modify.
  pose proof (inv_pop_head _ _ _ _ _ Hinv He) as Hinv1.
  set (w1 := set_reg (reg_nol w ∖ list_to_set [nol_freq e])
               (set_count (dfs_nol_count w - 1) (set_head (nol_next e) w))).
  assert (nol_inv l (p :: x) w1) as Hinv1' by by eapply inv_frame.
  destruct (free_elem_runs l p x w1 (fun _ => cleanup_loop alloc_array fuel) Hinv1')
    as (l2 & w2 & E2 & Hinv2 & Hq2 & Hw2 & Hs). cbn in Hs.
  destruct (IH l2 x w2 ltac:(lia) Hinv2) as (w3 & E3 & Hinv3 & Hw3 & Hc3 & Hp3).
  exists w3. split_and!; [|done| | |].
  - rewrite <- E3, <- E2. done.
  - apply works_trans with w2; [|done]. exact Hw2.
  - rewrite Hc3, (q_clock _ _ _ _ Hq2). done.
  - rewrite Hp3, (q_psoc _ _ _ _ Hq2). done.
Qed.

(** With the list empty and nothing waiting, no memory is held and no handler runs. *)
Lemma nothing_left w :
  nol_inv [] [] w -> dfs_nol_free_list w = [] ->
  dfs_nol w = None /\ dfs_nol_count w = 0 /\ nol_mem w = ∅ /\ handlers w = [].
Proof.
  intros Hinv Hf. split_and!; [apply Hinv|apply Hinv| |].
  - apply map_eq. intros p. rewrite lookup_empty. destruct (nol_mem w !! p) as [e|] eqn:He; [|done].
    assert (p ∈ [] ++ dfs_nol_free_list w ++ []) as Hp by (apply (ni_dom _ _ _ _ Hinv); by eexists).
    rewrite Hf in Hp. by apply elem_of_nil in Hp.
  - destruct (handlers w) as [|h hs] eqn:Hh; [done|].
    destruct (ni_handler _ _ _ _ Hinv h) as (e & He & _); [rewrite Hh; by left|].
    assert (h_elem h ∈ [] ++ dfs_nol_free_list w ++ []) as Hp by (apply (ni_dom _ _ _ _ Hinv); by eexists).
    rewrite Hf in Hp. by apply elem_of_nil in Hp.
Qed.

Lemma detach_runs l w :
  nol_inv l [] w -> dfs_nol_free_list w = [] \/ free_work w = true ->
  exists w', dfs_nol_detach alloc_array w = Ret tt w' /\ nol_inv [] [] w' /\ dfs_nol_free_list w' = [] /\
    nol_clock w' = nol_clock w /\ psoc_nol w' = psoc_nol w.
Proof.
  intros Hinv Hw. unfold dfs_nol_detach, dfs_nol_timer_cleanup, rounds. rewrite bind_assoc, bind_gets.
  destruct (cleanup_loop_runs (S (size (nol_mem w))) l [] w ltac:(lia) Hinv) as (w1 & E1 & Hinv1 & Hw1 & Hc1 & Hp1).
  rewrite (bind_ret _ _ _ _ _ E1).
  destruct (work_runs [] w1 Hinv1) as (l2 & w2 & E2 & Hinv2 & Hq2 & Hf2).
  { destruct Hw1 as [|[-> ->]]; [by right|done]. }
  exists w2. assert (l2 = []) as ->.
  { destruct l2 as [|p l2]; [done|]. exfalso. apply (not_elem_of_nil p), (q_sub _ _ _ _ Hq2). by left. }
  split_and!; [done..| |]; [by rewrite (q_clock _ _ _ _ Hq2)|by rewrite (q_psoc _ _ _ _ Hq2)].
Qed.

End Free.
