(* ===== verification/NolAdd.v ===== *)
(** * Putting a channel on the non-occupancy list

    A channel that is on the list has its period begin anew; one that is not gets an
    element at the end of the list, if there is memory for it. *)
From S2P Require Import Prelude Nol NolInv NolRun NolFree.

Section Add.
Context (channels : gset Z).
Implicit Types (w : nol_world) (l x : list Z) (p q f d : Z) (e : dfs_nolelem).

Abbreviation nol_inv := (NolInv.nol_inv channels).

(** The channel is on the list, and its timer does not go off before [d]. *)
Definition listed l f d w : Prop :=
  exists p e t, p ∈ l /\ nol_mem w !! p = Some e /\ nol_freq e = f /\ nol_timer e = Some t /\ d <= t.

(** Nothing but the list and its elements has changed. *)
Record same_rest w w' : Prop := {
  sr_clock : nol_clock w' = nol_clock w;
  sr_reg : reg_nol w' = reg_nol w;
  sr_free : dfs_nol_free_list w' = dfs_nol_free_list w;
  sr_work : free_work w' = free_work w;
  sr_timeout : wlan_dfs_nol_timeout w' = wlan_dfs_nol_timeout w;
  sr_psoc : psoc_nol w' = psoc_nol w;
  sr_handlers : handlers w' = handlers w;
}.

(** Nothing is about to take the channel off the list: no handler runs for it, and no
    element of it that is off the list has its timer armed. *)
Definition clear l f w : Prop :=
  (forall h, h ∈ handlers w -> h_freq h <> f) /\
  (forall p e, p ∉ l -> nol_mem w !! p = Some e -> nol_freq e = f -> nol_timer e = None).

Lemma kept_of l f d w R : listed l f d w -> clear l f w -> f ∈ R -> kept l f d (set_reg R w).
Proof. intros Hl [Hh Ho] Hr. by split. Qed.

Lemma kept_clear l f d w : kept l f d w -> clear l f w.
Proof. by intros []. Qed.

(** What adding channels leaves of the others; [P f d] when channel [f] stays until [d]. *)
Record adds (P : Z -> Z -> Prop) l w l' w' : Prop := {
  ad_rest : same_rest w w';
  ad_kept : forall R f d, P f d -> kept l f d (set_reg R w) -> kept l' f d (set_reg R w');
  ad_clear : forall f, clear l f w -> clear l' f w';
}.

Definition until f d : Z -> Z -> Prop := fun f' d' => f' = f -> d' <= d.

Lemma adds_refl P l w : adds P l w l w.
Proof. by split. Qed.

Lemma same_rest_trans w1 w2 w3 : same_rest w1 w2 -> same_rest w2 w3 -> same_rest w1 w3.
Proof. intros [] []. split; congruence. Qed.

Lemma adds_trans (P P1 P2 : Z -> Z -> Prop) l1 l2 l3 w1 w2 w3 :
  adds P1 l1 w1 l2 w2 -> adds P2 l2 w2 l3 w3 -> (forall f d, P f d -> P1 f d /\ P2 f d) ->
  adds P l1 w1 l3 w3.
Proof.
  intros [R1 K1 C1] [R2 K2 C2] HP. split; [by eapply same_rest_trans| |auto].
  intros R f d [? ?]%HP Hk. auto.
Qed.

(** Its marks are not touched, so a channel that is kept is kept. *)
Lemma adds_kept P l w l' w' f d : adds P l w l' w' -> P f d -> kept l f d w -> kept l' f d w'.
Proof.
  intros [Hr Hk _] HP Hw. pose proof (Hk (reg_nol w) f d HP) as H.
  assert (set_reg (reg_nol w) w = w) as Ew by (by destruct w).
  assert (set_reg (reg_nol w) w' = w') as Ew' by (rewrite <- (sr_reg _ _ Hr); by destruct w').
  rewrite Ew, Ew' in H. auto.
Qed.

Lemma adds_listed P l w l' w' f d :
  adds P l w l' w' -> P f d -> clear l f w -> listed l f d w -> listed l' f d w'.
Proof.
  intros [_ Hk _] HP Hc Hl. assert (f ∈ ({[f]} : gset Z)) as Hf by set_solver.
  apply (k_elem _ _ _ _ (Hk {[f]} f d HP (kept_of _ _ _ _ _ Hl Hc Hf))).
Qed.

Definition period_end w (tmo : Z) : Z := nol_clock w + tmo * 1000 * 1000.

Lemma in_end now f tmo : 0 <= now -> f ∈ channels -> 0 <= tmo * 1000 < 2 ^ 31 -> forall e,
  nol_freq e = f -> nol_chwidth e = CH_WIDTH -> nol_start_us e = now -> nol_timeout_ms e = tmo * 1000 ->
  (nol_timer e = None \/ nol_timer e = Some (now + tmo * 1000 * 1000)) ->
  elem_ok channels now e /\ timer_ok now e.
Proof.
  intros Hnow Hf Ht e He Hw Hs Hm Htm. unfold elem_ok, timer_ok, nol_end. rewrite He, Hw, Hs, Hm.
  split; [split_and!; (done || lia)|]. intros t Htt. destruct Htm as [Htm|Htm]; rewrite Htm in Htt; [done|].
  injection Htt as <-. lia.
Qed.

Lemma find_freq l x w f :
  nol_inv l x w -> List.find (matches_at (nol_mem w) f CH_WIDTH) l = List.find (freq_at (nol_mem w) f) l.
Proof.
  intros Hinv. pose proof (fun p => matches_freq channels l x w f p Hinv) as Heq. clear Hinv.
  induction l as [|p l IH]; [done|]. cbn. by rewrite Heq, IH.
Qed.

Lemma kept_rearm l f d w p e e' t :
  kept l f d w -> p ∈ l -> nol_mem w !! p = Some e -> nol_freq e' = nol_freq e ->
  nol_timer e' = Some t -> (nol_freq e = f -> d <= t) ->
  kept l f d (set_mem (<[p := e']> (nol_mem w)) w).
Proof.
  intros [(q & eq & tq & Hq & Heq & Hf & Htq & Hd) Hr Hh Ho] Hp He Hfe Ht Hdt.
  split; cbn; [|done|done|].
  - destruct (decide (p = q)) as [->|Hne].
    + rewrite He in Heq. injection Heq as ->. exists q, e', t. rewrite lookup_insert_eq, Hfe. split_and!; auto.
    + exists q, eq, tq. by rewrite lookup_insert_ne.
  - intros r er Hr'. rewrite lookup_insert_ne by (intros ->; done). by apply Ho.
Qed.

(** The channel is on the list. *)
Lemma rearm_runs l x w f tmo p e :
  nol_inv l x w -> f ∈ channels -> 0 <= tmo * 1000 < 2 ^ 31 ->
  p ∈ l -> nol_mem w !! p = Some e -> nol_freq e = f ->
  exists w', (write_elem p (set_start (nol_clock w) (tmo * 1000));;
              qdf_timer_stop p;; qdf_timer_mod p (tmo * 1000)) w = Ret tt w' /\
    nol_inv l x w' /\ adds (until f (period_end w tmo)) l w l w' /\ listed l f (period_end w tmo) w'.
Proof.
  intros Hinv Hf Ht Hp He Hef. destruct (ni_elem _ _ _ _ Hinv p e He) as [(_ & Hw & _) _].
  set (e' := set_timer (Some (period_end w tmo)) (set_timer None (set_start (nol_clock w) (tmo * 1000) e))).
  exists (set_mem (<[p := e']> (nol_mem w)) w).
  destruct (in_end (nol_clock w) f tmo (ni_clock _ _ _ _ Hinv) Hf Ht e') as [Hok Htok]; try done; [by right|].
  split_and!.
  - rewrite (bind_ret _ _ _ _ _ (write_eq w p e _ He)). unfold qdf_timer_stop.
    rewrite (bind_ret _ _ _ _ _ (write_eq (set_mem _ w) p _ _ (lookup_insert_eq _ _ _))).
    erewrite timer_mod_eq; [|apply lookup_insert_eq|lia].
    cbn. by rewrite !insert_insert_eq.
  - eapply elem_update_inv; [done..|]. by left.
  - split; [done| |].
    + intros R f' d Hd Hk. apply (kept_rearm l f' d (set_reg R w) p e e' (period_end w tmo)); try done.
      rewrite Hef. by intros <-; apply Hd.
    + intros f' [Hh Ho]. split; [done|]. intros q eq Hq. cbn. rewrite lookup_insert_ne by (intros ->; done).
      by apply Ho.
  - exists p, e', (period_end w tmo). cbn. rewrite lookup_insert_eq. by split_and!.
Qed.

Lemma inv_alloc l x w a e :
  nol_inv l x w -> nol_mem w !! a = None -> elem_ok channels (nol_clock w) e -> timer_ok (nol_clock w) e ->
  nol_inv l (a :: x) (set_mem (<[a := e]> (nol_mem w)) w).
Proof.
  intros Hinv Ha Hok Htok.
  assert (a ∉ l ++ dfs_nol_free_list w ++ x) as Hno.
  { intros Hin. apply (ni_dom _ _ _ _ Hinv) in Hin as [? Hin]. congruence. }
  assert (l ++ dfs_nol_free_list w ++ a :: x ≡ₚ a :: l ++ dfs_nol_free_list w ++ x) as Hperm
    by (rewrite !app_assoc; symmetry; apply Permutation_middle).
  assert (forall q eq, nol_mem w !! q = Some eq -> <[a := e]> (nol_mem w) !! q = Some eq) as Hold.
  { intros q eq Hq. rewrite lookup_insert_ne; [done|]. intros ->. congruence. }
  assert (forall q, q ∈ l -> q <> a) as Hl by (intros q Hq ->; apply Hno; rewrite elem_of_app; by left).
  split; cbn; try apply Hinv.
  - apply seg_insert_ne, Hinv. intros Hin. by apply (Hl a).
  - rewrite Hperm. apply NoDup_cons. split; [done|apply Hinv].
  - intros p. rewrite (elem_of_Permutation_proper _ _ _ Hperm), elem_of_cons, <- (ni_dom _ _ _ _ Hinv).
    destruct (decide (p = a)) as [->|Hne].
    + rewrite lookup_insert_eq. split; [by left|by eexists].
    + rewrite lookup_insert_ne by done. tauto.
  - intros p ep. destruct (decide (p = a)) as [->|Hne].
    + rewrite lookup_insert_eq. by intros [= <-].
    + rewrite lookup_insert_ne by done. apply (ni_elem _ _ _ _ Hinv).
  - intros p q ep eq Hp Hq. rewrite !lookup_insert_ne by (apply not_eq_sym; by apply Hl).
    by apply (ni_freqs _ _ _ _ Hinv).
  - intros p ep Hp. rewrite lookup_insert_ne by (apply not_eq_sym; by apply Hl).
    by apply (ni_armed _ _ _ _ Hinv).
  - intros h Hh. destruct (ni_handler _ _ _ _ Hinv h Hh) as (eh & Heh & ?). exists eh. cbn.
    split; [by apply Hold|done].
Qed.

Lemma kept_alloc l f d w a e :
  kept l f d w -> nol_mem w !! a = None -> nol_freq e <> f -> kept l f d (set_mem (<[a := e]> (nol_mem w)) w).
Proof.
  intros [(q & eq & tq & Hq & Heq & ?) Hr Hh Ho] Ha Hf. split; cbn; [|done|done|].
  - exists q, eq, tq. rewrite lookup_insert_ne by (intros ->; congruence). done.
  - intros r er Hrl. destruct (decide (a = r)) as [->|Hne].
    + rewrite lookup_insert_eq. by intros [= <-].
    + rewrite lookup_insert_ne by done. by apply (Ho r).
Qed.

Lemma last_loc l : loc_ok (last l) l.
Proof.
  destruct (last l) as [q|] eqn:H; cbn; [by apply last_Some in H|by apply last_None].
Qed.

Lemma new_chain m h l a e e0 :
  seg m h l (Some a) -> a ∉ l -> nol_next e = None -> m !! a = Some e0 ->
  chain (<[a := e]> m) h (l ++ [a]).
Proof.
  intros Hs Ha He He0. apply seg_app. exists (Some a). split; [by apply seg_insert_ne|].
  cbn. split; [done|]. exists e. by rewrite lookup_insert_eq.
Qed.

Lemma same_cores_insert m m' a e : same_cores (<[a := e]> m) m' -> forall e',
  same_cores (<[a := e']> m) (<[a := e']> m').
Proof.
  intros Hs e' q. destruct (decide (a = q)) as [->|Hne]; [by rewrite !lookup_insert_eq|].
  rewrite !lookup_insert_ne by done. specialize (Hs q). by rewrite lookup_insert_ne in Hs.
Qed.

Definition not_listed w l f : Prop := forall p e, p ∈ l -> nol_mem w !! p = Some e -> nol_freq e <> f.

(** Memory that is handed out is free. *)
Context (alloc : nol_world -> option Z).
Context (Halloc : forall w a, alloc w = Some a -> nol_mem w !! a = None).

(** The channel is not on the list, and there is memory for its element. *)
Lemma append_runs l x w f tmo a :
  nol_inv l x w -> f ∈ channels -> 0 <= tmo * 1000 < 2 ^ 31 -> not_listed w l f -> alloc w = Some a ->
  exists w', (modify (fun w => set_mem (<[a := Nolelem f CH_WIDTH (nol_clock w) (tmo * 1000) None None]> (nol_mem w)) w);;
              write_next (last l) (Some a);; qdf_timer_mod a (tmo * 1000);;
              modify (fun w => set_count (dfs_nol_count w + 1) w)) w = Ret tt w' /\
    nol_inv (l ++ [a]) x w' /\ adds (until f (period_end w tmo)) l w (l ++ [a]) w' /\
    listed (l ++ [a]) f (period_end w tmo) w'.
Proof.
  intros Hinv Hf Ht Hnl Ha%Halloc. set (new := Nolelem f CH_WIDTH (nol_clock w) (tmo * 1000) None None).
  set (armed := set_timer (Some (period_end w tmo)) new).
  assert (a ∉ l) as Hal by (intros Hin; destruct (inv_elem _ _ _ _ _ Hinv Hin); congruence).
  destruct (write_next_eq (set_mem (<[a := new]> (nol_mem w)) w) (last l) l None (Some a)) as (m' & h' & E & Hs & Hseg & Hoff).
  { apply last_loc. }
  { by eapply inv_nodup_list. }
  { apply seg_insert_ne, Hinv. done. }
  cbn in Hs, Hoff. pose proof (Hoff a Hal) as Hm'a. rewrite lookup_insert_eq in Hm'a.
  set (wa := set_mem (<[a := armed]> (nol_mem w)) w).
  destruct (in_end (nol_clock w) f tmo (ni_clock _ _ _ _ Hinv) Hf Ht armed) as [Hok Htok]; try done; [by right|].
  pose proof (inv_alloc l x w a armed Hinv Ha Hok Htok) as Hinva. fold wa in Hinva.
  assert (same_cores (nol_mem wa) (<[a := armed]> m')) as Hsa by (by eapply same_cores_insert).
  exists (relink (<[a := armed]> m') h' (dfs_nol_free_list wa) (dfs_nol_count wa + 1) wa). split_and!.
  - rewrite bind_modify. fold new. rewrite (bind_ret _ _ _ _ _ E).
    rewrite (bind_ret _ _ _ _ _ (timer_mod_eq a (tmo * 1000) (relink m' h' _ _ _) new Hm'a ltac:(lia))). done.
  - apply (inv_relink channels l _ (a :: x)); [done|done|by eapply new_chain| | |].
    + rewrite <- app_assoc. apply Permutation_app_head. cbn. apply Permutation_middle.
    + intros p [Hp| ->%list_elem_of_singleton]%elem_of_app; [by left|]. right. split.
      * intros [h [Hh Hin]]%list_elem_of_fmap. destruct (ni_handler _ _ _ _ Hinv h Hin) as (eh & Heh & _).
        congruence.
      * exists armed. cbn. rewrite lookup_insert_eq. split_and!; [done|by eexists|].
        intros q e' [Hq|Hq]%elem_of_app Heq Hfeq; [|by apply list_elem_of_singleton in Hq].
        rewrite lookup_insert_ne in Heq by (intros ->; done). by destruct (Hnl q e' Hq Heq).
    + cbn. rewrite (ni_count _ _ _ _ Hinv), length_app. cbn. lia.
  - split; [done| |].
    + intros R f' d _ Hk. assert (f' <> f) as Hne.
      { intros ->. destruct Hk as [(p & e & t & Hp & He & Hfe & _) _ _ _]. by apply (Hnl p e Hp He). }
      apply (kept_relink l _ f' d (set_reg R wa)); [|done|].
      { apply (kept_alloc l f' d (set_reg R w)); [done..|]. by apply not_eq_sym. }
      intros p e Hp Hfe. rewrite elem_of_app, list_elem_of_singleton. split; [by left|].
      intros [?| ->]; [done|]. cbn in Hp. rewrite lookup_insert_eq in Hp. injection Hp as <-. by destruct Hne.
    + intros f' [Hh Ho]. split; [done|]. intros p e Hp He Hfe.
      rewrite elem_of_app, list_elem_of_singleton in Hp.
      destruct (same_cores_lookup _ _ _ _ (same_cores_sym _ _ Hsa) He)
        as (e1 & He1 & (Hf1 & _ & _ & _ & Ht1)%core_eq).
      cbn in He1. rewrite lookup_insert_ne in He1 by (intros ->; tauto). rewrite <- Ht1.
      apply (Ho p e1); [tauto|done|congruence].
  - exists a, armed, (period_end w tmo). cbn. rewrite lookup_insert_eq.
    split_and!; [|done..]. rewrite elem_of_app, list_elem_of_singleton. by right.
Qed.

(** [dfs_nol_addchan] *)
Lemma addchan_runs l x w f tmo :
  nol_inv l x w -> f ∈ channels -> 0 <= tmo * 1000 < 2 ^ 31 ->
  exists l' w', dfs_nol_addchan alloc f tmo w = Ret tt w' /\ nol_inv l' x w' /\
    adds (until f (period_end w tmo)) l w l' w' /\ (listed l' f (period_end w tmo) w' \/ alloc w = None).
Proof.
  intros Hinv Hf Ht. unfold dfs_nol_addchan, rounds. rewrite !bind_gets.
  destruct (find_elem_eq f CH_WIDTH l (S (size (nol_mem w))) (dfs_nol w) (dfs_nol w) w) as (prev & E & Hprev).
  { by eapply rounds_enough. }
  { apply Hinv. }
  rewrite (bind_ret _ _ _ _ _ E), bind_gets, (wrap_small 32) by (unfold in_u; lia).
  rewrite (find_freq l x w f Hinv) in *. destruct (List.find (freq_at (nol_mem w) f) l) as [p|] eqn:Hfind.
  - apply List.find_some in Hfind as [Hp%list_elem_of_In (e & He & Hfe)%freq_at_iff].
    destruct (rearm_runs l x w f tmo p e Hinv Hf Ht Hp He Hfe) as (w' & ? & ? & ? & ?).
    exists l, w'. split_and!; try done. by left.
  - assert (not_listed w l f) as Hnl.
    { intros p e Hp He Hfe. apply list_elem_of_In, (List.find_none _ _ Hfind) in Hp.
      assert (freq_at (nol_mem w) f p = true) by (apply freq_at_iff; by exists e). congruence. }
    assert (prev = last l) as ->.
    { rewrite (Hprev eq_refl). destruct (last l) eqn:Hlast; [done|]. apply last_None in Hlast as ->.
      apply (ni_chain _ _ _ _ Hinv). }
    rewrite bind_gets. destruct (alloc w) as [a|] eqn:Ha.
    + destruct (append_runs l x w f tmo a Hinv Hf Ht Hnl Ha) as (w' & ? & ? & ? & ?).
      exists (l ++ [a]), w'. split_and!; try done. by left.
    + exists l, w. split_and!; [done..|apply adds_refl|by right].
Qed.

End Add.
