(* ===== verification/NolOps.v ===== *)
(** * The routines that add channels, and the timers

    Radar, the setting of the list, and its copy over a restart put channels on the list;
    a timer that goes off starts the handler that takes its channel off. *)
From S2P Require Import Prelude Nol NolInv NolRun NolFree NolAdd.

Section Ops.
Context (alloc : nol_world -> option Z) (alloc_array : nol_world -> bool) (is_dfs : Z -> bool).
Context (channels : gset Z).
Implicit Types (w : nol_world) (l x ls : list Z) (p q f d : Z) (e : dfs_nolelem).

Abbreviation nol_inv := (NolInv.nol_inv channels).

(** Memory that is handed out is free; the channels that need radar detection have numbers
    of 16 bits. *)
Context (Halloc : forall w a, alloc w = Some a -> nol_mem w !! a = None).
Context (Hdfs : forall f, is_dfs f = true -> f ∈ channels).
Context (H16 : forall f, f ∈ channels -> in_u 16 f).

(** ** Radar *)

Lemma adds_events l w ev : adds (fun _ _ => True) l w l (set_events ev w).
Proof. split; [done| |done]. intros R f d _ Hk. by eapply kept_frame. Qed.

Definition radar_end w : Z := period_end w (wlan_dfs_nol_timeout w).

Lemma radar_loop_runs ls : forall last acc l x w,
  nol_inv l x w ->
  exists l' w' new, radar_loop alloc is_dfs ls last acc w = Ret (acc ++ new) w' /\
    nol_inv l' x w' /\ adds (fun f d => f ∈ ls -> d <= radar_end w) l w l' w' /\
    (forall f, f ∈ ls -> f <> 0 -> is_dfs f = true -> f = last \/ f ∈ new) /\
    ((forall w, alloc w <> None) -> forall f, f ∈ new -> clear l f w -> listed l' f (radar_end w) w').
Proof.
  induction ls as [|f ls IH]; intros last acc l x w Hinv; cbn [radar_loop].
  { exists l, w, []. rewrite app_nil_r. split_and!; [done|done|apply adds_refl| |].
    - by intros f ?%elem_of_nil.
    - by intros _ f ?%elem_of_nil. }
  assert (forall l' w', adds (fun f d => f ∈ ls -> d <= radar_end w) l w l' w' ->
    adds (fun f' d => f' ∈ f :: ls -> d <= radar_end w) l w l' w') as Hweak.
  { intros l' w' Ha. eapply adds_trans; [apply (adds_refl (fun _ _ => True))|exact Ha|].
    intros f' d Hd. split; [done|]. intros Hf'. apply Hd. by right. }
  destruct (Z.eqb_spec f 0) as [H0|H0]; [|destruct (Z.eqb_spec f last) as [Hl|Hl]]; cbn [orb].
  1, 2: destruct (IH last acc l x w Hinv) as (l' & w' & new & E & Hinv' & Ha & Hin & Hlist);
    exists l', w', new; split_and!; try done; [by apply Hweak|];
    intros f' [->|Hf']%elem_of_cons; [try done; by left|by apply Hin].
  destruct (is_dfs f) eqn:Hd; cbn [negb].
  2:{ destruct (IH last acc l x w Hinv) as (l' & w' & new & E & Hinv' & Ha & Hin & Hlist).
      exists l', w', new. split_and!; try done; [by apply Hweak|].
      intros f' [->|Hf']%elem_of_cons; [congruence|by apply Hin]. }
  rewrite bind_gets.
  destruct (addchan_runs channels alloc Halloc l x w f (wlan_dfs_nol_timeout w) Hinv (Hdfs f Hd)
    (ni_timeout _ _ _ _ Hinv)) as (l1 & w1 & E1 & Hinv1 & Ha1 & Hl1).
  rewrite (bind_ret _ _ _ _ _ E1). unfold emit. rewrite bind_modify.
  destruct (IH f (acc ++ [f]) l1 x (set_events (nol_events w1 ++ [NolStarted f]) w1))
    as (l2 & w2 & new & E2 & Hinv2 & Ha2 & Hin & Hlist).
  { by eapply inv_frame. }
  pose proof (ad_rest _ _ _ _ _ Ha1) as Hr. assert (radar_end w1 = radar_end w) as Hend.
  { unfold radar_end, period_end. by rewrite (sr_clock _ _ Hr), (sr_timeout _ _ Hr). }
  change (radar_end (set_events _ w1)) with (radar_end w1) in *. rewrite Hend in Ha2, Hlist.
  assert (adds (fun f' d => f' ∈ ls -> d <= radar_end w) l1 w1 l2 w2) as Ha2'
    by (eapply adds_trans; [apply adds_events|exact Ha2|done]).
  exists l2, w2, (f :: new). rewrite <- app_assoc in E2. split_and!; [exact E2|done| | |].
  - eapply adds_trans; [exact Ha1|exact Ha2'|]. intros f' d Hf'. split.
    + intros ->. apply Hf'. by left.
    + intros Hin'. apply Hf'. by right.
  - intros f' [->|Hf']%elem_of_cons H0' Hd'; [right; by left|]. right.
    destruct (Hin f' Hf' H0' Hd') as [->|]; [by left|by right].
  - intros Hal f' [->|Hf']%elem_of_cons Hc.
    + destruct Hl1 as [Hl1|Hn]; [|by destruct (Hal w)]. eapply adds_listed; [exact Ha2'| | |exact Hl1].
      * intros _. unfold radar_end. lia.
      * by apply (ad_clear _ _ _ _ _ Ha1).
    + apply (Hlist Hal f' Hf'). by apply (ad_clear _ _ _ _ _ Ha1).
Qed.

(** ** The update and the marks *)

Lemma kept_clist l f d w c : kept l f d w -> kept l f d (set_clist c w).
Proof. intros Hk. by eapply kept_frame. Qed.

Lemma kept_mark l f d w R : kept l f d w -> kept l f d (set_reg (R ∪ reg_nol w) w).
Proof. intros Hk. eapply kept_frame; [done..|]. apply elem_of_union_r. Qed.

Lemma radar_runs l x w ls :
  nol_inv l x w ->
  exists r l' w', dfs_radar_add_channel_list_to_nol_for_freq alloc alloc_array is_dfs ls w = Ret r w' /\
    nol_inv l' x w' /\ nol_clock w' = nol_clock w /\ works w w' /\
    (forall f d, (f ∈ ls -> d <= radar_end w) -> kept l f d w -> kept l' f d w') /\
    ((forall w, alloc w <> None) -> (length ls <= NUM_CHANNELS_160MHZ)%nat -> forall f,
       f ∈ ls -> f <> 0 -> is_dfs f = true -> clear l f w -> kept l' f (radar_end w) w').
Proof.
  intros Hinv. unfold dfs_radar_add_channel_list_to_nol_for_freq.
  destruct (NUM_CHANNELS_160MHZ <? length ls)%nat eqn:Hlen.
  { apply Nat.ltb_lt in Hlen. exists QDF_STATUS_E_FAILURE, l, w. split_and!; try done; [by right|lia]. }
  destruct (radar_loop_runs ls 0 [] l x w Hinv) as (l1 & w1 & new & E1 & Hinv1 & Ha & Hin & Hlist).
  rewrite (bind_ret _ _ _ _ _ E1). cbn [app]. pose proof Ha as [Hr Hk Hc].
  assert (works w w1) as Hw by (right; by rewrite (sr_free _ _ Hr), (sr_work _ _ Hr)).
  destruct new as [|f0 new].
  - exists QDF_STATUS_E_FAILURE, l1, w1. split_and!; [done|done|apply Hr|done| |].
    + intros f d Hd. by apply (adds_kept _ _ _ _ _ _ _ Ha).
    + intros _ _ f Hf H0 Hd _. destruct (Hin f Hf H0 Hd) as [|?%elem_of_nil]; done.
  - cbn match. unfold reg_nol_set. rewrite bind_modify.
    set (w2 := set_reg (list_to_set (f0 :: new) ∪ reg_nol w1) w1).
    destruct (update_eq alloc_array channels l1 x w2) as (c & E2 & _); [by eapply inv_frame|].
    rewrite (bind_ret _ _ _ _ _ E2). exists QDF_STATUS_SUCCESS, l1, (set_clist c w2).
    split_and!; [done|by eapply inv_frame|apply Hr|done| |].
    + intros f d Hd Hkf. by apply kept_clist, kept_mark, (adds_kept _ _ _ _ _ _ _ Ha).
    + intros Hal _ f Hf H0 Hd Hcl. apply kept_clist.
      destruct (Hin f Hf H0 Hd) as [|Hnew]; [done|]. apply kept_of; [by apply Hlist|by apply Hc|].
      apply elem_of_union_l. by apply elem_of_list_to_set.
Qed.

(** ** A radar that was none *)

Lemma spoof_loop_runs ls : forall l x w,
  nol_inv l x w ->
  exists w', spoof_loop ls w = Ret tt w' /\ nol_inv l x w' /\ same_rest w w' /\
    forall f d, f ∉ ls -> kept l f d w -> kept l f d w'.
Proof.
  induction ls as [|f ls IH]; intros l x w Hinv; cbn [spoof_loop]; [by exists w|].
  unfold rounds. rewrite !bind_gets.
  rewrite (bind_ret _ _ _ _ _ (spoof_find_eq f l _ _ w (rounds_enough _ _ _ _ Hinv) (ni_chain _ _ _ _ Hinv))).
  set (w1 := match List.find _ l with Some _ => _ | None => w end).
  assert (nol_inv l x w1 /\ same_rest w w1 /\ forall f' d, f' <> f -> kept l f' d w -> kept l f' d w1)
    as (Hinv1 & Hr1 & Hk1).
  { subst w1. destruct (List.find _ l) as [p|] eqn:Hfind; [|done].
    apply List.find_some in Hfind as [Hp%list_elem_of_In (e & He & Hfe)%freq_at_iff].
    destruct (ni_elem _ _ _ _ Hinv p e He) as [Hok _].
    assert (alter (set_timer (Some (nol_clock w + 0))) p (nol_mem w) =
      <[p := set_timer (Some (nol_clock w + 0)) e]> (nol_mem w)) as -> by (by apply alter_set).
    split_and!; [|done|].
    - eapply elem_update_inv; try done; [|by left]. intros t [= <-]. right. lia.
    - intros f' d Hf' Hk. eapply kept_update; [done..|]. intros Hf. congruence. }
  destruct (IH l x w1 Hinv1) as (w2 & E2 & Hinv2 & Hr2 & Hk2). exists w2.
  split_and!; [done|done|by eapply same_rest_trans|].
  intros f' d Hf' Hk. rewrite not_elem_of_cons in Hf'. destruct Hf'. auto.
Qed.

Lemma spoof_runs l x w ls :
  nol_inv l x w ->
  exists w', dfs_remove_spoof_channel_from_nol ls w = Ret tt w' /\ nol_inv l x w' /\
    nol_clock w' = nol_clock w /\ works w w' /\
    forall f d, f ∉ ls -> kept l f d w -> kept l f d w'.
Proof.
  intros Hinv. unfold dfs_remove_spoof_channel_from_nol.
  destruct (spoof_loop_runs (take NUM_CHANNELS_160MHZ ls) l x w Hinv) as (w1 & E1 & Hinv1 & Hr1 & Hk1).
  rewrite (bind_ret _ _ _ _ _ E1). eexists. split_and!; [done|by eapply inv_frame|apply Hr1| |].
  - right. cbn. by rewrite (sr_free _ _ Hr1), (sr_work _ _ Hr1).
  - intros f d Hf Hk. eapply kept_frame; [apply Hk1, Hk|done..|].
    + intros Hin. apply Hf. by apply (subseteq_take NUM_CHANNELS_160MHZ).
    + intros Hreg. apply elem_of_difference. split; [done|]. by rewrite elem_of_list_to_set.
Qed.

(** ** Setting the list *)

Lemma elapsed_nonneg now start : 0 <= elapsed_ms now start.
Proof. apply (wrap_range 32). lia. Qed.

(** When a channel that is set is kept to. *)
Definition req_end w (r : dfsreq_nolelem) : Z :=
  period_end w ((req_timeout_ms r - elapsed_ms (nol_clock w) (req_start_us r)) / 1000).

Lemma seconds_bound (t : Z) : 0 <= t < 2 ^ 31 -> 0 <= t / 1000 * 1000 < 2 ^ 31.
Proof.
  intros Ht. pose proof (Z.div_mod t 1000 ltac:(lia)). pose proof (Z.mod_pos_bound t 1000 ltac:(lia)).
  pose proof (Z.div_pos t 1000 ltac:(lia)). lia.
Qed.

(** From [w], the channels of [reqs] are set. *)
Record sets (reqs : list dfsreq_nolelem) l w l' w' : Prop := {
  st_clock : nol_clock w' = nol_clock w;
  st_psoc : psoc_nol w' = psoc_nol w;
  st_works : works w w';
  st_kept : forall f d, f ∉ req_freq <$> reqs -> kept l f d w -> kept l' f d w';
  st_set : (forall w, alloc w <> None) -> NoDup (req_freq <$> reqs) -> forall r, r ∈ reqs ->
    clear l (req_freq r) w -> elapsed_ms (nol_clock w) (req_start_us r) < req_timeout_ms r ->
    kept l' (req_freq r) (req_end w r) w';
}.

Lemma sets_cons r reqs l1 l2 l3 w1 w2 w3 :
  sets [r] l1 w1 l2 w2 -> (forall f, clear l1 f w1 -> clear l2 f w2) -> sets reqs l2 w2 l3 w3 ->
  sets (r :: reqs) l1 w1 l3 w3.
Proof.
  intros [C1 P1 W1 K1 S1] Hc [C2 P2 W2 K2 S2].
  split; [congruence|congruence|by eapply works_trans| |].
  - intros f d Hf Hk. rewrite fmap_cons, not_elem_of_cons in Hf. destruct Hf as [Hf Hfs].
    apply K2, K1; [done| |done]. cbn. by rewrite list_elem_of_singleton.
  - intros Hal Hnd r' Hr Hcl Hel. rewrite fmap_cons, NoDup_cons in Hnd. destruct Hnd as [Hn Hnd].
    apply elem_of_cons in Hr as [->|Hr].
    + apply K2; [done|]. apply S1; try done; [by apply NoDup_singleton|by left].
    + unfold req_end, period_end. rewrite <- C1 in Hel |- *. apply S2; auto.
Qed.

Lemma set_one_runs r l x w :
  nol_inv l x w -> saved_ok channels r ->
  exists l' w', (if elapsed_ms (nol_clock w) (req_start_us r) <? req_timeout_ms r then
                   dfs_nol_addchan alloc (req_freq r)
                     ((req_timeout_ms r - elapsed_ms (nol_clock w) (req_start_us r)) / 1000);;
                   reg_nol_set [req_freq r]
                 else mret ()) w = Ret tt w' /\
    nol_inv l' x w' /\ sets [r] l w l' w' /\ (forall f, clear l f w -> clear l' f w').
Proof.
  intros Hinv [Hf Ht]. pose proof (elapsed_nonneg (nol_clock w) (req_start_us r)) as He.
  destruct (Z.ltb_spec (elapsed_ms (nol_clock w) (req_start_us r)) (req_timeout_ms r)) as [Hlt|Hge].
  2:{ exists l, w. split_and!; [done..| |done]. split; try done; [by right|].
      intros _ _ r' ->%list_elem_of_singleton. lia. }
  destruct (addchan_runs channels alloc Halloc l x w (req_freq r) _ Hinv Hf
    (seconds_bound (req_timeout_ms r - elapsed_ms (nol_clock w) (req_start_us r)) ltac:(lia)))
    as (l1 & w1 & E1 & Hinv1 & Ha & Hl).
  pose proof (ad_rest _ _ _ _ _ Ha) as Hr. fold (req_end w r) in *.
  exists l1, (set_reg (list_to_set [req_freq r] ∪ reg_nol w1) w1). split_and!.
  - by rewrite (bind_ret _ _ _ _ _ E1).
  - by eapply inv_frame.
  - split; [apply Hr|apply Hr| | |].
    + right. cbn. by rewrite (sr_free _ _ Hr), (sr_work _ _ Hr).
    + intros f d Hne Hk. apply kept_mark. eapply adds_kept; [exact Ha| |done]. intros ->.
      destruct Hne. by left.
    + intros Hal _ r' ->%list_elem_of_singleton Hc _. apply kept_of.
      * destruct Hl as [Hl|Hl]; [done|by destruct (Hal w)].
      * by apply (ad_clear _ _ _ _ _ Ha).
      * apply elem_of_union_l, elem_of_list_to_set. by left.
  - intros f Hc. apply (ad_clear _ _ _ _ _ Ha f Hc).
Qed.

Lemma set_nol_loop_runs reqs : forall l x w,
  nol_inv l x w -> Forall (saved_ok channels) reqs ->
  exists l' w', set_nol_loop alloc reqs w = Ret tt w' /\ nol_inv l' x w' /\ sets reqs l w l' w'.
Proof.
  induction reqs as [|r reqs IH]; intros l x w Hinv Hok; cbn [set_nol_loop].
  { exists l, w. split_and!; [done..|]. split; try done; [by right|]. by intros _ _ r ?%elem_of_nil. }
  apply Forall_cons in Hok as [Hr Hok]. rewrite bind_gets.
  destruct (set_one_runs r l x w Hinv Hr) as (l1 & w1 & E1 & Hinv1 & Hs1 & Hc1).
  cbv zeta. rewrite (bind_ret _ _ _ _ _ E1).
  destruct (IH l1 x w1 Hinv1 Hok) as (l2 & w2 & E2 & Hinv2 & Hs2).
  exists l2, w2. split_and!; [done|done|by eapply sets_cons].
Qed.

Lemma set_nol_runs l x w reqs n :
  nol_inv l x w -> Forall (saved_ok channels) reqs -> (n <= length reqs)%nat ->
  exists l' w', dfs_set_nol alloc alloc_array reqs n w = Ret tt w' /\ nol_inv l' x w' /\
    sets (take n reqs) l w l' w'.
Proof.
  intros Hinv Hok Hn. unfold dfs_set_nol. rewrite (proj2 (Nat.leb_le _ _) Hn).
  destruct (set_nol_loop_runs (take n reqs) l x w Hinv) as (l1 & w1 & E1 & Hinv1 & [C P W K S]).
  { by apply Forall_take. }
  rewrite (bind_ret _ _ _ _ _ E1).
  destruct (update_eq alloc_array channels l1 x w1 Hinv1) as (c & E2 & _).
  exists l1, (set_clist c w1). split_and!; [done|by eapply inv_frame|]. split; try done.
  - intros f d Hf Hkf. by apply kept_clist, K.
  - intros. by apply kept_clist, S.
Qed.

(** ** Keeping the list over a restart *)

Lemma elapsed_exact now e :
  elem_ok channels now e -> now < nol_end e ->
  elapsed_ms now (nol_start_us e) = (now - nol_start_us e) / 1000 /\
  0 <= (now - nol_start_us e) / 1000 < nol_timeout_ms e.
Proof.
  unfold elem_ok, nol_end, elapsed_ms. intros (_ & _ & Ht & Hs) Hend.
  assert (0 <= (now - nol_start_us e) / 1000 < nol_timeout_ms e) as Hr.
  { split; [apply Z.div_pos; lia|]. apply Z.div_lt_upper_bound; lia. }
  split; [|done]. rewrite (wrap_small 64) by (unfold in_u; lia). apply wrap_small. unfold in_u. lia.
Qed.

Lemma NoDup_fmap_filter {A} (g : A -> Z) (P : A -> bool) (s : list A) :
  NoDup (g <$> s) -> NoDup (g <$> List.filter P s).
Proof.
  induction s as [|a s IH]; [done|]. cbn. intros [Ha Hnd]%NoDup_cons. destruct (P a); [|by apply IH].
  apply NoDup_cons. split; [|by apply IH]. intros (b & Hb & [_ Hin]%elem_of_filter_b)%list_elem_of_fmap.
  apply Ha. rewrite Hb. by apply list_elem_of_fmap_2.
Qed.

(** What is left of the period of an element, in milliseconds. *)
Definition left_ms (now : Z) e : Z := nol_timeout_ms e - (now - nol_start_us e) / 1000.

Lemma paused_req now e :
  elem_ok channels now e -> now < nol_end e ->
  paused now (req_of e) = ReqElem (nol_freq e) (wrap 16 (nol_chwidth e)) (nol_start_us e) (left_ms now e) /\
  0 < left_ms now e < 2 ^ 31.
Proof.
  intros Hok Hend. destruct (elapsed_exact now e Hok Hend) as [He Hr]. unfold paused, req_of, left_ms. cbn.
  rewrite He. destruct Hok as (Hf & _ & Ht & _).
  rewrite (wrap_small 16) by by apply H16. rewrite (wrap_small 32) by (unfold in_u; lia). split; [done|lia].
Qed.

Definition running now e : Prop := now < nol_end e.

Lemma save_runs l x w :
  nol_inv l x w -> (size channels <= DFS_CHAN_MAX)%nat ->
  Forall (running (nol_clock w)) (elems (nol_mem w) l) ->
  (forall s, psoc_nol w = Some s -> (length s + length l <= DFS_CHAN_MAX)%nat) ->
  exists s, dfs_save_dfs_nol_in_psoc w = Ret tt (set_psoc_nol s w) /\ nol_inv l x (set_psoc_nol s w) /\
    s = (fun s => s ++ (paused (nol_clock w) <$> (req_of <$> elems (nol_mem w) l))) <$> psoc_nol w.
Proof.
  intros Hinv Hfew Hrun Hroom. eexists. split_and!; [| |done].
  - unfold dfs_save_dfs_nol_in_psoc. rewrite bind_gets, (ni_count _ _ _ _ Hinv).
    destruct (Z.eqb_spec (Z.of_nat (length l)) 0) as [H0|H0].
    + assert (l = []) as -> by (apply length_zero_iff_nil; lia).
      unfold elems. cbn [omap list_omap fmap list_fmap]. destruct (psoc_nol w) as [s|] eqn:Hs; cbn.
      * rewrite app_nil_r. by destruct w; cbn in *; subst.
      * by destruct w; cbn in *; subst.
    + rewrite bind_gets. destruct (psoc_nol w) as [s|] eqn:Hs; [|by destruct w; cbn in *; subst].
      unfold dfs_getnol. pose proof (list_fits channels l x w Hinv) as Hfit.
      rewrite (bind_ret _ _ _ _ _ (get_nol_eq channels l x w DFS_CHAN_MAX Hinv ltac:(lia))), bind_gets.
      rewrite length_fmap, elems_len.
      2:{ intros p Hp. destruct (inv_elem _ _ _ _ _ Hinv Hp) as [e He]. by exists e. }
      by rewrite (proj2 (Nat.leb_le _ _) (Hroom s eq_refl)).
  - assert (Forall (saved_ok channels) (paused (nol_clock w) <$> (req_of <$> elems (nol_mem w) l))) as Hok.
    { rewrite !Forall_fmap. eapply Forall_impl; [|intros e H; exact H].
      rewrite Forall_forall in Hrun |- *. intros e He. cbn.
      pose proof He as (p & Hp & Hpe)%list_elem_of_omap.
      destruct (ni_elem _ _ _ _ Hinv p e Hpe) as [Hok _].
      destruct (paused_req _ e Hok (Hrun e He)) as [-> Hl]. destruct Hok as (Hf & _).
      split; [done|cbn; lia]. }
    destruct (psoc_nol w) as [s|] eqn:Hs.
    + split; cbn; try apply Hinv. intros s' [= <-]. destruct (ni_saved _ _ _ _ Hinv s Hs) as [Hold _].
      split; [by apply Forall_app|]. rewrite length_app, !length_fmap, elems_len; [by apply Hroom|].
      intros p Hp. destruct (inv_elem _ _ _ _ _ Hinv Hp) as [e He]. by exists e.
    + split; cbn; try apply Hinv. done.
Qed.

Lemma reinit_runs l x w low high :
  nol_inv l x w ->
  exists l' w', dfs_reinit_nol_from_psoc_copy alloc alloc_array low high w = Ret tt w' /\ nol_inv l' x w' /\
    nol_clock w' = nol_clock w /\ works w w' /\
    (forall f d, (forall s, psoc_nol w = Some s -> f ∉ req_freq <$> s) -> kept l f d w -> kept l' f d w') /\
    ((forall w, alloc w <> None) -> forall s r, psoc_nol w = Some s -> NoDup (req_freq <$> s) -> r ∈ s ->
       within low high r = true -> clear l (req_freq r) w -> 0 < req_timeout_ms r ->
       kept l' (req_freq r) (period_end w (req_timeout_ms r / 1000)) w').
Proof.
  intros Hinv. unfold dfs_reinit_nol_from_psoc_copy. rewrite bind_gets.
  destruct (psoc_nol w) as [[|r0 s]|] eqn:Hs.
  1, 3: exists l, w; split_and!; try done; first [by right|by intros _ s r [= <-] _ ?%elem_of_nil].
  rewrite bind_gets, bind_modify. remember (r0 :: s) as sv. clear r0 s Heqsv.
  destruct (ni_saved _ _ _ _ Hinv sv Hs) as [Hok Hlen].
  set (req := restarted (nol_clock w) <$> List.filter (within low high) sv).
  assert (Forall (saved_ok channels) req) as Hreq.
  { apply Forall_fmap, Forall_forall. intros r [_ Hr]%elem_of_filter_b.
    rewrite Forall_forall in Hok. exact (Hok r Hr). }
  set (w1 := set_psoc_nol _ w). assert (nol_inv l x w1) as Hinv1.
  { split; cbn; try apply Hinv. intros s' [= <-]. rewrite length_fmap. split; [|done].
    apply Forall_fmap, (Forall_impl _ _ _ Hok). intros r Hr. cbn. by destruct (within low high r). }
  destruct (set_nol_runs l x w1 req (length req) Hinv1 Hreq (le_n _)) as (l2 & w2 & E2 & Hinv2 & [C P W K S]).
  rewrite take_ge in K, S by lia.
  assert (req_freq <$> req = req_freq <$> List.filter (within low high) sv) as Hfr
    by (unfold req; rewrite <- list_fmap_compose; done).
  exists l2, w2. split_and!; [done..| |].
  - intros f d Hf Hk. apply K; [|by eapply kept_frame]. rewrite Hfr.
    intros (r & -> & [_ Hr]%elem_of_filter_b)%list_elem_of_fmap. apply (Hf sv eq_refl).
    by apply list_elem_of_fmap_2.
  - intros Hal s' r [= <-] Hnd Hr Hin Hc Ht.
    assert (elapsed_ms (nol_clock w) (nol_clock w) = 0) as H0 by (unfold elapsed_ms; by rewrite Z.sub_diag).
    pose proof (S Hal) as HS. specialize (HS ltac:(rewrite Hfr; by apply NoDup_fmap_filter) (restarted (nol_clock w) r)).
    cbn in HS. unfold req_end in HS. cbn in HS. rewrite H0, Z.sub_0_r in HS. apply HS; [|done|done].
    apply list_elem_of_fmap_2. by apply elem_of_filter_b.
Qed.

End Ops.
