(* ===== verification/NolStep.v ===== *)
(** * One step of the non-occupancy list

    Timers that go off, what a call needs ([legal]), and that every call from a world that
    satisfies the invariant runs to its end and keeps it; [spares] says which calls leave a
    channel alone that must stay on the list until [d]. *)
From S2P Require Import Prelude Nol NolInv NolRun NolFree NolAdd NolOps.

(** The elements of the list. *)
Fixpoint walk_list (fuel : nat) (m : gmap Z dfs_nolelem) (ptr : option Z) : list dfs_nolelem :=
  match fuel, ptr with
  | S fuel', Some p =>
      match m !! p with Some e => e :: walk_list fuel' m (nol_next e) | None => [] end
  | _, _ => []
  end.
Definition nol_list (w : nol_world) : list dfs_nolelem :=
  walk_list (S (size (nol_mem w))) (nol_mem w) (dfs_nol w).

Section Step.
Context (alloc : nol_world -> option Z) (alloc_array : nol_world -> bool) (is_dfs : Z -> bool).
Context (channels : gset Z).
Implicit Types (w : nol_world) (l x ls : list Z) (p q f d : Z) (e : dfs_nolelem) (op : nol_op).

Abbreviation nol_inv := (NolInv.nol_inv channels).

Lemma walk_list_eq m l : forall fuel ptr,
  (length l < fuel)%nat -> chain m ptr l -> walk_list fuel m ptr = elems m l.
Proof.
  induction l as [|p l IH]; intros [|fuel] ptr Hfuel Hl; cbn [length] in *; try lia.
  - cbn in Hl. by subst ptr.
  - destruct Hl as (-> & e & He & Hl). cbn [walk_list]. unfold elems. cbn [omap list_omap]. rewrite He.
    f_equal. apply IH; [lia|done].
Qed.

Lemma nol_list_eq l x w : nol_inv l x w -> nol_list w = elems (nol_mem w) l.
Proof. intros Hinv. apply walk_list_eq; [by eapply rounds_enough|apply Hinv]. Qed.

Lemma elem_of_elems m l e : e ∈ elems m l <-> exists p, p ∈ l /\ m !! p = Some e.
Proof. apply list_elem_of_omap. Qed.

Lemma elems_length l x w : nol_inv l x w -> length (elems (nol_mem w) l) = length l.
Proof.
  intros Hinv. apply elems_len. intros p Hp. destruct (inv_elem _ _ _ _ _ Hinv Hp) as [e He]. by exists e.
Qed.

(** ** Timers and the clock *)

(** The timer of an element is due, and its handler is not running. *)
Definition due w p : Prop :=
  exists e t, nol_mem w !! p = Some e /\ nol_timer e = Some t /\ t <= nol_clock w /\
              handler_of p (handlers w) = None.

Lemma timer_fires_runs l x w p :
  nol_inv l x w -> due w p ->
  exists e w', nol_mem w !! p = Some e /\ timer_fires p w = Ret tt w' /\
    w' = set_mem (<[p := set_timer None e]> (nol_mem w))
           (set_handlers (handlers w ++ [Handler p (nol_freq e) (nol_chwidth e) Fired]) w) /\
    nol_inv l x w' /\ forall f d, nol_clock w < d -> kept l f d w -> kept l f d w'.
Proof.
  intros Hinv (e & t & He & Ht & Hdue & Hno%handler_of_none). eexists e, _.
  destruct (ni_elem _ _ _ _ Hinv p e He) as [Hok _].
  set (hs := handlers w ++ [Handler p (nol_freq e) (nol_chwidth e) Fired]).
  assert (forall h, h ∈ hs <-> h ∈ handlers w \/ h = Handler p (nol_freq e) (nol_chwidth e) Fired) as Hhs
    by (intros h; unfold hs; by rewrite elem_of_app, list_elem_of_singleton).
  split_and!; [done| |done| |].
  - unfold timer_fires. rewrite (read_eq _ _ _ _ He), (bind_ret _ _ _ _ _ (write_eq _ _ _ _ He)). done.
  - apply (elem_update_inv channels l x (set_handlers hs w) p e (set_timer None e)); try done.
    + apply inv_set_handlers; [done| | |].
      * unfold hs. rewrite fmap_app. apply NoDup_app. split_and!; [apply Hinv| |by apply NoDup_singleton].
        intros q Hq ->%list_elem_of_singleton. done.
      * intros h [Hh| ->]%Hhs; [by apply (ni_handler _ _ _ _ Hinv)|]. exists e. cbn.
        split_and!; [done|done|apply Hok|done].
      * intros q eq Hq Heq. destruct (ni_armed _ _ _ _ Hinv q eq Hq Heq) as [|(h & Hh & ?)]; [by left|].
        right. exists h. rewrite Hhs. auto.
    + intros _. right. eexists. cbn. rewrite Hhs. split; [by right|done].
  - intros f d Hd [(q & eq & tq & Hq & Heq & Hf & Htq & Hdq) Hr Hh Ho].
    assert (q <> p) as Hqp by (intros ->; simplify_eq; lia).
    assert (nol_freq e <> f) as Hne.
    { intros Hef. destruct (decide (p ∈ l)) as [Hp|Hp]; [|by rewrite (Ho p e Hp He Hef) in Ht].
      apply Hqp. apply (ni_freqs _ _ _ _ Hinv q p eq e); congruence. }
    split; cbn.
    + exists q, eq, tq. by rewrite lookup_insert_ne by congruence.
    + done.
    + intros h [Hin| ->]%Hhs; [by apply Hh|done].
    + intros r er Hrl. destruct (decide (p = r)) as [->|Hpr].
      * rewrite lookup_insert_eq. by intros [= <-].
      * rewrite lookup_insert_ne by done. by apply Ho.
Qed.

Lemma tick_runs l x w (t : Z) :
  nol_inv l x w -> 0 <= t -> nol_inv l x (set_clock (nol_clock w + t) w).
Proof.
  intros Hinv Ht. split; cbn; try apply Hinv.
  - intros p e He. destruct (ni_elem _ _ _ _ Hinv p e He) as [(Hf & Hw & Hm & Hs) Htm]. split.
    + split_and!; (done || lia).
    + intros t' Ht'. destruct (Htm t' Ht'); [by left|right; lia].
  - pose proof (ni_clock _ _ _ _ Hinv). lia.
Qed.

Lemma kept_clock l f d w c : kept l f d w -> kept l f d (set_clock c w).
Proof. intros Hk. by eapply kept_frame. Qed.

Lemma in_nol_true l x f w :
  nol_inv l x w -> dfs_is_freq_in_nol f w = Ret (existsb (freq_at (nol_mem w) f) l) w.
Proof.
  intros Hinv. unfold dfs_is_freq_in_nol, rounds. rewrite !bind_gets.
  apply in_nol_eq; [by eapply rounds_enough|apply Hinv].
Qed.

Lemma kept_in_nol l x f d w : nol_inv l x w -> kept l f d w -> dfs_is_freq_in_nol f w = Ret true w.
Proof.
  intros Hinv [(p & e & t & Hp & He & Hf & _) _ _ _]. rewrite (in_nol_true _ _ _ _ Hinv). f_equal.
  apply existsb_exists. exists p. rewrite <- list_elem_of_In. split; [done|].
  apply freq_at_iff. by exists e.
Qed.

(** ** Calls *)

Context (Halloc : forall w a, alloc w = Some a -> nol_mem w !! a = None).
Context (Hdfs : forall f, is_dfs f = true -> f ∈ channels).
Context (H16 : forall f, f ∈ channels -> in_u 16 f).
Context (Hfew : (size channels <= DFS_CHAN_MAX)%nat).

Definition period_ok (timeout : Z) : Prop := 0 <= timeout * 1000 < 2 ^ 31.

(** What a call relies on.  The list is saved when no period is over, into an array with
    room for it. *)
Definition legal w op : Prop :=
  match op with
  | Tick t => 0 <= t
  | TimerFires p => due w p
  | AddChan f timeout => f ∈ channels /\ period_ok timeout
  | SetTimeout timeout => period_ok timeout
  | SetNol reqs n => Forall (saved_ok channels) reqs /\ (n <= length reqs)%nat
  | SaveInPsoc =>
      Forall (running (nol_clock w)) (nol_list w) /\
      forall s, psoc_nol w = Some s -> (length s + length (nol_list w) <= DFS_CHAN_MAX)%nat
  | _ => True
  end.

(** The call leaves channel [f] on the list until [d] at least. *)
Definition spares f d w op : Prop :=
  match op with
  | AddChan f' timeout => f' = f -> d <= period_end w timeout
  | RadarFound ls => f ∈ ls -> d <= radar_end w
  | RemoveSpoof ls => f ∉ ls
  | SetNol reqs _ => f ∉ req_freq <$> reqs
  | ReinitFromPsoc _ _ => forall s, psoc_nol w = Some s -> f ∉ req_freq <$> s
  | ClearNol | StopNol => False
  | _ => True
  end.

(** What waits to be freed has the work item scheduled. *)
Definition work_ok w : Prop := dfs_nol_free_list w = [] \/ free_work w = true.

Lemma works_ok w w' : works w w' -> work_ok w -> work_ok w'.
Proof. unfold works, work_ok. intros [->|[-> ->]]; auto. Qed.

Definition step_ok l w op (w' : nol_world) : Prop :=
  exists l', nol_inv l' [] w' /\ work_ok w' /\ nol_clock w <= nol_clock w' /\
    forall f d, spares f d w op -> nol_clock w < d -> kept l f d w -> kept l' f d w'.

Lemma step_intro l l' w w' op :
  nol_inv l' [] w' -> works w w' -> nol_clock w' = nol_clock w -> work_ok w ->
  (forall f d, spares f d w op -> nol_clock w < d -> kept l f d w -> kept l' f d w') -> step_ok l w op w'.
Proof.
  intros Hinv Hw Hc Hok Hk. exists l'. split_and!; [done|by eapply works_ok|lia|done].
Qed.

Lemma bind_tt {A} (m : M nol_world A) a w w' : m w = Ret a w' -> (_ ← m; mret tt) w = Ret tt w'.
Proof. intros E. by rewrite (bind_ret _ _ _ _ _ E). Qed.

Lemma clear_runs l w :
  nol_inv l [] w ->
  exists w', utils_dfs_clear_nol_channels alloc_array w = Ret tt w' /\ nol_inv [] [] w' /\ works w w' /\
    nol_clock w' = nol_clock w.
Proof.
  intros Hinv. unfold utils_dfs_clear_nol_channels, dfs_nol_timer_cleanup, rounds.
  rewrite bind_assoc, bind_gets.
  destruct (cleanup_loop_runs alloc_array channels _ l [] w (Nat.lt_succ_diag_r _) Hinv) as (w1 & E1 & Hinv1 & Hw1 & Hc1 & _).
  rewrite (bind_ret _ _ _ _ _ E1). destruct (update_eq alloc_array channels [] [] w1 Hinv1) as (c & E2 & _).
  exists (set_clist c w1). split_and!; [done|by eapply inv_frame|done|done].
Qed.

Abbreviation run := (run_nol alloc alloc_array is_dfs).

(** The calls that add channels. *)
Lemma run_adding l w op :
  nol_inv l [] w -> work_ok w -> legal w op ->
  match op with AddChan _ _ | RadarFound _ | SetNol _ _ | ReinitFromPsoc _ _ => True | _ => False end ->
  exists w', run op w = Ret tt w' /\ step_ok l w op w'.
Proof.
  intros Hinv Hw Hl Hop. destruct op; try done; cbn [run_nol]; cbn [legal] in Hl.
  - destruct Hl as [Hf Ht].
    destruct (addchan_runs channels alloc Halloc l [] w freq timeout Hinv Hf Ht) as (l' & w' & E & Hinv' & Ha & _).
    pose proof (ad_rest _ _ _ _ _ Ha) as Hr.
    exists w'. split; [done|]. apply (step_intro _ l'); [done| |apply Hr|done|].
    + right. by rewrite (sr_free _ _ Hr), (sr_work _ _ Hr).
    + intros f d Hs _. apply (adds_kept _ _ _ _ _ _ _ Ha). intros ->. by apply Hs.
  - destruct (radar_runs alloc alloc_array is_dfs channels Halloc Hdfs l [] w freq_list Hinv)
      as (r & l' & w' & E & Hinv' & Hc & Hwk & Hk & _).
    exists w'. split; [by eapply bind_tt|]. apply (step_intro _ l'); try done. intros f d Hs _. by apply Hk.
  - destruct Hl as [Hok Hn].
    destruct (set_nol_runs alloc alloc_array channels Halloc l [] w l0 nchan Hinv Hok Hn) as (l' & w' & E & Hinv' & [C P W K _]).
    exists w'. split; [done|]. apply (step_intro _ l'); try done. intros f d Hs _. apply K.
    rewrite fmap_take. intros Hin. apply Hs. by apply (subseteq_take nchan).
  - destruct (reinit_runs alloc alloc_array channels Halloc l [] w low high Hinv) as (l' & w' & E & Hinv' & Hc & Hwk & Hk & _).
    exists w'. split; [done|]. apply (step_intro _ l'); try done. intros f d Hs _. by apply Hk.
Qed.

(** The timers and the calls that take channels off. *)
Lemma run_removing l w op :
  nol_inv l [] w -> work_ok w -> legal w op ->
  match op with
  | Tick _ | TimerFires _ | HandlerStep _ | RemoveSpoof _ | ClearNol | FreeWork | StopNol => True
  | _ => False
  end ->
  exists w', run op w = Ret tt w' /\ step_ok l w op w'.
Proof.
  intros Hinv Hw Hl Hop. destruct op; try done; cbn [run_nol]; cbn [legal] in Hl.
  - eexists. split; [done|]. exists l. split_and!; [by apply tick_runs|done|cbn; lia|].
    intros f d' _ _. apply kept_clock.
  - destruct (timer_fires_runs l [] w p Hinv Hl) as (e & w' & _ & E & Hw' & Hinv' & Hk).
    exists w'. split; [done|]. apply (step_intro _ l); [done|by rewrite Hw'; right|by rewrite Hw'|done|].
    intros f d _. by apply Hk.
  - destruct (handler_step_runs alloc_array channels l [] w p Hinv) as (l' & w' & E & Hinv' & Hq & Hwk & _).
    exists w'. split; [done|]. apply (step_intro _ l'); try done; [apply Hq|]. intros f d _ _. apply Hq.
  - destruct (spoof_runs channels l [] w freq_list Hinv) as (w' & E & Hinv' & Hc & Hwk & Hk).
    exists w'. split; [done|]. apply (step_intro _ l); try done. intros f d Hs _. by apply Hk.
  - destruct (clear_runs l w Hinv) as (w' & E & Hinv' & Hwk & Hc).
    exists w'. split; [done|]. by apply (step_intro _ []).
  - destruct (work_runs alloc_array channels l w Hinv Hw) as (l' & w' & E & Hinv' & Hq & Hf).
    exists w'. split; [done|]. exists l'. split_and!; [done|by left|by rewrite (q_clock _ _ _ _ Hq)|].
    intros f d _ _. apply Hq.
  - destruct (detach_runs alloc_array channels l w Hinv Hw) as (w' & E & Hinv' & Hf & Hc & _).
    exists w'. split; [done|]. exists []. split_and!; [done|by left|by rewrite Hc|done].
Qed.

Lemma run_step l w op :
  nol_inv l [] w -> work_ok w -> legal w op -> exists w', run op w = Ret tt w' /\ step_ok l w op w'.
Proof.
  intros Hinv Hw Hl.
  assert (forall w', nol_inv l [] w' -> works w w' -> nol_clock w' = nol_clock w ->
    (forall f d, kept l f d w -> kept l f d w') -> step_ok l w op w') as Hstay.
  { intros w' Hinv' Hwk Hc Hk. by apply (step_intro _ l); auto. }
  destruct op; try (by apply run_adding); try (by apply run_removing); cbn [run_nol]; cbn [legal] in Hl.
  - eexists. split; [done|]. apply Hstay; [|by right|done|intros f d Hk; by eapply kept_frame].
    split; cbn; try apply Hinv. destruct (timeout =? 0); [unfold DFS_NOL_TIMEOUT_S; lia|done].
  - exists w. split; [|by apply Hstay; [|right| |]]. eapply bind_tt. unfold dfs_getnol.
    pose proof (list_fits channels l [] w Hinv). by apply (get_nol_eq channels l []); [|lia].
  - destruct (update_eq alloc_array channels l [] w Hinv) as (c & E & _). eexists. split; [exact E|].
    apply Hstay; [by eapply inv_frame|by right|done|]. intros f d. apply kept_clist.
  - unfold dfs_init_tmp_psoc_nol. destruct (NOL_MAX_PDEVS <? num_radios)%nat.
    { exists w. split; [done|]. by apply Hstay; [|right| |]. }
    eexists. split; [done|]. apply Hstay; [|by right|done|intros f d Hk; by eapply kept_frame].
    split; cbn; try apply Hinv. destruct (alloc_array w); [|done]. intros s [= <-]. split; [done|cbn; lia].
  - eexists. split; [done|]. apply Hstay; [|by right|done|intros f d Hk; by eapply kept_frame].
    split; cbn; try apply Hinv. done.
  - rewrite (nol_list_eq l [] w Hinv), (elems_length l [] w Hinv) in Hl. destruct Hl as [Hrun Hroom].
    destruct (save_runs channels H16 l [] w Hinv Hfew Hrun Hroom) as (s & E & Hinv' & _).
    eexists. split; [exact E|]. apply Hstay; [done|by right|done|intros f d Hk; by eapply kept_frame].
Qed.

End Step.
