(* ===== verification/NolSettle.v ===== *)
(** * Timers that are due and handlers that run

    [settle] lets the due timers of some elements go off, and their handlers run to the
    end.  For all elements, that leaves no timer that is due and no handler. *)
From S2P Require Import Prelude Nol NolInv NolRun NolFree NolAdd NolOps NolStep.

Definition due_now (w : nol_world) (p : Z) : bool :=
  match nol_mem w !! p, handler_of p (handlers w) with
  | Some e, None => match nol_timer e with Some t => t <=? nol_clock w | None => false end
  | _, _ => false
  end.

Definition run_handler (alloc_array : nol_world -> bool) (p : Z) : M nol_world unit :=
  handler_step alloc_array p;; handler_step alloc_array p.

Fixpoint settle (alloc_array : nol_world -> bool) (ps : list Z) : M nol_world unit :=
  match ps with
  | [] => mret ()
  | p :: ps =>
      run_handler alloc_array p;;
      b ← gets (fun w => due_now w p);
      (if (b : bool) then timer_fires p else mret ());;
      run_handler alloc_array p;;
      settle alloc_array ps
  end.

Definition elements_of (w : nol_world) : list Z := (map_to_list (nol_mem w)).*1.

Section Settle.
Context (alloc_array : nol_world -> bool) (channels : gset Z).
Implicit Types (w : nol_world) (l x ps : list Z) (p q f d : Z) (e : dfs_nolelem).

Abbreviation nol_inv := (NolInv.nol_inv channels).

#[local] Arguments handler_of : simpl never.

Lemma due_now_spec w p : due_now w p = true <-> due w p.
Proof.
  unfold due_now, due. split.
  - destruct (nol_mem w !! p) as [e|] eqn:He; [|done]. destruct (handler_of p (handlers w)) eqn:Hh; [done|].
    destruct (nol_timer e) as [t|] eqn:Ht; [|done]. intros Hle%Z.leb_le. by exists e, t.
  - intros (e & t & -> & -> & Hle & ->). by apply Z.leb_le.
Qed.

(** Nothing more happens to an element by itself before the clock goes on. *)
Definition settled w p : Prop :=
  handler_of p (handlers w) = None /\
  forall e t, nol_mem w !! p = Some e -> nol_timer e = Some t -> nol_clock w < t.

Lemma quiet_settled l l' w w' p : quiet l w l' w' -> settled w p -> settled w' p.
Proof.
  intros Hq [Hh Ht]. split; [by apply (q_handlers _ _ _ _ Hq)|]. intros e t He Het.
  destruct (q_timer _ _ _ _ Hq p e t He Het) as (e0 & He0 & Ht0). rewrite (q_clock _ _ _ _ Hq). eauto.
Qed.

(** What [settle] keeps. *)
Record calms l w l' w' : Prop := {
  c_clock : nol_clock w' = nol_clock w;
  c_works : works w w';
  c_kept : forall f d, nol_clock w < d -> kept l f d w -> kept l' f d w';
  c_tracked : forall f, tracked l f w -> tracked l' f w';
}.

Lemma calms_trans l1 l2 l3 w1 w2 w3 : calms l1 w1 l2 w2 -> calms l2 w2 l3 w3 -> calms l1 w1 l3 w3.
Proof.
  intros [C1 W1 K1 T1] [C2 W2 K2 T2]. split; [congruence|by eapply works_trans| |auto].
  intros f d Hd Hk. apply K2; [by rewrite C1|auto].
Qed.

Lemma quiet_calms l w l' w' : quiet l w l' w' -> works w w' -> calms l w l' w'.
Proof. intros [] Hw. split; auto. Qed.

Lemma handler_of_snoc q h hs :
  h_elem h <> q -> handler_of q (hs ++ [h]) = handler_of q hs.
Proof.
  intros Hne. unfold handler_of. induction hs as [|h' hs IH]; cbn.
  - by rewrite (proj2 (Z.eqb_neq _ _)).
  - by destruct (h_elem h' =? q).
Qed.

(** The timer goes off if it is due. *)
Lemma fire_runs l w p :
  nol_inv l [] w ->
  exists w', (if due_now w p then timer_fires p else mret ()) w = Ret tt w' /\ nol_inv l [] w' /\
    calms l w l w' /\ (forall q, settled w q -> q <> p -> settled w' q) /\
    (handler_of p (handlers w) = None ->
     forall e t, nol_mem w' !! p = Some e -> nol_timer e = Some t -> nol_clock w' < t).
Proof.
  intros Hinv. destruct (due_now w p) eqn:Hb.
  - apply due_now_spec in Hb. destruct (timer_fires_runs channels l [] w p Hinv Hb) as (e & w' & He & E & Hw' & Hinv' & Hk).
    exists w'. split_and!; [done|done| | |].
    + split; [by rewrite Hw'|by rewrite Hw'; right|done|]. rewrite Hw'.
      intros f [(q & eq & Hq & Heq & Hf)|[(h & Hh & Hhf)|Hr]]; [left|right; left|by right; right]; cbn.
      * destruct (decide (p = q)) as [->|Hne].
        -- exists q. rewrite lookup_insert_eq. eexists. split_and!; [done..|]. cbn. congruence.
        -- exists q, eq. by rewrite lookup_insert_ne.
      * exists h. split; [|done]. apply elem_of_app. by left.
    + rewrite Hw'. intros q [Hh Ht] Hne. split; cbn.
      * by rewrite handler_of_snoc by (cbn; congruence).
      * rewrite lookup_insert_ne by congruence. done.
    + rewrite Hw'. cbn. rewrite lookup_insert_eq. by intros _ ? ? [= <-].
  - exists w. split_and!; [done|done|split; auto; by right|done|].
    intros Hh e t He Ht. destruct (Z.lt_ge_cases (nol_clock w) t) as [|Hle]; [done|]. exfalso.
    assert (due_now w p = true); [|congruence]. apply due_now_spec. by exists e, t.
Qed.

(** Both parts of the handler. *)
Lemma handler_runs l w p :
  nol_inv l [] w ->
  exists l' w', run_handler alloc_array p w = Ret tt w' /\ nol_inv l' [] w' /\
    quiet l w l' w' /\ works w w' /\ handler_of p (handlers w') = None.
Proof.
  intros Hinv. destruct (handler_step_runs alloc_array channels l [] w p Hinv) as (l1 & w1 & E1 & Hinv1 & Q1 & W1 & P1).
  destruct (handler_step_runs alloc_array channels l1 [] w1 p Hinv1) as (l2 & w2 & E2 & Hinv2 & Q2 & W2 & P2).
  exists l2, w2. split_and!; [by unfold run_handler; rewrite (bind_ret _ _ _ _ _ E1)|done|by eapply quiet_trans|by eapply works_trans|].
  rewrite P1 in P2. unfold parts_left in P2.
  destruct (handler_of p (handlers w2)) as [h|]; [|done].
  destruct (handler_of p (handlers w)) as [h1|]; [destruct (h_stage h1)|]; by destruct (h_stage h).
Qed.

Lemma settle_one l w p (k : M nol_world unit) :
  nol_inv l [] w ->
  exists l' w', (run_handler alloc_array p;; b ← gets (fun w => due_now w p);
                 (if (b : bool) then timer_fires p else mret ());; run_handler alloc_array p;; k) w = k w' /\
    nol_inv l' [] w' /\ calms l w l' w' /\ forall q, settled w q \/ q = p -> settled w' q.
Proof.
  intros Hinv. destruct (handler_runs l w p Hinv) as (l1 & w1 & E1 & Hinv1 & Q1 & W1 & H1).
  destruct (fire_runs l1 w1 p Hinv1) as (w2 & E2 & Hinv2 & C2 & S2 & T2).
  destruct (handler_runs l1 w2 p Hinv2) as (l3 & w3 & E3 & Hinv3 & Q3 & W3 & H3).
  exists l3, w3. split_and!; [|done| |].
  - rewrite (bind_ret _ _ _ _ _ E1), bind_gets, (bind_ret _ _ _ _ _ E2), (bind_ret _ _ _ _ _ E3). done.
  - eapply calms_trans; [by apply quiet_calms|]. eapply calms_trans; [done|by apply quiet_calms].
  - intros q Hq. destruct (decide (q = p)) as [->|Hne].
    + split; [done|]. intros e t He Ht. destruct (q_timer _ _ _ _ Q3 p e t He Ht) as (e0 & He0 & Ht0).
      rewrite (q_clock _ _ _ _ Q3). by apply (T2 H1 e0).
    + destruct Hq as [Hq|]; [|done]. apply (quiet_settled _ _ _ _ _ Q3), S2; [|done].
      by apply (quiet_settled _ _ _ _ _ Q1).
Qed.

Lemma settle_runs ps : forall l w,
  nol_inv l [] w ->
  exists l' w', settle alloc_array ps w = Ret tt w' /\ nol_inv l' [] w' /\ calms l w l' w' /\
    forall q, settled w q \/ q ∈ ps -> settled w' q.
Proof.
  induction ps as [|p ps IH]; intros l w Hinv; cbn [settle].
  { exists l, w. split_and!; [done|done|split; auto; by right|]. intros q [Hq|Hq]; [done|].
    by apply elem_of_nil in Hq. }
  destruct (settle_one l w p (settle alloc_array ps) Hinv) as (l1 & w1 & E1 & Hinv1 & C1 & S1).
  destruct (IH l1 w1 Hinv1) as (l2 & w2 & E2 & Hinv2 & C2 & S2).
  exists l2, w2. split_and!; [by rewrite E1|done|by eapply calms_trans|].
  intros q Hq. apply S2. rewrite elem_of_cons in Hq. destruct Hq as [Hq|[->|Hq]]; auto.
Qed.

Lemma settled_elsewhere l w p : nol_inv l [] w -> settled w p \/ p ∈ elements_of w.
Proof.
  intros Hinv. destruct (nol_mem w !! p) as [e|] eqn:He.
  - right. unfold elements_of. apply list_elem_of_fmap. exists (p, e). by rewrite elem_of_map_to_list.
  - left. split; [|by rewrite He]. apply handler_of_none. intros (h & -> & Hh)%list_elem_of_fmap.
    destruct (ni_handler _ _ _ _ Hinv h Hh) as (eh & Heh & _). congruence.
Qed.

(** With every element settled, the list is of the channels whose periods go on. *)
Lemma all_settled l w :
  nol_inv l [] w -> (forall p, settled w p) ->
  handlers w = [] /\ Forall (running (nol_clock w)) (nol_list w).
Proof.
  intros Hinv Hs. assert (handlers w = []) as Hnil.
  { destruct (handlers w) as [|h hs] eqn:Hh; [done|]. destruct (Hs (h_elem h)) as [Hno _].
    rewrite Hh in Hno. unfold handler_of in Hno. cbn in Hno. by rewrite Z.eqb_refl in Hno. }
  split; [done|]. rewrite (nol_list_eq channels l [] w Hinv). apply Forall_forall.
  intros e (p & Hp & He)%elem_of_elems. destruct (ni_armed _ _ _ _ Hinv p e Hp He) as [[t Ht]|(h & Hh & _)].
  - destruct (ni_elem _ _ _ _ Hinv p e He) as [_ Htok]. destruct (Hs p) as [_ Hlt].
    unfold running. destruct (Htok t Ht); pose proof (Hlt e t He Ht); lia.
  - rewrite Hnil in Hh. by apply elem_of_nil in Hh.
Qed.

End Settle.
