(* ===== verification/NolSpec.v ===== *)
(** * What the non-occupancy list promises

    Every history of calls runs to its end and stopping leaves nothing behind
    ([nol_safe]); a channel on which radar was seen stays on the list for its period
    ([nol_channel_kept]) and not longer ([nol_expires]); the list survives a restart
    ([nol_survives_restart]). *)
From S2P Require Import Prelude Nol NolInv NolRun NolFree NolAdd NolOps NolStep NolSettle.

Section Spec.
Context (alloc : nol_world -> option Z) (alloc_array : nol_world -> bool) (is_dfs : Z -> bool).
Context (channels : gset Z).
Implicit Types (w : nol_world) (l : list Z) (f d : Z) (ops : list nol_op).

(** Memory that is handed out is free; the channels that need radar detection are few, and
    have numbers of 16 bits. *)
Record nol_env : Prop := {
  env_alloc : forall w a, alloc w = Some a -> nol_mem w !! a = None;
  env_dfs : forall f, is_dfs f = true -> f ∈ channels;
  env_16 : forall f, f ∈ channels -> in_u 16 f;
  env_few : (size channels <= DFS_CHAN_MAX)%nat;
}.

Abbreviation run := (run_nol alloc alloc_array is_dfs).
Abbreviation runs := (run_nols alloc alloc_array is_dfs).

Definition nol_ok w : Prop := exists l, nol_inv channels l [] w /\ work_ok w.

(** Nothing left from before is about to take the channel off the list. *)
Definition undisturbed f w : Prop := exists l, nol_inv channels l [] w /\ work_ok w /\ clear l f w.

(** The channel is on the list, marked, and stays until [d]. *)
Definition keeps f d w : Prop := exists l, nol_inv channels l [] w /\ work_ok w /\ kept l f d w.

(** Each call has what it relies on; each leaves the channel alone. *)
Fixpoint legals ops w : Prop :=
  match ops with
  | [] => True
  | op :: ops => legal channels w op /\ match run op w with Ret _ w' => legals ops w' | _ => True end
  end.
Fixpoint spared f d ops w : Prop :=
  match ops with
  | [] => True
  | op :: ops => spares f d w op /\ match run op w with Ret _ w' => spared f d ops w' | _ => True end
  end.

Lemma nol_start_inv : nol_inv channels [] [] nol_start.
Proof.
  split; try done.
  - apply NoDup_nil_2.
  - intros p. cbn. rewrite lookup_empty. split; [by intros [? ?]|by intros ?%elem_of_nil].
  - apply NoDup_nil_2.
  - by intros h ?%elem_of_nil.
Qed.

Lemma runs_step (Henv : nol_env) ops : forall l w,
  nol_inv channels l [] w -> work_ok w -> legals ops w ->
  exists l' w', runs ops w = Ret tt w' /\ nol_inv channels l' [] w' /\ work_ok w' /\
    nol_clock w <= nol_clock w' /\
    forall f d, spared f d ops w -> nol_clock w' < d -> kept l f d w -> kept l' f d w'.
Proof.
  destruct Henv as [Ha Hd H16 Hfew].
  induction ops as [|op ops IH]; intros l w Hinv Hw Hl; cbn [run_nols].
  { exists l, w. split_and!; [done..|lia|done]. }
  destruct Hl as [Hl Hls].
  destruct (run_step alloc alloc_array is_dfs channels Ha Hd H16 Hfew l w op Hinv Hw Hl)
    as (w1 & E1 & l1 & Hinv1 & Hw1 & Hc1 & Hk1).
  rewrite E1 in Hls. destruct (IH l1 w1 Hinv1 Hw1 Hls) as (l2 & w2 & E2 & Hinv2 & Hw2 & Hc2 & Hk2).
  exists l2, w2. split_and!; [by rewrite (bind_ret _ _ _ _ _ E1)|done|done|lia|].
  intros f d [Hs Hss] Hd' Hk. rewrite E1 in Hss. apply Hk2; [done|done|]. apply Hk1; [done|lia|done].
Qed.

(** C24: From the attached state, every history of radar reports, timers that go off,
    handlers that run in their two parts, settings, clearings, work items and restarts
    returns, as long as its calls are [legal]: a timer that goes off is due; the
    channels that are put on the list need radar detection, with periods below 2^31 ms; and
    the list is saved for a restart only when no period on it is over and the copy of 25
    entries has room for it.  (The code tests neither: it writes behind the copy when it has
    no room, and the time left of a period that is over wraps, [overdue_wraps].)  After such a
    history the counter, the links, the memory and the lists agree, no channel is on the
    list twice and each one on it has its timer armed or its handler running; and stopping
    then frees every element, with no handler left. *)
Theorem nol_safe ops :
  nol_env -> legals ops nol_start ->
  exists w, runs ops nol_start = Ret tt w /\ nol_ok w /\
  exists w', run StopNol w = Ret tt w' /\ dfs_nol w' = None /\ dfs_nol_count w' = 0 /\
             nol_mem w' = ∅ /\ handlers w' = [].
Proof.
  intros Henv Hl. destruct (runs_step Henv ops [] nol_start nol_start_inv ltac:(by left) Hl) as (l & w & E & Hinv & Hw & _).
  exists w. split_and!; [done|by exists l|].
  destruct (detach_runs alloc_array channels l w Hinv Hw) as (w' & E' & Hinv' & Hf & _).
  exists w'. split; [done|]. by eapply nothing_left.
Qed.

(** C16: When radar is seen on a channel that needs radar detection, with memory at hand
    and nothing left from an earlier stay of the channel on the list ([undisturbed]: no
    handler runs for it, and no element of it that is off the list has its timer armed),
    then after any legal calls that do not take the channel off and do not shorten its
    period, the channel is on the list and marked as unusable until the non-occupancy period
    has passed.  Without the condition this fails: radar on a listed channel does not wait
    for a handler that is running, which then ends the new period, [refresh_overtaken]. *)
Theorem nol_channel_kept f ls w :
  nol_env -> (forall w, alloc w <> None) -> undisturbed f w ->
  (length ls <= NUM_CHANNELS_160MHZ)%nat -> f ∈ ls -> f <> 0 -> is_dfs f = true ->
  exists w1, run (RadarFound ls) w = Ret tt w1 /\ forall ops,
    legals ops w1 -> spared f (radar_end w) ops w1 ->
    exists w', runs ops w1 = Ret tt w' /\
      (nol_clock w' < radar_end w -> dfs_is_freq_in_nol f w' = Ret true w' /\ f ∈ reg_nol w').
Proof.
  intros Henv Hal (l & Hinv & Hw & Hc) Hlen Hf H0 Hd. pose proof Henv as [Ha Hdfs _ _].
  destruct (radar_runs alloc alloc_array is_dfs channels Ha Hdfs l [] w ls Hinv)
    as (r & l1 & w1 & E1 & Hinv1 & _ & Hw1 & _ & Hk1).
  exists w1. split; [cbn [run_nol]; by eapply bind_tt|]. intros ops Hl Hs.
  destruct (runs_step Henv ops l1 w1 Hinv1 (works_ok _ _ Hw1 Hw) Hl) as (l2 & w2 & E2 & Hinv2 & _ & _ & Hk2).
  exists w2. split; [done|]. intros Hlt.
  pose proof (Hk2 f _ Hs Hlt (Hk1 Hal Hlen f Hf H0 Hd Hc)) as Hk.
  split; [by eapply kept_in_nol|apply Hk].
Qed.

(** C27: Once the timers that are due have gone off and their handlers have run, no
    handler is left, the list has only channels whose period is not over, a channel that
    left the list is not marked any more, and a channel that is to stay longer is still
    there. *)
Theorem nol_expires w :
  nol_ok w ->
  exists w', settle alloc_array (elements_of w) w = Ret tt w' /\ nol_ok w' /\
    nol_clock w' = nol_clock w /\ handlers w' = [] /\ Forall (running (nol_clock w')) (nol_list w') /\
    (forall e, e ∈ nol_list w -> nol_freq e ∈ nol_freq <$> nol_list w' \/ nol_freq e ∉ reg_nol w') /\
    (forall f d, nol_clock w < d -> keeps f d w -> keeps f d w').
Proof.
  intros (l & Hinv & Hw).
  destruct (settle_runs alloc_array channels (elements_of w) l w Hinv) as (l' & w' & E & Hinv' & [C W K T] & S).
  assert (handlers w' = [] /\ Forall (running (nol_clock w')) (nol_list w')) as [Hh Hrun].
  { eapply all_settled; [done|]. intros p. apply S. by eapply settled_elsewhere. }
  exists w'. split_and!; [done|exists l'; eauto using works_ok|done|done|done| |].
  - intros e He. rewrite (nol_list_eq channels l [] w Hinv) in He. apply elem_of_elems in He as (p & Hp & He).
    destruct (T (nol_freq e)) as [(q & e' & Hq & He' & Hf)|[(h & Hin & _)|Hr]]; [left; by exists p, e| | |by right].
    + left. rewrite <- Hf. apply list_elem_of_fmap_2. rewrite (nol_list_eq channels l' [] w' Hinv').
      apply elem_of_elems. by exists q.
    + rewrite Hh in Hin. by apply elem_of_nil in Hin.
  - intros f d Hd (lk & Hinvk & _ & Hk).
    destruct (settle_runs alloc_array channels (elements_of w) lk w Hinvk) as (l2 & w2 & E2 & Hinv2 & [_ W2 K2 _] & _).
    assert (w2 = w') as -> by congruence. exists l2. eauto using works_ok.
Qed.

(** ** Restart *)

Lemma freqs_nodup l x w : nol_inv channels l x w -> NoDup (nol_freq <$> elems (nol_mem w) l).
Proof.
  intros Hinv. assert (forall l0, (forall p, p ∈ l0 -> p ∈ l) -> NoDup l0 -> NoDup (nol_freq <$> elems (nol_mem w) l0))
    as H; [|apply H; [done|by eapply inv_nodup_list]].
  induction l0 as [|p l0 IH]; intros Hsub Hnd; [apply NoDup_nil_2|]. apply NoDup_cons in Hnd as [Hp Hnd].
  destruct (inv_elem _ _ _ _ p Hinv) as [e He]; [apply Hsub; by left|].
  unfold elems. cbn [omap list_omap]. rewrite He. cbn [fmap list_fmap]. apply NoDup_cons. split.
  - intros (e' & Hf & (q & Hq & He')%elem_of_elems)%list_elem_of_fmap. apply Hp.
    assert (p = q) as ->; [|done]. apply (ni_freqs _ _ _ _ Hinv p q e e'); try done; apply Hsub; [by left|by right].
  - apply IH; [|done]. intros q Hq. apply Hsub. by right.
Qed.

(** What the saved list has of an element. *)
Lemma saved_of (H16 : forall f, f ∈ channels -> in_u 16 f) l x w :
  nol_inv channels l x w -> Forall (running (nol_clock w)) (elems (nol_mem w) l) ->
  let s := paused (nol_clock w) <$> (req_of <$> elems (nol_mem w) l) in
  NoDup (req_freq <$> s) /\ forall e, e ∈ elems (nol_mem w) l -> exists r, r ∈ s /\
    req_freq r = nol_freq e /\ req_timeout_ms r = left_ms (nol_clock w) e /\ 0 < left_ms (nol_clock w) e.
Proof.
  intros Hinv Hrun s.
  assert (forall e, e ∈ elems (nol_mem w) l -> req_freq (paused (nol_clock w) (req_of e)) = nol_freq e /\
    req_timeout_ms (paused (nol_clock w) (req_of e)) = left_ms (nol_clock w) e /\ 0 < left_ms (nol_clock w) e) as H.
  { intros e He. pose proof He as (p & Hp & Hpe)%elem_of_elems. destruct (ni_elem _ _ _ _ Hinv p e Hpe) as [Hok _].
    rewrite Forall_forall in Hrun. destruct (paused_req channels H16 _ e Hok (Hrun e He)) as [-> Hl]. cbn.
    split_and!; [done|done|lia]. }
  split.
  - assert (req_freq <$> s = nol_freq <$> elems (nol_mem w) l) as ->; [|by eapply freqs_nodup].
    unfold s. rewrite <- !list_fmap_compose. apply list_fmap_ext. intros i e Hi. cbn.
    apply (H e). by eapply list_elem_of_lookup_2.
  - intros e He. eexists. split; [|exact (H e He)]. unfold s. by apply list_elem_of_fmap_2, list_elem_of_fmap_2.
Qed.

(** C25: When no period on the list is over, and it is saved, the device stopped, and the
    list set again from the copy after any time, with memory at hand, each channel of the
    new band is on the list and marked again, and its timer does not go off before what was
    left of its period, in whole seconds, has passed.  A channel with less than a second
    left is put back too, with a period of zero, so that nothing is promised beyond its
    being put back: its timer is due at once ([last_second_lost]);
    for a period that is over, which is not covered, the code keeps a time left of some
    49 days ([overdue_wraps]). *)
Theorem nol_survives_restart w low high t n :
  nol_env -> (n <= NOL_MAX_PDEVS)%nat -> (forall w, alloc w <> None) -> (forall w, alloc_array w = true) -> nol_ok w ->
  Forall (running (nol_clock w)) (nol_list w) -> 0 <= t ->
  exists w', runs [InitPsoc n; SaveInPsoc; StopNol; Tick t; ReinitFromPsoc low high] w = Ret tt w' /\
    nol_clock w' = nol_clock w + t /\
    forall e, e ∈ nol_list w -> low < nol_freq e < high ->
      keeps (nol_freq e) (nol_clock w' + left_ms (nol_clock w) e / 1000 * 1000 * 1000) w' /\
      dfs_is_freq_in_nol (nol_freq e) w' = Ret true w' /\ nol_freq e ∈ reg_nol w'.
Proof.
  intros [Ha Hd H16 Hfew] Hn%Nat.ltb_ge Hal Harr (l & Hinv & Hw) Hrun Ht. rewrite (nol_list_eq channels l [] w Hinv) in *.
  set (w1 := set_psoc_nol (Some []) w).
  assert (nol_inv channels l [] w1) as Hinv1.
  { split; cbn; try apply Hinv. intros s [= <-]. split; [done|cbn; lia]. }
  assert (dfs_init_tmp_psoc_nol alloc_array n w = Ret tt w1) as E1.
  { unfold dfs_init_tmp_psoc_nol. by rewrite Hn, bind_gets, Harr. }
  destruct (save_runs channels H16 l [] w1 Hinv1 Hfew Hrun) as (s2 & E2 & Hinv2 & Hs2).
  { intros s [= <-]. pose proof (list_fits channels l [] w Hinv). cbn. lia. }
  set (w2 := set_psoc_nol s2 w1) in *. cbn in Hs2.
  destruct (detach_runs alloc_array channels l w2 Hinv2 Hw) as (w3 & E3 & Hinv3 & Hf3 & Hc3 & Hp3).
  pose proof (tick_runs channels [] [] w3 t Hinv3 Ht) as Hinv4. set (w4 := set_clock (nol_clock w3 + t) w3) in *.
  destruct (reinit_runs alloc alloc_array channels Ha [] [] w4 low high Hinv4)
    as (l5 & w5 & E5 & Hinv5 & Hc5 & Hw5 & _ & Hk5).
  assert (nol_clock w5 = nol_clock w + t) as Hclock by (rewrite Hc5; cbn; by rewrite Hc3).
  assert (work_ok w5) as Hok5 by (eapply works_ok; [done|by left]).
  exists w5. split_and!; [|done|].
  - cbn [run_nols run_nol]. rewrite (bind_ret _ _ _ _ _ E1), (bind_ret _ _ _ _ _ E2), (bind_ret _ _ _ _ _ E3), bind_modify. fold w4.
    by rewrite (bind_ret _ _ _ _ _ E5).
  - intros e He Hband. destruct (saved_of H16 l [] w Hinv Hrun) as [Hnd Hsaved].
    destruct (Hsaved e He) as (r & Hr & Hfr & Htr & Hpos).
    destruct (nothing_left channels w3 Hinv3 Hf3) as (_ & _ & Hm3 & Hh3).
    assert (kept l5 (nol_freq e) (nol_clock w5 + left_ms (nol_clock w) e / 1000 * 1000 * 1000) w5) as Hk.
    { rewrite Hc5, <- Htr, <- Hfr. eapply Hk5; [done|cbn; rewrite Hp3; exact Hs2|done|done| | |lia].
      - unfold within. rewrite Hfr. apply andb_true_intro. split; apply Z.ltb_lt; lia.
      - split; cbn; [rewrite Hh3; by intros h ?%elem_of_nil|]. intros p e' _. by rewrite Hm3, lookup_empty. }
    split_and!; [by exists l5|by eapply kept_in_nol|apply Hk].
Qed.

End Spec.

(** ** Examples *)

(** The address after the last one in use. *)
Definition next_address (w : nol_world) : option Z :=
  Some (Z.succ (foldr Z.max 0 (map_to_list (nol_mem w)).*1)).

Lemma next_address_free w a : next_address w = Some a -> nol_mem w !! a = None.
Proof.
  intros [= <-]. destruct (nol_mem w !! _) as [e|] eqn:He; [|done]. exfalso.
  set (ks := (map_to_list (nol_mem w)).*1) in He.
  assert (Z.succ (foldr Z.max 0 ks) ∈ ks) as Hin.
  { apply list_elem_of_fmap. eexists (_, e). split; [|by apply elem_of_map_to_list]. done. }
  assert (forall k, k ∈ ks -> k <= foldr Z.max 0 ks) as Hmax.
  { clear. induction ks as [|k' ks IH]; intros k Hk; [by apply elem_of_nil in Hk|].
    cbn. apply elem_of_cons in Hk as [->|Hk]; [|specialize (IH k Hk)]; lia. }
  specialize (Hmax _ Hin). lia.
Qed.

Definition two_channels (f : Z) : bool := (f =? 5260) || (f =? 5280).

Lemma example_env : nol_env next_address two_channels {[5260; 5280]}.
Proof.
  split.
  - exact next_address_free.
  - intros f [->%Z.eqb_eq| ->%Z.eqb_eq]%orb_true_iff; set_solver.
  - intros f [->%elem_of_singleton| ->%elem_of_singleton]%elem_of_union; unfold in_u; lia.
  - vm_compute. lia.
Qed.

Definition example_run := run_nol next_address (fun _ => true) two_channels.
Definition example_runs := run_nols next_address (fun _ => true) two_channels.

(** Radar on both channels; half an hour later the first timer goes off, and its handler is
    overtaken by another radar report. *)
Definition example_history : list nol_op :=
  [RadarFound [5260; 5280]; Tick (1800 * 1000000); TimerFires 1; RadarFound [5260];
   HandlerStep 1; HandlerStep 1; FreeWork].

(** A test of the steps that the examples take. *)
Definition step_fits (w : nol_world) (op : nol_op) : bool :=
  match op with
  | Tick t => 0 <=? t
  | TimerFires p => due_now w p
  | HandlerStep _ | RadarFound _ | FreeWork => true
  | _ => false
  end.
Fixpoint steps_fit (ops : list nol_op) (w : nol_world) : bool :=
  match ops with
  | [] => true
  | op :: ops =>
      step_fits w op && match example_run op w with Ret _ w' => steps_fit ops w' | _ => true end
  end.

Lemma steps_legal ops : forall w,
  steps_fit ops w = true ->
  legals next_address (fun _ => true) two_channels {[5260; 5280]} ops w.
Proof.
  induction ops as [|op ops IH]; intros w; [done|]. cbn [steps_fit legals]. unfold example_run.
  intros [Hop Hops]%andb_true_iff. split.
  - destruct op; try done; cbn in Hop; [by apply Z.leb_le|by apply due_now_spec].
  - destruct (run_nol _ _ _ op w); [by apply IH|done|done].
Qed.

Lemma nol_safe_witness :
  exists w w', example_runs example_history nol_start = Ret tt w /\
    example_run StopNol w = Ret tt w' /\ nol_mem w' = ∅.
Proof.
  destruct (nol_safe next_address (fun _ => true) two_channels {[5260; 5280]} example_history example_env)
    as (w & E & _ & w' & E' & _ & _ & Hm & _).
  { apply steps_legal. vm_compute. reflexivity. }
  exists w, w'. split; [exact E|]. split; [exact E'|exact Hm].
Defined.

Lemma start_undisturbed f : undisturbed {[5260; 5280]} f nol_start.
Proof.
  exists []. split; [apply nol_start_inv|]. split; [by left|]. split.
  - by intros h ?%elem_of_nil.
  - intros p e _. cbn. by rewrite lookup_empty.
Qed.

Definition other_radar : list nol_op :=
  [Tick 1000000; RadarFound [5280]; HandlerStep 1; Tick 1000000].

Lemma other_radar_spares w1 d : spared next_address (fun _ => true) two_channels 5260 d other_radar w1.
Proof.
  cbn [other_radar spared spares]. split; [done|]. destruct (run_nol _ _ _ (Tick _) w1); [|done..].
  split; [by intros ?%list_elem_of_singleton|]. destruct (run_nol _ _ _ (RadarFound _) s); [|done..].
  split; [done|]. destruct (run_nol _ _ _ (HandlerStep _) s0); [|done..].
  split; [done|]. by destruct (run_nol _ _ _ (Tick _) s1).
Qed.

Lemma nol_channel_kept_witness :
  exists w1 w', example_run (RadarFound [5260]) nol_start = Ret tt w1 /\
    example_runs other_radar w1 = Ret tt w' /\ dfs_is_freq_in_nol 5260 w' = Ret true w'.
Proof.
  destruct (nol_channel_kept next_address (fun _ => true) two_channels {[5260; 5280]} 5260 [5260] nol_start
    example_env ltac:(discriminate) (start_undisturbed 5260)) as (w1 & E1 & H).
  { by apply Nat.leb_le. }
  { left. }
  { discriminate. }
  { reflexivity. }
  fold (example_run (RadarFound [5260])) in E1.
  assert (steps_fit (RadarFound [5260] :: other_radar) nol_start = true) as Hfit by (vm_compute; reflexivity).
  assert (match example_runs (RadarFound [5260] :: other_radar) nol_start with
          | Ret _ w' => nol_clock w' <? radar_end nol_start | _ => false end = true) as Hclock
    by (vm_compute; reflexivity).
  unfold example_runs in Hclock. cbn [run_nols] in Hclock. fold (example_run (RadarFound [5260])) in Hclock.
  rewrite (bind_ret _ _ _ _ _ E1) in Hclock. cbn [steps_fit step_fits andb] in Hfit. rewrite E1 in Hfit.
  destruct (H other_radar (steps_legal _ _ Hfit) (other_radar_spares _ _)) as (w' & E & Hw').
  rewrite E in Hclock. apply Z.ltb_lt in Hclock.
  exists w1, w'. split; [exact E1|]. split; [exact E|apply Hw', Hclock].
Defined.

(** *** A restart *)

Definition one_channel : nol_world :=
  match example_run (RadarFound [5260]) nol_start with Ret _ w => w | _ => nol_start end.

Lemma one_channel_ok : nol_ok {[5260; 5280]} one_channel.
Proof.
  destruct (runs_step next_address (fun _ => true) two_channels {[5260; 5280]} example_env [RadarFound [5260]] []
    nol_start (nol_start_inv _) ltac:(by left)) as (l & w & E & Hinv & Hw & _).
  { apply steps_legal. vm_compute. reflexivity. }
  cbn [run_nols] in E. unfold one_channel. unfold example_run.
  destruct (run_nol _ _ _ (RadarFound [5260]) nol_start) as [[] w1| |] eqn:E1; [|discriminate..].
  rewrite (bind_ret _ _ _ _ _ E1) in E. injection E as ->. by exists l.
Qed.

(** The channel has 1800 seconds left when the list is saved. *)
Lemma nol_survives_restart_witness :
  exists w', example_runs [InitPsoc 1; SaveInPsoc; StopNol; Tick 5000000; ReinitFromPsoc 5000 6000] one_channel =
      Ret tt w' /\ nol_clock w' = 5000000 /\ keeps {[5260; 5280]} 5260 1805000000 w'.
Proof.
  destruct (nol_survives_restart next_address (fun _ => true) two_channels {[5260; 5280]} one_channel 5000 6000 5000000 1
    example_env ltac:(by apply Nat.leb_le) ltac:(discriminate) ltac:(reflexivity) one_channel_ok) as (w' & E & Hc & Hk).
  { assert (forallb (fun e => nol_clock one_channel <? nol_end e) (nol_list one_channel) = true) as Hb
      by (vm_compute; reflexivity).
    apply Forall_forall. intros e He%list_elem_of_In. apply Z.ltb_lt.
    by apply (proj1 (forallb_forall _ _) Hb). }
  { lia. }
  assert (nol_clock one_channel = 0) as H0 by (vm_compute; reflexivity). rewrite H0 in Hc.
  exists w'. split; [exact E|]. split; [exact Hc|].
  assert (nol_list one_channel = [Nolelem 5260 CH_WIDTH 0 1800000 (Some 1800000000) None]) as Hl
    by (vm_compute; reflexivity).
  destruct (Hk (Nolelem 5260 CH_WIDTH 0 1800000 (Some 1800000000) None)) as [Hkeep _].
  - rewrite Hl. left.
  - cbn. lia.
  - rewrite Hc, H0 in Hkeep. exact Hkeep.
Defined.

(** *** After the period *)

Lemma nol_expires_witness :
  exists w', settle (fun _ => true) (elements_of one_channel) one_channel = Ret tt w' /\ handlers w' = [].
Proof.
  destruct (nol_expires (fun _ => true) {[5260; 5280]} one_channel one_channel_ok) as (w' & E & _ & _ & Hh & _).
  exists w'. split; [exact E|exact Hh].
Defined.

(** ** Races and roundings *)

(** A refresh stops the timer without waiting for its handler: the handler then takes the
    channel off in the new period, and its mark with it. *)
Lemma refresh_overtaken :
  match example_runs [RadarFound [5260]; Tick (1800 * 1000000); TimerFires 1; RadarFound [5260];
                      HandlerStep 1; HandlerStep 1] nol_start with
  | Ret _ w => nol_list w = [] /\ reg_nol w = ∅ /\ Forall (running (nol_clock w)) (snd <$> map_to_list (nol_mem w))
  | _ => False
  end.
Proof. vm_compute. split_and!; [done..|]. repeat constructor. Qed.

(** The copy of an element whose period is over has a remaining time of some 49 days. *)
Lemma overdue_wraps :
  req_timeout_ms (paused 1801000000 (ReqElem 5260 20 0 1800000)) = 2 ^ 32 - 1000.
Proof. vm_compute. done. Qed.

(** A period that ends within a second is over when it is set again. *)
Lemma last_second_lost :
  match example_runs [SetNol [ReqElem 5260 20 0 999] 1] nol_start with
  | Ret _ w => nol_timeout_ms <$> nol_list w = [0]
  | _ => False
  end.
Proof. vm_compute. done. Qed.
